(* ===== verification/_CoqProject ===== *)
-Q . S2P
Prelude.v
PyStr.v
Base64.v
Utf8.v
Datetime.v
Json.v
JsonText.v
Errors.v
External.v
Assertion.v
Models.v
Uuid.v
Url.v
Signature.v
SecretBox.v
Signing.v
Idempotency.v
Throttle.v
PortalAuth.v
AssertionKeys.v
Hostname.v
EdgeSettings.v
Egress.v
Dns.v
DnsSetup.v
Discovery.v
Sample.v
Schemas.v
Webhooks.v
Delivery.v
DeliveryProps.v
Limits.v
OperatorToken.v
Domains.v
DomainFacts.v
DomainInv.v
ConnectFlow.v
ConnectSessions.v
DnsChecks.v
DnsSettings.v
EdgeChecks.v
Applications.v
Deps.v
Api.v
ConnectPage.v
EdgeConfig.v
EdgeProbe.v
Sdk.v
SdkModels.v
SdkClient.v
Traffic.v
Operator.v
Legacy.v
Doctor.v
LegacyCaddy.v
Presenters.v
Reconcile.v
Portal.v
Internal.v
Gateway.v
SdkProps.v
Worker.v
Cli.v
Frames.v
Lifecycle.v
Surface.v
Stepwise.v
History.v
GatewayAccepts.v
ReconcileProps.v
Demo.v
EdgeDemo.v
SurfaceDemo.v
LifecycleProps.v
DomainProps.v
LimitProps.v
SdkApi.v
ChecksProps.v
ApplicationProps.v
SdkDemo.v
