(* ===== verification/Prelude.v ===== *)
(** * Custom Domain: a verified model of the service

    Custom Domain lets the customers of multi-tenant applications use their own
    hostnames.  An application registers a hostname (domain); the customer publishes
    an ownership TXT record and a CNAME; a worker checks DNS, then the edge's
    certificate and the application's origin; a ready hostname is routed by a Caddy
    edge to the origin with a signed assertion saying whose request it is; events
    go out as signed webhooks.  An application wraps itself in the Python SDK's middleware
    and calls the service with its client.  The sources are under src/app/ and
    src/sdk/custom_domain/ (named without that prefix below); this development models
    them in Rocq and proves what makes them correct.

    ** How the model is made

    A SQLAlchemy session is a state monad with exceptions over a record of finite
    maps, one per table ([SM] in this file, [Db] and [M] in Models.v): [flush] is
    a write to the record, a raise keeps what was flushed, [savepoint] and
    [transaction] roll it back.  A row is found by its primary key and an object of
    the source is that key.  Instants are microseconds; durations are [hours] and
    [days] of them; [utcnow()] reads [db_clock], and uuids and random tokens are drawn
    from a counter ([fresh]).  Strings are byte strings; a Python [dict] that is JSON
    is the list of its items (Json.v).  What comes from packages and the operating
    system (idna, the Public Suffix List, ipaddress, HMAC, HKDF, AES-GCM, the resolver,
    TLS probes, sockets, the environment) is a field of the class [External]
    (External.v) or a record argument ([Resolver], [EdgeProber], [ProbeWire], [Wire],
    [Transport], the network of the SDK's client);
    the laws a theorem needs of them are the classes [PslLaw], [IdnaLaws], [IpLaw],
    [FreshTokens], [AeadLaws], [MacLaw] and [PydanticLaw].  Sample.v gives concrete functions that satisfy all
    of them; every property with a hypothesis has a witness that runs on it.

    ** Parts

    - Foundations: PyStr.v (str methods), Base64.v, Utf8.v, Uuid.v, Url.v, Datetime.v
      (isoformat and fromisoformat), Json.v and JsonText.v (json.dumps, json.loads),
      Errors.v (services/errors.py, v1/errors.py), External.v, Models.v (models/).
    - Names and DNS: Hostname.v (hostname.py), Dns.v (dns/resolver.py, zones.py,
      providers.py), DnsSettings.v (dns/settings.py, the choice of the
      resolver), DnsSetup.v (services/dns_setup.py, signer configuration),
      Discovery.v, Signing.v and ConnectFlow.v
      (services/domain_connect.py, dns/domain_connect.py, dns/signing.py: discovery,
      apply links, their signature, the sealed state and the return).
    - Domains: Domains.v (services/domains.py), Limits.v (services/limits.py,
      edge/lock.py), DnsChecks.v and EdgeChecks.v (services/dns_checks.py,
      edge_checks.py), EdgeProbe.v (edge/probe.py, SystemEdgeProber),
      Worker.v (dns/worker.py), Schemas.v (v1/schemas.py),
      Idempotency.v (services/idempotency.py).
    - Applications: Applications.v (services/applications.py), AssertionKeys.v
      (services/assertion_keys.py), Egress.v (services/origin_verification.py),
      SecretBox.v (services/secret_box.py), Legacy.v (legacy.py), LegacyCaddy.v (api.py,
      security.py, caddy/: the deprecated API the import takes over from), OperatorToken.v and
      Traffic.v (services/operator_token.py, traffic.py, edge/traffic.py).
    - Webhooks: Webhooks.v (services/webhooks.py), Signature.v and Delivery.v
      (webhooks/signature.py, webhooks/worker.py).
    - The edge: EdgeSettings.v, EdgeConfig.v, Gateway.v, Assertion.v, Reconcile.v
      (edge/settings.py, config.py, gateway.py, assertion.py, reconcile.py,
      caddy_client.py), Internal.v (v1/internal.py).
    - HTTP: Throttle.v and Deps.v (v1/throttle.py, v1/deps.py, clients.py), Api.v
      (v1/router.py, v1/webhooks_api.py), Operator.v (operator/), ConnectSessions.v and
      ConnectPage.v (services/connect_sessions.py, connect/), PortalAuth.v, Presenters.v
      and Portal.v (portal/), Doctor.v (services/doctor.py).
    - The command line: Cli.v (cli.py, db/session.py).
    - The SDK: Sdk.v (assertion.py, webhooks.py, middleware.py), SdkModels.v (models.py),
      SdkClient.v (errors.py, client.py).
    - The whole: Lifecycle.v gathers every committed operation; Surface.v every request,
      command and background run.

    Who calls whom: Domains.v records events through Webhooks.v and checks limits
    through Limits.v; Worker.v runs DnsChecks.v and EdgeChecks.v in leased
    transactions; EdgeConfig.v reads Domains.v and Applications.v and pins addresses
    through Egress.v; Reconcile.v sends what EdgeConfig.v builds through Gateway.v, which
    validates it against what Internal.v says; Internal.v answers the edge with
    Assertion.v, AssertionKeys.v and EdgeConfig.v; Api.v, Operator.v, ConnectPage.v and
    Portal.v run the services behind the gates of Deps.v, OperatorToken.v,
    ConnectSessions.v and PortalAuth.v; Cli.v runs them behind no gate.  At the origin,
    Sdk.v checks what Internal.v signed and Delivery.v sent, EdgeProbe.v asks its
    middleware for the workspace, and SdkClient.v calls Api.v.

    ** What is proved

    - Invariants (DomainInv.v, Frames.v, Lifecycle.v, Stepwise.v,
      History.v, LifecycleProps.v): [Op] is every committed operation of the API, the
      operator, the importer and the worker, with stale observations; after any history no
      two live domains share a hostname, a domain has one live claim, every stored
      hostname is canonical, every claim and check has its domain and every domain its
      application, a deleted domain has no live claim, and a ready one has a
      verified claim and passing checks; the event log only grows; domains never change
      application; every verified claim was proved by DNS.
    - Refinement (Surface.v): whatever requests are served, whatever commands are run and
      whatever the workers and the reconciler do, with anything committed in between,
      the database ends where such a history ends.
    - Domains and limits (DomainFacts.v, DomainProps.v, LimitProps.v): what
      each operation does on every branch, which error a conflict gives, limits, retry times, pages and purges.
    - Checks (ChecksProps.v): published DNS verifies, passing edge checks make
      ready, stale observations are discarded, the grace before suspension.
    - Applications (ApplicationProps.v, AssertionKeys.v, SecretBox.v, Egress.v):
      credentials, origins, key hand-over, encryption, connections to public addresses.
    - Deliveries (Signature.v, DeliveryProps.v): leases, at most eight attempts, what is
      sent verifies at the consumer and only goes to public addresses.
    - The edge (Assertion.v, Internal.v, Gateway.v, GatewayAccepts.v,
      ReconcileProps.v): who gets an assertion and that it verifies; what the gateway
      accepts is safe; what the reconciler builds is accepted and ends up running; probes
      reach public addresses only and fail with a code, but for one error of the TLS
      handshake (EdgeProbe.v).
    - The SDK (Sdk.v, SdkProps.v, SdkClient.v, SdkApi.v): its checks decide as
      the service's own do; the middleware lets nothing through that the edge did not
      assert; a request the edge asserts reaches its workspace, and such an application
      passes the origin check; a delivery is accepted and read as what was sent; a call
      ends within its retries; a create repeated over a network that loses answers
      registers one domain; going through the pages yields every domain once.
    - The command line (Cli.v, DnsSettings.v): a command refused with exit code 2 changes
      nothing; local verification mode finds exactly the records issued.
    - The cut-over (LegacyCaddy.v): whatever Caddy answers, the file the deprecated API
      saves is read by the import as exactly the hostnames wanted; only a refused read of
      Caddy's configuration leaves the old file.
    - HTTP (Throttle.v, Deps.v, Api.v, Operator.v, ConnectSessions.v, ConnectPage.v,
      PortalAuth.v, Portal.v, Presenters.v, Doctor.v): who may do what, isolation of
      applications, failed attempts in a window, idempotent creates, sealed states that
      always open again, what a link or a form may change, what a clean report means.
    Demo.v, EdgeDemo.v, SurfaceDemo.v and SdkDemo.v run sample histories,
    requests, commands and an application behind the edge; the witnesses of the properties
    start from their states.

    ** Bounds and fuel

    [cname_chain] follows at most eight links, as the source does; [walk_up] and the
    JSON reader recurse on the text (the reader's fuel is the length of the
    document, and [loads_dumps_sorted] shows it is enough for every document that is
    written).  Integers are Python's: unbounded.  Loops over rows and lists are
    structural.  The client's loop counts its attempts down as the source does; the
    endless generator of its pages takes a number of pages, and
    [iteration_lists_every_domain] says how many are enough.  No loop of the model runs
    out of fuel silently.

    ** Not modelled

    English messages of errors (the SDK's and the probes' are modelled); logging and
    metrics; what templates render; the command line's argument parser and its [db upgrade],
    [db downgrade], [edge gateway], [dev demo] and [openapi export] commands; backup (runs
    pg_dump), migrations and process set-up (FastAPI wiring, engine creation); the
    endless loops around the workers' passes; OpenAPI examples; the TypeScript SDK, the MCP server and
    the sample applications, which pass arguments to the HTTP API; the SDK's User-Agent
    and the text it renders for DNS records.  A prober that raises something else than
    [EdgeProbeFailed] into the worker is not composed with it: EdgeProbe.v shows when
    that happens.  JSON
    floats: a domain's metadata may hold them (MetadataValue in v1/schemas.py), so the
    model covers domains whose metadata has strings, integers, booleans and nulls only, and
    [loads] reads no document with a fraction or an exponent, where Python reads a
    float; everything else the service writes is without them.  A transaction is atomic: concurrency
    is interleaving of transactions, as the locks and constraints of the source provide;
    where the source leaves its transaction (Worker.v, Delivery.v) what others commit in
    between is an argument. *)

From stdpp Require Import base gmap strings list fin_maps countable sorting.
From Stdlib Require Import ZArith Lia.

#[global] Set Default Goal Selector "!".

(** ** Results and the session monad *)

(** The outcome of a Python call: a value or a raised exception. *)
Inductive res (E A : Type) : Type :=
| Ok (a : A)
| Err (e : E).
Arguments Ok {E A} _.
Arguments Err {E A} _.

(** A computation on a session: it reads and writes a state [S] and returns or
    raises.  The state at the raise is kept, as a SQLAlchemy session keeps what
    it has flushed until somebody rolls back. *)
Definition SM (S E A : Type) : Type := S -> res E A * S.

#[global] Instance SM_ret {S E} : MRet (SM S E) := fun A a s => (Ok a, s).
#[global] Instance SM_bind {S E} : MBind (SM S E) := fun A B k m s =>
  match m s with
  | (Ok a, s') => k a s'
  | (Err e, s') => (Err e, s')
  end.

#[global] Instance res_ret {E} : MRet (res E) := fun A a => Ok a.
#[global] Instance res_bind {E} : MBind (res E) := fun A B k r =>
  match r with Ok a => k a | Err e => Err e end.
(** [None] raised as [e]. *)
Definition require {E A} (o : option A) (e : E) : res E A :=
  match o with Some a => Ok a | None => Err e end.

Section Combinators.
Context {S E : Type}.

Definition raise {A} (e : E) : SM S E A := fun s => (Err e, s).
Definition get : SM S E S := fun s => (Ok s, s).
Definition gets {A} (f : S -> A) : SM S E A := fun s => (Ok (f s), s).
Definition modify (f : S -> S) : SM S E unit := fun s => (Ok tt, f s).
Definition lift {A} (r : res E A) : SM S E A := fun s => (r, s).
Definition need {A} (o : option A) (e : E) : SM S E A :=
  match o with Some a => mret a | None => raise e end.
Definition guard_ (b : bool) (e : E) : SM S E unit :=
  if b then mret tt else raise e.

(** [with session.begin_nested()]: what the block wrote is undone when it raises. *)
Definition savepoint {A} (m : SM S E A) : SM S E A := fun s =>
  match m s with
  | (Ok a, s') => (Ok a, s')
  | (Err e, _) => (Err e, s)
  end.

(** One request's transaction: committed on return, rolled back when it raises. *)
Definition transaction {A} (m : SM S E A) : SM S E A := savepoint m.

(** [try: m except h]: [h] decides from the exception and goes on in the state of the raise. *)
Definition catch {A} (m : SM S E A) (h : E -> SM S E A) : SM S E A := fun s =>
  match m s with
  | (Ok a, s') => (Ok a, s')
  | (Err e, s') => h e s'
  end.

(** [for x in xs: f(x)] *)
Fixpoint for_each {X} (xs : list X) (f : X -> SM S E unit) : SM S E unit :=
  match xs with
  | [] => mret tt
  | x :: xs => _ ← f x; for_each xs f
  end.
End Combinators.

(** ** Record update

    [r <| f := v |>] is [r] with field [f] replaced; a record becomes updatable
    by an instance of [Settable] that rebuilds it from its projections. *)

Class Settable (T : Type) : Type := rebuild : T -> T.
Class Setter {T F : Type} (proj : T -> F) : Type := over : (F -> F) -> T -> T.
Arguments over {T F} proj {_} f r.
#[global] Hint Mode Setter - - ! : typeclass_instances.

Ltac derive_setter :=
  lazymatch goal with
  | |- @Setter ?T ?F ?proj =>
      let e := eval hnf in (rebuild (T := T)) in
      lazymatch eval pattern proj in e with
      | ?g _ => let r := eval cbv beta in (fun (f : F -> F) => g (fun x : T => f (proj x))) in
                exact r
      end
  end.
#[global] Hint Extern 1 (Setter _) => derive_setter : typeclass_instances.

Declare Scope record_scope.
Delimit Scope record_scope with record.
Notation "r <| f := v |>" := (over f (fun _ => v) r)
  (at level 1, f at level 99, v at level 200, left associativity,
   format "r  <|  f  :=  v  |>") : record_scope.
Notation "r <| f ::= g |>" := (over f g r)
  (at level 1, f at level 99, g at level 200, left associativity,
   format "r  <|  f  ::=  g  |>") : record_scope.
Open Scope record_scope.

(** Compute the projections of updated records. *)
Ltac simpl_over_term t :=
  let t1 := eval cbv beta delta [over] in t in
  let t' := eval simpl in t1 in
  progress change t with t' in *.
Ltac simpl_over :=
  repeat match goal with
  | |- context [?p (@over ?T ?F ?q ?i ?f ?r)] =>
      simpl_over_term (p (@over T F q i f r))
  | H : context [?p (@over ?T ?F ?q ?i ?f ?r)] |- _ =>
      simpl_over_term (p (@over T F q i f r))
  end.

(** ** Time

    Instants and intervals are whole microseconds, the resolution of Python's
    [datetime] and [timedelta]. *)
Definition seconds (n : Z) : Z := n * 1000000.
Definition minutes (n : Z) : Z := seconds (n * 60).
Definition hours (n : Z) : Z := minutes (n * 60).
Definition days (n : Z) : Z := hours (n * 24).

(** [math.ceil(delta.total_seconds())] *)
Definition ceil_seconds (d : Z) : Z := - ((- d) / 1000000).

(** The first row of an [ORDER BY ... LIMIT 1]. *)
Lemma head_merge_sort {A} (R : A -> A -> Prop) `{!RelDecision R, !Total R, !Transitive R} (l : list A) x :
  head (merge_sort R l) = Some x -> x ∈ l /\ forall y, y ∈ l -> R x y.
Proof.
  intros Hh. pose proof (StronglySorted_merge_sort R l) as Hs.
  pose proof (merge_sort_Permutation R l) as Hp.
  destruct (merge_sort R l) as [|z m]; [done|]. injection Hh as ->. split.
  - rewrite <- Hp. by left.
  - intros y Hy. rewrite <- Hp in Hy. apply elem_of_cons in Hy as [->|Hy].
    + by destruct (total R x x).
    + apply StronglySorted_inv in Hs as [_ Hx]. rewrite Forall_forall in Hx. by apply Hx.
Qed.
Lemma head_merge_sort_None {A} (R : A -> A -> Prop) `{!RelDecision R} (l : list A) :
  head (merge_sort R l) = None -> l = [].
Proof.
  intros Hh. pose proof (merge_sort_Permutation R l) as Hp.
  destruct (merge_sort R l); [by apply Permutation_nil in Hp|done].
Qed.

(** ** Reasoning about computations *)

Section Laws.
Context {S E : Type}.
Implicit Types s : S.

(** A run known by its value is that value with the state it leaves. *)
Lemma value_run {A} (m : SM S E A) s r : (m s).1 = r -> m s = (r, (m s).2).
Proof. destruct (m s). by intros <-. Qed.

Lemma bind_run {A B} (m : SM S E A) (k : A -> SM S E B) s :
  (m ≫= k) s = match m s with (Ok a, s') => k a s' | (Err e, s') => (Err e, s') end.
Proof. reflexivity. Qed.

Lemma bind_ok {A B} (m : SM S E A) (k : A -> SM S E B) s b s'' :
  (m ≫= k) s = (Ok b, s'') <-> exists a s', m s = (Ok a, s') /\ k a s' = (Ok b, s'').
Proof.
  rewrite bind_run. split.
  - destruct (m s) as [[a|e] s'] eqn:?; [|discriminate]. eauto.
  - intros (a & s' & -> & H). exact H.
Qed.

Lemma guard_run b (e : E) s : guard_ b e s = if b then (Ok tt, s) else (Err e, s).
Proof. by destruct b. Qed.

Lemma transaction_ok {A} (m : SM S E A) s a s' :
  transaction m s = (Ok a, s') <-> m s = (Ok a, s').
Proof.
  unfold transaction, savepoint. split.
  - destruct (m s) as [[?|?] ?]; congruence.
  - intros ->. reflexivity.
Qed.

Lemma transaction_err {A} (m : SM S E A) s e s' :
  transaction m s = (Err e, s') -> s' = s.
Proof. unfold transaction, savepoint. destruct (m s) as [[?|?] ?]; congruence. Qed.

(** [mono R m]: whatever happens, [m] moves the state along [R]. *)
Definition mono {A} (R : S -> S -> Prop) (m : SM S E A) : Prop :=
  forall s, R s (m s).2.

Lemma mono_ok {A} (R : S -> S -> Prop) (m : SM S E A) s a s' : mono R m -> m s = (Ok a, s') -> R s s'.
Proof. intros Hm Hr. specialize (Hm s). by rewrite Hr in Hm. Qed.
Lemma mono_weaken {A} (R R' : S -> S -> Prop) (m : SM S E A) :
  (forall s s', R s s' -> R' s s') -> mono R m -> mono R' m.
Proof. intros HR Hm s. apply HR, Hm. Qed.

Section Mono.
Context (R : S -> S -> Prop) `{!PreOrder R}.

Lemma mono_ret {A} (a : A) : mono R (mret a).
Proof. intros s. simpl. reflexivity. Qed.
Lemma mono_raise {A} e : mono R (raise e : SM S E A).
Proof. intros s. simpl. reflexivity. Qed.
Lemma mono_get : mono R get.
Proof. intros s. simpl. reflexivity. Qed.
Lemma mono_gets {A} (f : S -> A) : mono R (gets f).
Proof. intros s. simpl. reflexivity. Qed.
Lemma mono_lift {A} (r : res E A) : mono R (lift r).
Proof. intros s. simpl. reflexivity. Qed.
Lemma mono_need {A} (o : option A) e : mono R (need o e).
Proof. intros s. destruct o; simpl; reflexivity. Qed.
Lemma mono_guard b e : mono R (guard_ b e).
Proof. intros s. destruct b; simpl; reflexivity. Qed.
Lemma mono_modify f : (forall s, R s (f s)) -> mono R (modify f).
Proof. intros H s. apply H. Qed.
Lemma mono_bind {A B} (m : SM S E A) (k : A -> SM S E B) :
  mono R m -> (forall a, mono R (k a)) -> mono R (m ≫= k).
Proof.
  intros Hm Hk s. rewrite bind_run. specialize (Hm s).
  destruct (m s) as [[a|e] s']; simpl in *; [|done].
  transitivity s'; [done|apply Hk].
Qed.
Lemma mono_savepoint {A} (m : SM S E A) : mono R m -> mono R (savepoint m).
Proof.
  intros Hm s. specialize (Hm s). unfold savepoint.
  destruct (m s) as [[a|e] s']; simpl in *; [done|reflexivity].
Qed.
Lemma mono_catch {A} (m : SM S E A) h :
  mono R m -> (forall e, mono R (h e)) -> mono R (catch m h).
Proof.
  intros Hm Hh s. specialize (Hm s). unfold catch.
  destruct (m s) as [[a|e] s']; simpl in *; [done|].
  transitivity s'; [done|apply Hh].
Qed.
Lemma mono_for_each {X} (xs : list X) f :
  (forall x, mono R (f x)) -> mono R (for_each xs f).
Proof. intros Hf. induction xs; simpl; [apply mono_ret|apply mono_bind; auto]. Qed.
End Mono.

(** [keeps P m]: a successful run of [m] from a state satisfying [P] ends in one. *)
Definition keeps {A} (P : S -> Prop) (m : SM S E A) : Prop :=
  forall s a s', m s = (Ok a, s') -> P s -> P s'.

Section Keeps.
Context (P : S -> Prop).

Lemma keeps_ret {A} (a : A) : keeps P (mret a).
Proof. intros s b s' [= _ <-]. done. Qed.
Lemma keeps_raise {A} e : keeps P (raise e : SM S E A).
Proof. done. Qed.
Lemma keeps_get : keeps P get.
Proof. intros s b s' [= _ <-]. done. Qed.
Lemma keeps_gets {A} (f : S -> A) : keeps P (gets f).
Proof. intros s b s' [= _ <-]. done. Qed.
Lemma keeps_lift {A} (r : res E A) : keeps P (lift r).
Proof. intros s b s' [=]. by subst. Qed.
Lemma keeps_need {A} (o : option A) e : keeps P (need o e).
Proof. intros s b s'. by destruct o; intros [= _ <-]. Qed.
Lemma keeps_guard b e : keeps P (guard_ b e).
Proof. intros s c s'. by destruct b; intros [=]; subst. Qed.
Lemma keeps_modify f : (forall s, P s -> P (f s)) -> keeps P (modify f).
Proof. intros Hf s b s' [= _ <-]. apply Hf. Qed.
Lemma keeps_bind {A B} (m : SM S E A) (k : A -> SM S E B) :
  keeps P m -> (forall a, keeps P (k a)) -> keeps P (m ≫= k).
Proof. intros Hm Hk s b s' (a & t & H1 & H2)%bind_ok HP. exact (Hk a _ _ _ H2 (Hm _ _ _ H1 HP)). Qed.
Lemma keeps_transaction {A} (m : SM S E A) : keeps P m -> keeps P (transaction m).
Proof.
  intros Hm s a s' Ht HP. unfold transaction, savepoint in Ht.
  destruct (m s) as [[b|e] t] eqn:Em; [|done].
  injection Ht as -> ->. exact (Hm _ _ _ Em HP).
Qed.
(** What a request or a worker phase commits: its changes when it returned,
    nothing when it raised. *)
Lemma keeps_commit {A} (m : SM S E A) :
  keeps P m -> forall s, P s -> P (transaction m s).2.
Proof.
  intros Hm s HP. unfold transaction, savepoint.
  destruct (m s) as [[b|e] t] eqn:Em; simpl; [exact (Hm _ _ _ Em HP)|done].
Qed.
Lemma keeps_savepoint {A} (m : SM S E A) : keeps P m -> keeps P (savepoint m).
Proof. apply keeps_transaction. Qed.
Lemma keeps_for_each {X} (xs : list X) f :
  (forall x, keeps P (f x)) -> keeps P (for_each xs f).
Proof. intros Hf. induction xs; simpl; [apply keeps_ret|apply keeps_bind; auto]. Qed.
End Keeps.
(** [fails Q m]: every exception [m] raises satisfies [Q]. *)
Definition fails {A} (Q : E -> Prop) (m : SM S E A) : Prop :=
  forall s e s', m s = (Err e, s') -> Q e.
(** [refuses Q R m]: when [m] raises an exception of [Q], the state moved along [R]. *)
Definition refuses {A} (Q : E -> Prop) (R : S -> S -> Prop) (m : SM S E A) : Prop :=
  forall s e s', m s = (Err e, s') -> Q e -> R s s'.

Section Fails.
Context (Q : E -> Prop) (R : S -> S -> Prop) `{!PreOrder R}.

Lemma fails_ret {A} (a : A) : fails Q (mret a).
Proof. intros s e s' [=]. Qed.
Lemma fails_get : fails Q get.
Proof. intros s e s' [=]. Qed.
Lemma fails_gets {A} (f : S -> A) : fails Q (gets f).
Proof. intros s e s' [=]. Qed.
Lemma fails_modify f : fails Q (modify f).
Proof. intros s e s' [=]. Qed.
Lemma fails_raise {A} e : Q e -> fails Q (raise e : SM S E A).
Proof. intros He s e' s' [= <- _]. done. Qed.
Lemma fails_lift {A} (r : res E A) : (forall e, r = Err e -> Q e) -> fails Q (lift r).
Proof. intros Hr s e s' [= H _]. by apply Hr. Qed.
Lemma fails_need {A} (o : option A) e : Q e -> fails Q (need o e).
Proof. destruct o; [intros; apply fails_ret|apply fails_raise]. Qed.
Lemma fails_guard b e : Q e -> fails Q (guard_ b e).
Proof. destruct b; [intros; apply fails_ret|apply fails_raise]. Qed.
Lemma fails_bind {A B} (m : SM S E A) (k : A -> SM S E B) :
  fails Q m -> (forall a, fails Q (k a)) -> fails Q (m ≫= k).
Proof.
  intros Hm Hk s e s'. rewrite bind_run. destruct (m s) as [[a|x] t] eqn:Em.
  - apply Hk.
  - intros [= <- <-]. exact (Hm _ _ _ Em).
Qed.
Lemma fails_for_each {X} (xs : list X) f : (forall x, fails Q (f x)) -> fails Q (for_each xs f).
Proof. intros Hf. induction xs; simpl; [apply fails_ret|apply fails_bind; auto]. Qed.

Lemma refuses_mono {A} (m : SM S E A) : mono R m -> refuses Q R m.
Proof. intros Hm s e s' Hr _. specialize (Hm s). by rewrite Hr in Hm. Qed.
Lemma refuses_fails {A} (m : SM S E A) : fails (fun e => ~ Q e) m -> refuses Q R m.
Proof. intros Hm s e s' Hr HQ. by destruct (Hm _ _ _ Hr). Qed.
Lemma refuses_bind {A B} (m : SM S E A) (k : A -> SM S E B) :
  mono R m -> (forall a, refuses Q R (k a)) -> refuses Q R (m ≫= k).
Proof.
  intros Hm Hk s e s'. rewrite bind_run. specialize (Hm s). destruct (m s) as [[a|x] t].
  - intros Hr HQ. etrans; [exact Hm|exact (Hk _ _ _ _ Hr HQ)].
  - intros [= <- <-] _. exact Hm.
Qed.
(** After the last step that may refuse, nothing refuses any more. *)
Lemma refuses_last {A B} (m : SM S E A) (k : A -> SM S E B) :
  refuses Q R m -> (forall a, fails (fun e => ~ Q e) (k a)) -> refuses Q R (m ≫= k).
Proof.
  intros Hm Hk s e s'. rewrite bind_run. destruct (m s) as [[a|x] t] eqn:Em.
  - intros Hr HQ. by destruct (Hk _ _ _ _ Hr).
  - intros [= <- <-]. exact (Hm _ _ _ Em).
Qed.
End Fails.
End Laws.

Create HintDb session.
#[export] Hint Resolve mono_ret mono_raise mono_get mono_gets mono_lift mono_need
  mono_guard mono_savepoint mono_catch mono_for_each : session.

Ltac inj_ok H := first [injection H as ?? | injection H as ?]; subst.

#[export] Hint Resolve keeps_ret keeps_raise keeps_get keeps_gets keeps_lift keeps_need
  keeps_guard : session.

#[export] Hint Resolve fails_ret fails_get fails_gets fails_modify : session.

(** Invert [H : m s = (Ok a, s')] along the binds of [m]. *)
Ltac run_inv H :=
  match type of H with
  | (_ ≫= _) _ = (Ok _, _) =>
      let a := fresh "a" in let s' := fresh "s" in
      let H1 := fresh "H" in let H2 := fresh "H" in
      apply bind_ok in H as (a & s' & H1 & H2); run_inv H1; run_inv H2
  | mret _ _ = (Ok _, _) => inj_ok H
  | gets _ _ = (Ok _, _) => inj_ok H
  | get _ = (Ok _, _) => inj_ok H
  | modify _ _ = (Ok _, _) => inj_ok H
  | raise _ _ = (Ok _, _) => discriminate H
  | lift ?r _ = (Ok _, _) => unfold lift in H; inj_ok H
  | need ?o _ _ = (Ok _, _) =>
      let E := fresh "E" in
      destruct o eqn:E; cbn [need raise mret SM_ret] in H; [inj_ok H|discriminate H]
  | guard_ ?b _ _ = (Ok _, _) =>
      let E := fresh "E" in
      destruct b eqn:E; cbn [guard_ raise mret SM_ret] in H; [inj_ok H|discriminate H]
  | _ => idtac
  end.

(** Run a computation as far as its steps compute. *)
Ltac run := repeat (rewrite bind_run; simpl).

(** Prove [mono R m] along the structure of [m]; leaves the state changes. *)
Ltac mono_step :=
  match goal with
  | |- mono _ (_ ≫= _) => apply mono_bind; [try apply _| |intros]
  | |- mono _ (if ?b then _ else _) => destruct b
  | |- mono _ (match ?x with _ => _ end) => destruct x
  | |- mono _ (let _ := _ in _) => cbv zeta
  | |- mono _ (for_each _ _) => apply mono_for_each; [try apply _|intros]
  | |- mono _ _ => solve [eauto with session typeclass_instances]
  | |- mono _ (modify _) => apply mono_modify; intros
  end.
Ltac mono_auto := repeat mono_step.

(** The same for [keeps P m]. *)
Ltac keeps_step :=
  match goal with
  | |- keeps _ (_ ≫= _) => apply keeps_bind; [|intros]
  | |- keeps _ (transaction _) => apply keeps_transaction
  | |- keeps _ (if ?b then _ else _) => destruct b
  | |- keeps _ (match ?x with _ => _ end) => destruct x
  | |- keeps _ (let _ := _ in _) => cbv zeta
  | |- keeps _ (for_each _ _) => apply keeps_for_each; intros
  | |- keeps _ _ => solve [auto with session nocore]
  end.
Ltac keeps_auto := repeat keeps_step.

(** The same for [fails Q m]; leaves that the raised exceptions satisfy [Q]. *)
Ltac fails_step :=
  match goal with
  | |- fails _ (_ ≫= _) => apply fails_bind; [|intros]
  | |- fails _ (if ?b then _ else _) => destruct b
  | |- fails _ (match ?x with _ => _ end) => destruct x
  | |- fails _ (let _ := _ in _) => cbv zeta
  | |- fails _ (for_each _ _) => apply fails_for_each; intros
  | |- fails _ _ => solve [auto with session nocore]
  | |- fails _ (raise _) => apply fails_raise
  | |- fails _ (need _ _) => apply fails_need
  | |- fails _ (guard_ _ _) => apply fails_guard
  | |- fails _ (lift _) => apply fails_lift
  end.
Ltac fails_auto := repeat fails_step.
