(* ===== verification/PyStr.v ===== *)
(** * Python strings

    The [str] methods the service uses, on byte strings ([String.string]; the
    service's own identifiers, hostnames, tokens and headers are ASCII).  Each
    definition follows the documented behaviour of the method it is named after. *)

From S2P Require Import Prelude.
From stdpp Require Import base strings list pretty.
From Stdlib Require Import Ascii String ZArith Lia.
Open Scope string_scope.
Open Scope Z_scope.

#[global] Arguments String.append !_ _ / : simpl nomatch.

Definition slen (s : string) : Z := Z.of_nat (String.length s).
Definition code (c : ascii) : Z := Z.of_nat (nat_of_ascii c).
Definition in_range (lo hi : Z) (c : ascii) : bool := (lo <=? code c) && (code c <=? hi).

(** [len(text)] of the text a UTF-8 byte string encodes: its bytes that are not
    continuation bytes. *)
Fixpoint ulen (s : string) : Z :=
  match s with
  | "" => 0
  | String c s => (if in_range 128 191 c then 0 else 1) + ulen s
  end.

(** The newline character. *)
Definition NL : ascii := "010"%char.

(** ** Character classes *)

(** ASCII characters for which [str.isspace] holds. *)
Definition is_space (c : ascii) : bool := in_range 9 13 c || in_range 28 32 c.
Definition is_digit (c : ascii) : bool := in_range 48 57 c.
Definition is_lower (c : ascii) : bool := in_range 97 122 c.
Definition is_upper (c : ascii) : bool := in_range 65 90 c.
Definition is_alnum (c : ascii) : bool := is_digit c || is_lower c || is_upper c.
Definition char_eqb (a b : ascii) : bool := Ascii.eqb a b.
#[global] Arguments char_eqb : simpl never.

Definition lower_char (c : ascii) : ascii :=
  if is_upper c then ascii_of_nat (nat_of_ascii c + 32) else c.

Fixpoint smap (f : ascii -> ascii) (s : string) : string :=
  match s with EmptyString => "" | String c s => String (f c) (smap f s) end.
Fixpoint sall (p : ascii -> bool) (s : string) : bool :=
  match s with EmptyString => true | String c s => p c && sall p s end.
Definition sany (p : ascii -> bool) (s : string) : bool := negb (sall (fun c => negb (p c)) s).

(** [s.lower()] *)
Definition lower (s : string) : string := smap lower_char s.
(** [s.isdigit()] *)
Definition isdigit (s : string) : bool := negb (String.eqb s "") && sall is_digit s.
(** [c in s] for a one-character string [c] *)
Definition has_char (c : ascii) (s : string) : bool := sany (char_eqb c) s.

(** ** Prefixes and suffixes *)

Definition startswith (p s : string) : bool := String.prefix p s.

Fixpoint drop_str (n : nat) (s : string) : string :=
  match n, s with
  | S n, String _ s => drop_str n s
  | _, _ => s
  end.
Fixpoint take_str (n : nat) (s : string) : string :=
  match n, s with
  | S n, String c s => String c (take_str n s)
  | _, _ => ""
  end.

(** [s[:n]]: the first [n] code points of UTF-8 text. *)
Fixpoint utake (n : nat) (s : string) : string :=
  match s with
  | EmptyString => ""
  | String c r =>
      if in_range 128 191 c then String c (utake n r)
      else match n with O => "" | S n => String c (utake n r) end
  end.

(** [l[i]]: a negative index counts from the end; [None]: [IndexError]. *)
Definition py_nth {A} (l : list A) (i : Z) : option A :=
  let i := if i <? 0 then i + Z.of_nat (List.length l) else i in
  if i <? 0 then None else nth_error l (Z.to_nat i).

(** [s.endswith(suf)] *)
Definition endswith (suf s : string) : bool :=
  (String.length suf <=? String.length s)%nat &&
  String.eqb (drop_str (String.length s - String.length suf) s) suf.

(** [s.removesuffix(suf)], [s.removeprefix(p)] *)
Definition removesuffix (suf s : string) : string :=
  if endswith suf s then take_str (String.length s - String.length suf) s else s.
Definition removeprefix (p s : string) : string :=
  if startswith p s then drop_str (String.length p) s else s.

(** [pat in s] *)
Fixpoint contains (pat s : string) : bool :=
  startswith pat s || match s with EmptyString => false | String _ s => contains pat s end.

(** [s.replace(old, new)] for a non-empty [old]. *)
Fixpoint replace_skip (old new s : string) (skip : nat) : string :=
  match s with
  | EmptyString => ""
  | String c s' =>
      match skip with
      | S k => replace_skip old new s' k
      | O => if startswith old s
             then new ++ replace_skip old new s' (String.length old - 1)
             else String c (replace_skip old new s' 0)
      end
  end.
Definition replace (old new s : string) : string := replace_skip old new s 0.

(** [d.get(k)] on a [dict[str, str]] *)
Fixpoint sget (k : string) (d : list (string * string)) : option string :=
  match d with
  | [] => None
  | (k', v) :: d => if String.eqb k k' then Some v else sget k d
  end.

(** [d[k] = v]: an existing key keeps its place. *)
Fixpoint sset (k v : string) (d : list (string * string)) : list (string * string) :=
  match d with
  | [] => [(k, v)]
  | (k', v') :: d => if String.eqb k k' then (k', v) :: d else (k', v') :: sset k v d
  end.

(** [repr(s)]; bytes of non-ASCII text are taken as printable. *)
Definition hex_nibble (n : Z) : ascii := ascii_of_nat (Z.to_nat (if n <? 10 then 48 + n else 87 + n)).
Fixpoint repr_body (quote : ascii) (s : string) : string :=
  match s with
  | EmptyString => ""
  | String c s' =>
      let rest := repr_body quote s' in
      if Ascii.eqb c quote || Ascii.eqb c "\"%char then String "\"%char (String c rest)
      else if code c =? 10 then ("\n" ++ rest)%string
      else if code c =? 13 then ("\r" ++ rest)%string
      else if code c =? 9 then ("\t" ++ rest)%string
      else if (code c <? 32) || (code c =? 127)
      then ("\x" ++ String (hex_nibble (code c / 16)%Z) (String (hex_nibble (code c mod 16)%Z) rest))%string
      else String c rest
  end.
Definition py_repr (s : string) : string :=
  let quote := if has_char "'"%char s && negb (has_char "034"%char s) then "034"%char else "'"%char in
  String quote (repr_body quote s ++ String quote "").

(** A value that is neither [None] nor empty: the truth of [str | None]. *)
Definition nonempty (o : option string) : option string :=
  match o with Some "" => None | _ => o end.

(** ** Stripping *)

Fixpoint lstrip_if (p : ascii -> bool) (s : string) : string :=
  match s with
  | EmptyString => ""
  | String c s' => if p c then lstrip_if p s' else s
  end.
Fixpoint rstrip_if (p : ascii -> bool) (s : string) : string :=
  match s with
  | EmptyString => ""
  | String c s' =>
      match rstrip_if p s' with
      | EmptyString => if p c then "" else String c ""
      | r => String c r
      end
  end.
Definition strip_if (p : ascii -> bool) (s : string) : string := rstrip_if p (lstrip_if p s).
(** [s.strip()] *)
Definition strip (s : string) : string := strip_if is_space s.

(** ** Splitting and joining *)

(** [s.split(sep)] for a one-character separator: never the empty list. *)
Fixpoint split_on (sep : ascii) (s : string) : list string :=
  match s with
  | EmptyString => [""]
  | String c s' =>
      if Ascii.eqb c sep then "" :: split_on sep s'
      else match split_on sep s' with
           | [] => [String c ""]
           | w :: ws => String c w :: ws
           end
  end.

(** [s.partition(sep)]: what precedes, whether [sep] was found, what follows. *)
Fixpoint partition (sep : ascii) (s : string) : string * bool * string :=
  match s with
  | EmptyString => ("", false, "")
  | String c s' =>
      if Ascii.eqb c sep then ("", true, s')
      else let '(a, found, b) := partition sep s' in (String c a, found, b)
  end.

Definition join (sep : string) (l : list string) : string := String.concat sep l.

(** [s.rsplit(sep, 1)[0]]: everything before the last [sep], or all of [s]. *)
Fixpoint before_last (sep : ascii) (s : string) : option string :=
  match s with
  | EmptyString => None
  | String c s' =>
      match before_last sep s' with
      | Some a => Some (String c a)
      | None => if Ascii.eqb c sep then Some "" else None
      end
  end.
(** [s.rsplit(sep, 1)[1]] when [sep] occurs: everything after the last [sep]. *)
Fixpoint after_last (sep : ascii) (s : string) : option string :=
  match s with
  | EmptyString => None
  | String c s' =>
      match after_last sep s' with
      | Some a => Some a
      | None => if Ascii.eqb c sep then Some s' else None
      end
  end.

Fixpoint count_char (c : ascii) (s : string) : Z :=
  match s with
  | EmptyString => 0
  | String d s => (if Ascii.eqb d c then 1 else 0) + count_char c s
  end.

(** ** Numbers *)

Definition digit_value (c : ascii) : Z := code c - 48.

(** Digits with single underscores between them, as [int] reads them. *)
Fixpoint int_digits (acc : Z) (after_digit : bool) (s : string) : option Z :=
  match s with
  | EmptyString => if after_digit then Some acc else None
  | String c s =>
      if is_digit c then int_digits (10 * acc + digit_value c) true s
      else if Ascii.eqb c "_" && after_digit then int_digits acc false s
      else None
  end.

(** [int(s)]; [None] where Python raises [ValueError]. *)
Definition py_int (s : string) : option Z :=
  match strip s with
  | String "-" r => Z.opp <$> int_digits 0 false r
  | String "+" r => int_digits 0 false r
  | r => int_digits 0 false r
  end.

(** [str(n)] *)
Definition py_str (n : Z) : string := pretty n.

(** ** Facts *)

Lemma slen_nonneg s : 0 <= slen s.
Proof. unfold slen. lia. Qed.

Lemma length_sapp a b : String.length (a ++ b) = (String.length a + String.length b)%nat.
Proof. induction a as [|c a IH]; simpl; [done|by rewrite IH]. Qed.

Lemma slen_app a b : slen (a ++ b) = slen a + slen b.
Proof. unfold slen. rewrite length_sapp. lia. Qed.

Lemma sapp_nil_r s : (s ++ "")%string = s.
Proof. induction s as [|c s IH]; simpl; [done|by rewrite IH]. Qed.

Lemma sapp_assoc (a b c : string) : (a ++ (b ++ c))%string = ((a ++ b) ++ c)%string.
Proof. induction a as [|x a IH]; simpl; [done|by rewrite IH]. Qed.

Lemma sall_app p a b : sall p (a ++ b) = sall p a && sall p b.
Proof. induction a as [|c a IH]; simpl; [done|by rewrite IH, andb_assoc]. Qed.

Lemma sall_impl (p q : ascii -> bool) s :
  (forall c, p c = true -> q c = true) -> sall p s = true -> sall q s = true.
Proof.
  intros H. induction s as [|c s IH]; simpl; [done|].
  intros [? ?]%andb_prop. rewrite H, IH; done.
Qed.

Lemma take_drop_str n s : (take_str n s ++ drop_str n s)%string = s.
Proof. revert s. induction n as [|n IH]; intros [|c s]; simpl; try done. by rewrite IH. Qed.

Lemma length_take_str n s : String.length (take_str n s) = Nat.min n (String.length s).
Proof. revert s. induction n as [|n IH]; intros [|c s]; simpl; try done. by rewrite IH. Qed.

Lemma take_str_ge n s : (String.length s <= n)%nat -> take_str n s = s.
Proof.
  revert s. induction n as [|n IH]; intros [|c s]; simpl; intros H; try done; try lia.
  rewrite IH; [done|lia].
Qed.

Lemma take_str_app a b : take_str (String.length a) (a ++ b) = a.
Proof. induction a as [|c a IH]; simpl; [by destruct b|by rewrite IH]. Qed.

Lemma drop_str_app a b : drop_str (String.length a) (a ++ b) = b.
Proof. induction a as [|c a IH]; simpl; [by destruct b|done]. Qed.

Lemma startswith_app p s : startswith p (p ++ s) = true.
Proof.
  unfold startswith. induction p as [|c p IH]; simpl; [by destruct s|].
  destruct (ascii_dec c c); [done|congruence].
Qed.

Lemma startswith_true p s : startswith p s = true -> exists r, s = (p ++ r)%string.
Proof.
  unfold startswith. revert s. induction p as [|c p IH]; intros s; simpl; [intros _; by exists s|].
  destruct s as [|d s]; simpl; [done|]. destruct (ascii_dec c d) as [->|]; [|done].
  intros [r ->]%IH. by exists r.
Qed.

Lemma endswith_true suf s : endswith suf s = true <-> exists r, s = (r ++ suf)%string.
Proof.
  unfold endswith. split.
  - intros [Hl%Nat.leb_le He%String.eqb_eq]%andb_prop.
    exists (take_str (String.length s - String.length suf) s).
    rewrite <- He at 2. by rewrite take_drop_str.
  - intros [r ->]. rewrite length_sapp.
    replace (String.length r + String.length suf - String.length suf)%nat
      with (String.length r) by lia.
    rewrite drop_str_app, String.eqb_refl, andb_true_r. apply Nat.leb_le. lia.
Qed.

Lemma removesuffix_app suf r : removesuffix suf (r ++ suf) = r.
Proof.
  unfold removesuffix. rewrite (proj2 (endswith_true suf _)); [|eauto].
  rewrite length_sapp.
  replace (String.length r + String.length suf - String.length suf)%nat
    with (String.length r) by lia.
  apply take_str_app.
Qed.

Lemma removesuffix_not suf s : endswith suf s = false -> removesuffix suf s = s.
Proof. unfold removesuffix. by intros ->. Qed.

Lemma length_removesuffix suf s :
  (String.length (removesuffix suf s) <= String.length s)%nat.
Proof.
  unfold removesuffix. destruct (endswith suf s); [|lia]. rewrite length_take_str. lia.
Qed.

Lemma lstrip_if_id p c s : p c = false -> lstrip_if p (String c s) = String c s.
Proof. simpl. by intros ->. Qed.

Lemma rstrip_if_none p s : sall (fun c => negb (p c)) s = true -> rstrip_if p s = s.
Proof.
  induction s as [|c s IH]; simpl; [done|]. intros [Hc Hs]%andb_prop.
  rewrite IH by done. destruct s; [|done]. by destruct (p c).
Qed.

Lemma lstrip_if_none p s : sall (fun c => negb (p c)) s = true -> lstrip_if p s = s.
Proof. destruct s as [|c s]; simpl; [done|]. intros [Hc _]%andb_prop. by destruct (p c). Qed.

(** A string without blanks is its own [strip]. *)
Lemma strip_if_none p s : sall (fun c => negb (p c)) s = true -> strip_if p s = s.
Proof.
  intros H. unfold strip_if. rewrite (lstrip_if_none p s H). by apply rstrip_if_none.
Qed.

Lemma split_on_ne sep s : split_on sep s <> [].
Proof.
  destruct s as [|c s]; simpl; [done|]. destruct (Ascii.eqb c sep); [done|].
  by destruct (split_on sep s).
Qed.

Lemma split_on_none sep s :
  sall (fun c => negb (Ascii.eqb c sep)) s = true -> split_on sep s = [s].
Proof.
  induction s as [|c s IH]; simpl; [done|]. intros [Hc Hs]%andb_prop.
  apply negb_true_iff in Hc. rewrite Hc, (IH Hs). done.
Qed.

Lemma split_on_app sep a b :
  sall (fun c => negb (Ascii.eqb c sep)) a = true ->
  split_on sep (a ++ String sep b) = a :: split_on sep b.
Proof.
  induction a as [|c a IH]; simpl.
  - intros _. by rewrite Ascii.eqb_refl.
  - intros [Hc Ha]%andb_prop. apply negb_true_iff in Hc. by rewrite Hc, (IH Ha).
Qed.

Lemma partition_app sep a b :
  sall (fun c => negb (Ascii.eqb c sep)) a = true ->
  partition sep (a ++ String sep b) = (a, true, b).
Proof.
  induction a as [|c a IH]; simpl.
  - intros _. by rewrite Ascii.eqb_refl.
  - intros [Hc Ha]%andb_prop. apply negb_true_iff in Hc. by rewrite Hc, (IH Ha).
Qed.

Lemma partition_true sep s a b :
  partition sep s = (a, true, b) ->
  s = (a ++ String sep b)%string /\ sall (fun c => negb (Ascii.eqb c sep)) a = true.
Proof.
  revert a. induction s as [|c s IH]; intros a; simpl; [done|].
  destruct (Ascii.eqb c sep) eqn:Hc.
  - apply Ascii.eqb_eq in Hc as ->. intros [= <- <-]. done.
  - destruct (partition sep s) as [[a' f] b']. intros [= <- -> ->].
    destruct (IH a' eq_refl) as [-> Ha]. simpl. by rewrite Hc, Ha.
Qed.

Lemma partition_false sep s a b :
  partition sep s = (a, false, b) -> a = s /\ b = "" /\
  sall (fun c => negb (Ascii.eqb c sep)) s = true.
Proof.
  revert a. induction s as [|c s IH]; intros a; simpl; [by intros [= <- <-]|].
  destruct (Ascii.eqb c sep) eqn:Hc; [done|].
  destruct (partition sep s) as [[a' f] b']. intros [= <- -> ->].
  destruct (IH a' eq_refl) as (-> & -> & ?). simpl. done.
Qed.

Lemma sget_sset_eq k v d : sget k (sset k v d) = Some v.
Proof.
  induction d as [|[k' v'] d IH]; simpl; [by rewrite String.eqb_refl|].
  destruct (String.eqb k k') eqn:E; simpl; by rewrite E.
Qed.
Lemma sget_sset_ne k k' v d : k <> k' -> sget k (sset k' v d) = sget k d.
Proof.
  intros Hk. induction d as [|[j w] d IH]; simpl.
  - by rewrite (proj2 (String.eqb_neq k k')).
  - destruct (String.eqb_spec k' j) as [->|]; simpl; [|by rewrite IH].
    by rewrite (proj2 (String.eqb_neq k j)).
Qed.

(** Splitting what [join] put together gives the parts back. *)
Lemma split_on_join sep l :
  l <> [] ->
  Forall (fun w => sall (fun c => negb (Ascii.eqb c sep)) w = true) l ->
  split_on sep (join (String sep "") l) = l.
Proof.
  intros Hne Hl. induction Hl as [|w l Hw Hl IH]; [done|].
  destruct l as [|w' l].
  - unfold join. simpl. by apply split_on_none.
  - change (join (String sep "") (w :: w' :: l))
      with (w ++ (String sep "" ++ join (String sep "") (w' :: l)))%string.
    simpl. rewrite split_on_app by done. f_equal. by apply IH.
Qed.

Lemma has_char_cons a c s : has_char a (String c s) = char_eqb a c || has_char a s.
Proof. unfold has_char, sany. cbn [sall]. by rewrite negb_andb, negb_involutive. Qed.
Lemma has_char_app c a b : has_char c (a ++ b) = has_char c a || has_char c b.
Proof. unfold has_char, sany. rewrite sall_app, negb_andb. done. Qed.
Lemma sall_true_not_has c s : sall (fun d => negb (char_eqb c d)) s = true -> has_char c s = false.
Proof. unfold has_char, sany. by intros ->. Qed.

Lemma free_of sep s : has_char sep s = false -> sall (fun c => negb (Ascii.eqb c sep)) s = true.
Proof.
  unfold has_char, sany. intros Hs%negb_false_iff. revert Hs. apply sall_impl.
  intros c. unfold char_eqb. by rewrite Ascii.eqb_sym.
Qed.

(** Joining what was split gives the text back. *)
Lemma join_split sep s : join (String sep "") (split_on sep s) = s.
Proof.
  induction s as [|c s IH]; [done|]. cbn [split_on]. pose proof (split_on_ne sep s) as Hne.
  destruct (Ascii.eqb_spec c sep) as [->|].
  - destruct (split_on sep s) as [|w l]; [done|].
    change (join (String sep "") ("" :: w :: l)) with (String sep (join (String sep "") (w :: l))). by rewrite IH.
  - destruct (split_on sep s) as [|w l]; [done|].
    replace (join (String sep "") (String c w :: l)) with (String c (join (String sep "") (w :: l)));
      [by rewrite IH|by destruct l].
Qed.

Lemma split_on_parts sep a b :
  List.length (split_on sep (a ++ String sep b)) = (List.length (split_on sep a) + List.length (split_on sep b))%nat.
Proof.
  induction a as [|c a IH]; cbn [append split_on].
  - by rewrite Ascii.eqb_refl.
  - pose proof (split_on_ne sep a). pose proof (split_on_ne sep (a ++ String sep b)).
    destruct (Ascii.eqb c sep); [simpl; lia|].
    destruct (split_on sep a), (split_on sep (a ++ String sep b)); try done; simpl in *; lia.
Qed.
Lemma split_on_has sep s : has_char sep s = true -> (2 <= List.length (split_on sep s))%nat.
Proof.
  intros Hs. destruct (partition sep s) as [[a []] b] eqn:E.
  - apply partition_true in E as [-> _]. rewrite split_on_parts.
    pose proof (split_on_ne sep a). pose proof (split_on_ne sep b).
    destruct (split_on sep a), (split_on sep b); try done; simpl; lia.
  - apply partition_false in E as (_ & _ & E). exfalso.
    rewrite sall_true_not_has in Hs; [done|]. revert E. apply sall_impl. intros c.
    unfold char_eqb. by rewrite Ascii.eqb_sym.
Qed.

Lemma smap_idem f s : (forall c, f (f c) = f c) -> smap f (smap f s) = smap f s.
Proof. intros H. induction s as [|c s IH]; simpl; [done|by rewrite H, IH]. Qed.

Lemma length_smap f s : String.length (smap f s) = String.length s.
Proof. induction s as [|c s IH]; simpl; [done|by rewrite IH]. Qed.

Lemma smap_app f a b : smap f (a ++ b) = (smap f a ++ smap f b)%string.
Proof. induction a as [|c a IH]; simpl; [done|by rewrite IH]. Qed.

Lemma lower_char_idem c : lower_char (lower_char c) = lower_char c.
Proof. destruct c as [[] [] [] [] [] [] [] []]; reflexivity. Qed.

Lemma lower_idem s : lower (lower s) = lower s.
Proof. apply smap_idem, lower_char_idem. Qed.

Lemma lower_app a b : lower (a ++ b) = (lower a ++ lower b)%string.
Proof. apply smap_app. Qed.

Lemma lower_id s : sall (fun c => negb (is_upper c)) s = true -> lower s = s.
Proof.
  unfold lower. induction s as [|c s IH]; simpl; [done|]. intros [Hc Hs]%andb_prop.
  rewrite IH by done. unfold lower_char. by destruct (is_upper c).
Qed.

Lemma slen_lower s : slen (lower s) = slen s.
Proof. unfold slen, lower. by rewrite length_smap. Qed.

(** *** Decimal numbers: [int(str(n)) = n] *)

Lemma pretty_N_char_digit n :
  (n < 10)%N -> is_digit (pretty_N_char n) = true /\ digit_value (pretty_N_char n) = Z.of_N n.
Proof.
  intros Hn. repeat (destruct n as [|n]; [by split|]).
  assert (n = 1 \/ n = 2 \/ n = 3 \/ n = 4 \/ n = 5 \/ n = 6 \/ n = 7 \/ n = 8 \/ n = 9)%positive
    as Hcases by lia.
  by destruct Hcases as [->|[->|[->|[->|[->|[->|[->|[->| ->]]]]]]]].
Qed.

Lemma int_digits_pretty_go (n : N) b (s : string) :
  (0 < n)%N -> int_digits 0 b (pretty_N_go n s) = int_digits (Z.of_N n) true s.
Proof.
  revert b s. induction n as [n IH] using (well_founded_induction N.lt_wf_0); intros b s Hn.
  rewrite pretty_N_go_step by done.
  assert (n `mod` 10 < 10)%N as Hm by (apply N.mod_lt; lia).
  destruct (pretty_N_char_digit _ Hm) as [Hd Hv].
  pose proof (N.div_mod n 10 ltac:(lia)) as Hdm.
  destruct (decide (0 < n `div` 10)%N) as [Hq|Hq].
  - rewrite IH by (try apply N.div_lt; lia). cbn [int_digits].
    rewrite Hd, Hv. f_equal. lia.
  - assert (n `div` 10 = 0)%N as -> by lia. rewrite pretty_N_go_0. cbn [int_digits].
    rewrite Hd, Hv. f_equal. lia.
Qed.

Lemma sall_split p sep s :
  forallb (sall p) (split_on sep s) = true -> sall (fun c => p c || char_eqb sep c) s = true.
Proof.
  induction s as [|c s IH]; simpl; [done|].
  destruct (Ascii.eqb_spec c sep) as [->|Hne]; simpl.
  - intros Hs. rewrite IH by done. unfold char_eqb. rewrite Ascii.eqb_refl. by destruct (p sep).
  - destruct (split_on sep s) as [|w ws] eqn:E; simpl; [by apply split_on_ne in E|].
    intros [[Hc Hw]%andb_prop Hws]%andb_prop. rewrite Hc, IH; [done|simpl; by rewrite Hw, Hws].
Qed.


Lemma split_on_snoc sep r : split_on sep (r ++ String sep "") = (split_on sep r ++ [""])%list.
Proof.
  induction r as [|c r IH]; simpl; [by rewrite Ascii.eqb_refl|].
  destruct (Ascii.eqb c sep); rewrite IH; [done|].
  by destruct (split_on sep r) eqn:E; [apply split_on_ne in E|].
Qed.

Lemma last_split_nonempty sep s :
  List.last (split_on sep s) "" <> "" -> endswith (String sep "") s = false.
Proof.
  intros Hl. apply not_true_is_false. intros [r ->]%endswith_true. apply Hl.
  by rewrite split_on_snoc, last_last.
Qed.

Lemma ulen_ascii s : sall (fun c => code c <? 128) s = true -> ulen s = slen s.
Proof.
  induction s as [|c s IH]; simpl; [done|]. intros [Hc Hs]%andb_prop.
  rewrite IH by done. unfold in_range, slen. simpl.
  destruct (Z.leb_spec 128 (code c)); simpl; lia.
Qed.
