(* ===== verification/Base64.v ===== *)
(** * Base 64

    [base64.urlsafe_b64encode] without padding and the lenient
    [base64.urlsafe_b64decode], as app/edge/assertion.py and
    app/services/secret_box.py wrap them.  Theorem: decoding what was encoded
    gives every byte string back, and the encoding is made of URL-safe characters. *)

From Stdlib Require Import Ascii String ZArith Lia.
From stdpp Require Import base strings list.
From S2P Require Import Prelude PyStr.
Open Scope string_scope.
Open Scope Z_scope.

Definition chr (n : Z) : ascii := ascii_of_nat (Z.to_nat n).

Lemma code_chr n : 0 <= n < 256 -> code (chr n) = n.
Proof. intros Hn. unfold code, chr. rewrite nat_ascii_embedding; lia. Qed.
Lemma chr_code c : chr (code c) = c.
Proof. unfold code, chr. rewrite Nat2Z.id. apply ascii_nat_embedding. Qed.
Lemma code_range c : 0 <= code c < 256.
Proof. unfold code. pose proof (nat_ascii_bounded c). lia. Qed.

(** ** Encoding *)

(** The URL-safe alphabet. *)
Definition b64_char (v : Z) : ascii :=
  if v <? 26 then chr (65 + v)
  else if v <? 52 then chr (97 + (v - 26))
  else if v <? 62 then chr (48 + (v - 52))
  else if v =? 62 then "-"%char else "_"%char.

(** Three bytes give four characters; a shorter tail gives two or three. *)
Fixpoint b64 (s : string) : string :=
  match s with
  | "" => ""
  | String a "" =>
      String (b64_char (code a / 4)) (String (b64_char (code a mod 4 * 16)) "")
  | String a (String b "") =>
      String (b64_char (code a / 4))
        (String (b64_char (code a mod 4 * 16 + code b / 16))
           (String (b64_char (code b mod 16 * 4)) ""))
  | String a (String b (String c r)) =>
      String (b64_char (code a / 4))
        (String (b64_char (code a mod 4 * 16 + code b / 16))
           (String (b64_char (code b mod 16 * 4 + code c / 64))
              (String (b64_char (code c mod 64)) (b64 r))))
  end.

(** ** Decoding *)

(** Both alphabets are read: [-] and [_] are translated to [+] and [/] first. *)
Definition b64_value (c : ascii) : option Z :=
  if is_upper c then Some (code c - 65)
  else if is_lower c then Some (code c - 97 + 26)
  else if is_digit c then Some (code c - 48 + 52)
  else if char_eqb "-"%char c || char_eqb "+"%char c then Some 62
  else if char_eqb "_"%char c || char_eqb "/"%char c then Some 63
  else None.

(** [binascii.a2b_base64] in its lenient mode: [quad] characters of the current
    group were read and leave [left] bits, [pads] padding characters were seen;
    other characters are skipped, complete padding ends the input, and an
    incomplete group at the end is an error. *)
Fixpoint a2b (s : string) (quad left pads : Z) : option string :=
  match s with
  | "" => if quad =? 0 then Some "" else None
  | String c r =>
      if char_eqb "="%char c then
        if 2 <=? quad then if 4 <=? quad + (pads + 1) then Some "" else a2b r quad left (pads + 1)
        else a2b r quad left pads
      else match b64_value c with
           | None => a2b r quad left pads
           | Some v =>
               if quad =? 0 then a2b r 1 v 0
               else if quad =? 1 then String (chr (left * 4 + v / 16)) <$> a2b r 2 (v mod 16) 0
               else if quad =? 2 then String (chr (left * 16 + v / 4)) <$> a2b r 3 (v mod 4) 0
               else String (chr (left * 64 + v)) <$> a2b r 0 0 0
           end
  end.

Fixpoint repeat_str (n : nat) (s : string) : string :=
  match n with O => "" | S n => s ++ repeat_str n s end.

(** The padding [_unb64] puts back. *)
Definition padding (text : string) : string := repeat_str (Z.to_nat ((- slen text) mod 4)) "=".

(** [None]: the text is not ASCII or its last group is incomplete. *)
Definition unb64 (text : string) : option string :=
  if sall (fun c => code c <? 128) text
  then a2b (text ++ padding text) 0 0 0
  else None.

(** ** The round trip *)

Lemma b64_char_value v : 0 <= v < 64 -> b64_value (b64_char v) = Some v.
Proof.
  intros Hv.
  assert (forallb (fun n => bool_decide (b64_value (b64_char (Z.of_nat n)) = Some (Z.of_nat n))) (seq 0 64) = true)
    as Ht by (vm_compute; reflexivity).
  rewrite forallb_forall in Ht. specialize (Ht (Z.to_nat v)).
  rewrite in_seq, bool_decide_eq_true in Ht. rewrite Z2Nat.id in Ht by lia. apply Ht. lia.
Qed.

(** What [b64] writes: letters, digits, [-] and [_]. *)
Definition url_safe (c : ascii) : bool := is_alnum c || char_eqb "-"%char c || char_eqb "_"%char c.

Lemma b64_char_safe v : 0 <= v < 64 -> url_safe (b64_char v) = true.
Proof.
  intros Hv.
  assert (forallb (fun n => url_safe (b64_char (Z.of_nat n))) (seq 0 64) = true)
    as Ht by (vm_compute; reflexivity).
  rewrite forallb_forall in Ht. specialize (Ht (Z.to_nat v)).
  rewrite in_seq, Z2Nat.id in Ht by lia. apply Ht. lia.
Qed.

Lemma url_safe_plain c :
  url_safe c = true -> char_eqb "="%char c = false /\ char_eqb "."%char c = false /\ (code c <? 128) = true.
Proof. destruct c as [[] [] [] [] [] [] [] []]; vm_compute; intuition congruence. Qed.

(** Bytes and the six-bit groups they are cut into. *)
Lemma split_byte c n m : 0 < n -> n * m = 256 -> 0 <= code c / n < m /\ 0 <= code c mod n < n.
Proof.
  intros Hn Hm. pose proof (code_range c). split.
  - split; [apply Z.div_pos; lia|]. apply Z.div_lt_upper_bound; nia.
  - by apply Z.mod_pos_bound.
Qed.

Lemma join_byte c n : 0 < n -> chr (code c / n * n + code c mod n) = c.
Proof.
  intros Hn. replace (code c / n * n + code c mod n) with (code c); [apply chr_code|].
  pose proof (Z.div_mod (code c) n). lia.
Qed.

Lemma div_add x y n : 0 <= y < n -> (x * n + y) / n = x.
Proof. intros Hy. rewrite Z.div_add_l by lia. rewrite Z.div_small; lia. Qed.
Lemma mod_add x y n : 0 <= y < n -> (x * n + y) mod n = y.
Proof. intros Hy. rewrite Z.add_comm, Z.mod_add by lia. by apply Z.mod_small. Qed.

Lemma a2b_char v r quad left pads :
  0 <= v < 64 ->
  a2b (String (b64_char v) r) quad left pads =
    if quad =? 0 then a2b r 1 v 0
    else if quad =? 1 then String (chr (left * 4 + v / 16)) <$> a2b r 2 (v mod 16) 0
    else if quad =? 2 then String (chr (left * 16 + v / 4)) <$> a2b r 3 (v mod 4) 0
    else String (chr (left * 64 + v)) <$> a2b r 0 0 0.
Proof.
  intros Hv. cbn [a2b].
  destruct (url_safe_plain _ (b64_char_safe v Hv)) as (-> & _ & _). by rewrite b64_char_value.
Qed.

Lemma string_ind3 (P : string -> Prop) :
  P "" -> (forall a, P (String a "")) -> (forall a b, P (String a (String b ""))) ->
  (forall a b c r, P r -> P (String a (String b (String c r)))) -> forall s, P s.
Proof.
  intros H0 H1 H2 H3. fix IH 1. intros [|a [|b [|c r]]]; [done|apply H1|apply H2|]. apply H3, IH.
Qed.

(** The bounds of the groups a byte is cut into. *)
Ltac byte_bounds a :=
  pose proof (split_byte a 4 64 ltac:(lia) ltac:(lia));
  pose proof (split_byte a 16 16 ltac:(lia) ltac:(lia));
  pose proof (split_byte a 64 4 ltac:(lia) ltac:(lia)).

(** One character of a group is read: its position is known. *)
Ltac read_char := rewrite a2b_char by lia; cbn [Z.eqb Pos.eqb].

Lemma a2b_tail1 a r :
  a2b (b64 (String a "") ++ r) 0 0 0 = String a <$> a2b r 2 0 0.
Proof.
  byte_bounds a. cbn [b64 append]. do 2 read_char. rewrite Z.div_mul, Z.mod_mul by lia.
  by rewrite join_byte by lia.
Qed.

Lemma a2b_tail2 a b r :
  a2b (b64 (String a (String b "")) ++ r) 0 0 0 = (fun s => String a (String b s)) <$> a2b r 3 0 0.
Proof.
  byte_bounds a. byte_bounds b. cbn [b64 append]. do 3 read_char.
  rewrite div_add, mod_add, Z.div_mul, Z.mod_mul by lia. rewrite !join_byte by lia. by destruct (a2b r 3 0 0).
Qed.

Lemma a2b_group a b c s r :
  a2b (b64 (String a (String b (String c s))) ++ r) 0 0 0
  = (fun t => String a (String b (String c t))) <$> a2b (b64 s ++ r) 0 0 0.
Proof.
  byte_bounds a. byte_bounds b. byte_bounds c. cbn [b64 append]. do 4 read_char.
  rewrite !div_add, !mod_add by lia. rewrite !join_byte by lia. by destruct (a2b (b64 s ++ r) 0 0 0).
Qed.

Lemma slen_cons c s : slen (String c s) = 1 + slen s.
Proof. unfold slen. simpl. lia. Qed.

Lemma a2b_b64 s : a2b (b64 s ++ padding (b64 s)) 0 0 0 = Some s.
Proof.
  induction s as [|a|a b|a b c s IH] using string_ind3.
  - reflexivity.
  - rewrite a2b_tail1. reflexivity.
  - rewrite a2b_tail2. reflexivity.
  - rewrite a2b_group. replace (padding (b64 (String a (String b (String c s))))) with (padding (b64 s));
      [by rewrite IH|].
    unfold padding. cbn [b64]. rewrite !slen_cons.
    replace (- (1 + (1 + (1 + (1 + slen (b64 s)))))) with (- slen (b64 s) + (-1) * 4) by lia.
    by rewrite Z.mod_add by lia.
Qed.

Lemma b64_safe s : sall url_safe (b64 s) = true.
Proof.
  induction s as [|a|a b|a b c s IH] using string_ind3; [done| | |]; cbn [b64 sall].
  - byte_bounds a. rewrite !b64_char_safe by lia. done.
  - byte_bounds a. byte_bounds b. rewrite !b64_char_safe by lia. done.
  - byte_bounds a. byte_bounds b. byte_bounds c. rewrite !b64_char_safe by lia. done.
Qed.

Lemma unb64_b64 s : unb64 (b64 s) = Some s.
Proof.
  unfold unb64. rewrite (sall_impl url_safe); [apply a2b_b64| |apply b64_safe].
  intros c Hc. by apply url_safe_plain in Hc as (_ & _ & ->).
Qed.

(** The separator of a token never occurs in its encoded parts. *)
Lemma b64_no_dot s : has_char "."%char (b64 s) = false.
Proof.
  apply sall_true_not_has. revert s. intros s. generalize (b64_safe s). apply sall_impl.
  intros c Hc. by apply url_safe_plain in Hc as (_ & -> & _).
Qed.
