(* ===== verification/Utf8.v ===== *)
(** * UTF-8

    Decoding a byte string into code points and encoding them again.  Surrogates
    are let through, as ["surrogatepass"] does in [json.loads].  Theorem: encoding
    what was decoded gives the byte string back. *)

From Stdlib Require Import Ascii String ZArith Lia.
From stdpp Require Import base strings list.
From S2P Require Import Prelude PyStr Base64.
Open Scope string_scope.
Open Scope Z_scope.

(** A continuation byte and its six bits. *)
Definition cont (c : ascii) : bool := in_range 128 191 c.
Definition six (c : ascii) : Z := code c - 128.

Fixpoint utf8_decode (s : string) : option (list Z) :=
  match s with
  | "" => Some []
  | String a r =>
      let x := code a in
      if x <? 128 then cons x <$> utf8_decode r
      else if x <? 194 then None
      else match r with
           | "" => None
           | String b r =>
               if negb (cont b) then None
               else if x <? 224 then cons ((x - 192) * 64 + six b) <$> utf8_decode r
               else match r with
                    | "" => None
                    | String c r =>
                        if negb (cont c) then None
                        else let n := (x - 224) * 4096 + six b * 64 + six c in
                        if x <? 240 then
                          if 2048 <=? n then cons n <$> utf8_decode r else None
                        else match r with
                             | "" => None
                             | String d r =>
                                 let n := (x - 240) * 262144 + six b * 4096 + six c * 64 + six d in
                                 if cont d && (65536 <=? n) && (n <? 1114112)
                                 then cons n <$> utf8_decode r else None
                             end
                    end
           end
  end.

Definition utf8_encode (n : Z) : string :=
  if n <? 128 then String (chr n) ""
  else if n <? 2048 then String (chr (192 + n / 64)) (String (chr (128 + n mod 64)) "")
  else if n <? 65536 then
    String (chr (224 + n / 4096)) (String (chr (128 + n / 64 mod 64)) (String (chr (128 + n mod 64)) ""))
  else
    String (chr (240 + n / 262144)) (String (chr (128 + n / 4096 mod 64))
      (String (chr (128 + n / 64 mod 64)) (String (chr (128 + n mod 64)) ""))).

(** [concat l], the text of code points *)
Definition utf8 (l : list Z) : string := String.concat "" (utf8_encode <$> l).

Lemma sconcat_cons s l : String.concat "" (s :: l) = (s ++ String.concat "" l)%string.
Proof. destruct l; simpl; [by rewrite sapp_nil_r|done]. Qed.

Lemma utf8_cons n l : utf8 (n :: l) = (utf8_encode n ++ utf8 l)%string.
Proof. unfold utf8. rewrite fmap_cons. apply sconcat_cons. Qed.

Lemma cont_range c : cont c = true -> 0 <= six c < 64.
Proof. unfold cont, in_range, six. rewrite andb_true_iff, !Z.leb_le. lia. Qed.

Lemma chr_six c : chr (128 + six c) = c.
Proof. unfold six. replace (128 + (code c - 128)) with (code c) by lia. apply chr_code. Qed.

(** The groups a code point is cut into, high to low. *)
Lemma cut2 h l : 0 <= l < 64 -> (h * 64 + l) / 64 = h /\ (h * 64 + l) mod 64 = l.
Proof. intros Hl. by rewrite div_add, mod_add by lia. Qed.
Lemma cut3 h m l :
  0 <= m < 64 -> 0 <= l < 64 ->
  (h * 4096 + m * 64 + l) / 4096 = h /\ (h * 4096 + m * 64 + l) / 64 mod 64 = m /\
  (h * 4096 + m * 64 + l) mod 64 = l.
Proof.
  intros Hm Hl. replace (h * 4096 + m * 64 + l) with (h * 4096 + (m * 64 + l)) by lia.
  rewrite div_add by lia. split; [done|].
  replace (h * 4096 + (m * 64 + l)) with ((h * 64 + m) * 64 + l) by lia.
  rewrite div_add, !mod_add by lia. done.
Qed.
Lemma cut4 h k m l :
  0 <= k < 64 -> 0 <= m < 64 -> 0 <= l < 64 ->
  let n := h * 262144 + k * 4096 + m * 64 + l in
  n / 262144 = h /\ n / 4096 mod 64 = k /\ n / 64 mod 64 = m /\ n mod 64 = l.
Proof.
  intros Hk Hm Hl n. unfold n. split; [|].
  - replace (h * 262144 + k * 4096 + m * 64 + l) with (h * 262144 + (k * 4096 + m * 64 + l)) by lia.
    by rewrite div_add by lia.
  - replace (h * 262144 + k * 4096 + m * 64 + l) with ((h * 64 + k) * 4096 + m * 64 + l) by lia.
    destruct (cut3 (h * 64 + k) m l Hm Hl) as (-> & -> & ->). by rewrite mod_add by lia.
Qed.

(** A code point the decoder returns. *)
Definition scalar (n : Z) : Prop := 0 <= n < 1114112.

Lemma encode_two a b :
  194 <= code a < 224 -> cont b = true ->
  utf8_encode ((code a - 192) * 64 + six b) = String a (String b "") /\ scalar ((code a - 192) * 64 + six b).
Proof.
  intros Ha Hb%cont_range. unfold utf8_encode, scalar. split; [|lia].
  rewrite (proj2 (Z.ltb_ge _ 128)), (proj2 (Z.ltb_lt _ 2048)) by lia.
  destruct (cut2 (code a - 192) (six b) Hb) as [-> ->]. rewrite chr_six.
  replace (192 + (code a - 192)) with (code a) by lia. by rewrite chr_code.
Qed.
Lemma encode_three a b c :
  224 <= code a < 240 -> cont b = true -> cont c = true ->
  2048 <= (code a - 224) * 4096 + six b * 64 + six c ->
  utf8_encode ((code a - 224) * 4096 + six b * 64 + six c) = String a (String b (String c "")) /\
  scalar ((code a - 224) * 4096 + six b * 64 + six c).
Proof.
  intros Ha Hb%cont_range Hc%cont_range Hn. unfold utf8_encode, scalar. split; [|lia].
  rewrite (proj2 (Z.ltb_ge _ 128)), (proj2 (Z.ltb_ge _ 2048)), (proj2 (Z.ltb_lt _ 65536)) by lia.
  destruct (cut3 (code a - 224) (six b) (six c) Hb Hc) as (-> & -> & ->). rewrite !chr_six.
  replace (224 + (code a - 224)) with (code a) by lia. by rewrite chr_code.
Qed.
Lemma encode_four a b c d :
  240 <= code a -> cont b = true -> cont c = true -> cont d = true ->
  65536 <= (code a - 240) * 262144 + six b * 4096 + six c * 64 + six d ->
  utf8_encode ((code a - 240) * 262144 + six b * 4096 + six c * 64 + six d)
  = String a (String b (String c (String d ""))).
Proof.
  intros Ha Hb%cont_range Hc%cont_range Hd%cont_range Hn. unfold utf8_encode.
  rewrite (proj2 (Z.ltb_ge _ 128)), (proj2 (Z.ltb_ge _ 2048)), (proj2 (Z.ltb_ge _ 65536)) by lia.
  destruct (cut4 (code a - 240) (six b) (six c) (six d) Hb Hc Hd) as (-> & -> & -> & ->). rewrite !chr_six.
  replace (240 + (code a - 240)) with (code a) by lia. by rewrite chr_code.
Qed.

Lemma fmap_cons_Some (n : Z) (o : option (list Z)) l :
  cons n <$> o = Some l -> exists l', o = Some l' /\ l = n :: l'.
Proof. destruct o as [l'|]; [intros [= <-]; eauto|done]. Qed.

Lemma utf8_decode_encode s l : utf8_decode s = Some l -> utf8 l = s /\ Forall scalar l.
Proof.
  remember (String.length s) as k eqn:Hk. assert (String.length s <= k)%nat as Hs by lia. clear Hk.
  revert s l Hs. induction k as [|k IH]; intros s l Hs.
  { destruct s; [|simpl in Hs; lia]. intros [= <-]. done. }
  destruct s as [|a s]; [intros [= <-]; done|]. cbn [utf8_decode]. simpl in Hs.
  (* one code point [n], encoded by [p], was read in front of [r] *)
  assert (forall n p r, String a s = (p ++ r)%string -> (String.length r <= k)%nat ->
    utf8_encode n = p -> scalar n -> cons n <$> utf8_decode r = Some l ->
    utf8 l = String a s /\ Forall scalar l) as Hstep.
  { intros n p r Hp Hr He Hn (l' & Hl & ->)%fmap_cons_Some. destruct (IH r l' Hr Hl) as [E F].
    rewrite utf8_cons, E, He, Hp. auto. }
  pose proof (code_range a) as Ra. destruct (Z.ltb_spec (code a) 128) as [H1|H1].
  { apply (Hstep _ (String a "") s); [done|lia| |unfold scalar; lia].
    unfold utf8_encode. rewrite (proj2 (Z.ltb_lt _ 128)) by lia. by rewrite chr_code. }
  destruct (Z.ltb_spec (code a) 194) as [|H2]; [done|].
  destruct s as [|b s]; [done|]. destruct (cont b) eqn:Hb; [|done]. cbn [negb]. simpl in Hs.
  destruct (Z.ltb_spec (code a) 224) as [H3|H3].
  { destruct (encode_two a b) as [He Hn]; [lia|done|].
    apply (Hstep _ (String a (String b "")) s); auto. lia. }
  destruct s as [|c s]; [done|]. destruct (cont c) eqn:Hc; [|done]. cbn [negb]. simpl in Hs.
  destruct (Z.ltb_spec (code a) 240) as [H4|H4].
  { destruct (Z.leb_spec 2048 ((code a - 224) * 4096 + six b * 64 + six c)); [|done].
    destruct (encode_three a b c) as [He Hn]; [lia|done|done|done|].
    apply (Hstep _ (String a (String b (String c ""))) s); auto. lia. }
  destruct s as [|d s]; [done|]. simpl in Hs. destruct (cont d) eqn:Hd; [|done]. cbn [andb].
  destruct (Z.leb_spec 65536 ((code a - 240) * 262144 + six b * 4096 + six c * 64 + six d)); [|done].
  destruct (Z.ltb_spec ((code a - 240) * 262144 + six b * 4096 + six c * 64 + six d) 1114112); [|done].
  cbn [andb]. apply (Hstep _ (String a (String b (String c (String d "")))) s);
    [done|lia|by apply encode_four|unfold scalar; lia].
Qed.

Lemma utf8_decode_ascii s :
  sall (fun c => code c <? 128) s = true -> utf8_decode s = Some (code <$> list_ascii_of_string s).
Proof.
  induction s as [|c s IH]; [done|]. cbn [sall utf8_decode list_ascii_of_string].
  intros [-> Hs]%andb_prop. by rewrite IH.
Qed.

(** ** Decoding with replacement *)

(** How many continuation bytes a byte announces, and the range of the first. *)
Definition lead (c : ascii) : option (nat * Z * Z) :=
  let n := code c in
  if n <? 128 then Some (O, 0, 0)
  else if (194 <=? n) && (n <=? 223) then Some (1%nat, 128, 191)
  else if n =? 224 then Some (2%nat, 160, 191)
  else if n =? 237 then Some (2%nat, 128, 159)
  else if (225 <=? n) && (n <=? 239) then Some (2%nat, 128, 191)
  else if n =? 240 then Some (3%nat, 144, 191)
  else if (241 <=? n) && (n <=? 243) then Some (3%nat, 128, 191)
  else if n =? 244 then Some (3%nat, 128, 143)
  else None.
(** How many of [n] continuation bytes follow. *)
Fixpoint continued (n : nat) (lo hi : Z) (s : string) : nat :=
  match n, s with
  | S n, String c s => if in_range lo hi c then S (continued n 128 191 s) else O
  | _, _ => O
  end.
Definition REPLACEMENT : string := String "239"%char (String "191"%char (String "189"%char "")).

(** [skip] bytes belong to a sequence already seen, which is kept or was replaced. *)
Fixpoint replacing (skip : nat) (keep : bool) (s : string) : string :=
  match s with
  | "" => ""
  | String c r =>
      match skip with
      | S skip => if keep then String c (replacing skip keep r) else replacing skip keep r
      | O =>
          match lead c with
          | None => REPLACEMENT ++ replacing O true r
          | Some (n, lo, hi) =>
              let k := continued n lo hi r in
              if Nat.eqb k n then String c (replacing n true r) else REPLACEMENT ++ replacing k false r
          end
      end
  end.
(** [data.decode("utf-8", "replace")]: each maximal part of a sequence that is not one
    becomes U+FFFD. *)
Definition decode_replace (s : string) : string := replacing O true s.

Example decode_replace_ex :
  decode_replace (String "a"%char (String "255"%char (String "195"%char (String "169"%char (String "226"%char (String "130"%char "b"))))))
  = "a" ++ REPLACEMENT ++ String "195"%char (String "169"%char "") ++ REPLACEMENT ++ "b".
Proof. reflexivity. Qed.

Lemma decode_replace_ascii s : sall (fun c => code c <? 128) s = true -> decode_replace s = s.
Proof.
  unfold decode_replace. induction s as [|c s IH]; [done|]. cbn [sall replacing]. intros [Hc Hs]%andb_prop.
  unfold lead. rewrite Hc. cbn [continued Nat.eqb]. by rewrite IH.
Qed.

(** Text: valid UTF-8 without surrogates, what a Python [str] from outside is. *)
Definition surrogate (n : Z) : bool := (55296 <=? n) && (n <=? 57343).
Definition is_text (s : string) : bool :=
  match utf8_decode s with Some l => forallb (fun n => negb (surrogate n)) l | None => false end.

Lemma is_text_decode s :
  is_text s = true ->
  exists l, utf8_decode s = Some l /\ utf8 l = s /\ Forall (fun n => scalar n /\ surrogate n = false) l.
Proof.
  unfold is_text. destruct (utf8_decode s) as [l|] eqn:E; [|done]. intros Hl.
  destruct (utf8_decode_encode s l E) as [Hu Hs]. exists l. split; [done|]. split; [done|].
  apply Forall_and. split; [done|]. rewrite forallb_forall in Hl.
  apply Forall_forall. intros n Hn%list_elem_of_In. by apply negb_true_iff, Hl.
Qed.

Lemma is_text_ascii s : sall (fun c => code c <? 128) s = true -> is_text s = true.
Proof.
  intros Hs. unfold is_text. rewrite utf8_decode_ascii by done. rewrite forallb_forall.
  intros n Hn%list_elem_of_In%list_elem_of_fmap. destruct Hn as (c & -> & Hc).
  assert (code c < 128) as Hlt.
  { revert Hs Hc. clear. induction s as [|d s IH]; simpl; [by intros _ ?%not_elem_of_nil|].
    intros [Hd Hs]%andb_prop [->|Hc]%elem_of_cons; [by apply Z.ltb_lt|auto]. }
  unfold surrogate. apply negb_true_iff, andb_false_iff. left. apply Z.leb_gt. lia.
Qed.

(** ** Decodable strings *)

Lemma utf8_decode_app a l b :
  utf8_decode a = Some l -> utf8_decode (a ++ b) = (fun m => l ++ m)%list <$> utf8_decode b.
Proof.
  remember (String.length a) as k eqn:Hk. assert (String.length a <= k)%nat as Ha by lia. clear Hk.
  revert a l Ha. induction k as [|k IH]; intros a l Ha.
  { destruct a; [|simpl in Ha; lia]. intros [= <-]. simpl. by destruct (utf8_decode b). }
  assert (forall n r, (String.length r <= k)%nat -> cons n <$> utf8_decode r = Some l ->
    cons n <$> utf8_decode (r ++ b) = (fun m => l ++ m)%list <$> utf8_decode b) as Hstep.
  { intros n r Hr (l' & Hl & ->)%fmap_cons_Some. rewrite (IH r l' Hr Hl). by destruct (utf8_decode b). }
  destruct a as [|c a]; [intros [= <-]; simpl; by destruct (utf8_decode b)|].
  simpl in Ha. cbn [append utf8_decode].
  destruct (code c <? 128); [apply Hstep; lia|]. destruct (code c <? 194); [done|].
  destruct a as [|d a]; [done|]. simpl in Ha. cbn [append]. destruct (negb (cont d)); [done|].
  destruct (code c <? 224); [apply Hstep; lia|].
  destruct a as [|e a]; [done|]. simpl in Ha. cbn [append]. destruct (negb (cont e)); [done|].
  destruct (code c <? 240).
  { destruct (2048 <=? _); [apply Hstep; lia|done]. }
  destruct a as [|g a]; [done|]. simpl in Ha. cbn [append]. destruct (_ && _ && _); [apply Hstep; lia|done].
Qed.

Definition decodable (s : string) : Prop := is_Some (utf8_decode s).

Lemma decodable_app a b : decodable a -> decodable b -> decodable (a ++ b).
Proof. intros [l Hl] [m Hm]. unfold decodable. rewrite (utf8_decode_app a l b Hl), Hm. by eexists. Qed.

Lemma decodable_ascii s : sall (fun c => code c <? 128) s = true -> decodable s.
Proof. intros Hs. unfold decodable. rewrite utf8_decode_ascii by done. by eexists. Qed.

Lemma decodable_concat l : Forall decodable l -> decodable (String.concat "" l).
Proof.
  induction 1 as [|s l Hs Hl IH]; [by eexists|]. rewrite sconcat_cons. by apply decodable_app.
Qed.
Lemma decodable_join sep l : decodable sep -> Forall decodable l -> decodable (join sep l).
Proof.
  intros Hsep. induction 1 as [|s l Hs Hl IH]; [by eexists|].
  destruct l as [|t l]; [done|]. apply decodable_app; [done|]. by apply decodable_app.
Qed.

Lemma cont_chr n : 0 <= n < 64 -> cont (chr (128 + n)) = true /\ six (chr (128 + n)) = n.
Proof.
  intros Hn. unfold cont, in_range, six. rewrite code_chr by lia.
  rewrite andb_true_iff, !Z.leb_le. lia.
Qed.

Lemma utf8_decode_one n : scalar n -> utf8_decode (utf8_encode n) = Some [n].
Proof.
  unfold scalar. intros Hn. unfold utf8_encode.
  pose proof (Z.mod_pos_bound n 64 ltac:(lia)) as B0. pose proof (Z.mod_pos_bound (n / 64) 64 ltac:(lia)) as B1.
  pose proof (Z.mod_pos_bound (n / 4096) 64 ltac:(lia)) as B2.
  destruct (cont_chr _ B0) as [C0 S0]. destruct (cont_chr _ B1) as [C1 S1]. destruct (cont_chr _ B2) as [C2 S2].
  assert (n = n / 64 * 64 + n mod 64) as D0 by (pose proof (Z.div_mod n 64); lia).
  assert (n / 64 = n / 4096 * 64 + n / 64 mod 64) as D1.
  { pose proof (Z.div_mod (n / 64) 64). replace (n / 4096) with (n / 64 / 64) by (rewrite Z.div_div by lia; reflexivity). lia. }
  assert (n / 4096 = n / 262144 * 64 + n / 4096 mod 64) as D2.
  { pose proof (Z.div_mod (n / 4096) 64). replace (n / 262144) with (n / 4096 / 64) by (rewrite Z.div_div by lia; reflexivity). lia. }
  destruct (Z.ltb_spec n 128).
  { cbn [utf8_decode]. rewrite code_chr by lia. by rewrite (proj2 (Z.ltb_lt _ _)) by lia. }
  assert (0 <= n / 262144) by (apply Z.div_pos; lia).
  destruct (Z.ltb_spec n 2048).
  { cbn [utf8_decode]. rewrite code_chr by lia.
    rewrite (proj2 (Z.ltb_ge _ 128)), (proj2 (Z.ltb_ge _ 194)), (proj2 (Z.ltb_lt _ 224)), C0, S0 by lia.
    cbn. do 2 f_equal. lia. }
  destruct (Z.ltb_spec n 65536).
  { cbn [utf8_decode]. rewrite code_chr by lia.
    rewrite (proj2 (Z.ltb_ge _ 128)), (proj2 (Z.ltb_ge _ 194)), (proj2 (Z.ltb_ge _ 224)),
      (proj2 (Z.ltb_lt _ 240)), C0, C1, S0, S1 by lia. cbn [negb].
    rewrite (proj2 (Z.leb_le _ _)) by lia. cbn. do 2 f_equal. lia. }
  cbn [utf8_decode]. rewrite code_chr by lia.
  rewrite (proj2 (Z.ltb_ge _ 128)), (proj2 (Z.ltb_ge _ 194)), (proj2 (Z.ltb_ge _ 224)),
    (proj2 (Z.ltb_ge _ 240)), C0, C1, C2, S0, S1, S2 by lia. cbn [negb andb].
  rewrite (proj2 (Z.leb_le _ _)), (proj2 (Z.ltb_lt _ _)) by lia. cbn. do 2 f_equal. lia.
Qed.
