(* ===== verification/Datetime.v ===== *)
(** * Datetimes

    UTC instants are microseconds since 1970-01-01T00:00:00Z.  This file gives
    the two standard-library renderings the service stores and reads back:
    [datetime.isoformat()] of an aware UTC value and [datetime.fromisoformat]
    on that form, over the proleptic Gregorian calendar.  The service writes
    [failing_since] with the first and reads it with the second
    (app/services/dns_checks.py). *)

From S2P Require Import Prelude PyStr.
From stdpp Require Import base strings list.
From Stdlib Require Import Ascii String ZArith Lia.
Open Scope string_scope.
Open Scope Z_scope.

(** ** The calendar *)

Record civil := Civil { year : Z; month : Z; day : Z }.

(** Days since 1970-01-01 to a date, counted in 400-year eras of years that
    begin on March 1st. *)
Definition civil_from_days (z : Z) : civil :=
  let z := z + 719468 in
  let era := z / 146097 in
  let doe := z mod 146097 in
  let yoe := (doe - doe / 1460 + doe / 36524 - doe / 146096) / 365 in
  let doy := doe - (365 * yoe + yoe / 4 - yoe / 100) in
  let mp := (5 * doy + 2) / 153 in
  let d := doy - (153 * mp + 2) / 5 + 1 in
  let m := if mp <? 10 then mp + 3 else mp - 9 in
  Civil (yoe + era * 400 + (if m <=? 2 then 1 else 0)) m d.

Definition days_from_civil (c : civil) : Z :=
  let y := year c - (if month c <=? 2 then 1 else 0) in
  let era := y / 400 in
  let yoe := y mod 400 in
  let mp := if 2 <? month c then month c - 3 else month c + 9 in
  let doy := (153 * mp + 2) / 5 + day c - 1 in
  let doe := yoe * 365 + yoe / 4 - yoe / 100 + doy in
  era * 146097 + doe - 719468.

(** ** Fixed-width decimal fields *)

Definition digit_char (d : Z) : ascii := ascii_of_nat (Z.to_nat (48 + d)).

Fixpoint pad_digits (width : nat) (n : Z) : string :=
  match width with
  | O => ""
  | S w => (pad_digits w (n / 10) ++ String (digit_char (n mod 10)) "")%string
  end.

(** Read exactly [width] digits. *)
Fixpoint read_digits (width : nat) (acc : Z) (s : string) : option (Z * string) :=
  match width, s with
  | O, _ => Some (acc, s)
  | S w, String c s' =>
      if is_digit c then read_digits w (acc * 10 + (code c - 48)) s' else None
  | S _, EmptyString => None
  end.

(** Read one expected character. *)
Definition expect (c : ascii) (s : string) : option string :=
  match s with
  | String c' s' => if Ascii.eqb c c' then Some s' else None
  | EmptyString => None
  end.

(** ** isoformat and fromisoformat *)

Definition day_micros : Z := 86400000000.

(** An aware UTC datetime, its offset written as [zone]; the fraction is left out when
    it is zero. *)
Definition iso_written (zone : string) (t : Z) : string :=
  let c := civil_from_days (t / day_micros) in
  let r := t mod day_micros in
  let us := r mod 1000000 in
  let s := r / 1000000 in
  let fraction := if us =? 0 then "" else "." +:+ pad_digits 6 us in
  (pad_digits 4 (year c) ++ "-" ++ pad_digits 2 (month c) ++ "-" ++ pad_digits 2 (day c) ++ "T"
   ++ pad_digits 2 (s / 3600)%Z ++ ":" ++ pad_digits 2 (s / 60 mod 60)%Z ++ ":" ++ pad_digits 2 (s mod 60)%Z
   ++ fraction ++ zone)%string.
(** [value.isoformat()] *)
Definition isoformat (t : Z) : string := iso_written "+00:00" t.

(** [value.date().isoformat()] *)
Definition isodate (t : Z) : string :=
  let c := civil_from_days (t / day_micros) in
  (pad_digits 4 (year c) ++ "-" ++ pad_digits 2 (month c) ++ "-" ++ pad_digits 2 (day c))%string.

(** [datetime.fromisoformat] on the form [isoformat] writes, or with [Z] for the offset;
    other inputs give [None] here (the service only reads back what it wrote). *)
Definition fromisoformat (s : string) : option Z :=
  '(y, s) ← read_digits 4 0 s; s ← expect "-" s;
  '(m, s) ← read_digits 2 0 s; s ← expect "-" s;
  '(d, s) ← read_digits 2 0 s; s ← expect "T" s;
  '(hh, s) ← read_digits 2 0 s; s ← expect ":" s;
  '(mm, s) ← read_digits 2 0 s; s ← expect ":" s;
  '(ss, s) ← read_digits 2 0 s;
  '(us, s) ← match expect "." s with
             | Some s' => read_digits 6 0 s'
             | None => Some (0, s)
             end;
  if (String.eqb s "+00:00" || String.eqb s "Z") && (1 <=? m) && (m <=? 12) && (1 <=? d) && (d <=? 31)
     && (hh <? 24) && (mm <? 60) && (ss <? 60)
  then Some (days_from_civil (Civil y m d) * day_micros + (hh * 3600 + mm * 60 + ss) * 1000000 + us)
  else None.

(** Instants Python can represent: years 1 to 9999. *)
Definition representable (t : Z) : Prop :=
  1 <= year (civil_from_days (t / day_micros)) <= 9999.

(** ** Lemmas *)

Lemma year_of_era doe (Hd : 0 <= doe < 146097) :
  let yoe := (doe - doe / 1460 + doe / 36524 - doe / 146096) / 365 in
  0 <= yoe < 400 /\ 0 <= doe - (365 * yoe + yoe / 4 - yoe / 100) <= 365.
Proof.
  intros yoe.
  assert (exists c, doe / 36524 = c /\ (c = 0 \/ c = 1 \/ c = 2 \/ c = 3 \/ c = 4)) as (c & Ec & Hc)
    by (eexists; split; [reflexivity|Z.div_mod_to_equations; lia]).
  assert (exists l, doe / 146096 = l /\ (l = 0 \/ l = 1)) as (l & El & Hl)
    by (eexists; split; [reflexivity|Z.div_mod_to_equations; lia]).
  subst yoe. rewrite Ec, El.
  destruct Hc as [->|[->|[->|[->| ->]]]], Hl as [-> | ->];
    (split; Z.div_mod_to_equations; lia).
Qed.

Lemma civil_days z :
  let c := civil_from_days z in
  1 <= month c <= 12 /\ 1 <= day c <= 31 /\ days_from_civil c = z.
Proof.
  unfold civil_from_days, days_from_civil. simpl.
  pose proof (Z.mod_pos_bound (z + 719468) 146097 ltac:(lia)) as Hd.
  pose proof (year_of_era _ Hd) as [Hy Hdoy].
  pose proof (Z.div_mod (z + 719468) 146097 ltac:(lia)) as Hz.
  set (doe := (z + 719468) mod 146097) in *. set (era := (z + 719468) / 146097) in *.
  set (yoe := (doe - doe / 1460 + doe / 36524 - doe / 146096) / 365) in *.
  assert (exists doy, doe - (365 * yoe + yoe / 4 - yoe / 100) = doy) as [doy E] by eauto.
  rewrite E in *. clearbody doe era yoe.
  assert (0 <= (5 * doy + 2) / 153 <= 11) as Hm by (Z.div_mod_to_equations; lia).
  assert (1 <= doy - (153 * ((5 * doy + 2) / 153) + 2) / 5 + 1 <= 31) as Hday
    by (Z.div_mod_to_equations; lia).
  set (mp := (5 * doy + 2) / 153) in *. clearbody mp.
  assert ((if mp <? 10 then mp + 3 else mp - 9) = mp + 3 /\ mp < 10 \/
          (if mp <? 10 then mp + 3 else mp - 9) = mp - 9 /\ 10 <= mp) as Hmonth
    by (destruct (Z.ltb_spec mp 10); lia).
  set (m := if mp <? 10 then _ else _) in *. clearbody m.
  assert ((if 2 <? m then m - 3 else m + 9) = mp) as ->
    by (destruct (Z.ltb_spec 2 m); lia).
  assert (forall b, yoe + era * 400 + b - b = yoe + era * 400) as -> by lia.
  assert ((yoe + era * 400) / 400 = era) as -> by (Z.div_mod_to_equations; lia).
  assert ((yoe + era * 400) mod 400 = yoe) as -> by (Z.div_mod_to_equations; lia).
  lia.
Qed.

Lemma code_digit_char d : 0 <= d < 10 -> code (digit_char d) = 48 + d.
Proof.
  intros H. unfold code, digit_char.
  rewrite nat_ascii_embedding; lia.
Qed.

Lemma is_digit_char d : 0 <= d < 10 -> is_digit (digit_char d) = true.
Proof.
  intros H. unfold is_digit, in_range. rewrite code_digit_char by lia.
  apply andb_true_intro; lia.
Qed.

Lemma read_digits_app v w acc s r n :
  read_digits v acc s = Some (n, r) -> read_digits (v + w) acc s = read_digits w n r.
Proof.
  revert acc s. induction v; simpl; intros acc s.
  - intros [= -> ->]. done.
  - destruct s as [|c s]; [done|]. destruct (is_digit c); [|done]. apply IHv.
Qed.

Lemma read_pad w acc n rest :
  0 <= n < 10 ^ Z.of_nat w ->
  read_digits w acc (pad_digits w n ++ rest)%string = Some (acc * 10 ^ Z.of_nat w + n, rest).
Proof.
  revert n rest. induction w as [|w IH]; intros n rest Hn.
  { simpl in *. f_equal. f_equal. lia. }
  rewrite Nat2Z.inj_succ, Z.pow_succ_r in Hn |- * by lia.
  simpl pad_digits. rewrite <- sapp_assoc.
  assert (0 <= n / 10 < 10 ^ Z.of_nat w) as Hq by (Z.div_mod_to_equations; lia).
  pose proof (read_digits_app w 1 acc _ _ _ (IH (n / 10) (String (digit_char (n mod 10)) "" ++ rest)%string Hq)) as E.
  rewrite Nat.add_1_r in E. rewrite E. simpl.
  pose proof (Z.mod_pos_bound n 10 ltac:(lia)).
  rewrite is_digit_char, code_digit_char by lia. f_equal. f_equal.
  pose proof (Z.div_mod n 10). lia.
Qed.

#[local] Opaque pad_digits read_digits days_from_civil.

(** Reading back what [isoformat] wrote gives the same instant. *)
Lemma fromisoformat_written zone t :
  zone = "+00:00" \/ zone = "Z" -> representable t -> fromisoformat (iso_written zone t) = Some t.
Proof.
  unfold representable, fromisoformat, iso_written. intros Hz Hy.
  pose proof (civil_days (t / day_micros)) as (Hm & Hd & Hback).
  pose proof (Z.mod_pos_bound t day_micros ltac:(done)) as Hr.
  pose proof (Z.div_mod t day_micros ltac:(done)) as Ht.
  destruct (civil_from_days (t / day_micros)) as [y m d]. simpl in Hy, Hm, Hd.
  set (r := t mod day_micros) in *. unfold day_micros in Hr.
  assert (0 <= r mod 1000000 < 1000000) as Hus by (apply Z.mod_pos_bound; lia).
  assert (0 <= r / 1000000 < 86400) as Hs by (Z.div_mod_to_equations; lia).
  pose proof (Z.div_mod r 1000000 ltac:(lia)) as Er.
  set (us := r mod 1000000) in *. set (s := r / 1000000) in *. cbv zeta.
  assert (0 <= s / 3600 < 24) by (Z.div_mod_to_equations; lia).
  assert (0 <= (s / 60) mod 60 < 60) by (apply Z.mod_pos_bound; lia).
  assert (0 <= s mod 60 < 60) by (apply Z.mod_pos_bound; lia).
  assert (s = s / 3600 * 3600 + (s / 60) mod 60 * 60 + s mod 60) as Es
    by (Z.div_mod_to_equations; lia).
  cbn [year month day].
  do 6 (rewrite read_pad by (simpl; lia); simpl).
  assert (us = 0 /\ (us =? 0) = true \/ (us =? 0) = false) as [[E0 ->]| ->] by lia; simpl.
  2: rewrite read_pad by (simpl; lia); simpl.
  all: destruct Hz as [-> | ->]; simpl; rewrite !Z.mul_0_l, !Z.add_0_l; repeat rewrite (proj2 (Z.leb_le _ _)) by lia; repeat rewrite (proj2 (Z.ltb_lt _ _)) by lia;
    cbn [andb]; rewrite Hback; apply f_equal; unfold day_micros in *; lia.
Qed.
#[local] Transparent pad_digits read_digits days_from_civil.

Lemma fromisoformat_isoformat t : representable t -> fromisoformat (isoformat t) = Some t.
Proof. apply fromisoformat_written. by left. Qed.

Example isoformat_ex : isoformat 1735689600000001 = "2025-01-01T00:00:00.000001+00:00".
Proof. vm_compute. reflexivity. Qed.
Example isoformat_ex2 : isoformat 951782400000000 = "2000-02-29T00:00:00+00:00".
Proof. vm_compute. reflexivity. Qed.
