(* ===== verification/Json.v ===== *)
(** * JSON values

    Python objects that come from or go to JSON: check details, event payloads,
    metadata and the Caddy configuration.  A [dict] is the list of its items in
    insertion order.  Numbers are integers: floats, which the source allows in the metadata
    of a domain, have no value here. *)

From S2P Require Import Prelude PyStr.
From stdpp Require Import base strings list.
From Stdlib Require Import ZArith Lia.
Open Scope string_scope.
Open Scope Z_scope.

Inductive json : Type :=
| JNull
| JBool (b : bool)
| JInt (n : Z)
| JStr (s : string)
| JArr (l : list json)
| JObj (kvs : list (string * json)).

Abbreviation dict := (list (string * json)) (only parsing).

(** ** Dictionaries *)

(** [d.get(k)] *)
Fixpoint dget (k : string) (d : dict) : option json :=
  match d with
  | [] => None
  | (k', v) :: d => if String.eqb k k' then Some v else dget k d
  end.

(** [d[k] = v] *)
Fixpoint dset (k : string) (v : json) (d : dict) : dict :=
  match d with
  | [] => [(k, v)]
  | (k', v') :: d => if String.eqb k k' then (k', v) :: d else (k', v') :: dset k v d
  end.

Definition dkeys (d : dict) : list string := fst <$> d.
Definition has_key (k : string) (d : dict) : bool :=
  match dget k d with Some _ => true | None => false end.
Definition mem_str (k : string) (l : list string) : bool := existsb (String.eqb k) l.
(** [set(a) - set(b)] is empty *)
Definition subset_str (a b : list string) : bool := forallb (fun k => mem_str k b) a.
(** [set(a) == set(b)] *)
Definition same_str (a b : list string) : bool := subset_str a b && subset_str b a.

(** [bool(x)] *)
Definition truthy (j : json) : bool :=
  match j with
  | JNull => false
  | JBool b => b
  | JInt n => negb (n =? 0)
  | JStr s => negb (String.eqb s "")
  | JArr l => match l with [] => false | _ => true end
  | JObj d => match d with [] => false | _ => true end
  end.

Definition as_str (j : json) : option string := match j with JStr s => Some s | _ => None end.
Definition as_arr (j : json) : option (list json) := match j with JArr l => Some l | _ => None end.
Definition as_obj (j : json) : option dict := match j with JObj d => Some d | _ => None end.

(** The number an [int] or [bool] compares as: [True == 1] in Python. *)
Definition as_num (j : json) : option Z :=
  match j with JInt n => Some n | JBool b => Some (if b then 1 else 0) | _ => None end.

(** Python's [==]: dictionaries compare regardless of order. *)
Fixpoint json_eqb (a b : json) {struct a} : bool :=
  match a, b with
  | JNull, JNull => true
  | JStr s, JStr t => String.eqb s t
  | JArr l, JArr m =>
      (fix arr (l m : list json) {struct l} : bool :=
         match l, m with
         | [], [] => true
         | x :: l, y :: m => json_eqb x y && arr l m
         | _, _ => false
         end) l m
  | JObj d, JObj e =>
      (length d =? length e)%nat &&
      (fix items (d : dict) {struct d} : bool :=
         match d with
         | [] => true
         | (k, v) :: d => (match dget k e with Some w => json_eqb v w | None => false end) && items d
         end) d
  | _, _ =>
      match as_num a, as_num b with Some n, Some m => n =? m | _, _ => false end
  end.

Definition jstr_list (l : list string) : json := JArr (JStr <$> l).

(** ** Facts *)

Section JsonInd.
Context (P : json -> Prop).
Context (Hnull : P JNull) (Hbool : forall b, P (JBool b)) (Hint : forall n, P (JInt n))
        (Hstr : forall s, P (JStr s)).
Context (Harr : forall l, Forall P l -> P (JArr l)).
Context (Hobj : forall d : dict, Forall (fun kv => P kv.2) d -> P (JObj d)).

Fixpoint json_rect' (j : json) : P j :=
  match j with
  | JNull => Hnull
  | JBool b => Hbool b
  | JInt n => Hint n
  | JStr s => Hstr s
  | JArr l => Harr l
      ((fix go (l : list json) : Forall P l :=
          match l with
          | [] => Forall_nil_2 _
          | x :: l => Forall_cons_2 _ _ _ (json_rect' x) (go l)
          end) l)
  | JObj d => Hobj d
      ((fix go (d : dict) : Forall (fun kv => P kv.2) d :=
          match d with
          | [] => Forall_nil_2 _
          | kv :: d => Forall_cons_2 _ _ _ (json_rect' kv.2) (go d)
          end) d)
  end.
End JsonInd.

Lemma dget_dset_eq k v d : dget k (dset k v d) = Some v.
Proof.
  induction d as [|[k' v'] d IH]; simpl; [by rewrite String.eqb_refl|].
  destruct (String.eqb k k') eqn:E; simpl; by rewrite E.
Qed.

Lemma dget_dset_ne k k' v d : k <> k' -> dget k (dset k' v d) = dget k d.
Proof.
  intros Hne. induction d as [|[k0 v0] d IH]; simpl.
  - by rewrite (proj2 (String.eqb_neq k k') Hne).
  - destruct (String.eqb k' k0) eqn:E; simpl.
    + apply String.eqb_eq in E as ->. by rewrite (proj2 (String.eqb_neq k k0) Hne).
    + by rewrite IH.
Qed.

Lemma mem_str_true k l : mem_str k l = true <-> k ∈ l.
Proof.
  unfold mem_str. rewrite existsb_exists. setoid_rewrite String.eqb_eq.
  rewrite list_elem_of_In. naive_solver.
Qed.

Lemma subset_str_true a b : subset_str a b = true <-> forall k, k ∈ a -> k ∈ b.
Proof.
  unfold subset_str. rewrite forallb_forall. setoid_rewrite mem_str_true.
  by setoid_rewrite list_elem_of_In.
Qed.

Lemma subset_str_refl a : subset_str a a = true.
Proof. by apply subset_str_true. Qed.

Lemma same_str_refl a : same_str a a = true.
Proof. unfold same_str. by rewrite subset_str_refl. Qed.

(** A dictionary without duplicate keys. *)
Fixpoint jwf (j : json) : Prop :=
  match j with
  | JArr l => (fix go (l : list json) : Prop :=
                 match l with [] => True | x :: l => jwf x /\ go l end) l
  | JObj d => NoDup (dkeys d) /\
              (fix go (d : dict) : Prop :=
                 match d with [] => True | (_, v) :: d => jwf v /\ go d end) d
  | _ => True
  end.

Lemma dget_in k v d : NoDup (dkeys d) -> (k, v) ∈ d -> dget k d = Some v.
Proof.
  induction d as [|[k' v'] d IH]; simpl; [by intros _ ?%not_elem_of_nil|].
  intros [Hk Hd]%NoDup_cons [[= -> ->]|Hin]%elem_of_cons; [by rewrite String.eqb_refl|].
  destruct (String.eqb k k') eqn:E; [|by apply IH].
  apply String.eqb_eq in E as ->. destruct Hk.
  apply list_elem_of_fmap. by exists (k', v).
Qed.

Lemma json_eqb_refl j : jwf j -> json_eqb j j = true.
Proof.
  induction j as [|b|n|s|l IH|d IH] using json_rect'; simpl; try done.
  - by destruct b.
  - intros _. apply Z.eqb_refl.
  - intros _. apply String.eqb_refl.
  - induction IH as [|x l Hx Hl IHl]; [done|]. intros [Wx Wl]. by rewrite Hx, IHl.
  - intros [Hnd Hwf]. rewrite Nat.eqb_refl. simpl.
    assert (forall e : dict, e ⊆ d -> Forall (fun kv => jwf kv.2 -> json_eqb kv.2 kv.2 = true) e ->
      (fix go (d : dict) : Prop :=
         match d with [] => True | (_, v) :: d => jwf v /\ go d end) e ->
      (fix items (d0 : dict) {struct d0} : bool :=
         match d0 with
         | [] => true
         | (k, v) :: d0 => (match dget k d with Some w => json_eqb v w | None => false end)
                           && items d0
         end) e = true) as Hgo; [|by apply Hgo].
    induction e as [|[k v] e IHe]; [done|]. intros Hsub [Hv He]%Forall_cons [Wv We].
    rewrite (dget_in k v d) by (try done; apply Hsub; left). simpl in Hv.
    rewrite Hv by done. apply IHe; try done. intros x Hx. apply Hsub. by right.
Qed.
