(* ===== verification/JsonText.v ===== *)
(** * JSON documents

    [json.dumps(value, separators=(",", ":"), sort_keys=True)] and [json.loads],
    which the service uses for assertions, webhook bodies and fingerprints.
    Numbers are integers: a document with a fraction or an exponent, as metadata with
    floats has, is not read here.  Theorem: reading a written document gives the
    value back, its dictionaries sorted by key. *)

From Stdlib Require Import Ascii String ZArith Lia.
From stdpp Require Import base strings list sets sorting pretty.
From S2P Require Import Prelude PyStr Base64 Utf8 Json.
Open Scope string_scope.
Open Scope Z_scope.

Definition QUOTE : ascii := "034"%char.
Definition BSLASH : ascii := "092"%char.
Definition str1 (c : ascii) : string := String c "".

(** ** Writing *)

Definition hex4 (n : Z) : string :=
  String (hex_nibble (n / 4096)) (String (hex_nibble (n / 256 mod 16))
    (String (hex_nibble (n / 16 mod 16)) (str1 (hex_nibble (n mod 16))))).
Definition u_escape (n : Z) : string := String BSLASH (String "u"%char (hex4 n)).

(** The two-character escapes, by code point and by the letter after the backslash. *)
Definition short_escapes : list (Z * ascii) :=
  [(34, QUOTE); (92, BSLASH); (10, "n"%char); (13, "r"%char); (9, "t"%char); (8, "b"%char); (12, "f"%char)].
Definition short_escape (n : Z) : option ascii :=
  snd <$> List.find (fun p => p.1 =? n) short_escapes.

(** One code point with [ensure_ascii] set, or without. *)
Definition escape (ensure_ascii : bool) (n : Z) : string :=
  match short_escape n with
  | Some c => String BSLASH (str1 c)
  | None =>
      if (32 <=? n) && (n <=? 126) then str1 (chr n)
      else if n <? 32 then u_escape n
      else if negb ensure_ascii then utf8_encode n
      else if n <? 65536 then u_escape n
      else u_escape (55296 + (n - 65536) / 1024) ++ u_escape (56320 + (n - 65536) mod 1024)
  end.

Definition code_points (s : string) : list Z := default [] (utf8_decode s).

Definition dump_string (ensure_ascii : bool) (s : string) : string :=
  String QUOTE (String.concat "" (escape ensure_ascii <$> code_points s) ++ str1 QUOTE).

(** The separators [","] and [":"]. *)
Fixpoint print (ensure_ascii : bool) (j : json) : string :=
  match j with
  | JNull => "null"
  | JBool b => if b then "true" else "false"
  | JInt n => py_str n
  | JStr s => dump_string ensure_ascii s
  | JArr l => "[" ++ join "," (print ensure_ascii <$> l) ++ "]"
  | JObj d => "{" ++ join "," ((fun kv => dump_string ensure_ascii kv.1 ++ ":" ++ print ensure_ascii kv.2) <$> d)
              ++ "}"
  end.

(** [sort_keys=True] *)
Definition key_le (x y : string * json) : Prop := String.leb x.1 y.1 = true.
#[export] Instance key_le_dec x y : Decision (key_le x y).
Proof. unfold key_le. apply _. Defined.

Fixpoint sort_json (j : json) : json :=
  match j with
  | JArr l => JArr (sort_json <$> l)
  | JObj d => JObj (merge_sort key_le ((fun kv => (kv.1, sort_json kv.2)) <$> d))
  | _ => j
  end.

(** [json.dumps(value, separators=(",", ":"), sort_keys=True)] *)
Definition dumps_sorted (j : json) : string := print true (sort_json j).
(** [json.dumps(value, separators=(",", ":"), ensure_ascii=False)] *)
Definition dumps_utf8 (j : json) : string := print false j.

(** [json.dumps(value)], with the separators [", "] and [": "]. *)
Fixpoint dumps (j : json) : string :=
  match j with
  | JNull => "null"
  | JBool b => if b then "true" else "false"
  | JInt n => py_str n
  | JStr s => dump_string true s
  | JArr l => "[" ++ join ", " (dumps <$> l) ++ "]"
  | JObj d => "{" ++ join ", " ((fun kv => dump_string true kv.1 ++ ": " ++ dumps kv.2) <$> d) ++ "}"
  end.

(** ** Reading *)

Definition json_space (c : ascii) : bool := in_range 9 10 c || (code c =? 13) || (code c =? 32).
Definition skip_ws (s : string) : string := lstrip_if json_space s.

Definition nibble_value (c : ascii) : option Z :=
  if is_digit c then Some (code c - 48)
  else if in_range 97 102 c then Some (code c - 87)
  else if in_range 65 70 c then Some (code c - 55) else None.
Definition read_hex4 (s : string) : option (Z * string) :=
  match s with
  | String a (String b (String c (String d r))) =>
      a ← nibble_value a; b ← nibble_value b; c ← nibble_value c; d ← nibble_value d;
      Some (a * 4096 + b * 256 + c * 16 + d, r)
  | _ => None
  end.

(** The code point after a backslash's letter; [/] also stands for itself. *)
Definition short_unescape (c : ascii) : option Z :=
  if char_eqb "/"%char c then Some 47
  else fst <$> List.find (fun p => char_eqb c p.2) short_escapes.

Definition prepend (p : string) (o : option (string * string)) : option (string * string) :=
  match o with Some (s, r) => Some (p ++ s, r)%string | None => None end.

(** The rest of a string literal: its value and what follows the closing quote. *)
Fixpoint read_string (fuel : nat) (s : string) : option (string * string) :=
  match fuel with
  | O => None
  | S fuel =>
      match s with
      | "" => None
      | String c r =>
          if char_eqb QUOTE c then Some ("", r)
          else if negb (char_eqb BSLASH c) then
            if code c <? 32 then None else prepend (str1 c) (read_string fuel r)
          else match r with
               | "" => None
               | String e r =>
                   if negb (char_eqb "u"%char e) then
                     n ← short_unescape e; prepend (utf8_encode n) (read_string fuel r)
                   else
                     '(n, r) ← read_hex4 r;
                     let single := prepend (utf8_encode n) (read_string fuel r) in
                     if (55296 <=? n) && (n <? 56320) then
                       match r with
                       | String b (String u r') =>
                           if char_eqb BSLASH b && char_eqb "u"%char u then
                             '(m, r') ← read_hex4 r';
                             if (56320 <=? m) && (m <? 57344)
                             then prepend (utf8_encode (65536 + (n - 55296) * 1024 + (m - 56320)))
                                    (read_string fuel r')
                             else single
                           else single
                       | _ => single
                       end
                     else single
               end
      end
  end.

Fixpoint span_digits (s : string) : string * string :=
  match s with
  | String c r => if is_digit c then let '(d, r) := span_digits r in (String c d, r) else ("", s)
  | "" => ("", "")
  end.

(** Digits without a leading zero, not followed by a fraction or an exponent. *)
Definition read_natural (negative : bool) (s : string) : option (Z * string) :=
  '(digits, r) ← match s with
                 | String "0"%char r => Some ("0", r)
                 | _ => match span_digits s with ("", _) => None | x => Some x end
                 end;
  n ← py_int digits;
  match r with
  | String c _ => if char_eqb "."%char c || char_eqb "e"%char c || char_eqb "E"%char c then None
                  else Some (if negative then - n else n, r)
  | "" => Some (if negative then - n else n, r)
  end.
Definition read_int (s : string) : option (Z * string) :=
  match s with String "-"%char r => read_natural true r | _ => read_natural false s end.

Definition drop_prefix (p s : string) : option string :=
  if startswith p s then Some (drop_str (String.length p) s) else None.

Section Elements.
Context (value : string -> option (json * string)).

(** After [[]: the elements up to the closing bracket. *)
Fixpoint read_elements (fuel : nat) (s : string) : option (list json * string) :=
  match fuel with
  | O => None
  | S fuel =>
      '(j, r) ← value s;
      match skip_ws r with
      | String ","%char r => '(l, r) ← read_elements fuel r; Some (j :: l, r)
      | String "]"%char r => Some ([j], r)
      | _ => None
      end
  end.

(** After [{]: the items up to the closing brace. *)
Fixpoint read_items (fuel : nat) (s : string) : option (dict * string) :=
  match fuel with
  | O => None
  | S fuel =>
      match skip_ws s with
      | String q r =>
          if negb (char_eqb QUOTE q) then None else
          '(k, r) ← read_string (S (String.length r)) r;
          match skip_ws r with
          | String ":"%char r =>
              '(j, r) ← value r;
              match skip_ws r with
              | String ","%char r => '(d, r) ← read_items fuel r; Some ((k, j) :: d, r)
              | String "}"%char r => Some ([(k, j)], r)
              | _ => None
              end
          | _ => None
          end
      | "" => None
      end
  end.
End Elements.

(** A repeated key keeps its place and takes its last value. *)
Definition dict_of (items : dict) : dict := foldl (fun d kv => dset kv.1 kv.2 d) [] items.

Definition constants : list (string * json) := [("null", JNull); ("true", JBool true); ("false", JBool false)].
Fixpoint read_constant (l : list (string * json)) (s : string) : option (json * string) :=
  match l with
  | [] => None
  | (p, j) :: l => match drop_prefix p s with Some r => Some (j, r) | None => read_constant l s end
  end.

Fixpoint read_value (fuel : nat) (s : string) : option (json * string) :=
  match fuel with
  | O => None
  | S fuel =>
      let s := skip_ws s in
      match s with
      | "" => None
      | String c r =>
          if char_eqb QUOTE c then
            '(t, r) ← read_string (S (String.length r)) r; Some (JStr t, r)
          else if char_eqb "["%char c then
            match skip_ws r with
            | String "]"%char r => Some (JArr [], r)
            | _ => '(l, r) ← read_elements (read_value fuel) fuel r; Some (JArr l, r)
            end
          else if char_eqb "{"%char c then
            match skip_ws r with
            | String "}"%char r => Some (JObj [], r)
            | _ => '(d, r) ← read_items (read_value fuel) fuel r; Some (JObj (dict_of d), r)
            end
          else match read_constant constants s with
               | Some x => Some x
               | None => '(n, r) ← read_int s; Some (JInt n, r)
               end
      end
  end.

(** [json.loads(data)] of bytes; [None]: it raises. *)
Definition loads (s : string) : option json :=
  _ ← utf8_decode s;
  '(j, r) ← read_value (S (String.length s)) s;
  if String.eqb (skip_ws r) "" then Some j else None.

Example loads_dumps_ex :
  let j := JObj [("b", JArr [JInt 1; JInt (-20); JBool true; JNull]); ("a", JObj []); ("c", JStr "x")] in
  loads (" " ++ dumps_sorted j ++ " ") = Some (sort_json j).
Proof. vm_compute. reflexivity. Qed.

(** ** The round trip *)

Lemma prepend_app p q o : prepend p (prepend q o) = prepend (p ++ q) o.
Proof. destruct o as [[s r]|]; simpl; [by rewrite sapp_assoc|done]. Qed.

Lemma nibble_round n : 0 <= n < 16 -> nibble_value (hex_nibble n) = Some n.
Proof.
  intros Hn.
  assert (forallb (fun k => bool_decide (nibble_value (hex_nibble (Z.of_nat k)) = Some (Z.of_nat k))) (seq 0 16)
          = true) as Ht by (vm_compute; reflexivity).
  rewrite forallb_forall in Ht. specialize (Ht (Z.to_nat n)).
  rewrite in_seq, bool_decide_eq_true, Z2Nat.id in Ht by lia. apply Ht. lia.
Qed.

Lemma read_hex4_hex4 n r : 0 <= n < 65536 -> read_hex4 (hex4 n ++ r) = Some (n, r).
Proof.
  intros Hn. cbn [hex4 append str1 read_hex4].
  pose proof (Z.mod_pos_bound (n / 256) 16). pose proof (Z.mod_pos_bound (n / 16) 16).
  pose proof (Z.mod_pos_bound n 16).
  assert (0 <= n / 4096 < 16) by (split; [apply Z.div_pos; lia|apply Z.div_lt_upper_bound; lia]).
  rewrite !nibble_round by lia. simpl. do 2 f_equal.
  replace (n / 4096) with (n / 16 / 16 / 16) by (rewrite !Z.div_div by lia; f_equal; lia).
  replace (n / 256) with (n / 16 / 16) by (rewrite Z.div_div by lia; f_equal; lia).
  pose proof (Z.div_mod n 16). pose proof (Z.div_mod (n / 16) 16). pose proof (Z.div_mod (n / 16 / 16) 16). lia.
Qed.

(** The letter of a two-character escape gives its code point back. *)
Lemma short_escape_round n c :
  short_escape n = Some c ->
  short_unescape c = Some n /\ char_eqb "u"%char c = false /\ 0 <= n < 128.
Proof.
  unfold short_escape, short_escapes. cbn [List.find fst].
  repeat match goal with
  | |- context [Z.eqb ?k n] =>
      destruct (Z.eqb_spec k n) as [<-|]; [intros [= <-]; split; [reflexivity|split; [reflexivity|lia]]|]
  end.
  done.
Qed.

Lemma short_escape_none n :
  short_escape n = None -> n <> 34 /\ n <> 92.
Proof.
  unfold short_escape, short_escapes. cbn [List.find fst].
  destruct (Z.eqb_spec 34 n); [done|]. destruct (Z.eqb_spec 92 n); [done|]. lia.
Qed.

(** A byte that stands for itself inside a literal. *)
Definition plain_byte (c : ascii) : bool :=
  negb (char_eqb QUOTE c) && negb (char_eqb BSLASH c) && (32 <=? code c).

Lemma read_plain c f r : plain_byte c = true -> read_string (S f) (String c r) = prepend (str1 c) (read_string f r).
Proof.
  unfold plain_byte. intros [[Hq Hb]%andb_prop Hc%Z.leb_le]%andb_prop. cbn [read_string].
  apply negb_true_iff in Hq as ->. rewrite Hb. by rewrite (proj2 (Z.ltb_ge _ _) Hc).
Qed.

Lemma read_plains p f r :
  sall plain_byte p = true -> read_string (String.length p + f) (p ++ r) = prepend p (read_string f r).
Proof.
  induction p as [|c p IH].
  - intros _. simpl. by destruct (read_string f r) as [[? ?]|].
  - cbn [sall]. intros [Hc Hp]%andb_prop. change (String.length (String c p) + f)%nat with (S (String.length p + f)).
    change (String c p ++ r)%string with (String c (p ++ r)). rewrite read_plain by done.
    by rewrite IH, prepend_app.
Qed.

Lemma read_short c n f r :
  short_unescape c = Some n -> char_eqb "u"%char c = false ->
  read_string (S f) (String BSLASH (String c r)) = prepend (utf8_encode n) (read_string f r).
Proof. intros Hn Hu. cbn [read_string]. change (char_eqb QUOTE BSLASH) with false. cbn iota. 
  change (negb (char_eqb BSLASH BSLASH)) with false. cbn iota. rewrite Hu. cbn [negb]. by rewrite Hn. Qed.

Lemma high_surrogate n : surrogate n = false -> (55296 <=? n) && (n <? 56320) = false.
Proof.
  unfold surrogate. rewrite !andb_false_iff, !Z.leb_gt, Z.ltb_ge. lia.
Qed.

(** Reading an escape of four digits. *)
Lemma read_escape n f r :
  0 <= n < 65536 -> surrogate n = false ->
  read_string (S f) (u_escape n ++ r) = prepend (utf8_encode n) (read_string f r).
Proof.
  intros Hn Hs. unfold u_escape. cbn [append read_string].
  change (char_eqb QUOTE BSLASH) with false. change (negb (char_eqb BSLASH BSLASH)) with false.
  change (negb (char_eqb "u"%char "u"%char)) with false. cbn iota. rewrite read_hex4_hex4 by done.
  cbn [mbind option_bind]. by rewrite high_surrogate by done.
Qed.

(** Reading the pair of a code point above the basic plane. *)
Lemma read_pair n f r :
  65536 <= n < 1114112 ->
  read_string (S f) (u_escape (55296 + (n - 65536) / 1024) ++ u_escape (56320 + (n - 65536) mod 1024) ++ r)
  = prepend (utf8_encode n) (read_string f r).
Proof.
  intros Hn. pose proof (Z.mod_pos_bound (n - 65536) 1024 ltac:(lia)) as Hlo.
  assert (0 <= (n - 65536) / 1024 < 1024) as Hhi
    by (split; [apply Z.div_pos; lia|apply Z.div_lt_upper_bound; lia]).
  unfold u_escape. cbn [append read_string].
  change (char_eqb QUOTE BSLASH) with false. change (negb (char_eqb BSLASH BSLASH)) with false.
  change (negb (char_eqb "u"%char "u"%char)) with false. cbn iota. rewrite read_hex4_hex4 by lia.
  cbn [mbind option_bind].
  rewrite (proj2 (Z.leb_le _ _)), (proj2 (Z.ltb_lt _ _)) by lia. cbn [andb].
  change (char_eqb BSLASH BSLASH && char_eqb "u"%char "u"%char) with true. cbn iota.
  rewrite read_hex4_hex4 by lia. cbn [mbind option_bind].
  rewrite (proj2 (Z.leb_le _ _)), (proj2 (Z.ltb_lt _ _)) by lia. cbn [andb].
  do 2 f_equal. pose proof (Z.div_mod (n - 65536) 1024). lia.
Qed.

Lemma utf8_encode_high n : 127 <= n < 1114112 -> sall plain_byte (utf8_encode n) = true.
Proof.
  assert (forall m, 127 <= m < 256 -> plain_byte (chr m) = true) as Hp.
  { intros m Hm. unfold plain_byte. rewrite code_chr by lia.
    assert (forall c, code c < 127 -> char_eqb c (chr m) = false) as Hne.
    { intros c Hc. unfold char_eqb. apply Ascii.eqb_neq. intros ->. rewrite code_chr in Hc; lia. }
    rewrite !Hne by (vm_compute; done). apply Z.leb_le. lia. }
  intros Hn. unfold utf8_encode.
  repeat match goal with
  | |- context [n mod 64] =>
      lazymatch goal with _ : 0 <= n mod 64 < 64 |- _ => fail
      | _ => pose proof (Z.mod_pos_bound n 64 ltac:(lia)) end
  | |- context [n / 64 mod 64] =>
      lazymatch goal with _ : 0 <= n / 64 mod 64 < 64 |- _ => fail
      | _ => pose proof (Z.mod_pos_bound (n / 64) 64 ltac:(lia)) end
  | |- context [n / 4096 mod 64] =>
      lazymatch goal with _ : 0 <= n / 4096 mod 64 < 64 |- _ => fail
      | _ => pose proof (Z.mod_pos_bound (n / 4096) 64 ltac:(lia)) end
  end.
  destruct (Z.ltb_spec n 128); [simpl; rewrite Hp by lia; done|].
  destruct (Z.ltb_spec n 2048).
  { assert (0 <= n / 64 < 32) by (split; [apply Z.div_pos; lia|apply Z.div_lt_upper_bound; lia]).
    cbn [sall]. by rewrite !Hp by lia. }
  destruct (Z.ltb_spec n 65536).
  { assert (0 <= n / 4096 < 16) by (split; [apply Z.div_pos; lia|apply Z.div_lt_upper_bound; lia]).
    cbn [sall]. by rewrite !Hp by lia. }
  assert (0 <= n / 262144 < 8) by (split; [apply Z.div_pos; lia|apply Z.div_lt_upper_bound; lia]).
  cbn [sall]. by rewrite !Hp by lia.
Qed.

Lemma slength_pos c s : (1 <= String.length (String c s))%nat.
Proof. simpl. lia. Qed.

(** One written code point is read in at most as many rounds as it has characters. *)
Lemma read_code_point ea n f r :
  scalar n -> surrogate n = false -> (String.length (escape ea n) <= f)%nat ->
  exists f', (f <= f' + String.length (escape ea n))%nat /\ (f' < f)%nat /\
    read_string f (escape ea n ++ r) = prepend (utf8_encode n) (read_string f' r).
Proof.
  intros Hn Hs Hf. unfold escape in *.
  destruct (short_escape n) as [c|] eqn:E.
  { apply short_escape_round in E as (Hc & Hu & _). destruct f as [|f]; [simpl in Hf; lia|].
    exists f. simpl String.length. split; [lia|]. split; [lia|]. by apply read_short. }
  apply short_escape_none in E as [Hq Hb].
  destruct ((32 <=? n) && (n <=? 126)) eqn:Hp.
  { apply andb_prop in Hp as [Hp1%Z.leb_le Hp2%Z.leb_le]. destruct f as [|f]; [simpl in Hf; lia|]. exists f. simpl String.length.
    split; [lia|]. split; [lia|]. unfold str1. cbn [append]. rewrite read_plain.
    - unfold utf8_encode. by rewrite (proj2 (Z.ltb_lt _ _)) by lia.
    - unfold plain_byte. rewrite code_chr by lia.
      assert (forall c, code c <> n -> char_eqb c (chr n) = false) as Hne.
      { intros c Hc. unfold char_eqb. apply Ascii.eqb_neq. intros ->. by rewrite code_chr in Hc by lia. }
      rewrite !Hne by (vm_compute; congruence). apply Z.leb_le. lia. }
  destruct (Z.ltb_spec n 32).
  { destruct f as [|f]; [simpl in Hf; lia|]. exists f. simpl String.length. split; [lia|]. split; [lia|].
    apply read_escape; [unfold scalar in Hn; lia|done]. }
  assert (127 <= n < 1114112) as Hh.
  { unfold scalar in Hn. apply andb_false_iff in Hp as [Hp%Z.leb_gt|Hp%Z.leb_gt]; lia. }
  destruct ea; cbn [negb] in *.
  - destruct (Z.ltb_spec n 65536).
    + destruct f as [|f]; [simpl in Hf; lia|]. exists f. simpl String.length. split; [lia|]. split; [lia|].
      apply read_escape; [lia|done].
    + destruct f as [|f]; [simpl in Hf; lia|]. exists f. simpl String.length. split; [lia|]. split; [lia|].
      rewrite <- sapp_assoc. by apply read_pair; lia.
  - exists (f - String.length (utf8_encode n))%nat.
    assert (1 <= String.length (utf8_encode n))%nat by (unfold utf8_encode; repeat case_match; simpl; lia).
    split; [lia|]. split; [lia|].
    rewrite <- (read_plains _ _ r) by by apply utf8_encode_high.
    f_equal. lia.
Qed.

(** *** String literals *)

Lemma read_code_points ea l f r :
  Forall (fun n => scalar n /\ surrogate n = false) l ->
  (String.length (String.concat "" (escape ea <$> l)) < f)%nat ->
  read_string f (String.concat "" (escape ea <$> l) ++ String QUOTE r) = Some (utf8 l, r).
Proof.
  intros Hl. revert f. induction Hl as [|n l [Hn Hs] Hl IH]; intros f Hf.
  - destruct f as [|f]; [simpl in Hf; lia|]. reflexivity.
  - rewrite fmap_cons, sconcat_cons in *. rewrite length_sapp in Hf. rewrite <- sapp_assoc.
    destruct (read_code_point ea n f (String.concat "" (escape ea <$> l) ++ String QUOTE r) Hn Hs)
      as (f' & Hf' & _ & ->); [lia|].
    rewrite IH by lia. cbn [prepend]. by rewrite utf8_cons.
Qed.

Lemma read_dumped ea s r f :
  is_text s = true -> (String.length (dump_string ea s) <= S f)%nat ->
  exists t, dump_string ea s ++ r = String QUOTE t /\ read_string f t = Some (s, r).
Proof.
  intros (l & Hl & Hu & Hf)%is_text_decode. unfold dump_string, code_points. rewrite Hl. change (default [] (Some l)) with l.
  cbn [String.length]. rewrite length_sapp. cbn [String.length str1]. intros Hlen.
  eexists. split; [reflexivity|]. rewrite <- sapp_assoc. change (str1 QUOTE ++ r) with (String QUOTE r).
  rewrite read_code_points; [by rewrite Hu|done|lia].
Qed.

(** *** Integers *)

Definition starts (p : ascii -> bool) (s : string) : bool :=
  match s with String c _ => p c | "" => false end.

(** What may follow a number without being read as part of it. *)
Definition number_char (c : ascii) : bool :=
  is_digit c || char_eqb "."%char c || char_eqb "e"%char c || char_eqb "E"%char c.

Lemma span_digits_app d r :
  sall is_digit d = true -> starts is_digit r = false -> span_digits (d ++ r) = (d, r).
Proof.
  intros Hd Hr. induction d as [|c d IH]; simpl.
  - destruct r as [|c r]; [done|]. simpl in *. by rewrite Hr.
  - simpl in Hd. apply andb_prop in Hd as [-> Hd]. by rewrite IH.
Qed.

(** A positive number's digits: all digits, the first not zero. *)
Lemma pretty_go_digits (n : N) s :
  (0 < n)%N -> exists c d, pretty_N_go n s = String c (d ++ s) /\ is_digit c = true /\
    char_eqb "0"%char c = false /\ sall is_digit d = true.
Proof.
  revert s. induction n as [n IH] using (well_founded_induction N.lt_wf_0); intros s Hn.
  rewrite pretty_N_go_step by done.
  assert (n `mod` 10 < 10)%N as Hm by (apply N.mod_lt; lia).
  destruct (pretty_N_char_digit _ Hm) as [Hd Hv]. pose proof (N.div_mod n 10 ltac:(lia)) as Hdm.
  destruct (decide (0 < n `div` 10)%N) as [Hq|Hq].
  - destruct (IH (n `div` 10)%N) with (s := String (pretty_N_char (n `mod` 10)) s) as (c & d & -> & Hc & H0 & Hds);
      [apply N.div_lt; lia|done|].
    exists c, (d ++ String (pretty_N_char (n `mod` 10)) "")%string. rewrite <- sapp_assoc.
    repeat split; [done|done|]. rewrite sall_app. simpl. by rewrite Hds, Hd.
  - assert (n `div` 10 = 0)%N as -> by lia. rewrite pretty_N_go_0.
    exists (pretty_N_char (n `mod` 10)), "". split; [done|]. split; [done|]. split; [|done].
    apply not_true_iff_false. intros E%Ascii.eqb_eq. rewrite <- E in Hv. change (digit_value "0"%char) with 0 in Hv.
    lia.
Qed.

Lemma py_str_digits n :
  0 < n -> exists c d, py_str n = String c d /\ is_digit c = true /\ char_eqb "0"%char c = false /\
    sall is_digit d = true.
Proof.
  intros Hn. destruct n as [|p|p]; [lia| |lia].
  destruct (pretty_go_digits (N.pos p) "") as (c & d & E & ?); [lia|].
  exists c, d. rewrite sapp_nil_r in E. split; [|done]. rewrite <- E. reflexivity.
Qed.

Lemma py_str_neg n : 0 < n -> py_str (- n) = String "-"%char (py_str n).
Proof. by destruct n. Qed.

Lemma py_int_digits c d :
  is_digit c = true -> sall is_digit d = true -> py_int (String c d) = int_digits 0 false (String c d).
Proof.
  intros Hc Hd. unfold py_int, strip. rewrite strip_if_none.
  - destruct c as [[] [] [] [] [] [] [] []]; try done.
  - apply (sall_impl is_digit); [|by simpl; rewrite Hc].
    clear. intros c. destruct c as [[] [] [] [] [] [] [] []]; by vm_compute.
Qed.

(** [str(n)] is digits and perhaps a sign, and [int] reads it back. *)
Lemma py_str_chars n : sall (fun c => is_digit c || char_eqb "-"%char c) (py_str n) = true.
Proof.
  assert (forall m, 0 < m -> sall (fun c => is_digit c || char_eqb "-"%char c) (py_str m) = true) as Hpos.
  { intros m Hm. destruct (py_str_digits m Hm) as (c & d & -> & Hc & _ & Hd). cbn [sall]. rewrite Hc.
    apply (sall_impl is_digit); [|done]. by intros ? ->. }
  destruct (Z.lt_trichotomy n 0) as [Hn|[->|Hn]]; [|done|by apply Hpos].
  replace n with (- - n) by lia. rewrite py_str_neg by lia. cbn [sall]. rewrite orb_true_r. apply Hpos. lia.
Qed.
Lemma py_int_py_str n : py_int (py_str n) = Some n.
Proof.
  assert (forall m, 0 < m -> int_digits 0 false (py_str m) = Some m) as Hpos.
  { intros [|p|p] Hp; [lia| |lia]. change (py_str (Z.pos p)) with (pretty_N_go (N.pos p) "").
    by rewrite int_digits_pretty_go by lia. }
  assert (strip (py_str n) = py_str n) as Hs.
  { apply strip_if_none. eapply sall_impl; [|apply py_str_chars]. intros c. cbv beta.
    by destruct c as [[] [] [] [] [] [] [] []]. }
  unfold py_int. rewrite Hs. destruct (Z.lt_trichotomy n 0) as [Hn|[->|Hn]]; [|done|].
  - replace n with (- - n) at 1 by lia. rewrite py_str_neg by lia. rewrite Hpos by lia. simpl. f_equal. lia.
  - rewrite <- Hpos by done. destruct (py_str_digits n Hn) as (c & d & -> & Hc & _ & _).
    by destruct c as [[] [] [] [] [] [] [] []].
Qed.

Lemma read_natural_py_str n r (negative : bool) :
  0 <= n -> starts number_char r = false ->
  read_natural negative (py_str n ++ r) = Some (if negative then - n else n, r).
Proof.
  intros Hn Hr. unfold read_natural.
  assert ((match r with
           | String c _ => if char_eqb "."%char c || char_eqb "e"%char c || char_eqb "E"%char c then None
                           else Some (if negative then - n else n, r)
           | "" => Some (if negative then - n else n, r)
           end) = Some (if negative then - n else n, r)) as Hend.
  { destruct r as [|c r]; [done|]. simpl in Hr. unfold number_char in Hr.
    apply orb_false_elim in Hr as [[[_ ->]%orb_false_elim ->]%orb_false_elim ->]. done. }
  destruct (decide (n = 0)) as [->|Hne]; [exact Hend|].
  destruct (py_str_digits n) as (c & d & E & Hc & H0 & Hd); [lia|].
  assert (starts is_digit r = false) as Hrd.
  { destruct r as [|x r]; [done|]. simpl in *. unfold number_char in Hr. by destruct (is_digit x). }
  rewrite E. assert (span_digits (String c d ++ r) = (String c d, r)) as Hs
    by (apply span_digits_app; simpl; [by rewrite Hc|done]).
  assert (py_int (String c d) = Some n) as Hi by (rewrite <- E; apply py_int_py_str).
  destruct c as [[] [] [] [] [] [] [] []]; try done; cbn [append] in *; rewrite Hs; cbn [mbind option_bind];
    rewrite Hi; exact Hend.
Qed.

Lemma digit_not_minus c d r :
  is_digit c = true -> read_int (String c d ++ r) = read_natural false (String c d ++ r).
Proof. by destruct c as [[] [] [] [] [] [] [] []]. Qed.

Lemma py_str_nonneg n : 0 <= n -> exists c d, py_str n = String c d /\ is_digit c = true.
Proof.
  intros Hn. destruct (decide (n = 0)) as [->|]; [by exists "0"%char, ""|].
  destruct (py_str_digits n) as (c & d & E & Hc & _); [lia|]. eauto.
Qed.

Lemma read_int_py_str n r : starts number_char r = false -> read_int (py_str n ++ r) = Some (n, r).
Proof.
  intros Hr. destruct (Z.leb_spec 0 n) as [Hn|Hn].
  - destruct (py_str_nonneg n Hn) as (c & d & E & Hc). rewrite E, digit_not_minus by done. rewrite <- E.
    by apply read_natural_py_str.
  - replace n with (- - n) at 1 by lia. rewrite py_str_neg by lia. cbn [append read_int].
    rewrite read_natural_py_str by (done || lia). by rewrite Z.opp_involutive.
Qed.

(** *** Values *)

(** What Python can write: its strings are text and its dictionaries have no
    repeated key. *)
Fixpoint printable (j : json) : Prop :=
  match j with
  | JStr s => is_text s = true
  | JArr l => (fix all (l : list json) : Prop := match l with [] => True | x :: l => printable x /\ all l end) l
  | JObj d => NoDup (dkeys d) /\
      (fix all (d : dict) : Prop :=
         match d with [] => True | (k, v) :: d => (is_text k = true /\ printable v) /\ all d end) d
  | _ => True
  end.

Lemma printable_arr l : printable (JArr l) <-> Forall printable l.
Proof.
  induction l as [|x l IH]; [by split|]. rewrite Forall_cons, <- IH. done.
Qed.
Lemma printable_obj d :
  printable (JObj d) <-> NoDup (dkeys d) /\ Forall (fun kv => is_text kv.1 = true /\ printable kv.2) d.
Proof.
  change (printable (JObj d)) with (NoDup (dkeys d) /\ (fix all (d : dict) : Prop :=
    match d with [] => True | (k, v) :: d => (is_text k = true /\ printable v) /\ all d end) d).
  apply and_iff_compat_l. induction d as [|[k v] d IH]; [by split|]. rewrite Forall_cons, <- IH. done.
Qed.

(** The fuel one value needs. *)
Fixpoint jsize (j : json) : nat :=
  match j with
  | JArr l => S (sum_list ((fun x => S (jsize x)) <$> l))
  | JObj d => S (sum_list ((fun kv => S (jsize kv.2)) <$> d))
  | _ => 1
  end.

Lemma join_cons s x y l : join s (x :: y :: l) = (x ++ s ++ join s (y :: l))%string.
Proof. done. Qed.

(** A document starts with a character that is neither blank nor a closing bracket. *)
Definition value_char (c : ascii) : bool := negb (json_space c) && negb (char_eqb "]"%char c).

Lemma digit_value_char c : is_digit c = true -> value_char c = true.
Proof. by destruct c as [[] [] [] [] [] [] [] []]. Qed.

Lemma py_str_starts n : exists c t, py_str n = String c t /\ (is_digit c = true \/ c = "-"%char).
Proof.
  destruct (Z.leb_spec 0 n) as [Hn|Hn].
  - destruct (py_str_nonneg n Hn) as (c & d & E & Hc). eauto.
  - replace n with (- - n) by lia. rewrite py_str_neg by lia. eauto.
Qed.

Lemma print_starts ea j : exists c t, print ea j = String c t /\ value_char c = true.
Proof.
  destruct j as [|[]|n|s|l|d]; try (by eexists _, _); [].
  destruct (py_str_starts n) as (c & t & E & Hc). exists c, t. split; [done|].
  destruct Hc as [Hc| ->]; [by apply digit_value_char|done].
Qed.

Lemma skip_value c t : value_char c = true -> skip_ws (String c t) = String c t.
Proof.
  unfold value_char, skip_ws. intros [Hc%negb_true_iff _]%andb_prop. by apply lstrip_if_id.
Qed.

Lemma read_value_number f c t :
  is_digit c = true \/ c = "-"%char ->
  read_value (S f) (String c t) = ('(n, r) ← read_int (String c t); Some (JInt n, r)).
Proof.
  intros [Hc| ->]; [|done]. by destruct c as [[] [] [] [] [] [] [] []].
Qed.

Lemma read_value_string ea f s r :
  is_text s = true -> read_value (S f) (dump_string ea s ++ r) = Some (JStr s, r).
Proof.
  intros Hs. destruct (read_dumped ea s r (S (String.length (String.concat "" (escape ea <$> code_points s) ++ str1 QUOTE ++ r))) Hs)
    as (t & Ht & Hr).
  { unfold dump_string. cbn [String.length]. rewrite !length_sapp. lia. }
  rewrite Ht. assert (t = String.concat "" (escape ea <$> code_points s) ++ str1 QUOTE ++ r) as Et.
  { unfold dump_string in Ht. cbn [append] in Ht. rewrite <- sapp_assoc in Ht. by injection Ht. }
  cbn [read_value]. change (skip_ws (String QUOTE t)) with (String QUOTE t).
  cbn iota beta. change (char_eqb QUOTE QUOTE) with true. cbn iota. rewrite Et in *. by rewrite Hr.
Qed.

Section Reading.
Context (ea : bool) (value : string -> option (json * string)).

(** [value] reads the document of [j] back, whatever may follow it. *)
Definition reads (j : json) : Prop :=
  forall r, starts number_char r = false -> value (print ea j ++ r) = Some (j, r).

Lemma read_elements_join x l f r :
  Forall reads (x :: l) -> (List.length l < f)%nat ->
  read_elements value f (join "," (print ea <$> x :: l) ++ String "]"%char r) = Some (x :: l, r).
Proof.
  revert x f. induction l as [|y l IH]; intros x f [Hx Hl]%Forall_cons Hf; destruct f as [|f]; try (simpl in Hf; lia).
  - cbn [read_elements]. change (join "," (print ea <$> [x])) with (print ea x). rewrite Hx by done. done.
  - cbn [read_elements]. rewrite !fmap_cons, join_cons, <- !sapp_assoc. rewrite Hx by done.
    cbn [append]. change (skip_ws (String ","%char ?t)) with (String ","%char t).
    cbn [mbind option_bind]. rewrite <- fmap_cons. unfold skip_ws. rewrite lstrip_if_id by done.
    rewrite IH; [done|done|simpl in Hf; lia].
Qed.
End Reading.

Definition print_item (ea : bool) (kv : string * json) : string := dump_string ea kv.1 ++ ":" ++ print ea kv.2.

Section ReadingItems.
Context (ea : bool) (value : string -> option (json * string)).

Lemma read_item_text k text j f r :
  is_text k = true -> value (text ++ r) = Some (j, r) ->
  read_items value (S f) (dump_string ea k ++ ":" ++ text ++ r) =
    match skip_ws r with
    | String ","%char r => '(d, r) ← read_items value f r; Some ((k, j) :: d, r)
    | String "}"%char r => Some ([(k, j)], r)
    | _ => None
    end.
Proof.
  intros Hk Hj.
  destruct (read_dumped ea k (":" ++ text ++ r)
    (S (String.length (String.concat "" (escape ea <$> code_points k) ++ str1 QUOTE ++ ":" ++ text ++ r))) Hk)
    as (t & Ht & Hread).
  { unfold dump_string. cbn [String.length]. rewrite !length_sapp. lia. }
  rewrite Ht. assert (t = String.concat "" (escape ea <$> code_points k) ++ str1 QUOTE ++ ":" ++ text ++ r) as Et.
  { unfold dump_string in Ht. cbn [append] in Ht. rewrite <- sapp_assoc in Ht. by injection Ht. }
  cbn [read_items]. change (skip_ws (String QUOTE t)) with (String QUOTE t).
  change (char_eqb QUOTE QUOTE) with true. cbn [negb]. rewrite Et in *. rewrite Hread. cbn [mbind option_bind].
  cbn [append]. unfold skip_ws at 1. rewrite lstrip_if_id by done. by rewrite Hj.
Qed.

Lemma read_item k j f r :
  is_text k = true -> reads ea value j -> starts number_char r = false ->
  read_items value (S f) (print_item ea (k, j) ++ r) =
    match skip_ws r with
    | String ","%char r => '(d, r) ← read_items value f r; Some ((k, j) :: d, r)
    | String "}"%char r => Some ([(k, j)], r)
    | _ => None
    end.
Proof.
  intros Hk Hj Hr. unfold print_item. cbn [fst snd]. rewrite <- !sapp_assoc. apply read_item_text; [done|]. by apply Hj.
Qed.

Lemma read_items_join x d f r :
  Forall (fun kv => is_text kv.1 = true /\ reads ea value kv.2) (x :: d) -> (List.length d < f)%nat ->
  read_items value f (join "," (print_item ea <$> x :: d) ++ String "}"%char r) = Some (x :: d, r).
Proof.
  revert x f. induction d as [|y d IH]; intros [k j] f [[Hk Hj] Hd]%Forall_cons Hf;
    destruct f as [|f]; try (simpl in Hf; lia).
  - change (join "," (print_item ea <$> [(k, j)])) with (print_item ea (k, j)).
    by rewrite read_item by done.
  - rewrite !fmap_cons, join_cons, <- !sapp_assoc. rewrite read_item by done.
    cbn [append]. unfold skip_ws at 1. rewrite lstrip_if_id by done. rewrite <- fmap_cons.
    rewrite IH; [done|done|simpl in Hf; lia].
Qed.
End ReadingItems.

Lemma dset_new k v d : k ∉ dkeys d -> dset k v d = (d ++ [(k, v)])%list.
Proof.
  induction d as [|[j w] d IH]; [done|]. cbn [dkeys fmap list_fmap fst]. intros Hk. cbn [dset].
  destruct (String.eqb_spec k j) as [->|]; [set_solver|]. rewrite IH; [done|]. set_solver.
Qed.

Lemma dict_of_nodup d : NoDup (dkeys d) -> dict_of d = d.
Proof.
  unfold dict_of. change d with ([] ++ d)%list at 1 3. generalize ([] : dict) as acc.
  induction d as [|[k v] d IH]; intros acc; [by rewrite app_nil_r|]. intros Hd. cbn [foldl fst snd].
  unfold dkeys in Hd. rewrite fmap_app in Hd.
  rewrite dset_new.
  - rewrite (IH (acc ++ [(k, v)])%list); [by rewrite <- app_assoc|]. rewrite <- app_assoc. unfold dkeys.
    by rewrite fmap_app.
  - apply NoDup_app in Hd as (_ & Hdis & _). intros Hin. apply (Hdis k Hin). left.
Qed.

Lemma sum_list_in (A : Type) (g : A -> nat) (x : A) l : x ∈ l -> (g x <= sum_list (g <$> l))%nat.
Proof. induction 1; csimpl; unfold id in *; lia. Qed.
Lemma sum_list_length (A : Type) (g : A -> nat) (l : list A) : (List.length l <= sum_list ((fun x => S (g x)) <$> l))%nat.
Proof. induction l; csimpl; unfold id in *; lia. Qed.

Lemma skip_close_ne c t :
  value_char c = true ->
  match skip_ws (String c t) with String "]"%char _ => true | _ => false end = false.
Proof.
  intros Hc. rewrite skip_value by done. destruct c as [[] [] [] [] [] [] [] []]; try done.
Qed.

Lemma drop_prefix_app p r : drop_prefix p (p ++ r) = Some r.
Proof. unfold drop_prefix. by rewrite startswith_app, drop_str_app. Qed.

Lemma read_value_constant f p j r :
  (p, j) ∈ constants -> read_value (S f) (p ++ r) = Some (j, r).
Proof.
  unfold constants. rewrite !elem_of_cons, elem_of_nil.
  intros [[= -> ->]|[[= -> ->]|[[= -> ->]|[]]]]; cbn [append read_value]; unfold skip_ws;
    rewrite lstrip_if_id by done; cbn [read_constant constants].
  - change (drop_prefix "null" _) with (drop_prefix "null" ("null" ++ r)). by rewrite drop_prefix_app.
  - change (drop_prefix "true" _) with (drop_prefix "true" ("true" ++ r)). by rewrite drop_prefix_app.
  - change (drop_prefix "false" _) with (drop_prefix "false" ("false" ++ r)). by rewrite drop_prefix_app.
Qed.

(** An array, and a dictionary, whose contents are read with [f]. *)
Lemma read_value_array ea x l f r :
  Forall (reads ea (read_value f)) (x :: l) -> (List.length l < f)%nat ->
  read_value (S f) (print ea (JArr (x :: l)) ++ r) = Some (JArr (x :: l), r).
Proof.
  intros Hall Hf. cbn [print]. rewrite <- !sapp_assoc. cbn [append].
  destruct (print_starts ea x) as (c & t & E & Hc).
  assert (exists u, join "," (print ea <$> x :: l) ++ String "]"%char r = String c u) as [u Eu].
  { destruct l as [|y l]; [rewrite fmap_cons; cbn [fmap list_fmap join String.concat]; rewrite E; cbn [append]; eauto|].
    rewrite !fmap_cons, join_cons, E. cbn [append]. eauto. }
  pose proof (read_elements_join ea (read_value f) x l f r Hall Hf) as He. rewrite Eu in *.
  pose proof (skip_close_ne c u Hc) as Hs.
  cbn [read_value]. change (skip_ws (String "["%char (String c u))) with (String "["%char (String c u)).
  change (char_eqb QUOTE "["%char) with false. change (char_eqb "["%char "["%char) with true. cbn iota.
  rewrite He. rewrite skip_value in * by done.
  destruct c as [[] [] [] [] [] [] [] []]; try done.
Qed.

Lemma read_value_object ea x d f r :
  Forall (fun kv => is_text kv.1 = true /\ reads ea (read_value f) kv.2) (x :: d) ->
  NoDup (dkeys (x :: d)) -> (List.length d < f)%nat ->
  read_value (S f) (print ea (JObj (x :: d)) ++ r) = Some (JObj (x :: d), r).
Proof.
  intros Hall Hd Hf. cbn [print]. change (fun kv : string * json => dump_string ea kv.1 ++ ":" ++ print ea kv.2)
    with (print_item ea). rewrite <- !sapp_assoc. cbn [append].
  assert (exists u, join "," (print_item ea <$> x :: d) ++ String "}"%char r = String QUOTE u) as [u Eu].
  { destruct d as [|y d]; [eexists; reflexivity|]. rewrite !fmap_cons, join_cons. eexists. reflexivity. }
  pose proof (read_items_join ea (read_value f) x d f r Hall Hf) as He. rewrite Eu in *.
  cbn [read_value]. change (skip_ws (String "{"%char (String QUOTE u))) with (String "{"%char (String QUOTE u)).
  change (char_eqb QUOTE "{"%char) with false. change (char_eqb "["%char "{"%char) with false.
  change (char_eqb "{"%char "{"%char) with true. cbn iota.
  change (skip_ws (String QUOTE u)) with (String QUOTE u). unfold QUOTE at 1. cbn iota. rewrite He.
  cbn [mbind option_bind]. by rewrite dict_of_nodup.
Qed.

(** Reading a printed value, with enough fuel, gives it back. *)
Lemma read_print ea j f r :
  printable j -> (jsize j <= f)%nat -> starts number_char r = false ->
  read_value f (print ea j ++ r) = Some (j, r).
Proof.
  revert f r. induction j as [|b|n|s|l IH|d IH] using json_rect'; intros f r Hp Hf Hr;
    (destruct f as [|f]; [simpl in Hf; lia|]).
  - apply (read_value_constant f "null"). set_solver.
  - destruct b; [apply (read_value_constant f "true")|apply (read_value_constant f "false")]; set_solver.
  - cbn [print]. destruct (py_str_starts n) as (c & t & E & Hc).
    rewrite E. cbn [append]. rewrite read_value_number by done.
    change (String c (t ++ r)) with (String c t ++ r). rewrite <- E. by rewrite read_int_py_str.
  - by apply read_value_string.
  - apply printable_arr in Hp. destruct l as [|x l]; [done|]. cbn [jsize] in Hf.
    pose proof (sum_list_length _ jsize (x :: l)) as Hlen. cbn [List.length] in Hlen.
    apply read_value_array; [|lia]. rewrite Forall_forall in *. intros y Hy r' Hr'.
    apply IH; [done|by apply Hp| |done].
    pose proof (sum_list_in _ (fun x => S (jsize x)) y (x :: l) Hy). simpl in *. lia.
  - apply printable_obj in Hp as [Hd Hp]. destruct d as [|x d]; [done|]. cbn [jsize] in Hf.
    pose proof (sum_list_length _ (fun kv : string * json => jsize kv.2) (x :: d)) as Hlen.
    cbn [List.length] in Hlen.
    apply read_value_object; [|done|lia]. rewrite Forall_forall in *. intros y Hy.
    destruct (Hp y Hy) as [Hk Hv]. split; [done|]. intros r' Hr'. apply IH; [done|done| |done].
    pose proof (sum_list_in _ (fun kv : string * json => S (jsize kv.2)) y (x :: d) Hy). simpl in *. lia.
Qed.

(** *** Documents *)

(** A list of documents is at least as long as its parts and the commas. *)
Lemma join_length (A : Type) (g : A -> string) (h : A -> nat) x l :
  Forall (fun y => h y <= String.length (g y))%nat (x :: l) ->
  (sum_list ((fun y => S (h y)) <$> x :: l) <= 1 + String.length (join "," (g <$> x :: l)))%nat.
Proof.
  revert x. induction l as [|y l IH]; intros x [Hx Hl]%Forall_cons.
  - csimpl. unfold id. simpl. lia.
  - rewrite !fmap_cons, join_cons, length_sapp. specialize (IH y Hl). rewrite !fmap_cons in IH.
    change (sum_list (S (h x) :: S (h y) :: ((fun y => S (h y)) <$> l)))
      with (S (h x) + sum_list (S (h y) :: ((fun y => S (h y)) <$> l)))%nat.
    change (String.length ("," ++ ?t)) with (S (String.length t)). lia.
Qed.

Lemma jsize_length ea j : (jsize j <= String.length (print ea j))%nat.
Proof.
  induction j as [|b|n|s|l IH|d IH] using json_rect'; cbn [jsize print].
  - simpl. lia.
  - destruct b; simpl; lia.
  - destruct (py_str_starts n) as (c & t & -> & _). simpl. lia.
  - simpl. lia.
  - rewrite !length_sapp. destruct l as [|x l]; [simpl; lia|].
    pose proof (join_length _ (print ea) jsize x l IH).
    change (String.length "[") with 1%nat. change (String.length "]") with 1%nat. lia.
  - rewrite !length_sapp. destruct d as [|x d]; [simpl; lia|].
    assert (Forall (fun kv => jsize kv.2 <= String.length (print_item ea kv))%nat (x :: d)) as Hd.
    { eapply Forall_impl; [exact IH|]. intros [k v] Hv. unfold print_item. rewrite !length_sapp. simpl in *. lia. }
    pose proof (join_length _ (print_item ea) (fun kv => jsize kv.2) x d Hd) as Hj.
    unfold print_item in Hj. change (String.length "{") with 1%nat. change (String.length "}") with 1%nat. lia.
Qed.

Lemma u_escape_ascii n : 0 <= n < 65536 -> sall (fun c => code c <? 128) (u_escape n) = true.
Proof.
  intros Hn. unfold u_escape, hex4. cbn [sall str1].
  pose proof (Z.mod_pos_bound (n / 256) 16). pose proof (Z.mod_pos_bound (n / 16) 16).
  pose proof (Z.mod_pos_bound n 16).
  assert (0 <= n / 4096 < 16) by (split; [apply Z.div_pos; lia|apply Z.div_lt_upper_bound; lia]).
  assert (forall m, 0 <= m < 16 -> code (hex_nibble m) <? 128 = true) as Hh.
  { intros m Hm. unfold hex_nibble. rewrite <- Z.ltb_lt in *. fold (chr (if m <? 10 then 48 + m else 87 + m)).
    rewrite code_chr; destruct (Z.ltb_spec m 10); lia. }
  by rewrite !Hh by lia.
Qed.

Lemma decodable_hex n : 0 <= n < 65536 -> decodable (u_escape n).
Proof. intros Hn. by apply decodable_ascii, u_escape_ascii. Qed.

Lemma decodable_escape ea n : scalar n -> decodable (escape ea n).
Proof.
  unfold scalar. intros Hn. unfold escape. destruct (short_escape n) as [c|] eqn:E.
  { assert (code c <? 128 = true) as Hc.
    { revert E. unfold short_escape, short_escapes. cbn [List.find fst].
      repeat match goal with
      | |- context [Z.eqb ?k n] => destruct (Z.eqb k n); [intros [= <-]; reflexivity|]
      end. done. }
    apply decodable_ascii. simpl. by rewrite Hc. }
  destruct ((32 <=? n) && (n <=? 126)) eqn:Hp.
  { apply andb_prop in Hp as [?%Z.leb_le ?%Z.leb_le]. apply decodable_ascii. simpl. rewrite code_chr by lia.
    by rewrite (proj2 (Z.ltb_lt _ _)) by lia. }
  destruct (Z.ltb_spec n 32); [apply decodable_hex; lia|].
  destruct (negb ea); [unfold decodable; by rewrite utf8_decode_one by done|].
  destruct (Z.ltb_spec n 65536); [apply decodable_hex; lia|].
  pose proof (Z.mod_pos_bound (n - 65536) 1024 ltac:(lia)).
  assert (0 <= (n - 65536) / 1024 < 1024) by (split; [apply Z.div_pos; lia|apply Z.div_lt_upper_bound; lia]).
  apply decodable_app; apply decodable_hex; lia.
Qed.

Lemma decodable_dump_string ea s : is_text s = true -> decodable (dump_string ea s).
Proof.
  intros (l & Hl & _ & Hf)%is_text_decode. unfold dump_string, code_points. rewrite Hl.
  change (String QUOTE ?t) with (str1 QUOTE ++ t). apply decodable_app; [by eexists|].
  apply decodable_app; [|by eexists]. apply decodable_concat, Forall_fmap.
  eapply Forall_impl; [exact Hf|]. intros n [Hn _]. by apply decodable_escape.
Qed.

Lemma digits_ascii s : sall is_digit s = true -> sall (fun c => code c <? 128) s = true.
Proof. apply sall_impl. intros c. destruct c as [[] [] [] [] [] [] [] []]; by vm_compute. Qed.

Lemma py_str_ascii n : sall (fun c => code c <? 128) (py_str n) = true.
Proof.
  assert (forall m, 0 <= m -> sall (fun c => code c <? 128) (py_str m) = true) as Hpos.
  { intros m Hm. destruct (decide (m = 0)) as [->|]; [done|].
    destruct (py_str_digits m) as (c & d & -> & Hc & _ & Hd); [lia|].
    apply digits_ascii. simpl. by rewrite Hc. }
  destruct (Z.leb_spec 0 n) as [Hn|Hn]; [auto|].
  replace n with (- - n) by lia. rewrite py_str_neg by lia. cbn [sall]. by rewrite Hpos by lia.
Qed.

Lemma decodable_print ea j : printable j -> decodable (print ea j).
Proof.
  induction j as [|b|n|s|l IH|d IH] using json_rect'; intros Hp; cbn [print].
  - by eexists.
  - destruct b; by eexists.
  - apply decodable_ascii, py_str_ascii.
  - by apply decodable_dump_string.
  - apply printable_arr in Hp. apply decodable_app; [by eexists|]. apply decodable_app; [|by eexists].
    apply decodable_join; [by eexists|]. apply Forall_fmap. rewrite Forall_forall in *. intros x Hx. apply IH; auto.
  - apply printable_obj in Hp as [_ Hp]. apply decodable_app; [by eexists|]. apply decodable_app; [|by eexists].
    apply decodable_join; [by eexists|]. apply Forall_fmap. rewrite Forall_forall in *. intros x Hx.
    destruct (Hp x Hx) as [Hk Hv]. apply decodable_app; [by apply decodable_dump_string|].
    apply decodable_app; [by eexists|]. by apply IH.
Qed.

(** Reading a printed document gives its value back. *)
Theorem loads_print ea j : printable j -> loads (print ea j) = Some j.
Proof.
  intros Hp. unfold loads. destruct (decodable_print ea j Hp) as [l ->]. cbn [mbind option_bind].
  pose proof (jsize_length ea j) as Hs.
  pose proof (read_print ea j (S (String.length (print ea j))) "" Hp ltac:(lia) eq_refl) as Hr.
  rewrite sapp_nil_r in Hr. by rewrite Hr.
Qed.

Lemma printable_sort j : printable j -> printable (sort_json j).
Proof.
  induction j as [|b|n|s|l IH|d IH] using json_rect'; intros Hp; try done; cbn [sort_json].
  - apply printable_arr. apply printable_arr in Hp. apply Forall_fmap. rewrite Forall_forall in *.
    intros x Hx. apply IH; auto.
  - apply printable_obj. apply printable_obj in Hp as [Hd Hp].
    set (d' := (fun kv => (kv.1, sort_json kv.2)) <$> d).
    assert (merge_sort key_le d' ≡ₚ d') as Hperm by apply merge_sort_Permutation.
    split.
    + unfold dkeys. rewrite Hperm. unfold d'. rewrite <- list_fmap_compose. exact Hd.
    + rewrite Hperm. apply Forall_fmap. rewrite Forall_forall in *. intros x Hx.
      destruct (Hp x Hx) as [Hk Hv]. split; [done|]. simpl. by apply IH.
Qed.

Lemma loads_dumps_sorted j : printable j -> loads (dumps_sorted j) = Some (sort_json j).
Proof. intros Hp. by apply loads_print, printable_sort. Qed.

(** *** Dictionaries of strings, spaced *)

Definition strings (d : list (string * string)) : dict := (fun kv => (kv.1, JStr kv.2)) <$> d.
Definition spaced_item (kv : string * string) : string := dump_string true kv.1 ++ ": " ++ dump_string true kv.2.

Lemma dumps_strings d : dumps (JObj (strings d)) = "{" ++ join ", " (spaced_item <$> d) ++ "}".
Proof. cbn [dumps]. unfold strings. by rewrite <- list_fmap_compose. Qed.

Lemma read_value_space f s : read_value f (String " "%char s) = read_value f s.
Proof. by destruct f. Qed.
Lemma read_items_space value f s : read_items value f (String " "%char s) = read_items value f s.
Proof. by destruct f. Qed.

Lemma read_spaced_items value x d f r :
  (forall v r, is_text v = true -> value (String " "%char (dump_string true v ++ r)) = Some (JStr v, r)) ->
  Forall (fun kv => is_text kv.1 = true /\ is_text kv.2 = true) (x :: d) -> (List.length d < f)%nat ->
  read_items value f (join ", " (spaced_item <$> x :: d) ++ String "}"%char r) = Some (strings (x :: d), r).
Proof.
  intros Hvalue. revert x f. induction d as [|y d IH]; intros [k v] f [[Hk Hv] Hd]%Forall_cons Hf;
    destruct f as [|f]; try (simpl in Hf; lia); cbn [fst snd] in Hk, Hv.
  - change (join ", " (spaced_item <$> [(k, v)]) ++ String "}"%char r)
      with ((dump_string true k ++ ":" ++ String " "%char (dump_string true v)) ++ String "}"%char r).
    rewrite <- !sapp_assoc. rewrite (read_item_text true value k _ (JStr v)); [done|done|]. by apply Hvalue.
  - rewrite !fmap_cons, join_cons. unfold spaced_item at 1. cbn [fst snd].
    change (": " ++ dump_string true v) with (":" ++ String " "%char (dump_string true v)).
    rewrite <- !sapp_assoc. rewrite (read_item_text true value k _ (JStr v)); [|done|by apply Hvalue].
    cbn [append]. unfold skip_ws at 1. rewrite lstrip_if_id by done. rewrite read_items_space, <- fmap_cons.
    rewrite IH; [done|done|simpl in Hf; lia].
Qed.

Lemma join_spaced_length d : (List.length d <= String.length (join ", " (spaced_item <$> d)))%nat.
Proof.
  induction d as [|x [|y d] IH]; [simpl; lia|simpl; lia|]. rewrite !fmap_cons, join_cons, !length_sapp.
  rewrite <- fmap_cons. simpl String.length at 2. cbn [List.length] in *. lia.
Qed.

(** Reading a written dictionary of strings gives it back. *)
Lemma loads_dumps_strings d :
  NoDup (fst <$> d) -> Forall (fun kv => is_text kv.1 = true /\ is_text kv.2 = true) d ->
  loads (dumps (JObj (strings d))) = Some (JObj (strings d)).
Proof.
  intros Hn Hd. unfold loads. rewrite dumps_strings.
  assert (decodable ("{" ++ join ", " (spaced_item <$> d) ++ "}")) as [l ->].
  { apply decodable_app; [by eexists|]. apply decodable_app; [|by eexists].
    apply decodable_join; [by eexists|]. apply Forall_fmap. eapply Forall_impl; [exact Hd|]. intros kv [Hk Hv].
    apply decodable_app; [by apply decodable_dump_string|]. apply decodable_app; [by eexists|by apply decodable_dump_string]. }
  cbn [mbind option_bind]. destruct d as [|x d]; [done|].
  pose proof (join_spaced_length (x :: d)) as Hl. cbn [List.length] in Hl.
  assert (exists u, join ", " (spaced_item <$> x :: d) ++ "}" = String QUOTE u) as [u Eu].
  { destruct d as [|y d]; [eexists; reflexivity|]. rewrite !fmap_cons, join_cons. eexists. reflexivity. }
  set (f := String.length ("{" ++ join ", " (spaced_item <$> x :: d) ++ "}")).
  assert (read_items (read_value f) f (join ", " (spaced_item <$> x :: d) ++ "}") = Some (strings (x :: d), "")) as He.
  { apply read_spaced_items; [|done|subst f; rewrite !length_sapp; lia].
    intros v r Hv. rewrite read_value_space. subst f. by apply read_value_string. }
  cbn [read_value append]. rewrite Eu in *.
  change (skip_ws (String "{"%char (String QUOTE u))) with (String "{"%char (String QUOTE u)).
  change (char_eqb QUOTE "{"%char) with false. change (char_eqb "["%char "{"%char) with false.
  change (char_eqb "{"%char "{"%char) with true. cbn iota.
  change (skip_ws (String QUOTE u)) with (String QUOTE u). unfold QUOTE at 1. cbn iota. fold f in He |- *. rewrite He.
  cbn [mbind option_bind]. rewrite dict_of_nodup; [done|]. unfold dkeys, strings. by rewrite <- list_fmap_compose.
Qed.

(** What [json.dumps] writes is ASCII, and at most twelve characters for each of a string's. *)
Lemma escape_ascii n : scalar n -> sall (fun c => code c <? 128) (escape true n) = true.
Proof.
  unfold scalar. intros Hn. unfold escape. destruct (short_escape n) as [c|] eqn:E.
  { revert E. unfold short_escape, short_escapes. cbn [List.find fst].
    repeat match goal with |- context [Z.eqb ?k n] => destruct (Z.eqb k n); [intros [= <-]; reflexivity|] end. done. }
  destruct ((32 <=? n) && (n <=? 126)) eqn:Hp.
  { apply andb_prop in Hp as [?%Z.leb_le ?%Z.leb_le]. simpl. rewrite code_chr by lia. by rewrite (proj2 (Z.ltb_lt _ _)) by lia. }
  destruct (Z.ltb_spec n 32); [apply u_escape_ascii; lia|]. cbn [negb].
  destruct (Z.ltb_spec n 65536); [apply u_escape_ascii; lia|].
  pose proof (Z.mod_pos_bound (n - 65536) 1024 ltac:(lia)).
  assert (0 <= (n - 65536) / 1024 < 1024) by (split; [apply Z.div_pos; lia|apply Z.div_lt_upper_bound; lia]).
  rewrite sall_app. rewrite !u_escape_ascii by lia. done.
Qed.
Lemma escape_length n : (String.length (escape true n) <= 12)%nat.
Proof.
  unfold escape. destruct (short_escape n); [simpl; lia|]. destruct (_ && _); [simpl; lia|].
  destruct (_ <? _); [simpl; lia|]. cbn [negb]. destruct (_ <? _); simpl; lia.
Qed.

Lemma dump_string_ascii s : is_text s = true -> sall (fun c => code c <? 128) (dump_string true s) = true.
Proof.
  intros (l & Hl & _ & Hf)%is_text_decode. unfold dump_string, code_points. rewrite Hl.
  change (default [] (Some l)) with l. cbn [sall]. rewrite sall_app.
  assert (sall (fun c => code c <? 128) (String.concat "" (escape true <$> l)) = true) as ->; [|done].
  clear Hl. induction Hf as [|n l [Hn _] Hf IH]; [done|]. by rewrite fmap_cons, sconcat_cons, sall_app, escape_ascii.
Qed.
Lemma dump_string_length s : (String.length (dump_string true s) <= 2 + 12 * List.length (code_points s))%nat.
Proof.
  unfold dump_string. cbn [String.length]. rewrite length_sapp. cbn [String.length str1].
  assert (String.length (String.concat "" (escape true <$> code_points s)) <= 12 * List.length (code_points s))%nat; [|lia].
  induction (code_points s) as [|n l IH]; [simpl; lia|]. rewrite fmap_cons, sconcat_cons, length_sapp.
  pose proof (escape_length n). cbn [List.length]. lia.
Qed.
