(* ===== verification/Errors.v ===== *)
(** * Errors

    The exceptions the service raises (app/services/errors.py and the error
    classes other modules declare) and their mapping to HTTP answers
    (app/v1/errors.py).  An error value carries its class and its [details];
    the English message is left out. *)

From S2P Require Import Prelude PyStr Json.
From stdpp Require Import base strings list.
From Stdlib Require Import ZArith Lia.
Open Scope string_scope.
Open Scope Z_scope.

(** Subclasses of [ServiceError], by name. *)
Inductive error_class : Type :=
| ServiceErrorBase
| InvalidApplication
| ApplicationAlreadyExists
| ApplicationNotFound
| ApplicationSuspended
| ApplicationNotEmpty
| ConfirmationMismatch
| DomainLimitReached
| HostnameAlreadyClaimed
| DomainNotFound
| InvalidReference
| InvalidStatusTransition
| InvalidCredential
| CredentialReadOnly
| CredentialNotFound
| OriginNotFound
| AssertionKeyNotFound
| InvalidAssertionKey
| InvalidOrigin
| OriginConflict
| OriginNotVerified
| OriginInUse
| CredentialInUse
| DomainConnectUnavailable
| DomainConnectSignerUnavailable
| InvalidConnectRequest
| InvalidSignerConfig
| ConnectPageUnavailable
| ConnectSessionNotFound
| RateLimited
| IdempotencyKeyReused
| IdempotencyInProgress
| WebhookNotFound
| InvalidWebhook
| DeliveryNotFound
| InvalidOperatorToken
| SecretKeyMissing
| BackupUnavailable.

#[export] Instance error_class_eq_dec : EqDecision error_class.
Proof. solve_decision. Defined.

(** The [code] class attribute. *)
Definition code_of (c : error_class) : string :=
  match c with
  | ServiceErrorBase => "service_error"
  | InvalidApplication => "invalid_application"
  | ApplicationAlreadyExists => "application_already_exists"
  | ApplicationNotFound => "application_not_found"
  | ApplicationSuspended => "application_suspended"
  | ApplicationNotEmpty => "application_not_empty"
  | ConfirmationMismatch => "confirmation_mismatch"
  | DomainLimitReached => "domain_limit_reached"
  | HostnameAlreadyClaimed => "hostname_already_claimed"
  | DomainNotFound => "domain_not_found"
  | InvalidReference => "invalid_reference"
  | InvalidStatusTransition => "invalid_status_transition"
  | InvalidCredential => "invalid_credential"
  | CredentialReadOnly => "credential_read_only"
  | CredentialNotFound => "credential_not_found"
  | OriginNotFound => "origin_not_found"
  | AssertionKeyNotFound => "assertion_key_not_found"
  | InvalidAssertionKey => "invalid_assertion_key"
  | InvalidOrigin => "invalid_origin"
  | OriginConflict => "origin_conflict"
  | OriginNotVerified => "origin_not_verified"
  | OriginInUse => "origin_in_use"
  | CredentialInUse => "credential_in_use"
  | DomainConnectUnavailable => "domain_connect_unavailable"
  | DomainConnectSignerUnavailable => "domain_connect_signer_unavailable"
  | InvalidConnectRequest => "validation_error"
  | InvalidSignerConfig => "invalid_signer_config"
  | ConnectPageUnavailable => "connect_page_unavailable"
  | ConnectSessionNotFound => "connect_session_not_found"
  | RateLimited => "rate_limited"
  | IdempotencyKeyReused => "idempotency_key_reused"
  | IdempotencyInProgress => "idempotency_request_in_progress"
  | WebhookNotFound => "webhook_not_found"
  | InvalidWebhook => "invalid_webhook"
  | DeliveryNotFound => "delivery_not_found"
  | InvalidOperatorToken => "invalid_operator_token"
  | SecretKeyMissing => "service_secret_key_missing"
  | BackupUnavailable => "backup_unavailable"
  end.

(** Everything a modelled call can raise. *)
Inductive exn : Type :=
| ServiceError (c : error_class) (details : list (string * json))
| InvalidHostname (code : string)
| InvalidLimit
| IntegrityError (orig : string)
| Undecryptable
| OriginVerificationFailed (code : string)
| EdgeProbeFailed (code : string)
| SigningFailed (kind code : string) (retry_after : option Z)
| ApiError (status : Z) (code : string) (details : list (string * json)) (headers : list (string * string))
| PyValueError
| PyKeyError
| PyTypeError
| PyIndexError
| PyAttributeError
| PyRuntimeError
| PyOverflowError.   (* a number the database driver cannot store; no operation here raises it *)

Definition err {A} (c : error_class) : res exn A := Err (ServiceError c []).

(** [RateLimited(message, retry_after=n)]: the wait is at least one second. *)
Definition rate_limited (retry_after : Z) : exn :=
  ServiceError RateLimited [("retry_after_seconds", JInt (Z.max 1 retry_after))].

Definition retry_after_of (e : exn) : option Z :=
  match e with
  | ServiceError RateLimited d =>
      match dget "retry_after_seconds" d with Some (JInt n) => Some n | _ => None end
  | _ => None
  end.

(** ** Comparing secrets *)

Definition is_ascii (s : string) : bool := sall (fun c => code c <? 128) s.

(** [hmac.compare_digest(a, b)] of two [str]: it raises unless both are ASCII. *)
Definition compare_digest (a b : string) : res exn bool :=
  if is_ascii a && is_ascii b then Ok (String.eqb a b) else Err PyTypeError.

(** ** HTTP mapping *)

Definition SERVICE_ERROR_STATUS : list (error_class * Z) :=
  [ (InvalidCredential, 401);
    (ApplicationSuspended, 403);
    (CredentialReadOnly, 403);
    (DomainNotFound, 404);
    (HostnameAlreadyClaimed, 409);
    (DomainLimitReached, 409);
    (InvalidStatusTransition, 409);
    (IdempotencyInProgress, 409);
    (IdempotencyKeyReused, 422);
    (InvalidReference, 422);
    (RateLimited, 429);
    (DomainConnectUnavailable, 409);
    (DomainConnectSignerUnavailable, 503);
    (InvalidConnectRequest, 422);
    (ConnectPageUnavailable, 409);
    (ConnectSessionNotFound, 404);
    (WebhookNotFound, 404);
    (DeliveryNotFound, 404);
    (InvalidWebhook, 422);
    (ApplicationNotFound, 404);
    (ApplicationAlreadyExists, 409);
    (ApplicationNotEmpty, 409);
    (InvalidApplication, 422);
    (InvalidOperatorToken, 422);
    (BackupUnavailable, 409);
    (ConfirmationMismatch, 422);
    (CredentialNotFound, 404);
    (OriginNotFound, 404);
    (AssertionKeyNotFound, 404);
    (InvalidAssertionKey, 422);
    (CredentialInUse, 409);
    (InvalidOrigin, 422);
    (OriginConflict, 409);
    (OriginNotVerified, 409);
    (OriginInUse, 409);
    (InvalidSignerConfig, 422);
    (SecretKeyMissing, 503) ].

(** [_status_for]: no listed class is a subclass of another, so [isinstance]
    is equality of classes. *)
Definition status_for (c : error_class) : Z :=
  match List.find (fun p => bool_decide (p.1 = c)) SERVICE_ERROR_STATUS with
  | Some p => p.2
  | None => 400
  end.

(** An HTTP answer: status, the error body's [code] and [details], headers. *)
Record answer := {
  ans_status : Z;
  ans_code : string;
  ans_details : list (string * json);
  ans_headers : list (string * string)
}.

(** The exception handlers installed by [install_error_handlers]; [None]: the
    exception is not handled there and becomes a 500. *)
Definition error_answer (e : exn) : option answer :=
  match e with
  | ApiError st c d h => Some {| ans_status := st; ans_code := c; ans_details := d; ans_headers := h |}
  | InvalidHostname c =>
      Some {| ans_status := 422; ans_code := c; ans_details := [("field", JStr "hostname")];
              ans_headers := [] |}
  | ServiceError c d =>
      Some {| ans_status := status_for c; ans_code := code_of c; ans_details := d;
              ans_headers :=
                match c, retry_after_of e with
                | InvalidCredential, _ => [("WWW-Authenticate", "Bearer")]
                | RateLimited, Some n => [("Retry-After", py_str n)]
                | _, _ => []
                end |}
  | _ => None
  end.

(** [unauthorized()] *)
Definition unauthorized : exn := ApiError 401 "unauthorized" [] [("WWW-Authenticate", "Bearer")].
