(* ===== verification/External.v ===== *)
(** * What the service relies on outside its repository

    One class gathers the functions of third-party packages and of the operating
    system the modelled code calls.  Every model function that reaches one of
    them takes it through this class; theorems that need a documented property of
    one of them name it as a hypothesis. *)

From Stdlib Require Import Ascii String ZArith QArith.
From stdpp Require Import base strings list.
From S2P Require Import Prelude PyStr.
Open Scope string_scope.
Open Scope Z_scope.

(** A Python [float]. *)
Inductive PyFloat := Finite (q : Q) | PosInf | NegInf | NaN.

Class External := {
  (** [os.environ.get(name)] *)
  environ : string -> option string;
  (** [idna.encode(value, uts46=True).decode("ascii")]; [None]: IDNAError. *)
  idna_encode : string -> option string;
  (** [PublicSuffixList().privatesuffix(name)] *)
  privatesuffix : string -> option string;
  (** [ipaddress.ip_address(text)] parses. *)
  is_ip_address : string -> bool;
  (** [ipaddress.ip_address(text).is_global] *)
  ip_is_global : string -> bool;
  (** [secrets.token_urlsafe(nbytes)], the [n]-th draw of the process's randomness. *)
  token_urlsafe : N -> nat -> string;
  (** [secrets.token_hex(nbytes)], likewise. *)
  token_hex : N -> nat -> string;
  (** [hashlib.sha256(text.encode()).hexdigest()] *)
  sha256_hex : string -> string;
  (** [hashlib.sha256(data).digest()]: the 32 raw bytes. *)
  sha256 : string -> string;
  (** [hmac.new(key, message, hashlib.sha256).digest()]: the 32 raw bytes. *)
  hmac_sha256 : string -> string -> string;
  (** [HKDF(SHA256, length=32, salt=None, info=info).derive(secret)] *)
  hkdf : string -> string -> string;
  (** [AESGCM(key).encrypt(nonce, plaintext, data)], and [decrypt]: [None] is [InvalidTag]. *)
  aes_encrypt : string -> string -> string -> string -> string;
  aes_decrypt : string -> string -> string -> string -> option string;
  (** [secrets.token_bytes(12)], the [n]-th draw. *)
  nonce_bytes : N -> string;
  (** [ipaddress.ip_address(address) in ipaddress.ip_network(entry, strict=False)];
      [None]: [entry] is not a network. *)
  ip_in_network : string -> string -> option bool;
  (** [ipaddress.ip_network(entry, strict=False)]: its text, [num_addresses] and
      [prefixlen]; [None]: [ValueError]. *)
  ip_network : string -> option (string * Z * Z);
  (** [(address.version, int(address))] of [ipaddress.ip_address(text)] *)
  ip_order : string -> option (Z * Z);
  (** [str(ipaddress.ip_address(text))] *)
  ip_text : string -> string;
  (** [float(text)]; [None]: [ValueError]. *)
  py_float : string -> option PyFloat;
  (** How pydantic writes an aware datetime in a JSON document. *)
  pydantic_datetime : Z -> string;
  (** [socket.getaddrinfo(host, port)]: the addresses, or [None] on [gaierror]. *)
  getaddrinfo : string -> Z -> option (list string);
}.

(** Documented behaviour of the Public Suffix List lookup: the registrable domain
    of a lower-case name is the name itself or a dot-aligned suffix of it. *)
Class PslLaw `{External} : Prop :=
  privatesuffix_suffix name zone :
    privatesuffix name = Some zone ->
    zone = name \/ exists host, host <> "" /\ name = host ++ "." ++ zone.

(** Distinct draws give distinct tokens. *)
Class FreshTokens `{External} : Prop :=
  token_urlsafe_inj i j n : token_urlsafe i n = token_urlsafe j n -> i = j.

(** Documented behaviour of AES-GCM: what was encrypted decrypts with the same
    key, nonce and associated data, and is longer by the tag's sixteen bytes; a nonce
    has the twelve bytes asked for. *)
Class AeadLaws `{External} : Prop := {
  aes_round key nonce plain data : aes_decrypt key nonce (aes_encrypt key nonce plain data) data = Some plain;
  aes_length key nonce plain data : String.length (aes_encrypt key nonce plain data) = (String.length plain + 16)%nat;
  nonce_length n : String.length (nonce_bytes n) = 12%nat;
}.

(** A digest of HMAC-SHA-256 has thirty-two bytes. *)
Class MacLaw `{External} : Prop := mac_length key message : String.length (hmac_sha256 key message) = 32%nat.

(** Documented behaviour of the IDNA codec: what it produces has no newline, and
    encoding a lower-cased result again returns it. *)
Class IdnaLaws `{External} : Prop := {
  idna_no_newline v a :
    idna_encode v = Some a -> has_char NL a = false;
  idna_again v a : idna_encode v = Some a -> idna_encode (lower a) = Some (lower a);
}.

(** Documented behaviour of [ipaddress.ip_address]: an IPv6 literal contains a
    colon and an IPv4 literal ends in a decimal field. *)
Class IpLaw `{External} : Prop :=
  ip_address_shape s :
    is_ip_address s = true ->
    has_char ":"%char s = true \/ isdigit (List.last (split_on "."%char s) "") = true.
