(* ===== verification/Assertion.v ===== *)
(** * Origin assertions (app/edge/assertion.py)

    The token the edge puts on every request it forwards, and how an origin checks
    it.  Theorems: a signed assertion is accepted and read back field by field; an
    accepted token carries the MAC of exactly what is read from it, under a key the
    origin holds, and is within its time; a key id with a dot never verifies. *)

From Stdlib Require Import Ascii String ZArith Lia.
From stdpp Require Import base strings list sets sorting.
From S2P Require Import Prelude PyStr Base64 Utf8 Json JsonText External.
Open Scope string_scope.
Open Scope Z_scope.

Definition VERSION : string := "v1".
Definition DEFAULT_TTL : Z := 60.
Definition DEFAULT_SKEW : Z := 30.
Definition MIN_SECRET_LENGTH : Z := 32.

Record Assertion := {
  as_application_id : string;
  as_domain_id : string;
  as_reference : string;
  as_hostname : string;
  as_issued_at : Z;
  as_expires_at : Z;
  as_request_id : string;
  as_key_id : string;
}.

Definition to_payload (a : Assertion) : json :=
  JObj [("app", JStr (as_application_id a)); ("dom", JStr (as_domain_id a));
        ("ref", JStr (as_reference a)); ("host", JStr (as_hostname a));
        ("iat", JInt (as_issued_at a)); ("exp", JInt (as_expires_at a));
        ("rid", JStr (as_request_id a))].

(** [None]: [ValueError]. *)
Definition parse_keys (spec : string) : option (list (string * string)) :=
  foldl (fun keys item =>
    keys ← keys;
    let item := strip item in
    if String.eqb item "" then Some keys else
    let '(key_id, sep, secret) := partition ":"%char item in
    if negb sep || String.eqb (strip key_id) "" || (ulen secret <? MIN_SECRET_LENGTH) then None
    else Some (sset (strip key_id) secret keys)) (Some []) (split_on ","%char spec).

Definition signing_input (key_id payload : string) : string := VERSION ++ "." ++ key_id ++ "." ++ payload.

(** [str(x)] and [int(x)] of a value read from JSON; [None]: [TypeError] or [ValueError]. *)
Fixpoint json_repr (j : json) : string :=
  match j with
  | JNull => "None"
  | JBool b => if b then "True" else "False"
  | JInt n => py_str n
  | JStr s => py_repr s
  | JArr l => "[" ++ join ", " (json_repr <$> l) ++ "]"
  | JObj d => "{" ++ join ", " ((fun kv => py_repr kv.1 ++ ": " ++ json_repr kv.2) <$> d) ++ "}"
  end.
Definition str_of (j : json) : string := match j with JStr s => s | _ => json_repr j end.
Definition int_of (j : json) : option Z :=
  match j with
  | JInt n => Some n
  | JBool b => Some (if b then 1 else 0)
  | JStr s => py_int s
  | _ => None
  end.

Section Assertions.
Context `{External}.

(** The JSON text of the payload and the token, for an issue time in seconds. *)
Definition sign (key_id key application_id domain_id reference hostname request_id : string)
    (now ttl : Z) : string :=
  let assertion := {|
    as_application_id := application_id; as_domain_id := domain_id; as_reference := reference;
    as_hostname := hostname; as_issued_at := now; as_expires_at := now + ttl;
    as_request_id := request_id; as_key_id := key_id |} in
  let payload := b64 (dumps_sorted (to_payload assertion)) in
  signing_input key_id payload ++ "." ++ b64 (hmac_sha256 key (signing_input key_id payload)).

(** The payload of a token whose MAC was verified. *)
Definition read_payload (key_id payload : string) : option Assertion :=
  text ← unb64 payload;
  data ← loads text;
  d ← as_obj data;
  app ← dget "app" d; dom ← dget "dom" d; ref ← dget "ref" d; host ← dget "host" d;
  iat ← dget "iat" d; iat ← int_of iat;
  exp ← dget "exp" d; exp ← int_of exp;
  rid ← dget "rid" d;
  Some {| as_application_id := str_of app; as_domain_id := str_of dom; as_reference := str_of ref;
          as_hostname := str_of host; as_issued_at := iat; as_expires_at := exp;
          as_request_id := str_of rid; as_key_id := key_id |}.

(** The checks on an assertion that was read. *)
Definition check_assertion (a : Assertion) (expected_application_id expected_hostname : option string)
    (now skew : Z) : res string Assertion :=
  if now + skew <? as_issued_at a then Err "not_yet_valid"
  else if as_expires_at a + skew <? now then Err "expired"
  else if match expected_application_id with
          | Some e => negb (String.eqb (as_application_id a) e) | None => false end then Err "wrong_application"
  else if match expected_hostname with
          | Some e => negb (String.eqb (as_hostname a) e) | None => false end then Err "wrong_hostname"
  else Ok a.

(** [verify]: the assertion, or the code of the refusal. *)
Definition verify (token : option string) (keys : list (string * string))
    (expected_application_id expected_hostname : option string) (now skew : Z) : res string Assertion :=
  match nonempty token with
  | None => Err "missing"
  | Some token =>
      match split_on "."%char token with
      | [version; key_id; payload; signature] =>
          if negb (String.eqb version VERSION) then Err "malformed" else
          match sget key_id keys with
          | None => Err "unknown_key"
          | Some key =>
              match unb64 signature with
              | None => Err "malformed"
              | Some given =>
                  if negb (String.eqb (hmac_sha256 key (signing_input key_id payload)) given)
                  then Err "bad_signature"
                  else match read_payload key_id payload with
                       | None => Err "malformed"
                       | Some a => check_assertion a expected_application_id expected_hostname now skew
                       end
              end
          end
      | _ => Err "malformed"
      end
  end.
End Assertions.

(** ** Properties *)

Section Properties.
Context `{External}.

Lemma token_split a b c :
  has_char "."%char a = false -> has_char "."%char b = false -> has_char "."%char c = false ->
  split_on "."%char (signing_input a b ++ "." ++ c) = [VERSION; a; b; c].
Proof.
  intros Ha%free_of Hb%free_of Hc%free_of. unfold signing_input. rewrite <- !sapp_assoc.
  change (VERSION ++ "." ++ a ++ "." ++ b ++ "." ++ c) with (join "." [VERSION; a; b; c]).
  apply split_on_join; [done|]. by repeat constructor.
Qed.

Lemma token_unsplit t a b c :
  split_on "."%char t = [VERSION; a; b; c] -> t = signing_input a b ++ "." ++ c.
Proof.
  intros Ht. rewrite <- (join_split "."%char t), Ht. unfold signing_input. by rewrite <- !sapp_assoc.
Qed.

(** The payload as it is written, its keys sorted. *)
Lemma sorted_payload a :
  sort_json (to_payload a) =
    JObj [("app", JStr (as_application_id a)); ("dom", JStr (as_domain_id a)); ("exp", JInt (as_expires_at a));
          ("host", JStr (as_hostname a)); ("iat", JInt (as_issued_at a)); ("ref", JStr (as_reference a));
          ("rid", JStr (as_request_id a))].
Proof. reflexivity. Qed.

(** Every field is text a JSON document can carry. *)
Definition plain_fields (a : Assertion) : bool :=
  is_text (as_application_id a) && is_text (as_domain_id a) && is_text (as_reference a)
  && is_text (as_hostname a) && is_text (as_request_id a).

Lemma read_signed a :
  plain_fields a = true -> read_payload (as_key_id a) (b64 (dumps_sorted (to_payload a))) = Some a.
Proof.
  unfold plain_fields. intros [[[[H1 H2]%andb_prop H3]%andb_prop H4]%andb_prop H5]%andb_prop.
  unfold read_payload. rewrite unb64_b64. cbn [mbind option_bind].
  rewrite loads_dumps_sorted, sorted_payload; [by destruct a|].
  apply printable_obj. split; [|by repeat constructor].
  repeat (constructor; [set_solver|]). constructor.
Qed.

Lemma check_assertion_ok a app host now skew b :
  check_assertion a app host now skew = Ok b ->
  b = a /\ as_issued_at a <= now + skew /\ now <= as_expires_at a + skew /\
  (forall e, app = Some e -> as_application_id a = e) /\ (forall e, host = Some e -> as_hostname a = e).
Proof.
  unfold check_assertion. destruct (Z.ltb_spec (now + skew) (as_issued_at a)); [done|].
  destruct (Z.ltb_spec (as_expires_at a + skew) now); [done|].
  destruct app as [e|]; [destruct (String.eqb_spec (as_application_id a) e); [|done]|];
    (destruct host as [e'|]; [destruct (String.eqb_spec (as_hostname a) e'); [|done]|]);
    simpl; intros [= <-]; repeat split; try done; try lia; naive_solver.
Qed.

(** An assertion verifies at every origin that holds its key, from its issue to its
    expiry and the clock skew on either side, for the application and the hostname
    it was issued for, and the origin reads back exactly what the edge signed. *)
Theorem assertion_round_trip key_id key keys application_id domain_id reference hostname request_id now ttl now' skew :
  let a := {| as_application_id := application_id; as_domain_id := domain_id; as_reference := reference;
              as_hostname := hostname; as_issued_at := now; as_expires_at := now + ttl;
              as_request_id := request_id; as_key_id := key_id |} in
  has_char "."%char key_id = false -> sget key_id keys = Some key -> plain_fields a = true ->
  now - skew <= now' <= now + ttl + skew ->
  verify (Some (sign key_id key application_id domain_id reference hostname request_id now ttl)) keys
    (Some application_id) (Some hostname) now' skew = Ok a.
Proof.
  intros a Hdot Hkey Ha Hnow. unfold sign. fold a.
  set (payload := b64 (dumps_sorted (to_payload a))). unfold verify.
  assert (nonempty (Some (signing_input key_id payload ++ "." ++ b64 (hmac_sha256 key (signing_input key_id payload))))
          = Some (signing_input key_id payload ++ "." ++ b64 (hmac_sha256 key (signing_input key_id payload)))) as ->
    by done.
  rewrite token_split; [|done|apply b64_no_dot|apply b64_no_dot].
  rewrite String.eqb_refl. cbn [negb]. rewrite Hkey, unb64_b64, String.eqb_refl. cbn [negb].
  change (read_payload key_id payload)
    with (read_payload (as_key_id a) (b64 (dumps_sorted (to_payload a)))).
  rewrite (read_signed a Ha). unfold check_assertion. cbn [as_issued_at as_expires_at a].
  rewrite (proj2 (Z.ltb_ge _ _)), (proj2 (Z.ltb_ge _ _)) by lia.
  change (as_application_id a) with application_id. change (as_hostname a) with hostname.
  by rewrite !String.eqb_refl.
Qed.

(** Whatever an origin accepts was authenticated with a key it holds: the token is
    the version, the key id, a payload and the encoded MAC of exactly these, the
    fields are those of the payload, the time is within them and the skew, and the
    application and hostname are the expected ones. *)
Theorem accepted_is_authentic token keys app host now skew a :
  verify token keys app host now skew = Ok a ->
  exists t payload signature key,
    token = Some t /\ t = signing_input (as_key_id a) payload ++ "." ++ signature /\
    sget (as_key_id a) keys = Some key /\
    unb64 signature = Some (hmac_sha256 key (signing_input (as_key_id a) payload)) /\
    read_payload (as_key_id a) payload = Some a /\
    as_issued_at a <= now + skew /\ now <= as_expires_at a + skew /\
    (forall e, app = Some e -> as_application_id a = e) /\ (forall e, host = Some e -> as_hostname a = e).
Proof.
  unfold verify. destruct (nonempty token) as [t|] eqn:Et; [|done].
  assert (token = Some t) as -> by (destruct token as [[|]|]; simpl in Et; congruence).
  destruct (split_on "."%char t) as [|version [|key_id [|payload [|signature []]]]] eqn:Es; try done.
  destruct (String.eqb_spec version VERSION) as [->|]; [|done]. cbn [negb].
  destruct (sget key_id keys) as [key|] eqn:Ek; [|done].
  destruct (unb64 signature) as [given|] eqn:Eu; [|done].
  destruct (String.eqb_spec (hmac_sha256 key (signing_input key_id payload)) given) as [<-|]; [|done]. cbn [negb].
  destruct (read_payload key_id payload) as [b|] eqn:Ep; [|done]. intros Hc.
  assert (as_key_id b = key_id) as Hid.
  { revert Ep. unfold read_payload. intros Ep.
    repeat match type of Ep with (?o ≫= _) = Some _ => destruct o; [cbn [mbind option_bind] in Ep|done] end.
    by injection Ep as <-. }
  destruct (check_assertion_ok _ _ _ _ _ _ Hc) as (-> & H1 & H2 & H3 & H4). subst key_id.
  exists t, payload, signature, key. split; [done|]. split; [by apply token_unsplit|]. auto 10.
Qed.

(** Every key has a secret of at least 32 characters. *)
Lemma sset_Forall (P : string -> Prop) k v d : P v -> Forall (fun kv => P kv.2) d -> Forall (fun kv => P kv.2) (sset k v d).
Proof.
  intros Hv Hd. induction Hd as [|[k' v'] d Hx Hd IH]; simpl; [by constructor|].
  destruct (String.eqb k k'); by constructor.
Qed.
Lemma parse_keys_lengths spec keys :
  parse_keys spec = Some keys -> Forall (fun kv => MIN_SECRET_LENGTH <= ulen kv.2) keys.
Proof.
  unfold parse_keys. set (step := fun _ _ => _).
  assert (forall items acc, (forall d, acc = Some d -> Forall (fun kv => MIN_SECRET_LENGTH <= ulen kv.2) d) ->
    foldl step acc items = Some keys -> Forall (fun kv => MIN_SECRET_LENGTH <= ulen kv.2) keys) as Hgo.
  { induction items as [|item items IH]; intros acc Hacc; cbn [foldl]; [apply Hacc|]. apply IH. clear IH.
    intros d. unfold step. destruct acc as [d0|]; [|done]. cbn [mbind option_bind]. specialize (Hacc _ eq_refl).
    destruct (String.eqb _ _); [by intros [= <-]|].
    destruct (partition ":"%char (strip item)) as [[key_id sep] secret].
    destruct sep; [|done]. cbn [negb orb]. destruct (String.eqb (strip key_id) ""); [done|].
    destruct (Z.ltb_spec (ulen secret) MIN_SECRET_LENGTH); [done|]. intros [= <-]. by apply (sset_Forall (fun v => MIN_SECRET_LENGTH <= ulen v)). }
  apply Hgo. by intros d [= <-].
Qed.

(** A key id with a dot, which [parse_keys] accepts, signs assertions that no
    origin accepts. *)
Theorem dotted_key_never_verifies key_id key keys application_id domain_id reference hostname request_id now ttl
    app host now' skew :
  has_char "."%char key_id = true ->
  verify (Some (sign key_id key application_id domain_id reference hostname request_id now ttl)) keys
    app host now' skew = Err "malformed".
Proof.
  intros Hdot. unfold sign. set (payload := b64 _).
  assert (5 <= List.length (split_on "."%char
    (signing_input key_id payload ++ "." ++ b64 (hmac_sha256 key (signing_input key_id payload)))))%nat as Hl.
  { set (mac := b64 (hmac_sha256 key (signing_input key_id payload))). unfold signing_input.
    rewrite <- !sapp_assoc. cbn [append]. rewrite !split_on_parts.
    pose proof (split_on_has _ _ Hdot). pose proof (split_on_ne "."%char payload).
    pose proof (split_on_ne "."%char mac). pose proof (split_on_ne "."%char VERSION).
    destruct (split_on "."%char payload), (split_on "."%char mac), (split_on "."%char VERSION); try done.
    simpl. lia. }
  unfold verify.
  assert (nonempty (Some (signing_input key_id payload ++ "." ++ b64 (hmac_sha256 key (signing_input key_id payload))))
          = Some (signing_input key_id payload ++ "." ++ b64 (hmac_sha256 key (signing_input key_id payload)))) as ->
    by done.
  destruct (split_on "."%char _) as [|? [|? [|? [|? [|? ?]]]]]; simpl in Hl; try lia. done.
Qed.

Example dotted_key_parses :
  parse_keys "2026.1:0123456789abcdef0123456789abcdef" = Some [("2026.1", "0123456789abcdef0123456789abcdef")].
Proof. reflexivity. Qed.
End Properties.
