(* ===== verification/Models.v ===== *)
(** * The database

    The tables of app/models/ as one record of finite maps, the enumerations they
    use, and the accessors of the ORM classes.  A row is found by its primary key;
    the key itself (a uuid4) is the map key.  Columns that only keep English text
    for people ([last_error_message]) are left out, and so is [updated_at] of the
    tables where nothing reads it. *)

From Stdlib Require Import Ascii String ZArith Lia.
From stdpp Require Import base gmap strings list countable sorting.
From S2P Require Import Prelude PyStr Datetime Json Errors.
Open Scope string_scope.
Open Scope Z_scope.

(** ** Enumerations (app/models/enums.py) *)

Inductive ApplicationStatus := ACTIVE | SUSPENDED_APP.
Inductive OriginStatus := ORIGIN_PENDING | ORIGIN_VERIFIED | ORIGIN_FAILED | ORIGIN_RETIRED.
Inductive CredentialScope := FULL | READ.
Inductive OriginHostHeader := HH_CUSTOMER | HH_ORIGIN.
Inductive DomainStatus :=
  PENDING_DNS | PROVISIONING | READY | ATTENTION_REQUIRED | SUSPENDED | DELETING.
Inductive ClaimStatus := CLAIM_PENDING | VERIFIED | REVOKED.
Inductive CheckType := OWNERSHIP | ROUTING | CERTIFICATE | ORIGIN.
Inductive CheckStatus := PENDING | PASSING | FAILING.
Inductive EventType :=
  DOMAIN_CREATED | DOMAIN_IMPORTED | CLAIM_ISSUED | CLAIM_VERIFIED | CLAIM_REVOKED
| CHECK_UPDATED | STATUS_CHANGED | DOMAIN_DELETED | RECHECK_REQUESTED | CONNECT_URL_ISSUED.

#[export] Instance ApplicationStatus_eq_dec : EqDecision ApplicationStatus.
Proof. solve_decision. Defined.
#[export] Instance OriginStatus_eq_dec : EqDecision OriginStatus.
Proof. solve_decision. Defined.
#[export] Instance CredentialScope_eq_dec : EqDecision CredentialScope.
Proof. solve_decision. Defined.
#[export] Instance OriginHostHeader_eq_dec : EqDecision OriginHostHeader.
Proof. solve_decision. Defined.
#[export] Instance DomainStatus_eq_dec : EqDecision DomainStatus.
Proof. solve_decision. Defined.
#[export] Instance ClaimStatus_eq_dec : EqDecision ClaimStatus.
Proof. solve_decision. Defined.
#[export] Instance CheckType_eq_dec : EqDecision CheckType.
Proof. solve_decision. Defined.
#[export] Instance CheckStatus_eq_dec : EqDecision CheckStatus.
Proof. solve_decision. Defined.
#[export] Instance EventType_eq_dec : EqDecision EventType.
Proof. solve_decision. Defined.

(** [list(CheckType)] *)
Definition all_checks : list CheckType := [OWNERSHIP; ROUTING; CERTIFICATE; ORIGIN].

Lemma all_checks_all c : c ∈ all_checks.
Proof. destruct c; set_solver. Qed.

#[export] Instance CheckType_countable : Countable CheckType.
Proof.
  refine (inj_countable'
    (fun c => match c with OWNERSHIP => 0 | ROUTING => 1 | CERTIFICATE => 2 | ORIGIN => 3 end%nat)
    (fun n => match n with 0 => OWNERSHIP | 1 => ROUTING | 2 => CERTIFICATE | _ => ORIGIN end%nat) _).
  by intros [].
Defined.

(** The string values of the enumerations. *)
Definition domain_status_value (s : DomainStatus) : string :=
  match s with
  | PENDING_DNS => "pending_dns" | PROVISIONING => "provisioning" | READY => "ready"
  | ATTENTION_REQUIRED => "attention_required" | SUSPENDED => "suspended" | DELETING => "deleting"
  end.
Definition check_type_value (c : CheckType) : string :=
  match c with
  | OWNERSHIP => "ownership" | ROUTING => "routing"
  | CERTIFICATE => "certificate" | ORIGIN => "origin"
  end.
Definition check_status_value (s : CheckStatus) : string :=
  match s with PENDING => "pending" | PASSING => "passing" | FAILING => "failing" end.
Definition event_value (e : EventType) : string :=
  match e with
  | DOMAIN_CREATED => "domain.created" | DOMAIN_IMPORTED => "domain.imported"
  | CLAIM_ISSUED => "domain.claim_issued" | CLAIM_VERIFIED => "domain.claim_verified"
  | CLAIM_REVOKED => "domain.claim_revoked" | CHECK_UPDATED => "domain.check_updated"
  | STATUS_CHANGED => "domain.status_changed" | DOMAIN_DELETED => "domain.deleted"
  | RECHECK_REQUESTED => "domain.recheck_requested"
  | CONNECT_URL_ISSUED => "domain.connect_url_issued"
  end.
Definition scope_value (s : CredentialScope) : string :=
  match s with FULL => "full" | READ => "read" end.

Lemma domain_status_value_inj s t : domain_status_value s = domain_status_value t -> s = t.
Proof. by destruct s, t. Qed.
Lemma event_value_inj s t : event_value s = event_value t -> s = t.
Proof. by destruct s, t. Qed.

(** ** Identifiers *)

Definition hex_digit (n : N) : ascii :=
  ascii_of_N (if (n <? 10)%N then 48 + n else 87 + n)%N.
Fixpoint hex_digits (width : nat) (n : N) : string :=
  match width with
  | O => ""
  | S w => hex_digits w (n / 16)%N +:+ String (hex_digit (n mod 16)%N) ""
  end.
(** [str(uuid)]: 8-4-4-4-12 hexadecimal digits of the 128-bit number. *)
Definition uuid_str (u : N) : string :=
  hex_digits 8 (u / 2 ^ 96)%N +:+ "-" +:+ hex_digits 4 (u / 2 ^ 80 mod 2 ^ 16)%N +:+ "-" +:+
  hex_digits 4 (u / 2 ^ 64 mod 2 ^ 16)%N +:+ "-" +:+ hex_digits 4 (u / 2 ^ 48 mod 2 ^ 16)%N +:+ "-" +:+
  hex_digits 12 (u mod 2 ^ 48)%N.

(** ** Rows *)

Record Application := {
  app_slug : string;
  app_name : string;
  app_status : ApplicationStatus;
  app_cname_target : string;
  app_workspace_probe_enabled : bool;
  app_max_domains : option Z;
  app_rate_limit_per_minute : option Z;
  app_rate_limit_per_second : option Z;
  app_deleted_at : option Z;
  app_purge_after : option Z;
  app_created_at : Z;
  app_updated_at : Z;
}.
#[export] Instance Application_settable : Settable Application := fun r =>
  Build_Application (app_slug r) (app_name r) (app_status r) (app_cname_target r)
    (app_workspace_probe_enabled r) (app_max_domains r) (app_rate_limit_per_minute r)
    (app_rate_limit_per_second r) (app_deleted_at r) (app_purge_after r)
    (app_created_at r) (app_updated_at r).

Record VerifiedOrigin := {
  org_application_id : N;
  org_scheme : string;
  org_host : string;
  org_port : Z;
  org_host_header : OriginHostHeader;
  org_status : OriginStatus;
  org_is_active : bool;
  org_verification_token : option string;
  org_verified_at : option Z;
  org_last_checked_at : option Z;
  org_last_error_code : option string;
  org_created_at : Z;
  org_updated_at : Z;
}.
#[export] Instance VerifiedOrigin_settable : Settable VerifiedOrigin := fun r =>
  Build_VerifiedOrigin (org_application_id r) (org_scheme r) (org_host r) (org_port r)
    (org_host_header r) (org_status r) (org_is_active r) (org_verification_token r)
    (org_verified_at r) (org_last_checked_at r) (org_last_error_code r)
    (org_created_at r) (org_updated_at r).

Record ApiCredential := {
  cred_application_id : N;
  cred_label : string;
  cred_key_prefix : string;
  cred_key_hash : string;
  cred_scope : CredentialScope;
  cred_last_used_at : option Z;
  cred_expires_at : option Z;
  cred_revoked_at : option Z;
  cred_created_at : Z;
  cred_updated_at : Z;
}.
#[export] Instance ApiCredential_settable : Settable ApiCredential := fun r =>
  Build_ApiCredential (cred_application_id r) (cred_label r) (cred_key_prefix r) (cred_key_hash r)
    (cred_scope r) (cred_last_used_at r) (cred_expires_at r) (cred_revoked_at r)
    (cred_created_at r) (cred_updated_at r).

Record AssertionKey := {
  ak_application_id : N;
  ak_key_id : string;
  ak_secret : string;
  ak_active_from : Z;
  ak_revoked_at : option Z;
  ak_created_at : Z;
  ak_updated_at : Z;
}.
#[export] Instance AssertionKey_settable : Settable AssertionKey := fun r =>
  Build_AssertionKey (ak_application_id r) (ak_key_id r) (ak_secret r) (ak_active_from r)
    (ak_revoked_at r) (ak_created_at r) (ak_updated_at r).

Record Domain := {
  dom_application_id : N;
  dom_hostname : string;
  dom_reference : string;
  dom_status : DomainStatus;
  dom_extra : option dict;
  dom_deleted_at : option Z;
  dom_purge_after : option Z;
  dom_zone : option string;
  dom_connect_started_at : option Z;
  dom_created_at : Z;
  dom_updated_at : Z;
}.
#[export] Instance Domain_settable : Settable Domain := fun r =>
  Build_Domain (dom_application_id r) (dom_hostname r) (dom_reference r) (dom_status r)
    (dom_extra r) (dom_deleted_at r) (dom_purge_after r) (dom_zone r)
    (dom_connect_started_at r) (dom_created_at r) (dom_updated_at r).

Record OwnershipClaim := {
  claim_domain_id : N;
  claim_txt_record_name : string;
  claim_token : string;
  claim_cname_target : string;
  claim_status : ClaimStatus;
  claim_verification_method : option string;
  claim_verified_at : option Z;
  claim_revoked_at : option Z;
  claim_expires_at : option Z;
  claim_created_at : Z;
  claim_updated_at : Z;
}.
#[export] Instance OwnershipClaim_settable : Settable OwnershipClaim := fun r =>
  Build_OwnershipClaim (claim_domain_id r) (claim_txt_record_name r) (claim_token r)
    (claim_cname_target r) (claim_status r) (claim_verification_method r) (claim_verified_at r)
    (claim_revoked_at r) (claim_expires_at r) (claim_created_at r) (claim_updated_at r).

(** The key of a check is its domain and its type ([UniqueConstraint("domain_id",
    "check_type")]). *)
Record DomainCheck := {
  check_status : CheckStatus;
  check_error_code : option string;
  check_message : option string;
  check_details : option dict;
  check_observed_at : option Z;
  check_next_check_at : option Z;
}.
#[export] Instance DomainCheck_settable : Settable DomainCheck := fun r =>
  Build_DomainCheck (check_status r) (check_error_code r) (check_message r) (check_details r)
    (check_observed_at r) (check_next_check_at r).

Record DomainEvent := {
  event_id : N;
  event_domain_id : N;
  event_application_id : N;
  event_type : string;
  event_payload : option dict;
  event_created_at : Z;
}.

Record DnsZone := {
  zone_provider : string;
  zone_nameservers : option (list string);
  zone_domain_connect : option (list (string * string));
  zone_template : option string;
  zone_template_supported : option bool;
  zone_error_code : option string;
  zone_message : option string;
  zone_checked_at : Z;
  zone_expires_at : Z;
}.

Record WebhookSubscription := {
  sub_application_id : N;
  sub_url : string;
  sub_events : list string;
  sub_secret : string;
  sub_previous_secret : option string;
  sub_previous_secret_expires_at : option Z;
  sub_revoked_at : option Z;
  sub_created_at : Z;
  sub_updated_at : Z;
}.
#[export] Instance WebhookSubscription_settable : Settable WebhookSubscription := fun r =>
  Build_WebhookSubscription (sub_application_id r) (sub_url r) (sub_events r) (sub_secret r)
    (sub_previous_secret r) (sub_previous_secret_expires_at r) (sub_revoked_at r)
    (sub_created_at r) (sub_updated_at r).

Record WebhookDelivery := {
  del_subscription_id : N;
  del_application_id : N;
  del_event_id : N;
  del_event_type : string;
  del_domain_id : option N;
  del_payload : json;
  del_attempts : Z;
  del_next_attempt_at : option Z;
  del_delivered_at : option Z;
  del_abandoned_at : option Z;
  del_last_attempt_at : option Z;
  del_last_status : option Z;
  del_last_error : option string;
  del_created_at : Z;
}.
#[export] Instance WebhookDelivery_settable : Settable WebhookDelivery := fun r =>
  Build_WebhookDelivery (del_subscription_id r) (del_application_id r) (del_event_id r)
    (del_event_type r) (del_domain_id r) (del_payload r) (del_attempts r) (del_next_attempt_at r)
    (del_delivered_at r) (del_abandoned_at r) (del_last_attempt_at r) (del_last_status r)
    (del_last_error r) (del_created_at r).

Record ConnectSession := {
  cs_application_id : N;
  cs_domain_id : N;
  cs_token_hash : string;
  cs_expires_at : Z;
  cs_revoked_at : option Z;
  cs_app_name : option string;
  cs_return_url : option string;
  cs_created_at : Z;
  cs_updated_at : Z;
}.
#[export] Instance ConnectSession_settable : Settable ConnectSession := fun r =>
  Build_ConnectSession (cs_application_id r) (cs_domain_id r) (cs_token_hash r) (cs_expires_at r)
    (cs_revoked_at r) (cs_app_name r) (cs_return_url r) (cs_created_at r) (cs_updated_at r).

(** Keyed by application and key ([UniqueConstraint("application_id", "key")]). *)
Record IdempotencyKey := {
  idem_request_hash : string;
  idem_domain_id : option N;
  idem_created_at : Z;
  idem_expires_at : Z;
}.
#[export] Instance IdempotencyKey_settable : Settable IdempotencyKey := fun r =>
  Build_IdempotencyKey (idem_request_hash r) (idem_domain_id r) (idem_created_at r) (idem_expires_at r).

Record DomainConnectSigner := {
  dcs_signer : string;
  dcs_url : string;
  dcs_credential_ciphertext : string;
  dcs_credential_prefix : string;
  dcs_provider_id : string;
  dcs_service_id : string;
  dcs_updated_at : Z;
}.

Record OperatorToken := {
  optok_token_hash : string;
  optok_set_at : Z;
}.

Record EdgeLock := {
  lock_holder : option string;
  lock_locked_at : option Z;
}.

Record ApplicationTraffic := {
  tr_requests : Z;
  tr_response_bytes : Z;
}.

Record EdgeTrafficCounter := {
  ctr_requests : Z;
  ctr_response_bytes : Z;
  ctr_read_at : Z;
}.

(** ** The session's database *)

Record Db := {
  db_applications : gmap N Application;
  db_origins : gmap N VerifiedOrigin;
  db_credentials : gmap N ApiCredential;
  db_assertion_keys : gmap N AssertionKey;
  db_domains : gmap N Domain;
  db_claims : gmap N OwnershipClaim;
  db_checks : gmap (N * CheckType) DomainCheck;
  db_events : list DomainEvent;            (* in insertion order *)
  db_zones : gmap string DnsZone;
  db_subscriptions : gmap N WebhookSubscription;
  db_deliveries : gmap N WebhookDelivery;
  db_connect_sessions : gmap N ConnectSession;
  db_idempotency : gmap (N * string) IdempotencyKey;
  db_signer : option DomainConnectSigner;  (* the row named "active" *)
  db_operator_token : option OperatorToken;
  db_locks : gmap string EdgeLock;
  db_traffic : gmap (N * Z) ApplicationTraffic;
  db_counters : gmap string EdgeTrafficCounter;
  db_clock : Z;                            (* what utcnow() reads *)
  db_next : N;                             (* next uuid4 / random draw *)
}.
#[export] Instance Db_settable : Settable Db := fun r =>
  Build_Db (db_applications r) (db_origins r) (db_credentials r) (db_assertion_keys r)
    (db_domains r) (db_claims r) (db_checks r) (db_events r) (db_zones r) (db_subscriptions r)
    (db_deliveries r) (db_connect_sessions r) (db_idempotency r) (db_signer r)
    (db_operator_token r) (db_locks r) (db_traffic r) (db_counters r) (db_clock r) (db_next r).

Definition empty_db (clock : Z) : Db :=
  Build_Db ∅ ∅ ∅ ∅ ∅ ∅ ∅ [] ∅ ∅ ∅ ∅ ∅ None None ∅ ∅ ∅ clock 1.

(** ** Properties of the ORM classes *)

Definition application_is_deleted (a : Application) : bool := bool_decide (is_Some (app_deleted_at a)).

Definition credential_is_usable (c : ApiCredential) (now : Z) : bool :=
  let not_revoked := bool_decide (cred_revoked_at c = None) in
  let not_expired := match cred_expires_at c with None => true | Some e => now <? e end in
  not_revoked && not_expired.

Definition origin_url (o : VerifiedOrigin) : string :=
  org_scheme o +:+ "://" +:+ org_host o +:+ ":" +:+ py_str (org_port o).

Definition is_deleted (d : Domain) : bool := bool_decide (is_Some (dom_deleted_at d)).

Definition txt_record_value (c : OwnershipClaim) : string := "custom-domain-verify=" +:+ claim_token c.

Definition subscription_is_active (s : WebhookSubscription) : bool := bool_decide (sub_revoked_at s = None).

Definition delivery_state (d : WebhookDelivery) : string :=
  if bool_decide (is_Some (del_delivered_at d)) then "delivered"
  else if bool_decide (is_Some (del_abandoned_at d)) then "abandoned"
  else "pending".

(** ** Queries *)

(** [ORDER BY f(row), id] *)
Definition row_le {A} (f : A -> Z) (x y : N * A) : Prop :=
  f x.2 < f y.2 \/ f x.2 = f y.2 /\ (x.1 <= y.1)%N.
#[export] Instance row_le_dec {A} (f : A -> Z) x y : Decision (row_le f x y).
Proof. unfold row_le. apply _. Defined.
#[export] Instance row_le_total {A} (f : A -> Z) : Total (row_le f).
Proof. intros x y. unfold row_le. lia. Qed.
#[export] Instance row_le_trans {A} (f : A -> Z) : Transitive (row_le f).
Proof. intros x y z. unfold row_le. lia. Qed.

(** [SELECT * FROM m WHERE p ORDER BY f, id] *)
Definition select_rows {A} (f : A -> Z) (p : N -> A -> bool) (m : gmap N A) : list (N * A) :=
  merge_sort (row_le f) (filter (fun x => p x.1 x.2 = true) (map_to_list m)).

Lemma elem_select_rows {A} (f : A -> Z) p (m : gmap N A) k r :
  (k, r) ∈ select_rows f p m <-> m !! k = Some r /\ p k r = true.
Proof.
  unfold select_rows. rewrite merge_sort_Permutation, list_elem_of_filter, elem_of_map_to_list.
  simpl. tauto.
Qed.

(** [SELECT count] of the rows satisfying [p] *)
Definition count_rows {A} (p : N -> A -> bool) (m : gmap N A) : Z :=
  Z.of_nat (List.length (filter (fun x => p x.1 x.2 = true) (map_to_list m))).

(** The smallest and largest of a list, [None] when it is empty (SQL [min], [max]). *)
Definition zmax (l : list Z) : option Z :=
  match l with [] => None | x :: l => Some (foldr Z.max x l) end.
Definition zmin (l : list Z) : option Z :=
  match l with [] => None | x :: l => Some (foldr Z.min x l) end.

Lemma foldr_max_le (l : list Z) x y : x = y \/ y ∈ l -> y <= foldr Z.max x l.
Proof.
  revert y. induction l as [|z l IH]; simpl; intros y; rewrite ?elem_of_nil, ?elem_of_cons; [lia|].
  intros [->|[->|Hl]]; [|lia|]; (etrans; [apply IH; eauto|lia]).
Qed.
Lemma foldr_min_le (l : list Z) x y : x = y \/ y ∈ l -> foldr Z.min x l <= y.
Proof.
  revert y. induction l as [|z l IH]; simpl; intros y; rewrite ?elem_of_nil, ?elem_of_cons; [lia|].
  intros [->|[->|Hl]]; [|lia|]; (etrans; [|apply IH; eauto]; lia).
Qed.
Lemma foldr_max_in (l : list Z) x : foldr Z.max x l = x \/ foldr Z.max x l ∈ l.
Proof.
  induction l as [|z l IH]; simpl; [auto|]. rewrite elem_of_cons.
  destruct (Z.max_spec z (foldr Z.max x l)) as [[_ ->]|[_ ->]]; tauto.
Qed.
Lemma foldr_min_in (l : list Z) x : foldr Z.min x l = x \/ foldr Z.min x l ∈ l.
Proof.
  induction l as [|z l IH]; simpl; [auto|]. rewrite elem_of_cons.
  destruct (Z.min_spec z (foldr Z.min x l)) as [[_ ->]|[_ ->]]; tauto.
Qed.

Lemma zmax_Some l m : zmax l = Some m -> m ∈ l /\ forall y, y ∈ l -> y <= m.
Proof.
  destruct l as [|x l]; [done|]. intros [= <-]. split.
  - rewrite elem_of_cons. apply foldr_max_in.
  - intros y [->|?]%elem_of_cons; apply foldr_max_le; auto.
Qed.
Lemma zmin_Some l m : zmin l = Some m -> m ∈ l /\ forall y, y ∈ l -> m <= y.
Proof.
  destruct l as [|x l]; [done|]. intros [= <-]. split.
  - rewrite elem_of_cons. apply foldr_min_in.
  - intros y [->|?]%elem_of_cons; apply foldr_min_le; auto.
Qed.
Lemma zmax_None l : zmax l = None <-> l = [].
Proof. destruct l; naive_solver. Qed.
Lemma zmin_None l : zmin l = None <-> l = [].
Proof. destruct l; naive_solver. Qed.

(** ** Relationships *)

(** [domain.claims], ordered by [created_at] *)
Definition domain_claims (s : Db) (d : N) : list (N * OwnershipClaim) :=
  select_rows claim_created_at (fun _ c => bool_decide (claim_domain_id c = d)) (db_claims s).

Definition claim_live (c : OwnershipClaim) : bool := bool_decide (claim_status c <> REVOKED).

(** [domain.active_claim] *)
Definition active_claim (s : Db) (d : N) : option (N * OwnershipClaim) :=
  head (filter (fun x => claim_live x.2 = true) (domain_claims s d)).

(** [domain.check(check_type)] *)
Definition domain_check (s : Db) (d : N) (t : CheckType) : option DomainCheck :=
  db_checks s !! (d, t).

(** [application.origins], oldest first *)
Definition application_origins (s : Db) (a : N) : list (N * VerifiedOrigin) :=
  select_rows org_created_at (fun _ o => bool_decide (org_application_id o = a)) (db_origins s).

(** [application.active_origin] and [application.serving_origin] *)
Definition active_origin (s : Db) (a : N) : option (N * VerifiedOrigin) :=
  head (filter (fun x => org_is_active x.2 = true) (application_origins s a)).
Definition serving_origin (s : Db) (a : N) : option (N * VerifiedOrigin) :=
  match active_origin s a with
  | Some (k, o) => if bool_decide (org_status o = ORIGIN_VERIFIED) then Some (k, o) else None
  | None => None
  end.

(** [domain.dns_zone]: the zone row named by the domain's [zone] *)
Definition dns_zone (s : Db) (d : Domain) : option DnsZone :=
  match dom_zone d with Some z => db_zones s !! z | None => None end.

(** The events of a domain. *)
Definition events_of (s : Db) (d : N) : list DomainEvent :=
  filter (fun e => event_domain_id e = d) (db_events s).

Lemma head_filter_Some {A} (P : A -> Prop) `{!forall x, Decision (P x)} (l : list A) x :
  head (filter P l) = Some x -> x ∈ l /\ P x.
Proof. intros Hx%head_Some_elem_of. apply list_elem_of_filter in Hx. tauto. Qed.
Lemma head_filter_None {A} (P : A -> Prop) `{!forall x, Decision (P x)} (l : list A) x :
  head (filter P l) = None -> x ∈ l -> ~ P x.
Proof.
  intros Hn%head_None Hx HP.
  assert (x ∈ filter P l) as Hin by (apply list_elem_of_filter; done).
  rewrite Hn in Hin. by apply not_elem_of_nil in Hin.
Qed.

Lemma active_claim_Some s d k c :
  active_claim s d = Some (k, c) ->
  db_claims s !! k = Some c /\ claim_domain_id c = d /\ claim_status c <> REVOKED.
Proof.
  intros [Hin Hl]%head_filter_Some. unfold domain_claims in Hin.
  rewrite elem_select_rows, bool_decide_eq_true in Hin.
  unfold claim_live in Hl. rewrite bool_decide_eq_true in Hl. simpl in Hl. tauto.
Qed.
Lemma active_claim_None s d k c :
  active_claim s d = None -> db_claims s !! k = Some c -> claim_domain_id c = d ->
  claim_status c = REVOKED.
Proof.
  intros H Hk Hd. destruct (decide (claim_status c = REVOKED)) as [|Hn]; [done|].
  exfalso. refine (head_filter_None _ _ (k, c) H _ _).
  - unfold domain_claims. rewrite elem_select_rows, bool_decide_eq_true. done.
  - simpl. unfold claim_live. by rewrite bool_decide_eq_true.
Qed.
Lemma active_origin_Some s a k o :
  active_origin s a = Some (k, o) ->
  db_origins s !! k = Some o /\ org_application_id o = a /\ org_is_active o = true.
Proof.
  intros [Hin Hl]%head_filter_Some. unfold application_origins in Hin.
  rewrite elem_select_rows, bool_decide_eq_true in Hin. simpl in Hl. tauto.
Qed.

(** ** Sessions: the operations every component writes through *)

Abbreviation M := (SM Db exn).

(** [now or utcnow()] *)
Definition now_or (now : option Z) : M Z :=
  match now with Some n => mret n | None => gets db_clock end.

(** [uuid.uuid4()], and the position of the next random draw. *)
Definition fresh : M N := fun s => (Ok (db_next s), s <| db_next := (db_next s + 1)%N |>).

(** Reading an attribute of an ORM object reads its row; a row another
    transaction removed raises. *)
Definition the_application (a : N) : M Application :=
  r ← gets (fun s => db_applications s !! a); need r PyRuntimeError.
Definition the_domain (d : N) : M Domain :=
  r ← gets (fun s => db_domains s !! d); need r PyRuntimeError.

Definition UNIQUE_hostname : string := "UNIQUE constraint failed: domains.hostname".
Definition UNIQUE_live_claim : string := "UNIQUE constraint failed: ownership_claims.domain_id".
Definition UNIQUE_token : string := "UNIQUE constraint failed: ownership_claims.token".
Definition UNIQUE_domain_id : string := "UNIQUE constraint failed: domains.id".
Definition UNIQUE_claim_id : string := "UNIQUE constraint failed: ownership_claims.id".
Definition FOREIGN_KEY : string := "FOREIGN KEY constraint failed".

Definition live (d : Domain) : bool := negb (is_deleted d).

(** [session.add(domain); session.flush()]: the partial unique index
    [ux_domains_hostname_live], the primary key and the foreign key to applications. *)
Definition insert_domain (d : Domain) : M N :=
  s ← get;
  _ ← guard_ (bool_decide (is_Some (db_applications s !! dom_application_id d)))
       (IntegrityError FOREIGN_KEY);
  _ ← guard_ (negb (live d &&
        existsb (fun x => live x.2 && String.eqb (dom_hostname x.2) (dom_hostname d))
                (map_to_list (db_domains s))))
       (IntegrityError UNIQUE_hostname);
  k ← fresh;
  _ ← guard_ (bool_decide (db_domains s !! k = None)) (IntegrityError UNIQUE_domain_id);
  _ ← modify (fun s => s <| db_domains ::= <[k := d]> |>);
  mret k.

(** [session.add(claim); session.flush()]: the index [ux_ownership_claims_one_live],
    the unique token and the foreign key to domains. *)
Definition insert_claim (c : OwnershipClaim) : M N :=
  s ← get;
  _ ← guard_ (bool_decide (is_Some (db_domains s !! claim_domain_id c)))
       (IntegrityError FOREIGN_KEY);
  _ ← guard_ (negb (claim_live c &&
        existsb (fun x => claim_live x.2 && (claim_domain_id x.2 =? claim_domain_id c)%N)
                (map_to_list (db_claims s))))
       (IntegrityError UNIQUE_live_claim);
  _ ← guard_ (negb (existsb (fun x => String.eqb (claim_token x.2) (claim_token c))
                (map_to_list (db_claims s))))
       (IntegrityError UNIQUE_token);
  k ← fresh;
  _ ← guard_ (bool_decide (db_claims s !! k = None)) (IntegrityError UNIQUE_claim_id);
  _ ← modify (fun s => s <| db_claims ::= <[k := c]> |>);
  mret k.

(** Flushing assigned attributes of one row. *)
Definition update_application (a : N) (f : Application -> Application) : M unit :=
  modify (fun s => s <| db_applications ::= alter f a |>).
Definition update_domain (d : N) (f : Domain -> Domain) : M unit :=
  modify (fun s => s <| db_domains ::= alter f d |>).
(** [updated_at] has [onupdate=utcnow]. *)
Definition update_claim (k : N) (f : OwnershipClaim -> OwnershipClaim) : M unit :=
  modify (fun s => s <| db_claims ::= alter (fun c => (f c) <| claim_updated_at := db_clock s |>) k |>).
Definition put_check (d : N) (t : CheckType) (c : DomainCheck) : M unit :=
  modify (fun s => s <| db_checks ::= <[(d, t) := c]> |>).
Definition append_event (e : DomainEvent) : M unit :=
  modify (fun s => s <| db_events ::= (fun l => (l ++ [e])%list) |>).
#[global] Arguments the_domain : simpl never.
#[global] Arguments the_application : simpl never.
#[global] Arguments fresh : simpl never.
#[global] Arguments insert_domain : simpl never.
#[global] Arguments insert_claim : simpl never.

Lemma now_or_ok o s n s' : now_or o s = (Ok n, s') -> s' = s /\ n = default (db_clock s) o.
Proof. destruct o; intros [= -> ->]; done. Qed.

(** The clock readings and draws left by [run_inv]. *)
Ltac run_draws := repeat match goal with
  | F : now_or _ _ = (Ok _, _) |- _ => apply now_or_ok in F as [-> ->]
  | F : fresh _ = (Ok _, _) |- _ => injection F as <- <-
  end.
