(* ===== verification/Uuid.v ===== *)
(** * Reading identifiers back

    [uuid.UUID(text)] on the text of an identifier, and that it gives the identifier
    [str] was given. *)

From Stdlib Require Import Ascii String ZArith Lia.
From stdpp Require Import base strings list.
From S2P Require Import Prelude PyStr Base64 Json Errors Models.
Open Scope string_scope.
Open Scope N_scope.

Definition hex_value (c : ascii) : option N :=
  let n := N_of_ascii c in
  if (48 <=? n) && (n <=? 57) then Some (n - 48)
  else if (65 <=? n) && (n <=? 70) then Some (n - 55)
  else if (97 <=? n) && (n <=? 102) then Some (n - 87)
  else None.

(** [int(text, 16)] of hexadecimal digits; the underscores and spaces [int] also
    takes are left out. *)
Fixpoint read_hex (acc : N) (s : string) : option N :=
  match s with
  | EmptyString => Some acc
  | String c r => d ← hex_value c; read_hex (16 * acc + d) r
  end.

Fixpoint without_char (a : ascii) (s : string) : string :=
  match s with
  | EmptyString => ""
  | String c r => if Ascii.eqb c a then without_char a r else String c (without_char a r)
  end.

(** [uuid.UUID(text)]; [None]: [ValueError] *)
Definition uuid_of (text : string) : option N :=
  let hex := without_char "-"%char
    (strip_if (fun c => has_char c "{}") (replace "uuid:" "" (replace "urn:" "" text))) in
  if (String.length hex =? 32)%nat then read_hex 0 hex else None.

(** ** Properties *)

Lemma hex_value_digit n : n < 16 -> hex_value (hex_digit n) = Some n.
Proof.
  intros Hn. assert (In n [0;1;2;3;4;5;6;7;8;9;10;11;12;13;14;15]) as Hin by (simpl; lia).
  simpl in Hin. repeat destruct Hin as [<-|Hin]; try done.
Qed.

Lemma read_hex_app acc a b : read_hex acc (a ++ b) = v ← read_hex acc a; read_hex v b.
Proof.
  revert acc. induction a as [|c a IH]; intros acc; [done|]. cbn [append read_hex].
  destruct (hex_value c); [|done]. cbn [mbind option_bind]. apply IH.
Qed.

Lemma read_hex_digits w n acc : read_hex acc (hex_digits w n) = Some (acc * 16 ^ N.of_nat w + n mod 16 ^ N.of_nat w).
Proof.
  revert n acc. induction w as [|w IH]; intros n acc; [cbn [hex_digits read_hex]; f_equal; by rewrite N.mod_1_r; lia|].
  cbn [hex_digits]. rewrite read_hex_app, IH. cbn [mbind option_bind read_hex].
  rewrite hex_value_digit by (apply N.mod_lt; done). cbn [mbind option_bind].
  f_equal. rewrite Nat2N.inj_succ, N.pow_succ_r'. rewrite (N.Div0.mod_mul_r n 16 (16 ^ N.of_nat w)). lia.
Qed.

(** The characters of an identifier's text. *)
Definition uuid_char (c : ascii) : bool := in_range 48 57 c || in_range 97 102 c || char_eqb "-"%char c.

Lemma hex_digit_char n : n < 16 -> in_range 48 57 (hex_digit n) || in_range 97 102 (hex_digit n) = true.
Proof.
  intros Hn. assert (In n [0;1;2;3;4;5;6;7;8;9;10;11;12;13;14;15]) as Hin by (simpl; lia).
  simpl in Hin. repeat destruct Hin as [<-|Hin]; try done.
Qed.
Lemma hex_digits_chars w n : sall (fun c => in_range 48 57 c || in_range 97 102 c) (hex_digits w n) = true.
Proof.
  revert n. induction w as [|w IH]; intros n; [done|]. cbn [hex_digits]. rewrite sall_app, IH. cbn [sall].
  by rewrite hex_digit_char by (apply N.mod_lt; done).
Qed.
Lemma hex_digits_length w n : String.length (hex_digits w n) = w.
Proof. revert n. induction w as [|w IH]; intros n; [done|]. cbn [hex_digits]. rewrite length_sapp, IH. simpl. lia. Qed.

Lemma uuid_str_chars u : sall uuid_char (uuid_str u) = true.
Proof.
  assert (forall w n, sall uuid_char (hex_digits w n) = true) as Hd.
  { intros w n. eapply sall_impl; [|apply hex_digits_chars]. intros c. unfold uuid_char. by intros ->. }
  unfold uuid_str. by rewrite !sall_app, !Hd.
Qed.

Lemma without_char_app a s t : without_char a (s ++ t) = without_char a s ++ without_char a t.
Proof. induction s as [|c s IH]; [done|]. cbn [append without_char]. destruct (Ascii.eqb c a); [done|]. cbn. by rewrite IH. Qed.
Lemma without_char_free p a s : sall p s = true -> p a = false -> without_char a s = s.
Proof.
  intros Hs Ha. induction s as [|c s IH]; [done|]. cbn [sall without_char] in *. apply andb_prop in Hs as [Hc Hs].
  destruct (Ascii.eqb_spec c a) as [->|]; [congruence|]. by rewrite IH.
Qed.

Lemma replace_free p old new s : sall p s = true -> sall p old = false -> replace old new s = s.
Proof.
  intros Hs Ho. unfold replace.
  assert (forall t, sall p t = true -> startswith old t = false) as Hst.
  { intros t Ht. apply not_true_is_false. intros [r ->]%startswith_true. rewrite sall_app in Ht.
    apply andb_prop in Ht as [Ht _]. congruence. }
  induction s as [|c s IH]; [done|]. cbn [replace_skip]. rewrite Hst by done. cbn [sall] in Hs.
  apply andb_prop in Hs as [_ Hs]. by rewrite IH.
Qed.

(** An identifier's text reads back as the identifier. *)
Theorem uuid_round_trip u : u < 2 ^ 128 -> uuid_of (uuid_str u) = Some u.
Proof.
  intros Hu. unfold uuid_of. pose proof (uuid_str_chars u) as Hc.
  rewrite (replace_free uuid_char "urn:") by done. rewrite (replace_free uuid_char "uuid:") by done.
  rewrite strip_if_none by (eapply sall_impl; [|exact Hc]; intros c; clear; destruct c as [[] [] [] [] [] [] [] []]; vm_compute; done).
  unfold uuid_str.
  assert (forall w n, without_char "-"%char (hex_digits w n) = hex_digits w n) as Hw.
  { intros w n. eapply without_char_free; [apply hex_digits_chars|done]. }
  rewrite !without_char_app, !Hw. change (without_char "-"%char "-") with "". cbn [append].
  rewrite !length_sapp, !hex_digits_length. change (_ =? 32)%nat with true. cbv iota.
  rewrite read_hex_app, read_hex_digits. cbn [mbind option_bind]. rewrite read_hex_app, read_hex_digits. cbn [mbind option_bind].
  rewrite read_hex_app, read_hex_digits. cbn [mbind option_bind]. rewrite read_hex_app, read_hex_digits. cbn [mbind option_bind].
  rewrite read_hex_digits. f_equal.
  change (N.of_nat 8) with 8. change (N.of_nat 4) with 4. change (N.of_nat 12) with 12.
  change (16 ^ 8) with (2 ^ 32). change (16 ^ 4) with (2 ^ 16). change (16 ^ 12) with (2 ^ 48).
  rewrite !N.Div0.mod_mod. rewrite (N.mod_small (u / 2 ^ 96)) by (apply N.Div0.div_lt_upper_bound; exact Hu).
  rewrite N.mul_0_l, N.add_0_l.
  assert (forall k, u / 2 ^ k = 2 ^ 16 * (u / 2 ^ k / 2 ^ 16) + (u / 2 ^ k) mod 2 ^ 16) as Hk by (intros; apply N.div_mod').
  pose proof (Hk 80) as H80. pose proof (Hk 64) as H64. pose proof (Hk 48) as H48. clear Hk.
  rewrite N.Div0.div_div in H80, H64, H48. change (2 ^ 80 * 2 ^ 16) with (2 ^ 96) in H80.
  change (2 ^ 64 * 2 ^ 16) with (2 ^ 80) in H64. change (2 ^ 48 * 2 ^ 16) with (2 ^ 64) in H48.
  pose proof (N.div_mod' u (2 ^ 48)) as H0. lia.
Qed.
