(* ===== verification/Url.v ===== *)
(** * URLs and query strings

    The parts of [urllib.parse] the Domain Connect code calls: percent-encoding and
    query strings, written out, and what [urlsplit] gives.  Theorem: a query string
    reads back as the parameters it was made from. *)

From Stdlib Require Import Ascii String ZArith Lia.
From stdpp Require Import base strings list.
From S2P Require Import Prelude PyStr Base64.
Open Scope string_scope.
Open Scope Z_scope.

(** ** Percent-encoding *)

Definition unreserved (c : ascii) : bool := is_alnum c || has_char c "_.-~".
Definition upper_nibble (n : Z) : ascii := chr (if n <? 10 then 48 + n else 55 + n).

(** [quote(s, safe="")], over the UTF-8 bytes *)
Fixpoint quote (s : string) : string :=
  match s with
  | EmptyString => ""
  | String c r =>
      if unreserved c then String c (quote r)
      else String "%"%char (String (upper_nibble (code c / 16)) (String (upper_nibble (code c mod 16)) (quote r)))
  end.

Definition nibble (c : ascii) : option Z :=
  if is_digit c then Some (code c - 48)
  else if in_range 65 70 c then Some (code c - 55)
  else if in_range 97 102 c then Some (code c - 87)
  else None.

(** [unquote_to_bytes(s)]: an escape that is not one stays as it is. *)
Fixpoint unquote (s : string) : string :=
  match s with
  | String "%" (String h (String l r) as rest) =>
      match nibble h, nibble l with
      | Some a, Some b => String (chr (16 * a + b)) (unquote r)
      | _, _ => String "%"%char (unquote rest)
      end
  | String c r => String c (unquote r)
  | EmptyString => ""
  end.

(** [urlencode(params, quote_via=quote)] *)
Definition encode_pair (p : string * string) : string := quote p.1 ++ "=" ++ quote p.2.
Definition urlencode (params : list (string * string)) : string := join "&" (encode_pair <$> params).

(** Reading a query string as its receiver does. *)
Definition read_pair (item : string) : string * string :=
  let '(k, _, v) := partition "="%char item in (unquote k, unquote v).
Definition parse_query (q : string) : list (string * string) :=
  if String.eqb q "" then [] else read_pair <$> split_on "&"%char q.

(** ** Splitting

    What [urlsplit(url)] gives; [None]: [ValueError], of the call or of [.port]. *)
Record UrlSplit := {
  us_scheme : string;
  us_netloc : string;
  us_path : string;
  us_query : string;
  us_fragment : string;
  us_hostname : option string;
  us_username : option string;
  us_password : option string;
  us_port : option Z;
}.

(** [urlunsplit] of parts that have a network location *)
Definition urlunsplit (scheme netloc path query fragment : string) : string :=
  (if String.eqb scheme "" then "" else scheme ++ ":") ++ "//" ++ netloc
  ++ (if String.eqb path "" || startswith "/" path then path else "/" ++ path)
  ++ (if String.eqb query "" then "" else "?" ++ query)
  ++ (if String.eqb fragment "" then "" else "#" ++ fragment).

(** [$] of a pattern also stops before a final newline. *)
Definition to_end (core : string -> bool) (s : string) : bool :=
  core s || (endswith (String NL "") s && core (removesuffix (String NL "") s)).

(** [[a-z0-9]([a-z0-9.-]{0,251}[a-z0-9])?] *)
Definition host_char (c : ascii) : bool := is_digit c || is_lower c.
Definition last_char (s : string) : option ascii := String.get (String.length s - 1) s.
Definition host_core (h : string) : bool :=
  match h with
  | "" => false
  | String c rest =>
      host_char c && (String.eqb rest "" || (slen rest <=? 252)
        && sall (fun c => host_char c || has_char c ".-") rest
        && match last_char rest with Some e => host_char e | None => false end)
  end.

(** ** Properties *)

Lemma nibble_upper n : 0 <= n < 16 -> nibble (upper_nibble n) = Some n.
Proof.
  intros Hn. assert (In n [0;1;2;3;4;5;6;7;8;9;10;11;12;13;14;15]) as Hin by (simpl; lia).
  simpl in Hin. repeat destruct Hin as [<-|Hin]; try done.
Qed.

Lemma unquote_plain c r : unreserved c = true -> unquote (String c r) = String c (unquote r).
Proof. intros Hc. destruct (Ascii.eqb_spec c "%"%char) as [->|Hne]; [done|]. by destruct c as [[] [] [] [] [] [] [] []]. Qed.

Lemma unquote_quote s : unquote (quote s) = s.
Proof.
  induction s as [|c s IH]; [done|]. cbn [quote]. destruct (unreserved c) eqn:Hc.
  - by rewrite unquote_plain, IH.
  - pose proof (code_range c) as Hr. cbn [unquote].
    rewrite (nibble_upper (code c / 16)) by (split; [apply Z.div_pos|apply Z.div_lt_upper_bound]; lia).
    rewrite (nibble_upper (code c mod 16)) by (apply Z.mod_pos_bound; lia).
    rewrite <- Z.div_mod by done. by rewrite chr_code, IH.
Qed.

Lemma quote_free c s : unreserved c = false -> c <> "%"%char -> in_range 48 57 c || in_range 65 70 c = false ->
  has_char c (quote s) = false.
Proof.
  intros Hu Hp Hh. unfold has_char, sany. apply negb_false_iff.
  induction s as [|d s IH]; [done|]. cbn [quote]. destruct (unreserved d) eqn:Hd; cbn [sall].
  - rewrite IH, andb_true_r. apply negb_true_iff. unfold char_eqb. apply Ascii.eqb_neq. congruence.
  - rewrite IH, andb_true_r.
    assert (forall n, 0 <= n < 16 -> negb (char_eqb c (upper_nibble n)) = true) as Hn.
    { intros n Hn. apply negb_true_iff, Ascii.eqb_neq. intros ->. revert Hh.
      assert (In n [0;1;2;3;4;5;6;7;8;9;10;11;12;13;14;15]) as Hin by (simpl; lia).
      simpl in Hin. repeat destruct Hin as [<-|Hin]; try done. }
    pose proof (code_range d) as Hr.
    rewrite !Hn by (first [apply Z.mod_pos_bound; lia|split; [apply Z.div_pos|apply Z.div_lt_upper_bound]; lia]).
    rewrite andb_true_r. apply negb_true_iff, Ascii.eqb_neq. congruence.
Qed.

Lemma read_encoded p : read_pair (encode_pair p) = p.
Proof.
  destruct p as [k v]. unfold read_pair, encode_pair. cbn [fst snd].
  change ("=" ++ quote v) with (String "="%char (quote v)).
  rewrite partition_app by (apply free_of, quote_free; done). by rewrite !unquote_quote.
Qed.

Lemma encoded_free p : has_char "&"%char (encode_pair p) = false.
Proof.
  unfold encode_pair, has_char, sany. apply negb_false_iff. rewrite !sall_app.
  pose proof (quote_free "&"%char p.1 eq_refl ltac:(done) eq_refl) as H1.
  pose proof (quote_free "&"%char p.2 eq_refl ltac:(done) eq_refl) as H2.
  unfold has_char, sany in H1, H2. apply negb_false_iff in H1, H2. by rewrite H1, H2.
Qed.

(** A query string reads back as the parameters it was made from: it has exactly one
    reading, whatever the values hold. *)
Theorem parse_urlencode params : parse_query (urlencode params) = params.
Proof.
  unfold parse_query, urlencode. destruct params as [|p params]; [done|].
  assert (String.eqb (join "&" (encode_pair <$> p :: params)) "" = false) as ->.
  { apply String.eqb_neq. destruct params; cbn [fmap list_fmap join String.concat]; unfold encode_pair;
      destruct (quote p.1); done. }
  rewrite split_on_join; [|done|].
  - generalize (p :: params). intros l. induction l as [|q l IH]; [done|]. cbn [fmap list_fmap]. by rewrite read_encoded, IH.
  - apply Forall_fmap, Forall_true. intros q. apply free_of, encoded_free.
Qed.
