(* ===== verification/Signature.v ===== *)
(** * Webhook signatures (app/webhooks/signature.py)

    The signature header of a delivery and how a consumer checks it.  Theorems: a
    consumer that holds one of the signing secrets accepts within the tolerance; an
    accepted header carries the MAC of its timestamp and the body under a secret
    the consumer holds; and a header with a character outside ASCII where a MAC is
    expected makes the comparison raise. *)

From Stdlib Require Import Ascii String ZArith Lia.
From stdpp Require Import base strings list.
From S2P Require Import Prelude PyStr Json JsonText Errors External Models.
Open Scope string_scope.
Open Scope Z_scope.

Definition DEFAULT_TOLERANCE : Z := 300.

(** [hmac.hexdigest()]: two digits for each byte of the digest. *)
Fixpoint hexdigest (raw : string) : string :=
  match raw with
  | EmptyString => ""
  | String c r => hex_digits 2 (N_of_ascii c) ++ hexdigest r
  end.

(** What the loop over the header's parts has seen: the timestamp and the [v1] values. *)
Definition seen : Type := option Z * list string.

Definition read_part (s : seen) (part : string) : res string seen :=
  let '(key, sep, value) := partition "="%char (strip part) in
  if negb sep then Ok s
  else if String.eqb key "t" then
    match py_int value with Some t => Ok (Some t, s.2) | None => Err "malformed" end
  else if String.eqb key "v1" then Ok (s.1, (s.2 ++ [value])%list)
  else Ok s.

Fixpoint read_parts (s : seen) (parts : list string) : res string seen :=
  match parts with
  | [] => Ok s
  | part :: parts =>
      match read_part s part with
      | Ok s => read_parts s parts
      | Err e => Err e
      end
  end.

(** What [verify] raises: a [SignatureInvalid], or what escapes [compare_digest]. *)
Inductive invalid :=
| SignatureInvalid (code : string)
| Uncaught (e : exn).

(** [any(hmac.compare_digest(expected, candidate) for candidate in given)] *)
Fixpoint any_matches (expected : string) (given : list string) : res exn bool :=
  match given with
  | [] => Ok false
  | candidate :: given =>
      match compare_digest expected candidate with
      | Ok true => Ok true
      | Ok false => any_matches expected given
      | Err e => Err e
      end
  end.

Section Signatures.
Context `{External}.

Definition digest (secret : string) (timestamp : Z) (body : string) : string :=
  hexdigest (hmac_sha256 secret (py_str timestamp ++ "." ++ body)).

Definition sign (body : string) (secrets : list string) (timestamp : Z) : string :=
  join "," (("t=" ++ py_str timestamp)
            :: ((fun secret => "v1=" ++ digest secret timestamp body) <$> secrets)).

(** The loop over the consumer's secrets. *)
Fixpoint some_secret_signed (timestamp : Z) (body : string) (given secrets : list string) : res exn bool :=
  match secrets with
  | [] => Ok false
  | secret :: secrets =>
      match any_matches (digest secret timestamp body) given with
      | Ok true => Ok true
      | Ok false => some_secret_signed timestamp body given secrets
      | Err e => Err e
      end
  end.

(** The delivery's timestamp, or what is raised. *)
Definition verify (header : option string) (body : string) (secrets : list string) (now tolerance : Z)
    : res invalid Z :=
  match nonempty header with
  | None => Err (SignatureInvalid "missing")
  | Some header =>
      match read_parts (None, []) (split_on ","%char header) with
      | Err code => Err (SignatureInvalid code)
      | Ok (Some timestamp, (_ :: _) as given) =>
          if tolerance <? Z.abs (now - timestamp) then Err (SignatureInvalid "stale")
          else match some_secret_signed timestamp body given secrets with
               | Ok true => Ok timestamp
               | Ok false => Err (SignatureInvalid "bad_signature")
               | Err e => Err (Uncaught e)
               end
      | Ok _ => Err (SignatureInvalid "malformed")
      end
  end.
End Signatures.

(** ** Properties *)

Section Properties.
Context `{External}.

(** A character that no step of [verify] gives a meaning to. *)
Definition hexadecimal (c : ascii) : bool := is_digit c || in_range 97 102 c.

Lemma hexdigest_hex raw : sall hexadecimal (hexdigest raw) = true.
Proof.
  induction raw as [|c r IH]; [done|]. cbn [hexdigest]. rewrite sall_app, IH, andb_true_r.
  by destruct c as [[] [] [] [] [] [] [] []].
Qed.

(** A field whose value is made of digits, letters and signs has no comma, and
    stripping leaves it. *)
Lemma field_free k v :
  sall (fun c => hexadecimal c || char_eqb "-"%char c) v = true -> k = "t=" \/ k = "v1=" ->
  sall (fun c => negb (Ascii.eqb c ","%char)) (k ++ v) = true /\ strip (k ++ v) = k ++ v.
Proof.
  intros Hv Hk.
  assert (sall (fun c => negb (Ascii.eqb c ","%char) && negb (is_space c)) (k ++ v) = true) as Ha.
  { rewrite sall_app. apply andb_true_intro. split; [by destruct Hk as [->| ->]|].
    eapply sall_impl; [|exact Hv]. intros c.
    destruct c as [[] [] [] [] [] [] [] []]; vm_compute; done. }
  split; [|apply strip_if_none]; (eapply sall_impl; [|exact Ha]); intros c; cbv beta;
    intros [? ?]%andb_prop; done.
Qed.

Lemma digest_field secret t body :
  sall (fun c => hexadecimal c || char_eqb "-"%char c) (digest secret t body) = true.
Proof. eapply sall_impl; [|apply hexdigest_hex]. by intros c ->. Qed.
Lemma stamp_field t : sall (fun c => hexadecimal c || char_eqb "-"%char c) (py_str t) = true.
Proof.
  eapply sall_impl; [|apply py_str_chars]. intros c. cbv beta. unfold hexadecimal.
  destruct (is_digit c); [done|]. intros Hc. simpl in Hc. rewrite Hc. apply orb_true_r.
Qed.

Lemma read_stamp s t : read_part s ("t=" ++ py_str t) = Ok (Some t, s.2).
Proof.
  unfold read_part. rewrite (proj2 (field_free "t=" (py_str t) (stamp_field t) (or_introl eq_refl))).
  cbn [append partition]. simpl. by rewrite py_int_py_str.
Qed.
Lemma read_v1 s secret t body :
  read_part s ("v1=" ++ digest secret t body) = Ok (s.1, (s.2 ++ [digest secret t body])%list).
Proof.
  unfold read_part.
  rewrite (proj2 (field_free "v1=" (digest secret t body) (digest_field _ _ _) (or_intror eq_refl))).
  reflexivity.
Qed.

Lemma read_v1s secrets t body s :
  read_parts s ((fun secret => "v1=" ++ digest secret t body) <$> secrets)
  = Ok (s.1, (s.2 ++ ((fun secret => digest secret t body) <$> secrets))%list).
Proof.
  revert s. induction secrets as [|x l IH]; intros s; [by destruct s; rewrite app_nil_r|].
  cbn [fmap list_fmap]. cbn [read_parts]. rewrite read_v1, IH. simpl. by rewrite <- app_assoc.
Qed.

Lemma read_signed_parts body secrets t :
  read_parts (None, []) (split_on ","%char (sign body secrets t))
  = Ok (Some t, (fun secret => digest secret t body) <$> secrets).
Proof.
  unfold sign. rewrite split_on_join; [|done|].
  - cbn [read_parts]. rewrite read_stamp, read_v1s. done.
  - constructor; [exact (proj1 (field_free "t=" _ (stamp_field t) (or_introl eq_refl)))|].
    apply Forall_fmap, Forall_true. intros secret.
    exact (proj1 (field_free "v1=" _ (digest_field secret t body) (or_intror eq_refl))).
Qed.

Lemma digest_ascii secret t body : is_ascii (digest secret t body) = true.
Proof.
  unfold is_ascii. eapply sall_impl; [|apply hexdigest_hex]. intros c.
  destruct c as [[] [] [] [] [] [] [] []]; vm_compute; done.
Qed.

Lemma any_matches_found expected given : any_matches expected given = Ok true -> expected ∈ given.
Proof.
  induction given as [|c given IH]; [done|]. cbn [any_matches]. unfold compare_digest.
  destruct (_ && _); [|done]. cbn [mbind res_bind]. destruct (String.eqb_spec expected c) as [->|]; [by left|]. right. auto.
Qed.
Lemma any_matches_ascii expected given :
  is_ascii expected = true -> Forall (fun c => is_ascii c = true) given ->
  any_matches expected given = Ok (mem_str expected given).
Proof.
  intros He Hg. induction Hg as [|c given Hc Hg IH]; [done|]. cbn [any_matches]. unfold compare_digest.
  rewrite He, Hc. cbn [andb mbind res_bind]. rewrite IH. unfold mem_str. cbn [existsb]. by destruct (String.eqb expected c).
Qed.

Lemma some_secret_found t body given secrets :
  some_secret_signed t body given secrets = Ok true -> exists secret, secret ∈ secrets /\ digest secret t body ∈ given.
Proof.
  induction secrets as [|x secrets IH]; [done|]. cbn [some_secret_signed].
  destruct (any_matches _ _) as [[]|] eqn:E; try done.
  - intros _. exists x. split; [by left|]. by apply any_matches_found.
  - intros (y & Hy & Hd)%IH. exists y. split; [by right|done].
Qed.
Lemma some_secret_holds t body given held secret :
  Forall (fun c => is_ascii c = true) given -> secret ∈ held -> digest secret t body ∈ given ->
  some_secret_signed t body given held = Ok true.
Proof.
  intros Hg Hs Hd. induction held as [|x held IH]; [by apply not_elem_of_nil in Hs|]. cbn [some_secret_signed].
  rewrite any_matches_ascii by (done || apply digest_ascii). destruct (mem_str _ given) eqn:E; [done|].
  apply IH. apply elem_of_cons in Hs as [->|Hs]; [|done]. by rewrite (proj2 (mem_str_true _ _)) in E.
Qed.

(** A consumer that holds any of the secrets a delivery was signed with accepts it
    while its clock is within the tolerance of the timestamp, and reads the
    timestamp that was signed. *)
Theorem signature_round_trip body secrets held secret timestamp now tolerance :
  secret ∈ secrets -> secret ∈ held -> Z.abs (now - timestamp) <= tolerance ->
  verify (Some (sign body secrets timestamp)) body held now tolerance = Ok timestamp.
Proof.
  intros Hs Hh Ht. unfold verify.
  assert (nonempty (Some (sign body secrets timestamp)) = Some (sign body secrets timestamp)) as ->
    by (unfold sign; by destruct secrets).
  rewrite read_signed_parts. destruct secrets as [|x l]; [by apply not_elem_of_nil in Hs|].
  cbn [fmap list_fmap]. rewrite (proj2 (Z.ltb_ge _ _)) by lia.
  rewrite (some_secret_holds timestamp body _ held secret); [done| |done|].
  - apply Forall_cons. split; [apply digest_ascii|]. apply Forall_fmap, Forall_true. intros y. apply digest_ascii.
  - exact (list_elem_of_fmap_2 (fun y => digest y timestamp body) (x :: l) secret Hs).
Qed.

(** What the parts of a header can put into [given]. *)
Lemma read_parts_given parts s s' v :
  read_parts s parts = Ok s' -> v ∈ s'.2 ->
  v ∈ s.2 \/ exists part, part ∈ parts /\ strip part = "v1=" ++ v.
Proof.
  revert s. induction parts as [|part parts IH]; intros s; cbn [read_parts]; [intros [= ->]; auto|].
  destruct (read_part s part) as [s1|] eqn:E; [|done]. intros Hr Hv.
  destruct (IH _ Hr Hv) as [H1|(p & Hp & He)]; [|right; exists p; split; [by right|done]].
  unfold read_part in E. destruct (partition "="%char (strip part)) as [[key sep] value] eqn:Ep.
  destruct sep; [|injection E as <-; auto]. cbn [negb] in E.
  destruct (String.eqb_spec key "t") as [->|]; [destruct (py_int value); [injection E as <-; auto|done]|].
  destruct (String.eqb_spec key "v1") as [->|]; injection E as <-; [|auto]. simpl in H1.
  apply elem_of_app in H1 as [H1|H1%list_elem_of_singleton]; [auto|]. subst value. right.
  exists part. split; [by left|]. by apply partition_true in Ep as [-> _].
Qed.

(** Whatever a consumer accepts was signed with a secret it holds: the header has a
    [v1] field that is the MAC of the timestamp and the very body received, and the
    timestamp is within the tolerance. *)
Theorem accepted_signature_sound header body held now tolerance timestamp :
  verify header body held now tolerance = Ok timestamp ->
  Z.abs (now - timestamp) <= tolerance /\
  exists text secret part, header = Some text /\ secret ∈ held /\ part ∈ split_on ","%char text /\
    strip part = "v1=" ++ hexdigest (hmac_sha256 secret (py_str timestamp ++ "." ++ body)).
Proof.
  unfold verify. destruct (nonempty header) as [text|] eqn:Eh; [|done].
  assert (header = Some text) as -> by (destruct header as [[|]|]; simpl in Eh; congruence).
  destruct (read_parts _ _) as [[[t|] [|v given]]|] eqn:Er; try done.
  destruct (Z.ltb_spec tolerance (Z.abs (now - t))) as [|Ht]; [done|].
  destruct (some_secret_signed _ _ _ _) as [[]|] eqn:Ex; try done. intros [= <-]. split; [done|].
  apply some_secret_found in Ex as (secret & Hs & Hm).
  destruct (read_parts_given _ _ _ _ Er Hm) as [H1%not_elem_of_nil|(part & Hp & He)]; [done|].
  exists text, secret, part. auto.
Qed.

(** A [v1] field with a character outside ASCII, before one that matches, is not
    refused: it makes the comparison raise. *)
Theorem non_ascii_signature_raises body secret held now :
  verify (Some ("t=" ++ py_str now ++ ",v1=" ++ String "233"%char "")) body (secret :: held) now DEFAULT_TOLERANCE
  = Err (Uncaught PyTypeError).
Proof.
  unfold verify. set (header := "t=" ++ _).
  assert (nonempty (Some header) = Some header) as -> by done.
  assert (split_on ","%char header = ["t=" ++ py_str now; "v1=" ++ String "233"%char ""]) as ->.
  { change header with (join "," ["t=" ++ py_str now; "v1=" ++ String "233"%char ""]).
    apply split_on_join; [done|]. constructor; [exact (proj1 (field_free "t=" _ (stamp_field now) (or_introl eq_refl)))|].
    by repeat constructor. }
  cbn [read_parts]. rewrite read_stamp. cbn [snd].
  change (read_part (Some now, []) ("v1=" ++ String "233" "")) with (Ok (E := string) (Some now, [String "233" ""])).
  cbn [read_parts]. cbv iota. rewrite Z.sub_diag. cbn [some_secret_signed any_matches].
  unfold compare_digest. by rewrite digest_ascii.
Qed.
End Properties.
