(* ===== verification/SecretBox.v ===== *)
(** * Keys derived from SERVICE_SECRET_KEY (app/services/secret_box.py)

    Encryption at rest and sealed values.  Theorems: what was encrypted decrypts
    under the same purpose, what was sealed unseals, whatever unseals carries the
    MAC of its body under the key of that purpose, and how long a sealed value is. *)

From Stdlib Require Import Ascii String ZArith Lia.
From stdpp Require Import base strings list pretty.
From S2P Require Import Prelude PyStr Base64 Utf8 Json JsonText Errors External Models.
Open Scope string_scope.
Open Scope Z_scope.

Definition MIN_LENGTH : Z := 32.
Definition PREFIX : string := "v1:".

(** ** Base64 with the standard alphabet, as [b64encode] and strict [b64decode] use it *)

Definition std_alphabet (c : ascii) : ascii :=
  if char_eqb "-"%char c then "+"%char else if char_eqb "_"%char c then "/"%char else c.
Definition b64_std (s : string) : string := smap std_alphabet (b64 s) ++ padding (b64 s).

Definition std_char (c : ascii) : bool := is_alnum c || char_eqb "+"%char c || char_eqb "/"%char c.
(** [base64.b64decode(text, validate=True)]: only the alphabet, then exactly the
    padding it needs; [None]: [binascii.Error]. *)
Definition unb64_std (text : string) : option string :=
  let core := removesuffix "=" (removesuffix "=" text) in
  if sall std_char core && String.eqb (core ++ padding core) text then a2b text 0 0 0 else None.

Section SecretBox.
Context `{External}.

(** [_secret()] *)
Definition secret_key : res exn string :=
  let value := strip (default "" (environ "SERVICE_SECRET_KEY")) in
  if ulen value <? MIN_LENGTH then err SecretKeyMissing else Ok value.

Definition available : bool := match secret_key with Ok _ => true | Err _ => false end.

(** [_derive(label)] *)
Definition derive (label : string) : res exn string :=
  match secret_key with
  | Ok secret => Ok (hkdf ("custom-domain/" ++ label) secret)
  | Err e => Err e
  end.

Definition encrypt (plaintext purpose : string) : M string :=
  draw ← fresh;
  let nonce := nonce_bytes draw in
  key ← lift (derive ("encrypt/" ++ purpose));
  mret (PREFIX ++ b64_std (nonce ++ aes_encrypt key nonce plaintext purpose)).

Definition decrypt (ciphertext purpose : string) : res exn string :=
  if negb (startswith PREFIX ciphertext) then Err Undecryptable else
  match unb64_std (drop_str (String.length PREFIX) ciphertext) with
  | None => Err Undecryptable
  | Some raw =>
      match derive ("encrypt/" ++ purpose) with
      | Err e => Err e
      | Ok key =>
          match aes_decrypt key (take_str 12 raw) (drop_str 12 raw) purpose with
          | None => Err Undecryptable
          | Some plain => if bool_decide (is_Some (utf8_decode plain)) then Ok plain else Err PyValueError
          end
      end
  end.

Definition seal (payload : dict) (purpose : string) : res exn string :=
  let body := b64 (dumps_utf8 (JObj payload)) in
  match derive ("seal/" ++ purpose) with
  | Ok key => Ok (body ++ "." ++ b64 (hmac_sha256 key body))
  | Err e => Err e
  end.

Definition unseal (value purpose : string) : res exn (option dict) :=
  let '(body, sep, mac) := partition "."%char value in
  if negb sep || (4096 <? ulen value) then Ok None else
  match derive ("seal/" ++ purpose) with
  | Err e => Err e
  | Ok key =>
      if negb (sall (fun c => code c <? 128) body) then Ok None else
      match unb64 mac with
      | None => Ok None
      | Some given =>
          if negb (String.eqb given (hmac_sha256 key body)) then Ok None
          else Ok (text ← unb64 body; data ← loads text; as_obj data)
      end
  end.
End SecretBox.

(** ** Properties *)

Lemma std_value c : b64_value (std_alphabet c) = b64_value c /\ char_eqb "="%char (std_alphabet c) = char_eqb "="%char c.
Proof. destruct c as [[] [] [] [] [] [] [] []]; vm_compute; done. Qed.

(** Decoding reads both alphabets alike. *)
Lemma a2b_std s r quad left pads : a2b (smap std_alphabet s ++ r) quad left pads = a2b (s ++ r) quad left pads.
Proof.
  revert quad left pads. induction s as [|c s IH]; intros quad left pads; [done|].
  cbn [smap append a2b]. destruct (std_value c) as [-> ->].
  destruct (char_eqb _ _), (b64_value c); by rewrite !IH.
Qed.

Lemma b64_std_chars s : sall std_char (smap std_alphabet (b64 s)) = true.
Proof.
  pose proof (b64_safe s) as Hs. induction (b64 s) as [|c t IH]; [done|]. cbn [sall smap] in *.
  apply andb_prop in Hs as [Hc Ht]. rewrite IH by done. rewrite andb_true_r. revert Hc.
  clear. destruct c as [[] [] [] [] [] [] [] []]; vm_compute; done.
Qed.

Lemma padding_cases s : padding (b64 s) = "" \/ padding (b64 s) = "=" \/ padding (b64 s) = "==".
Proof.
  assert (forall n, 0 <= n < 3 -> (- slen (b64 s)) mod 4 = n ->
    padding (b64 s) = "" \/ padding (b64 s) = "=" \/ padding (b64 s) = "==") as Hn.
  { intros n Hn E. unfold padding. rewrite E. assert (n = 0 \/ n = 1 \/ n = 2) as [->|[->| ->]] by lia; auto. }
  apply (Hn ((- slen (b64 s)) mod 4)); [|done]. clear Hn.
  induction s as [|a|a b|a b c r IH] using string_ind3;
    try (cbn [b64]; rewrite ?slen_cons; change (slen "") with 0; by split).
  cbn [b64]. rewrite !slen_cons. replace (- (1 + (1 + (1 + (1 + slen (b64 r))))))
    with (- slen (b64 r) + (-1) * 4) by lia. by rewrite Z.mod_add.
Qed.

Lemma std_core c p :
  sall std_char c = true -> p = "" \/ p = "=" \/ p = "==" -> removesuffix "=" (removesuffix "=" (c ++ p)) = c.
Proof.
  intros Hc Hp. assert (removesuffix "=" c = c) as Hend.
  { apply removesuffix_not, not_true_is_false. intros [r ->]%endswith_true. rewrite sall_app in Hc.
    apply andb_prop in Hc as [_ Hc]. done. }
  destruct Hp as [->|[->| ->]].
  - by rewrite sapp_nil_r, !Hend.
  - by rewrite removesuffix_app.
  - change "==" with ("=" ++ "="). by rewrite sapp_assoc, !removesuffix_app.
Qed.

Lemma unb64_std_round s : unb64_std (b64_std s) = Some s.
Proof.
  unfold unb64_std, b64_std. rewrite std_core by (apply b64_std_chars || apply padding_cases).
  rewrite b64_std_chars. assert (padding (smap std_alphabet (b64 s)) = padding (b64 s)) as ->
    by (unfold padding, slen; by rewrite length_smap).
  rewrite String.eqb_refl. cbn [andb]. rewrite a2b_std. apply a2b_b64.
Qed.

Section Properties.
Context `{External}.

Lemma derive_available label : available = true -> exists key, derive label = Ok key.
Proof. unfold available, derive. destruct secret_key; eauto; done. Qed.

Lemma encrypt_text plaintext purpose s c s' : encrypt plaintext purpose s = (Ok c, s') -> is_text c = true.
Proof.
  unfold encrypt. intros Hr. run_inv Hr. apply is_text_ascii.
  match goal with |- context [b64_std ?t] => set (raw := t) end. cbn [sall].
  do 3 (apply andb_true_intro; split; [done|]). unfold b64_std. rewrite sall_app. apply andb_true_intro. split.
  - eapply sall_impl; [|apply b64_std_chars]. clear. intros c. destruct c as [[] [] [] [] [] [] [] []]; vm_compute; done.
  - by destruct (padding_cases raw) as [->|[->| ->]].
Qed.

(** What the service encrypts for a purpose it decrypts again for that purpose. *)
Theorem decrypt_encrypt `{!AeadLaws} plaintext purpose s :
  available = true -> is_Some (utf8_decode plaintext) ->
  exists ciphertext, (encrypt plaintext purpose s).1 = Ok ciphertext /\ decrypt ciphertext purpose = Ok plaintext.
Proof.
  intros [key Hkey]%(derive_available ("encrypt/" ++ purpose)) Ht. eexists. split.
  { unfold encrypt, fresh, lift, mbind, SM_bind. rewrite Hkey. reflexivity. }
  set (nonce := nonce_bytes (db_next s)). unfold decrypt. rewrite startswith_app, drop_str_app, unb64_std_round, Hkey.
  cbn [negb]. assert (String.length nonce = 12%nat) as Hl by apply nonce_length.
  rewrite <- Hl, take_str_app, drop_str_app, aes_round. by rewrite bool_decide_true.
Qed.

(** A sealed value unseals to what was sealed, unless it is too long. *)
Theorem unseal_seal payload purpose sealed :
  printable (JObj payload) -> seal payload purpose = Ok sealed ->
  unseal sealed purpose = Ok (if 4096 <? ulen sealed then None else Some payload).
Proof.
  intros Hp. unfold seal, unseal. remember (b64 (dumps_utf8 (JObj payload))) as body eqn:Hb.
  destruct (derive _) as [key|] eqn:Ek; [|done]. intros [= <-].
  rewrite partition_app by (rewrite Hb; apply free_of, b64_no_dot). cbn [negb orb].
  destruct (4096 <? _); [done|].
  assert (sall (fun c => code c <? 128) body = true) as ->.
  { rewrite Hb. eapply sall_impl; [|apply b64_safe]. intros c Hc. apply (url_safe_plain c Hc). }
  cbn [negb]. rewrite unb64_b64, String.eqb_refl. cbn [negb]. rewrite Hb, unb64_b64.
  cbn [mbind option_bind]. unfold dumps_utf8. rewrite loads_print by done. done.
Qed.

(** Whatever unseals was sealed with the key of that purpose: it carries the MAC
    of its body. *)
Theorem unsealed_is_authentic value purpose d :
  unseal value purpose = Ok (Some d) ->
  exists key body mac, derive ("seal/" ++ purpose) = Ok key /\ value = body ++ "." ++ mac /\
    unb64 mac = Some (hmac_sha256 key body) /\
    (exists text, unb64 body = Some text /\ loads text = Some (JObj d)).
Proof.
  unfold unseal. destruct (partition "."%char value) as [[body sep] mac] eqn:Ep.
  destruct sep; [|done]. cbn [negb orb]. destruct (4096 <? ulen value); [done|].
  destruct (derive _) as [key|]; [|done]. destruct (sall _ body); [|done]. cbn [negb].
  destruct (unb64 mac) as [given|] eqn:Em; [|done].
  destruct (String.eqb_spec given (hmac_sha256 key body)) as [->|]; [|done]. cbn [negb].
  destruct (unb64 body) as [text|] eqn:Eb; [|done]. cbn [mbind option_bind].
  destruct (loads text) as [[| | | | |d']|] eqn:El; try done. intros [= ->].
  exists key, body, mac. apply partition_true in Ep as [-> _]. split; [done|]. split; [done|]. split; [done|].
  eauto.
Qed.
End Properties.

(** ** Sizes *)

Lemma b64_size s : 3 * slen (b64 s) <= 4 * slen s + 2.
Proof.
  induction s as [|a|a b|a b c r IH] using string_ind3; cbn [b64]; rewrite ?slen_cons; change (slen "") with 0; lia.
Qed.

Lemma b64_std_size s : 3 * slen (b64_std s) <= 4 * slen s + 8.
Proof.
  unfold b64_std. rewrite slen_app. assert (slen (smap std_alphabet (b64 s)) = slen (b64 s)) as ->
    by (unfold slen; by rewrite length_smap).
  pose proof (b64_size s). destruct (padding_cases s) as [->|[->| ->]];
    [change (slen "") with 0|change (slen "=") with 1|change (slen "==") with 2]; lia.
Qed.

(** No control character below the space. *)
Definition plain_text (s : string) : bool := sall (fun c => 32 <=? code c) s.

Lemma utf8_encode_size n : 1 <= slen (utf8_encode n).
Proof. unfold utf8_encode. repeat case_match; rewrite ?slen_cons; pose proof (slen_nonneg ""); unfold slen in *; simpl; lia. Qed.

Lemma escape_size n : 32 <= n -> slen (escape false n) <= 2 * slen (utf8_encode n).
Proof.
  intros Hn. pose proof (utf8_encode_size n). unfold escape. destruct (short_escape n).
  { unfold str1. rewrite !slen_cons. change (slen "") with 0. lia. }
  destruct (_ && _); [unfold str1; rewrite slen_cons; change (slen "") with 0; lia|].
  rewrite (proj2 (Z.ltb_ge n 32)) by done. cbn [negb]. lia.
Qed.

Lemma plain_points l : plain_text (utf8 l) = true -> Forall scalar l -> Forall (fun n => 32 <= n) l.
Proof.
  induction l as [|n l IH]; intros Hp Hs; [constructor|]. apply Forall_cons in Hs as [[Hn _] Hs].
  unfold plain_text in *. rewrite utf8_cons, sall_app in Hp. apply andb_prop in Hp as [Hh Ht].
  constructor; [|by apply IH]. destruct (Z.leb_spec 32 n); [done|]. unfold utf8_encode in Hh.
  rewrite (proj2 (Z.ltb_lt n 128)) in Hh by lia. cbn [sall] in Hh. rewrite code_chr in Hh by lia.
  rewrite andb_true_r in Hh. apply Z.leb_le in Hh. lia.
Qed.

Lemma dump_string_size s : is_text s = true -> plain_text s = true -> slen (dump_string false s) <= 2 * slen s + 2.
Proof.
  intros (l & Hl & Hu & Hs)%is_text_decode Hp. rewrite <- Hu in Hp.
  assert (Forall scalar l) as Hsc by (eapply Forall_impl; [exact Hs|by intros x [? _]]).
  pose proof (plain_points l Hp Hsc) as Hge. unfold dump_string, code_points, str1. rewrite Hl. cbn [default]. change (id l) with l.
  rewrite slen_cons, slen_app, slen_cons. change (slen "") with 0. rewrite <- Hu. clear - Hge.
  enough (slen (String.concat "" (escape false <$> l)) <= 2 * slen (utf8 l)) by lia.
  induction l as [|n l IH]; [done|]. apply Forall_cons in Hge as [Hn Hge]. rewrite utf8_cons, fmap_cons, sconcat_cons.
  rewrite !slen_app. pose proof (escape_size n Hn). specialize (IH Hge). lia.
Qed.

Lemma pretty_go_size k : forall n s, (n < 10 ^ N.of_nat k)%N -> slen (pretty_N_go n s) <= Z.of_nat k + slen s.
Proof.
  induction k as [|k IH]; intros n s Hn.
  - assert (n = 0%N) as -> by (change (10 ^ N.of_nat 0)%N with 1%N in Hn; lia). rewrite pretty_N_go_0. lia.
  - destruct (decide (n = 0%N)) as [->|Hne]; [rewrite pretty_N_go_0; lia|]. rewrite pretty_N_go_step by lia.
    rewrite Nat2N.inj_succ, N.pow_succ_r' in Hn. specialize (IH (n `div` 10)%N (String (pretty_N_char (n `mod` 10)) s)).
    rewrite slen_cons in IH. assert (n `div` 10 < 10 ^ N.of_nat k)%N by (apply N.Div0.div_lt_upper_bound; lia). lia.
Qed.

Lemma py_str_size n : Z.abs n < 10 ^ 12 -> slen (py_str n) <= 13.
Proof.
  intros Hn. assert (forall p, Z.pos p < 10 ^ 12 -> slen (pretty_N_go (N.pos p) "") <= 12) as Hp.
  { intros p Hp. apply (pretty_go_size 12). lia. }
  destruct n as [|p|p]; [done| |].
  - change (py_str (Z.pos p)) with (pretty_N_go (N.pos p) ""). specialize (Hp p). lia.
  - change (py_str (Z.neg p)) with (String "-"%char (pretty_N_go (N.pos p) "")). rewrite slen_cons. specialize (Hp p). lia.
Qed.

Section Sizes.
Context `{External, HMac : !MacLaw}.

Lemma encrypt_size `{!AeadLaws} plaintext purpose s c s' :
  encrypt plaintext purpose s = (Ok c, s') -> 3 * slen c <= 4 * slen plaintext + 129 /\ plain_text c = true.
Proof.
  unfold encrypt. intros Hr. run_inv Hr. run_draws. match goal with |- context [b64_std ?t] => set (raw := t) end.
  assert (slen raw = slen plaintext + 28) as Hraw
    by (unfold raw; rewrite slen_app; unfold slen; rewrite nonce_length, aes_length; lia).
  split.
  - rewrite !slen_cons. pose proof (b64_std_size raw). lia.
  - unfold plain_text, b64_std. cbn [sall]. do 3 (apply andb_true_intro; split; [done|]). rewrite sall_app.
    apply andb_true_intro. split; [|by destruct (padding_cases raw) as [->|[->| ->]]].
    eapply sall_impl; [|apply b64_std_chars]. clear. intros c. destruct c as [[] [] [] [] [] [] [] []]; vm_compute; done.
Qed.

(** A sealed value is a third longer than its document, and the MAC. *)
Lemma seal_size payload purpose sealed :
  seal payload purpose = Ok sealed -> 3 * ulen sealed <= 4 * slen (dumps_utf8 (JObj payload)) + 137.
Proof.
  unfold seal. destruct (derive _) as [key|]; [|done]. cbv zeta. remember (b64 (dumps_utf8 (JObj payload))) as body eqn:Hb.
  intros Hs. assert (sealed = body ++ "." ++ b64 (hmac_sha256 key body)) as -> by congruence. clear Hs.
  assert (sall (fun c => code c <? 128) (body ++ "." ++ b64 (hmac_sha256 key body)) = true) as Hascii.
  { rewrite !sall_app. apply andb_true_intro. split; [|apply andb_true_intro; split; [done|]];
      (rewrite ?Hb; eapply sall_impl; [|apply b64_safe]; intros c Hc; apply (url_safe_plain c Hc)). }
  rewrite ulen_ascii by done. rewrite !slen_app. change (slen ".") with 1.
  pose proof (b64_size (dumps_utf8 (JObj payload))). pose proof (b64_size (hmac_sha256 key body)) as Hm.
  unfold slen in Hm at 2. rewrite mac_length in Hm. subst body. lia.
Qed.
End Sizes.
