(* ===== verification/Signing.v ===== *)
(** * Signing Domain Connect apply URLs (app/dns/signing.py)

    The signed query and the apply URL, the keys of a local signer, and what the answer
    of a remote signer means.  Theorems: the provider reads from an apply URL exactly
    the signed parameters, then the key and the signature; the keys a deployment signs
    with are usable and named apart; an answer is used only when it is a usable
    signature, and a rate limit always asks for a wait of a second to an hour; the
    published records put the key together again. *)

From Stdlib Require Import Ascii String ZArith Lia.
From stdpp Require Import base strings list.
From S2P Require Import Prelude PyStr Base64 Utf8 Json Errors External SecretBox Url.
Open Scope string_scope.
Open Scope Z_scope.

Definition DEFAULT_KEY_HOST : string := "_dcpubkeyv1".
Definition MIN_KEY_BITS : Z := 2048.
Definition MAX_REMOTE_ANSWER : Z := 16 * 1024.
Definition CREDENTIAL_PREFIX_LENGTH : nat := 12.

(** ** The patterns *)

Definition identifier_core (s : string) : bool :=
  match s with
  | "" => false
  | String c r =>
      is_alnum c && (String.eqb r "" ||
        ((slen r <=? 63) && sall (fun c => is_alnum c || has_char c "._-") r
         && match last_char r with Some e => is_alnum e | None => false end))
  end.
Definition IDENTIFIER_match : string -> bool := to_end identifier_core.
Definition key_host_core (s : string) : bool :=
  match s with
  | "" => false
  | String c r => (is_alnum c || char_eqb "_"%char c) && (slen r <=? 62) && sall (fun c => is_alnum c || has_char c "_.-") r
  end.
Definition KEY_HOST_match : string -> bool := to_end key_host_core.
Definition url_safe_char (c : ascii) : bool := is_alnum c || has_char c "_-".
Definition CREDENTIAL_match : string -> bool := to_end (fun s =>
  startswith "dcs_" s && (slen s =? 47) && sall url_safe_char (drop_str 4 s)).
Definition base64_core (s : string) : bool :=
  let core := removesuffix "=" (removesuffix "=" s) in negb (String.eqb core "") && sall std_char core.
Definition BASE64_match : string -> bool := to_end base64_core.

Definition REMOTE_REFUSALS : list string :=
  ["bad_request"; "bad_query"; "unauthorized"; "foreign_template"; "redirect_not_https"; "wrong_target";
   "unknown_domain"; "host_mismatch"; "domain_not_live"; "wrong_token"].

(** ** The URL *)

Record DcSignature := { dc_key : string; dc_sig : string }.

Definition canonical_query (params : list (string * string)) : string := urlencode params.

Definition apply_query (query : string) (signature : DcSignature) : string :=
  query ++ "&key=" ++ quote (dc_key signature) ++ "&sig=" ++ quote (dc_sig signature).
Definition apply_url (url_sync_ux provider_id service_id query : string) (signature : DcSignature) : string :=
  rstrip_if (char_eqb "/"%char) url_sync_ux ++ "/v2/domainTemplates/providers/" ++ quote provider_id
  ++ "/services/" ++ quote service_id ++ "/apply?" ++ apply_query query signature.

Section Urls.
(** [urllib.parse.urlsplit] with the port read; [None]: [ValueError]. *)
Context (urlsplit : string -> option UrlSplit).

(** Whether [https_url_problem] finds one. *)
Definition https_url_problem (value : string) : bool :=
  if negb (sall (fun c => negb ((code c <? 33) || (code c =? 127))) value) then true else
  match urlsplit value with
  | None => true
  | Some parts =>
      negb (String.eqb (us_scheme parts) "https")
      || bool_decide (nonempty (us_hostname parts) = None)
      || bool_decide (is_Some (us_username parts)) || bool_decide (is_Some (us_password parts))
      || has_char "@"%char (us_netloc parts)
      || negb (String.eqb (us_fragment parts) "") || has_char "#"%char value
  end.
End Urls.

(** ** Local keys *)

(** A private key of the [cryptography] package: its class, size, signature and the
    DER of its public half. *)
Class PrivateKeys := {
  PrivateKey : Type;
  load_der_private_key : string -> option PrivateKey;
  rsa_key_size : PrivateKey -> option Z;               (* [None]: not an RSA key *)
  rsa_sign : PrivateKey -> string -> string;
  public_der : PrivateKey -> string;
}.

Section LocalKeys.
Context `{PrivateKeys}.

Record LocalKey := { lk_host : string; lk_key : PrivateKey }.

(** [None]: [InvalidSigningKey] *)
Definition load_key (value : string) : option PrivateKey :=
  der ← unb64_std (strip value); key ← load_der_private_key der; size ← rsa_key_size key;
  if size <? MIN_KEY_BITS then None else Some key.

Definition load_entry (entry : string) : option LocalKey :=
  let '(host, sep, encoded) := partition ":"%char entry in
  if negb sep || negb (KEY_HOST_match (strip host)) then None else
  key ← load_key encoded; Some {| lk_host := strip host; lk_key := key |}.

Definition parse_private_keys (value : string) (key_host : option string) : option (list LocalKey) :=
  match List.filter (fun item => negb (String.eqb item "")) (strip <$> split_on ","%char value) with
  | [] => None
  | entries =>
      match entries with
      | [entry] =>
          if negb (has_char ":"%char entry) then
            let host := default DEFAULT_KEY_HOST (nonempty key_host) in
            if negb (KEY_HOST_match host) then None else
            key ← load_key entry; Some [{| lk_host := host; lk_key := key |}]
          else if bool_decide (is_Some (nonempty key_host)) then None
          else k ← load_entry entry; Some [k]
      | _ =>
          if bool_decide (is_Some (nonempty key_host)) then None else
          keys ← mapM load_entry entries;
          if bool_decide (NoDup (lk_host <$> keys)) then Some keys else None
      end
  end.

(** The chunks of 200 characters. *)
Fixpoint chunks (fuel : nat) (s : string) : list string :=
  match fuel, s with
  | O, _ | _, EmptyString => []
  | S f, _ => take_str 200 s :: chunks f (drop_str 200 s)
  end.
Definition record_value (n : nat) (chunk : string) : string :=
  "p=" ++ py_str (Z.of_nat n) ++ ",a=RS256,d=" ++ chunk.
Definition public_key_records (key : PrivateKey) : list string :=
  let data := b64_std (public_der key) in
  imap (fun i chunk => record_value (S i) chunk) (chunks (String.length data) data).

(** [LocalSigner.sign] with its first key *)
Definition local_sign (key : LocalKey) (query : string) : DcSignature :=
  {| dc_key := lk_host key; dc_sig := b64_std (rsa_sign (lk_key key) query) |}.
End LocalKeys.

(** ** The remote signer *)

(** What the signing service answered; [sa_json]: [response.json()], [None] when it raises. *)
Record SignerAnswer := {
  sa_status : Z;
  sa_length : Z;                      (* of the content *)
  sa_json : option json;
  sa_retry_after : option string;     (* the [Retry-After] header *)
}.
Inductive SignerOutcome := SignerTimeout | SignerUnreachable | SignerAnswered (a : SignerAnswer).

Definition signer_request (provider_id service_id application domain_id query : string) : json :=
  JObj [("provider_id", JStr provider_id); ("service_id", JStr service_id); ("application", JStr application);
        ("domain_id", JStr domain_id); ("query", JStr query)].

Definition field (k : string) (j : option json) : option json := d ← j ≫= as_obj; dget k d.

Definition error_code (a : SignerAnswer) : option string :=
  code ← field "code" (field "error" (sa_json a)) ≫= as_str;
  if ulen code <=? 64 then Some code else None.

Definition signer_retry_after (a : SignerAnswer) : Z :=
  let raw := strip (default "" (sa_retry_after a)) in
  match (if isdigit raw then py_int raw else None) with Some n => Z.max 1 (Z.min n 3600) | None => 60 end.

Definition unavailable (code : string) : exn := SigningFailed "unavailable" code None.

Definition read_answer (a : SignerAnswer) : res exn DcSignature :=
  if MAX_REMOTE_ANSWER <? sa_length a then Err (unavailable "signer_bad_answer") else
  if sa_status a =? 200 then
    match field "sig" (sa_json a), field "key" (sa_json a) with
    | Some (JStr sig), Some (JStr key) =>
        if negb (BASE64_match sig) || (2048 <? ulen sig) || negb (KEY_HOST_match key)
        then Err (unavailable "signer_bad_answer")
        else Ok {| dc_key := key; dc_sig := sig |}
    | _, _ => Err (unavailable "signer_bad_answer")
    end
  else if sa_status a =? 429 then Err (SigningFailed "rate_limited" "rate_limited" (Some (signer_retry_after a)))
  else if bool_decide (sa_status a ∈ [400; 401; 403]) then
    match error_code a with
    | Some code => if mem_str code REMOTE_REFUSALS then Err (SigningFailed "refused" code None)
                   else Err (SigningFailed "refused" "signer_refused" None)
    | None => Err (SigningFailed "refused" "signer_refused" None)
    end
  else if bool_decide (error_code a = Some "verification_unavailable")
  then Err (unavailable "verification_unavailable")
  else Err (unavailable "signer_error").

(** [RemoteSigner.sign]: the outcome of its one request *)
Definition remote_sign (outcome : SignerOutcome) : res exn DcSignature :=
  match outcome with
  | SignerTimeout => Err (unavailable "signer_timeout")
  | SignerUnreachable => Err (unavailable "signer_unreachable")
  | SignerAnswered a => read_answer a
  end.

(** ** Properties *)

(** What the provider reads from an apply URL's query: the signed parameters in their
    order, then the key and, last, the signature. *)
Theorem apply_query_reads_back params signature :
  params <> [] ->
  parse_query (apply_query (canonical_query params) signature)
  = (params ++ [("key", dc_key signature); ("sig", dc_sig signature)])%list.
Proof.
  intros Hne. rewrite <- (parse_urlencode (params ++ _)). f_equal.
  unfold apply_query, canonical_query, urlencode. rewrite fmap_app.
  change (encode_pair <$> [("key", dc_key signature); ("sig", dc_sig signature)])
    with ["key=" ++ quote (dc_key signature); "sig=" ++ quote (dc_sig signature)].
  induction params as [|p params IH]; [done|]. destruct params as [|q params].
  - cbn [fmap list_fmap app join String.concat]. reflexivity.
  - change (join "&" ((encode_pair <$> p :: q :: params) ++ ?l))
      with (encode_pair p ++ "&" ++ join "&" ((encode_pair <$> q :: params) ++ l)).
    rewrite <- IH by done.
    change (join "&" (encode_pair <$> p :: q :: params)) with (encode_pair p ++ "&" ++ join "&" (encode_pair <$> q :: params)).
    by rewrite <- !sapp_assoc.
Qed.

(** An answer is used only as a usable signature, and a rate limit asks for a wait of
    one second to one hour. *)
Theorem read_answer_sound a :
  match read_answer a with
  | Ok s => sa_status a = 200 /\ sa_length a <= MAX_REMOTE_ANSWER /\
            BASE64_match (dc_sig s) = true /\ ulen (dc_sig s) <= 2048 /\ KEY_HOST_match (dc_key s) = true
  | Err (SigningFailed "rate_limited" _ wait) => sa_status a = 429 /\ exists n, wait = Some n /\ 1 <= n <= 3600
  | Err (SigningFailed "refused" code _) => sa_status a = 400 \/ sa_status a = 401 \/ sa_status a = 403
  | Err (SigningFailed kind _ _) => kind = "unavailable"
  | Err _ => False
  end.
Proof.
  unfold read_answer, unavailable. destruct (Z.ltb_spec MAX_REMOTE_ANSWER (sa_length a)); [done|].
  destruct (Z.eqb_spec (sa_status a) 200).
  { destruct (field "sig" (sa_json a)) as [[| | |sig| |]|], (field "key" (sa_json a)) as [[| | |key| |]|]; try done.
    destruct (BASE64_match sig) eqn:Hb, (Z.ltb_spec 2048 (ulen sig)), (KEY_HOST_match key) eqn:Hk; try done. }
  destruct (Z.eqb_spec (sa_status a) 429).
  { split; [done|]. eexists. split; [done|]. unfold signer_retry_after. destruct (if isdigit _ then _ else _); lia. }
  case_bool_decide as Hs.
  { rewrite !elem_of_cons, elem_of_nil in Hs. destruct (error_code a) as [c|]; [destruct (mem_str c REMOTE_REFUSALS)|]; tauto. }
  by case_bool_decide.
Qed.

Section Keys.
Context `{PrivateKeys}.

Lemma load_key_ok value key : load_key value = Some key -> exists size, rsa_key_size key = Some size /\ MIN_KEY_BITS <= size.
Proof.
  unfold load_key. destruct (unb64_std _) as [der|]; [|done]. cbn [mbind option_bind].
  destruct (load_der_private_key der) as [k|]; [|done]. cbn [mbind option_bind].
  destruct (rsa_key_size k) as [size|] eqn:Es; [|done]. cbn [mbind option_bind].
  destruct (Z.ltb_spec size MIN_KEY_BITS); [done|]. intros [= <-]. eauto.
Qed.

(** A key a deployment may sign with. *)
Definition usable (k : LocalKey) : Prop :=
  KEY_HOST_match (lk_host k) = true /\ exists size, rsa_key_size (lk_key k) = Some size /\ MIN_KEY_BITS <= size.

Lemma load_entry_ok entry k : load_entry entry = Some k -> usable k.
Proof.
  unfold load_entry. destruct (partition ":"%char entry) as [[host sep] encoded].
  destruct (negb sep || _) eqn:E; [done|]. apply orb_false_elim in E as [_ E]. apply negb_false_iff in E.
  destruct (load_key encoded) as [key|] eqn:Ek; [|done]. cbn [mbind option_bind]. intros [= <-].
  split; [done|]. by eapply load_key_ok.
Qed.

(** The configured keys: at least one, each usable, each under a host of its own. *)
Theorem private_keys_usable value key_host keys :
  parse_private_keys value key_host = Some keys ->
  keys <> [] /\ Forall usable keys /\ NoDup (lk_host <$> keys).
Proof.
  unfold parse_private_keys. destruct (List.filter _ _) as [|entry [|entry2 entries]]; [done| |].
  - destruct (negb (has_char _ _)).
    + destruct (KEY_HOST_match _) eqn:Eh; [|done]. cbn [negb].
      destruct (load_key entry) as [key|] eqn:Ek; [|done]. cbn [mbind option_bind]. intros [= <-].
      split; [done|]. split; [|apply NoDup_singleton]. constructor; [|done]. split; [done|]. by eapply load_key_ok.
    + case_bool_decide; [done|]. destruct (load_entry entry) as [k|] eqn:Ek; [|done]. cbn [mbind option_bind].
      intros [= <-]. split; [done|]. split; [|apply NoDup_singleton]. constructor; [|done]. by eapply load_entry_ok.
  - case_bool_decide; [done|]. destruct (mapM load_entry _) as [ks|] eqn:Em; [|done]. cbn [mbind option_bind].
    case_bool_decide as Hn; [|done]. intros [= <-]. split; [|split; [|done]].
    + intros ->. by apply length_mapM in Em.
    + apply mapM_Some in Em. clear Hn. induction Em as [|e k l ks He Hl IH]; [done|]. constructor; [by eapply load_entry_ok|done].
Qed.

Lemma chunks_concat f s : (String.length s <= f)%nat -> String.concat "" (chunks f s) = s /\ Forall (fun c => (String.length c <= 200)%nat) (chunks f s).
Proof.
  revert s. induction f as [|f IH]; intros s Hl; (destruct s as [|c s]; [split; [done|constructor]|]); [simpl in Hl; lia|].
  cbn [chunks]. set (t := String c s) in *. destruct (IH (drop_str 200 t)) as [IH1 IH2].
  { assert (String.length (take_str 200 t) + String.length (drop_str 200 t) = String.length t)%nat as Hs
      by (by rewrite <- length_sapp, take_drop_str).
    rewrite length_take_str in Hs. cbn [t String.length] in *. lia. }
  split; [|constructor; [rewrite length_take_str; lia|done]].
  rewrite sconcat_cons, IH1. apply take_drop_str.
Qed.

(** The published records hold the public key in order, in chunks DNS can carry. *)
Theorem published_records key :
  let data := b64_std (public_der key) in
  exists pieces, public_key_records key = imap (fun i piece => record_value (S i) piece) pieces /\
    String.concat "" pieces = data /\ Forall (fun c => (String.length c <= 200)%nat) pieces.
Proof.
  intros data. exists (chunks (String.length data) data). split; [done|]. by apply chunks_concat.
Qed.
End Keys.
