(* ===== verification/Idempotency.v ===== *)
(** * Idempotent create requests (app/services/idempotency.py)

    The record a create request leaves under its [Idempotency-Key].  Theorems: a
    fresh or expired key starts a request, a live one gives its record back and
    changes nothing, and a purge removes exactly the expired keys. *)

From Stdlib Require Import Ascii String ZArith Lia.
From stdpp Require Import base gmap strings list.
From S2P Require Import Prelude PyStr Json JsonText Errors External Models.
Open Scope string_scope.
Open Scope Z_scope.

Definition IDEMPOTENCY_TTL : Z := hours 24.
Definition MAX_KEY_LENGTH : Z := 255.

(** [session.add(record); session.flush()] *)
Definition insert_key_record (a : N) (key : string) (r : IdempotencyKey) : M unit :=
  s ← get;
  _ ← guard_ (bool_decide (is_Some (db_applications s !! a))) (IntegrityError FOREIGN_KEY);
  _ ← guard_ (bool_decide (db_idempotency s !! (a, key) = None))
       (IntegrityError "UNIQUE constraint failed: idempotency_keys.application_id, idempotency_keys.key");
  modify (fun s => s <| db_idempotency ::= <[(a, key) := r]> |>).

Section Idempotency.
Context `{External}.

Definition fingerprint (payload : json) : string := sha256_hex (dumps_sorted payload).

(** The record of a request that starts at [now]. *)
Definition started (request_hash : string) (now : Z) : IdempotencyKey :=
  {| idem_request_hash := request_hash; idem_domain_id := None; idem_created_at := now;
     idem_expires_at := now + IDEMPOTENCY_TTL |}.

(** Whether the key's record was created; the record itself is the row [(a, key)]. *)
Definition begin (a : N) (key request_hash : string) (now : option Z) : M bool :=
  _ ← guard_ (negb (String.eqb key "") && (ulen key <=? MAX_KEY_LENGTH)) (ServiceError ServiceErrorBase []);
  now ← now_or now;
  catch (_ ← savepoint (insert_key_record a key (started request_hash now)); mret true)
    (fun e => match e with
      | IntegrityError _ =>
          existing ← gets (fun s => db_idempotency s !! (a, key));
          existing ← need existing e;
          if idem_expires_at existing <=? now then
            _ ← modify (fun s => s <| db_idempotency ::= <[(a, key) := started request_hash now]> |>);
            mret true
          else mret false
      | _ => raise e
      end).

Definition complete (a : N) (key : string) (domain_id : N) : M unit :=
  modify (fun s => s <| db_idempotency ::=
    alter (fun r => r <| idem_domain_id := Some domain_id |>) (a, key) |>).

Definition purge_expired (now : option Z) : M Z :=
  now ← now_or now;
  s ← get;
  _ ← modify (fun s => s <| db_idempotency ::= filter (fun x => now < idem_expires_at x.2) |>);
  mret (Z.of_nat (size (filter (fun x => idem_expires_at x.2 <= now) (db_idempotency s)))).
End Idempotency.

(** ** Properties *)

Section Properties.
Context `{External}.

Definition key_ok (key : string) : bool := negb (String.eqb key "") && (ulen key <=? MAX_KEY_LENGTH).

(** A live record is given back and nothing changes. *)
Lemma begin_live a key hash now s r :
  key_ok key = true -> db_idempotency s !! (a, key) = Some r -> is_Some (db_applications s !! a) ->
  default (db_clock s) now < idem_expires_at r -> begin a key hash now s = (Ok false, s).
Proof.
  intros Hk Hr Ha Hlt. unfold begin. rewrite bind_run. unfold key_ok in Hk. rewrite Hk. cbn [guard_].
  cbn [mret SM_ret]. rewrite bind_run.
  assert (now_or now s = (Ok (default (db_clock s) now), s)) as -> by (by destruct now).
  unfold catch. rewrite bind_run. unfold savepoint, insert_key_record. rewrite bind_run. cbn [get].
  rewrite (bool_decide_true (is_Some (db_applications s !! a))) by exact Ha. cbn [guard_]. rewrite bind_run. cbn [mret SM_ret].
  rewrite bool_decide_false by (rewrite Hr; done). cbn [guard_]. rewrite bind_run. cbn [raise].
  rewrite bind_run. cbn [gets]. rewrite Hr, bind_run. cbn [need mret SM_ret].
  rewrite (proj2 (Z.leb_gt _ _)) by done. reflexivity.
Qed.

(** A fresh key, or one that expired, starts a request under it. *)
Lemma begin_free a key hash now s :
  key_ok key = true -> is_Some (db_applications s !! a) ->
  let n := default (db_clock s) now in
  match db_idempotency s !! (a, key) with Some r => idem_expires_at r <= n | None => True end ->
  begin a key hash now s = (Ok true, s <| db_idempotency ::= <[(a, key) := started hash n]> |>).
Proof.
  intros Hk Ha n Hr. unfold begin. rewrite bind_run. unfold key_ok in Hk. rewrite Hk. cbn [guard_].
  cbn [mret SM_ret]. rewrite bind_run.
  assert (now_or now s = (Ok n, s)) as -> by (by destruct now).
  unfold catch. rewrite bind_run. unfold savepoint, insert_key_record. rewrite bind_run. cbn [get].
  rewrite (bool_decide_true (is_Some (db_applications s !! a))) by exact Ha. cbn [guard_]. rewrite bind_run. cbn [mret SM_ret].
  destruct (db_idempotency s !! (a, key)) as [r|] eqn:E.
  - rewrite bool_decide_false by done. cbn [guard_]. rewrite bind_run. cbn [raise].
    rewrite bind_run. cbn [gets]. rewrite E, bind_run. cbn [need mret SM_ret].
    rewrite (proj2 (Z.leb_le _ _)) by done. reflexivity.
  - rewrite bool_decide_true by done. reflexivity.
Qed.

Lemma begin_bad_key a key hash now s :
  key_ok key = false -> begin a key hash now s = (Err (ServiceError ServiceErrorBase []), s).
Proof. intros Hk. unfold begin. rewrite bind_run. unfold key_ok in Hk. by rewrite Hk. Qed.

(** A purge removes exactly the keys that expired. *)
Theorem purge_expired_exact now s :
  let n := default (db_clock s) now in
  exists s', purge_expired now s = (Ok (Z.of_nat (size (filter (fun x => idem_expires_at x.2 <= n) (db_idempotency s)))), s') /\
    (forall k r, db_idempotency s' !! k = Some r <-> db_idempotency s !! k = Some r /\ n < idem_expires_at r).
Proof.
  intros n. eexists. unfold purge_expired. rewrite bind_run.
  assert (now_or now s = (Ok n, s)) as -> by (by destruct now).
  rewrite bind_run. cbn [get]. rewrite bind_run. cbn [modify]. split; [reflexivity|].
  intros k r. change (db_idempotency (s <| db_idempotency ::= ?f |>)) with (f (db_idempotency s)).
  by rewrite map_lookup_filter_Some.
Qed.
End Properties.
