(* ===== verification/Throttle.v ===== *)
(** * Request throttles (app/v1/throttle.py)

    The limiter of failed authentications per client address and the limiter of
    requests per credential, as states in the API process's memory.  Instants are
    microseconds of the monotonic clock.  Theorems: a client is refused exactly when
    one of its buckets failed as many times within the window as its budget (while no
    more buckets failed than are tracked); a
    credential never gets more requests through in a window than its budget; the
    limiter never tracks more buckets than its bound. *)

From Stdlib Require Import Ascii String ZArith Lia Sorted.
From stdpp Require Import base gmap strings list sorting.
From S2P Require Import Prelude PyStr Errors External.
Open Scope string_scope.
Open Scope Z_scope.

Definition DEFAULT_FAILURES_PER_MINUTE : Z := 30.
Definition WINDOW : Z := 60000000.
Definition MAX_TRACKED : nat := 50000.
Definition PREFIX48_FACTOR : Z := 10.

(** A [dict] in insertion order. *)
Definition Stamps : Type := list (string * list Z).
Definition stamps_of (d : Stamps) (k : string) : list Z :=
  match List.find (fun x => String.eqb k x.1) d with Some x => x.2 | None => [] end.
Definition without (k : string) (d : Stamps) : Stamps := List.filter (fun x => negb (String.eqb k x.1)) d.

(** [[t for t in stamps if now - t < window]] *)
Definition recent (window now : Z) (l : list Z) : list Z := List.filter (fun t => now - t <? window) l.
(** [l[-n:]] for a positive [n] *)
Definition last_n (n : Z) (l : list Z) : list Z := drop (List.length l - Z.to_nat n) l.
(** [int(x) + 1] for a time [x] in seconds *)
Definition wait_of (x : Z) : Z := Z.quot x 1000000 + 1.

Section Clients.
Context `{External}.

(** The buckets an address counts against, with their factor; [None]: [ValueError]. *)
Definition buckets (address : string) : option (list (string * Z)) :=
  match ip_order address with
  | None => Some [(address, 1)]
  | Some (version, _) =>
      let ip := ip_text address in
      if version =? 6 then
        n64 ← ip_network (ip ++ "/64"); n48 ← ip_network (ip ++ "/48");
        Some [(n64.1.1, 1); (n48.1.1, PREFIX48_FACTOR)]
      else Some [(ip, 1)]
  end.
End Clients.

(** ** Failed authentications *)

Record FailedAuthLimiter := {
  fl_max_failures : Z;
  fl_window : Z;
  fl_max_tracked : nat;
  fl_failures : Stamps;
}.

Definition auth_limiter_from_env (environ : string -> option string) : option FailedAuthLimiter :=
  let raw := strip (default "" (environ "V1_AUTH_FAILURES_PER_MINUTE")) in
  n ← (if String.eqb raw "" then Some DEFAULT_FAILURES_PER_MINUTE else py_int raw);
  Some {| fl_max_failures := n; fl_window := WINDOW; fl_max_tracked := MAX_TRACKED; fl_failures := [] |}.

Definition fl_enabled (l : FailedAuthLimiter) : bool := 0 <? fl_max_failures l.

(** The loop of [retry_after] over the buckets. *)
Definition bucket_wait (l : FailedAuthLimiter) (now wait : Z) (bucket : string * Z) : Z :=
  let stamps := recent (fl_window l) now (stamps_of (fl_failures l) bucket.1) in
  if fl_max_failures l * bucket.2 <=? Z.of_nat (List.length stamps)
  then match stamps with
       | first :: _ => Z.max wait (wait_of (first + fl_window l - now))
       | [] => wait
       end
  else wait.
Definition retry_after (l : FailedAuthLimiter) (keys : list (string * Z)) (now : Z) : Z :=
  if fl_enabled l then foldl (bucket_wait l now) 0 keys else 0.

(** One bucket of [record_failure]: the bucket moves to the end, and the ones that
    failed least recently are dropped beyond [max_tracked]. *)
Definition fail_bucket (max_failures window : Z) (max_tracked : nat) (now : Z) (d : Stamps) (bucket : string * Z)
    : Stamps :=
  let stamps := (recent window now (stamps_of d bucket.1) ++ [now])%list in
  let d := (without bucket.1 d ++ [(bucket.1, last_n (max_failures * bucket.2) stamps)])%list in
  drop (List.length d - max_tracked) d.
Definition record_failure (l : FailedAuthLimiter) (keys : list (string * Z)) (now : Z) : FailedAuthLimiter :=
  if fl_enabled l then
    {| fl_max_failures := fl_max_failures l; fl_window := fl_window l; fl_max_tracked := fl_max_tracked l;
       fl_failures := foldl (fail_bucket (fl_max_failures l) (fl_window l) (fl_max_tracked l) now) (fl_failures l) keys |}
  else l.
Definition tracked (l : FailedAuthLimiter) : nat := List.length (fl_failures l).

(** ** Requests per credential *)

Record CredentialRateLimiter := {
  cl_per_minute : Z;
  cl_window : Z;
  cl_seen : gmap string (list Z);
}.

(** [None]: [ValueError]. *)
Definition rate_limiter_from_env (environ : string -> option string) : option CredentialRateLimiter :=
  let raw := strip (default "" (environ "V1_REQUESTS_PER_MINUTE")) in
  n ← (if String.eqb raw "" then Some 0 else if isdigit raw then py_int raw else None);
  Some {| cl_per_minute := n; cl_window := WINDOW; cl_seen := ∅ |}.

Definition cl_enabled (l : CredentialRateLimiter) : bool := 0 <? cl_per_minute l.

Definition with_seen (l : CredentialRateLimiter) (k : string) (stamps : list Z) : CredentialRateLimiter :=
  {| cl_per_minute := cl_per_minute l; cl_window := cl_window l; cl_seen := <[k := stamps]> (cl_seen l) |}.
Definition take_request (l : CredentialRateLimiter) (k : string) (now : Z) : Z * CredentialRateLimiter :=
  if cl_enabled l then
    let stamps := recent (cl_window l) now (default [] (cl_seen l !! k)) in
    match stamps with
    | first :: _ =>
        if cl_per_minute l <=? Z.of_nat (List.length stamps)
        then (wait_of (first + cl_window l - now), with_seen l k stamps)
        else (0, with_seen l k (stamps ++ [now])%list)
    | [] => (0, with_seen l k [now])
    end
  else (0, l).

(** ** Properties *)

Lemma recent_in window now l t : t ∈ recent window now l <-> t ∈ l /\ now - t < window.
Proof.
  unfold recent. rewrite !list_elem_of_In, filter_In, Z.ltb_lt. done.
Qed.
Lemma recent_app window now a b : recent window now (a ++ b) = (recent window now a ++ recent window now b)%list.
Proof. apply List.filter_app. Qed.
Lemma recent_all window now l : Forall (fun t => now - t < window) l -> recent window now l = l.
Proof.
  induction 1 as [|t l Ht Hl IH]; [done|]. cbn [recent List.filter]. rewrite (proj2 (Z.ltb_lt _ _)) by done.
  f_equal. exact IH.
Qed.
Lemma recent_none window now l : Forall (fun t => window <= now - t) l -> recent window now l = [].
Proof.
  induction 1 as [|t l Ht Hl IH]; [done|]. cbn [recent List.filter]. rewrite (proj2 (Z.ltb_ge _ _)) by done. exact IH.
Qed.
(** Looking later only drops more. *)
Lemma recent_recent window now later l : now <= later -> recent window later (recent window now l) = recent window later l.
Proof.
  intros Hle. induction l as [|t l IH]; [done|]. cbn [recent List.filter].
  destruct (Z.ltb_spec (now - t) window); cbn [List.filter].
  - destruct (later - t <? window); [f_equal|]; exact IH.
  - rewrite (proj2 (Z.ltb_ge (later - t) window)) by lia. exact IH.
Qed.
Lemma recent_length window now l : (List.length (recent window now l) <= List.length l)%nat.
Proof. apply List.filter_length_le. Qed.
Lemma recent_sorted window now l : Sorted Z.le l -> Sorted Z.le (recent window now l).
Proof.
  intros Hs%Sorted_StronglySorted; [|intros x y z; lia]. apply StronglySorted_Sorted.
  induction Hs as [|t l Hs IH Ht]; [constructor|]. cbn [recent List.filter].
  destruct (now - t <? window); [|exact IH]. constructor; [exact IH|].
  apply Forall_forall. intros x Hx. rewrite Forall_forall in Ht. apply Ht. by apply (recent_in window now) in Hx as [? _].
Qed.

Lemma recent_snoc_sorted window now l x :
  StronglySorted Z.le (l ++ [x]) -> StronglySorted Z.le (recent window now l ++ [x]).
Proof.
  induction l as [|t l IH]; [done|]. cbn [app]. intros [Hs Ht]%StronglySorted_inv. cbn [recent List.filter].
  destruct (now - t <? window); [|by apply IH]. cbn [app]. constructor; [by apply IH|].
  apply Forall_app in Ht as [Ht Hx]. apply Forall_app. split; [|done]. apply Forall_forall. intros y Hy.
  rewrite Forall_forall in Ht. apply Ht. by apply (recent_in window now) in Hy as [? _].
Qed.

(** ** The credential limiter *)

(** A run of requests with their instants: the answers, and the requests that went
    through so far for each credential. *)
Fixpoint take_all (l : CredentialRateLimiter) (requests : list (string * Z)) : list (string * Z) * CredentialRateLimiter :=
  match requests with
  | [] => ([], l)
  | (k, now) :: requests =>
      let '(wait, l) := take_request l k now in
      let '(passed, l) := take_all l requests in
      (if wait =? 0 then (k, now) :: passed else passed, l)
  end.

Definition of_credential (k : string) (l : list (string * Z)) : list Z :=
  snd <$> List.filter (fun x => String.eqb k x.1) l.

(** The stamps kept for a credential are those of its passed requests still in the
    window, and fit the budget. *)
Definition remembers (l : CredentialRateLimiter) (passed : list (string * Z)) (now : Z) : Prop :=
  forall k later, now <= later ->
    recent (cl_window l) later (default [] (cl_seen l !! k)) = recent (cl_window l) later (of_credential k passed).

Lemma of_credential_snoc k passed k' now :
  of_credential k (passed ++ [(k', now)])%list = (of_credential k passed ++ if String.eqb k k' then [now] else [])%list.
Proof.
  unfold of_credential. rewrite List.filter_app, fmap_app. cbn [List.filter fst].
  destruct (String.eqb k k'); cbn; [done|by rewrite app_nil_r].
Qed.

Lemma wait_positive x : 0 <= x -> 0 < wait_of x.
Proof. intros Hx. unfold wait_of. pose proof (Z.quot_pos x 1000000 Hx). lia. Qed.

Lemma take_request_step l k now passed :
  0 < cl_per_minute l -> remembers l passed now ->
  let '(wait, l') := take_request l k now in
  cl_per_minute l' = cl_per_minute l /\ cl_window l' = cl_window l /\
  if wait =? 0 then remembers l' (passed ++ [(k, now)])%list now /\
                    Z.of_nat (List.length (recent (cl_window l) now (of_credential k passed))) < cl_per_minute l
  else remembers l' passed now /\
       cl_per_minute l <= Z.of_nat (List.length (recent (cl_window l) now (of_credential k passed))).
Proof.
  intros Hp Hr. unfold take_request, cl_enabled. rewrite (proj2 (Z.ltb_lt _ _)) by done.
  pose proof (Hr k now ltac:(lia)) as Hk. rewrite Hk.
  assert (forall (stamps : list Z) (extra : bool), (forall later, now <= later ->
      recent (cl_window l) later stamps = recent (cl_window l) later (of_credential k passed ++ if extra then [now] else [])%list) ->
    remembers (with_seen l k stamps) (passed ++ if extra then [(k, now)] else [])%list now) as Hkeep.
  { intros stamps extra Hs k' later Hl. cbn [with_seen cl_window cl_seen].
    destruct (decide (k' = k)) as [->|Hne].
    - rewrite lookup_insert_eq. change (default [] (Some stamps)) with stamps. rewrite Hs by done. f_equal.
      destruct extra; [by rewrite of_credential_snoc, String.eqb_refl|by rewrite !app_nil_r].
    - rewrite lookup_insert_ne by done. rewrite Hr by done. f_equal.
      destruct extra; [|by rewrite app_nil_r]. rewrite of_credential_snoc.
      rewrite (proj2 (String.eqb_neq k' k)) by done. by rewrite app_nil_r. }
  destruct (recent (cl_window l) now (of_credential k passed)) as [|first rest] eqn:E.
  - split; [done|]. split; [done|]. cbn [Z.eqb]. split; [|simpl; lia].
    apply (Hkeep [now] true). intros later Hl. rewrite recent_app.
    rewrite <- (recent_recent (cl_window l) now later (of_credential k passed)) by done. by rewrite E.
  - destruct (Z.leb_spec (cl_per_minute l) (Z.of_nat (List.length (first :: rest)))) as [Hfull|Hfree].
    + split; [done|]. split; [done|].
      assert (first ∈ recent (cl_window l) now (of_credential k passed)) as Hin by (rewrite E; by left).
      apply recent_in in Hin as [_ Hin].
      rewrite (proj2 (Z.eqb_neq _ _)) by (pose proof (wait_positive (first + cl_window l - now)); lia).
      split; [|done]. replace passed with (passed ++ [])%list by apply app_nil_r. apply (Hkeep (first :: rest) false).
      intros later Hl. rewrite app_nil_r, <- E. by apply recent_recent.
    + split; [done|]. split; [done|]. cbn [Z.eqb]. split; [|done].
      apply (Hkeep ((first :: rest) ++ [now])%list true). intros later Hl. rewrite !recent_app, <- E. f_equal.
      by apply recent_recent.
Qed.

(** The requests of a list that fell within the window that ends at [t]. *)
Definition within (window t : Z) (l : list Z) : list Z := List.filter (fun x => (t - window <? x) && (x <=? t)) l.

Lemma within_app window t a b : within window t (a ++ b) = (within window t a ++ within window t b)%list.
Proof. apply List.filter_app. Qed.
Lemma within_recent window t l : Forall (fun x => x <= t) l -> within window t l = recent window t l.
Proof.
  induction 1 as [|x l Hx Hl IH]; [done|]. unfold within, recent in *. cbn [List.filter].
  rewrite (proj2 (Z.leb_le x t)) by done. rewrite andb_true_r, IH.
  assert ((t - window <? x) = (t - x <? window)) as -> by (destruct (Z.ltb_spec (t - window) x), (Z.ltb_spec (t - x) window); lia).
  done.
Qed.
Lemma within_later window now t l : now <= t -> (List.length (within window t l) <= List.length (recent window now l))%nat.
Proof.
  intros Ht. induction l as [|x l IH]; [done|]. unfold within, recent in *. cbn [List.filter].
  destruct (Z.ltb_spec (t - window) x); cbn [andb];
    [rewrite (proj2 (Z.ltb_lt (now - x) window)) by lia; destruct (x <=? t)|destruct (now - x <? window)];
    cbn [List.length]; lia.
Qed.

Definition ordered_from (now : Z) (requests : list (string * Z)) : Prop :=
  StronglySorted Z.le (now :: (snd <$> requests)).
Definition passed_by (now : Z) (passed : list (string * Z)) : Prop := Forall (fun x => x.2 <= now) passed.

Lemma of_credential_by now k passed : passed_by now passed -> Forall (fun x => x <= now) (of_credential k passed).
Proof.
  intros Hp. apply Forall_fmap, Forall_forall. intros x Hx. unfold passed_by in Hp. rewrite Forall_forall in Hp.
  apply Hp. rewrite list_elem_of_In in *. by apply filter_In in Hx as [? _].
Qed.

Lemma ordered_cons now k t requests :
  ordered_from now ((k, t) :: requests) -> now <= t /\ ordered_from t requests.
Proof.
  unfold ordered_from. cbn [fmap list_fmap snd]. intros [Hs Hn]%StronglySorted_inv.
  apply Forall_cons in Hn as [Hn _]. done.
Qed.

(** What a whole run keeps: the memory, and the budget in every window. *)
Lemma take_all_run requests l passed now :
  0 < cl_per_minute l -> remembers l passed now -> passed_by now passed -> ordered_from now requests ->
  (forall k t, Z.of_nat (List.length (within (cl_window l) t (of_credential k passed))) <= cl_per_minute l) ->
  let '(more, l') := take_all l requests in
  cl_per_minute l' = cl_per_minute l /\ cl_window l' = cl_window l /\
  remembers l' (passed ++ more)%list (List.last (now :: (snd <$> requests)) now) /\
  passed_by (List.last (now :: (snd <$> requests)) now) (passed ++ more)%list /\
  (forall k t, Z.of_nat (List.length (within (cl_window l) t (of_credential k (passed ++ more)))) <= cl_per_minute l).
Proof.
  revert l passed now. induction requests as [|[k n] requests IH]; intros l passed now Hp Hr Hby Ho Hb.
  { cbn [take_all]. rewrite app_nil_r. done. }
  apply ordered_cons in Ho as [Hn Ho]. cbn [take_all].
  assert (remembers l passed n) as Hr' by (intros k' later Hl; apply Hr; lia).
  assert (passed_by n passed) as Hby' by (eapply Forall_impl; [exact Hby|]; simpl; lia).
  pose proof (take_request_step l k n passed Hp Hr') as Hstep.
  destruct (take_request l k n) as [wait l1]. destruct Hstep as (Epm & Ew & Hstep).
  assert (List.last (now :: (snd <$> (k, n) :: requests)) now = List.last (n :: (snd <$> requests)) n) as ->.
  { cbn [fmap list_fmap snd]. clear. cbn [List.last]. destruct (snd <$> requests) as [|x xs]; [done|].
    generalize now. revert x. induction xs as [|y ys IH]; intros x d; [done|]. cbn [List.last] in *. apply IH. }
  destruct (wait =? 0).
  - destruct Hstep as [Hrem Hlt]. specialize (IH l1 (passed ++ [(k, n)])%list n ltac:(lia) Hrem).
    destruct (take_all l1 requests) as [more l2]. rewrite Epm, Ew in IH. rewrite <- app_assoc in IH. apply IH; [|done|].
    + apply Forall_app. split; [done|]. by repeat constructor.
    + intros k' t. rewrite of_credential_snoc, within_app, length_app. destruct (String.eqb_spec k' k) as [->|Hne].
      * unfold within at 2. cbn [List.filter]. destruct (Z.leb_spec n t) as [Hnt|Hnt].
        -- pose proof (within_later (cl_window l) n t (of_credential k passed) Hnt) as Hle.
           destruct (t - cl_window l <? n); cbn [andb List.length]; lia.
        -- rewrite andb_false_r. cbn [List.length]. specialize (Hb k t). lia.
      * cbn [within List.filter List.length]. specialize (Hb k' t). lia.
  - destruct Hstep as [Hrem _]. specialize (IH l1 passed n ltac:(lia) Hrem Hby' Ho).
    destruct (take_all l1 requests) as [more l2]. rewrite Epm, Ew in IH. by apply IH.
Qed.

Lemma last_in (x d : Z) l : List.last (x :: l) d ∈ x :: l.
Proof. revert x. induction l as [|y l IH]; intros x; [by left|]. right. apply IH. Qed.

(** A credential never gets more requests through within a window than its budget,
    and is refused only when that many went through within the window. *)
Theorem credential_budget_exact l requests k now now0 :
  cl_seen l = ∅ -> 0 < cl_per_minute l -> ordered_from now0 (requests ++ [(k, now)])%list ->
  let '(passed, l') := take_all l requests in
  (forall k t, Z.of_nat (List.length (within (cl_window l) t (of_credential k passed))) <= cl_per_minute l) /\
  ((take_request l' k now).1 = 0 <->
   Z.of_nat (List.length (within (cl_window l) now (of_credential k passed))) < cl_per_minute l).
Proof.
  intros He Hp Ho. unfold ordered_from in Ho. rewrite fmap_app in Ho. cbn [fmap list_fmap snd] in Ho.
  assert (ordered_from now0 requests) as Ho' by (rewrite app_comm_cons in Ho; by apply StronglySorted_app_1_l in Ho).
  assert (List.last (now0 :: (snd <$> requests)) now0 <= now) as Hlast.
  { rewrite app_comm_cons in Ho. apply (StronglySorted_app_1_elem_of Z.le (now0 :: (snd <$> requests)) [now] _ now Ho); [|by left].
    apply last_in. }
  pose proof (take_all_run requests l [] now0 Hp) as Hrun.
  destruct (take_all l requests) as [passed l']. cbn [app] in Hrun.
  destruct Hrun as (Epm & Ew & Hrem & Hby & Hb); [|constructor|done| |].
  { intros k' later _. by rewrite He, lookup_empty. }
  { intros k' t. simpl. lia. }
  split; [done|]. set (final := List.last _ _) in *.
  assert (remembers l' passed now) as Hrem' by (intros k' later Hl; apply Hrem; lia).
  assert (passed_by now passed) as Hby' by (eapply Forall_impl; [exact Hby|]; simpl; lia).
  rewrite within_recent by (by apply of_credential_by).
  pose proof (take_request_step l' k now passed ltac:(lia) Hrem') as Hstep.
  destruct (take_request l' k now) as [wait l2]. destruct Hstep as (_ & _ & Hstep). rewrite Epm, Ew in Hstep. cbn [fst].
  destruct (Z.eqb_spec wait 0) as [->|Hw]; [tauto|]. destruct Hstep as [_ Hle]. split; [done|lia].
Qed.

(** ** The failure limiter *)

Lemma last_n_all n l : Z.of_nat (List.length l) <= n -> last_n n l = l.
Proof. intros Hl. unfold last_n. replace (List.length l - Z.to_nat n)%nat with O by lia. apply drop_0. Qed.
Lemma last_n_length n l : 0 <= n -> Z.of_nat (List.length (last_n n l)) = Z.min n (Z.of_nat (List.length l)).
Proof. intros Hn. unfold last_n. rewrite length_drop. lia. Qed.
Lemma last_n_in n l x : x ∈ last_n n l -> x ∈ l.
Proof. rewrite !list_elem_of_In. intros Hx. rewrite <- (take_drop (List.length l - Z.to_nat n) l). apply in_or_app. by right. Qed.
Lemma last_n_app n a b : last_n n (last_n n a ++ b)%list = last_n n (a ++ b)%list.
Proof.
  unfold last_n. rewrite !length_app, length_drop, !drop_app, drop_drop, length_drop.
  f_equal; f_equal; lia.
Qed.

(** On ordered stamps the recent ones are the last ones. *)
Lemma recent_last_n window now n l :
  StronglySorted Z.le l -> 0 <= n -> recent window now (last_n n l) = last_n n (recent window now l).
Proof.
  intros Hs Hn. unfold last_n. induction Hs as [|t l Hs IH Ht]; [done|]. cbn [List.length recent List.filter].
  destruct (Z.ltb_spec (now - t) window) as [Hw|Hw].
  - assert (recent window now (t :: l) = t :: l) as Hall.
    { apply recent_all. constructor; [done|]. eapply Forall_impl; [exact Ht|]. simpl. lia. }
    assert (recent window now l = l) as Hl
      by (apply recent_all; eapply Forall_impl; [exact Ht|]; simpl; lia).
    unfold recent in Hl. rewrite Hl. cbn [List.length]. apply recent_all.
    apply Forall_drop. constructor; [done|]. eapply Forall_impl; [exact Ht|]. simpl. lia.
  - destruct (decide (Z.to_nat n <= List.length l)%nat) as [Hle|Hgt].
    + replace (S (List.length l) - Z.to_nat n)%nat with (S (List.length l - Z.to_nat n)) by lia. cbn [drop]. exact IH.
    + replace (S (List.length l) - Z.to_nat n)%nat with O by lia. rewrite drop_0. cbn [recent List.filter].
      rewrite (proj2 (Z.ltb_ge _ _)) by done. fold (recent window now l).
      pose proof (recent_length window now l). replace (List.length (recent window now l) - Z.to_nat n)%nat with O by lia.
      by rewrite drop_0.
Qed.

Lemma stamps_of_without k k' d : stamps_of (without k d) k' = if String.eqb k' k then [] else stamps_of d k'.
Proof.
  unfold stamps_of, without. induction d as [|[j v] d IH]; cbn [List.filter List.find fst]; [by destruct (String.eqb k' k)|].
  destruct (String.eqb_spec k j) as [<-|Hne]; cbn [negb].
  - rewrite IH. destruct (String.eqb_spec k' k) as [->|]; [done|]. reflexivity.
  - cbn [List.find fst]. destruct (String.eqb_spec k' j) as [->|]; [|exact IH].
    by rewrite (proj2 (String.eqb_neq j k)).
Qed.
Lemma stamps_of_snoc d k v k' :
  stamps_of d k = [] -> ~ k ∈ d.*1 -> stamps_of (d ++ [(k, v)])%list k' = if String.eqb k' k then v else stamps_of d k'.
Proof.
  intros Hk Hn. unfold stamps_of. induction d as [|[j w] d IH]; cbn [app List.find fst snd].
  - by destruct (String.eqb k' k).
  - cbn [fmap list_fmap fst] in Hn. apply not_elem_of_cons in Hn as [Hj Hn].
    destruct (String.eqb_spec k' j) as [->|Hne]; [by rewrite (proj2 (String.eqb_neq j k))|].
    apply IH; [|done]. unfold stamps_of in *. cbn [List.find fst] in Hk.
    by rewrite (proj2 (String.eqb_neq k j)) in Hk.
Qed.

Lemma without_keys k d : (without k d).*1 = List.filter (fun j => negb (String.eqb k j)) d.*1.
Proof.
  unfold without. induction d as [|[j v] d IH]; [done|]. cbn [List.filter fmap list_fmap fst].
  destruct (String.eqb k j); cbn [negb fmap list_fmap fst]; [exact IH|by f_equal].
Qed.
Lemma without_gone k d : ~ k ∈ (without k d).*1.
Proof.
  rewrite without_keys, list_elem_of_In, filter_In, String.eqb_refl. by intros [_ ?].
Qed.

(** One failure of one bucket, and a history of them. *)
Record Failure := { fa_bucket : string * Z; fa_at : Z }.
Definition failures (max_failures window : Z) (max_tracked : nat) (h : list Failure) : Stamps :=
  foldl (fun d f => fail_bucket max_failures window max_tracked (fa_at f) d (fa_bucket f)) [] h.
Lemma failures_snoc max_failures window max_tracked h f :
  failures max_failures window max_tracked (h ++ [f])
  = fail_bucket max_failures window max_tracked (fa_at f) (failures max_failures window max_tracked h) (fa_bucket f).
Proof. unfold failures. by rewrite foldl_snoc. Qed.
Definition times (k : string) (h : list Failure) : list Z :=
  fa_at <$> List.filter (fun f => String.eqb k (fa_bucket f).1) h.
Lemma times_snoc k h f :
  times k (h ++ [f])%list = (times k h ++ if String.eqb k (fa_bucket f).1 then [fa_at f] else [])%list.
Proof.
  unfold times. rewrite List.filter_app, fmap_app. cbn [List.filter].
  by destruct (String.eqb k (fa_bucket f).1).
Qed.

(** Memory: never more buckets than [max_tracked], each once, and only ones that failed. *)
Lemma failures_bounded max_failures window max_tracked h :
  (List.length (failures max_failures window max_tracked h) <= max_tracked)%nat /\
  NoDup (failures max_failures window max_tracked h).*1 /\
  (failures max_failures window max_tracked h).*1 ⊆ (fun f => (fa_bucket f).1) <$> h.
Proof.
  induction h as [|f h (IHl & IHn & IHi)] using rev_ind; [split; [simpl; lia|split; [constructor|done]]|].
  rewrite failures_snoc. set (d := failures _ _ _ h) in *. unfold fail_bucket.
  set (d' := (without _ d ++ _)%list). assert (d'.*1 ⊆ (fun f => (fa_bucket f).1) <$> (h ++ [f])%list) as Hsub.
  { intros j. unfold d'. rewrite !fmap_app, !elem_of_app, without_keys. intros [Hj|Hj]; [left|by right].
    apply IHi. by apply list_elem_of_In, List.filter_In in Hj as [Hj%list_elem_of_In _]. }
  split; [rewrite length_drop; lia|split].
  - rewrite fmap_drop. eapply sublist_NoDup; [|apply sublist_drop]. unfold d'. rewrite fmap_app. apply NoDup_app. split; [|split].
    + rewrite without_keys. by apply NoDup_ListNoDup, List.NoDup_filter, NoDup_ListNoDup.
    + intros j Hj ->%list_elem_of_singleton. by apply (without_gone (fa_bucket f).1 d).
    + apply NoDup_singleton.
  - rewrite fmap_drop. intros j Hj%list_elem_of_In. apply Hsub. apply list_elem_of_In.
    rewrite <- (take_drop (List.length d' - max_tracked) d'.*1). apply in_or_app. by right.
Qed.

Section Failures.
Context (max_failures window : Z) (max_tracked : nat) (factor : string -> Z) (names : list string).
Hypothesis enabled : 0 < max_failures.
Hypothesis factors : forall k, 1 <= factor k.
Hypothesis few : (List.length names <= max_tracked)%nat.

Definition known (h : list Failure) : Prop :=
  Forall (fun f => (fa_bucket f).1 ∈ names /\ (fa_bucket f).2 = factor (fa_bucket f).1) h.
Definition in_order (h : list Failure) : Prop := StronglySorted Z.le (fa_at <$> h).

Lemma times_sorted k h : in_order h -> StronglySorted Z.le (times k h).
Proof.
  unfold in_order, times. induction h as [|f h IH]; [constructor|]. cbn [fmap list_fmap List.filter].
  intros [Hs Hf]%StronglySorted_inv. destruct (String.eqb k (fa_bucket f).1); [|by apply IH].
  cbn [fmap list_fmap]. constructor; [by apply IH|]. apply Forall_fmap, Forall_forall. intros g Hg.
  apply list_elem_of_In, List.filter_In in Hg as [Hg _]. rewrite Forall_fmap in Hf.
  rewrite Forall_forall in Hf. by apply Hf, list_elem_of_In.
Qed.

(** With room for every name nothing is evicted. *)
Lemma fail_bucket_keeps h f :
  known (h ++ [f]) ->
  let d := failures max_failures window max_tracked h in
  fail_bucket max_failures window max_tracked (fa_at f) d (fa_bucket f)
  = (without (fa_bucket f).1 d
     ++ [((fa_bucket f).1, last_n (max_failures * factor (fa_bucket f).1)
                             (recent window (fa_at f) (stamps_of d (fa_bucket f).1) ++ [fa_at f]))])%list.
Proof.
  intros Hk d. unfold fail_bucket. apply Forall_app in Hk as [Hk [Hin ->]%Forall_singleton].
  set (d' := (_ ++ _)%list). replace (List.length d' - max_tracked)%nat with O; [done|].
  assert (List.length d' <= List.length names)%nat; [|lia].
  destruct (failures_bounded max_failures window max_tracked h) as (_ & Hn & Hsub). fold d in Hn, Hsub.
  rewrite <- (length_fmap fst d'). apply submseteq_length, NoDup_submseteq.
  - unfold d'. rewrite fmap_app. apply NoDup_app. split; [|split; [|apply NoDup_singleton]].
    + rewrite without_keys. by apply NoDup_ListNoDup, List.NoDup_filter, NoDup_ListNoDup.
    + intros j Hj ->%list_elem_of_singleton. by apply (without_gone (fa_bucket f).1 d).
  - intros j. unfold d'. rewrite fmap_app, elem_of_app, without_keys. intros [Hj| ->%list_elem_of_singleton]; [|done].
    apply list_elem_of_In, List.filter_In in Hj as [Hj%list_elem_of_In _].
    apply Hsub, list_elem_of_fmap in Hj as (g & -> & Hg). by apply (proj1 (Forall_forall _ _) Hk g).
Qed.

(** What the limiter keeps for a bucket is, in any window from now on, the bucket's
    real failures up to its budget. *)
Lemma failures_exact h later k :
  known h -> in_order h -> Forall (fun f => fa_at f <= later) h ->
  recent window later (stamps_of (failures max_failures window max_tracked h) k)
  = last_n (max_failures * factor k) (recent window later (times k h)).
Proof.
  revert later. induction h as [|f h IH] using rev_ind; intros later Hk Ho Hl; [done|].
  pose proof (fail_bucket_keeps h f Hk) as Hkeep. cbn zeta in Hkeep.
  rewrite failures_snoc, Hkeep. clear Hkeep.
  pose proof Ho as Hs. unfold in_order in Hs. rewrite fmap_app in Hs.
  apply Forall_app in Hk as [Hk _]. apply Forall_app in Hl as [Hl Hf]. rewrite Forall_singleton in Hf.
  pose proof (StronglySorted_app_1_l _ _ _ Hs) as Hoh.
  assert (Forall (fun g => fa_at g <= fa_at f) h) as Hb.
  { apply Forall_forall. intros g Hg. apply (StronglySorted_app_1_elem_of _ _ _ _ _ Hs); [|by left].
    by apply list_elem_of_fmap_2. }
  rewrite stamps_of_snoc; [|by rewrite stamps_of_without, String.eqb_refl|by apply without_gone].
  rewrite times_snoc. destruct (String.eqb_spec k (fa_bucket f).1) as [->|Hne].
  - pose proof (times_sorted (fa_bucket f).1 _ Ho) as Hts. rewrite times_snoc, String.eqb_refl in Hts.
    pose proof (factors (fa_bucket f).1) as Hfac.
    rewrite (IH (fa_at f)), last_n_app, recent_last_n; [|by apply recent_snoc_sorted|nia|done|done|done].
    by rewrite !recent_app, recent_recent by done.
  - rewrite stamps_of_without, (proj2 (String.eqb_neq _ _)) by done. rewrite app_nil_r. by apply IH.
Qed.

(** The bucket refuses exactly when its failures in the window reached its budget, and
    then the wait it gives is enough. *)
Lemma bucket_decides h now k l :
  known h -> in_order h -> Forall (fun f => fa_at f <= now) h -> 0 < window ->
  l = {| fl_max_failures := max_failures; fl_window := window; fl_max_tracked := max_tracked;
         fl_failures := failures max_failures window max_tracked h |} ->
  let failed := recent window now (times k h) in
  let refused := max_failures * factor k <=? Z.of_nat (List.length failed) in
  (forall wait, 0 <= wait -> wait <= bucket_wait l now wait (k, factor k)) /\
  (forall wait, refused = false -> bucket_wait l now wait (k, factor k) = wait) /\
  (refused = true -> forall wait, 0 < bucket_wait l now wait (k, factor k)).
Proof.
  intros Hk Ho Hl Hw ->. cbn zeta. unfold bucket_wait. cbn [fl_max_failures fl_window fl_failures fst snd].
  pose proof (factors k) as Hf. rewrite failures_exact by done. set (failed := recent window now (times k h)).
  pose proof (last_n_length (max_failures * factor k) failed ltac:(nia)) as Hlen.
  destruct (Z.leb_spec (max_failures * factor k) (Z.of_nat (List.length failed))) as [Hr|Hr].
  - rewrite Hlen, Z.min_l by done. rewrite Z.leb_refl.
    destruct (last_n (max_failures * factor k) failed) as [|first rest] eqn:E; [simpl in Hlen; nia|].
    assert (first ∈ failed) as Hin by (apply (last_n_in (max_failures * factor k)); rewrite E; by left).
    apply recent_in in Hin as [_ Hin]. split; [lia|split; [done|]]. intros _ wait.
    pose proof (wait_positive (first + window - now)). lia.
  - rewrite (proj2 (Z.leb_gt _ _)) by lia. split; [lia|split; [done|done]].
Qed.
End Failures.

Lemma bucket_waits_monotone l now keys wait :
  (forall b wait, b ∈ keys -> 0 <= wait -> wait <= bucket_wait l now wait b) ->
  0 <= wait -> wait <= foldl (bucket_wait l now) wait keys.
Proof.
  revert wait. induction keys as [|b keys IH]; intros wait Hb Hw; [done|]. cbn [foldl].
  pose proof (Hb b wait ltac:(by left) Hw). transitivity (bucket_wait l now wait b); [done|].
  apply IH; [|lia]. intros b' w' Hin. apply Hb. by right.
Qed.

(** The limiter's decision on what it keeps. *)
Lemma failure_budget_decided l h keys now factor names :
  0 < fl_max_failures l -> 0 < fl_window l -> (forall k, 1 <= factor k) ->
  (List.length names <= fl_max_tracked l)%nat ->
  known factor names h -> in_order h -> Forall (fun f => fa_at f <= now) h ->
  fl_failures l = failures (fl_max_failures l) (fl_window l) (fl_max_tracked l) h ->
  (forall b, b ∈ keys -> b.2 = factor b.1) ->
  retry_after l keys now = 0 <->
  (forall b, b ∈ keys ->
     Z.of_nat (List.length (recent (fl_window l) now (times b.1 h))) < fl_max_failures l * b.2).
Proof.
  intros Hm Hw Hf Hfew Hk Ho Hl Hd Hkeys. unfold retry_after, fl_enabled. rewrite (proj2 (Z.ltb_lt _ _)) by done.
  assert (forall k, _) as Hdec
    by (intros k; apply (bucket_decides _ _ _ factor names Hm Hf Hfew h now k l Hk Ho Hl Hw); destruct l; cbn in *; by subst).
  cbn zeta in Hdec. clear Hd Hk Ho Hl Hfew.
  induction keys as [|[k f] keys IH] in Hkeys |- *; [split; [set_solver|done]|]. cbn [foldl].
  pose proof (Hkeys (k, f) ltac:(by left)) as Ef. cbn [fst snd] in Ef. subst f. destruct (Hdec k) as (_ & Hno & Hyes).
  assert (forall b, b ∈ keys -> b.2 = factor b.1) as Hrest by (intros b Hin; apply Hkeys; by right).
  specialize (IH Hrest). rewrite <- Forall_forall in IH |- *. rewrite Forall_cons. cbn [fst snd]. rewrite <- IH.
  destruct (Z.leb_spec (fl_max_failures l * factor k) (Z.of_nat (List.length (recent (fl_window l) now (times k h))))) as [Hr|Hr].
  - specialize (Hyes eq_refl 0). split; [|lia]. intros E.
    pose proof (bucket_waits_monotone l now keys (bucket_wait l now 0 (k, factor k))) as Hmono.
    rewrite E in Hmono. enough (bucket_wait l now 0 (k, factor k) <= 0) by lia. apply Hmono; [|lia].
    intros b w Hin Hw0. destruct b as [k' f']. pose proof (Hrest _ Hin) as Eb. cbn [fst snd] in Eb. subst f'. by apply (Hdec k').
  - rewrite Hno by done. tauto.
Qed.

(** Failed authentications, each with its client's buckets and its time, in a process
    that starts with [l]; and the failures of the single buckets. *)
Definition record_all (l : FailedAuthLimiter) (h : list (list (string * Z) * Z)) : FailedAuthLimiter :=
  foldl (fun l x => record_failure l x.1 x.2) l h.
Definition bucket_failures (h : list (list (string * Z) * Z)) : list Failure :=
  flat_map (fun x => (fun b => {| fa_bucket := b; fa_at := x.2 |}) <$> x.1) h.

Lemma record_failures_run l h g :
  0 < fl_max_failures l ->
  fl_failures l = failures (fl_max_failures l) (fl_window l) (fl_max_tracked l) g ->
  record_all l h = {| fl_max_failures := fl_max_failures l; fl_window := fl_window l; fl_max_tracked := fl_max_tracked l;
    fl_failures := failures (fl_max_failures l) (fl_window l) (fl_max_tracked l) (g ++ bucket_failures h)%list |}.
Proof.
  revert l g. induction h as [|[keys now] h IH]; intros l g Hm Hl.
  { cbn [bucket_failures flat_map]. rewrite app_nil_r, <- Hl. by destruct l. }
  cbn [record_all foldl fst snd]. change (foldl _ ?x h) with (record_all x h).
  unfold record_failure at 1. unfold fl_enabled. rewrite (proj2 (Z.ltb_lt _ _)) by done.
  rewrite (IH _ (g ++ ((fun b => {| fa_bucket := b; fa_at := now |}) <$> keys))%list); cbn [fl_max_failures fl_window fl_max_tracked fl_failures].
  - cbn [bucket_failures flat_map fst snd]. by rewrite <- app_assoc.
  - done.
  - rewrite Hl. clear. revert g. induction keys as [|b keys IH]; intros g; [by rewrite app_nil_r|].
    cbn [foldl fmap list_fmap]. rewrite cons_middle, app_assoc, <- IH, failures_snoc. reflexivity.
Qed.

Lemma bucket_failures_order h : StronglySorted Z.le (snd <$> h) -> in_order (bucket_failures h).
Proof.
  unfold in_order. induction h as [|[keys now] h IH]; [constructor|]. cbn [fmap list_fmap snd]. intros [Hs Hf]%StronglySorted_inv.
  cbn [bucket_failures flat_map fst snd]. rewrite fmap_app.
  assert (Forall (Z.le now) (fa_at <$> bucket_failures h)) as Hle.
  { apply Forall_fmap, Forall_forall. intros g Hg. apply list_elem_of_In, in_flat_map in Hg as ((ks & t) & Hin & Hb).
    apply list_elem_of_In, list_elem_of_fmap in Hb as (b & -> & _). rewrite Forall_fmap, Forall_forall in Hf.
    by apply (Hf (ks, t)), list_elem_of_In. }
  specialize (IH Hs). fold (bucket_failures h). clear Hs Hf. induction keys as [|b keys IHk]; [exact IH|].
  cbn [fmap list_fmap app fa_at]. constructor; [exact IHk|]. apply Forall_app. split; [|exact Hle].
  apply Forall_fmap, Forall_fmap, Forall_forall. cbn. lia.
Qed.

(** C32: A client is refused exactly when one of its buckets failed as many times within
    the window as its budget allows.  The failures are all that [record_failure] was
    called with since the process started, in the order of their times; a bucket always
    has the same budget, and no more buckets failed than the limiter tracks (50,000; beyond
    that it forgets the buckets that failed least recently). *)
Theorem failure_budget_exact l h keys now factor :
  fl_failures l = [] -> 0 < fl_max_failures l -> 0 < fl_window l ->
  StronglySorted Z.le (snd <$> h) -> Forall (fun x => x.2 <= now) h ->
  (forall k, 1 <= factor k) -> Forall (fun x => Forall (fun b => b.2 = factor b.1) x.1) ((keys, now) :: h) ->
  (List.length (remove_dups ((fun f => (fa_bucket f).1) <$> bucket_failures h)) <= fl_max_tracked l)%nat ->
  retry_after (record_all l h) keys now = 0 <->
  (forall b, b ∈ keys ->
     Z.of_nat (List.length (recent (fl_window l) now (times b.1 (bucket_failures h)))) < fl_max_failures l * b.2).
Proof.
  intros He Hm Hw Hs Hn Hf [Hkeys Hb]%Forall_cons Hfew. rewrite (record_failures_run l h [] Hm He).
  cbn [app]. set (r := {| fl_max_failures := _; fl_window := _; fl_max_tracked := _; fl_failures := _ |}).
  pose proof (failure_budget_decided r (bucket_failures h) keys now factor
    (remove_dups ((fun f => (fa_bucket f).1) <$> bucket_failures h))) as Hd.
  apply Hd; try done.
  - apply Forall_forall. intros g Hg. split; [by apply elem_of_remove_dups, (list_elem_of_fmap_2 (fun f => (fa_bucket f).1))|].
    apply list_elem_of_In, in_flat_map in Hg as ((ks & t) & Hin & Hg).
    apply list_elem_of_In, list_elem_of_fmap in Hg as (b & -> & Hbk). apply list_elem_of_In in Hin.
    rewrite Forall_forall in Hb. specialize (Hb _ Hin). rewrite Forall_forall in Hb. by apply Hb.
  - by apply bucket_failures_order.
  - apply Forall_forall. intros g Hg. apply list_elem_of_In, in_flat_map in Hg as ((ks & t) & Hin & Hg).
    apply list_elem_of_In, list_elem_of_fmap in Hg as (b & -> & _). apply list_elem_of_In in Hin.
    rewrite Forall_forall in Hn. by apply (Hn _ Hin).
  - by apply Forall_forall.
Qed.
