(* ===== verification/PortalAuth.v ===== *)
(** * Signing in to the portal (app/portal/auth.py)

    The operator's password, the signed session cookie with its CSRF token, the limiter
    of failed sign-ins and the check of where to go after one.  Theorems: an issued
    cookie reads back, with its token, until it expires; a cookie that reads carries the
    HMAC of its payload under the portal's secret and has not expired; guessing passwords
    is bounded in every window; and a sign-in leads nowhere but the portal. *)

From Stdlib Require Import Ascii String ZArith Lia.
From stdpp Require Import base gmap strings list.
From S2P Require Import Prelude PyStr Base64 Utf8 Json JsonText Errors External Models Throttle.
Open Scope string_scope.
Open Scope Z_scope.

Definition COOKIE : string := "cd_portal".
Definition SESSION_TTL : Z := 12 * 3600.
Definition MIN_PASSWORD_LENGTH : Z := 12.
Definition MAX_FAILURES : Z := 5.
(** The fifteen minutes, in microseconds. *)
Definition FAILURE_WINDOW : Z := minutes 15.

(** [s.rpartition(".")] of a string with a dot: what precedes and follows the last one. *)
Fixpoint rpartition (sep : ascii) (s : string) : string * string :=
  match s with
  | "" => ("", "")
  | String c r =>
      if has_char sep r then let '(a, b) := rpartition sep r in (String c a, b)
      else if char_eqb sep c then ("", r) else ("", String c r)
  end.
(** [int(x)] of a value a JSON document holds. *)
Definition int_of_json (j : json) : res exn Z :=
  match j with
  | JInt n => Ok n
  | JBool b => Ok (if b then 1 else 0)
  | JStr v => match py_int v with Some n => Ok n | None => Err PyValueError end
  | JNull | JArr _ | JObj _ => Err PyTypeError
  end.
(** [x == 1] *)
Definition equals_one (j : option json) : bool :=
  match j with Some (JInt n) => n =? 1 | Some (JBool b) => b | _ => false end.

(** ** Settings *)

Record PortalSettings := {
  po_password : option string;
  po_secret : string;
  po_enabled : bool;
}.

Section Auth.
Context `{External}.

(** [random]: [secrets.token_bytes(32)]. *)
Definition portal_from_env (env : string -> option string) (random : string) : PortalSettings :=
  let password := nonempty (Some (strip (default "" (env "PORTAL_PASSWORD")))) in
  let enabled := match password with Some p => MIN_PASSWORD_LENGTH <=? ulen p | None => false end in
  let secret_text := strip (default "" (env "PORTAL_SESSION_SECRET")) in
  let secret :=
    if negb (String.eqb secret_text "") then sha256 secret_text
    else if enabled then sha256 ("custom-domain-portal-session:" ++ default "" password)
    else random in
  {| po_password := if enabled then password else None; po_secret := secret; po_enabled := enabled |}.

Definition check_password (st : PortalSettings) (given : string) : bool :=
  match (if po_enabled st then po_password st else None) with
  | Some password => String.eqb given password
  | None => false
  end.

(** ** Sessions; [stamp]: [int(time.time())] *)

Definition sign_payload (st : PortalSettings) (payload : string) : string := b64 (hmac_sha256 (po_secret st) payload).

(** The cookie's value and its CSRF token. *)
Definition session_payload (csrf : string) (stamp : Z) : json :=
  JObj [("v", JInt 1); ("exp", JInt (stamp + SESSION_TTL)); ("csrf", JStr csrf)].
Definition issue_session (st : PortalSettings) (csrf : string) (stamp : Z) : string * string :=
  let payload := b64 (print true (session_payload csrf stamp)) in
  (payload ++ "." ++ sign_payload st payload, csrf).

(** The session's data, or that there is none; [Err]: an exception [read] lets through. *)
Definition read_session (st : PortalSettings) (cookie : option string) (stamp : Z) : res exn (option dict) :=
  match nonempty cookie with
  | None => Ok None
  | Some cookie =>
      if negb (has_char "."%char cookie) then Ok None else
      let '(payload, signature) := rpartition "."%char cookie in
      if negb (is_ascii payload) then Err PyValueError else       (* UnicodeEncodeError *)
      same ← compare_digest (sign_payload st payload) signature;
      if negb same then Ok None else
      match unb64 payload ≫= loads with
      | Some (JObj data) =>
          if negb (equals_one (dget "v" data)) then Ok None else
          expires ← int_of_json (default (JInt 0) (dget "exp" data));
          if expires <? stamp then Ok None else
          match dget "csrf" data with Some (JStr _) => Ok (Some data) | _ => Ok None end
      | _ => Ok None
      end
  end.
Definition session_csrf (data : dict) : string := default "" (dget "csrf" data ≫= as_str).
End Auth.

(** ** Failed sign-ins *)

Record LoginLimiter := {
  ll_max_failures : Z;
  ll_window : Z;
  ll_failures : gmap string (list Z);
}.
Definition login_limiter : LoginLimiter := {| ll_max_failures := MAX_FAILURES; ll_window := FAILURE_WINDOW; ll_failures := ∅ |}.

Definition with_failures (l : LoginLimiter) (f : gmap string (list Z)) : LoginLimiter :=
  {| ll_max_failures := ll_max_failures l; ll_window := ll_window l; ll_failures := f |}.
(** [_recent] *)
Definition recent_failures (l : LoginLimiter) (key : string) (now : Z) : list Z * LoginLimiter :=
  let stamps := recent (ll_window l) now (default [] (ll_failures l !! key)) in
  (stamps, with_failures l (<[key := stamps]> (ll_failures l))).
Definition login_allowed (l : LoginLimiter) (key : string) (now : Z) : bool * LoginLimiter :=
  let '(stamps, l) := recent_failures l key now in (Z.of_nat (List.length stamps) <? ll_max_failures l, l).
Definition login_failed (l : LoginLimiter) (key : string) (now : Z) : LoginLimiter :=
  let '(stamps, l) := recent_failures l key now in
  with_failures l (<[key := (stamps ++ [now])%list]> (ll_failures l)).
Definition login_reset (l : LoginLimiter) (key : string) : LoginLimiter := with_failures l (delete key (ll_failures l)).

Definition safe_next (path : option string) : string :=
  match nonempty path with
  | Some path => if startswith "/portal" path && negb (startswith "//" path) then path else "/portal"
  | None => "/portal"
  end.

(** ** Properties *)

Lemma safe_next_stays path : startswith "/portal" (safe_next path) = true.
Proof.
  unfold safe_next. destruct (nonempty path) as [p|]; [|done].
  by destruct (startswith "/portal" p) eqn:E; [destruct (negb _)|].
Qed.

Lemma has_char_self c s : has_char c (String c s) = true.
Proof. rewrite has_char_cons. unfold char_eqb. by rewrite Ascii.eqb_refl. Qed.

Lemma rpartition_app sep a b : has_char sep b = false -> rpartition sep (a ++ String sep b) = (a, b).
Proof.
  intros Hb. induction a as [|c a IH]; cbn [append rpartition].
  - rewrite Hb. unfold char_eqb. by rewrite Ascii.eqb_refl.
  - by rewrite has_char_app, has_char_self, orb_true_r, IH.
Qed.

Lemma rpartition_joins sep s : has_char sep s = true -> s = (rpartition sep s).1 ++ String sep (rpartition sep s).2.
Proof.
  induction s as [|c s IH]; [done|]. rewrite has_char_cons. cbn [rpartition]. intros Hs.
  destruct (has_char sep s) eqn:E.
  - specialize (IH eq_refl). destruct (rpartition sep s) as [a b]. cbn [fst snd append] in *. by rewrite IH at 1.
  - rewrite orb_false_r in Hs. rewrite Hs. by apply Ascii.eqb_eq in Hs as ->.
Qed.

Section Properties.
Context `{External}.

Lemma b64_ascii s : is_ascii (b64 s) = true.
Proof. eapply sall_impl; [|apply b64_safe]. intros c Hc. apply (url_safe_plain c Hc). Qed.

(** A cookie the portal issued opens its session, with its CSRF token, until it expires,
    and no longer. *)
Theorem issued_session_reads st csrf issued now :
  is_text csrf = true ->
  read_session st (Some (issue_session st csrf issued).1) now =
  Ok (if now <=? issued + SESSION_TTL then as_obj (session_payload csrf issued) else None).
Proof.
  intros Ht. cbn [issue_session fst]. set (payload := b64 _). unfold read_session.
  change ("." ++ sign_payload st payload) with (String "."%char (sign_payload st payload)).
  assert (nonempty (Some (payload ++ String "."%char (sign_payload st payload)))
          = Some (payload ++ String "."%char (sign_payload st payload))) as ->.
  { by destruct payload. }
  assert (has_char "."%char (payload ++ String "."%char (sign_payload st payload)) = true) as ->.
  { by rewrite has_char_app, has_char_self, orb_true_r. }
  cbn [negb]. rewrite rpartition_app by apply b64_no_dot. unfold compare_digest, sign_payload. unfold payload at 1. rewrite !b64_ascii, String.eqb_refl.
  cbn [negb andb mbind res_bind]. unfold payload. rewrite unb64_b64. cbn [mbind option_bind].
  assert (printable (session_payload csrf issued)) as Hp.
  { apply printable_obj. split; [apply (bool_decide_unpack _); vm_compute; exact I|].
    repeat (apply Forall_cons; split); try apply Forall_nil; split; by try exact Ht. }
  rewrite (loads_print _ _ Hp). unfold session_payload.
  cbn [equals_one dget String.eqb Ascii.eqb Bool.eqb Z.eqb negb default from_option id int_of_json mbind res_bind as_obj].
  cbn. destruct (Z.ltb_spec (issued + SESSION_TTL) now), (Z.leb_spec now (issued + SESSION_TTL)); done || lia.
Qed.

(** A cookie opens a session only with the MAC of its payload under the portal's secret,
    and before the time its payload names. *)
Theorem read_session_authentic st cookie now data :
  read_session st (Some cookie) now = Ok (Some data) ->
  exists payload text expires, cookie = payload ++ "." ++ b64 (hmac_sha256 (po_secret st) payload) /\
    unb64 payload = Some text /\ loads text = Some (JObj data) /\
    int_of_json (default (JInt 0) (dget "exp" data)) = Ok expires /\ now <= expires /\
    exists csrf, dget "csrf" data = Some (JStr csrf).
Proof.
  unfold read_session. destruct (nonempty (Some cookie)) as [c|] eqn:Ec; [|done].
  assert (c = cookie) as -> by (destruct cookie; [done|by injection Ec]).
  destruct (has_char "."%char cookie) eqn:Ed; [|done]. cbn [negb]. apply rpartition_joins in Ed.
  destruct (rpartition "."%char cookie) as [payload signature]. cbn [fst snd] in Ed.
  destruct (is_ascii payload); [|done]. cbn [negb]. unfold compare_digest. destruct (_ && _); [|done].
  cbn [mbind res_bind]. destruct (String.eqb_spec (sign_payload st payload) signature) as [<-|]; [|done]. cbn [negb].
  destruct (unb64 payload) as [text|] eqn:Eb; [|done]. cbn [mbind option_bind].
  destruct (loads text) as [[| | | | |d]|] eqn:El; try done. destruct (equals_one _); [|done]. cbn [negb].
  destruct (int_of_json _) as [expires|e] eqn:Ee; [|done]. cbn [mbind res_bind]. destruct (Z.ltb_spec expires now) as [|Hx]; [done|].
  destruct (dget "csrf" d) as [[| | |csrf| |]|] eqn:Ef; try done. intros [= <-].
  exists payload, text, expires. split_and!; eauto.
Qed.
End Properties.

(** *** Guessing *)

(** One attempt with a wrong password: whether it was compared at all. *)
Definition wrong_guess (l : LoginLimiter) (key : string) (now : Z) : bool * LoginLimiter :=
  let '(allowed, l) := login_allowed l key now in
  if allowed then (true, login_failed l key now) else (false, l).
Fixpoint wrong_guesses (l : LoginLimiter) (attempts : list (string * Z)) : list (string * Z) * LoginLimiter :=
  match attempts with
  | [] => ([], l)
  | (key, now) :: attempts =>
      let '(compared, l) := wrong_guess l key now in
      let '(more, l) := wrong_guesses l attempts in
      (if compared then (key, now) :: more else more, l)
  end.

(** The limiter of sign-ins is the limiter of credentials with its own budget. *)
Definition as_rate_limiter (l : LoginLimiter) : CredentialRateLimiter :=
  {| cl_per_minute := ll_max_failures l; cl_window := ll_window l; cl_seen := ll_failures l |}.

Lemma recent_twice window now l : recent window now (recent window now l) = recent window now l.
Proof. apply recent_recent. lia. Qed.

Lemma wrong_guess_takes l key now :
  0 < ll_max_failures l ->
  let '(compared, l') := wrong_guess l key now in
  let '(wait, r) := take_request (as_rate_limiter l) key now in
  r = as_rate_limiter l' /\ compared = (wait =? 0) /\ ll_max_failures l' = ll_max_failures l.
Proof.
  intros Hp. unfold wrong_guess, login_allowed, login_failed, recent_failures, take_request, cl_enabled, with_seen.
  cbn [as_rate_limiter cl_per_minute cl_window cl_seen with_failures ll_failures ll_window ll_max_failures].
  rewrite (proj2 (Z.ltb_lt 0 (ll_max_failures l)) Hp). set (stamps := recent (ll_window l) now _).
  rewrite lookup_insert_eq. cbn [default from_option id]. rewrite insert_insert_eq. fold stamps.
  assert (recent (ll_window l) now stamps = stamps) as Hs by apply recent_twice.
  destruct stamps as [|first more] eqn:E.
  - cbn [List.length]. rewrite (proj2 (Z.ltb_lt _ _)) by (cbn; lia). cbn. by rewrite insert_insert_eq.
  - destruct (Z.leb_spec (ll_max_failures l) (Z.of_nat (List.length (first :: more)))) as [Hle|Hlt].
    + rewrite (proj2 (Z.ltb_ge _ _)) by done. split_and!; [done| |done]. symmetry. apply Z.eqb_neq.
      assert (first ∈ recent (ll_window l) now (default [] (ll_failures l !! key))) as Hin by (fold stamps; rewrite E; by left).
      apply recent_in in Hin as [_ Hin].
      pose proof (wait_positive (first + ll_window l - now) ltac:(lia)). lia.
    + rewrite (proj2 (Z.ltb_lt _ _)) by done. cbn [ll_window]. rewrite Hs. by rewrite insert_insert_eq.
Qed.

Lemma wrong_guesses_take attempts l :
  0 < ll_max_failures l ->
  let '(compared, l') := wrong_guesses l attempts in
  take_all (as_rate_limiter l) attempts = (compared, as_rate_limiter l') /\ ll_max_failures l' = ll_max_failures l.
Proof.
  revert l. induction attempts as [|[key now] attempts IH]; intros l Hp; [done|]. cbn [wrong_guesses take_all].
  pose proof (wrong_guess_takes l key now Hp) as Hs. destruct (wrong_guess l key now) as [compared l1].
  destruct (take_request (as_rate_limiter l) key now) as [wait r]. destruct Hs as (-> & -> & Hm).
  specialize (IH l1 ltac:(lia)). destruct (wrong_guesses l1 attempts) as [more l2]. destruct IH as [-> Hm2].
  split; [done|lia].
Qed.

(** Guessing is bounded: while no sign-in succeeds, at most five wrong passwords of an
    address are compared in any fifteen minutes, whatever other addresses do, and one is
    refused unread only when five were. *)
Theorem guesses_bounded attempts key now now0 :
  ordered_from now0 (attempts ++ [(key, now)])%list ->
  let '(compared, l) := wrong_guesses login_limiter attempts in
  (forall k t, Z.of_nat (List.length (within FAILURE_WINDOW t (of_credential k compared))) <= MAX_FAILURES) /\
  ((wrong_guess l key now).1 = true <->
   Z.of_nat (List.length (within FAILURE_WINDOW now (of_credential key compared))) < MAX_FAILURES).
Proof.
  intros Ho. pose proof (wrong_guesses_take attempts login_limiter ltac:(done)) as Hw.
  pose proof (credential_budget_exact (as_rate_limiter login_limiter) attempts key now now0 eq_refl ltac:(done) Ho) as Hb.
  destruct (wrong_guesses login_limiter attempts) as [compared l]. destruct Hw as [Hw Hm]. rewrite Hw in Hb.
  destruct Hb as [Hall Hnext]. split; [exact Hall|]. etrans; [|exact Hnext].
  assert (0 < ll_max_failures l) as Hp by (by rewrite Hm).
  pose proof (wrong_guess_takes l key now Hp) as Hs. destruct (wrong_guess l key now) as [c l1].
  destruct (take_request (as_rate_limiter l) key now) as [wait r]. destruct Hs as (_ & -> & _). cbn [fst].
  apply Z.eqb_eq.
Qed.
