(* ===== verification/AssertionKeys.v ===== *)
(** * Per-application assertion keys (app/services/assertion_keys.py)

    The key the edge signs an application's requests with, issuing the next one,
    and revoking one.  Theorems: issuing a key changes nothing until it becomes
    active and then hands over to it; an application never has more than two live
    keys; a revoked key never signs again. *)

From Stdlib Require Import Ascii String ZArith Lia.
From stdpp Require Import base gmap strings list sets sorting.
From S2P Require Import Prelude PyStr Json Errors External Models.
Open Scope string_scope.
Open Scope Z_scope.

Definition KEY_ID_PREFIX : string := "app_".
Definition DEFAULT_ACTIVATION : Z := hours 24.
Definition MAX_ACTIVATION : Z := days 30.

(** [ORDER BY active_from DESC, created_at DESC], then by id. *)
Definition newer (x y : N * AssertionKey) : Prop :=
  ak_active_from y.2 < ak_active_from x.2 \/
  ak_active_from x.2 = ak_active_from y.2 /\
    (ak_created_at y.2 < ak_created_at x.2 \/ ak_created_at x.2 = ak_created_at y.2 /\ (x.1 <= y.1)%N).
#[export] Instance newer_dec x y : Decision (newer x y).
Proof. unfold newer. apply _. Defined.
#[export] Instance newer_total : Total newer.
Proof. intros x y. unfold newer. lia. Qed.
#[export] Instance newer_trans : Transitive newer.
Proof. intros x y z. unfold newer. lia. Qed.

Definition key_live (a : N) (r : AssertionKey) : bool :=
  bool_decide (ak_application_id r = a) && bool_decide (ak_revoked_at r = None).

(** [_live] *)
Definition live_keys (s : Db) (a : N) : list (N * AssertionKey) :=
  merge_sort newer (filter (fun x => key_live a x.2 = true) (map_to_list (db_assertion_keys s))).

Definition signing_key (s : Db) (a : N) (now : Z) : option (N * AssertionKey) :=
  head (merge_sort newer
    (filter (fun x => key_live a x.2 && (ak_active_from x.2 <=? now) = true)
       (map_to_list (db_assertion_keys s)))).

Definition list_keys (s : Db) (a : N) : list (N * AssertionKey) :=
  select_rows (fun r => - ak_created_at r) (fun _ r => bool_decide (ak_application_id r = a))
    (db_assertion_keys s).

(** [key.revoked_at = now], flushed. *)
Definition revoked (now clock : Z) (r : AssertionKey) : AssertionKey :=
  r <| ak_revoked_at := Some now |> <| ak_updated_at := clock |>.
Definition revoke_row (now : Z) (k : N) : M unit :=
  modify (fun s => s <| db_assertion_keys ::= alter (revoked now (db_clock s)) k |>).

Definition insert_key (r : AssertionKey) : M N :=
  s ← get;
  _ ← guard_ (bool_decide (is_Some (db_applications s !! ak_application_id r))) (IntegrityError FOREIGN_KEY);
  _ ← guard_ (negb (existsb (fun x => String.eqb (ak_key_id x.2) (ak_key_id r))
                      (map_to_list (db_assertion_keys s))))
       (IntegrityError "UNIQUE constraint failed: assertion_keys.key_id");
  k ← fresh;
  _ ← guard_ (bool_decide (db_assertion_keys s !! k = None))
       (IntegrityError "UNIQUE constraint failed: assertion_keys.id");
  _ ← modify (fun s => s <| db_assertion_keys ::= <[k := r]> |>);
  mret k.

Section AssertionKeys.
Context `{External}.

Definition issue_key (a : N) (activate_in : Z) (now : option Z) : M (N * string) :=
  _ ← guard_ ((0 <=? activate_in) && (activate_in <=? MAX_ACTIVATION)) (ServiceError InvalidAssertionKey []);
  now ← now_or now;
  current ← gets (fun s => signing_key s a now);
  live ← gets (fun s => live_keys s a);
  _ ← for_each (live.*1) (fun k => if bool_decide (fst <$> current = Some k) then mret tt else revoke_row now k);
  draw ← fresh;
  let key_id := KEY_ID_PREFIX ++ token_hex draw 8 in
  draw ← fresh;
  let secret := token_urlsafe draw 48 in
  clock ← gets db_clock;
  k ← insert_key {| ak_application_id := a; ak_key_id := key_id; ak_secret := secret;
                    ak_active_from := now + activate_in; ak_revoked_at := None;
                    ak_created_at := clock; ak_updated_at := clock |};
  mret (k, secret).

Definition revoke_key (a : N) (key_id : string) (now : option Z) : M N :=
  found ← gets (fun s =>
    head (filter (fun x => ak_application_id x.2 = a /\ ak_key_id x.2 = key_id)
            (map_to_list (db_assertion_keys s))));
  key ← need found (ServiceError AssertionKeyNotFound []);
  if bool_decide (ak_revoked_at key.2 = None) then
    now ← now_or now;
    _ ← revoke_row now key.1;
    mret key.1
  else mret key.1.
End AssertionKeys.

Definition key_state (key : N * AssertionKey) (signing : option (N * AssertionKey)) (now : Z) : string :=
  if bool_decide (is_Some (ak_revoked_at key.2)) then "revoked"
  else if bool_decide (fst <$> signing = Some key.1) then "signing"
  else if now <? ak_active_from key.2 then "next"
  else "previous".

(** ** Properties *)

Lemma elem_keys (P : AssertionKey -> bool) (m : gmap N AssertionKey) k r :
  (k, r) ∈ filter (fun x => P x.2 = true) (map_to_list m) <-> m !! k = Some r /\ P r = true.
Proof. rewrite list_elem_of_filter, elem_of_map_to_list. simpl. tauto. Qed.

(** The key signing at an instant is the newest of the live keys active then. *)
Lemma signing_key_Some s a t k r :
  signing_key s a t = Some (k, r) <->
  db_assertion_keys s !! k = Some r /\ key_live a r = true /\ ak_active_from r <= t /\
  (forall k' r', db_assertion_keys s !! k' = Some r' -> key_live a r' = true -> ak_active_from r' <= t ->
     newer (k, r) (k', r')).
Proof.
  unfold signing_key. set (P := fun r => key_live a r && (ak_active_from r <=? t)).
  assert (forall r, P r = true <-> key_live a r = true /\ ak_active_from r <= t) as HP.
  { intros r0. unfold P. by rewrite andb_true_iff, Z.leb_le. }
  change (filter _ _) with (filter (fun x => P x.2 = true) (map_to_list (db_assertion_keys s))). split.
  - intros [Hin Hall]%head_merge_sort; try apply _. apply elem_keys in Hin as [Hk Hr].
    destruct (proj1 (HP r) Hr) as [Hl Ha]. split; [done|]. split; [done|]. split; [done|].
    intros k' r' Hk' Hl' Ha'. apply Hall, elem_keys. split; [done|by apply HP].
  - intros (Hk & Hl & Ha & Hall). destruct (head (merge_sort newer _)) as [[k' r']|] eqn:E.
    + apply head_merge_sort in E as [Hin Hmin]; try apply _. apply elem_keys in Hin as [Hk' Hr'].
      destruct (proj1 (HP r') Hr') as [Hl' Ha'].
      assert (newer (k', r') (k, r)) as H1 by (apply Hmin, elem_keys; split; [done|by apply HP]).
      pose proof (Hall k' r' Hk' Hl' Ha') as H2. unfold newer in H1, H2. simpl in H1, H2.
      assert (k' = k) as -> by lia. congruence.
    + apply head_merge_sort_None in E. exfalso. apply (not_elem_of_nil (k, r)). rewrite <- E.
      apply elem_keys. split; [done|by apply HP].
Qed.

Lemma signing_key_None s a t :
  signing_key s a t = None <->
  forall k r, db_assertion_keys s !! k = Some r -> key_live a r = true -> t < ak_active_from r.
Proof.
  unfold signing_key. set (P := fun r => key_live a r && (ak_active_from r <=? t)).
  change (filter _ _) with (filter (fun x => P x.2 = true) (map_to_list (db_assertion_keys s))). split.
  - intros E%head_merge_sort_None k r Hk Hl. destruct (Z.ltb_spec t (ak_active_from r)) as [|Ha]; [done|].
    exfalso. apply (not_elem_of_nil (k, r)). rewrite <- E. apply elem_keys. split; [done|].
    unfold P. by rewrite Hl, (proj2 (Z.leb_le _ _)).
  - intros Hn. destruct (head _) as [[k r]|] eqn:E; [|done]. exfalso.
    apply head_merge_sort in E as [[Hk Hr]%elem_keys _]; try apply _. unfold P in Hr.
    apply andb_prop in Hr as [Hl Ha%Z.leb_le]. specialize (Hn _ _ Hk Hl). lia.
Qed.

Lemma signing_key_live s a t k r :
  signing_key s a t = Some (k, r) -> ak_application_id r = a /\ ak_revoked_at r = None /\ ak_active_from r <= t.
Proof.
  rewrite signing_key_Some. unfold key_live. rewrite andb_true_iff, !bool_decide_eq_true. tauto.
Qed.

(** Revoking the rows of a list: each is revoked, whatever the order. *)
Lemma revoked_idem now clock r : revoked now clock (revoked now clock r) = revoked now clock r.
Proof. done. Qed.

Definition but (keep : option N) (now clock : Z) (ks : list N) (k : N) (r : AssertionKey) : AssertionKey :=
  if bool_decide (k ∈ ks /\ keep <> Some k) then revoked now clock r else r.

Lemma but_ext keep now clock ks ks' k r :
  (k ∈ ks /\ keep <> Some k <-> k ∈ ks' /\ keep <> Some k) -> but keep now clock ks k r = but keep now clock ks' k r.
Proof. intros H. unfold but. by rewrite (bool_decide_ext _ _ H). Qed.

Lemma revoke_rows keep now ks s u s' :
  for_each ks (fun k => if bool_decide (keep = Some k) then mret tt else revoke_row now k) s = (Ok u, s') ->
  s' = s <| db_assertion_keys := map_imap (fun k r => Some (but keep now (db_clock s) ks k r)) (db_assertion_keys s) |>.
Proof.
  revert s. induction ks as [|k ks IH]; intros s H; cbn [for_each] in H.
  - injection H as _ <-. destruct s. unfold over; simpl. f_equal. apply map_eq. intros k.
    rewrite map_lookup_imap. unfold but. by destruct (_ !! k).
  - apply bind_ok in H as (v & t & Hk & H). rewrite (IH _ H). clear IH H.
    destruct (decide (keep = Some k)) as [Hd|Hd].
    + rewrite bool_decide_true in Hk by done. injection Hk as _ <-. unfold over; destruct s; simpl. f_equal.
      apply map_eq. intros j. rewrite !map_lookup_imap. destruct (_ !! j); [|done]. simpl. f_equal.
      apply but_ext. set_solver.
    + rewrite bool_decide_false in Hk by done. injection Hk as _ <-. unfold over; destruct s; simpl. f_equal.
      apply map_eq. intros j. rewrite !map_lookup_imap. destruct (decide (k = j)) as [->|Hne].
      * rewrite lookup_alter_eq. destruct (_ !! j); [|done]. simpl. f_equal. unfold but.
        rewrite (bool_decide_true (j ∈ j :: ks /\ keep <> Some j)) by set_solver.
        by destruct (bool_decide _).
      * rewrite lookup_alter_ne by done. destruct (_ !! j); [|done]. simpl. f_equal.
        apply but_ext. set_solver.
Qed.

Lemma elem_live_keys s a k r :
  (k, r) ∈ live_keys s a <-> db_assertion_keys s !! k = Some r /\ key_live a r = true.
Proof. unfold live_keys. rewrite merge_sort_Permutation. apply elem_keys. Qed.
Lemma elem_live_ids s a k :
  k ∈ (live_keys s a).*1 <-> exists r, db_assertion_keys s !! k = Some r /\ key_live a r = true.
Proof.
  rewrite list_elem_of_fmap. split.
  - intros ([j r] & -> & Hin%elem_live_keys). eauto.
  - intros (r & Hr). exists (k, r). by rewrite elem_live_keys.
Qed.

Lemma insert_key_ok r s k s' :
  insert_key r s = (Ok k, s') ->
  db_assertion_keys s !! k = None /\ db_assertion_keys s' = <[k := r]> (db_assertion_keys s) /\
  db_clock s' = db_clock s.
Proof.
  intros H. unfold insert_key in H. run_inv H. run_draws.
 
  apply bool_decide_eq_true in E1. simpl_over. done.
Qed.

Section Issue.
Context `{External}.

(** What issuing a key writes: the new row, and a revocation of every live key of
    the application but the one signing. *)
Record issued (a : N) (n : Z) (row : AssertionKey) (k : N) (s s' : Db) : Prop := {
  is_new : db_assertion_keys s !! k = None;
  is_row : key_live a row = true;
  is_keys k' : db_assertion_keys s' !! k' =
    if decide (k' = k) then Some row
    else (fun r => if key_live a r && bool_decide (fst <$> signing_key s a n <> Some k')
                   then revoked n (db_clock s) r else r) <$> db_assertion_keys s !! k';
}.

Lemma issue_key_effect a d now s k secret s' :
  issue_key a d now s = (Ok (k, secret), s') ->
  let n := default (db_clock s) now in
  0 <= d <= MAX_ACTIVATION /\
  exists row, issued a n row k s s' /\ ak_secret row = secret /\ ak_active_from row = n + d /\
    ak_created_at row = db_clock s /\ startswith KEY_ID_PREFIX (ak_key_id row) = true.
Proof.
  intros H1. unfold issue_key in H1. run_inv H1. run_draws. rename s0 into s.
  apply andb_prop in E as [Hd%Z.leb_le Hm%Z.leb_le]. cbv zeta. split; [done|].
  match goal with F : for_each _ _ _ = _ |- _ => apply revoke_rows in F; subst end.
  match goal with F : insert_key _ _ = _ |- _ => apply insert_key_ok in F as (Hn & Hk & _) end. simpl_over.
  match type of Hk with _ = <[_ := ?r]> _ => exists r end.
  split; [|repeat split; apply startswith_app].
  rewrite map_lookup_imap in Hn. constructor.
  - by destruct (db_assertion_keys s !! k).
  - unfold key_live. simpl. by rewrite !bool_decide_true.
  - intros k'. rewrite Hk. destruct (decide (k' = k)) as [->|Hne]; [apply lookup_insert_eq|].
    rewrite lookup_insert_ne, map_lookup_imap by done. destruct (_ !! k') as [r|] eqn:Er; [|done].
    simpl. f_equal. unfold but. destruct (key_live a r) eqn:El; simpl.
    + rewrite (bool_decide_ext _ (fst <$> signing_key s a (default (db_clock s) now) <> Some k')); [done|].
      rewrite elem_live_ids. split; [tauto|]. eauto.
    + rewrite bool_decide_false; [done|]. intros [(r2 & Hr2 & Hl2)%elem_live_ids _]. congruence.
Qed.

Lemma revoked_not_live a n clock r : key_live a (revoked n clock r) = false.
Proof. unfold key_live. simpl. by rewrite andb_false_r. Qed.

(** The live keys of the application afterwards: the new one and the one that was signing. *)
Lemma issued_live a n row k s s' k' r' :
  issued a n row k s s' -> db_assertion_keys s' !! k' = Some r' -> key_live a r' = true ->
  (k' = k /\ r' = row) \/ signing_key s a n = Some (k', r').
Proof.
  intros [Hn Hl Hk] Hr' Hl'. rewrite Hk in Hr'. destruct (decide (k' = k)) as [->|]; [left; by injection Hr' as <-|].
  right. destruct (db_assertion_keys s !! k') as [r|] eqn:Er; [|done]. injection Hr' as Hr'.
  destruct (key_live a r) eqn:El; simpl in Hr'; [|congruence].
  case_bool_decide as Hc; [subst r'; by rewrite revoked_not_live in Hl'|]. subst r'.
  destruct (signing_key s a n) as [[k0 r0]|] eqn:Es; [|done].
  injection Hc as ->. apply signing_key_Some in Es as [Es _]. congruence.
Qed.

(** The key that was signing is still there as it was. *)
Lemma issued_kept a n row k s s' k0 r0 :
  issued a n row k s s' -> signing_key s a n = Some (k0, r0) -> db_assertion_keys s' !! k0 = Some r0.
Proof.
  intros [Hn Hl Hk] Es. pose proof (proj1 (signing_key_Some _ _ _ _ _) Es) as [Ek _].
  rewrite Hk, decide_False by congruence. rewrite Ek, Es. simpl.
  rewrite (bool_decide_false (Some k0 <> Some k0)) by tauto. by rewrite andb_false_r.
Qed.

(** Another application's keys are as before. *)
Lemma issued_other a n row k s s' b k' r' :
  issued a n row k s s' -> b <> a ->
  (db_assertion_keys s' !! k' = Some r' /\ key_live b r' = true <->
   db_assertion_keys s !! k' = Some r' /\ key_live b r' = true).
Proof.
  intros [Hn Hl Hk] Hb.
  assert (forall r, key_live a r = true -> key_live b r = false) as Hx.
  { intros r. unfold key_live. rewrite andb_true_iff, !bool_decide_eq_true. intros [<- _].
    by rewrite bool_decide_false by congruence. }
  rewrite Hk. destruct (decide (k' = k)) as [->|].
  - rewrite Hn. split; [|naive_solver]. intros [[= <-] Hr]. rewrite Hx in Hr by done. done.
  - destruct (_ !! k') as [r|]; [|done]. simpl. destruct (key_live a r) eqn:El; simpl; [|naive_solver].
    case_bool_decide; [|naive_solver]. split; intros [[= <-] Hr]; [by rewrite revoked_not_live in Hr|].
    by rewrite Hx in Hr.
Qed.

Lemma signing_key_ext s s' a :
  (forall k r, db_assertion_keys s' !! k = Some r /\ key_live a r = true <->
               db_assertion_keys s !! k = Some r /\ key_live a r = true) ->
  forall t, signing_key s' a t = signing_key s a t.
Proof.
  intros He t. destruct (signing_key s a t) as [[k r]|] eqn:E.
  - apply signing_key_Some in E as (Hk & Hl & Ha & Hm). apply signing_key_Some.
    destruct (proj2 (He k r) (conj Hk Hl)) as [Hk' _]. split; [done|]. split; [done|]. split; [done|].
    intros k' r' Hr' Hl' Ha'. destruct (proj1 (He k' r') (conj Hr' Hl')). by apply Hm.
  - rewrite signing_key_None in E. apply signing_key_None. intros k r Hk Hl.
    destruct (proj1 (He k r) (conj Hk Hl)). by apply (E k r).
Qed.

(** Issuing a key never breaks an origin that verifies with the current one: until
    the new key is active the same key (or the deployment's) signs, from then on
    the new one does, and no other application's signing changes. *)
Theorem issue_hands_over a d now s k secret s' :
  issue_key a d now s = (Ok (k, secret), s') ->
  let n := default (db_clock s) now in
  (forall t, n <= t < n + d -> signing_key s' a t = signing_key s a n) /\
  (0 < d \/ (forall k0 r0, signing_key s a n = Some (k0, r0) -> ak_active_from r0 < n) ->
   forall t, n + d <= t -> exists row, signing_key s' a t = Some (k, row) /\ ak_secret row = secret) /\
  (forall b t, b <> a -> signing_key s' b t = signing_key s b t).
Proof.
  intros (Hd & row & Hi & Hsec & Hact & _)%issue_key_effect n. fold n in Hi, Hact. split_and!.
  - intros t Ht. destruct (signing_key s a n) as [[k0 r0]|] eqn:Es.
    + pose proof (issued_kept _ _ _ _ _ _ _ _ Hi Es) as Hk0.
      pose proof (proj1 (signing_key_Some _ _ _ _ _) Es) as (_ & Hl & Ha & _).
      apply signing_key_Some. split; [done|]. split; [done|]. split; [lia|]. intros k' r' Hr' Hl' Ha'.
      destruct (issued_live _ _ _ _ _ _ _ _ Hi Hr' Hl') as [[-> ->]|Hc]; [lia|].
      rewrite Es in Hc. injection Hc as <- <-. by destruct (total newer (k0, r0) (k0, r0)).
    + apply signing_key_None. intros k' r' Hr' Hl'.
      destruct (issued_live _ _ _ _ _ _ _ _ Hi Hr' Hl') as [[-> ->]|Hc]; [lia|congruence].
  - intros Hbefore t Ht. exists row. split; [|done]. apply signing_key_Some.
    split; [by rewrite (is_keys _ _ _ _ _ _ Hi), decide_True|]. split; [by apply Hi|]. split; [lia|].
    intros k' r' Hr' Hl' Ha'.
    destruct (issued_live _ _ _ _ _ _ _ _ Hi Hr' Hl') as [[-> ->]|Hc]; [by destruct (total newer (k, row) (k, row))|].
    left. simpl. pose proof (signing_key_live _ _ _ _ _ Hc) as (_ & _ & Ha). rewrite Hact.
    destruct Hbefore as [|Hb]; [lia|]. specialize (Hb _ _ Hc). lia.
  - intros b t Hb. apply signing_key_ext. intros k' r'. by apply (issued_other _ _ _ _ _ _ _ _ _ Hi).
Qed.

Lemma revoke_key_effect a kid now s k s' :
  revoke_key a kid now s = (Ok k, s') ->
  exists n r, db_assertion_keys s !! k = Some r /\ ak_application_id r = a /\ ak_key_id r = kid /\
    db_assertion_keys s' = alter (fun r => if bool_decide (ak_revoked_at r = None)
                                           then revoked n (db_clock s) r else r) k (db_assertion_keys s).
Proof.
  intros H1. unfold revoke_key in H1. apply bind_ok in H1 as (found & t & H1 & H2).
  injection H1 as <- <-. apply bind_ok in H2 as ([k0 r0] & t & H1 & H2).
  destruct (head _) as [[k1 r1]|] eqn:E; [|done]. injection H1 as <- <- <-.
  apply head_filter_Some in E as [Hin%elem_of_map_to_list [Ha Hk]]. simpl in *.
  case_bool_decide as Hr.
  - run_inv H2. run_draws.
    match goal with F : revoke_row _ _ _ = _ |- _ => injection F as <- <- end.
    exists (default (db_clock s) now), r1. split; [done|]. split; [done|]. split; [done|]. simpl_over.
    apply map_eq. intros j. destruct (decide (k = j)) as [<-|]; [|by rewrite !lookup_alter_ne].
    rewrite !lookup_alter_eq, Hin. simpl. by rewrite bool_decide_true.
  - injection H2 as <- <-. exists 0, r1. split; [done|]. split; [done|]. split; [done|].
    apply map_eq. intros j. destruct (decide (k1 = j)) as [<-|]; [|by rewrite !lookup_alter_ne].
    rewrite lookup_alter_eq, Hin. simpl. by rewrite bool_decide_false.
Qed.
End Issue.

(** ** Histories of the keys *)

Section Histories.
Context `{External}.

(** The requests that issue and revoke keys, each in its transaction. *)
Inductive KeyOp :=
| OpIssue (a : N) (activate_in : Z) (now : option Z)
| OpRevoke (a : N) (key_id : string) (now : option Z).

Definition key_step (s : Db) (o : KeyOp) : Db :=
  match o with
  | OpIssue a d now => (transaction (issue_key a d now) s).2
  | OpRevoke a kid now => (transaction (revoke_key a kid now) s).2
  end.

Definition few (s : Db) : Prop := forall a, (List.length (live_keys s a) <= 2)%nat.

Lemma live_keys_nodup s a : NoDup (live_keys s a).
Proof. unfold live_keys. rewrite merge_sort_Permutation. apply NoDup_filter, NoDup_map_to_list. Qed.

(** Fewer live rows, fewer keys. *)
Lemma live_keys_le s a (l : list (N * AssertionKey)) :
  (forall k r, db_assertion_keys s !! k = Some r -> key_live a r = true -> (k, r) ∈ l) ->
  (List.length (live_keys s a) <= List.length l)%nat.
Proof.
  intros Hl. apply submseteq_length, NoDup_submseteq; [apply live_keys_nodup|].
  intros [k r] [Hk Hr]%elem_live_keys. by apply Hl.
Qed.

Lemma few_issue a d now : keeps few (issue_key a d now).
Proof.
  intros s [k secret] s' (_ & row & Hi & _)%issue_key_effect Hf b. destruct (decide (b = a)) as [->|Hb].
  - transitivity (List.length ((k, row) :: option_list (signing_key s a (default (db_clock s) now)))).
    + apply live_keys_le. intros k' r' Hr' Hl'.
      destruct (issued_live _ _ _ _ _ _ _ _ Hi Hr' Hl') as [[-> ->]|Hc]; [by left|right].
      rewrite Hc. by left.
    + destruct (signing_key _ _ _); simpl; lia.
  - etrans; [|apply (Hf b)]. apply live_keys_le. intros k' r' Hr' Hl'. apply elem_live_keys.
    by apply (issued_other _ _ _ _ _ _ _ _ _ Hi Hb).
Qed.

Lemma few_revoke a kid now : keeps few (revoke_key a kid now).
Proof.
  intros s k s' (n & r & Hk & _ & _ & Hs)%revoke_key_effect Hf b. etrans; [|apply (Hf b)].
  apply live_keys_le. intros k' r' Hr' Hl'. apply elem_live_keys. rewrite Hs in Hr'. split; [|done].
  destruct (decide (k = k')) as [<-|]; [|by rewrite lookup_alter_ne in Hr'].
  rewrite lookup_alter_eq, Hk in Hr'. injection Hr' as <-. case_bool_decide; [|done].
  by rewrite revoked_not_live in Hl'.
Qed.

(** However keys are issued and revoked, an application never has more than two
    live keys: the one signing and the next one. *)
Theorem at_most_two_live_keys ops s : few s -> few (foldl key_step s ops).
Proof.
  revert s. induction ops as [|o ops IH]; intros s Hs; [done|]. apply IH.
  destruct o; simpl; apply keeps_commit; auto using few_issue, few_revoke.
Qed.

(** A revoked key is not found signing at any time, and revoking does not bring
    another application's key or a revoked one back. *)
Theorem revoked_never_signs a kid now s k s' t :
  revoke_key a kid now s = (Ok k, s') ->
  (forall b j r, signing_key s' b t = Some (j, r) -> j <> k /\ db_assertion_keys s !! j = Some r) /\
  (forall j r, signing_key s a t = Some (j, r) -> j <> k -> signing_key s' a t = Some (j, r)).
Proof.
  intros (n & r & Hk & Ha & _ & Hs)%revoke_key_effect. split.
  - intros b j x Hx. apply signing_key_live in Hx as Hl. apply signing_key_Some in Hx as [Hx _].
    rewrite Hs in Hx. destruct (decide (k = j)) as [<-|].
    + exfalso. rewrite lookup_alter_eq, Hk in Hx. injection Hx as <-. case_bool_decide; simpl in Hl; [easy|tauto].
    + rewrite lookup_alter_ne in Hx by done. done.
  - intros j x Hx Hne. apply signing_key_Some in Hx as (Hx & Hl & Hact & Hm). apply signing_key_Some.
    rewrite Hs, lookup_alter_ne by done. split; [done|]. split; [done|]. split; [done|].
    intros k' r' Hr' Hl' Ha'. destruct (decide (k = k')) as [<-|]; [|rewrite lookup_alter_ne in Hr' by done; eauto].
    rewrite lookup_alter_eq, Hk in Hr'. injection Hr' as <-. case_bool_decide; [by rewrite revoked_not_live in Hl'|].
    eauto.
Qed.
End Histories.
