(* ===== verification/Hostname.v ===== *)
(** * Hostnames (app/hostname.py)

    [canonicalize] brings a hostname to its canonical ASCII form or refuses it.
    Theorems: the shape of what it accepts, that it is stable on its own results,
    and that it rejects apexes, wildcards, IP literals and reserved names. *)

From Stdlib Require Import Ascii String ZArith Lia.
From stdpp Require Import base strings list sets.
From S2P Require Import Prelude PyStr Json Errors External.
Open Scope string_scope.
Open Scope Z_scope.

Definition RESERVED_SUFFIXES : list string :=
  ["localhost"; "local"; "internal"; "arpa"; "onion"; "invalid"; "home"; "lan"; "corp"].
Definition MAX_HOSTNAME_LENGTH : Z := 253.
Definition MAX_LABEL_LENGTH : Z := 63.
Definition MIN_LABELS_FOR_SUBDOMAIN : Z := 3.

Definition label_char (c : ascii) : bool := is_digit c || is_lower c.

(** What [[a-z0-9](?:[a-z0-9-]*[a-z0-9])?] matches entirely. *)
Definition ldh_label (s : string) : bool :=
  match s with
  | "" => false
  | String c _ =>
      label_char c && sall (fun c => label_char c || char_eqb "-"%char c) s
      && negb (endswith "-" s)
  end.

(** [_LABEL_RE.match(label)]: [$] also matches before a final newline. *)
Definition LABEL_RE_match (s : string) : bool :=
  ldh_label s || (endswith (String NL "") s && ldh_label (removesuffix (String NL "") s)).

Section Canonicalize.
Context `{External}.

Definition looks_like_ip (value : string) : bool :=
  is_ip_address (strip_if (fun c => char_eqb "["%char c || char_eqb "]"%char c) value).

Definition refuse {A} (why : string) : res exn A := Err (InvalidHostname why).

Definition label_ok (label : string) : bool :=
  negb (String.eqb label "" || (MAX_LABEL_LENGTH <? slen label) || negb (LABEL_RE_match label)).

Definition last_label (labels : list string) : string := List.last labels "".

(** The checks on the encoded, lower-cased name. *)
Definition check_ascii (allow_apex : bool) (ascii_value : string) : res exn string :=
  if MAX_HOSTNAME_LENGTH <? slen ascii_value then refuse "hostname_too_long" else
  let labels := split_on "."%char ascii_value in
  if negb (forallb label_ok labels) then refuse "invalid_label" else
  if isdigit (last_label labels) then refuse "invalid_hostname" else
  if allow_apex then Ok ascii_value else
  if mem_str (last_label labels) RESERVED_SUFFIXES then refuse "reserved_name" else
  match privatesuffix ascii_value with
  | None => refuse "public_suffix"
  | Some registrable =>
      if String.eqb registrable ascii_value
         || (Z.of_nat (List.length labels) <? MIN_LABELS_FOR_SUBDOMAIN)
      then refuse "apex_not_supported"
      else Ok ascii_value
  end.

Definition canonicalize_apex (allow_apex : bool) (raw : option string) : res exn string :=
  match raw with
  | None => refuse "empty_hostname"
  | Some raw =>
      let value := strip raw in
      if String.eqb value "" then refuse "empty_hostname" else
      let value := removesuffix "." value in
      if has_char "*"%char value then refuse "wildcard_not_supported" else
      if looks_like_ip value then refuse "ip_literal_not_supported" else
      if MAX_HOSTNAME_LENGTH <? ulen value then refuse "hostname_too_long" else
      match idna_encode value with
      | None => refuse "invalid_hostname"
      | Some ascii_value => check_ascii allow_apex (lower ascii_value)
      end
  end.

(** [canonicalize(raw)] *)
Definition canonicalize (raw : string) : res exn string := canonicalize_apex false (Some raw).
End Canonicalize.

(** ** What an accepted hostname looks like *)

Definition dot_or_ldh (c : ascii) : bool := label_char c || char_eqb "-"%char c || char_eqb "."%char c.

Lemma ldh_label_chars s : ldh_label s = true -> sall (fun c => label_char c || char_eqb "-"%char c) s = true.
Proof. destruct s as [|c s]; [done|]. unfold ldh_label. intros [[_ Hs]%andb_prop _]%andb_prop. done. Qed.

Lemma ldh_label_nonempty s : ldh_label s = true -> s <> "".
Proof. by destruct s. Qed.

Lemma sall_has_char (p : ascii -> bool) c s : sall p s = true -> p c = false -> has_char c s = false.
Proof.
  intros Hs Hc. apply sall_true_not_has. revert Hs. apply sall_impl. intros d Hd.
  unfold char_eqb. destruct (Ascii.eqb_spec c d) as [->|]; [by rewrite Hd in Hc|done].
Qed.

(** A label of a newline-free name matches [_LABEL_RE] exactly when it is an LDH label. *)
Lemma LABEL_RE_no_newline s : has_char NL s = false -> LABEL_RE_match s = ldh_label s.
Proof.
  intros Hs. unfold LABEL_RE_match.
  destruct (endswith (String NL "") s) eqn:E; [|by rewrite orb_false_r].
  apply endswith_true in E as [r ->]. rewrite has_char_app in Hs.
  apply orb_false_elim in Hs as [_ Hs]. done.
Qed.

Lemma has_char_split c sep s :
  has_char c s = false -> Forall (fun w => has_char c w = false) (split_on sep s).
Proof.
  induction s as [|d s IH]; simpl; [by repeat constructor|].
  intros Hs. change (String d s) with (String d "" ++ s)%string in Hs.
  rewrite has_char_app in Hs. apply orb_false_elim in Hs as [Hd Hs]. specialize (IH Hs).
  destruct (Ascii.eqb d sep); [by constructor|].
  destruct (split_on sep s) as [|w ws]; [by constructor|].
  apply Forall_cons in IH as [Hw Hws]. constructor; [|done].
  change (String d w) with (String d "" ++ w)%string. by rewrite has_char_app, Hd, Hw.
Qed.

Lemma dot_or_ldh_plain c :
  dot_or_ldh c = true -> is_space c = false /\ is_upper c = false /\ (code c <? 128) = true.
Proof. destruct c as [[] [] [] [] [] [] [] []]; vm_compute; intuition congruence. Qed.

Section Canonical.
Context `{External, !IdnaLaws}.

(** The shape [canonicalize] promises. *)
Record canonical (h : string) : Prop := {
  canonical_length : slen h <= MAX_HOSTNAME_LENGTH;
  canonical_labels : Forall (fun l => ldh_label l = true /\ slen l <= MAX_LABEL_LENGTH) (split_on "."%char h);
  canonical_tld : isdigit (last_label (split_on "."%char h)) = false;
}.

Lemma label_ok_ldh l : has_char NL l = false -> label_ok l = true ->
  ldh_label l = true /\ slen l <= MAX_LABEL_LENGTH.
Proof.
  intros Hn Hok. unfold label_ok in Hok. rewrite LABEL_RE_no_newline in Hok by done.
  apply negb_true_iff, orb_false_elim in Hok as [[_ Hlen]%orb_false_elim Hl].
  apply negb_false_iff in Hl. apply Z.ltb_ge in Hlen. done.
Qed.

Lemma canonicalize_inv b raw h :
  canonicalize_apex b raw = Ok h -> check_ascii b h = Ok h /\ idna_encode h = Some h.
Proof.
  unfold canonicalize_apex, refuse. destruct raw as [raw|]; [|done].
  destruct (String.eqb _ _); [done|]. destruct (has_char _ _); [done|].
  destruct (looks_like_ip _); [done|]. destruct (_ <? _); [done|].
  destruct (idna_encode _) as [a|] eqn:Ea; [|done]. intros Hc.
  assert (h = lower a) as ->; [|by eauto using idna_again].
  revert Hc. unfold check_ascii, refuse. repeat case_match; congruence.
Qed.

Lemma check_ascii_canonical b h :
  has_char NL h = false -> check_ascii b h = Ok h -> canonical h.
Proof.
  intros Hn. unfold check_ascii, refuse. destruct (Z.ltb_spec MAX_HOSTNAME_LENGTH (slen h)); [done|].
  destruct (forallb label_ok _) eqn:Hl; [|done]. simpl.
  destruct (isdigit _) eqn:Hd; [done|]. intros _. split; [done| |done].
  apply (has_char_split NL "."%char) in Hn.
  apply Forall_forall. intros l Hin. rewrite Forall_forall in Hn. rewrite forallb_forall in Hl.
  apply label_ok_ldh; [by apply Hn|]. apply Hl. by apply list_elem_of_In.
Qed.

Lemma canonicalize_apex_canonical b raw h : canonicalize_apex b raw = Ok h -> canonical h.
Proof.
  intros [Hc He]%canonicalize_inv. by eapply check_ascii_canonical, Hc; eapply idna_no_newline.
Qed.

Lemma canonical_chars h : canonical h -> sall dot_or_ldh h = true.
Proof.
  intros [_ Hl _]. apply sall_split with (p := fun c => label_char c || char_eqb "-"%char c).
  apply forallb_forall. intros l Hin%list_elem_of_In.
  rewrite Forall_forall in Hl. by apply ldh_label_chars, Hl.
Qed.

Lemma canonical_last h : canonical h -> last_label (split_on "."%char h) <> "".
Proof.
  intros [_ Hl _]. unfold last_label. destruct (split_on "."%char h) as [|w ws] eqn:E;
    [by apply split_on_ne in E|].
  assert (List.last (w :: ws) "" ∈ w :: ws) as Hin.
  { destruct (exists_last (l := w :: ws) ltac:(done)) as (l' & x & ->). rewrite last_last. set_solver. }
  rewrite Forall_forall in Hl. by eapply ldh_label_nonempty, Hl.
Qed.

(** The checks in front of the encoder let a canonical name through unchanged. *)
Lemma canonical_front `{!IpLaw} h :
  canonical h ->
  strip h = h /\ String.eqb h "" = false /\ removesuffix "." h = h /\
  has_char "*"%char h = false /\ looks_like_ip h = false /\
  (MAX_HOSTNAME_LENGTH <? ulen h) = false /\ lower h = h.
Proof.
  intros Hc. pose proof (canonical_chars h Hc) as Hch.
  pose proof (canonical_last h Hc) as Hlast. destruct Hc as [Hlen Hl Htld].
  assert (forall p, (forall c, dot_or_ldh c = true -> p c = true) -> sall p h = true) as Hall
    by (intros p Hp; by eapply sall_impl).
  repeat split.
  - apply strip_if_none, Hall. intros c [-> _]%dot_or_ldh_plain. done.
  - apply String.eqb_neq. intros ->. apply Hlast. done.
  - apply removesuffix_not. by apply last_split_nonempty.
  - by apply (sall_has_char _ _ _ Hch).
  - unfold looks_like_ip. rewrite strip_if_none.
    + apply not_true_is_false. intros [Hcol|Hdig]%ip_address_shape; [|by unfold last_label in *; congruence].
      by rewrite (sall_has_char _ _ _ Hch) in Hcol.
    + apply Hall. intros c. unfold char_eqb.
      destruct (Ascii.eqb_spec "["%char c) as [<-|]; [done|].
      by destruct (Ascii.eqb_spec "]"%char c) as [<-|].
  - rewrite ulen_ascii; [by apply Z.ltb_ge|]. apply Hall. intros c (_ & _ & ->)%dot_or_ldh_plain. done.
  - apply lower_id, Hall. intros c (_ & -> & _)%dot_or_ldh_plain. done.
Qed.
End Canonical.

(** ** The properties *)

Section Properties.
Context `{External, !IdnaLaws}.

(** C12: whatever [canonicalize] returns is a lower-case DNS name of at most 253
    characters made of valid LDH labels, at least three of them, with a
    non-numeric, non-reserved last label, strictly below a registrable domain. *)
Theorem canonicalize_sound raw h :
  canonicalize raw = Ok h ->
  canonical h /\ (3 <= List.length (split_on "."%char h))%nat /\
  ~ last_label (split_on "."%char h) ∈ RESERVED_SUFFIXES /\
  exists zone, privatesuffix h = Some zone /\ zone <> h.
Proof.
  intros Hc. split; [exact (canonicalize_apex_canonical _ _ _ Hc)|].
  destruct (canonicalize_inv false (Some raw) h Hc) as [Hb _]. clear Hc. rename Hb into Hc. revert Hc. unfold check_ascii, refuse.
  destruct (_ <? _); [done|]. destruct (negb _); [done|]. destruct (isdigit _); [done|].
  destruct (mem_str _ _) eqn:Hr; [done|].
  destruct (privatesuffix h) as [zone|]; [|done].
  destruct (String.eqb_spec zone h); [done|]. simpl.
  destruct (Z.ltb_spec (Z.of_nat (List.length (split_on "."%char h))) MIN_LABELS_FOR_SUBDOMAIN);
    [done|].
  intros _. split; [unfold MIN_LABELS_FOR_SUBDOMAIN in *; lia|].
  split; [by rewrite <- mem_str_true, Hr|eauto].
Qed.

(** canonicalizing a canonical hostname returns it unchanged, so stored and
    compared hostnames are fixed points. *)
Theorem canonicalize_idempotent `{!IpLaw} raw h :
  canonicalize raw = Ok h -> canonicalize h = Ok h.
Proof.
  intros Hc. pose proof (canonicalize_apex_canonical _ _ _ Hc) as Hh.
  destruct (canonicalize_inv false (Some raw) h Hc) as [Hb He]. clear Hc. rename Hb into Hc.
  destruct (canonical_front h Hh) as (Es & Ene & Er & Ew & Ei & Elen & El).
  unfold canonicalize, canonicalize_apex. by rewrite Es, Ene, Er, Ew, Ei, Elen, He, El.
Qed.
End Properties.
