(* ===== verification/EdgeSettings.v ===== *)
(** * Edge settings (app/edge/settings.py)

    Reading and checking the edge's environment, who may call the internal
    endpoints and the portal, and the storage block with its secrets masked.
    Theorems: what [from_env] accepts is within its bounds; who is trusted; no
    storage secret survives redaction. *)

From Stdlib Require Import Ascii String ZArith Lia QArith.
From stdpp Require Import base strings list sets.
From S2P Require Import Prelude PyStr Json Errors External Assertion Models Hostname.
Open Scope string_scope.
Open Scope Z_scope.

Definition DEFAULT_ADMIN_URL : string := "http://localhost:2019".
Definition DEFAULT_HTTPS_PORT : Z := 443.
Definition DEFAULT_ASK_URL : string := "http://localhost:9000/internal/tls/ask".
Definition MIN_OPERATOR_TOKEN_LENGTH : Z := 32.
Definition HEALTH_PATH : string := "/.well-known/custom-domain-edge-health".
Definition WORKSPACE_PATH : string := "/.well-known/custom-domain-workspace".
Definition DEFAULT_ASSERT_UPSTREAM : string := "localhost:9000".
Definition ASSERT_PATH : string := "/internal/edge/assert".
Definition REDIS_ENCRYPTION_KEY_LENGTH : nat := 32.

(** [EdgeConfigurationError], or the plain [ValueError] of [int] and [float]. *)
Inductive settings_error := EdgeConfigurationError | NotANumber.

(** The mapping settings are read from. *)
Definition env : Type := string -> option string.

Definition flag (environ : env) (name : string) (fallback : bool) : bool :=
  match environ name with
  | None => fallback
  | Some value => if String.eqb (strip value) "" then fallback
                  else mem_str (lower (strip value)) ["1"; "true"; "yes"; "on"]
  end.
Definition csv (environ : env) (name : string) : list string :=
  List.filter (fun item => negb (String.eqb item "")) (strip <$> split_on ","%char (default "" (environ name))).

(** [x or y] on strings, and [environ.get(name, "").strip() or None]. *)
Definition or_else (x y : string) : string := if String.eqb x "" then y else x.
Definition stripped (environ : env) (name : string) : option string :=
  nonempty (Some (strip (default "" (environ name)))).

Definition key_pairs (spec : string) : res settings_error (list (string * string)) :=
  require (parse_keys spec) EdgeConfigurationError.

Inductive StorageKind := FILE | REDIS.
#[export] Instance StorageKind_eq_dec : EqDecision StorageKind.
Proof. solve_decision. Defined.

Record EdgeSettings := {
  admin_url : string;
  https_port : Z;
  http_port : Z;
  es_disable_https : bool;
  acme_email : option string;
  tls_issuer : string;
  storage : StorageKind;
  redis_address : list string;
  redis_username : option string;
  redis_password : option string;
  redis_db : Z;
  redis_key_prefix : string;
  redis_encryption_key : option string;
  redis_tls : bool;
  redis_tls_server_certs_pem : option string;
  reconcile_enabled : bool;
  reconcile_interval : PyFloat;
  legacy_api_enabled : bool;
  ask_url : string;
  ask_trusted_hosts : list string;
  edge_token : option string;
  probe_address : option string;
  probe_ca_file : option string;
  probe_timeout : PyFloat;
  assert_upstream : string;
  assertion_keys : list (string * string);
  assertion_ttl : Z;
  portal_allowed_ips : list string;
  operator_allowed_ips : list string;
  operator_api_enabled : bool;
  es_edge_hostname : option string;
  public_api : bool;
}.

(** [x < 1] *)
Definition below_one (x : PyFloat) : bool :=
  match x with Finite q => negb (Qle_bool 1 q) | NegInf => true | _ => false end.

Section Settings.
Context `{External}.

Definition parse_edge_hostname (value : string) : res settings_error (option string) :=
  if String.eqb (strip value) "" then Ok None else
  match canonicalize_apex true (Some (strip value)) with
  | Ok h => Ok (Some h)
  | Err _ => Err EdgeConfigurationError
  end.

(** One allowlist entry of [validate]. *)
Definition network_ok (entry : string) : bool :=
  match ip_network entry with
  | None => false
  | Some (_, num_addresses, prefixlen) => negb ((1 <? num_addresses) && (prefixlen =? 0))
  end.

(** The conditions of [validate], in its order. *)
Definition valid (s : EdgeSettings) : bool :=
  negb (reconcile_enabled s && legacy_api_enabled s)
  && match storage s with
     | REDIS => negb (bool_decide (redis_address s = []))
                && match redis_encryption_key s with
                   | Some key => Z.of_nat REDIS_ENCRYPTION_KEY_LENGTH <=? ulen key
                   | None => true
                   end
     | FILE => true
     end
  && negb (below_one (reconcile_interval s))
  && ((0 <? https_port s) && (https_port s <? 65536))
  && ((0 <? http_port s) && (http_port s <? 65536) && negb (http_port s =? https_port s))
  && mem_str (tls_issuer s) ["acme"; "internal"]
  && negb (below_one (probe_timeout s))
  && match nonempty (probe_address s) with Some a => has_char ":"%char a | None => true end
  && (negb (reconcile_enabled s) || negb (bool_decide (assertion_keys s = [])))
  && forallb (fun kv => negb (startswith "app_" kv.1)) (assertion_keys s)
  && ((5 <=? assertion_ttl s) && (assertion_ttl s <=? 600))
  && forallb network_ok (portal_allowed_ips s)
  && forallb network_ok (operator_allowed_ips s).

Definition validate (s : EdgeSettings) : res settings_error unit :=
  if valid s then Ok tt else Err EdgeConfigurationError.

Definition from_env (environ : env) : res settings_error EdgeSettings :=
  let legacy := flag environ "ENABLE_LEGACY_API" true in
  let int name fallback :=
    match environ name with Some t => require (py_int t) NotANumber | None => Ok fallback end in
  let float name fallback :=
    match environ name with Some t => require (py_float t) NotANumber | None => Ok fallback end in
  let get name fallback := default fallback (environ name) in
  kind ← (let kind := or_else (lower (strip (get "CADDY_STORAGE" "file"))) "file" in
          if String.eqb kind "file" then Ok FILE
          else if String.eqb kind "redis" then Ok REDIS else Err EdgeConfigurationError);
  https ← int "EDGE_HTTPS_PORT" DEFAULT_HTTPS_PORT;
  http ← int "EDGE_HTTP_PORT" 80;
  db ← int "CADDY_REDIS_DB" 0;
  interval ← float "EDGE_RECONCILE_INTERVAL" (Finite 30);
  timeout ← float "EDGE_PROBE_TIMEOUT" (Finite 15);
  keys ← key_pairs (get "EDGE_ASSERTION_KEYS" "");
  ttl ← int "EDGE_ASSERTION_TTL" 60;
  hostname ← parse_edge_hostname (get "EDGE_HOSTNAME" "");
  let settings := {|
    admin_url := rstrip_if (char_eqb "/"%char) (get "CADDY_ADMIN_URL" DEFAULT_ADMIN_URL);
    https_port := https; http_port := http;
    es_disable_https := flag environ "DISABLE_HTTPS" false;
    acme_email := stripped environ "ACME_EMAIL";
    tls_issuer := or_else (lower (strip (get "EDGE_TLS_ISSUER" "acme"))) "acme";
    storage := kind;
    redis_address := csv environ "CADDY_REDIS_ADDRESS";
    redis_username := nonempty (environ "CADDY_REDIS_USERNAME");
    redis_password := nonempty (environ "CADDY_REDIS_PASSWORD");
    redis_db := db;
    redis_key_prefix := or_else (strip (get "CADDY_REDIS_KEY_PREFIX" "caddy")) "caddy";
    redis_encryption_key := nonempty (environ "CADDY_REDIS_ENCRYPTION_KEY");
    redis_tls := flag environ "CADDY_REDIS_TLS" false;
    redis_tls_server_certs_pem := nonempty (environ "CADDY_REDIS_TLS_SERVER_CERTS_PEM");
    reconcile_enabled := flag environ "EDGE_RECONCILE_ENABLED" (negb legacy);
    reconcile_interval := interval;
    legacy_api_enabled := legacy;
    ask_url := or_else (strip (get "EDGE_ASK_URL" DEFAULT_ASK_URL)) DEFAULT_ASK_URL;
    ask_trusted_hosts := match csv environ "EDGE_ASK_TRUSTED_HOSTS" with
                         | [] => ["127.0.0.1"; "::1"]
                         | hosts => hosts
                         end;
    edge_token := stripped environ "EDGE_TOKEN";
    probe_address := stripped environ "EDGE_PROBE_ADDRESS";
    probe_ca_file := stripped environ "EDGE_PROBE_CA_FILE";
    probe_timeout := timeout;
    assert_upstream := or_else (strip (get "EDGE_ASSERT_UPSTREAM" DEFAULT_ASSERT_UPSTREAM)) DEFAULT_ASSERT_UPSTREAM;
    assertion_keys := keys;
    assertion_ttl := ttl;
    portal_allowed_ips := csv environ "PORTAL_ALLOWED_IPS";
    operator_allowed_ips := csv environ "OPERATOR_ALLOWED_IPS";
    operator_api_enabled := MIN_OPERATOR_TOKEN_LENGTH <=? ulen (strip (get "OPERATOR_API_TOKEN" ""));
    es_edge_hostname := hostname;
    public_api := flag environ "PUBLIC_API" false |} in
  _ ← validate settings;
  Ok settings.

(** [_allowed] *)
Definition allowed (address : option string) (entries : list string) : bool :=
  match nonempty address with
  | None => false
  | Some address =>
      if negb (is_ip_address address) then false
      else if negb (ip_is_global address) then true
      else existsb (fun entry => default false (ip_in_network address entry)) entries
  end.
Definition portal_allows (s : EdgeSettings) (address : option string) : bool := allowed address (portal_allowed_ips s).
Definition operator_allows (s : EdgeSettings) (address : option string) : bool := allowed address (operator_allowed_ips s).

(** [_ranges]; [None]: an entry is not a network ([ValueError]). *)
Definition ranges (entries : list string) : option (list string) :=
  mapM (fun e => (fun n => n.1.1) <$> ip_network e) entries.
Definition portal_ranges (s : EdgeSettings) : option (list string) := ranges (portal_allowed_ips s).
Definition operator_ranges (s : EdgeSettings) : option (list string) :=
  if operator_api_enabled s then ranges (operator_allowed_ips s) else Some [].

Definition trusts (s : EdgeSettings) (address : option string) : bool :=
  match nonempty address with
  | None => false
  | Some address =>
      if mem_str address (ask_trusted_hosts s) then true
      else if negb (is_ip_address address) then false
      else existsb (fun entry => has_char "/"%char entry && default false (ip_in_network address entry))
             (ask_trusted_hosts s)
  end.
End Settings.

Definition tls_issuer_config (s : EdgeSettings) : json :=
  if String.eqb (tls_issuer s) "internal" then JObj [("module", JStr "internal")]
  else JObj (("module", JStr "acme") ::
             match nonempty (acme_email s) with Some e => [("email", JStr e)] | None => [] end).

(** [None]: [IndexError], there is no key. *)
Definition active_key (s : EdgeSettings) : option (string * string) := head (assertion_keys s).

(** A key added when its value is not empty. *)
Definition given (k : string) (v : option string) : dict :=
  match nonempty v with Some v => [(k, JStr v)] | None => [] end.

Definition storage_config (s : EdgeSettings) : option json :=
  match storage s with
  | FILE => None
  | REDIS => Some (JObj (
      [("module", JStr "redis");
       ("client_type", JStr (if (1 <? Z.of_nat (List.length (redis_address s))) then "cluster" else "simple"));
       ("address", jstr_list (redis_address s)); ("db", JInt (redis_db s));
       ("key_prefix", JStr (redis_key_prefix s)); ("tls_enabled", JBool (redis_tls s))]
      ++ given "username" (redis_username s) ++ given "password" (redis_password s)
      ++ given "encryption_key" (utake REDIS_ENCRYPTION_KEY_LENGTH <$> nonempty (redis_encryption_key s))
      ++ given "tls_server_certs_pem" (redis_tls_server_certs_pem s))%list)
  end.

Definition SECRET_STORAGE_KEYS : list string := ["password"; "encryption_key"; "tls_server_certs_pem"].

(** One key of [redact]'s loop. *)
Definition mask (k : string) (storage : dict) : dict :=
  match dget k storage with
  | Some v => if truthy v then dset k (JStr "***") storage else storage
  | None => storage
  end.
Definition redact (config : dict) : dict :=
  match dget "storage" config with
  | Some (JObj storage) => dset "storage" (JObj (foldl (fun d k => mask k d) storage SECRET_STORAGE_KEYS)) config
  | _ => config
  end.

(** ** Properties *)

Section Properties.
Context `{External}.

Lemma res_bind_ok {E A B} (r : res E A) (k : A -> res E B) b :
  (r ≫= k) = Ok b -> exists a, r = Ok a /\ k a = Ok b.
Proof. destruct r; [eauto|done]. Qed.

Lemma from_env_valid environ s :
  from_env environ = Ok s -> valid s = true /\ parse_keys (default "" (environ "EDGE_ASSERTION_KEYS")) = Some (assertion_keys s).
Proof.
  unfold from_env. intros Hs.
  repeat (apply res_bind_ok in Hs as (? & ? & Hs)).
  injection Hs as Hs. rewrite Hs in *.
  match goal with V : validate _ = Ok _ |- _ => unfold validate in V; destruct (valid s); [|done] end.
  split; [done|].
  match goal with K : key_pairs _ = Ok ?keys |- _ =>
    unfold key_pairs, require in K; rewrite <- Hs; simpl; destruct (parse_keys _); [by injection K as ->|done] end.
Qed.

(** C38: What the edge starts with: ports in range and distinct, an assertion lifetime
    between 5 and 600 seconds, secrets of at least 32 characters under ids that
    cannot be an application's own key, no allowlist of the whole address space, and
    never a reconciler without a key or next to the legacy API. *)
Theorem from_env_bounds environ s :
  from_env environ = Ok s ->
  (1 <= https_port s <= 65535 /\ 1 <= http_port s <= 65535 /\ https_port s <> http_port s) /\
  5 <= assertion_ttl s <= 600 /\
  (reconcile_enabled s = true -> legacy_api_enabled s = false /\ active_key s <> None) /\
  (forall key_id secret, (key_id, secret) ∈ assertion_keys s ->
     startswith "app_" key_id = false /\ 32 <= ulen secret) /\
  (forall entry, entry ∈ (portal_allowed_ips s ++ operator_allowed_ips s)%list ->
     exists text num prefix, ip_network entry = Some (text, num, prefix) /\ (prefix = 0 -> num <= 1)).
Proof.
  intros [Hv Hk]%from_env_valid. apply parse_keys_lengths in Hk. unfold valid in Hv.
  apply andb_prop in Hv as [[[[[[[[[[[[Hrl _]%andb_prop _]%andb_prop Hhs]%andb_prop Hh]%andb_prop _]%andb_prop _]%andb_prop
    _]%andb_prop Hrk]%andb_prop Hids]%andb_prop Httl]%andb_prop Hp]%andb_prop Ho].
  split_and!.
  - apply andb_prop in Hhs as [?%Z.ltb_lt ?%Z.ltb_lt]. lia.
  - apply andb_prop in Hhs as [?%Z.ltb_lt ?%Z.ltb_lt]. lia.
  - apply andb_prop in Hh as [[?%Z.ltb_lt ?%Z.ltb_lt]%andb_prop Hne%negb_true_iff%Z.eqb_neq]. lia.
  - apply andb_prop in Hh as [[?%Z.ltb_lt ?%Z.ltb_lt]%andb_prop Hne%negb_true_iff%Z.eqb_neq]. lia.
  - apply andb_prop in Hh as [[?%Z.ltb_lt ?%Z.ltb_lt]%andb_prop Hne%negb_true_iff%Z.eqb_neq]. lia.
  - apply andb_prop in Httl as [?%Z.leb_le ?%Z.leb_le]. lia.
  - apply andb_prop in Httl as [?%Z.leb_le ?%Z.leb_le]. lia.
  - intros Hr. rewrite Hr in Hrl, Hrk. unfold active_key. split; [by destruct (legacy_api_enabled s)|].
    simpl in Hrk. rewrite negb_true_iff, bool_decide_eq_false in Hrk. by destruct (assertion_keys s).
  - intros key_id secret Hin. rewrite forallb_forall in Hids. rewrite Forall_forall in Hk.
    split; [|exact (Hk _ Hin)]. apply list_elem_of_In in Hin. apply negb_true_iff. exact (Hids _ Hin).
  - intros entry Hin. assert (network_ok entry = true) as Hn.
    { rewrite forallb_forall in Hp, Ho. apply elem_of_app in Hin as [Hin%list_elem_of_In|Hin%list_elem_of_In]; auto. }
    unfold network_ok in Hn. destruct (ip_network entry) as [[[text num] prefix]|]; [|done].
    exists text, num, prefix. split; [done|]. intros ->. apply negb_true_iff in Hn. rewrite andb_true_r in Hn.
    by apply Z.ltb_ge in Hn.
Qed.

(** An internal endpoint answers exactly the listed addresses and the addresses of
    the listed networks. *)
Theorem trusts_exact s address :
  trusts s (Some address) = true <->
  address <> "" /\
  (address ∈ ask_trusted_hosts s \/
   is_ip_address address = true /\
   exists entry, entry ∈ ask_trusted_hosts s /\ has_char "/"%char entry = true /\
     ip_in_network address entry = Some true).
Proof.
  unfold trusts. destruct address as [|c r] eqn:Ea; [naive_solver|]. rewrite <- Ea.
  assert (nonempty (Some address) = Some address) as -> by (by subst).
  destruct (mem_str address (ask_trusted_hosts s)) eqn:Em.
  - apply mem_str_true in Em. split; [|done]. intros _. split; [by subst|by left].
  - assert (address ∉ ask_trusted_hosts s) as Hn by (rewrite <- mem_str_true, Em; done).
    destruct (is_ip_address address); cbn [negb].
    + rewrite existsb_exists. split.
      * intros (entry & Hin%list_elem_of_In & [Hs Hnet]%andb_prop). split; [by subst|]. right. split; [done|].
        exists entry. split; [done|]. split; [done|]. by destruct (ip_in_network _ _) as [[]|].
      * intros [_ [?|(_ & entry & Hin & Hs & Hnet)]]; [done|]. exists entry.
        split; [by apply list_elem_of_In|]. by rewrite Hs, Hnet.
    + split; [done|]. intros [_ [?|[? _]]]; done.
Qed.
End Properties.

(** ** Redaction *)

Definition hidden (v : option json) : Prop := v = None \/ v = Some (JStr "***") \/ exists j, v = Some j /\ truthy j = false.

Lemma mask_at k d : hidden (dget k (mask k d)).
Proof.
  unfold mask. destruct (dget k d) as [v|] eqn:E; [|by left].
  destruct (truthy v) eqn:Et; [rewrite dget_dset_eq; right; by left|]. right. right. rewrite E. eauto.
Qed.
Lemma mask_other k k' d : k <> k' -> dget k (mask k' d) = dget k d.
Proof.
  intros Hk. unfold mask. destruct (dget k' d); [|done]. destruct (truthy _); [|done]. by apply dget_dset_ne.
Qed.

(** A redacted configuration shows no storage secret and is otherwise the
    configuration itself. *)
Theorem redact_hides config storage :
  dget "storage" config = Some (JObj storage) ->
  (forall k, k <> "storage" -> dget k (redact config) = dget k config) /\
  exists storage', dget "storage" (redact config) = Some (JObj storage') /\
    forall k, if mem_str k SECRET_STORAGE_KEYS then hidden (dget k storage')
              else dget k storage' = dget k storage.
Proof.
  intros Hs. unfold redact. rewrite Hs. split; [intros k Hk; by apply dget_dset_ne|].
  eexists. split; [apply dget_dset_eq|]. intros k. cbn [foldl SECRET_STORAGE_KEYS].
  destruct (decide (k = "password")) as [->|H1].
  { rewrite !mask_other by done. apply mask_at. }
  destruct (decide (k = "encryption_key")) as [->|H2].
  { rewrite mask_other by done. apply mask_at. }
  destruct (decide (k = "tls_server_certs_pem")) as [->|H3]; [apply mask_at|].
  assert (mem_str k SECRET_STORAGE_KEYS = false) as ->; [|by rewrite !mask_other by done].
  apply not_true_is_false. intros Hm%mem_str_true. set_solver.
Qed.
