(* ===== verification/Egress.v ===== *)
(** * Connections to origins (app/services/origin_verification.py)

    Resolving an origin under the address policy, fetching its token from a pinned
    address, and the address the edge dials.  Theorems: only public addresses the
    name resolves to are connected to, in the resolver's order and one after
    another while they cannot be reached; the pinned address does not depend on the
    order of the resolver's answer. *)

From Stdlib Require Import Ascii String ZArith Lia.
From stdpp Require Import base strings list sets.
From S2P Require Import Prelude PyStr Json JsonText Errors External Models.
Open Scope string_scope.
Open Scope Z_scope.

Definition WELL_KNOWN_PATH : string := "/.well-known/custom-domain-origin-verification".
Definition MAX_BODY_BYTES : Z := 4096.
Definition USER_AGENT : string := "custom-domain-origin-verifier/1".

Section Egress.
Context `{External}.

Definition allow_private_from_env : bool :=
  mem_str (lower (strip (default "" (environ "ORIGIN_ALLOW_PRIVATE")))) ["1"; "true"; "yes"; "on"].

(** The addresses in the resolver's order, each once; an error is the code of
    [OriginVerificationFailed]. *)
Definition resolve (host : string) (port : Z) (allow_private : bool) : res string (list string) :=
  match getaddrinfo host port with
  | None => Err "dns_resolution_failed"
  | Some infos =>
      let addresses := rev (remove_dups (rev infos)) in
      if bool_decide (addresses = []) then Err "dns_resolution_failed"
      else if negb allow_private && negb (forallb ip_is_global addresses) then Err "private_address_blocked"
      else Ok addresses
  end.

(** ** Fetching the token *)

(** One GET over a connection to one address. *)
Record ProbeCall := {
  pb_address : string;
  pb_port : Z;
  pb_tls_name : option string;
  pb_path : string;
  pb_host_header : string;
  pb_accept : string;
  pb_user_agent : string;
}.

(** How connecting, the TLS handshake or the exchange fail. *)
Inductive wire_failure :=
| ConnectTimeout | ConnectError | CertificateInvalid | HandshakeFailed | ExchangeTimeout | ExchangeError.

(** Up to [max_bytes + 1] bytes of the body are read; [decoded] is their text. *)
Record WireAnswer := { wa_status : Z; wa_length : Z; wa_decoded : string; wa_expired : bool }.
Definition Wire : Type := ProbeCall -> Z -> res wire_failure WireAnswer.

Record Probe := { pr_address : string; pr_status : Z; pr_body : string }.

Definition failure_code (f : wire_failure) : string :=
  match f with
  | ConnectTimeout | ExchangeTimeout => "timeout"
  | ConnectError | ExchangeError => "connection_failed"
  | CertificateInvalid => "tls_verification_failed"
  | HandshakeFailed => "tls_handshake_failed"
  end.

(** [_probe] *)
Definition probe_call (address host : string) (port : Z) (scheme path accept user_agent : string) : ProbeCall :=
  let default_port := if String.eqb scheme "https" then 443 else 80 in
  {| pb_address := address; pb_port := port;
     pb_tls_name := if String.eqb scheme "https" then Some host else None;
     pb_path := path;
     pb_host_header := if port =? default_port then host else host ++ ":" ++ py_str port;
     pb_accept := accept; pb_user_agent := user_agent |}.
Definition probe_address (wire : Wire) (call : ProbeCall) (max_bytes : Z) : res string Probe :=
  match wire call max_bytes with
  | Err f => Err (failure_code f)
  | Ok a =>
      if max_bytes <? wa_length a then Err "response_too_large"
      else if wa_expired a then Err "timeout"
      else Ok {| pr_address := pb_address call; pr_status := wa_status a; pr_body := strip (wa_decoded a) |}
  end.

(** The loop over the addresses, with the addresses it connected to. *)
Fixpoint try_addresses (wire : Wire) (call : string -> ProbeCall) (max_bytes : Z) (last_error : string)
    (addresses : list string) : res string Probe * list string :=
  match addresses with
  | [] => (Err last_error, [])
  | address :: addresses =>
      match probe_address wire (call address) max_bytes with
      | Ok p => (Ok p, [address])
      | Err e =>
          if mem_str e ["connection_failed"; "timeout"] then
            let '(r, dialled) := try_addresses wire call max_bytes e addresses in (r, address :: dialled)
          else (Err e, [address])
      end
  end.

Definition fetch_token (wire : Wire) (host : string) (port : Z) (scheme : string) (allow_private : bool)
    (path : string) (max_bytes : Z) (accept user_agent : string) : res string Probe * list string :=
  match resolve host port allow_private with
  | Err e => (Err e, [])
  | Ok addresses =>
      try_addresses wire (fun address => probe_call address host port scheme path accept user_agent)
        max_bytes "" addresses
  end.

(** ** The address the edge dials *)

Definition dial_of (port : Z) (address : string) : string :=
  if has_char ":"%char address then "[" ++ address ++ "]:" ++ py_str port else address ++ ":" ++ py_str port.
Definition resolve_dials (host : string) (port : Z) (allow_private : bool) : res string (list string) :=
  match resolve host port allow_private with
  | Ok addresses => Ok (dial_of port <$> addresses)
  | Err e => Err e
  end.

Definition bracket (c : ascii) : bool := char_eqb "["%char c || char_eqb "]"%char c.
(** [_dial_order]; [None]: [ValueError]. *)
Definition dial_order (dial : string) : option (Z * Z) :=
  ip_order (strip_if bracket (default dial (before_last ":"%char dial))).

Definition order_le (x y : Z * Z) : bool := (x.1 <? y.1) || ((x.1 =? y.1) && (x.2 <=? y.2)).
(** [min(dials, key=_dial_order)]: the first of the smallest. *)
Fixpoint min_dial (best : string) (key : Z * Z) (dials : list string) : option string :=
  match dials with
  | [] => Some best
  | dial :: dials =>
      k ← dial_order dial;
      if order_le key k then min_dial best key dials else min_dial dial k dials
  end.

Definition least_dial (dials : list string) : option string :=
  match dials with
  | [] => None
  | dial :: dials => k ← dial_order dial; min_dial dial k dials
  end.

(** [None] in the answer: [ValueError] from an address that is not one. *)
Definition pinned_dial (host : string) (port : Z) (allow_private : bool) : res string (option (string * string)) :=
  match resolve_dials host port allow_private with
  | Err e => Err e
  | Ok dials => Ok (best ← least_dial dials; Some (best, host))
  end.
End Egress.

(** ** Properties *)

Lemma before_last_app sep a b :
  sall (fun c => negb (Ascii.eqb c sep)) b = true -> before_last sep (a ++ String sep b) = Some a.
Proof.
  intros Hb. assert (before_last sep b = None) as Hn.
  { clear a. induction b as [|c b IH]; [done|]. simpl in *. apply andb_prop in Hb as [Hc Hb].
    rewrite IH by done. by destruct (Ascii.eqb c sep). }
  induction a as [|c a IH]; simpl.
  - by rewrite Hn, Ascii.eqb_refl.
  - by rewrite IH.
Qed.

Section Properties.
Context `{External}.

Lemma resolve_ok host port allow_private l :
  resolve host port allow_private = Ok l ->
  l <> [] /\ (exists infos, getaddrinfo host port = Some infos /\ forall a, a ∈ l <-> a ∈ infos) /\
  (allow_private = false -> Forall (fun a => ip_is_global a = true) l).
Proof.
  unfold resolve. destruct (getaddrinfo host port) as [infos|]; [|done]. case_bool_decide as Hne; [done|].
  destruct (negb allow_private && _) eqn:E; [done|]. intros [= <-]. split; [done|]. split.
  - exists infos. split; [done|]. intros a.
    by rewrite list_elem_of_In, <- in_rev, <- list_elem_of_In, elem_of_remove_dups, list_elem_of_In, <- in_rev,
      <- list_elem_of_In.
  - intros ->. destruct (forallb _ _) eqn:Ef; [|done]. rewrite forallb_forall in Ef.
    apply Forall_forall. intros a Ha%list_elem_of_In. by apply Ef.
Qed.

Lemma try_addresses_prefix wire call max_bytes e l :
  exists n, (try_addresses wire call max_bytes e l).2 = take n l.
Proof.
  revert e. induction l as [|a l IH]; intros e; [by exists O|]. cbn [try_addresses].
  destruct (probe_address _ _ _) as [p|e'] eqn:Ep; [by exists 1%nat|].
  destruct (mem_str e' ["connection_failed"; "timeout"]); [|by exists 1%nat]. destruct (IH e') as [n Hn].
  destruct (try_addresses wire call max_bytes e' l) as [r dialled]. exists (S n). simpl in *. by rewrite Hn.
Qed.

(** What came back is the answer of the last address connected to; every address
    before it could not be reached. *)
Lemma try_addresses_answer wire call max_bytes e l r dialled :
  try_addresses wire call max_bytes e l = (r, dialled) -> l <> [] ->
  exists before a, dialled = (before ++ [a])%list /\ probe_address wire (call a) max_bytes = r /\
    Forall (fun b => exists e, probe_address wire (call b) max_bytes = Err e /\
                               (e = "connection_failed" \/ e = "timeout")) before.
Proof.
  revert e dialled. induction l as [|a l IH]; intros e dialled; [done|]. cbn [try_addresses].
  destruct (probe_address wire (call a) max_bytes) as [p|e'] eqn:Ep.
  { intros [= <- <-] _. by exists [], a. }
  destruct (mem_str e' ["connection_failed"; "timeout"]) eqn:Em; [|intros [= <- <-] _; by exists [], a].
  apply mem_str_true in Em. rewrite !elem_of_cons, elem_of_nil in Em.
  destruct (try_addresses wire call max_bytes e' l) as [r' d'] eqn:Et. intros [= <- <-] _.
  destruct l as [|b l].
  - injection Et as <- <-. by exists [], a.
  - destruct (IH e' d' Et) as (before & c & -> & Hc & Hb); [done|].
    exists (a :: before), c. split; [done|]. split; [done|]. constructor; [|done]. exists e'. tauto.
Qed.

(** The addresses of an answer in its order, each where it comes first. *)
Fixpoint once (l : list string) : list string :=
  match l with [] => [] | a :: l => a :: filter (fun b => b <> a) (once l) end.

Lemma remove_dups_snoc (l : list string) a :
  remove_dups (l ++ [a]) = (filter (fun b => b <> a) (remove_dups l) ++ [a])%list.
Proof.
  induction l as [|x l IH]; [done|]. cbn [app remove_dups]. case_decide as Hin; case_decide as Hin'; [done| | |].
  - assert (x = a) as -> by set_solver. by rewrite filter_cons_False by (intros ?; done).
  - exfalso. set_solver.
  - rewrite filter_cons_True by set_solver. by rewrite IH.
Qed.

Lemma once_resolved l : rev (remove_dups (rev l)) = once l.
Proof.
  induction l as [|a l IH]; [done|]. cbn [rev once]. rewrite remove_dups_snoc, rev_app_distr. cbn [rev app]. f_equal.
  rewrite <- IH. clear IH. induction (remove_dups (rev l)) as [|x m IH]; [done|]. cbn [rev].
  rewrite filter_app, <- IH. destruct (decide (x = a)) as [->|Hne].
  - rewrite filter_cons_False, filter_cons_False by (intros ?; done). by rewrite app_nil_r.
  - by rewrite !filter_cons_True by done.
Qed.

Lemma resolve_once host port allow_private l :
  resolve host port allow_private = Ok l -> l = once (default [] (getaddrinfo host port)).
Proof.
  unfold resolve. destruct (getaddrinfo host port) as [infos|]; [|done]. case_bool_decide; [done|].
  destruct (negb allow_private && _); [done|]. intros [= <-]. apply once_resolved.
Qed.

(** C37: Fetching a token connects only to addresses the name resolves to now, all of
    them public unless private ones are allowed, in the resolver's order and each once:
    the addresses connected to are the first of the answer.  A later address is tried
    only when every earlier one could not be reached, and what came back is the answer
    of the last one.  Every connection is to the origin's port and asks for the path; over
    HTTPS it is for the origin's own name, and without HTTPS for none. *)
Theorem fetch_connects_safely wire host port scheme allow_private path max_bytes accept user_agent r dialled :
  fetch_token wire host port scheme allow_private path max_bytes accept user_agent = (r, dialled) ->
  (allow_private = false -> Forall (fun a => ip_is_global a = true) dialled) /\
  (exists n, dialled = take n (once (default [] (getaddrinfo host port)))) /\
  exists host_header,
    let call a := {| pb_address := a; pb_port := port;
                     pb_tls_name := if String.eqb scheme "https" then Some host else None;
                     pb_path := path; pb_host_header := host_header; pb_accept := accept; pb_user_agent := user_agent |} in
    dialled <> [] -> exists before a, dialled = (before ++ [a])%list /\
     probe_address wire (call a) max_bytes = r /\
     Forall (fun b => exists e, probe_address wire (call b) max_bytes = Err e /\
                                (e = "connection_failed" \/ e = "timeout")) before.
Proof.
  unfold fetch_token. destruct (resolve host port allow_private) as [l|e] eqn:Er.
  - intros Ht. pose proof (resolve_once _ _ _ _ Er) as Ho. apply resolve_ok in Er as (Hne & _ & Hg).
    destruct (try_addresses_prefix wire (fun address => probe_call address host port scheme path accept user_agent)
                max_bytes "" l) as [n Hn]. rewrite Ht in Hn. simpl in Hn.
    split; [intros Hp; rewrite Hn; by apply Forall_take, Hg|]. split; [exists n; by rewrite Hn, Ho|].
    eexists. cbv zeta. intros _. exact (try_addresses_answer _ _ _ _ _ _ _ Ht Hne).
  - intros [= <- <-]. split; [by constructor|]. split; [by exists O|]. by exists "".
Qed.

(** *** The pinned address *)

Lemma order_le_total x y : order_le x y = true \/ order_le y x = true.
Proof.
  unfold order_le. rewrite !orb_true_iff, !andb_true_iff, !Z.ltb_lt, !Z.eqb_eq, !Z.leb_le. lia.
Qed.
Lemma order_le_trans x y z : order_le x y = true -> order_le y z = true -> order_le x z = true.
Proof.
  unfold order_le. rewrite !orb_true_iff, !andb_true_iff, !Z.ltb_lt, !Z.eqb_eq, !Z.leb_le. lia.
Qed.
Lemma order_le_antisym x y : order_le x y = true -> order_le y x = true -> x = y.
Proof.
  unfold order_le. rewrite !orb_true_iff, !andb_true_iff, !Z.ltb_lt, !Z.eqb_eq, !Z.leb_le.
  destruct x, y. simpl. intros. f_equal; lia.
Qed.

Lemma min_dial_ok best key l d :
  dial_order best = Some key -> min_dial best key l = Some d ->
  d ∈ best :: l /\ exists k, dial_order d = Some k /\
    forall x kx, x ∈ best :: l -> dial_order x = Some kx -> order_le k kx = true.
Proof.
  revert best key. induction l as [|x l IH]; intros best key Hb; cbn [min_dial].
  - intros [= <-]. split; [by left|]. exists key. split; [done|].
    intros x kx ->%list_elem_of_singleton Hx. rewrite Hb in Hx. injection Hx as <-. by destruct (order_le_total key key).
  - destruct (dial_order x) as [kx|] eqn:Ex; [|done]. cbn [mbind option_bind].
    destruct (order_le key kx) eqn:Eo; intros Hm;
      [destruct (IH best key Hb Hm) as (Hin & k & Hk & Hall)|destruct (IH x kx Ex Hm) as (Hin & k & Hk & Hall)].
    + split; [set_solver|]. exists k. split; [done|]. intros y ky Hy Hky.
      apply elem_of_cons in Hy as [->|[->|Hy]%elem_of_cons]; [by apply (Hall best); [left|]| |by apply (Hall y); [right|]].
      rewrite Ex in Hky. injection Hky as <-. eapply order_le_trans; [|exact Eo]. by apply (Hall best); [left|].
    + split; [by right|]. exists k. split; [done|]. intros y ky Hy Hky.
      apply elem_of_cons in Hy as [->|Hy]; [|by apply (Hall y)].
      rewrite Hb in Hky. injection Hky as <-. assert (order_le kx key = true) as Hle
        by (destruct (order_le_total kx key); congruence).
      eapply order_le_trans; [|exact Hle]. by apply (Hall x); [left|].
Qed.

Lemma min_dial_total best key l :
  (forall x, x ∈ l -> is_Some (dial_order x)) -> is_Some (min_dial best key l).
Proof.
  revert best key. induction l as [|x l IH]; intros best key Hl; cbn [min_dial]; [eauto|].
  destruct (Hl x) as [k ->]; [by left|]. cbn [mbind option_bind].
  destruct (order_le key k); apply IH; intros y Hy; apply Hl; by right.
Qed.

Lemma least_dial_ok l d :
  least_dial l = Some d ->
  d ∈ l /\ exists k, dial_order d = Some k /\ forall x kx, x ∈ l -> dial_order x = Some kx -> order_le k kx = true.
Proof.
  unfold least_dial. destruct l as [|x l]; [done|]. destruct (dial_order x) as [k|] eqn:E; [|done].
  cbn [mbind option_bind]. by apply min_dial_ok.
Qed.

Lemma dial_order_of port a :
  sall (fun c => negb (bracket c)) a = true -> dial_order (dial_of port a) = ip_order a.
Proof.
  intros Ha. assert (sall (fun c => negb (Ascii.eqb c ":"%char)) (py_str port) = true) as Hp.
  { eapply sall_impl; [|apply py_str_chars]. intros c. destruct c as [[] [] [] [] [] [] [] []]; vm_compute; done. }
  unfold dial_order, dial_of. destruct (has_char ":"%char a).
  - change ("[" ++ a ++ "]:" ++ py_str port) with (("[" ++ a) ++ "]:" ++ py_str port).
    change ("]:" ++ py_str port) with ("]" ++ String ":"%char (py_str port)).
    rewrite sapp_assoc, before_last_app by done. simpl default. unfold id. f_equal.
    unfold strip_if. cbn [append lstrip_if]. change (bracket "["%char) with true. cbn iota.
    assert (lstrip_if bracket (a ++ "]") = match a with "" => "" | _ => a ++ "]" end) as ->.
    { destruct a as [|c a]; [done|]. simpl in Ha. apply andb_prop in Ha as [Hc _]. simpl.
      by destruct (bracket c). }
    destruct a as [|c a]; [done|]. revert Ha. clear. generalize (String c a) as s. induction s as [|d s IH]; [done|].
    cbn [sall append rstrip_if]. intros [Hd Hs]%andb_prop. rewrite IH by done. destruct s; [|done].
    by destruct (bracket d).
  - change (a ++ ":" ++ py_str port) with (a ++ String ":"%char (py_str port)).
    rewrite before_last_app by done. simpl default. unfold id. f_equal. by apply strip_if_none.
Qed.

(** The address the edge dials is a function of the set of addresses the resolver
    gives, not of their order: a rotating answer never changes the configuration. *)
Theorem pinned_dial_stable port l m :
  (forall a, a ∈ l <-> a ∈ m) ->
  (forall a, a ∈ l -> is_Some (ip_order a) /\ sall (fun c => negb (bracket c)) a = true) ->
  (forall a b, a ∈ l -> b ∈ l -> ip_order a = ip_order b -> a = b) ->
  least_dial (dial_of port <$> l) = least_dial (dial_of port <$> m).
Proof.
  intros Heq Hok Hinj.
  assert (forall (x : string) (l' : list string), (forall a, a ∈ l' -> a ∈ l) -> x ∈ dial_of port <$> l' ->
    exists a, x = dial_of port a /\ a ∈ l /\ dial_order x = ip_order a) as Hel.
  { intros x l' Hsub (a & -> & Ha)%list_elem_of_fmap. exists a. split; [done|]. split; [auto|].
    apply dial_order_of, Hok. auto. }
  assert (forall l' m' : list string, (forall a, a ∈ l' <-> a ∈ m') -> (forall a, a ∈ l' -> a ∈ l) ->
    forall d, least_dial (dial_of port <$> l') = Some d -> exists e, least_dial (dial_of port <$> m') = Some e) as Htot.
  { intros l' m' He Hsub d Hd. destruct m' as [|b m'].
    { destruct l' as [|a l']; [done|]. exfalso. apply (not_elem_of_nil a), He. by left. }
    unfold least_dial. cbn [fmap list_fmap].
    assert (forall x, x ∈ dial_of port <$> b :: m' -> is_Some (dial_order x)) as Hs.
    { intros x Hx. destruct (Hel x (b :: m')) as (a & _ & Ha & ->); [intros a Ha; by apply Hsub, He|done|]. by apply Hok. }
    destruct (Hs (dial_of port b)) as [k ->]; [by left|]. cbn [mbind option_bind].
    apply min_dial_total. intros x Hx. apply Hs. by right. }
  assert (forall d e, least_dial (dial_of port <$> l) = Some d -> least_dial (dial_of port <$> m) = Some e -> d = e) as Huniq.
  { intros d e (Hd & k & Hk & Hdk)%least_dial_ok (He & k' & Hk' & Hek)%least_dial_ok.
    destruct (Hel d l) as (a & -> & Ha & Hka); [done|done|].
    destruct (Hel e m) as (b & -> & Hb & Hkb); [intros x Hx; by apply Heq|done|].
    f_equal. apply Hinj; [done|done|]. rewrite <- Hka, <- Hkb, Hk, Hk'. f_equal.
    apply order_le_antisym.
    - apply (Hdk (dial_of port b)); [by apply list_elem_of_fmap_2|done].
    - apply (Hek (dial_of port a)); [by apply list_elem_of_fmap_2, Heq|done]. }
  destruct (least_dial (dial_of port <$> l)) as [d|] eqn:Ed.
  - destruct (Htot l m Heq (fun _ H => H) d Ed) as [e Ee]. rewrite Ee. f_equal. by apply Huniq.
  - destruct (least_dial (dial_of port <$> m)) as [e|] eqn:Ee; [|done]. exfalso.
    destruct (Htot m l (fun a => iff_sym (Heq a)) (fun a H => proj2 (Heq a) H) e Ee) as [d Ed']. congruence.
Qed.
End Properties.
