(* ===== verification/Dns.v ===== *)
(** * DNS (app/dns/zones.py, app/dns/resolver.py, app/dns/providers.py)

    The resolver protocol, following CNAME chains, where a hostname's records
    live, and which provider serves a zone.  Theorems: a chain has at most eight
    distinct targets and only real CNAME steps; a host and its zone give the
    hostname back; every candidate zone encloses the hostname and none is above
    the registrable domain. *)

From Stdlib Require Import Ascii String ZArith Lia.
From stdpp Require Import base strings list sets sorting.
From S2P Require Import Prelude PyStr Json External.
Open Scope string_scope.
Open Scope Z_scope.

(** ** The resolver protocol *)

Inductive dns_error := DnsNameNotFound | DnsUnavailable (message : string).

Record Resolver := {
  r_txt : string -> res dns_error (list string);
  r_cname : string -> res dns_error (option string);
  r_has_address : string -> res dns_error bool;
  r_ns : string -> res dns_error (list string);
}.

Definition MAX_CNAME_HOPS : nat := 8.

(** One iteration of [cname_chain]'s loop per unit of [hops]. *)
Fixpoint cname_loop (r : Resolver) (stop_at : option string) (hops : nat) (first : bool)
    (current : string) (chain : list string) : res dns_error (list string) :=
  match hops with
  | O => Ok chain
  | S hops =>
      match r_cname r current with
      | Err e => if first then Err e else Ok chain
      | Ok None => Ok chain
      | Ok (Some target) =>
          if mem_str target chain || String.eqb target current then Ok chain
          else
            let chain := (chain ++ [target])%list in
            if match stop_at with Some s => String.eqb target s | None => false end then Ok chain
            else cname_loop r stop_at hops false target chain
      end
  end.

Definition cname_chain (r : Resolver) (name : string) (stop_at : option string) : res dns_error (list string) :=
  cname_loop r stop_at MAX_CNAME_HOPS true name [].

Definition rstrip_dot (s : string) : string := rstrip_if (char_eqb "."%char) s.
Definition normalize_name (name : string) : string := lower (rstrip_dot name).

(** ** Zones *)

Section Zones.
Context `{External}.

Definition registrable_domain (hostname : string) : option string :=
  privatesuffix (normalize_name hostname).

(** [hostname.split(".", 1)[1] if "." in hostname else hostname] *)
Definition parent_or_self (hostname : string) : string :=
  match partition "."%char hostname with
  | (_, true, rest) => rest
  | (_, false, _) => hostname
  end.

Definition default_zone (hostname : string) : string :=
  let hostname := normalize_name hostname in
  match registrable_domain hostname with
  | Some zone => if String.eqb zone hostname then parent_or_self hostname else zone
  | None => parent_or_self hostname
  end.

(** [None]: ValueError. *)
Definition host_in_zone (hostname zone : string) : option string :=
  let hostname := normalize_name hostname in
  let zone := normalize_name zone in
  if String.eqb hostname zone then Some "@"
  else if endswith ("." +:+ zone) hostname
  then Some (take_str (String.length hostname - (String.length zone + 1)) hostname)
  else None.

Definition under (name top : string) : bool := String.eqb name top || endswith ("." +:+ top) name.

(** The walk of [candidate_zones] over what follows each dot of [name]. *)
Fixpoint walk_up (top name : string) : list string :=
  match name with
  | EmptyString => []
  | String c rest =>
      if char_eqb "."%char c then
        if under rest top then rest :: (if String.eqb rest top then [] else walk_up top rest)
        else []
      else walk_up top rest
  end.

Definition candidate_zones (hostname : string) : list string :=
  let hostname := normalize_name hostname in
  let top := default_zone hostname in
  match walk_up top hostname with [] => [top] | l => l end.

Record ZoneLookup := {
  lookup_zone : string;
  lookup_nameservers : list string;
  lookup_error_code : option string;
  lookup_message : option string;
}.

Definition zone_lookup_transient (l : ZoneLookup) : bool :=
  bool_decide (lookup_error_code l = Some "dns_timeout").

Definition string_le (a b : string) : Prop := String.leb a b = true.
#[global] Instance string_le_dec a b : Decision (string_le a b).
Proof. unfold string_le. apply _. Defined.

Lemma leb_cons c d a b :
  String.leb (String c a) (String d b) = true <->
  (N_of_ascii c < N_of_ascii d)%N \/ c = d /\ String.leb a b = true.
Proof.
  unfold String.leb. cbn [String.compare]. unfold Ascii.compare.
  destruct (N.compare_spec (N_of_ascii c) (N_of_ascii d)) as [E|E|E].
  - assert (c = d) as -> by (by rewrite <- (ascii_N_embedding c), E, ascii_N_embedding).
    split; [by right|]. intros [?|[_ ?]]; [lia|done].
  - split; [by left|done].
  - split; [done|]. intros [?|[-> _]]; lia.
Qed.
#[global] Instance string_le_trans : Transitive string_le.
Proof.
  unfold string_le. intros a. induction a as [|c a IH]; intros [|d b] [|e x]; try done.
  rewrite !leb_cons. intros [?|[-> ?]] [?|[-> ?]]; [left; lia|by left|by left|right; split; [done|eauto]].
Qed.
#[global] Instance string_le_total : Total string_le.
Proof. intros a b. apply String.leb_total. Qed.
#[global] Instance string_le_antisym : AntiSymm (=) string_le.
Proof. intros a b. apply String.leb_antisym. Qed.

(** Sorting is idempotent. *)
Lemma sort_sorted l : merge_sort string_le (merge_sort string_le l) = merge_sort string_le l.
Proof.
  apply (StronglySorted_unique string_le); try apply StronglySorted_merge_sort; try apply _.
  apply merge_sort_Permutation.
Qed.

(** [sorted(set(l))] *)
Definition sorted_set (l : list string) : list string := merge_sort string_le (remove_dups l).

Fixpoint find_zone_loop (r : Resolver) (last : string) (candidates : list string) : ZoneLookup :=
  match candidates with
  | [] => {| lookup_zone := last; lookup_nameservers := [];
             lookup_error_code := Some "nameservers_not_found";
             lookup_message := Some ("No NS records were found for " +:+ last
                                     +:+ "; is the domain registered?") |}
  | name :: rest =>
      match r_ns r name with
      | Err DnsNameNotFound => find_zone_loop r last rest
      | Err (DnsUnavailable why) =>
          {| lookup_zone := last; lookup_nameservers := []; lookup_error_code := Some "dns_timeout";
             lookup_message := Some ("NS lookup for " +:+ name +:+ " failed: " +:+ why) |}
      | Ok [] => find_zone_loop r last rest
      | Ok nameservers =>
          {| lookup_zone := name;
             lookup_nameservers :=
               sorted_set (normalize_name <$> filter (fun ns => ns <> "") nameservers);
             lookup_error_code := None; lookup_message := None |}
      end
  end.

Definition find_zone (r : Resolver) (hostname : string) : ZoneLookup :=
  let candidates := candidate_zones hostname in
  find_zone_loop r (List.last candidates "") candidates.
End Zones.

(** ** Providers *)

Definition UNKNOWN : string := "unknown".
Definition GENERIC_GUIDE : string := "generic".

Record Provider := P {
  prov_id : string;
  prov_name : string;
  prov_ns_patterns : list string;
  prov_domain_connect_ids : list string;
  prov_guide : bool;
}.

Definition guide_slug (p : Provider) : string := if prov_guide p then prov_id p else GENERIC_GUIDE.

Definition PROVIDERS : list Provider :=
  [ P "cloudflare" "Cloudflare" ["*.ns.cloudflare.com"] ["cloudflare.com"; "cloudflare"] true;
    P "godaddy" "GoDaddy" ["*.domaincontrol.com"] ["godaddy.com"; "godaddy"] true;
    P "namecheap" "Namecheap" ["dns*.registrar-servers.com"] [] true;
    P "route53" "Amazon Route 53" ["ns-*.awsdns-*"] [] true;
    P "google-cloud-dns" "Google Cloud DNS" ["ns-cloud-*.googledomains.com"] [] true;
    P "squarespace" "Squarespace" ["*.squarespacedns.com"] [] true;
    P "porkbun" "Porkbun" ["*.porkbun.com"] [] true;
    P "hostinger" "Hostinger" ["*.dns-parking.com"] [] true;
    P "ionos" "IONOS" ["*.ui-dns.com"; "*.ui-dns.de"; "*.ui-dns.org"; "*.ui-dns.biz"]
      ["ionos.com"; "ionos"; "1and1.com"] true;
    P "digitalocean" "DigitalOcean" ["ns*.digitalocean.com"] [] true;
    P "vercel" "Vercel" ["*.vercel-dns.com"] ["vercel.com"; "vercel"] true;
    P "netlify" "Netlify" ["dns*.p*.nsone.net"] [] true;
    P "namesilo" "NameSilo" ["*.dnsowl.com"] ["namesilo.com"; "namesilo"] false;
    P "wordpress-com" "WordPress.com" ["ns*.wordpress.com"] ["wordpress.com"] false;
    P "azure-dns" "Azure DNS" ["ns*-*.azure-dns.*"] [] false;
    P "gandi" "Gandi" ["*.gandi.net"] [] false;
    P "ovh" "OVHcloud" ["*.ovh.net"; "*.ovh.ca"] [] false;
    P "hetzner" "Hetzner"
      ["*.ns.hetzner.com"; "*.ns.hetzner.de"; "*.your-server.de"; "*.second-ns.de"] [] false;
    P "dnsimple" "DNSimple" ["*.dnsimple.com"; "*.dnsimple-edge.net"; "*.dnsimple-edge.org"] [] false;
    P "name-com" "Name.com" ["ns*.name.com"] [] false;
    P "linode" "Akamai Cloud (Linode)" ["ns*.linode.com"] [] false;
    P "wix" "Wix" ["*.wixdns.net"] [] false;
    P UNKNOWN "Unknown provider" [] [] false ].

Definition unknown_provider : Provider := P UNKNOWN "Unknown provider" [] [] false.

Definition provider_by_id (id : string) : option Provider :=
  List.find (fun p => String.eqb (prov_id p) id) PROVIDERS.

Definition get_provider (id : option string) : Provider :=
  match provider_by_id (default "" id) with Some p => p | None => unknown_provider end.

(** [fnmatchcase] for the patterns above: [*] matches any run of characters,
    every other character of theirs itself. *)
Fixpoint glob (pattern name : string) {struct pattern} : bool :=
  match pattern with
  | EmptyString => String.eqb name ""
  | String p pattern' =>
      if char_eqb "*"%char p then
        (fix any (name : string) : bool :=
           glob pattern' name || match name with EmptyString => false | String _ name' => any name' end)
          name
      else match name with
           | String c name' => Ascii.eqb p c && glob pattern' name'
           | EmptyString => false
           end
  end.

Definition normalize_ns (name : string) : string := lower (rstrip_dot (strip name)).

Definition provider_for_nameserver (nameserver : string) : option Provider :=
  List.find (fun p => existsb (fun pattern => glob pattern (normalize_ns nameserver)) (prov_ns_patterns p))
    PROVIDERS.

(** How many of the nameservers belong to [p]. *)
Definition votes (nameservers : list string) (p : Provider) : nat :=
  List.length (List.filter (fun ns =>
    match provider_for_nameserver ns with
    | Some q => String.eqb (prov_id q) (prov_id p)
    | None => false
    end) nameservers).

(** The maximum by votes; a tie goes to the first of [PROVIDERS]. *)
Definition provider_for_nameservers (nameservers : list string) : Provider :=
  foldl (fun best p =>
           if (votes nameservers best <? votes nameservers p)%nat then p else best)
    unknown_provider PROVIDERS.

Definition provider_for_domain_connect (provider_id : option string) : option Provider :=
  match provider_id with
  | None | Some "" => None
  | Some id =>
      let wanted := lower (strip id) in
      List.find (fun p => mem_str wanted (prov_domain_connect_ids p)) PROVIDERS
  end.

Example netlify_ex :
  prov_id (provider_for_nameservers ["dns1.p05.nsone.net."; "DNS2.P05.nsone.net"; "ns1.linode.com"]) = "netlify".
Proof. vm_compute. reflexivity. Qed.

(** ** CNAME chains *)

(** [links r x chain]: each name of [chain] is the CNAME of the one before it. *)
Fixpoint links (r : Resolver) (x : string) (chain : list string) : Prop :=
  match chain with
  | [] => True
  | y :: rest => r_cname r x = Ok (Some y) /\ links r y rest
  end.

Lemma links_snoc r x chain y :
  links r x chain -> r_cname r (List.last chain x) = Ok (Some y) -> links r x (chain ++ [y])%list.
Proof.
  revert x. induction chain as [|z chain IH]; intros x; simpl; [done|].
  intros [Hz Hl] Hy. split; [done|]. apply IH; [done|].
  destruct chain; [done|]. simpl in *. clear -Hy. 
  revert s Hy. induction chain as [|w chain IH]; intros s; simpl; auto.
Qed.

Lemma cname_loop_spec r stop hops first x chain out :
  links r x chain -> NoDup chain ->
  cname_loop r stop hops first (List.last chain x) chain = Ok out ->
  links r x out /\ NoDup out /\ (List.length out <= List.length chain + hops)%nat /\ chain `prefix_of` out.
Proof.
  revert first chain. induction hops as [|hops IH]; intros first chain Hl Hd; simpl.
  { intros [= <-]. repeat split; auto; lia. }
  destruct (r_cname r (List.last chain x)) as [[target|]|e] eqn:Hr.
  2: { intros [= <-]. repeat split; auto; lia. }
  2: { destruct first; [done|]. intros [= <-]. repeat split; auto; lia. }
  destruct (mem_str target chain) eqn:Hm; simpl.
  { intros [= <-]. repeat split; auto; lia. }
  destruct (String.eqb_spec target (List.last chain x)).
  { intros [= <-]. repeat split; auto; lia. }
  assert (links r x (chain ++ [target])%list) as Hl' by (by apply links_snoc).
  assert (NoDup (chain ++ [target])%list) as Hd'.
  { apply NoDup_app. split; [done|]. split; [|apply NoDup_singleton].
    intros y Hy ->%list_elem_of_singleton. apply mem_str_true in Hy. congruence. }
  assert (chain `prefix_of` (chain ++ [target])%list) as Hp by (by eexists).
  destruct (match stop with Some s => String.eqb target s | None => false end).
  { intros [= <-]. repeat split; auto. rewrite length_app. simpl. lia. }
  intros Hc. rewrite <- (List.last_last chain target x) in Hc at 1.
  apply IH in Hc as (? & ? & Hlen & ?); [|done|done].
  repeat split; auto; [|by etrans]. rewrite length_app in Hlen. simpl in Hlen. lia.
Qed.

(** ** Hosts and zones *)

Lemma endswith_length suf s : endswith suf s = true -> (String.length suf <= String.length s)%nat.
Proof. intros [r ->]%endswith_true. rewrite length_sapp. lia. Qed.

Lemma host_in_zone_Some `{External} h z host :
  host_in_zone h z = Some host ->
  normalize_name h = normalize_name z /\ host = "@" \/
  normalize_name h = host ++ "." ++ normalize_name z.
Proof.
  unfold host_in_zone. destruct (String.eqb_spec (normalize_name h) (normalize_name z)) as [->|Hne].
  { intros [= <-]. auto. }
  destruct (endswith _ _) eqn:E; [|done]. apply endswith_true in E as [r Er]. intros [= <-]. right.
  rewrite Er, length_sapp. simpl.
  replace (String.length r + S (String.length (normalize_name z)) - (String.length (normalize_name z) + 1))%nat
    with (String.length r) by lia.
  by rewrite take_str_app.
Qed.

Lemma host_in_zone_under `{External} h host z :
  normalize_name h = host ++ "." ++ normalize_name z ->
  host_in_zone h z = Some host.
Proof.
  intros Hh. unfold host_in_zone. rewrite Hh.
  destruct (String.eqb_spec (host ++ "." ++ normalize_name z) (normalize_name z)) as [E|_].
  { apply (f_equal String.length) in E. rewrite !length_sapp in E. simpl in E. lia. }
  rewrite (proj2 (endswith_true _ _)) by eauto. f_equal.
  rewrite length_sapp. simpl.
  replace (String.length host + S (String.length (normalize_name z)) - (String.length (normalize_name z) + 1))%nat
    with (String.length host) by lia.
  by rewrite take_str_app.
Qed.

(** ** Normalized names *)

Lemma rstrip_dot_cons c s : rstrip_dot (String c s) = String c s -> rstrip_dot s = s.
Proof.
  unfold rstrip_dot. simpl. destruct (rstrip_if _ s) as [|d r] eqn:E.
  - destruct (char_eqb "."%char c); congruence.
  - congruence.
Qed.

Lemma rstrip_dot_idem s : rstrip_dot (rstrip_dot s) = rstrip_dot s.
Proof.
  unfold rstrip_dot. induction s as [|c s IH]; simpl; [done|].
  destruct (rstrip_if _ s) as [|d r] eqn:E; simpl.
  - destruct (char_eqb "."%char c) eqn:Ec; simpl; [done|by rewrite Ec].
  - simpl in IH. by rewrite IH.
Qed.

Lemma lower_dot c : char_eqb "."%char (lower_char c) = char_eqb "."%char c.
Proof. by destruct c as [[] [] [] [] [] [] [] []]. Qed.

Lemma rstrip_dot_lower s : rstrip_dot (lower s) = lower (rstrip_dot s).
Proof.
  unfold rstrip_dot, lower. induction s as [|c s IH]; simpl; [done|].
  rewrite IH. destruct (rstrip_if _ s) as [|d r]; simpl; [|done].
  rewrite lower_dot. by destruct (char_eqb _ _).
Qed.

Definition normalized (s : string) : Prop := normalize_name s = s.

Lemma normalize_normalized s : normalized (normalize_name s).
Proof.
  unfold normalized, normalize_name. by rewrite rstrip_dot_lower, lower_idem, rstrip_dot_idem.
Qed.

Lemma normalized_iff s : normalized s <-> rstrip_dot s = s /\ lower s = s.
Proof.
  unfold normalized, normalize_name. split.
  - intros Hs. rewrite <- Hs. by rewrite rstrip_dot_lower, lower_idem, rstrip_dot_idem.
  - by intros [-> ->].
Qed.

Lemma normalized_cons c s : normalized (String c s) -> normalized s.
Proof.
  rewrite !normalized_iff. intros [Hr%rstrip_dot_cons Hl]. split; [done|].
  unfold lower in *. simpl in Hl. congruence.
Qed.

Lemma normalized_suffix a b : normalized (a ++ b) -> normalized b.
Proof. induction a; simpl; [done|]. intros Hn%normalized_cons. auto. Qed.

(** ** Zones enclose the hostname *)

Lemma under_true name top :
  under name top = true <-> name = top \/ exists p, name = p ++ "." ++ top.
Proof.
  unfold under. rewrite orb_true_iff, String.eqb_eq, endswith_true. done.
Qed.

Lemma partition_inv sep s a b : partition sep s = (a, true, b) -> s = a ++ String sep b.
Proof. intros Hp. by apply partition_true in Hp as [? _]. Qed.

Lemma walk_up_in top name z :
  z ∈ walk_up top name -> under z top = true /\ exists host, name = host ++ "." ++ z.
Proof.
  induction name as [|c rest IH]; simpl; [by intros ?%not_elem_of_nil|].
  unfold char_eqb. destruct (Ascii.eqb_spec "."%char c) as [<-|_].
  - destruct (under rest top) eqn:Hu; [|by intros ?%not_elem_of_nil].
    intros [->|Hin]%elem_of_cons; [split; [done|by exists ""]|].
    destruct (String.eqb rest top); [by apply not_elem_of_nil in Hin|].
    destruct (IH Hin) as (? & host & ->). split; [done|]. by exists (String "."%char host).
  - intros Hin. destruct (IH Hin) as (? & host & ->). split; [done|]. by exists (String c host).
Qed.

Lemma walk_up_last top p :
  walk_up top (p ++ "." ++ top) <> [] /\ List.last (walk_up top (p ++ "." ++ top)) "" = top.
Proof.
  induction p as [|c p IH]; simpl.
  - rewrite (proj2 (under_true _ _)) by auto. by rewrite String.eqb_refl.
  - unfold char_eqb. destruct (Ascii.eqb "."%char c); [|done].
    rewrite (proj2 (under_true _ _)) by eauto. split; [done|].
    destruct (String.eqb_spec (p ++ String "."%char top) top) as [E|_].
    + apply (f_equal String.length) in E. rewrite length_sapp in E. simpl in E. lia.
    + destruct IH as [Hne Hl]. simpl in Hne, Hl. destruct (walk_up top _); [done|]. exact Hl.
Qed.

Section ZoneLaws.
Context `{External, !PslLaw}.

Lemma default_zone_encloses hostname :
  let h := normalize_name hostname in
  let z := default_zone hostname in
  normalized z /\ (z = h \/ exists host, h = host ++ "." ++ z).
Proof.
  simpl. pose proof (normalize_normalized hostname) as Hn.
  set (h := normalize_name hostname) in *.
  enough (default_zone hostname = h \/ exists host, h = host ++ "." ++ default_zone hostname) as Hz.
  { split; [|done]. destruct Hz as [->|[host Hz]]; [done|].
    apply (normalized_suffix (host ++ ".")). rewrite <- sapp_assoc. by rewrite <- Hz. }
  assert (parent_or_self h = h \/ exists host, h = host ++ "." ++ parent_or_self h) as Hp.
  { unfold parent_or_self. destruct (partition "."%char h) as [[a []] b] eqn:E; [|auto].
    right. exists a. by apply partition_inv. }
  unfold default_zone, registrable_domain. fold h. rewrite Hn.
  destruct (privatesuffix h) as [zone|] eqn:E; [|done].
  destruct (String.eqb_spec zone h); [done|].
  apply privatesuffix_suffix in E as [->|(host & _ & E)]; [done|eauto].
Qed.
End ZoneLaws.

Section FindZone.
Context `{External, !PslLaw}.

Lemma candidate_zones_inside hostname z :
  z ∈ candidate_zones hostname ->
  normalized z /\ under z (default_zone hostname) = true /\
  (z = normalize_name hostname \/ exists host, normalize_name hostname = host ++ "." ++ z).
Proof.
  unfold candidate_zones. pose proof (normalize_normalized hostname) as Hn.
  assert (default_zone (normalize_name hostname) = default_zone hostname) as ->.
  { unfold default_zone, registrable_domain. by rewrite !Hn. }
  intros Hin. destruct (walk_up _ _) as [|w ws] eqn:E.
  - apply list_elem_of_singleton in Hin as ->. destruct (default_zone_encloses hostname) as [? Hz].
    split; [done|]. split; [apply under_true; auto|done].
  - rewrite <- E in Hin. apply walk_up_in in Hin as (Hu & host & Hh).
    split; [|split; [done|eauto]].
    apply (normalized_suffix (host ++ ".")). rewrite <- sapp_assoc. by rewrite <- Hh.
Qed.

Lemma candidate_zones_ne hostname : candidate_zones hostname <> [].
Proof. unfold candidate_zones. by destruct (walk_up _ _). Qed.

Lemma find_zone_loop_in r last l : lookup_zone (find_zone_loop r last l) ∈ last :: l.
Proof.
  induction l as [|name l IH]; simpl; [set_solver|].
  destruct (r_ns r name) as [[|ns nss]|[|why]]; simpl; set_solver.
Qed.

(** the zone the DNS worker settles on always contains the hostname: it is the
    hostname's own name or a proper parent, never above the registrable domain, and
    [host_in_zone] gives back the part in front of it. *)
Theorem find_zone_inside r hostname :
  let z := lookup_zone (find_zone r hostname) in
  under z (default_zone hostname) = true /\
  (z = normalize_name hostname /\ host_in_zone hostname z = Some "@" \/
   exists host, normalize_name hostname = host ++ "." ++ z /\ host_in_zone hostname z = Some host).
Proof.
  simpl. unfold find_zone.
  pose proof (find_zone_loop_in r (List.last (candidate_zones hostname) "") (candidate_zones hostname)) as Hin.
  assert (lookup_zone (find_zone_loop r (List.last (candidate_zones hostname) "")
            (candidate_zones hostname)) ∈ candidate_zones hostname) as Hc.
  { apply elem_of_cons in Hin as [->|]; [|done].
    destruct (exists_last (candidate_zones_ne hostname)) as (l & x & ->).
    rewrite last_last. set_solver. }
  destruct (candidate_zones_inside _ _ Hc) as (Hn & Hu & [Hz|[host Hz]]); split; auto.
  - left. split; [done|]. unfold host_in_zone. by rewrite Hn, Hz, String.eqb_refl.
  - right. exists host. split; [done|]. apply host_in_zone_under. by rewrite Hn.
Qed.
End FindZone.

(** following CNAMEs takes at most eight hops and never loops: every name in the
    chain is the CNAME of the one before it and no name occurs twice. *)
Theorem cname_chain_bounded r name stop chain :
  cname_chain r name stop = Ok chain ->
  (List.length chain <= 8)%nat /\ NoDup chain /\ links r name chain.
Proof.
  intros Hc. destruct (cname_loop_spec r stop MAX_CNAME_HOPS true name [] chain) as (? & ? & ? & _);
    [done|constructor|exact Hc|]. auto.
Qed.

(** A resolver whose CNAME records form a loop. *)
Definition looping_resolver : Resolver := {|
  r_txt := fun _ => Ok [];
  r_cname := fun n => Ok (Some (if String.eqb n "a.example" then "b.example" else "a.example"));
  r_has_address := fun _ => Ok false;
  r_ns := fun _ => Ok [] |}.

Lemma cname_chain_bounded_witness :
  cname_chain looping_resolver "a.example" None = Ok ["b.example"; "a.example"] /\
  (List.length ["b.example"; "a.example"] <= 8)%nat.
Proof.
  split; [reflexivity|].
  exact (proj1 (cname_chain_bounded looping_resolver "a.example" None _ eq_refl)).
Defined.
