(* ===== verification/DnsSetup.v ===== *)
(** * DNS setup (app/dns/settings.py, app/services/dns_setup.py and the signer
    configuration of app/services/domain_connect.py)

    The settings a deployment starts with, the Domain Connect signer in effect, the
    setup method chosen for a zone and the zone cache.  Theorems: what is shown to
    the customer always splits the hostname into a host and a zone, Domain Connect
    is offered exactly when it is supported and signed for, and purging the zone
    cache never removes a zone a domain refers to. *)

From Stdlib Require Import Ascii String ZArith Lia.
From stdpp Require Import base gmap strings list sets sorting.
From S2P Require Import Prelude PyStr Json Errors External Models Dns.
Open Scope string_scope.
Open Scope Z_scope.

(** ** Settings *)

Record SetupSettings := {
  ss_template_provider_id : string;
  ss_template_service_id : string;
  ss_signing_enabled : bool;
  ss_guide_url : string;
}.

Definition template_key (s : SetupSettings) : option string :=
  if String.eqb (ss_template_provider_id s) "" then None
  else Some (ss_template_provider_id s +:+ "/" +:+ ss_template_service_id s).

Definition guide_for (s : SetupSettings) (slug : string) : string :=
  replace "{provider}" slug (ss_guide_url s).

Record SignerSettings := {
  sg_signer : option string;
  sg_private_key : option string;
  sg_key_host : option string;
  sg_url : option string;
  sg_credential : option string;
  sg_return_url : option string;
}.

Definition signer_enabled (s : SignerSettings) : bool :=
  if bool_decide (sg_signer s = Some "local") then bool_decide (is_Some (nonempty (sg_private_key s)))
  else if bool_decide (sg_signer s = Some "remote")
  then bool_decide (is_Some (nonempty (sg_url s))) && bool_decide (is_Some (nonempty (sg_credential s)))
  else false.

(** The settings objects the process reads once from its environment
    ([setup_settings()] and [signer_settings()], both cached). *)
Class Deployment := {
  setup_settings : SetupSettings;
  signer_settings : SignerSettings;
}.

Inductive ConfigSource := FROM_OPERATOR | FROM_SETTINGS.
#[export] Instance ConfigSource_eq_dec : EqDecision ConfigSource.
Proof. solve_decision. Defined.

Record SignerConfig := {
  sc_signer : option string;
  sc_source : ConfigSource;
  sc_provider_id : string;
  sc_service_id : string;
  sc_url : option string;
  sc_credential_prefix : option string;
  sc_updated_at : option Z;
  sc_settings : option SignerSettings;
  sc_ciphertext : option string;
}.

Definition config_enabled (c : SignerConfig) : bool :=
  if String.eqb (sc_provider_id c) "" then false
  else match sc_source c with
       | FROM_OPERATOR => bool_decide (is_Some (nonempty (sc_ciphertext c)))
       | FROM_SETTINGS => match sc_settings c with Some s => signer_enabled s | None => false end
       end.

Section Setup.
Context `{External, Deployment}.

(** [signer_config(session)]; the per-session cache only saves the query. *)
Definition signer_config (s : Db) : SignerConfig :=
  match db_signer s with
  | Some row =>
      {| sc_signer := Some (dcs_signer row); sc_source := FROM_OPERATOR;
         sc_provider_id := dcs_provider_id row; sc_service_id := dcs_service_id row;
         sc_url := Some (dcs_url row); sc_credential_prefix := Some (dcs_credential_prefix row);
         sc_updated_at := Some (dcs_updated_at row); sc_settings := None;
         sc_ciphertext := Some (dcs_credential_ciphertext row) |}
  | None =>
      {| sc_signer := sg_signer signer_settings; sc_source := FROM_SETTINGS;
         sc_provider_id := ss_template_provider_id setup_settings;
         sc_service_id := ss_template_service_id setup_settings;
         sc_url := None; sc_credential_prefix := None; sc_updated_at := None;
         sc_settings := Some signer_settings; sc_ciphertext := None |}
  end.

Definition effective_setup_settings (s : Db) : SetupSettings :=
  let config := signer_config s in
  match sc_source config with
  | FROM_SETTINGS => setup_settings
  | FROM_OPERATOR =>
      {| ss_template_provider_id := sc_provider_id config;
         ss_template_service_id := sc_service_id config;
         ss_signing_enabled := config_enabled config;
         ss_guide_url := ss_guide_url setup_settings |}
  end.

(** ** Method selection *)

Definition DOMAIN_CONNECT : string := "domain_connect".
Definition GUIDED : string := "guided".
Definition MANUAL : string := "manual".

Definition select_method (provider_id : option string) (template_supported : option bool)
    (template : option string) (settings : SetupSettings) : string :=
  if default false template_supported && ss_signing_enabled settings
     && bool_decide (is_Some (template_key settings))
     && bool_decide (template = template_key settings)
  then DOMAIN_CONNECT
  else if prov_guide (get_provider provider_id) then GUIDED else MANUAL.

Definition zone_provider (zone : DnsZone) : string * string :=
  let provider := get_provider (Some (zone_provider zone)) in
  let named :=
    if String.eqb (prov_id provider) UNKNOWN then
      match zone_domain_connect zone with
      | None | Some [] => None
      | Some d =>
          match nonempty (sget "provider_display_name" d) with
          | Some name => Some name
          | None => nonempty (sget "provider_name" d)
          end
      end
    else None in
  (prov_id provider, default (prov_name provider) named).

Record Setup := {
  su_zone : string;
  su_host : string;
  su_method : option string;
  su_provider_id : option string;
  su_provider_name : option string;
  su_guide_url : option string;
  su_detected_at : option Z;
}.

Definition domain_setup (s : Db) (d : Domain) (settings : SetupSettings) : res exn Setup :=
  let zone_name := default (default_zone (dom_hostname d)) (nonempty (dom_zone d)) in
  let '(zone_name, host) :=
    match host_in_zone (dom_hostname d) zone_name with
    | Some host => (zone_name, Some host)
    | None =>
        let zone_name := default_zone (dom_hostname d) in
        (zone_name, host_in_zone (dom_hostname d) zone_name)
    end in
  match host with
  | None => Err PyValueError
  | Some host =>
      match nonempty (dom_zone d) ≫= (fun z => db_zones s !! z) with
      | None => Ok {| su_zone := zone_name; su_host := host; su_method := None;
                      su_provider_id := None; su_provider_name := None;
                      su_guide_url := None; su_detected_at := None |}
      | Some zone =>
          let method := select_method (Some (Models.zone_provider zone)) (zone_template_supported zone)
                          (zone_template zone) settings in
          let '(provider_id, provider_name) := zone_provider zone in
          Ok {| su_zone := zone_name; su_host := host; su_method := Some method;
                su_provider_id := Some provider_id; su_provider_name := Some provider_name;
                su_guide_url := Some (guide_for settings (guide_slug (get_provider (Some provider_id))));
                su_detected_at := Some (zone_checked_at zone) |}
      end
  end.

(** ** Counting setups *)

Record SetupCount := {
  sn_provider_id : option string;
  sn_provider_name : option string;
  sn_method : option string;
  sn_domains : Z;
  sn_ready : Z;
}.

(** The group a domain counts in: its zone's provider and the method it is offered. *)
Definition setup_group (s : Db) (settings : SetupSettings) (d : Domain) : option string * option string :=
  match dom_zone d ≫= (fun z => db_zones s !! z) with
  | None => (None, None)
  | Some zone =>
      (Some (Models.zone_provider zone),
       Some (select_method (Some (Models.zone_provider zone)) (zone_template_supported zone) (zone_template zone) settings))
  end.
Definition counted_domains (s : Db) (application : option N) (since : option Z) : list Domain :=
  List.filter (fun d => live d
                 && match application with Some a => bool_decide (dom_application_id d = a) | None => true end
                 && match since with Some t => t <=? dom_created_at d | None => true end)
    (snd <$> map_to_list (db_domains s)).

(** [(-row.domains, row.provider_id or "~", row.method or "~")] *)
Definition or_tilde (o : option string) : string := default "~" (nonempty o).
Definition count_le (x y : SetupCount) : Prop :=
  sn_domains y < sn_domains x \/ (sn_domains x = sn_domains y /\
    (or_tilde (sn_provider_id x) <> or_tilde (sn_provider_id y) /\ string_le (or_tilde (sn_provider_id x)) (or_tilde (sn_provider_id y))
     \/ or_tilde (sn_provider_id x) = or_tilde (sn_provider_id y) /\ string_le (or_tilde (sn_method x)) (or_tilde (sn_method y)))).
#[export] Instance count_le_dec x y : Decision (count_le x y).
Proof. unfold count_le. apply _. Defined.

Definition setup_count (s : Db) (settings : SetupSettings) (domains : list Domain) (key : option string * option string)
    : SetupCount :=
  let group := filter (fun d => setup_group s settings d = key) domains in
  {| sn_provider_id := key.1; sn_provider_name := (fun p => prov_name (get_provider (Some p))) <$> nonempty key.1;
     sn_method := key.2; sn_domains := Z.of_nat (List.length group);
     sn_ready := Z.of_nat (List.length (filter (fun d => dom_status d = READY) group)) |}.
Definition setup_counts (s : Db) (application : option N) (since : option Z) (settings : SetupSettings) : list SetupCount :=
  let domains := counted_domains s application since in
  merge_sort count_le (setup_count s settings domains <$> remove_dups (setup_group s settings <$> domains)).

(** ** The zone cache *)

Definition ZONE_TTL : Z := hours 24.
Definition RETRY_TTL : Z := hours 1.
Definition ZONE_RETENTION : Z := days 7.

Definition zone_fresh (zone : option DnsZone) (now : Z) (template : option string) : bool :=
  match zone with
  | Some z => (now <? zone_expires_at z) && bool_decide (zone_template z = template)
  | None => false
  end.

(** What Domain Connect discovery learned about one zone (app/dns/domain_connect.py). *)
Record Discovery := {
  disc_settings : option (list (string * string));
  disc_template_supported : option bool;
  disc_error_code : option string;
  disc_message : option string;
  disc_transient : bool;
}.

Definition identify (lookup : ZoneLookup) (discovery : Discovery) : Provider :=
  let provider := provider_for_nameservers (lookup_nameservers lookup) in
  match disc_settings discovery with
  | Some ((_ :: _) as d) =>
      if String.eqb (prov_id provider) UNKNOWN
      then default provider (provider_for_domain_connect (sget "provider_id" d))
      else provider
  | _ => provider
  end.

(** [ZoneDetector._store]: the row is inserted or every column replaced. *)
Definition store_zone (lookup : ZoneLookup) (discovery : Discovery) (template : option string)
    (now : Z) : M unit :=
  let '(why, message) :=
    match lookup_error_code lookup with
    | Some c => (Some c, lookup_message lookup)
    | None =>
        if bool_decide (disc_error_code discovery = None)
           || bool_decide (disc_error_code discovery = Some "no_record")
        then (None, None)
        else (disc_error_code discovery, disc_message discovery)
    end in
  let transient := zone_lookup_transient lookup || disc_transient discovery in
  let row := {|
    Models.zone_provider := prov_id (identify lookup discovery);
    zone_nameservers := match lookup_nameservers lookup with [] => None | l => Some l end;
    zone_domain_connect := disc_settings discovery;
    zone_template := template;
    zone_template_supported :=
      if bool_decide (is_Some (nonempty template)) then disc_template_supported discovery else None;
    zone_error_code := why;
    zone_message := nonempty (Some (take_str 500 (default "" message)));
    zone_checked_at := now;
    zone_expires_at := now + (if transient then RETRY_TTL else ZONE_TTL) |} in
  modify (fun s => s <| db_zones ::= <[lookup_zone lookup := row]> |>).

Definition zone_referenced (s : Db) (zone : string) : bool :=
  existsb (fun x => bool_decide (dom_zone x.2 = Some zone)) (map_to_list (db_domains s)).

Definition zone_purgeable (s : Db) (now : Z) (x : string * DnsZone) : bool :=
  (zone_expires_at x.2 <=? now - ZONE_RETENTION) && negb (zone_referenced s x.1).

Definition delete_past_zones (now : Z) (s : Db) : Db :=
  s <| db_zones ::= filter (fun x => zone_purgeable s now x = false) |>.

Definition purge_zones (now : option Z) : M Z :=
  now ← now_or now;
  s ← get;
  _ ← modify (delete_past_zones now);
  mret (Z.of_nat (size (filter (fun x => zone_purgeable s now x = true) (db_zones s)))).
End Setup.

Section SetupProperties.
Context `{External, Deployment, !PslLaw}.

Lemma default_zone_host hostname :
  exists host, host_in_zone hostname (default_zone hostname) = Some host.
Proof.
  destruct (default_zone_encloses hostname) as [Hn [Hz|[host Hz]]].
  - exists "@". unfold host_in_zone. rewrite Hn, Hz. by rewrite String.eqb_refl.
  - exists host. apply host_in_zone_under. by rewrite Hn.
Qed.

(** The zone and host [domain_setup] works with, from the stored zone [z0]. *)
Lemma setup_host_known hostname z0 :
  exists z host,
    match host_in_zone hostname z0 with
    | Some host => (z0, Some host)
    | None => (default_zone hostname, host_in_zone hostname (default_zone hostname))
    end = (z, Some host) /\ host_in_zone hostname z = Some host.
Proof.
  destruct (host_in_zone hostname z0) as [host|] eqn:E; [eauto|].
  destruct (default_zone_host hostname) as [host Hd]. rewrite Hd. eauto.
Qed.

Lemma domain_setup_total s d settings : exists su, domain_setup s d settings = Ok su.
Proof.
  unfold domain_setup.
  destruct (setup_host_known (dom_hostname d) (default (default_zone (dom_hostname d)) (nonempty (dom_zone d))))
    as (z & host & -> & _).
  destruct (_ ≫= _) as [zone|]; [destruct (zone_provider zone)|]; eauto.
Qed.

(** the setup shown for a domain never fails, whatever zone is stored, and its
    host and zone always spell the hostname ([@] when the zone is the hostname). *)
Theorem domain_setup_spells_hostname s d settings :
  exists su, domain_setup s d settings = Ok su /\
    (su_host su = "@" /\ normalize_name (dom_hostname d) = normalize_name (su_zone su) \/
     normalize_name (dom_hostname d) = su_host su ++ "." ++ normalize_name (su_zone su)).
Proof.
  unfold domain_setup.
  destruct (setup_host_known (dom_hostname d) (default (default_zone (dom_hostname d)) (nonempty (dom_zone d))))
    as (z & host & -> & Hh).
  apply host_in_zone_Some in Hh.
  destruct (_ ≫= _) as [zone|].
  - destruct (zone_provider zone). eexists. split; [reflexivity|]. simpl. tauto.
  - eexists. split; [reflexivity|]. simpl. tauto.
Qed.

(** one-step setup is offered exactly when the zone's provider was found to
    support this deployment's current template and the service can sign for it. *)
Theorem select_method_domain_connect provider supported template settings :
  select_method provider supported template settings = DOMAIN_CONNECT <->
  supported = Some true /\ ss_signing_enabled settings = true /\
  exists key, template_key settings = Some key /\ template = Some key.
Proof.
  unfold select_method. split.
  - destruct (default false supported) eqn:Es; simpl; [|by destruct (prov_guide _)].
    destruct (ss_signing_enabled settings); simpl; [|by destruct (prov_guide _)].
    destruct (template_key settings) as [key|]; simpl; [|by destruct (prov_guide _)].
    destruct (bool_decide (template = Some key)) eqn:Et; [|by destruct (prov_guide _)].
    apply bool_decide_eq_true in Et as ->. intros _. destruct supported as [[]|]; simpl in Es; by eauto.
  - intros (-> & -> & key & -> & ->). simpl. by rewrite bool_decide_true.
Qed.

(** purging the zone cache removes exactly the zones that expired more than a
    week ago and that no domain row refers to, and reports how many. *)
Theorem purge_zones_exact s now :
  exists n s', purge_zones (Some now) s = (Ok n, s') /\
    n = Z.of_nat (size (db_zones s)) - Z.of_nat (size (db_zones s')) /\
    db_domains s' = db_domains s /\
    forall z row, db_zones s' !! z = Some row <->
      db_zones s !! z = Some row /\
      (now - days 7 < zone_expires_at row \/
       exists k d, db_domains s !! k = Some d /\ dom_zone d = Some z).
Proof.
  eexists _, _. split; [reflexivity|]. unfold delete_past_zones. simpl_over.
  set (keep := fun x : string * DnsZone => zone_purgeable s now x = false).
  split; [|split; [done|]].
  - rewrite <- (map_filter_union_complement keep (db_zones s)) at 2.
    rewrite map_size_disj_union by apply map_disjoint_filter_complement.
    assert (filter (fun x => zone_purgeable s now x = true) (db_zones s)
            = filter (fun x => ~ keep x) (db_zones s)) as ->; [|lia].
    apply map_filter_ext. intros z row _. unfold keep. by rewrite not_false_iff_true.
  - intros z row. rewrite map_lookup_filter_Some.
    apply and_iff_compat_l. unfold keep, zone_purgeable, ZONE_RETENTION. cbn [fst snd].
    rewrite andb_false_iff, Z.leb_gt, negb_false_iff. unfold zone_referenced.
    rewrite existsb_exists. apply or_iff_compat_l. cbn [fst snd]. split.
    + intros ([k d] & Hin & Hz%bool_decide_eq_true). exists k, d.
      by apply list_elem_of_In, elem_of_map_to_list in Hin.
    + intros (k & d & Hk & Hz). exists (k, d).
      by rewrite <- list_elem_of_In, elem_of_map_to_list, bool_decide_eq_true.
Qed.
End SetupProperties.

(** ** The counts add up *)

Lemma sum_perm l l' : l ≡ₚ l' -> foldr Z.add 0 l = foldr Z.add 0 l'.
Proof. induction 1; cbn; lia. Qed.

Lemma groups_add_up {A K} `{!EqDecision K} (f : A -> K) (size : list A -> Z) (l : list A) :
  size [] = 0 -> (forall x m, size (x :: m) = size [x] + size m) ->
  forall ks, NoDup ks -> (forall x, x ∈ l -> f x ∈ ks) ->
  foldr Z.add 0 ((fun k => size (filter (fun x => f x = k) l)) <$> ks) = size l.
Proof.
  intros H0 Hs. induction l as [|x l IH]; intros ks Hnd Hin.
  - rewrite H0. clear Hnd Hin. induction ks as [|k ks IHk]; [done|]. cbn [fmap list_fmap foldr].
    change (filter (fun x => f x = k) []) with (@nil A). rewrite H0. exact IHk.
  - rewrite Hs, <- (IH ks Hnd) by (intros; apply Hin; by right). assert (f x ∈ ks) as Hx by (apply Hin; by left). clear Hin IH.
    induction ks as [|k ks IHk]; [by apply elem_of_nil in Hx|]. apply NoDup_cons in Hnd as [Hk Hnd]. cbn [fmap list_fmap foldr].
    rewrite filter_cons. destruct (decide (f x = k)) as [<-|Hne].
    + rewrite Hs. assert ((fun k => size (filter (fun y => f y = k) (x :: l))) <$> ks =
                          (fun k => size (filter (fun y => f y = k) l)) <$> ks) as ->; [|lia].
      apply list_fmap_ext. intros i j Hj%list_elem_of_lookup_2. rewrite filter_cons_False; [done|]. by intros <-.
    + apply elem_of_cons in Hx as [Hx|Hx]; [done|]. rewrite (IHk Hnd Hx). lia.
Qed.

(** Every live domain asked for is counted once, and so is every ready one. *)
Theorem setup_counts_add_up `{External, Deployment} s application since settings :
  let rows := setup_counts s application since settings in
  let domains := counted_domains s application since in
  foldr Z.add 0 (sn_domains <$> rows) = Z.of_nat (List.length domains) /\
  foldr Z.add 0 (sn_ready <$> rows) = Z.of_nat (List.length (filter (fun d => dom_status d = READY) domains)).
Proof.
  intros rows domains. unfold rows, setup_counts. fold domains.
  assert (forall x, x ∈ domains -> setup_group s settings x ∈ remove_dups (setup_group s settings <$> domains)) as Hin.
  { intros x Hx. apply elem_of_remove_dups, list_elem_of_fmap_2, Hx. }
  split; (rewrite (sum_perm _ _ (fmap_Permutation _ _ _ (merge_sort_Permutation count_le _))), <- list_fmap_compose).
  - refine (groups_add_up (setup_group s settings) (fun l => Z.of_nat (List.length l)) domains eq_refl _ _ _ Hin);
      [intros; cbn [List.length]; lia|apply NoDup_remove_dups].
  - refine (groups_add_up (setup_group s settings)
      (fun l => Z.of_nat (List.length (filter (fun d => dom_status d = READY) l))) domains eq_refl _ _ _ Hin);
      [|apply NoDup_remove_dups].
    intros x m. rewrite !filter_cons. destruct (decide (dom_status x = READY)); cbn [List.length];
      change (filter (fun d => dom_status d = READY) []) with (@nil Domain); cbn [List.length]; lia.
Qed.
