(* ===== verification/Discovery.v ===== *)
(** * Domain Connect discovery (app/dns/domain_connect.py)

    Whether a zone's DNS provider supports the service's template.  What the customer's
    DNS and the provider answer is untrusted.  Theorems: discovery always ends with a
    result; the template counts as supported only after a 2xx answer at the address the
    provider's own usable settings name; everything kept is of bounded length and free
    of control characters, and every address kept is https without credentials. *)

From Stdlib Require Import Ascii String ZArith Lia.
From stdpp Require Import base strings list.
From S2P Require Import Prelude PyStr Json JsonText Errors External Models Url Egress Dns DnsSetup.
Open Scope string_scope.
Open Scope Z_scope.

Definition DISCOVERY_AGENT : string := "custom-domain-discovery/1".
Definition MAX_SETTINGS_BYTES : Z := 16 * 1024.
Definition MAX_TEMPLATE_BYTES : Z := 64 * 1024.
Definition MAX_TEXT : nat := 128.
Definition MAX_URL : Z := 512.

(** [_TXT_VALUE.match(value)]: a host name and perhaps a path. *)
Definition txt_value_core (v : string) : bool :=
  let '(host, sep, path) := partition "/"%char v in
  host_core host && (negb sep || (slen path <=? 200) && sall (fun c => is_alnum c || has_char c "._~/-") path).
Definition TXT_VALUE_match : string -> bool := to_end txt_value_core.

Definition control (c : ascii) : bool := (code c <? 32) || (code c =? 127).

Definition TRANSIENT_CODES : list string :=
  ["dns_timeout"; "timeout"; "connection_failed"; "dns_resolution_failed"; "tls_handshake_failed";
   "settings_unavailable"; "template_check_failed"].

Record HttpReply := { hr_status : Z; hr_body : string }.
(** [DiscoveryFailed]: its code and message. *)
Definition Fetch : Type := string -> Z -> res (string * string) HttpReply.

Definition discovery (settings : option (list (string * string))) (supported : option bool)
    (code message : option string) : Discovery :=
  {| disc_settings := settings; disc_template_supported := supported; disc_error_code := code;
     disc_message := message;
     disc_transient := match code with Some c => mem_str c TRANSIENT_CODES | None => false end |}.

(** [_CONTROL.sub("", value)] *)
Fixpoint drop_control (s : string) : string :=
  match s with
  | EmptyString => ""
  | String c r => if control c then drop_control r else String c (drop_control r)
  end.

(** [_clean] *)
Definition clean (value : option json) : option string :=
  text ← value ≫= as_str; nonempty (Some (utake MAX_TEXT (strip (drop_control text)))).

Section Discover.
Context `{External}.
Context (urlsplit : string -> option UrlSplit).

Definition port_ok (port : option Z) : bool := match port with None => true | Some p => p =? 443 end.
(** [not x] of text that may be missing *)
Definition absent (x : option string) : bool := bool_decide (nonempty x = None).

Definition https_url (value : option json) : option string :=
  text ← value ≫= as_str;
  if (MAX_URL <? ulen text) || negb (sall (fun c => negb (control c)) text) then None else
  parts ← urlsplit (strip text);
  if negb (String.eqb (us_scheme parts) "https") || absent (us_hostname parts)
     || negb (absent (us_username parts)) || negb (absent (us_password parts)) then None
  else if negb (port_ok (us_port parts)) || negb (String.eqb (us_query parts) "")
          || negb (String.eqb (us_fragment parts) "") then None
  else Some (rstrip_if (char_eqb "/"%char) (strip text)).

(** [guarded_fetch], with the addresses it connected to; [explain] is the English text
    of an error of the origin fetch. *)
Definition guarded_fetch (wire : Wire) (explain : string -> string) (url : string) (max_bytes : Z)
    : res (string * string) HttpReply * list string :=
  let refused := (Err ("url_refused", explain "url_refused"), []) in
  match urlsplit url with
  | None => refused
  | Some parts =>
      match nonempty (us_hostname parts) with
      | Some hostname =>
          if negb (String.eqb (us_scheme parts) "https")
             || negb (absent (us_username parts)) || negb (absent (us_password parts)) then refused
          else if negb (port_ok (us_port parts)) then refused
          else
            let path := if String.eqb (us_path parts) "" then "/" else us_path parts in
            let path := if String.eqb (us_query parts) "" then path else path ++ "?" ++ us_query parts in
            match fetch_token wire hostname 443 "https" false path max_bytes "application/json" DISCOVERY_AGENT with
            | (Ok probe, dialled) => (Ok {| hr_status := pr_status probe; hr_body := pr_body probe |}, dialled)
            | (Err code, dialled) => (Err (code, explain code), dialled)
            end
      | None => refused
      end
  end.

(** ** Reading the answers *)

Definition api_candidate (raw : string) : option string :=
  let value := rstrip_if (char_eqb "/"%char) (strip (strip_if (char_eqb "034"%char) (strip raw))) in
  let value := if startswith "https://" (lower value) then drop_str 8 value else value in
  let '(host, _, path) := partition "/"%char value in
  let candidate := lower host ++ (if String.eqb path "" then "" else "/" ++ path) in
  if TXT_VALUE_match candidate && has_char "."%char host then Some candidate else None.
Fixpoint provider_api_host (values : list string) : option string :=
  match values with
  | [] => None
  | raw :: values => match api_candidate raw with Some c => Some c | None => provider_api_host values end
  end.

Definition kept (k : string) (v : option string) : list (string * string) :=
  match v with Some v => [(k, v)] | None => [] end.

Definition parse_settings (body : string) : res (string * string) (list (string * string)) :=
  match loads body with
  | None => Err ("settings_invalid", "The settings answer is not JSON")
  | Some (JObj data) =>
      match clean (dget "providerId" data), https_url (dget "urlAPI" data) with
      | Some provider_id, Some url_api =>
          Ok (kept "provider_id" (Some provider_id) ++ kept "provider_name" (clean (dget "providerName" data))
              ++ kept "provider_display_name" (clean (dget "providerDisplayName" data))
              ++ kept "url_api" (Some url_api) ++ kept "url_sync_ux" (https_url (dget "urlSyncUX" data)))%list
      | _, _ => Err ("settings_invalid", "The settings answer lacks providerId or an https urlAPI")
      end
  | Some _ => Err ("settings_invalid", "The settings answer is not a JSON object")
  end.

(** ** Discovery *)

Definition template_url (url_api provider_id service_id : string) : string :=
  url_api ++ "/v2/domainTemplates/providers/" ++ quote provider_id ++ "/services/" ++ quote service_id.

(** The template check, given usable settings. *)
Definition check_template (fetch : Fetch) (settings : list (string * string)) (provider_id : option string)
    (service_id : string) : Discovery :=
  match nonempty provider_id with
  | None => discovery (Some settings) None None None
  | Some provider_id =>
      if absent (sget "url_sync_ux" settings) then
        discovery (Some settings) (Some false) (Some "settings_invalid")
          (Some "The settings answer lacks an https urlSyncUX, so changes cannot be applied")
      else
        match fetch (template_url (default "" (sget "url_api" settings)) provider_id service_id) MAX_TEMPLATE_BYTES with
        | Err (code, message) => discovery (Some settings) None (Some code) (Some ("Template check failed: " ++ message))
        | Ok answer =>
            if (200 <=? hr_status answer) && (hr_status answer <? 300) then discovery (Some settings) (Some true) None None
            else if hr_status answer =? 404 then
              discovery (Some settings) (Some false) (Some "template_not_supported")
                (Some "The provider supports Domain Connect but not this service's template")
            else if (300 <=? hr_status answer) && (hr_status answer <? 400) then
              discovery (Some settings) None (Some "redirect_refused")
                (Some ("The template check was redirected (HTTP " ++ py_str (hr_status answer) ++
                       "); redirects are not followed"))
            else discovery (Some settings) None (Some "template_check_failed")
                   (Some ("The template check returned HTTP " ++ py_str (hr_status answer)))
        end
  end.

Definition failed (code message : string) : Discovery := discovery None None (Some code) (Some message).

Definition discover (resolver : Resolver) (fetch : Fetch) (zone : string) (provider_id : option string)
    (service_id : string) : Discovery :=
  let record := "_domainconnect." ++ zone in
  match (match r_txt resolver record with
         | Ok values => Ok values
         | Err DnsNameNotFound => Ok []
         | Err (DnsUnavailable message) => Err message
         end) with
  | Err message => failed "dns_timeout" ("TXT lookup for " ++ record ++ " failed: " ++ message)
  | Ok [] => failed "no_record" ("No TXT record at " ++ record)
  | Ok values =>
      match provider_api_host values with
      | None => failed "txt_invalid" ("The TXT record at " ++ record ++ " does not name a usable host")
      | Some api_host =>
          match fetch ("https://" ++ api_host ++ "/v2/" ++ zone ++ "/settings") MAX_SETTINGS_BYTES with
          | Err (code, message) => failed code ("Settings request failed: " ++ message)
          | Ok answer =>
              if hr_status answer =? 404 then
                failed "settings_not_found" ("The provider at " ++ api_host ++ " has no Domain Connect settings for " ++ zone)
              else if (300 <=? hr_status answer) && (hr_status answer <? 400) then
                failed "redirect_refused" ("The settings request was redirected (HTTP " ++ py_str (hr_status answer) ++
                                           "); redirects are not followed")
              else if negb (hr_status answer =? 200) then
                failed "settings_unavailable" ("The settings request returned HTTP " ++ py_str (hr_status answer))
              else
                match parse_settings (hr_body answer) with
                | Err (code, message) => failed code message
                | Ok settings => check_template fetch settings provider_id service_id
                end
          end
      end
  end.
End Discover.

(** ** Properties *)

Definition plain_text (s : string) : bool := sall (fun c => negb (control c)) s.

Lemma ulen_cons c s : ulen (String c s) = (if in_range 128 191 c then 0 else 1) + ulen s.
Proof. cbn [ulen]. by destruct (in_range 128 191 c). Qed.
Lemma ulen_nonneg s : 0 <= ulen s.
Proof. induction s as [|c s IH]; [done|]. rewrite ulen_cons. destruct (in_range 128 191 c); lia. Qed.

Lemma utake_bound n s : ulen (utake n s) <= Z.of_nat n.
Proof.
  revert n. induction s as [|c s IH]; intros n; [cbn; lia|]. cbn [utake]. destruct (in_range 128 191 c) eqn:Ec.
  - rewrite ulen_cons, Ec. apply IH.
  - destruct n as [|n]; [cbn; lia|]. rewrite ulen_cons, Ec. specialize (IH n). lia.
Qed.
Lemma utake_all p n s : sall p s = true -> sall p (utake n s) = true.
Proof.
  revert n. induction s as [|c s IH]; intros n; [done|]. cbn [sall utake]. intros [Hc Hs]%andb_prop.
  destruct (in_range 128 191 c); [cbn [sall]; by rewrite Hc, IH|]. destruct n; [done|]. cbn [sall]. by rewrite Hc, IH.
Qed.

Lemma lstrip_keeps p q s : ulen (lstrip_if q s) <= ulen s /\ (sall p s = true -> sall p (lstrip_if q s) = true).
Proof.
  induction s as [|c s [IH1 IH2]]; [done|]. cbn [lstrip_if]. destruct (q c); [|done]. rewrite ulen_cons.
  split; [destruct (in_range 128 191 c); lia|]. cbn [sall]. by intros [_ Hs]%andb_prop; apply IH2.
Qed.
Lemma rstrip_keeps p q s : ulen (rstrip_if q s) <= ulen s /\ (sall p s = true -> sall p (rstrip_if q s) = true).
Proof.
  induction s as [|c s [IH1 IH2]]; [done|]. cbn [rstrip_if sall]. rewrite ulen_cons.
  pose proof (ulen_nonneg s). destruct (rstrip_if q s) as [|d r] eqn:E.
  - destruct (q c); [split; [cbn [ulen]; destruct (in_range 128 191 c); lia|done]|].
    split; [rewrite ulen_cons; cbn [ulen]; lia|]. cbn [sall]. intros [-> _]%andb_prop. done.
  - split; [rewrite ulen_cons; lia|]. intros [Hc Hs]%andb_prop. cbn [sall] in *. by rewrite Hc, IH2.
Qed.
Lemma strip_keeps p q s : ulen (strip_if q s) <= ulen s /\ (sall p s = true -> sall p (strip_if q s) = true).
Proof.
  unfold strip_if. destruct (lstrip_keeps p q s) as [L1 L2], (rstrip_keeps p q (lstrip_if q s)) as [R1 R2].
  split; [lia|auto].
Qed.

Lemma drop_control_plain s : plain_text (drop_control s) = true.
Proof. induction s as [|c s IH]; [done|]. cbn [drop_control]. destruct (control c) eqn:Ec; [done|]. cbn. by rewrite Ec. Qed.

Lemma nonempty_Some t v : nonempty (Some t) = Some v -> v = t /\ t <> "".
Proof. destruct t; [done|]. by intros [= <-]. Qed.

Lemma clean_ok value t : clean value = Some t -> t <> "" /\ ulen t <= Z.of_nat MAX_TEXT /\ plain_text t = true.
Proof.
  unfold clean. destruct (value ≫= as_str) as [text|]; [|done]. cbn [mbind option_bind].
  intros [-> Hne]%nonempty_Some. split; [done|]. split; [apply utake_bound|].
  apply utake_all, strip_keeps, drop_control_plain.
Qed.

Section Sound.
Context `{External}.
Context (urlsplit : string -> option UrlSplit).

Lemma https_url_ok value u : https_url urlsplit value = Some u ->
  ulen u <= MAX_URL /\ plain_text u = true /\
  exists text parts, u = rstrip_if (char_eqb "/"%char) (strip text) /\ urlsplit (strip text) = Some parts /\
    us_scheme parts = "https" /\ is_Some (nonempty (us_hostname parts)) /\
    nonempty (us_username parts) = None /\ nonempty (us_password parts) = None /\
    us_query parts = "" /\ us_fragment parts = "".
Proof.
  unfold https_url, absent. destruct (value ≫= as_str) as [text|]; [|done]. cbn [mbind option_bind].
  destruct (Z.ltb_spec MAX_URL (ulen text)) as [|Hlen]; [done|]. cbn [orb].
  destruct (sall _ text) eqn:Ec; [|done]. cbn [negb]. destruct (urlsplit (strip text)) as [parts|] eqn:Eu; [|done].
  cbn [mbind option_bind]. destruct (String.eqb_spec (us_scheme parts) "https") as [Hs|]; [|done]. cbn [negb orb].
  destruct (nonempty (us_hostname parts)) as [h|] eqn:Eh; [|done]. cbn [orb].
  destruct (nonempty (us_username parts)) eqn:Eun; [done|]. destruct (nonempty (us_password parts)) eqn:Epw; [done|].
  destruct (port_ok _); [|done]. cbn. destruct (String.eqb_spec (us_query parts) "") as [Hq|]; [|done].
  destruct (String.eqb_spec (us_fragment parts) "") as [Hf|]; [|done]. cbn. intros [= <-].
  destruct (strip_keeps (fun c => negb (control c)) is_space text) as [S1 S2].
  destruct (rstrip_keeps (fun c => negb (control c)) (char_eqb "/"%char) (strip text)) as [R1 R2].
  unfold strip in *. split; [lia|]. split; [by apply R2, S2|]. exists text, parts. rewrite Eh. split_and!; eauto.
Qed.

(** A kept value: bounded, and without control characters. *)
Definition kept_ok (kv : string * string) : Prop := ulen kv.2 <= MAX_URL /\ plain_text kv.2 = true.

Lemma kept_clean k value : Forall kept_ok (kept k (clean value)).
Proof.
  destruct (clean value) as [t|] eqn:E; [|constructor]. apply clean_ok in E as (_ & Hl & Hp).
  repeat constructor; cbn; [|done]. unfold MAX_TEXT, MAX_URL in *. lia.
Qed.
Lemma kept_url k value : Forall kept_ok (kept k (https_url urlsplit value)).
Proof.
  destruct (https_url urlsplit value) as [t|] eqn:E; [|constructor]. apply https_url_ok in E as (Hl & Hp & _). by repeat constructor.
Qed.

Lemma parse_settings_ok body settings :
  parse_settings urlsplit body = Ok settings ->
  Forall kept_ok settings /\ is_Some (sget "provider_id" settings) /\
  exists value u, sget "url_api" settings = Some u /\ https_url urlsplit value = Some u.
Proof.
  unfold parse_settings. destruct (loads body) as [[| | | | |data]|]; try done.
  destruct (clean (dget "providerId" data)) as [pid|] eqn:Ep; [|done].
  destruct (https_url urlsplit (dget "urlAPI" data)) as [u|] eqn:Eu; [|done]. intros [= <-]. split; [|split].
  - apply (Forall_app_2 _ (kept "provider_id" (Some pid))); [rewrite <- Ep; apply kept_clean|].
    apply Forall_app_2; [apply kept_clean|]. apply Forall_app_2; [apply kept_clean|].
    apply (Forall_app_2 _ (kept "url_api" (Some u))); [rewrite <- Eu|]; apply kept_url.
  - by eexists.
  - exists (dget "urlAPI" data), u. split; [|done].
    destruct (clean (dget "providerName" data)), (clean (dget "providerDisplayName" data)); reflexivity.
Qed.

(** Settings are kept only when the zone's own record named the provider's host and
    the provider answered usable settings; the template counts as supported only after
    a 2xx answer at the address those settings name; what is kept is bounded and free
    of control characters. *)
Theorem discover_sound resolver fetch zone provider_id service_id :
  let d := discover urlsplit resolver fetch zone provider_id service_id in
  (forall settings, disc_settings d = Some settings ->
     exists values api_host answer,
       r_txt resolver ("_domainconnect." ++ zone) = Ok values /\ provider_api_host values = Some api_host /\
       fetch ("https://" ++ api_host ++ "/v2/" ++ zone ++ "/settings") MAX_SETTINGS_BYTES = Ok answer /\
       hr_status answer = 200 /\ parse_settings urlsplit (hr_body answer) = Ok settings /\ Forall kept_ok settings) /\
  (disc_template_supported d = Some true ->
     exists settings u p value answer,
       disc_settings d = Some settings /\ nonempty provider_id = Some p /\
       sget "url_api" settings = Some u /\ https_url urlsplit value = Some u /\
       is_Some (nonempty (sget "url_sync_ux" settings)) /\
       fetch (template_url u p service_id) MAX_TEMPLATE_BYTES = Ok answer /\ 200 <= hr_status answer < 300).
Proof.
  intros d. unfold d, discover. clear d. set (url_of := fun h => "https://" ++ h ++ "/v2/" ++ zone ++ "/settings").
  destruct (r_txt resolver _) as [[|v vs]|[|m]]; try by split. destruct (provider_api_host _) as [h|] eqn:Eh; [|by split].
  change ("https://" ++ h ++ "/v2/" ++ zone ++ "/settings") with (url_of h).
  destruct (fetch (url_of h) MAX_SETTINGS_BYTES) as [answer|[code message]] eqn:Ef; [|by split].
  destruct (hr_status answer =? 404); [by split|]. destruct (_ && _); [by split|].
  destruct (Z.eqb_spec (hr_status answer) 200) as [Hs|]; [|by split]. cbn [negb].
  destruct (parse_settings urlsplit (hr_body answer)) as [settings|[code message]] eqn:Ep; [|by split].
  assert (disc_settings (check_template fetch settings provider_id service_id) = Some settings) as Hset.
  { unfold check_template. repeat case_match; done. }
  destruct (parse_settings_ok _ _ Ep) as (Hk & _ & value & u & Hu & Hv). split.
  - rewrite Hset. intros ? [= <-]. exists (v :: vs), h, answer. split_and!; done.
  - intros Ht. exists settings, u. unfold check_template, absent in Ht. rewrite Hu in Ht. cbn [default] in Ht. unfold id in Ht.
    destruct (nonempty provider_id) as [p|]; [|done]. case_bool_decide as Hux; [done|].
    destruct (fetch (template_url u p service_id) _) as [a|[? ?]] eqn:Ea; [|done].
    exists p, value, a. split; [done|]. split; [done|]. split; [done|]. split; [done|]. split; [by apply not_eq_None_Some|].
    split; [done|]. destruct (Z.leb_spec 200 (hr_status a)), (Z.ltb_spec (hr_status a) 300); cbn [andb] in Ht; [lia|..];
      repeat case_match; done.
Qed.
End Sound.
