(* ===== verification/Sample.v ===== *)
(** * A sample environment

    Concrete functions for everything the service takes from outside its
    repository, with the laws the theorems assume of them; the witnesses of the
    properties run on it. *)

From Stdlib Require Import Ascii String ZArith Lia.
From stdpp Require Import base gmap strings list sets pretty.
From S2P Require Import Prelude PyStr Base64 Datetime Errors External Models Hostname Dns DnsSetup.
Open Scope string_scope.
Open Scope Z_scope.

(** The last two labels of a name. *)
Fixpoint last_two (s : string) : string :=
  match s with
  | "" => ""
  | String c r => if count_char "."%char s <=? 1 then s else last_two r
  end.

Definition sample_suffix (name : string) : option string :=
  match name with
  | "" => None
  | String c _ => if char_eqb "."%char c then None else Some (last_two name)
  end.

(** Thirty-two bytes that depend on every byte of the text. *)
Fixpoint base256 (digits : nat) (n : Z) : string :=
  match digits with O => "" | S digits => String (chr (n mod 256)) (base256 digits (n / 256)) end.
Fixpoint checksum (s : string) (acc : Z) : Z :=
  match s with "" => acc | String c s => checksum s ((acc * 257 + code c) mod 2 ^ 256) end.
Definition toy_digest (s : string) : string := base256 32 (checksum s 1).
Lemma base256_length n z : String.length (base256 n z) = n.
Proof. revert z. induction n as [|n IH]; intros z; [done|]. cbn. by rewrite IH. Qed.

#[export] Instance sample : External := {
  environ := fun name => if String.eqb name "SERVICE_SECRET_KEY" then Some "0123456789abcdefghijklmnopqrstuv" else None;
  idna_encode := fun v => if has_char NL v then None else Some v;
  privatesuffix := sample_suffix;
  is_ip_address := has_char ":"%char;
  ip_is_global := fun a => negb (startswith "10." a);
  token_urlsafe := fun i _ => "t" +:+ pretty i;
  token_hex := fun i _ => pretty i;
  sha256_hex := fun s => "sha256:" +:+ s;
  sha256 := fun s => "sha256/" +:+ s;
  hmac_sha256 := fun k m => toy_digest (k +:+ "/" +:+ m);
  hkdf := fun info secret => info +:+ "/" +:+ secret;
  aes_encrypt := fun key nonce plain data => "sealed--by--aes:" +:+ plain;
  aes_decrypt := fun key nonce sealed data => if startswith "sealed--by--aes:" sealed then Some (drop_str 16 sealed) else None;
  nonce_bytes := fun n => "123456789012";
  ip_in_network := fun a e => if has_char "/"%char e then Some (startswith (fst (fst (partition "/"%char e))) a) else None;
  ip_network := fun e => Some (e, if has_char "/"%char e then 256 else 1, 24);
  ip_order := fun a => Some (4, slen a);
  ip_text := fun a => a;
  py_float := fun t => match py_int t with Some n => Some (Finite (QArith_base.inject_Z n)) | None => None end;
  pydantic_datetime := iso_written "Z";
  getaddrinfo := fun h _ => if String.eqb h "private.example" then Some ["10.0.0.1"] else Some ["192.0.2.1"];
}.

#[export] Instance sample_deployment : Deployment := {
  setup_settings := {| ss_template_provider_id := ""; ss_template_service_id := "custom-domain";
                       ss_signing_enabled := false; ss_guide_url := "https://docs.example/{provider}" |};
  signer_settings := {| sg_signer := None; sg_private_key := None; sg_key_host := None; sg_url := None;
                        sg_credential := None; sg_return_url := None |};
}.

Lemma count_char_cons a c s : count_char a (String c s) = (if Ascii.eqb c a then 1 else 0) + count_char a s.
Proof. done. Qed.

Lemma last_two_suffix s :
  last_two s = s \/ exists host, s = host ++ "." ++ last_two s.
Proof.
  induction s as [|c s IH]; [by left|]. cbn [last_two].
  destruct (Z.leb_spec (count_char "."%char (String c s)) 1) as [|Hc]; [by left|]. right.
  destruct IH as [E|[host E]].
  - rewrite E. destruct (Ascii.eqb c "."%char) eqn:Ec.
    + apply Ascii.eqb_eq in Ec as ->. by exists "".
    + exfalso. revert Hc E. rewrite count_char_cons, Ec. destruct s as [|d s]; [simpl; lia|].
      cbn [last_two]. destruct (Z.leb_spec (count_char "."%char (String d s)) 1); [lia|].
      intros _ E. assert (String.length (last_two s) <= String.length s)%nat as Hl.
      { clear. induction s as [|e s IH]; simpl; [lia|]. case_match; simpl; lia. }
      rewrite E in Hl. simpl in Hl. lia.
  - exists (String c host). rewrite E at 1. reflexivity.
Qed.

#[export] Instance sample_psl : PslLaw.
Proof.
  intros name zone. change (privatesuffix name) with (sample_suffix name).
  destruct name as [|c name]; [done|]. unfold sample_suffix.
  destruct (char_eqb "."%char c) eqn:Ec; [done|]. intros Hz.
  assert (zone = last_two (String c name)) as -> by congruence. clear Hz.
  destruct (last_two_suffix (String c name)) as [->|[host E]]; [by left|]. right. exists host.
  split; [|done]. intros ->. injection E as -> _. done.
Qed.

#[export] Instance sample_tokens : FreshTokens.
Proof. intros i j n. simpl. intros [= E]. by apply (inj pretty). Qed.

Lemma lower_newline v : has_char NL v = false -> has_char NL (lower v) = false.
Proof.
  induction v as [|c v IH]; [done|]. unfold lower. cbn [smap]. rewrite !has_char_cons.
  intros [Hc Hv]%orb_false_elim. unfold lower in IH. rewrite (IH Hv), orb_false_r. revert Hc.
  by destruct c as [[] [] [] [] [] [] [] []].
Qed.

#[export] Instance sample_idna : IdnaLaws.
Proof.
  split; simpl.
  - intros v a. destruct (has_char NL v) eqn:E; [done|]. by intros [= <-].
  - intros v a. destruct (has_char NL v) eqn:E; [done|]. intros [= <-].
    by rewrite lower_newline.
Qed.

#[export] Instance sample_aead : AeadLaws.
Proof.
  split; [| |done].
  - intros key nonce plain data. simpl. by destruct plain.
  - intros key nonce plain data. change (aes_encrypt key nonce plain data) with ("sealed--by--aes:" ++ plain).
    rewrite length_sapp. cbn [String.length]. lia.
Qed.
#[export] Instance sample_mac : MacLaw.
Proof. intros key m. apply base256_length. Qed.

#[export] Instance sample_ip : IpLaw.
Proof. intros s. simpl. by left. Qed.

(** An instant in 2026, in microseconds. *)
Definition T0 : Z := 1767225600000000.

(** ** Witnesses of the naming properties *)

Definition shouted : string := " Shop.Customer.EXAMPLE. ".

Lemma canonicalize_sound_witness :
  exists h, canonicalize shouted = Ok h /\ canonical h /\ (3 <= List.length (split_on "."%char h))%nat.
Proof.
  exists "shop.customer.example". split; [reflexivity|].
  destruct (canonicalize_sound shouted "shop.customer.example") as (Hc & Hn & _); [reflexivity|]. by split.
Defined.

Lemma canonicalize_idempotent_witness :
  canonicalize shouted = Ok "shop.customer.example" /\
  canonicalize "shop.customer.example" = Ok "shop.customer.example".
Proof.
  split; [reflexivity|]. exact (canonicalize_idempotent shouted "shop.customer.example" eq_refl).
Defined.

(** Name servers at the registrable domain only. *)
Definition registrar : Resolver := {|
  r_txt := fun _ => Ok []; r_cname := fun _ => Ok None; r_has_address := fun _ => Ok false;
  r_ns := fun n => if String.eqb n "customer.example" then Ok ["ns1.dns.example"] else Err DnsNameNotFound |}.

Lemma find_zone_inside_witness :
  lookup_zone (find_zone registrar "a.shop.customer.example") = "customer.example" /\
  under "customer.example" (default_zone "a.shop.customer.example") = true.
Proof.
  split; [vm_compute; reflexivity|].
  exact (proj1 (find_zone_inside registrar "a.shop.customer.example")).
Defined.

(** A domain whose stored zone no longer encloses it. *)
Definition moved : Domain := {|
  dom_application_id := 1; dom_hostname := "shop.customer.example"; dom_reference := "ws1";
  dom_status := PENDING_DNS; dom_extra := None; dom_deleted_at := None; dom_purge_after := None;
  dom_zone := Some "elsewhere.example"; dom_connect_started_at := None; dom_created_at := T0;
  dom_updated_at := T0 |}.

Lemma domain_setup_spells_hostname_witness :
  exists su, domain_setup (empty_db T0) moved setup_settings = Ok su /\ su_host su = "shop" /\
    (su_host su = "@" /\ normalize_name (dom_hostname moved) = normalize_name (su_zone su) \/
     normalize_name (dom_hostname moved) = su_host su ++ "." ++ normalize_name (su_zone su)).
Proof.
  destruct (domain_setup_spells_hostname (empty_db T0) moved setup_settings) as (su & Hs & Hh).
  exists su. split; [exact Hs|]. split; [|exact Hh].
  assert (domain_setup (empty_db T0) moved setup_settings = Ok su) as E by exact Hs.
  vm_compute in E. injection E as <-. reflexivity.
Defined.
