(* ===== verification/Schemas.v ===== *)
(** * The domain resource (app/v1/schemas.py)

    What the v1 API and the webhook payloads show of a domain, as the JSON
    document pydantic makes of it. *)

From Stdlib Require Import Ascii String ZArith Lia.
From stdpp Require Import base gmap strings list sets.
From S2P Require Import Prelude PyStr Json Errors External Models Dns DnsSetup.
Open Scope string_scope.
Open Scope Z_scope.

Definition TXT_HELP : string :=
  "Create a TXT record with exactly this name and value. Many DNS providers expect only the part before your domain in the name field (for example `_custom-domain-challenge.forms`); do not add quotes and do not append the domain twice. Propagation can take up to the record's TTL.".
Definition CNAME_HELP : string :=
  "Point the hostname at the target with a CNAME record. Remove any A or AAAA record with the same name, do not proxy the record through a CDN until the domain is ready, and do not use a URL: the value is a hostname only.".

Record DnsRecord := {
  rec_name : string;
  rec_type : string;
  rec_value : string;
  rec_purpose : string;
  rec_help : string;
}.

Record CheckResult := {
  res_type : CheckType;
  res_status : CheckStatus;
  res_error_code : option string;
  res_message : option string;
  res_observed_at : option Z;
  res_next_check_at : option Z;
}.

Record DomainResource := {
  dr_id : N;
  dr_hostname : string;
  dr_reference : string;
  dr_status : DomainStatus;
  dr_dns_records : list DnsRecord;
  dr_setup : Setup;
  dr_checks : list CheckResult;
  dr_metadata : option dict;
  dr_created_at : Z;
  dr_updated_at : Z;
  dr_deleted_at : option Z;
}.

Definition dns_records_for (s : Db) (id : N) (d : Domain) : list DnsRecord :=
  match active_claim s id with
  | None => []
  | Some (_, claim) =>
      if bool_decide (claim_status claim = REVOKED) then [] else
      [ {| rec_name := claim_txt_record_name claim; rec_type := "TXT";
           rec_value := txt_record_value claim; rec_purpose := "ownership"; rec_help := TXT_HELP |};
        {| rec_name := dom_hostname d; rec_type := "CNAME";
           rec_value := claim_cname_target claim; rec_purpose := "routing"; rec_help := CNAME_HELP |} ]
  end.

(** One [CheckResult] per recorded check, in the order of [CheckType]. *)
Definition check_results (s : Db) (id : N) : list CheckResult :=
  omap (fun t =>
    (fun c => {| res_type := t; res_status := check_status c; res_error_code := check_error_code c;
                 res_message := check_message c; res_observed_at := check_observed_at c;
                 res_next_check_at := check_next_check_at c |}) <$> domain_check s id t)
    all_checks.

Section Resource.
Context `{External, Deployment}.

Definition domain_resource (s : Db) (id : N) (d : Domain) : res exn DomainResource :=
  match domain_setup s d (effective_setup_settings s) with
  | Err e => Err e
  | Ok setup =>
      Ok {| dr_id := id; dr_hostname := dom_hostname d; dr_reference := dom_reference d;
            dr_status := dom_status d; dr_dns_records := dns_records_for s id d;
            dr_setup := setup; dr_checks := check_results s id; dr_metadata := dom_extra d;
            dr_created_at := dom_created_at d; dr_updated_at := dom_updated_at d;
            dr_deleted_at := dom_deleted_at d |}
  end.

(** ** [model_dump(mode="json")] *)

Definition jopt (o : option string) : json := match o with Some v => JStr v | None => JNull end.
Definition jtime (o : option Z) : json :=
  match o with Some t => JStr (pydantic_datetime t) | None => JNull end.

Definition dump_record (r : DnsRecord) : json :=
  JObj [("name", JStr (rec_name r)); ("type", JStr (rec_type r)); ("value", JStr (rec_value r));
        ("purpose", JStr (rec_purpose r)); ("help", JStr (rec_help r))].

Definition dump_setup (u : Setup) : json :=
  JObj [("method", jopt (su_method u));
        ("provider",
           match su_provider_id u with
           | Some id => JObj [("id", JStr id); ("name", jopt (su_provider_name u))]
           | None => JNull
           end);
        ("zone", JStr (su_zone u)); ("host", JStr (su_host u));
        ("guide_url", jopt (su_guide_url u)); ("detected_at", jtime (su_detected_at u))].

Definition dump_check (c : CheckResult) : json :=
  JObj [("type", JStr (check_type_value (res_type c)));
        ("status", JStr (check_status_value (res_status c)));
        ("error_code", jopt (res_error_code c)); ("message", jopt (res_message c));
        ("observed_at", jtime (res_observed_at c)); ("next_check_at", jtime (res_next_check_at c))].

Definition dump_resource (r : DomainResource) : json :=
  JObj [("id", JStr (uuid_str (dr_id r))); ("hostname", JStr (dr_hostname r));
        ("reference", JStr (dr_reference r));
        ("status", JStr (domain_status_value (dr_status r)));
        ("dns_records", JArr (dump_record <$> dr_dns_records r));
        ("setup", dump_setup (dr_setup r)); ("checks", JArr (dump_check <$> dr_checks r));
        ("metadata", match dr_metadata r with Some m => JObj m | None => JNull end);
        ("created_at", jtime (Some (dr_created_at r))); ("updated_at", jtime (Some (dr_updated_at r)));
        ("deleted_at", jtime (dr_deleted_at r))].
End Resource.
