(* ===== verification/Webhooks.v ===== *)
(** * Webhook subscriptions and the transactional outbox (app/services/webhooks.py)

    Which domain events become webhooks, subscriptions and their secrets, the
    deliveries enqueued with an event, listing and replay.  The delivery worker is
    Delivery.v; that enqueuing never fails is in DomainProps.v. *)

From Stdlib Require Import Ascii String ZArith Lia.
From stdpp Require Import base gmap strings list sets.
From S2P Require Import Prelude PyStr Datetime Json Errors External Models Dns DnsSetup Schemas.
Open Scope string_scope.
Open Scope Z_scope.

Definition WEBHOOK_EVENT_TYPES : list string :=
  ["domain.ready"; "domain.attention_required"; "domain.recovered"; "domain.deleted"].
Definition SECRET_PREFIX : string := "whsec_".
Definition ROTATION_GRACE : Z := hours 24.
Definition MAX_SUBSCRIPTIONS : Z := 10.

Definition payload_str (k v : string) (d : dict) : bool :=
  match dget k d with Some (JStr s) => String.eqb s v | _ => false end.

Definition webhook_event_type (event : DomainEvent) : option string :=
  let payload := default [] (event_payload event) in
  if String.eqb (event_type event) (event_value STATUS_CHANGED) then
    if payload_str "to" (domain_status_value READY) payload then
      Some (if payload_str "reason" "recovered" payload then "domain.recovered" else "domain.ready")
    else if payload_str "to" (domain_status_value ATTENTION_REQUIRED) payload then
      Some "domain.attention_required"
    else None
  else if String.eqb (event_type event) (event_value DOMAIN_DELETED) then Some "domain.deleted"
  else None.

(** The parts of [urlsplit(url)] the check reads. *)
Record UrlParts := {
  url_scheme : string;
  url_hostname : option string;
  url_username : option string;
  url_password : option string;
  url_port : option (option Z);  (* [None]: reading [.port] raises ValueError *)
  url_path : string;
  url_query : string;
}.

Section Webhooks.
Context `{External, Deployment}.

(** [urllib.parse.urlsplit], a standard-library parser the check calls. *)
Context (urlsplit : string -> UrlParts).

Definition invalid_webhook : exn := ServiceError InvalidWebhook [].

(** [resolve_public]: the addresses of [host], public unless private ones are allowed. *)
Definition resolve_public (host : string) (port : Z) (allow_private : bool) : res exn (list string) :=
  match getaddrinfo host port with
  | None => Err invalid_webhook
  | Some infos =>
      let addresses := rev (remove_dups (rev infos)) in
      if bool_decide (addresses = []) then Err invalid_webhook
      else if allow_private then Ok addresses
      else if forallb ip_is_global addresses then Ok addresses
      else Err invalid_webhook
  end.

Definition validate_url (url : string) (allow_private : bool) : res exn string :=
  let parts := urlsplit (strip url) in
  match nonempty (url_hostname parts) with
  | None => Err invalid_webhook
  | Some host =>
      if negb (mem_str (url_scheme parts) ["https"; "http"]) then Err invalid_webhook
      else if String.eqb (url_scheme parts) "http" && negb allow_private then Err invalid_webhook
      else if bool_decide (is_Some (nonempty (url_username parts)))
              || bool_decide (is_Some (nonempty (url_password parts))) then Err invalid_webhook
      else match url_port parts with
           | None => Err invalid_webhook
           | Some port =>
               let fallback := if String.eqb (url_scheme parts) "https" then 443 else 80 in
               let port := match port with Some 0 | None => fallback | Some p => p end in
               match resolve_public host port allow_private with
               | Ok _ => Ok (strip url)
               | Err e => Err e
               end
           end
  end.

(** ** Subscriptions *)

Definition list_subscriptions (s : Db) (a : N) : list (N * WebhookSubscription) :=
  select_rows sub_created_at (fun _ r => bool_decide (sub_application_id r = a)) (db_subscriptions s).

Definition get_subscription (a k : N) : M WebhookSubscription :=
  r ← gets (fun s => db_subscriptions s !! k);
  r ← need r (ServiceError WebhookNotFound []);
  _ ← guard_ (bool_decide (sub_application_id r = a)) (ServiceError WebhookNotFound []);
  mret r.

Definition put_subscription (k : N) (r : WebhookSubscription) : M unit :=
  modify (fun s => s <| db_subscriptions ::= <[k := r <| sub_updated_at := db_clock s |>]> |>).

Definition create_subscription (a : N) (url : string) (events : list string) (allow_private : bool)
    : M (N * string) :=
  _ ← guard_ (negb (bool_decide (events = [])) && subset_str events WEBHOOK_EVENT_TYPES) invalid_webhook;
  active ← gets (fun s => List.filter (fun x => subscription_is_active x.2) (list_subscriptions s a));
  _ ← guard_ (Z.of_nat (List.length active) <? MAX_SUBSCRIPTIONS) invalid_webhook;
  draw ← fresh;
  let secret := SECRET_PREFIX +:+ token_urlsafe draw 32 in
  url ← lift (validate_url url allow_private);
  k ← fresh;
  now ← gets db_clock;
  _ ← put_subscription k {|
    sub_application_id := a; sub_url := url; sub_events := sorted_set events; sub_secret := secret;
    sub_previous_secret := None; sub_previous_secret_expires_at := None; sub_revoked_at := None;
    sub_created_at := now; sub_updated_at := now |};
  mret (k, secret).

Definition revoke_subscription (a k : N) (now : option Z) : M unit :=
  r ← get_subscription a k;
  if bool_decide (sub_revoked_at r = None) then
    now ← now_or now;
    put_subscription k (r <| sub_revoked_at := Some now |>)
  else mret tt.

Definition delete_subscription (a k : N) : M unit :=
  r ← get_subscription a k;
  _ ← guard_ (negb (bool_decide (sub_revoked_at r = None))) invalid_webhook;
  modify (fun s => s <| db_subscriptions ::= delete k |>
                     <| db_deliveries ::= filter (fun x => del_subscription_id x.2 <> k) |>).

Definition rotate_secret (a k : N) (grace : Z) (now : option Z) : M string :=
  now ← now_or now;
  r ← get_subscription a k;
  draw ← fresh;
  let secret := SECRET_PREFIX +:+ token_urlsafe draw 32 in
  _ ← put_subscription k (r <| sub_previous_secret := Some (sub_secret r) |>
                            <| sub_previous_secret_expires_at := Some (now + grace) |>
                            <| sub_secret := secret |>);
  mret secret.

Definition signing_secrets (r : WebhookSubscription) (now : Z) : list string :=
  sub_secret r ::
  match nonempty (sub_previous_secret r), sub_previous_secret_expires_at r with
  | Some previous, Some expires => if now <? expires then [previous] else []
  | _, _ => []
  end.

(** ** The outbox *)

Definition build_payload (s : Db) (event : DomainEvent) (webhook_type : string) (id : N) (d : Domain)
    : res exn json :=
  match domain_resource s id d with
  | Err e => Err e
  | Ok r =>
      Ok (JObj [("id", JStr (uuid_str (event_id event))); ("type", JStr webhook_type);
                ("created_at", JStr (isoformat (event_created_at event)));
                ("data", JObj [("domain", dump_resource r)])])
  end.

(** The subscriptions a webhook of type [t] goes to. *)
Definition wanting (s : Db) (a : N) (t : string) : list N :=
  fst <$> filter (fun x => sub_application_id x.2 = a /\ sub_revoked_at x.2 = None
                           /\ mem_str t (sub_events x.2) = true)
            (map_to_list (db_subscriptions s)).

Definition add_delivery (event : DomainEvent) (t : string) (id a : N) (payload : json) (sub : N) : M unit :=
  k ← fresh;
  now ← gets db_clock;
  modify (fun s => s <| db_deliveries ::= <[k := {|
    del_subscription_id := sub; del_application_id := a; del_event_id := event_id event;
    del_event_type := t; del_domain_id := Some id; del_payload := payload; del_attempts := 0;
    del_next_attempt_at := Some (event_created_at event); del_delivered_at := None;
    del_abandoned_at := None; del_last_attempt_at := None; del_last_status := None;
    del_last_error := None; del_created_at := now |}]> |>).

Definition enqueue_for_event (id : N) (event : DomainEvent) : M unit :=
  match webhook_event_type event with
  | None => mret tt
  | Some t =>
      d ← the_domain id;
      s ← get;
      match wanting s (dom_application_id d) t with
      | [] => mret tt
      | wanted =>
          payload ← lift (build_payload s event t id d);
          for_each wanted (add_delivery event t id (dom_application_id d) payload)
      end
  end.

(** ** Deliveries *)

Definition list_deliveries (a k : N) (state : option string) (limit offset : Z) : M (list (N * WebhookDelivery)) :=
  _ ← get_subscription a k;
  s ← get;
  let wanted (d : WebhookDelivery) : bool :=
    match state with
    | Some "delivered" => bool_decide (is_Some (del_delivered_at d))
    | Some "abandoned" => bool_decide (is_Some (del_abandoned_at d))
    | Some "pending" => bool_decide (del_delivered_at d = None) && bool_decide (del_abandoned_at d = None)
    | _ => true
    end in
  let rows := select_rows (fun d => - del_created_at d)
                (fun _ d => bool_decide (del_subscription_id d = k) && wanted d) (db_deliveries s) in
  mret (take (Z.to_nat (Z.max 1 (Z.min limit 200))) (drop (Z.to_nat (Z.max 0 offset)) rows)).

(** Queue a snapshot again. *)
Definition requeue (stamp : Z) (d : WebhookDelivery) : WebhookDelivery :=
  d <| del_delivered_at := None |> <| del_abandoned_at := None |>
    <| del_attempts := 0 |> <| del_next_attempt_at := Some stamp |>.

Definition replay_delivery (a k del : N) (now : option Z) : M unit :=
  _ ← get_subscription a k;
  d ← gets (fun s => db_deliveries s !! del);
  d ← need d (ServiceError DeliveryNotFound []);
  _ ← guard_ (bool_decide (del_subscription_id d = k)) (ServiceError DeliveryNotFound []);
  stamp ← now_or now;
  modify (fun s => s <| db_deliveries ::= <[del := requeue stamp d]> |>).


Definition replay_since (a k : N) (since : Z) (now : option Z) : M Z :=
  _ ← get_subscription a k;
  s ← get;
  let chosen (d : WebhookDelivery) : bool :=
    bool_decide (del_subscription_id d = k) && (since <=? del_created_at d) in
  stamp ← now_or now;
  _ ← modify (fun s => s <| db_deliveries ::= fmap (fun d => if chosen d then requeue stamp d else d) |>);
  mret (count_rows (fun _ d => chosen d) (db_deliveries s)).
End Webhooks.
