(* ===== verification/Delivery.v ===== *)
(** * The webhook delivery worker (app/webhooks/worker.py)

    Leasing a due delivery, sending it signed, and what is recorded afterwards; the
    batch; retiring the webhooks of deleted applications.  The worker holds no
    transaction while the request is in flight: what others commit meanwhile is an
    argument.  The row is read once and written back by column, as the session
    does, so an update made in flight survives only in the columns the worker does
    not change.  Theorems are in DeliveryProps.v. *)

From Stdlib Require Import Ascii String ZArith Lia.
From stdpp Require Import base gmap strings list sets sorting.
From S2P Require Import Prelude PyStr Datetime Json JsonText Errors External Models Signature.
From S2P Require Import Dns DnsSetup Schemas Webhooks.
Open Scope string_scope.
Open Scope Z_scope.

Definition BACKOFF : list Z := [minutes 1; minutes 5; minutes 30; hours 2; hours 12; hours 24].
Definition MAX_ATTEMPTS : Z := 8.
Definition LEASE : Z := minutes 2.
Definition USER_AGENT : string := "custom-domain-webhooks/1".
Definition HEADER : string := "X-Custom-Domain-Signature".

Definition pending (d : WebhookDelivery) : bool :=
  bool_decide (del_delivered_at d = None) && bool_decide (del_abandoned_at d = None).

(** [_due(now)] *)
Definition due (now : Z) (d : WebhookDelivery) : bool :=
  pending d && match del_next_attempt_at d with Some t => t <=? now | None => false end.

Definition due_delivery_ids (s : Db) (now : Z) (limit : nat) : list N :=
  take limit (fst <$> select_rows (fun d => default 0 (del_next_attempt_at d)) (fun _ d => due now d)
                        (db_deliveries s)).

Definition lease_delivery (k : N) (now : Z) : M bool :=
  s ← get;
  match db_deliveries s !! k with
  | Some d =>
      if due now d then
        _ ← modify (fun s => s <| db_deliveries ::= <[k := d <| del_next_attempt_at := Some (now + LEASE) |>]> |>);
        mret true
      else mret false
  | None => mret false
  end.

(** ** Sending *)

Record Request := {
  rq_url : string;
  rq_body : string;
  rq_headers : list (string * string);
}.

(** A [Sender]: the status and text of the answer, or the type and message of the
    exception it raised. *)
Definition Sender : Type := Request -> res (string * string) (Z * string).

(** What the socket layer does with a request to one address: connect with
    [host] as the TLS name when there is one, POST, read at most 4096 bytes. *)
Record PostCall := {
  pc_address : string;
  pc_port : Z;
  pc_tls_name : option string;
  pc_path : string;
  pc_headers : list (string * string);
  pc_body : string;
}.
Definition Transport : Type := PostCall -> res (string * string) (Z * string).

Section Sending.
Context `{External}.
Context (urlsplit : string -> UrlParts).

Definition allow_private_from_env : bool :=
  mem_str (lower (strip (default "" (environ "ORIGIN_ALLOW_PRIVATE")))) ["1"; "true"; "yes"; "on"].

Definition invalid_webhook_error : string * string := ("InvalidWebhook", "").

(** The connection [http_sender] makes, or the error it raises before connecting. *)
Definition http_call (r : Request) : res (string * string) PostCall :=
  let parts := urlsplit (rq_url r) in
  match nonempty (url_hostname parts) with
  | None => Err invalid_webhook_error
  | Some host =>
      if negb (mem_str (url_scheme parts) ["https"; "http"]) then Err invalid_webhook_error
      else if String.eqb (url_scheme parts) "http" && negb allow_private_from_env then Err invalid_webhook_error
      else match url_port parts with
           | None => Err ("ValueError", "")
           | Some port =>
               let fallback := if String.eqb (url_scheme parts) "https" then 443 else 80 in
               let port := match port with Some 0 | None => fallback | Some p => p end in
               match resolve_public host port allow_private_from_env with
               | Err _ => Err invalid_webhook_error
               | Ok [] => Err ("IndexError", "")
               | Ok (address :: _) =>
                   let path := if String.eqb (url_path parts) "" then "/" else url_path parts in
                   let path := if String.eqb (url_query parts) "" then path else path ++ "?" ++ url_query parts in
                   let host_header := if (port =? 80) || (port =? 443) then host else host ++ ":" ++ py_str port in
                   Ok {| pc_address := address; pc_port := port;
                         pc_tls_name := if String.eqb (url_scheme parts) "https" then Some host else None;
                         pc_path := path;
                         pc_headers := foldl (fun d h => sset h.1 h.2 d) [("Host", host_header)] (rq_headers r);
                         pc_body := rq_body r |}
               end
           end
  end.

Definition http_sender (transport : Transport) : Sender := fun r =>
  match http_call r with
  | Err e => Err e
  | Ok call =>
      match transport call with
      | Ok (status, text) => Ok (status, utake 500 text)
      | Err e => Err e
      end
  end.

(** The signed request of an attempt. *)
Definition attempt_body (d : WebhookDelivery) : string := dumps_sorted (del_payload d).
Definition attempt_request (k : N) (d : WebhookDelivery) (sub : WebhookSubscription) (now : Z) : Request :=
  let body := attempt_body d in
  {| rq_url := sub_url sub;
     rq_body := body;
     rq_headers :=
       [("Content-Type", "application/json"); ("User-Agent", USER_AGENT);
        (HEADER, Signature.sign body (signing_secrets sub now) (Z.quot now 1000000));
        ("X-Custom-Domain-Event", del_event_type d);
        ("X-Custom-Domain-Event-Id", uuid_str (del_event_id d));
        ("X-Custom-Domain-Delivery-Id", uuid_str k);
        ("X-Custom-Domain-Attempt", py_str (del_attempts d + 1))] |}.
End Sending.

(** ** One attempt *)

Inductive AttemptOutcome := SKIPPED | DELIVERED | RETRY | ABANDONED.
#[export] Instance AttemptOutcome_eq_dec : EqDecision AttemptOutcome.
Proof. solve_decision. Defined.

(** The [status] and [error] of an answer. *)
Definition status_error (answer : res (string * string) (Z * string)) : option Z * option string :=
  match answer with
  | Ok (status, text) =>
      (Some status, if (200 <=? status) && (status <? 300) then None
                    else Some ("HTTP " ++ py_str status ++ ": " ++ utake 200 text))
  | Err (type, message) => (None, Some (utake 500 (type ++ ": " ++ message)))
  end.

(** The attributes assigned after the answer, [None] when [BACKOFF] has no such index. *)
Definition attempted (d : WebhookDelivery) (now : Z) (status : option Z) (error : option string)
    : option (AttemptOutcome * WebhookDelivery) :=
  let attempts := del_attempts d + 1 in
  let d := d <| del_attempts := attempts |> <| del_last_attempt_at := Some now |>
             <| del_last_status := status |> <| del_last_error := error |> in
  match error with
  | None => Some (DELIVERED, d <| del_delivered_at := Some now |> <| del_next_attempt_at := None |>)
  | Some _ =>
      if MAX_ATTEMPTS <=? attempts then
        Some (ABANDONED, d <| del_abandoned_at := Some now |> <| del_next_attempt_at := None |>)
      else
        delay ← py_nth BACKOFF (Z.min attempts (Z.of_nat (List.length BACKOFF)) - 1);
        Some (RETRY, d <| del_next_attempt_at := Some (now + delay) |>)
  end.

(** [UPDATE] of the columns whose attribute changed since the row was read. *)
Definition write_changed {A} `{EqDecision A} (loaded assigned current : A) : A :=
  if decide (loaded = assigned) then current else assigned.
Definition flush_delivery (loaded assigned current : WebhookDelivery) : WebhookDelivery :=
  current
    <| del_attempts := write_changed (del_attempts loaded) (del_attempts assigned) (del_attempts current) |>
    <| del_next_attempt_at := write_changed (del_next_attempt_at loaded) (del_next_attempt_at assigned)
                                (del_next_attempt_at current) |>
    <| del_delivered_at := write_changed (del_delivered_at loaded) (del_delivered_at assigned)
                             (del_delivered_at current) |>
    <| del_abandoned_at := write_changed (del_abandoned_at loaded) (del_abandoned_at assigned)
                             (del_abandoned_at current) |>
    <| del_last_attempt_at := write_changed (del_last_attempt_at loaded) (del_last_attempt_at assigned)
                                (del_last_attempt_at current) |>
    <| del_last_status := write_changed (del_last_status loaded) (del_last_status assigned)
                            (del_last_status current) |>
    <| del_last_error := write_changed (del_last_error loaded) (del_last_error assigned)
                           (del_last_error current) |>.

(** A row another transaction removed makes the UPDATE fail. *)
Definition update_delivery (k : N) (loaded assigned : WebhookDelivery) : M unit :=
  current ← gets (fun s => db_deliveries s !! k);
  current ← need current PyRuntimeError;
  modify (fun s => s <| db_deliveries ::= <[k := flush_delivery loaded assigned current]> |>).

(** The subscription, unless it is gone or revoked. *)
Definition active_subscription (s : Db) (k : N) : option WebhookSubscription :=
  match db_subscriptions s !! k with
  | Some sub => if subscription_is_active sub then Some sub else None
  | None => None
  end.
Definition unsendable (d : WebhookDelivery) (now : Z) : WebhookDelivery :=
  d <| del_abandoned_at := Some now |> <| del_last_error := Some "subscription revoked" |>.

(** What other transactions commit after the lease and while the request is in flight. *)
Record SendGaps := { sg_leased : Db -> Db; sg_sent : Db -> Db }.
Definition quiet : SendGaps := {| sg_leased := fun s => s; sg_sent := fun s => s |}.

Section Attempts.
Context `{External}.

Definition attempt_delivery (gaps : SendGaps) (sender : Sender) (k : N) (now : option Z) : M AttemptOutcome :=
  now ← now_or now;
  leased ← transaction (lease_delivery k now);
  if negb leased then mret SKIPPED else
  _ ← modify (sg_leased gaps);
  d ← gets (fun s => db_deliveries s !! k);
  d ← need d PyAttributeError;
  sub ← gets (fun s => active_subscription s (del_subscription_id d));
  match sub with
  | None =>
      _ ← transaction (update_delivery k d (unsendable d now));
      mret ABANDONED
  | Some sub =>
      let '(status, error) := status_error (sender (attempt_request k d sub now)) in
      _ ← modify (sg_sent gaps);
      result ← need (attempted d now status error) PyIndexError;
      _ ← transaction (update_delivery k d result.2);
      mret result.1
  end.

(** ** A batch *)

Record DeliveryResult := { dr_attempted : Z; dr_delivered : Z; dr_failed : Z }.

Definition count_outcome (r : DeliveryResult) (o : res exn AttemptOutcome) : DeliveryResult :=
  match o with
  | Err _ => {| dr_attempted := dr_attempted r; dr_delivered := dr_delivered r; dr_failed := dr_failed r + 1 |}
  | Ok SKIPPED => r
  | Ok DELIVERED => {| dr_attempted := dr_attempted r + 1; dr_delivered := dr_delivered r + 1;
                       dr_failed := dr_failed r |}
  | Ok _ => {| dr_attempted := dr_attempted r + 1; dr_delivered := dr_delivered r; dr_failed := dr_failed r + 1 |}
  end.

Fixpoint deliver_all (gaps : N -> SendGaps) (sender : Sender) (now : option Z) (ks : list N)
    (r : DeliveryResult) (s : Db) : DeliveryResult * Db :=
  match ks with
  | [] => (r, s)
  | k :: ks =>
      let '(o, s) := attempt_delivery (gaps k) sender k now s in
      deliver_all gaps sender now ks (count_outcome r o) s
  end.

Definition deliver_due (gaps : N -> SendGaps) (sender : Sender) (now : option Z) (limit : nat) (s : Db)
    : DeliveryResult * Db :=
  deliver_all gaps sender now (due_delivery_ids s (default (db_clock s) now) limit)
    {| dr_attempted := 0; dr_delivered := 0; dr_failed := 0 |} s.

(** ** Webhooks of deleted applications *)

Definition settled (s : Db) (k : N) (sub : WebhookSubscription) : bool :=
  subscription_is_active sub
  && match db_applications s !! sub_application_id sub with
     | Some a => application_is_deleted a
     | None => false
     end
  && negb (existsb (fun x => bool_decide (del_subscription_id x.2 = k) && pending x.2)
             (map_to_list (db_deliveries s))).

Definition settle_deleted_applications (now : option Z) : M Z :=
  now ← now_or now;
  s ← get;
  _ ← modify (fun s => s <| db_subscriptions := map_imap (fun k sub =>
        Some (if settled s k sub then sub <| sub_revoked_at := Some now |> <| sub_updated_at := db_clock s |>
              else sub)) (db_subscriptions s) |>);
  mret (count_rows (settled s) (db_subscriptions s)).

(** One pass of the worker's loop. *)
Definition run_once (gaps : N -> SendGaps) (sender : Sender) (batch_size : nat) (s : Db) : DeliveryResult * Db :=
  let '(r, s) := deliver_due gaps sender None batch_size s in
  (r, (transaction (settle_deleted_applications None) s).2).
End Attempts.
