(* ===== verification/DeliveryProps.v ===== *)
(** * Properties of the delivery worker

    An attempt computed row by row and its theorems: the lease excludes other
    workers; no delivery is attempted more than eight times, and one that nobody
    answers is given up at the eighth; every request verifies at the consumer and
    carries the queued payload; only public addresses are connected to; retiring a
    deleted application's webhooks leaves none of its deliveries behind. *)

From Stdlib Require Import Ascii String ZArith Lia.
From stdpp Require Import base gmap strings list sets sorting.
From S2P Require Import Prelude PyStr Datetime Json JsonText Errors External Models Signature.
From S2P Require Import Dns DnsSetup Schemas Webhooks Delivery.
Open Scope string_scope.
Open Scope Z_scope.

Section Rows.
Context `{External}.

(** What an attempt made at [n] of the row [d] (as leased) gives. *)
Definition attempt_result (sub : option WebhookSubscription) (sender : Sender) (k : N) (n : Z)
    (d : WebhookDelivery) : option (AttemptOutcome * WebhookDelivery) :=
  match sub with
  | None => Some (ABANDONED, unsendable d n)
  | Some sub => let '(status, error) := status_error (sender (attempt_request k d sub n)) in
                attempted d n status error
  end.

Definition leased (n : Z) (d : WebhookDelivery) : WebhookDelivery := d <| del_next_attempt_at := Some (n + LEASE) |>.

(** Other transactions leave the row alone while it is leased. *)
Definition spares (k : N) (g : SendGaps) : Prop :=
  (forall s, db_deliveries (sg_leased g s) !! k = db_deliveries s !! k) /\
  (forall s, db_deliveries (sg_sent g s) !! k = db_deliveries s !! k).
Definition spares_subscriptions (g : SendGaps) : Prop :=
  (forall s, db_subscriptions (sg_leased g s) = db_subscriptions s) /\
  (forall s, db_subscriptions (sg_sent g s) = db_subscriptions s).

Lemma write_changed_same {A} `{EqDecision A} (l a : A) : write_changed l a l = a.
Proof. unfold write_changed. by case_decide. Qed.

Lemma flush_unsendable d n : flush_delivery d (unsendable d n) d = unsendable d n.
Proof. unfold flush_delivery. rewrite !write_changed_same. by destruct d. Qed.
Lemma flush_attempted d n status error o d' :
  attempted d n status error = Some (o, d') -> flush_delivery d d' d = d'.
Proof.
  unfold flush_delivery. rewrite !write_changed_same. unfold attempted.
  destruct error; [case_match|]; [intros [= _ <-]|destruct (py_nth _ _); [|done]; intros [= _ <-]|intros [= _ <-]];
    by destruct d.
Qed.

(** Up to eight attempts there is a delay for the next one. *)
Lemma attempted_total d n status error :
  0 <= del_attempts d -> is_Some (attempted d n status error).
Proof.
  intros Ha. unfold attempted. destruct error; [|eauto]. case_match; [eauto|].
  destruct (py_nth _ _) eqn:E; [eauto|]. exfalso. revert E. unfold py_nth.
  destruct (Z.ltb_spec (Z.min (del_attempts d + 1) (Z.of_nat (List.length BACKOFF)) - 1) 0) as [Hlt|];
    [simpl in Hlt; lia|].
  rewrite (proj2 (Z.ltb_ge _ _)) by done. intros Hn%nth_error_None. change (List.length BACKOFF) with 6%nat in *. lia.
Qed.

Lemma attempt_not_due gaps sender k now s :
  match db_deliveries s !! k with Some d => due (default (db_clock s) now) d = false | None => True end ->
  attempt_delivery gaps sender k now s = (Ok SKIPPED, s).
Proof.
  intros Hd. unfold attempt_delivery. rewrite bind_run.
  assert (now_or now s = (Ok (default (db_clock s) now), s)) as -> by (by destruct now).
  rewrite bind_run. unfold transaction, savepoint, lease_delivery. rewrite bind_run. simpl.
  destruct (db_deliveries s !! k) as [d|]; [rewrite Hd|]; reflexivity.
Qed.

(** What an attempt of a due delivery returns and leaves in its row. *)
Lemma attempt_row gaps sender k now s d :
  spares k gaps -> db_deliveries s !! k = Some d -> due (default (db_clock s) now) d = true ->
  0 <= del_attempts d ->
  exists sub o d' s', attempt_delivery gaps sender k now s = (Ok o, s') /\
    attempt_result sub sender k (default (db_clock s) now) (leased (default (db_clock s) now) d) = Some (o, d') /\
    db_deliveries s' !! k = Some d' /\
    (spares_subscriptions gaps ->
     sub = active_subscription s (del_subscription_id d) /\ db_subscriptions s' = db_subscriptions s).
Proof.
  intros [Hg1 Hg2] Hk Hdue Ha. set (n := default (db_clock s) now) in *. unfold attempt_delivery. rewrite bind_run.
  assert (now_or now s = (Ok n, s)) as -> by (by destruct now). rewrite bind_run.
  assert (transaction (lease_delivery k n) s
    = (Ok true, s <| db_deliveries ::= <[k := leased n d]> |>)) as ->.
  { unfold transaction, savepoint, lease_delivery. rewrite bind_run. simpl. rewrite Hk, Hdue. reflexivity. }
  set (s1 := s <| db_deliveries ::= <[k := leased n d]> |>).
  assert (db_deliveries (sg_leased gaps s1) !! k = Some (leased n d)) as Hk1
    by (rewrite Hg1; apply lookup_insert_eq).
  cbn [negb]. rewrite bind_run. cbn [modify]. rewrite bind_run. cbn [gets]. rewrite Hk1.
  set (s2 := sg_leased gaps s1) in *. rewrite bind_run. cbn [need mret SM_ret]. rewrite bind_run. cbn [gets].
  change (del_subscription_id (leased n d)) with (del_subscription_id d).
  assert (forall a o t, flush_delivery (leased n d) a (leased n d) = a ->
    db_deliveries t !! k = Some (leased n d) ->
    ((_ ← transaction (update_delivery k (leased n d) a); mret o) t : res exn AttemptOutcome * Db)
    = (Ok o, t <| db_deliveries ::= <[k := a]> |>)) as Hup.
  { intros a o t Hf Ht. rewrite bind_run. unfold transaction, savepoint, update_delivery. rewrite bind_run.
    cbn [gets]. rewrite Ht. simpl. by rewrite Hf. }
  destruct (active_subscription s2 (del_subscription_id d)) as [sub|] eqn:Es.
  - destruct (status_error (sender (attempt_request k (leased n d) sub n))) as [status error] eqn:Eo.
    rewrite bind_run. cbn [modify]. destruct (attempted_total (leased n d) n status error Ha) as [[o d'] Ed].
    rewrite Ed, bind_run. cbn [need mret SM_ret fst snd].
    rewrite Hup by ((by eapply flush_attempted) || (by rewrite Hg2)).
    eexists (Some sub), o, d', _. split; [done|]. split; [unfold attempt_result; by rewrite Eo|].
    split; [apply lookup_insert_eq|]. intros [Hs1 Hs2].
    assert (db_subscriptions s2 = db_subscriptions s) as Hss by apply (Hs1 s1).
    split; [|by rewrite <- Hss, <- (Hs2 s2)]. rewrite <- Es. unfold active_subscription. by rewrite Hss.
  - rewrite Hup by (apply flush_unsendable || done).
    eexists None, ABANDONED, _, _. split; [done|]. split; [done|]. split; [apply lookup_insert_eq|].
    intros [Hs1 _].
    assert (db_subscriptions s2 = db_subscriptions s) as Hss by apply (Hs1 s1).
    split; [|by rewrite <- Hss]. rewrite <- Es. unfold active_subscription. by rewrite Hss.
Qed.

(** A worker that took a delivery has it to itself: until its lease runs out no
    attempt of another worker sends anything or changes anything. *)
Theorem lease_excludes gaps sender k now s d n :
  db_deliveries s !! k = Some d -> del_next_attempt_at d = Some (n + LEASE) ->
  default (db_clock s) now < n + LEASE ->
  attempt_delivery gaps sender k now s = (Ok SKIPPED, s).
Proof.
  intros Hk Hn Hlt. apply attempt_not_due. rewrite Hk. unfold due. rewrite Hn, (proj2 (Z.leb_gt _ _)) by done.
  apply andb_false_r.
Qed.

(** ** How often a delivery is attempted *)

Record Attempt := { at_gaps : SendGaps; at_sender : Sender; at_now : Z }.

Fixpoint run_attempts (k : N) (l : list Attempt) (s : Db) : list (res exn AttemptOutcome) * Db :=
  match l with
  | [] => ([], s)
  | a :: l =>
      let '(o, s) := attempt_delivery (at_gaps a) (at_sender a) k (Some (at_now a)) s in
      let '(os, s) := run_attempts k l s in (o :: os, s)
  end.

Definition made (o : res exn AttemptOutcome) : bool := match o with Ok SKIPPED => false | _ => true end.

(** How many attempts a row has left. *)
Definition attempts_left (d : WebhookDelivery) : Z := if pending d then MAX_ATTEMPTS - del_attempts d else 0.
Definition in_bounds (d : WebhookDelivery) : Prop := 0 <= del_attempts d /\ (pending d = true -> del_attempts d < MAX_ATTEMPTS).

Lemma pending_leased n d : pending (leased n d) = pending d.
Proof. done. Qed.
Lemma due_pending n d : due n d = true -> pending d = true.
Proof. unfold due. by destruct (pending d). Qed.

Lemma not_pending n (d : WebhookDelivery) :
  del_delivered_at d = Some n \/ del_abandoned_at d = Some n -> pending d = false.
Proof. unfold pending. intros [->| ->]; [done|]. by rewrite andb_false_r. Qed.

Lemma attempt_result_bounds sub sender k n d o d' :
  in_bounds d -> pending d = true -> attempt_result sub sender k n d = Some (o, d') ->
  in_bounds d' /\ o <> SKIPPED /\ attempts_left d' <= attempts_left d - 1 /\ (pending d' = true -> o = RETRY).
Proof.
  intros [Ha Hlt] Hp Hr. specialize (Hlt Hp). unfold attempts_left, in_bounds. rewrite Hp.
  assert (forall (e : WebhookDelivery) q, del_delivered_at e = Some n \/ del_abandoned_at e = Some n ->
    0 <= del_attempts e -> q <> SKIPPED ->
    (0 <= del_attempts e /\ (pending e = true -> del_attempts e < MAX_ATTEMPTS)) /\ q <> SKIPPED /\
    (if pending e then MAX_ATTEMPTS - del_attempts e else 0) <= MAX_ATTEMPTS - del_attempts d - 1 /\
    (pending e = true -> q = RETRY)) as Hdone.
  { intros e q He Hae Hq. rewrite (not_pending n e He). repeat split; (done || lia). }
  unfold attempt_result in Hr. destruct sub as [sub|]; [|injection Hr as <- <-; apply Hdone; [by right|done|done]].
  destruct (status_error _) as [status error]. unfold attempted in Hr.
  destruct error as [error|]; [|injection Hr as <- <-; apply Hdone; [by left|simpl; lia|done]].
  destruct (Z.leb_spec MAX_ATTEMPTS (del_attempts d + 1)) as [Hm|Hm];
    [injection Hr as <- <-; apply Hdone; [by right|simpl; lia|done]|].
  destruct (py_nth _ _) as [delay|]; [|done]. injection Hr as <- <-.
  match goal with |- context [pending ?e] => change (pending e) with (pending d) end.
  rewrite Hp. simpl. repeat split; (done || lia).
Qed.

(** C18: However often the worker picks a delivery up, one attempt after another, and
    whatever the answers, the attempts made of it are bounded: a row that is not yet
    delivered or abandoned and counts n attempts, n below eight, is attempted at most
    8 - n times more, and a delivered or abandoned row never.  (Nobody else changes the
    row between an attempt's lease and the commit of its result: the lease keeps other
    workers away for two minutes, [lease_excludes].  A request that outlived its lease
    could be made again, and the two would count once.) *)
Theorem attempts_are_bounded k l s d :
  Forall (fun a => spares k (at_gaps a)) l -> db_deliveries s !! k = Some d -> in_bounds d ->
  Z.of_nat (List.length (List.filter made (run_attempts k l s).1)) <= attempts_left d.
Proof.
  revert s d. induction l as [|a l IH]; intros s d Hl Hk Hb; simpl.
  { unfold attempts_left. destruct Hb as [? Hb]. destruct (pending d); [specialize (Hb eq_refl); lia|lia]. }
  apply Forall_cons in Hl as [Ha Hl]. destruct (due (at_now a) d) eqn:Hdue.
  - destruct (attempt_row (at_gaps a) (at_sender a) k (Some (at_now a)) s d) as (sub & o & d' & s' & -> & Hr & Hk' & _);
      [done|done|done|apply Hb|].
    apply due_pending in Hdue.
    destruct (attempt_result_bounds _ _ _ _ (leased (at_now a) d) _ _ Hb Hdue Hr) as (Hb' & Ho & Hle & _).
    destruct (run_attempts k l s') as [os s''] eqn:Er. specialize (IH s' d' Hl Hk' Hb'). rewrite Er in IH.
    cbn [fst] in *. cbn [List.filter]. assert (made (Ok o) = true) as -> by (by destruct o). cbn [List.length].
    change (attempts_left (leased (at_now a) d)) with (attempts_left d) in Hle. lia.
  - rewrite attempt_not_due by (by rewrite Hk). destruct (run_attempts k l s) as [os s''] eqn:Er.
    specialize (IH s d Hl Hk Hb). by rewrite Er in IH.
Qed.

(** Each attempt at least a day after the one before, the first not before [t]. *)
Fixpoint spaced (t : Z) (l : list Attempt) : Prop :=
  match l with
  | [] => True
  | a :: l => t <= at_now a /\ spaced (at_now a + hours 24) l
  end.

(** An attempt nobody answers well, on which nothing else interferes. *)
Definition unanswered (k : N) (a : Attempt) : Prop :=
  spares k (at_gaps a) /\ spares_subscriptions (at_gaps a) /\
  forall r, (status_error (at_sender a r)).2 <> None.

Lemma backoff_within_a_day i delay : py_nth BACKOFF i = Some delay -> delay <= hours 24.
Proof.
  unfold py_nth. case_match; [done|]. intros Hn%nth_error_In. simpl in Hn.
  repeat (destruct Hn as [<-|Hn]; [by vm_compute|]). done.
Qed.

Lemma unanswered_result k a sub d o d' :
  unanswered k a -> attempt_result (Some sub) (at_sender a) k (at_now a) d = Some (o, d') ->
  del_attempts d' = del_attempts d + 1 /\ del_subscription_id d' = del_subscription_id d /\
  (if MAX_ATTEMPTS <=? del_attempts d + 1 then o = ABANDONED /\ del_abandoned_at d' = Some (at_now a)
   else o = RETRY /\ pending d' = pending d /\
        exists t, del_next_attempt_at d' = Some t /\ t <= at_now a + hours 24).
Proof.
  intros (_ & _ & Hs). unfold attempt_result. specialize (Hs (attempt_request k d sub (at_now a))).
  destruct (status_error _) as [status error]. unfold attempted. destruct error as [error|]; [|done].
  destruct (MAX_ATTEMPTS <=? del_attempts d + 1); [by intros [= <- <-]|].
  destruct (py_nth _ _) as [delay|] eqn:E; [|done]. intros [= <- <-]. simpl. repeat split.
  exists (at_now a + delay). split; [done|]. apply backoff_within_a_day in E. lia.
Qed.

Lemma unanswered_step k a s d t sub :
  unanswered k a -> db_deliveries s !! k = Some d -> pending d = true -> 0 <= del_attempts d ->
  del_next_attempt_at d = Some t -> t <= at_now a ->
  active_subscription s (del_subscription_id d) = Some sub ->
  exists o d' s', attempt_delivery (at_gaps a) (at_sender a) k (Some (at_now a)) s = (Ok o, s') /\
    db_deliveries s' !! k = Some d' /\ active_subscription s' (del_subscription_id d') = Some sub /\
    del_attempts d' = del_attempts d + 1 /\
    (if MAX_ATTEMPTS <=? del_attempts d + 1 then o = ABANDONED /\ del_abandoned_at d' = Some (at_now a)
     else o = RETRY /\ pending d' = true /\
          exists t, del_next_attempt_at d' = Some t /\ t <= at_now a + hours 24).
Proof.
  intros Hu Hk Hp Ha Hn Ht Hsub. pose proof Hu as (Hg & Hgs & _).
  destruct (attempt_row (at_gaps a) (at_sender a) k (Some (at_now a)) s d) as (sub' & o & d' & s' & Hrun & Hr & Hk' & Hs);
    [done|done|unfold due; simpl; rewrite Hp, Hn; by apply Z.leb_le|done|].
  destruct (Hs Hgs) as [-> Hsubs]. rewrite Hsub in Hr.
  destruct (unanswered_result k a sub (leased (at_now a) d) o d' Hu Hr) as (Hatt & Hid & Hcase).
  exists o, d', s'. split; [done|]. split; [done|]. split.
  { rewrite Hid. change (del_subscription_id (leased (at_now a) d)) with (del_subscription_id d).
    rewrite <- Hsub. unfold active_subscription. by rewrite Hsubs. }
  split; [done|]. change (del_attempts (leased (at_now a) d)) with (del_attempts d) in Hcase.
  change (pending (leased (at_now a) d)) with (pending d) in Hcase. by rewrite Hp in Hcase.
Qed.

Lemma unanswered_run k l m s d t sub :
  List.length l = S m -> Forall (unanswered k) l -> spaced t l ->
  db_deliveries s !! k = Some d -> pending d = true -> del_attempts d = 7 - Z.of_nat m -> (m <= 7)%nat ->
  (exists t', del_next_attempt_at d = Some t' /\ t' <= t) ->
  active_subscription s (del_subscription_id d) = Some sub ->
  (run_attempts k l s).1 = (replicate m (Ok RETRY) ++ [Ok ABANDONED])%list /\
  exists d', db_deliveries (run_attempts k l s).2 !! k = Some d' /\ pending d' = false /\ del_attempts d' = 8.
Proof.
  revert l s d t. induction m as [|m IH]; intros [|a l] s d t Hlen Hl Hsp Hk Hp Ha Hm (t' & Hn & Ht') Hsub; try done;
    apply Forall_cons in Hl as [Hu Hl]; destruct Hsp as [Ht Hsp];
    destruct (unanswered_step k a s d t' sub) as (o & d' & s' & Hrun & Hk' & Hsub' & Hatt & Hcase);
      try done; try lia; cbn [run_attempts]; rewrite Hrun.
  - rewrite (proj2 (Z.leb_le _ _)) in Hcase by (unfold MAX_ATTEMPTS; lia). destruct Hcase as [-> Hab].
    destruct l as [|]; [|done]. cbn [run_attempts]. split; [done|]. exists d'. split; [done|].
    split; [by eapply not_pending; right|lia].
  - rewrite (proj2 (Z.leb_gt _ _)) in Hcase by (unfold MAX_ATTEMPTS; lia). destruct Hcase as (-> & Hp' & Hn').
    specialize (IH l s' d' (at_now a + hours 24)). destruct (run_attempts k l s') as [os s''].
    destruct IH as [Hos Hd]; try done; try lia; [by injection Hlen|]. cbn [fst] in *. by rewrite Hos.
Qed.

(** A delivery that is never answered is retried seven times and given up at its
    eighth attempt: with attempts at least a day apart every one of them is due. *)
Theorem unanswered_is_given_up k l s d t sub :
  List.length l = 8%nat -> Forall (unanswered k) l -> spaced t l ->
  db_deliveries s !! k = Some d -> pending d = true -> del_attempts d = 0 -> del_next_attempt_at d = Some t ->
  active_subscription s (del_subscription_id d) = Some sub ->
  (run_attempts k l s).1 = (replicate 7 (Ok RETRY) ++ [Ok ABANDONED])%list /\
  exists d', db_deliveries (run_attempts k l s).2 !! k = Some d' /\ pending d' = false /\ del_attempts d' = 8.
Proof.
  intros Hlen Hl Hsp Hk Hp Ha Hn Hsub. apply (unanswered_run k l 7 s d t sub); try done.
  exists t. split; [done|lia].
Qed.

(** ** What is sent *)

(** The secrets a consumer may hold are among those an attempt signs with. *)
Lemma secret_signs sub n secret :
  secret = sub_secret sub \/
  (exists e, sub_previous_secret sub = Some secret /\ secret <> "" /\
             sub_previous_secret_expires_at sub = Some e /\ n < e) ->
  secret ∈ signing_secrets sub n.
Proof.
  unfold signing_secrets. intros [->|(e & Hprev & Hne & He & Hlt)]; [by left|right].
  rewrite Hprev, He. assert (nonempty (Some secret) = Some secret) as -> by (by destruct secret).
  rewrite (proj2 (Z.ltb_lt _ _)) by done. by left.
Qed.

(** The request of every attempt verifies at the consumer with the secret the
    subscription shows, and during a rotation's grace with the previous one, and its
    body is the JSON text of the payload that was queued. *)
Theorem sent_request_verifies k d sub n secret tolerance :
  printable (del_payload d) -> 0 <= tolerance ->
  (secret = sub_secret sub \/
   (exists e, sub_previous_secret sub = Some secret /\ secret <> "" /\
              sub_previous_secret_expires_at sub = Some e /\ n < e)) ->
  let r := attempt_request k d sub n in
  rq_url r = sub_url sub /\
  Signature.verify (sget HEADER (rq_headers r)) (rq_body r) [secret] (Z.quot n 1000000) tolerance
    = Ok (Z.quot n 1000000) /\
  loads (rq_body r) = Some (sort_json (del_payload d)).
Proof.
  intros Hp Ht Hs r. split; [done|]. split; [|by apply loads_dumps_sorted].
  change (sget HEADER (rq_headers r))
    with (Some (Signature.sign (rq_body r) (signing_secrets sub n) (Z.quot n 1000000))).
  apply signature_round_trip with secret; [by apply secret_signs|by left|by rewrite Z.sub_diag].
Qed.

(** Unless private addresses are allowed, a webhook request goes over TLS to an
    address that is public and that the host resolved to when it was sent. *)
Theorem only_public_addresses urlsplit r call :
  http_call urlsplit r = Ok call ->
  pc_body call = rq_body r /\
  exists host, nonempty (url_hostname (urlsplit (rq_url r))) = Some host /\
    (exists l, getaddrinfo host (pc_port call) = Some l /\ pc_address call ∈ l) /\
    (allow_private_from_env = false -> pc_tls_name call = Some host /\ ip_is_global (pc_address call) = true).
Proof.
  unfold http_call. destruct (nonempty _) as [host|]; [|done].
  destruct (mem_str _ _) eqn:Em; [|done]. cbn [negb].
  destruct (String.eqb (url_scheme _) "http" && negb allow_private_from_env) eqn:Eh; [done|].
  destruct (url_port _) as [port|]; [|done]. cbv zeta. set (p := match port with Some 0 | None => _ | Some p => p end).
  destruct (resolve_public _ _ _) as [[|address l]|] eqn:Er; try done. intros [= <-].
  cbn [pc_body pc_address pc_port pc_tls_name]. split; [done|].
  exists host. split; [done|]. unfold resolve_public in Er.
  destruct (getaddrinfo host p) as [infos|] eqn:Eg; [|done]. case_bool_decide; [done|].
  assert (rev (remove_dups (rev infos)) = address :: l) as Haddr
    by (destruct allow_private_from_env; [congruence|]; destruct (forallb _ _); congruence).
  split.
  - exists infos. split; [done|]. assert (address ∈ rev (remove_dups (rev infos))) as Hin by (rewrite Haddr; by left).
    rewrite list_elem_of_In, <- in_rev, <- list_elem_of_In, elem_of_remove_dups in Hin.
    by rewrite list_elem_of_In, <- in_rev, <- list_elem_of_In in Hin.
  - intros Hpriv. rewrite Hpriv in Er, Eh. rewrite andb_true_r in Eh.
    destruct (String.eqb_spec (url_scheme (urlsplit (rq_url r))) "http") as [|Hn]; [done|].
    apply mem_str_true in Em. rewrite !elem_of_cons in Em. destruct Em as [->|[?|?%not_elem_of_nil]]; [|done|done].
    split; [done|]. destruct (forallb ip_is_global _) eqn:Ef; [|done]. rewrite Haddr in Ef.
    by apply andb_prop in Ef as [? _].
Qed.

(** ** Retiring the webhooks of deleted applications *)

(** A webhook is retired exactly when its application is deleted and none of its
    deliveries is pending, so no delivery is ever dropped by it. *)
Theorem settle_exact now s k sub :
  db_subscriptions s !! k = Some sub ->
  exists n s', settle_deleted_applications now s = (Ok n, s') /\
    db_deliveries s' = db_deliveries s /\
    (active_subscription s' k = active_subscription s k \/
     active_subscription s' k = None /\
     (exists a, db_applications s !! sub_application_id sub = Some a /\ application_is_deleted a = true) /\
     forall j d, db_deliveries s !! j = Some d -> del_subscription_id d = k -> pending d = false) /\
    (subscription_is_active sub = true -> (exists a, db_applications s !! sub_application_id sub = Some a /\
        application_is_deleted a = true) ->
     (forall j d, db_deliveries s !! j = Some d -> del_subscription_id d = k -> pending d = false) ->
     active_subscription s' k = None).
Proof.
  intros Hk. unfold settle_deleted_applications. rewrite bind_run.
  assert (now_or now s = (Ok (default (db_clock s) now), s)) as -> by (by destruct now).
  eexists _, _. split; [reflexivity|]. split; [done|].
  unfold active_subscription. simpl_over. rewrite map_lookup_imap, Hk. simpl.
  assert (settled s k sub = true <-> subscription_is_active sub = true /\
    (exists a, db_applications s !! sub_application_id sub = Some a /\ application_is_deleted a = true) /\
    (forall j d, db_deliveries s !! j = Some d -> del_subscription_id d = k -> pending d = false)) as Hs.
  { unfold settled. rewrite !andb_true_iff, negb_true_iff. split.
    - intros [[Ha Hd] Hp]. split; [done|]. split; [destruct (_ !! sub_application_id sub); eauto; done|].
      intros j d Hj Hd'. apply not_true_is_false. intros Hpend. apply not_true_iff_false in Hp. apply Hp, existsb_exists.
      exists (j, d). split; [by apply list_elem_of_In, elem_of_map_to_list|]. simpl. by rewrite bool_decide_true, Hpend.
    - intros (Ha & (a & Hap & Hdel) & Hp). rewrite Hap. split; [done|]. apply not_true_is_false.
      intros ((j & d) & Hj%list_elem_of_In%elem_of_map_to_list & [Hd Hpend]%andb_prop)%existsb_exists.
      apply bool_decide_eq_true in Hd. simpl in *. by rewrite (Hp j d Hj Hd) in Hpend. }
  destruct (settled s k sub) eqn:E.
  - destruct (proj1 Hs eq_refl) as (Ha & Hd & Hp). split; [right|]; by repeat split.
  - split; [by left|]. intros Ha Hd Hp. exfalso. assert (false = true) by (apply Hs; auto). done.
Qed.
End Rows.
