(* ===== verification/Limits.v ===== *)
(** * Limits on live domains (app/services/limits.py) and named locks (app/edge/lock.py) *)

From Stdlib Require Import Ascii String ZArith Lia.
From stdpp Require Import base gmap strings list sets.
From S2P Require Import Prelude PyStr Json Errors External Models.
Open Scope string_scope.
Open Scope Z_scope.

Definition RECONCILE_LOCK : string := "reconcile".
Definition DOMAIN_LIMIT_LOCK : string := "domain-limit".

(** [acquire_lock]: the row is updated, or created and then updated; the database
    makes another transaction's call wait until this one ends. *)
Definition acquire_lock (name holder : string) : M unit :=
  modify (fun s => s <| db_locks ::= <[name := {| lock_holder := Some (take_str 128 holder);
                                                  lock_locked_at := Some (db_clock s) |}]> |>).
Definition acquire_reconcile_lock (holder : string) : M unit := acquire_lock RECONCILE_LOCK holder.

Section Limits.
Context `{External}.

(** [MAX_DOMAINS] *)
Definition deployment_limit : res exn (option Z) :=
  let raw := strip (default "" (environ "MAX_DOMAINS")) in
  if String.eqb raw "" then Ok None
  else match py_int raw with
       | None => Err InvalidLimit
       | Some value => if value <? 1 then Err InvalidLimit else Ok (Some value)
       end.

Definition validate_application_limit (value : option Z) : res exn (option Z) :=
  match value with
  | Some v => if v <? 1 then Err InvalidLimit else Ok value
  | None => Ok value
  end.

Definition live_domains (s : Db) (application : option N) : Z :=
  count_rows (fun _ d => live d && match application with
                                   | Some a => bool_decide (dom_application_id d = a)
                                   | None => true
                                   end) (db_domains s).

Record Usage := { usage_scope : string; usage_live : Z; usage_limit : Z }.
Definition usage_reached (u : Usage) : bool := usage_limit u <=? usage_live u.
(** [share >= WARN_AT] with [WARN_AT = 0.8], in whole numbers (the float division
    agrees for counts below 2^50). *)
Definition usage_near (u : Usage) : bool := 8 * usage_limit u <=? 10 * usage_live u.

Definition usages (s : Db) (a : N) (application : Application) : list Usage :=
  (match app_max_domains application with
   | Some limit => [{| usage_scope := "application"; usage_live := live_domains s (Some a);
                       usage_limit := limit |}]
   | None => []
   end ++
   match deployment_limit with
   | Ok (Some limit) => [{| usage_scope := "deployment"; usage_live := live_domains s None;
                            usage_limit := limit |}]
   | _ => []
   end)%list.

Definition limit_reached (scope : string) (limit live : Z) : exn :=
  ServiceError DomainLimitReached [("scope", JStr scope); ("limit", JInt limit); ("live", JInt live)].

Definition enforce (a : N) : M unit :=
  application ← the_application a;
  limit ← lift deployment_limit;
  _ ← match limit with
      | Some _ => acquire_lock DOMAIN_LIMIT_LOCK ("application:" +:+ uuid_str a)
      | None => mret tt
      end;
  _ ← match app_max_domains application with
      | Some m => live ← gets (fun s => live_domains s (Some a));
                  guard_ (live <? m) (limit_reached "application" m live)
      | None => mret tt
      end;
  match limit with
  | Some m => live ← gets (fun s => live_domains s None);
              guard_ (live <? m) (limit_reached "deployment" m live)
  | None => mret tt
  end.
End Limits.
