(* ===== verification/OperatorToken.v ===== *)
(** * The operator API token (app/services/operator_token.py)

    The token of the environment, and the one an operator rotated to, of which only
    the hash is kept.  Theorems: after a rotation exactly the tokens with the new
    hash are accepted, whatever the environment says; a reset brings the token of the
    environment back; nothing else changes. *)

From Stdlib Require Import Ascii String ZArith Lia.
From stdpp Require Import base gmap strings list.
From S2P Require Import Prelude PyStr Json Errors External Models EdgeSettings Hostname.
Open Scope string_scope.
Open Scope Z_scope.

Definition MAX_LENGTH : Z := 256.

(** [ALLOWED.fullmatch(token)] *)
Definition token_char (c : ascii) : bool := is_alnum c || has_char c "._~+/=-".
Definition ALLOWED_fullmatch (token : string) : bool := negb (String.eqb token "") && sall token_char token.

Section OperatorToken.
Context `{External}.

Definition digest (token : string) : string := sha256_hex token.

(** [active(session)]: the one row, named "active". *)
Definition active (s : Db) : option OperatorToken := db_operator_token s.

Definition matches (s : Db) (given env_token : string) : bool :=
  match active s with
  | Some row => String.eqb (digest given) (optok_token_hash row)
  | None => String.eqb given env_token
  end.

Definition token_ok (token : string) : bool :=
  (MIN_OPERATOR_TOKEN_LENGTH <=? ulen token) && (ulen token <=? MAX_LENGTH) && ALLOWED_fullmatch token.

Definition set_token (token : string) : M OperatorToken :=
  _ ← guard_ (token_ok token) (ServiceError InvalidOperatorToken []);
  clock ← gets db_clock;
  let row := {| optok_token_hash := digest token; optok_set_at := clock |} in
  _ ← modify (fun s => s <| db_operator_token := Some row |>);
  mret row.

Definition reset : M bool :=
  row ← gets active;
  match row with
  | None => mret false
  | Some _ => _ ← modify (fun s => s <| db_operator_token := None |>); mret true
  end.

(** ** Properties *)

(** After a rotation exactly the tokens hashing like the new one are accepted, by
    every instance, whatever its environment says; a refused one changes nothing. *)
Theorem rotation_takes_over token s given env_token :
  let '(r, s') := set_token token s in
  match r with
  | Ok row => token_ok token = true /\ optok_token_hash row = digest token /\
              matches s' given env_token = String.eqb (digest given) (digest token)
  | Err e => token_ok token = false /\ e = ServiceError InvalidOperatorToken [] /\ s' = s
  end.
Proof.
  unfold set_token. rewrite bind_run. by destruct (token_ok token).
Qed.

(** After a reset exactly the token of the environment is accepted. *)
Theorem reset_restores s given env_token :
  let '(r, s') := reset s in
  r = Ok (bool_decide (is_Some (active s))) /\ matches s' given env_token = String.eqb given env_token.
Proof.
  unfold reset. rewrite bind_run. cbn [gets]. destruct (active s) as [row|] eqn:E.
  - rewrite bind_run. cbn [modify mret SM_ret]. split; [by rewrite bool_decide_true|]. reflexivity.
  - cbn [mret SM_ret]. split; [by rewrite bool_decide_false by (by intros [? ?])|]. unfold matches. by rewrite E.
Qed.
End OperatorToken.
