(* ===== verification/Domains.v ===== *)
(** * Domains (app/services/domains.py)

    Claims, reads, lifecycle state, tombstones and the event log.  A [Domain]
    object of the source is its row's key here; every attribute is read from the
    session's current rows.  DomainFacts.v and Lifecycle.v hold the theorems. *)

From Stdlib Require Import Ascii String ZArith Lia.
From stdpp Require Import base gmap strings list sets sorting.
From S2P Require Import Prelude PyStr Datetime Json Errors External Models Hostname Dns DnsSetup.
From S2P Require Import Schemas Webhooks Limits.
Open Scope string_scope.
Open Scope Z_scope.

Definition CHALLENGE_LABEL : string := "_custom-domain-challenge".
Definition CLAIM_TOKEN_BYTES : nat := 32.
Definition TOMBSTONE_RETENTION : Z := days 90.
Definition MAX_REFERENCE_LENGTH : Z := 255.
Definition DEFAULT_PAGE_SIZE : Z := 50.
Definition MAX_PAGE_SIZE : Z := 200.
Definition RECHECK_MIN_INTERVAL : Z := seconds 60.
Definition RECHECK_WINDOW : Z := hours 1.
Definition RECHECK_MAX_PER_WINDOW : Z := 60.
Definition REGISTRATION_WINDOW : Z := hours 1.
Definition REGISTRATION_MAX_PER_WINDOW : Z := 120.

Definition ALLOWED_TRANSITIONS (s : DomainStatus) : list DomainStatus :=
  match s with
  | PENDING_DNS => [PROVISIONING; ATTENTION_REQUIRED; SUSPENDED; DELETING]
  | PROVISIONING => [READY; PENDING_DNS; ATTENTION_REQUIRED; SUSPENDED; DELETING]
  | READY => [PENDING_DNS; ATTENTION_REQUIRED; SUSPENDED; DELETING]
  | ATTENTION_REQUIRED => [PENDING_DNS; PROVISIONING; READY; SUSPENDED; DELETING]
  | SUSPENDED => [PENDING_DNS; PROVISIONING; DELETING]
  | DELETING => []
  end.

Definition RESET_ON_REISSUE : list DomainStatus := [PROVISIONING; READY; ATTENTION_REQUIRED].

Definition allowed (s t : DomainStatus) : bool := bool_decide (t ∈ ALLOWED_TRANSITIONS s).

(** ** Derived facts of a domain *)

Definition checks_passing (s : Db) (id : N) : bool :=
  forallb (fun t => match db_checks s !! (id, t) with
                    | Some c => bool_decide (check_status c = PASSING)
                    | None => false
                    end) all_checks.

(** The live claim exists and is verified. *)
Definition claim_verified (s : Db) (id : N) : bool :=
  match active_claim s id with
  | Some (_, c) => bool_decide (claim_status c = VERIFIED)
  | None => false
  end.

Definition application_active (s : Db) (a : N) : bool :=
  match db_applications s !! a with
  | Some r => bool_decide (app_status r = ACTIVE)
  | None => false
  end.

Definition is_serveable (s : Db) (id : N) (d : Domain) : bool :=
  if is_deleted d || negb (bool_decide (dom_status d = READY)) then false
  else if negb (application_active s (dom_application_id d)) then false
  else if negb (claim_verified s id) then false
  else checks_passing s id.

(** ** Events *)

Section Domains.
Context `{External, Deployment}.

Definition latest_event_at (s : Db) (id : N) : option Z :=
  zmax (event_created_at <$> events_of s id).

Definition record_event (id : N) (type : EventType) (payload : dict) (now : option Z) : M unit :=
  stamp ← now_or now;
  last ← gets (fun s => latest_event_at s id);
  let stamp := match last with
               | Some l => if stamp <=? l then l + 1 else stamp
               | None => stamp
               end in
  d ← the_domain id;
  k ← fresh;
  let event := {| event_id := k; event_domain_id := id; event_application_id := dom_application_id d;
                  event_type := event_value type; event_payload := Some payload;
                  event_created_at := stamp |} in
  _ ← append_event event;
  enqueue_for_event id event.

(** ** Reads *)

Definition get_domain (a id : N) (include_deleted : bool) : M Domain :=
  d ← gets (fun s => db_domains s !! id);
  d ← need d (ServiceError DomainNotFound []);
  _ ← guard_ ((include_deleted || live d) && bool_decide (dom_application_id d = a))
       (ServiceError DomainNotFound []);
  mret d.

Definition list_query (s : Db) (a : N) (reference : option string) (status : option DomainStatus)
    (include_deleted : bool) (search : option string) : list (N * Domain) :=
  select_rows dom_created_at
    (fun _ d =>
       (include_deleted || live d) && bool_decide (dom_application_id d = a)
       && match reference with Some r => String.eqb (dom_reference d) r | None => true end
       && match status with Some t => bool_decide (dom_status d = t) | None => true end
       && match nonempty search with
          | Some q => contains (lower q) (dom_hostname d) || contains (lower q) (lower (dom_reference d))
          | None => true
          end)
    (db_domains s).

Definition page_domains (s : Db) (a : N) (reference : option string) (status : option DomainStatus)
    (include_deleted : bool) (search : option string) (limit offset : Z)
    : list (N * Domain) * bool :=
  let limit := Z.to_nat (Z.max 1 (Z.min limit MAX_PAGE_SIZE)) in
  let offset := Z.to_nat (Z.max 0 offset) in
  let query := list_query s a reference status include_deleted
                 (nonempty (Some (strip (default "" search)))) in
  let rows := take (limit + 1) (drop offset query) in
  (take limit rows, (limit <? List.length rows)%nat).

Definition list_domains (s : Db) (a : N) (reference : option string) (status : option DomainStatus)
    (include_deleted : bool) (limit offset : Z) : list (N * Domain) :=
  (page_domains s a reference status include_deleted None limit offset).1.

(** The live row of a canonical hostname. *)
Definition live_by_hostname (s : Db) (hostname : string) : option (N * Domain) :=
  head (filter (fun x => live x.2 && String.eqb (dom_hostname x.2) hostname = true)
          (map_to_list (db_domains s))).

Definition find_live_by_hostname (hostname : string) : M (option (N * Domain)) :=
  canonical ← lift (canonicalize hostname);
  gets (fun s => live_by_hostname s canonical).

Definition list_events (a id : N) (limit : Z) : M (list DomainEvent) :=
  _ ← get_domain a id true;
  s ← get;
  mret (take (Z.to_nat (Z.max 1 (Z.min limit MAX_PAGE_SIZE)))
          (merge_sort (fun x y => row_le event_created_at (event_id x, x) (event_id y, y))
             (events_of s id))).

(** ** Lifecycle *)

Definition invalid_transition : exn := ServiceError InvalidStatusTransition [].

Definition transition_status (id : N) (new_status : DomainStatus) (reason : option string)
    (now : option Z) : M unit :=
  d ← the_domain id;
  _ ← guard_ (negb (is_deleted d)) invalid_transition;
  if bool_decide (new_status = dom_status d) then mret tt else
  _ ← guard_ (allowed (dom_status d) new_status) invalid_transition;
  s ← get;
  _ ← (if bool_decide (new_status = READY) then
         _ ← guard_ (claim_verified s id) invalid_transition;
         guard_ (checks_passing s id) invalid_transition
       else mret tt);
  now ← now_or now;
  _ ← update_domain id (fun d => d <| dom_status := new_status |> <| dom_updated_at := now |>);
  record_event id STATUS_CHANGED
    [("from", JStr (domain_status_value (dom_status d)));
     ("to", JStr (domain_status_value new_status));
     ("reason", jopt reason)] (Some now).

Definition record_check (id : N) (t : CheckType) (status : CheckStatus)
    (error_code message : option string) (details : option dict)
    (observed_at next_check_at : option Z) : M unit :=
  observed_at ← now_or observed_at;
  previous ← gets (fun s => check_status <$> domain_check s id t);
  let error_code := if bool_decide (status = FAILING) then error_code else None in
  _ ← put_check id t {| check_status := status; check_error_code := error_code;
                        check_message := message; check_details := details;
                        check_observed_at := Some observed_at;
                        check_next_check_at := next_check_at |};
  _ ← record_event id CHECK_UPDATED
        [("check", JStr (check_type_value t));
         ("from", jopt (check_status_value <$> previous));
         ("to", JStr (check_status_value status));
         ("error_code", jopt error_code)] (Some observed_at);
  d ← the_domain id;
  if bool_decide (status = FAILING) && bool_decide (dom_status d = READY) then
    transition_status id ATTENTION_REQUIRED (Some (check_type_value t +:+ "_check_failed"))
      (Some observed_at)
  else mret tt.

(** ** Claims *)

Definition issue_claim (id : N) (cname_target : string) (now : Z) : M N :=
  d ← the_domain id;
  draw ← fresh;
  let name := CHALLENGE_LABEL +:+ "." +:+ dom_hostname d in
  k ← insert_claim {| claim_domain_id := id; claim_txt_record_name := name;
                      claim_token := token_urlsafe draw CLAIM_TOKEN_BYTES;
                      claim_cname_target := cname_target; claim_status := CLAIM_PENDING;
                      claim_verification_method := None; claim_verified_at := None;
                      claim_revoked_at := None; claim_expires_at := None;
                      claim_created_at := now; claim_updated_at := now |};
  _ ← record_event id CLAIM_ISSUED
        [("claim_id", JStr (uuid_str k)); ("txt_record_name", JStr name)] (Some now);
  mret k.

Definition revoke_live_claim (id : N) (reason : string) (now : Z) : M unit :=
  claim ← gets (fun s => active_claim s id);
  match claim with
  | None => mret tt
  | Some (k, _) =>
      _ ← update_claim k (fun c => c <| claim_status := REVOKED |> <| claim_revoked_at := Some now |>);
      record_event id CLAIM_REVOKED
        [("claim_id", JStr (uuid_str k)); ("reason", JStr reason)] (Some now)
  end.

Definition revoke_claim (id : N) (reason : string) (now : option Z) : M unit :=
  now ← now_or now; revoke_live_claim id reason now.

Definition mark_claim_verified (id : N) (method : string) (now : option Z) : M unit :=
  now ← now_or now;
  d ← the_domain id;
  claim ← gets (fun s => active_claim s id);
  match claim with
  | None => raise invalid_transition
  | Some (k, _) =>
      if is_deleted d then raise invalid_transition else
      _ ← update_claim k (fun c => c <| claim_status := VERIFIED |>
                                     <| claim_verification_method := Some method |>
                                     <| claim_verified_at := Some now |>);
      record_event id CLAIM_VERIFIED
        [("claim_id", JStr (uuid_str k)); ("method", JStr method)] (Some now)
  end.

Definition reissue_claim (a id : N) (now : option Z) : M N :=
  now ← now_or now;
  _ ← get_domain a id false;
  _ ← revoke_live_claim id "reissued" now;
  _ ← for_each all_checks (fun t =>
        record_check id t PENDING None None (Some [("reason", JStr "claim_reissued")])
          (Some now) None);
  d ← the_domain id;
  _ ← (if bool_decide (dom_status d ∈ RESET_ON_REISSUE)
       then transition_status id PENDING_DNS (Some "claim_reissued") (Some now)
       else mret tt);
  application ← the_application a;
  issue_claim id (app_cname_target application) now.

(** Live domains of [a] whose live claim names another target than [target]. *)
Definition stale_domains (s : Db) (a : N) (target : string) : list N :=
  fst <$> select_rows dom_created_at
    (fun k d => bool_decide (dom_application_id d = a) && live d &&
       existsb (fun x => bool_decide (claim_domain_id x.2 = k) && claim_live x.2
                         && negb (String.eqb (claim_cname_target x.2) target))
         (map_to_list (db_claims s)))
    (db_domains s).

Definition reissue_claims_for_target (a : N) (now : option Z) : M Z :=
  now ← now_or now;
  application ← the_application a;
  stale ← gets (fun s => stale_domains s a (app_cname_target application));
  _ ← for_each stale (fun id => _ ← reissue_claim a id (Some now); mret tt);
  mret (Z.of_nat (List.length stale)).

(** ** Rate limits counted from events *)

(** [UPDATE applications SET updated_at = updated_at WHERE id = ...] *)
Definition lock_application (a : N) : M unit :=
  update_application a (fun r => r <| app_updated_at := app_updated_at r |>).

(** [created_at] of the application's events of one type after [start]. *)
Definition events_in_window (s : Db) (a : N) (type : EventType) (start : Z) : list Z :=
  event_created_at <$> filter (fun e => event_application_id e = a /\
      event_type e = event_value type /\ start < event_created_at e) (db_events s).

(** At most [max] events of the window; otherwise the wait until the oldest leaves it. *)
Definition enforce_window (a : N) (type : EventType) (window max now : Z) : M unit :=
  stamps ← gets (fun s => events_in_window s a type (now - window));
  if max <=? Z.of_nat (List.length stamps) then
    raise (rate_limited (match zmin stamps with
                         | Some oldest => ceil_seconds (oldest + window - now)
                         | None => 60
                         end))
  else mret tt.

Definition enforce_registration_limit (a : N) (now : Z) : M unit :=
  enforce_window a DOMAIN_CREATED REGISTRATION_WINDOW REGISTRATION_MAX_PER_WINDOW now.

Definition last_recheck (s : Db) (id : N) : option Z :=
  zmax (event_created_at <$> filter (fun e => event_type e = event_value RECHECK_REQUESTED)
          (events_of s id)).

Definition enforce_recheck_limits (id : N) (now : Z) : M unit :=
  last ← gets (fun s => last_recheck s id);
  _ ← match last with
      | Some l => guard_ (l + RECHECK_MIN_INTERVAL <=? now)
                    (rate_limited (ceil_seconds (l + RECHECK_MIN_INTERVAL - now)))
      | None => mret tt
      end;
  d ← the_domain id;
  enforce_window (dom_application_id d) RECHECK_REQUESTED RECHECK_WINDOW RECHECK_MAX_PER_WINDOW now.

(** ** Operations of the v1 API *)

Definition claim_domain (a : N) (hostname reference : string) (metadata : option dict)
    (now : option Z) : M N :=
  application ← the_application a;
  _ ← guard_ (bool_decide (app_status application = ACTIVE)) (ServiceError ApplicationSuspended []);
  _ ← guard_ (negb (String.eqb reference "" || String.eqb (strip reference) ""
                    || (MAX_REFERENCE_LENGTH <? ulen reference)))
       (ServiceError InvalidReference []);
  canonical ← lift (canonicalize hostname);
  now ← now_or now;
  _ ← lock_application a;
  _ ← enforce a;
  _ ← enforce_registration_limit a now;
  id ← catch
        (savepoint (insert_domain {|
           dom_application_id := a; dom_hostname := canonical; dom_reference := strip reference;
           dom_status := PENDING_DNS; dom_extra := metadata; dom_deleted_at := None;
           dom_purge_after := None; dom_zone := Some (default_zone canonical);
           dom_connect_started_at := None; dom_created_at := now; dom_updated_at := now |}))
        (fun e => match e with
                  | IntegrityError orig =>
                      if contains "hostname" (lower orig)
                      then raise (ServiceError HostnameAlreadyClaimed [])
                      else raise e
                  | _ => raise e
                  end);
  _ ← for_each all_checks (fun t => put_check id t {|
        check_status := PENDING; check_error_code := None; check_message := None;
        check_details := None; check_observed_at := None; check_next_check_at := None |});
  _ ← record_event id DOMAIN_CREATED
        [("hostname", JStr canonical); ("reference", JStr (strip reference))] (Some now);
  _ ← issue_claim id (app_cname_target application) now;
  mret id.

Definition delete_domain (a id : N) (now : option Z) : M unit :=
  now ← now_or now;
  d ← get_domain a id true;
  if is_deleted d then mret tt else
  _ ← update_domain id (fun d => d <| dom_status := DELETING |> <| dom_deleted_at := Some now |>
        <| dom_purge_after := Some (now + TOMBSTONE_RETENTION) |> <| dom_updated_at := now |>);
  _ ← revoke_live_claim id "deleted" now;
  record_event id DOMAIN_DELETED
    [("hostname", JStr (dom_hostname d));
     ("purge_after", JStr (isoformat (now + TOMBSTONE_RETENTION)))] (Some now).

(** [check.next_check_at = now] for the checks of [types] the domain has. *)
Definition schedule_checks (id : N) (types : list CheckType) (now : Z) : M unit :=
  for_each types (fun t =>
    modify (fun s => s <| db_checks ::= alter (fun c => c <| check_next_check_at := Some now |>) (id, t) |>)).

Definition request_recheck (a id : N) (requested_by : string) (now : option Z) : M unit :=
  now ← now_or now;
  _ ← lock_application a;
  d ← get_domain a id true;
  _ ← guard_ (negb (is_deleted d || bool_decide (dom_status d = DELETING))) invalid_transition;
  _ ← enforce_recheck_limits id now;
  _ ← schedule_checks id all_checks now;
  record_event id RECHECK_REQUESTED [("requested_by", JStr requested_by)] (Some now).

(** ** Purging *)

Definition past (o : option Z) (now : Z) : bool :=
  match o with Some t => t <=? now | None => false end.
Definition purgeable (now : Z) (d : Domain) : bool := is_deleted d && past (dom_purge_after d) now.

(** [DELETE FROM domains]: claims, checks, events and connect sessions cascade;
    an idempotency key keeps its row without the domain. *)
Definition drop_domains (gone : N -> bool) (s : Db) : Db :=
  s <| db_domains ::= filter (fun x => gone x.1 = false) |>
    <| db_claims ::= filter (fun x => gone (claim_domain_id x.2) = false) |>
    <| db_checks ::= filter (fun x => gone x.1.1 = false) |>
    <| db_events ::= filter (fun e => gone (event_domain_id e) = false) |>
    <| db_connect_sessions ::= filter (fun x => gone (cs_domain_id x.2) = false) |>
    <| db_idempotency ::= fmap (fun r => match idem_domain_id r with
                                         | Some d => if gone d then r <| idem_domain_id := None |> else r
                                         | None => r
                                         end) |>.

(** [DELETE FROM applications]: everything that belongs to them cascades. *)
Definition drop_applications (gone : N -> bool) (s : Db) : Db :=
  s <| db_applications ::= filter (fun x => gone x.1 = false) |>
    <| db_origins ::= filter (fun x => gone (org_application_id x.2) = false) |>
    <| db_credentials ::= filter (fun x => gone (cred_application_id x.2) = false) |>
    <| db_assertion_keys ::= filter (fun x => gone (ak_application_id x.2) = false) |>
    <| db_events ::= filter (fun e => gone (event_application_id e) = false) |>
    <| db_subscriptions ::= filter (fun x => gone (sub_application_id x.2) = false) |>
    <| db_deliveries ::= filter (fun x => gone (del_application_id x.2) = false) |>
    <| db_connect_sessions ::= filter (fun x => gone (cs_application_id x.2) = false) |>
    <| db_idempotency ::= filter (fun x => gone x.1.1 = false) |>
    <| db_traffic ::= filter (fun x => gone x.1.1 = false) |>.

Definition domain_purgeable (s : Db) (now : Z) (id : N) : bool :=
  match db_domains s !! id with Some d => purgeable now d | None => false end.
Definition application_purgeable (s : Db) (now : Z) (a : N) : bool :=
  match db_applications s !! a with
  | Some r => application_is_deleted r && past (app_purge_after r) now
              && negb (existsb (fun x => (dom_application_id x.2 =? a)%N)
                         (map_to_list (db_domains s)))
  | None => false
  end.

(** The two [DELETE] statements at [now]. *)
Definition delete_past_domains (now : Z) (s : Db) : Db := drop_domains (domain_purgeable s now) s.
Definition delete_past_applications (now : Z) (s : Db) : Db :=
  drop_applications (application_purgeable s now) s.

Definition purge_tombstones (now : option Z) : M Z :=
  now ← now_or now;
  s ← get;
  _ ← modify (delete_past_domains now);
  _ ← modify (delete_past_applications now);
  _ ← purge_zones (Some now);
  mret (count_rows (fun _ d => purgeable now d) (db_domains s)).
End Domains.
#[global] Arguments record_event {_ _} _ _ _ _ _ : simpl never.
#[global] Arguments transition_status {_ _} _ _ _ _ _ : simpl never.
#[global] Arguments record_check {_ _} _ _ _ _ _ _ _ _ _ : simpl never.
#[global] Arguments revoke_live_claim {_ _} _ _ _ _ : simpl never.
#[global] Arguments mark_claim_verified {_ _} _ _ _ _ : simpl never.
#[global] Arguments issue_claim {_ _} _ _ _ _ : simpl never.
#[global] Arguments get_domain _ _ _ _ : simpl never.
#[global] Arguments update_domain _ _ _ : simpl never.
#[global] Arguments update_claim _ _ _ : simpl never.
