(* ===== verification/DomainFacts.v ===== *)
(** * Reasoning about the domain operations

    What each operation of Domains.v may change: the event log frame
    ([log_frame]), the frame of one domain ([only]), the exact effect of a
    successful call, and that recording an event never fails. *)

From Stdlib Require Import Ascii String ZArith Lia.
From stdpp Require Import base gmap strings list sets sorting.
From S2P Require Import Prelude PyStr Datetime Json Errors External Models Hostname Dns DnsSetup.
From S2P Require Import Schemas Webhooks Limits Domains.
Open Scope Z_scope.

(** ** Frames *)

(** Everything but the event log, the outbox and the draw counter is as before. *)
Record log_frame (s s' : Db) : Prop := {
  lf_applications : db_applications s' = db_applications s;
  lf_origins : db_origins s' = db_origins s;
  lf_credentials : db_credentials s' = db_credentials s;
  lf_assertion_keys : db_assertion_keys s' = db_assertion_keys s;
  lf_domains : db_domains s' = db_domains s;
  lf_claims : db_claims s' = db_claims s;
  lf_checks : db_checks s' = db_checks s;
  lf_zones : db_zones s' = db_zones s;
  lf_subscriptions : db_subscriptions s' = db_subscriptions s;
  lf_connect_sessions : db_connect_sessions s' = db_connect_sessions s;
  lf_idempotency : db_idempotency s' = db_idempotency s;
  lf_locks : db_locks s' = db_locks s;
  lf_signer : db_signer s' = db_signer s;
  lf_clock : db_clock s' = db_clock s;
  lf_next : (db_next s <= db_next s')%N;
}.
#[export] Instance log_frame_preorder : PreOrder log_frame.
Proof.
  split; [intros s; by constructor|]. intros s1 s2 s3 [] []. constructor; by (congruence || etrans).
Qed.

(** Only domain [id] and what hangs off it may have changed. *)
Record only (id : N) (s s' : Db) : Prop := {
  only_applications : db_applications s' = db_applications s;
  only_domains k : k <> id -> db_domains s' !! k = db_domains s !! k;
  only_claims k c : claim_domain_id c <> id -> db_claims s' !! k = Some c <-> db_claims s !! k = Some c;
  only_checks k t : k <> id -> db_checks s' !! (k, t) = db_checks s !! (k, t);
  only_events k : k <> id -> events_of s' k = events_of s k;
  only_clock : db_clock s' = db_clock s;
  only_next : (db_next s <= db_next s')%N;
}.
#[export] Instance only_preorder id : PreOrder (only id).
Proof.
  split; [intros s; by constructor|].
  intros s1 s2 s3 [] []. constructor; intros; try congruence; try by etrans.
  - rewrite only_domains1 by done. auto.
  - rewrite only_claims1 by done. auto.
  - rewrite only_checks1 by done. auto.
  - rewrite only_events1 by done. auto.
Qed.

Ltac frame := constructor; intros; simpl_over; try done; try lia.

Lemma log_frame_fresh : mono log_frame fresh.
Proof. intros s. unfold fresh. simpl. frame. Qed.
#[export] Hint Resolve log_frame_fresh : session.

Lemma log_frame_now_or o : mono log_frame (now_or o).
Proof. destruct o; simpl; auto with session typeclass_instances. Qed.
#[export] Hint Resolve log_frame_now_or : session.

Section Facts.
Context `{External, Deployment}.

Lemma mono_the_domain R `{!PreOrder R} id : mono R (the_domain id).
Proof. unfold the_domain. mono_auto. Qed.

Lemma log_frame_enqueue id e : mono log_frame (enqueue_for_event id e).
Proof.
  unfold enqueue_for_event, add_delivery. mono_auto.
  - apply mono_the_domain, _.
  - frame.
Qed.

Definition same_events (s s' : Db) : Prop := db_events s' = db_events s.
#[local] Instance same_events_preorder : PreOrder same_events.
Proof. split; unfold same_events; [done|]. intros ???. congruence. Qed.

Lemma same_events_enqueue id e : mono same_events (enqueue_for_event id e).
Proof.
  unfold enqueue_for_event, add_delivery. mono_auto.
  all: try done. apply mono_the_domain, _.
Qed.

(** ** Recording an event *)

(** The stamp an event recorded now gets: past the domain's latest event. *)
Definition event_stamp (s : Db) (id : N) (now : Z) : Z :=
  match latest_event_at s id with
  | Some l => if now <=? l then l + 1 else now
  | None => now
  end.

Definition the_event (s : Db) (id : N) (d : Domain) (type : EventType) (payload : dict) (now : Z) : DomainEvent :=
  {| event_id := db_next s; event_domain_id := id; event_application_id := dom_application_id d;
     event_type := event_value type; event_payload := Some payload;
     event_created_at := event_stamp s id now |}.

Lemma the_domain_run id s :
  the_domain id s = match db_domains s !! id with
                    | Some d => (Ok d, s)
                    | None => (Err PyRuntimeError, s)
                    end.
Proof. unfold the_domain. rewrite bind_run. simpl. by destruct (db_domains s !! id). Qed.

Lemma record_event_run id type payload now s d :
  db_domains s !! id = Some d ->
  record_event id type payload (Some now) s =
  enqueue_for_event id (the_event s id d type payload now)
    (s <| db_next := (db_next s + 1)%N |>
       <| db_events := (db_events s ++ [the_event s id d type payload now])%list |>).
Proof.
  intros Hd. unfold record_event. run.
  rewrite the_domain_run, Hd. reflexivity.
Qed.

Lemma record_event_ok id type payload now s u s' :
  record_event id type payload (Some now) s = (Ok u, s') ->
  exists d, db_domains s !! id = Some d /\ log_frame s s' /\
    db_events s' = (db_events s ++ [the_event s id d type payload now])%list.
Proof.
  destruct (db_domains s !! id) as [d|] eqn:Hd.
  - rewrite (record_event_run _ _ _ _ _ d) by done. intros Hr. exists d. split; [done|].
    pose proof (log_frame_enqueue id (the_event s id d type payload now)
      (s <| db_next := (db_next s + 1)%N |>
         <| db_events := (db_events s ++ [the_event s id d type payload now])%list |>)) as Hf.
    pose proof (same_events_enqueue id (the_event s id d type payload now)
      (s <| db_next := (db_next s + 1)%N |>
         <| db_events := (db_events s ++ [the_event s id d type payload now])%list |>)) as He.
    rewrite Hr in Hf, He. unfold same_events in He. simpl in Hf, He. split; [|done].
    etrans; [|exact Hf]. frame.
  - unfold record_event. run.
    by rewrite the_domain_run, Hd.
Qed.

(** ** What a successful call did *)

Definition set_status (st : DomainStatus) (now : Z) (d : Domain) : Domain :=
  d <| dom_status := st |> <| dom_updated_at := now |>.
Definition with_domain (id : N) (d : Domain) (s : Db) : Db := s <| db_domains ::= <[id := d]> |>.
Definition with_claim (k : N) (c : OwnershipClaim) (s : Db) : Db := s <| db_claims ::= <[k := c]> |>.
Definition with_check (id : N) (t : CheckType) (c : DomainCheck) (s : Db) : Db :=
  s <| db_checks ::= <[(id, t) := c]> |>.

Lemma alter_known {K A} `{Countable K} (f : A -> A) (k : K) (m : gmap K A) x :
  m !! k = Some x -> alter f k m = <[k := f x]> m.
Proof.
  intros Hk. apply map_eq. intros j. destruct (decide (j = k)) as [->|].
  - by rewrite lookup_alter_eq, lookup_insert_eq, Hk.
  - by rewrite lookup_alter_ne, lookup_insert_ne.
Qed.

Lemma update_domain_run id f s d :
  db_domains s !! id = Some d -> update_domain id f s = (Ok tt, with_domain id (f d) s).
Proof.
  intros Hd. unfold update_domain, with_domain, modify, over. simpl. by rewrite (alter_known _ _ _ d).
Qed.

Lemma update_claim_run k f s c :
  db_claims s !! k = Some c ->
  update_claim k f s = (Ok tt, with_claim k ((f c) <| claim_updated_at := db_clock s |>) s).
Proof.
  intros Hc. unfold update_claim, with_claim, modify, over. simpl. by rewrite (alter_known _ _ _ c).
Qed.

Definition status_payload (d : Domain) (st : DomainStatus) (reason : option string) : dict :=
  [("from", JStr (domain_status_value (dom_status d)));
   ("to", JStr (domain_status_value st)); ("reason", jopt reason)]%string.

(** The effect of a status change that happens. *)
Record transitioned (s : Db) (id : N) (d : Domain) (st : DomainStatus) (reason : option string)
    (now : Z) (s' : Db) : Prop := {
  tr_allowed : allowed (dom_status d) st = true;
  tr_ready : st = READY -> claim_verified s id = true /\ checks_passing s id = true;
  tr_frame : log_frame (with_domain id (set_status st now d) s) s';
  tr_events : db_events s' =
    (db_events s ++ [the_event s id d STATUS_CHANGED (status_payload d st reason) now])%list;
}.

Lemma transition_status_ok id st reason now s u s' :
  transition_status id st reason (Some now) s = (Ok u, s') ->
  exists d, db_domains s !! id = Some d /\ is_deleted d = false /\
    (st = dom_status d /\ s' = s \/
     st <> dom_status d /\ transitioned s id d st reason now s').
Proof.
  unfold transition_status. rewrite bind_run, the_domain_run.
  destruct (db_domains s !! id) as [d|] eqn:Hd; [|done]. rewrite bind_run, guard_run.
  destruct (is_deleted d) eqn:Hdel; [done|]. cbn [negb].
  destruct (bool_decide (st = dom_status d)) eqn:Hst.
  { apply bool_decide_eq_true in Hst. intros [= _ <-]. eauto 10. }
  apply bool_decide_eq_false in Hst. rewrite bind_run, guard_run.
  destruct (allowed (dom_status d) st) eqn:Ha; [|done]. rewrite bind_run. cbn [get].
  rewrite bind_run. intros Hr. exists d. split; [done|]. split; [done|]. right. split; [done|].
  assert (exists u,
    (if bool_decide (st = READY)
     then _ ← guard_ (claim_verified s id) invalid_transition; guard_ (checks_passing s id) invalid_transition
     else mret tt) s = (Ok u, s) /\
    (st = READY -> claim_verified s id = true /\ checks_passing s id = true)) as (u' & Hg & Hready).
  { destruct (bool_decide_reflect (st = READY)); [|by exists tt]. cbn iota in Hr |- *.
    rewrite bind_run, guard_run in Hr |- *. destruct (claim_verified s id); [|done].
    rewrite guard_run in Hr |- *. destruct (checks_passing s id); [|done]. by exists tt. }
  rewrite Hg in Hr. rewrite bind_run in Hr. cbn [now_or mret SM_ret] in Hr.
  rewrite bind_run, (update_domain_run _ _ _ d Hd) in Hr.
  apply record_event_ok in Hr as (d' & Hd' & Hf & He).
  unfold with_domain in Hd'. simpl_over. rewrite lookup_insert_eq in Hd'. injection Hd' as <-.
  split; [done|done|exact Hf|exact He].
Qed.

(** The lock writes the row's own value back. *)
Lemma lock_application_id a s : lock_application a s = (Ok tt, s).
Proof.
  unfold lock_application, update_application, modify. f_equal. destruct s as [apps]. unfold over; simpl. f_equal.
  apply map_eq. intros k. destruct (decide (k = a)) as [->|]; [|by rewrite lookup_alter_ne].
  rewrite lookup_alter_eq. destruct (apps !! a) as [[]|]; reflexivity.
Qed.

Lemma get_domain_run a id deleted s :
  get_domain a id deleted s =
  match db_domains s !! id with
  | Some d => if (deleted || live d) && bool_decide (dom_application_id d = a)
              then (Ok d, s) else (Err (ServiceError DomainNotFound []), s)
  | None => (Err (ServiceError DomainNotFound []), s)
  end.
Proof.
  unfold get_domain. run. destruct (db_domains s !! id) as [d|]; simpl; [|done].
  run. rewrite guard_run. by destruct (_ && _).
Qed.

Lemma get_domain_ok a id deleted s d s' :
  get_domain a id deleted s = (Ok d, s') ->
  s' = s /\ db_domains s !! id = Some d /\ dom_application_id d = a /\ (deleted = false -> live d = true).
Proof.
  rewrite get_domain_run. destruct (db_domains s !! id) as [d'|]; [|done].
  destruct (_ && _) eqn:E; [|done]. intros [= -> <-].
  apply andb_prop in E as [El Ea]. apply bool_decide_eq_true in Ea.
  repeat split; auto. by intros ->.
Qed.

Definition claim_payload (k : N) (field value : string) : dict :=
  [("claim_id", JStr (uuid_str k)); (field, JStr value)]%string.

Definition revoked (now clock : Z) (c : OwnershipClaim) : OwnershipClaim :=
  (c <| claim_status := REVOKED |> <| claim_revoked_at := Some now |>) <| claim_updated_at := clock |>.

Lemma revoke_live_claim_ok id reason now s u s' :
  revoke_live_claim id reason now s = (Ok u, s') ->
  match active_claim s id with
  | None => s' = s
  | Some (k, c) =>
      exists d, db_domains s !! id = Some d /\
        log_frame (with_claim k (revoked now (db_clock s) c) s) s' /\
        db_events s' = (db_events s ++
          [the_event s id d CLAIM_REVOKED (claim_payload k "reason" reason) now])%list
  end.
Proof.
  unfold revoke_live_claim. rewrite bind_run. cbn [gets].
  destruct (active_claim s id) as [[k c]|] eqn:Ha; [|by intros [= _ <-]].
  apply active_claim_Some in Ha as (Hk & _ & _).
  rewrite bind_run, (update_claim_run _ _ _ c) by done.
  intros (d & Hd & Hf & He)%record_event_ok. exists d. split; [exact Hd|]. split; [exact Hf|exact He].
Qed.

Definition verified (method : string) (now clock : Z) (c : OwnershipClaim) : OwnershipClaim :=
  (c <| claim_status := VERIFIED |> <| claim_verification_method := Some method |>
     <| claim_verified_at := Some now |>) <| claim_updated_at := clock |>.

Lemma mark_claim_verified_ok id method now s u s' :
  mark_claim_verified id method (Some now) s = (Ok u, s') ->
  exists d k c, db_domains s !! id = Some d /\ is_deleted d = false /\
    active_claim s id = Some (k, c) /\
    log_frame (with_claim k (verified method now (db_clock s) c) s) s' /\
    db_events s' = (db_events s ++
      [the_event s id d CLAIM_VERIFIED (claim_payload k "method" method) now])%list.
Proof.
  unfold mark_claim_verified. rewrite bind_run. cbn [now_or mret SM_ret].
  rewrite bind_run, the_domain_run. destruct (db_domains s !! id) as [d|] eqn:Hd; [|done].
  rewrite bind_run. cbn [gets]. destruct (active_claim s id) as [[k c]|] eqn:Ha; [|done].
  destruct (is_deleted d) eqn:Hdel; [done|].
  pose proof (active_claim_Some _ _ _ _ Ha) as (Hk & _ & _).
  rewrite bind_run, (update_claim_run _ _ _ c) by done.
  intros (d' & Hd' & Hf & He)%record_event_ok. exists d, k, c.
  unfold with_claim in Hd'. simpl_over. rewrite Hd in Hd'. injection Hd' as <-.
  split; [done|]. split; [done|]. split; [done|]. split; [exact Hf|exact He].
Qed.

Definition check_payload (s : Db) (id : N) (t : CheckType) (st : CheckStatus) (e : option string) : dict :=
  [("check", JStr (check_type_value t));
   ("from", jopt (check_status_value <$> (check_status <$> domain_check s id t)));
   ("to", JStr (check_status_value st)); ("error_code", jopt e)]%string.

(** The row [record_check] writes. *)
Definition new_check (st : CheckStatus) (e m : option string) (details : option dict) (at_ : Z)
    (next : option Z) : DomainCheck :=
  {| check_status := st; check_error_code := if bool_decide (st = FAILING) then e else None;
     check_message := m; check_details := details; check_observed_at := Some at_;
     check_next_check_at := next |}.

Lemma record_check_ok id t st e m details at_ next s u s' :
  record_check id t st e m details (Some at_) next s = (Ok u, s') ->
  exists d s1, db_domains s !! id = Some d /\
    log_frame (with_check id t (new_check st e m details at_ next) s) s1 /\
    db_events s1 = (db_events s ++ [the_event s id d CHECK_UPDATED
      (check_payload s id t st (check_error_code (new_check st e m details at_ next))) at_])%list /\
    if bool_decide (st = FAILING) && bool_decide (dom_status d = READY)
    then transition_status id ATTENTION_REQUIRED (Some (check_type_value t +:+ "_check_failed"))
           (Some at_) s1 = (Ok u, s')
    else s' = s1.
Proof.
  unfold record_check. rewrite bind_run. cbn [now_or mret SM_ret]. rewrite bind_run. cbn [gets].
  rewrite bind_run. unfold put_check at 1. cbn [modify].
  rewrite bind_run. destruct (record_event _ _ _ _ _) as [[[]|] s1] eqn:Hr; [|done].
  apply record_event_ok in Hr as (d & Hd & Hf & He).
  assert (db_domains s1 !! id = Some d) as Hd1 by (rewrite (lf_domains _ _ Hf); exact Hd).
  rewrite bind_run, the_domain_run, Hd1.
  intros Hs'. exists d, s1. split; [exact Hd|]. split; [exact Hf|]. split; [exact He|].
  destruct (_ && _); [exact Hs'|]. by injection Hs' as _ <-.
Qed.

(** The row of a fresh claim. *)
Definition new_claim (s : Db) (id : N) (d : Domain) (target : string) (now : Z) : OwnershipClaim :=
  {| claim_domain_id := id; claim_txt_record_name := CHALLENGE_LABEL +:+ "." +:+ dom_hostname d;
     claim_token := token_urlsafe (db_next s) CLAIM_TOKEN_BYTES;
     claim_cname_target := target; claim_status := CLAIM_PENDING;
     claim_verification_method := None; claim_verified_at := None;
     claim_revoked_at := None; claim_expires_at := None;
     claim_created_at := now; claim_updated_at := now |}.

Definition advance (s : Db) : Db := s <| db_next := (db_next s + 1)%N |>.

Lemma existsb_rows {A} (p : A -> bool) (m : gmap N A) :
  existsb (fun x => p x.2) (map_to_list m) = true <-> exists k r, m !! k = Some r /\ p r = true.
Proof.
  rewrite existsb_exists. split.
  - intros ([k r] & Hin & Hp). exists k, r. by rewrite <- list_elem_of_In, elem_of_map_to_list in Hin.
  - intros (k & r & Hk & Hp). exists (k, r). by rewrite <- list_elem_of_In, elem_of_map_to_list.
Qed.

Lemma insert_claim_ok c s k s' :
  insert_claim c s = (Ok k, s') ->
  k = db_next s /\ is_Some (db_domains s !! claim_domain_id c) /\ db_claims s !! k = None /\
  (claim_live c = true -> forall j r, db_claims s !! j = Some r ->
     claim_domain_id r = claim_domain_id c -> claim_live r = false) /\
  (forall j r, db_claims s !! j = Some r -> claim_token r <> claim_token c) /\
  s' = with_claim k c (advance s).
Proof.
  unfold insert_claim. rewrite bind_run. cbn [get]. rewrite bind_run, guard_run.
  destruct (bool_decide_reflect (is_Some (db_domains s !! claim_domain_id c))); [|done].
  rewrite bind_run, guard_run. destruct (negb _) eqn:E1; [|done].
  rewrite bind_run, guard_run. destruct (negb (existsb _ _)) eqn:E2; [|done].
  rewrite bind_run. unfold fresh at 1. rewrite bind_run, guard_run. simpl.
  destruct (bool_decide_reflect (db_claims s !! db_next s = None)); [|done].
  rewrite bind_run. cbn [modify mret SM_ret]. intros [= <- <-].
  apply negb_true_iff in E1, E2.
  split; [done|]. split; [done|]. split; [done|]. split; [|split; [|done]].
  - intros Hl j r Hj Hd. rewrite Hl in E1. apply not_true_is_false. intros Hr.
    cbn [andb] in E1. rewrite <- not_true_iff_false in E1. apply E1.
    apply (proj2 (existsb_rows (fun r => claim_live r && (claim_domain_id r =? claim_domain_id c)%N)
             (db_claims s))).
    exists j, r. by rewrite Hr, Hd, N.eqb_refl.
  - intros j r Hj Ht. rewrite <- not_true_iff_false in E2. apply E2.
    apply (proj2 (existsb_rows (fun r => String.eqb (claim_token r) (claim_token c)) (db_claims s))).
    exists j, r. by rewrite String.eqb_eq.
Qed.

Lemma issue_claim_ok id target now s k s' :
  issue_claim id target now s = (Ok k, s') ->
  exists d s1, db_domains s !! id = Some d /\
    insert_claim (new_claim s id d target now) (advance s) = (Ok k, s1) /\ log_frame s1 s' /\
    db_events s' = (db_events s ++ [the_event s1 id d CLAIM_ISSUED
       (claim_payload k "txt_record_name" (CHALLENGE_LABEL +:+ "." +:+ dom_hostname d)) now])%list.
Proof.
  unfold issue_claim. rewrite bind_run, the_domain_run.
  destruct (db_domains s !! id) as [d|] eqn:Hd; [|done].
  rewrite bind_run. unfold fresh at 1. rewrite bind_run.
  destruct (insert_claim _ _) as [[j|] s1] eqn:Hi; [|done]. rewrite bind_run.
  destruct (record_event _ _ _ _ _) as [[[]|] s2] eqn:Hr; [|done]. intros [= -> ->].
  pose proof (insert_claim_ok _ _ _ _ Hi) as (_ & _ & _ & _ & _ & Hs1).
  apply record_event_ok in Hr as (d' & Hd' & Hf & He). exists d, s1.
  rewrite Hs1 in Hd'. unfold with_claim, advance in Hd'. simpl_over.
  assert (d' = d) as -> by congruence.
  split; [done|]. split; [exact Hi|]. split; [done|]. rewrite He. f_equal.
  rewrite Hs1. unfold with_claim, advance. by simpl_over.
Qed.
End Facts.
