(* ===== verification/DomainInv.v ===== *)
(** * The domain invariant

    What holds of the rows of domains, claims and checks after every completed
    operation ([Inv None]); [Inv (Some id)] is the same with domain [id] in the
    middle of an operation, when its readiness and its tombstone need not agree
    with its claim and its checks yet.  Each operation of Domains.v preserves it. *)

From Stdlib Require Import Ascii String ZArith Lia.
From stdpp Require Import base gmap strings list sets sorting.
From S2P Require Import Prelude PyStr Datetime Json Errors External Models Hostname Dns DnsSetup.
From S2P Require Import Schemas Webhooks Limits Domains DomainFacts.
Open Scope Z_scope.

Definition has_verified (s : Db) (id : N) : Prop :=
  exists k c, db_claims s !! k = Some c /\ claim_domain_id c = id /\ claim_status c = VERIFIED.
Definition all_passing (s : Db) (id : N) : Prop :=
  forall t, exists c, db_checks s !! (id, t) = Some c /\ check_status c = PASSING.

(** Whether a row is in the middle of an operation. *)
Definition outside (h : option N) (id : N) : Prop := h <> Some id.

Section Inv.
Context `{External}.

Record Inv (h : option N) (s : Db) : Prop := {
  inv_hostname i j d e :
    db_domains s !! i = Some d -> db_domains s !! j = Some e ->
    live d = true -> live e = true -> dom_hostname d = dom_hostname e -> i = j;
  inv_one_claim j k c e :
    db_claims s !! j = Some c -> db_claims s !! k = Some e ->
    claim_live c = true -> claim_live e = true -> claim_domain_id c = claim_domain_id e -> j = k;
  inv_token j k c e :
    db_claims s !! j = Some c -> db_claims s !! k = Some e -> claim_token c = claim_token e -> j = k;
  inv_claim_domain k c : db_claims s !! k = Some c -> is_Some (db_domains s !! claim_domain_id c);
  inv_check_domain id t c : db_checks s !! (id, t) = Some c -> is_Some (db_domains s !! id);
  inv_application id d : db_domains s !! id = Some d -> is_Some (db_applications s !! dom_application_id d);
  inv_canonical id d : db_domains s !! id = Some d -> exists raw, canonicalize raw = Ok (dom_hostname d);
  inv_deleted id d :
    outside h id -> db_domains s !! id = Some d -> is_deleted d = true ->
    dom_status d = DELETING /\ is_Some (dom_purge_after d) /\
    forall k c, db_claims s !! k = Some c -> claim_domain_id c = id -> claim_status c = REVOKED;
  inv_ready id d :
    outside h id -> db_domains s !! id = Some d -> live d = true -> dom_status d = READY ->
    has_verified s id /\ all_passing s id;
}.

(** The readiness and tombstone clauses for one domain. *)
Definition settled (s : Db) (id : N) : Prop :=
  forall d, db_domains s !! id = Some d ->
    (is_deleted d = true -> dom_status d = DELETING /\ is_Some (dom_purge_after d) /\
       forall k c, db_claims s !! k = Some c -> claim_domain_id c = id -> claim_status c = REVOKED) /\
    (live d = true -> dom_status d = READY -> has_verified s id /\ all_passing s id).

Lemma inv_settled h s id : Inv h s -> outside h id -> settled s id.
Proof. intros HI Ho d Hd. split; intros; [eapply inv_deleted|eapply inv_ready]; eauto. Qed.

Lemma inv_open id s : Inv None s -> Inv (Some id) s.
Proof. intros []. constructor; try done; intros i d _; eauto; [by apply inv_deleted0|by apply inv_ready0]. Qed.

Lemma inv_close id s : Inv (Some id) s -> settled s id -> Inv None s.
Proof.
  intros [] Hs. constructor; try done; intros i d _ Hd;
    (destruct (decide (i = id)) as [->|Hne]; [by apply (Hs d Hd)|]).
  - apply (inv_deleted0 i d); [unfold outside; congruence|done].
  - apply (inv_ready0 i d); [unfold outside; congruence|done].
Qed.

(** The tables the invariant is about. *)
Lemma inv_tables h s s' :
  db_applications s' = db_applications s -> db_domains s' = db_domains s ->
  db_claims s' = db_claims s -> db_checks s' = db_checks s -> Inv h s -> Inv h s'.
Proof.
  intros Ea Ed Ec Ek []. constructor; unfold has_verified, all_passing; rewrite ?Ea, ?Ed, ?Ec, ?Ek; done.
Qed.

Lemma inv_log h s s' : log_frame s s' -> Inv h s -> Inv h s'.
Proof. intros []. by apply inv_tables. Qed.

Lemma settled_log s s' id : log_frame s s' -> settled s id -> settled s' id.
Proof.
  intros Hf Hs d. unfold has_verified, all_passing.
  rewrite (lf_domains _ _ Hf), (lf_claims _ _ Hf), (lf_checks _ _ Hf). apply Hs.
Qed.

(** ** Single row changes inside an operation on [id] *)

Lemma outside_ne id k : outside (Some id) k -> k <> id.
Proof. unfold outside. congruence. Qed.

Lemma all_passing_put s id t c k :
  k <> id -> all_passing s k -> all_passing (with_check id t c s) k.
Proof.
  intros Hk Hp t'. unfold with_check. simpl_over. rewrite lookup_insert_ne by congruence. apply Hp.
Qed.

Lemma inv_put_check s id t c :
  is_Some (db_domains s !! id) -> Inv (Some id) s -> Inv (Some id) (with_check id t c s).
Proof.
  intros Hid []. constructor; try done.
  - intros k t' c'. unfold with_check. simpl_over.
    intros [[[= <- <-] <-]|[_ Hk]]%lookup_insert_Some; eauto.
  - intros k d Hk%outside_ne Hd Hl Hr. destruct (inv_ready0 k d) as [Hv Hp]; try done.
    { unfold outside. congruence. }
    split; [exact Hv|by apply all_passing_put].
Qed.

Lemma inv_put_domain s id d d' :
  db_domains s !! id = Some d -> dom_hostname d' = dom_hostname d ->
  dom_application_id d' = dom_application_id d -> (live d' = true -> live d = true) ->
  Inv (Some id) s -> Inv (Some id) (with_domain id d' s).
Proof.
  intros Hd Hh Ha Hl []. unfold with_domain. constructor; simpl_over; try done.
  - intros i j e f. rewrite !lookup_insert_Some.
    intros [[<- <-]|[Hi Hei]] [[<- <-]|[Hj Hfj]] ? ? E; try done.
    + rewrite Hh in E. eapply inv_hostname0; eauto.
    + rewrite Hh in E. eapply inv_hostname0; eauto.
    + eapply inv_hostname0; eauto.
  - intros k c Hk. rewrite lookup_insert_is_Some'. eauto.
  - intros k t c Hk. rewrite lookup_insert_is_Some'. eauto.
  - intros k e. rewrite lookup_insert_Some. intros [[<- <-]|[_ Hk]]; [rewrite Ha|]; eauto.
  - intros k e. rewrite lookup_insert_Some. intros [[<- <-]|[_ Hk]]; [rewrite Hh|]; eauto.
  - intros k e Ho. pose proof (outside_ne _ _ Ho). rewrite lookup_insert_ne by done. by apply inv_deleted0.
  - intros k e Ho. pose proof (outside_ne _ _ Ho). rewrite lookup_insert_ne by done. by apply inv_ready0.
Qed.

Lemma inv_put_claim s k c c' :
  db_claims s !! k = Some c -> claim_domain_id c' = claim_domain_id c -> claim_token c' = claim_token c ->
  (claim_live c' = true -> claim_live c = true) ->
  Inv (Some (claim_domain_id c)) s -> Inv (Some (claim_domain_id c)) (with_claim k c' s).
Proof.
  intros Hk Hd Ht Hl []. unfold with_claim. constructor; simpl_over; try done.
  - intros i j e f. rewrite !lookup_insert_Some.
    intros [[<- <-]|[Hi Hei]] [[<- <-]|[Hj Hfj]] ? ? E; rewrite ?Hd in E; try done;
      eapply inv_one_claim0; eauto.
  - intros i j e f. rewrite !lookup_insert_Some.
    intros [[<- <-]|[Hi Hei]] [[<- <-]|[Hj Hfj]] E; rewrite ?Ht in E; try done;
      eapply inv_token0; eauto.
  - intros i e. rewrite lookup_insert_Some. intros [[<- <-]|[_ Hi]]; [rewrite Hd|]; eauto.
  - intros id d Ho Hid Hdel. pose proof (outside_ne _ _ Ho) as Hne.
    destruct (inv_deleted0 id d) as (? & ? & Hr); try done. split; [done|]. split; [done|].
    intros j e. rewrite lookup_insert_Some. intros [[<- <-]|[_ Hj]]; [congruence|eauto].
  - intros id d Ho Hid Hlive Hready. pose proof (outside_ne _ _ Ho) as Hne.
    destruct (inv_ready0 id d) as [(j & e & Hj & Hje & Hv) Hp]; try done. split; [|done].
    exists j, e. cbn [db_claims]. rewrite lookup_insert_ne; [done|]. intros <-. congruence.
Qed.

Lemma inv_insert_claim s id k c :
  db_claims s !! k = None -> claim_domain_id c = id -> is_Some (db_domains s !! id) ->
  (claim_live c = true -> forall j r, db_claims s !! j = Some r ->
     claim_domain_id r = id -> claim_live r = false) ->
  (forall j r, db_claims s !! j = Some r -> claim_token r <> claim_token c) ->
  Inv (Some id) s -> Inv (Some id) (with_claim k c s).
Proof.
  intros Hk Hd Hid Hone Htok []. unfold with_claim. constructor; simpl_over; try done.
  - intros i j e f. rewrite !lookup_insert_Some.
    intros [[<- <-]|[Hi Hei]] [[<- <-]|[Hj Hfj]] Hl1 Hl2 E; rewrite ?Hd in E; try done.
    + pose proof (Hone Hl1 _ _ Hfj (eq_sym E)). congruence.
    + pose proof (Hone Hl2 _ _ Hei E). congruence.
    + eapply inv_one_claim0; eauto.
  - intros i j e f. rewrite !lookup_insert_Some.
    intros [[<- <-]|[Hi Hei]] [[<- <-]|[Hj Hfj]] E; try done.
    + exfalso. by eapply Htok.
    + exfalso. by eapply Htok.
    + eapply inv_token0; eauto.
  - intros i e. rewrite lookup_insert_Some. intros [[<- <-]|[_ Hi]]; [by rewrite Hd|eauto].
  - intros i d Ho Hi Hdel. pose proof (outside_ne _ _ Ho) as Hne.
    destruct (inv_deleted0 i d) as (? & ? & Hr); try done. split; [done|]. split; [done|].
    intros j e. rewrite lookup_insert_Some. intros [[<- <-]|[_ Hj]]; [congruence|eauto].
  - intros i d Ho Hi Hlive Hready. pose proof (outside_ne _ _ Ho) as Hne.
    destruct (inv_ready0 i d) as [(j & e & Hj & Hje & Hv) Hp]; try done. split; [|done].
    exists j, e. cbn [db_claims]. rewrite lookup_insert_ne; [done|]. intros <-. congruence.
Qed.
End Inv.

(** ** The operations *)

Section Operations.
Context `{External, Deployment}.

Lemma checks_passing_true s id : checks_passing s id = true <-> all_passing s id.
Proof.
  unfold checks_passing, all_passing. rewrite forallb_forall. split; intros Hp t.
  - specialize (Hp t). rewrite <- list_elem_of_In in Hp. specialize (Hp (all_checks_all t)).
    destruct (db_checks s !! (id, t)) as [c|]; [|done]. apply bool_decide_eq_true in Hp. eauto.
  - intros _. destruct (Hp t) as (c & -> & Hc). by rewrite bool_decide_true.
Qed.

Lemma claim_verified_has s id : claim_verified s id = true -> has_verified s id.
Proof.
  unfold claim_verified. destruct (active_claim s id) as [[k c]|] eqn:Ha; [|done].
  intros Hv%bool_decide_eq_true. apply active_claim_Some in Ha as (? & ? & _). by exists k, c.
Qed.

(** With at most one live claim, the active claim is that claim. *)
Lemma active_claim_is h s k c :
  Inv h s -> db_claims s !! k = Some c -> claim_status c <> REVOKED ->
  active_claim s (claim_domain_id c) = Some (k, c).
Proof.
  intros HI Hk Hc. destruct (active_claim s (claim_domain_id c)) as [[j e]|] eqn:Ha.
  - apply active_claim_Some in Ha as (Hj & Hd & He).
    assert (j = k) as ->; [|congruence].
    apply (inv_one_claim _ _ HI j k e c); try done; unfold claim_live; by rewrite bool_decide_true.
  - exfalso. apply Hc. by eapply active_claim_None.
Qed.

Lemma claim_verified_true h s id : Inv h s -> claim_verified s id = true <-> has_verified s id.
Proof.
  intros HI. split; [apply claim_verified_has|]. intros (k & c & Hk & <- & Hv).
  unfold claim_verified. rewrite (active_claim_is _ _ k c HI Hk) by congruence.
  by rewrite bool_decide_true.
Qed.

Lemma set_status_hostname st now d : dom_hostname (set_status st now d) = dom_hostname d.
Proof. done. Qed.
Lemma set_status_live st now d : live (set_status st now d) = live d.
Proof. done. Qed.

Lemma transition_inv id st reason now s u s' :
  transition_status id st reason (Some now) s = (Ok u, s') -> Inv (Some id) s ->
  (exists d, db_domains s !! id = Some d /\ dom_status d = st /\ s' = s) \/ Inv None s'.
Proof.
  intros (d & Hd & Hdel & [[-> ->]|[Hne []]])%transition_status_ok HI; [by eauto|]. right.
  eapply inv_log; [exact tr_frame|]. apply (inv_close id).
  - by apply (inv_put_domain _ _ d).
  - intros d' Hd'. unfold with_domain in Hd'. simpl_over. rewrite lookup_insert_eq in Hd'.
    injection Hd' as <-. split.
    + intros Hx. unfold is_deleted, set_status in *. simpl_over. congruence.
    + intros _ Hst. destruct (tr_ready Hst) as [Hv Hp].
      split; [exact (claim_verified_has _ _ Hv)|]. apply checks_passing_true in Hp. exact Hp.
Qed.

Lemma transition_inv_hole id st reason now s u s' :
  transition_status id st reason (Some now) s = (Ok u, s') -> Inv (Some id) s -> Inv (Some id) s'.
Proof.
  intros Ht HI. destruct (transition_inv _ _ _ _ _ _ _ Ht HI) as [(d & _ & _ & ->)|HI'];
    [done|by apply inv_open].
Qed.

Lemma transition_inv_closed id st reason now s u s' :
  transition_status id st reason (Some now) s = (Ok u, s') -> Inv None s -> Inv None s'.
Proof.
  intros Ht HI. destruct (transition_inv _ _ _ _ _ _ _ Ht (inv_open _ _ HI)) as [(d & _ & _ & ->)|?]; done.
Qed.

Lemma record_event_inv h id type payload now s u s' :
  record_event id type payload (Some now) s = (Ok u, s') -> Inv h s -> Inv h s'.
Proof. intros (d & _ & Hf & _)%record_event_ok. by apply inv_log. Qed.

Lemma record_check_inv_hole id t st e m details at_ next s u s' :
  record_check id t st e m details (Some at_) next s = (Ok u, s') -> Inv (Some id) s -> Inv (Some id) s'.
Proof.
  intros (d & s1 & Hd & Hf & _ & Hs')%record_check_ok HI.
  assert (Inv (Some id) s1) as H1 by (eapply inv_log, inv_put_check; eauto).
  destruct (_ && _); [|by subst]. by eapply transition_inv_hole.
Qed.

Lemma all_passing_put_same s id t c :
  check_status c = PASSING -> all_passing s id -> all_passing (with_check id t c s) id.
Proof.
  intros Hc Hp t'. unfold with_check. simpl_over.
  destruct (decide (t = t')) as [->|]; [rewrite lookup_insert_eq; eauto|].
  rewrite lookup_insert_ne by congruence. apply Hp.
Qed.

Lemma record_check_inv id t st e m details at_ next s u s' :
  st <> PENDING ->
  record_check id t st e m details (Some at_) next s = (Ok u, s') -> Inv None s -> Inv None s'.
Proof.
  intros Hst (d & s1 & Hd & Hf & _ & Hs')%record_check_ok HI.
  assert (Inv (Some id) s1) as H1 by (eapply inv_log, inv_put_check; eauto using inv_open).
  destruct (bool_decide_reflect (st = FAILING)) as [->|Hnf]; simpl in Hs'.
  - destruct (bool_decide_reflect (dom_status d = READY)) as [Hr|Hr].
    + destruct (transition_inv _ _ _ _ _ _ _ Hs' H1) as [(d' & Hd' & Hat & _)|?]; [|done].
      rewrite (lf_domains _ _ Hf) in Hd'. unfold with_check in Hd'. simpl_over. congruence.
    + subst s'. apply (inv_close id); [done|]. eapply settled_log; [exact Hf|].
      intros d' Hd'. unfold with_check in Hd'. simpl_over.
      assert (d' = d) as -> by congruence. split; [|done].
      exact (proj1 (inv_settled _ _ _ HI ltac:(done) d Hd)).
  - subst s'. apply (inv_close id); [done|]. eapply settled_log; [exact Hf|].
    intros d' Hd'. unfold with_check in Hd'. simpl_over. assert (d' = d) as -> by congruence.
    destruct (inv_settled _ _ _ HI ltac:(done) d Hd) as [Hdel Hready]. split; [exact Hdel|].
    intros Hl Hr. destruct (Hready Hl Hr) as [Hv Hp]. split; [exact Hv|].
    apply all_passing_put_same; [by destruct st|exact Hp].
Qed.

Lemma mark_claim_verified_inv id method now s u s' :
  mark_claim_verified id method (Some now) s = (Ok u, s') -> Inv None s -> Inv None s'.
Proof.
  intros (d & k & c & Hd & Hdel & Ha & Hf & _)%mark_claim_verified_ok HI.
  apply active_claim_Some in Ha as (Hk & Hid & Hc). eapply inv_log; [exact Hf|].
  subst id. apply (inv_close (claim_domain_id c)).
  - apply inv_put_claim; try done; [|by apply inv_open].
    intros _. unfold claim_live. by rewrite bool_decide_true.
  - intros d' Hd'. unfold with_claim in Hd'. simpl_over. assert (d' = d) as -> by congruence.
    split; [congruence|]. intros Hl Hr.
    destruct (inv_ready _ _ HI _ _ ltac:(done) Hd Hl Hr) as [_ Hp]. split; [|exact Hp].
    eexists k, _. unfold with_claim. simpl_over. rewrite lookup_insert_eq. eauto.
Qed.

(** No claim of the domain is live. *)
Definition no_live_claim (s : Db) (id : N) : Prop :=
  forall k c, db_claims s !! k = Some c -> claim_domain_id c = id -> claim_status c = REVOKED.

Lemma revoke_live_claim_inv id reason now s u s' :
  revoke_live_claim id reason now s = (Ok u, s') -> Inv (Some id) s ->
  Inv (Some id) s' /\ no_live_claim s' id /\ db_domains s' = db_domains s /\ db_checks s' = db_checks s.
Proof.
  intros Hr%revoke_live_claim_ok HI. destruct (active_claim s id) as [[k c]|] eqn:Ha.
  - destruct Hr as (d & Hd & Hf & _).
    pose proof (active_claim_Some _ _ _ _ Ha) as (Hk & Hid & Hc). split; [|split].
    + eapply inv_log; [exact Hf|]. subst id. by apply inv_put_claim.
    + intros j e. rewrite (lf_claims _ _ Hf). unfold with_claim. simpl_over.
      rewrite lookup_insert_Some. intros [[<- <-]|[Hne Hj]] Hje; [done|].
      destruct (decide (claim_status e = REVOKED)) as [|Hn]; [done|].
      pose proof (active_claim_is _ _ _ _ HI Hj Hn) as Ha'. congruence.
    + by rewrite (lf_domains _ _ Hf), (lf_checks _ _ Hf).
  - subst s'. split; [done|]. split; [|done]. intros k c Hk Hid. by eapply active_claim_None.
Qed.

Lemma issue_claim_inv id target now s k s' :
  issue_claim id target now s = (Ok k, s') -> Inv (Some id) s ->
  Inv (Some id) s' /\ db_domains s' = db_domains s /\ db_checks s' = db_checks s.
Proof.
  intros (d & s1 & Hd & Hi & Hf & _)%issue_claim_ok HI.
  apply insert_claim_ok in Hi as (-> & Hid & Hk & Hone & Htok & ->). split.
  - eapply inv_log; [exact Hf|]. unfold advance in *. simpl_over. apply inv_insert_claim; eauto.
    eapply inv_tables; [..|exact HI]; done.
  - by rewrite (lf_domains _ _ Hf), (lf_checks _ _ Hf).
Qed.
End Operations.

Section Handlers.
Context `{External, Deployment}.

Lemma insert_domain_ok d s k s' :
  insert_domain d s = (Ok k, s') ->
  k = db_next s /\ is_Some (db_applications s !! dom_application_id d) /\ db_domains s !! k = None /\
  (live d = true -> forall j r, db_domains s !! j = Some r -> live r = true ->
     dom_hostname r <> dom_hostname d) /\
  s' = with_domain k d (advance s).
Proof.
  unfold insert_domain. rewrite bind_run. cbn [get]. rewrite bind_run, guard_run.
  destruct (bool_decide_reflect (is_Some (db_applications s !! dom_application_id d))); [|done].
  rewrite bind_run, guard_run. destruct (negb _) eqn:E1; [|done].
  rewrite bind_run. unfold fresh at 1. rewrite bind_run, guard_run.
  destruct (bool_decide_reflect (db_domains s !! db_next s = None)); [|done].
  rewrite bind_run. cbn [modify mret SM_ret]. intros [= <- <-].
  apply negb_true_iff in E1. repeat split; try done.
  intros Hl j r Hj Hr Hh. rewrite Hl in E1. cbn [andb] in E1. rewrite <- not_true_iff_false in E1.
  apply E1. apply (proj2 (existsb_rows (fun r => live r && String.eqb (dom_hostname r) (dom_hostname d))
    (db_domains s))). exists j, r. by rewrite Hr, Hh, String.eqb_refl.
Qed.

Lemma insert_domain_inv d s k s' :
  insert_domain d s = (Ok k, s') -> live d = true -> dom_status d <> READY ->
  (exists raw, canonicalize raw = Ok (dom_hostname d)) -> Inv None s ->
  Inv None s' /\ db_domains s' !! k = Some d /\
  (forall j r, db_claims s' !! j = Some r -> claim_domain_id r <> k).
Proof.
  intros (-> & Happ & Hk & Huniq & ->)%insert_domain_ok Hl Hst Hraw [].
  assert (forall j r, db_claims s !! j = Some r -> claim_domain_id r <> db_next s) as Hclaims.
  { intros j r Hj E. destruct (inv_claim_domain0 _ _ Hj) as [x Hx]. congruence. }
  unfold with_domain, advance. split; [|simpl_over; by rewrite lookup_insert_eq].
  constructor; simpl_over; try done.
  - intros i j e f. rewrite !lookup_insert_Some.
    intros [[<- <-]|[Hi Hei]] [[<- <-]|[Hj Hfj]] L1 L2 E; try done.
    + exfalso. by eapply (Huniq L1 j f).
    + exfalso. by eapply (Huniq L2 i e).
    + eapply inv_hostname0; eauto.
  - intros j c Hj. rewrite lookup_insert_is_Some'. eauto.
  - intros j t c Hj. rewrite lookup_insert_is_Some'. eauto.
  - intros j e. rewrite lookup_insert_Some. intros [[<- <-]|[_ Hj]]; eauto.
  - intros j e. rewrite lookup_insert_Some. intros [[<- <-]|[_ Hj]]; eauto.
  - intros j e _. rewrite lookup_insert_Some. intros [[<- <-]|[_ Hj]] Hdel.
    + unfold live in Hl. rewrite Hdel in Hl. done.
    + by apply inv_deleted0.
  - intros j e _. rewrite lookup_insert_Some. intros [[<- <-]|[_ Hj]] ? ?; [done|].
    by apply (inv_ready0 j e).
Qed.

(** A live domain that is not ready is settled whatever its claim and checks are. *)
Lemma settled_not_ready s id d :
  db_domains s !! id = Some d -> live d = true -> dom_status d <> READY -> settled s id.
Proof.
  intros Hd Hl Hst d' Hd'. assert (d' = d) as -> by congruence. split; [|done].
  unfold live in Hl. intros Hx. by rewrite Hx in Hl.
Qed.

Lemma put_checks_inv id (c : CheckType -> DomainCheck) l s u s' :
  for_each l (fun t => put_check id t (c t)) s = (Ok u, s') ->
  is_Some (db_domains s !! id) -> Inv (Some id) s ->
  Inv (Some id) s' /\ db_domains s' = db_domains s /\ db_claims s' = db_claims s.
Proof.
  revert s. induction l as [|t l IH]; intros s; simpl; [by intros [= _ <-]|].
  rewrite bind_run. cbn. intros Hr Hid HI.
  destruct (IH _ Hr) as (? & Ed & Ec); [done|exact (inv_put_check _ _ _ _ Hid HI)|].
  split; [done|]. by rewrite Ed, Ec.
Qed.

Lemma enforce_tables a s u s' :
  enforce a s = (Ok u, s') ->
  db_applications s' = db_applications s /\ db_domains s' = db_domains s /\
  db_claims s' = db_claims s /\ db_checks s' = db_checks s /\ db_events s' = db_events s /\
  db_clock s' = db_clock s /\ db_next s' = db_next s.
Proof.
  unfold enforce, the_application. intros Hr. run_inv Hr.
  repeat match goal with
  | H : context [match ?o with Some _ => _ | None => _ end] |- _ => destruct o; run_inv H
  | H : acquire_lock _ _ _ = _ |- _ => injection H as ??; subst
  | H : (_ ≫= _) _ = (Ok _, _) |- _ => run_inv H
  | H : mret _ _ = (Ok _, _) |- _ => run_inv H
  end; repeat split; reflexivity.
Qed.

(** The row [claim_domain] inserts. *)
Definition new_domain (a : N) (canonical reference : string) (metadata : option dict) (now : Z) : Domain :=
  {| dom_application_id := a; dom_hostname := canonical; dom_reference := strip reference;
     dom_status := PENDING_DNS; dom_extra := metadata; dom_deleted_at := None;
     dom_purge_after := None; dom_zone := Some (default_zone canonical);
     dom_connect_started_at := None; dom_created_at := now; dom_updated_at := now |}.

Definition pending_check : DomainCheck :=
  {| check_status := PENDING; check_error_code := None; check_message := None;
     check_details := None; check_observed_at := None; check_next_check_at := None |}.

Lemma lock_application_run a s :
  exists s', lock_application a s = (Ok tt, s') /\ db_applications s' = db_applications s /\
    s' = s <| db_applications := db_applications s' |>.
Proof.
  exists s. split; [apply lock_application_id|]. split; [done|]. by destruct s.
Qed.

Lemma catch_savepoint_ok {A} (m : M A) h s a s' :
  (forall e t b t', h e t <> (Ok b, t')) ->
  catch (savepoint m) h s = (Ok a, s') -> m s = (Ok a, s').
Proof.
  intros Hh. unfold catch, savepoint. destruct (m s) as [[b|e] t]; [done|].
  intros E. by apply Hh in E.
Qed.

(** Everything a successful claim did. *)
Lemma claim_domain_ok a hostname reference metadata o s id s' :
  let now := default (db_clock s) o in
  claim_domain a hostname reference metadata o s = (Ok id, s') ->
  exists app canonical s1 s2 s3 s4 k,
    db_applications s !! a = Some app /\ app_status app = ACTIVE /\
    canonicalize hostname = Ok canonical /\
    db_applications s1 = db_applications s /\ db_domains s1 = db_domains s /\
    db_claims s1 = db_claims s /\ db_checks s1 = db_checks s /\ db_events s1 = db_events s /\
    db_clock s1 = db_clock s /\ db_next s1 = db_next s /\
    insert_domain (new_domain a canonical reference metadata now) s1 = (Ok id, s2) /\
    for_each all_checks (fun t => put_check id t pending_check) s2 = (Ok tt, s3) /\
    record_event id DOMAIN_CREATED
      [("hostname"%string, JStr canonical); ("reference"%string, JStr (strip reference))] (Some now) s3 = (Ok tt, s4) /\
    issue_claim id (app_cname_target app) now s4 = (Ok k, s').
Proof.
  unfold claim_domain, the_application. intros Hr. run_inv Hr.
  apply bool_decide_eq_true in E0.
  match goal with H : now_or _ _ = _ |- _ => destruct o; injection H as ??; subst end;
  simpl default.
  all: match goal with H : lock_application ?b ?t = _ |- _ =>
    destruct (lock_application_run b t) as (sl & Hl & Ea & Es); rewrite Hl in H;
    injection H as ??; subst end.
  all: match goal with H : enforce _ _ = _ |- _ =>
    apply enforce_tables in H as (F1 & F2 & F3 & F4 & F5 & F6 & F7) end.
  all: match goal with H : enforce_registration_limit _ _ _ = _ |- _ =>
    unfold enforce_registration_limit, enforce_window in H; run_inv H end.
  all: match goal with H : (if ?b then _ else _) _ = (Ok _, _) |- _ => destruct b; [done|run_inv H] end.
  all: match goal with H : catch _ _ _ = _ |- _ => apply catch_savepoint_ok in H end.
  all: try by intros e t b t'; destruct e; try done; destruct (contains _ _).
  all: repeat match goal with H : unit |- _ => destruct H end.
  all: match goal with
  | _ : insert_domain _ ?t1 = (_, ?t2), _ : record_event _ _ _ _ ?t3 = (_, ?t4) |- _ =>
      eexists _, _, t1, t2, t3, t4, _
  end.
  all: split; [done|]; split; [done|]; split; [eassumption|].
  all: rewrite Es in F2, F3, F4, F5, F6, F7; simpl_over.
  all: split; [congruence|]; do 6 (split; [eassumption|]).
  all: split; [eassumption|]; split; [eassumption|]; split; [eassumption|]; eassumption.
Qed.

Lemma claim_domain_inv a hostname reference metadata o s id s' :
  claim_domain a hostname reference metadata o s = (Ok id, s') -> Inv None s -> Inv None s'.
Proof.
  intros (app & canonical & s1 & s2 & s3 & s4 & k & Happ & _ & Hc & F1 & F2 & F3 & F4 & _ & _ & _
          & Hi & Hl & He & Hk)%claim_domain_ok HI.
  assert (Inv None s1) as H1 by (by eapply inv_tables).
  apply insert_domain_inv in Hi as (H2 & Hd & Hcl); [|done|done|by exists hostname|done].
  apply put_checks_inv in Hl as (H3 & Ed & Ec); [|by eexists|by apply inv_open].
  pose proof (record_event_inv _ _ _ _ _ _ _ _ He H3) as H4.
  apply record_event_ok in He as (_ & _ & Hf & _).
  apply issue_claim_inv in Hk as (H5 & Ed' & Ec'); [|done].
  apply (inv_close id); [done|]. eapply settled_not_ready;
    [rewrite Ed', (lf_domains _ _ Hf), Ed; exact Hd|done|done].
Qed.

Lemma delete_domain_inv a id o s u s' :
  delete_domain a id o s = (Ok u, s') -> Inv None s -> Inv None s'.
Proof.
  enough (forall now, delete_domain a id (Some now) s = (Ok u, s') -> Inv None s -> Inv None s') as Hn
    by (destruct o; [apply Hn|exact (Hn (db_clock s))]).
  intros now Hr HI. unfold delete_domain in Hr. rewrite bind_run in Hr. cbn [now_or mret SM_ret] in Hr.
  apply bind_ok in Hr as (d & s0 & (-> & Hd & Ha & _)%get_domain_ok & Hr).
  destruct (is_deleted d) eqn:Hdel; [by injection Hr as _ <-|].
  rewrite bind_run, (update_domain_run _ _ _ d Hd) in Hr.
  apply bind_ok in Hr as ([] & s1 & Hv & He).
  assert (live d = true) as Hlive by (unfold live; by rewrite Hdel).
  apply revoke_live_claim_inv in Hv as (H1 & Hno & Ed & Ec).
  - pose proof (record_event_inv _ _ _ _ _ _ _ _ He H1) as H2.
    apply record_event_ok in He as (_ & _ & Hf & _).
    apply (inv_close id); [done|]. eapply settled_log; [exact Hf|].
    intros d' Hd'. rewrite Ed in Hd'. unfold with_domain in Hd'. simpl_over.
    rewrite lookup_insert_eq in Hd'. injection Hd' as <-. simpl. split; [|done].
    intros _. split; [done|]. split; [by eexists|exact Hno].
  - apply (inv_put_domain _ _ d); try done. by apply inv_open.
Qed.

Lemma record_pending_loop id l details now s u s' :
  for_each l (fun t => record_check id t PENDING None None details (Some now) None) s = (Ok u, s') ->
  Inv (Some id) s -> Inv (Some id) s' /\ db_domains s' = db_domains s /\ db_claims s' = db_claims s.
Proof.
  revert s. induction l as [|t l IH]; intros s; simpl; [by intros [= _ <-]|].
  intros (u1 & s1 & Hc & Hr)%bind_ok HI.
  pose proof (record_check_inv_hole _ _ _ _ _ _ _ _ _ _ _ Hc HI) as H1.
  apply record_check_ok in Hc as (d & s2 & _ & Hf & _ & ->).
  destruct (IH _ Hr H1) as (? & Ed & Ec). split; [done|].
  by rewrite Ed, Ec, (lf_domains _ _ Hf), (lf_claims _ _ Hf).
Qed.

(** After re-issuing, the domain is not ready, whatever it was. *)
Lemma reset_status_inv id now s u s' d :
  db_domains s !! id = Some d -> live d = true ->
  (if bool_decide (dom_status d ∈ RESET_ON_REISSUE)
   then transition_status id PENDING_DNS (Some "claim_reissued"%string) (Some now)
   else mret tt) s = (Ok u, s') ->
  Inv (Some id) s ->
  Inv (Some id) s' /\ exists d', db_domains s' !! id = Some d' /\ live d' = true /\ dom_status d' <> READY.
Proof.
  intros Hd Hl. destruct (bool_decide_reflect (dom_status d ∈ RESET_ON_REISSUE)) as [Hin|Hout].
  - intros Ht HI. split; [by eapply transition_inv_hole|].
    apply transition_status_ok in Ht as (d' & Hd' & _ & [[E ->]|[_ []]]).
    + assert (d' = d) as -> by congruence. exists d. split; [done|]. split; [done|]. congruence.
    + exists (set_status PENDING_DNS now d'). rewrite (lf_domains _ _ tr_frame).
      unfold with_domain. simpl_over. rewrite lookup_insert_eq. split; [done|].
      assert (d' = d) as -> by congruence. done.
  - intros [= _ <-] HI. split; [done|]. exists d. split; [done|]. split; [done|].
    intros E. apply Hout. rewrite E. set_solver.
Qed.

Lemma reissue_claim_inv a id o s k s' :
  reissue_claim a id o s = (Ok k, s') -> Inv None s -> Inv None s'.
Proof.
  enough (forall now, reissue_claim a id (Some now) s = (Ok k, s') -> Inv None s -> Inv None s') as Hn
    by (destruct o; [apply Hn|exact (Hn (db_clock s))]).
  intros now Hr HI. unfold reissue_claim in Hr. rewrite bind_run in Hr. cbn [now_or mret SM_ret] in Hr.
  apply bind_ok in Hr as (d & s0 & (-> & Hd & Ha & Hlive)%get_domain_ok & Hr).
  apply bind_ok in Hr as ([] & s1 & Hv & Hr).
  apply revoke_live_claim_inv in Hv as (H1 & _ & Ed1 & _); [|by apply inv_open].
  apply bind_ok in Hr as ([] & s2 & Hl & Hr).
  apply record_pending_loop in Hl as (H2 & Ed2 & _); [|done].
  apply bind_ok in Hr as (d' & s3 & Hd' & Hr). rewrite the_domain_run, Ed2, Ed1, Hd in Hd'.
  injection Hd' as <- <-.
  apply bind_ok in Hr as ([] & s4 & Ht & Hr).
  apply (reset_status_inv _ _ _ _ _ d) in Ht as (H4 & d4 & Hd4 & Hl4 & Hst4);
    [|congruence|by apply Hlive|done].
  apply bind_ok in Hr as (app & s5 & Happ & Hr). unfold the_application in Happ. run_inv Happ.
  apply issue_claim_inv in Hr as (H5 & Ed5 & _); [|done].
  apply (inv_close id); [done|]. apply (settled_not_ready _ _ d4); [congruence|done|done].
Qed.

Lemma for_each_inv {X} (P : Db -> Prop) (l : list X) (f : X -> M unit) s u s' :
  (forall x s s', f x s = (Ok tt, s') -> P s -> P s') ->
  for_each l f s = (Ok u, s') -> P s -> P s'.
Proof.
  intros Hf. revert s. induction l as [|x l IH]; intros s; simpl; [by intros [= _ <-]|].
  intros ([] & s1 & H1 & H2)%bind_ok HP. eapply IH; eauto.
Qed.

Lemma reissue_claims_for_target_inv a o s n s' :
  reissue_claims_for_target a o s = (Ok n, s') -> Inv None s -> Inv None s'.
Proof.
  unfold reissue_claims_for_target, the_application. intros Hr HI. run_inv Hr.
  match goal with H : now_or _ _ = _ |- _ => apply now_or_ok in H as [-> ->] end.
  match goal with H : for_each _ _ _ = _ |- _ =>
    eapply (for_each_inv (Inv None)) in H; [exact H| |done] end.
  intros id t t' Ht. run_inv Ht. eauto using reissue_claim_inv.
Qed.
End Handlers.

Section Maintenance.
Context `{External, Deployment}.

(** The invariant reads of the checks only which exist and their status. *)
Definition same_statuses (s s' : Db) : Prop :=
  forall key, check_status <$> db_checks s' !! key = check_status <$> db_checks s !! key.

Lemma all_passing_statuses s s' id : same_statuses s s' -> all_passing s id -> all_passing s' id.
Proof.
  intros Hs Hp t. destruct (Hp t) as (c & Hc & Hst). specialize (Hs (id, t)). rewrite Hc in Hs.
  destruct (db_checks s' !! (id, t)) as [c'|]; [|done]. injection Hs as Hs. exists c'. split; [done|congruence].
Qed.

Lemma inv_statuses h s s' :
  db_applications s' = db_applications s -> db_domains s' = db_domains s ->
  db_claims s' = db_claims s -> same_statuses s s' -> Inv h s -> Inv h s'.
Proof.
  intros Ea Ed Ec Hs []. constructor; rewrite ?Ea, ?Ed, ?Ec; try done.
  - intros id t c Hk. specialize (Hs (id, t)). rewrite Hk in Hs.
    destruct (db_checks s !! (id, t)) as [c'|] eqn:E; [eauto|done].
  - intros id d Ho Hd Hl Hr. destruct (inv_ready0 id d Ho Hd Hl Hr) as [Hv Hp].
    split; [unfold has_verified; by rewrite Ec|by eapply all_passing_statuses].
Qed.

Lemma schedule_checks_ok id l now s u s' :
  schedule_checks id l now s = (Ok u, s') ->
  s' = s <| db_checks := db_checks s' |> /\ same_statuses s s'.
Proof.
  unfold schedule_checks. revert s. induction l as [|t l IH]; intros s; simpl.
  { intros [= _ <-]. by destruct s. }
  rewrite bind_run. cbn. intros Hr. destruct (IH _ Hr) as [E Hs]. split.
  - rewrite E. reflexivity.
  - intros key. rewrite Hs. cbn. destruct (decide (key = (id, t))) as [->|].
    + rewrite lookup_alter_eq. by destruct (db_checks s !! (id, t)).
    + by rewrite lookup_alter_ne.
Qed.

Lemma schedule_checks_inv h id l now s u s' :
  schedule_checks id l now s = (Ok u, s') -> Inv h s -> Inv h s'.
Proof.
  intros [E Hs]%schedule_checks_ok. apply inv_statuses; try done; rewrite E; done.
Qed.

Lemma lock_application_inv h a s u s' : lock_application a s = (Ok u, s') -> Inv h s -> Inv h s'.
Proof.
  destruct (lock_application_run a s) as (t & -> & Ea & Es). intros [= _ <-].
  apply inv_tables; [done|..]; rewrite Es; done.
Qed.

(** Computations that only read. *)
Lemma reads_ok {A} (m : M A) s r s' : mono eq m -> m s = (r, s') -> s' = s.
Proof. intros Hm Hr. specialize (Hm s). by rewrite Hr in Hm. Qed.

Lemma enforce_recheck_reads id now : mono eq (enforce_recheck_limits id now).
Proof.
  unfold enforce_recheck_limits, enforce_window. mono_auto. apply mono_the_domain, _.
Qed.

(** [request_recheck] in one piece: what it checked and what it wrote. *)
Lemma request_recheck_ok a id by_ o s u s' :
  let now := default (db_clock s) o in
  request_recheck a id by_ o s = (Ok u, s') ->
  exists d s1 s2, lock_application a s = (Ok tt, s1) /\
    db_domains s !! id = Some d /\ dom_application_id d = a /\ is_deleted d = false /\
    enforce_recheck_limits id now s1 = (Ok tt, s1) /\
    schedule_checks id all_checks now s1 = (Ok tt, s2) /\
    record_event id RECHECK_REQUESTED [("requested_by"%string, JStr by_)] (Some now) s2 = (Ok u, s').
Proof.
  intros now Hr. unfold request_recheck in Hr. run_inv Hr.
  match goal with H : now_or _ _ = _ |- _ => apply now_or_ok in H as [-> ->] end.
  match goal with H : lock_application ?b ?t = _ |- _ =>
    pose proof (lock_application_run b t) as (sl & Hl & Ea & Es); rewrite Hl in H; inj_ok H end.
  match goal with H : get_domain _ _ _ _ = _ |- _ => apply get_domain_ok in H as (-> & Hd & Happ & _) end.
  apply negb_true_iff, orb_false_elim in E as [Hdel _].
  repeat match goal with H : unit |- _ => destruct H end.
  match goal with H : enforce_recheck_limits _ _ _ = _ |- _ => pose proof (reads_ok _ _ _ _ (enforce_recheck_reads _ _) H) as -> end.
  rewrite Es in Hd. eexists _, _, _. split; [exact Hl|]. split; [exact Hd|].
  split; [done|]. split; [done|]. split; [eassumption|]. split; [eassumption|]. eassumption.
Qed.

Lemma request_recheck_inv a id by_ o s u s' :
  request_recheck a id by_ o s = (Ok u, s') -> Inv None s -> Inv None s'.
Proof.
  intros (d & s1 & s2 & Hl & _ & _ & _ & _ & Hs & He)%request_recheck_ok HI.
  apply (lock_application_inv _ _ _ _ _ Hl) in HI. apply (schedule_checks_inv _ _ _ _ _ _ _ Hs) in HI.
  exact (record_event_inv _ _ _ _ _ _ _ _ He HI).
Qed.

Lemma drop_domains_inv gone s :
  (forall id d, db_domains s !! id = Some d -> gone id = true -> is_deleted d = true) ->
  Inv None s -> Inv None (drop_domains gone s).
Proof.
  intros Hgone [].
  assert (db_applications (drop_domains gone s) = db_applications s) as Ea by reflexivity.
  assert (db_domains (drop_domains gone s) = filter (fun x => gone x.1 = false) (db_domains s)) as Ed
    by reflexivity.
  assert (db_claims (drop_domains gone s)
          = filter (fun x => gone (claim_domain_id x.2) = false) (db_claims s)) as Ec by reflexivity.
  assert (db_checks (drop_domains gone s) = filter (fun x => gone x.1.1 = false) (db_checks s)) as Ek
    by reflexivity.
  set (s' := drop_domains gone s) in *. clearbody s'.
  constructor; unfold has_verified, all_passing; rewrite ?Ea, ?Ed, ?Ec, ?Ek.
  - intros i j d e. rewrite !map_lookup_filter_Some. intros [? _] [? _]. eauto.
  - intros i j d e. rewrite !map_lookup_filter_Some. intros [? _] [? _]. eauto.
  - intros i j d e. rewrite !map_lookup_filter_Some. intros [? _] [? _]. eauto.
  - intros k c. rewrite map_lookup_filter_Some. intros [Hk Hg].
    destruct (inv_claim_domain0 _ _ Hk) as [d Hd]. exists d. by rewrite map_lookup_filter_Some.
  - intros k t c. rewrite map_lookup_filter_Some. intros [Hk Hg].
    destruct (inv_check_domain0 _ _ _ Hk) as [d Hd]. exists d. by rewrite map_lookup_filter_Some.
  - intros k d. rewrite map_lookup_filter_Some. intros [Hk _]. eauto.
  - intros k d. rewrite map_lookup_filter_Some. intros [Hk _]. eauto.
  - intros k d Ho. rewrite map_lookup_filter_Some. intros [Hk _] Hdel.
    destruct (inv_deleted0 k d Ho Hk Hdel) as (? & ? & Hr). split; [done|]. split; [done|].
    intros j c. rewrite map_lookup_filter_Some. intros [Hj _]. eauto.
  - intros k d Ho. rewrite map_lookup_filter_Some. intros [Hk Hg] Hl Hr.
    destruct (inv_ready0 k d Ho Hk Hl Hr) as [(j & c & Hj & Hd & Hv) Hp]. split.
    + exists j, c. rewrite map_lookup_filter_Some. simpl. by rewrite Hd.
    + intros t. destruct (Hp t) as (e & He & ?). exists e. by rewrite map_lookup_filter_Some.
Qed.

Lemma drop_applications_inv gone s :
  (forall id d, db_domains s !! id = Some d -> gone (dom_application_id d) = false) ->
  Inv None s -> Inv None (drop_applications gone s).
Proof.
  intros Hgone [].
  assert (db_applications (drop_applications gone s)
          = filter (fun x => gone x.1 = false) (db_applications s)) as Ea by reflexivity.
  assert (db_domains (drop_applications gone s) = db_domains s) as Ed by reflexivity.
  assert (db_claims (drop_applications gone s) = db_claims s) as Ec by reflexivity.
  assert (db_checks (drop_applications gone s) = db_checks s) as Ek by reflexivity.
  set (s' := drop_applications gone s) in *. clearbody s'.
  constructor; unfold has_verified, all_passing; rewrite ?Ea, ?Ed, ?Ec, ?Ek; try done.
  intros k d Hk. destruct (inv_application0 _ _ Hk) as [app Ha]. exists app.
  rewrite map_lookup_filter_Some. split; [done|]. by eapply Hgone.
Qed.

Lemma application_purgeable_none s now id d :
  db_domains s !! id = Some d -> application_purgeable s now (dom_application_id d) = false.
Proof.
  intros Hd. unfold application_purgeable. destruct (db_applications s !! _); [|done].
  rewrite (proj2 (existsb_rows (fun x => (dom_application_id x =? dom_application_id d)%N) _)).
  - by rewrite andb_false_r.
  - exists id, d. by rewrite N.eqb_refl.
Qed.

(** The database after a purge at [now]. *)
Definition purged (s : Db) (now : Z) : Db :=
  delete_past_zones now (delete_past_applications now (delete_past_domains now s)).

Lemma purge_tombstones_run o s :
  let now := default (db_clock s) o in
  purge_tombstones o s =
  (Ok (count_rows (fun _ d => purgeable now d) (db_domains s)), purged s now).
Proof. destruct o; reflexivity. Qed.

Lemma delete_past_domains_inv s now : Inv None s -> Inv None (delete_past_domains now s).
Proof.
  apply drop_domains_inv. intros id d Hd. unfold domain_purgeable. rewrite Hd.
  unfold purgeable. by intros [? _]%andb_prop.
Qed.

Lemma delete_past_applications_inv s now : Inv None s -> Inv None (delete_past_applications now s).
Proof. apply drop_applications_inv. intros id d. apply application_purgeable_none. Qed.

Lemma delete_past_zones_inv s now : Inv None s -> Inv None (delete_past_zones now s).
Proof. by apply inv_tables. Qed.

Lemma purged_inv s now : Inv None s -> Inv None (purged s now).
Proof.
  intros HI. apply delete_past_zones_inv, delete_past_applications_inv, delete_past_domains_inv, HI.
Qed.
End Maintenance.
