(* ===== verification/ConnectFlow.v ===== *)
(** * One-step DNS setup: links, signing and coming back
    (app/services/domain_connect.py, app/v1/domain_connect_return.py)

    What issuing an apply URL and the customer's return do to the domain, and the window
    in which failing DNS checks run often; the signer in effect, checking that a domain
    can be connected and building the query to sign, signing it outside any transaction,
    and the customer's return with its sealed state.  Discovery.v finds the provider,
    Signing.v signs.  Theorem: the sealed state of every link, under the limits on the
    address and the state given, is short enough to be read back, and opens to them. *)

From Stdlib Require Import Ascii String ZArith Lia.
From stdpp Require Import base gmap strings list sets.
From S2P Require Import Prelude PyStr Base64 Utf8 Json JsonText Errors External Models Uuid Url SecretBox.
From S2P Require Import Signing EdgeSettings Dns DnsSetup Schemas Domains DomainFacts.
Open Scope string_scope.
Open Scope Z_scope.

Definition CONNECTABLE : list DomainStatus := [PENDING_DNS; PROVISIONING; READY; ATTENTION_REQUIRED].
Definition URL_TTL : Z := hours 1.
Definition FAST_RECHECK_WINDOW : Z := minutes 30.
Definition FAST_RECHECK_INTERVAL : Z := seconds 30.
Definition DOMAIN_WINDOW : Z := hours 1.
Definition DOMAIN_MAX_PER_WINDOW : Z := 10.
Definition APPLICATION_WINDOW : Z := hours 1.
Definition APPLICATION_MAX_PER_WINDOW : Z := 120.
Definition DNS_CHECKS : list CheckType := [OWNERSHIP; ROUTING].

Definition fast_recheck_due (d : Domain) (now : Z) : bool :=
  match dom_connect_started_at d with
  | Some started => (0 <=? now - started) && (now - started <? FAST_RECHECK_WINDOW)
  | None => false
  end.

(** [current is None or current > at] *)
Definition due_by (at_ : Z) (c : DomainCheck) : DomainCheck :=
  match check_next_check_at c with
  | Some current => if at_ <? current then c <| check_next_check_at := Some at_ |> else c
  | None => c <| check_next_check_at := Some at_ |>
  end.

Definition make_checks_due (id : N) (at_ : Z) : M unit :=
  for_each DNS_CHECKS (fun t =>
    modify (fun s => s <| db_checks ::= alter (due_by at_) (id, t) |>)).

Section Connect.
Context `{External, Deployment}.

(** Issued links of one domain, or of one application, after [start]. *)
Definition links_of_domain (s : Db) (id : N) (start : Z) : list Z :=
  event_created_at <$> filter (fun e => event_domain_id e = id /\
      event_type e = event_value CONNECT_URL_ISSUED /\ start < event_created_at e) (db_events s).

Definition enforce_limits (id : N) (now : Z) : M unit :=
  d ← the_domain id;
  stamps ← gets (fun s => links_of_domain s id (now - DOMAIN_WINDOW));
  _ ← (if DOMAIN_MAX_PER_WINDOW <=? Z.of_nat (List.length stamps) then
         raise (rate_limited (match zmin stamps with
                              | Some oldest => ceil_seconds (oldest + DOMAIN_WINDOW - now)
                              | None => 60
                              end))
       else mret tt);
  enforce_window (dom_application_id d) CONNECT_URL_ISSUED APPLICATION_WINDOW
    APPLICATION_MAX_PER_WINDOW now.

(** What [record_connect] uses of a [ConnectPlan]. *)
Record ConnectPlan := {
  plan_domain_id : N;
  plan_application_id : N;
  plan_claim_token : string;
  plan_provider_id : option string;
  plan_provider_name : option string;
  plan_signer : option string;
  plan_expires_at : option Z;
}.

Record ConnectUrl := {
  link_url : string;
  link_provider_id : option string;
  link_provider_name : option string;
  link_expires_at : Z;
}.

(** [domain.connect_started_at = now]; [updated_at] follows. *)
Definition start_connect (id : N) (now : Z) : M unit :=
  clock ← gets db_clock;
  update_domain id (fun d => d <| dom_connect_started_at := Some now |> <| dom_updated_at := clock |>).

Definition record_connect (a : N) (plan : ConnectPlan) (url : string) (now : option Z) : M ConnectUrl :=
  now ← now_or now;
  _ ← lock_application (plan_application_id plan);
  let id := plan_domain_id plan in
  _ ← get_domain a id false;
  claim ← gets (fun s => active_claim s id);
  _ ← guard_ (match claim with
              | Some (_, c) => String.eqb (claim_token c) (plan_claim_token plan)
              | None => false
              end) (ServiceError DomainConnectUnavailable []);
  _ ← start_connect id now;
  _ ← make_checks_due id (now + FAST_RECHECK_INTERVAL);
  _ ← record_event id CONNECT_URL_ISSUED
        [("provider", jopt (plan_provider_id plan)); ("signer", jopt (plan_signer plan))] (Some now);
  mret {| link_url := url; link_provider_id := plan_provider_id plan;
          link_provider_name := plan_provider_name plan;
          link_expires_at := default now (plan_expires_at plan) |}.

Definition connect_returned (id : N) (now : option Z) : M bool :=
  now ← now_or now;
  d ← gets (fun s => db_domains s !! id);
  match d with
  | None => mret false
  | Some d =>
      _ ← lock_application (dom_application_id d);
      if live d && bool_decide (dom_status d ∈ CONNECTABLE) then
        _ ← start_connect id now;
        _ ← make_checks_due id now;
        mret true
      else mret false
  end.
End Connect.

Definition CREDENTIAL_PURPOSE : string := "domain-connect-credential".
Definition STATE_PURPOSE : string := "domain-connect-state".
Definition RETURN_PATH : string := "/v1/domain-connect/return".
Definition MAX_REDIRECT_URI : Z := 512.
Definition MAX_STATE : Z := 512.

(** [int(x.timestamp())] *)
Definition whole_seconds (t : Z) : Z := Z.quot t 1000000.

Section Flow.
Context `{External, Deployment, PrivateKeys}.
Context (urlsplit : string -> option UrlSplit).

(** ** The signer in effect *)

Definition invalid_signer (field : string) : exn := ServiceError InvalidSignerConfig [("field", JStr field)].

Definition set_remote_signer (url credential provider_id service_id : string) (now : option Z) : M unit :=
  let url := strip url in
  _ ← guard_ (negb (String.eqb url "" || https_url_problem urlsplit url || (512 <? ulen url))) (invalid_signer "url");
  _ ← guard_ (CREDENTIAL_match credential) (invalid_signer "credential");
  _ ← guard_ (IDENTIFIER_match provider_id) (invalid_signer "provider_id");
  _ ← guard_ (IDENTIFIER_match service_id) (invalid_signer "service_id");
  ciphertext ← encrypt credential CREDENTIAL_PURPOSE;
  now ← now_or now;
  modify (fun s => s <| db_signer := Some {|
    dcs_signer := "remote"; dcs_url := url; dcs_credential_ciphertext := ciphertext;
    dcs_credential_prefix := take_str CREDENTIAL_PREFIX_LENGTH credential; dcs_provider_id := provider_id;
    dcs_service_id := service_id; dcs_updated_at := now |} |>).

Definition reset_signer : M bool :=
  row ← gets db_signer;
  match row with
  | None => mret false
  | Some _ => _ ← modify (fun s => s <| db_signer := None |>); mret true
  end.

Record SignerView := {
  sv_signer : option string;
  sv_url : option string;
  sv_credential_prefix : option string;
  sv_provider_id : option string;
  sv_service_id : option string;
  sv_updated_at : option Z;
  sv_source : ConfigSource;
  sv_enabled : bool;
  sv_problem : bool;                 (* the stored credential cannot be decrypted *)
}.

(** Whether a decryption failed as the callers expect it to. *)
Definition undecryptable (e : exn) : bool :=
  match e with Undecryptable => true | ServiceError SecretKeyMissing _ => true | _ => false end.

Definition signer_view (s : Db) : res exn SignerView :=
  let config := signer_config s in
  match sc_source config with
  | FROM_SETTINGS =>
      Ok {| sv_signer := sc_signer config; sv_url := None; sv_credential_prefix := None; sv_provider_id := None;
            sv_service_id := None; sv_updated_at := None; sv_source := FROM_SETTINGS;
            sv_enabled := config_enabled config; sv_problem := false |}
  | FROM_OPERATOR =>
      let view prefix problem :=
        {| sv_signer := sc_signer config; sv_url := sc_url config; sv_credential_prefix := prefix;
           sv_provider_id := Some (sc_provider_id config); sv_service_id := Some (sc_service_id config);
           sv_updated_at := sc_updated_at config; sv_source := FROM_OPERATOR;
           sv_enabled := config_enabled config && negb problem; sv_problem := problem |} in
      match decrypt (default "" (sc_ciphertext config)) CREDENTIAL_PURPOSE with
      | Ok _ => Ok (view (sc_credential_prefix config) false)
      | Err e => if undecryptable e then Ok (view None true) else Err e
      end
  end.

Inductive Signer :=
| Remote (url credential provider_id service_id : string)
| Local (key : LocalKey).

Definition signer_unavailable : exn := ServiceError DomainConnectSignerUnavailable [].
Definition connect_unavailable : exn := ServiceError DomainConnectUnavailable [].

Definition make_signer (config : SignerConfig) : res exn Signer :=
  match sc_source config with
  | FROM_OPERATOR =>
      match decrypt (default "" (sc_ciphertext config)) CREDENTIAL_PURPOSE with
      | Ok credential => Ok (Remote (default "" (sc_url config)) credential (sc_provider_id config) (sc_service_id config))
      | Err e => Err (if undecryptable e then signer_unavailable else e)
      end
  | FROM_SETTINGS =>
      match sc_settings config with
      | Some settings =>
          if bool_decide (sg_signer settings = Some "remote") then
            Ok (Remote (default "" (sg_url settings)) (default "" (sg_credential settings))
                  (sc_provider_id config) (sc_service_id config))
          else
            match (if bool_decide (sg_signer settings = Some "local") then nonempty (sg_private_key settings) else None) with
            | Some private_key =>
                match parse_private_keys private_key (sg_key_host settings) with
                | Some (key :: _) => Ok (Local key)
                | _ => Err signer_unavailable
                end
            | None => Err connect_unavailable
            end
      | None => Err connect_unavailable
      end
  end.

(** ** Preparing a link *)

Definition redirect_uri_problem (value : string) : bool :=
  (MAX_REDIRECT_URI <? slen value) || https_url_problem urlsplit value.
Definition state_problem (value : string) : bool :=
  (MAX_STATE <? slen value) || negb (sall (fun c => negb ((code c <? 32) || (code c =? 127))) value).

Definition no_problem (problem : string -> bool) (value : option string) : bool :=
  match value with Some v => negb (problem v) | None => true end.

(** The rest of a [ConnectPlan]: what is signed and how. *)
Record PreparedLink := {
  pl_plan : ConnectPlan;
  pl_application_slug : string;
  pl_url_sync_ux : string;
  pl_config : SignerConfig;
  pl_params : list (string * string);   (* [query] is their canonical query *)
}.
Definition pl_query (p : PreparedLink) : string := canonical_query (pl_params p).

(** The sealed return state, and the parameters that carry it or the application's own. *)
Definition return_params (id : N) (expires_at : Z) (redirect_uri state return_url : option string)
    (private_redirect : bool) : M (list (string * string)) :=
  match (if available then nonempty return_url else None) with
  | Some return_url =>
      let common := [("d", JStr (uuid_str id)); ("e", JInt (whole_seconds expires_at)); ("s", jopt state)] in
      payload ← (match (if private_redirect then redirect_uri else None) with
                 | Some uri => hidden ← encrypt uri STATE_PURPOSE; mret (common ++ [("x", JStr hidden)])%list
                 | None => mret (common ++ [("r", jopt redirect_uri)])%list
                 end);
      sealed ← lift (seal payload STATE_PURPOSE);
      mret [("redirect_uri", return_url); ("state", sealed)]
  | None =>
      mret (match (if private_redirect then None else redirect_uri) with
            | Some uri => [("redirect_uri", uri)] | None => [] end
            ++ match state with Some v => [("state", v)] | None => [] end)%list
  end.

Definition invalid_field (field : string) : exn := ServiceError InvalidConnectRequest [("field", JStr field)].

Definition prepare_connect (a id : N) (redirect_uri state return_url : option string) (private_redirect : bool)
    (now : option Z) : M PreparedLink :=
  now ← now_or now;
  _ ← guard_ (no_problem redirect_uri_problem redirect_uri) (invalid_field "redirect_uri");
  _ ← guard_ (no_problem state_problem state) (invalid_field "state");
  d ← get_domain a id false;
  _ ← guard_ (bool_decide (dom_status d ∈ CONNECTABLE))
        (ServiceError DomainConnectUnavailable [("status", JStr (domain_status_value (dom_status d)))]);
  s ← get;
  setup ← lift (domain_setup s d (effective_setup_settings s));
  let zone := match nonempty (dom_zone d) with Some _ => dns_zone s d | None => None end in
  let url_sync_ux := nonempty (zone ≫= (fun z => sget "url_sync_ux" (default [] (zone_domain_connect z)))) in
  let unavailable := ServiceError DomainConnectUnavailable [("method", jopt (su_method setup))] in
  _ ← guard_ (bool_decide (su_method setup = Some DOMAIN_CONNECT)) unavailable;
  url_sync_ux ← need url_sync_ux unavailable;
  claim ← need (active_claim s id) unavailable;
  _ ← enforce_limits id now;
  let expires_at := now + URL_TTL in
  more ← return_params id expires_at redirect_uri state return_url private_redirect;
  application ← the_application a;
  mret {| pl_plan := {| plan_domain_id := id; plan_application_id := a; plan_claim_token := claim_token claim.2;
                        plan_provider_id := su_provider_id setup; plan_provider_name := su_provider_name setup;
                        plan_signer := sc_signer (signer_config s); plan_expires_at := Some expires_at |};
          pl_application_slug := app_slug application; pl_url_sync_ux := url_sync_ux;
          pl_config := signer_config s;
          pl_params := ([("domain", su_zone setup); ("host", su_host setup); ("target", claim_cname_target claim.2);
                         ("token", claim_token claim.2)] ++ more)%list |}.

(** ** Signing *)

(** The signing service: the outcome of one request to its address with a credential. *)
Context (signing_service : string -> string -> json -> SignerOutcome).

Definition sign_with (signer : Signer) (query application domain_id : string) : res exn DcSignature :=
  match signer with
  | Local key => Ok (local_sign key query)
  | Remote url credential provider_id service_id =>
      remote_sign (signing_service url credential (signer_request provider_id service_id application domain_id query))
  end.

(** [except signing.SigningFailed] *)
Definition signing_error (e : exn) : exn :=
  match e with
  | SigningFailed kind code retry_after =>
      if String.eqb kind "rate_limited" then
        rate_limited (match retry_after with Some 0 | None => 60 | Some n => n end)
      else if String.eqb kind "refused" then ServiceError DomainConnectUnavailable [("reason", JStr code)]
      else ServiceError DomainConnectSignerUnavailable [("reason", JStr code)]
  | e => e
  end.

Definition sign_connect (p : PreparedLink) : res exn string :=
  let config := pl_config p in
  if negb (config_enabled config) then Err connect_unavailable else
  match make_signer config with
  | Err e => Err e
  | Ok signer =>
      match sign_with signer (pl_query p) (pl_application_slug p) (uuid_str (plan_domain_id (pl_plan p))) with
      | Err e => Err (signing_error e)
      | Ok signature =>
          Ok (apply_url (pl_url_sync_ux p) (sc_provider_id config) (sc_service_id config) (pl_query p) signature)
      end
  end.

(** A request for a link (the v1 endpoint and the setup page): the plan is read, the
    transaction ends, [gap] is what others commit while the signer answers, and the
    issued link is recorded. *)
Definition issue_link (a id : N) (redirect_uri state return_url : option string) (private_redirect : bool)
    (gap : Db -> Db) (now : option Z) : M ConnectUrl :=
  plan ← prepare_connect a id redirect_uri state return_url private_redirect now;
  url ← lift (sign_connect plan);
  _ ← modify gap;
  transaction (record_connect a (pl_plan plan) url now).

Definition default_return_url (settings : option EdgeSettings) : option string :=
  match nonempty (sg_return_url signer_settings) with
  | Some configured => Some configured
  | None =>
      match settings with
      | Some st => if public_api st
                   then (fun h => "https://" ++ h ++ RETURN_PATH) <$> nonempty (es_edge_hostname st)
                   else None
      | None => None
      end
  end.

(** ** The return *)

Record Return := { ret_domain_id : N; ret_redirect_uri : option string; ret_state : option string; ret_expired : bool }.

(** [uuid.UUID(str(x))] and [int(x)] on what a sealed state holds. *)
Definition uuid_in (j : json) : option N :=
  match j with JStr v => uuid_of v | JInt n => uuid_of (py_str n) | _ => None end.
Definition int_in (j : json) : option Z :=
  match j with JInt n => Some n | JBool b => Some (if b then 1 else 0) | JStr v => py_int v | _ => None end.

Definition open_return_state (value : string) (now : Z) : res exn (option Return) :=
  if negb available then Ok None else
  match unseal value STATE_PURPOSE with
  | Err e => Err e
  | Ok None => Ok None
  | Ok (Some data) =>
      match (d ← dget "d" data; uuid_in d), (e ← dget "e" data; int_in e) with
      | Some domain_id, Some expires =>
          let text k := v ← dget k data; as_str v in
          let opened redirect_uri :=
            Ok (Some {| ret_domain_id := domain_id; ret_redirect_uri := redirect_uri; ret_state := text "s";
                        ret_expired := expires * 1000000 <? now |}) in
          match text "x" with
          | None => opened (text "r")
          | Some hidden =>
              match decrypt hidden STATE_PURPOSE with
              | Ok uri => opened (Some uri)
              | Err Undecryptable => opened None
              | Err e => Err e
              end
          end
      | _, _ => Ok None
      end
  end.

(** [back_to_application]; [None]: [urlsplit] raises. *)
Definition back_to_application (redirect_uri : string) (state error : option string) : option string :=
  parts ← urlsplit redirect_uri;
  match (match state with Some v => [("state", v)] | None => [] end
         ++ match error with Some e => [("error", e)] | None => [] end)%list with
  | [] => Some redirect_uri
  | extra =>
      let added := urlencode extra in
      let query := if String.eqb (us_query parts) "" then added else us_query parts ++ "&" ++ added in
      Some (urlunsplit (us_scheme parts) (us_netloc parts) (us_path parts) query "")
  end.

(** [_ERROR.match(error)] *)
Definition error_ok (error : string) : bool :=
  to_end (fun e => negb (String.eqb e "") && (slen e <=? 64) && sall (fun c => is_lower c || char_eqb "_"%char c) e) error.

Inductive ReturnAnswer := NotValid | Expired | SentBack (target : string) | NoChanges | ThankYou.

Definition domain_connect_return (state : string) (error : option string) : M ReturnAnswer :=
  now ← gets db_clock;
  opened ← lift (if String.eqb state "" then Ok None else open_return_state state now);
  match opened with
  | None => mret NotValid
  | Some opened =>
      if ret_expired opened then mret Expired else
      _ ← transaction (connect_returned (ret_domain_id opened) None);
      let error := match error with Some e => if error_ok e then Some e else None | None => None end in
      match nonempty (ret_redirect_uri opened) with
      | Some uri => target ← need (back_to_application uri (ret_state opened) error) PyValueError; mret (SentBack target)
      | None => mret (match error with Some _ => NoChanges | None => ThankYou end)
      end
  end.
End Flow.

(** ** Properties *)

Section Properties.
Context `{External, Deployment, PrivateKeys}.
Context (urlsplit : string -> option UrlSplit).

Lemma is_text_some s : is_text s = true -> is_Some (utf8_decode s).
Proof. intros [l [Hl _]]%is_text_decode. eauto. Qed.

(** The state the customer's browser carries, opened again. *)
Definition opens (sealed : string) (id : N) (expires_at : Z) (redirect_uri state : option string) : Prop :=
  forall later,
  open_return_state sealed later
  = Ok (Some {| ret_domain_id := id; ret_redirect_uri := redirect_uri; ret_state := state;
                ret_expired := whole_seconds expires_at * 1000000 <? later |}).

Definition texts (o : option string) : Prop := match o with Some v => is_text v = true | None => True end.

Lemma jopt_printable o : texts o -> printable (jopt o).
Proof. by destruct o. Qed.
Lemma jopt_str o : as_str (jopt o) = o.
Proof. by destruct o. Qed.

Lemma uuid_is_text u : is_text (uuid_str u) = true.
Proof.
  apply is_text_ascii. eapply sall_impl; [|apply uuid_str_chars]. intros c. clear.
  destruct c as [[] [] [] [] [] [] [] []]; vm_compute; done.
Qed.

Lemma state_payload id expires_at state k w :
  texts state -> k = "r" \/ k = "x" -> printable w ->
  printable (JObj [("d", JStr (uuid_str id)); ("e", JInt expires_at); ("s", jopt state); (k, w)]).
Proof.
  intros Hst Hk Hw. apply printable_obj. split.
  - destruct Hk as [->| ->]; repeat (constructor; [set_solver|]); constructor.
  - repeat (apply Forall_cons; split); [split; [done|apply uuid_is_text]|done|split; [done|by apply jopt_printable]| |constructor].
    split; [by destruct Hk as [->| ->]|done].
Qed.

(** An address or a state within its limit. *)
Definition within_limits (o : option string) : Prop :=
  match o with Some v => slen v <= 512 /\ plain_text v = true | None => True end.

Lemma jopt_size o : texts o -> within_limits o -> slen (print false (jopt o)) <= 1026.
Proof.
  destruct o as [v|]; [|done]. intros Ht [Hl Hp]. cbn [jopt print]. pose proof (dump_string_size v Ht Hp). lia.
Qed.

Lemma uuid_size u : slen (dump_string false (uuid_str u)) <= 74.
Proof.
  assert (slen (uuid_str u) = 36) as Hl by reflexivity.
  assert (plain_text (uuid_str u) = true) as Hp.
  { eapply sall_impl; [|apply uuid_str_chars]. intros c. clear. destruct c as [[] [] [] [] [] [] [] []]; vm_compute; done. }
  pose proof (dump_string_size _ (uuid_is_text u) Hp). lia.
Qed.

(** The sealed state always fits what [unseal] reads. *)
Lemma sealed_fits `{!MacLaw} id e state k w sealed :
  k = "r" \/ k = "x" -> texts state -> within_limits state -> Z.abs e < 10 ^ 12 -> slen (print false w) <= 1500 ->
  seal [("d", JStr (uuid_str id)); ("e", JInt e); ("s", jopt state); (k, w)] STATE_PURPOSE = Ok sealed ->
  ulen sealed <= 4096.
Proof.
  intros Hk Ht Hl He Hw Hs. pose proof (seal_size _ _ _ Hs) as Hz. clear Hs.
  assert (slen (dumps_utf8 (JObj [("d", JStr (uuid_str id)); ("e", JInt e); ("s", jopt state); (k, w)]))
    = 13 + slen (dump_string false (uuid_str id)) + (4 + slen (py_str e)) + (4 + slen (print false (jopt state)))
      + slen (print false w)) as Ed.
  { unfold dumps_utf8. cbn [print fmap list_fmap fst snd join String.concat]. unfold join. cbn [String.concat].
    assert (slen (dump_string false "d") = 3 /\ slen (dump_string false "e") = 3 /\ slen (dump_string false "s") = 3 /\
            slen (dump_string false k) = 3) as (E1 & E2 & E3 & E4)
      by (destruct Hk as [->| ->]; repeat split; vm_compute; reflexivity).
    rewrite !slen_app, E1, E2, E3, E4. change (slen "{") with 1. change (slen "}") with 1. change (slen ":") with 1.
    change (slen ",") with 1. ring. }
  pose proof (uuid_size id). pose proof (py_str_size e He). pose proof (jopt_size _ Ht Hl). lia.
Qed.

Section Opening.
Context `{HMac : !MacLaw}.
Context (id : N) (expires_at : Z) (state : option string).
Context (Ha : available = true) (Hid : (id < 2 ^ 128)%N) (He : Z.abs (whole_seconds expires_at) < 10 ^ 12).
Context (Hst : texts state) (Hsl : within_limits state).

Lemma opens_shown redirect_uri sealed :
  texts redirect_uri -> within_limits redirect_uri ->
  seal [("d", JStr (uuid_str id)); ("e", JInt (whole_seconds expires_at)); ("s", jopt state); ("r", jopt redirect_uri)]
    STATE_PURPOSE = Ok sealed ->
  opens sealed id expires_at redirect_uri state.
Proof.
  intros Hr Hrl Hs later. unfold open_return_state. rewrite Ha. cbn [negb].
  rewrite (unseal_seal _ _ _ (state_payload _ _ _ "r" _ Hst (or_introl eq_refl) (jopt_printable _ Hr)) Hs).
  assert (slen (print false (jopt redirect_uri)) <= 1500) as Hfit by (pose proof (jopt_size _ Hr Hrl); lia).
  rewrite (proj2 (Z.ltb_ge _ _)) by exact (sealed_fits _ _ _ _ _ _ (or_introl eq_refl) Hst Hsl He Hfit Hs).
  cbn [dget String.eqb Ascii.eqb Bool.eqb mbind option_bind uuid_in int_in]. rewrite uuid_round_trip by done.
  cbn [as_str]. by rewrite !jopt_str.
Qed.

Lemma opens_hidden `{!AeadLaws} uri hidden sealed s s1 :
  is_text uri = true -> within_limits (Some uri) -> encrypt uri STATE_PURPOSE s = (Ok hidden, s1) ->
  seal [("d", JStr (uuid_str id)); ("e", JInt (whole_seconds expires_at)); ("s", jopt state); ("x", JStr hidden)]
    STATE_PURPOSE = Ok sealed ->
  opens sealed id expires_at (Some uri) state.
Proof.
  intros Hu Hul Henc Hs later.
  destruct (decrypt_encrypt uri STATE_PURPOSE s Ha (is_text_some _ Hu)) as (c & Hc & Hd). rewrite Henc in Hc. injection Hc as ->.
  assert (is_text c = true) as Htext by (by eapply encrypt_text).
  assert (slen (print false (JStr c)) <= 1500) as Hfit.
  { apply encrypt_size in Henc as [Hsz Hp]. destruct Hul as [Hul _]. cbn [print].
    pose proof (dump_string_size c Htext Hp). lia. }
  unfold open_return_state. rewrite Ha. cbn [negb].
  rewrite (unseal_seal _ _ _ (state_payload _ _ _ "x" (JStr c) Hst (or_intror eq_refl) Htext) Hs).
  rewrite (proj2 (Z.ltb_ge _ _)) by exact (sealed_fits _ _ _ _ _ _ (or_intror eq_refl) Hst Hsl He Hfit Hs).
  cbn [dget String.eqb Ascii.eqb Bool.eqb mbind option_bind uuid_in int_in]. rewrite uuid_round_trip by done.
  cbn [as_str]. rewrite jopt_str, Hd. reflexivity.
Qed.

(** With a return address the parameters are that address and a state that opens to
    the domain, the application's own address and state, and the expiry. *)
Lemma return_params_sealed `{!AeadLaws} redirect_uri url private s l s' :
  url <> "" -> texts redirect_uri -> within_limits redirect_uri ->
  return_params id expires_at redirect_uri state (Some url) private s = (Ok l, s') ->
  exists sealed, l = [("redirect_uri", url); ("state", sealed)] /\ opens sealed id expires_at redirect_uri state.
Proof.
  intros Hu Hr Hrl. unfold return_params. rewrite Ha.
  assert (nonempty (Some url) = Some url) as -> by (by destruct url).
  destruct private; [destruct redirect_uri as [uri|]|]; intros Hrun; run_inv Hrun; eexists; (split; [done|]).
  - by eapply opens_hidden.
  - by eapply opens_shown.
  - by eapply opens_shown.
Qed.
End Opening.

Lemma redirect_uri_limit v : no_problem (redirect_uri_problem urlsplit) v = true -> within_limits v.
Proof.
  destruct v as [v|]; [|done]. unfold no_problem, redirect_uri_problem, https_url_problem, MAX_REDIRECT_URI, within_limits.
  rewrite negb_true_iff. intros [Hl Hp]%orb_false_elim. split; [by apply Z.ltb_ge in Hl|].
  destruct (sall _ v) eqn:Hs; [|done]. eapply sall_impl; [|exact Hs]. intros c Hc.
  apply negb_true_iff, orb_false_elim in Hc as [Hc _]. apply Z.ltb_ge in Hc. apply Z.leb_le. lia.
Qed.
Lemma state_limit v : no_problem state_problem v = true -> within_limits v.
Proof.
  destruct v as [v|]; [|done]. unfold no_problem, state_problem, MAX_STATE, within_limits.
  rewrite negb_true_iff. intros [Hl Hp]%orb_false_elim. split; [by apply Z.ltb_ge in Hl|].
  apply negb_false_iff in Hp. eapply sall_impl; [|exact Hp]. intros c Hc.
  apply negb_true_iff, orb_false_elim in Hc as [Hc _]. apply Z.ltb_ge in Hc. by apply Z.leb_le.
Qed.

(** C22: What a link sends through the customer's provider comes back as it was.  For every
    address and state that pass the checks of a link, the state in the signed query is
    short enough to be read back and opens, until it expires, to the domain and to the
    address and state the application gave, even when that address was hidden from the
    provider.  (The secret key is configured, the strings are Unicode text, and the
    expiry is less than a million million seconds from 1970, as every date is.) *)
Theorem sealed_state_returns `{!AeadLaws, !MacLaw} a id redirect_uri state url private now s p s' :
  available = true -> url <> "" -> (id < 2 ^ 128)%N -> texts redirect_uri -> texts state ->
  Z.abs (whole_seconds (default (db_clock s) now + URL_TTL)) < 10 ^ 12 ->
  prepare_connect urlsplit a id redirect_uri state (Some url) private now s = (Ok p, s') ->
  exists sealed first,
    parse_query (pl_query p) = (first ++ [("redirect_uri", url); ("state", sealed)])%list /\
    first.*1 = ["domain"; "host"; "target"; "token"] /\
    opens sealed id (default (db_clock s) now + URL_TTL) redirect_uri state.
Proof.
  intros Ha Hu Hid Hr Hst He Hrun. unfold prepare_connect in Hrun. run_inv Hrun.
  match goal with H : now_or _ _ = (Ok _, _) |- _ => apply now_or_ok in H as [-> ->] end.
  match goal with H : no_problem (redirect_uri_problem _) _ = true |- _ => apply redirect_uri_limit in H as Hrl end.
  match goal with H : no_problem state_problem _ = true |- _ => apply state_limit in H as Hsl end.
  match goal with H : return_params _ _ _ _ _ _ _ = (Ok _, _) |- _ =>
    apply return_params_sealed in H as (sealed & -> & Hopen); [|done..] end.
  eexists sealed, [_; _; _; _]. unfold pl_query, canonical_query. cbn [pl_params]. rewrite parse_urlencode.
  split; [reflexivity|]. split; [reflexivity|exact Hopen].
Qed.

(** Nothing the checks decide changes. *)
Record undecided_step (s s' : Db) : Prop := {
  us_claims : db_claims s' = db_claims s;
  us_events : db_events s' = db_events s;
  us_statuses id : dom_status <$> db_domains s' !! id = dom_status <$> db_domains s !! id;
  us_checks key : check_status <$> db_checks s' !! key = check_status <$> db_checks s !! key;
}.
#[export] Instance undecided_step_preorder : PreOrder undecided_step.
Proof. split; [by constructor|]. intros s1 s2 s3 [] []. constructor; congruence. Qed.

Lemma undecided_domain id f : (forall d, dom_status (f d) = dom_status d) -> mono undecided_step (update_domain id f).
Proof.
  intros Hf s. constructor; try done. intros k. unfold update_domain. cbn [modify snd]. simpl_over. rewrite lookup_alter.
  destruct (decide (id = k)) as [->|]; [|done]. destruct (db_domains s !! k); [|done]. cbn. by rewrite Hf.
Qed.
Lemma undecided_due id at_ : mono undecided_step (make_checks_due id at_).
Proof.
  unfold make_checks_due. apply mono_for_each; [apply _|]. intros t. apply mono_modify. intros s. constructor; try done.
  intros key. simpl_over. rewrite lookup_alter. case_decide; [|done]. subst. destruct (db_checks s !! (id, t)) as [c|]; [|done].
  cbn. f_equal. unfold due_by. by destruct (check_next_check_at c) as [n|]; [destruct (at_ <? n)|].
Qed.
Lemma undecided_returned id now : mono undecided_step (connect_returned id now).
Proof.
  assert (forall t, mono undecided_step (start_connect id t)) as Hstart.
  { intros t. unfold start_connect. apply mono_bind; [apply _|apply mono_gets; apply _|]. intros c. by apply undecided_domain. }
  unfold connect_returned. apply mono_bind; [apply _|intros s; by destruct now|]. intros n.
  apply mono_bind; [apply _|apply mono_gets; apply _|]. intros [d|]; [|apply mono_ret; apply _].
  apply mono_bind; [apply _|intros s; by constructor|]. intros u. destruct (_ && _); [|apply mono_ret; apply _].
  apply mono_bind; [apply _|apply Hstart|]. intros u2. apply mono_bind; [apply _|apply undecided_due|].
  intros u3. apply mono_ret. apply _.
Qed.

(** The redirect is never trusted: whatever the browser brings, no claim, status, check
    result or event changes; a state this service did not seal, or one that expired,
    changes nothing at all. *)
Theorem return_trusts_nothing state error s :
  let '(r, s') := domain_connect_return urlsplit state error s in
  undecided_step s s' /\ (r = Ok NotValid \/ r = Ok Expired -> s' = s) /\
  (forall target, r = Ok (SentBack target) -> exists key body mac,
     derive ("seal/" ++ STATE_PURPOSE) = Ok key /\ state = body ++ "." ++ mac /\ unb64 mac = Some (hmac_sha256 key body)).
Proof.
  unfold domain_connect_return. rewrite bind_run. cbn [gets]. rewrite bind_run. cbn [lift].
  destruct (if String.eqb state "" then _ else _) as [[opened|]|e] eqn:Eo; [|by cbn|by cbn].
  assert (exists key body mac, derive ("seal/" ++ STATE_PURPOSE) = Ok key /\ state = body ++ "." ++ mac /\
            unb64 mac = Some (hmac_sha256 key body)) as Hauth.
  { destruct (String.eqb state ""); [done|]. unfold open_return_state in Eo. destruct available; [|done]. cbn [negb] in Eo.
    destruct (unseal state STATE_PURPOSE) as [[data|]|] eqn:Eu; try done.
    destruct (unsealed_is_authentic _ _ _ Eu) as (key & body & mac & Hk & Hs & Hm & _). by exists key, body, mac. }
  clear Eo. destruct (ret_expired opened); [by cbn|]. rewrite bind_run.
  pose proof (mono_savepoint undecided_step (connect_returned (ret_domain_id opened) None)
                (undecided_returned (ret_domain_id opened) None) s) as Hstep.
  change (savepoint ?m) with (transaction m) in Hstep.
  destruct (transaction _ s) as [[u|e] s1]; cbn [snd] in Hstep; [|split; [done|split; [by intros [?|?]|done]]]. clear u.
  destruct (nonempty _) as [uri|].
  - rewrite bind_run. destruct (back_to_application _ _ _ _) as [target|]; cbn; (split; [done|split; [by intros [?|?]|]]); eauto.
  - cbn. split; [done|]. split; [|by intros ? ?; repeat case_match]. intros [Hr|Hr]; repeat case_match; congruence.
Qed.

Lemma record_connect_ok a plan url now s link s' :
  record_connect a plan url now s = (Ok link, s') ->
  link_url link = url /\
  (exists d, db_domains s !! plan_domain_id plan = Some d /\ dom_application_id d = a /\ live d = true) /\
  (exists k c, active_claim s (plan_domain_id plan) = Some (k, c) /\ claim_token c = plan_claim_token plan).
Proof.
  unfold record_connect. intros Hrun. apply bind_ok in Hrun as (n & s1 & Hn & Hrun). apply now_or_ok in Hn as [-> _].
  cbv zeta in Hrun. apply bind_ok in Hrun as (u & s1 & Hl & Hrun). apply bind_ok in Hrun as (d & s2 & Hd & Hrun).
  apply get_domain_ok in Hd as (-> & Hd & Ha & Hlive).
  assert (db_claims s1 = db_claims s /\ db_domains s1 = db_domains s) as [Ec Ed] by (by injection Hl as _ <-).
  clear Hl. rewrite Ed in Hd.
  apply bind_ok in Hrun as (claim & s3 & [= <- <-] & Hrun). apply bind_ok in Hrun as (u2 & s4 & Hg & Hrun).
  assert (active_claim s1 (plan_domain_id plan) = active_claim s (plan_domain_id plan)) as Eac
    by (unfold active_claim, domain_claims; by rewrite Ec).
  rewrite Eac in Hg. split; [|split; [exists d; auto|]].
  - clear -Hrun. run_inv Hrun. done.
  - destruct (active_claim s (plan_domain_id plan)) as [[k c]|]; [|done].
    destruct (String.eqb_spec (claim_token c) (plan_claim_token plan)); [eauto|done].
Qed.

(** A link is issued only for the records that were signed: what others commit while
    the signer answers may not have replaced the domain or its claim. *)
Theorem issued_link_is_current signing_service a id redirect_uri state return_url private gap now s link s' :
  issue_link urlsplit signing_service a id redirect_uri state return_url private gap now s = (Ok link, s') ->
  exists plan s1 d k c rest,
    prepare_connect urlsplit a id redirect_uri state return_url private now s = (Ok plan, s1) /\
    sign_connect signing_service plan = Ok (link_url link) /\
    db_domains (gap s1) !! id = Some d /\ dom_application_id d = a /\ live d = true /\
    active_claim (gap s1) id = Some (k, c) /\
    drop 3 (pl_params plan) = ("token", claim_token c) :: rest.
Proof.
  unfold issue_link. intros Hrun. apply bind_ok in Hrun as (plan & s1 & Hp & Hrun).
  apply bind_ok in Hrun as (url & s1' & [= Hu <-] & Hrun). apply bind_ok in Hrun as (u & s2 & [= _ <-] & Hrun).
  apply transaction_ok, record_connect_ok in Hrun as (<- & (d & Hd & Ha & Hl) & (k & c & Hc & Ht)).
  pose proof Hp as Hplan. unfold prepare_connect in Hplan. run_inv Hplan. cbn [pl_plan plan_domain_id plan_claim_token] in *.
  eexists _, s1, d, k, c, _. split; [exact Hp|]. split; [exact Hu|]. split; [done|]. split; [done|]. split; [done|].
  split; [done|]. cbn [pl_params app drop]. by rewrite Ht.
Qed.
End Properties.
