(* ===== verification/ConnectSessions.v ===== *)
(** * Connect sessions (app/services/connect_sessions.py)

    A link an application gives its customer to set up one domain: creating it under
    its limits, revoking it, and opening it from the token in its address.  Theorems: a
    token opens exactly the live session whose hash it has; a new link opens its own
    session until it expires, and no other link changes; a revoked link is dead; and the
    limits of links per domain and application hold after every creation. *)

From Stdlib Require Import Ascii String ZArith Lia.
From stdpp Require Import base gmap strings list sets.
From S2P Require Import Prelude PyStr Json Errors External Models Url Signing EdgeSettings DnsSetup.
From S2P Require Import Schemas Domains DomainFacts ConnectFlow.
Open Scope string_scope.
Open Scope Z_scope.

Definition PAGE_PATH : string := "/connect".
Definition DEFAULT_TTL : Z := hours 24.
Definition MIN_TTL : Z := minutes 5.
Definition MAX_TTL : Z := hours 24.
Definition SESSION_WINDOW : Z := hours 1.
Definition DOMAIN_MAX_LINKS : Z := 20.
Definition APPLICATION_MAX_LINKS : Z := 600.
Definition MAX_APP_NAME : Z := 64.
Definition TOKEN_BYTES : nat := 32.
Definition TOKEN_match : string -> bool := to_end (fun s => (slen s =? 43) && sall url_safe_char s).

(** [any(ord(c) < 0x20 or 0x7F <= ord(c) < 0xA0 for c in value)] over UTF-8: U+0080 to
    U+009F are the byte 194 and a byte below 160. *)
Fixpoint control_text (s : string) : bool :=
  match s with
  | "" => false
  | String c r =>
      (code c <? 32) || (code c =? 127)
      || match r with
         | String d _ => (code c =? 194) && (code d <? 160)
         | "" => false
         end
      || control_text r
  end.

Definition app_name_problem (value : string) : bool :=
  String.eqb (strip value) "" || (MAX_APP_NAME <? ulen value) || control_text value.

Definition page_base_url (settings : option EdgeSettings) : option string :=
  match settings with
  | Some st => if public_api st then (fun h => "https://" ++ h) <$> nonempty (es_edge_hostname st) else None
  | None => None
  end.
Definition page_url (base_url token : string) : string := base_url ++ PAGE_PATH ++ "/" ++ token.

Definition UNIQUE_token_hash : string := "UNIQUE constraint failed: connect_sessions.token_hash".

(** [session.add(row); session.flush()] *)
Definition insert_session (r : ConnectSession) : M N :=
  s ← get;
  _ ← guard_ (bool_decide (is_Some (db_applications s !! cs_application_id r))
              && bool_decide (is_Some (db_domains s !! cs_domain_id r))) (IntegrityError FOREIGN_KEY);
  _ ← guard_ (negb (existsb (fun x => String.eqb (cs_token_hash x.2) (cs_token_hash r))
                      (map_to_list (db_connect_sessions s)))) (IntegrityError UNIQUE_token_hash);
  k ← fresh;
  _ ← guard_ (bool_decide (db_connect_sessions s !! k = None))
       (IntegrityError "UNIQUE constraint failed: connect_sessions.id");
  _ ← modify (fun s => s <| db_connect_sessions ::= <[k := r]> |>);
  mret k.

(** [created_at] of the sessions of one domain, or of one application, after [start]. *)
Definition sessions_after (p : ConnectSession -> bool) (start : Z) (s : Db) : list Z :=
  (fun x => cs_created_at x.2) <$>
    filter (fun x => p x.2 = true /\ start < cs_created_at x.2) (map_to_list (db_connect_sessions s)).
Definition of_domain (id : N) (r : ConnectSession) : bool := bool_decide (cs_domain_id r = id).
Definition of_application (a : N) (r : ConnectSession) : bool := bool_decide (cs_application_id r = a).

Definition enforce_scope (p : ConnectSession -> bool) (limit now : Z) : M unit :=
  stamps ← gets (sessions_after p (now - SESSION_WINDOW));
  if limit <=? Z.of_nat (List.length stamps) then
    raise (rate_limited (match zmin stamps with
                         | Some oldest => ceil_seconds (oldest + SESSION_WINDOW - now)
                         | None => 60
                         end))
  else mret tt.

Definition enforce_session_limits (id a : N) (now : Z) : M unit :=
  _ ← enforce_scope (of_domain id) DOMAIN_MAX_LINKS now;
  enforce_scope (of_application a) APPLICATION_MAX_LINKS now.

Record Opened := {
  opn_session_id : N;
  opn_application_id : N;
  opn_domain_id : N;
  opn_expires_at : Z;
  opn_app_name : option string;
  opn_return_url : option string;
}.

Section Sessions.
Context `{External, Deployment, PrivateKeys}.
Context (urlsplit : string -> option UrlSplit).

Definition hash_token (token : string) : string := sha256_hex token.

Definition ttl_of (ttl_seconds : option Z) : Z :=
  match ttl_seconds with Some n => seconds n | None => DEFAULT_TTL end.

(** The session's id and the address that holds its token. *)
Definition create_session (a id : N) (base_url : option string) (ttl_seconds : option Z)
    (app_name return_url : option string) (now : option Z) : M (N * string) :=
  now ← now_or now;
  let ttl := ttl_of ttl_seconds in
  _ ← guard_ ((MIN_TTL <=? ttl) && (ttl <=? MAX_TTL)) (invalid_field "ttl_seconds");
  _ ← guard_ (no_problem app_name_problem app_name) (invalid_field "app_name");
  _ ← guard_ (no_problem (redirect_uri_problem urlsplit) return_url) (invalid_field "return_url");
  _ ← lock_application a;
  d ← get_domain a id false;
  base ← need base_url (ServiceError ConnectPageUnavailable []);
  _ ← enforce_session_limits id (dom_application_id d) now;
  draw ← fresh;
  clock ← gets db_clock;
  let token := token_urlsafe draw TOKEN_BYTES in
  k ← insert_session {|
    cs_application_id := a; cs_domain_id := id; cs_token_hash := hash_token token;
    cs_expires_at := now + ttl; cs_revoked_at := None; cs_app_name := strip <$> app_name;
    cs_return_url := return_url; cs_created_at := now; cs_updated_at := clock |};
  mret (k, page_url base token).

Definition revoke_session (a id k : N) (now : option Z) : M unit :=
  _ ← get_domain a id true;
  row ← gets (fun s => db_connect_sessions s !! k);
  row ← need row (ServiceError ConnectSessionNotFound []);
  _ ← guard_ (of_domain id row && of_application a row) (ServiceError ConnectSessionNotFound []);
  if bool_decide (cs_revoked_at row = None) then
    now ← now_or now;
    modify (fun s => s <| db_connect_sessions ::=
      alter (fun r => r <| cs_revoked_at := Some now |> <| cs_updated_at := db_clock s |>) k |>)
  else mret tt.

Definition session_by_hash (s : Db) (h : string) : option (N * ConnectSession) :=
  head (filter (fun x => cs_token_hash x.2 = h) (map_to_list (db_connect_sessions s))).

(** The domain is not deleted and its application, the session's own, is active. *)
Definition setup_live (s : Db) (r : ConnectSession) : bool :=
  match db_domains s !! cs_domain_id r with
  | Some d =>
      bool_decide (dom_application_id d = cs_application_id r) && live d
      && match db_applications s !! dom_application_id d with
         | Some a => bool_decide (app_status a = ACTIVE) && negb (application_is_deleted a)
         | None => false
         end
  | None => false
  end.

Definition opened (k : N) (r : ConnectSession) : Opened :=
  {| opn_session_id := k; opn_application_id := cs_application_id r; opn_domain_id := cs_domain_id r;
     opn_expires_at := cs_expires_at r; opn_app_name := cs_app_name r; opn_return_url := cs_return_url r |}.

Definition open_session (s : Db) (token : string) (now : option Z) : option Opened :=
  if negb (TOKEN_match token) then None else
  match session_by_hash s (hash_token token) with
  | None => None
  | Some (k, r) =>
      if bool_decide (is_Some (cs_revoked_at r)) || (cs_expires_at r <=? default (db_clock s) now) then None
      else if setup_live s r then Some (opened k r) else None
  end.
End Sessions.

(** ** Properties *)

(** No two sessions have the same token hash: the column is unique. *)
Definition hashes_unique (s : Db) : Prop :=
  forall k1 k2 r1 r2, db_connect_sessions s !! k1 = Some r1 -> db_connect_sessions s !! k2 = Some r2 ->
    cs_token_hash r1 = cs_token_hash r2 -> k1 = k2.

Lemma elem_sessions (P : N * ConnectSession -> Prop) `{!forall x, Decision (P x)} (s : Db) k r :
  (k, r) ∈ filter P (map_to_list (db_connect_sessions s)) <-> db_connect_sessions s !! k = Some r /\ P (k, r).
Proof. rewrite list_elem_of_filter, elem_of_map_to_list. tauto. Qed.

Lemma session_by_hash_Some s h k r :
  hashes_unique s ->
  session_by_hash s h = Some (k, r) <-> db_connect_sessions s !! k = Some r /\ cs_token_hash r = h.
Proof.
  intros Hu. unfold session_by_hash. split.
  - intros [Hin Hh]%head_filter_Some. by apply elem_of_map_to_list in Hin.
  - intros [Hk Hh]. set (P := fun x : N * ConnectSession => cs_token_hash x.2 = h).
    assert ((k, r) ∈ filter P (map_to_list (db_connect_sessions s))) as Hin by by apply elem_sessions.
    destruct (filter P _) as [|[k' r'] l] eqn:E; [by apply elem_of_nil in Hin|]. cbn [head].
    assert ((k', r') ∈ filter P (map_to_list (db_connect_sessions s))) as [Hk' Hh']%elem_sessions by (rewrite E; left).
    assert (k' = k) as -> by (eapply Hu; [exact Hk'|exact Hk|]; by rewrite Hh'). congruence.
Qed.

Lemma session_by_hash_None s h :
  session_by_hash s h = None <-> forall k r, db_connect_sessions s !! k = Some r -> cs_token_hash r <> h.
Proof.
  unfold session_by_hash. set (P := fun x : N * ConnectSession => cs_token_hash x.2 = h). split.
  - intros E k r Hk Hh. assert ((k, r) ∈ filter P (map_to_list (db_connect_sessions s))) as Hin by by apply elem_sessions.
    by destruct (filter P _); [apply elem_of_nil in Hin|].
  - intros Hn. destruct (filter P _) as [|[k r] l] eqn:E; [done|].
    assert ((k, r) ∈ filter P (map_to_list (db_connect_sessions s))) as [Hk Hh]%elem_sessions by (rewrite E; left).
    exfalso. by apply (Hn k r).
Qed.

Lemma insert_session_ok r s k s' :
  insert_session r s = (Ok k, s') ->
  db_connect_sessions s !! k = None /\ s' = s <| db_next := (db_next s + 1)%N |> <| db_connect_sessions ::= <[k := r]> |> /\
  (forall k' r', db_connect_sessions s !! k' = Some r' -> cs_token_hash r' <> cs_token_hash r) /\
  is_Some (db_domains s !! cs_domain_id r).
Proof.
  intros H. unfold insert_session in H. run_inv H. run_draws.
  repeat match goal with E : negb _ = true |- _ => apply negb_true_iff in E end.
  match goal with E : _ && _ = true |- _ => apply andb_prop in E as [_ ?%bool_decide_eq_true] end.
  match goal with E : bool_decide (_ !! _ = None) = true |- _ => apply bool_decide_eq_true in E; rename E into Hn end.
  split; [exact Hn|]. split; [done|]. split; [|done]. intros k' r' Hk Hh.
  match goal with E : existsb _ _ = false |- _ => rewrite <- not_true_iff_false, existsb_exists in E; apply E end.
  exists (k', r'). split; [by apply list_elem_of_In, elem_of_map_to_list|]. simpl. by apply String.eqb_eq.
Qed.

Lemma enforce_scope_ok p limit now s u s' :
  enforce_scope p limit now s = (Ok u, s') ->
  s' = s /\ Z.of_nat (List.length (sessions_after p (now - SESSION_WINDOW) s)) < limit.
Proof.
  unfold enforce_scope. rewrite bind_run. cbn [gets]. destruct (Z.leb_spec limit (Z.of_nat (List.length
    (sessions_after p (now - SESSION_WINDOW) s)))); [done|]. by intros [= _ <-].
Qed.

(** One more session counts at most once. *)
Lemma sessions_after_insert p start s k r :
  db_connect_sessions s !! k = None ->
  Z.of_nat (List.length (sessions_after p start (s <| db_connect_sessions ::= <[k := r]> |>)))
  <= Z.of_nat (List.length (sessions_after p start s)) + 1.
Proof.
  intros Hn. unfold sessions_after. rewrite !length_fmap.
  change (db_connect_sessions (s <| db_connect_sessions ::= ?f |>)) with (f (db_connect_sessions s)).
  rewrite (map_to_list_insert _ k r) by done. rewrite filter_cons. case_decide; cbn [List.length]; lia.
Qed.

Section Properties.
Context `{External, Deployment, PrivateKeys}.
Context (urlsplit : string -> option UrlSplit).

(** What a creation leaves: one new row under an id and a hash nobody had. *)
Definition created_row (a id : N) (ttl : Z) (app_name return_url : option string) (now clock : Z) (token : string)
    : ConnectSession :=
  {| cs_application_id := a; cs_domain_id := id; cs_token_hash := hash_token token; cs_expires_at := now + ttl;
     cs_revoked_at := None; cs_app_name := strip <$> app_name; cs_return_url := return_url;
     cs_created_at := now; cs_updated_at := clock |}.

Record creation (a id : N) (base : option string) (ttl_seconds : option Z) (app_name return_url : option string)
    (now : Z) (s : Db) (k : N) (url : string) (s' : Db) : Prop := {
  cn_ttl : MIN_TTL <= ttl_of ttl_seconds <= MAX_TTL;
  cn_domain : exists d, db_domains s !! id = Some d /\ live d = true /\ dom_application_id d = a;
  cn_limits : Z.of_nat (List.length (sessions_after (of_domain id) (now - SESSION_WINDOW) s)) < DOMAIN_MAX_LINKS /\
    Z.of_nat (List.length (sessions_after (of_application a) (now - SESSION_WINDOW) s)) < APPLICATION_MAX_LINKS;
  cn_row : exists b token, base = Some b /\ url = page_url b token /\
    token = token_urlsafe (db_next s) TOKEN_BYTES /\
    db_connect_sessions s !! k = None /\
    (forall k' r', db_connect_sessions s !! k' = Some r' -> cs_token_hash r' <> hash_token token) /\
    s' = s <| db_next := (db_next s + 1 + 1)%N |>
           <| db_connect_sessions ::= <[k := created_row a id (ttl_of ttl_seconds) app_name return_url now (db_clock s) token]> |>;
}.

Lemma create_session_ok a id base ttl_seconds app_name return_url now s k url s' :
  create_session urlsplit a id base ttl_seconds app_name return_url now s = (Ok (k, url), s') ->
  creation a id base ttl_seconds app_name return_url (default (db_clock s) now) s k url s'.
Proof.
  intros Hr. unfold create_session in Hr. run_inv Hr. run_draws. rewrite lock_application_id in *.
  match goal with L : (Ok tt, _) = (Ok _, _) |- _ => injection L as _ <- end.
  match goal with G : get_domain _ _ _ _ = _ |- _ => apply get_domain_ok in G as (-> & Hd & <- & Hl) end.
  match goal with L : enforce_session_limits _ _ _ _ = _ |- _ =>
    apply bind_ok in L as (? & ? & [-> L1]%enforce_scope_ok & [-> L2]%enforce_scope_ok) end.
  match goal with I : insert_session _ _ = _ |- _ => apply insert_session_ok in I as (Hn & -> & Hu & _) end.
  match goal with E : _ && _ = true |- _ => apply andb_prop in E as [Hmin%Z.leb_le Hmax%Z.leb_le] end.
  split; [done|by eexists; split_and!; auto|done|].
  eexists _, _. split; [done|]. split; [done|]. split; [done|]. split; [exact Hn|]. split; [exact Hu|]. by destruct s.
Qed.

(** C20: A token opens a session exactly when it has a token's form and the session with its
    hash is not revoked, has not expired, and its domain is live under an active
    application. *)
Theorem open_session_exactly s token now o :
  hashes_unique s ->
  open_session s token now = Some o <->
  TOKEN_match token = true /\
  exists k r d a,
    db_connect_sessions s !! k = Some r /\ cs_token_hash r = hash_token token /\ cs_revoked_at r = None /\
    default (db_clock s) now < cs_expires_at r /\
    db_domains s !! cs_domain_id r = Some d /\ dom_application_id d = cs_application_id r /\ live d = true /\
    db_applications s !! cs_application_id r = Some a /\ app_status a = ACTIVE /\ application_is_deleted a = false /\
    o = opened k r.
Proof.
  intros Hu. unfold open_session. destruct (TOKEN_match token); [|by split; [|intros []]]. cbn [negb].
  destruct (session_by_hash s (hash_token token)) as [[k r]|] eqn:E.
  - apply session_by_hash_Some in E as [Hk Hh]; [|done]. unfold setup_live. split.
    + case_bool_decide as Hr; [done|]. destruct (Z.leb_spec (cs_expires_at r) (default (db_clock s) now)); [done|]. cbn [orb].
      destruct (db_domains s !! cs_domain_id r) as [d|] eqn:Ed; [|done]. case_bool_decide as Ha; [|done].
      destruct (live d) eqn:El; [|done]. cbn [andb]. rewrite Ha.
      destruct (db_applications s !! cs_application_id r) as [a|] eqn:Eap; [|done]. case_bool_decide as Has; [|done].
      destruct (application_is_deleted a) eqn:Ead; [done|]. intros [= <-]. split; [done|].
      exists k, r, d, a. split_and!; try done. by apply eq_None_not_Some.
    + intros (_ & k' & r' & d & a & Hk' & Hh' & Hr & Ht & Hd & Ha & Hl & Hap & Has & Had & ->).
      assert (k' = k) as -> by (eapply Hu; [exact Hk'|exact Hk|]; by rewrite Hh'). rewrite Hk in Hk'. injection Hk' as <-.
      rewrite Hr, bool_decide_false by (by intros []). rewrite (proj2 (Z.leb_gt _ _)) by done. cbn [orb].
      rewrite Hd, Ha, Hl, Hap, bool_decide_true by done. by rewrite bool_decide_true, Had by done.
  - rewrite session_by_hash_None in E. split; [done|]. intros (_ & k & r & d & a & Hk & Hh & _). by destruct (E k r Hk).
Qed.

Lemma hashes_unique_insert s k r :
  hashes_unique s -> (forall k' r', db_connect_sessions s !! k' = Some r' -> cs_token_hash r' <> cs_token_hash r) ->
  hashes_unique (s <| db_connect_sessions ::= <[k := r]> |>).
Proof.
  intros Hu Hn k1 k2 r1 r2. simpl_over.
  intros [[<- <-]|[_ H1']]%lookup_insert_Some [[<- <-]|[_ H2']]%lookup_insert_Some Hh; [done|..|by eapply Hu].
  - by destruct (Hn _ _ H2').
  - by destruct (Hn _ _ H1').
Qed.

Lemma session_by_hash_ext s s' h :
  hashes_unique s -> hashes_unique s' ->
  (forall k r, cs_token_hash r = h -> db_connect_sessions s' !! k = Some r <-> db_connect_sessions s !! k = Some r) ->
  session_by_hash s' h = session_by_hash s h.
Proof.
  intros Hu Hu' He. destruct (session_by_hash s h) as [[k r]|] eqn:E.
  - apply session_by_hash_Some in E as [Hk Hh]; [|done]. apply session_by_hash_Some; [done|]. split; [by apply He|done].
  - apply session_by_hash_None. intros k r Hk Hh. rewrite session_by_hash_None in E. by apply (E k r); [apply He|].
Qed.

(** Documented: [secrets.token_urlsafe(32)] is 43 URL-safe characters. *)
Class TokenShape : Prop := token_shape i : TOKEN_match (token_urlsafe i TOKEN_BYTES) = true.

(** A new link names the page under the base address; its token opens the new session,
    for its own domain, until it expires and not after; every other link works as
    before.  The application is one that is active. *)
Theorem created_link_opens `{!TokenShape} a id base ttl_seconds app_name return_url now s k url s' app :
  create_session urlsplit a id base ttl_seconds app_name return_url now s = (Ok (k, url), s') ->
  hashes_unique s ->
  db_applications s !! a = Some app -> app_status app = ACTIVE -> application_is_deleted app = false ->
  let n := default (db_clock s) now in
  exists b token, base = Some b /\ url = page_url b token /\ hashes_unique s' /\
    (forall t, open_session s' token (Some t) =
       if t <? n + ttl_of ttl_seconds
       then Some {| opn_session_id := k; opn_application_id := a; opn_domain_id := id;
                    opn_expires_at := n + ttl_of ttl_seconds; opn_app_name := strip <$> app_name;
                    opn_return_url := return_url |}
       else None) /\
    (forall other t, hash_token other <> hash_token token -> open_session s' other t = open_session s other t).
Proof.
  intros Hc Hu Hap Has Had n. destruct (create_session_ok _ _ _ _ _ _ _ _ _ _ _ Hc) as [_ (d & Hd & Hl & Ha) _ Hrow].
  destruct Hrow as (b & token & -> & -> & Ht & Hn & Hnew & ->). fold n.
  set (row := created_row _ _ _ _ _ _ _ _). set (s1 := s <| db_next := _ |>).
  assert (hashes_unique (s1 <| db_connect_sessions ::= <[k := row]> |>)) as Hu' by by apply (hashes_unique_insert s1).
  exists b, token. split; [done|]. split; [done|]. split; [exact Hu'|]. split.
  - intros t. unfold open_session. rewrite Ht at 1. rewrite token_shape. cbn [negb].
    assert (session_by_hash (s1 <| db_connect_sessions ::= <[k := row]> |>) (hash_token token) = Some (k, row)) as ->.
    { apply session_by_hash_Some; [done|]. split; [simpl_over; apply lookup_insert_eq|done]. }
    cbn [cs_revoked_at row created_row cs_expires_at default]. rewrite bool_decide_false by (by intros []). cbn [orb].
    unfold setup_live. simpl_over. cbn [cs_domain_id cs_application_id row created_row].
    rewrite Hd, Ha, Hl, Hap, !bool_decide_true, Had by done. cbn [andb negb].
    unfold Datatypes.id. destruct (Z.leb_spec (n + ttl_of ttl_seconds) t), (Z.ltb_spec t (n + ttl_of ttl_seconds)); done || lia.
  - intros other t Ho. unfold open_session. destruct (TOKEN_match other); [|done]. cbn [negb].
    rewrite (session_by_hash_ext s); [|done|done|].
    2: { intros k' r' Hh. simpl_over. rewrite lookup_insert_Some. split; [intros [[_ <-]|[_ ?]]; [by destruct Ho|done]|].
         intros Hk'. right. split; [|done]. intros ->. congruence. }
    destruct (session_by_hash s (hash_token other)) as [[k' r']|]; reflexivity.
Qed.

(** The links a domain and an application got within the hour never exceed the limits,
    the new one included. *)
Theorem links_within_limits a id base ttl_seconds app_name return_url now s k url s' :
  create_session urlsplit a id base ttl_seconds app_name return_url now s = (Ok (k, url), s') ->
  let n := default (db_clock s) now in
  Z.of_nat (List.length (sessions_after (of_domain id) (n - SESSION_WINDOW) s')) <= DOMAIN_MAX_LINKS /\
  Z.of_nat (List.length (sessions_after (of_application a) (n - SESSION_WINDOW) s')) <= APPLICATION_MAX_LINKS.
Proof.
  intros Hc n. destruct (create_session_ok _ _ _ _ _ _ _ _ _ _ _ Hc) as [_ _ [L1 L2] Hrow].
  destruct Hrow as (b & token & _ & _ & _ & Hn & _ & ->). fold n in L1, L2 |- *.
  set (row := created_row _ _ _ _ _ _ _ _). set (s1 := s <| db_next := _ |>).
  pose proof (sessions_after_insert (of_domain id) (n - SESSION_WINDOW) s1 k row Hn).
  pose proof (sessions_after_insert (of_application a) (n - SESSION_WINDOW) s1 k row Hn).
  change (sessions_after (of_domain id) (n - SESSION_WINDOW) s1) with (sessions_after (of_domain id) (n - SESSION_WINDOW) s) in *.
  change (sessions_after (of_application a) (n - SESSION_WINDOW) s1) with (sessions_after (of_application a) (n - SESSION_WINDOW) s) in *.
  lia.
Qed.

(** A revoked row stops opening, and only that row. *)
Lemma dead_row s k r r' :
  hashes_unique s -> db_connect_sessions s !! k = Some r -> cs_token_hash r' = cs_token_hash r ->
  is_Some (cs_revoked_at r') ->
  let s' := s <| db_connect_sessions ::= <[k := r']> |> in
  hashes_unique s' /\
  forall token t, open_session s' token t =
    match open_session s token t with
    | Some o => if bool_decide (opn_session_id o = k) then None else Some o
    | None => None
    end.
Proof.
  intros Hu Hk Hh Hrev s'.
  assert (forall j q, db_connect_sessions s' !! j = Some q <-> (j = k /\ q = r') \/ (j <> k /\ db_connect_sessions s !! j = Some q)) as Hs'.
  { intros j q. unfold s'. simpl_over. rewrite lookup_insert_Some. split; intros [[? ?]|[? ?]]; auto. }
  assert (hashes_unique s') as Hu'.
  { intros k1 k2 r1 r2. rewrite !Hs'. intros [[-> ->]|[? ?]] [[-> ->]|[? ?]] E; [done|..|by eapply Hu].
    - rewrite Hh in E. by eapply Hu.
    - rewrite Hh in E. by eapply Hu. }
  split; [exact Hu'|]. intros token t. unfold open_session. destruct (TOKEN_match token); [|done]. cbn [negb].
  destruct (session_by_hash s (hash_token token)) as [[j q]|] eqn:E.
  - apply session_by_hash_Some in E as [Hj Hq]; [|done]. destruct (decide (j = k)) as [->|Hne].
    + assert (q = r) as -> by congruence.
      assert (session_by_hash s' (hash_token token) = Some (k, r')) as ->.
      { apply session_by_hash_Some; [done|]. split; [apply Hs'; by left|by rewrite Hh]. }
      rewrite bool_decide_true by done. cbn [orb]. destruct (_ || _), (setup_live s r); try done.
      cbn. by rewrite bool_decide_true.
    + assert (session_by_hash s' (hash_token token) = Some (j, q)) as ->.
      { apply session_by_hash_Some; [done|]. split; [apply Hs'; by right|done]. }
      change (db_clock s') with (db_clock s). change (setup_live s' q) with (setup_live s q).
      destruct (_ || _), (setup_live s q); try done. cbn. by rewrite bool_decide_false.
  - rewrite session_by_hash_None in E.
    assert (session_by_hash s' (hash_token token) = None) as ->; [|done].
    apply session_by_hash_None. intros j q [[-> ->]|[_ Hj]]%Hs'; [rewrite Hh; by apply (E k)|by apply (E j)].
Qed.

(** A revoked link is dead and every other link works as before; only a session of the
    domain and the application named is revoked. *)
Theorem revoked_link_is_dead a id k now s s' :
  revoke_session a id k now s = (Ok tt, s') -> hashes_unique s ->
  (exists r, db_connect_sessions s !! k = Some r /\ cs_domain_id r = id /\ cs_application_id r = a) /\
  hashes_unique s' /\
  forall token t, open_session s' token t =
    match open_session s token t with
    | Some o => if bool_decide (opn_session_id o = k) then None else Some o
    | None => None
    end.
Proof.
  intros Hr Hu. unfold revoke_session in Hr. run_inv Hr.
  match goal with G : get_domain _ _ _ _ = _ |- _ => apply get_domain_ok in G as (-> & _) end.
  match goal with E : _ !! k = Some ?r, O : _ && _ = true |- _ => rename r into row; rename E into Hk;
    apply andb_prop in O as [Hd%bool_decide_eq_true Ha%bool_decide_eq_true] end.
  split; [by eauto|]. match goal with I : (if _ then _ else _) _ = _ |- _ => revert I end. case_bool_decide as Hrev.
  - intros Hm. run_inv Hm. run_draws. set (f := fun r : ConnectSession => _).
    assert (alter f k (db_connect_sessions s) = <[k := f row]> (db_connect_sessions s)) as Halt.
    { apply map_eq. intros j. destruct (decide (j = k)) as [->|]; [by rewrite lookup_alter_eq, lookup_insert_eq, Hk|].
      by rewrite lookup_alter_ne, lookup_insert_ne. }
    assert (s <| db_connect_sessions ::= alter f k |> = s <| db_connect_sessions ::= <[k := f row]> |>) as ->
      by (unfold over; simpl; by rewrite Halt).
    by apply (dead_row s k row (f row)).
  - intros [= <-]. assert (s = s <| db_connect_sessions ::= <[k := row]> |>) as Hs.
    { destruct s. unfold over. simpl in *. f_equal. by rewrite insert_id. }
    pose proof (dead_row s k row row Hu Hk eq_refl (proj1 (not_eq_None_Some _) Hrev)) as D. cbv zeta in D.
    by rewrite <- Hs in D.
Qed.
End Properties.
