(* ===== verification/DnsChecks.v ===== *)
(** * The DNS checks (app/services/dns_checks.py)

    Ownership and routing outcomes from public DNS, their schedule, and the status
    rules they drive. *)

From Stdlib Require Import Ascii String ZArith Lia.
From stdpp Require Import base gmap strings list sets.
From S2P Require Import Prelude PyStr Datetime Json Errors External Models Dns DnsSetup Schemas.
From S2P Require Import Domains ConnectFlow.
Open Scope string_scope.
Open Scope Z_scope.

Definition BACKOFF : list Z := [minutes 1; minutes 2; minutes 5; minutes 15; minutes 30; hours 1].
Definition REVALIDATE_INTERVAL : Z := hours 6.
Definition OWNERSHIP_LOSS_GRACE : Z := hours 24.
Definition MAX_OBSERVED : nat := 5.

Record Outcome := {
  oc_status : CheckStatus;
  oc_error_code : option string;
  oc_message : option string;
  oc_details : dict;
}.
Definition passing (o : Outcome) : bool := bool_decide (oc_status o = PASSING).

Definition pass_with (details : dict) : Outcome :=
  {| oc_status := PASSING; oc_error_code := None; oc_message := None; oc_details := details |}.
Definition fail_with (why message : string) (details : dict) : Outcome :=
  {| oc_status := FAILING; oc_error_code := Some why; oc_message := Some message; oc_details := details |}.

Definition observed (values : list string) : json := jstr_list (utake 120 <$> take MAX_OBSERVED values).

(** ** Outcomes *)

Definition claim_gone : Outcome := fail_with "claim_revoked" "The domain has no live ownership claim" [].

(** TXT values of the domain's revoked claims. *)
Definition stale_values (s : Db) (id : N) : list string :=
  txt_record_value <$> filter (fun c => claim_status c = REVOKED) (snd <$> domain_claims s id).

Definition ownership_outcome (r : Resolver) (s : Db) (id : N) : Outcome :=
  match active_claim s id with
  | None => claim_gone
  | Some (_, claim) =>
      let name := claim_txt_record_name claim in
      match r_txt r name with
      | Err DnsNameNotFound =>
          fail_with "txt_record_not_found"
            ("No TXT record named " +:+ name +:+ " was found. Create it with the value shown in the domain's DNS records; propagation can take up to the record's TTL.") []
      | Err (DnsUnavailable why) =>
          fail_with "dns_timeout" ("DNS lookup for " +:+ name +:+ " failed: " +:+ why) []
      | Ok [] =>
          fail_with "txt_record_not_found"
            (name +:+ " exists but has no TXT record. Add a TXT record with the value shown in the domain's DNS records.") []
      | Ok values =>
          let expected := txt_record_value claim in
          if existsb (fun v => String.eqb (strip v) expected) values
          then pass_with [("observed", observed values)]
          else if existsb (fun v => mem_str (strip v) (stale_values s id)) values
          then fail_with "txt_token_stale"
                 (name +:+ " holds a token from a previous registration of this hostname. Replace it with the current value shown in the domain's DNS records.")
                 [("observed", observed values)]
          else fail_with "txt_token_mismatch"
                 (name +:+ " has TXT records, but none is this registration's value. Check that the value was copied exactly, without quotes or extra text.")
                 [("observed", observed values)]
      end
  end.

Definition routing_outcome (r : Resolver) (s : Db) (id : N) (d : Domain) : Outcome :=
  match active_claim s id with
  | None => claim_gone
  | Some (_, claim) =>
      let target := claim_cname_target claim in
      let name := dom_hostname d in
      match cname_chain r name (Some target) with
      | Err DnsNameNotFound =>
          fail_with "cname_not_found"
            (name +:+ " does not exist in DNS. Add a CNAME record pointing it at " +:+ target +:+ ".") []
      | Err (DnsUnavailable why) =>
          fail_with "dns_timeout" ("DNS lookup for " +:+ name +:+ " failed: " +:+ why) []
      | Ok [] =>
          let has_address := match r_has_address r name with Ok b => b | Err _ => false end in
          if has_address
          then fail_with "cname_not_found"
                 (name +:+ " has A or AAAA records instead of a CNAME. Remove them and add a CNAME record pointing at "
                  +:+ target +:+ ".") []
          else fail_with "cname_not_found"
                 (name +:+ " has no CNAME record. Add one pointing at " +:+ target +:+ ".") []
      | Ok chain =>
          if mem_str target chain then pass_with [("chain", jstr_list chain)]
          else fail_with "cname_target_mismatch"
                 (name +:+ " points at " +:+ List.last chain "" +:+ ", expected " +:+ target
                  +:+ ". Update the CNAME record, and make sure no CDN or proxy rewrites it.")
                 [("chain", jstr_list chain)]
      end
  end.

(** ** The schedule *)

(** [BACKOFF[min(attempts, len(BACKOFF)) - 1]]; a negative index counts from the end. *)
Definition backoff (attempts : Z) : res exn Z :=
  let n := Z.of_nat (List.length BACKOFF) in
  let i := Z.min attempts n - 1 in
  let i := if i <? 0 then i + n else i in
  if i <? 0 then Err PyIndexError
  else match BACKOFF !! Z.to_nat i with Some d => Ok d | None => Err PyIndexError end.

(** [int(previous.get("attempts", 0))] *)
Definition attempts_of (previous : dict) : res exn Z :=
  match dget "attempts" previous with
  | None => Ok 0
  | Some (JInt n) => Ok n
  | Some (JBool b) => Ok (if b then 1 else 0)
  | Some (JStr s) => match py_int s with Some n => Ok n | None => Err PyValueError end
  | Some _ => Err PyTypeError
  end.

Definition schedule_next (check : option DomainCheck) (outcome : Outcome) (now : Z) : res exn (Z * dict) :=
  let previous := default [] (check ≫= check_details) in
  if passing outcome then
    Ok (now + REVALIDATE_INTERVAL, dset "attempts" (JInt 0) (oc_details outcome))
  else
    match attempts_of previous with
    | Err e => Err e
    | Ok n =>
        let attempts := n + 1 in
        let since := match dget "failing_since" previous with
                     | Some j => if truthy j then j else JStr (isoformat now)
                     | None => JStr (isoformat now)
                     end in
        match backoff attempts with
        | Err e => Err e
        | Ok delay =>
            Ok (now + delay,
                dset "failing_since" since (dset "attempts" (JInt attempts) (oc_details outcome)))
        end
    end.

(** [datetime.fromisoformat(details["failing_since"])] *)
Definition failing_since (details : dict) : res exn Z :=
  match dget "failing_since" details with
  | None => Err PyKeyError
  | Some (JStr s) => match fromisoformat s with Some t => Ok t | None => Err PyValueError end
  | Some _ => Err PyTypeError
  end.

(** ** The status rules *)

Section DnsChecks.
Context `{External, Deployment}.

(** One check of an [apply_*_outcomes] loop; gives the details it recorded. *)
Definition record_outcome (id : N) (fast : bool) (now : Z) (t : CheckType) (outcome : Outcome) : M dict :=
  existing ← gets (fun s => domain_check s id t);
  plan ← lift (schedule_next existing outcome now);
  let next_at := if fast && negb (passing outcome)
                 then Z.min plan.1 (now + FAST_RECHECK_INTERVAL) else plan.1 in
  _ ← record_check id t (oc_status outcome) (oc_error_code outcome) (oc_message outcome)
        (Some plan.2) (Some now) (Some next_at);
  mret plan.2.

Definition apply_dns_outcomes (id : N) (ownership routing : Outcome) (now : option Z) : M unit :=
  now ← now_or now;
  d ← the_domain id;
  let fast := fast_recheck_due d now in
  ownership_details ← record_outcome id fast now OWNERSHIP ownership;
  _ ← record_outcome id fast now ROUTING routing;
  claim ← gets (fun s => active_claim s id);
  if passing ownership && passing routing then
    _ ← match claim with
        | Some (_, c) => if bool_decide (claim_status c = CLAIM_PENDING)
                         then mark_claim_verified id "dns_txt" (Some now) else mret tt
        | None => mret tt
        end;
    d ← the_domain id;
    s ← get;
    if bool_decide (dom_status d ∈ [PENDING_DNS; SUSPENDED]) then
      transition_status id PROVISIONING (Some "dns_verified") (Some now)
    else if bool_decide (dom_status d = ATTENTION_REQUIRED) && checks_passing s id then
      transition_status id READY (Some "recovered") (Some now)
    else mret tt
  else
    let failed := if passing ownership then "routing" else "ownership" in
    d ← the_domain id;
    if bool_decide (dom_status d = PROVISIONING) then
      transition_status id PENDING_DNS (Some (failed +:+ "_check_failed")) (Some now)
    else if bool_decide (dom_status d = ATTENTION_REQUIRED) && negb (passing ownership)
            && match claim with
               | Some (_, c) => bool_decide (claim_status c = VERIFIED)
               | None => false
               end then
      since ← lift (failing_since ownership_details);
      if OWNERSHIP_LOSS_GRACE <=? now - since then
        transition_status id SUSPENDED (Some "ownership_lost") (Some now)
      else mret tt
    else mret tt.

Definition run_dns_checks (id : N) (r : Resolver) (now : option Z) : M unit :=
  now ← now_or now;
  d ← the_domain id;
  s ← get;
  apply_dns_outcomes id (ownership_outcome r s id) (routing_outcome r s id d) (Some now).
End DnsChecks.
