(* ===== verification/DnsSettings.v ===== *)
(** * DNS settings and the local resolver (app/dns/settings.py, app/dns/resolver.py)

    What the environment says about verification and Domain Connect, which resolver it
    gives, and the resolver of a development deployment, which answers from the records
    the service itself issued.  Theorem: in local mode both DNS checks of every live domain
    with a claim pass, and behind a publicly trusted edge the mode is refused. *)

From Stdlib Require Import Ascii String ZArith QArith Lia.
From stdpp Require Import base gmap strings list.
From S2P Require Import Prelude PyStr Json Errors External Models Url Signing Hostname Dns DnsSetup EdgeSettings.
From S2P Require Import Domains DomainFacts DomainInv DnsChecks.
Open Scope string_scope.
Open Scope Z_scope.

(** ** app/dns/settings.py *)

Record DnsSettings := {
  worker_enabled : bool;
  worker_interval : PyFloat;
  batch_size : Z;
  nameservers : list string;
  timeout : PyFloat;
  verification_mode : string;
}.

(** [max(lo, x)]: [lo] unless [x] is greater. *)
Definition at_least (lo : Q) (x : PyFloat) : PyFloat :=
  match x with
  | Finite q => if Qle_bool q lo then Finite lo else x
  | PosInf => PosInf
  | NegInf | NaN => Finite lo
  end.

Section Settings.
Context `{External, PrivateKeys}.
Context (urlsplit : string -> option UrlSplit).
Context (read_text : string -> option string).   (* [Path(path).read_text()]; [None]: [OSError] *)

Definition DnsSettings_from_env (environ : env) : res exn DnsSettings :=
  let text name fallback := default fallback (environ name) in
  let mode := lower (strip (text "DNS_VERIFICATION_MODE" "public")) in
  let mode := if String.eqb mode "" then "public" else mode in
  if negb (mem_str mode ["public"; "local"]) then Err PyValueError else
  interval ← require (py_float (text "DNS_WORKER_INTERVAL" "10")) PyValueError;
  batch ← require (py_int (text "DNS_WORKER_BATCH" "50")) PyValueError;
  timeout ← require (py_float (text "DNS_TIMEOUT" "5")) PyValueError;
  Ok {| worker_enabled := mem_str (lower (strip (text "DNS_WORKER_ENABLED" "true"))) ["1"; "true"; "yes"; "on"];
        worker_interval := at_least 1 interval; batch_size := Z.max 1 batch;
        nameservers := List.filter (fun item => negb (String.eqb item "")) (strip <$> split_on ","%char (text "DNS_RESOLVERS" ""));
        timeout := at_least (1 # 2) timeout; verification_mode := mode |}.

Definition DEFAULT_GUIDE_URL : string := "https://github.com/sireto/custom-domain/blob/main/docs/dns-guides/{provider}.md".
Definition SIGNERS : list string := ["local"; "remote"].

(** The key of [DOMAIN_CONNECT_SIGNER=local]. *)
Definition local_key_text (environ : env) : res exn string :=
  let text name := strip (default "" (environ name)) in
  let key := text "DOMAIN_CONNECT_PRIVATE_KEY" in
  let key_file := text "DOMAIN_CONNECT_PRIVATE_KEY_FILE" in
  if negb (String.eqb key "") && negb (String.eqb key_file "") then Err PyValueError else
  key ← (if String.eqb key_file "" then Ok key else read ← require (read_text key_file) PyValueError; Ok (strip read));
  if String.eqb key "" then Err PyValueError else Ok key.

Definition SignerSettings_from_env (environ : env) : res exn SignerSettings :=
  let text name := strip (default "" (environ name)) in
  let settings signer key key_host url credential return_url :=
    {| sg_signer := signer; sg_private_key := key; sg_key_host := key_host; sg_url := url;
       sg_credential := credential; sg_return_url := return_url |} in
  let signer := nonempty (Some (lower (text "DOMAIN_CONNECT_SIGNER"))) in
  let signer := if bool_decide (signer = Some "none") then None else signer in
  if match signer with Some v => negb (mem_str v SIGNERS) | None => false end then Err PyValueError else
  let return_url := nonempty (Some (text "DOMAIN_CONNECT_RETURN_URL")) in
  if match return_url with Some u => https_url_problem urlsplit u | None => false end then Err PyValueError else
  if bool_decide (signer = Some "local") then
    key ← local_key_text environ;
    let key_host := nonempty (Some (text "DOMAIN_CONNECT_KEY_HOST")) in
    _ ← require (parse_private_keys key key_host) PyValueError;
    Ok (settings signer (Some key) key_host None None return_url)
  else if bool_decide (signer = Some "remote") then
    let url := text "DOMAIN_CONNECT_SIGNER_URL" in
    let credential := text "DOMAIN_CONNECT_SIGNER_CREDENTIAL" in
    if String.eqb url "" || https_url_problem urlsplit url then Err PyValueError else
    if negb (CREDENTIAL_match credential) then Err PyValueError else
    Ok (settings signer None None (Some url) (Some credential) return_url)
  else Ok (settings None None None None None return_url).

(** At most 64 characters, none of them a space or a slash. *)
Definition template_part_ok (value : string) : bool :=
  (ulen value <=? 64) && sall (fun c => negb (is_space c || char_eqb c "/"%char)) value.

Definition SetupSettings_from_env (environ : env) : res exn SetupSettings :=
  let text name := strip (default "" (environ name)) in
  let provider_id := text "DOMAIN_CONNECT_PROVIDER_ID" in
  let service_id := default "hostname" (nonempty (Some (text "DOMAIN_CONNECT_SERVICE_ID"))) in
  if negb (template_part_ok provider_id && template_part_ok service_id) then Err PyValueError else
  let guide_url := default DEFAULT_GUIDE_URL (nonempty (Some (text "DNS_GUIDE_URL"))) in
  if negb (startswith "https://" guide_url || startswith "http://" guide_url) || negb (contains "{provider}" guide_url)
  then Err PyValueError else
  signing ← (if String.eqb provider_id "" then Ok false else s ← SignerSettings_from_env environ; Ok (signer_enabled s));
  Ok {| ss_template_provider_id := provider_id; ss_template_service_id := service_id;
        ss_signing_enabled := signing; ss_guide_url := guide_url |}.
End Settings.

(** ** app/dns/resolver.py *)

Section Issued.
Context `{External}.

(** [IssuedRecordsResolver]: the answers of a database. *)
Definition issued_txt (s : Db) (name : string) : res dns_error (list string) :=
  let wanted := normalize_name name in
  let claims := filter (fun x =>
    String.eqb (claim_txt_record_name x.2) wanted && claim_live x.2
    && match db_domains s !! claim_domain_id x.2 with Some d => live d | None => false end = true)
    (map_to_list (db_claims s)) in
  match (fun x => txt_record_value x.2) <$> claims with
  | [] => Err DnsNameNotFound
  | values => Ok values
  end.
Definition issued_cname (s : Db) (name : string) : res dns_error (option string) :=
  let wanted := normalize_name name in
  match x ← live_by_hostname s wanted; active_claim s x.1 with
  | None => Err DnsNameNotFound
  | Some (_, claim) => Ok (Some (normalize_name (claim_cname_target claim)))
  end.
Definition IssuedRecordsResolver (s : Db) : Resolver := {|
  r_txt := issued_txt s;
  r_cname := issued_cname s;
  r_has_address := fun _ => Ok false;
  r_ns := fun _ => Ok [];
|}.

(** [system]: the resolver on the configured nameservers. *)
Definition make_resolver (dns : DnsSettings) (edge : EdgeSettings) (s : Db) (system : Resolver) : res exn Resolver :=
  if String.eqb (verification_mode dns) "local" then
    if es_disable_https edge || String.eqb (tls_issuer edge) "internal" then Ok (IssuedRecordsResolver s) else Err PyValueError
  else Ok system.
End Issued.

Section LocalMode.
Context `{External}.

(** The names of a domain's records as they are looked up, and a token without spaces around. *)
Record issued_form (d : Domain) (c : OwnershipClaim) : Prop := {
  if_txt_name : normalize_name (claim_txt_record_name c) = claim_txt_record_name c;
  if_value : strip (txt_record_value c) = txt_record_value c;
  if_hostname : normalize_name (dom_hostname d) = dom_hostname d;
  if_target : normalize_name (claim_cname_target c) = claim_cname_target c;
  if_elsewhere : claim_cname_target c <> dom_hostname d;
}.

Lemma issued_value s id d k c :
  db_domains s !! id = Some d -> live d = true -> active_claim s id = Some (k, c) ->
  normalize_name (claim_txt_record_name c) = claim_txt_record_name c ->
  exists values, issued_txt s (claim_txt_record_name c) = Ok values /\ txt_record_value c ∈ values.
Proof.
  intros Hd Hl Ha Hn. destruct (active_claim_Some _ _ _ _ Ha) as (Hk & Hid & Hlive).
  unfold issued_txt. rewrite Hn. cbv zeta. set (claims := filter _ _).
  assert ((k, c) ∈ claims) as Hin.
  { apply list_elem_of_filter. split; [|by apply elem_of_map_to_list]. cbn [fst snd].
    unfold claim_live. by rewrite String.eqb_refl, bool_decide_eq_true_2, Hid, Hd, Hl. }
  apply (list_elem_of_fmap_2 (fun x => txt_record_value x.2)) in Hin. cbn [snd] in Hin.
  destruct ((fun x => txt_record_value x.2) <$> claims) as [|v vs]; [by apply not_elem_of_nil in Hin|eauto].
Qed.

Lemma local_ownership s id d k c :
  db_domains s !! id = Some d -> live d = true -> active_claim s id = Some (k, c) -> issued_form d c ->
  passing (ownership_outcome (IssuedRecordsResolver s) s id) = true.
Proof.
  intros Hd Hl Ha [Hn Hv _ _ _]. destruct (issued_value s id d k c Hd Hl Ha Hn) as (values & Ht & Hin).
  unfold ownership_outcome. rewrite Ha. cbv zeta. cbn [r_txt IssuedRecordsResolver]. rewrite Ht.
  assert (existsb (fun v => String.eqb (strip v) (txt_record_value c)) values = true) as ->.
  { apply existsb_exists. exists (txt_record_value c). split; [by apply list_elem_of_In|]. by rewrite Hv, String.eqb_refl. }
  by destruct values; [apply not_elem_of_nil in Hin|].
Qed.

Lemma issued_target s id d k c :
  Inv None s -> db_domains s !! id = Some d -> live d = true -> active_claim s id = Some (k, c) -> issued_form d c ->
  issued_cname s (dom_hostname d) = Ok (Some (claim_cname_target c)).
Proof.
  intros HI Hd Hl Ha [_ _ Hh Ht _]. unfold issued_cname. rewrite Hh. cbv zeta.
  assert (exists e, live_by_hostname s (dom_hostname d) = Some (id, e)) as [e ->].
  { unfold live_by_hostname. set (rows := filter _ _).
    assert ((id, d) ∈ rows) as Hin.
    { apply list_elem_of_filter. split; [|by apply elem_of_map_to_list]. cbn [snd]. by rewrite Hl, String.eqb_refl. }
    destruct rows as [|[j e] rows'] eqn:Er; [by apply not_elem_of_nil in Hin|].
    assert ((j, e) ∈ rows) as Hj by (rewrite Er; left). apply list_elem_of_filter in Hj as [Hj He%elem_of_map_to_list].
    cbn [snd] in Hj. apply andb_prop in Hj as [Hle Hhe%String.eqb_eq].
    exists e. cbn [head]. by rewrite (inv_hostname None s HI j id e d). }
  cbn [mbind option_bind fst]. by rewrite Ha, Ht.
Qed.

Lemma local_routing s id d k c :
  Inv None s -> db_domains s !! id = Some d -> live d = true -> active_claim s id = Some (k, c) -> issued_form d c ->
  passing (routing_outcome (IssuedRecordsResolver s) s id d) = true.
Proof.
  intros HI Hd Hl Ha Hf. pose proof (issued_target s id d k c HI Hd Hl Ha Hf) as Hc. destruct Hf as [_ _ _ _ Hne].
  unfold routing_outcome. rewrite Ha. cbv zeta.
  assert (cname_chain (IssuedRecordsResolver s) (dom_hostname d) (Some (claim_cname_target c)) = Ok [claim_cname_target c]) as ->.
  { unfold cname_chain, MAX_CNAME_HOPS. cbn [cname_loop r_cname IssuedRecordsResolver]. rewrite Hc.
    cbn [mem_str existsb orb]. rewrite (proj2 (String.eqb_neq _ _) Hne). cbn [orb app]. by rewrite String.eqb_refl. }
  cbn [mem_str existsb]. by rewrite String.eqb_refl.
Qed.

(** C29: what [DNS_VERIFICATION_MODE] chooses.  Behind a publicly trusted edge it can only be
    the resolver on real nameservers.  In local mode, which therefore has a local edge,
    the records the service issued count as published: both DNS checks pass of every live
    domain whose live claim has its names in the form they are looked up in (lower case,
    no final dot), a token without spaces around, and a target other than the hostname. *)
Theorem verification_mode_exact dns edge s system r :
  make_resolver dns edge s system = Ok r ->
  (es_disable_https edge = false -> tls_issuer edge <> "internal" -> r = system) /\
  (Inv None s -> verification_mode dns = "local" ->
   (es_disable_https edge = true \/ tls_issuer edge = "internal") /\
   forall id d k c,
     db_domains s !! id = Some d -> live d = true -> active_claim s id = Some (k, c) -> issued_form d c ->
     passing (ownership_outcome r s id) = true /\ passing (routing_outcome r s id d) = true).
Proof.
  unfold make_resolver. destruct (String.eqb_spec (verification_mode dns) "local") as [Hm|Hm].
  - destruct (_ || _) eqn:He; [|done]. intros [= <-]. split.
    + intros Hs Hi. rewrite Hs in He. cbn [orb] in He. by apply String.eqb_eq in He.
    + intros HI _. split; [apply orb_prop in He as [?|?%String.eqb_eq]; auto|].
      intros id d k c Hd Hl Ha Hf. split; [by eapply local_ownership|by eapply local_routing].
  - intros [= <-]. by split; [|intros _ ?].
Qed.
End LocalMode.
