(* ===== verification/EdgeChecks.v ===== *)
(** * The certificate and origin checks (app/services/edge_checks.py)

    Certificate authorization, the edge's own names, the outcomes of the readiness
    and workspace probes and the rules that make a domain ready. *)

From Stdlib Require Import Ascii String ZArith Lia.
From stdpp Require Import base gmap strings list sets.
From S2P Require Import Prelude PyStr Datetime Json Errors External Models Hostname Dns DnsSetup.
From S2P Require Import Domains ConnectFlow DnsChecks.
Open Scope string_scope.
Open Scope Z_scope.

Definition CERTIFICATE_EXPIRY_WARNING : Z := days 7.
Definition NOT_ISSUABLE : list DomainStatus := [PENDING_DNS; SUSPENDED; DELETING].
Definition EDGE_HEALTH_VALUE : string := "1".

(** [certificate_authorized(domain)] for an existing row. *)
Definition certificate_authorized (s : Db) (id : N) (d : Domain) : bool :=
  if is_deleted d || bool_decide (dom_status d ∈ NOT_ISSUABLE) then false
  else if negb (application_active s (dom_application_id d)) then false
  else claim_verified s id.

Definition eligible_for_edge_checks := certificate_authorized.

(** ** Probes *)

Record EdgeProbe := {
  ep_address : string;
  ep_not_after : Z;
  ep_issuer : string;
  ep_status : Z;
  ep_edge_header : option string;
  ep_not_before : option Z;
}.

Record WorkspaceProbe := {
  wp_address : string;
  wp_status : Z;
  wp_reference : option string;
  wp_application_id : option string;
  wp_body : string;
}.

(** The [EdgeProber] protocol: an answer, or the code and message of [EdgeProbeFailed]. *)
Record EdgeProber := {
  probe : string -> res (string * string) EdgeProbe;
  probe_workspace : string -> res (string * string) WorkspaceProbe;
}.

(** The settings these checks read ([EdgeSettings.disable_https], [.edge_hostname]). *)
Record EdgeFlags := { disable_https : bool; edge_hostname : option string }.

(** [delta / 3], rounded to the nearest microsecond. *)
Definition third (delta : Z) : Z := (delta + 1) / 3.

Definition certificate_outcome (prober : EdgeProber) (d : Domain) (settings : EdgeFlags) (now : Z) : Outcome :=
  if disable_https settings then pass_with [("tls", JStr "disabled")] else
  let name := dom_hostname d in
  match probe prober name with
  | Err (why, message) => fail_with why message []
  | Ok p =>
      if negb (ep_status p =? 204) || negb (bool_decide (ep_edge_header p = Some EDGE_HEALTH_VALUE)) then
        fail_with "edge_not_reached"
          (name +:+ " answered over HTTPS (HTTP " +:+ py_str (ep_status p) +:+ ") but not from this edge; traffic is reaching another server. Check the CNAME target and any proxy or CDN in front of the hostname.")
          [("address", JStr (ep_address p))]
      else
        let remaining := ep_not_after p - now in
        let warning := match ep_not_before p with
                       | Some from => Z.min CERTIFICATE_EXPIRY_WARNING (third (ep_not_after p - from))
                       | None => CERTIFICATE_EXPIRY_WARNING
                       end in
        let details := [("address", JStr (ep_address p)); ("issuer", JStr (ep_issuer p));
                        ("not_after", JStr (isoformat (ep_not_after p)))] in
        if remaining <=? 0 then
          fail_with "certificate_expired"
            ("The certificate for " +:+ name +:+ " expired at " +:+ isoformat (ep_not_after p) +:+ "; renewal has failed. Check Caddy's log for ACME errors, CAA records and rate limits.")
            details
        else if remaining <? warning then
          fail_with "certificate_expiring"
            ("The certificate for " +:+ name +:+ " expires at " +:+ isoformat (ep_not_after p) +:+ " and has not been renewed. Check Caddy's log for ACME errors, CAA records and rate limits.")
            details
        else pass_with details
  end.

Definition origin_outcome (s : Db) (d : Domain) (prober : option EdgeProber) : Outcome :=
  let application := db_applications s !! dom_application_id d in
  let origin := match application with
                | Some _ => serving_origin s (dom_application_id d)
                | None => None
                end in
  match application, origin with
  | Some app, Some (_, origin) =>
      let details := [("origin", JStr (origin_url origin))] in
      match (if app_workspace_probe_enabled app then prober else None) with
      | None => pass_with (dset "workspace_probe" (JStr "disabled") details)
      | Some prober =>
          let name := dom_hostname d in
          match probe_workspace prober name with
          | Err (why, message) => fail_with why message details
          | Ok p =>
              let details := dset "address" (JStr (wp_address p)) details in
              if negb (wp_status p =? 200) then
                fail_with "workspace_probe_failed"
                  (name +:+ " answered HTTP " +:+ py_str (wp_status p) +:+ " on the workspace path; the origin must return 200 with the workspace it selected from the assertion (docs/lifecycle.md).")
                  details
              else match wp_reference p with
                   | None =>
                       fail_with "workspace_probe_invalid"
                         (name +:+ ": the workspace path returned 200 without a JSON `reference` field; the origin must echo the reference from the verified assertion.")
                         details
                   | Some reference =>
                       if negb (String.eqb reference (dom_reference d))
                          || match wp_application_id p with
                             | Some id => negb (String.eqb id (uuid_str (dom_application_id d)))
                             | None => false
                             end then
                         fail_with "workspace_mismatch"
                           (name +:+ " is served for workspace " +:+ py_repr reference +:+ " but is registered for " +:+ py_repr (dom_reference d) +:+ "; the origin must select the workspace from the assertion's `ref`, never from the hostname or other input.")
                           (dset "observed_reference" (JStr reference) details)
                       else pass_with (dset "workspace" (JStr reference) details)
                   end
          end
      end
  | _, _ =>
      fail_with "origin_not_ready"
        ("Application " +:+ match application with Some app => app_slug app | None => "?" end +:+ " has no verified active origin. Run `custom-domain origin verify --activate` for it.")
        []
  end.

Section EdgeChecks.
Context `{External, Deployment}.

Definition is_edge_name (s : Db) (hostname : string) (settings : option EdgeFlags) : bool :=
  match canonicalize_apex true (Some hostname) with
  | Err _ => false
  | Ok canonical =>
      if match settings with
         | Some f => bool_decide (edge_hostname f = Some canonical)
         | None => false
         end then true
      else if existsb (fun x => String.eqb (app_cname_target x.2) canonical
                                && bool_decide (app_status x.2 = ACTIVE))
                (map_to_list (db_applications s)) then true
      else existsb (fun x =>
             String.eqb (claim_cname_target x.2) canonical && claim_live x.2 &&
             match db_domains s !! claim_domain_id x.2 with
             | Some d => live d && application_active s (dom_application_id d)
             | None => false
             end) (map_to_list (db_claims s))
  end.

Definition apply_edge_outcomes (id : N) (certificate origin : Outcome) (now : option Z) : M unit :=
  now ← now_or now;
  _ ← record_outcome id false now CERTIFICATE certificate;
  _ ← record_outcome id false now ORIGIN origin;
  d ← the_domain id;
  s ← get;
  if bool_decide (dom_status d ∈ [PROVISIONING; ATTENTION_REQUIRED]) && claim_verified s id
     && checks_passing s id then
    let reason := if bool_decide (dom_status d = PROVISIONING) then "readiness_probe_passed" else "recovered" in
    transition_status id READY (Some reason) (Some now)
  else mret tt.

Definition run_edge_checks (id : N) (prober : EdgeProber) (settings : EdgeFlags) (now : option Z) : M unit :=
  now ← now_or now;
  d ← the_domain id;
  s ← get;
  apply_edge_outcomes id (certificate_outcome prober d settings now)
    (origin_outcome s d (Some prober)) (Some now).
End EdgeChecks.
