(* ===== verification/Applications.v ===== *)
(** * Applications, credentials and origins (app/services/applications.py)

    The tenant boundary: registering, renaming, limiting, suspending and deleting
    applications; issuing, rotating and checking API credentials; registering,
    verifying and activating origins. *)

From Stdlib Require Import Ascii String ZArith Lia.
From stdpp Require Import base gmap strings list sets sorting.
From S2P Require Import Prelude PyStr Datetime Json Errors External Models Hostname Dns DnsSetup.
From S2P Require Import Limits Domains.
Open Scope string_scope.
Open Scope Z_scope.

Definition SECRET_PREFIX : string := "cd_".
Definition SECRET_BYTES : nat := 32.
Definition KEY_PREFIX_LENGTH : nat := 11.
Definition MAX_RATE : Z := 1000000.

(** [_SLUG_RE.match(slug)]; [$] also matches before a final newline. *)
Definition slug_core (s : string) : bool := ldh_label s && (slen s <=? 64).
Definition SLUG_RE_match (s : string) : bool :=
  slug_core s || (endswith (String NL "") s && slug_core (removesuffix (String NL "") s)).

#[export] Instance Application_eq_dec : EqDecision Application.
Proof. solve_decision. Defined.
#[export] Instance VerifiedOrigin_eq_dec : EqDecision VerifiedOrigin.
Proof. solve_decision. Defined.
#[export] Instance ApiCredential_eq_dec : EqDecision ApiCredential.
Proof. solve_decision. Defined.

(** Flushing a changed row: [updated_at] follows only when something changed. *)
Definition flush_application (a : N) (f : Application -> Application) : M unit :=
  modify (fun s => s <| db_applications ::=
    alter (fun r => if bool_decide (f r = r) then r else (f r) <| app_updated_at := db_clock s |>) a |>).
Definition flush_origin (k : N) (f : VerifiedOrigin -> VerifiedOrigin) : M unit :=
  modify (fun s => s <| db_origins ::=
    alter (fun r => if bool_decide (f r = r) then r else (f r) <| org_updated_at := db_clock s |>) k |>).
Definition flush_credential (k : N) (f : ApiCredential -> ApiCredential) : M unit :=
  modify (fun s => s <| db_credentials ::=
    alter (fun r => if bool_decide (f r = r) then r else (f r) <| cred_updated_at := db_clock s |>) k |>).

(** Assigning attributes and [updated_at = utcnow()]. *)
Definition touch_application (a : N) (f : Application -> Application) : M unit :=
  modify (fun s => s <| db_applications ::= alter (fun r => (f r) <| app_updated_at := db_clock s |>) a |>).

Section Applications.
Context `{External, Deployment}.

Definition invalid_application : exn := ServiceError InvalidApplication [].

(** [canonicalize(x, allow_apex=True)], an invalid name raised as [e]. *)
Definition canonical_or (e : exn) (x : string) : res exn string :=
  match canonicalize_apex true (Some x) with Ok h => Ok h | Err _ => Err e end.

Definition UNIQUE_slug : string := "UNIQUE constraint failed: applications.slug".

Definition insert_application (r : Application) : M N :=
  s ← get;
  _ ← guard_ (negb (existsb (fun x => String.eqb (app_slug x.2) (app_slug r))
                      (map_to_list (db_applications s)))) (IntegrityError UNIQUE_slug);
  k ← fresh;
  _ ← guard_ (bool_decide (db_applications s !! k = None)) (IntegrityError "UNIQUE constraint failed: applications.id");
  _ ← modify (fun s => s <| db_applications ::= <[k := r]> |>);
  mret k.

Definition on_integrity_error (e : exn) : exn -> M N :=
  fun x => match x with IntegrityError _ => raise e | _ => raise x end.

Definition create_application (slug name cname_target : string) : M N :=
  _ ← guard_ (SLUG_RE_match slug) invalid_application;
  _ ← guard_ (negb (String.eqb (strip name) "")) invalid_application;
  target ← lift (canonical_or invalid_application cname_target);
  now ← gets db_clock;
  catch (savepoint (insert_application {|
      app_slug := slug; app_name := strip name; app_status := ACTIVE; app_cname_target := target;
      app_workspace_probe_enabled := true; app_max_domains := None; app_rate_limit_per_minute := None;
      app_rate_limit_per_second := None; app_deleted_at := None; app_purge_after := None;
      app_created_at := now; app_updated_at := now |}))
    (on_integrity_error (ServiceError ApplicationAlreadyExists [])).

Definition rename_application (a : N) (name : string) : M unit :=
  _ ← guard_ (negb (String.eqb (strip name) "")) invalid_application;
  _ ← guard_ (ulen (strip name) <=? 200) invalid_application;
  touch_application a (fun r => r <| app_name := strip name |>).

Definition rate_ok (v : option Z) : bool :=
  match v with Some v => (1 <=? v) && (v <=? MAX_RATE) | None => true end.

Definition set_rate_limits (a : N) (per_minute per_second : option Z) : M unit :=
  _ ← guard_ (rate_ok per_minute && rate_ok per_second) invalid_application;
  touch_application a (fun r => r <| app_rate_limit_per_minute := per_minute |>
                                  <| app_rate_limit_per_second := per_second |>).

Definition set_domain_limit (a : N) (max_domains : option Z) : M unit :=
  m ← lift (match validate_application_limit max_domains with
            | Ok m => Ok m
            | Err _ => Err invalid_application
            end);
  touch_application a (fun r => r <| app_max_domains := m |>).

Definition set_cname_target (a : N) (cname_target : string) : M string :=
  target ← lift (canonical_or invalid_application cname_target);
  _ ← touch_application a (fun r => r <| app_cname_target := target |>);
  mret target.

Definition set_application_status (a : N) (status : ApplicationStatus) : M unit :=
  flush_application a (fun r => r <| app_status := status |>).

(** A live claim of a live domain of [a]. *)
Definition live_claim_of (s : Db) (a : N) (c : OwnershipClaim) : bool :=
  claim_live c &&
  match db_domains s !! claim_domain_id c with
  | Some d => live d && (dom_application_id d =? a)%N
  | None => false
  end.

Definition edge_names (s : Db) (a : N) (r : Application) : list string :=
  let named := (fun x => claim_cname_target x.2) <$>
    filter (fun x => live_claim_of s a x.2 = true) (map_to_list (db_claims s)) in
  app_cname_target r :: filter (fun t => t <> app_cname_target r) (remove_dups named).

Definition get_application (a : N) : M Application :=
  r ← gets (fun s => db_applications s !! a);
  r ← need r (ServiceError ApplicationNotFound []);
  _ ← guard_ (negb (application_is_deleted r)) (ServiceError ApplicationNotFound []);
  mret r.

Definition get_application_by_slug (slug : string) (include_deleted : bool) : M (N * Application) :=
  s ← get;
  need (head (filter (fun x => (app_slug x.2 = slug) /\
                        (include_deleted || negb (application_is_deleted x.2) = true))
                (map_to_list (db_applications s))))
    (ServiceError ApplicationNotFound []).

Definition live_domain_count (s : Db) (a : N) : Z := live_domains s (Some a).

(** [ORDER BY slug] *)
Definition slug_le (x y : N * Application) : Prop := string_le (app_slug x.2) (app_slug y.2).
#[export] Instance slug_le_dec x y : Decision (slug_le x y).
Proof. unfold slug_le. apply _. Defined.
Definition list_applications (s : Db) : list (N * Application) :=
  merge_sort slug_le (filter (fun x => app_deleted_at x.2 = None) (map_to_list (db_applications s))).
Definition list_deleted_applications (s : Db) : list (N * Application) :=
  select_rows (fun r => - default 0 (app_deleted_at r)) (fun _ r => application_is_deleted r) (db_applications s).

(** [application.workspace_probe_enabled = enabled] *)
Definition set_workspace_probe (a : N) (enabled : bool) : M unit :=
  flush_application a (fun r => r <| app_workspace_probe_enabled := enabled |>).

(** ** Deleting an application *)

Definition live_ids (s : Db) (a : N) : list N :=
  fst <$> filter (fun x => dom_application_id x.2 = a /\ live x.2 = true) (map_to_list (db_domains s)).

(** The largest [purge_after] of the application's domains. *)
Definition latest_purge (s : Db) (a : N) : option Z :=
  zmax (omap (fun x => if bool_decide (dom_application_id x.2 = a) then dom_purge_after x.2 else None)
          (map_to_list (db_domains s))).

Definition archived_slug (a : N) (slug : string) : string :=
  take_str 46 slug +:+ "~" +:+ take_str 12 (hex_digits 32 a).

(** The credentials of [a] not yet revoked are revoked; its origins are retired. *)
Definition revoke_credentials (a : N) (now : Z) (s : Db) : Db :=
  s <| db_credentials ::= fmap (fun c =>
         if bool_decide (cred_application_id c = a) && bool_decide (cred_revoked_at c = None)
         then c <| cred_revoked_at := Some now |> <| cred_updated_at := db_clock s |> else c) |>.
Definition retired (o : VerifiedOrigin) : VerifiedOrigin :=
  o <| org_is_active := false |> <| org_status := ORIGIN_RETIRED |>.
Definition retire_origins (a : N) (s : Db) : Db :=
  s <| db_origins ::= fmap (fun o =>
         if bool_decide (org_application_id o = a) && negb (bool_decide (retired o = o))
         then (retired o) <| org_updated_at := db_clock s |> else o) |>.

Definition delete_application (a : N) (confirm_slug : string) (delete_domains : bool) (now : option Z) : M Z :=
  application ← the_application a;
  _ ← guard_ (String.eqb (strip confirm_slug) (app_slug application)) (ServiceError ConfirmationMismatch []);
  live ← gets (fun s => live_domains s (Some a));
  _ ← guard_ ((live =? 0) || delete_domains)
       (ServiceError ApplicationNotEmpty [("live_domains", JInt live)]);
  now ← now_or now;
  ids ← gets (fun s => live_ids s a);
  _ ← for_each ids (fun id => delete_domain a id (Some now));
  _ ← modify (revoke_credentials a now);
  _ ← modify (retire_origins a);
  latest ← gets (fun s => latest_purge s a);
  let keep := now + TOMBSTONE_RETENTION in
  let purge := match latest with Some l => Z.max l keep | None => keep end in
  _ ← update_application a (fun r => r <| app_status := SUSPENDED_APP |> <| app_deleted_at := Some now |>
        <| app_purge_after := Some purge |> <| app_slug := archived_slug a (app_slug r) |>
        <| app_updated_at := now |>);
  mret live.

(** ** Credentials *)

Definition generate_secret : M string :=
  draw ← fresh; mret (SECRET_PREFIX +:+ token_urlsafe draw SECRET_BYTES).

Definition hash_secret (secret : string) : string := sha256_hex secret.

Definition invalid_credential : exn := ServiceError InvalidCredential [].

Definition credential_scope (value : string) : res exn CredentialScope :=
  let v := lower (strip value) in
  if String.eqb v "full" then Ok FULL else if String.eqb v "read" then Ok READ else Err invalid_credential.

Definition insert_credential (c : ApiCredential) : M N :=
  s ← get;
  _ ← guard_ (negb (existsb (fun x => String.eqb (cred_key_hash x.2) (cred_key_hash c))
                      (map_to_list (db_credentials s))))
       (IntegrityError "UNIQUE constraint failed: api_credentials.key_hash");
  k ← fresh;
  _ ← guard_ (bool_decide (db_credentials s !! k = None))
       (IntegrityError "UNIQUE constraint failed: api_credentials.id");
  _ ← modify (fun s => s <| db_credentials ::= <[k := c]> |>);
  mret k.

Definition issue_credential (a : N) (label : string) (expires_at : option Z) (scope : string) : M (N * string) :=
  _ ← guard_ (negb (String.eqb (strip label) "")) invalid_credential;
  scope ← lift (credential_scope scope);
  secret ← generate_secret;
  now ← gets db_clock;
  k ← insert_credential {|
    cred_application_id := a; cred_label := strip label; cred_key_prefix := take_str KEY_PREFIX_LENGTH secret;
    cred_key_hash := hash_secret secret; cred_scope := scope; cred_last_used_at := None;
    cred_expires_at := expires_at; cred_revoked_at := None; cred_created_at := now; cred_updated_at := now |};
  mret (k, secret).

(** The row with a key hash; the column is unique. *)
Definition credential_by_hash (s : Db) (digest : string) : option (N * ApiCredential) :=
  head (filter (fun x => cred_key_hash x.2 = digest) (map_to_list (db_credentials s))).

Definition authenticate_credential (secret : option string) (now : option Z) : M (N * ApiCredential) :=
  secret ← need (nonempty secret) invalid_credential;
  _ ← guard_ (startswith SECRET_PREFIX secret) invalid_credential;
  now ← now_or now;
  found ← gets (fun s => credential_by_hash s (hash_secret secret));
  '(k, c) ← need found invalid_credential;
  _ ← guard_ (credential_is_usable c now) invalid_credential;
  application ← the_application (cred_application_id c);
  _ ← guard_ (bool_decide (app_status application = ACTIVE)) invalid_credential;
  _ ← flush_credential k (fun c => c <| cred_last_used_at := Some now |>);
  mret (k, c).

Definition get_credential (a k : N) : M ApiCredential :=
  c ← gets (fun s => db_credentials s !! k);
  c ← need c (ServiceError CredentialNotFound []);
  _ ← guard_ (bool_decide (cred_application_id c = a)) (ServiceError CredentialNotFound []);
  mret c.

Definition revoke_credential (a k : N) (now : option Z) : M unit :=
  c ← get_credential a k;
  if bool_decide (cred_revoked_at c = None) then
    now ← now_or now;
    flush_credential k (fun c => c <| cred_revoked_at := Some now |>)
  else mret tt.

Definition delete_credential (a k : N) (now : option Z) : M unit :=
  c ← get_credential a k;
  now ← now_or now;
  _ ← guard_ (negb (credential_is_usable c now)) (ServiceError CredentialInUse []);
  modify (fun s => s <| db_credentials ::= delete k |>).

Definition rotate_credential (a k : N) (label : option string) (grace : Z) (now : option Z) : M (N * string) :=
  now ← now_or now;
  old ← get_credential a k;
  issued ← issue_credential a (default (cred_label old) (nonempty label)) None (scope_value (cred_scope old));
  let cutoff := now + grace in
  _ ← (if bool_decide (cred_revoked_at old = None)
          && match cred_expires_at old with None => true | Some e => cutoff <? e end
       then flush_credential k (fun c => c <| cred_expires_at := Some cutoff |>)
       else mret tt);
  mret issued.

Definition list_credentials (s : Db) (a : N) : list (N * ApiCredential) :=
  select_rows cred_created_at (fun _ c => bool_decide (cred_application_id c = a)) (db_credentials s).

(** ** Origins *)

Definition invalid_origin : exn := ServiceError InvalidOrigin [].

Definition host_header_mode (value : string) : res exn OriginHostHeader :=
  let v := lower (strip value) in
  if String.eqb v "customer" then Ok HH_CUSTOMER
  else if String.eqb v "origin" then Ok HH_ORIGIN else Err invalid_origin.

Definition same_address (o p : VerifiedOrigin) : bool :=
  (org_application_id o =? org_application_id p)%N && String.eqb (org_scheme o) (org_scheme p)
  && String.eqb (org_host o) (org_host p) && (org_port o =? org_port p).

Definition insert_origin (o : VerifiedOrigin) : M N :=
  s ← get;
  _ ← guard_ (negb (existsb (fun x => same_address x.2 o) (map_to_list (db_origins s))))
       (IntegrityError "UNIQUE constraint failed: verified_origins.application_id");
  k ← fresh;
  _ ← guard_ (bool_decide (db_origins s !! k = None)) (IntegrityError "UNIQUE constraint failed: verified_origins.id");
  _ ← modify (fun s => s <| db_origins ::= <[k := o]> |>);
  mret k.

Definition register_origin (a : N) (host scheme : string) (port : option Z) (host_header : string) : M N :=
  let scheme := lower scheme in
  mode ← lift (host_header_mode host_header);
  _ ← guard_ (mem_str scheme ["https"; "http"]) invalid_origin;
  host ← lift (canonical_or invalid_origin host);
  let fallback := if String.eqb scheme "https" then 443 else 80 in
  let port := match port with Some 0 | None => fallback | Some p => p end in
  _ ← guard_ ((0 <? port) && (port <? 65536)) invalid_origin;
  draw ← fresh;
  now ← gets db_clock;
  catch (savepoint (insert_origin {|
      org_application_id := a; org_scheme := scheme; org_host := host; org_port := port;
      org_host_header := mode; org_status := ORIGIN_PENDING; org_is_active := false;
      org_verification_token := Some (token_urlsafe draw 24); org_verified_at := None;
      org_last_checked_at := None; org_last_error_code := None; org_created_at := now;
      org_updated_at := now |}))
    (on_integrity_error (ServiceError OriginConflict [])).

Definition set_origin_host_header (k : N) (host_header : string) : M unit :=
  mode ← lift (host_header_mode host_header);
  modify (fun s => s <| db_origins ::=
    alter (fun o => o <| org_host_header := mode |> <| org_updated_at := db_clock s |>) k |>).

(** [get_origin(origin_id=k, host=host)]: the newest that matches. *)
Definition get_origin (a : N) (origin_id : option N) (host : option string) : M (N * VerifiedOrigin) :=
  wanted ← match origin_id, host with
           | Some k, _ => mret (fun x : N * VerifiedOrigin => (x.1 =? k)%N)
           | None, Some h => canonical ← lift (canonicalize_apex true (Some h));
                             mret (fun x : N * VerifiedOrigin => String.eqb (org_host x.2) canonical)
           | None, None => raise invalid_origin
           end;
  rows ← gets (fun s => select_rows (fun o => - org_created_at o)
                          (fun k o => bool_decide (org_application_id o = a) && wanted (k, o)) (db_origins s));
  need (head rows) (ServiceError OriginNotFound []).
Definition list_origins (s : Db) (a : N) : list (N * VerifiedOrigin) := application_origins s a.
Definition get_active_origin (s : Db) (a : N) : option (N * VerifiedOrigin) := active_origin s a.

Definition record_origin_verification (k : N) (is_verified : bool) (error_code : option string)
    (now : option Z) : M unit :=
  now ← now_or now;
  flush_origin k (fun o =>
    if is_verified
    then o <| org_last_checked_at := Some now |> <| org_status := ORIGIN_VERIFIED |>
           <| org_verified_at := Some now |> <| org_last_error_code := None |>
    else o <| org_last_checked_at := Some now |> <| org_status := ORIGIN_FAILED |>
           <| org_last_error_code := Some (default "origin_verification_failed" (nonempty error_code)) |>
           <| org_is_active := false |>).

Definition the_origin (k : N) : M VerifiedOrigin :=
  o ← gets (fun s => db_origins s !! k); need o PyRuntimeError.

(** What [fetch_token] brought back from the origin's well-known path, or why not. *)
Record OriginAnswer := { oa_status : Z; oa_body : string }.

(** [verify_origin]: the outcome is recorded whether or not it raises. *)
Definition verify_origin (k : N) (fetched : res string OriginAnswer) (now : option Z) : M unit :=
  o ← the_origin k;
  let expected := default "" (org_verification_token o) in
  let outcome :=
    match fetched with
    | Err why => Some why
    | Ok p =>
        if negb (oa_status p =? 200) then Some "unexpected_status"
        else if String.eqb expected "" || negb (String.eqb (oa_body p) expected)
        then Some "token_mismatch" else None
    end in
  match outcome with
  | Some why =>
      _ ← record_origin_verification k false (Some why) now;
      raise (OriginVerificationFailed why)
  | None => record_origin_verification k true None now
  end.

(** The other active origins are switched off first. *)
Definition deactivate_others (a k : N) (s : Db) : Db :=
  s <| db_origins ::= map_imap (fun j o =>
         Some (if bool_decide (org_application_id o = a) && negb (j =? k)%N && org_is_active o
               then o <| org_is_active := false |> <| org_updated_at := db_clock s |> else o)) |>.

Definition activate_origin (k : N) : M unit :=
  o ← the_origin k;
  _ ← guard_ (bool_decide (org_status o = ORIGIN_VERIFIED)) (ServiceError OriginNotVerified []);
  _ ← modify (deactivate_others (org_application_id o) k);
  flush_origin k (fun o => o <| org_is_active := true |>).

Definition delete_origin (k : N) : M unit :=
  o ← the_origin k;
  _ ← guard_ (negb (org_is_active o)) (ServiceError OriginInUse []);
  modify (fun s => s <| db_origins ::= delete k |>).

Definition retire_origin (k : N) : M unit := flush_origin k retired.
End Applications.

(** ** Authenticating *)

Section Authenticating.
Context `{External}.

(** The credential's time of last use. *)
Definition used (k : N) (now : Z) (s : Db) : Db :=
  (flush_credential k (fun c => c <| cred_last_used_at := Some now |>) s).2.

Lemma authenticate_credential_ok secret now s k c s' :
  authenticate_credential secret now s = (Ok (k, c), s') ->
  let n := default (db_clock s) now in
  exists x app, secret = Some x /\ db_credentials s !! k = Some c /\ cred_key_hash c = hash_secret x /\
    credential_is_usable c n = true /\
    db_applications s !! cred_application_id c = Some app /\ app_status app = ACTIVE /\ s' = used k n s.
Proof.
  intros Hr n. unfold authenticate_credential in Hr.
  destruct secret as [x|]; [|done]. destruct (nonempty (Some x)) as [y|] eqn:Hy; [|done].
  assert (y = x) as -> by (destruct x; [done|by injection Hy]).
  run_inv Hr. run_draws. match goal with E : Some _ = Some _ |- _ => injection E as <- end.
  match goal with E : credential_by_hash _ _ = Some ?p, R : (let '(_, _) := ?p in _) _ = _ |- _ =>
    destruct p as [j r]; rename R into Hr;
    apply head_filter_Some in E as [Hin%elem_of_map_to_list Hh] end.
  unfold the_application in Hr. run_inv Hr.
  match goal with E : bool_decide (app_status _ = ACTIVE) = true |- _ => apply bool_decide_eq_true in E end.
  match goal with F : flush_credential _ _ _ = _ |- _ => injection F as _ <- end.
  eexists _, _. split; [done|]. split; [done|]. split; [exact Hh|]. split; [eassumption|].
  split; [eassumption|]. split; [done|]. reflexivity.
Qed.

(** Only the time of last use changes, and only in [db_credentials]. *)
Lemma used_frame k now s :
  used k now s = s <| db_credentials := db_credentials (used k now s) |> /\
  forall j, (fun r => (cred_application_id r, cred_key_hash r, cred_scope r, cred_expires_at r, cred_revoked_at r))
              <$> db_credentials (used k now s) !! j =
            (fun r => (cred_application_id r, cred_key_hash r, cred_scope r, cred_expires_at r, cred_revoked_at r))
              <$> db_credentials s !! j.
Proof.
  split; [reflexivity|]. intros j. unfold used, flush_credential. cbn [modify snd].
  match goal with |- context [db_credentials (s <| db_credentials ::= ?f |>)] =>
    change (db_credentials (s <| db_credentials ::= f |>)) with (f (db_credentials s)) end.
  rewrite lookup_alter. case_decide; [|done]. subst j. destruct (db_credentials s !! k); [|done]. simpl.
  by case_bool_decide.
Qed.
End Authenticating.
