(* ===== verification/Deps.v ===== *)
(** * Who makes a v1 request (app/v1/deps.py, app/clients.py, app/v1/throttle.py)

    The dependency every v1 route takes: the client's address, the failed-credential
    throttle, the credential, its rate limit and its scope.  The process keeps the
    limiters; the database keeps the rest.  Theorems: a request that passes was
    authenticated with a usable credential of an active application, which may only read
    unless it has the full scope; and whatever the request, nothing but the time the
    credential was last used changes in the database. *)

From Stdlib Require Import Ascii String ZArith Lia.
From stdpp Require Import base gmap strings list.
From S2P Require Import Prelude PyStr Json Errors External Models Throttle PortalAuth EdgeSettings Domains Applications.
Open Scope string_scope.
Open Scope Z_scope.

(** [app.state] and the monotonic clock, beside the database. *)
Record Server := {
  srv_db : Db;
  srv_auth_limiter : option FailedAuthLimiter;
  srv_rate_limiter : option CredentialRateLimiter;
  srv_edge_settings : option EdgeSettings;
  srv_operator_token : option string;
  srv_operator_limiter : option FailedAuthLimiter;
  srv_portal : PortalSettings;
  srv_logins : LoginLimiter;
  srv_monotonic : Z;
}.
#[export] Instance Server_settable : Settable Server := fun r =>
  Build_Server (srv_db r) (srv_auth_limiter r) (srv_rate_limiter r) (srv_edge_settings r)
    (srv_operator_token r) (srv_operator_limiter r) (srv_portal r) (srv_logins r) (srv_monotonic r).

Abbreviation Web := (SM Server exn).

(** A session's work on behalf of a request. *)
Definition on_db {A} (m : M A) : Web A := fun w =>
  let '(r, s) := m (srv_db w) in (r, w <| srv_db := s |>).

(** What the service reads of a request: its method, the peer's address, the
    [X-Forwarded-For] header, and the scheme and credentials [HTTPBearer] found. *)
Record Request := {
  rq_method : string;
  rq_peer : option string;
  rq_forwarded : string;
  rq_credentials : option (string * string);
}.

Definition READ_ONLY_METHODS : list string := ["GET"; "HEAD"].

Section Deps.
Context `{External}.

(** [client_address] of app/clients.py *)
Definition client_address (settings : option EdgeSettings) (rq : Request) : option string :=
  let peer := rq_peer rq in
  match nonempty peer, settings with
  | Some _, Some st =>
      if negb (String.eqb (rq_forwarded rq) "") && trusts st peer
      then match nonempty (Some (strip (List.last (split_on ","%char (rq_forwarded rq)) ""))) with
           | Some address => Some address
           | None => peer
           end
      else peer
  | _, _ => peer
  end.

Definition limited_client (settings : option EdgeSettings) (rq : Request) : option string :=
  let address := client_address settings rq in
  match nonempty address with
  | Some text =>
      if bool_decide (address <> rq_peer rq) then Some text
      else if is_ip_address text && ip_is_global text then Some text else None
  | None => None
  end.

(** [limited_client(request) if limiter is not None and limiter.enabled else None] *)
Definition counted_client (w : Server) (rq : Request) : option string :=
  match srv_auth_limiter w with
  | Some l => if fl_enabled l then limited_client (srv_edge_settings w) rq else None
  | None => None
  end.

(** [limiter.retry_after(client)] *)
Definition client_wait (client : option string) : Web Z :=
  w ← get;
  match srv_auth_limiter w, client with
  | Some l, Some address => keys ← need (buckets address) PyValueError; mret (retry_after l keys (srv_monotonic w))
  | _, _ => mret 0
  end.
(** [if client is not None: limiter.record_failure(client)] *)
Definition count_failure (client : option string) : Web unit :=
  w ← get;
  match srv_auth_limiter w, client with
  | Some l, Some address =>
      keys ← need (buckets address) PyValueError;
      modify (fun w => w <| srv_auth_limiter := Some (record_failure l keys (srv_monotonic w)) |>)
  | _, _ => mret tt
  end.

(** [rate.take(str(credential.id))] *)
Definition take_rate (credential : N) : Web Z :=
  w ← get;
  match srv_rate_limiter w with
  | Some l =>
      if cl_enabled l then
        let '(wait, l) := take_request l (uuid_str credential) (srv_monotonic w) in
        _ ← modify (fun w => w <| srv_rate_limiter := Some l |>); mret wait
      else mret 0
  | None => mret 0
  end.

(** The calling application. *)
Definition current_application (rq : Request) : Web N :=
  w ← get;
  let client := counted_client w rq in
  wait ← client_wait client;
  _ ← guard_ (wait =? 0) (rate_limited wait);
  match rq_credentials rq with
  | Some (scheme, secret) =>
      if String.eqb (lower scheme) "bearer" then
        '(k, c) ← catch (on_db (transaction (authenticate_credential (Some secret) None)))
          (fun e => match e with
                    | ServiceError InvalidCredential _ => _ ← count_failure client; raise unauthorized
                    | _ => raise e
                    end);
        wait ← take_rate k;
        _ ← guard_ (wait =? 0) (rate_limited wait);
        _ ← guard_ (bool_decide (cred_scope c = FULL) || mem_str (rq_method rq) READ_ONLY_METHODS)
             (ServiceError CredentialReadOnly
                [("scope", JStr (scope_value (cred_scope c))); ("method", JStr (rq_method rq))]);
        mret (cred_application_id c)
      else _ ← count_failure client; raise unauthorized
  | None => _ ← count_failure client; raise unauthorized
  end.
End Deps.

(** ** Properties *)

Section Properties.
Context `{External}.

Lemma client_wait_same client w r w' : client_wait client w = (r, w') -> w' = w.
Proof.
  unfold client_wait. rewrite bind_run. cbn [get]. destruct (srv_auth_limiter w), client; try by intros [= _ <-].
  destruct (buckets _); by intros [= _ <-].
Qed.

Lemma count_failure_db client w r w' : count_failure client w = (r, w') -> srv_db w' = srv_db w.
Proof.
  unfold count_failure. rewrite bind_run. cbn [get]. destruct (srv_auth_limiter w), client; try by intros [= _ <-].
  destruct (buckets _); by intros [= _ <-].
Qed.

Lemma take_rate_db k w r w' : take_rate k w = (r, w') -> srv_db w' = srv_db w.
Proof.
  unfold take_rate. rewrite bind_run. cbn [get]. destruct (srv_rate_limiter w) as [l|]; [|by intros [= _ <-]].
  destruct (cl_enabled l); [|by intros [= _ <-]]. destruct (take_request _ _ _) as [wait l']. by intros [= _ <-].
Qed.

(** What a request may have done to the database before its handler runs: at most one
    credential's time of last use. *)
Definition only_used (s s' : Db) : Prop := s' = s \/ exists k now, s' = used k now s.

Lemma on_db_authenticate secret w r w' :
  on_db (transaction (authenticate_credential secret None)) w = (r, w') ->
  match r with
  | Ok (k, c) => authenticate_credential secret None (srv_db w) = (Ok (k, c), srv_db w')
  | Err _ => srv_db w' = srv_db w
  end.
Proof.
  unfold on_db. destruct (transaction _ _) as [[[k c]|e] s'] eqn:E; intros [= <- <-]; simpl_over.
  - by rewrite transaction_ok in E.
  - apply transaction_err in E. exact E.
Qed.

Lemma current_application_ok rq w a w' :
  current_application rq w = (Ok a, w') ->
  exists scheme secret k c app,
    rq_credentials rq = Some (scheme, secret) /\ lower scheme = "bearer" /\
    db_credentials (srv_db w) !! k = Some c /\ cred_key_hash c = hash_secret secret /\
    credential_is_usable c (db_clock (srv_db w)) = true /\ cred_application_id c = a /\
    db_applications (srv_db w) !! a = Some app /\ app_status app = ACTIVE /\
    (cred_scope c = FULL \/ rq_method rq = "GET" \/ rq_method rq = "HEAD") /\
    srv_db w' = used k (db_clock (srv_db w)) (srv_db w).
Proof.
  unfold current_application. rewrite bind_run. cbn [get]. intros (wait & w1 & ->%client_wait_same & Hr)%bind_ok.
  apply bind_ok in Hr as ([] & w1 & Hg & Hr). rewrite guard_run in Hg. destruct (wait =? 0); [|done]. injection Hg as <-.
  destruct (rq_credentials rq) as [[scheme secret]|]; [|by apply bind_ok in Hr as (? & ? & _ & ?)].
  destruct (String.eqb_spec (lower scheme) "bearer") as [Hs|]; [|by apply bind_ok in Hr as (? & ? & _ & ?)].
  apply bind_ok in Hr as ([k c] & w1 & Ha & Hr). unfold catch in Ha.
  destruct (on_db _ w) as [[[k' c']|e] w2] eqn:E; apply on_db_authenticate in E.
  2: { destruct e as [[] ?| | | | | | | | | | | | | | |]; try done. by apply bind_ok in Ha as (? & ? & _ & ?). }
  injection Ha as -> -> ->. apply bind_ok in Hr as (n & w3 & Ht%take_rate_db & Hr).
  apply bind_ok in Hr as ([] & w4 & Hg & Hr). rewrite guard_run in Hg. destruct (n =? 0); [|done]. injection Hg as <-.
  apply bind_ok in Hr as ([] & w4 & Hg & Hr). rewrite guard_run in Hg. destruct (_ || _) eqn:Esc; [|done]. injection Hg as <-.
  injection Hr as <- <-. apply authenticate_credential_ok in E as (x & app & [= <-] & Hk & Hh & Hu & Hap & Hst & Hs').
  exists scheme, secret, k, c, app. rewrite Ht. split_and!; try done.
  apply orb_prop in Esc as [?%bool_decide_eq_true|Hm]; [by left|right].
  cbn in Hm. rewrite !orb_false_r in Hm. apply orb_prop in Hm as [?%String.eqb_eq|?%String.eqb_eq]; auto.
Qed.

(** C9: A request reaches its handler only with a credential whose secret it presented,
    neither revoked nor expired, of the application it acts for, which is active; and a
    credential without the full scope only reads; and only from a client that is not held
    back for its failures. *)
Theorem request_is_authorized rq w a w' :
  current_application rq w = (Ok a, w') ->
  client_wait (counted_client w rq) w = (Ok 0, w) /\
  exists scheme secret k c app,
    rq_credentials rq = Some (scheme, secret) /\ lower scheme = "bearer" /\
    db_credentials (srv_db w) !! k = Some c /\ cred_key_hash c = hash_secret secret /\
    credential_is_usable c (db_clock (srv_db w)) = true /\ cred_application_id c = a /\
    db_applications (srv_db w) !! a = Some app /\ app_status app = ACTIVE /\
    (cred_scope c = FULL \/ rq_method rq = "GET" \/ rq_method rq = "HEAD") /\
    srv_db w' = used k (db_clock (srv_db w)) (srv_db w).
Proof.
  intros Hr. split; [|exact (current_application_ok _ _ _ _ Hr)].
  unfold current_application in Hr. rewrite bind_run in Hr. cbn [get] in Hr.
  apply bind_ok in Hr as (wait & w1 & Hw & Hr). pose proof (client_wait_same _ _ _ _ Hw); subst w1.
  rewrite bind_run, guard_run in Hr. by destruct (Z.eqb_spec wait 0); subst.
Qed.

(** Whatever the request presents, the database keeps everything but the time a
    credential was last used. *)
Lemma current_application_db rq w : only_used (srv_db w) (srv_db (current_application rq w).2).
Proof.
  destruct (current_application rq w) as [[a|e] w'] eqn:E.
  { apply current_application_ok in E as (? & ? & k & c & app & _ & _ & _ & _ & _ & _ & _ & _ & _ & Hw). right. exists k, (db_clock (srv_db w)). exact Hw. }
  revert E. unfold current_application. rewrite bind_run. cbn [get]. rewrite bind_run.
  destruct (client_wait _ w) as [[wait|e1] w1] eqn:E1; apply client_wait_same in E1 as ->; [|intros [= _ <-]; by left].
  rewrite bind_run, guard_run. destruct (wait =? 0); [|intros [= _ <-]; by left].
  assert (forall w2 w3 e2, (_ ← count_failure (counted_client w rq); raise (A := N) unauthorized) w2 = (Err e2, w3) ->
            srv_db w3 = srv_db w2) as Hcount.
  { intros w2 w3 e2. rewrite bind_run. destruct (count_failure _ w2) as [[?|?] w4] eqn:Ec; apply count_failure_db in Ec;
      by intros [= _ <-]. }
  destruct (rq_credentials rq) as [[scheme secret]|]; [|intros H1%Hcount; by left].
  destruct (String.eqb _ _); [|intros H1%Hcount; by left]. rewrite bind_run. unfold catch.
  destruct (on_db _ w) as [[[k c]|e1] w1] eqn:E1; apply on_db_authenticate in E1.
  - apply authenticate_credential_ok in E1 as (_ & _ & _ & _ & _ & _ & _ & _ & Hs). intros Hr. right. exists k, (db_clock (srv_db w)).
    change (used k (db_clock (srv_db w)) (srv_db w)) with (used k (default (db_clock (srv_db w)) None) (srv_db w)). rewrite <- Hs. revert Hr. rewrite bind_run. destruct (take_rate k w1) as [[n|e1] w2] eqn:Et; apply take_rate_db in Et; [|by intros [= _ <-]].
    rewrite !bind_run, guard_run. destruct (n =? 0); [|by intros [= _ <-]]. rewrite bind_run, guard_run. destruct (_ || _); by intros [= _ <-].
  - intros Hr. left. rewrite <- E1. revert Hr. destruct e1 as [[] d| | | | | | | | | | | | | | |]; try by intros [= _ <-].
    rewrite bind_run. destruct (count_failure _ w1) as [[?|?] w4] eqn:Ec; apply count_failure_db in Ec; by intros [= _ <-].
Qed.

(** While a client's address is held back, every request from it is refused before its
    credential is looked at, and nothing changes. *)
Theorem held_back_before_credentials rq w wait :
  client_wait (counted_client w rq) w = (Ok wait, w) -> wait <> 0 ->
  current_application rq w = (Err (rate_limited wait), w).
Proof.
  intros Hw Hne. unfold current_application. rewrite bind_run. cbn [get]. rewrite bind_run, Hw, bind_run, guard_run.
  by rewrite (proj2 (Z.eqb_neq _ _) Hne).
Qed.
End Properties.
