(* ===== verification/Api.v ===== *)
(** * The v1 API (app/v1/router.py, app/v1/webhooks_api.py)

    One handler per route, what each answers and what it commits, and the whole request:
    authenticate, validate, run the handler, map its error to an answer.  Theorems: a
    read-only credential changes nothing but its time of last use, whatever it calls;
    a domain of another application is answered like one that does not exist, on every
    route; a create repeated with its [Idempotency-Key] returns the original domain and changes
    nothing, and refuses another body; every answer to a failed request leaves the
    database as it was. *)

From Stdlib Require Import Ascii String ZArith Lia.
From stdpp Require Import base gmap strings list.
From S2P Require Import Prelude PyStr Json Errors External Models Url Signing Idempotency EdgeSettings DnsSetup.
From S2P Require Import Schemas Webhooks Limits Domains DomainFacts DomainInv ConnectFlow.
From S2P Require Import ConnectSessions Applications Deps.
Open Scope string_scope.
Open Scope Z_scope.

Definition MAX_METADATA_KEYS : Z := 32.
Definition MAX_METADATA_VALUE_LENGTH : Z := 512.

(** ** Requests *)

Record DomainCreate := { dc_hostname : string; dc_reference : string; dc_metadata : option dict }.
Record ConnectRequest := { cr_redirect_uri : option string; cr_state : option string }.
Record ConnectSessionRequest := { csr_ttl_seconds : option Z; csr_app_name : option string; csr_return_url : option string }.
Record WebhookCreate := { wc_url : string; wc_events : list string }.

(** The routes, with what FastAPI parsed of each. *)
Inductive V1Call :=
| CreateDomain (payload : DomainCreate) (idempotency_key : option string)
| ListDomains (reference : option string) (status : option DomainStatus) (include_deleted : bool) (limit offset : Z)
| GetDomain (id : N) (include_deleted : bool)
| RequestRecheck (id : N)
| ConnectDomain (id : N) (payload : ConnectRequest)
| CreateConnectSession (id : N) (payload : ConnectSessionRequest)
| RevokeConnectSession (id session : N)
| DeleteDomain (id : N)
| CreateWebhook (payload : WebhookCreate)
| ListWebhooks
| RevokeWebhook (k : N)
| RotateWebhook (k : N)
| ListDeliveries (k : N) (state : option string) (limit offset : Z)
| ReplayDelivery (k delivery : N)
| ReplaySince (k : N) (since : Z).

Definition route_method (c : V1Call) : string :=
  match c with
  | ListDomains _ _ _ _ _ | GetDomain _ _ | ListWebhooks | ListDeliveries _ _ _ _ => "GET"
  | RevokeConnectSession _ _ | DeleteDomain _ | RevokeWebhook _ => "DELETE"
  | _ => "POST"
  end.

(** An answer of a handler; [api_reconcile]: a run of the reconciler is scheduled. *)
Record ApiAnswer := { api_status : Z; api_replayed : bool; api_reconcile : bool; api_body : json }.
Definition answered (status : Z) (body : json) : ApiAnswer :=
  {| api_status := status; api_replayed := false; api_reconcile := false; api_body := body |}.

(** [payload.model_dump(mode="json")] *)
Definition dump_create (p : DomainCreate) : json :=
  JObj [("hostname", JStr (dc_hostname p)); ("reference", JStr (dc_reference p));
        ("metadata", match dc_metadata p with Some m => JObj m | None => JNull end)].

Definition scalar (v : json) : bool := match v with JObj _ | JArr _ => false | _ => true end.
(** [_limit_metadata], for metadata without floats. *)
Definition metadata_ok (m : option dict) : bool :=
  match m with
  | None => true
  | Some m =>
      (Z.of_nat (List.length m) <=? MAX_METADATA_KEYS)
      && forallb (fun kv => (ulen kv.1 <=? 64) && scalar kv.2
                            && match kv.2 with JStr v => ulen v <=? MAX_METADATA_VALUE_LENGTH | _ => true end) m
  end.
Definition between (lo hi : Z) (s : string) : bool := (lo <=? ulen s) && (ulen s <=? hi).
(** [RequestValidationError]; the validator's own list of errors is left out. *)
Definition validation_error : exn := ApiError 422 "validation_error" [] [].

Section Api.
Context `{External, Deployment, PrivateKeys}.
Context (urlparts : string -> UrlParts) (urlsplit : string -> option UrlSplit).
(** How a remote signer answers a request. *)
Context (signing_service : string -> string -> json -> SignerOutcome).

(** The body and parameters are valid (the request models and [Query] bounds). *)
Definition call_ok (c : V1Call) : bool :=
  match c with
  | CreateDomain p key =>
      between 1 253 (dc_hostname p) && between 1 255 (dc_reference p) && metadata_ok (dc_metadata p)
      && match key with Some k => ulen k <=? Idempotency.MAX_KEY_LENGTH | None => true end
  | ListDomains reference _ _ limit offset =>
      match reference with Some r => ulen r <=? 255 | None => true end
      && (1 <=? limit) && (limit <=? MAX_PAGE_SIZE) && (0 <=? offset)
  | ConnectDomain _ p =>
      no_problem (fun v => (512 <? ulen v) || redirect_uri_problem urlsplit v) (cr_redirect_uri p)
      && no_problem (fun v => (512 <? ulen v) || state_problem v) (cr_state p)
  | CreateConnectSession _ p =>
      match csr_ttl_seconds p with Some n => (300 <=? n) && (n <=? 86400) | None => true end
      && no_problem app_name_problem (csr_app_name p)
      && no_problem (fun v => (512 <? ulen v) || redirect_uri_problem urlsplit v) (csr_return_url p)
  | CreateWebhook p =>
      between 1 2048 (wc_url p) && negb (bool_decide (wc_events p = [])) && subset_str (wc_events p) WEBHOOK_EVENT_TYPES
  | ListDeliveries _ state limit offset =>
      match state with Some x => mem_str x ["pending"; "delivered"; "abandoned"] | None => true end
      && (1 <=? limit) && (limit <=? 200) && (0 <=? offset)
  | _ => true
  end.

(** ** Handlers: domains *)

Definition resource_of (id : N) : M json :=
  s ← get; d ← the_domain id; r ← lift (domain_resource s id d); mret (dump_resource r).

(** The transaction of [create_domain]: the domain and whether it is new. *)
Definition create_or_replay (a : N) (p : DomainCreate) (key : option string) : M (bool * N) :=
  let claim := claim_domain a (dc_hostname p) (dc_reference p) (dc_metadata p) None in
  match nonempty key with
  | None => id ← claim; mret (true, id)
  | Some key =>
      let request_hash := fingerprint (dump_create p) in
      created ← begin a key request_hash None;
      if (created : bool) then id ← claim; _ ← complete a key id; mret (true, id)
      else
        record ← gets (fun s => db_idempotency s !! (a, key));
        record ← need record PyRuntimeError;
        _ ← guard_ (String.eqb (idem_request_hash record) request_hash) (ServiceError IdempotencyKeyReused []);
        id ← need (idem_domain_id record) (ServiceError IdempotencyInProgress []);
        _ ← get_domain a id true;
        mret (false, id)
  end.
Definition create_domain (a : N) (p : DomainCreate) (key : option string) : M ApiAnswer :=
  '(created, id) ← transaction (create_or_replay a p key);
  body ← resource_of id;
  mret {| api_status := if (created : bool) then 201 else 200; api_replayed := negb created; api_reconcile := false;
          api_body := body |}.

Fixpoint resources (s : Db) (rows : list (N * Domain)) : res exn (list json) :=
  match rows with
  | [] => Ok []
  | (id, d) :: rows => r ← domain_resource s id d; rest ← resources s rows; Ok (dump_resource r :: rest)
  end.
Definition list_domains_page (a : N) (reference : option string) (status : option DomainStatus)
    (include_deleted : bool) (limit offset : Z) : M ApiAnswer :=
  s ← get;
  let page := page_domains s a reference status include_deleted None limit offset in
  items ← lift (resources s page.1);
  mret (answered 200 (JObj [("items", JArr items); ("limit", JInt limit); ("offset", JInt offset);
                            ("next_offset", if page.2 then JInt (offset + limit) else JNull)])).

Definition get_domain_resource (a id : N) (include_deleted : bool) : M ApiAnswer :=
  _ ← get_domain a id include_deleted; body ← resource_of id; mret (answered 200 body).

Definition recheck_domain (a id : N) : M ApiAnswer :=
  _ ← transaction (request_recheck a id "api" None);
  body ← resource_of id; mret (answered 202 body).

Definition dump_link (link : ConnectUrl) : json :=
  JObj [("url", JStr (link_url link));
        ("provider", match link_provider_id link with
                     | Some id => JObj [("id", JStr id); ("name", jopt (link_provider_name link))]
                     | None => JNull
                     end);
        ("expires_at", jtime (Some (link_expires_at link)))].
(** [gap]: what others commit while the link is signed. *)
Definition connect_domain (settings : option EdgeSettings) (gap : Db -> Db) (a id : N) (p : ConnectRequest) : M ApiAnswer :=
  link ← issue_link urlsplit signing_service a id (cr_redirect_uri p) (cr_state p) (default_return_url settings) false gap None;
  mret (answered 200 (dump_link link)).

Definition create_connect_session (settings : option EdgeSettings) (a id : N) (p : ConnectSessionRequest) : M ApiAnswer :=
  '(k, url) ← transaction (create_session urlsplit a id (page_base_url settings) (csr_ttl_seconds p)
                             (csr_app_name p) (csr_return_url p) None);
  row ← gets (fun s => db_connect_sessions s !! k);
  row ← need row PyRuntimeError;
  mret (answered 201 (JObj [("id", JStr (uuid_str k)); ("url", JStr url);
                            ("expires_at", jtime (Some (cs_expires_at row)));
                            ("created_at", jtime (Some (cs_created_at row)))])).
Definition revoke_connect_session (a id k : N) : M ApiAnswer :=
  _ ← transaction (revoke_session a id k None); mret (answered 204 JNull).

Definition delete_domain_now (a id : N) : M ApiAnswer :=
  _ ← transaction (delete_domain a id None);
  body ← resource_of id;
  mret {| api_status := 202; api_replayed := false; api_reconcile := true; api_body := body |}.

(** ** Handlers: webhooks *)

Definition dump_webhook (k : N) (r : WebhookSubscription) : dict :=
  [("id", JStr (uuid_str k)); ("url", JStr (sub_url r)); ("events", JArr (JStr <$> sub_events r));
   ("active", JBool (subscription_is_active r)); ("created_at", jtime (Some (sub_created_at r)));
   ("revoked_at", jtime (sub_revoked_at r));
   ("previous_secret_expires_at", jtime (sub_previous_secret_expires_at r))].
Definition the_subscription (k : N) : M WebhookSubscription :=
  r ← gets (fun s => db_subscriptions s !! k); need r PyRuntimeError.
Definition webhook_answer (status : Z) (k : N) (extra : dict) : M ApiAnswer :=
  r ← the_subscription k; mret (answered status (JObj (dump_webhook k r ++ extra)%list)).

Definition jnum (o : option Z) : json := match o with Some n => JInt n | None => JNull end.
Definition dump_delivery (x : N * WebhookDelivery) : json :=
  let '(k, d) := x in
  JObj [("id", JStr (uuid_str k)); ("event_id", JStr (uuid_str (del_event_id d)));
        ("event_type", JStr (del_event_type d)); ("domain_id", jopt (uuid_str <$> del_domain_id d));
        ("state", JStr (delivery_state d)); ("attempts", JInt (del_attempts d));
        ("next_attempt_at", jtime (del_next_attempt_at d)); ("delivered_at", jtime (del_delivered_at d));
        ("abandoned_at", jtime (del_abandoned_at d)); ("last_attempt_at", jtime (del_last_attempt_at d));
        ("last_status", jnum (del_last_status d)); ("last_error", jopt (del_last_error d));
        ("created_at", jtime (Some (del_created_at d)))].

(** [allow_private_from_env] *)
Definition allow_private : bool :=
  mem_str (lower (strip (default "" (environ "ORIGIN_ALLOW_PRIVATE")))) ["1"; "true"; "yes"; "on"].

Definition create_webhook (a : N) (p : WebhookCreate) : M ApiAnswer :=
  '(k, secret) ← transaction (create_subscription urlparts a (wc_url p) (wc_events p) allow_private);
  webhook_answer 201 k [("secret", JStr secret)].
Definition list_webhooks (a : N) : M ApiAnswer :=
  s ← get; mret (answered 200 (JArr ((fun x => JObj (dump_webhook x.1 x.2)) <$> list_subscriptions s a))).
Definition revoke_webhook (a k : N) : M ApiAnswer :=
  _ ← transaction (revoke_subscription a k None); webhook_answer 200 k [].
Definition rotate_webhook (a k : N) : M ApiAnswer :=
  secret ← transaction (rotate_secret a k ROTATION_GRACE None); webhook_answer 200 k [("secret", JStr secret)].
Definition list_webhook_deliveries (a k : N) (state : option string) (limit offset : Z) : M ApiAnswer :=
  rows ← list_deliveries a k state limit offset; mret (answered 200 (JArr (dump_delivery <$> rows))).
Definition replay_one (a k delivery : N) : M ApiAnswer :=
  _ ← transaction (replay_delivery a k delivery None);
  d ← gets (fun s => db_deliveries s !! delivery); d ← need d PyRuntimeError;
  mret (answered 202 (dump_delivery (delivery, d))).
Definition replay_many (a k : N) (since : Z) : M ApiAnswer :=
  n ← transaction (replay_since a k since None); mret (answered 202 (JObj [("requeued", JInt n)])).

(** ** The whole request *)

Definition v1_handler (settings : option EdgeSettings) (gap : Db -> Db) (a : N) (c : V1Call) : M ApiAnswer :=
  match c with
  | CreateDomain p key => create_domain a p key
  | ListDomains reference status deleted limit offset => list_domains_page a reference status deleted limit offset
  | GetDomain id deleted => get_domain_resource a id deleted
  | RequestRecheck id => recheck_domain a id
  | ConnectDomain id p => connect_domain settings gap a id p
  | CreateConnectSession id p => create_connect_session settings a id p
  | RevokeConnectSession id k => revoke_connect_session a id k
  | DeleteDomain id => delete_domain_now a id
  | CreateWebhook p => create_webhook a p
  | ListWebhooks => list_webhooks a
  | RevokeWebhook k => revoke_webhook a k
  | RotateWebhook k => rotate_webhook a k
  | ListDeliveries k state limit offset => list_webhook_deliveries a k state limit offset
  | ReplayDelivery k d => replay_one a k d
  | ReplaySince k since => replay_many a k since
  end.

(** The dependency, then the validated body, then the handler. *)
Definition v1_request (gap : Db -> Db) (rq : Request) (c : V1Call) : Web ApiAnswer :=
  a ← current_application rq;
  _ ← guard_ (call_ok c) validation_error;
  w ← get;
  on_db (v1_handler (srv_edge_settings w) gap a c).
End Api.

(** ** Properties *)

(** The error has an answer: the request is refused, not an internal error. *)
Definition refused (e : exn) : Prop := is_Some (error_answer e).

Lemma refuses_transaction {A} (m : M A) : refuses refused eq (transaction m).
Proof. intros s e s' E _. symmetry. exact (transaction_err _ _ _ _ E). Qed.

Definition same_keys (s s' : Db) : Prop := db_idempotency s' = db_idempotency s.
#[export] Instance same_keys_preorder : PreOrder same_keys.
Proof. split; [by intros s|]. intros s1 s2 s3 H1 H2. unfold same_keys in *. congruence. Qed.

Section Properties.
Context `{External, Deployment, PrivateKeys}.
Context (urlparts : string -> UrlParts) (urlsplit : string -> option UrlSplit).
Context (signing_service : string -> string -> json -> SignerOutcome).

Lemma domain_resource_unrefused s id d e : domain_resource s id d = Err e -> ~ refused e.
Proof.
  unfold domain_resource. destruct (domain_setup _ _ _) as [|e'] eqn:E; [done|]. intros [= <-]. revert E. unfold domain_setup.
  repeat case_match; try done; intros [= <-]; by intros [? ?].
Qed.
Lemma fails_resource id : fails (fun e => ~ refused e) (resource_of id).
Proof.
  unfold resource_of, the_domain. fails_auto; [by intros [? ?]|]. intros e. apply domain_resource_unrefused.
Qed.
Lemma resources_unrefused s rows e : resources s rows = Err e -> ~ refused e.
Proof.
  revert e. induction rows as [|[id d] rows IH]; intros e; [done|]. cbn [resources].
  destruct (domain_resource s id d) eqn:E; [|intros [= <-]; by eapply domain_resource_unrefused].
  cbn [mbind res_bind]. destruct (resources s rows); [done|]. cbn [mbind res_bind]. intros [= <-]. by apply IH.
Qed.
Lemma fails_webhook_answer st k extra : fails (fun e => ~ refused e) (webhook_answer st k extra).
Proof. unfold webhook_answer, the_subscription. fails_auto. by intros [? ?]. Qed.

#[local] Hint Resolve fails_resource fails_webhook_answer : session.

(** The routes that read change nothing. *)
Lemma reads_nothing settings gap a c :
  route_method c = "GET" -> mono eq (v1_handler urlparts urlsplit signing_service settings gap a c).
Proof.
  destruct c; try done; intros _; cbn [v1_handler].
  all: unfold list_domains_page, get_domain_resource, get_domain, resource_of, the_domain, list_webhook_deliveries,
    list_deliveries, get_subscription; mono_auto.
Qed.

(** A handler that refuses has changed nothing. *)
Lemma handler_refuses settings gap a c :
  (forall id p, c <> ConnectDomain id p) ->
  refuses refused eq (v1_handler urlparts urlsplit signing_service settings gap a c).
Proof.
  intros Hc. destruct (decide (route_method c = "GET")) as [Hg|Hg]; [by apply refuses_mono, reads_nothing|].
  destruct c; try done; cbn [v1_handler]; try by destruct (Hc id payload).
  all: unfold create_domain, recheck_domain, create_connect_session, revoke_connect_session, delete_domain_now,
    create_webhook, revoke_webhook, rotate_webhook, replay_one, replay_many.
  all: apply refuses_last; [apply refuses_transaction|intros; fails_auto; try by intros [? ?]].
Qed.

(** A request that is refused leaves the database as it was, but for the time its
    credential was last used.  (A link request commits its plan before it can be refused:
    it is left out.) *)
Theorem refused_requests_commit_nothing gap rq c w e w' :
  (forall id p, c <> ConnectDomain id p) ->
  v1_request urlparts urlsplit signing_service gap rq c w = (Err e, w') -> refused e ->
  only_used (srv_db w) (srv_db w').
Proof.
  intros Hc Hr He. pose proof (current_application_db rq w) as Hu. unfold v1_request in Hr. rewrite bind_run in Hr.
  destruct (current_application rq w) as [[a|e1] w1]; cbn [snd] in Hu; [|by injection Hr as _ <-].
  rewrite bind_run, guard_run in Hr. destruct (call_ok urlsplit c); [|by injection Hr as _ <-].
  rewrite bind_run in Hr. cbn [get] in Hr. unfold on_db in Hr.
  destruct (v1_handler _ _ _ _ _ _ _ (srv_db w1)) as [r s1] eqn:Eh. injection Hr as -> <-.
  assert (srv_db w1 = s1) as <- by (eapply handler_refuses; eauto). exact Hu.
Qed.

(** C10: A credential without the full scope changes nothing, whatever it calls: its request
    leaves the database as it was, but for the time a credential was last used. *)
Theorem read_only_requests_change_nothing gap rq c w scheme secret :
  rq_credentials rq = Some (scheme, secret) -> rq_method rq = route_method c ->
  (forall k cr, db_credentials (srv_db w) !! k = Some cr -> cred_key_hash cr = hash_secret secret -> cred_scope cr <> FULL) ->
  only_used (srv_db w) (srv_db (v1_request urlparts urlsplit signing_service gap rq c w).2).
Proof.
  intros Hcr Hm Hs. pose proof (current_application_db rq w) as Hu. unfold v1_request. rewrite bind_run.
  destruct (current_application rq w) as [[a|e1] w1] eqn:Ea; cbn [snd] in Hu; [|exact Hu].
  apply current_application_ok in Ea as (sc & x & k & cr & app & Hc' & _ & Hk & Hh & _ & _ & _ & _ & Hscope & _).
  rewrite Hcr in Hc'. injection Hc' as <- <-.
  assert (route_method c = "GET") as Hget.
  { rewrite <- Hm. destruct Hscope as [Hf|[Hf|Hf]]; [by destruct (Hs k cr)|done|]. rewrite Hf in Hm. by destruct c. }
  rewrite bind_run, guard_run. destruct (call_ok urlsplit c); [|exact Hu].
  rewrite bind_run. cbn [get]. unfold on_db. pose proof (reads_nothing (srv_edge_settings w1) gap a c Hget (srv_db w1)) as Hn.
  destruct (v1_handler _ _ _ _ _ _ _ (srv_db w1)) as [r s1]. cbn [snd] in *. subst s1. exact Hu.
Qed.

(** The domain a call of the API names. *)
Definition names_domain (c : V1Call) : option N :=
  match c with
  | GetDomain id _ | RequestRecheck id | ConnectDomain id _ | CreateConnectSession id _
  | RevokeConnectSession id _ | DeleteDomain id => Some id
  | _ => None
  end.

Lemma foreign_domain_missing a id s :
  (forall d, db_domains s !! id = Some d -> dom_application_id d <> a) ->
  forall deleted, get_domain a id deleted s = (Err (ServiceError DomainNotFound []), s).
Proof.
  intros Hn deleted. rewrite get_domain_run. destruct (db_domains s !! id) as [d|] eqn:Hd; [|done].
  rewrite (bool_decide_false _ (Hn d eq_refl)). by rewrite andb_false_r.
Qed.

(** A transaction that ends with the error, at the state it began in. *)
Lemma foreign_transaction {A B} (m : M A) (k : A -> M B) e s :
  m s = (Err e, s) -> (transaction m ≫= k) s = (Err e, s).
Proof. intros Hm. rewrite bind_run. unfold transaction, savepoint. by rewrite Hm. Qed.

Lemma no_problem_or (f g : string -> bool) v : no_problem (fun x => f x || g x) v = true -> no_problem g v = true.
Proof. unfold no_problem. destruct v as [x|]; [|done]. destruct (f x); [done|]. by destruct (g x). Qed.

(** C17: tenants are isolated.  An authenticated, valid request of any route of the API
    that names a domain (read it, delete it, recheck it, ask for a set-up link, create or
    revoke a set-up page) is answered with domain_not_found when the domain is another
    application's, exactly as when it does not exist, and the handler changes nothing in
    the database. *)
Theorem tenants_are_isolated gap rq c id w a w1 :
  names_domain c = Some id -> call_ok urlsplit c = true -> current_application rq w = (Ok a, w1) ->
  (forall d, db_domains (srv_db w1) !! id = Some d -> dom_application_id d <> a) ->
  v1_request urlparts urlsplit signing_service gap rq c w = (Err (ServiceError DomainNotFound []), w1) /\
  only_used (srv_db w) (srv_db w1).
Proof.
  intros Hc Hok Ha Hn. split; [|by pose proof (current_application_db rq w) as Hu; rewrite Ha in Hu].
  unfold v1_request. rewrite bind_run, Ha, bind_run, guard_run, Hok, bind_run. cbn [get]. unfold on_db.
  assert (v1_handler urlparts urlsplit signing_service (srv_edge_settings w1) gap a c (srv_db w1)
          = (Err (ServiceError DomainNotFound []), srv_db w1)) as ->; [|by destruct w1].
  pose proof (foreign_domain_missing a id _ Hn) as Hg. revert Hg Hok. generalize (srv_db w1). clear Ha Hn. intros s Hg Hok.
  destruct c; try done; injection Hc as ->; cbn [v1_handler].
  - unfold get_domain_resource. by rewrite bind_run, Hg.
  - apply foreign_transaction. unfold request_recheck. rewrite bind_run. cbn [now_or gets].
    by rewrite bind_run, lock_application_id, bind_run, Hg.
  - cbn [call_ok] in Hok. apply andb_prop in Hok as [Hu Hst]. unfold connect_domain, issue_link.
    rewrite !bind_run. unfold prepare_connect. rewrite bind_run. cbn [now_or gets].
    rewrite bind_run, guard_run, (no_problem_or _ _ _ Hu).
    rewrite bind_run, guard_run, (no_problem_or _ _ _ Hst).
    by rewrite bind_run, Hg.
  - cbn [call_ok] in Hok. apply andb_prop in Hok as [[Httl Hname]%andb_prop Hurl]. apply foreign_transaction.
    unfold create_session. rewrite bind_run. cbn [now_or gets]. cbv zeta. rewrite bind_run, guard_run.
    assert ((MIN_TTL <=? ttl_of (csr_ttl_seconds payload)) && (ttl_of (csr_ttl_seconds payload) <=? MAX_TTL) = true) as ->.
    { destruct (csr_ttl_seconds payload) as [n|]; [|done]. apply andb_prop in Httl as [Hlo%Z.leb_le Hhi%Z.leb_le].
      unfold ttl_of, MIN_TTL, MAX_TTL, hours, minutes, seconds. apply andb_true_intro. split; apply Z.leb_le; lia. }
    rewrite bind_run, guard_run, Hname, bind_run, guard_run,
      (no_problem_or _ _ _ Hurl).
    by rewrite bind_run, lock_application_id, bind_run, Hg.
  - apply foreign_transaction. unfold revoke_session. by rewrite bind_run, Hg.
  - apply foreign_transaction. unfold delete_domain. rewrite bind_run. cbn [now_or gets]. by rewrite bind_run, Hg.
Qed.

(** ** Idempotent creation *)

Lemma keys_fresh : mono same_keys fresh.
Proof. by intros s. Qed.
Lemma keys_insert_domain d : mono same_keys (insert_domain d).
Proof. unfold insert_domain. mono_auto; [apply keys_fresh|done]. Qed.
Lemma keys_event id type payload now : mono same_keys (record_event id type payload (Some now)).
Proof.
  unfold record_event, enqueue_for_event, append_event, add_delivery, the_domain, now_or.
  mono_auto; try apply keys_fresh; try done.
Qed.
Lemma keys_issue_claim id target now : mono same_keys (issue_claim id target now).
Proof.
  unfold issue_claim, insert_claim, the_domain. mono_auto; try apply keys_fresh; try apply keys_event; done.
Qed.
Lemma keys_enforce a : mono same_keys (enforce a).
Proof. unfold enforce, the_application, acquire_lock. mono_auto; done. Qed.
#[local] Hint Resolve keys_fresh keys_insert_domain keys_issue_claim keys_event keys_enforce : session.
Lemma keys_claim_domain a h r m now : mono same_keys (claim_domain a h r m now).
Proof.
  unfold claim_domain, the_application, now_or, lock_application, update_application,
    enforce_registration_limit, enforce_window, put_check. mono_auto; try done.
  all: apply mono_catch; [apply _|apply mono_savepoint; auto with session; apply _|]. all: intros; mono_auto.
Qed.

Lemma begin_created a key hash now s s' :
  begin a key hash now s = (Ok true, s') ->
  key_ok key = true /\ db_clock s' = db_clock s /\
  db_idempotency s' !! (a, key) = Some (started hash (default (db_clock s) now)).
Proof.
  unfold begin. intros Hr. run_inv Hr. run_draws.
  match goal with C : catch _ _ _ = _ |- _ => rename C into Hc end. split; [done|].
  unfold catch in Hc. rewrite bind_run in Hc. unfold savepoint, insert_key_record in Hc. rewrite bind_run in Hc.
  cbn [get] in Hc. rewrite bind_run, guard_run in Hc. set (n := default _ now) in *.
  assert (forall e : exn, ((existing ← gets (fun s => db_idempotency s !! (a, key)); existing ← need existing e;
            if idem_expires_at existing <=? n
            then _ ← modify (fun s => s <| db_idempotency ::= <[(a, key) := started hash n]> |>); mret true
            else mret false) : M bool) s0 = (Ok true, s') ->
          db_clock s' = db_clock s0 /\ db_idempotency s' !! (a, key) = Some (started hash n)) as Hrestart.
  { intros e Hr. run_inv Hr. match goal with I : (if ?b then _ else _) _ = _ |- _ => destruct b; [|done]; run_inv I end.
    split; [done|]. simpl_over. apply lookup_insert_eq. }
  destruct (bool_decide (is_Some _)); cbn beta iota in Hc; [|by apply Hrestart in Hc].
  rewrite bind_run, guard_run in Hc. destruct (bool_decide (_ = None)); cbn beta iota in Hc; [|by apply Hrestart in Hc].
  cbn [modify mret SM_ret] in Hc. injection Hc as <-. split; [done|]. simpl_over. apply lookup_insert_eq.
Qed.

(** What a fresh key leaves behind. *)
Lemma create_fresh_ok a p key s id s' :
  create_or_replay a p (Some key) s = (Ok (true, id), s') -> key <> "" ->
  key_ok key = true /\ db_idempotency s' !! (a, key) =
    Some ((started (fingerprint (dump_create p)) (db_clock s)) <| idem_domain_id := Some id |>).
Proof.
  intros Hr Hne. unfold create_or_replay in Hr. destruct (nonempty (Some key)) as [key'|] eqn:Ek; [|by destruct key].
  assert (key' = key) as -> by (destruct key; [done|by injection Ek]).
  apply bind_ok in Hr as ([] & t & Hb & Hr).
  - apply begin_created in Hb as (Hk & _ & Hrow). split; [done|].
    apply bind_ok in Hr as (i & u & Hc & Hr). apply (mono_ok _ _ _ _ _ (keys_claim_domain _ _ _ _ _)) in Hc.
    unfold complete in Hr. run_inv Hr. simpl_over. rewrite lookup_alter_eq. unfold same_keys in Hc.
    by rewrite Hc, Hrow.
  - by run_inv Hr.
Qed.

(** Repeating the key. *)
Lemma create_again a p key s r :
  key_ok key = true -> db_idempotency s !! (a, key) = Some r -> is_Some (db_applications s !! a) ->
  db_clock s < idem_expires_at r ->
  create_or_replay a p (Some key) s =
    if String.eqb (idem_request_hash r) (fingerprint (dump_create p)) then
      match idem_domain_id r with
      | Some id => match get_domain a id true s with (Ok _, _) => (Ok (false, id), s) | (Err e, _) => (Err e, s) end
      | None => (Err (ServiceError IdempotencyInProgress []), s)
      end
    else (Err (ServiceError IdempotencyKeyReused []), s).
Proof.
  intros Hk Hr Ha Ht. unfold create_or_replay. assert (nonempty (Some key) = Some key) as -> by (by destruct key).
  rewrite bind_run, (begin_live a key _ None s r) by done. cbn [need]. rewrite bind_run. cbn [gets]. rewrite Hr, bind_run.
  cbn [need mret SM_ret]. rewrite bind_run, guard_run. destruct (String.eqb _ _); [|done].
  rewrite bind_run. destruct (idem_domain_id r) as [id|]; [|done]. cbn [need mret SM_ret]. rewrite bind_run.
  rewrite get_domain_run. destruct (db_domains s !! id) as [d|]; [|done]. by destruct (_ && _).
Qed.

(** A create under an [Idempotency-Key] answers 201 with its domain and may be repeated for 24 hours: as
    long as its domain has not been purged, the same body gets that domain back with
    200, marked as a replay, any other body is refused as a reuse of the key, and neither
    changes anything. *)
Theorem create_is_idempotent a p key s answer s1 :
  create_domain a p (Some key) s = (Ok answer, s1) -> key <> "" -> api_replayed answer = false ->
  api_status answer = 201 /\
  exists id, (resource_of id s1).1 = Ok (api_body answer) /\
    (r ← db_idempotency s1 !! (a, key); idem_domain_id r) = Some id /\ forall s2,
    db_idempotency s2 !! (a, key) = db_idempotency s1 !! (a, key) ->
    (exists d, db_domains s2 !! id = Some d /\ dom_application_id d = a) ->
    is_Some (db_applications s2 !! a) -> db_clock s2 < db_clock s + IDEMPOTENCY_TTL ->
    create_domain a p (Some key) s2 =
      (body ← (resource_of id s2).1;
       Ok {| api_status := 200; api_replayed := true; api_reconcile := false; api_body := body |}, s2) /\
    forall p', fingerprint (dump_create p') <> fingerprint (dump_create p) ->
      create_domain a p' (Some key) s2 = (Err (ServiceError IdempotencyKeyReused []), s2).
Proof.
  unfold create_domain at 1. intros Hr Hne Hrep. apply bind_ok in Hr as ([created id] & t & Ht & Hr).
  rewrite transaction_ok in Ht. apply bind_ok in Hr as (body & u & Hb & Hr). injection Hr as <- <-.
  assert (mono eq (resource_of id)) as Hpure by (unfold resource_of, the_domain; mono_auto).
  pose proof (mono_ok _ _ _ _ _ Hpure Hb) as <-. cbn [api_replayed api_status] in *. apply negb_false_iff in Hrep as ->.
  split; [done|]. exists id. split; [by rewrite Hb|]. apply create_fresh_ok in Ht as [Hk Hrow]; [|done]. rewrite Hrow.
  split; [done|].
  intros s2 Hsame (d & Hd & Hda) Happ Hclock.
  assert (forall q, create_or_replay a q (Some key) s2 =
            if String.eqb (fingerprint (dump_create p)) (fingerprint (dump_create q)) then (Ok (false, id), s2)
            else (Err (ServiceError IdempotencyKeyReused []), s2)) as Hagain.
  { intros q. rewrite (create_again a q key s2 _ Hk Hsame Happ Hclock). cbn. rewrite get_domain_run, Hd.
    rewrite bool_decide_true by done. reflexivity. }
  unfold create_domain. split.
  - rewrite bind_run. unfold transaction, savepoint. rewrite Hagain, String.eqb_refl, bind_run.
    specialize (Hpure s2). destruct (resource_of id s2) as [[b|e] s3]; cbn [snd] in Hpure; by subst s3.
  - intros p' Hp. rewrite bind_run. unfold transaction, savepoint. rewrite Hagain.
    by rewrite (proj2 (String.eqb_neq _ _)) by congruence.
Qed.
End Properties.
