(* ===== verification/ConnectPage.v ===== *)
(** * The customer's setup page (app/connect/page.py)

    The page behind a connect session's link and its two actions.  The token in the
    address is the only credential; an action also needs the page's CSRF cookie repeated
    in the form; a link that does not work counts as a failed credential of the client's
    address.  What the template shows is left out, but for what decides its actions.
    Theorems: whoever holds a link can touch its own domain and nothing else, and decides
    nothing there; without the cookie's value an action changes nothing; an address that
    guesses is refused before any lookup. *)

From Stdlib Require Import Ascii String ZArith Lia.
From stdpp Require Import base gmap strings list.
From S2P Require Import Prelude PyStr Json Errors External Models Url Signing Throttle EdgeSettings DnsSetup.
From S2P Require Import Schemas Webhooks Domains DomainFacts DomainInv ConnectFlow.
From S2P Require Import ConnectSessions Applications Deps.
Open Scope string_scope.
Open Scope Z_scope.

Definition CSRF_COOKIE : string := "cd_connect".
Definition REFRESH_SECONDS : Z := 30.
Definition CSRF_match : string -> bool := TOKEN_match.
Definition TOKEN_MAX : Z := 64.
Definition APPLY_STATUSES : list DomainStatus := [PENDING_DNS; ATTENTION_REQUIRED].

(** [_ORIGIN_HOST] *)
Definition origin_host_char (c : ascii) : bool := is_alnum c || has_char c ".-".
Definition origin_host_core (v : string) : bool :=
  let '(host, sep, port) := partition ":"%char v in
  negb (String.eqb host "") && (slen host <=? 253) && sall origin_host_char host
  && (negb sep || (negb (String.eqb port "") && (slen port <=? 5) && sall is_digit port)).
Definition ORIGIN_HOST_match : string -> bool := to_end origin_host_core.

(** A request of the page: what [Request] has, the CSRF cookie and the submitted value. *)
Record PageRequest := { pg_request : Request; pg_cookie : option string; pg_csrf : string }.

Record PageView := {
  pv_can_apply : bool;
  pv_waiting : bool;
  pv_notice : option string;
  pv_refresh : option Z;
  pv_form_origin : option string;
  pv_csrf : string;
  pv_app_name : option string;
  pv_return_url : option string;
  pv_expires_at : Z;
}.

Inductive PageAnswer :=
| NotFoundPage
| RefusedPage
| TooManyPage (retry_after : Z)
| BackToPage (notice : string)
| ToProvider (url : string)
| ShownPage (view : PageView).

Definition CONNECT_NOTICES : list string :=
  ["checking"; "rate_limited"; "unavailable"; "signer"; "busy"; "returned"; "declined"].

Section Page.
Context `{External, Deployment, PrivateKeys}.
Context (urlsplit : string -> option UrlSplit).

(** [_open]: the live session, or the answer to give instead. *)
Definition open_link (rq : Request) (token : string) : Web (PageAnswer + Opened) :=
  w ← get;
  let client := counted_client w rq in
  wait ← client_wait client;
  if negb (wait =? 0) then mret (inl (TooManyPage wait)) else
  match (if ulen token <=? TOKEN_MAX then open_session (srv_db w) token None else None) with
  | Some o => mret (inr o)
  | None => _ ← count_failure client; mret (inl NotFoundPage)
  end.

Definition csrf_ok (rq : PageRequest) : bool :=
  let cookie := default "" (pg_cookie rq) in
  CSRF_match cookie && CSRF_match (pg_csrf rq) && String.eqb cookie (pg_csrf rq).

(** [_provider_origin]; [Err]: [urlsplit] raises. *)
Definition provider_origin (s : Db) (d : Domain) : res exn (option string) :=
  let zone := match nonempty (dom_zone d) with Some _ => dns_zone s d | None => None end in
  match zone ≫= (fun z => sget "url_sync_ux" (default [] (zone_domain_connect z))) with
  | None => Ok None
  | Some url =>
      match urlsplit url with
      | None => Err PyValueError
      | Some parts =>
          if negb (String.eqb (us_scheme parts) "https") || negb (ORIGIN_HOST_match (us_netloc parts)) then Ok None
          else Ok (Some ("https://" ++ us_netloc parts))
      end
  end.

(** Whether the page offers one-step setup ([connect_page_view]). *)
Definition can_apply (setup : Setup) (d : Domain) : bool :=
  bool_decide (su_method setup = Some DOMAIN_CONNECT) && bool_decide (dom_status d ∈ APPLY_STATUSES).

Definition page_view (o : Opened) (cookie notice error : option string) : M PageView :=
  d ← get_domain (opn_application_id o) (opn_domain_id o) false;
  s ← get;
  setup ← lift (domain_setup s d (effective_setup_settings s));
  let code := if bool_decide (error = Some "access_denied") then Some "declined" else notice in
  csrf ← (if CSRF_match (default "" cookie) then mret (default "" cookie)
          else draw ← fresh; mret (token_urlsafe draw 32));
  origin ← (if can_apply setup d then lift (provider_origin s d) else mret None);
  let waiting := negb (bool_decide (dom_status d = READY)) in
  mret {| pv_can_apply := can_apply setup d; pv_waiting := waiting;
          pv_notice := (c ← code; if mem_str c CONNECT_NOTICES then Some c else None);
          pv_refresh := if waiting then Some REFRESH_SECONDS else None;
          pv_form_origin := origin; pv_csrf := csrf; pv_app_name := opn_app_name o;
          pv_return_url := opn_return_url o; pv_expires_at := opn_expires_at o |}.

(** [GET /connect/{token}] *)
Definition connect_page (rq : PageRequest) (token : string) (n error : option string) : Web PageAnswer :=
  opened ← open_link (pg_request rq) token;
  match opened with
  | inl answer => mret answer
  | inr o =>
      catch (view ← on_db (page_view o (pg_cookie rq) n error); mret (ShownPage view))
        (fun e => match e with ServiceError DomainNotFound _ => mret NotFoundPage | _ => raise e end)
  end.

(** [POST /connect/{token}/check] *)
Definition check_now (rq : PageRequest) (token : string) : Web PageAnswer :=
  opened ← open_link (pg_request rq) token;
  match opened with
  | inl answer => mret answer
  | inr o =>
      if negb (csrf_ok rq) then mret RefusedPage else
      catch (_ ← on_db (transaction (request_recheck (opn_application_id o) (opn_domain_id o) "connect_page" None));
             mret (BackToPage "checking"))
        (fun e => match e with
                  | ServiceError RateLimited _ => mret (BackToPage "rate_limited")
                  | ServiceError DomainNotFound _ | ServiceError InvalidStatusTransition _ => mret NotFoundPage
                  | _ => raise e
                  end)
  end.

Context (signing_service : string -> string -> json -> SignerOutcome).

(** The page's own address, which holds the token: it goes to the provider encrypted. *)
Definition page_back (settings : option EdgeSettings) (token : string) : option string :=
  (fun base => page_url base token ++ "?n=returned") <$> page_base_url settings.

(** [POST /connect/{token}/apply]; [gap]: what others commit while the link is signed. *)
Definition apply_setup (gap : Db -> Db) (rq : PageRequest) (token : string) : Web PageAnswer :=
  opened ← open_link (pg_request rq) token;
  match opened with
  | inl answer => mret answer
  | inr o =>
      if negb (csrf_ok rq) then mret RefusedPage else
      w ← get;
      let settings := srv_edge_settings w in
      catch (link ← on_db (issue_link urlsplit signing_service (opn_application_id o) (opn_domain_id o)
                             (page_back settings token) None (default_return_url settings) true gap None);
             mret (ToProvider (link_url link)))
        (fun e => match e with
                  | ServiceError DomainNotFound _ => mret NotFoundPage
                  | ServiceError DomainConnectUnavailable _ => mret (BackToPage "unavailable")
                  | ServiceError DomainConnectSignerUnavailable _ => mret (BackToPage "signer")
                  | ServiceError RateLimited _ => mret (BackToPage "busy")
                  | _ => raise e
                  end)
  end.
End Page.

(** ** Properties *)

(** Only when checks run and the event log of one domain changed, and when it was
    connected; who owns what, what is verified and what the checks said are as before. *)
Record link_step (id : N) (s s' : Db) : Prop := {
  ln_applications : db_applications s' = db_applications s;
  ln_credentials : db_credentials s' = db_credentials s;
  ln_claims : db_claims s' = db_claims s;
  ln_sessions : db_connect_sessions s' = db_connect_sessions s;
  ln_subscriptions : db_subscriptions s' = db_subscriptions s;
  ln_domains k : k <> id -> db_domains s' !! k = db_domains s !! k;
  ln_statuses k : dom_status <$> db_domains s' !! k = dom_status <$> db_domains s !! k;
  ln_checks k t : k <> id -> db_checks s' !! (k, t) = db_checks s !! (k, t);
  ln_outcomes key : check_status <$> db_checks s' !! key = check_status <$> db_checks s !! key;
  ln_events k : k <> id -> events_of s' k = events_of s k;
}.
#[export] Instance link_step_preorder id : PreOrder (link_step id).
Proof.
  split; [by constructor|]. intros s1 s2 s3 H1 H2.
  destruct H1 as [? ? ? ? ? D1 S1 C1 O1 E1], H2 as [? ? ? ? ? D2 S2 C2 O2 E2]. constructor; intros; try congruence.
  - by rewrite D2, D1.
  - by rewrite C2, C1.
  - by rewrite E2, E1.
Qed.

(** Only random draws were made. *)
Definition drew (s s' : Db) : Prop := exists n, (db_next s <= n)%N /\ s' = s <| db_next := n |>.
#[export] Instance drew_preorder : PreOrder drew.
Proof.
  split; [intros s; exists (db_next s); by destruct s|]. intros s1 s2 s3 (n & Hn & ->) (m & Hm & ->). simpl_over.
  exists m. split; [lia|]. by destruct s1.
Qed.

Section Properties.
Context `{External, Deployment, PrivateKeys}.
Context (urlsplit : string -> option UrlSplit) (signing_service : string -> string -> json -> SignerOutcome).

Lemma link_the_domain id k : mono (link_step id) (the_domain k).
Proof. apply mono_the_domain, _. Qed.
Lemma link_lock id a : mono (link_step id) (lock_application a).
Proof. intros s. by rewrite lock_application_id. Qed.
Lemma link_log id s s' : log_frame s s' -> (forall k, k <> id -> events_of s' k = events_of s k) -> link_step id s s'.
Proof.
  intros Hf He. constructor; intros; try apply Hf; try by rewrite (lf_domains _ _ Hf).
  - by rewrite (lf_checks _ _ Hf).
  - by rewrite (lf_checks _ _ Hf).
  - by apply He.
Qed.

Lemma link_event id type payload now : mono (link_step id) (record_event id type payload now).
Proof.
  unfold record_event. mono_auto.
  - destruct now; mono_auto.
  - apply link_the_domain.
  - intros s. by apply link_log; [apply log_frame_fresh|].
  - unfold append_event. apply mono_modify. intros s. constructor; try done. intros k Hk. unfold events_of. simpl_over.
    rewrite filter_app, (filter_cons_False (fun e => event_domain_id e = k)), app_nil_r by (cbn; congruence). done.
  - intros s. apply link_log; [apply log_frame_enqueue|]. intros k _. unfold events_of.
    match goal with |- context [enqueue_for_event id ?e] => pose proof (same_events_enqueue id e s) as He end.
    unfold same_events in He. by rewrite He.
Qed.
Lemma link_check id (f : DomainCheck -> DomainCheck) t :
  (forall c, check_status (f c) = check_status c) ->
  mono (link_step id) (modify (fun s => s <| db_checks ::= alter f (id, t) |>) : M unit).
Proof.
  intros Hf. apply mono_modify. intros s. constructor; try done.
  - intros k u Hk. simpl_over. rewrite lookup_alter_ne; congruence.
  - intros key. simpl_over. rewrite lookup_alter. case_decide; [|done]. subst key.
    destruct (db_checks s !! (id, t)); [|done]. cbn. by rewrite Hf.
Qed.
Lemma link_due id at_ : mono (link_step id) (make_checks_due id at_).
Proof.
  unfold make_checks_due. apply mono_for_each; [apply _|]. intros t. apply link_check.
  intros c. unfold due_by. by destruct (check_next_check_at c) as [n|]; [destruct (at_ <? n)|].
Qed.
Lemma link_schedule id l now : mono (link_step id) (schedule_checks id l now).
Proof. unfold schedule_checks. apply mono_for_each; [apply _|]. intros t. by apply link_check. Qed.
Lemma link_start id t : mono (link_step id) (start_connect id t).
Proof.
  unfold start_connect. apply mono_bind; [apply _|apply mono_gets; apply _|]. intros c. unfold update_domain.
  apply mono_modify. intros s. constructor; try done.
  - intros k Hk. simpl_over. by rewrite lookup_alter_ne.
  - intros k. simpl_over. rewrite lookup_alter. case_decide; [|done]. subst k. by destruct (db_domains s !! id).
Qed.
#[local] Hint Resolve link_the_domain link_lock link_event link_due link_schedule link_start : session.

Lemma link_recheck id a by_ now : mono (link_step id) (request_recheck a id by_ now).
Proof.
  unfold request_recheck, get_domain, enforce_recheck_limits, enforce_window. mono_auto. destruct now; mono_auto.
Qed.
Lemma link_record a plan url now : mono (link_step (plan_domain_id plan)) (record_connect a plan url now).
Proof.
  unfold record_connect, get_domain. mono_auto. destruct now; mono_auto.
Qed.

Lemma drew_fresh : mono drew fresh.
Proof. intros s. exists (db_next s + 1)%N. split; [lia|done]. Qed.
Lemma drew_the_domain id : mono drew (the_domain id).
Proof. apply mono_the_domain, _. Qed.
#[local] Hint Resolve drew_fresh drew_the_domain : session.
Lemma drew_prepare a id ru st url p now : mono drew (prepare_connect urlsplit a id ru st url p now).
Proof.
  unfold prepare_connect, get_domain, the_application, ConnectFlow.enforce_limits, enforce_window, return_params, SecretBox.encrypt.
  mono_auto. destruct now; mono_auto.
Qed.

Lemma open_link_db rq token w r w' :
  open_link rq token w = (r, w') ->
  srv_db w' = srv_db w /\ (forall o, r = Ok (inr o) -> w' = w /\ open_session (srv_db w) token None = Some o) /\
  forall answer url, r = Ok (inl answer) -> answer <> ToProvider url.
Proof.
  unfold open_link. rewrite bind_run. cbn [get]. rewrite bind_run.
  destruct (client_wait _ w) as [[wait|e] w1] eqn:Ew; apply client_wait_same in Ew as ->; [|by intros [= <- <-]].
  destruct (negb _); [intros [= <- <-]; split; [done|]; by split; [|intros ? ? [= <-]]|].
  destruct (if ulen token <=? TOKEN_MAX then _ else _) as [o|] eqn:Eo.
  - intros [= <- <-]. split; [done|]. split; [|done]. intros o' [= <-]. split; [done|]. by destruct (ulen token <=? TOKEN_MAX).
  - rewrite bind_run. destruct (count_failure _ w) as [[?|?] w4] eqn:Ec; apply count_failure_db in Ec;
      intros [= <- <-]; split; try done; by split; [|intros ? ? [= <-]].
Qed.

(** A link has the powers of its page and no others: to ask for a check it needs the
    page's CSRF value, and then it changes nothing but when its own domain's checks run
    and the log of that domain. *)
Theorem link_checks_one_domain rq token w :
  let s := srv_db w in let s' := srv_db (check_now rq token w).2 in
  s' = s \/ exists o, open_session s token None = Some o /\ csrf_ok rq = true /\ link_step (opn_domain_id o) s s'.
Proof.
  cbv zeta. unfold check_now. rewrite bind_run. destruct (open_link (pg_request rq) token w) as [[[answer|o]|e] w1] eqn:Eo;
    apply open_link_db in Eo as (Hdb & Ho & _); [by left|..|by left].
  destruct (Ho o eq_refl) as [-> Hopen]. clear Ho Hdb. destruct (csrf_ok rq) eqn:Ecs; [|by left]. cbn [negb].
  right. exists o. split; [done|]. split; [done|]. unfold catch. rewrite bind_run. unfold on_db.
  pose proof (mono_savepoint _ _ (link_recheck (opn_domain_id o) (opn_application_id o) "connect_page" None) (srv_db w)) as Hstep.
  change (savepoint ?m) with (transaction m) in Hstep. destruct (transaction _ (srv_db w)) as [[u|e] s1]; cbn [snd] in Hstep.
  - exact Hstep.
  - by destruct e as [[] ?| | | | | | | | | | | | | | |].
Qed.

Lemma issue_link_steps a id ru st url p gap now s r s' :
  issue_link urlsplit signing_service a id ru st url p gap now s = (r, s') ->
  exists n, (s' = s <| db_next := n |> \/ link_step id (gap (s <| db_next := n |>)) s') /\
    forall link, r = Ok link -> exists plan,
      prepare_connect urlsplit a id ru st url p now s = (Ok plan, s <| db_next := n |>) /\
      sign_connect signing_service plan = Ok (link_url link).
Proof.
  unfold issue_link. rewrite bind_run. pose proof (drew_prepare a id ru st url p now s) as Hd.
  destruct (prepare_connect _ _ _ _ _ _ _ _ s) as [[plan|e] s1] eqn:Ep; cbn [snd] in Hd; destruct Hd as (n & _ & ->);
    [|intros [= <- <-]; exists n; by split; [left|]].
  assert (plan_domain_id (pl_plan plan) = id) as Hid by (unfold prepare_connect in Ep; by run_inv Ep).
  rewrite bind_run. cbn [lift]. destruct (sign_connect _ plan) as [u|e] eqn:Es; [|intros [= <- <-]; exists n; by split; [left|]].
  rewrite bind_run. cbn [modify].
  pose proof (mono_savepoint _ _ (link_record a (pl_plan plan) u now) (gap (s <| db_next := n |>))) as Hstep.
  rewrite Hid in Hstep. change (savepoint ?m) with (transaction m) in Hstep. intros Hr. rewrite Hr in Hstep. exists n.
  split; [by right|]. intros link ->. exists plan. split; [done|].
  rewrite transaction_ok in Hr. apply record_connect_ok in Hr as [-> _]. exact Es.
Qed.

(** C21: The same for one-step setup: it needs the CSRF value, and beside what others commit
    while the link is signed ([gap]) it draws random values and touches its own domain
    as [link_checks_one_domain] says; the customer is sent only where the signed link
    goes. *)
Theorem link_applies_one_domain gap rq token w :
  let s := srv_db w in let '(r, w') := apply_setup urlsplit signing_service gap rq token w in
  (srv_db w' = s \/
   exists o n, open_session s token None = Some o /\ csrf_ok rq = true /\
     (srv_db w' = s <| db_next := n |> \/ link_step (opn_domain_id o) (gap (s <| db_next := n |>)) (srv_db w'))) /\
  forall url, r = Ok (ToProvider url) ->
    exists o plan s1, open_session s token None = Some o /\ csrf_ok rq = true /\
      prepare_connect urlsplit (opn_application_id o) (opn_domain_id o) (page_back (srv_edge_settings w) token) None
        (default_return_url (srv_edge_settings w)) true None s = (Ok plan, s1) /\
      sign_connect signing_service plan = Ok url.
Proof.
  cbv zeta. unfold apply_setup. rewrite bind_run. destruct (open_link (pg_request rq) token w) as [[[answer|o]|e] w1] eqn:Eo;
    apply open_link_db in Eo as (Hdb & Ho & Hno).
  - split; [by left|]. intros url [= ->]. by destruct (Hno _ url eq_refl).
  - destruct (Ho o eq_refl) as [-> Hopen]. clear Ho Hdb Hno. destruct (csrf_ok rq) eqn:Ecs; cbn [negb]; [|by split; [left|]].
    rewrite bind_run. cbn [get]. unfold catch. rewrite bind_run. unfold on_db.
    destruct (issue_link _ _ _ _ _ _ _ _ _ _ (srv_db w)) as [r s1] eqn:Ei.
    apply issue_link_steps in Ei as (n & Hstep & Hok). destruct r as [link|e].
    + split; [right; by exists o, n|]. intros url [= <-]. destruct (Hok link eq_refl) as (plan & Hp & Hs). exists o, plan. by eexists.
    + destruct e as [[] ?| | | | | | | | | | | | | | |]; (split; [right; by exists o, n|done]).
  - by split; [left|].
Qed.
End Properties.
