(* ===== verification/EdgeConfig.v ===== *)
(** * The edge configuration (app/edge/config.py)

    The Caddy configuration derived from the database and the settings: which
    hostnames are routed, to which pinned origin address, through which handlers.
    It is the JSON document itself, so that the gateway's model (Gateway.v) reads
    what this one writes.  Theorems are in Gateway.v and
    GatewayAccepts.v. *)

From Stdlib Require Import Ascii String ZArith Lia.
From stdpp Require Import base gmap strings list sets sorting.
From S2P Require Import Prelude PyStr Json JsonText Errors External Assertion Models Hostname.
From S2P Require Import EdgeSettings Egress Dns DnsSetup Domains EdgeChecks Applications.
Open Scope string_scope.
Open Scope Z_scope.

Definition ROUTABLE_STATUSES : list DomainStatus := [PROVISIONING; READY; ATTENTION_REQUIRED].

Definition routable (s : Db) (id : N) (d : Domain) : bool :=
  if is_deleted d || negb (bool_decide (dom_status d ∈ ROUTABLE_STATUSES)) then false
  else if negb (application_active s (dom_application_id d)) then false
  else claim_verified s id.

Definition SERVER_NAME : string := "edge".
Definition EDGE_HEALTH_HEADER : string := "X-Custom-Domain-Edge".
Definition ASSERTION_HEADER : string := "X-Custom-Domain-Assertion".
Definition EDGE_HOST_HEADER : string := "X-Custom-Domain-Edge-Host".
Definition EDGE_SNI_HEADER : string := "X-Custom-Domain-Edge-Sni".
Definition EDGE_REQUEST_ID_HEADER : string := "X-Custom-Domain-Edge-Request-Id".
Definition EDGE_TOKEN_HEADER : string := "X-Custom-Domain-Edge-Token".
Definition STRIPPED_REQUEST_HEADERS : list string :=
  [ASSERTION_HEADER; EDGE_HOST_HEADER; EDGE_SNI_HEADER; EDGE_REQUEST_ID_HEADER; EDGE_TOKEN_HEADER;
   "X-Custom-Domain-Reference"; "X-Custom-Domain-Application"].

Record RouteGroup := {
  rg_application_slug : string;
  rg_origin : string;
  rg_origin_host : string;
  rg_origin_tls : bool;
  rg_hostnames : list string;
  rg_per_minute : option Z;
  rg_per_second : option Z;
  rg_host_header : OriginHostHeader;
  rg_origin_port : Z;
}.

(** [ORDER BY] a text column, then id. *)
Definition by_text {A} (f : A -> string) (x y : N * A) : Prop :=
  String.ltb (f x.2) (f y.2) = true \/ f x.2 = f y.2 /\ (x.1 <= y.1)%N.
#[export] Instance by_text_dec {A} (f : A -> string) x y : Decision (by_text f x y).
Proof. unfold by_text. apply _. Defined.

Definition select_by {A} (f : A -> string) (p : N -> A -> bool) (m : gmap N A) : list (N * A) :=
  merge_sort (by_text f) (filter (fun x => p x.1 x.2 = true) (map_to_list m)).

Definition active_applications (s : Db) : list (N * Application) :=
  select_by app_slug (fun _ a => bool_decide (app_status a = ACTIVE)) (db_applications s).

Definition routed_hostnames (s : Db) (a : N) : list string :=
  (fun x => dom_hostname x.2) <$>
    filter (fun x => routable s x.1 x.2 = true)
      (select_by dom_hostname
         (fun _ d => bool_decide (dom_application_id d = a) && bool_decide (dom_deleted_at d = None)
                     && bool_decide (dom_status d ∈ ROUTABLE_STATUSES))
         (db_domains s)).

Section Config.
Context `{External}.

(** One application of the loop; [None]: the origin's address is not one. *)
Definition route_group (s : Db) (a : N) (r : Application) : option (list RouteGroup) :=
  match serving_origin s a with
  | None => Some []
  | Some (_, origin) =>
      match routed_hostnames s a with
      | [] => Some []
      | hostnames =>
          match pinned_dial (org_host origin) (org_port origin) allow_private_from_env with
          | Err _ => Some []
          | Ok None => None
          | Ok (Some (dial, origin_host)) =>
              Some [{| rg_application_slug := app_slug r; rg_origin := dial; rg_origin_host := origin_host;
                       rg_origin_tls := String.eqb (org_scheme origin) "https"; rg_hostnames := hostnames;
                       rg_per_minute := app_rate_limit_per_minute r; rg_per_second := app_rate_limit_per_second r;
                       rg_host_header := org_host_header origin; rg_origin_port := org_port origin |}]
          end
      end
  end.

Definition serveable_route_groups (s : Db) : option (list RouteGroup) :=
  (fun groups => mjoin groups) <$> mapM (fun x => route_group s x.1 x.2) (active_applications s).
End Config.

(** ** Handlers and routes *)

Definition one (v : string) : json := JArr [JStr v].

Definition assertion_subrequest (settings : EdgeSettings) : json :=
  let request_headers :=
    ([(EDGE_HOST_HEADER, one "{http.request.host}");
      (EDGE_SNI_HEADER, one "{http.request.tls.server_name}");
      (EDGE_REQUEST_ID_HEADER, one "{http.request.uuid}");
      ("X-Forwarded-Method", one "{http.request.method}");
      ("X-Forwarded-Uri", one "{http.request.uri}")]
     ++ match nonempty (edge_token settings) with
        | Some token => [(EDGE_TOKEN_HEADER, one token)]
        | None => []
        end)%list in
  JObj [("handler", JStr "reverse_proxy");
        ("upstreams", JArr [JObj [("dial", JStr (assert_upstream settings))]]);
        ("rewrite", JObj [("method", JStr "GET"); ("uri", JStr ASSERT_PATH)]);
        ("headers", JObj [("request", JObj [("set", JObj request_headers)])]);
        ("handle_response", JArr [JObj [
           ("match", JObj [("status_code", JArr [JInt 2])]);
           ("routes", JArr [JObj [("handle", JArr [JObj [
              ("handler", JStr "headers");
              ("request", JObj [("set", JObj [(ASSERTION_HEADER,
                 one ("{http.reverse_proxy.header." ++ ASSERTION_HEADER ++ "}"))])])]])]])]])].

Definition origin_host_value (host : string) (port : Z) (tls : bool) : string :=
  if port =? (if tls then 443 else 80) then host else host ++ ":" ++ py_str port.

Definition forwarded_headers (host : string) : json :=
  JObj [("request", JObj [("set", JObj [("Host", one host);
                                        ("X-Forwarded-Host", one "{http.request.host}");
                                        ("X-Forwarded-Proto", one "{http.request.scheme}")])])].
Definition verified_tls (name : string) : json :=
  JObj [("protocol", JStr "http"); ("tls", JObj [("server_name", JStr name)])].

Definition origin_proxy (group : RouteGroup) : json :=
  let host := match rg_host_header group with
              | HH_ORIGIN => origin_host_value (rg_origin_host group) (rg_origin_port group) (rg_origin_tls group)
              | HH_CUSTOMER => "{http.request.host}"
              end in
  JObj ([("handler", JStr "reverse_proxy");
         ("upstreams", JArr [JObj [("dial", JStr (rg_origin group))]]);
         ("headers", forwarded_headers host)]
        ++ (if rg_origin_tls group then [("transport", verified_tls (rg_origin_host group))] else []))%list.

Definition RATE_WINDOWS : list (string * string) := [("minute", "1m"); ("second", "1s")].
Definition MAX_RATE : Z := 1000000.

Definition rate_zone (route_id name window : string) (count : option Z) : dict :=
  match count with
  | Some n => if n =? 0 then []
              else [(route_id ++ "-" ++ name,
                     JObj [("key", JStr route_id); ("window", JStr window); ("max_events", JInt n)])]
  | None => []
  end.
Definition rate_limit_handler (route_id : string) (per_minute per_second : option Z) : option json :=
  match (rate_zone route_id "minute" "1m" per_minute ++ rate_zone route_id "second" "1s" per_second)%list with
  | [] => None
  | zones => Some (JObj [("handler", JStr "rate_limit"); ("rate_limits", JObj zones)])
  end.

Definition strip_handler : json :=
  JObj [("handler", JStr "headers"); ("request", JObj [("delete", jstr_list STRIPPED_REQUEST_HEADERS)])].

Definition app_route (group : RouteGroup) (settings : EdgeSettings) : json :=
  let route_id := "app-" ++ rg_application_slug group in
  let limiter := rate_limit_handler route_id (rg_per_minute group) (rg_per_second group) in
  JObj [("@id", JStr route_id);
        ("match", JArr [JObj [("host", jstr_list (rg_hostnames group))]]);
        ("handle", JArr (option_list limiter ++ [strip_handler; assertion_subrequest settings; origin_proxy group]));
        ("terminal", JBool true)].

(** ** The edge's own names *)

(** [names] with those of [more] it does not hold yet. *)
Definition add_names (names more : list string) : list string :=
  foldl (fun names n => if mem_str n names then names else (names ++ [n])%list) names more.

Definition portal_hosts (s : Db) (edge_hostname : option string) : list string :=
  let names := match nonempty edge_hostname with Some n => [n] | None => [] end in
  merge_sort string_le
    (foldl (fun names x => add_names names (edge_names s x.1 x.2)) names (active_applications s)).

Definition proxy_to_api (upstream : string) : json :=
  JObj [("handler", JStr "reverse_proxy"); ("upstreams", JArr [JObj [("dial", JStr upstream)]]);
        ("headers", JObj [("request", JObj [("set", JObj [("Host", one "{http.request.host}")])])])].

Definition allowlisted_routes_for (name : string) (paths hosts ranges : list string) (upstream : string) : list json :=
  match ranges, hosts with
  | [], _ | _, [] => []
  | _, _ =>
      [JObj [("@id", JStr name);
             ("match", JArr [JObj [("host", jstr_list hosts); ("path", jstr_list paths);
                                   ("remote_ip", JObj [("ranges", jstr_list ranges)])]]);
             ("handle", JArr [proxy_to_api upstream]);
             ("terminal", JBool true)];
       JObj [("@id", JStr (name ++ "-denied"));
             ("match", JArr [JObj [("host", jstr_list hosts); ("path", jstr_list paths)]]);
             ("handle", JArr [JObj [("handler", JStr "static_response"); ("status_code", JInt 403)]]);
             ("terminal", JBool true)]]
  end.

Definition PORTAL_PATHS : list string := ["/portal"; "/portal/*"].
Definition OPERATOR_PATHS : list string := ["/operator"; "/operator/*"].
Definition API_PATHS : list string := ["/v1"; "/v1/*"].
Definition CONNECT_PATHS : list string := ["/connect/*"].

Definition portal_routes_for (hosts ranges : list string) (upstream : string) : list json :=
  allowlisted_routes_for "portal" PORTAL_PATHS hosts ranges upstream.
Definition operator_routes_for (hosts ranges : list string) (upstream : string) : list json :=
  allowlisted_routes_for "operator" OPERATOR_PATHS hosts ranges upstream.

Definition api_route_for (hosts : list string) (upstream : string) : list json :=
  match hosts with
  | [] => []
  | _ => [JObj [("@id", JStr "api");
                ("match", JArr [JObj [("host", jstr_list hosts); ("path", jstr_list (API_PATHS ++ CONNECT_PATHS))]]);
                ("handle", JArr [strip_handler; proxy_to_api upstream]);
                ("terminal", JBool true)]]
  end.

Section Ranges.
Context `{External}.

(** [None]: an entry of the allowlist is not a network. *)
Definition portal_routes (settings : EdgeSettings) (hosts : list string) : option (list json) :=
  ranges ← portal_ranges settings; Some (portal_routes_for hosts ranges (assert_upstream settings)).
Definition operator_routes (settings : EdgeSettings) (hosts : list string) : option (list json) :=
  ranges ← operator_ranges settings; Some (operator_routes_for hosts ranges (assert_upstream settings)).
End Ranges.

Definition api_route (settings : EdgeSettings) (hosts : list string) : list json :=
  if public_api settings then api_route_for hosts (assert_upstream settings) else [].

(** ** The configuration *)

Definition health_route : json :=
  JObj [("@id", JStr "edge-health"); ("match", JArr [JObj [("path", one HEALTH_PATH)]]);
        ("handle", JArr [JObj [("handler", JStr "static_response"); ("status_code", JInt 204);
                               ("headers", JObj [(EDGE_HEALTH_HEADER, one EDGE_HEALTH_VALUE)])]]);
        ("terminal", JBool true)].
Definition unmatched_route : json :=
  JObj [("@id", JStr "edge-unmatched");
        ("handle", JArr [JObj [("handler", JStr "static_response"); ("status_code", JInt 404)]]);
        ("terminal", JBool true)].

(** [_server] *)
Definition server (settings : EdgeSettings) (routes : list json) : dict :=
  ([("listen", one (":" ++ py_str (https_port settings)));
    ("routes", JArr (health_route :: routes ++ [unmatched_route]))]
   ++ (if es_disable_https settings then [("automatic_https", JObj [("disable", JBool true)])]
       else [("tls_connection_policies", JArr [JObj []]); ("strict_sni_host", JBool true)]))%list.

Definition http_app (settings : EdgeSettings) (routes : list json) : dict :=
  ([("servers", JObj [(SERVER_NAME, JObj (server settings routes))]);
    ("metrics", JObj [("per_host", JBool true)])]
   ++ (if http_port settings =? 80 then [] else [("http_port", JInt (http_port settings))])
   ++ (if https_port settings =? 443 then [] else [("https_port", JInt (https_port settings))]))%list.

Definition tls_app (settings : EdgeSettings) : json :=
  JObj [("automation", JObj [
    ("on_demand", JObj [("permission", JObj [("module", JStr "http"); ("endpoint", JStr (ask_url settings))])]);
    ("policies", JArr [JObj [("on_demand", JBool true); ("issuers", JArr [tls_issuer_config settings])]])])].

Section Build.
Context `{External}.

Definition build_apps (s : Db) (settings : EdgeSettings) : option json :=
  groups ← serveable_route_groups s;
  let hosts := portal_hosts s (es_edge_hostname settings) in
  portal ← (match portal_allowed_ips settings with [] => Some [] | _ => portal_routes settings hosts end);
  operator ← operator_routes settings hosts;
  let routes := (portal ++ operator ++ api_route settings hosts
                 ++ ((fun g => app_route g settings) <$> groups))%list in
  Some (JObj (("http", JObj (http_app settings routes))
              :: (if es_disable_https settings then [] else [("tls", tls_app settings)]))).

(** [urlparse(admin_url)]: its host name and port. *)
Context (urlparse : string -> option string * option Z).

Definition admin_listen (settings : EdgeSettings) : string :=
  let '(hostname, port) := urlparse (admin_url settings) in
  default "localhost" (nonempty hostname) ++ ":" ++
  py_str (match port with Some 0 | None => 2019 | Some p => p end).

Definition build_bootstrap (settings : EdgeSettings) : dict :=
  ([("admin", JObj [("listen", JStr (admin_listen settings))]);
    ("apps", JObj [("http", JObj (http_app settings []))])]
   ++ match storage_config settings with Some b => [("storage", b)] | None => [] end)%list.

Definition build_caddy_config (s : Db) (settings : EdgeSettings) : option dict :=
  apps ← build_apps s settings; Some (dset "apps" apps (build_bootstrap settings)).

Definition config_digest (config : option json) : string :=
  match config with
  | None => "none"
  | Some config => take_str 16 (sha256_hex (dumps_sorted config))
  end.
End Build.
