(* ===== verification/EdgeProbe.v ===== *)
(** * Probing the edge (app/edge/probe.py, SystemEdgeProber of app/services/edge_checks.py)

    The address a probe connects to, the readiness probe and the workspace probe with
    their error codes and messages.  Sockets, TLS and the HTTP exchange are a parameter:
    a [ProbeWire].  Theorems: without a fixed edge address a probe only reaches a public
    address the hostname resolves to now; the readiness probe always ends in a result or
    in an [EdgeProbeFailed]; the workspace probe does too, unless the handshake breaks
    with an [OSError] that is no TLS error, which escapes it. *)

From Stdlib Require Import Ascii String ZArith Lia.
From stdpp Require Import base strings list.
From S2P Require Import Prelude PyStr Utf8 Json JsonText Errors External Assertion Models EdgeSettings Egress.
From S2P Require Import EdgeChecks EdgeConfig.
Open Scope string_scope.
Open Scope Z_scope.

Definition PROBE_USER_AGENT : string := "custom-domain-readiness-probe/1".
Definition X509_HOSTNAME_MISMATCH : Z := 62.
Definition X509_CERT_EXPIRED : Z := 10.

(** ** The wire *)

(** The text is that of the exception. *)
Inductive connect_failure := ConnectTimedOut (text : string) | ConnectBroken (text : string).
(** [SSLCertVerificationError] with its [verify_code] and its [verify_message], or its text;
    another [SSLError]; [TimeoutError]; another [OSError]. *)
Inductive handshake_failure :=
| Unverified (verify_code : Z) (text : string)
| SslError (text : string)
| HandshakeTimedOut
| HandshakeBroken (text : string).
Inductive exchange_failure := ExchangeTimedOut | ExchangeBroken (text : string).

(** What [getpeercert] reports; the times are in seconds. *)
Record Certificate := {
  cert_not_after : Z;
  cert_not_before : option Z;
  cert_issuer : list (list (string * string));
}.

(** One GET on the connection: over TLS with a server name, or plain. *)
Record HttpGet := {
  hg_address : string;
  hg_port : Z;
  hg_server_name : option string;
  hg_path : string;
  hg_headers : list (string * string);
}.
Record HttpReply := { hr_status : Z; hr_headers : list (string * string); hr_body : string }.

Record ProbeWire := {
  wire_connect : string -> Z -> res connect_failure unit;
  wire_handshake : string -> string -> Z -> option string -> res handshake_failure Certificate;
  wire_exchange : HttpGet -> res exchange_failure HttpReply;
  gaierror_text : string -> Z -> string;
}.

(** [EdgeProbeFailed], or another exception. *)
Inductive probe_failure := ProbeFailed (code message : string) | ProbeEscaped (exception : string).

Section Probes.
Context (wire : ProbeWire).

(** [response.getheader(name)] *)
Definition getheader (name : string) (headers : list (string * string)) : option string :=
  match List.filter (fun h => String.eqb (lower h.1) (lower name)) headers with
  | [] => None
  | found => Some (join ", " (snd <$> found))
  end.

Definition at_port (address : string) (port : Z) : string := address ++ ":" ++ py_str port.
Definition cannot_connect (hostname address : string) (port : Z) (text : string) : probe_failure :=
  ProbeFailed "connection_failed" ("Cannot connect to " ++ at_port address port ++ " for " ++ hostname ++ ": " ++ text).
Definition connect_error (hostname address : string) (port : Z) (f : connect_failure) : probe_failure :=
  match f with
  | ConnectTimedOut _ =>
      ProbeFailed "timeout" ("Connecting to " ++ at_port address port ++ " for " ++ hostname ++ " timed out")
  | ConnectBroken text => cannot_connect hostname address port text
  end.

Definition verification_code (verify_code : Z) : string :=
  if verify_code =? X509_HOSTNAME_MISMATCH then "certificate_hostname_mismatch"
  else if verify_code =? X509_CERT_EXPIRED then "certificate_expired"
  else "certificate_untrusted".
(** What the three [except] clauses around [wrap_socket] raise; [None]: none applies. *)
Definition handshake_error (hostname : string) (f : handshake_failure) : option probe_failure :=
  match f with
  | Unverified code text =>
      Some (ProbeFailed (verification_code code)
              ("The certificate served for " ++ hostname ++ " did not verify: " ++ text))
  | SslError text =>
      Some (ProbeFailed "tls_handshake_failed"
              ("TLS handshake for " ++ hostname ++ " failed: " ++ text ++ ". On the first handshake the edge requests a certificate; if issuance was denied or failed, Caddy's log has the ACME error."))
  | HandshakeTimedOut =>
      Some (ProbeFailed "timeout"
              ("TLS handshake for " ++ hostname ++ " timed out; the edge may still be obtaining the certificate. Retrying."))
  | HandshakeBroken _ => None
  end.

(** [_connect_tls] *)
Definition connect_tls (hostname address : string) (port : Z) (ca_file : option string)
    : res probe_failure Certificate :=
  match wire_connect wire address port with
  | Err f => Err (connect_error hostname address port f)
  | Ok _ =>
      match wire_handshake wire hostname address port ca_file with
      | Ok cert => Ok cert
      | Err f => Err (default (ProbeEscaped "OSError") (handshake_error hostname f))
      end
  end.

(** ** The workspace probe *)

(** The reference and the application a 200 answer names. *)
Definition read_workspace (status : Z) (body : string) : option string * option string :=
  if negb (status =? 200) then (None, None) else
  match loads body with
  | Some (JObj data) => (str_of <$> dget "reference" data, str_of <$> dget "application" data)
  | _ => (None, None)
  end.

Definition probe_headers (hostname : string) (more : list (string * string)) : list (string * string) :=
  [("Host", hostname); ("User-Agent", PROBE_USER_AGENT)] ++ more.

Definition workspace_exchange (hostname address : string) (port : Z) (server_name : option string)
    (workspace_path : string) : res probe_failure WorkspaceProbe :=
  match wire_exchange wire {| hg_address := address; hg_port := port; hg_server_name := server_name;
                              hg_path := workspace_path;
                              hg_headers := probe_headers hostname [("Accept", "application/json")] |} with
  | Err ExchangeTimedOut => Err (ProbeFailed "timeout" (hostname ++ " did not answer the workspace request"))
  | Err (ExchangeBroken text) =>
      Err (ProbeFailed "connection_failed" ("Workspace request to " ++ hostname ++ " failed: " ++ text))
  | Ok reply =>
      let body := decode_replace (take_str 4096 (hr_body reply)) in
      let '(reference, application_id) := read_workspace (hr_status reply) body in
      Ok {| wp_address := address; wp_status := hr_status reply; wp_reference := reference;
            wp_application_id := application_id; wp_body := utake 200 body |}
  end.

(** [probe_workspace] of app/edge/probe.py *)
Definition workspace_probe (hostname address : string) (port : Z) (ca_file : option string)
    (workspace_path : string) (plain_http : bool) : res probe_failure WorkspaceProbe :=
  if plain_http then
    match wire_connect wire address port with
    | Err (ConnectTimedOut text | ConnectBroken text) => Err (cannot_connect hostname address port text)
    | Ok _ => workspace_exchange hostname address port None workspace_path
    end
  else
    match connect_tls hostname address port ca_file with
    | Err f => Err f
    | Ok _ => workspace_exchange hostname address port (Some hostname) workspace_path
    end.

(** ** The readiness probe *)

Definition issuer_name (cert : Certificate) : string :=
  match snd <$> List.filter (fun kv => mem_str kv.1 ["organizationName"; "commonName"]) (mjoin (cert_issuer cert)) with
  | [] => "unknown"
  | parts => or_else (join ", " parts) "unknown"
  end.

Definition health_failed (hostname text : string) : probe_failure :=
  ProbeFailed "connection_failed" ("Health request to " ++ hostname ++ " failed: " ++ text).

(** [probe_edge] *)
Definition probe_edge (hostname address : string) (port : Z) (ca_file : option string) (health_path : string)
    : res probe_failure EdgeProbe :=
  match wire_connect wire address port with
  | Err f => Err (connect_error hostname address port f)
  | Ok _ =>
      match wire_handshake wire hostname address port ca_file with
      | Err (HandshakeBroken text) => Err (health_failed hostname text)
      | Err f => Err (default (health_failed hostname "") (handshake_error hostname f))
      | Ok cert =>
          match wire_exchange wire {| hg_address := address; hg_port := port; hg_server_name := Some hostname;
                                      hg_path := health_path; hg_headers := probe_headers hostname [] |} with
          | Err ExchangeTimedOut => Err (ProbeFailed "timeout" (hostname ++ " did not answer the health request"))
          | Err (ExchangeBroken text) => Err (health_failed hostname text)
          | Ok reply =>
              Ok {| ep_address := address; ep_not_after := seconds (cert_not_after cert);
                    ep_issuer := issuer_name cert; ep_status := hr_status reply;
                    ep_edge_header := getheader EDGE_HEALTH_HEADER (hr_headers reply);
                    ep_not_before := seconds <$> cert_not_before cert |}
          end
      end
  end.

(** ** The service's prober *)

Section Prober.
Context `{External}.

(** [SystemEdgeProber._target] *)
Definition target (st : EdgeSettings) (hostname : string) : res probe_failure (string * Z) :=
  match
    match nonempty (EdgeSettings.probe_address st) with
    | Some fixed =>
        match py_int (default fixed (after_last ":"%char fixed)) with
        | Some port => Ok (default "" (before_last ":"%char fixed), port)
        | None => Err (ProbeEscaped "ValueError")
        end
    | None => Ok (hostname, https_port st)
    end
  with
  | Err f => Err f
  | Ok (host, port) =>
      match getaddrinfo host port with
      | None =>
          Err (ProbeFailed "edge_unresolvable"
                 (host ++ " does not resolve, so the edge cannot be probed: " ++ gaierror_text wire host port))
      | Some [] => Err (ProbeFailed "edge_unresolvable" (host ++ " has no addresses"))
      | Some (address :: _) =>
          if bool_decide (nonempty (EdgeSettings.probe_address st) = None) && negb (ip_is_global address)
             && negb allow_private_from_env then
            Err (ProbeFailed "edge_private_address"
                   (host ++ " resolves to the non-public address " ++ address ++ "; the edge is reached only at public addresses (or set EDGE_PROBE_ADDRESS to the edge itself)."))
          else Ok (address, port)
      end
  end.

Definition system_probe_workspace (st : EdgeSettings) (hostname : string) : res probe_failure WorkspaceProbe :=
  match target st hostname with
  | Err f => Err f
  | Ok (address, port) =>
      workspace_probe hostname address port (probe_ca_file st) WORKSPACE_PATH (es_disable_https st)
  end.
Definition system_probe (st : EdgeSettings) (hostname : string) : res probe_failure EdgeProbe :=
  match target st hostname with
  | Err f => Err f
  | Ok (address, port) => probe_edge hostname address port (probe_ca_file st) HEALTH_PATH
  end.
End Prober.
End Probes.

(** ** Properties *)

Section Properties.
Context (wire : ProbeWire) `{External}.

(** Where a probe connects to. *)
Lemma target_ok st hostname address port :
  target wire st hostname = Ok (address, port) ->
  exists host infos, getaddrinfo host port = Some (address :: infos) /\
    (nonempty (EdgeSettings.probe_address st) = None -> host = hostname /\ port = https_port st /\
       (ip_is_global address = true \/ allow_private_from_env = true)).
Proof.
  unfold target. destruct (nonempty (EdgeSettings.probe_address st)) as [fixed|] eqn:Ef.
  - destruct (py_int _) as [p|]; [|done]. destruct (getaddrinfo _ p) as [[|a infos]|] eqn:Ei; try done.
    rewrite bool_decide_false by done. intros [= -> ->]. exists (default "" (before_last ":"%char fixed)), infos. by split.
  - destruct (getaddrinfo hostname (https_port st)) as [[|a infos]|] eqn:Ei; try done.
    rewrite bool_decide_true by done. cbn [andb].
    destruct (ip_is_global a) eqn:Eg, allow_private_from_env eqn:Ep; try done;
      intros [= <- <-]; exists hostname, infos; (split; [done|]); intros _; auto.
Qed.

Lemma workspace_probe_address hostname address port ca path plain p :
  workspace_probe wire hostname address port ca path plain = Ok p -> wp_address p = address.
Proof.
  unfold workspace_probe, workspace_exchange. intros Hp. repeat case_match; simplify_eq; done.
Qed.
Lemma probe_edge_address hostname address port ca path p :
  probe_edge wire hostname address port ca path = Ok p -> ep_address p = address.
Proof. unfold probe_edge. intros Hp. repeat case_match; simplify_eq; done. Qed.

(** A probe without a fixed edge address only reports what a public address said that
    the hostname resolves to now, unless private addresses are allowed. *)
Theorem probes_reach_public_addresses st hostname :
  nonempty (EdgeSettings.probe_address st) = None -> allow_private_from_env = false ->
  (forall p, system_probe wire st hostname = Ok p ->
     ip_is_global (ep_address p) = true /\
     exists infos, getaddrinfo hostname (https_port st) = Some (ep_address p :: infos)) /\
  (forall p, system_probe_workspace wire st hostname = Ok p ->
     ip_is_global (wp_address p) = true /\
     exists infos, getaddrinfo hostname (https_port st) = Some (wp_address p :: infos)).
Proof.
  intros Hn Ha. unfold system_probe, system_probe_workspace.
  destruct (target wire st hostname) as [[address port]|] eqn:Et; [|by split].
  destruct (target_ok _ _ _ _ Et) as (host & infos & Hi & Hp). destruct (Hp Hn) as (-> & -> & Hg).
  assert (ip_is_global address = true) as Hpub by (destruct Hg; congruence).
  split; intros p Hpr; [apply probe_edge_address in Hpr as ->|apply workspace_probe_address in Hpr as ->]; eauto.
Qed.

Definition in_protocol (f : probe_failure) : Prop := match f with ProbeFailed _ _ => True | ProbeEscaped _ => False end.

Lemma target_in_protocol st hostname f :
  (forall fixed, nonempty (EdgeSettings.probe_address st) = Some fixed ->
     is_Some (py_int (default fixed (after_last ":"%char fixed)))) ->
  target wire st hostname = Err f -> in_protocol f.
Proof.
  unfold target. intros Hport. destruct (nonempty (EdgeSettings.probe_address st)) as [fixed|].
  - destruct (Hport fixed eq_refl) as [port ->]. intros Ht. by repeat case_match; simplify_eq.
  - intros Ht. by repeat case_match; simplify_eq.
Qed.

Lemma handshake_in_protocol hostname f e : handshake_error hostname f = Some e -> in_protocol e.
Proof. by destruct f; intros [= <-]. Qed.

(** With an address whose port is a number, whatever the network does the readiness
    probe fails with a code only; so does the workspace probe unless a TLS handshake
    breaks with an [OSError] of another kind. *)
Theorem probes_fail_with_codes st hostname :
  (forall fixed, nonempty (EdgeSettings.probe_address st) = Some fixed ->
     is_Some (py_int (default fixed (after_last ":"%char fixed)))) ->
  (forall f, system_probe wire st hostname = Err f -> in_protocol f) /\
  (forall f, system_probe_workspace wire st hostname = Err f ->
     in_protocol f \/
     f = ProbeEscaped "OSError" /\ es_disable_https st = false /\
     exists address port text, target wire st hostname = Ok (address, port) /\
       wire_handshake wire hostname address port (probe_ca_file st) = Err (HandshakeBroken text)).
Proof.
  intros Hport. unfold system_probe, system_probe_workspace.
  destruct (target wire st hostname) as [[address port]|f0] eqn:Et.
  - split; intros f.
    + unfold probe_edge. destruct (wire_connect _ _ _) as [|[]]; [|by intros [= <-]..].
      destruct (wire_handshake _ _ _ _ _) as [|[]]; [|by intros [= <-]..]. intros Hf.
      by repeat case_match; simplify_eq.
    + unfold workspace_probe, connect_tls, workspace_exchange. destruct (es_disable_https st).
      { intros Hf. left. by repeat case_match; simplify_eq. }
      destruct (wire_connect _ _ _) as [|[]]; [|by (intros [= <-]; left)..].
      destruct (wire_handshake wire hostname address port (probe_ca_file st)) as [|h] eqn:Eh.
      * intros Hf. left. by repeat case_match; simplify_eq.
      * intros [= <-]. destruct (handshake_error hostname h) as [e|] eqn:Ee;
          [left; by apply (handshake_in_protocol hostname h)|]. right. split; [done|]. split; [done|].
        exists address, port. destruct h as [| | |text]; try done. by exists text.
  - pose proof (target_in_protocol st hostname f0 Hport Et) as Hf. split; intros f [= <-]; auto.
Qed.
End Properties.
