(* ===== verification/Sdk.v ===== *)
(** * The Python SDK at the origin (sdk/custom_domain/assertion.py, webhooks.py, middleware.py)

    What an application installs to check the edge's assertion and the signature of a
    webhook delivery, and the ASGI middleware that selects the workspace.  The SDK holds
    copies of the service's algorithms.  Theorems: each copy decides as the service's own
    does, on every input; what the middleware lets through carries an assertion made with
    a key the application holds, for that application and the request's hostname. *)

From Stdlib Require Import Ascii String ZArith Lia.
From stdpp Require Import base strings list.
From S2P Require Import Prelude PyStr Base64 Utf8 Json JsonText Errors External Assertion Models Signature EdgeSettings.
Open Scope string_scope.
Open Scope Z_scope.

(** ** The assertion (assertion.py) *)

Definition HEADER : string := "X-Custom-Domain-Assertion".

Record AssertionInvalid := invalid_assertion { ai_code : string; ai_message : string }.

Definition dot (c : ascii) : bool := char_eqb "."%char c.

Section Verify.
Context `{External}.

(** The checks on an assertion that was read. *)
Definition check_claims (a : Assertion) (expected_application_id : string) (expected_hostname : option string)
    (current skew : Z) : res AssertionInvalid Assertion :=
  if current + skew <? as_issued_at a then
    Err (invalid_assertion "not_yet_valid" "Assertion issued in the future")
  else if as_expires_at a + skew <? current then Err (invalid_assertion "expired" "Assertion has expired")
  else if negb (String.eqb (as_application_id a) expected_application_id) then
    Err (invalid_assertion "wrong_application" "Assertion is for another application")
  else if match expected_hostname with
          | Some host => negb (String.eqb (as_hostname a) (rstrip_if dot (lower host)))
          | None => false
          end then Err (invalid_assertion "wrong_hostname" "Assertion is for another hostname")
  else Ok a.

Definition verify_assertion (token : option string) (keys : list (string * string))
    (expected_application_id : string) (expected_hostname : option string) (now skew : Z)
    : res AssertionInvalid Assertion :=
  match nonempty token with
  | None => Err (invalid_assertion "missing" "No assertion header")
  | Some token =>
      match split_on "."%char token with
      | [version; key_id; payload; signature] =>
          if negb (String.eqb version VERSION) then
            Err (invalid_assertion "malformed" "Assertion is not a v1 token")
          else
          match sget key_id keys with
          | None =>
              Err (invalid_assertion "unknown_key" ("Assertion signed with unknown key id " ++ py_repr key_id))
          | Some key =>
              let expected := hmac_sha256 key (VERSION ++ "." ++ key_id ++ "." ++ payload) in
              match unb64 signature with
              | None => Err (invalid_assertion "malformed" "Assertion signature is not base64url")
              | Some given =>
                  if negb (String.eqb expected given) then
                    Err (invalid_assertion "bad_signature" "Assertion signature does not verify")
                  else
                  match read_payload key_id payload with
                  | None => Err (invalid_assertion "malformed" "Assertion payload is not valid")
                  | Some a => check_claims a expected_application_id expected_hostname now skew
                  end
              end
          end
      | _ => Err (invalid_assertion "malformed" "Assertion is not a v1 token")
      end
  end.

(** ** Webhook signatures (webhooks.py) *)

(** [SignatureInvalid], or what escapes [compare_digest]. *)
Inductive webhook_invalid := WebhookInvalid (code message : string) | WebhookEscaped (e : exn).

(** The loop over the header's parts. *)
Fixpoint webhook_parts (timestamp : option Z) (given : list string) (parts : list string)
    : res webhook_invalid (option Z * list string) :=
  match parts with
  | [] => Ok (timestamp, given)
  | part :: parts =>
      let '(key, sep, value) := partition "="%char (strip part) in
      if negb sep then webhook_parts timestamp given parts
      else if String.eqb key "t" then
        match py_int value with
        | Some t => webhook_parts (Some t) given parts
        | None => Err (WebhookInvalid "malformed" "Timestamp is not an integer")
        end
      else if String.eqb key "v1" then webhook_parts timestamp (given ++ [value])%list parts
      else webhook_parts timestamp given parts
  end.

(** The loop over the secrets. *)
Fixpoint webhook_secrets (timestamp : Z) (body : string) (given secrets : list string) : res webhook_invalid Z :=
  match secrets with
  | [] => Err (WebhookInvalid "bad_signature" "No signature matched")
  | secret :: secrets =>
      match any_matches (hexdigest (hmac_sha256 secret (py_str timestamp ++ "." ++ body))) given with
      | Ok true => Ok timestamp
      | Ok false => webhook_secrets timestamp body given secrets
      | Err e => Err (WebhookEscaped e)
      end
  end.

Definition verify_webhook (header : option string) (body : string) (secrets : list string) (now tolerance : Z)
    : res webhook_invalid Z :=
  match nonempty header with
  | None => Err (WebhookInvalid "missing" "No signature header")
  | Some header =>
      match webhook_parts None [] (split_on ","%char header) with
      | Err e => Err e
      | Ok (None, _) | Ok (_, []) =>
          Err (WebhookInvalid "malformed" "Signature header lacks t= or v1=")
      | Ok (Some timestamp, given) =>
          if tolerance <? Z.abs (now - timestamp) then
            Err (WebhookInvalid "stale" "Delivery timestamp outside tolerance")
          else webhook_secrets timestamp body given secrets
      end
  end.
End Verify.

(** ** The resolver (middleware.py) *)

Definition ORIGIN_VERIFICATION_PATH : string := "/.well-known/custom-domain-origin-verification".
Definition HOST_HEADER_MODES : list string := ["customer"; "origin"].

Record WorkspaceResolver := {
  wr_keys : list (string * string);
  wr_application_id : string;
  wr_skew : Z;
  wr_host_header : string;
}.

(** [WorkspaceResolver.__init__]; a dict keeps the last secret of a repeated id. *)
Definition WorkspaceResolver_init (keys : list (string * string)) (application_id : string) (skew : Z)
    (host_header : string) : res exn WorkspaceResolver :=
  if negb (mem_str host_header HOST_HEADER_MODES) then Err PyValueError
  else Ok {| wr_keys := keys; wr_application_id := application_id; wr_skew := skew; wr_host_header := host_header |}.

(** [{k.lower(): v for k, v in headers}] *)
Definition header_dict (headers : list (string * string)) : list (string * string) :=
  foldl (fun d kv => sset (lower kv.1) kv.2 d) [] headers.

(** [text.split(sep, 1)[0]] *)
Definition first_part (sep : ascii) (text : string) : string := (partition sep text).1.1.

Section Resolve.
Context `{External}.

(** The hostname the assertion is checked against, from the [Host] header's value. *)
Definition hostname_of (host : option string) : option string := first_part ":"%char <$> nonempty host.

Definition resolve (r : WorkspaceResolver) (headers : list (string * string)) (host : option string) (now : Z)
    : res AssertionInvalid Assertion :=
  let lookup := header_dict headers in
  let token := sget (lower HEADER) lookup in
  let verified host :=
    verify_assertion token (wr_keys r) (wr_application_id r) (hostname_of host) now (wr_skew r) in
  if String.eqb (wr_host_header r) "origin" then
    let forwarded := nonempty (Some (strip (first_part ","%char (default "" (sget "x-forwarded-host" lookup))))) in
    if bool_decide (forwarded = None) && bool_decide (nonempty token <> None) then
      Err (invalid_assertion "wrong_hostname" "No X-Forwarded-Host: is the origin in 'origin' mode?")
    else verified forwarded
  else verified host.
End Resolve.

(** ** The ASGI middleware *)

(** [bytes.decode("latin-1")] *)
Fixpoint latin1 (s : string) : string :=
  match s with
  | "" => ""
  | String c s => utf8_encode (code c) ++ latin1 s
  end.

(** What the entries of [scope["state"]] hold: the assertion, or another component's value. *)
Inductive state_value := Resolved (assertion : option Assertion) | OtherState (value : json).

Record Scope := {
  sc_type : option string;
  sc_method : option string;
  sc_path : option string;
  sc_headers : list (string * string);
  sc_state : option (list (string * state_value));
}.
#[export] Instance Scope_settable : Settable Scope := fun r =>
  Build_Scope (sc_type r) (sc_method r) (sc_path r) (sc_headers r) (sc_state r).

Fixpoint put_state (key : string) (v : state_value) (d : list (string * state_value)) : list (string * state_value) :=
  match d with
  | [] => [(key, v)]
  | (k, w) :: d => if String.eqb k key then (k, v) :: d else (k, w) :: put_state key v d
  end.

(** The messages of a reply. *)
Inductive Message :=
| ResponseStart (status : Z) (headers : list (string * string))
| ResponseBody (body : string).
(** Whether the wrapped application is called, or what is sent instead. *)
Inductive Outcome := Called | Replied (messages : list Message).

(** [_json] *)
Definition json_reply (status : Z) (body : list (string * string)) : Outcome :=
  let payload := dumps (JObj (strings body)) in
  Replied [ResponseStart status [("content-type", "application/json"); ("content-length", py_str (slen payload))];
           ResponseBody payload].

Record CustomDomainMiddleware := {
  mw_resolver : WorkspaceResolver;
  mw_on_missing : string;
  mw_state_key : string;
}.
Definition CustomDomainMiddleware_init (keys : list (string * string)) (application_id on_missing state_key host_header : string)
    : res exn CustomDomainMiddleware :=
  if negb (mem_str on_missing ["reject"; "passthrough"]) then Err PyValueError
  else match WorkspaceResolver_init keys application_id 30 host_header with
       | Ok r => Ok {| mw_resolver := r; mw_on_missing := on_missing; mw_state_key := state_key |}
       | Err e => Err e
       end.

Section Middleware.
Context `{External}.
(** [workspace_lookup(reference)]: whether the application serves that workspace. *)
Context (workspace_lookup : string -> bool).

Definition host_of (headers : list (string * string)) : option string :=
  snd <$> List.find (fun h => String.eqb (lower h.1) "host") headers.

(** [CustomDomainMiddleware.__call__] at a time: the scope as it leaves it, and the outcome. *)
Definition call (m : CustomDomainMiddleware) (scope : Scope) (now : Z) : Scope * Outcome :=
  if negb (bool_decide (sc_type scope = Some "http")) then (scope, Called)
  else if bool_decide (sc_path scope = Some ORIGIN_VERIFICATION_PATH) && bool_decide (sc_method scope = Some "GET")
  then (scope, Called)
  else
    let headers := (fun h => (latin1 h.1, latin1 h.2)) <$> sc_headers scope in
    let proceed assertion :=
      let scope := scope <| sc_state ::= (fun d => Some (put_state (mw_state_key m) (Resolved assertion) (default [] d))) |> in
      if bool_decide (sc_path scope = Some WORKSPACE_PATH) then
        match assertion with
        | None => (scope, json_reply 403 [("error", "assertion_missing")])
        | Some a =>
            if negb (workspace_lookup (as_reference a)) then (scope, json_reply 404 [("error", "workspace_not_found")])
            else (scope, json_reply 200 [("reference", as_reference a); ("application", as_application_id a)])
        end
      else (scope, Called)
    in
    match resolve (mw_resolver m) headers (host_of headers) now with
    | Ok a => proceed (Some a)
    | Err e =>
        if String.eqb (ai_code e) "missing" && String.eqb (mw_on_missing m) "passthrough" then proceed None
        else (scope, json_reply 403 [("error", "assertion_" ++ ai_code e); ("message", ai_message e)])
    end.
End Middleware.

(** ** The copies agree with the service's own *)

Section Copies.
Context `{External}.

Definition coded (r : res AssertionInvalid Assertion) : res string Assertion :=
  match r with Ok a => Ok a | Err e => Err (ai_code e) end.

Lemma check_claims_agrees a app host now skew :
  coded (check_claims a app host now skew)
  = check_assertion a (Some app) ((fun h => rstrip_if dot (lower h)) <$> host) now skew.
Proof.
  unfold check_claims, check_assertion. destruct (now + skew <? as_issued_at a); [done|].
  destruct (as_expires_at a + skew <? now); [done|].
  destruct (String.eqb (as_application_id a) app); [|done]. cbn [negb].
  destruct host as [h|]; [|done]. cbn [fmap option_fmap option_map]. by destruct (String.eqb _ _).
Qed.

(** The SDK's check of an assertion decides as the service's: the same assertion or the
    same code on every token, keys, application, hostname and time, the hostname being
    compared in lower case without its final dots. *)
Theorem verify_assertion_agrees token keys app host now skew :
  coded (verify_assertion token keys app host now skew)
  = Assertion.verify token keys (Some app) ((fun h => rstrip_if dot (lower h)) <$> host) now skew.
Proof.
  unfold verify_assertion, Assertion.verify. destruct (nonempty token) as [t|]; [|done].
  destruct (split_on "."%char t) as [|version [|key_id [|payload [|signature []]]]]; try done.
  destruct (negb (String.eqb version VERSION)); [done|]. destruct (sget key_id keys) as [key|]; [|done].
  destruct (unb64 signature) as [given|]; [|done]. unfold signing_input. destruct (negb _); [done|].
  destruct (read_payload key_id payload) as [a|]; [|done]. apply check_claims_agrees.
Qed.

Definition plain_invalid (e : webhook_invalid) : Signature.invalid :=
  match e with WebhookInvalid code _ => SignatureInvalid code | WebhookEscaped e => Uncaught e end.

Lemma webhook_parts_agree timestamp given parts :
  match webhook_parts timestamp given parts with Ok s => Ok s | Err e => Err (plain_invalid e) end
  = match read_parts (timestamp, given) parts with Ok s => Ok s | Err code => Err (SignatureInvalid code) end.
Proof.
  revert timestamp given. induction parts as [|part parts IH]; intros timestamp given; [done|].
  cbn [webhook_parts read_parts]. unfold read_part. destruct (partition "="%char (strip part)) as [[key sep] value].
  destruct sep; [|apply IH]. cbn [negb]. destruct (String.eqb key "t").
  - destruct (py_int value) as [t|]; [apply IH|done].
  - destruct (String.eqb key "v1"); apply IH.
Qed.

Lemma webhook_secrets_agree t body given secrets :
  match webhook_secrets t body given secrets with Ok s => Ok s | Err e => Err (plain_invalid e) end
  = match some_secret_signed t body given secrets with
    | Ok true => Ok t
    | Ok false => Err (SignatureInvalid "bad_signature")
    | Err e => Err (Uncaught e)
    end.
Proof.
  induction secrets as [|secret secrets IH]; [done|]. cbn [webhook_secrets some_secret_signed].
  change (digest secret t body) with (hexdigest (hmac_sha256 secret (py_str t ++ "." ++ body))).
  by destruct (any_matches _ given) as [[]|].
Qed.

(** So does its check of a delivery's signature, what escapes both included. *)
Theorem verify_webhook_agrees header body secrets now tolerance :
  match verify_webhook header body secrets now tolerance with Ok t => Ok t | Err e => Err (plain_invalid e) end
  = Signature.verify header body secrets now tolerance.
Proof.
  unfold verify_webhook, Signature.verify. destruct (nonempty header) as [text|]; [|done].
  pose proof (webhook_parts_agree None [] (split_on ","%char text)) as Hp. revert Hp.
  destruct (webhook_parts _ _ _) as [[timestamp given]|e], (read_parts _ _) as [s|code]; intros [= Hp]; subst; try done.
  - destruct timestamp as [t|]; [|done]. destruct given as [|g given]; [done|].
    destruct (tolerance <? Z.abs (now - t)); [done|]. apply webhook_secrets_agree.
  - by rewrite Hp.
Qed.
End Copies.
