(* ===== verification/SdkModels.v ===== *)
(** * What the Python SDK reads (sdk/custom_domain/models.py, webhooks.py)

    The objects of the SDK and how each is read from the JSON of an answer or of a
    webhook's body; a document of another shape raises what the subscript, the iteration
    or [fromisoformat] raises.  Fields nothing computes with hold the JSON they had.
    That the service's documents are read without loss is in SdkApi.v. *)

From Stdlib Require Import Ascii String ZArith Lia.
From stdpp Require Import base strings list.
From S2P Require Import Prelude PyStr Datetime Utf8 Json JsonText Errors External Assertion.
Open Scope string_scope.
Open Scope Z_scope.

(** ** Reading JSON values *)

(** [data[k]] *)
Definition item (k : string) (data : json) : res exn json :=
  match data with
  | JObj d => match dget k d with Some v => Ok v | None => Err PyKeyError end
  | _ => Err PyTypeError
  end.
(** [data.get(k, otherwise)] *)
Definition get_or (k : string) (otherwise : json) (data : json) : res exn json :=
  match data with JObj d => Ok (default otherwise (dget k d)) | _ => Err PyAttributeError end.
(** What a [for] over the value goes through. *)
Definition iterated (data : json) : res exn (list json) :=
  match data with
  | JArr l => Ok l
  | JObj d => Ok (JStr <$> dkeys d)
  | JStr s => Ok ((fun n => JStr (utf8_encode n)) <$> code_points s)
  | _ => Err PyTypeError
  end.
(** [datetime.fromisoformat(value)] *)
Definition iso_value (value : json) : res exn Z :=
  match value with
  | JStr s => match fromisoformat s with Some t => Ok t | None => Err PyValueError end
  | _ => Err PyTypeError
  end.
(** [_dt] *)
Definition dt (value : json) : res exn (option Z) :=
  if truthy value then t ← iso_value value; Ok (Some t) else Ok None.

(** [[f(x) for x in l]] *)
Fixpoint each {A} (f : json -> res exn A) (l : list json) : res exn (list A) :=
  match l with
  | [] => Ok []
  | x :: l => y ← f x; ys ← each f l; Ok (y :: ys)
  end.

(** ** Models (models.py): fields nothing reads hold what the JSON had *)

Record DnsRecord := {
  record_name : json; record_type : json; record_value : json; record_purpose : json; record_help : json }.
Record Check := {
  check_type : json; check_status : json; check_error_code : json; check_message : json;
  check_observed_at : option Z; check_next_check_at : option Z }.
Record SetupProvider := { provider_id : json; provider_name : json }.
Record Setup := {
  setup_method : json; setup_provider : option SetupProvider; setup_zone : json; setup_host : json;
  setup_guide_url : json; setup_detected_at : option Z }.
Record ConnectUrl := { link_url : json; link_provider : option SetupProvider; link_expires_at : option Z }.
Record ConnectSession := {
  session_id : json; session_url : json; session_expires_at : option Z; session_created_at : option Z }.
Record Domain := {
  domain_id : json; domain_hostname : json; domain_reference : json; domain_status : json;
  domain_dns_records : list DnsRecord; domain_checks : list Check; domain_metadata : json;
  domain_created_at : option Z; domain_updated_at : option Z; domain_deleted_at : option Z;
  domain_setup : option Setup }.
Record Page := { page_items : list Domain; page_limit : json; page_offset : json; page_next_offset : json }.
Record Webhook := {
  webhook_id : json; webhook_url : json; webhook_events : list json; webhook_active : json;
  webhook_created_at : option Z; webhook_revoked_at : option Z; webhook_previous_secret_expires_at : option Z;
  webhook_secret : json }.
Record Delivery := {
  delivery_id : json; delivery_event_id : json; delivery_event_type : json; delivery_domain_id : json;
  delivery_state : json; delivery_attempts : json; delivery_next_attempt_at : option Z;
  delivery_delivered_at : option Z; delivery_last_status : json; delivery_last_error : json;
  delivery_created_at : option Z }.
Record WebhookEvent := {
  event_id : json; event_type : json; event_created_at : Z; event_domain : Domain; event_raw : json }.

Definition record_from (data : json) : res exn DnsRecord :=
  name ← item "name" data; type ← item "type" data; value ← item "value" data; purpose ← item "purpose" data;
  help ← get_or "help" (JStr "") data;
  Ok {| record_name := name; record_type := type; record_value := value; record_purpose := purpose; record_help := help |}.

Definition check_from (data : json) : res exn Check :=
  type ← item "type" data; status ← item "status" data;
  error_code ← get_or "error_code" JNull data; message ← get_or "message" JNull data;
  observed ← get_or "observed_at" JNull data; observed ← dt observed;
  next ← get_or "next_check_at" JNull data; next ← dt next;
  Ok {| check_type := type; check_status := status; check_error_code := error_code; check_message := message;
        check_observed_at := observed; check_next_check_at := next |}.

(** [SetupProvider(provider["id"], provider["name"]) if provider else None] *)
Definition provider_from (provider : json) : res exn (option SetupProvider) :=
  if truthy provider then
    id ← item "id" provider; name ← item "name" provider;
    Ok (Some {| provider_id := id; provider_name := name |})
  else Ok None.

Definition setup_from (data : json) : res exn Setup :=
  provider ← get_or "provider" JNull data;
  method ← get_or "method" JNull data;
  provider ← provider_from provider;
  zone ← item "zone" data; host ← item "host" data;
  guide_url ← get_or "guide_url" JNull data;
  detected ← get_or "detected_at" JNull data; detected ← dt detected;
  Ok {| setup_method := method; setup_provider := provider; setup_zone := zone; setup_host := host;
        setup_guide_url := guide_url; setup_detected_at := detected |}.

Definition connect_url_from (data : json) : res exn ConnectUrl :=
  provider ← get_or "provider" JNull data;
  url ← item "url" data;
  provider ← provider_from provider;
  expires ← get_or "expires_at" JNull data; expires ← dt expires;
  Ok {| link_url := url; link_provider := provider; link_expires_at := expires |}.

Definition connect_session_from (data : json) : res exn ConnectSession :=
  id ← item "id" data; url ← item "url" data;
  expires ← get_or "expires_at" JNull data; expires ← dt expires;
  created ← get_or "created_at" JNull data; created ← dt created;
  Ok {| session_id := id; session_url := url; session_expires_at := expires; session_created_at := created |}.

Definition domain_from (data : json) : res exn Domain :=
  id ← item "id" data; hostname ← item "hostname" data; reference ← item "reference" data;
  status ← item "status" data;
  records ← get_or "dns_records" (JArr []) data; records ← iterated records; records ← each record_from records;
  checks ← get_or "checks" (JArr []) data; checks ← iterated checks; checks ← each check_from checks;
  metadata ← get_or "metadata" JNull data;
  created ← item "created_at" data; created ← dt created;
  updated ← item "updated_at" data; updated ← dt updated;
  deleted ← get_or "deleted_at" JNull data; deleted ← dt deleted;
  given ← get_or "setup" JNull data;
  setup ← (if truthy given then given ← item "setup" data; s ← setup_from given; Ok (Some s) else Ok None);
  Ok {| domain_id := id; domain_hostname := hostname; domain_reference := reference; domain_status := status;
        domain_dns_records := records; domain_checks := checks; domain_metadata := metadata;
        domain_created_at := created; domain_updated_at := updated; domain_deleted_at := deleted;
        domain_setup := setup |}.

Definition webhook_from (data : json) : res exn Webhook :=
  id ← item "id" data; url ← item "url" data;
  events ← item "events" data; events ← iterated events;
  active ← item "active" data;
  created ← item "created_at" data; created ← dt created;
  revoked ← get_or "revoked_at" JNull data; revoked ← dt revoked;
  previous ← get_or "previous_secret_expires_at" JNull data; previous ← dt previous;
  secret ← get_or "secret" JNull data;
  Ok {| webhook_id := id; webhook_url := url; webhook_events := events; webhook_active := active;
        webhook_created_at := created; webhook_revoked_at := revoked;
        webhook_previous_secret_expires_at := previous; webhook_secret := secret |}.

Definition delivery_from (data : json) : res exn Delivery :=
  id ← item "id" data; event_id ← item "event_id" data; event_type ← item "event_type" data;
  domain_id ← get_or "domain_id" JNull data;
  state ← item "state" data; attempts ← item "attempts" data;
  next ← get_or "next_attempt_at" JNull data; next ← dt next;
  delivered ← get_or "delivered_at" JNull data; delivered ← dt delivered;
  last_status ← get_or "last_status" JNull data; last_error ← get_or "last_error" JNull data;
  created ← item "created_at" data; created ← dt created;
  Ok {| delivery_id := id; delivery_event_id := event_id; delivery_event_type := event_type;
        delivery_domain_id := domain_id; delivery_state := state; delivery_attempts := attempts;
        delivery_next_attempt_at := next; delivery_delivered_at := delivered; delivery_last_status := last_status;
        delivery_last_error := last_error; delivery_created_at := created |}.

(** [parse_event] of webhooks.py; [PyValueError] when the body is no JSON document. *)
Definition parse_event (body : string) : res exn WebhookEvent :=
  data ← require (loads body) PyValueError;
  id ← item "id" data; type ← item "type" data;
  created ← item "created_at" data; created ← iso_value created;
  inner ← item "data" data; inner ← item "domain" inner; domain ← domain_from inner;
  Ok {| event_id := id; event_type := type; event_created_at := created; event_domain := domain; event_raw := data |}.

Definition is_code (code : json) (text : string) : bool :=
  match code with JStr c => String.eqb c text | _ => false end.
Definition is_ready (d : Domain) : bool := is_code (domain_status d) "ready".
(** [Domain.check] *)
Definition check_named (d : Domain) (wanted : string) : option Check :=
  List.find (fun c => is_code (check_type c) wanted) (domain_checks d).
