(* ===== verification/SdkClient.v ===== *)
(** * The Python SDK's client (sdk/custom_domain/errors.py, client.py)

    The error an answer becomes, every call, and the request loop with its retries.  The network is a parameter that carries its own state: [send]
    performs one HTTP request and [sleep] waits.  Theorems: no call sends more than the
    retries allow, a call that may not be repeated is sent once, and a call that ends
    has an answer below 400 or a reason.  What the calls mean to the service is in
    SdkApi.v. *)

From Stdlib Require Import Ascii String ZArith Lia.
From stdpp Require Import base strings list.
From S2P Require Import Prelude PyStr Datetime Utf8 Json JsonText Errors External Assertion PortalAuth SdkModels.
Open Scope string_scope.
Open Scope Z_scope.

(** ** Errors (errors.py) *)

Inductive error_kind :=
| AuthenticationError | PermissionDeniedError | CredentialReadOnlyError | NotFoundError | ConflictError
| DomainConnectUnavailableError | ConnectPageUnavailableError | ValidationError | RateLimitedError | ServerError
| PlainApiError.
#[export] Instance error_kind_eq_dec : EqDecision error_kind.
Proof. solve_decision. Defined.

(** [ApiError] and its subclasses; [retry_after] is that of [RateLimitedError]. *)
Record SdkError := {
  se_kind : error_kind;
  se_status : Z;
  se_code : json;
  se_message : json;
  se_details : json;
  se_retry_after : Z;
}.

Definition kind_for (status : Z) (code : json) : error_kind :=
  if status =? 401 then AuthenticationError
  else if status =? 403 then
    if is_code code "credential_read_only" then CredentialReadOnlyError else PermissionDeniedError
  else if status =? 404 then NotFoundError
  else if status =? 409 then
    if is_code code "domain_connect_unavailable" then DomainConnectUnavailableError
    else if is_code code "connect_page_unavailable" then ConnectPageUnavailableError
    else ConflictError
  else if status =? 422 then ValidationError
  else if status =? 429 then RateLimitedError
  else if 500 <=? status then ServerError
  else PlainApiError.

Definition error_for (status : Z) (code message details : json) (retry_after : option Z) : SdkError :=
  {| se_kind := kind_for status code; se_status := status; se_code := code; se_message := message;
     se_details := if truthy details then details else JObj [];
     se_retry_after := match retry_after with Some n => if n =? 0 then 1 else n | None => 1 end |}.

(** ** Requests and answers (client.py) *)

Record ClientRequest := {
  cq_method : string;
  cq_path : string;
  cq_json : option json;
  cq_params : list (string * string);
  cq_headers : list (string * string);
}.
Record Response := { resp_status : Z; resp_headers : list (string * string); resp_text : string }.

(** What a call raises: an [ApiError], a [TransportError] with its text, or another exception. *)
Inductive client_failure := Refused (e : SdkError) | Transport (text : string) | Raised (e : exn).

Definition DEFAULT_MAX_RETRIES : Z := 2.
Definition FIRST_DELAY : Z := 500000.

Record Client := { client_base_url : string; client_credential : string; client_max_retries : Z }.
(** [Client.__init__] *)
Definition Client_init (base_url credential : string) (max_retries : Z) : res exn Client :=
  if negb (startswith "cd_" credential) then Err PyValueError
  else Ok {| client_base_url := rstrip_if (char_eqb "/"%char) base_url; client_credential := credential;
             client_max_retries := Z.max 0 max_retries |}.

(** [response.headers.get(name)] *)
Definition response_header (name : string) (r : Response) : option string :=
  snd <$> List.find (fun h => String.eqb (lower h.1) (lower name)) (resp_headers r).

(** [_error]: the error of an answer, or what reading it raises. *)
Definition error_of (r : Response) : res exn SdkError :=
  body ← (match loads (resp_text r) with Some data => get_or "error" (JObj []) data | None => Ok (JObj []) end);
  code ← get_or "code" (JStr "http_error") body;
  message ← get_or "message" (JStr (utake 200 (resp_text r))) body;
  details ← get_or "details" JNull body;
  let retry_after := match nonempty (response_header "Retry-After" r) with
                     | Some text => if isdigit text then py_int text else None
                     | None => None
                     end in
  Ok (error_for (resp_status r) code message details retry_after).

Section Calls.
Context {W : Type}.
(** One HTTP exchange, with the text of the [httpx.HTTPError] when there is no answer. *)
Context (send : ClientRequest -> W -> res string Response * W).
(** [time.sleep] of so many microseconds. *)
Context (sleep : Z -> W -> W).

(** The loop of [_request] with [todo] attempts to go; the last line of Python asserts that
    an error was kept. *)
Fixpoint attempt (todo : nat) (retryable : bool) (delay : Z) (last_error : option client_failure)
    (rq : ClientRequest) (w : W) : res client_failure Response * W :=
  match todo with
  | O => (Err (default (Raised PyRuntimeError) last_error), w)
  | S todo =>
      let final := Nat.eqb todo 0 in
      let wait_longer error w :=
        if final then attempt todo retryable delay (Some error) rq w
        else attempt todo retryable (delay * 2) (Some error) rq (sleep delay w) in
      match send rq w with
      | (Err text, w) => wait_longer (Transport text) w
      | (Ok response, w) =>
          if resp_status response <? 400 then (Ok response, w) else
          match error_of response with
          | Err e => (Err (Raised e), w)
          | Ok error =>
              if negb retryable || final then (Err (Refused error), w)
              else if bool_decide (se_kind error = RateLimitedError) then
                attempt todo retryable delay last_error rq (sleep (seconds (se_retry_after error)) w)
              else if resp_status response <? 500 then (Err (Refused error), w)
              else wait_longer (Refused error) w
          end
      end
  end.

Definition attempts_of (c : Client) (retryable : bool) : nat :=
  if retryable then Z.to_nat (client_max_retries c + 1) else 1%nat.

(** [_request] *)
Definition request (c : Client) (method path : string) (body : option json) (params headers : list (string * string))
    (retryable : bool) : W -> res client_failure Response * W :=
  attempt (attempts_of c retryable) retryable FIRST_DELAY None
    {| cq_method := method; cq_path := client_base_url c ++ path; cq_json := body; cq_params := params;
       cq_headers := ("Authorization", "Bearer " ++ client_credential c) :: headers |}.

(** [f(self._request(...).json())] *)
Definition reading {A} (f : json -> res exn A) (call : W -> res client_failure Response * W) (w : W)
    : res client_failure A * W :=
  match call w with
  | (Err e, w) => (Err e, w)
  | (Ok response, w) =>
      (match require (loads (resp_text response)) PyValueError ≫= f with Ok a => Ok a | Err e => Err (Raised e) end, w)
  end.
End Calls.

(** ** The calls *)

Definition given {A} (key : string) (f : A -> json) (o : option A) : list (string * json) :=
  match o with Some v => [(key, f v)] | None => [] end.
Definition given_param {A} (key : string) (f : A -> string) (o : option A) : list (string * string) :=
  match o with Some v => [(key, f v)] | None => [] end.

(** How httpx writes a parameter that is no list. *)
Definition param_text (v : json) : string :=
  match v with JBool true => "true" | JBool false => "false" | JNull => "" | _ => str_of v end.

Section Methods.
Context {W : Type} (send : ClientRequest -> W -> res string Response * W) (sleep : Z -> W -> W) (c : Client).

Definition domain_path (domain_id : string) : string := "/v1/domains/" ++ domain_id.
Definition webhook_path (webhook_id : string) : string := "/v1/webhooks/" ++ webhook_id.

Definition create_domain (hostname reference : string) (metadata : option dict) (idempotency_key : option string) :=
  let body := ([("hostname", JStr hostname); ("reference", JStr reference)] ++ given "metadata" JObj metadata)%list in
  let headers := given_param "Idempotency-Key" id (nonempty idempotency_key) in
  reading SdkModels.domain_from
    (request send sleep c "POST" "/v1/domains" (Some (JObj body)) [] headers (bool_decide (idempotency_key <> None))).

Definition get_domain (domain_id : string) (include_deleted : bool) :=
  let params := if include_deleted then [("include_deleted", "true")] else [] in
  reading SdkModels.domain_from (request send sleep c "GET" (domain_path domain_id) None params [] true).

Definition page_from (data : json) : res exn SdkModels.Page :=
  items ← item "items" data; items ← iterated items; items ← each SdkModels.domain_from items;
  limit ← item "limit" data; offset ← item "offset" data; next ← get_or "next_offset" JNull data;
  Ok {| SdkModels.page_items := items; SdkModels.page_limit := limit; SdkModels.page_offset := offset; SdkModels.page_next_offset := next |}.

Definition list_domains (reference status : option string) (include_deleted : bool) (limit : Z) (offset : json) :=
  let params := ([("limit", py_str limit); ("offset", param_text offset)] ++ given_param "reference" id reference
                 ++ given_param "status" id status
                 ++ (if include_deleted then [("include_deleted", "true")] else []))%list in
  reading page_from (request send sleep c "GET" "/v1/domains" None params [] true).

(** [iter_domains]: what it yields with so many pages, and how it ends; [None]: it goes on. *)
Fixpoint iter_pages (pages : nat) (reference status : option string) (page_size : Z) (offset : json) (w : W)
    : list SdkModels.Domain * option (res client_failure unit) * W :=
  match pages with
  | O => ([], None, w)
  | S pages =>
      match list_domains reference status false page_size offset w with
      | (Err e, w) => ([], Some (Err e), w)
      | (Ok page, w) =>
          match SdkModels.page_next_offset page with
          | JNull => (SdkModels.page_items page, Some (Ok tt), w)
          | next =>
              let '(rest, ended, w) := iter_pages pages reference status page_size next w in
              ((SdkModels.page_items page ++ rest)%list, ended, w)
          end
      end
  end.
Definition iter_domains (pages : nat) (reference status : option string) (page_size : Z) :=
  iter_pages pages reference status page_size (JInt 0).

Definition request_recheck (domain_id : string) :=
  reading SdkModels.domain_from (request send sleep c "POST" (domain_path domain_id ++ "/checks") None [] [] false).

Definition connect_url (domain_id : string) (redirect_uri state : option string) :=
  let body := (given "redirect_uri" JStr redirect_uri ++ given "state" JStr state)%list in
  reading SdkModels.connect_url_from
    (request send sleep c "POST" (domain_path domain_id ++ "/connect") (Some (JObj body)) [] [] false).

Definition connect_session (domain_id : string) (ttl_seconds : option Z) (app_name return_url : option string) :=
  let body := (given "ttl_seconds" JInt ttl_seconds ++ given "app_name" JStr app_name
               ++ given "return_url" JStr return_url)%list in
  reading SdkModels.connect_session_from
    (request send sleep c "POST" (domain_path domain_id ++ "/connect-session") (Some (JObj body)) [] [] false).

Definition revoke_connect_session (domain_id session_id : string) (w : W) : res client_failure unit * W :=
  match request send sleep c "DELETE" (domain_path domain_id ++ "/connect-session/" ++ session_id) None [] [] true w with
  | (Ok _, w) => (Ok tt, w)
  | (Err e, w) => (Err e, w)
  end.

Definition delete_domain (domain_id : string) :=
  reading SdkModels.domain_from (request send sleep c "DELETE" (domain_path domain_id) None [] [] true).

Definition create_webhook (url : string) (events : list string) :=
  reading SdkModels.webhook_from
    (request send sleep c "POST" "/v1/webhooks" (Some (JObj [("url", JStr url); ("events", jstr_list events)])) [] [] false).
Definition list_webhooks :=
  reading (fun data => l ← iterated data; each SdkModels.webhook_from l)
    (request send sleep c "GET" "/v1/webhooks" None [] [] true).
Definition revoke_webhook (webhook_id : string) :=
  reading SdkModels.webhook_from (request send sleep c "DELETE" (webhook_path webhook_id) None [] [] true).
Definition rotate_webhook_secret (webhook_id : string) :=
  reading SdkModels.webhook_from (request send sleep c "POST" (webhook_path webhook_id ++ "/rotate") None [] [] false).

Definition list_deliveries (webhook_id : string) (state : option string) (limit offset : Z) :=
  let params := ([("limit", py_str limit); ("offset", py_str offset)] ++ given_param "state" id (nonempty state))%list in
  reading (fun data => l ← iterated data; each SdkModels.delivery_from l)
    (request send sleep c "GET" (webhook_path webhook_id ++ "/deliveries") None params [] true).
Definition replay_delivery (webhook_id delivery_id : string) :=
  reading SdkModels.delivery_from
    (request send sleep c "POST" (webhook_path webhook_id ++ "/deliveries/" ++ delivery_id ++ "/replay") None [] [] true).
(** [int(data["requeued"])] *)
Definition replay_since (webhook_id : string) (since : Z) :=
  reading (fun data => n ← item "requeued" data; int_of_json n)
    (request send sleep c "POST" (webhook_path webhook_id ++ "/replay") None [("since", isoformat since)] [] true).
End Methods.

(** ** Properties *)

Lemma error_of_raises r e : error_of r = Err e -> e = PyAttributeError.
Proof.
  unfold error_of, get_or. destruct (loads (resp_text r)) as [[| | | | |d]|]; try by intros [= <-].
  cbn [mbind res_bind]. destruct (default (JObj []) (dget "error" d)); by intros [= <-].
Qed.

Section Properties.
Context {W : Type} (send : ClientRequest -> W -> res string Response * W) (sleep : Z -> W -> W).

(** The network with a record of what each request brought, the last one first. *)
Definition Answers : Type := list (res string Response).
Definition logged_send (rq : ClientRequest) (x : W * Answers) : res string Response * (W * Answers) :=
  let '(r, w) := send rq x.1 in (r, (w, r :: x.2)).
Definition logged_sleep (d : Z) (x : W * Answers) : W * Answers := (sleep d x.1, x.2).

(** The result of a call, given what its last request brought. *)
Definition ended (r : res client_failure Response) (last : option (res string Response)) : Prop :=
  match r, last with
  | Ok response, Some (Ok answer) => answer = response /\ resp_status answer < 400
  | Err (Refused e), Some (Ok answer) => 400 <= resp_status answer /\ error_of answer = Ok e
  | Err (Raised e), Some (Ok answer) => 400 <= resp_status answer /\ error_of answer = Err e /\ e = PyAttributeError
  | Err (Transport text), Some (Err failure) => text = failure
  | _, _ => False
  end.

(** What is worth another request. *)
Definition worth_retrying (answer : res string Response) : Prop :=
  match answer with Ok response => resp_status response = 429 \/ 500 <= resp_status response | Err _ => True end.

Lemma rate_limited_status r e : error_of r = Ok e -> se_kind e = RateLimitedError -> resp_status r = 429.
Proof.
  unfold error_of. destruct (match loads _ with Some _ => _ | None => _ end) as [body|]; [|done]. cbn [mbind res_bind].
  destruct (get_or "code" _ body) as [code|]; [|done]. cbn [mbind res_bind].
  destruct (get_or "message" _ body) as [message|]; [|done]. cbn [mbind res_bind].
  destruct (get_or "details" _ body) as [details|]; [|done]. cbn [mbind res_bind]. intros [= <-].
  unfold error_for, kind_for. cbn [se_kind]. repeat case_match; done || lia.
Qed.

Lemma attempt_ends todo retryable delay last rq x r x' :
  attempt logged_send logged_sleep todo retryable delay last rq x = (r, x') ->
  (todo = O -> exists e, last = Some e /\ ended (Err e) (head x.2)) ->
  exists l, x'.2 = (l ++ x.2)%list /\ (List.length l <= todo)%nat /\ (todo <> O -> l <> []) /\
    ended r (head x'.2) /\ Forall worth_retrying (tail l).
Proof.
  revert delay last x. induction todo as [|todo IH]; intros delay last x; cbn [attempt].
  { intros [= <- <-] Hz. destruct (Hz eq_refl) as (e & -> & He). exists []. cbn. split_and!; try done; try lia. }
  intros Hr _. unfold logged_send at 1 in Hr. destruct (send rq x.1) as [answer w] eqn:Es.
  assert (forall r, ended r (Some answer) -> forall s, s = (w, answer :: x.2) ->
    exists l, s.2 = (l ++ x.2)%list /\ (List.length l <= S todo)%nat /\ (S todo <> O -> l <> []) /\
      ended r (head s.2) /\ Forall worth_retrying (tail l)) as Hnow.
  { intros r0 He s ->. exists [answer]. cbn. split_and!; try done; lia. }
  assert (forall d last' v, worth_retrying answer ->
    (todo = O -> exists e, last' = Some e /\ ended (Err e) (Some answer)) ->
    attempt logged_send logged_sleep todo retryable d last' rq (v, answer :: x.2) = (r, x') ->
    exists l, x'.2 = (l ++ x.2)%list /\ (List.length l <= S todo)%nat /\ (S todo <> O -> l <> []) /\
      ended r (head x'.2) /\ Forall worth_retrying (tail l)) as Hagain.
  { intros d last' v Hw Hz Hrun. apply IH in Hrun as (l & E & Hlen & Hne & He & Hall); [|exact Hz].
    cbn [snd] in E. exists (l ++ [answer])%list. rewrite E in He |- *. rewrite <- app_assoc. split_and!; [done|rewrite length_app; cbn; lia| |done|].
    - by destruct l.
    - destruct l as [|y l]; [by constructor|]. cbn [app tail] in *. apply Forall_app. split; [done|by constructor]. }
  destruct answer as [response|text].
  - destruct (Z.ltb_spec (resp_status response) 400) as [Hs|Hs]; [injection Hr as <- <-; by apply Hnow|].
    destruct (error_of response) as [error|e] eqn:Ee.
    2:{ injection Hr as <- <-. apply Hnow; [|done]. cbn. split_and!; [lia|done|by apply error_of_raises in Ee]. }
    destruct (negb retryable || Nat.eqb todo 0) eqn:Ef; [injection Hr as <- <-; by apply Hnow|].
    apply orb_false_elim in Ef as [Hrt%negb_false_iff Hf%Nat.eqb_neq].
    case_bool_decide as Hk; [|destruct (Z.ltb_spec (resp_status response) 500) as [Hs5|Hs5]].
    + eapply Hagain; [left; by eapply rate_limited_status|done|exact Hr].
    + injection Hr as <- <-. by apply Hnow.
    + rewrite (proj2 (Nat.eqb_neq todo 0)) in Hr by done. eapply Hagain; [by right|done|exact Hr].
  - destruct (Nat.eqb todo 0); (eapply Hagain; [done| |exact Hr]); intros _; by eexists.
Qed.

(** C34: A call ends after at most one request and its retries: it sends at least one and at
    most [max_retries + 1] requests, exactly one when it may not be repeated, whatever
    the network answers.  It ends with what its last request brought: an answer below
    400, the error that answer says (or the [AttributeError] of a body that is JSON of
    another shape), or the transport's failure; and each request before the last failed
    in the transport or was answered with 429 or 500 and above. *)
Theorem requests_are_bounded c method path body params headers retryable w r w' l :
  request logged_send logged_sleep c method path body params headers retryable (w, []) = (r, (w', l)) ->
  0 <= client_max_retries c ->
  1 <= Z.of_nat (List.length l) <= (if retryable then client_max_retries c + 1 else 1) /\
  ended r (head l) /\ Forall worth_retrying (tail l).
Proof.
  unfold request, attempts_of. intros Hr Hc. assert ((if retryable then Z.to_nat (client_max_retries c + 1) else 1%nat) <> O) as Hn
    by (destruct retryable; lia).
  apply attempt_ends in Hr as (l' & E & Hlen & Hne & He & Hall); [|done]. cbn [snd] in *. rewrite app_nil_r in E. subst l'.
  specialize (Hne Hn). assert (List.length l <> O) by (by destruct l). split; [|by split]. destruct retryable; lia.
Qed.


(** What holds of the world before and after each exchange holds when the call ends,
    and an answer it returns is the last one. *)
Lemma attempt_keeps (P : W -> Prop) (Q : Response -> W -> Prop) rq :
  (forall w r w', P w -> send rq w = (r, w') ->
     P w' /\ forall response, r = Ok response -> resp_status response < 400 -> Q response w') ->
  (forall d w, P w -> P (sleep d w)) ->
  forall todo retryable delay last w r w',
    P w -> attempt send sleep todo retryable delay last rq w = (r, w') ->
    P w' /\ forall response, r = Ok response -> Q response w'.
Proof.
  intros Hsend Hsleep. induction todo as [|todo IH]; intros retryable delay last w r w' HP; cbn [attempt].
  { intros [= <- <-]. split; [done|]. by intros response. }
  destruct (send rq w) as [[response|text] w1] eqn:Es; destruct (Hsend _ _ _ HP Es) as [HP1 HQ].
  - destruct (Z.ltb_spec (resp_status response) 400) as [Hs|Hs].
    { intros [= <- <-]. split; [done|]. intros x [= <-]. by apply HQ. }
    destruct (error_of response) as [error|e]; [|by intros [= <- <-]].
    destruct (negb retryable || Nat.eqb todo 0); [by intros [= <- <-]|].
    case_bool_decide; [apply IH; by apply Hsleep|]. destruct (resp_status response <? 500); [by intros [= <- <-]|].
    destruct (Nat.eqb todo 0); apply IH; [done|by apply Hsleep].
  - destruct (Nat.eqb todo 0); apply IH; [done|by apply Hsleep].
Qed.
End Properties.

(** An answer whose [error] is no object, as the SDK's own middleware writes it, is not
    reported as an [ApiError]: reading it raises. *)
Lemma other_error_shapes_raise status :
  error_of {| resp_status := status; resp_headers := [];
              resp_text := dumps (JObj [("error", JStr "assertion_missing")]) |} = Err PyAttributeError.
Proof.
  unfold error_of. cbn [resp_text].
  change (JObj [("error", JStr "assertion_missing")]) with (JObj (strings [("error", "assertion_missing")])).
  rewrite loads_dumps_strings; [done|by apply NoDup_singleton|by repeat constructor].
Qed.
