(* ===== verification/Traffic.v ===== *)
(** * Traffic counted at the edge (app/services/traffic.py, app/edge/traffic.py)

    Turning Caddy's running totals into each application's day, and reading them.
    Theorems: a reading adds exactly the increase of each owned hostname since the
    previous reading, however Caddy restarted in between; a second reading of the
    same totals adds nothing; the listing shows every day of the range once. *)

From Stdlib Require Import Ascii String ZArith Lia.
From stdpp Require Import base gmap strings list sorting.
From S2P Require Import Prelude PyStr Datetime Json Errors External Models Url Dns EdgeConfig.
Open Scope string_scope.
Open Scope Z_scope.

Definition TRAFFIC_RETENTION_DAYS : Z := 400.
Definition OTHER_HOST : string := "_other".
Definition COUNTER_EXPIRY : Z := days 30.

(** [Mapping[str, tuple[int, int]]], in its order. *)
Definition Totals : Type := list (string * (Z * Z)).

(** [{host.lower(): ... for host, ... in totals.items() if host != OTHER_HOST}] *)
Definition readings (totals : Totals) : gmap string (Z * Z) :=
  foldl (fun m x => <[lower x.1 := (Z.max x.2.1 0, Z.max x.2.2 0)]> m) ∅
    (List.filter (fun x => negb (String.eqb x.1 OTHER_HOST)) totals).

(** The application each live hostname belongs to. *)
Definition owners (s : Db) : gmap string N :=
  list_to_map ((fun x : N * Domain => (dom_hostname x.2, dom_application_id x.2))
    <$> filter (fun x => live x.2 = true) (map_to_list (db_domains s))).

(** The increase of one hostname since the totals stored for it. *)
Definition increase (counter : option EdgeTrafficCounter) (reading : Z * Z) : Z * Z :=
  let '(requests, sent) := reading in
  let r0 := from_option ctr_requests 0 counter in
  let b0 := from_option ctr_response_bytes 0 counter in
  if (requests <? r0) || (sent <? b0) then (requests, sent) else (requests - r0, sent - b0).

Definition add_pair (x y : Z * Z) : Z * Z := (x.1 + y.1, x.2 + y.2).

(** The increases per owner; hostnames nobody owns and empty increases leave none. *)
Definition increases (s : Db) (totals : Totals) : gmap N (Z * Z) :=
  let own := owners s in
  map_fold (fun host reading m =>
    match own !! host with
    | Some owner =>
        let added := increase (db_counters s !! host) reading in
        if bool_decide (added = (0, 0)) then m
        else <[owner := add_pair (default (0, 0) (m !! owner)) added]> m
    | None => m
    end) ∅ (readings totals).

(** [now.date()], as the number of the UTC day. *)
Definition day_of (now : Z) : Z := now / day_micros.

Definition counted (now : Z) (reading : Z * Z) : EdgeTrafficCounter :=
  {| ctr_requests := reading.1; ctr_response_bytes := reading.2; ctr_read_at := now |}.
Definition add_day (row : option ApplicationTraffic) (added : Z * Z) : ApplicationTraffic :=
  {| tr_requests := from_option tr_requests 0 row + added.1;
     tr_response_bytes := from_option tr_response_bytes 0 row + added.2 |}.

(** The day's rows of the owners whose hostnames increased. *)
Definition with_increases (today : Z) (inc : gmap N (Z * Z)) (m : gmap (N * Z) ApplicationTraffic)
    : gmap (N * Z) ApplicationTraffic :=
  map_fold (fun a added m => <[(a, today) := add_day (m !! (a, today)) added]> m) m inc.

Definition record_totals (totals : Totals) (now : option Z) : M Z :=
  now ← now_or now;
  s ← get;
  let inc := increases s totals in
  let today := day_of now in
  _ ← modify (fun s => s
    <| db_counters ::= (fun m => filter (fun x => now - COUNTER_EXPIRY <= ctr_read_at x.2)
                                   ((counted now <$> readings totals) ∪ m)) |>
    <| db_traffic ::= (fun m => filter (fun x => today - TRAFFIC_RETENTION_DAYS < x.1.2)
                                  (with_increases today inc m)) |>);
  mret (Z.of_nat (size inc)).

Definition reset_baselines : M unit :=
  modify (fun s => s <| db_counters ::= fmap (fun c =>
    {| ctr_requests := 0; ctr_response_bytes := 0; ctr_read_at := ctr_read_at c |}) |>).

Record TrafficDay := { td_day : Z; td_requests : Z; td_response_bytes : Z }.

Definition application_traffic (s : Db) (a : N) (n : Z) (now : option Z) : res exn (list TrafficDay) :=
  if negb ((1 <=? n) && (n <=? TRAFFIC_RETENTION_DAYS)) then err InvalidApplication else
  let today := day_of (default (db_clock s) now) in
  let first := today - (n - 1) in
  Ok ((fun offset =>
         let d := first + Z.of_nat offset in
         let row := db_traffic s !! (a, d) in
         {| td_day := d; td_requests := from_option tr_requests 0 row;
            td_response_bytes := from_option tr_response_bytes 0 row |})
      <$> seq 0 (Z.to_nat n)).

(** ** The edge's totals (app/edge/traffic.py) *)

Definition REQUESTS : string := "caddy_http_requests_total".
Definition RESPONSE_BYTES : string := "caddy_http_response_size_bytes_sum".

(** [_HOST.match(host)] *)
Definition HOST_match : string -> bool := to_end host_core.

(** One sample of the parsed exposition text; its value is an integer. *)
Record Sample := { sm_name : string; sm_labels : list (string * string); sm_value : Z }.

(** [entry = totals.setdefault(host, [0, 0]); entry[i] += value] *)
Fixpoint bump (host : string) (f : Z * Z -> Z * Z) (d : Totals) : Totals :=
  match d with
  | [] => [(host, f (0, 0))]
  | (h, v) :: d => if String.eqb h host then (h, f v) :: d else (h, v) :: bump host f d
  end.

Definition read_sample (d : Totals) (x : Sample) : Totals :=
  if negb (mem_str (sm_name x) [REQUESTS; RESPONSE_BYTES]) then d
  else if negb (bool_decide (sget "server" (sm_labels x) = Some SERVER_NAME)) then d
  else
    let host := lower (default "" (sget "host" (sm_labels x))) in
    if negb (HOST_match host) then d
    else bump host (fun e => if String.eqb (sm_name x) REQUESTS then (e.1 + sm_value x, e.2)
                             else (e.1, e.2 + sm_value x)) d.
Definition parse_totals (samples : list Sample) : Totals := foldl read_sample [] samples.

(** The samples of the lines [render_totals] writes for one hostname. *)
Definition rendered (x : string * (Z * Z)) : list Sample :=
  let labels := [("host", x.1); ("server", SERVER_NAME)] in
  [ {| sm_name := REQUESTS; sm_labels := labels; sm_value := x.2.1 |};
    {| sm_name := RESPONSE_BYTES; sm_labels := labels; sm_value := x.2.2 |} ].
Definition quoted (x : string) : string := String "034"%char x ++ String "034"%char "".
Definition render_line (x : Sample) : string :=
  sm_name x ++ "{host=" ++ quoted (default "" (sget "host" (sm_labels x)))
  ++ ",server=" ++ quoted (default "" (sget "server" (sm_labels x))) ++ "} " ++ py_str (sm_value x).
Definition host_le (x y : string * (Z * Z)) : Prop := string_le x.1 y.1.
#[export] Instance host_le_dec x y : Decision (host_le x y).
Proof. unfold host_le. apply _. Defined.
Definition rendered_samples (totals : Totals) : list Sample := merge_sort host_le totals ≫= rendered.
Definition render_totals (totals : Totals) : string :=
  join (String NL "") (render_line <$> rendered_samples totals) ++ String NL "".

(** ** Properties *)

(** What the readings of an application's hostnames add. *)
Definition earn (s : Db) (a : N) (host : string) (reading : Z * Z) (acc : Z * Z) : Z * Z :=
  if bool_decide (owners s !! host = Some a) then add_pair acc (increase (db_counters s !! host) reading) else acc.
Definition earned (s : Db) (a : N) (m : gmap string (Z * Z)) : Z * Z := map_fold (earn s a) (0, 0) m.

Lemma earned_insert s a host reading m :
  m !! host = None -> earned s a (<[host := reading]> m) = earn s a host reading (earned s a m).
Proof.
  intros Hn. apply map_fold_insert_L; [|done]. intros h1 h2 x1 x2 acc _ _ _. unfold earn.
  repeat case_bool_decide; try done. unfold add_pair. simpl. f_equal; lia.
Qed.

Lemma increases_earned s totals a :
  default (0, 0) (increases s totals !! a) = earned s a (readings totals).
Proof.
  unfold increases. cbv zeta. revert a.
  apply (map_fold_weak_ind (fun r m => forall a, default (0, 0) (r !! a) = earned s a m)); [done|].
  intros host reading m r Hn IH a. rewrite earned_insert, <- IH by done. unfold earn.
  destruct (owners s !! host) as [owner|]; [|by rewrite bool_decide_false].
  case_bool_decide as E0; [case_bool_decide as Ea; [|done]|].
  { rewrite E0. destruct (default _ _) as [x y]. unfold add_pair. simpl. f_equal; lia. }
  destruct (decide (a = owner)) as [->|Hne].
  - rewrite lookup_insert_eq, bool_decide_true by done. done.
  - rewrite lookup_insert_ne, bool_decide_false by congruence. done.
Qed.

Lemma with_increases_lookup today inc m a d :
  let row := with_increases today inc m !! (a, d) in
  let added := if bool_decide (d = today) then default (0, 0) (inc !! a) else (0, 0) in
  from_option tr_requests 0 row = from_option tr_requests 0 (m !! (a, d)) + added.1 /\
  from_option tr_response_bytes 0 row = from_option tr_response_bytes 0 (m !! (a, d)) + added.2.
Proof.
  unfold with_increases. cbv zeta.
  apply (map_fold_weak_ind (fun r i =>
    let added := if bool_decide (d = today) then default (0, 0) (i !! a) else (0, 0) in
    from_option tr_requests 0 (r !! (a, d)) = from_option tr_requests 0 (m !! (a, d)) + added.1 /\
    from_option tr_response_bytes 0 (r !! (a, d)) = from_option tr_response_bytes 0 (m !! (a, d)) + added.2)).
  - cbv zeta. rewrite lookup_empty. case_bool_decide; simpl; lia.
  - intros b x i r Hn. cbv zeta. intros [IH1 IH2]. destruct (decide ((b, today) = (a, d))) as [E|Hne].
    + injection E as -> <-. rewrite (bool_decide_true (today = today)) in * by done.
      rewrite Hn in IH1, IH2. rewrite !lookup_insert_eq. unfold add_day.
      cbn [from_option tr_requests tr_response_bytes default fst snd id] in *. lia.
    + rewrite (lookup_insert_ne r) by done. case_bool_decide as Ed; [|done]. subst d.
      by rewrite lookup_insert_ne by congruence.
Qed.

(** The row of one application and day after a reading. *)
Theorem record_totals_exact totals now s :
  let n := default (db_clock s) now in
  let '(r, s') := record_totals totals now s in
  r = Ok (Z.of_nat (size (increases s totals))) /\
  (forall a d, day_of n - TRAFFIC_RETENTION_DAYS < d ->
     let added := if bool_decide (d = day_of n) then earned s a (readings totals) else (0, 0) in
     from_option tr_requests 0 (db_traffic s' !! (a, d)) = from_option tr_requests 0 (db_traffic s !! (a, d)) + added.1 /\
     from_option tr_response_bytes 0 (db_traffic s' !! (a, d))
     = from_option tr_response_bytes 0 (db_traffic s !! (a, d)) + added.2) /\
  (forall a d, d <= day_of n - TRAFFIC_RETENTION_DAYS -> db_traffic s' !! (a, d) = None).
Proof.
  intros n. unfold record_totals. rewrite bind_run.
  assert (now_or now s = (Ok n, s)) as -> by (by destruct now).
  rewrite bind_run. cbn [get]. rewrite bind_run. cbn [modify mret SM_ret]. split; [done|].
  set (m' := filter (fun x : N * Z * ApplicationTraffic => day_of n - TRAFFIC_RETENTION_DAYS < x.1.2)
                (with_increases (day_of n) (increases s totals) (db_traffic s))).
  match goal with |- context [over db_traffic ?f ?t] => change (db_traffic (over db_traffic f t)) with m' end. split; intros a d Hd.
  - destruct (with_increases_lookup (day_of n) (increases s totals) (db_traffic s) a d) as [H1 H2].
    cbv zeta in H1, H2. rewrite increases_earned in H1, H2. cbv zeta. rewrite <- H1, <- H2.
    assert (m' !! (a, d) = with_increases (day_of n) (increases s totals) (db_traffic s) !! (a, d)) as ->; [|done].
    apply option_eq. intros row. unfold m'. rewrite map_lookup_filter_Some. simpl. tauto.
  - unfold m'. rewrite map_lookup_filter_None. right. intros x _. simpl. lia.
Qed.

(** Reading the same totals again adds nothing. *)
Lemma increase_again now reading : increase (Some (counted now reading)) reading = (0, 0).
Proof.
  destruct reading as [r b]. unfold increase. cbn [from_option ctr_requests ctr_response_bytes counted fst snd].
  rewrite (proj2 (Z.ltb_ge r r)), (proj2 (Z.ltb_ge b b)) by lia. cbn [orb]. f_equal; lia.
Qed.

Theorem second_reading_adds_nothing totals now s a :
  let '(_, s') := record_totals totals now s in
  earned s' a (readings totals) = (0, 0).
Proof.
  unfold record_totals. rewrite bind_run. set (n := default (db_clock s) now).
  assert (now_or now s = (Ok n, s)) as -> by (by destruct now).
  rewrite bind_run. cbn [get]. rewrite bind_run. cbn [modify mret SM_ret].
  set (s' := over db_traffic _ _).
  assert (forall host reading, readings totals !! host = Some reading -> db_counters s' !! host = Some (counted n reading)) as Hc.
  { intros host reading Hr.
    change (db_counters s') with (filter (fun x : string * EdgeTrafficCounter => n - COUNTER_EXPIRY <= ctr_read_at x.2)
                                    ((counted n <$> readings totals) ∪ db_counters s)).
    apply map_lookup_filter_Some. split; [apply lookup_union_Some_l; by rewrite lookup_fmap, Hr|].
    cbn. unfold COUNTER_EXPIRY, days, hours, minutes, seconds. lia. }
  clearbody s'. unfold earned.
  assert (forall m, m ⊆ readings totals -> map_fold (earn s' a) (0, 0) m = (0, 0)) as Hall; [|by apply Hall].
  intros m. induction m as [|host reading m Hn IH] using map_ind; [done|]. intros Hsub.
  fold (earned s' a (<[host := reading]> m)). rewrite earned_insert by done. unfold earned.
  rewrite IH by (etrans; [apply insert_subseteq|]; done). unfold earn. case_bool_decide; [|done].
  rewrite (Hc host reading) by (eapply lookup_weaken; [apply lookup_insert_eq|done]).
  by rewrite increase_again.
Qed.

(** A restart of Caddy or a smaller total never takes requests back. *)
Lemma increase_nonneg counter reading :
  0 <= reading.1 -> 0 <= reading.2 -> 0 <= (increase counter reading).1 /\ 0 <= (increase counter reading).2.
Proof.
  destruct reading as [r b]. cbn [fst snd]. intros Hr Hb. unfold increase.
  destruct (Z.ltb_spec r (from_option ctr_requests 0 counter)), (Z.ltb_spec b (from_option ctr_response_bytes 0 counter));
    cbn [orb fst snd]; lia.
Qed.

Lemma readings_nonneg totals host reading : readings totals !! host = Some reading -> 0 <= reading.1 /\ 0 <= reading.2.
Proof.
  unfold readings. generalize (List.filter (fun x => negb (String.eqb x.1 OTHER_HOST)) totals). intros l.
  induction l as [|x l IH] using rev_ind; [by cbn [foldl]; rewrite lookup_empty|]. rewrite foldl_snoc.
  destruct (decide (lower x.1 = host)) as [<-|Hne].
  - rewrite lookup_insert_eq. intros [= <-]. cbn [fst snd]. lia.
  - by rewrite lookup_insert_ne.
Qed.

Lemma earned_nonneg s a totals : 0 <= (earned s a (readings totals)).1 /\ 0 <= (earned s a (readings totals)).2.
Proof.
  assert (forall m, m ⊆ readings totals -> 0 <= (earned s a m).1 /\ 0 <= (earned s a m).2) as Hall; [|by apply Hall].
  intros m. induction m as [|host reading m Hn IH] using map_ind; [done|]. intros Hsub.
  rewrite earned_insert by done. destruct IH as [IH1 IH2]; [etrans; [by apply insert_subseteq|done]|].
  destruct (readings_nonneg totals host reading) as [H1 H2]; [eapply lookup_weaken; [apply lookup_insert_eq|done]|].
  destruct (increase_nonneg (db_counters s !! host) reading H1 H2) as [I1 I2].
  unfold earn. case_bool_decide; [|done]. unfold add_pair. cbn [fst snd]. lia.
Qed.

(** The listing shows each of the last [n] days once, oldest first, today last. *)
Theorem application_traffic_days s a n now l :
  application_traffic s a n now = Ok l ->
  1 <= n <= TRAFFIC_RETENTION_DAYS /\
  td_day <$> l = (fun i => day_of (default (db_clock s) now) - (n - 1) + Z.of_nat i) <$> seq 0 (Z.to_nat n) /\
  Forall (fun x => td_requests x = from_option tr_requests 0 (db_traffic s !! (a, td_day x)) /\
                   td_response_bytes x = from_option tr_response_bytes 0 (db_traffic s !! (a, td_day x))) l.
Proof.
  unfold application_traffic. destruct (_ && _) eqn:E; [|done]. cbn [negb]. intros [= <-]. split; [lia|]. split.
  - by rewrite <- list_fmap_compose.
  - apply Forall_fmap, Forall_true. done.
Qed.

(** What the gateway passes on the reconciler reads back: the same totals, in the
    order of their hostnames. *)
Lemma bump_fresh host f (d : Totals) : ~ host ∈ d.*1 -> bump host f d = (d ++ [(host, f (0, 0)%Z)])%list.
Proof.
  induction d as [|[h v] d IH]; [done|]. cbn [fmap list_fmap fst bump]. intros [Hne Hn]%not_elem_of_cons.
  rewrite (proj2 (String.eqb_neq h host)) by congruence. cbn [app]. by rewrite IH.
Qed.
Lemma bump_last host f (d : Totals) v :
  ~ host ∈ d.*1 -> bump host f (d ++ [(host, v)])%list = (d ++ [(host, f v)])%list.
Proof.
  induction d as [|[h w] d IH]; cbn [app bump fmap list_fmap fst]; [by rewrite String.eqb_refl|].
  intros [Hne Hn]%not_elem_of_cons. rewrite (proj2 (String.eqb_neq h host)) by congruence. by rewrite IH.
Qed.

Theorem totals_round_trip totals :
  NoDup totals.*1 -> Forall (fun x => HOST_match x.1 = true /\ lower x.1 = x.1) totals ->
  parse_totals (rendered_samples totals) = merge_sort host_le totals.
Proof.
  intros Hn Hf. unfold rendered_samples.
  assert (NoDup (merge_sort host_le totals).*1) as Hn' by (by rewrite merge_sort_Permutation).
  assert (Forall (fun x => HOST_match x.1 = true /\ lower x.1 = x.1) (merge_sort host_le totals)) as Hf'
    by (by rewrite merge_sort_Permutation).
  clear Hn Hf. induction (merge_sort host_le totals) as [|[h [r b]] l IH] using rev_ind; [done|].
  rewrite fmap_app in Hn'. apply NoDup_app in Hn' as (Hn & Hd & _).
  apply Forall_app in Hf' as [Hf [Hh Hlow]%Forall_singleton]. cbn [fst] in Hh, Hlow.
  unfold parse_totals in *. rewrite bind_app, foldl_app, IH by done. clear IH.
  assert (~ h ∈ l.*1) as Hnot by (intros Hin; apply (Hd h Hin); by left).
  cbn [mbind list_bind rendered app foldl]. unfold read_sample at 2. cbn [sm_name sm_labels sm_value].
  change (mem_str REQUESTS [REQUESTS; RESPONSE_BYTES]) with true. change (sget "server" _) with (Some SERVER_NAME).
  change (sget "host" _) with (Some h). cbn [negb default fst snd]. rewrite bool_decide_true by done.
  unfold id. rewrite Hlow, Hh. cbn [negb]. change (String.eqb REQUESTS REQUESTS) with true.
  rewrite bump_fresh by done. unfold read_sample. cbn [sm_name sm_labels sm_value fst snd].
  change (mem_str RESPONSE_BYTES [REQUESTS; RESPONSE_BYTES]) with true. change (sget "server" _) with (Some SERVER_NAME).
  change (sget "host" _) with (Some h). cbn [negb default]. rewrite bool_decide_true by done.
  unfold id. rewrite Hlow, Hh. cbn [negb]. change (String.eqb RESPONSE_BYTES REQUESTS) with false.
  rewrite bump_last by done. cbn [fst snd]. by rewrite !Z.add_0_l.
Qed.
