(* ===== verification/Operator.v ===== *)
(** * The operator API (app/operator/api.py, app/operator/schemas.py)

    What an operator's programs may do over HTTP: the gate every endpoint takes (a
    configured token, an allowed address, the failed-token throttle, the token itself)
    and the handlers, each over the service functions of Applications.v,
    AssertionKeys.v, OperatorToken.v and ConnectFlow.v.  Streaming a backup and running
    doctor are left out.  Theorems: nothing happens before the gate passed, and what
    passing it means; an update is all or nothing. *)

From Stdlib Require Import Ascii String ZArith Lia.
From stdpp Require Import base gmap strings list.
From S2P Require Import Prelude PyStr Datetime Json Errors External Models Url Signing Throttle EdgeSettings Egress.
From S2P Require Import DnsSetup Schemas Limits Domains DomainFacts AssertionKeys OperatorToken ConnectFlow.
From S2P Require Import Applications Deps Api Traffic.
Open Scope string_scope.
Open Scope Z_scope.

(** ** Requests *)

Record ApplicationCreate := { ac_slug : string; ac_name : string; ac_cname_target : option string }.

(** [None] of the last three: the field was not sent; [Some None]: it was null. *)
Record ApplicationUpdate := {
  au_name : option string;
  au_cname_target : option string;
  au_reissue_claims : bool;
  au_workspace_probe : option bool;
  au_status : option ApplicationStatus;
  au_rate_limit_per_minute : option (option Z);
  au_rate_limit_per_second : option (option Z);
  au_max_domains : option (option Z);
}.
Record OriginCreate := { oc_host : string; oc_scheme : string; oc_port : option Z; oc_host_header : string }.
Record CredentialCreate := { ccr_label : string; ccr_expires_in_days : option Z; ccr_scope : string }.
Record SignerSet := { ss_url : string; ss_credential : string; ss_provider_id : string; ss_service_id : string }.

Inductive OperatorCall :=
| ListApplications
| CreateApplication (body : ApplicationCreate)
| GetApplication (slug : string)
| UpdateApplication (slug : string) (body : ApplicationUpdate)
| ShowTraffic (slug : string) (n : Z)
| DeleteApplication (slug confirm : string) (delete_domains : bool)
| ListOrigins (slug : string)
| RegisterOrigin (slug : string) (body : OriginCreate)
| UpdateOrigin (slug : string) (k : N) (host_header : string)
| VerifyOrigin (slug : string) (k : N) (activate : bool)
| ActivateOrigin (slug : string) (k : N)
| RetireOrigin (slug : string) (k : N)
| DeleteOrigin (slug : string) (k : N)
| ListAssertionKeys (slug : string)
| IssueAssertionKey (slug : string) (activate_in : Z)
| RevokeAssertionKey (slug key_id : string)
| ListCredentials (slug : string)
| IssueCredential (slug : string) (body : CredentialCreate)
| RotateCredential (slug : string) (k : N) (grace_hours : Z)
| RevokeCredential (slug : string) (k : N)
| DeleteCredential (slug : string) (k : N)
| SetOperatorToken (token : string)
| CountSetups (slug : option string) (n : option Z)
| ShowSigner
| PutSigner (body : SignerSet)
| DeleteSigner.

(** [Field] and [Query] bounds *)
Definition in_bounds (lo hi n : Z) : bool := (lo <=? n) && (n <=? hi).
Definition bounded (hi : Z) (s : string) : bool := ulen s <=? hi.
Definition if_given {A} (p : A -> bool) (o : option A) : bool := match o with Some x => p x | None => true end.
Definition null_or {A} (p : A -> bool) (o : option (option A)) : bool := if_given (if_given p) o.
Definition operator_call_ok (c : OperatorCall) : bool :=
  match c with
  | CreateApplication b => bounded 64 (ac_slug b) && bounded 200 (ac_name b) && if_given (bounded 253) (ac_cname_target b)
  | UpdateApplication _ b =>
      if_given (bounded 200) (au_name b) && if_given (bounded 253) (au_cname_target b)
      && null_or (in_bounds 1 1000000) (au_rate_limit_per_minute b) && null_or (in_bounds 1 1000000) (au_rate_limit_per_second b)
      && null_or (Z.leb 1) (au_max_domains b)
  | ShowTraffic _ n => in_bounds 1 TRAFFIC_RETENTION_DAYS n
  | RegisterOrigin _ b =>
      bounded 253 (oc_host b) && mem_str (oc_scheme b) ["https"; "http"] && if_given (in_bounds 1 65535) (oc_port b)
      && mem_str (oc_host_header b) ["customer"; "origin"]
  | UpdateOrigin _ _ hh => mem_str hh ["customer"; "origin"]
  | IssueAssertionKey _ activate_in => in_bounds 0 (hours 720) activate_in
  | IssueCredential _ b =>
      bounded 100 (ccr_label b) && if_given (in_bounds 1 3650) (ccr_expires_in_days b) && mem_str (ccr_scope b) ["full"; "read"]
  | RotateCredential _ _ h => in_bounds 0 720 h
  | SetOperatorToken t => in_bounds 32 256 (ulen t)
  | CountSetups slug n => if_given (bounded 64) slug && if_given (in_bounds 1 3650) n
  | PutSigner b => bounded 512 (ss_url b) && bounded 64 (ss_credential b) && bounded 64 (ss_provider_id b) && bounded 64 (ss_service_id b)
  | _ => true
  end.

(** ** Resources *)

Definition application_status_value (st : ApplicationStatus) : string :=
  match st with ACTIVE => "active" | SUSPENDED_APP => "suspended" end.
Definition origin_status_value (st : OriginStatus) : string :=
  match st with
  | ORIGIN_PENDING => "pending" | ORIGIN_VERIFIED => "verified" | ORIGIN_FAILED => "failed" | ORIGIN_RETIRED => "retired"
  end.
Definition host_header_value (h : OriginHostHeader) : string := match h with HH_CUSTOMER => "customer" | HH_ORIGIN => "origin" end.

Section Operator.
Context `{External, Deployment, PrivateKeys}.
Context (urlsplit : string -> option UrlSplit).

(** [ApplicationResource.of] *)
Definition dump_application (s : Db) (x : N * Application) : json :=
  let '(a, r) := x in
  JObj [("id", JStr (uuid_str a)); ("slug", JStr (app_slug r)); ("name", JStr (app_name r));
        ("status", JStr (application_status_value (app_status r))); ("cname_target", JStr (app_cname_target r));
        ("workspace_probe", JBool (app_workspace_probe_enabled r)); ("max_domains", jnum (app_max_domains r));
        ("live_domains", JInt (live_domain_count s a)); ("rate_limit_per_minute", jnum (app_rate_limit_per_minute r));
        ("rate_limit_per_second", jnum (app_rate_limit_per_second r)); ("created_at", jtime (Some (app_created_at r)))].
(** [OriginResource.of] *)
Definition dump_origin (x : N * VerifiedOrigin) : json :=
  let '(k, o) := x in
  JObj [("id", JStr (uuid_str k)); ("url", JStr (origin_url o)); ("status", JStr (origin_status_value (org_status o)));
        ("active", JBool (org_is_active o)); ("verification_token", jopt (org_verification_token o));
        ("verification_url", JStr (origin_url o ++ WELL_KNOWN_PATH));
        ("host_header", JStr (host_header_value (org_host_header o))); ("verified_at", jtime (org_verified_at o));
        ("last_error_code", jopt (org_last_error_code o))].
(** [CredentialResource.of] *)
Definition dump_credential (x : N * ApiCredential) : dict :=
  let '(k, c) := x in
  [("id", JStr (uuid_str k)); ("label", JStr (cred_label c)); ("key_prefix", JStr (cred_key_prefix c));
   ("scope", JStr (scope_value (cred_scope c))); ("created_at", jtime (Some (cred_created_at c)));
   ("last_used_at", jtime (cred_last_used_at c)); ("expires_at", jtime (cred_expires_at c));
   ("revoked_at", jtime (cred_revoked_at c))].
(** [_assertion_key] *)
Definition dump_key (signing : option (N * AssertionKey)) (now : Z) (x : N * AssertionKey) : dict :=
  [("key_id", JStr (ak_key_id x.2)); ("state", JStr (key_state x signing now));
   ("active_from", jtime (Some (ak_active_from x.2))); ("created_at", jtime (Some (ak_created_at x.2)));
   ("revoked_at", jtime (ak_revoked_at x.2))].
Definition dump_day (d : TrafficDay) : json :=
  JObj [("date", JStr (take_str 10 (isoformat (days (td_day d))))); ("requests", JInt (td_requests d));
        ("response_bytes", JInt (td_response_bytes d))].
Definition total (l : list Z) : Z := foldr Z.add 0 l.
Definition dump_setup_count (c : SetupCount) : json :=
  JObj [("provider", match sn_provider_id c with
                     | Some p => JObj [("id", JStr p); ("name", jopt (sn_provider_name c))]
                     | None => JNull
                     end);
        ("method", jopt (sn_method c)); ("domains", JInt (sn_domains c)); ("ready", JInt (sn_ready c))].

(** [_application], [_origin] *)
Definition application_of (slug : string) : M (N * Application) := get_application_by_slug slug false.
Definition origin_of (slug : string) (k : N) : M (N * VerifiedOrigin) :=
  x ← application_of slug; get_origin x.1 (Some k) None.

Definition application_answer (status : Z) (a : N) : M ApiAnswer :=
  r ← the_application a; s ← get; mret (answered status (dump_application s (a, r))).
Definition origin_answer (status : Z) (k : N) : M ApiAnswer :=
  o ← the_origin k; mret (answered status (dump_origin (k, o))).
Definition credential_answer (status : Z) (k : N) (extra : dict) : M ApiAnswer :=
  c ← gets (fun s => db_credentials s !! k); c ← need c PyRuntimeError;
  mret (answered status (JObj (dump_credential (k, c) ++ extra)%list)).
Definition key_answer (status : Z) (a k : N) (extra : dict) : M ApiAnswer :=
  s ← get; r ← need (db_assertion_keys s !! k) PyRuntimeError;
  let now := db_clock s in
  mret (answered status (JObj (dump_key (signing_key s a now) now (k, r) ++ extra)%list)).

(** ** Applications *)

(** The name customers CNAME to: the one given, or the edge hostname. *)
Definition default_target (settings : option EdgeSettings) (given : option string) : res exn string :=
  match nonempty given with
  | Some t => Ok t
  | None =>
      match nonempty (settings ≫= es_edge_hostname) with
      | Some t => Ok t
      | None => Err (ApiError 422 "invalid_application" [("field", JStr "cname_target")] [])
      end
  end.
Definition create_application_endpoint (settings : option EdgeSettings) (b : ApplicationCreate) : M ApiAnswer :=
  target ← lift (default_target settings (ac_cname_target b));
  a ← transaction (create_application (ac_slug b) (ac_name b) target);
  application_answer 201 a.

Definition given {A} (o : option A) (f : A -> M unit) : M unit := match o with Some x => f x | None => mret tt end.

(** The transaction of [update_application]: what was sent, in the source's order. *)
Definition update_application_fields (a : N) (u : ApplicationUpdate) : M unit :=
  _ ← given (au_name u) (rename_application a);
  _ ← given (au_cname_target u) (fun t =>
        _ ← set_cname_target a t;
        if au_reissue_claims u then _ ← reissue_claims_for_target a None; mret tt else mret tt);
  _ ← given (au_workspace_probe u) (set_workspace_probe a);
  _ ← given (au_status u) (set_application_status a);
  r ← the_application a;
  _ ← (if bool_decide (is_Some (au_rate_limit_per_minute u)) || bool_decide (is_Some (au_rate_limit_per_second u))
       then set_rate_limits a (default (app_rate_limit_per_minute r) (au_rate_limit_per_minute u))
              (default (app_rate_limit_per_second r) (au_rate_limit_per_second u))
       else mret tt);
  given (au_max_domains u) (set_domain_limit a).
Definition update_application_endpoint (slug : string) (u : ApplicationUpdate) : M ApiAnswer :=
  x ← application_of slug;
  _ ← transaction (update_application_fields x.1 u);
  application_answer 200 x.1.

Definition show_traffic (slug : string) (n : Z) : M ApiAnswer :=
  x ← application_of slug; s ← get; rows ← lift (application_traffic s x.1 n None);
  mret (answered 200 (JObj [("application", JStr (app_slug x.2)); ("days", JArr (dump_day <$> rows));
                            ("requests", JInt (total (td_requests <$> rows)));
                            ("response_bytes", JInt (total (td_response_bytes <$> rows)))])).
Definition delete_application_endpoint (slug confirm : string) (delete_domains : bool) : M ApiAnswer :=
  x ← application_of slug;
  n ← transaction (delete_application x.1 confirm delete_domains None);
  mret (answered 200 (JObj [("deleted", JStr slug); ("live_domains_deleted", JInt n)])).

(** ** Origins *)

Definition register_origin_endpoint (slug : string) (b : OriginCreate) : M ApiAnswer :=
  x ← application_of slug;
  k ← transaction (register_origin x.1 (oc_host b) (oc_scheme b) (oc_port b) (oc_host_header b));
  origin_answer 201 k.
Definition update_origin (slug : string) (k : N) (host_header : string) : M ApiAnswer :=
  x ← origin_of slug k; _ ← transaction (set_origin_host_header x.1 host_header); origin_answer 200 x.1.

(** What the origin's well-known path answered. *)
Definition fetched (wire : Wire) (o : VerifiedOrigin) : res string OriginAnswer :=
  match (fetch_token wire (org_host o) (org_port o) (org_scheme o) allow_private_from_env WELL_KNOWN_PATH MAX_BODY_BYTES
           "text/plain" USER_AGENT).1 with
  | Ok p => Ok {| oa_status := pr_status p; oa_body := pr_body p |}
  | Err e => Err e
  end.
(** The transaction of [verify_origin_endpoint]: a failed verification is committed too,
    and its code returned. *)
Definition verify_and_activate (k : N) (answer : res string OriginAnswer) (activate : bool) : M (option string) :=
  failed ← catch (_ ← verify_origin k answer None; mret None)
             (fun e => match e with OriginVerificationFailed code => mret (Some code) | _ => raise e end);
  match failed with
  | Some code => mret (Some code)
  | None => _ ← (if activate then activate_origin k else mret tt); mret None
  end.
Definition verify_origin_endpoint (wire : Wire) (slug : string) (k : N) (activate : bool) : M ApiAnswer :=
  x ← origin_of slug k;
  failed ← transaction (verify_and_activate x.1 (fetched wire x.2) activate);
  match failed with
  | Some code =>
      o ← the_origin x.1;
      raise (ApiError 422 "origin_verification_failed" [("reason", JStr code); ("origin", dump_origin (x.1, o))] [])
  | None => origin_answer 200 x.1
  end.
Definition activate_origin_endpoint (slug : string) (k : N) : M ApiAnswer :=
  x ← origin_of slug k; _ ← transaction (activate_origin x.1); origin_answer 200 x.1.
Definition retire_origin_endpoint (slug : string) (k : N) : M ApiAnswer :=
  x ← origin_of slug k; _ ← transaction (retire_origin x.1); origin_answer 200 x.1.
Definition delete_origin_endpoint (slug : string) (k : N) : M ApiAnswer :=
  x ← origin_of slug k; _ ← transaction (delete_origin x.1); mret (answered 204 JNull).

(** ** Assertion keys and credentials *)

Definition list_assertion_keys (slug : string) : M ApiAnswer :=
  x ← application_of slug; s ← get;
  let now := db_clock s in
  let signing := signing_key s x.1 now in
  mret (answered 200 (JObj [("application_id", JStr (uuid_str x.1));
                            ("signing", jopt ((fun k => ak_key_id k.2) <$> signing));
                            ("keys", JArr ((fun k => JObj (dump_key signing now k)) <$> list_keys s x.1))])).
Definition issue_assertion_key (slug : string) (activate_in : Z) : M ApiAnswer :=
  x ← application_of slug;
  issued ← transaction (issue_key x.1 activate_in None);
  key_answer 201 x.1 issued.1 [("application_id", JStr (uuid_str x.1)); ("secret", JStr issued.2)].
Definition revoke_assertion_key (slug key_id : string) : M ApiAnswer :=
  x ← application_of slug; k ← transaction (revoke_key x.1 key_id None); key_answer 200 x.1 k [].

Definition issue_credential_endpoint (slug : string) (b : CredentialCreate) : M ApiAnswer :=
  now ← gets db_clock;
  x ← application_of slug;
  let expires := match ccr_expires_in_days b with
                 | Some n => if n =? 0 then None else Some (now + days n)
                 | None => None
                 end in
  issued ← transaction (issue_credential x.1 (ccr_label b) expires (ccr_scope b));
  credential_answer 201 issued.1 [("secret", JStr issued.2)].
Definition rotate_credential_endpoint (slug : string) (k : N) (grace_hours : Z) : M ApiAnswer :=
  x ← application_of slug;
  issued ← transaction (rotate_credential x.1 k None (hours grace_hours) None);
  credential_answer 201 issued.1 [("secret", JStr issued.2)].
Definition revoke_credential_endpoint (slug : string) (k : N) : M ApiAnswer :=
  x ← application_of slug; _ ← transaction (revoke_credential x.1 k None); credential_answer 200 k [].
Definition delete_credential_endpoint (slug : string) (k : N) : M ApiAnswer :=
  x ← application_of slug; _ ← transaction (delete_credential x.1 k None); mret (answered 204 JNull).

(** ** The token, the counts and the signer *)

Definition set_operator_token (token : string) : M ApiAnswer :=
  _ ← transaction (set_token token); mret (answered 204 JNull).

Definition count_setups (slug : option string) (n : option Z) : M ApiAnswer :=
  scoped ← match nonempty slug with Some slug => x ← application_of slug; mret (Some x) | None => mret None end;
  s ← get;
  let since := match n with Some n => if n =? 0 then None else Some (db_clock s - days n) | None => None end in
  let rows := setup_counts s (fst <$> scoped) since (effective_setup_settings s) in
  mret (answered 200 (JObj [("application", jopt ((fun x : N * Application => app_slug x.2) <$> scoped)); ("since", jtime since);
                            ("items", JArr (dump_setup_count <$> rows));
                            ("domains", JInt (total (sn_domains <$> rows))); ("ready", JInt (total (sn_ready <$> rows)))])).

(** [_signer_resource] *)
Definition signer_answer : M ApiAnswer :=
  s ← get; v ← lift (signer_view s);
  mret (answered 200 (JObj [("signer", jopt (sv_signer v)); ("url", jopt (sv_url v));
                            ("credential_prefix", jopt (sv_credential_prefix v)); ("provider_id", jopt (sv_provider_id v));
                            ("service_id", jopt (sv_service_id v)); ("updated_at", jtime (sv_updated_at v))])).
Definition put_signer (b : SignerSet) : M ApiAnswer :=
  _ ← transaction (set_remote_signer urlsplit (ss_url b) (ss_credential b) (ss_provider_id b) (ss_service_id b) None);
  signer_answer.
Definition delete_signer : M ApiAnswer := _ ← transaction reset_signer; signer_answer.

(** ** The whole request *)

Definition operator_handler (settings : option EdgeSettings) (wire : Wire) (c : OperatorCall) : M ApiAnswer :=
  match c with
  | ListApplications => s ← get; mret (answered 200 (JArr (dump_application s <$> list_applications s)))
  | CreateApplication b => create_application_endpoint settings b
  | GetApplication slug => x ← application_of slug; s ← get; mret (answered 200 (dump_application s x))
  | UpdateApplication slug u => update_application_endpoint slug u
  | ShowTraffic slug n => show_traffic slug n
  | DeleteApplication slug confirm dd => delete_application_endpoint slug confirm dd
  | ListOrigins slug => x ← application_of slug; s ← get; mret (answered 200 (JArr (dump_origin <$> list_origins s x.1)))
  | RegisterOrigin slug b => register_origin_endpoint slug b
  | UpdateOrigin slug k hh => update_origin slug k hh
  | VerifyOrigin slug k activate => verify_origin_endpoint wire slug k activate
  | ActivateOrigin slug k => activate_origin_endpoint slug k
  | RetireOrigin slug k => retire_origin_endpoint slug k
  | DeleteOrigin slug k => delete_origin_endpoint slug k
  | ListAssertionKeys slug => list_assertion_keys slug
  | IssueAssertionKey slug activate_in => issue_assertion_key slug activate_in
  | RevokeAssertionKey slug key_id => revoke_assertion_key slug key_id
  | ListCredentials slug =>
      x ← application_of slug; s ← get;
      mret (answered 200 (JArr ((fun c => JObj (dump_credential c)) <$> list_credentials s x.1)))
  | IssueCredential slug b => issue_credential_endpoint slug b
  | RotateCredential slug k h => rotate_credential_endpoint slug k h
  | RevokeCredential slug k => revoke_credential_endpoint slug k
  | DeleteCredential slug k => delete_credential_endpoint slug k
  | SetOperatorToken token => set_operator_token token
  | CountSetups slug n => count_setups slug n
  | ShowSigner => signer_answer
  | PutSigner b => put_signer b
  | DeleteSigner => delete_signer
  end.

(** [operator_token_from_env] *)
Definition operator_token_from_env (env : string -> option string) : option string :=
  let token := strip (default "" (env "OPERATOR_API_TOKEN")) in
  if String.eqb token "" || (ulen token <? MIN_OPERATOR_TOKEN_LENGTH) then None else Some token.

Definition operator_client (w : Server) (rq : Request) : option string :=
  match srv_operator_limiter w with
  | Some l => if fl_enabled l then limited_client (srv_edge_settings w) rq else None
  | None => None
  end.
Definition operator_wait (client : option string) : Web Z :=
  w ← get;
  match srv_operator_limiter w, client with
  | Some l, Some address => keys ← need (buckets address) PyValueError; mret (retry_after l keys (srv_monotonic w))
  | _, _ => mret 0
  end.
Definition count_operator_failure (client : option string) : Web unit :=
  w ← get;
  match srv_operator_limiter w, client with
  | Some l, Some address =>
      keys ← need (buckets address) PyValueError;
      modify (fun w => w <| srv_operator_limiter := Some (record_failure l keys (srv_monotonic w)) |>)
  | _, _ => mret tt
  end.

(** A bearer token that is the one in effect. *)
Definition token_given (s : Db) (rq : Request) (token : string) : bool :=
  match rq_credentials rq with
  | Some (scheme, given) => String.eqb (lower scheme) "bearer" && matches s given token
  | None => false
  end.
Definition require_operator (rq : Request) : Web unit :=
  w ← get;
  token ← need (srv_operator_token w) (ApiError 404 "not_found" [] []);
  let address := client_address (srv_edge_settings w) rq in
  _ ← guard_ (match srv_edge_settings w with Some st => operator_allows st address | None => false end)
       (ApiError 403 "address_not_allowed" [] []);
  let client := operator_client w rq in
  wait ← operator_wait client;
  _ ← guard_ (wait =? 0) (rate_limited wait);
  if token_given (srv_db w) rq token then mret tt
  else _ ← count_operator_failure client; raise unauthorized.

Definition operator_request (wire : Wire) (rq : Request) (c : OperatorCall) : Web ApiAnswer :=
  _ ← require_operator rq;
  _ ← guard_ (operator_call_ok c) validation_error;
  w ← get;
  on_db (operator_handler (srv_edge_settings w) wire c).
End Operator.

(** ** Properties *)

Section Properties.
Context `{External, Deployment, PrivateKeys}.
Context (urlsplit : string -> option UrlSplit).

Lemma operator_wait_same client w r w' : operator_wait client w = (r, w') -> w' = w.
Proof.
  unfold operator_wait. rewrite bind_run. cbn [get]. destruct (srv_operator_limiter w), client; try by intros [= _ <-].
  destruct (buckets _); by intros [= _ <-].
Qed.
Lemma count_operator_failure_db client w r w' : count_operator_failure client w = (r, w') -> srv_db w' = srv_db w.
Proof.
  unfold count_operator_failure. rewrite bind_run. cbn [get]. destruct (srv_operator_limiter w), client; try by intros [= _ <-].
  destruct (buckets _); by intros [= _ <-].
Qed.

(** What passing the gate means. *)
Record admitted (rq : Request) (w : Server) : Prop := {
  adm_token : exists token scheme given,
    srv_operator_token w = Some token /\ rq_credentials rq = Some (scheme, given) /\ lower scheme = "bearer" /\
    matches (srv_db w) given token = true;
  adm_address : exists st, srv_edge_settings w = Some st /\ operator_allows st (client_address (Some st) rq) = true;
}.

Lemma require_operator_run rq w :
  let '(r, w') := require_operator rq w in
  srv_db w' = srv_db w /\ (r = Ok tt -> w' = w /\ admitted rq w).
Proof.
  unfold require_operator. rewrite bind_run. cbn [get]. rewrite bind_run.
  destruct (srv_operator_token w) as [token|] eqn:Et; [|done]. cbn [need mret SM_ret]. rewrite bind_run, guard_run.
  destruct (srv_edge_settings w) as [st|] eqn:Es; [|done]. destruct (operator_allows _ _) eqn:Ea; [|done].
  rewrite bind_run. destruct (operator_wait _ w) as [[wait|e] w1] eqn:Ew; apply operator_wait_same in Ew as ->; [|done].
  rewrite bind_run, guard_run. destruct (wait =? 0); [|done].
  destruct (token_given (srv_db w) rq token) eqn:Eg.
  - split; [done|]. intros _. split; [done|]. split; [|eauto]. unfold token_given in Eg.
    destruct (rq_credentials rq) as [[scheme given]|] eqn:Ec; [|done]. apply andb_prop in Eg as [Hs%String.eqb_eq Hm].
    exists token, scheme, given. done.
  - rewrite bind_run. destruct (count_operator_failure _ w) as [[u|e] w2] eqn:Ec;
      by apply count_operator_failure_db in Ec.
Qed.

(** C24: Nothing of the operator API changes the database unless the request came from an
    allowed address with the operator token in effect and a valid body. *)
Theorem operator_gate_required wire rq c w :
  srv_db (operator_request urlsplit wire rq c w).2 <> srv_db w -> admitted rq w /\ operator_call_ok c = true.
Proof.
  intros Hne. pose proof (require_operator_run rq w) as Hg. unfold operator_request in Hne. rewrite bind_run in Hne.
  destruct (require_operator rq w) as [[[]|e] w1]; destruct Hg as [Hdb Ha]; [|done].
  destruct (Ha eq_refl) as [-> Hadm]. split; [done|]. rewrite bind_run, guard_run in Hne. by destruct (operator_call_ok c).
Qed.

Lemma fails_application_answer st a : fails (fun e => ~ refused e) (application_answer st a).
Proof. unfold application_answer, the_application. fails_auto. by intros [? ?]. Qed.
Lemma fails_origin_answer st k : fails (fun e => ~ refused e) (origin_answer st k).
Proof. unfold origin_answer, the_origin. fails_auto. by intros [? ?]. Qed.
Lemma fails_credential_answer st k extra : fails (fun e => ~ refused e) (credential_answer st k extra).
Proof. unfold credential_answer. fails_auto. by intros [? ?]. Qed.
Lemma fails_key_answer st a k extra : fails (fun e => ~ refused e) (key_answer st a k extra).
Proof. unfold key_answer. fails_auto. by intros [? ?]. Qed.
Lemma fails_signer_answer : fails (fun e => ~ refused e) signer_answer.
Proof.
  assert (forall c p e, SecretBox.decrypt c p = Err e -> undecryptable e = true \/ ~ refused e) as Hd.
  { intros c p e. unfold SecretBox.decrypt, SecretBox.derive, SecretBox.secret_key, err.
    destruct (negb _); [intros [= <-]; by left|]. destruct (SecretBox.unb64_std _); [|intros [= <-]; by left].
    destruct (ulen _ <? _); [intros [= <-]; by left|]. destruct (aes_decrypt _ _ _ _); [|intros [= <-]; by left].
    case_bool_decide; [done|]. intros [= <-]. right. by intros [? ?]. }
  unfold signer_answer. fails_auto. intros e. unfold signer_view. destruct (sc_source _); [|done].
  destruct (SecretBox.decrypt _ _) as [|e'] eqn:Ed; [done|]. destruct (Hd _ _ _ Ed) as [->|Hn]; [done|].
  destruct (undecryptable e'); [done|]. by intros [= <-].
Qed.
#[local] Hint Resolve fails_application_answer fails_origin_answer fails_credential_answer fails_key_answer
  fails_signer_answer : session.

Lemma reads_application_of slug : mono eq (application_of slug).
Proof. unfold application_of, get_application_by_slug. mono_auto. Qed.
Lemma reads_origin_of slug k : mono eq (origin_of slug k).
Proof.
  unfold origin_of. apply mono_bind; [apply _|apply reads_application_of|]. intros x. unfold get_origin. mono_auto.
Qed.
Lemma reads_signer_answer : mono eq signer_answer.
Proof. unfold signer_answer. mono_auto. Qed.
#[local] Hint Resolve reads_application_of reads_origin_of reads_signer_answer : session.

(** A handler that refuses has changed nothing, but for an origin whose verification
    failed: the failure is recorded. *)
Lemma operator_refuses settings wire c :
  (forall slug k activate, c <> VerifyOrigin slug k activate) ->
  refuses refused eq (operator_handler urlsplit settings wire c).
Proof.
  intros Hc. destruct c as [| | | | | | | | |slug k activate| | | | | | | | | | | | | | | |]; cbn [operator_handler];
    try by destruct (Hc slug k activate).
  all: try (apply refuses_mono; unfold show_traffic, list_assertion_keys, count_setups; by mono_auto).
  all: unfold create_application_endpoint, update_application_endpoint, delete_application_endpoint, register_origin_endpoint,
    update_origin, activate_origin_endpoint, retire_origin_endpoint, delete_origin_endpoint, issue_assertion_key,
    revoke_assertion_key, issue_credential_endpoint, rotate_credential_endpoint, revoke_credential_endpoint,
    delete_credential_endpoint, set_operator_token, put_signer, delete_signer; cbv zeta.
  all: repeat (apply refuses_bind; [apply _|by mono_auto|intros]).
  all: apply refuses_last; [apply refuses_transaction|intros; fails_auto].
Qed.

(** A refused operator request leaves the database as it was (a failed origin
    verification apart): an update of several fields is all or nothing. *)
Theorem operator_refusals_commit_nothing wire rq c w e w' :
  (forall slug k activate, c <> VerifyOrigin slug k activate) ->
  operator_request urlsplit wire rq c w = (Err e, w') -> refused e -> srv_db w' = srv_db w.
Proof.
  intros Hc Hr He. pose proof (require_operator_run rq w) as Hg. unfold operator_request in Hr. rewrite bind_run in Hr.
  destruct (require_operator rq w) as [[[]|e1] w1]; destruct Hg as [Hdb Ha]; [|by injection Hr as _ <-].
  destruct (Ha eq_refl) as [-> _]. rewrite bind_run, guard_run in Hr. destruct (operator_call_ok c); [|by injection Hr as _ <-].
  rewrite bind_run in Hr. cbn [get] in Hr. unfold on_db in Hr.
  destruct (operator_handler _ _ _ _ (srv_db w)) as [r s1] eqn:Eh. injection Hr as -> <-.
  symmetry. eapply operator_refuses; eauto.
Qed.
End Properties.
