(* ===== verification/Legacy.v ===== *)
(** * The legacy import (app/legacy.py)

    Reading the hostnames of a saved Caddy configuration and registering each of
    them under one application.  LegacyCaddy.v is the API that saved it. *)

From Stdlib Require Import Ascii String ZArith Lia.
From stdpp Require Import base gmap strings list sets.
From S2P Require Import Prelude PyStr Datetime Json Errors External Models Hostname Dns DnsSetup.
From S2P Require Import Domains.
Open Scope string_scope.
Open Scope Z_scope.

Definition LEGACY_IMPORT_METHOD : string := "legacy_import".
Definition MISSING_REFERENCE : string := "missing_reference".

(** A host or an upstream is whatever the JSON document holds there. *)
Record LegacyDomain := { leg_hostname : json; leg_upstream : json }.

Record ImportReport := {
  rep_imported : list N;
  rep_existing : list N;
  rep_skipped : list (json * string);
}.
Definition report_complete (r : ImportReport) : bool := match rep_skipped r with [] => true | _ => false end.

(** ** Reading the configuration *)

(** [node.get(key)] and [node.get(key, default)] *)
Definition py_get (key : string) (node : json) : res exn (option json) :=
  match node with JObj d => Ok (dget key d) | _ => Err PyAttributeError end.
Definition py_get_or (key : string) (fallback node : json) : res exn json :=
  match py_get key node with Ok v => Ok (default fallback v) | Err e => Err e end.

(** The values [for x in node] visits. *)
Fixpoint characters (s : string) : list json :=
  match s with "" => [] | String c s => JStr (String c "") :: characters s end.
Definition py_iter (node : json) : res exn (list json) :=
  match node with
  | JArr l => Ok l
  | JObj d => Ok (JStr <$> dkeys d)
  | JStr s => Ok (characters s)
  | _ => Err PyTypeError
  end.

(** [upstreams[0].get("dial")] for truthy [upstreams] *)
Definition first_dial (upstreams : json) : res exn json :=
  match upstreams with
  | JArr (x :: _) => py_get_or "dial" JNull x
  | JObj _ => Err PyKeyError
  | JStr _ => Err PyAttributeError
  | _ => Err PyTypeError
  end.

Fixpoint first_upstream (node : json) : res exn json :=
  match node with
  | JObj d =>
      let search := (fix items (d : dict) : res exn json :=
        match d with
        | [] => Ok JNull
        | (_, v) :: d => match first_upstream v with
                         | Err e => Err e
                         | Ok found => if truthy found then Ok found else items d
                         end
        end) d in
      match dget "handler" d with
      | Some (JStr "reverse_proxy") =>
          let upstreams := default JNull (dget "upstreams" d) in
          if truthy upstreams then first_dial upstreams else search
      | _ => search
      end
  | JArr l =>
      (fix elements (l : list json) : res exn json :=
         match l with
         | [] => Ok JNull
         | v :: l => match first_upstream v with
                     | Err e => Err e
                     | Ok found => if truthy found then Ok found else elements l
                     end
         end) l
  | _ => Ok JNull
  end.

(** [[f(x) for x in xs]], flattened; the first error ends it. *)
Fixpoint concat_each {A B} (f : A -> res exn (list B)) (xs : list A) : res exn (list B) :=
  match xs with
  | [] => Ok []
  | x :: xs => match f x, concat_each f xs with
               | Ok l, Ok m => Ok (l ++ m)%list
               | Err e, _ => Err e
               | _, Err e => Err e
               end
  end.

Definition and_then {A B} (r : res exn A) (k : A -> res exn B) : res exn B :=
  match r with Ok a => k a | Err e => Err e end.

Definition route_entries (route : json) : res exn (list LegacyDomain) :=
  and_then (first_upstream route) (fun upstream =>
  and_then (py_get_or "match" (JArr []) route) (fun matches =>
  and_then (py_iter matches) (concat_each (fun m =>
  and_then (py_get_or "host" (JArr []) m) (fun hosts =>
  and_then (py_iter hosts) (fun l =>
  Ok ((fun h => {| leg_hostname := h; leg_upstream := upstream |}) <$> l))))))).

Definition parse_legacy_config (config : json) (port : Z) : res exn (list LegacyDomain) :=
  and_then (py_get_or "apps" (JObj []) config) (fun apps =>
  and_then (py_get_or "http" (JObj []) apps) (fun http =>
  and_then (py_get_or "servers" (JObj []) http) (fun servers =>
  and_then (py_get_or (py_str port) (JObj []) servers) (fun server =>
  and_then (py_get_or "routes" (JArr []) server) (fun routes =>
  and_then (py_iter routes) (concat_each route_entries)))))).

(** ** Registering the hostnames *)

(** The option values of one run. *)
Record ImportOptions := {
  imp_references : string -> option json;
  imp_grandfather : bool;
  imp_hostname_as_reference : bool;
}.

Section Importing.
Context `{External, Deployment}.

Definition if_truthy (o : option json) : option json :=
  match o with Some j => if truthy j then Some j else None | None => None end.

(** [references.get(hostname) or references.get(entry.hostname)], then the hostname; a
    map read from JSON may hold any value. *)
Definition import_reference (opts : ImportOptions) (hostname : string) (entry : LegacyDomain) : option json :=
  match if_truthy (imp_references opts hostname) with
  | Some r => Some r
  | None =>
      match if_truthy (as_str (leg_hostname entry) ≫= imp_references opts) with
      | Some r => Some r
      | None => if imp_hostname_as_reference opts && negb (String.eqb hostname "") then Some (JStr hostname) else None
      end
  end.

Definition skip (report : ImportReport) (host : json) (why : string) : ImportReport :=
  {| rep_imported := rep_imported report; rep_existing := rep_existing report;
     rep_skipped := (rep_skipped report ++ [(host, why)])%list |}.

(** What [claim_domain] gave for an entry: a new domain, or a reason to go on. *)
Inductive Registration := REGISTERED (id : N) | LIMITED | TAKEN.

(** [claim_domain] of any reference; one that is not text has no [strip]. *)
Definition claim_referenced (a : N) (hostname : string) (reference : json) (metadata : dict) (now : Z) : M N :=
  match reference with
  | JStr r => claim_domain a hostname r (Some metadata) (Some now)
  | _ =>
      application ← the_application a;
      _ ← guard_ (bool_decide (app_status application = ACTIVE)) (ServiceError ApplicationSuspended []);
      raise PyAttributeError
  end.
Definition register_entry (a : N) (hostname : string) (reference : json) (metadata : dict) (now : Z) : M Registration :=
  catch (id ← claim_referenced a hostname reference metadata now; mret (REGISTERED id))
    (fun e => match e with
              | ServiceError DomainLimitReached _ => mret LIMITED
              | ServiceError HostnameAlreadyClaimed _ => mret TAKEN
              | _ => raise e
              end).

Definition grandfather_domain (id : N) (now : Z) : M unit :=
  _ ← mark_claim_verified id LEGACY_IMPORT_METHOD (Some now);
  _ ← record_check id OWNERSHIP PASSING None None
        (Some [("source", JStr LEGACY_IMPORT_METHOD)]) (Some now) None;
  transition_status id PROVISIONING (Some LEGACY_IMPORT_METHOD) (Some now).

Definition import_entry (a : N) (opts : ImportOptions) (now : Z) (entry : LegacyDomain)
    (report : ImportReport) : M ImportReport :=
  match canonicalize_apex false (as_str (leg_hostname entry)) with
  | Err (InvalidHostname why) => mret (skip report (leg_hostname entry) why)
  | Err e => raise e
  | Ok hostname =>
      match import_reference opts hostname entry with
      | None => mret (skip report (JStr hostname) MISSING_REFERENCE)
      | Some reference =>
          let metadata := [("legacy_upstream", leg_upstream entry); ("imported_at", JStr (isoformat now))] in
          outcome ← register_entry a hostname reference metadata now;
          match outcome with
          | LIMITED => mret (skip report (JStr hostname) (code_of DomainLimitReached))
          | TAKEN =>
              found ← find_live_by_hostname hostname;
              match found with
              | Some (k, d) =>
                  if bool_decide (dom_application_id d = a)
                  then mret {| rep_imported := rep_imported report;
                               rep_existing := (rep_existing report ++ [k])%list;
                               rep_skipped := rep_skipped report |}
                  else mret (skip report (JStr hostname) (code_of HostnameAlreadyClaimed))
              | None => mret (skip report (JStr hostname) (code_of HostnameAlreadyClaimed))
              end
          | REGISTERED id =>
              _ ← record_event id DOMAIN_IMPORTED
                    [("upstream", leg_upstream entry); ("grandfathered", JBool (imp_grandfather opts))]
                    (Some now);
              _ ← (if imp_grandfather opts then grandfather_domain id now else mret tt);
              mret {| rep_imported := (rep_imported report ++ [id])%list;
                      rep_existing := rep_existing report; rep_skipped := rep_skipped report |}
          end
      end
  end.

Fixpoint import_entries (a : N) (opts : ImportOptions) (now : Z) (entries : list LegacyDomain)
    (report : ImportReport) : M ImportReport :=
  match entries with
  | [] => mret report
  | entry :: entries =>
      report ← import_entry a opts now entry report;
      import_entries a opts now entries report
  end.

Definition import_legacy_domains (a : N) (entries : list LegacyDomain) (opts : ImportOptions)
    (now : option Z) : M ImportReport :=
  now ← now_or now;
  import_entries a opts now entries {| rep_imported := []; rep_existing := []; rep_skipped := [] |}.
End Importing.
