(* ===== verification/Doctor.v ===== *)
(** * Deployment checks (app/services/doctor.py)

    What [custom-domain doctor], the operator API and the portal report of a deployment:
    the database, the settings, the edge's gateway and configuration, the reconciler, the
    limits and every name of the edge.  The network calls are arguments, as in the code,
    and give the exception's text when they fail.  Theorems: a name is reported ok exactly
    when every address it has in public DNS is global and answers as this edge; and what a
    report without a warning or a failure means of the deployment. *)

From Stdlib Require Import Ascii String ZArith QArith Qround Lia.
From stdpp Require Import base gmap strings list sorting.
From S2P Require Import Prelude PyStr Json Errors External Models EdgeSettings Dns DnsSetup Limits EdgeChecks Applications.
From S2P Require Import PortalAuth EdgeConfig Legacy.
Open Scope string_scope.
Open Scope Z_scope.

Definition ACME_DIRECTORY : string := "https://acme-v02.api.letsencrypt.org/directory".
Definition MIN_TOKEN_LENGTH : Z := 32.

Record Finding := { fi_check : string; fi_status : string; fi_detail : string; fi_reached : list string }.
Definition finding (check status detail : string) : Finding :=
  {| fi_check := check; fi_status := status; fi_detail := detail; fi_reached := [] |}.
Definition finding_ok (f : Finding) : bool := String.eqb (fi_status f) "ok".

(** What the database session and Alembic say; a failure with its text. *)
Inductive Database :=
| Unreachable (text : string)
| RevisionsUnknown (text : string)
| Revisions (current heads : list string).

(** What asking an address for the health path gives; a failure says whether this host
    has no route to the address ([_no_route]). *)
Inductive ProbeReply := ProbeAnswer (status : Z) (marker : option string) | ProbeFailure (text : string) (no_route : bool).
Inductive Verdict := REACHED | UNVERIFIABLE | PROBLEM (text : string).
#[export] Instance Verdict_eq_dec : EqDecision Verdict.
Proof. solve_decision. Defined.

Definition commas (l : list string) : string := join ", " l.
Definition sorted_text (l : list string) : string := commas (merge_sort string_le (remove_dups l)).

(** ** Settings *)

Definition database_findings (d : Database) : list Finding :=
  match d with
  | Unreachable text => [finding "database" "fail" ("cannot connect: " ++ text)]
  | RevisionsUnknown text =>
      [finding "database" "ok" "reachable"; finding "migrations" "warn" ("could not compare revisions: " ++ text)]
  | Revisions current heads =>
      [finding "database" "ok" "reachable";
       if same_str current heads then finding "migrations" "ok" ("at " ++ sorted_text heads)
       else finding "migrations" "fail"
              ("database is at " ++ default "nothing" (nonempty (Some (sorted_text current))) ++ ", code expects "
               ++ sorted_text heads ++ "; run `custom-domain db upgrade`")]
  end.

(** Domains Let's Encrypt refuses as contacts. *)
Definition RESERVED_EMAIL_DOMAINS : list string := ["example.com"; "example.net"; "example.org"].
Definition RESERVED_EMAIL_TLDS : list string := ["example"; "test"; "invalid"; "localhost"; "local"].

Definition looks_like_email (email : string) : bool :=
  let '(local, domain) := rpartition "@"%char (strip email) in
  negb (String.eqb local "") && has_char "."%char (strip_if (char_eqb "."%char) domain).
Definition reserved_email_domain (email : string) : bool :=
  let domain := rstrip_if (char_eqb "."%char) (lower (strip (default email (after_last "@"%char email)))) in
  if negb (has_char "@"%char email) || String.eqb domain "" then true
  else if mem_str domain RESERVED_EMAIL_DOMAINS
          || existsb (fun d => endswith ("." ++ d) domain) RESERVED_EMAIL_DOMAINS then true
  else mem_str (default domain (after_last "."%char domain)) RESERVED_EMAIL_TLDS.

Section Doctor.
Context `{External, Deployment}.

Definition token_finding (settings : EdgeSettings) : Finding :=
  match nonempty (edge_token settings) with
  | Some t =>
      if ulen t <? MIN_TOKEN_LENGTH
      then finding "edge token" "warn" ("EDGE_TOKEN is shorter than " ++ py_str MIN_TOKEN_LENGTH ++ " chars")
      else finding "edge token" "ok" "set"
  | None => finding "edge token" "warn" "EDGE_TOKEN is not set: the internal endpoints rely on the address check alone"
  end.
Definition portal_finding (environ : env) (settings : EdgeSettings) : res exn Finding :=
  if String.eqb (strip (default "" (environ "PORTAL_PASSWORD"))) "" then
    Ok (finding "portal" "warn" "disabled: set PORTAL_PASSWORD to enable it")
  else match portal_allowed_ips settings, portal_ranges settings with
       | [], _ => Ok (finding "portal" "ok" "tunnel only (PORTAL_ALLOWED_IPS is empty)")
       | _, Some networks => Ok (finding "portal" "ok" ("exposed at https://<edge name>/portal to " ++ commas networks))
       | _, None => Err PyValueError
       end.
Definition api_finding (settings : EdgeSettings) : Finding :=
  finding "public api" "ok"
    (if public_api settings
     then "served at https://" ++ default "<edge name>" (nonempty (es_edge_hostname settings))
          ++ "/v1 for applications with a credential"
     else "not served through the edge (PUBLIC_API is off): applications need another "
          ++ "way to reach the API on port 9000").
Definition https_finding (settings : EdgeSettings) : Finding :=
  if es_disable_https settings then finding "https" "warn" "DISABLE_HTTPS=true: the edge serves plain HTTP"
  else if String.eqb (tls_issuer settings) "internal" then
    finding "https" "warn" "EDGE_TLS_ISSUER=internal: certificates from a private CA"
  else match nonempty (acme_email settings) with
       | Some email =>
           if negb (looks_like_email email) then
             finding "https" "fail"
               ("ACME_EMAIL " ++ py_repr email ++ " is not an email address, and Let's "
                ++ "Encrypt refuses it: no certificate can be issued. Set a real address in .env "
                ++ "for the api, worker and edge alike, and restart all three")
           else if reserved_email_domain email then
             finding "https" "fail"
               ("ACME_EMAIL " ++ email ++ " uses a reserved domain, which Let's Encrypt "
                ++ "refuses (invalidContact): no certificate can be issued until ACME_EMAIL is a "
                ++ "real address. Set it in .env for the api, worker and edge alike, and restart "
                ++ "all three")
           else finding "https" "ok" ("public certificates, ACME account " ++ email)
       | None => finding "https" "ok" "public certificates (no ACME_EMAIL set)"
       end.
(** [dns_local]: [DNS_VERIFICATION_MODE=local]. *)
Definition settings_findings (environ : env) (settings : EdgeSettings) (dns_local : bool) : res exn (list Finding) :=
  portal ← portal_finding environ settings;
  Ok ((if legacy_api_enabled settings
    then [finding "legacy api" "warn"
            ("ENABLE_LEGACY_API is true: the edge reconciler is off and the deprecated "
             ++ "/domains endpoint is served; set it to false once hostnames are imported")]
    else [])
   ++ [token_finding settings; portal; api_finding settings]
   ++ (if dns_local
       then [finding "dns mode" "warn"
               ("DNS_VERIFICATION_MODE=local: the DNS checks are not verifying public DNS "
                ++ "(development only)")]
       else [])
   ++ [https_finding settings])%list.

(** ** Limits *)

(** The deployment's usage, then that of each application with a limit, by slug. *)
Definition all_usages (s : Db) (deployment : option Z) : list Usage :=
  (match deployment with
   | Some limit => [{| usage_scope := "deployment"; usage_live := live_domains s None; usage_limit := limit |}]
   | None => []
   end
   ++ omap (fun x => (fun limit => {| usage_scope := "application " ++ app_slug x.2;
                                      usage_live := live_domains s (Some x.1); usage_limit := limit |})
                     <$> app_max_domains x.2) (list_applications s))%list.
Definition usage_text (u : Usage) : string :=
  usage_scope u ++ " " ++ py_str (usage_live u) ++ " of " ++ py_str (usage_limit u).
Definition near_text (u : Usage) : string :=
  let counts := py_str (usage_live u) ++ " of " ++ py_str (usage_limit u) ++ " live domains" in
  if usage_reached u
  then usage_scope u ++ " is at its limit: " ++ counts ++ ". New registrations "
       ++ "are refused with domain_limit_reached; existing domains keep working"
  else usage_scope u ++ " is at " ++ counts ++ " (" ++ py_str (usage_live u * 100 / usage_limit u) ++ "%)".
(** [InvalidLimit]'s text: [invalid]. *)
Definition limit_findings (s : Db) (invalid : string) : list Finding :=
  match deployment_limit with
  | Err _ => [finding "domain limits" "fail" (invalid ++ "; the API refuses to start")]
  | Ok deployment =>
      match all_usages s deployment with
      | [] => []
      | us => match filter (fun u => usage_near u = true) us with
              | [] => [finding "domain limits" "ok" (join "; " (usage_text <$> us))]
              | near => (fun u => finding "domain limits" "warn" (near_text u)) <$> near
              end
      end
  end.

(** ** The edge *)

Context (http_get : string -> res string Z) (fetch_json : string -> res string json).
Context (resolve : string -> res string (list string)) (probe_target : string -> string -> ProbeReply).

Definition config_url (settings : EdgeSettings) : string := admin_url settings ++ "/config/apps".
Definition acme_finding : Finding :=
  match http_get ACME_DIRECTORY with
  | Ok 200 => finding "acme" "ok" "Let's Encrypt reachable"
  | Ok status => finding "acme" "warn" (ACME_DIRECTORY ++ " answered HTTP " ++ py_str status)
  | Err name =>
      finding "acme" "fail" ("cannot reach " ++ ACME_DIRECTORY ++ " (" ++ name ++ "): certificates "
                             ++ "cannot be issued without outbound HTTPS")
  end.
(** The gateway, and the certificate authority once the gateway was asked. *)
Definition edge_findings (settings : EdgeSettings) : list Finding :=
  if negb (reconcile_enabled settings) then [] else
  let url := config_url settings in
  match http_get url with
  | Err name =>
      [finding "edge gateway" "fail"
         (url ++ " unreachable (" ++ name ++ "): is the edge container up and CADDY_ADMIN_URL pointing at it?")]
  | Ok status =>
      ((if status =? 200 then finding "edge gateway" "ok" (url ++ " answers")
        else finding "edge gateway" "fail" (url ++ " answered HTTP " ++ py_str status))
       :: (if negb (es_disable_https settings) && String.eqb (tls_issuer settings) "acme" then [acme_finding] else []))%list
  end.

(** The routes a different configuration runs; Caddy's [@id] is a string. *)
Definition running_routes (running : json) : res exn (list string) :=
  match running with
  | JObj _ =>
      http ← py_get_or "http" (JObj []) running;
      servers ← py_get_or "servers" (JObj []) http;
      server ← py_get_or "edge" (JObj []) servers;
      routes ← py_get_or "routes" (JArr []) server;
      visited ← py_iter routes;
      Ok (omap (fun r => match r with JObj d => Some (default "None" (dget "@id" d ≫= as_str)) | _ => None end)
            (visited : list json))
  | _ => Ok []
  end.
Definition edge_config_finding (s : Db) (settings : EdgeSettings) : res exn Finding :=
  match fetch_json (config_url settings) with
  | Err name => Ok (finding "edge config" "warn" ("could not read " ++ config_url settings ++ ": " ++ name))
  | Ok running =>
      match build_apps s settings with
      | None => Err PyValueError
      | Some desired =>
          let desired_digest := config_digest (Some desired) in
          let digest := config_digest (match running with JObj _ => Some running | _ => None end) in
          if String.eqb digest desired_digest
          then Ok (finding "edge config" "ok" ("the edge runs the desired configuration (" ++ desired_digest ++ ")"))
          else
            routes ← running_routes running;
            let tls := match running with JObj d => truthy (default JNull (dget "tls" d)) | _ => false end in
            Ok (finding "edge config" "fail"
                  ("the edge runs a different configuration (routes [" ++ commas (py_repr <$> routes) ++ "], "
                   ++ (if tls then "with" else "without") ++ " TLS "
                   ++ "automation) than this instance derives (" ++ desired_digest ++ "): the gateway is "
                   ++ "rejecting the reconciler's configuration or it has not run. Check the worker "
                   ++ "log for config_rejected; EDGE_ASK_URL, EDGE_ASSERT_UPSTREAM, ACME_EMAIL and "
                   ++ "EDGE_TLS_ISSUER must be identical for the api, worker and edge containers"))
      end
  end.

(** [timedelta(seconds=3 * interval + 60)], to the microsecond; [None]: it overflows. *)
Definition reconcile_allowance (interval : PyFloat) : option Z :=
  match interval with Finite q => Some (Qfloor ((3 * q + 60) * 1000000 + (1 # 2))) | _ => None end.
(** [int(age.total_seconds())] *)
Definition age_text (age : Z) : string := "last run " ++ py_str (Z.quot age 1000000) ++ "s ago".
Definition reconciler_findings (s : Db) (settings : EdgeSettings) (now : Z) : res exn (list Finding) :=
  if negb (reconcile_enabled settings) then Ok [] else
  match reconcile_allowance (reconcile_interval settings) with
  | None => Err PyValueError
  | Some allowance =>
      let lock := db_locks s !! RECONCILE_LOCK in
      Ok [match lock ≫= lock_locked_at with
          | None =>
              finding "reconciler" "warn" "no reconciliation has run yet: is the worker container running?"
          | Some locked_at =>
              let age := now - locked_at in
              if allowance <? age
              then finding "reconciler" "warn"
                     (age_text age ++ " by " ++ default "?" (nonempty (lock ≫= lock_holder))
                      ++ ": is the worker container running?")
              else finding "reconciler" "ok" (age_text age)
          end]
  end.

(** ** Names *)

(** [_unverifiable_from_here]: an IPv6 address this host has no route to. *)
Definition ip_version_6 (address : string) : bool := is_ip_address address && has_char ":"%char address.
Definition verdict (target address : string) : Verdict :=
  match probe_target target address with
  | ProbeFailure text no_route =>
      if ip_version_6 address && no_route then UNVERIFIABLE else PROBLEM (address ++ ": " ++ text)
  | ProbeAnswer status marker =>
      if (status =? 204) && bool_decide (marker = Some EDGE_HEALTH_VALUE) then REACHED
      else PROBLEM (address ++ ": HTTP " ++ py_str status ++ " without this edge's marker")
  end.
Definition problems_of (target : string) (addresses : list string) : list string :=
  omap (fun a => match verdict target a with PROBLEM text => Some text | _ => None end) addresses.
Definition with_verdict (target : string) (v : Verdict) (addresses : list string) : list string :=
  filter (fun a => verdict target a = v) addresses.

Definition name_check (application : option Application) (target : string) : string :=
  match application with
  | None => "edge hostname " ++ target
  | Some r => "cname target " ++ target
              ++ (if String.eqb target (app_cname_target r) then "" else " (former, still named by live claims)")
  end.
Definition health_url (settings : EdgeSettings) (target : string) : string :=
  (if es_disable_https settings then "http" else "https") ++ "://" ++ target
  ++ (if (https_port settings =? 80) || (https_port settings =? 443) then "" else ":" ++ py_str (https_port settings))
  ++ HEALTH_PATH.
(** The finding once the addresses were asked. *)
Definition probed_finding (check url : string) (addresses problems unverifiable reached : list string) : Finding :=
  match problems, unverifiable, reached with
  | [], [], _ =>
      {| fi_check := check; fi_status := "ok"; fi_detail := commas addresses ++ " all answer " ++ url ++ " as this edge";
         fi_reached := reached |}
  | [], _, [] =>
      finding check "warn"
        ("has only IPv6 address(es) (" ++ commas unverifiable ++ "), which cannot be "
         ++ "checked from this container (no IPv6 route here, which is normal inside "
         ++ "Docker), so it is not verified that they reach this edge. Verify from "
         ++ "outside: curl -6 -I " ++ url)
  | [], _, _ =>
      {| fi_check := check; fi_status := "warn";
         fi_detail := commas reached ++ " answer " ++ url ++ " as this edge; the IPv6 address(es) "
                      ++ commas unverifiable ++ " could not be checked from this container (no "
                      ++ "IPv6 route here, which is normal inside Docker). Verify from outside: "
                      ++ "curl -6 -I " ++ url;
         fi_reached := reached |}
  | _, _, _ =>
      let unchecked := commas unverifiable ++ ": not checkable from this container" in
      let problems := (problems ++ match unverifiable with [] => [] | _ => [unchecked] end)%list in
      finding check "fail"
        (url ++ " at " ++ join "; " problems ++ ". Open TCP 80 and 443 (and UDP 443) to the edge "
         ++ "for every published address, run doctor again in a minute if the certificate "
         ++ "for this name is still being issued, and check the edge log for ACME errors "
         ++ "if it keeps failing")
  end.
(** [_cname_target_findings], which gives one finding. *)
Definition name_finding (settings : EdgeSettings) (application : option Application) (target : string) : res exn Finding :=
  let check := name_check application target in
  match resolve target with
  | Err text =>
      Ok (finding check "fail" ("public DNS lookup failed (" ++ text ++ "): customers' CNAMEs point here, so it needs "
                                ++ "an A/AAAA record for this edge"))
  | Ok [] => Ok (finding check "fail" "has no A or AAAA record in public DNS: add one for this edge")
  | Ok addresses =>
      if negb (forallb is_ip_address addresses) then Err PyValueError else
      match filter (fun a => ip_is_global a = false) addresses with
      | [] => Ok (probed_finding check (health_url settings target) addresses (problems_of target addresses)
                    (with_verdict target UNVERIFIABLE addresses) (with_verdict target REACHED addresses))
      | private =>
          Ok (finding check "fail" ("resolves to " ++ commas private ++ ", not a public address: customers cannot "
                                    ++ "reach that; point the record at the edge's public address"))
      end
  end.
Definition check_edge_name (settings : EdgeSettings) (name : string) : res exn Finding := name_finding settings None name.

(** The findings of [xs], in order. *)
Fixpoint each_finding {A} (f : A -> res exn (list Finding)) (xs : list A) : res exn (list Finding) :=
  match xs with
  | [] => Ok []
  | x :: xs => l ← f x; m ← each_finding f xs; Ok (l ++ m)%list
  end.
Definition application_finding (s : Db) (settings : EdgeSettings) (x : N * Application) : res exn (list Finding) :=
  let check := "application " ++ app_slug x.2 in
  if negb (bool_decide (app_status x.2 = ACTIVE)) then Ok [finding check "warn" "not active"] else
  names ← each_finding (fun target =>
      if bool_decide (Some target = es_edge_hostname settings) then Ok []
      else f ← name_finding settings (Some x.2) target; Ok [f]) (edge_names s x.1 x.2);
  Ok (match serving_origin s x.1 with
      | None => finding check "warn" "no verified active origin: register, verify and activate one"
      | Some o => finding check "ok" ("origin " ++ origin_url o.2)
      end :: names).
Definition each_application (s : Db) (settings : EdgeSettings) : res exn (list Finding) :=
  match list_applications s with
  | [] => Ok [finding "applications" "warn" "none yet: create one with `custom-domain application create`"]
  | apps => each_finding (application_finding s settings) apps
  end.
Definition application_findings (s : Db) (settings : EdgeSettings) : res exn (list Finding) :=
  own ← (match nonempty (es_edge_hostname settings) with
         | Some name => f ← check_edge_name settings name; Ok [f]
         | None =>
             Ok [finding "edge hostname" "warn"
                   ("EDGE_HOSTNAME is not set: the edge has no name of its own until an application "
                    ++ "exists, so the portal is reachable only over the tunnel until then")]
         end);
  apps ← each_application s settings;
  Ok (own ++ apps)%list.

(** ** The report *)

Definition database_fails (f : Finding) : bool := String.eqb (fi_check f) "database" && String.eqb (fi_status f) "fail".
Definition gateway_answers (f : Finding) : bool := String.eqb (fi_check f) "edge gateway" && finding_ok f.
Definition run_doctor (database : Database) (s : Db) (environ : env) (settings : EdgeSettings) (dns_local : bool)
    (invalid_limit : string) (now : Z) : res exn (list Finding) :=
  own ← settings_findings environ settings dns_local;
  let first := (database_findings database ++ own ++ edge_findings settings)%list in
  let database_ok := negb (existsb database_fails first) in
  let gateway_ok := existsb gateway_answers first in
  config ← (if database_ok && gateway_ok then f ← edge_config_finding s settings; Ok [f] else Ok []);
  rest ← (if database_ok then
            reconciler ← reconciler_findings s settings now;
            applications ← application_findings s settings;
            Ok (reconciler ++ limit_findings s invalid_limit ++ applications)%list
          else Ok []);
  Ok (first ++ config ++ rest)%list.

Definition summarize (findings : list Finding) : Z * Z * Z :=
  let n status := Z.of_nat (List.length (filter (fun f => fi_status f = status) findings)) in
  (n "ok", n "warn", n "fail").
Definition upper (s : string) : string := smap (fun c => if is_lower c then ascii_of_nat (nat_of_ascii c - 32) else c) s.
Definition as_rows (findings : list Finding) : list (string * string * string) :=
  (fun f => (upper (fi_status f), fi_check f, fi_detail f)) <$> findings.

(** ** Properties *)

(** The address answered the health path as this edge. *)
Definition answers (target address : string) : Prop :=
  probe_target target address = ProbeAnswer 204 (Some EDGE_HEALTH_VALUE).

Lemma verdict_reached target address : verdict target address = REACHED <-> answers target address.
Proof.
  unfold verdict, answers. destruct (probe_target target address) as [status marker|text no_route].
  - destruct (Z.eqb_spec status 204), (bool_decide_reflect (marker = Some EDGE_HEALTH_VALUE)); cbn [andb];
      split; try done; try congruence; intros [= -> ->]; done.
  - destruct (ip_version_6 address && no_route); split; done.
Qed.

Lemma problems_nil target addresses :
  problems_of target addresses = [] <-> Forall (fun a => forall text, verdict target a <> PROBLEM text) addresses.
Proof.
  unfold problems_of. split.
  - induction addresses as [|a l IH]; [constructor|]. cbn [omap list_omap].
    destruct (verdict target a) eqn:E; try done; intros Hn; constructor; auto; intros ?; by rewrite E.
  - induction 1 as [|a l Ha _ IH]; [done|]. cbn [omap list_omap]. destruct (verdict target a) as [| |text] eqn:E; [done|done|].
    by edestruct Ha.
Qed.

Lemma with_verdict_nil target v addresses :
  with_verdict target v addresses = [] <-> Forall (fun a => verdict target a <> v) addresses.
Proof.
  unfold with_verdict. split.
  - intros Hn. apply Forall_forall. intros a Ha Hv. assert (a ∈ ([] : list string)) as Hin; [|by apply elem_of_nil in Hin].
    rewrite <- Hn. by apply list_elem_of_filter.
  - intros Hall. induction Hall as [|a l Ha _ IH]; [done|]. rewrite filter_cons. by destruct (decide _).
Qed.

(** Public DNS gives the name addresses, and each answers as this edge. *)
Definition reaches (target : string) : Prop :=
  exists a addresses, resolve target = Ok (a :: addresses) /\
    Forall (fun x => is_ip_address x = true /\ ip_is_global x = true /\ answers target x) (a :: addresses).

Lemma probed_means target check url a addresses :
  resolve target = Ok (a :: addresses) ->
  (forall x, x ∈ a :: addresses -> is_ip_address x = true) -> (forall x, x ∈ a :: addresses -> ip_is_global x = true) ->
  let f := probed_finding check url (a :: addresses) (problems_of target (a :: addresses))
             (with_verdict target UNVERIFIABLE (a :: addresses)) (with_verdict target REACHED (a :: addresses)) in
  (fi_status f = "ok" <-> reaches target) /\ Forall (answers target) (fi_reached f).
Proof.
  clear http_get fetch_json. intros Er Hi Hg f. subst f.
  assert (Forall (answers target) (with_verdict target REACHED (a :: addresses))) as Hr.
  { apply Forall_forall. intros x Hx%list_elem_of_filter. apply verdict_reached. apply Hx. }
  assert (reaches target <-> Forall (answers target) (a :: addresses)) as Hre.
  { unfold reaches. rewrite Er. split.
    - intros (x & l & [= <- <-] & Hall). eapply Forall_impl; [exact Hall|]. by intros y (_ & _ & ?).
    - intros Hall. exists a, addresses. split; [done|]. apply Forall_forall. intros x Hx. rewrite Forall_forall in Hall. auto. }
  rewrite Hre. unfold probed_finding. destruct (problems_of _ _) as [|p ps] eqn:Ep.
  - rewrite problems_nil in Ep. destruct (with_verdict target UNVERIFIABLE _) as [|u us] eqn:Eu.
    + rewrite with_verdict_nil in Eu. cbn [fi_status fi_reached]. split; [|done]. split; [|done]. intros _. apply Forall_forall.
      intros x Hx. rewrite Forall_forall in Ep, Eu. specialize (Ep x Hx). specialize (Eu x Hx). apply verdict_reached.
      destruct (verdict target x) as [| |text]; [done|done|by destruct (Ep text)].
    + assert (u ∈ with_verdict target UNVERIFIABLE (a :: addresses)) as [Hv Hin]%list_elem_of_filter by (rewrite Eu; by left).
      assert (~ Forall (answers target) (a :: addresses)) as Hno.
      { rewrite Forall_forall. intros Hall. specialize (Hall u Hin). apply verdict_reached in Hall. congruence. }
      destruct (with_verdict target REACHED _) as [|r rs]; cbn; (split; [split; [done|tauto]|done]).
  - cbn. split; [|done]. split; [done|]. intros Hall. exfalso.
    assert (problems_of target (a :: addresses) = []) as Hn; [|congruence]. apply problems_nil, Forall_forall.
    intros x Hx text Hv. rewrite Forall_forall in Hall. specialize (Hall x Hx). apply verdict_reached in Hall. congruence.
Qed.

(** A name of the edge is reported ok exactly when public DNS gives it addresses, each of
    them global and each answering the health path as this edge; and the addresses
    reported as reached, whatever the status, did. *)
Lemma name_finding_means settings application target f :
  name_finding settings application target = Ok f ->
  (fi_status f = "ok" <-> reaches target) /\
  Forall (answers target) (fi_reached f).
Proof.
  unfold name_finding. destruct (resolve target) as [[|a addresses]|] eqn:Er.
  1, 3: intros [= <-]; split; [split; [done|unfold reaches; rewrite Er; by intros (? & ? & [=] & _)]|apply Forall_nil_2].
  destruct (forallb is_ip_address _) eqn:Ei; [|done]. cbn [negb].
  rewrite forallb_forall in Ei. destruct (filter (fun x => ip_is_global x = false) (a :: addresses)) as [|g gs] eqn:Eg.
  - assert (forall x, x ∈ a :: addresses -> ip_is_global x = true) as Hg.
    { intros x Hx. destruct (ip_is_global x) eqn:E; [done|]. assert (x ∈ ([] : list string)) as Hn; [|by apply elem_of_nil in Hn].
      rewrite <- Eg. by apply list_elem_of_filter. }
    intros [= <-]. apply (probed_means target _ _ a addresses); [done| |done]. intros x Hx. by apply Ei, list_elem_of_In.
  - intros [= <-]. split; [|apply Forall_nil_2]. split; [done|]. unfold reaches. rewrite Er. intros (x & l & [= <- <-] & Hall). exfalso.
    assert (g ∈ filter (fun x => ip_is_global x = false) (a :: addresses)) as [Hf Hin]%list_elem_of_filter by (rewrite Eg; by left).
    rewrite Forall_forall in Hall. destruct (Hall g Hin) as (_ & Ht & _). congruence.
Qed.

(** *** A clean_report report *)

Definition clean_report (l : list Finding) : Prop := Forall (fun f => finding_ok f = true) l.
Lemma clean_name settings application target f : name_finding settings application target = Ok f -> finding_ok f = true -> reaches target.
Proof. intros [Hs _]%name_finding_means Hok%String.eqb_eq. by apply Hs. Qed.

Lemma each_finding_clean {A} (g : A -> res exn (list Finding)) xs l :
  each_finding g xs = Ok l -> clean_report l -> Forall (fun x => exists m, g x = Ok m /\ clean_report m) xs.
Proof.
  revert l. induction xs as [|x xs IH]; intros l; [constructor|]. cbn [each_finding].
  destruct (g x) as [m|] eqn:Eg; [|done]. cbn [mbind res_bind]. destruct (each_finding g xs) as [n|]; [|done].
  intros [= <-] [Hm Hn]%Forall_app. constructor; [by exists m|by eapply IH].
Qed.

Lemma clean_application s settings x l :
  application_finding s settings x = Ok l -> clean_report l ->
  app_status x.2 = ACTIVE /\ is_Some (serving_origin s x.1) /\
  Forall (fun target => Some target = es_edge_hostname settings \/ reaches target) (edge_names s x.1 x.2).
Proof.
  unfold application_finding. destruct (bool_decide_reflect (app_status x.2 = ACTIVE)) as [Ha|]; cbn [negb].
  2: { intros [= <-] [Hc _]%Forall_cons. done. }
  destruct (each_finding _ _) as [names|] eqn:En; [|done]. cbn [mbind res_bind]. intros [= <-] [Hs Hn]%Forall_cons.
  split_and!; [done| |].
  - by destruct (serving_origin s x.1).
  - eapply Forall_impl; [exact (each_finding_clean _ _ _ En Hn)|]. cbn. intros target (m & Hm & Hc).
    destruct (bool_decide_reflect (Some target = es_edge_hostname settings)); [by left|right].
    destruct (name_finding _ _) as [f|] eqn:Ef; [|done]. injection Hm as <-. apply Forall_cons in Hc as [Hc _]. by eapply clean_name.
Qed.

Lemma clean_applications s settings l :
  application_findings s settings = Ok l -> clean_report l ->
  (exists name, es_edge_hostname settings = Some name /\ reaches name) /\
  Forall (fun x => app_status x.2 = ACTIVE /\ is_Some (serving_origin s x.1) /\ Forall reaches (edge_names s x.1 x.2))
    (list_applications s).
Proof.
  unfold application_findings. destruct (nonempty (es_edge_hostname settings)) as [name|] eqn:En.
  2: { cbn [mbind res_bind]. destruct (each_application s settings) as [m|]; [|done]. cbn [mbind res_bind].
       by intros [= <-] [? _]%Forall_cons. }
  assert (es_edge_hostname settings = Some name) as Hs.
  { by destruct (es_edge_hostname settings) as [[|c r]|]. }
  destruct (check_edge_name settings name) as [f|] eqn:Ef; [|done]. cbn [mbind res_bind].
  destruct (each_application s settings) as [m|] eqn:Em; [|done]. cbn [mbind res_bind].
  intros [= <-] [Hf Hm]%Forall_cons.
  assert (reaches name) as Hname by (by eapply clean_name). split; [by exists name|].
  unfold each_application in Em. destruct (list_applications s) as [|x xs]; [constructor|].
  eapply Forall_impl; [exact (each_finding_clean _ _ _ Em Hm)|]. cbn. intros y (l & Hl & Hc).
  destruct (clean_application _ _ _ _ Hl Hc) as (Ha & Ho & Hn). split_and!; [done|done|].
  eapply Forall_impl; [exact Hn|]. cbn. intros target [Ht|Ht]; [|done]. rewrite Hs in Ht. by injection Ht as ->.
Qed.

Lemma clean_reconciler s settings now l :
  reconciler_findings s settings now = Ok l -> clean_report l -> reconcile_enabled settings = true ->
  exists locked_at allowance, db_locks s !! RECONCILE_LOCK ≫= lock_locked_at = Some locked_at /\
    reconcile_allowance (reconcile_interval settings) = Some allowance /\ now - locked_at <= allowance.
Proof.
  unfold reconciler_findings. intros Hl Hc He. rewrite He in Hl. cbn [negb] in Hl.
  destruct (reconcile_allowance _) as [allowance|]; [|done]. injection Hl as <-. apply Forall_cons in Hc as [Hc _].
  destruct (_ ≫= _) as [locked_at|]; [|done]. exists locked_at, allowance. split_and!; [done|done|].
  by destruct (Z.ltb_spec allowance (now - locked_at)).
Qed.

Lemma clean_edge settings :
  clean_report (edge_findings settings) -> reconcile_enabled settings = true ->
  http_get (config_url settings) = Ok 200 /\ exists f, f ∈ edge_findings settings /\ gateway_answers f = true.
Proof.
  unfold edge_findings. intros Hc He. rewrite He in Hc |- *. cbn [negb] in *. destruct (http_get (config_url settings)) as [status|].
  2: { by apply Forall_cons in Hc as [? _]. }
  apply Forall_cons in Hc as [Hc _]. destruct (Z.eqb_spec status 200) as [Hs|]; [|done]. subst status. split; [done|]. eexists. split; [by left|done].
Qed.

Lemma clean_config s settings f :
  edge_config_finding s settings = Ok f -> finding_ok f = true ->
  exists running desired, fetch_json (config_url settings) = Ok running /\
    build_apps s settings = Some desired /\
    config_digest (match running with JObj _ => Some running | _ => None end) = config_digest (Some desired).
Proof.
  unfold edge_config_finding. destruct (fetch_json _) as [running|]; [|by intros [= <-]].
  destruct (build_apps s settings) as [desired|]; [|done].
  destruct (String.eqb_spec (config_digest (match running with JObj _ => Some running | _ => None end)) (config_digest (Some desired))).
  - intros _ _. by exists running, desired.
  - destruct (running_routes running); [|done]. by intros [= <-].
Qed.

(** C30: What a report without a warning or a failure means: the database is at the code's
    revision, and every application is active with a verified origin and with names that
    all reach this edge.  If moreover the reconciler is enabled, the gateway answers, the
    configuration it runs has the same digest (sixteen hexadecimal digits of SHA-256) as
    the one derived from the database, and a reconciler ran lately. *)
Theorem clean_report_means database s environ settings dns_local invalid now l :
  run_doctor database s environ settings dns_local invalid now = Ok l -> clean_report l ->
  (exists current heads, database = Revisions current heads /\ same_str current heads = true) /\
  (reconcile_enabled settings = true ->
     http_get (config_url settings) = Ok 200 /\
     (exists running desired, fetch_json (config_url settings) = Ok running /\
        build_apps s settings = Some desired /\
        config_digest (match running with JObj _ => Some running | _ => None end) = config_digest (Some desired)) /\
     exists locked_at allowance, db_locks s !! RECONCILE_LOCK ≫= lock_locked_at = Some locked_at /\
       reconcile_allowance (reconcile_interval settings) = Some allowance /\ now - locked_at <= allowance) /\
  (exists name, es_edge_hostname settings = Some name /\ reaches name) /\
  Forall (fun x => app_status x.2 = ACTIVE /\ is_Some (serving_origin s x.1) /\ Forall reaches (edge_names s x.1 x.2))
    (list_applications s).
Proof.
  unfold run_doctor. intros Hr Hl.
  destruct (settings_findings environ settings dns_local) as [own|]; [|done]. cbn [mbind res_bind] in Hr.
  set (first := (database_findings database ++ own ++ edge_findings settings)%list) in *.
  destruct (if _ && _ then _ else _) as [config|] eqn:Ec in Hr; [|done]. cbn [mbind res_bind] in Hr.
  destruct (if negb _ then _ else _) as [rest|] eqn:Et in Hr; [|done]. injection Hr as <-.
  apply Forall_app in Hl as [Hf Hl]. apply Forall_app in Hl as [Hconf Hrest].
  assert (existsb database_fails first = false) as Hd.
  { apply not_true_iff_false. intros (f & Hin & Hb)%existsb_exists. apply list_elem_of_In in Hin.
    rewrite Forall_forall in Hf. apply Hf, String.eqb_eq in Hin. unfold database_fails in Hb. by rewrite Hin, andb_false_r in Hb. }
  rewrite Hd in Ec, Et. cbn [negb andb] in Ec, Et.
  destruct (reconciler_findings s settings now) as [recs|] eqn:Erec; [|done]. cbn [mbind res_bind] in Et.
  destruct (application_findings s settings) as [apps|] eqn:Eapp; [|done]. injection Et as <-.
  apply Forall_app in Hrest as [Hrec Hrest]. apply Forall_app in Hrest as [_ Happ].
  unfold first in Hf. apply Forall_app in Hf as [Hdb Hf]. apply Forall_app in Hf as [_ Hedge].
  split_and!.
  - destruct database as [| |current heads]; cbn in Hdb.
    + by apply Forall_cons in Hdb as [? _].
    + by apply Forall_cons in Hdb as [_ [? _]%Forall_cons].
    + apply Forall_cons in Hdb as [_ [Hm _]%Forall_cons]. exists current, heads. split; [done|]. by destruct (same_str current heads).
  - intros He. destruct (clean_edge settings Hedge He) as (Hg & g & Hin & Hga). split_and!; [done| |by eapply clean_reconciler].
    assert (existsb gateway_answers first = true) as Hgate.
    { apply existsb_exists. exists g. split; [|done]. apply list_elem_of_In. unfold first.
      rewrite !elem_of_app. auto. }
    rewrite Hgate in Ec. destruct (edge_config_finding s settings) as [f|] eqn:Ef; [|done]. injection Ec as <-.
    apply Forall_cons in Hconf as [Hok _]. by eapply clean_config.
  - by eapply clean_applications.
  - by eapply clean_applications.
Qed.
End Doctor.
