(* ===== verification/LegacyCaddy.v ===== *)
(** * The legacy domain API (app/api.py, app/security.py, app/caddy/)

    The deprecated endpoints that edit one Caddy configuration in place, and what the
    import (Legacy.v) later reads of the file they save.  [config.copy()] is shallow: the
    copy shares every object below the top level, so what a change does to it stays in
    [self.config] whatever Caddy answers; the operations below say what the document
    holds afterwards, also when they raise half-way.  Caddy's admin API and the file
    system are parameters with their own state; the file holds a JSON document.
    Theorem: whatever Caddy answers, the file a successful change saves holds exactly
    the hostnames that were ever added and not removed since, and the import reads each
    of them once with its last upstream; only a refused GET /config/ leaves the old file. *)

From Stdlib Require Import Ascii String ZArith Lia.
From stdpp Require Import base strings list.
From S2P Require Import Prelude PyStr Json JsonText Errors EdgeSettings Legacy Doctor.
Open Scope string_scope.
Open Scope Z_scope.

(** ** The documents (saas_template.py) *)

Definition HTTPS_PORT : string := "443".

Definition https_template (port : string) (disable_https : bool) : json :=
  JObj [("apps", JObj [("http", JObj [("servers", JObj [(port, JObj [
    ("listen", jstr_list [":" ++ port]);
    ("automatic_https", JObj [("disable", JBool disable_https)]);
    ("routes", JArr [])])])])])].

(** [DomainAlreadyExists], [DomainDoesNotExist], or what Python raises on a document of
    another shape. *)
Inductive template_error := DomainAlreadyExists | DomainDoesNotExist | Broke (e : exn).

Definition with_port (upstream : string) : string :=
  if has_char ":"%char upstream then upstream else upstream ++ ":" ++ HTTPS_PORT.

Definition reverse_proxy_handle_template (upstream : string) (disable_https : bool) (handle_id : option string) : json :=
  JObj ([("handler", JStr "reverse_proxy");
         ("headers", JObj [("request", JObj [("set", JObj [
            ("Host", jstr_list ["{http.reverse_proxy.upstream.host}"]);
            ("X-Real-Host", jstr_list ["{http.reverse_proxy.upstream.host}"]);
            ("X-Real-Ip", jstr_list ["{http.reverse-proxy.upstream.address}"])])])]);
         ("transport", JObj (("protocol", JStr "http") :: if disable_https then [] else [("tls", JObj [])]));
         ("upstreams", JArr [JObj [("dial", JStr (with_port upstream))]])]
        ++ match nonempty handle_id with Some i => [("@id", JStr i)] | None => [] end)%list.

Definition handle_of (upstream : string) (disable_https : bool) : json :=
  JArr [JObj [("handler", JStr "subroute");
              ("routes", JArr [JObj [("handle", JArr [reverse_proxy_handle_template upstream disable_https None])]])]].
Definition route_template (domain upstream : string) (disable_https : bool) : json :=
  JObj [("handle", handle_of upstream disable_https);
        ("match", JArr [JObj [("host", jstr_list [domain])]]);
        ("terminal", JBool true)].

(** [domain in hosts] *)
Definition py_in (domain : string) (hosts : json) : res exn bool :=
  match hosts with
  | JArr l => Ok (existsb (fun x => json_eqb x (JStr domain)) l)
  | JObj d => Ok (has_key domain d)
  | JStr s => Ok (contains domain s)
  | _ => Err PyTypeError
  end.
Definition host_in (domain : string) (m : json) : res exn bool :=
  and_then (py_get_or "host" (JArr []) m) (py_in domain).
(** [for match in route.get("match", [])], ended by the first that has the domain. *)
Fixpoint any_host (domain : string) (matches : list json) : res exn bool :=
  match matches with
  | [] => Ok false
  | m :: matches => and_then (host_in domain m) (fun found => if found then Ok true else any_host domain matches)
  end.
Definition matches_of (route : json) : res exn (list json) :=
  and_then (py_get_or "match" (JArr []) route) py_iter.

(** ** Adding *)

(** [route["handle"] = handle], after [route.get] succeeded. *)
Definition set_handle (handle route : json) : json :=
  match route with JObj d => JObj (dset "handle" handle d) | _ => route end.

(** The loop over the routes, as far as it comes; whether the domain was found. *)
Fixpoint replace_handles (domain : string) (handle : json) (replace : bool) (routes : list json)
    : list json * res template_error bool :=
  match routes with
  | [] => ([], Ok false)
  | route :: routes =>
      match and_then (matches_of route) (any_host domain) with
      | Err e => (route :: routes, Err (Broke e))
      | Ok false => let '(routes, r) := replace_handles domain handle replace routes in (route :: routes, r)
      | Ok true =>
          if replace then
            let '(routes, r) := replace_handles domain handle replace routes in
            (set_handle handle route :: routes, match r with Ok _ => Ok true | Err e => Err e end)
          else (route :: routes, Err DomainAlreadyExists)
      end
  end.

(** The child under a key, made when there is none or it is empty, and what an operation
    on it leaves; [on_dict]: the operation calls [get] on it. *)
Definition in_child {A} (key : string) (fresh : json) (d : dict) (k : json -> json * res template_error A)
    : dict * res template_error A :=
  let v := default JNull (dget key d) in
  let '(v, r) := k (if truthy v then v else fresh) in (dset key v d, r).
Definition on_dict {A} (k : dict -> dict * res template_error A) (v : json) : json * res template_error A :=
  match v with JObj d => let '(d, r) := k d in (JObj d, r) | _ => (v, Err (Broke PyAttributeError)) end.

(** A server without a [routes] list gets a list of its own nobody else sees. *)
Definition add_route (domain upstream : string) (replace disable_https : bool) (server : dict)
    : dict * res template_error unit :=
  match dget "routes" server with
  | None => (server, Ok tt)
  | Some (JArr routes) =>
      match replace_handles domain (handle_of upstream disable_https) replace routes with
      | (routes, Err e) => (dset "routes" (JArr routes) server, Err e)
      | (routes, Ok exists_) =>
          (dset "routes" (JArr (if (exists_ : bool) then routes else routes ++ [route_template domain upstream disable_https])%list)
             server, Ok tt)
      end
  | Some (JStr _ | JObj _) => (server, Err (Broke PyAttributeError))
  | Some _ => (server, Err (Broke PyTypeError))
  end.

(** [add_https_domain]: the document as it leaves it, and how it ends. *)
Definition add_https_domain (domain upstream port : string) (template : json) (replace disable_https : bool)
    : json * res template_error unit :=
  let fresh_server := JObj [("listen", jstr_list [":" ++ port]); ("routes", JArr [])] in
  let template := match template with JObj d => d | _ => [] end in
  let '(template, r) :=
    in_child "apps" (JObj []) template (on_dict (fun apps =>
    in_child "http" (JObj []) apps (on_dict (fun http =>
    in_child "servers" (JObj []) http (on_dict (fun servers =>
    in_child port fresh_server servers (on_dict
      (add_route domain upstream replace disable_https)))))))) in
  (JObj template, r).

(** ** Removing *)

(** [routes.remove(route)] *)
Fixpoint remove_route (route : json) (routes : list json) : option (list json) :=
  match routes with
  | [] => None
  | r :: routes => if json_eqb r route then Some routes else cons r <$> remove_route route routes
  end.

(** The loop over one route's matches: it goes on after a removal. *)
Fixpoint remove_matching (domain : string) (route : json) (matches routes : list json) (removed : bool)
    : list json * res template_error bool :=
  match matches with
  | [] => (routes, Ok removed)
  | m :: matches =>
      match host_in domain m with
      | Err e => (routes, Err (Broke e))
      | Ok false => remove_matching domain route matches routes removed
      | Ok true =>
          match remove_route route routes with
          | None => (routes, Err (Broke PyValueError))
          | Some routes => remove_matching domain route matches routes true
          end
      end
  end.
(** The loop over the copied routes. *)
Fixpoint remove_each (domain : string) (copied routes : list json) (removed : bool) : list json * res template_error bool :=
  match copied with
  | [] => (routes, Ok removed)
  | route :: copied =>
      match matches_of route with
      | Err e => (routes, Err (Broke e))
      | Ok matches =>
          match remove_matching domain route matches routes removed with
          | (routes, Err e) => (routes, Err e)
          | (routes, Ok removed) => remove_each domain copied routes removed
          end
      end
  end.
Definition remove_domain (domain : string) (routes : json) : json * res template_error unit :=
  match routes with
  | JArr l =>
      let '(l, r) := remove_each domain l l false in
      (JArr l, match r with Ok true => Ok tt | Ok false => Err DomainDoesNotExist | Err e => Err e end)
  | JObj [] => (routes, Err DomainDoesNotExist)
  | _ => (routes, Err (Broke PyAttributeError))
  end.

(** [v[key]] and what an operation on it leaves. *)
Definition in_item {A} (key : string) (k : json -> json * res template_error A) (v : json) : json * res template_error A :=
  match v with
  | JObj d =>
      match dget key d with
      | Some x => let '(x, r) := k x in (JObj (dset key x d), r)
      | None => (v, Err (Broke PyKeyError))
      end
  | _ => (v, Err (Broke PyTypeError))
  end.

Definition delete_https_domain (domain : string) (template : json) (port : string) : json * res template_error unit :=
  match template with
  | JObj _ | JArr _ =>
      in_item "apps" (in_item "http" (in_item "servers" (in_item port (in_item "routes" (remove_domain domain))))) template
  | _ => (template, Err (Broke PyAttributeError))
  end.

(** ** Listing *)

Definition get_item (key : string) (v : json) : res exn json :=
  match v with JObj d => match dget key d with Some x => Ok x | None => Err PyKeyError end | _ => Err PyTypeError end.
Definition hosts_of (m : json) : res exn (list json) := and_then (py_get_or "host" (JArr []) m) py_iter.
Definition list_domains (template : json) (port : string) : res exn (list json) :=
  match
    and_then (get_item "apps" template) (fun apps =>
    and_then (get_item "http" apps) (fun http =>
    and_then (get_item "servers" http) (fun servers =>
    and_then (get_item port servers) (fun server =>
    and_then (get_item "routes" server) (fun routes =>
    and_then (py_iter routes) (concat_each (fun route => and_then (matches_of route) (concat_each hosts_of))))))))
  with
  | Err PyKeyError => Ok []
  | r => r
  end.

(** ** The configurator (caddy_config.py) *)

(** What [requests] gives for a POST to /load: a status below 400, another one, or no
    answer, which is no [HTTPError]; for a GET of /config/; and opening the saved file. *)
Inductive LoadReply := Loaded | LoadRefused | LoadBroke (e : exn).
Inductive FetchReply := Fetched (config : json) | FetchRefused | FetchBroke (e : exn).
Inductive SavedFile := Missing | Unreadable (e : exn) | Holds (config : json).

(** What a call raises. *)
Inductive failure := TemplateError (e : template_error) | HTTPException (status_code : Z) (detail : string) | Raised (e : exn).

Record Configurator := { cf_config : json; cf_https_port : string; cf_disable_https : bool }.
#[export] Instance Configurator_settable : Settable Configurator := fun r =>
  Build_Configurator (cf_config r) (cf_https_port r) (cf_disable_https r).

Record CaddySettings := { cs_saas_upstream : string; cs_local_port : string; cs_disable_https : bool }.
(** [Caddy.__init__]: its environment. *)
Definition Caddy_settings (env : string -> option string) : CaddySettings := {|
  cs_saas_upstream := default "example.com:443" (env "SAAS_UPSTREAM");
  cs_local_port := default HTTPS_PORT (env "LOCAL_PORT");
  cs_disable_https := String.eqb (upper (default "False" (env "DISABLE_HTTPS"))) "TRUE" |}.

Section Admin.
Context {W : Type}.
Context (post : json -> W -> LoadReply * W) (fetch : W -> FetchReply * W).
Context (read_file : W -> SavedFile) (write_file : json -> W -> W).

Abbreviation state := (Configurator * W)%type.
Abbreviation answer A := (res failure A * state)%type.

Definition load_new_config (config : json) (st : state) : answer bool :=
  let '(c, w) := st in
  match post config w with
  | (Loaded, w) => (Ok true, (c <| cf_config := config |>, w))
  | (LoadRefused, w) => (Ok false, (c, w))
  | (LoadBroke e, w) => (Err (Raised e), (c, w))
  end.

Definition load_config_from_file (st : state) : answer bool :=
  match read_file st.2 with
  | Missing => (Ok false, st)
  | Unreadable e => (Err (Raised e), st)
  | Holds config => load_new_config config st
  end.

Definition init_config (st : state) : answer unit :=
  match load_new_config (https_template HTTPS_PORT (cf_disable_https st.1)) st with
  | (Ok _, st) => (Ok tt, st)
  | (Err e, st) => (Err e, st)
  end.

(** [Caddy()] *)
Definition Caddy_init (settings : CaddySettings) (w : W) : answer unit :=
  let c := {| cf_config := JObj []; cf_https_port := cs_local_port settings; cf_disable_https := cs_disable_https settings |} in
  match load_config_from_file (c, w) with
  | (Ok true, st) => (Ok tt, st)
  | (Ok false, st) => init_config st
  | (Err e, st) => (Err e, st)
  end.

Definition save_config (st : state) : answer unit :=
  match fetch st.2 with
  | (Fetched config, w) => (Ok tt, (st.1, write_file config w))
  | (FetchRefused, w) => (Ok tt, (st.1, w))
  | (FetchBroke e, w) => (Err (Raised e), (st.1, w))
  end.

(** Loading the changed document, and the one kept when that is refused: it shares what
    was changed. *)
Definition load_or_restore (changed : json) (st : state) : answer bool :=
  match load_new_config changed st with
  | (Ok false, st) =>
      match load_new_config (cf_config st.1) st with
      | (Ok _, st) => (Ok false, st)
      | (Err e, st) => (Err e, st)
      end
  | result => result
  end.

Definition copyable (config : json) : bool := match config with JObj _ | JArr _ => true | _ => false end.
(** What the caller's document holds after [add_https_domain] changed its copy. *)
Definition shared (config changed : json) : json :=
  match config with
  | JObj d => if truthy (default JNull (dget "apps" d)) then changed else config
  | _ => config
  end.

(** [CaddyAPIConfigurator.add_domain] *)
Definition add_domain (domain upstream : string) (st : state) : answer bool :=
  let '(c, w) := st in
  if negb (copyable (cf_config c)) then (Err (Raised PyAttributeError), st) else
  let '(changed, r) := add_https_domain domain upstream (cf_https_port c) (cf_config c) true (cf_disable_https c) in
  let st := (c <| cf_config := shared (cf_config c) changed |>, w) in
  match r with
  | Ok _ => load_or_restore changed st
  | Err e => (Err (TemplateError e), st)
  end.

(** [CaddyAPIConfigurator.delete_domain] *)
Definition delete_domain (domain : string) (st : state) : answer bool :=
  let '(c, w) := st in
  if negb (copyable (cf_config c)) then (Err (Raised PyAttributeError), st) else
  let '(changed, r) := delete_https_domain domain (cf_config c) (cf_https_port c) in
  let st := (c <| cf_config := changed |>, w) in
  match r with
  | Ok _ => load_or_restore changed st
  | Err e => (Err (TemplateError e), st)
  end.

(** [CaddyAPIConfigurator.list_domains]; [None] after an error answer. *)
Definition listed_domains (st : state) : answer (option (list json)) :=
  match fetch st.2 with
  | (Fetched config, w) =>
      (match list_domains config (cf_https_port st.1) with Ok l => Ok (Some l) | Err e => Err (Raised e) end, (st.1, w))
  | (FetchRefused, w) => (Ok None, (st.1, w))
  | (FetchBroke e, w) => (Err (Raised e), (st.1, w))
  end.

(** ** The endpoints (caddy.py, security.py, api.py) *)

(** [validators.domain] *)
Context (domain_ok : string -> bool).
Context (saas_upstream : string).

Definition and_saved (change : answer bool) (detail : string) : answer unit :=
  match change with
  | (Ok true, st) => save_config st
  | (Ok false, st) => (Err (HTTPException 400 detail), st)
  | (Err e, st) => (Err e, st)
  end.
Definition add_custom_domain (domain : string) (upstream : option string) (st : state) : answer unit :=
  if negb (domain_ok domain) then (Err (HTTPException 400 (domain ++ " is not a valid domain")), st)
  else and_saved (add_domain domain (default saas_upstream (nonempty upstream)) st) ("Failed to add domain: " ++ domain).
Definition remove_custom_domain (domain : string) (st : state) : answer unit :=
  if negb (domain_ok domain) then (Err (HTTPException 400 (domain ++ " is not a valid domain")), st)
  else and_saved (delete_domain domain st) ("Failed to remove domain: " ++ domain ++ ". Might not be exist.").

Inductive LegacyCall := GetDomains | AddDomain (domain : string) (upstream : option string) | RemoveDomains (domain : string).
(** Where the key was given: the query, the header, the cookie. *)
Record LegacyRequest := {
  lr_query : option string; lr_header : option string; lr_cookie : option string; lr_call : LegacyCall }.
Record LegacyAnswer := { la_status : Z; la_body : json; la_headers : list (string * string) }.

Definition DEPRECATION_HEADERS : list (string * string) :=
  [("Deprecation", "true"); ("Link", "</v1/docs>; rel=" ++ str1 QUOTE ++ "successor-version" ++ str1 QUOTE)].

(** [get_api_key] *)
Definition get_api_key (API_KEY : string) (rq : LegacyRequest) : res failure string :=
  match List.find (fun given => bool_decide (given = Some API_KEY)) [lr_query rq; lr_header rq; lr_cookie rq] with
  | Some (Some key) => Ok key
  | _ => Err (HTTPException 403 "Could not validate credentials")
  end.

Definition run_call (call : LegacyCall) (st : state) : answer json :=
  match call with
  | GetDomains =>
      match listed_domains st with
      | (Ok l, st) => (Ok (match l with Some l => JArr l | None => JNull end), st)
      | (Err e, st) => (Err e, st)
      end
  | AddDomain domain upstream =>
      match add_custom_domain domain upstream st with (Ok _, st) => (Ok (JStr "OK"), st) | (Err e, st) => (Err e, st) end
  | RemoveDomains domain =>
      match remove_custom_domain domain st with (Ok _, st) => (Ok (JStr "OK"), st) | (Err e, st) => (Err e, st) end
  end.

(** A request; what is no [HTTPException] is answered with 500. *)
Definition legacy_request (API_KEY : string) (rq : LegacyRequest) (st : state) : LegacyAnswer * state :=
  let error status detail := {| la_status := status; la_body := JObj [("detail", JStr detail)]; la_headers := [] |} in
  match get_api_key API_KEY rq with
  | Err _ => (error 403 "Could not validate credentials", st)
  | Ok _ =>
      match run_call (lr_call rq) st with
      | (Ok body, st) => ({| la_status := 200; la_body := body; la_headers := DEPRECATION_HEADERS |}, st)
      | (Err (HTTPException status detail), st) => (error status detail, st)
      | (Err _, st) => ({| la_status := 500; la_body := JStr "Internal Server Error"; la_headers := [] |}, st)
      end
  end.
End Admin.

(** ** Properties *)

#[local] Arguments route_template : simpl never.
#[local] Arguments handle_of : simpl never.

(** The document of hostnames with their upstreams. *)
Definition routes_of (disable_https : bool) (l : list (string * string)) : list json :=
  (fun x => route_template x.1 x.2 disable_https) <$> l.
Definition document (port : string) (disable_https : bool) (l : list (string * string)) : json :=
  JObj [("apps", JObj [("http", JObj [("servers", JObj [(port, JObj [
    ("listen", jstr_list [":" ++ port]);
    ("automatic_https", JObj [("disable", JBool disable_https)]);
    ("routes", JArr (routes_of disable_https l))])])])])].

Lemma template_document port dis : https_template port dis = document port dis [].
Proof. reflexivity. Qed.

Lemma route_matches k u dis d : and_then (matches_of (route_template k u dis)) (any_host d) = Ok (String.eqb k d).
Proof.
  change (matches_of (route_template k u dis)) with (@Ok exn _ [JObj [("host", JArr [JStr k])]]).
  cbn. by destruct (String.eqb k d).
Qed.
Lemma set_handle_route k u u' dis : set_handle (handle_of u' dis) (route_template k u dis) = route_template k u' dis.
Proof. reflexivity. Qed.

Definition set_upstream (d u : string) (l : list (string * string)) : list (string * string) :=
  (fun x => if String.eqb x.1 d then (x.1, u) else x) <$> l.
Definition without_host (d : string) (l : list (string * string)) : list (string * string) :=
  List.filter (fun x => negb (String.eqb x.1 d)) l.
Definition known (d : string) (l : list (string * string)) : bool := existsb (fun x => String.eqb x.1 d) l.

Lemma replace_routes d u dis l :
  replace_handles d (handle_of u dis) true (routes_of dis l) = (routes_of dis (set_upstream d u l), Ok (known d l)).
Proof.
  induction l as [|[k v] l IH]; [done|]. cbn [routes_of fmap list_fmap replace_handles fst snd].
  rewrite route_matches. fold (routes_of dis l). rewrite IH. cbn [set_upstream fmap list_fmap known existsb fst].
  by destruct (String.eqb_spec k d).
Qed.

Lemma set_upstream_unknown d u l : known d l = false -> set_upstream d u l = l.
Proof.
  induction l as [|[k v] l IH]; [done|]. cbn [known existsb set_upstream fmap list_fmap fst].
  intros [-> Hl]%orb_false_elim. f_equal. by apply IH.
Qed.

Lemma add_document d u port dis l :
  add_https_domain d u port (document port dis l) true dis
  = (document port dis (if known d l then set_upstream d u l else l ++ [(d, u)])%list, Ok tt).
Proof.
  unfold add_https_domain, document, in_child. cbn. rewrite !String.eqb_refl. cbn. unfold add_route. cbn.
  rewrite replace_routes. cbn. unfold routes_of.
  destruct (known d l) eqn:Hk; [done|]. by rewrite set_upstream_unknown, fmap_app.
Qed.

Lemma route_wf d u dis : jwf (route_template d u dis).
Proof.
  destruct dis; repeat split; try exact I; apply (bool_decide_unpack _); vm_compute; exact I.
Qed.

Lemma remove_first d u dis l l' :
  known d l = false -> remove_route (route_template d u dis) (routes_of dis (l ++ (d, u) :: l')%list) = Some (routes_of dis (l ++ l')%list).
Proof.
  induction l as [|[k v] l IH].
  - intros _. cbn [app routes_of fmap list_fmap remove_route fst snd]. by rewrite json_eqb_refl by apply route_wf.
  - cbn [known existsb fst]. intros [Hk Hl]%orb_false_elim. cbn [app routes_of fmap list_fmap remove_route fst snd].
    assert (json_eqb (route_template k v dis) (route_template d u dis) = false) as ->
      by (unfold route_template; cbn [json_eqb length Nat.eqb dget String.eqb Ascii.eqb Bool.eqb jstr_list fmap list_fmap]; rewrite Hk; cbn; by rewrite andb_false_r).
    change (remove_route (route_template d u dis) ((fun x => route_template x.1 x.2 dis) <$> (l ++ (d, u) :: l')%list))
      with (remove_route (route_template d u dis) (routes_of dis (l ++ (d, u) :: l')%list)).
    by rewrite IH.
Qed.

Lemma remove_routes d dis l l' removed :
  known d l' = false ->
  remove_each d (routes_of dis l) (routes_of dis (l' ++ l)%list) removed
  = (routes_of dis (l' ++ without_host d l)%list, Ok (removed || known d l)).
Proof.
  revert l' removed. induction l as [|[k v] l IH]; intros l' removed Hl'; [by rewrite orb_false_r|].
  cbn [routes_of fmap list_fmap remove_each fst snd]. fold (routes_of dis l).
  change (matches_of (route_template k v dis)) with (@Ok exn _ [JObj [("host", JArr [JStr k])]]).
  cbn [remove_matching]. change (host_in d (JObj [("host", JArr [JStr k])])) with (@Ok exn _ (String.eqb k d || false)).
  cbn [without_host List.filter known existsb fst]. rewrite orb_false_r. destruct (String.eqb_spec k d) as [->|Hk]; cbn [negb orb].
  - rewrite remove_first, IH by done. by rewrite orb_true_r.
  - specialize (IH (l' ++ [(k, v)])%list removed). rewrite <- !app_assoc in IH. cbn [app] in IH. apply IH.
    unfold known. rewrite existsb_app. unfold known in Hl'. rewrite Hl'. cbn. by destruct (String.eqb_spec k d).
Qed.

Lemma delete_document d port dis l :
  delete_https_domain d (document port dis l) port
  = (document port dis (without_host d l), if known d l then Ok tt else Err DomainDoesNotExist).
Proof.
  unfold delete_https_domain, document, in_item. cbn. rewrite !String.eqb_refl. cbn.
  pose proof (remove_routes d dis l [] false eq_refl) as Hr. cbn [app] in Hr. rewrite Hr. cbn. by destruct (known d l).
Qed.

(** The import and the listing read the document back. *)
Definition entries (l : list (string * string)) : list LegacyDomain :=
  (fun x => {| leg_hostname := JStr x.1; leg_upstream := JStr (with_port x.2) |}) <$> l.

Lemma with_port_nonempty u : truthy (JStr (with_port u)) = true.
Proof.
  unfold with_port, truthy. destruct (String.eqb_spec (if has_char ":" u then u else u ++ ":" ++ HTTPS_PORT) ""); [|done].
  destruct (has_char ":" u) eqn:E; [subst u; discriminate E|]. by destruct u.
Qed.

Lemma route_upstream d u dis : first_upstream (route_template d u dis) = Ok (JStr (with_port u)).
Proof.
  pose proof (with_port_nonempty u) as Hu. unfold route_template, handle_of, reverse_proxy_handle_template.
  generalize dependent (with_port u). intros [|c dial] Hd; [done|]. reflexivity.
Qed.

Lemma route_read d u dis : route_entries (route_template d u dis) = Ok (entries [(d, u)]).
Proof. unfold route_entries. rewrite route_upstream. reflexivity. Qed.

Lemma concat_routes dis l : concat_each route_entries (routes_of dis l) = Ok (entries l).
Proof.
  induction l as [|[d u] l IH]; [done|]. cbn [routes_of fmap list_fmap concat_each fst snd]. fold (routes_of dis l).
  by rewrite route_read, IH.
Qed.

Lemma parse_document p dis l : parse_legacy_config (document (py_str p) dis l) p = Ok (entries l).
Proof.
  unfold parse_legacy_config, document. cbn -[py_str]. rewrite !String.eqb_refl. cbn -[py_str]. apply concat_routes.
Qed.

Lemma list_document port dis l : list_domains (document port dis l) port = Ok (JStr <$> l.*1).
Proof.
  unfold list_domains, document. cbn. rewrite !String.eqb_refl. cbn.
  assert (concat_each (fun route => and_then (matches_of route) (concat_each hosts_of)) (routes_of dis l) = Ok (JStr <$> l.*1)) as ->; [|done].
  induction l as [|[d u] l IH]; [done|]. cbn [routes_of fmap list_fmap concat_each fst snd]. fold (routes_of dis l).
  by rewrite IH.
Qed.

(** ** Histories of requests *)

(** The hostnames as a map of upstreams, in the order of their first addition. *)
Lemma set_known d u l : NoDup l.*1 -> (if known d l then set_upstream d u l else l ++ [(d, u)])%list = sset d u l.
Proof.
  induction l as [|[k v] l IH]; [done|]. cbn [fmap list_fmap fst]. intros [Hk Hl]%NoDup_cons.
  cbn [known existsb set_upstream fmap list_fmap sset fst]. rewrite (String.eqb_sym d k).
  destruct (String.eqb_spec k d) as [->|Hkd]; cbn [orb].
  - f_equal. apply set_upstream_unknown. apply Bool.not_true_iff_false. intros (x & Hx & E)%existsb_exists.
    apply String.eqb_eq in E. apply Hk, list_elem_of_fmap. exists x. split; [done|]. by apply list_elem_of_In.
  - fold (known d l) (set_upstream d u l). rewrite <- IH by done. by destruct (known d l).
Qed.

Lemma sset_keys d u l : (sset d u l).*1 = if mem_str d l.*1 then l.*1 else (l.*1 ++ [d])%list.
Proof.
  induction l as [|[k v] l IH]; [done|]. cbn [sset fmap list_fmap fst mem_str existsb].
  destruct (String.eqb_spec d k) as [->|Hk]; [done|]. cbn [fmap list_fmap fst orb]. rewrite IH.
  unfold mem_str. by destruct (existsb _ _).
Qed.
Lemma sset_nodup d u l : NoDup l.*1 -> NoDup (sset d u l).*1.
Proof.
  intros Hl. rewrite sset_keys. destruct (mem_str d l.*1) eqn:E; [done|]. apply NoDup_app. split; [done|].
  split; [|by apply NoDup_singleton]. intros x Hx Hd%list_elem_of_singleton. subst x.
  apply Bool.not_true_iff_false in E. apply E, existsb_exists. exists d. split; [by apply list_elem_of_In|].
  apply String.eqb_refl.
Qed.
Lemma without_nodup d l : NoDup l.*1 -> NoDup (without_host d l).*1.
Proof.
  induction l as [|[k v] l IH]; [done|]. cbn [fmap list_fmap fst]. intros [Hk Hl]%NoDup_cons.
  cbn [without_host List.filter fst]. fold (without_host d l). destruct (negb (String.eqb k d)); [|by apply IH].
  cbn [fmap list_fmap fst]. apply NoDup_cons. split; [|by apply IH].
  intros (x & -> & Hx)%list_elem_of_fmap. apply Hk, list_elem_of_fmap. exists x. split; [done|].
  apply list_elem_of_In in Hx. apply filter_In in Hx as [Hx _]. by apply list_elem_of_In.
Qed.

Section Histories.
Context {W : Type}.
Context (post : json -> W -> LoadReply * W) (fetch : W -> FetchReply * W).
Context (read_file : W -> SavedFile) (write_file : json -> W -> W).
Context (domain_ok : string -> bool) (saas_upstream API_KEY : string).

Definition legacy_step := legacy_request post fetch write_file domain_ok saas_upstream API_KEY.
Definition serve_legacy (requests : list LegacyRequest) (st : Configurator * W) : Configurator * W :=
  foldl (fun st rq => (legacy_step rq st).2) st requests.

(** What a request asks for, on a map of upstreams. *)
Definition effect (l : list (string * string)) (rq : LegacyRequest) : list (string * string) :=
  match get_api_key API_KEY rq, lr_call rq with
  | Ok _, AddDomain domain upstream =>
      if domain_ok domain then sset domain (default saas_upstream (nonempty upstream)) l else l
  | Ok _, RemoveDomains domain => if domain_ok domain then without_host domain l else l
  | _, _ => l
  end.

(** The configurator's document holds these hostnames, each once. *)
Record holds (port : string) (dis : bool) (l : list (string * string)) (c : Configurator) : Prop := {
  ho_config : cf_config c = document port dis l;
  ho_port : cf_https_port c = port;
  ho_flag : cf_disable_https c = dis;
  ho_nodup : NoDup l.*1;
}.

(** A new deployment, with the port the first template is made for, starts with none. *)
Lemma new_deployment_holds settings w st :
  read_file w = Missing -> cs_local_port settings = HTTPS_PORT -> Caddy_init post read_file settings w = (Ok tt, st) ->
  cf_config st.1 = JObj [] \/ holds HTTPS_PORT (cs_disable_https settings) [] st.1.
Proof.
  intros Hf Hp. unfold Caddy_init, load_config_from_file, init_config, load_new_config. cbn [snd fst]. rewrite Hf.
  destruct (post _ w) as [[] w']; intros [= <-]; [right|by left]. constructor; try done. by apply NoDup_nil_2.
Qed.

Lemma load_holds port dis l config st r st' :
  holds port dis l st.1 -> config = document port dis l -> load_new_config post config st = (r, st') -> holds port dis l st'.1.
Proof.
  destruct st as [c w]. intros [] ->. unfold load_new_config.
  destruct (post _ w) as [[]w']; intros [= <- <-]; by constructor.
Qed.

Lemma load_or_restore_holds port dis l config st r st' :
  holds port dis l st.1 -> config = document port dis l -> load_or_restore post config st = (r, st') -> holds port dis l st'.1.
Proof.
  intros Hh Hc. unfold load_or_restore. destruct (load_new_config post config st) as [r1 st1] eqn:E.
  pose proof (load_holds _ _ _ _ _ _ _ Hh Hc E) as Hh1. destruct r1 as [[]|]; [by intros [= <- <-]| |by intros [= <- <-]].
  destruct (load_new_config post (cf_config st1.1) st1) as [r2 st2] eqn:E2.
  pose proof (load_holds _ _ _ _ _ _ _ Hh1 (ho_config _ _ _ _ Hh1) E2) as Hh2. by destruct r2; intros [= <- <-].
Qed.

Lemma add_holds port dis l d u st r st' :
  holds port dis l st.1 -> add_domain post d u st = (r, st') -> holds port dis (sset d u l) st'.1.
Proof.
  destruct st as [c w]. intros []. unfold add_domain. cbn [fst] in *. rewrite ho_config0, ho_port0, ho_flag0.
  cbn [copyable document negb]. change (JObj _) with (document port dis l). rewrite add_document, set_known by done.
  apply load_or_restore_holds; [|done]. constructor; try done. by apply sset_nodup.
Qed.

Lemma delete_holds port dis l d st r st' :
  holds port dis l st.1 -> delete_domain post d st = (r, st') -> holds port dis (without_host d l) st'.1.
Proof.
  destruct st as [c w]. intros []. unfold delete_domain. cbn [fst] in *. rewrite ho_config0, ho_port0.
  cbn [copyable document negb]. change (JObj _) with (document port dis l). rewrite delete_document.
  assert (holds port dis (without_host d l) (c <| cf_config := document port dis (without_host d l) |>)) as Hh
    by (constructor; try done; by apply without_nodup).
  destruct (known d l); [by apply load_or_restore_holds|]. by intros [= <- <-].
Qed.

Lemma save_holds port dis l st r st' :
  holds port dis l st.1 -> save_config fetch write_file st = (r, st') -> holds port dis l st'.1.
Proof. intros Hh. unfold save_config. by destruct (fetch st.2) as [[] w]; intros [= <- <-]. Qed.
Lemma saved_holds port dis l change detail r st' :
  holds port dis l change.2.1 -> and_saved fetch write_file change detail = (r, st') -> holds port dis l st'.1.
Proof.
  destruct change as [[[]|e] st]; cbn [snd and_saved]; [by apply save_holds| |]; by intros Hh [= <- <-].
Qed.

Lemma request_holds port dis l rq st :
  holds port dis l st.1 -> holds port dis (effect l rq) (legacy_step rq st).2.1.
Proof.
  intros Hh. unfold legacy_step, legacy_request, effect. destruct (get_api_key API_KEY rq); [|done].
  destruct (run_call post fetch write_file domain_ok saas_upstream (lr_call rq) st) as [r st'] eqn:E.
  assert (holds port dis (match lr_call rq with
    | GetDomains => l
    | AddDomain d u => if domain_ok d then sset d (default saas_upstream (nonempty u)) l else l
    | RemoveDomains d => if domain_ok d then without_host d l else l end) st'.1) as Hh'; [|by destruct r as [|[]]].
  revert E. unfold run_call, listed_domains, add_custom_domain, remove_custom_domain. destruct (lr_call rq) as [|d u|d].
  - by destruct (fetch st.2) as [[] w]; [destruct (list_domains _ _)| |]; intros [= <- <-].
  - destruct (domain_ok d); [|by intros [= <- <-]]. cbn [negb].
    destruct (add_domain post d (default saas_upstream (nonempty u)) st) as [r1 st1] eqn:E1.
    pose proof (add_holds _ _ _ _ _ _ _ _ Hh E1) as Hh1.
    destruct (and_saved fetch write_file (r1, st1) _) as [r2 st2] eqn:E2.
    pose proof (saved_holds _ _ _ (r1, st1) _ _ _ Hh1 E2). by destruct r2; intros [= <- <-].
  - destruct (domain_ok d); [|by intros [= <- <-]]. cbn [negb].
    destruct (delete_domain post d st) as [r1 st1] eqn:E1.
    pose proof (delete_holds _ _ _ _ _ _ _ Hh E1) as Hh1.
    destruct (and_saved fetch write_file (r1, st1) _) as [r2 st2] eqn:E2.
    pose proof (saved_holds _ _ _ (r1, st1) _ _ _ Hh1 E2). by destruct r2; intros [= <- <-].
Qed.

Lemma serve_holds port dis requests l st :
  holds port dis l st.1 -> holds port dis (foldl effect l requests) (serve_legacy requests st).1.
Proof.
  revert l st. induction requests as [|rq requests IH]; intros l st Hh; [done|]. cbn [foldl serve_legacy].
  apply IH. by apply request_holds.
Qed.

(** Documented behaviour of Caddy and of files: GET /config/, when it succeeds, answers
    with the last configuration that loaded; Caddy's admin API does not touch the file,
    which holds what was written last. *)
Context (running : W -> json) (saved : W -> option json).
Record admin_laws : Prop := {
  al_loaded config w w' : post config w = (Loaded, w') -> running w' = config;
  al_fetched w config w' : fetch w = (Fetched config, w') -> config = running w;
  al_post config w : saved (post config w).2 = saved w;
  al_fetch w : saved (fetch w).2 = saved w;
  al_write config w : saved (write_file config w) = Some config;
}.

(** The file after a change that was answered 200: the document, or, when reading the
    configuration back was refused, what it held before. *)
Definition saved_or_refused (before after : W) (config : json) : Prop :=
  saved after = Some config \/ (exists w, fetch w = (FetchRefused, after)) /\ saved after = saved before.

Lemma saved_after change detail st' port dis l :
  admin_laws -> holds port dis l change.2.1 -> (change.1 = Ok true -> running change.2.2 = document port dis l) ->
  and_saved fetch write_file change detail = (Ok tt, st') -> saved_or_refused change.2.2 st'.2 (document port dis l).
Proof.
  intros Hlaw Hh Hrun. destruct change as [[[]|e] st]; cbn [fst snd and_saved] in *; try done.
  unfold save_config. pose proof (al_fetch Hlaw st.2) as Hkeep. destruct (fetch st.2) as [[config| |e] w'] eqn:E; [| |done].
  - apply (al_fetched Hlaw) in E as ->. intros [= <-]. left. cbn [snd]. rewrite (al_write Hlaw). by rewrite Hrun.
  - intros [= <-]. right. split; [by exists st.2|exact Hkeep].
Qed.

Lemma load_keeps config st r st' : admin_laws -> load_new_config post config st = (r, st') -> saved st'.2 = saved st.2.
Proof.
  intros Hlaw. destruct st as [c w]. unfold load_new_config. pose proof (al_post Hlaw config w) as Hp.
  by destruct (post config w) as [[] w']; intros [= _ <-].
Qed.
Lemma load_or_restore_keeps config st r st' :
  admin_laws -> load_or_restore post config st = (r, st') -> saved st'.2 = saved st.2.
Proof.
  intros Hlaw. unfold load_or_restore. destruct (load_new_config post config st) as [[[]|e] st1] eqn:E;
    apply (load_keeps _ _ _ _ Hlaw) in E; [by intros [= _ <-]| |by intros [= _ <-]].
  destruct (load_new_config post (cf_config st1.1) st1) as [[]st2] eqn:E2; apply (load_keeps _ _ _ _ Hlaw) in E2;
    intros [= _ <-]; congruence.
Qed.
Lemma add_keeps d u st r st' : admin_laws -> add_domain post d u st = (r, st') -> saved st'.2 = saved st.2.
Proof.
  intros Hlaw. destruct st as [c w]. unfold add_domain. destruct (negb _); [by intros [= _ <-]|].
  destruct (add_https_domain _ _ _ _ _ _) as [changed [u'|e]]; [|by intros [= _ <-]].
  by intros E%(load_or_restore_keeps _ _ _ _ Hlaw).
Qed.
Lemma delete_keeps d st r st' : admin_laws -> delete_domain post d st = (r, st') -> saved st'.2 = saved st.2.
Proof.
  intros Hlaw. destruct st as [c w]. unfold delete_domain. destruct (negb _); [by intros [= _ <-]|].
  destruct (delete_https_domain _ _ _) as [changed [u'|e]]; [|by intros [= _ <-]].
  by intros E%(load_or_restore_keeps _ _ _ _ Hlaw).
Qed.

Lemma loaded_runs port dis l st st' :
  admin_laws -> load_or_restore post (document port dis l) st = (Ok true, st') -> running st'.2 = document port dis l.
Proof.
  intros Hlaw. unfold load_or_restore, load_new_config. destruct st as [c w].
  destruct (post (document port dis l) w) as [[] w1] eqn:E.
  - intros [= <-]. by apply (al_loaded Hlaw) in E.
  - by destruct (post _ w1) as [[] w2].
  - done.
Qed.

Lemma add_runs port dis l d u st r st' :
  admin_laws -> holds port dis l st.1 -> add_domain post d u st = (r, st') -> r = Ok true ->
  running st'.2 = document port dis (sset d u l).
Proof.
  intros Hlaw. destruct st as [c w]. intros []. unfold add_domain. cbn [fst] in *. rewrite ho_config0, ho_port0, ho_flag0.
  cbn [copyable document negb]. change (JObj _) with (document port dis l). rewrite add_document, set_known by done.
  intros Hr ->. by apply loaded_runs in Hr.
Qed.
Lemma delete_runs port dis l d st r st' :
  admin_laws -> holds port dis l st.1 -> delete_domain post d st = (r, st') -> r = Ok true ->
  running st'.2 = document port dis (without_host d l).
Proof.
  intros Hlaw. destruct st as [c w]. intros []. unfold delete_domain. cbn [fst] in *. rewrite ho_config0, ho_port0.
  cbn [copyable document negb]. change (JObj _) with (document port dis l). rewrite delete_document.
  destruct (known d l); [|by intros [= <- <-]]. intros Hr ->. by apply loaded_runs in Hr.
Qed.

Lemma add_not_http d u st status detail st' : add_domain post d u st <> (Err (HTTPException status detail), st').
Proof. unfold add_domain, load_or_restore, load_new_config. repeat case_match; congruence. Qed.
Lemma delete_not_http d st status detail st' : delete_domain post d st <> (Err (HTTPException status detail), st').
Proof. unfold delete_domain, load_or_restore, load_new_config. repeat case_match; congruence. Qed.

Lemma run_call_refuses call st status detail st' :
  run_call post fetch write_file domain_ok saas_upstream call st = (Err (HTTPException status detail), st') -> status = 400.
Proof.
  unfold run_call, listed_domains, add_custom_domain, remove_custom_domain, and_saved, save_config.
  destruct call as [|d u|d].
  - intros E. by repeat case_match; simplify_eq.
  - destruct (domain_ok d); [|by intros [= <- _ _]]. cbn [negb].
    destruct (add_domain post d _ st) as [[[]|e] st1] eqn:E1; intros E; repeat case_match; simplify_eq; try done.
    by apply add_not_http in E1.
  - destruct (domain_ok d); [|by intros [= <- _ _]]. cbn [negb].
    destruct (delete_domain post d st) as [[[]|e] st1] eqn:E1; intros E; repeat case_match; simplify_eq; try done.
    by apply delete_not_http in E1.
Qed.

(** A change that is answered 200 has saved the document, unless it could not be read back. *)
Lemma change_saved port dis l rq st a st' :
  admin_laws -> holds port dis l st.1 -> legacy_step rq st = (a, st') -> la_status a = 200 -> lr_call rq <> GetDomains ->
  saved_or_refused st.2 st'.2 (document port dis (effect l rq)).
Proof.
  intros Hlaw Hh. unfold legacy_step, legacy_request, effect. destruct (get_api_key API_KEY rq); [|by intros [= <- <-]].
  destruct (run_call post fetch write_file domain_ok saas_upstream (lr_call rq) st) as [r st1] eqn:E.
  intros Ha H200 Hcall. destruct r as [j|[e|status detail|e]]; try (injection Ha as <- <-; discriminate H200).
  2:{ apply run_call_refuses in E as ->. injection Ha as <- <-. discriminate H200. }
  injection Ha as <- <-. revert E. unfold run_call.
  destruct (lr_call rq) as [|d u|d]; [done| |]; unfold add_custom_domain, remove_custom_domain;
    (destruct (domain_ok d); cbn [negb]; [|by intros [= <- <-]]).
  - destruct (add_domain post d (default saas_upstream (nonempty u)) st) as [r1 st2] eqn:E1.
    destruct (and_saved fetch write_file (r1, st2) _) as [[[]|e] st3] eqn:E2; intros [= <- <-].
    unfold saved_or_refused. rewrite <- (add_keeps _ _ _ _ _ Hlaw E1).
    eapply (saved_after (r1, st2)); [done|by eapply add_holds|by eapply add_runs|done].
  - destruct (delete_domain post d st) as [r1 st2] eqn:E1.
    destruct (and_saved fetch write_file (r1, st2) _) as [[[]|e] st3] eqn:E2; intros [= <- <-].
    unfold saved_or_refused. rewrite <- (delete_keeps _ _ _ _ Hlaw E1).
    eapply (saved_after (r1, st2)); [done|by eapply delete_holds|by eapply delete_runs|done].
Qed.

(** C36: Cutting over loses no hostname and invents none.  Start from a configurator that
    holds a document of this service for its port with some hostnames (a started one on
    which Caddy loaded the first template holds none); after any legacy requests,
    whatever Caddy answered to each, a change that is answered 200 has saved a
    configuration from which the import reads exactly the hostnames that were ever asked
    for and not removed since, each once and with the last upstream asked for; those
    Caddy refused at the time are among them.  The exception is a refused GET /config/
    after the change: the answer is 200 all the same and the file is what it was. *)
Theorem saved_hostnames_are_imported p dis l c w requests rq a st :
  admin_laws -> holds (py_str p) dis l c -> legacy_step rq (serve_legacy requests (c, w)) = (a, st) ->
  la_status a = 200 -> lr_call rq <> GetDomains ->
  let wanted := effect (foldl effect l requests) rq in
  NoDup wanted.*1 /\
  ((exists config, saved st.2 = Some config /\
      parse_legacy_config config p = Ok (entries wanted) /\ list_domains config (py_str p) = Ok (JStr <$> wanted.*1)) \/
   (exists w', fetch w' = (FetchRefused, st.2)) /\ saved st.2 = saved (serve_legacy requests (c, w)).2).
Proof.
  intros Hlaw Hh Hr H200 Hc wanted. pose proof (serve_holds _ _ requests l (c, w) Hh) as Hs.
  pose proof (request_holds _ _ _ rq _ Hs) as Hh'. split; [apply (ho_nodup _ _ _ _ Hh')|].
  destruct (change_saved _ _ _ _ _ _ _ Hlaw Hs Hr H200 Hc) as [Hsv|Hsv]; [left|by right].
  exists (document (py_str p) dis wanted). split; [exact Hsv|]. split; [apply parse_document|apply list_document].
Qed.
End Histories.

(** ** A sample deployment *)

(** The running configuration and the saved file. *)
Definition Machine : Type := json * option json.
(** Caddy refuses a configuration whose last hostname is refused.example. *)
Definition sample_post (config : json) (m : Machine) : LoadReply * Machine :=
  match list_domains config HTTPS_PORT with
  | Ok l => if bool_decide (last (omap as_str l) = Some "refused.example") then (LoadRefused, m) else (Loaded, (config, m.2))
  | Err _ => (LoadRefused, m)
  end.
Definition sample_fetch (m : Machine) : FetchReply * Machine := (Fetched m.1, m).
Definition sample_write (config : json) (m : Machine) : Machine := (m.1, Some config).
Definition sample_valid (domain : string) : bool := has_char "."%char domain.

Definition sample_started : Configurator * Machine :=
  (Caddy_init sample_post (fun _ => Missing) (Caddy_settings (fun _ => None)) (JNull, None)).2.
Definition with_key (call : LegacyCall) : LegacyRequest := {|
  lr_query := None; lr_header := Some "k3y"; lr_cookie := None; lr_call := call |}.
Definition ask (rq : LegacyRequest) (st : Configurator * Machine) : LegacyAnswer * (Configurator * Machine) :=
  legacy_step sample_post sample_fetch sample_write sample_valid "example.com:443" "k3y" rq st.
Definition sample_requests : list LegacyRequest :=
  [with_key (AddDomain "shop.customer.example" (Some "app.acme.example")); with_key (AddDomain "old.customer.example" None);
   with_key (AddDomain "refused.example" None); with_key (RemoveDomains "old.customer.example")].
Definition sample_last : LegacyRequest := with_key (AddDomain "www.customer.example" (Some "app.acme.example:8443")).

Lemma sample_laws : admin_laws sample_post sample_fetch sample_write fst snd.
Proof.
  constructor; [| | | |done].
  - intros config w w'. unfold sample_post.
    destruct (list_domains config HTTPS_PORT); [|done]. case_bool_decide; [done|]. by intros [= <-].
  - by intros w config w' [= <- _].
  - intros config w. unfold sample_post. destruct (list_domains config HTTPS_PORT); [|done]. by case_bool_decide.
  - done.
Qed.

Lemma saved_hostnames_are_imported_witness :
  la_status (ask (with_key (AddDomain "refused.example" None)) sample_started).1 = 400 /\
  let served := (ask sample_last (serve_legacy sample_post sample_fetch sample_write sample_valid "example.com:443" "k3y"
                                    sample_requests sample_started)).2 in
  exists config, served.2.2 = Some config /\
    parse_legacy_config config 443 =
      Ok (entries [("shop.customer.example", "app.acme.example"); ("refused.example", "example.com:443");
                   ("www.customer.example", "app.acme.example:8443")]).
Proof.
  split; [vm_compute; reflexivity|]. intros served.
  assert (holds "443" false [] sample_started.1) as Hh by (constructor; try reflexivity; apply NoDup_nil_2).
  destruct (saved_hostnames_are_imported sample_post sample_fetch sample_write sample_valid "example.com:443" "k3y" fst snd
              443 false [] sample_started.1 sample_started.2 sample_requests sample_last
              (ask sample_last (serve_legacy sample_post sample_fetch sample_write sample_valid "example.com:443" "k3y"
                                    sample_requests sample_started)).1 served sample_laws Hh)
    as (_ & [(config & Hs & Hp & _)|((w' & Hf) & _)]).
  - unfold served. destruct sample_started as [c w]. unfold ask. apply surjective_pairing.
  - vm_compute. reflexivity.
  - discriminate.
  - exists config. split; [exact Hs|]. rewrite Hp. vm_compute. reflexivity.
  - discriminate Hf.
Defined.
