(* ===== verification/Presenters.v ===== *)
(** * What the pages say (app/portal/presenters.py)

    The portal's and the customer page's views of the service's rows: the label and the
    tone of every status, the DNS records with what was found of them, the setup steps,
    the edge's own names and the history's lines.  Theorems: the records are summed up as found exactly when both DNS checks
    pass; a record's short name and its zone give its full name back; the customer's page
    does not depend on what the certificate and origin checks reported in words. *)

From Stdlib Require Import Ascii String ZArith Lia.
From stdpp Require Import base gmap strings list.
From S2P Require Import Prelude PyStr Datetime Json Errors External Models EdgeSettings Dns DnsSetup Schemas Domains.
From S2P Require Import ConnectFlow Applications ConnectPage Doctor.
Open Scope string_scope.
Open Scope Z_scope.

Record State := { st_label : string; st_tone : string; st_help : string }.
Definition state_help (label tone help : string) : State := {| st_label := label; st_tone := tone; st_help := help |}.
Definition state (label tone : string) : State := state_help label tone "".

(** ** Statuses *)

Definition domain_state_of (st : DomainStatus) : State :=
  match st with
  | PENDING_DNS =>
      state_help "Waiting for DNS" "pending"
        ("The customer has not published both DNS records below yet, or they have not "
         ++ "propagated. Nothing is served for this hostname until they have.")
  | PROVISIONING =>
      state_help "Provisioning" "progress"
        ("Both DNS records are correct. The edge is obtaining the HTTPS certificate and "
         ++ "checking that the origin serves this workspace; this usually takes a few minutes.")
  | READY => state_help "Live" "ok" "Every check passes and the edge serves this hostname over HTTPS."
  | ATTENTION_REQUIRED =>
      state_help "Needs attention" "fail"
        ("A check started failing after the hostname went live, so the edge has stopped "
         ++ "serving it. It goes live again by itself once every check passes; the failing "
         ++ "check below says what to fix.")
  | SUSPENDED =>
      state_help "Suspended" "fail"
        ("The ownership TXT record was missing for more than 24 hours, so service stopped. "
         ++ "It resumes once the customer restores the TXT record and both DNS checks pass.")
  | DELETING =>
      state_help "Deleted" "muted"
        ("The hostname was removed and is no longer served. The record is kept for 90 days "
         ++ "for auditing; the hostname can be registered again at any time.")
  end.
Definition domain_state (d : Domain) : State := domain_state_of (dom_status d).
(** [DOMAIN_FILTERS]: the order statuses are offered in, those needing action first. *)
Definition DOMAIN_FILTERS : list (string * string) :=
  [("", "All"); (domain_status_value ATTENTION_REQUIRED, "Needs attention"); (domain_status_value SUSPENDED, "Suspended");
   (domain_status_value PENDING_DNS, "Waiting for DNS"); (domain_status_value PROVISIONING, "Provisioning");
   (domain_status_value READY, "Live"); (domain_status_value DELETING, "Deleted")].
(** [CHECK_LABELS]: a label and what the check is for. *)
Definition check_label (t : CheckType) : string * string :=
  match t with
  | OWNERSHIP => ("Ownership", "The TXT record proves the customer controls the hostname.")
  | ROUTING => ("Routing", "The CNAME record sends the hostname's traffic to this edge.")
  | CERTIFICATE => ("HTTPS certificate", "The edge holds a valid certificate for the hostname.")
  | ORIGIN => ("Origin", "The application's backend answers for the hostname with the right workspace.")
  end.
(** [APPLICATION_STATES] *)
Definition application_state_of (st : ApplicationStatus) : State :=
  match st with
  | ACTIVE => state "Active" "ok"
  | SUSPENDED_APP =>
      state_help "Suspended" "fail" "None of this application's hostnames is served and its API keys are refused."
  end.
(** A deleted application has the time of its purge. *)
Definition application_state (r : Application) : State :=
  if application_is_deleted r then
    state_help "Deleted" "muted"
      ("Read only. Its records are kept until " ++ take_str 10 (isoformat (default 0 (app_purge_after r)))
       ++ " for auditing, then purged.")
  else application_state_of (app_status r).
(** [HOST_HEADER_MODES] *)
Definition host_header_label (o : VerifiedOrigin) : string * string :=
  match org_host_header o with
  | HH_CUSTOMER =>
      ("Customer hostname", "The edge sends Host: the customer's hostname, such as forms.customer.example.")
  | HH_ORIGIN =>
      ("Origin's own name",
       "The edge sends Host: this origin's own name, so a CDN or a host-routed proxy in front "
       ++ "of it routes the request as usual; the customer's hostname is in X-Forwarded-Host.")
  end.
(** [ORIGIN_STATES] *)
Definition origin_state_of (st : OriginStatus) : State :=
  match st with
  | ORIGIN_PENDING =>
      state_help "Waiting for verification" "pending" "Serve the token below from the origin, then verify."
  | ORIGIN_VERIFIED => state "Verified" "ok"
  | ORIGIN_FAILED =>
      state_help "Verification failed" "fail" "The origin did not serve the expected token. Fix it and verify again."
  | ORIGIN_RETIRED => state_help "Retired" "muted" "No longer receives traffic."
  end.
Definition origin_state (o : VerifiedOrigin) : State :=
  let verified := bool_decide (org_status o = ORIGIN_VERIFIED) in
  if org_is_active o && verified then state_help "Active" "ok" "Receives this application's traffic."
  else if verified then state_help "Verified, not active" "progress" "Activate it to send traffic here."
  else origin_state_of (org_status o).
(** [strftime("%Y-%m-%d %H:%M")] *)
Definition minute_text (t : Z) : string := take_str 10 (isoformat t) ++ " " ++ take_str 5 (drop_str 11 (isoformat t)).
Definition credential_state (c : ApiCredential) (now : Z) : State :=
  if bool_decide (is_Some (cred_revoked_at c)) then state "Revoked" "muted" else
  match cred_expires_at c with
  | Some e => if e <=? now then state "Expired" "muted" else state ("Active until " ++ minute_text e) "warn"
  | None => state "Active" "ok"
  end.
(** [CREDENTIAL_SCOPES] *)
Definition credential_scope_label (c : ApiCredential) : string * string :=
  match cred_scope c with
  | FULL =>
      ("Full access",
       "Can do everything the API allows for this application: register, recheck and "
       ++ "delete hostnames, and manage webhooks.")
  | READ =>
      ("Read only",
       "Can list and look at hostnames, their checks and webhooks, and nothing else. "
       ++ "Any request that would change something is refused (credential_read_only).")
  end.

(** ** Checks and records *)

Record CheckView := {
  cv_type : CheckType;
  cv_label : string;
  cv_purpose : string;
  cv_state : State;
  cv_message : option string;
  cv_error_code : option string;
  cv_observed_at : option Z;
  cv_next_check_at : option Z;
}.
Record RecordView := {
  rv_purpose : string;
  rv_type : string;
  rv_name : string;
  rv_host_label : option string;
  rv_zone : option string;
  rv_value : string;
  rv_state : State;
  rv_detail : option string;
  rv_observed : list json;
  rv_help : string;
}.

Definition MISSING_CODES : list string := ["txt_record_not_found"; "cname_not_found"].
Definition WRONG_CODES : list string := ["txt_token_mismatch"; "txt_token_stale"; "cname_target_mismatch"].

(** [or_json]: Python's [or] on what a dict holds. *)
Definition or_json (x : option json) (y : json) : json :=
  match x with Some j => if truthy j then j else y | None => y end.
(** The values a check observed; the workers write lists. *)
Definition observed_values (details : option dict) : list json :=
  let d := default [] details in
  match or_json (dget "observed" d) (or_json (dget "chain" d) (JArr [])) with JArr l => l | _ => [] end.
(** A record's state, what its check says and what it saw. *)
Definition record_state (check : option DomainCheck) : State * option string * list json :=
  match check with
  | None => (state "Not checked yet" "pending", None, [])
  | Some c =>
      let observed := observed_values (check_details c) in
      let code := default "" (check_error_code c) in
      match check_status c with
      | PENDING => (state "Not checked yet" "pending", None, [])
      | PASSING => (state "Found" "ok", None, observed)
      | _ =>
          (if mem_str code MISSING_CODES then state "Not found" "fail"
           else if mem_str code WRONG_CODES then state "Wrong value" "fail"
           else if String.eqb code "dns_timeout" then state "Lookup failed" "warn"
           else state "Failing" "fail", check_message c, observed)
      end
  end.

Section Presenters.
Context `{External, Deployment}.

Definition check_view (s : Db) (id : N) (t : CheckType) : CheckView :=
  let passing t := bool_decide (check_status <$> domain_check s id t = Some PASSING) in
  let dns_passing := passing OWNERSHIP && passing ROUTING in
  let check := domain_check s id t in
  {| cv_type := t; cv_label := fst (check_label t); cv_purpose := snd (check_label t);
     cv_state := match default PENDING (check_status <$> check) with
                 | PASSING => state "Passing" "ok"
                 | FAILING => state "Failing" "fail"
                 | _ => if bool_decide (t ∈ [CERTIFICATE; ORIGIN]) && negb dns_passing
                        then state "Waits for DNS" "pending" else state "Not checked yet" "pending"
                 end;
     cv_message := check ≫= check_message;
     cv_error_code := check ≫= check_error_code;
     cv_observed_at := check ≫= check_observed_at;
     cv_next_check_at := check ≫= check_next_check_at |}.
Definition check_views (s : Db) (id : N) : list CheckView := check_view s id <$> all_checks.

(** [_domain_zone]: the zone the DNS worker found, else the registrable domain. *)
Definition domain_zone (d : Domain) : option string :=
  match nonempty (dom_zone d) with Some z => Some z | None => privatesuffix (dom_hostname d) end.
(** [_relative] *)
Definition relative (name hostname : string) (zone : option string) : option string :=
  match (match nonempty zone with Some z => Some z | None => privatesuffix hostname end) with
  | None => None
  | Some zone =>
      if String.eqb name zone then Some "@"
      else if endswith ("." ++ zone) name then Some (take_str (String.length name - (String.length zone + 1)) name)
      else None
  end.
Definition record_view (d : Domain) (purpose type name value help : string) (found : State * option string * list json)
    : RecordView :=
  {| rv_purpose := purpose; rv_type := type; rv_name := name;
     rv_host_label := relative name (dom_hostname d) (domain_zone d);
     rv_zone := domain_zone d; rv_value := value;
     rv_state := fst (fst found); rv_detail := snd (fst found); rv_observed := snd found; rv_help := help |}.
Definition plain (help : string) : string := replace "`" "" help.
Definition record_views (s : Db) (id : N) (d : Domain) : list RecordView :=
  match active_claim s id with
  | None => []
  | Some (_, claim) =>
      if is_deleted d then [] else
      [record_view d "Proves ownership" "TXT" (claim_txt_record_name claim) (txt_record_value claim) (plain TXT_HELP)
         (record_state (domain_check s id OWNERSHIP));
       record_view d "Routes traffic to the edge" "CNAME" (dom_hostname d) (claim_cname_target claim) (plain CNAME_HELP)
         (record_state (domain_check s id ROUTING))]
  end.

(** One line for lists. *)
Definition dns_summary (s : Db) (id : N) (d : Domain) : State :=
  match record_views s id d with
  | [] => state "—" "muted"
  | records =>
      let tone r := st_tone (rv_state r) in
      if forallb (fun r => String.eqb (tone r) "ok") records then state "Records found" "ok"
      else if existsb (fun r => String.eqb (tone r) "fail") records then
        state (join " and " (rv_type <$> filter (fun r => tone r = "fail") records) ++ " missing or wrong") "fail"
      else state "Not checked yet" "pending"
  end.

(** ** DNS provider and setup method *)

(** [SETUP_METHODS] *)
Definition unknown_method : State :=
  state_help "Not looked up yet" "muted" "The DNS worker identifies the provider the next time it checks this hostname.".
Definition setup_method_state (method : option string) : State :=
  match method with
  | Some m =>
      if String.eqb m "domain_connect" then
        state_help "One-step setup" "ok"
          ("The customer's DNS provider supports this service's Domain Connect template: the "
           ++ "customer approves the records at their provider instead of typing them.")
      else if String.eqb m "guided" then
        state_help "Provider guide" "progress"
          ("The customer adds the records by hand, following the step-by-step guide for their "
           ++ "DNS provider.")
      else if String.eqb m "manual" then
        state_help "Generic guide" "pending"
          ("The DNS provider was not recognized or has no specific guide; the customer follows "
           ++ "the generic instructions.")
      else unknown_method
  | None => unknown_method
  end.

(** What discovery found, in words, and the problem if it failed. *)
Definition domain_connect_text (zone : option DnsZone) (settings : SetupSettings) : string * option string :=
  match zone with
  | None => ("Not checked yet", None)
  | Some z =>
      let problem := match nonempty (zone_error_code z) with
                     | Some code => Some (default "Lookup failed" (nonempty (zone_message z)) ++ " (" ++ code ++ ")")
                     | None => None
                     end in
      let offered := bool_decide (is_Some (zone_domain_connect z)) in
      (if bool_decide (zone_template_supported z = Some true) then
         if ss_signing_enabled settings then "Supported, including this service's template"
         else "Supports this service's template; one-step setup needs request signing, "
              ++ "which this deployment does not have"
       else if offered && bool_decide (zone_template_supported z = Some false) then
         "Offered, but not for this service's template"
       else if offered && bool_decide (nonempty (zone_template z) = None) then
         "Offered (no template configured: DOMAIN_CONNECT_PROVIDER_ID)"
       else if offered then "Offered; template support unknown"
       else if bool_decide (is_Some problem) then "Could not be checked"
       else "Not offered by this provider", problem)
  end.

Record SetupPage := {
  sp_state : State;
  sp_setup : Setup;
  sp_guide_label : string;
  sp_nameservers : list string;
  sp_domain_connect : string;
  sp_problem : option string;
}.
Definition setup_view (s : Db) (d : Domain) : res exn SetupPage :=
  let settings := effective_setup_settings s in
  setup ← domain_setup s d settings;
  let zone := nonempty (dom_zone d) ≫= (fun z => db_zones s !! z) in
  let '(text, problem) := domain_connect_text zone settings in
  let provider := get_provider (su_provider_id setup) in
  Ok {| sp_state := setup_method_state (su_method setup); sp_setup := setup;
        sp_guide_label := if prov_guide provider then prov_name provider ++ " setup guide" else "Generic setup guide";
        sp_nameservers := default [] (zone ≫= zone_nameservers); sp_domain_connect := text; sp_problem := problem |}.

(** [problem]: the view's own text. *)
Definition signer_state (v : SignerView) (problem : string) : State :=
  if sv_problem v then state_help "Misconfigured" "fail" problem else
  match sv_signer v with
  | None => state_help "Off" "muted" "No signer: one-step setup is never offered."
  | Some signer =>
      if negb (sv_enabled v) then
        state_help "Incomplete" "warn"
          ("A signer is chosen but the template id (DOMAIN_CONNECT_PROVIDER_ID) or its key "
           ++ "or credential is missing.")
      else
        state_help (if String.eqb signer "remote" then "Remote signing service" else "Local key") "ok"
          "Customers whose provider supports the template get a one-step link."
  end.
Definition setup_count_views (rows : list SetupCount) : list (string * State * Z * Z) :=
  (fun r => (default "Not looked up yet" (nonempty (sn_provider_name r)), setup_method_state (sn_method r),
             sn_domains r, sn_ready r)) <$> rows.

(** ** The customer's page *)

(** [CONNECT_STATES] *)
Definition connect_state (st : DomainStatus) : State :=
  match st with
  | PENDING_DNS =>
      state_help "Waiting for DNS" "pending"
        ("Add the two DNS records below at your DNS provider. This page checks again by "
         ++ "itself; changes can take a few minutes to be seen.")
  | PROVISIONING =>
      state_help "Almost done" "progress"
        ("Both DNS records are in place. A security certificate is being issued; this "
         ++ "usually takes a few minutes. There is nothing more to do.")
  | READY => state_help "Connected" "ok" "Your domain is set up and working. You can close this page."
  | ATTENTION_REQUIRED =>
      state_help "Needs attention" "fail"
        ("Your domain was working, but a check now fails, so it is not being served. Check "
         ++ "that both DNS records below are still in place; it starts working again by itself "
         ++ "once every check passes.")
  | SUSPENDED =>
      state_help "Suspended" "fail"
        ("The ownership record (TXT) has been missing for more than a day, so your domain is "
         ++ "not being served. Add it again; service resumes once both records are found.")
  | DELETING => state "Unknown" "muted"
  end.
(** [CONNECT_CHECK_PURPOSES] *)
Definition connect_check_purpose (t : CheckType) : string :=
  match t with
  | OWNERSHIP => "The TXT record shows that you control this domain."
  | ROUTING => "The CNAME record sends your domain's visitors here."
  | CERTIFICATE => "A certificate lets visitors reach your domain securely over HTTPS."
  | ORIGIN => "The application answers on your domain."
  end.
Record ConnectView := {
  cp_hostname : string;
  cp_state : State;
  cp_provider_name : option string;
  cp_method : option string;
  cp_guide_url : option string;
  cp_guide_label : string;
  cp_records : list RecordView;
  cp_checks : list CheckView;
  cp_can_apply : bool;
  cp_waiting : bool;
  cp_next_step : string;
}.
(** [replace(check, purpose=CONNECT_CHECK_PURPOSES[check.type], message=None)] *)
Definition for_customer (c : CheckView) : CheckView :=
  {| cv_type := cv_type c; cv_label := cv_label c; cv_purpose := connect_check_purpose (cv_type c); cv_state := cv_state c; cv_message := None; cv_error_code := cv_error_code c;
     cv_observed_at := cv_observed_at c; cv_next_check_at := cv_next_check_at c |}.
Definition connect_page_view (s : Db) (id : N) (d : Domain) : res exn ConnectView :=
  setup ← domain_setup s d (effective_setup_settings s);
  let provider :=
    if bool_decide (su_provider_id setup = Some UNKNOWN) && bool_decide (su_provider_name setup = Some (prov_name unknown_provider))
    then None else su_provider_name setup in
  let at_provider := default "your DNS provider" (nonempty provider) in
  let guide := get_provider (su_provider_id setup) in
  Ok {| cp_hostname := dom_hostname d; cp_state := connect_state (dom_status d); cp_provider_name := provider;
        cp_method := su_method setup; cp_guide_url := su_guide_url setup;
        cp_guide_label := if prov_guide guide then prov_name guide ++ " setup guide" else "Setup guide";
        cp_records := record_views s id d;
        cp_checks := for_customer <$> check_views s id;
        cp_can_apply := can_apply setup d;
        cp_waiting := negb (bool_decide (dom_status d = READY));
        cp_next_step :=
          match dom_status d with
          | READY => "Nothing. Your domain is working."
          | PROVISIONING => "Nothing: wait a few minutes while the certificate is issued."
          | _ => if can_apply setup d
                 then "Select “Set up automatically with " ++ at_provider
                      ++ "” and approve the two records there, or add them by hand."
                 else "Add the two records below at " ++ at_provider ++ "."
          end |}.

(** ** The edge's own names *)

Record EdgeName := {
  en_name : string;
  en_roles : list string;
  en_addresses : list string;
  en_error : option string;
  en_reachability : option Finding;
}.
Definition edge_name (name : string) (roles : list string) : EdgeName :=
  {| en_name := name; en_roles := roles; en_addresses := []; en_error := None; en_reachability := None |}.
Definition edge_name_state (v : EdgeName) : State :=
  if bool_decide (is_Some (nonempty (en_error v))) then state "Not in DNS" "fail" else
  match en_addresses v, en_reachability v with
  | [], _ => state "No A/AAAA record" "fail"
  | _, Some f =>
      if String.eqb (fi_status f) "ok" then state "Reaches this edge" "ok"
      else if String.eqb (fi_status f) "warn" then
        match fi_reached f with
        | [] => state "Not verifiable from here" "warn"
        | _ => state "Reaches this edge over IPv4" "warn"
        end
      else state "Does not reach this edge" "fail"
  | _, None => state "Resolves, not verified" "progress"
  end.

(** [views.setdefault(name, EdgeNameView(name, [])).roles.append(role)] *)
Fixpoint add_role (name role : string) (views : list EdgeName) : list EdgeName :=
  match views with
  | [] => [edge_name name [role]]
  | v :: views =>
      if String.eqb (en_name v) name
      then {| en_name := en_name v; en_roles := (en_roles v ++ [role])%list; en_addresses := en_addresses v;
              en_error := en_error v; en_reachability := en_reachability v |} :: views
      else v :: add_role name role views
  end.
Definition name_role (r : Application) (name : string) : string :=
  if String.eqb name (app_cname_target r) then "CNAME target of " ++ app_name r
  else "Former CNAME target of " ++ app_name r ++ ", still used by live domains".
Definition edge_name_views (s : Db) (settings : option EdgeSettings) : list EdgeName :=
  let own := match nonempty (settings ≫= es_edge_hostname) with
             | Some host => [edge_name host ["This edge's own name (portal and health check)"]]
             | None => []
             end in
  foldl (fun views x => foldl (fun views name => add_role name (name_role x.2 name) views) views (edge_names s x.1 x.2))
    own (list_applications s).
(** [resolve]: the addresses, or the exception's text. *)
Definition resolve_names (resolve : string -> res string (list string)) (views : list EdgeName) : list EdgeName :=
  (fun v => match resolve (en_name v) with
            | Ok addresses => {| en_name := en_name v; en_roles := en_roles v; en_addresses := addresses;
                                 en_error := en_error v; en_reachability := en_reachability v |}
            | Err text => {| en_name := en_name v; en_roles := en_roles v; en_addresses := en_addresses v;
                             en_error := Some text; en_reachability := en_reachability v |}
            end) <$> views.

(** ** Setup progress *)

Definition DOMAIN_STATUSES : list DomainStatus :=
  [PENDING_DNS; PROVISIONING; READY; ATTENTION_REQUIRED; SUSPENDED; DELETING].
Definition count_of (st : DomainStatus) (counts : list (DomainStatus * Z)) : Z :=
  default 0 (snd <$> find (fun x => bool_decide (x.1 = st)) counts).
Definition live_total (counts : list (DomainStatus * Z)) : Z :=
  foldr Z.add 0 (snd <$> filter (fun x => x.1 <> DELETING) counts).

Record Step := { step_title : string; step_done : bool; step_detail : string; step_link : string; step_link_label : string }.
(** The step of the CNAME target: done only when an address of it answered as this edge. *)
Definition target_step (target : string) (view : option EdgeName) : bool * string :=
  let unknown := (false, target ++ " has no A or AAAA record in public DNS yet. Create them with this "
                         ++ "server's public addresses; customers' CNAMEs point at this name.") in
  match view with
  | None => unknown
  | Some v =>
      let addresses := commas (en_addresses v) in
      match nonempty (en_error v), en_addresses v, en_reachability v with
      | Some _, _, _ | _, [], _ => unknown
      | _, _, None =>
          (false, target ++ " resolves to " ++ addresses ++ ". Verify that those addresses reach this edge.")
      | _, _, Some f =>
          let reached := commas (fi_reached f) in
          if mem_str (fi_status f) ["ok"; "warn"] && match fi_reached f with [] => false | _ => true end then
            (true, if String.eqb (fi_status f) "ok" then target ++ " reaches this edge at " ++ reached ++ "."
                   else target ++ " reaches this edge at " ++ reached ++ ". Its IPv6 "
                        ++ "address could not be checked from here; test it from outside.")
          else if String.eqb (fi_status f) "warn" then
            (false, target ++ " has only IPv6 addresses (" ++ addresses ++ "), which "
                    ++ "cannot be checked from inside Docker. Add an A record for this server, or "
                    ++ "verify IPv6 from outside.")
          else
            (false, target ++ " resolves to " ++ addresses ++ ", but those addresses do "
                    ++ "not answer as this edge. Point the records at this server's public addresses.")
      end
  end.
Definition application_steps (s : Db) (a : N) (r : Application) (origins : list (N * VerifiedOrigin))
    (credentials : list (N * ApiCredential)) (counts : list (DomainStatus * Z)) (target : option EdgeName) (now : Z)
    : list Step :=
  let base := "/portal/applications/" ++ app_slug r in
  let registered := existsb (fun o => negb (bool_decide (org_status o.2 = ORIGIN_RETIRED))) origins in
  let serving := serving_origin s a in
  let has_key := existsb (fun c => credential_is_usable c.2 now) credentials in
  let total := live_total counts in
  let ready := count_of READY counts in
  let resolved := match target with Some v => match en_addresses v with [] => false | _ => true end | None => false end in
  let dns := target_step (app_cname_target r) target in
  let step title done detail link label :=
    {| step_title := title; step_done := done; step_detail := detail; step_link := link; step_link_label := label |} in
  [step "Point the CNAME target at this edge" (fst dns) (snd dns)
     (if resolved then base ++ "?verify=1" else "/portal/edge") (if resolved then "Verify now" else "DNS for the edge");
   step "Register the application's backend (origin)" registered
     (if registered then "Registered." else "The server the edge forwards customers' requests to.")
     (base ++ "/origins") "Origins";
   step "Verify and activate the origin" (bool_decide (is_Some serving))
     (match serving with
      | Some o => "Traffic goes to " ++ origin_url (snd o) ++ "."
      | None => "The origin serves a token to prove you control it; then it is activated."
      end) (base ++ "/origins") "Origins";
   step "Issue an API key for the application's backend" has_key
     (if has_key then "At least one active key."
      else "The backend registers customers' hostnames with it through the API or SDK.")
     (base ++ "/credentials") "API keys";
   step "Register the first customer hostname" (0 <? total)
     (if total =? 0 then "Usually done by the application through the API; you can also add one here."
      else py_str total ++ " hostname(s) registered.") (base ++ "/domains") "Domains";
   step "First hostname live" (0 <? ready)
     (if ready =? 0 then "Goes live once the customer's DNS records are in place and every check passes."
      else py_str ready ++ " hostname(s) live.")
     (if ready =? 0 then base ++ "/domains" else base ++ "/domains?status=ready") "Domains"].

(** ** The history *)

Definition EVENT_TEXT : list (string * string) :=
  [("domain.created", "Hostname registered"); ("domain.imported", "Imported from the legacy deployment");
   ("domain.claim_issued", "DNS records issued"); ("domain.claim_verified", "Ownership verified");
   ("domain.claim_revoked", "Previous DNS records withdrawn"); ("domain.check_updated", "Check updated");
   ("domain.status_changed", "Status changed"); ("domain.deleted", "Hostname deleted");
   ("domain.recheck_requested", "Recheck requested"); ("domain.connect_url_issued", "One-step setup link issued (Domain Connect)")].
Definition domain_status_of (value : string) : option DomainStatus :=
  find (fun st => String.eqb (domain_status_value st) value) DOMAIN_STATUSES.
Definition check_type_of (value : string) : option CheckType :=
  find (fun t => String.eqb (check_type_value t) value) all_checks.
(** The events of the service hold texts or null in the fields shown. *)
Definition payload_text (k : string) (payload : dict) : option string := dget k payload ≫= as_str.
Definition status_label (value : option string) : string :=
  match nonempty value with
  | Some v => match domain_status_of v with Some st => st_label (domain_state_of st) | None => v end
  | None => "?"
  end.
Definition in_words (v : string) : string := replace "_" " " v.
(** A title and a detail. *)
Definition describe_event (e : DomainEvent) : string * string :=
  let payload := default [] (event_payload e) in
  let text k := nonempty (payload_text k payload) in
  let title := default (event_type e) (sget (event_type e) EVENT_TEXT) in
  if String.eqb (event_type e) "domain.status_changed" then
    (title, status_label (payload_text "from" payload) ++ " → " ++ status_label (payload_text "to" payload)
            ++ match text "reason" with Some r => " (" ++ in_words r ++ ")" | None => "" end)
  else if String.eqb (event_type e) "domain.check_updated" then
    let label := match payload_text "check" payload with
                 | Some v => match check_type_of v with Some t => fst (check_label t) | None => v end
                 | None => "None"
                 end in
    (label ++ " check " ++ default "updated" (text "to"), match text "error_code" with Some c => in_words c | None => "" end)
  else if String.eqb (event_type e) "domain.claim_verified" then
    (title, match text "method" with
            | Some m => if String.eqb m "dns_txt" then "by the TXT record"
                        else if String.eqb m "legacy_import" then "by legacy import" else m
            | None => ""
            end)
  else if String.eqb (event_type e) "domain.claim_revoked" then (title, in_words (default "" (payload_text "reason" payload)))
  else if String.eqb (event_type e) "domain.created" then
    (title, match text "reference" with Some r => "workspace " ++ r | None => "" end)
  else if String.eqb (event_type e) "domain.imported" then
    (title, if truthy (default JNull (dget "grandfathered" payload)) then "grandfathered" else "")
  else (title, "").

(** ** Properties *)

Lemma record_ok c : String.eqb (st_tone (record_state c).1.1) "ok" = bool_decide (check_status <$> c = Some PASSING).
Proof.
  destruct c as [c|]; [|done]. unfold record_state. cbn [fmap option_fmap option_map]. destruct (check_status c); [done|done|].
  cbn [fst]. destruct (mem_str _ MISSING_CODES); [done|]. destruct (mem_str _ WRONG_CODES); [done|].
  by destruct (String.eqb _ "dns_timeout").
Qed.

(** The records of a live domain are summed up as found exactly when both of its DNS
    checks pass, and it is told which are wrong only when one fails. *)
Theorem dns_summary_exact s id d k c :
  active_claim s id = Some (k, c) -> is_deleted d = false ->
  let passing t := check_status <$> domain_check s id t = Some PASSING in
  dns_summary s id d = state "Records found" "ok" <-> passing OWNERSHIP /\ passing ROUTING.
Proof.
  intros Hc Hd passing. unfold dns_summary, record_views. rewrite Hc, Hd. unfold passing. cbn [forallb rv_state record_view fst].
  rewrite !record_ok, andb_true_r. destruct (bool_decide_reflect (check_status <$> domain_check s id OWNERSHIP = Some PASSING)),
    (bool_decide_reflect (check_status <$> domain_check s id ROUTING = Some PASSING)); cbn [andb]; try tauto.
  all: split; [destruct (existsb _ _); intros [=]|by intros [? ?]].
Qed.

(** A record's short name with its zone is its full name. *)
Theorem relative_exact name hostname zone l :
  relative name hostname (Some zone) = Some l -> zone <> "" ->
  (l = "@" /\ name = zone) \/ name = l ++ "." ++ zone.
Proof.
  intros Hr Hz. unfold relative in Hr. assert (nonempty (Some zone) = Some zone) as Hn by (by destruct zone). rewrite Hn in Hr.
  destruct (String.eqb_spec name zone) as [->|]; [injection Hr as <-; auto|].
  destruct (endswith _ name) eqn:E; [|done]. injection Hr as <-. right. apply endswith_true in E as [r ->].
  rewrite length_sapp. cbn [append String.length].
  replace (_ - _)%nat with (String.length r) by lia. by rewrite take_str_app.
Qed.

(** A check that differs at most in what it says and saw, if it is the certificate's or the
    origin's. *)
Definition same_but_words (t : CheckType) (c c' : option DomainCheck) : Prop :=
  match t with
  | OWNERSHIP | ROUTING => c = c'
  | CERTIFICATE | ORIGIN =>
      check_status <$> c = check_status <$> c' /\ c ≫= check_error_code = c' ≫= check_error_code /\
      c ≫= check_observed_at = c' ≫= check_observed_at /\ c ≫= check_next_check_at = c' ≫= check_next_check_at
  end.
(** What the certificate and origin checks reported in words and details does not reach
    the customer's page: two databases that differ only there show the same page. *)
Theorem customer_sees_no_operator_words s m id d :
  (forall t, same_but_words t (domain_check s id t) (domain_check (s <| db_checks := m |>) id t)) ->
  connect_page_view (s <| db_checks := m |>) id d = connect_page_view s id d.
Proof.
  intros Hw. unfold connect_page_view.
  change (domain_setup (s <| db_checks := m |>) d (effective_setup_settings (s <| db_checks := m |>)))
    with (domain_setup s d (effective_setup_settings s)).
  destruct (domain_setup _ _ _) as [setup|]; [|done]. cbn [mbind res_bind].
  pose proof (Hw OWNERSHIP) as Ho. pose proof (Hw ROUTING) as Hr. pose proof (Hw CERTIFICATE) as Hc. pose proof (Hw ORIGIN) as Hg.
  cbn [same_but_words] in *.
  assert (record_views (s <| db_checks := m |>) id d = record_views s id d) as ->.
  { unfold record_views. rewrite <- Ho, <- Hr. done. }
  do 2 f_equal. unfold check_views. rewrite <- !list_fmap_compose. apply list_fmap_ext. intros i t _. unfold compose, for_customer, check_view.
  cbn [cv_type cv_label cv_purpose cv_state cv_error_code cv_observed_at cv_next_check_at]. rewrite <- Ho, <- Hr.
  destruct t; [by rewrite <- Ho|by rewrite <- Hr| |].
  - destruct Hc as (-> & -> & -> & ->). done.
  - destruct Hg as (-> & -> & -> & ->). done.
Qed.
End Presenters.
