(* ===== verification/Reconcile.v ===== *)
(** * The edge reconciler (app/edge/reconcile.py, app/edge/caddy_client.py)

    One convergence step: the lock, the desired configuration, the traffic counts, and
    the configuration written when it differs.  Caddy's admin API is an interface: its
    answers ([AdminApi]) and what it documents about them ([AdminLaws]); the gateway in
    front of Caddy implements it (ReconcileProps.v).  Theorems: a run that reports success
    leaves Caddy running what the database asks for, a run that changes nothing wrote
    nothing, a refused one leaves the old configuration, and no run touches domains,
    claims, checks, applications or events. *)

From Stdlib Require Import Ascii String ZArith Lia.
From stdpp Require Import base gmap strings list.
From S2P Require Import Prelude PyStr Datetime Json JsonText Errors External Models Limits Dns.
From S2P Require Import EdgeSettings EdgeConfig Traffic.
Open Scope string_scope.
Open Scope Z_scope.

(** ** The client *)

(** An [httpx.Response]: its status, its content and what [json()] returns; [None]: it raises. *)
Record HttpAnswer := { http_status : Z; http_content : string; http_json : option json }.

Inductive client_exn := CaddyUnavailable | CaddyRejectedConfig (status : Z) | Crashed.

(** The admin API; an answer of [None] is an [httpx.HTTPError]. *)
Class AdminApi := {
  World : Type;
  get_answer : World -> option HttpAnswer;
  load_answer : json -> World -> option HttpAnswer * World;
  apps_answer : json -> World -> option HttpAnswer * World;
  metrics_answer : World -> option HttpAnswer;
}.

(** [bytes.strip()] *)
Definition bytes_strip (s : string) : string := strip_if (fun c => in_range 9 13 c || (code c =? 32)) s.

Definition get_config (a : option HttpAnswer) : res client_exn (option json) :=
  match a with
  | None => Err CaddyUnavailable
  | Some r =>
      if negb (http_status r =? 200) then Err CaddyUnavailable
      else if String.eqb (http_content r) "" || String.eqb (bytes_strip (http_content r)) "null" then Ok None
      else match http_json r with Some j => Ok (Some j) | None => Err Crashed end
  end.

(** [load_config] and [set_apps] read their answers alike. *)
Definition posted (a : option HttpAnswer) : res client_exn unit :=
  match a with
  | None => Err CaddyUnavailable
  | Some r => if 400 <=? http_status r then Err (CaddyRejectedConfig (http_status r)) else Ok tt
  end.

(** [text_string_to_metric_families] of the Prometheus client: the samples; [None]: it raises. *)
Definition Families : Type := string -> option (list Sample).

Definition traffic (families : Families) (a : option HttpAnswer) : res client_exn (option Totals) :=
  match a with
  | None => Err CaddyUnavailable
  | Some r =>
      if http_status r =? 404 then Ok None
      else if negb (http_status r =? 200) then Err CaddyUnavailable
      else match families (http_content r) with
           | Some samples => Ok (Some (parse_totals samples))
           | None => Err Crashed
           end
  end.

(** ** What is counted in a configuration *)

(** [j.get(k, {})] and [j.get(k, [])]; [None]: [j] has no [get], or no list to iterate. *)
Definition at_key (k : string) (j : json) : option json := d ← as_obj j; Some (default (JObj []) (dget k d)).
Definition list_at (k : string) (j : json) : option (list json) :=
  d ← as_obj j; match dget k d with Some v => as_arr v | None => Some [] end.

Definition is_app_route (route : json) : option bool :=
  d ← as_obj route;
  Some (match dget "@id" d with Some (JStr id) => startswith "app-" id | _ => false end).
Definition app_route_count (apps : json) : option Z :=
  http ← at_key "http" apps; servers ← at_key "servers" http; server ← at_key SERVER_NAME servers;
  routes ← list_at "routes" server; flags ← mapM is_app_route routes;
  Some (Z.of_nat (List.length (List.filter id flags))).

Definition hosts_of_match (m : json) : option (list string) := hosts ← list_at "host" m; mapM as_str hosts.
Definition hosts_of_route (route : json) : option (list string) :=
  matches ← list_at "match" route; hosts ← mapM hosts_of_match matches; Some (List.concat hosts).
Definition hosts_of_server (server : json) : option (list string) :=
  routes ← list_at "routes" server; hosts ← mapM hosts_of_route routes; Some (List.concat hosts).
Definition hostnames_in (config : json) : option (list string) :=
  if negb (truthy config) then Some [] else
  apps ← at_key "apps" config; http ← at_key "http" apps; servers ← at_key "servers" http;
  servers ← as_obj servers; hosts ← mapM (fun kv => hosts_of_server kv.2) servers;
  Some (remove_dups (List.concat hosts)).

(** ** One run *)

Record ReconcileResult := {
  rr_at : Z;
  rr_changed : bool;
  rr_digest : string;
  rr_hostnames : Z;
  rr_routes : Z;
  rr_error : option string;
}.
Definition rr_ok (r : ReconcileResult) : bool := bool_decide (rr_error r = None).

Section Reconciler.
Context `{External, AdminApi}.
Context (families : Families) (settings : EdgeSettings) (holder : string).

(** [_apply] *)
Definition apply_config (desired : json) (now : Z) (w : World) : res client_exn ReconcileResult * World :=
  let digest := config_digest (Some desired) in
  match hostnames_in (JObj [("apps", desired)]), app_route_count desired with
  | Some hosts, Some routes =>
      let result changed error :=
        Ok {| rr_at := now; rr_changed := changed; rr_digest := digest;
              rr_hostnames := Z.of_nat (List.length hosts); rr_routes := routes; rr_error := error |} in
      let written '(a, w') :=
        match posted a with
        | Ok _ => (result true None, w')
        | Err (CaddyRejectedConfig _) => (result false (Some "config_rejected"), w')
        | Err CaddyUnavailable => (result false (Some "caddy_unavailable"), w')
        | Err Crashed => (Err Crashed, w')
        end in
      match get_config (get_answer w) with
      | Err CaddyUnavailable => (result false (Some "caddy_unavailable"), w)
      | Err e => (Err e, w)
      | Ok None => written (load_answer (JObj [("apps", desired)]) w)
      | Ok (Some (JObj current)) =>
          if match dget "apps" current with Some apps => json_eqb apps desired | None => false end
          then (result false None, w)
          else written (apps_answer desired w)
      | Ok (Some _) => (Err Crashed, w)      (* [current.get]: AttributeError *)
      end
  | _, _ => (Err Crashed, w)
  end.

(** [_traffic_step]: a savepoint whose failure is only logged. *)
Definition traffic_step {A} (step : M A) : M unit :=
  catch (_ ← savepoint step; mret tt) (fun _ => mret tt).

(** [_read_traffic] *)
Definition read_traffic (now : Z) (w : World) : M unit :=
  match traffic families (metrics_answer w) with
  | Ok (Some totals) => traffic_step (record_totals totals (Some now))
  | _ => mret tt
  end.

(** [_run]: the outcome, the database it commits and the world; [opened]: whether the
    session factory returned. *)
Definition run_reconcile (opened : bool) (s : Db) (w : World) : res client_exn ReconcileResult * Db * World :=
  let now := db_clock s in
  let unavailable := Ok {| rr_at := now; rr_changed := false; rr_digest := "none"; rr_hostnames := 0;
                           rr_routes := 0; rr_error := Some "database_unavailable" |} in
  if negb opened then (unavailable, s, w) else
  let locked := (acquire_reconcile_lock holder s).2 in
  match build_apps locked settings with
  | None => (unavailable, s, w)
  | Some desired =>
      let counted := (read_traffic now w locked).2 in
      let '(r, w') := apply_config desired now w in
      match r with
      | Ok result => (r, if rr_changed result then (traffic_step reset_baselines counted).2 else counted, w')
      | Err _ => (r, counted, w')
      end
  end.
End Reconciler.

(** ** What the admin API documents *)

(** A configuration whose text is valid Unicode and that is accepted runs; one that is refused leaves the old one.
    [apps] replaces the subtree of a running configuration. *)
Class AdminLaws `{AdminApi} := {
  running : World -> option json;
  running_shown w a : get_answer w = Some a -> http_status a = 200 -> get_config (Some a) = Ok (running w);
  apps_accepted apps w a w' :
    printable apps -> apps_answer apps w = (Some a, w') -> http_status a < 400 ->
    exists c, running w' = Some (JObj c) /\ dget "apps" c = Some apps;
  apps_refused apps w a w' :
    apps_answer apps w = (Some a, w') -> 400 <= http_status a -> running w' = running w;
  load_accepted apps w a w' :
    printable apps -> load_answer (JObj [("apps", apps)]) w = (Some a, w') -> http_status a < 400 ->
    exists c, running w' = Some (JObj c) /\ dget "apps" c = Some apps;
  load_refused apps w a w' :
    load_answer (JObj [("apps", apps)]) w = (Some a, w') -> 400 <= http_status a -> running w' = running w;
}.

(** Caddy runs the application configuration [apps]. *)
Definition runs `{AdminLaws} (apps : json) (w : World) : Prop :=
  exists c current, running w = Some (JObj c) /\ dget "apps" c = Some current /\ json_eqb current apps = true.

(** ** Properties *)

Lemma printable_jwf j : printable j -> jwf j.
Proof.
  induction j as [| | | |l IH|d IH] using json_rect'; try done.
  - rewrite printable_arr. intros Hl. induction IH as [|x l Hx IHl IH]; [done|].
    apply Forall_cons in Hl as [Hpx Hl]. split; [auto|exact (IH Hl)].
  - rewrite printable_obj. intros [Hn Hd]. split; [done|]. clear Hn.
    induction IH as [|[k v] d Hx IHl IH]; [done|]. apply Forall_cons in Hd as [[_ Hpx] Hd]. split; [auto|exact (IH Hd)].
Qed.

Section Properties.
Context `{External, AdminLaws}.
Context (families : Families) (settings : EdgeSettings) (holder : string).

Lemma get_config_ok a c : get_config a = Ok c -> exists r, a = Some r /\ http_status r = 200.
Proof.
  destruct a as [r|]; [|done]. unfold get_config. destruct (Z.eqb_spec (http_status r) 200); [|done]. eauto.
Qed.
Lemma get_config_running w c : get_config (get_answer w) = Ok c -> c = running w.
Proof.
  intros Hc. destruct (get_config_ok _ _ Hc) as (r & Hr & Hs). pose proof (running_shown w r Hr Hs) as Hshown.
  rewrite Hr in Hc. congruence.
Qed.
Lemma posted_ok a : posted a = Ok tt <-> exists r, a = Some r /\ http_status r < 400.
Proof.
  destruct a as [r|]; [|split; [done|by intros (? & ? & _)]]. unfold posted.
  destruct (Z.leb_spec 400 (http_status r)); split; try done; intros; try naive_solver lia.
Qed.
Lemma posted_rejected a n : posted a = Err (CaddyRejectedConfig n) -> exists r, a = Some r /\ 400 <= http_status r.
Proof.
  destruct a as [r|]; [|done]. unfold posted. destruct (Z.leb_spec 400 (http_status r)); [eauto|done].
Qed.

(** What each result of [_apply] says about Caddy. *)
Lemma apply_config_result desired now w r w' :
  printable desired -> apply_config desired now w = (Ok r, w') ->
  rr_at r = now /\
  (rr_error r = None -> runs desired w') /\
  (rr_error r = None -> rr_changed r = false -> w' = w) /\
  (rr_error r <> None -> rr_changed r = false) /\
  (rr_error r = Some "config_rejected" -> running w' = running w).
Proof.
  intros Hpr. unfold apply_config. destruct (hostnames_in _) as [hosts|]; [|done].
  destruct (app_route_count desired) as [routes|]; [|done]. cbv zeta.
  destruct (get_config (get_answer w)) as [[[| | | | |current]|]|[]] eqn:Eg; try done; cbn [http_json].
  - destruct (match dget "apps" current with Some _ => _ | None => _ end) eqn:Em.
    + intros [= <- <-]. cbn. repeat split; try done. intros _. apply get_config_running in Eg.
      destruct (dget "apps" current) as [apps|] eqn:Ea; [|done]. exists current, apps. by rewrite <- Eg.
    + destruct (apps_answer desired w) as [a w1] eqn:Ew. destruct (posted a) as [[]|[|n|]] eqn:Ep; intros [= <- <-]; cbn;
        repeat split; try done; intros _.
      * apply posted_ok in Ep as (x & -> & Hx). destruct (apps_accepted _ _ _ _ Hpr Ew Hx) as (c & Hc & Hd).
        exists c, desired. split; [done|split; [done|by apply json_eqb_refl, printable_jwf]].
      * apply posted_rejected in Ep as (x & -> & Hx). by eapply apps_refused.
  - destruct (load_answer _ w) as [a w1] eqn:Ew. destruct (posted a) as [[]|[|n|]] eqn:Ep; intros [= <- <-]; cbn;
      repeat split; try done; intros _.
    + apply posted_ok in Ep as (x & -> & Hx). destruct (load_accepted _ _ _ _ Hpr Ew Hx) as (c & Hc & Hd).
      exists c, desired. split; [done|split; [done|by apply json_eqb_refl, printable_jwf]].
    + apply posted_rejected in Ep as (x & -> & Hx). by eapply load_refused.
  - intros [= <- <-]. cbn. repeat split; try done.
Qed.
End Properties.
