(* ===== verification/Portal.v ===== *)
(** * The portal (app/portal/views.py)

    The operator's pages and forms.  Every page needs an allowed address and the session
    a sign-in gave; every form also needs that session's CSRF token; each form runs one
    service action in a transaction and shows its error or goes on.  What the templates
    render is left out, but for the secrets shown once.  Theorems: nothing changes the
    database without a session and its token; no password is compared for a client that
    failed five times in fifteen minutes; a failed action leaves the database as it was,
    but for a failed verification, which is recorded. *)

From Stdlib Require Import Ascii String ZArith Lia.
From stdpp Require Import base gmap strings list sorting.
From S2P Require Import Prelude PyStr Base64 Utf8 Json JsonText Errors External Models Uuid Url Signing Throttle PortalAuth.
From S2P Require Import EdgeSettings Egress DnsSetup Discovery Schemas Webhooks Domains DomainFacts.
From S2P Require Import ConnectFlow AssertionKeys Applications Deps Api Traffic Operator Hostname Legacy Doctor Presenters.
From S2P Require Import Limits Dns EdgeConfig Reconcile.
Open Scope string_scope.
Open Scope Z_scope.

Definition MAX_KEY_DAYS : Z := 3650.
Definition MAX_GRACE_HOURS : Z := 24 * 30.
Definition TABS : list string := ["overview"; "domains"; "origins"; "credentials"; "webhooks"; "traffic"; "settings"].

(** What the portal reads of a request. *)
Record PortalRequest := {
  pr_request : Deps.Request;
  pr_scheme : string;
  pr_forwarded_proto : string;   (* [X-Forwarded-Proto] *)
  pr_path : string;
  pr_cookie : option string;
}.

Inductive PortalAnswer :=
| PortalOff                                               (* 503: no password is set *)
| AddressRefused                                          (* 403 *)
| ToLogin (next : string)
| CsrfRefused                                             (* 403 *)
| NoSuchPage                                              (* 404 *)
| LoginPage (status : Z) (next : string)
| SignedIn (location cookie : string) (secure : bool)
| SignedOut
| Redirected (location : string)
| PageShown (page : string) (status : Z) (shown : dict).

(** ** Forms *)

Inductive PortalForm :=
| FormCreateApplication (slug name cname_target : string)
| FormRename (slug name : string)
| FormTarget (slug cname_target : string) (reissue_claims : bool)
| FormRateLimit (slug per_minute per_second : string)
| FormDomainLimit (slug max_domains : string)
| FormWorkspaceProbe (slug : string) (enabled : bool)
| FormStatus (slug status : string)
| FormDeleteApplication (slug confirm : string) (delete_domains : bool)
| FormRegisterOrigin (slug host scheme : string) (port : option Z) (host_header : string)
| FormHostHeader (slug : string) (k : N) (host_header : string)
| FormVerifyOrigin (slug : string) (k : N) (activate : bool)
| FormActivateOrigin (slug : string) (k : N)
| FormRetireOrigin (slug : string) (k : N)
| FormDeleteOrigin (slug : string) (k : N)
| FormIssueKey (slug activate_in_hours : string)
| FormRevokeKey (slug key_id : string)
| FormIssueCredential (slug label expires_in_days scope : string)
| FormRevokeCredential (slug : string) (k : N)
| FormRotateCredential (slug : string) (k : N) (grace_hours : Z)
| FormDeleteCredential (slug : string) (k : N)
| FormCreateWebhook (slug url : string) (events : list string)
| FormRotateWebhook (slug : string) (k : N)
| FormRevokeWebhook (slug : string) (k : N)
| FormDeleteWebhook (slug : string) (k : N)
| FormRegisterDomain (slug hostname reference : string)
| FormReplay (slug : string) (k delivery : N)
| FormDomainAction (slug : string) (id : N) (verb : string)
| FormPurge
| FormSetSigner (url credential provider_id service_id : string)
| FormResetSigner
| FormImport (application : string) (config references : string) (port : Z)
    (hostname_as_reference grandfather allow_skipped dry_run : bool).

(** ** Pages *)

Inductive PortalView :=
| ViewDashboard
| ViewApplication (slug : string)
| ViewDomains (slug status q : string) (offset : Z)
| ViewTab (slug tab : string)
| ViewWebhook (slug : string) (k : N) (state : string)
| ViewDomain (slug : string) (id : N).

(** What an action gives its page: nothing, values shown once, or where to go. *)
Inductive FormOutcome := Done | ShowOnce (values : dict) | GoTo (path : string) | VerificationFailed.

(** [ACTION_ERRORS]; [InvalidHostname] and [InvalidLimit] are [ValueError]s. *)
Definition action_error (e : exn) : bool :=
  match e with
  | ServiceError _ _ | OriginVerificationFailed _ | InvalidHostname _ | InvalidLimit | PyValueError
  | PyOverflowError => true
  | _ => false
  end.
Definition service_error (e : exn) : bool := match e with ServiceError _ _ => true | _ => false end.

Section Portal.
Context `{External, Deployment}.
Context (urlparts : string -> UrlParts) (urlsplit : string -> option UrlSplit).

(** ** The gate *)

(** [_via_https] *)
Definition via_https (settings : option EdgeSettings) (rq : PortalRequest) : bool :=
  String.eqb (pr_scheme rq) "https"
  || match nonempty (rq_peer (pr_request rq)), settings with
     | Some peer, Some st => trusts st (Some peer) && String.eqb (lower (pr_forwarded_proto rq)) "https"
     | _, _ => false
     end.

(** [_check_address]; [None]: refused. *)
Definition portal_address (settings : option EdgeSettings) (rq : PortalRequest) : option string :=
  let address := client_address settings (pr_request rq) in
  let allowed :=
    match settings with
    | None => if is_ip_address (default "" address) then negb (ip_is_global (default "" address))
              else bool_decide (address = Some "testclient")
    | Some st => portal_allows st address || bool_decide (address = Some "testclient")
    end in
  if allowed then Some (default "unknown" (nonempty address)) else None.

(** [int(time.time())] *)
Definition unix_now (w : Server) : Z := whole_seconds (db_clock (srv_db w)).

(** [_session]: the session, or the answer instead. *)
Definition portal_session (rq : PortalRequest) : Web (PortalAnswer + dict) :=
  w ← get;
  if negb (po_enabled (srv_portal w)) then mret (inl PortalOff) else
  match portal_address (srv_edge_settings w) rq with
  | None => mret (inl AddressRefused)
  | Some _ =>
      data ← lift (read_session (srv_portal w) (pr_cookie rq) (unix_now w));
      mret (match data with None => inl (ToLogin (safe_next (Some (pr_path rq)))) | Some data => inr data end)
  end.

(** [_csrf] *)
Definition csrf_valid (session : dict) (token : string) : res exn bool :=
  if String.eqb token "" then Ok false else compare_digest token (session_csrf session).

(** ** Signing in and out *)

Definition login_form (rq : PortalRequest) (next : string) : Web PortalAnswer :=
  w ← get;
  if negb (po_enabled (srv_portal w)) then mret PortalOff else
  match portal_address (srv_edge_settings w) rq with
  | None => mret AddressRefused
  | Some _ =>
      data ← lift (read_session (srv_portal w) (pr_cookie rq) (unix_now w));
      mret (match data with
            | Some _ => Redirected (safe_next (Some next))
            | None => LoginPage 200 (safe_next (Some next))
            end)
  end.

Definition login (rq : PortalRequest) (password next : string) : Web PortalAnswer :=
  w ← get;
  if negb (po_enabled (srv_portal w)) then mret PortalOff else
  match portal_address (srv_edge_settings w) rq with
  | None => mret AddressRefused
  | Some client =>
      let now := db_clock (srv_db w) in
      let '(allowed, l) := login_allowed (srv_logins w) client now in
      _ ← modify (fun w => w <| srv_logins := l |>);
      if negb allowed then mret (LoginPage 429 (safe_next (Some next))) else
      if negb (check_password (srv_portal w) password) then
        _ ← modify (fun w => w <| srv_logins := login_failed l client now |>);
        mret (LoginPage 401 (safe_next (Some next)))
      else
        _ ← modify (fun w => w <| srv_logins := login_reset l client |>);
        draw ← on_db fresh;
        let value := (issue_session (srv_portal w) (token_urlsafe draw 32) (unix_now w)).1 in
        mret (SignedIn (safe_next (Some next)) value (via_https (srv_edge_settings w) rq))
  end.

(** [logout] *)
Definition logout (rq : PortalRequest) (token : string) : Web PortalAnswer :=
  session ← portal_session rq;
  match session with
  | inl answer => mret answer
  | inr data => valid ← lift (csrf_valid data token); mret (if (valid : bool) then SignedOut else CsrfRefused)
  end.

(** ** Pages *)

Definition app_path (slug suffix : string) : string := "/portal/applications/" ++ slug ++ suffix.
(** The template a tab renders. *)
Definition tab_page (tab : string) : string := "app_" ++ tab ++ ".html".
Definition refused_page (page : string) : PortalAnswer := PageShown page 400 [].

(** [try: m except ServiceError]; [catch_action]: [except ACTION_ERRORS]. *)
Definition catch_service {A} (m : M A) : M (option A) :=
  catch (a ← m; mret (Some a)) (fun e => if service_error e then mret None else raise e).
Definition catch_action {A} (m : M A) : M (option A) :=
  catch (a ← m; mret (Some a)) (fun e => if action_error e then mret None else raise e).

(** [_load_application]; [None]: 404. *)
Definition load_application (slug : string) (include_deleted : bool) : M (option (N * Application)) :=
  catch_service (get_application_by_slug slug include_deleted).

Definition webhook_page (a k : N) (status : Z) : M PortalAnswer :=
  row ← catch_service (get_subscription a k);
  mret (match row with Some _ => PageShown "webhook.html" status [] | None => NoSuchPage end).
Definition domain_page (a id : N) (status : Z) : M PortalAnswer :=
  row ← catch_service (get_domain a id true);
  mret (match row with Some _ => PageShown "domain.html" status [] | None => NoSuchPage end).

(** ** Actions *)

Definition act {A} (m : M A) : M FormOutcome := _ ← m; mret Done.

(** An empty field, or a whole number. *)
Definition form_number (text : string) : res exn (option Z) :=
  let text := strip text in
  if String.eqb text "" then Ok None
  else if negb (isdigit text) then Err invalid_application
  else match py_int text with Some n => Ok (Some n) | None => Err PyValueError end.

Definition wanted_status (status : string) : option ApplicationStatus :=
  if String.eqb status "active" then Some ACTIVE else if String.eqb status "suspended" then Some SUSPENDED_APP else None.

Definition retarget (a : N) (cname_target : string) (reissue_claims : bool) : M unit :=
  _ ← set_cname_target a cname_target;
  if reissue_claims then _ ← reissue_claims_for_target a None; mret tt else mret tt.

Definition save_rate_limit (a : N) (per_minute per_second : string) : M unit :=
  m ← lift (form_number per_minute); n ← lift (form_number per_second); set_rate_limits a m n.
Definition save_domain_limit (a : N) (max_domains : string) : M unit :=
  n ← lift (form_number max_domains); set_domain_limit a n.
Definition save_status (a : N) (status : string) : M unit :=
  wanted ← need (wanted_status status) PyValueError; set_application_status a wanted.

(** An action on an origin of the application. *)
Definition on_origin (a k : N) (f : N -> M unit) : M unit := x ← get_origin a (Some k) None; f x.1.
Definition verify_action (wire : Wire) (a k : N) (activate : bool) : M FormOutcome :=
  x ← get_origin a (Some k) None;
  failed ← verify_and_activate x.1 (fetched wire x.2) activate;
  mret (match failed with Some _ => VerificationFailed | None => Done end).

Definition activation (text : string) : option Z :=
  if String.eqb text "0" then Some 0 else if String.eqb text "24" then Some 24 else None.
(** The key's row is shown by its id. *)
Definition key_action (a : N) (activate_in_hours : string) : M FormOutcome :=
  h ← need (activation (strip activate_in_hours)) PyValueError;
  issued ← issue_key a (hours h) None;
  mret (ShowOnce [("assertion_secret", JStr issued.2); ("assertion_key", JStr (uuid_str issued.1))]).

Definition expiry_days (text : string) : res exn (option Z) :=
  if String.eqb (strip text) "" then Ok None else
  match py_int text with
  | Some n => if in_bounds 1 MAX_KEY_DAYS n then Ok (Some n) else Err PyValueError
  | None => Err PyValueError
  end.
Definition credential_shown (issued : N * string) (extra : dict) : M FormOutcome :=
  c ← gets (fun s => db_credentials s !! issued.1); c ← need c PyRuntimeError;
  mret (ShowOnce ([("credential_secret", JStr issued.2); ("credential_label", JStr (cred_label c));
                   ("credential_scope", JStr (scope_value (cred_scope c)))] ++ extra)%list).
Definition credential_action (a : N) (label expires_in_days scope : string) : M FormOutcome :=
  n ← lift (expiry_days expires_in_days);
  now ← gets db_clock;
  issued ← issue_credential a label ((fun n => now + days n) <$> n) scope;
  credential_shown issued [].
Definition rotate_action (a k : N) (grace_hours : Z) : M FormOutcome :=
  _ ← guard_ (in_bounds 0 MAX_GRACE_HOURS grace_hours) PyValueError;
  issued ← rotate_credential a k None (hours grace_hours) None;
  credential_shown issued [("rotated_from", JStr (uuid_str k))].

Definition webhook_shown (k : N) (secret : string) (extra : dict) : M FormOutcome :=
  r ← gets (fun s => db_subscriptions s !! k); r ← need r PyRuntimeError;
  mret (ShowOnce ([("webhook_secret", JStr secret); ("webhook_url", JStr (sub_url r))] ++ extra)%list).
Definition webhook_action (a : N) (url : string) (events : list string) : M FormOutcome :=
  '(k, secret) ← create_subscription urlparts a url events allow_private; webhook_shown k secret [].
Definition webhook_rotation (a k : N) : M FormOutcome :=
  secret ← rotate_secret a k ROTATION_GRACE None; webhook_shown k secret [("webhook_rotated", JBool true)].

(** A form that [_action] serves: its application, the tab it returns to, the notice of
    its success and the action. *)
Record Action := { ac_app : string; ac_tab : string; ac_ok : string; ac_run : N -> M FormOutcome }.
Definition on (tab slug ok : string) (run : N -> M FormOutcome) : option Action :=
  Some {| ac_app := slug; ac_tab := tab; ac_ok := ok; ac_run := run |}.

Definition settings_action (f : PortalForm) : option Action :=
  match f with
  | FormRename slug name => on "settings" slug "renamed" (fun a => act (rename_application a name))
  | FormTarget slug target reissue =>
      on "settings" slug (if reissue then "cname_target_reissued" else "cname_target") (fun a => act (retarget a target reissue))
  | FormRateLimit slug m n => on "settings" slug "rate_limit" (fun a => act (save_rate_limit a m n))
  | FormDomainLimit slug n => on "settings" slug "domain_limit" (fun a => act (save_domain_limit a n))
  | FormWorkspaceProbe slug b => on "settings" slug "probe" (fun a => act (set_workspace_probe a b))
  | FormStatus slug status =>
      on "settings" slug (if String.eqb status "suspended" then "suspended" else "activated") (fun a => act (save_status a status))
  | FormDeleteApplication slug confirm dd =>
      on "settings" slug "application_deleted"
        (fun a => _ ← delete_application a confirm dd None; mret (GoTo "/portal/applications"))
  | _ => None
  end.
Definition origin_action (wire : Wire) (f : PortalForm) : option Action :=
  match f with
  | FormRegisterOrigin slug host scheme port hh =>
      on "origins" slug "origin_registered" (fun a => act (register_origin a host scheme port hh))
  | FormHostHeader slug k hh =>
      on "origins" slug "origin_host_header" (fun a => act (on_origin a k (fun o => set_origin_host_header o hh)))
  | FormVerifyOrigin slug k activate =>
      on "origins" slug (if activate then "origin_verified" else "origin_verified_only") (fun a => verify_action wire a k activate)
  | FormActivateOrigin slug k => on "origins" slug "origin_activated" (fun a => act (on_origin a k activate_origin))
  | FormRetireOrigin slug k => on "origins" slug "origin_retired" (fun a => act (on_origin a k retire_origin))
  | FormDeleteOrigin slug k => on "origins" slug "origin_deleted" (fun a => act (on_origin a k delete_origin))
  | _ => None
  end.
Definition secret_action (f : PortalForm) : option Action :=
  match f with
  | FormIssueKey slug h => on "origins" slug "" (fun a => key_action a h)
  | FormRevokeKey slug id => on "origins" slug "assertion_key_revoked" (fun a => act (revoke_key a id None))
  | FormIssueCredential slug label expires scope => on "credentials" slug "" (fun a => credential_action a label expires scope)
  | FormRevokeCredential slug k => on "credentials" slug "credential_revoked" (fun a => act (revoke_credential a k None))
  | FormRotateCredential slug k h => on "credentials" slug "" (fun a => rotate_action a k h)
  | FormDeleteCredential slug k => on "credentials" slug "credential_deleted" (fun a => act (delete_credential a k None))
  | _ => None
  end.
Definition delivery_action (f : PortalForm) : option Action :=
  match f with
  | FormCreateWebhook slug url events => on "webhooks" slug "" (fun a => webhook_action a url events)
  | FormRotateWebhook slug k => on "webhooks" slug "" (fun a => webhook_rotation a k)
  | FormRevokeWebhook slug k => on "webhooks" slug "webhook_revoked" (fun a => act (revoke_subscription a k None))
  | FormDeleteWebhook slug k => on "webhooks" slug "webhook_deleted" (fun a => act (delete_subscription a k))
  | _ => None
  end.
Definition registration_action (f : PortalForm) : option Action :=
  match f with
  | FormRegisterDomain slug hostname reference =>
      on "domains" slug "domain_registered"
        (fun a => id ← claim_domain a hostname reference None None; mret (GoTo (app_path slug ("/domains/" ++ uuid_str id))))
  | _ => None
  end.
Definition or_action {A} (x y : option A) : option A := match x with Some a => Some a | None => y end.
Definition form_action (wire : Wire) (f : PortalForm) : option Action :=
  or_action (settings_action f) (or_action (origin_action wire f)
    (or_action (secret_action f) (or_action (delivery_action f) (registration_action f)))).

(** [_action] *)
Definition run_action (c : Action) : M PortalAnswer :=
  found ← load_application (ac_app c) false;
  match found with
  | None => mret NoSuchPage
  | Some x =>
      outcome ← catch_action (transaction (ac_run c x.1));
      mret (match outcome with
            | None | Some VerificationFailed => refused_page (tab_page (ac_tab c))
            | Some (ShowOnce values) => PageShown (tab_page (ac_tab c)) 200 values
            | Some (GoTo path) => Redirected (path ++ "?ok=" ++ ac_ok c)
            | Some Done =>
                let suffix := if String.eqb (ac_tab c) "overview" then "" else "/" ++ ac_tab c in
                Redirected (app_path (ac_app c) (suffix ++ "?ok=" ++ ac_ok c))
            end)
  end.

(** ** The other forms *)

Definition create_application_form (slug name cname_target : string) : M PortalAnswer :=
  created ← catch_service (transaction (create_application (strip slug) name cname_target));
  match created with
  | None => mret (refused_page "application_new.html")
  | Some a => r ← the_application a; mret (Redirected (app_path (app_slug r) "?ok=application_created"))
  end.

Definition replay_form (slug : string) (k delivery : N) : M PortalAnswer :=
  found ← load_application slug false;
  match found with
  | None => mret NoSuchPage
  | Some x =>
      replayed ← catch_service (transaction (replay_delivery x.1 k delivery None));
      match replayed with
      | None => webhook_page x.1 k 400
      | Some _ => mret (Redirected (app_path slug ("/webhooks/" ++ uuid_str k ++ "?ok=replayed")))
      end
  end.

Definition VERBS : list string := ["recheck"; "reissue"; "delete"].
Definition domain_verb (verb : string) (a id : N) : M unit :=
  if String.eqb verb "recheck" then request_recheck a id "api" None
  else if String.eqb verb "reissue" then _ ← reissue_claim a id None; mret tt
  else delete_domain a id None.
Definition domain_form (slug : string) (id : N) (verb : string) : M PortalAnswer :=
  found ← load_application slug false;
  match found with
  | None => mret NoSuchPage
  | Some x =>
      acted ← catch_action (transaction (domain_verb verb x.1 id));
      match acted with
      | None => domain_page x.1 id 400
      | Some _ =>
          mret (Redirected (if String.eqb verb "delete" then app_path slug "/domains?ok=domain_delete"
                            else app_path slug ("/domains/" ++ uuid_str id ++ "?ok=domain_" ++ verb)))
      end
  end.

Definition purge_form : M PortalAnswer := _ ← transaction (purge_tombstones None); mret (Redirected "/portal?ok=purged").

Definition signer_form (url credential provider_id service_id : string) : M PortalAnswer :=
  saved ← catch_service (transaction
    (set_remote_signer urlsplit url (strip credential) (strip provider_id) (strip service_id) None));
  mret (match saved with None => refused_page "edge.html" | Some _ => Redirected "/portal/edge?ok=signer_set" end).
Definition signer_reset_form : M PortalAnswer := _ ← transaction reset_signer; mret (Redirected "/portal/edge?ok=signer_reset").

(** Committed only if [keep] of its result, else rolled back; the result either way. *)
Definition commit_if {A} (keep : A -> bool) (m : M A) : M A := fun s =>
  match transaction m s with
  | (Ok a, s') => (Ok a, if keep a then s' else s)
  | (Err e, s') => (Err e, s')
  end.

(** The uploaded file and the reference map. *)
Definition import_input (config references : string) (port : Z) : res exn (list LegacyDomain * dict) :=
  entries ← (match loads config with Some j => parse_legacy_config j port | None => Err PyValueError end);
  map ← (if String.eqb (strip references) "" then Ok [] else
         match loads references with Some (JObj d) => Ok d | _ => Err PyValueError end);
  Ok (entries, map).
Definition import_form (slug config references : string) (port : Z)
    (hostname_as_reference grandfather allow_skipped dry_run : bool) : M PortalAnswer :=
  match import_input config references port with
  | Err PyValueError | Err PyTypeError => mret (refused_page "legacy.html")
  | Err e => raise e
  | Ok (entries, map) =>
      if negb (truthy (JObj map)) && negb hostname_as_reference then mret (refused_page "legacy.html") else
      let opts := {| imp_references := fun k => dget k map; imp_grandfather := grandfather;
                     imp_hostname_as_reference := hostname_as_reference |} in
      let keep r := negb (dry_run || (negb (report_complete r) && negb allow_skipped)) in
      outcome ← catch_service (commit_if keep
        (x ← get_application_by_slug slug false; import_legacy_domains x.1 entries opts None));
      mret (match outcome with
            | None => refused_page "legacy.html"
            | Some r =>
                PageShown "legacy.html" 200
                  [("committed", JBool (keep r)); ("dry_run", JBool dry_run); ("application_slug", JStr slug);
                   ("blocked", JBool (negb (report_complete r) && negb allow_skipped && negb dry_run));
                   ("imported", JArr ((fun k => JStr (uuid_str k)) <$> rep_imported r));
                   ("existing", JArr ((fun k => JStr (uuid_str k)) <$> rep_existing r));
                   ("skipped", JArr ((fun x : json * string => JArr [x.1; JStr x.2]) <$> rep_skipped r))]
            end)
  end.

Definition form_handler (wire : Wire) (f : PortalForm) : M PortalAnswer :=
  match f with
  | FormCreateApplication slug name target => create_application_form slug name target
  | FormReplay slug k d => replay_form slug k d
  | FormDomainAction slug id verb => domain_form slug id verb
  | FormPurge => purge_form
  | FormSetSigner url credential provider service => signer_form url credential provider service
  | FormResetSigner => signer_reset_form
  | FormImport slug config references port h g al dry => import_form slug config references port h g al dry
  | _ => match form_action wire f with Some c => run_action c | None => mret NoSuchPage end
  end.

(** The whole request of a form. *)
Definition portal_form (wire : Wire) (rq : PortalRequest) (token : string) (f : PortalForm) : Web PortalAnswer :=
  session ← portal_session rq;
  match session with
  | inl answer => mret answer
  | inr data =>
      if match f with FormDomainAction _ _ verb => negb (mem_str verb VERBS) | _ => false end then mret NoSuchPage else
      valid ← lift (csrf_valid data token);
      if (valid : bool) then on_db (form_handler wire f) else mret CsrfRefused
  end.

(** ** Pages that only read *)

Definition domain_total (s : Db) (p : Domain -> bool) : Z :=
  Z.of_nat (List.length (filter (fun x => p x.2 = true) (map_to_list (db_domains s)))).
(** [_domain_counts] *)
Definition domain_counts (s : Db) (application : option N) : list (DomainStatus * Z) :=
  (fun st => (st, domain_total s (fun d =>
     bool_decide (dom_status d = st) && match application with Some a => (dom_application_id d =? a)%N | None => true end)))
  <$> DOMAIN_STATUSES.
(** The overview: applications that serve nothing, the domains to look at, newest change
    first, and the numbers. *)
Inductive Issue := IssueSuspended | IssueNoOrigin.
Record Dashboard := {
  da_live : Z;
  da_waiting : Z;
  da_attention : Z;
  da_domains : list (N * Domain);
  da_issues : list (N * Issue);
}.
Definition application_issue (s : Db) (x : N * Application) : option (N * Issue) :=
  if negb (bool_decide (app_status x.2 = ACTIVE)) then Some (x.1, IssueSuspended)
  else match serving_origin s x.1 with None => Some (x.1, IssueNoOrigin) | Some _ => None end.
Definition dashboard (s : Db) : Dashboard :=
  let counts := domain_counts s None in
  {| da_live := count_of READY counts;
     da_waiting := count_of PENDING_DNS counts + count_of PROVISIONING counts;
     da_attention := count_of ATTENTION_REQUIRED counts + count_of SUSPENDED counts;
     da_domains := take 8 (select_rows (fun d => - dom_updated_at d)
       (fun _ d => live d && bool_decide (dom_status d ∈ [ATTENTION_REQUIRED; SUSPENDED])) (db_domains s));
     da_issues := omap (application_issue s) (list_applications s) |}.

(** [_tab_domains]: the filtered page of an application's domains. *)
Record DomainsTab := {
  dt_domains : list (N * Domain);
  dt_has_more : bool;
  dt_offset : Z;
  dt_status : string;
}.
Definition domains_tab (s : Db) (a : N) (status q : string) (offset : Z) : DomainsTab :=
  let wanted := domain_status_of status in
  let offset := Z.max 0 offset in
  let page := page_domains s a None wanted (bool_decide (wanted = Some DELETING)) (Some q) 50 offset in
  {| dt_domains := page.1; dt_has_more := page.2; dt_offset := offset;
     dt_status := match wanted with Some _ => status | None => "" end |}.

(** [_api_url] *)
Definition api_url (settings : option EdgeSettings) : option string :=
  st ← settings;
  if negb (public_api st) then None else
  host ← nonempty (es_edge_hostname st);
  Some ((if es_disable_https st then "http" else "https") ++ "://" ++ host).

(** [human_bytes] is left to the template. *)
Inductive TabView :=
| OriginsTab (origins : list (N * VerifiedOrigin)) (keys : list (N * AssertionKey * string)) (signing : option (N * AssertionKey))
| CredentialsTab (url : option string) (credentials : list (N * ApiCredential))
| WebhooksTab (subscriptions : list (N * WebhookSubscription))
| SettingsTab (names : list string) (live_domains : Z)
| TrafficTab (days : list TrafficDay) (requests sent peak : Z).
Definition tab_view (settings : option EdgeSettings) (s : Db) (x : N * Application) (tab : string) : res exn TabView :=
  let '(a, r) := x in
  let now := db_clock s in
  if String.eqb tab "origins" then
    let signing := signing_key s a now in
    Ok (OriginsTab (list_origins s a) ((fun k => (k, key_state k signing now)) <$> list_keys s a) signing)
  else if String.eqb tab "credentials" then Ok (CredentialsTab (api_url settings) (list_credentials s a))
  else if String.eqb tab "webhooks" then Ok (WebhooksTab (list_subscriptions s a))
  else if String.eqb tab "traffic" then
    rows ← application_traffic s a 30 None;
    Ok (TrafficTab rows (total (td_requests <$> rows)) (total (td_response_bytes <$> rows))
          (foldr Z.max 0 (td_requests <$> rows)))
  else Ok (SettingsTab (edge_names s a r) (live_domain_count s a)).

(** What a page shows of the above. *)
Inductive PortalPage :=
| PageDashboard (d : Dashboard)
| PageDomains (a : N) (t : DomainsTab)
| PageOverview (a : N)
| PageTab (a : N) (t : TabView)
| PageWebhook (a k : N) (deliveries : list (N * WebhookDelivery))
| PageDomain (a id : N) (events : list DomainEvent)
| PageMissing
| PageElsewhere (location : string).

Definition to_domains (x : N * Application) : PortalPage := PageElsewhere (app_path (app_slug x.2) "/domains").
(** The handlers of the [GET] pages. *)
Definition portal_view (settings : option EdgeSettings) (v : PortalView) : M PortalPage :=
  match v with
  | ViewDashboard => gets (fun s => PageDashboard (dashboard s))
  | ViewApplication slug =>
      found ← load_application slug true;
      mret (match found with
            | None => PageMissing
            | Some x => if application_is_deleted x.2 then to_domains x else PageOverview x.1
            end)
  | ViewDomains slug status q offset =>
      found ← load_application slug true;
      match found with
      | None => mret PageMissing
      | Some x =>
          let status := if application_is_deleted x.2 && String.eqb status "" then "deleting" else status in
          gets (fun s => PageDomains x.1 (domains_tab s x.1 status (utake 253 q) offset))
      end
  | ViewTab slug tab =>
      if negb (mem_str tab TABS) || mem_str tab ["overview"; "domains"] then mret PageMissing else
      found ← load_application slug true;
      match found with
      | None => mret PageMissing
      | Some x =>
          if application_is_deleted x.2 then mret (to_domains x)
          else s ← get; view ← lift (tab_view settings s x tab); mret (PageTab x.1 view)
      end
  | ViewWebhook slug k state =>
      found ← load_application slug false;
      match found with
      | None => mret PageMissing
      | Some x =>
          row ← catch_service (get_subscription x.1 k);
          match row with
          | None => mret PageMissing
          | Some _ =>
              let state := if mem_str state ["pending"; "delivered"; "abandoned"] then Some state else None in
              rows ← list_deliveries x.1 k state 100 0; mret (PageWebhook x.1 k rows)
          end
      end
  | ViewDomain slug id =>
      found ← load_application slug true;
      match found with
      | None => mret PageMissing
      | Some x =>
          row ← catch_service (get_domain x.1 id true);
          match row with
          | None => mret PageMissing
          | Some _ => events ← list_events x.1 id 200; mret (PageDomain x.1 id (rev events))
          end
      end
  end.

Definition portal_page (rq : PortalRequest) (v : PortalView) : Web (PortalAnswer + PortalPage) :=
  session ← portal_session rq;
  match session with
  | inl answer => mret (inl answer)
  | inr _ => w ← get; page ← on_db (portal_view (srv_edge_settings w) v); mret (inr page)
  end.

(** ** Reaching the edge's names *)

Definition REACHABILITY_TTL : Z := seconds 600.
(** [portal_reachability]: what was found of a name, and when. *)
Abbreviation Remembered := (gmap string (Z * Finding)).

Section Names.
(** [_resolver] and [_prober]; a failed lookup gives its text. *)
Context (resolve : string -> res string (list string)) (probe_target : string -> string -> ProbeReply).
(** [_reachability]: probed now, or remembered. *)
Definition reachability (settings : option EdgeSettings) (cache : Remembered) (now : Z) (name : string) (fresh : bool)
    : res exn (option Finding * Remembered) :=
  match settings with
  | None => Ok (None, cache)
  | Some st =>
      if fresh then f ← check_edge_name resolve probe_target st name; Ok (Some f, <[name := (now, f)]> cache)
      else Ok (match cache !! name with
               | Some (found_at, f) => if now - found_at <? REACHABILITY_TTL then Some f else None
               | None => None
               end, cache)
  end.
(** [if view.addresses and not view.error: view.reachability = ...] *)
Definition reach_name (settings : option EdgeSettings) (now : Z) (fresh : bool) (cache : Remembered) (v : EdgeName)
    : res exn (EdgeName * Remembered) :=
  match en_addresses v, nonempty (en_error v) with
  | _ :: _, None =>
      '(f, cache) ← reachability settings cache now (en_name v) fresh;
      Ok ({| en_name := en_name v; en_roles := en_roles v; en_addresses := en_addresses v;
             en_error := en_error v; en_reachability := f |}, cache)
  | _, _ => Ok (v, cache)
  end.
Fixpoint reach_names (settings : option EdgeSettings) (now : Z) (fresh : bool) (cache : Remembered) (views : list EdgeName)
    : res exn (list EdgeName * Remembered) :=
  match views with
  | [] => Ok ([], cache)
  | v :: views =>
      '(v, cache) ← reach_name settings now fresh cache v;
      '(views, cache) ← reach_names settings now fresh cache views;
      Ok (v :: views, cache)
  end.

(** [_tab_overview]: the setup steps of an application; [now]: the process's clock. *)
Definition overview_steps (settings : option EdgeSettings) (cache : Remembered) (now : Z) (verify : bool) (s : Db)
    (x : N * Application) : res exn (list Step * Remembered) :=
  let '(a, r) := x in
  '(views, cache) ← reach_names settings now verify cache (resolve_names resolve [edge_name (app_cname_target r) []]);
  Ok (application_steps s a r (list_origins s a) (list_credentials s a) (domain_counts s (Some a)) (head views) (db_clock s),
      cache).

(** [_edge_page]: the edge's names and a summary of what it should run. *)
Record EdgePage := {
  ep_names : list EdgeName;
  ep_hosts : list string;
  ep_routes : Z;
  ep_host_count : Z;
  ep_lock : option EdgeLock;
  ep_signer : SignerView;
  ep_signer_state : State;    (* its problem's text is [signer_view]'s, left out *)
}.
(** [redact_apps_summary]; [None]: the configuration cannot be counted. *)
Definition apps_summary (apps : json) : option (Z * list string) :=
  hosts ← hostnames_in (JObj [("apps", apps)]); routes ← app_route_count apps; Some (routes, hosts).
Definition edge_page (settings : EdgeSettings) (cache : Remembered) (now : Z) (verify : bool) (s : Db)
    : res exn (EdgePage * Remembered) :=
  '(views, cache) ← reach_names (Some settings) now verify cache (resolve_names resolve (edge_name_views s (Some settings)));
  match build_apps s settings ≫= apps_summary with
  | None => Err PyValueError
  | Some (routes, hosts) =>
      signer ← signer_view s;
      Ok ({| ep_names := views; ep_hosts := merge_sort string_le hosts; ep_routes := routes; ep_host_count := Z.of_nat (List.length hosts);
             ep_lock := db_locks s !! RECONCILE_LOCK; ep_signer := signer; ep_signer_state := signer_state signer "" |}, cache)
  end.
End Names.

(** [reconcile]: a pass of the reconciler on demand; [world]: what lies outside. *)
Definition reconcile_form `{Admin : AdminApi} (families : Families) (holder : string) (opened : bool) (world : World)
    (rq : PortalRequest) (token : string) : Web (PortalAnswer * World) :=
  session ← portal_session rq;
  match session with
  | inl answer => mret (answer, world)
  | inr data =>
      valid ← lift (csrf_valid data token);
      if negb (valid : bool) then mret (CsrfRefused, world) else
      w ← get;
      settings ← need (srv_edge_settings w) PyAttributeError;
      let '(r, s, world) := run_reconcile families settings holder opened (srv_db w) world in
      _ ← modify (fun w => w <| srv_db := s |>);
      match r with
      | Err _ => raise PyRuntimeError
      | Ok result =>
          mret (match nonempty (rr_error result) with
                | Some _ => PageShown "edge.html" 502 []
                | None => Redirected ("/portal/edge?ok=" ++ (if rr_changed result then "reconcile_applied" else "reconcile_unchanged"))
                end, world)
      end
  end.
End Portal.

(** ** Properties *)

Ltac unfold_action Hf :=
  unfold form_action in Hf;
  cbn [or_action settings_action origin_action secret_action delivery_action registration_action on] in Hf.

Section Properties.
Context `{External, Deployment}.
Context (urlparts : string -> UrlParts) (urlsplit : string -> option UrlSplit).

(** The request comes from an allowed address with the cookie of an unexpired session,
    signed with the portal's secret. *)
Definition signed_in (rq : PortalRequest) (w : Server) (data : dict) : Prop :=
  po_enabled (srv_portal w) = true /\ portal_address (srv_edge_settings w) rq <> None /\
  exists cookie payload text expires,
    pr_cookie rq = Some cookie /\ cookie = payload ++ "." ++ b64 (hmac_sha256 (po_secret (srv_portal w)) payload) /\
    unb64 payload = Some text /\ loads text = Some (JObj data) /\
    int_of_json (default (JInt 0) (dget "exp" data)) = Ok expires /\ unix_now w <= expires.

Lemma portal_session_run rq w :
  (portal_session rq w).2 = w /\
  forall data, (portal_session rq w).1 = Ok (inr data) ->
    signed_in rq w data /\ exists csrf, dget "csrf" data = Some (JStr csrf).
Proof.
  unfold portal_session. rewrite bind_run. cbn [get]. destruct (po_enabled _) eqn:Ee; [|done]. cbn [negb].
  destruct (portal_address _ _) as [address|] eqn:Ea; [|done]. rewrite bind_run. unfold lift.
  destruct (pr_cookie rq) as [cookie|] eqn:Ec; [|done].
  destruct (read_session _ _ _) as [[data|]|e] eqn:Er; split; try done.
  intros d [= <-]. apply read_session_authentic in Er as (payload & text & expires & Hc & Hu & Hl & Hi & Hx & Hf).
  split; [|done]. split; [done|]. rewrite Ea. split; [done|]. by exists cookie, payload, text, expires.
Qed.

Lemma csrf_valid_ok data token :
  csrf_valid data token = Ok true -> token <> "" /\ session_csrf data = token.
Proof.
  unfold csrf_valid, compare_digest. destruct (String.eqb_spec token ""); [done|]. destruct (_ && _); [|done].
  intros [= ?%String.eqb_eq]. auto.
Qed.

(** A form passes its gate only with a session and that session's token. *)
Definition authorized (rq : PortalRequest) (token : string) (w : Server) : Prop :=
  exists data, signed_in rq w data /\ token <> "" /\ dget "csrf" data = Some (JStr token).

Lemma gate_passed rq token w data :
  (portal_session rq w).1 = Ok (inr data) -> csrf_valid data token = Ok true -> authorized rq token w.
Proof.
  intros Hd [Ht He]%csrf_valid_ok. destruct (proj2 (portal_session_run rq w) data Hd) as [Hin [csrf Hc]]. exists data.
  split_and!; [done|done|]. unfold session_csrf in He. rewrite Hc in He |- *. cbn in He. by rewrite He.
Qed.

Lemma reconcile_form_gate `{AdminApi} families holder opened world rq token w :
  authorized rq token w \/
  exists r, reconcile_form families holder opened world rq token w = (r, w) /\
    forall answer world', r = Ok (answer, world') -> world' = world /\
      forall page status shown, answer <> PageShown page status shown.
Proof.
  pose proof (proj1 (portal_session_run rq w)) as Hw. pose proof (gate_passed rq token w) as Hg.
  unfold reconcile_form. rewrite bind_run. destruct (portal_session rq w) as [[[answer|data]|e] w1] eqn:Es;
    cbn [snd fst] in *; subst w1.
  - right. eexists. split; [reflexivity|]. intros a x [= <- <-]. split; [done|]. intros page status shown ->.
    revert Es. unfold portal_session. rewrite bind_run. cbn [get]. destruct (negb _); [done|].
    destruct (portal_address _ _); [|done]. rewrite bind_run. unfold lift. by destruct (read_session _ _ _) as [[?|]|].
  - specialize (Hg data eq_refl). rewrite bind_run. unfold lift. destruct (csrf_valid data token) as [[|]|e];
      [left; by apply Hg| |]; right; eexists; (split; [reflexivity|]); by intros a x [= <- <-].
  - right. eexists. split; [reflexivity|]. done.
Qed.

(** C25: Nothing a form does reaches the database, and the reconcile form does not run a
    pass or send anything to the edge, unless the portal is enabled, the request comes
    from an allowed address, its cookie carries the portal's signature over an unexpired
    session, and the form repeats that session's CSRF token. *)
Theorem portal_form_authorized `{Admin : AdminApi} wire families holder opened world rq token f w :
  srv_db (portal_form urlparts urlsplit wire rq token f w).2 <> srv_db w \/
  (let '(r, w') := reconcile_form families holder opened world rq token w in
   srv_db w' <> srv_db w \/ exists answer world', r = Ok (answer, world') /\ world' <> world) ->
  exists data, signed_in rq w data /\ token <> "" /\ dget "csrf" data = Some (JStr token).
Proof.
  intros [Hne|Hne].
  - revert Hne. unfold portal_form. rewrite bind_run.
    pose proof (proj1 (portal_session_run rq w)) as Hw. pose proof (gate_passed rq token w) as Hg.
    destruct (portal_session rq w) as [[[answer|data]|e] w1]; cbn [snd fst] in *; subst w1; try done.
    specialize (Hg data eq_refl). destruct (match f with FormDomainAction _ _ _ => _ | _ => _ end); [done|].
    rewrite bind_run. unfold lift. destruct (csrf_valid data token) as [[|]|e]; try done. intros _. by apply Hg.
  - destruct (reconcile_form_gate families holder opened world rq token w) as [Hg|(r & Hr & Hsame)]; [exact Hg|].
    rewrite Hr in Hne. destruct Hne as [?|(a & x & -> & Hx)]; [done|]. by destruct (Hsame a x eq_refl).
Qed.

(** *** Refusals *)

Definition accepted (answer : PortalAnswer) : bool :=
  match answer with Redirected _ => true | PageShown _ status _ => status =? 200 | _ => false end.

Lemma catch_service_none {A} (m : M A) s s' : catch_service (transaction m) s = (Ok None, s') -> s' = s.
Proof.
  unfold catch_service, catch. rewrite bind_run. destruct (transaction m s) as [[a|e] t] eqn:E; [done|].
  apply transaction_err in E as ->. destruct (service_error e); [|done]. by intros [= <-].
Qed.
Lemma catch_action_none {A} (m : M A) s s' : catch_action (transaction m) s = (Ok None, s') -> s' = s.
Proof.
  unfold catch_action, catch. rewrite bind_run. destruct (transaction m s) as [[a|e] t] eqn:E; [done|].
  apply transaction_err in E as ->. destruct (action_error e); [|done]. by intros [= <-].
Qed.
Lemma catch_reads {A} (m : M A) : mono eq m -> mono eq (catch_service m).
Proof.
  intros Hm. unfold catch_service. apply mono_catch; [apply _| |intros e; by mono_auto].
  apply mono_bind; [apply _|done|]. intros a. by mono_auto.
Qed.
Lemma load_application_reads slug b : mono eq (load_application slug b).
Proof. apply catch_reads. unfold get_application_by_slug. by mono_auto. Qed.
Lemma webhook_page_reads a k st : mono eq (webhook_page a k st).
Proof.
  unfold webhook_page. apply mono_bind; [apply _| |intros x; by mono_auto]. apply catch_reads. unfold get_subscription. by mono_auto.
Qed.
Lemma domain_page_reads a id st : mono eq (domain_page a id st).
Proof.
  unfold domain_page. apply mono_bind; [apply _| |intros x; by mono_auto]. apply catch_reads. unfold get_domain. by mono_auto.
Qed.

(** Every outcome of [m] satisfies [P]. *)
Definition yields {A} (P : A -> Prop) (m : M A) : Prop := forall s a s', m s = (Ok a, s') -> P a.
Lemma yields_ret {A} (P : A -> Prop) a : P a -> yields P (mret a : M A).
Proof. by intros Ha s b s' [= <- _]. Qed.
Lemma yields_bind {A B} (P : B -> Prop) (m : M A) (k : A -> M B) : (forall a, yields P (k a)) -> yields P (m ≫= k).
Proof. intros Hk s b s' (a & t & _ & Hr)%bind_ok. by eapply Hk. Qed.

(** What a failed verification of an origin leaves: the origin's row records it. *)
Definition failure_recorded (k : N) (s s' : Db) : Prop :=
  exists why, record_origin_verification k false (Some why) None s = (Ok tt, s').

Lemma get_origin_by_id a k s y s' : get_origin a (Some k) None s = (Ok y, s') -> s' = s /\ y.1 = k.
Proof.
  unfold get_origin. rewrite bind_run. cbn [mret SM_ret]. rewrite bind_run. cbn [gets].
  destruct (select_rows _ _ _) as [|[j o] rows] eqn:Es; [done|]. cbn [head need]. intros [= <- <-]. split; [done|].
  assert ((j, o) ∈ ((j, o) :: rows)) as Hin by left. rewrite <- Es in Hin. apply elem_select_rows in Hin as [_ Hp].
  apply andb_prop in Hp as [_ Hp]. by apply N.eqb_eq in Hp.
Qed.

Lemma record_verification_total k v code s : exists s', record_origin_verification k v code None s = (Ok tt, s').
Proof. unfold record_origin_verification. rewrite bind_run. eexists. reflexivity. Qed.

Lemma verify_origin_failed k answer s code s' :
  verify_origin k answer None s = (Err (OriginVerificationFailed code), s') -> failure_recorded k s s'.
Proof.
  unfold verify_origin, the_origin. rewrite !bind_run. cbn [gets]. destruct (db_origins s !! k) as [o|]; [|done].
  cbn [need mret SM_ret]. cbv zeta.
  match goal with |- context [match ?o with Some why => _ | None => _ end] => destruct o as [why|] end.
  - destruct (record_verification_total k false (Some why) s) as [t Ht]. rewrite bind_run, Ht. intros [= _ <-]. by exists why.
  - destruct (record_verification_total k true None s) as [t Ht]. by rewrite Ht.
Qed.

Lemma verify_action_failed wire a k activate s s' :
  verify_action wire a k activate s = (Ok VerificationFailed, s') -> failure_recorded k s s'.
Proof.
  unfold verify_action. intros ([j o] & s1 & [-> Hj]%get_origin_by_id & Hr)%bind_ok. cbn [fst snd] in *. subst j.
  apply bind_ok in Hr as (failed & s1 & Hv & Hr). injection Hr as Hf <-. destruct failed as [code|]; [|done]. clear Hf.
  unfold verify_and_activate in Hv. apply bind_ok in Hv as (failed & s2 & Hv & Hr).
  destruct failed as [c|]; [|by apply bind_ok in Hr as (? & ? & _ & ?)]. injection Hr as -> <-.
  unfold catch in Hv. rewrite bind_run in Hv. destruct (verify_origin k _ None s) as [[u|e] v] eqn:E; [done|].
  destruct e; try done. injection Hv as -> ->. by eapply verify_origin_failed.
Qed.

(** Only verifying an origin reports a failed verification, which is then recorded. *)
Lemma action_verifies wire f c a :
  form_action urlparts wire f = Some c -> (forall slug k activate, f <> FormVerifyOrigin slug k activate) ->
  yields (fun o => o <> VerificationFailed) (ac_run c a).
Proof.
  intros Hf Hn. destruct f; unfold_action Hf; try done; injection Hf as <-; cbn [ac_run].
  all: try by edestruct Hn.
  all: unfold act, key_action, credential_action, rotate_action, webhook_action, webhook_rotation, credential_shown, webhook_shown.
  all: repeat first [apply yields_ret; done | apply yields_bind; intros].
  destruct a0. repeat first [apply yields_ret; done | apply yields_bind; intros].
Qed.

Lemma load_application_same slug b s r s' : load_application slug b s = (r, s') -> s' = s.
Proof. intros Hl. pose proof (load_application_reads slug b s) as Hr. by rewrite Hl in Hr. Qed.

(** A refused action was rolled back, or it reported a failed verification. *)
Lemma run_action_refused c s answer s' :
  run_action c s = (Ok answer, s') -> accepted answer = false ->
  s' = s \/ exists a, ac_run c a s = (Ok VerificationFailed, s').
Proof.
  intros (found & t & Hl%load_application_same & Hr)%bind_ok Ha. subst t. destruct found as [x|]; [|left; by injection Hr].
  apply bind_ok in Hr as (outcome & t & Hc & Hr). injection Hr as <- <-. destruct outcome as [o|].
  - right. exists x.1. destruct o; try done. unfold catch_action, catch in Hc. rewrite bind_run in Hc.
    destruct (transaction _ s) as [[o|e] u] eqn:E; cbn in Hc.
    + injection Hc as -> <-. by rewrite transaction_ok in E.
    + by destruct (action_error e).
  - left. by apply catch_action_none in Hc.
Qed.

Lemma commit_if_kept {A} keep (m : M A) s a s' :
  commit_if keep m s = (Ok a, s') -> keep a = false -> s' = s.
Proof. unfold commit_if. destruct (transaction m s) as [[b|e] t]; [|done]. intros [= -> <-] ->. done. Qed.
Lemma commit_if_err {A} keep (m : M A) s e s' : commit_if keep m s = (Err e, s') -> s' = s.
Proof.
  unfold commit_if. destruct (transaction m s) as [[b|x] t] eqn:E; [done|]. apply transaction_err in E as ->. by intros [= _ <-].
Qed.
Lemma catch_service_ok {A} (m : M A) s a s' : catch_service m s = (Ok (Some a), s') -> m s = (Ok a, s').
Proof.
  unfold catch_service, catch. rewrite bind_run. destruct (m s) as [[b|e] t]; [by intros [= -> ->]|]. by destruct (service_error e).
Qed.

Lemma import_form_refused slug config references port h g al dry s answer s' :
  import_form slug config references port h g al dry s = (Ok answer, s') -> accepted answer = false \/ dry = true -> s' = s.
Proof.
  unfold import_form. destruct (import_input _ _ _) as [[entries map]|e]; [|destruct e; try done; by intros [= _ <-]].
  destruct (_ && _); [by intros [= _ <-]|]. intros ([r|] & t & Hc & Hr)%bind_ok; injection Hr as <- <-.
  - intros [Ha| ->]; [done|]. apply catch_service_ok in Hc. by eapply commit_if_kept.
  - intros _. revert Hc. unfold catch_service, catch. rewrite bind_run. destruct (commit_if _ _ s) as [[b|e] u] eqn:E; [done|].
    apply commit_if_err in E as ->. destruct (service_error e); [|done]. by intros [= <-].
Qed.

(** What a refused form leaves: everything as it was, but for the origin whose failed
    verification is recorded. *)
Definition refusal_leaves (f : PortalForm) (s s' : Db) : Prop :=
  s' = s \/ exists slug k activate, f = FormVerifyOrigin slug k activate /\ failure_recorded k s s'.

Lemma form_handler_refused wire f s answer s' :
  form_handler urlparts urlsplit wire f s = (Ok answer, s') -> accepted answer = false -> refusal_leaves f s s'.
Proof.
  intros Hr Ha. destruct (form_action urlparts wire f) as [c|] eqn:Ef.
  { assert (form_handler urlparts urlsplit wire f = run_action c) as He by (destruct f; try done; cbn [form_handler]; by rewrite Ef).
    rewrite He in Hr. apply run_action_refused in Hr as [->|[a Hv]]; [by left| |done].
    destruct (match f with FormVerifyOrigin _ _ _ => true | _ => false end) eqn:Efv.
    - right. destruct f; try done. unfold_action Ef. injection Ef as <-. cbn [ac_run] in Hv.
      exists slug, k, activate. split; [done|]. by eapply verify_action_failed.
    - exfalso. refine (action_verifies wire f c a Ef _ s _ s' Hv eq_refl). by intros slug k activate ->. }
  left. destruct f; try done; cbn [form_handler] in Hr.
  - apply bind_ok in Hr as (created & t & Hc & Hr). destruct created as [a|].
    + apply bind_ok in Hr as (r & u & _ & Hr). by injection Hr as <- <-.
    + injection Hr as <- <-. by apply catch_service_none in Hc.
  - apply bind_ok in Hr as (found & t & Hl%load_application_same & Hr). subst t. destruct found as [x|]; [|by injection Hr].
    apply bind_ok in Hr as (replayed & t & Hc & Hr). destruct replayed; [by injection Hr as <- <-|].
    apply catch_service_none in Hc as ->. pose proof (webhook_page_reads x.1 k 400 s) as Hw. by rewrite Hr in Hw.
  - apply bind_ok in Hr as (found & t & Hl%load_application_same & Hr). subst t. destruct found as [x|]; [|by injection Hr].
    apply bind_ok in Hr as (acted & t & Hc & Hr). destruct acted; [by injection Hr as <- <-|].
    apply catch_action_none in Hc as ->. pose proof (domain_page_reads x.1 id 400 s) as Hw. by rewrite Hr in Hw.
  - apply bind_ok in Hr as (n & t & _ & Hr). by injection Hr as <- <-.
  - apply bind_ok in Hr as (saved & t & Hc & Hr). injection Hr as <- <-. destruct saved; [done|]. by apply catch_service_none in Hc.
  - apply bind_ok in Hr as (b & t & _ & Hr). by injection Hr as <- <-.
  - eapply import_form_refused; eauto.
Qed.

Lemma portal_form_refused wire rq token f w answer w' :
  portal_form urlparts urlsplit wire rq token f w = (Ok answer, w') ->
  srv_db w' = srv_db w \/ form_handler urlparts urlsplit wire f (srv_db w) = (Ok answer, srv_db w').
Proof.
  unfold portal_form. intros (session & w1 & Hs & Hr)%bind_ok.
  pose proof (portal_session_run rq w) as [Hw _]. rewrite Hs in Hw. cbn in Hw. subst w1.
  destruct session as [a|data]; [left; by injection Hr as <- <-|].
  destruct (match f with FormDomainAction _ _ _ => _ | _ => _ end); [left; by injection Hr as <- <-|].
  apply bind_ok in Hr as (valid & w1 & Hc & Hr). injection Hc as _ <-. destruct valid; [|left; by injection Hr as <- <-].
  right. unfold on_db in Hr. destruct (form_handler _ _ _ _ _) as [r s'] eqn:Eh. by injection Hr as -> <-.
Qed.

(** C26: A form that is not accepted - a redirect to sign in, an expired page, a missing
    resource, a page with an error - changed nothing in the database.  There are two
    exceptions: an origin whose verification failed has exactly that recorded on its row,
    and the reconcile form answers 502 when its pass ended with an error, after the pass,
    which may have taken its lock and counted traffic.  A dry run of the import changes
    nothing whatever it answers. *)
Theorem refused_form_changes_nothing `{Admin : AdminApi} wire families holder opened world rq token f w :
  (forall answer w', portal_form urlparts urlsplit wire rq token f w = (Ok answer, w') ->
     (accepted answer = false -> refusal_leaves f (srv_db w) (srv_db w')) /\
     ((exists slug config references port h g al, f = FormImport slug config references port h g al true) ->
      srv_db w' = srv_db w)) /\
  (forall answer world' w', reconcile_form families holder opened world rq token w = (Ok (answer, world'), w') ->
     accepted answer = false ->
     w' = w /\ world' = world \/
     exists settings r, answer = PageShown "edge.html" 502 [] /\ srv_edge_settings w = Some settings /\
       run_reconcile families settings holder opened (srv_db w) world = (Ok r, srv_db w', world') /\
       nonempty (rr_error r) <> None).
Proof.
  split.
  - intros answer w' Hr. pose proof (portal_form_refused _ _ _ _ _ _ _ Hr) as [Hs|Hh].
    + split; [|done]. intros _. by left.
    + split; [by eapply form_handler_refused|]. intros (slug & config & refs & port & h & g & al & ->).
      eapply import_form_refused; eauto.
  - intros answer world' w' Hr Ha. unfold reconcile_form in Hr. apply bind_ok in Hr as (session & w1 & Hs & Hr).
    pose proof (portal_session_run rq w) as [Hw _]. rewrite Hs in Hw. cbn in Hw. subst w1.
    destruct session as [a|data]; [left; by injection Hr as <- <- <-|].
    apply bind_ok in Hr as (valid & w1 & Hc & Hr). injection Hc as _ <-.
    destruct valid; cbn [negb] in Hr; [|left; by injection Hr as <- <- <-].
    rewrite bind_run in Hr. cbn [get] in Hr. destruct (srv_edge_settings w) as [settings|] eqn:Est; [|done].
    rewrite bind_run in Hr. cbn [need mret SM_ret] in Hr.
    destruct (run_reconcile families settings holder opened (srv_db w) world) as [[r s] x] eqn:Er.
    rewrite bind_run in Hr. cbn [modify] in Hr. destruct r as [result|e]; [|done]. injection Hr as <- <- <-.
    right. exists settings, result. destruct (nonempty (rr_error result)); done.
Qed.

(** *** Signing in *)

(** The life of a portal process: sign-ins, each with its client's address, its time and
    its answer, and whatever else happens in between, which leaves the limiter alone. *)
Inductive signing : list (option string * Z * PortalAnswer) -> Server -> Prop :=
| signing_start w : srv_logins w = login_limiter -> signing [] w
| signing_other trace w w' :
    signing trace w -> srv_logins w' = srv_logins w -> db_clock (srv_db w) <= db_clock (srv_db w') -> signing trace w'
| signing_login trace w rq password next answer w' :
    signing trace w -> login rq password next w = (Ok answer, w') ->
    signing (trace ++ [(portal_address (srv_edge_settings w) rq, db_clock (srv_db w), answer)])%list w'.

(** The times of a client's refused passwords since it last signed in. *)
Definition failures_after (client : string) (l : list Z) (x : option string * Z * PortalAnswer) : list Z :=
  if bool_decide (x.1.1 = Some client) then
    match x.2 with SignedIn _ _ _ => [] | LoginPage 401 _ => (l ++ [x.1.2])%list | _ => l end
  else l.
Definition failures_of (client : string) (trace : list (option string * Z * PortalAnswer)) : list Z :=
  foldl (failures_after client) [] trace.

(** The limiter knows of every client the failures that still count. *)
Record limiter_knows (trace : list (option string * Z * PortalAnswer)) (w : Server) : Prop := {
  lk_max : ll_max_failures (srv_logins w) = 5;
  lk_window : ll_window (srv_logins w) = minutes 15;
  lk_recent client later : db_clock (srv_db w) <= later ->
    recent (minutes 15) later (default [] (ll_failures (srv_logins w) !! client))
    = recent (minutes 15) later (failures_of client trace);
}.

(** One sign-in, on a limiter: what it answers and what the limiter then holds. *)
Lemma login_run rq password next w client :
  po_enabled (srv_portal w) = true -> portal_address (srv_edge_settings w) rq = Some client ->
  let now := db_clock (srv_db w) in let l := srv_logins w in
  let stamps := recent (ll_window l) now (default [] (ll_failures l !! client)) in
  login rq password next w =
  if negb (Z.of_nat (List.length stamps) <? ll_max_failures l) then
    (Ok (LoginPage 429 (safe_next (Some next))), w <| srv_logins := with_failures l (<[client := stamps]> (ll_failures l)) |>)
  else if negb (check_password (srv_portal w) password) then
    (Ok (LoginPage 401 (safe_next (Some next))),
     w <| srv_logins := with_failures l (<[client := (stamps ++ [now])%list]> (ll_failures l)) |>)
  else
    (Ok (SignedIn (safe_next (Some next))
           (issue_session (srv_portal w) (token_urlsafe (db_next (srv_db w)) 32) (unix_now w)).1
           (via_https (srv_edge_settings w) rq)),
     w <| srv_logins := with_failures l (delete client (ll_failures l)) |> <| srv_db := (fresh (srv_db w)).2 |>).
Proof.
  intros Ee Ea. cbv zeta. unfold login. rewrite bind_run. cbn [get]. rewrite Ee. cbn [negb]. rewrite Ea.
  unfold login_allowed, recent_failures. cbv zeta. rewrite bind_run. cbn [modify].
  destruct (_ <? _); cbn [negb]; [|reflexivity].
  destruct (check_password _ password) eqn:Ep; cbn [negb]; rewrite bind_run; cbn [modify].
  - unfold login_reset, with_failures. cbn [ll_max_failures ll_window ll_failures]. rewrite delete_insert_eq. reflexivity.
  - unfold login_failed, recent_failures, with_failures. cbn [ll_max_failures ll_window ll_failures].
    rewrite lookup_insert_eq, !insert_insert_eq. cbn [default from_option id]. rewrite recent_twice. reflexivity.
Qed.

Lemma login_elsewhere rq password next w :
  po_enabled (srv_portal w) = false \/ portal_address (srv_edge_settings w) rq = None ->
  exists answer, login rq password next w = (Ok answer, w) /\ (answer = PortalOff \/ answer = AddressRefused).
Proof.
  unfold login. rewrite bind_run. cbn [get]. intros [-> | ->]; cbn [negb]; [eauto|].
  destruct (po_enabled _); cbn [negb]; eauto.
Qed.

Lemma signing_failures_snoc client trace x : failures_of client (trace ++ [x])%list = failures_after client (failures_of client trace) x.
Proof. unfold failures_of. by rewrite foldl_app. Qed.

Lemma recent_stamps later now l : now <= later ->
  recent (minutes 15) later (recent (minutes 15) now l) = recent (minutes 15) later l.
Proof. apply recent_recent. Qed.

Lemma signing_knows trace w : signing trace w -> limiter_knows trace w.
Proof.
  induction 1 as [w Hw|trace w w' _ [Hm Hwin Hr] Hl Hc|trace w rq password next answer w' _ [Hm Hwin Hr] Hlog].
  - constructor; rewrite Hw; done.
  - constructor; rewrite Hl; [done|done|]. intros client later Hle. apply Hr. lia.
  - destruct (portal_address (srv_edge_settings w) rq) as [c|] eqn:Ea; [destruct (po_enabled (srv_portal w)) eqn:Ee|].
    2,3: destruct (login_elsewhere rq password next w ltac:(auto)) as (x & Hx & Hans); rewrite Hx in Hlog;
      injection Hlog as <- <-; constructor; [done|done|]; intros client later Hle; rewrite signing_failures_snoc, (Hr client later Hle);
      unfold failures_after; cbn [fst snd]; destruct (bool_decide _); [destruct Hans as [-> | ->]|]; done.
    pose proof (login_run rq password next w c Ee Ea) as Hrun. cbv zeta in Hrun. rewrite Hlog, Hm, Hwin in Hrun.
    assert (forall f answer, w' = w <| srv_logins := with_failures (srv_logins w) f |> \/
        w' = w <| srv_logins := with_failures (srv_logins w) f |> <| srv_db := (fresh (srv_db w)).2 |> ->
      (forall client later, db_clock (srv_db w) <= later ->
        recent (minutes 15) later (default [] (f !! client))
        = recent (minutes 15) later (failures_after client (failures_of client trace) (Some c, db_clock (srv_db w), answer))) ->
      limiter_knows (trace ++ [(Some c, db_clock (srv_db w), answer)]) w') as Hstep.
    { intros f a Hw Hf. constructor; [by destruct Hw as [-> | ->]..|]. intros client later Hle. rewrite signing_failures_snoc.
      rewrite <- (Hf client later) by (by destruct Hw as [-> | ->]). by destruct Hw as [-> | ->]. }
    destruct (negb (_ <? 5)); [|destruct (negb (check_password _ _))]; injection Hrun as -> Hw'; eapply Hstep;
      try (by left); try (by right); intros client later Hle; unfold failures_after; cbn [fst snd];
      rewrite ?lookup_insert, ?lookup_delete; (destruct (decide (c = client)) as [->|Hne];
        [rewrite bool_decide_true by done|rewrite bool_decide_false by congruence; by apply Hr]);
      cbn [default from_option id]; [|rewrite !recent_app; f_equal|done]; rewrite recent_stamps by done; by apply Hr.
Qed.

(** C27: Signing in.  In any life of a portal process, whose clock does not go back and
    whose random tokens are text, with the portal on and an allowed address: a client that failed five times within the last fifteen minutes, since it
    last signed in, is refused unread; otherwise a wrong password is refused and counts,
    and the right one signs in, which leads to a page of the portal, touches nothing of the
    database but the draws of its token, and gives a cookie that opens a session for
    twelve hours and no longer.  Without the portal or an allowed address nobody signs in. *)
Theorem login_signs_in trace w rq password next :
  signing trace w ->
  (forall location cookie secure w', login rq password next w = (Ok (SignedIn location cookie secure), w') ->
     po_enabled (srv_portal w) = true /\ portal_address (srv_edge_settings w) rq <> None) /\
  forall client, po_enabled (srv_portal w) = true -> portal_address (srv_edge_settings w) rq = Some client ->
  let failed := Z.of_nat (List.length (recent (minutes 15) (db_clock (srv_db w)) (failures_of client trace))) in
  (5 <= failed -> (login rq password next w).1 = Ok (LoginPage 429 (safe_next (Some next)))) /\
  (failed < 5 -> po_password (srv_portal w) <> Some password ->
     exists w', login rq password next w = (Ok (LoginPage 401 (safe_next (Some next))), w') /\ srv_db w' = srv_db w /\
       failures_of client (trace ++ [(Some client, db_clock (srv_db w), LoginPage 401 (safe_next (Some next)))])
       = (failures_of client trace ++ [db_clock (srv_db w)])%list) /\
  (failed < 5 -> po_password (srv_portal w) = Some password ->
     exists location cookie w', login rq password next w
       = (Ok (SignedIn location cookie (via_https (srv_edge_settings w) rq)), w') /\
       startswith "/portal" location = true /\ srv_db w' = (fresh (srv_db w)).2 /\
       (is_text (token_urlsafe (db_next (srv_db w)) 32) = true -> forall later,
          (exists data, read_session (srv_portal w) (Some cookie) later = Ok (Some data)) <->
          later <= unix_now w + 12 * 3600)).
Proof.
  intros Hs. apply signing_knows in Hs as [Hm Hwin Hr]. split.
  { intros location cookie secure w' Hl.
    assert (po_enabled (srv_portal w) = false \/ portal_address (srv_edge_settings w) rq = None -> False) as Hno.
    { intros Hno. destruct (login_elsewhere rq password next w Hno) as (x & Hx & Ha). rewrite Hx in Hl.
      injection Hl as -> _. by destruct Ha. }
    split; [destruct (po_enabled _); [done|by destruct Hno; left]|intros E; by apply Hno; right]. }
  intros client Ee Ea. cbv zeta. pose proof (login_run rq password next w client Ee Ea) as Hrun. cbv zeta in Hrun.
  rewrite Hm, Hwin, (Hr client _ (Z.le_refl _)) in Hrun. set (failed := Z.of_nat _) in *.
  assert (check_password (srv_portal w) password = true <-> po_password (srv_portal w) = Some password) as Hp.
  { unfold check_password. rewrite Ee. destruct (po_password _) as [p|]; [|done]. rewrite String.eqb_eq.
    split; [by intros ->|by intros [= ->]]. }
  split_and!.
  - intros Hf. rewrite (proj2 (Z.ltb_ge _ _)) in Hrun by done. by rewrite Hrun.
  - intros Hf Hw. rewrite (proj2 (Z.ltb_lt _ _)) in Hrun by done. cbn [negb] in Hrun.
    destruct (check_password _ _); [by destruct Hw; apply Hp|]. cbn [negb] in Hrun. rewrite Hrun. eexists.
    split; [reflexivity|]. split; [done|]. rewrite signing_failures_snoc. unfold failures_after. by rewrite bool_decide_true.
  - intros Hf Hw. rewrite (proj2 (Z.ltb_lt _ _)) in Hrun by done. rewrite (proj2 Hp Hw) in Hrun. cbn [negb] in Hrun.
    rewrite Hrun. eexists _, _, _. split; [reflexivity|]. split; [apply safe_next_stays|]. split; [done|].
    intros Ht later. rewrite (issued_session_reads _ _ _ later Ht). unfold SESSION_TTL.
    destruct (Z.leb_spec later (unix_now w + 12 * 3600)); split; [done|eauto|by intros [d ?]|lia].
Qed.

(** *** Setting up *)

Lemma name_reached resolve probe st name f a l :
  check_edge_name resolve probe st name = Ok f -> fi_reached f = a :: l -> answers probe name a.
Proof.
  intros Hf Hr. apply (name_finding_means resolve probe) in Hf as [_ Hall]. rewrite Hr in Hall. apply Forall_cons in Hall as [Ha _]. exact Ha.
Qed.

Lemma domain_total_pos s p : 0 < domain_total s p -> exists id d, db_domains s !! id = Some d /\ p d = true.
Proof.
  unfold domain_total. destruct (filter _ (map_to_list (db_domains s))) as [|[id d] l] eqn:E; [done|]. intros _. exists id, d.
  assert ((id, d) ∈ filter (fun x => p x.2 = true) (map_to_list (db_domains s))) as [Hp Hin]%list_elem_of_filter by (rewrite E; by left).
  by apply elem_of_map_to_list in Hin.
Qed.

(** The step of the name is done only when an address of it answered. *)
Lemma target_reached resolve probe settings cache now v cache' name target :
  reach_name resolve probe (Some settings) now true cache v = Ok (name, cache') ->
  en_reachability v = None -> fst (target_step target (Some name)) = true ->
  exists address, answers probe (en_name v) address.
Proof.
  unfold reach_name. intros Hr Hn Hd. destruct (en_addresses v) as [|x l] eqn:Ea.
  { injection Hr as <- _. unfold target_step in Hd. rewrite Ea in Hd. by destruct (nonempty (en_error v)). }
  destruct (nonempty (en_error v)) as [e|] eqn:Ee.
  { injection Hr as <- _. unfold target_step in Hd. by rewrite Ee in Hd. }
  cbn [reachability] in Hr. destruct (check_edge_name _ _ _ _) as [f|] eqn:Ef; [|done]. cbn [mbind res_bind] in Hr.
  injection Hr as <- _. unfold target_step in Hd. cbn [en_error en_addresses en_reachability] in Hd. rewrite Ee in Hd.
  destruct (fi_reached f) as [|address more] eqn:Er; [|exists address; by eapply name_reached].
  rewrite andb_false_r in Hd. by destruct (String.eqb _ "warn").
Qed.

(** When every setup step of an application shows done on a fresh check, it has a
    verified active origin, a usable API key and a domain that is live, and an address of
    the name its customers point at answered as this edge. *)
Theorem setup_complete resolve probe settings cache now s a r steps cache' :
  overview_steps resolve probe (Some settings) cache now true s (a, r) = Ok (steps, cache') ->
  Forall (fun st => step_done st = true) steps ->
  is_Some (serving_origin s a) /\
  (exists k c, db_credentials s !! k = Some c /\ cred_application_id c = a /\ credential_is_usable c (db_clock s) = true) /\
  (exists id d, db_domains s !! id = Some d /\ dom_application_id d = a /\ dom_status d = READY) /\
  exists address, answers probe (app_cname_target r) address.
Proof.
  unfold overview_steps. cbn [resolve_names fmap list_fmap edge_name en_name en_roles en_addresses en_error en_reachability reach_names].
  destruct (reach_name _ _ _ _ _ _ _) as [[v c1]|] eqn:Ev; [|done]. cbn [mbind res_bind head].
  intros [= <- <-] Hall. unfold application_steps in Hall. repeat (apply Forall_cons in Hall as [? Hall]). cbn [step_done] in *.
  repeat match goal with Hx : bool_decide _ = true |- _ => apply bool_decide_eq_true in Hx end. split_and!; [done| | |].
  - match goal with Hx : existsb _ (list_credentials s a) = true |- _ => apply existsb_exists in Hx as ([k c] & Hin & Hu) end.
    apply list_elem_of_In in Hin. unfold list_credentials in Hin. apply elem_select_rows in Hin as [Hk Ha%bool_decide_eq_true]. by exists k, c.
  - match goal with Hx : (0 <? count_of READY _) = true |- _ => apply Z.ltb_lt in Hx end.
    match goal with Hx : 0 < count_of READY _ |- _ => cbn in Hx; apply domain_total_pos in Hx as (id & d & Hd & Hp) end.
    apply andb_prop in Hp as [Hst%bool_decide_eq_true Ha%N.eqb_eq]. by exists id, d.
  - destruct (resolve (app_cname_target r)) as [addresses|text]; by eapply target_reached in Ev.
Qed.
End Properties.
