(* ===== verification/Internal.v ===== *)
(** * The edge's own endpoints (app/v1/internal.py)

    The permission to issue a certificate, the routing decision with its signed
    assertion, and the facts the gateway checks configurations against.  Theorems:
    an assertion is issued only for a live hostname that may be reached, and what the
    edge forwards verifies at the origin and names exactly the domain it was routed for;
    a certificate is allowed only for an authorized domain or an edge name. *)

From Stdlib Require Import Ascii String ZArith Lia.
From stdpp Require Import base gmap strings list sets sorting.
From S2P Require Import Prelude PyStr Utf8 Json JsonText Errors External Assertion Models AssertionKeys.
From S2P Require Import Hostname EdgeSettings Egress Dns DnsSetup Domains EdgeChecks Applications EdgeConfig.
Open Scope string_scope.
Open Scope Z_scope.

(** An answer: the status and the assertion header it carries. *)
Record edge_answer := { ea_status : Z; ea_assertion : option string }.
Definition status_only (n : Z) : edge_answer := {| ea_status := n; ea_assertion := None |}.

(** [request.app.state.edge_settings] as the certificate checks read it. *)
Definition flags_of (s : EdgeSettings) : EdgeFlags :=
  {| disable_https := es_disable_https s; edge_hostname := es_edge_hostname s |}.

Section Internal.
Context `{External, Deployment}.

Definition trusted (settings : option EdgeSettings) (client : option string) : bool :=
  match settings with
  | None => match client with Some c => mem_str c ["127.0.0.1"; "::1"] | None => false end
  | Some s => trusts s client
  end.

(** [Err]: a token that is not ASCII (a 500). *)
Definition token_ok (settings : option EdgeSettings) (token : option string) : res exn bool :=
  match nonempty (settings ≫= edge_token) with
  | None => Ok true
  | Some expected => match nonempty token with Some t => compare_digest t expected | None => Ok false end
  end.
(** [_trusted(request) and _token_ok(request, token)] *)
Definition edge_request_ok (settings : option EdgeSettings) (client token : option string) : res exn bool :=
  if trusted settings client then token_ok settings token else Ok false.

(** [GET /internal/tls/ask]: the status. *)
Definition tls_ask (settings : option EdgeSettings) (client : option string) (domain : string) (s : Db) : Z :=
  if negb ((1 <=? ulen domain) && (ulen domain <=? 253)) then 422
  else if negb (trusted settings client) then 403
  else match (find_live_by_hostname domain s).1 with
       | Err _ => 403
       | Ok row =>
           if match row with Some (id, d) => certificate_authorized s id d | None => false end
              || is_edge_name s domain (flags_of <$> settings)
           then 200 else 403
       end.

(** The headers of the edge's subrequest. *)
Record AssertRequest := {
  ar_client : option string;
  ar_host : option string;
  ar_sni : option string;
  ar_request_id : option string;
  ar_edge_token : option string;
  ar_forwarded_uri : option string;
}.

(** [host.rsplit(":", 1)[0] if host.count(":") == 1 else host] *)
Definition without_port (host : string) : string :=
  if count_char ":"%char host =? 1 then default host (before_last ":"%char host) else host.

(** Whether the SNI, when the edge sent one, is the hostname. *)
Definition sni_matches (sni : option string) (hostname : string) : bool :=
  match nonempty sni with
  | None => true
  | Some sni =>
      if startswith "{" sni then true
      else match canonicalize sni with Ok h => String.eqb h hostname | Err _ => false end
  end.

(** The key the application's assertions are signed with, [None] without any. *)
Definition assertion_key (settings : EdgeSettings) (s : Db) (a : N) : option (string * string) :=
  match signing_key s a (db_clock s) with
  | Some (_, own) => Some (ak_key_id own, ak_secret own)
  | None => active_key settings
  end.

(** What ordinary requests and the workspace probe may reach. *)
Definition may_pass (s : Db) (id : N) (d : Domain) (forwarded_uri : option string) : bool :=
  is_serveable s id d
  || (routable s id d
      && String.eqb (fst (fst (partition "?"%char (default "" forwarded_uri)))) WORKSPACE_PATH).

Definition edge_assert (settings : option EdgeSettings) (r : AssertRequest) (s : Db) : res exn edge_answer :=
  allowed ← edge_request_ok settings (ar_client r) (ar_edge_token r);
  if negb allowed then Ok (status_only 403) else
  match settings with
  | None => Ok (status_only 503)
  | Some settings =>
      match active_key settings with
      | None => Ok (status_only 503)
      | Some _ =>
          match nonempty (ar_host r) with
          | None => Ok (status_only 403)
          | Some host =>
              match canonicalize (without_port host) with
              | Err _ => Ok (status_only 403)
              | Ok hostname =>
                  if negb (sni_matches (ar_sni r) hostname) then Ok (status_only 403) else
                  match (find_live_by_hostname hostname s).1 with
                  | Err e => Err e
                  | Ok None => Ok (status_only 403)
                  | Ok (Some (id, d)) =>
                      if negb (may_pass s id d (ar_forwarded_uri r)) then Ok (status_only 403) else
                      match serving_origin s (dom_application_id d), assertion_key settings s (dom_application_id d) with
                      | None, _ => Ok (status_only 403)
                      | Some _, None => Err PyIndexError
                      | Some _, Some (key_id, key) =>
                          Ok {| ea_status := 200;
                                ea_assertion := Some (Assertion.sign key_id key
                                  (uuid_str (dom_application_id d)) (uuid_str id) (dom_reference d) hostname
                                  (or_else (utake 64 (default "" (ar_request_id r))) "unknown")
                                  (Z.quot (db_clock s) 1000000) (assertion_ttl settings)) |}
                      end
                  end
              end
          end
      end
  end.

(** ** What the gateway may route to *)

(** The origins the query selects: active, verified, of an active application. *)
Definition offered_origins (s : Db) : list VerifiedOrigin :=
  snd <$> filter (fun x => org_is_active x.2 = true /\ org_status x.2 = ORIGIN_VERIFIED
                           /\ application_active s (org_application_id x.2) = true)
            (map_to_list (db_origins s)).

(** The dials of one origin; none when it no longer resolves acceptably. *)
Definition upstreams_of (o : VerifiedOrigin) : list (string * string) :=
  match resolve_dials (org_host o) (org_port o) allow_private_from_env with
  | Ok dials => (fun dial => (dial, org_host o)) <$> dials
  | Err _ => []
  end.

(** [(u["host"], u["dial"])] *)
Definition upstream_le (x y : string * string) : Prop :=
  String.ltb x.2 y.2 = true \/ x.2 = y.2 /\ String.leb x.1 y.1 = true.
#[export] Instance upstream_le_dec x y : Decision (upstream_le x y).
Proof. unfold upstream_le. apply _. Defined.

Definition offered_upstreams (s : Db) : list (string * string) :=
  merge_sort upstream_le (offered_origins s ≫= upstreams_of).

Inductive origins_answer := ForbiddenOrigins | Origins (body : json).

(** [None]: an allowlist entry is not a network, or the token is not ASCII. *)
Definition edge_origins (settings : option EdgeSettings) (client edge_token : option string) (s : Db)
    : option origins_answer :=
  allowed ← (match edge_request_ok settings client edge_token with Ok b => Some b | Err _ => None end);
  if negb allowed then Some ForbiddenOrigins else
  portal ← (match settings with Some s => portal_ranges s | None => Some [] end);
  operator ← (match settings with Some s => operator_ranges s | None => Some [] end);
  Some (Origins (JObj [
    ("upstreams", JArr ((fun u => JObj [("dial", JStr u.1); ("host", JStr u.2)]) <$> offered_upstreams s));
    ("edge_names", jstr_list (portal_hosts s (settings ≫= es_edge_hostname)));
    ("portal_ranges", jstr_list portal);
    ("public_api", JBool (match settings with Some s => public_api s | None => false end));
    ("operator_ranges", jstr_list operator)])).
End Internal.

(** ** Identifiers are plain text *)

Definition plain_ascii (c : ascii) : bool := is_alnum c || char_eqb "-"%char c || char_eqb "."%char c.

Lemma plain_ascii_text s : sall plain_ascii s = true -> is_text s = true.
Proof.
  intros Hs. apply is_text_ascii. eapply sall_impl; [|exact Hs]. intros c.
  destruct c as [[] [] [] [] [] [] [] []]; vm_compute; done.
Qed.

Lemma hex_digit_plain n : (n < 16)%N -> plain_ascii (hex_digit n) = true.
Proof.
  intros Hn. assert (forallb (fun k => plain_ascii (hex_digit (N.of_nat k))) (seq 0 16) = true) as Hall
    by (vm_compute; reflexivity).
  rewrite forallb_forall in Hall. specialize (Hall (N.to_nat n)). rewrite in_seq, N2Nat.id in Hall. apply Hall. lia.
Qed.
Lemma hex_digits_plain w n : sall plain_ascii (hex_digits w n) = true.
Proof.
  revert n. induction w as [|w IH]; intros n; [done|]. cbn [hex_digits]. rewrite sall_app, IH. cbn [sall].
  rewrite hex_digit_plain by (apply N.mod_lt; lia). done.
Qed.
Lemma uuid_text u : is_text (uuid_str u) = true.
Proof. apply plain_ascii_text. unfold uuid_str. by rewrite !sall_app, !hex_digits_plain. Qed.

Section Props.
Context `{External, Deployment, !IdnaLaws}.

Lemma hostname_text raw h : canonicalize raw = Ok h -> is_text h = true.
Proof.
  unfold canonicalize. intros Hc%canonicalize_apex_canonical%canonical_chars. apply plain_ascii_text. eapply sall_impl; [|exact Hc].
  intros c. destruct c as [[] [] [] [] [] [] [] []]; vm_compute; done.
Qed.

(** ** The routing decision *)

(** What an admitted request went through. *)
Record admitted (settings : EdgeSettings) (r : AssertRequest) (s : Db) (hostname : string) (id : N) (d : Domain)
    (key_id key token : string) : Prop := {
  ad_trusted : trusts settings (ar_client r) = true;
  ad_token : token_ok (Some settings) (ar_edge_token r) = Ok true;
  ad_host : exists host, nonempty (ar_host r) = Some host /\ canonicalize (without_port host) = Ok hostname;
  ad_sni : sni_matches (ar_sni r) hostname = true;
  ad_domain : exists canonical, canonicalize hostname = Ok canonical /\ live_by_hostname s canonical = Some (id, d);
  ad_pass : may_pass s id d (ar_forwarded_uri r) = true;
  ad_origin : is_Some (serving_origin s (dom_application_id d));
  ad_key : assertion_key settings s (dom_application_id d) = Some (key_id, key);
  ad_signed : token = Assertion.sign key_id key (uuid_str (dom_application_id d)) (uuid_str id) (dom_reference d) hostname
                        (or_else (utake 64 (default "" (ar_request_id r))) "unknown")
                        (Z.quot (db_clock s) 1000000) (assertion_ttl settings);
}.

Lemma edge_assert_inv settings r s a token :
  edge_assert settings r s = Ok a -> ea_assertion a = Some token ->
  exists st hostname id d key_id key, settings = Some st /\ ea_status a = 200 /\
    admitted st r s hostname id d key_id key token.
Proof.
  unfold edge_assert, edge_request_ok. destruct (trusted settings (ar_client r)) eqn:Et; [|by intros [= <-]].
  destruct (token_ok settings (ar_edge_token r)) as [[|]|e] eqn:Ek; [|by intros [= <-]|done]. cbn [negb mbind res_bind].
  destruct settings as [st|]; [|by intros [= <-]]. destruct (active_key st) as [p|] eqn:Eact; [|by intros [= <-]].
  destruct (nonempty (ar_host r)) as [host|] eqn:Eh; [|by intros [= <-]].
  destruct (canonicalize (without_port host)) as [hostname|] eqn:Ec; [|by intros [= <-]].
  destruct (sni_matches (ar_sni r) hostname) eqn:Es; [|by intros [= <-]]. cbn [negb].
  unfold find_live_by_hostname. rewrite bind_run. unfold lift, gets.
  destruct (canonicalize hostname) as [canonical|] eqn:Ec'; [|done]. cbn [fst].
  destruct (live_by_hostname s canonical) as [[id d]|] eqn:El; [|by intros [= <-]].
  destruct (may_pass s id d (ar_forwarded_uri r)) eqn:Em; [|by intros [= <-]]. cbn [negb].
  destruct (serving_origin s (dom_application_id d)) as [o|] eqn:Eo; [|by intros [= <-]].
  destruct (assertion_key st s (dom_application_id d)) as [[key_id key]|] eqn:Eak; [|done].
  intros Ha Htok. assert (ea_status a = 200 /\ ea_assertion a = Some (Assertion.sign key_id key
    (uuid_str (dom_application_id d)) (uuid_str id) (dom_reference d) hostname
    (or_else (utake 64 (default "" (ar_request_id r))) "unknown") (Z.quot (db_clock s) 1000000) (assertion_ttl st)))
    as [Hst Has] by (destruct a; by injection Ha as <- <-).
  exists st, hostname, id, d, key_id, key. split; [done|]. split; [done|].
  constructor; eauto. congruence.
Qed.

(** Every assertion the edge puts on a request is for a live domain of that very
    hostname which may be reached, whose application has a verified active origin;
    an origin that holds the signing key accepts it within its time and the skew
    and reads the application, the domain, its workspace reference and the hostname. *)
Theorem asserted_requests settings r s a token :
  edge_assert settings r s = Ok a -> ea_assertion a = Some token ->
  exists st hostname id d key_id key, settings = Some st /\ ea_status a = 200 /\
    admitted st r s hostname id d key_id key token /\
    let issued := Z.quot (db_clock s) 1000000 in
    let request_id := or_else (utake 64 (default "" (ar_request_id r))) "unknown" in
    forall keys now skew,
      has_char "."%char key_id = false -> sget key_id keys = Some key ->
      is_text (dom_reference d) = true -> is_text request_id = true ->
      issued - skew <= now <= issued + assertion_ttl st + skew ->
      Assertion.verify (Some token) keys (Some (uuid_str (dom_application_id d))) (Some hostname) now skew =
      Ok {| as_application_id := uuid_str (dom_application_id d); as_domain_id := uuid_str id;
            as_reference := dom_reference d; as_hostname := hostname; as_issued_at := issued;
            as_expires_at := issued + assertion_ttl st; as_request_id := request_id; as_key_id := key_id |}.
Proof.
  intros Ha Ht. destruct (edge_assert_inv settings r s a token Ha Ht) as (st & hostname & id & d & key_id & key & Hst & H200 & Had).
  exists st, hostname, id, d, key_id, key. split; [done|]. split; [done|]. split; [done|].
  intros issued request_id keys now skew Hdot Hkey Href Hrid Hnow. rewrite (ad_signed _ _ _ _ _ _ _ _ _ Had).
  apply assertion_round_trip; [done|done| |done].
  unfold plain_fields. cbn [as_application_id as_domain_id as_reference as_hostname as_request_id].
  rewrite !uuid_text, Href. destruct (ad_host _ _ _ _ _ _ _ _ _ Had) as (host & _ & Hc).
  by rewrite (hostname_text _ _ Hc), Hrid.
Qed.

(** Conversely, an authorized caller gets an assertion for every hostname that is
    serveable. *)
Theorem serveable_is_asserted `{!IpLaw} st r s host hostname id d :
  trusts st (ar_client r) = true -> token_ok (Some st) (ar_edge_token r) = Ok true ->
  active_key st <> None -> nonempty (ar_host r) = Some host -> canonicalize (without_port host) = Ok hostname ->
  sni_matches (ar_sni r) hostname = true -> live_by_hostname s hostname = Some (id, d) ->
  is_serveable s id d = true -> is_Some (serving_origin s (dom_application_id d)) ->
  exists a token, edge_assert (Some st) r s = Ok a /\ ea_status a = 200 /\ ea_assertion a = Some token.
Proof.
  intros Ht Hk Hact Hh Hc Hs Hl Hsv [o Ho]. pose proof (canonicalize_idempotent _ _ Hc) as Hc'.
  unfold edge_assert, edge_request_ok. cbn [trusted]. rewrite Ht, Hk. cbn [negb mbind res_bind].
  destruct (active_key st) as [p|] eqn:Ea; [|done]. rewrite Hh, Hc, Hs. cbn [negb].
  unfold find_live_by_hostname. rewrite bind_run. unfold lift, gets. rewrite Hc'. cbn [fst]. rewrite Hl.
  unfold may_pass. rewrite Hsv. cbn [negb orb]. rewrite Ho. unfold assertion_key. rewrite Ea.
  destruct (signing_key s (dom_application_id d) (db_clock s)) as [[k own]|]; [|destruct p as [key_id key]]; by eexists _, _.
Qed.

(** The certificate authority is only asked for names of the service: a hostname
    whose verified registration may hold a certificate, or a name of the edge. *)
Theorem certificates_only_for_known_names settings client domain s :
  tls_ask settings client domain s = 200 ->
  trusted settings client = true /\
  exists canonical, canonicalize domain = Ok canonical /\
    ((exists id d, live_by_hostname s canonical = Some (id, d) /\ certificate_authorized s id d = true) \/
     is_edge_name s domain (flags_of <$> settings) = true).
Proof.
  unfold tls_ask. destruct (negb _); [done|]. destruct (trusted settings client); [|done]. cbn [negb].
  unfold find_live_by_hostname. rewrite bind_run. unfold lift, gets.
  destruct (canonicalize domain) as [canonical|] eqn:Ec; [|done]. cbn [fst].
  destruct (live_by_hostname s canonical) as [[id d]|] eqn:El.
  - destruct (certificate_authorized s id d) eqn:Ea; [|destruct (is_edge_name _ _ _) eqn:Ee; [|done]];
      intros _; (split; [done|]); exists canonical; (split; [done|]); [left; eauto|by right].
  - destruct (is_edge_name _ _ _) eqn:Ee; [|done]. intros _. split; [done|]. exists canonical. split; [done|by right].
Qed.
End Props.
