(* ===== verification/Gateway.v ===== *)
(** * The configuration gateway (app/edge/gateway.py)

    The validation every configuration passes before Caddy runs it, and the
    gateway's POST.  Theorems: whatever the gateway accepts routes customers' hostnames
    only to origins the management API vouches for, through the strip, assert and proxy
    steps.  That it accepts what the reconciler derives from the same database is
    GatewayAccepts.v. *)

From Stdlib Require Import Ascii String ZArith Lia.
From stdpp Require Import base gmap strings list sets sorting.
From S2P Require Import Prelude PyStr Json JsonText Errors External Assertion Models AssertionKeys Hostname.
From S2P Require Import EdgeSettings Egress Dns DnsSetup Domains DomainInv EdgeChecks Applications EdgeConfig.
From S2P Require Import Internal.
Open Scope string_scope.
Open Scope Z_scope.

(** [ConfigRejected], or an exception the handler does not catch. *)
Inductive refusal := ConfigRejected | Crash.
#[export] Instance refusal_eq_dec : EqDecision refusal.
Proof. solve_decision. Defined.

Record EdgeFacts := {
  ef_upstreams : list (string * string);
  ef_edge_names : list string;
  ef_portal_ranges : list string;
  ef_public_api : bool;
  ef_operator_ranges : list string;
}.

(** [d.get(k)] compared with [None] *)
Definition not_null (o : option json) : option json := match o with Some JNull => None | _ => o end.

Definition accept : res refusal unit := Ok tt.
(** [if not b: raise ConfigRejected]; the rest runs otherwise. *)
Definition unless_rejected {A} (b : bool) (k : res refusal A) : res refusal A :=
  if b then k else Err ConfigRejected.

(** [set(x)] compared with a set of words of several letters; hashing a list or an
    object raises. *)
Definition hashable (j : json) : bool := match j with JArr _ | JObj _ => false | _ => true end.
Definition key_set_is (j : json) (keys : list string) : res refusal bool :=
  match j with
  | JObj d => Ok (same_str (dkeys d) keys)
  | JArr l => if forallb hashable l
              then Ok (match mapM as_str l with Some ks => same_str ks keys | None => false end)
              else Err Crash
  | JStr _ => Ok false
  | _ => Err Crash
  end.

(** [hosts] is a non-empty list of names the API vouches for. *)
Definition hosts_vouched (hosts : option json) (edge_names : list string) : res refusal (list string) :=
  match hosts with
  | Some (JArr ((_ :: _) as l)) =>
      if forallb hashable l
      then match mapM as_str l with
           | Some hs => if subset_str hs edge_names then Ok hs else Err ConfigRejected
           | None => Err ConfigRejected
           end
      else Err Crash
  | _ => Err ConfigRejected
  end.

(** [_route_hosts] *)
Definition route_hosts (route : dict) : option json :=
  match dget "match" route with
  | Some (JArr (JObj m :: _)) => dget "host" m
  | _ => None
  end.

Definition id_in (route : json) (ids : list string) : bool :=
  match route with
  | JObj d => match dget "@id" d with Some (JStr i) => mem_str i ids | _ => false end
  | _ => false
  end.
(** [str(route.get("@id", "")).startswith("portal")] *)
Definition id_starts_portal (route : json) : bool :=
  match route with
  | JObj d => startswith "portal" (str_of (default (JStr "") (dget "@id" d)))
  | _ => false
  end.

(** One of the fixed pairs at the head of [middle]: exactly the routes [expected]
    builds for the hosts the first one lists. *)
Definition fixed_routes (n : nat) (exposed : bool) (edge_names : list string)
    (expected : list string -> list json) (middle : list json) : res refusal (list json) :=
  unless_rejected exposed
    (match middle with
     | JObj first :: _ =>
         match hosts_vouched (route_hosts first) edge_names with
         | Err e => Err e
         | Ok hosts =>
             unless_rejected (json_eqb (JArr (take n middle)) (JArr (expected (merge_sort string_le hosts))))
               (Ok (drop n middle))
         end
     | _ => Err Crash
     end).

(** ** Rate limits *)

Definition zone_ok (route_id : string) (zone : string * json) : bool :=
  let '(name, zone) := zone in
  let prefix := route_id ++ "-" in
  match sget (removeprefix prefix name) RATE_WINDOWS with
  | Some window =>
      startswith prefix name &&
      match zone with
      | JObj z =>
          match dget "max_events" z with
          | Some (JInt count) =>
              json_eqb zone (JObj [("key", JStr route_id); ("window", JStr window); ("max_events", JInt count)])
              && (1 <=? count) && (count <=? MAX_RATE)
          | _ => false
          end
      | _ => false
      end
  | None => false
  end.

Definition validate_rate_limit (route_id : string) (handler : json) : res refusal unit :=
  match handler with
  | JObj d =>
      unless_rejected (same_str (dkeys d) ["handler"; "rate_limits"])
        (match dget "handler" d, dget "rate_limits" d with
         | Some (JStr h), Some (JObj ((_ :: _) as zones)) =>
             unless_rejected (String.eqb h "rate_limit" && forallb (zone_ok route_id) zones) accept
         | _, _ => Err ConfigRejected
         end)
  | _ => Err ConfigRejected
  end.

Section Gateway.
Context `{External}.

(** ** Application routes *)

Fixpoint check_hosts (hosts : list json) (seen : list string) : res refusal (list string) :=
  match hosts with
  | [] => Ok seen
  | JStr host :: hosts =>
      match canonicalize host with
      | Err _ => Err ConfigRejected
      | Ok canonical =>
          unless_rejected (String.eqb canonical host && negb (mem_str canonical seen))
            (check_hosts hosts (canonical :: seen))
      end
  | _ :: _ => Err ConfigRejected
  end.

(** The proxy step: one upstream the API vouches for, the origin's own name or the
    customer's as Host, and nothing but verified TLS. *)
Definition check_proxy (proxy : json) (upstreams : list (string * string)) : res refusal unit :=
  match proxy with
  | JObj p =>
      unless_rejected (match dget "handler" p with Some (JStr h) => String.eqb h "reverse_proxy" | _ => false end)
        (unless_rejected (subset_str (dkeys p) ["handler"; "upstreams"; "headers"; "transport"])
          (match dget "upstreams" p with
           | Some (JArr [upstream]) =>
               match key_set_is upstream ["dial"] with
               | Err e => Err e
               | Ok false => Err ConfigRejected
               | Ok true =>
                   match upstream with
                   | JObj u =>
                       match dget "dial" u with
                       | Some (JStr dial) =>
                           match sget dial upstreams with
                           | None => Err ConfigRejected
                           | Some origin_host =>
                               match port ← after_last ":"%char dial; py_int port with
                               | None => Err Crash
                               | Some dial_port =>
                                   let transport := not_null (dget "transport" p) in
                                   let own_name := origin_host_value origin_host dial_port
                                                     (bool_decide (is_Some transport)) in
                                   let headers := default JNull (dget "headers" p) in
                                   unless_rejected
                                     (existsb (fun h => json_eqb headers (forwarded_headers h))
                                        ["{http.request.host}"; own_name])
                                     (unless_rejected
                                        (match transport with
                                         | Some t => json_eqb t (verified_tls origin_host)
                                         | None => true
                                         end) accept)
                               end
                           end
                       | Some (JArr _) | Some (JObj _) => Err Crash
                       | _ => Err ConfigRejected
                       end
                   | _ => Err Crash
                   end
               end
           | _ => Err ConfigRejected
           end))
  | _ => Err ConfigRejected
  end.

(** The handlers of an application route: perhaps a rate limit, then the three
    standard steps. *)
Definition check_handlers (route_id : string) (handle : json) (settings : EdgeSettings)
    (upstreams : list (string * string)) : res refusal unit :=
  let standard (handle : list json) :=
    match handle with
    | [strip; assert_step; proxy] =>
        unless_rejected (json_eqb strip strip_handler)
          (unless_rejected (json_eqb assert_step (assertion_subrequest settings))
             (check_proxy proxy upstreams))
    | _ => Err ConfigRejected
    end in
  match handle with
  | JArr [limit; a; b; c] =>
      match validate_rate_limit route_id limit with
      | Ok _ => standard [a; b; c]
      | Err e => Err e
      end
  | JArr l => standard l
  | _ => Err ConfigRejected
  end.

Definition validate_app_route (route : json) (settings : EdgeSettings) (upstreams : list (string * string))
    (seen : list string) : res refusal (list string) :=
  match route with
  | JObj d =>
      unless_rejected (same_str (dkeys d) ["@id"; "match"; "handle"; "terminal"])
        (match dget "@id" d, dget "terminal" d, dget "match" d, dget "handle" d with
         | Some (JStr route_id), Some (JBool true), Some (JArr [m]), Some handle =>
             unless_rejected (startswith "app-" route_id)
               (match key_set_is m ["host"] with
                | Err e => Err e
                | Ok false => Err ConfigRejected
                | Ok true =>
                    match m with
                    | JObj m =>
                        match dget "host" m with
                        | Some (JArr ((_ :: _) as hosts)) =>
                            match check_hosts hosts seen with
                            | Err e => Err e
                            | Ok seen =>
                                match check_handlers route_id handle settings upstreams with
                                | Ok _ => Ok seen
                                | Err e => Err e
                                end
                            end
                        | _ => Err ConfigRejected
                        end
                    | _ => Err Crash
                    end
                end)
         | _, _, _, _ => Err ConfigRejected
         end)
  | _ => Err ConfigRejected
  end.

Fixpoint validate_app_routes (routes : list json) (settings : EdgeSettings) (upstreams : list (string * string))
    (seen : list string) : res refusal unit :=
  match routes with
  | [] => accept
  | route :: routes =>
      match validate_app_route route settings upstreams seen with
      | Ok seen => validate_app_routes routes settings upstreams seen
      | Err e => Err e
      end
  end.

(** ** The whole document *)

(** Every entry of [expected] but [skip] is in [given] with that value. *)
Definition entries_match (expected : dict) (skip : string) (given : dict) : bool :=
  forallb (fun kv => String.eqb kv.1 skip || json_eqb (default JNull (dget kv.1 given)) kv.2) expected.

(** The routes between the first and the last one. *)
Definition validate_middle (middle : list json) (settings : EdgeSettings) (facts : EdgeFacts) : res refusal unit :=
  let fixed cond n exposed expected middle :=
    match middle with
    | first :: _ => if (cond first : bool) then fixed_routes n exposed (ef_edge_names facts) expected middle else Ok middle
    | [] => Ok middle
    end in
  match fixed id_starts_portal 2%nat (negb (bool_decide (ef_portal_ranges facts = [])))
          (fun hosts => portal_routes_for hosts (ef_portal_ranges facts) (assert_upstream settings)) middle with
  | Err e => Err e
  | Ok middle =>
      match fixed (fun r => id_in r ["operator"; "operator-denied"]) 2%nat
              (negb (bool_decide (ef_operator_ranges facts = [])))
              (fun hosts => operator_routes_for hosts (ef_operator_ranges facts) (assert_upstream settings)) middle with
      | Err e => Err e
      | Ok middle =>
          match fixed (fun r => id_in r ["api"]) 1%nat (ef_public_api facts)
                  (fun hosts => api_route_for hosts (assert_upstream settings)) middle with
          | Err e => Err e
          | Ok middle => validate_app_routes middle settings (ef_upstreams facts) []
          end
      end
  end.

Definition validate_tls (tls : option json) (settings : EdgeSettings) : res refusal unit :=
  let tls := not_null tls in
  if es_disable_https settings then match tls with None => accept | Some _ => Err ConfigRejected end
  else unless_rejected (match tls with Some t => json_eqb t (tls_app settings) | None => false end) accept.

(** The server's own keys and its routes. *)
Definition validate_server (srv : json) (settings : EdgeSettings) (facts : EdgeFacts) : res refusal unit :=
  match srv with
  | JObj srv =>
      let expected := server settings [] in
      unless_rejected (subset_str (dkeys srv) ("routes" :: dkeys expected) && entries_match expected "routes" srv)
        (match dget "routes" srv with
         | Some (JArr (first :: ((_ :: _) as rest))) =>
             unless_rejected (json_eqb first health_route && json_eqb (List.last rest JNull) unmatched_route)
               (validate_middle (removelast rest) settings facts)
         | _ => Err ConfigRejected
         end)
  | _ => Err ConfigRejected
  end.

Definition validate_apps (apps : json) (settings : EdgeSettings) (facts : EdgeFacts) : res refusal unit :=
  match apps with
  | JObj apps =>
      unless_rejected (subset_str (dkeys apps) ["http"; "tls"])
        (let expected := http_app settings [] in
         match dget "http" apps with
         | Some (JObj http) =>
             unless_rejected (same_str (dkeys http) (dkeys expected) && entries_match expected "servers" http)
               (match dget "servers" http with
                | Some (JObj servers) =>
                    unless_rejected (same_str (dkeys servers) [SERVER_NAME])
                      (match validate_server (default JNull (dget SERVER_NAME servers)) settings facts with
                       | Ok _ => validate_tls (dget "tls" apps) settings
                       | Err e => Err e
                       end)
                | _ => Err ConfigRejected
                end)
         | _ => Err ConfigRejected
         end)
  | _ => Err ConfigRejected
  end.

(** ** What the management API says *)

(** One item of the answer's [upstreams]. *)
Definition upstream_item (item : json) : option (string * string) :=
  match item with
  | JObj d => match dget "dial" d, dget "host" d with
              | Some (JStr dial), Some (JStr host) => Some (dial, host)
              | _, _ => None
              end
  | _ => None
  end.
(** [{item["dial"]: item["host"] for item in upstreams}] *)
Definition upstream_map (items : list (string * string)) : list (string * string) :=
  foldl (fun d x => sset x.1 x.2 d) [] items.
Definition str_list (j : option json) : option (list string) :=
  match j with None => Some [] | Some (JArr l) => mapM as_str l | Some _ => None end.

(** [fetch] of [api_origins_provider] on the answer's document; [None]: it raises. *)
Definition facts_of (body : json) : option EdgeFacts :=
  d ← as_obj body;
  ups ← dget "upstreams" d; ups ← as_arr ups; ups ← mapM upstream_item ups;
  names ← str_list (dget "edge_names" d);
  portal ← str_list (dget "portal_ranges" d);
  operator ← str_list (dget "operator_ranges" d);
  Some {| ef_upstreams := upstream_map ups; ef_edge_names := names; ef_portal_ranges := portal;
          ef_public_api := match dget "public_api" d with Some j => truthy j | None => false end;
          ef_operator_ranges := operator |}.

(** ** [POST /config/apps] *)

(** The status of the answer and what Caddy was given; [facts] is what the origins
    provider answered, or nothing when it failed. *)
Definition set_apps (body : string) (settings : EdgeSettings) (facts : option EdgeFacts)
    (caddy : json -> Z) : Z * option json :=
  match loads body with
  | None => (400, None)
  | Some payload =>
      match facts with
      | None => (503, None)
      | Some facts =>
          match validate_apps payload settings facts with
          | Err ConfigRejected => (400, None)
          | Err Crash => (500, None)
          | Ok _ => (caddy payload, Some payload)
          end
      end
  end.
End Gateway.

Lemma unless_rejected_ok {A} b (k : res refusal A) a : unless_rejected b k = Ok a <-> b = true /\ k = Ok a.
Proof. unfold unless_rejected. destruct b; naive_solver. Qed.

Lemma removelast_and_last {A} (l : list A) x d : (removelast (x :: l) ++ [List.last (x :: l) d])%list = x :: l.
Proof. symmetry. by apply app_removelast_last. Qed.

Section Sound.
Context `{External}.

(** ** What an accepted configuration routes *)

(** A rate limit of a route: it counts by the route's own id, in zones named after it
    and the window, each with a number of events in range. *)
Definition counted_zone (route_id : string) (zone : string * json) : Prop :=
  exists window_name window count, zone.1 = (route_id ++ "-") ++ window_name /\
    sget window_name RATE_WINDOWS = Some window /\
    json_eqb zone.2 (JObj [("key", JStr route_id); ("window", JStr window); ("max_events", JInt count)]) = true /\
    1 <= count <= MAX_RATE.
Definition own_rate_limit (route_id : string) (limit : json) : Prop :=
  exists d zones, limit = JObj d /\ same_str (dkeys d) ["handler"; "rate_limits"] = true /\
    dget "handler" d = Some (JStr "rate_limit") /\ dget "rate_limits" d = Some (JObj zones) /\
    zones <> [] /\ Forall (counted_zone route_id) zones.

(** The last step: one upstream the management API vouches for, under the customer's name
    or the origin's own, over TLS verified for the origin's name or in clear, and nothing
    else. *)
Definition vouched_proxy (upstreams : list (string * string)) (proxy : json) : Prop :=
  exists p u dial origin_host port, proxy = JObj p /\
    subset_str (dkeys p) ["handler"; "upstreams"; "headers"; "transport"] = true /\
    dget "handler" p = Some (JStr "reverse_proxy") /\
    dget "upstreams" p = Some (JArr [JObj u]) /\ same_str (dkeys u) ["dial"] = true /\
    dget "dial" u = Some (JStr dial) /\ sget dial upstreams = Some origin_host /\
    after_last ":"%char dial ≫= py_int = Some port /\
    let transport := not_null (dget "transport" p) in
    (forall t, transport = Some t -> json_eqb t (verified_tls origin_host) = true) /\
    exists h, json_eqb (default JNull (dget "headers" p)) (forwarded_headers h) = true /\
      (h = "{http.request.host}" \/ h = origin_host_value origin_host port (bool_decide (is_Some transport))).

(** A route to an origin the management API vouches for: it matches canonical
    customer hostnames only; perhaps a rate limit of its own, then the reserved headers
    are stripped, the assertion is required, and the request goes to the upstream. *)
Record safe_route (settings : EdgeSettings) (upstreams : list (string * string)) (route : json)
    (hosts : list string) : Prop := {
  sr_hosts : hosts <> [] /\ Forall (fun h => canonicalize h = Ok h) hosts;
  sr_match : exists d m, route = JObj d /\ same_str (dkeys d) ["@id"; "match"; "handle"; "terminal"] = true /\
    dget "terminal" d = Some (JBool true) /\ dget "match" d = Some (JArr [JObj m]) /\
    same_str (dkeys m) ["host"] = true /\ dget "host" m = Some (jstr_list hosts);
  sr_handle : exists d route_id limits strip assert_step proxy,
    route = JObj d /\ dget "@id" d = Some (JStr route_id) /\ startswith "app-" route_id = true /\
    dget "handle" d = Some (JArr (limits ++ [strip; assert_step; proxy])%list) /\
    (limits = [] \/ exists limit, limits = [limit] /\ own_rate_limit route_id limit) /\
    json_eqb strip strip_handler = true /\ json_eqb assert_step (assertion_subrequest settings) = true /\
    vouched_proxy upstreams proxy;
}.

Lemma check_hosts_ok hosts seen seen' :
  check_hosts hosts seen = Ok seen' ->
  exists hs, hosts = JStr <$> hs /\ Forall (fun h => canonicalize h = Ok h) hs /\
    seen' = (rev hs ++ seen)%list /\ (NoDup seen -> NoDup seen').
Proof.
  revert seen. induction hosts as [|j hosts IH]; intros seen; cbn [check_hosts].
  - intros [= <-]. by exists [].
  - destruct j as [| | |host| |]; try done. destruct (canonicalize host) as [canonical|] eqn:Ec; [|done].
    intros [[Heq%String.eqb_eq Hm%negb_true_iff]%andb_prop Hc]%unless_rejected_ok. subst canonical.
    destruct (IH _ Hc) as (hs & -> & Hall & -> & Hnd). exists (host :: hs).
    split; [done|]. split; [by constructor|]. split; [cbn [rev]; by rewrite <- app_assoc|].
    intros Hs. apply Hnd. constructor; [|done]. by rewrite <- mem_str_true, Hm.
Qed.

Lemma as_strings l hs : mapM as_str l = Some hs -> l = JStr <$> hs.
Proof.
  revert hs. induction l as [|j l IH]; intros hs; cbn; [by intros [= <-]|].
  destruct j as [| | |t| |]; try done. cbn. destruct (mapM as_str l) as [m|]; [|done]. cbn. intros [= <-].
  by rewrite (IH m).
Qed.

Lemma key_set_obj j keys : key_set_is j keys = Ok true -> keys <> [] ->
  (exists d, j = JObj d /\ same_str (dkeys d) keys = true) \/ exists l, j = JArr l.
Proof.
  destruct j as [|b|n|t|l|d]; try done; [right; eauto|]. cbn. intros [= Hk] _. left. eauto.
Qed.

Lemma check_proxy_ok proxy upstreams : check_proxy proxy upstreams = Ok tt -> vouched_proxy upstreams proxy.
Proof.
  unfold check_proxy. destruct proxy as [| | | | |p]; try done.
  intros [Hh [Hkeys Hu]%unless_rejected_ok]%unless_rejected_ok.
  destruct (dget "handler" p) as [[| | |h| |]|] eqn:Eh; try done. apply String.eqb_eq in Hh as ->.
  destruct (dget "upstreams" p) as [[| | | |[|up []]|]|] eqn:Eu; try done.
  destruct (key_set_is up ["dial"]) as [[]|] eqn:Ek; try done.
  destruct up as [| | | | |u]; try done. cbn [key_set_is] in Ek. injection Ek as Ek.
  destruct (dget "dial" u) as [[| | |dial| |]|] eqn:Ed; try done.
  destruct (sget dial upstreams) as [origin_host|] eqn:Es; [|done].
  destruct (port ← after_last _ _; _) as [port|] eqn:Ep; [|done]. cbv zeta in Hu.
  apply unless_rejected_ok in Hu as [Hhd [Ht _]%unless_rejected_ok].
  exists p, u, dial, origin_host, port. do 8 (split; [done|]). split.
  - intros t Et. by rewrite Et in Ht.
  - apply existsb_exists in Hhd as (h & Hin%list_elem_of_In & Heq). exists h. split; [done|].
    rewrite !elem_of_cons, elem_of_nil in Hin. tauto.
Qed.

Lemma zone_ok_zone route_id zone : zone_ok route_id zone = true -> counted_zone route_id zone.
Proof.
  destruct zone as [name zone]. unfold zone_ok, counted_zone. cbn [fst snd].
  destruct (sget _ RATE_WINDOWS) as [window|] eqn:Ew; [|done]. intros [Hs Hz]%andb_prop.
  destruct zone as [| | | | |z]; try done. destruct (dget "max_events" z) as [[| |count| | |]|]; try done.
  apply andb_prop in Hz as [[Hz H1%Z.leb_le]%andb_prop H2%Z.leb_le].
  exists (removeprefix (route_id ++ "-") name), window, count. split; [|auto].
  unfold removeprefix. rewrite Hs. apply startswith_true in Hs as [r ->]. by rewrite drop_str_app.
Qed.

Lemma validate_rate_limit_ok route_id limit : validate_rate_limit route_id limit = Ok tt -> own_rate_limit route_id limit.
Proof.
  unfold validate_rate_limit. destruct limit as [| | | | |d]; try done. intros [Hk Hr]%unless_rejected_ok.
  destruct (dget "handler" d) as [[| | |h| |]|] eqn:Eh; try done.
  destruct (dget "rate_limits" d) as [[| | | | |[|z zones]]|] eqn:Er; try done.
  apply unless_rejected_ok in Hr as [[->%String.eqb_eq Hz]%andb_prop _].
  exists d, (z :: zones). do 5 (split; [done|]). apply Forall_forall. intros x Hx. apply zone_ok_zone.
  eapply forallb_forall; [exact Hz|]. by apply list_elem_of_In.
Qed.

Lemma check_handlers_ok route_id handle settings upstreams :
  check_handlers route_id handle settings upstreams = Ok tt ->
  exists limits strip assert_step proxy, handle = JArr (limits ++ [strip; assert_step; proxy])%list /\
    (limits = [] \/ exists limit, limits = [limit] /\ own_rate_limit route_id limit) /\
    json_eqb strip strip_handler = true /\
    json_eqb assert_step (assertion_subrequest settings) = true /\ vouched_proxy upstreams proxy.
Proof.
  unfold check_handlers. destruct handle as [| | | |l|]; try done.
  assert (forall limits a b c, (limits = [] \/ exists limit, limits = [limit] /\ own_rate_limit route_id limit) ->
    unless_rejected (json_eqb a strip_handler)
      (unless_rejected (json_eqb b (assertion_subrequest settings)) (check_proxy c upstreams)) = Ok tt ->
    exists limits' strip assert_step proxy, JArr (limits ++ [a; b; c])%list = JArr (limits' ++ [strip; assert_step; proxy])%list /\
      (limits' = [] \/ exists limit, limits' = [limit] /\ own_rate_limit route_id limit) /\
      json_eqb strip strip_handler = true /\ json_eqb assert_step (assertion_subrequest settings) = true /\
      vouched_proxy upstreams proxy) as Hstd.
  { intros limits a b c Hl [H1 [H2 H3%check_proxy_ok]%unless_rejected_ok]%unless_rejected_ok. exists limits, a, b, c. auto. }
  destruct l as [|a [|b [|c [|d [|]]]]]; try done; [exact (Hstd [] a b c (or_introl eq_refl))|].
  destruct (validate_rate_limit route_id a) as [[]|] eqn:Ea; [|done]. apply validate_rate_limit_ok in Ea.
  apply (Hstd [a] b c d). right. eauto.
Qed.

Lemma validate_app_route_ok route settings upstreams seen seen' :
  validate_app_route route settings upstreams seen = Ok seen' ->
  exists hosts, safe_route settings upstreams route hosts /\ seen' = (rev hosts ++ seen)%list /\
    (NoDup seen -> NoDup seen').
Proof.
  unfold validate_app_route. destruct route as [| | | | |d]; try done. intros [Hkeys Hr]%unless_rejected_ok.
  destruct (dget "@id" d) as [[| | |route_id| |]|] eqn:Eid; try done.
  destruct (dget "terminal" d) as [[|[]| | | |]|] eqn:Et; try done.
  destruct (dget "match" d) as [[| | | |[|m []]|]|] eqn:Em; try done.
  destruct (dget "handle" d) as [handle|] eqn:Eh; [|done].
  apply unless_rejected_ok in Hr as [Happ Hr]. destruct (key_set_is m ["host"]) as [[]|] eqn:Ek; try done.
  destruct m as [| | | | |m]; try done. cbn [key_set_is] in Ek. injection Ek as Ek.
  destruct (dget "host" m) as [[| | | |[|h0 hosts]|]|] eqn:Eho; try done.
  destruct (check_hosts (h0 :: hosts) seen) as [seen1|] eqn:Ec; [|done].
  destruct (check_handlers route_id handle settings upstreams) as [[]|] eqn:Ech; [|done]. injection Hr as <-.
  destruct (check_hosts_ok _ _ _ Ec) as (hs & Hhs & Hall & -> & Hnd).
  destruct (check_handlers_ok _ _ _ _ Ech) as (limits & strip & assert_step & proxy & -> & Hl & H1 & H2 & Hp).
  exists hs. split; [|done]. constructor.
  - split; [|done]. by destruct hs.
  - exists d, m. rewrite Eho, Hhs. auto 10.
  - exists d, route_id, limits, strip, assert_step, proxy. auto 10.
Qed.

Lemma validate_app_routes_ok routes settings upstreams seen :
  validate_app_routes routes settings upstreams seen = Ok tt -> NoDup seen ->
  exists hss, Forall2 (safe_route settings upstreams) routes hss /\ NoDup (rev (mjoin hss) ++ seen)%list.
Proof.
  revert seen. induction routes as [|route routes IH]; intros seen Hv Hs; cbn [validate_app_routes] in Hv.
  - by exists [].
  - destruct (validate_app_route route settings upstreams seen) as [seen'|] eqn:Er; [|done].
    destruct (validate_app_route_ok _ _ _ _ _ Er) as (hosts & Hsafe & -> & Hnd).
    destruct (IH _ Hv (Hnd Hs)) as (hss & Hall & Hd). exists (hosts :: hss). split; [by constructor|].
    cbn [mjoin list_join]. by rewrite rev_app_distr, <- app_assoc.
Qed.

Lemma fixed_routes_ok n exposed edge_names expected middle rest :
  fixed_routes n exposed edge_names expected middle = Ok rest ->
  exposed = true /\ exists hosts, subset_str hosts edge_names = true /\
    json_eqb (JArr (take n middle)) (JArr (expected (merge_sort string_le hosts))) = true /\
    middle = (take n middle ++ rest)%list.
Proof.
  unfold fixed_routes. intros [He Hm]%unless_rejected_ok. split; [done|].
  destruct middle as [|[| | | | |first] middle]; try done.
  destruct (hosts_vouched (route_hosts first) edge_names) as [hosts|] eqn:Eh; [|done].
  apply unless_rejected_ok in Hm as [Heq [= <-]]. exists hosts. split; [|split; [done|by rewrite take_drop]].
  unfold hosts_vouched in Eh. destruct (route_hosts first) as [[| | | |[|x l]|]|]; try done.
  destruct (forallb hashable _); [|done]. destruct (mapM as_str _); [|done].
  destruct (subset_str _ _) eqn:E; [|done]. by injection Eh as <-.
Qed.

(** The routes of the edge's own names that may precede the applications': each
    group is missing or exactly what the settings and the API's facts determine. *)
Definition own_routes (settings : EdgeSettings) (facts : EdgeFacts) (l : list json) : Prop :=
  exists portal operator api, l = (portal ++ operator ++ api)%list /\
    (portal = [] \/ ef_portal_ranges facts <> [] /\ exists hosts, subset_str hosts (ef_edge_names facts) = true /\
       json_eqb (JArr portal) (JArr (portal_routes_for (merge_sort string_le hosts) (ef_portal_ranges facts)
                                       (assert_upstream settings))) = true) /\
    (operator = [] \/ ef_operator_ranges facts <> [] /\ exists hosts, subset_str hosts (ef_edge_names facts) = true /\
       json_eqb (JArr operator) (JArr (operator_routes_for (merge_sort string_le hosts) (ef_operator_ranges facts)
                                         (assert_upstream settings))) = true) /\
    (api = [] \/ ef_public_api facts = true /\ exists hosts, subset_str hosts (ef_edge_names facts) = true /\
       json_eqb (JArr api) (JArr (api_route_for (merge_sort string_le hosts) (assert_upstream settings))) = true).

(** One optional group at the head of [middle]. *)
Lemma optional_group (cond : json -> bool) n exposed edge_names expected middle rest :
  match middle with
  | first :: _ => if cond first then fixed_routes n exposed edge_names expected middle else Ok middle
  | [] => Ok middle
  end = Ok rest ->
  exists group, middle = (group ++ rest)%list /\
    (group = [] \/ exposed = true /\ exists hosts, subset_str hosts edge_names = true /\
       json_eqb (JArr group) (JArr (expected (merge_sort string_le hosts))) = true).
Proof.
  destruct middle as [|first middle]; [intros [= <-]; exists []; auto|].
  destruct (cond first); [|intros [= <-]; exists []; auto].
  intros (He & hosts & Hs & Heq & Hm)%fixed_routes_ok. exists (take n (first :: middle)). split; [done|].
  right. eauto.
Qed.

Lemma validate_middle_ok middle settings facts :
  validate_middle middle settings facts = Ok tt ->
  exists own routes hss, middle = (own ++ routes)%list /\ own_routes settings facts own /\
    Forall2 (safe_route settings (ef_upstreams facts)) routes hss /\ NoDup (mjoin hss).
Proof.
  unfold validate_middle. cbv zeta. intros Hv.
  match type of Hv with match ?x with _ => _ end = _ => destruct x as [m1|] eqn:E1; [|done] end.
  match type of Hv with match ?x with _ => _ end = _ => destruct x as [m2|] eqn:E2; [|done] end.
  match type of Hv with match ?x with _ => _ end = _ => destruct x as [m3|] eqn:E3; [|done] end.
  apply optional_group in E1 as (portal & -> & Hportal), E2 as (operator & -> & Hoperator), E3 as (api & -> & Hapi).
  destruct (validate_app_routes_ok _ _ _ _ Hv) as (hss & Hall & Hnd); [constructor|].
  exists (portal ++ operator ++ api)%list, m3, hss. split; [by rewrite <- !app_assoc|]. split.
  - exists portal, operator, api. split; [done|].
    rewrite negb_true_iff, bool_decide_eq_false in Hportal. rewrite negb_true_iff, bool_decide_eq_false in Hoperator.
    auto.
  - split; [done|]. rewrite app_nil_r in Hnd. rewrite <- (Permutation_rev (mjoin hss)) in Hnd. done.
Qed.

Lemma validate_tls_ok tls settings :
  validate_tls tls settings = Ok tt ->
  (es_disable_https settings = true -> not_null tls = None) /\
  (es_disable_https settings = false -> exists t, tls = Some t /\ json_eqb t (tls_app settings) = true).
Proof.
  unfold validate_tls. destruct (es_disable_https settings); [by destruct (not_null tls)|].
  intros [Ht _]%unless_rejected_ok. split; [done|]. intros _. destruct tls as [[]|]; try done; eauto.
Qed.

(** C7: Whatever configuration the gateway lets through: besides the server and TLS settings
    the edge's own settings fix, and between the health answer and the refusal of unknown
    names, every route is one of the edge's own, fixed by the settings and the API's
    facts, or leads canonical customer hostnames to an origin the API vouches for; such a
    route counts by its own id if it limits a rate, then strips the headers, requires the
    assertion and proxies, over TLS verified for the origin's name unless in clear; no
    hostname is routed twice. *)
Theorem accepted_config_is_safe apps settings facts :
  validate_apps apps settings facts = Ok tt ->
  exists a http servers srv first own routes last hss,
    apps = JObj a /\ subset_str (dkeys a) ["http"; "tls"] = true /\
    dget "http" a = Some (JObj http) /\ same_str (dkeys http) (dkeys (http_app settings [])) = true /\
    entries_match (http_app settings []) "servers" http = true /\
    dget "servers" http = Some (JObj servers) /\
    same_str (dkeys servers) [SERVER_NAME] = true /\ dget SERVER_NAME servers = Some (JObj srv) /\
    subset_str (dkeys srv) ("routes" :: dkeys (server settings [])) = true /\
    entries_match (server settings []) "routes" srv = true /\
    (es_disable_https settings = true -> not_null (dget "tls" a) = None) /\
    (es_disable_https settings = false -> exists t, dget "tls" a = Some t /\ json_eqb t (tls_app settings) = true) /\
    dget "routes" srv = Some (JArr (first :: own ++ routes ++ [last])%list) /\
    json_eqb first health_route = true /\ json_eqb last unmatched_route = true /\
    own_routes settings facts own /\
    Forall2 (safe_route settings (ef_upstreams facts)) routes hss /\ NoDup (mjoin hss).
Proof.
  unfold validate_apps. destruct apps as [| | | | |a]; try done. intros [Hka Hv]%unless_rejected_ok.
  destruct (dget "http" a) as [[| | | | |http]|] eqn:Eh; try done.
  apply unless_rejected_ok in Hv as [[Hkh Heh]%andb_prop Hv].
  destruct (dget "servers" http) as [[| | | | |servers]|] eqn:Es; try done. apply unless_rejected_ok in Hv as [Hk Hv].
  destruct (validate_server _ settings facts) as [[]|] eqn:Ev; [|done]. apply validate_tls_ok in Hv as [Hclear Htls].
  destruct (dget SERVER_NAME servers) as [srv|] eqn:Esrv; [|done]. cbn [default] in Ev. unfold validate_server in Ev.
  destruct srv as [| | | | |srv]; try done. apply unless_rejected_ok in Ev as [[Hks Hes]%andb_prop Ev].
  destruct (dget "routes" srv) as [[| | | |[|first [|r rest]]|]|] eqn:Er; try done.
  apply unless_rejected_ok in Ev as [[H1 H2]%andb_prop Hm].
  destruct (validate_middle_ok _ _ _ Hm) as (own & routes & hss & Hmid & Hown & Hall & Hnd).
  exists a, http, servers, srv, first, own, routes, (List.last (r :: rest) JNull), hss.
  do 12 (split; [done|]). split; [|auto 10]. rewrite app_assoc, <- Hmid, removelast_and_last. done.
Qed.
End Sound.
