(* ===== verification/SdkProps.v ===== *)
(** * From the edge to the application

    The two ends of the assertion, and of the origin check, meet: what the SDK's
    middleware lets through was signed by a key of the application for this hostname;
    a request the edge asserts reaches the workspace its domain is registered for; and
    an application that wraps itself in the middleware passes the origin check. *)

From Stdlib Require Import Ascii String ZArith Lia.
From stdpp Require Import base gmap strings list sets sorting.
From S2P Require Import Prelude PyStr Base64 Utf8 Json JsonText Errors External Assertion Models Hostname.
From S2P Require Import EdgeSettings Egress Dns DnsSetup Domains DnsChecks EdgeChecks Applications EdgeConfig.
From S2P Require Import Uuid EdgeProbe Sdk AssertionKeys Internal.
Open Scope string_scope.
Open Scope Z_scope.

(** The headers of a request as the middleware reads them. *)
Definition decoded (scope : Scope) : list (string * string) :=
  (fun h => (latin1 h.1, latin1 h.2)) <$> sc_headers scope.
Definition token_of (scope : Scope) : option string := sget (lower HEADER) (header_dict (decoded scope)).
(** The value the hostname is taken from: [Host], or the first [X-Forwarded-Host]. *)
Definition shown_host (r : WorkspaceResolver) (scope : Scope) : option string :=
  if String.eqb (wr_host_header r) "origin"
  then nonempty (Some (strip (first_part ","%char (default "" (sget "x-forwarded-host" (header_dict (decoded scope)))))))
  else host_of (decoded scope).

(** The scope with what the middleware stores in it. *)
Definition with_state (m : CustomDomainMiddleware) (o : option Assertion) (scope : Scope) : Scope :=
  scope <| sc_state ::= (fun d => Some (put_state (mw_state_key m) (Resolved o) (default [] d))) |>.

(** An HTTP request the middleware checks. *)
Definition checked_request (scope : Scope) : Prop :=
  sc_type scope = Some "http" /\
  ~ (sc_path scope = Some ORIGIN_VERIFICATION_PATH /\ sc_method scope = Some "GET").

Section Middleware.
Context `{External}.
Context (lookup : string -> bool).

(** An assertion made with a key the resolver holds, for its application, the time and
    the hostname the request shows. *)
Definition authentic (r : WorkspaceResolver) (scope : Scope) (now : Z) (a : Assertion) : Prop :=
  exists token payload signature key,
    token_of scope = Some token /\ token = signing_input (as_key_id a) payload ++ "." ++ signature /\
    sget (as_key_id a) (wr_keys r) = Some key /\
    unb64 signature = Some (hmac_sha256 key (signing_input (as_key_id a) payload)) /\
    read_payload (as_key_id a) payload = Some a /\
    as_issued_at a <= now + wr_skew r /\ now <= as_expires_at a + wr_skew r /\
    as_application_id a = wr_application_id r /\
    forall host, hostname_of (shown_host r scope) = Some host -> as_hostname a = rstrip_if dot (lower host).

Lemma verify_assertion_ok token keys app host now skew a :
  verify_assertion token keys app host now skew = Ok a ->
  Assertion.verify token keys (Some app) ((fun h => rstrip_if dot (lower h)) <$> host) now skew = Ok a.
Proof. intros Hv. pose proof (verify_assertion_agrees token keys app host now skew) as Ha. by rewrite Hv in Ha. Qed.

Lemma verify_assertion_missing token keys app host now skew e :
  verify_assertion token keys app host now skew = Err e -> ai_code e = "missing" -> nonempty token = None.
Proof.
  unfold verify_assertion, check_claims. destruct (nonempty token); [|done].
  intros Hv Hm. repeat case_match; simplify_eq.
Qed.

(** What the resolver answers, in terms of the check of one token. *)
Lemma resolve_inv r scope now :
  let checked := verify_assertion (token_of scope) (wr_keys r) (wr_application_id r)
                   (hostname_of (shown_host r scope)) now (wr_skew r) in
  resolve r (decoded scope) (host_of (decoded scope)) now = checked \/
  shown_host r scope = None /\ nonempty (token_of scope) <> None /\
  exists message, resolve r (decoded scope) (host_of (decoded scope)) now = Err (invalid_assertion "wrong_hostname" message).
Proof.
  unfold resolve, shown_host. fold (token_of scope). cbv zeta. destruct (String.eqb (wr_host_header r) "origin"); [|by left].
  set (forwarded := nonempty _). destruct (bool_decide_reflect (forwarded = None)) as [Hn|]; [|by left].
  destruct (bool_decide_reflect (nonempty (token_of scope) <> None)) as [Ht|]; [|by left]. right. cbn [andb]. eauto.
Qed.

Lemma resolve_authentic r scope now a :
  resolve r (decoded scope) (host_of (decoded scope)) now = Ok a -> authentic r scope now a.
Proof.
  intros Hr. destruct (resolve_inv r scope now) as [Hc|(_ & _ & message & Hc)]; [|congruence]. rewrite Hc in Hr.
  apply verify_assertion_ok, accepted_is_authentic in Hr
    as (t & payload & signature & key & Ht & -> & Hk & Hs & Hp & H1 & H2 & Happ & Hhost).
  exists (signing_input (as_key_id a) payload ++ "." ++ signature), payload, signature, key.
  do 7 (split; [done|]). split; [by apply Happ|]. intros host Hh. apply Hhost. by rewrite Hh.
Qed.

Lemma resolve_missing r scope now e :
  resolve r (decoded scope) (host_of (decoded scope)) now = Err e -> ai_code e = "missing" ->
  nonempty (token_of scope) = None.
Proof.
  intros Hr Hm. destruct (resolve_inv r scope now) as [Hc|(_ & _ & message & Hc)]; rewrite Hc in Hr.
  - by eapply verify_assertion_missing.
  - injection Hr as <-. done.
Qed.

(** What the middleware does with a request it checks. *)
Lemma call_checked m scope now :
  checked_request scope ->
  call lookup m scope now =
    let proceed o :=
      if bool_decide (sc_path scope = Some WORKSPACE_PATH) then
        match o with
        | None => (with_state m o scope, json_reply 403 [("error", "assertion_missing")])
        | Some a =>
            if negb (lookup (as_reference a)) then (with_state m o scope, json_reply 404 [("error", "workspace_not_found")])
            else (with_state m o scope,
                  json_reply 200 [("reference", as_reference a); ("application", as_application_id a)])
        end
      else (with_state m o scope, Called) in
    match resolve (mw_resolver m) (decoded scope) (host_of (decoded scope)) now with
    | Ok a => proceed (Some a)
    | Err e =>
        if String.eqb (ai_code e) "missing" && String.eqb (mw_on_missing m) "passthrough" then proceed None
        else (scope, json_reply 403 [("error", "assertion_" ++ ai_code e); ("message", ai_message e)])
    end.
Proof.
  intros [Ht Hp]. unfold call. rewrite (bool_decide_true (sc_type scope = Some "http")) by done. cbn [negb].
  destruct (_ && _) eqn:E; [|done]. apply andb_prop in E as [E1%bool_decide_eq_true E2%bool_decide_eq_true]. by destruct Hp.
Qed.

(** C33: Nothing passes the middleware without the edge's word: when it calls the application
    for a request it checks, the scope holds an assertion authenticated with a key the
    application holds, for this application, time and hostname, or holds none, which
    happens only in passthrough mode for a request that carries no assertion; and it
    confirms a workspace only for such an assertion of a workspace the application serves. *)
Theorem middleware_admits_only_asserted m scope now scope' outcome :
  checked_request scope -> call lookup m scope now = (scope', outcome) ->
  (outcome = Called ->
     exists o, scope' = with_state m o scope /\
       match o with
       | Some a => authentic (mw_resolver m) scope now a
       | None => mw_on_missing m = "passthrough" /\ nonempty (token_of scope) = None
       end) /\
  (forall headers messages, outcome = Replied (ResponseStart 200 headers :: messages) ->
     sc_path scope = Some WORKSPACE_PATH /\
     exists a, authentic (mw_resolver m) scope now a /\ lookup (as_reference a) = true /\
       messages = [ResponseBody (dumps (JObj (strings [("reference", as_reference a); ("application", as_application_id a)])))]).
Proof.
  intros Hc. rewrite (call_checked m scope now Hc). cbv zeta.
  destruct (resolve _ _ _ now) as [a|e] eqn:Er.
  - pose proof (resolve_authentic _ _ _ _ Er) as Ha.
    destruct (bool_decide_reflect (sc_path scope = Some WORKSPACE_PATH)) as [Hp|Hp].
    + destruct (lookup (as_reference a)) eqn:El; intros [= <- <-]; (split; [done|]); intros headers messages [=].
      subst. split; [done|]. by exists a.
    + intros [= <- <-]. split; [|done]. intros _. by exists (Some a).
  - destruct (_ && _) eqn:Ep; [|by intros [= <- <-]].
    apply andb_prop in Ep as [Em%String.eqb_eq Ep%String.eqb_eq].
    destruct (bool_decide_reflect (sc_path scope = Some WORKSPACE_PATH)) as [Hp|Hp]; intros [= <- <-]; [done|].
    split; [|done]. intros _. exists None. split; [done|]. split; [done|]. by eapply resolve_missing.
Qed.
End Middleware.

(** ** A request the edge forwards *)

Section Composition.
Context `{External, Deployment, !IdnaLaws}.
Context (lookup : string -> bool).

Definition issued_at (s : Db) : Z := Z.quot (db_clock s) 1000000.
Definition request_id_of (r : AssertRequest) : string := or_else (utake 64 (default "" (ar_request_id r))) "unknown".

(** A request with the edge's token that arrives, within its time, at an application that
    holds the key and checks it with the SDK; it shows the hostname the edge saw. *)
Record delivered (m : CustomDomainMiddleware) (scope : Scope) (now : Z) (st : EdgeSettings) (s : Db) (d : Domain)
    (hostname key_id key token : string) : Prop := {
  de_key : sget key_id (wr_keys (mw_resolver m)) = Some key;
  de_application : wr_application_id (mw_resolver m) = uuid_str (dom_application_id d);
  de_time : issued_at s - wr_skew (mw_resolver m) <= now <= issued_at s + assertion_ttl st + wr_skew (mw_resolver m);
  de_checked : checked_request scope;
  de_token : token_of scope = Some token;
  de_host : exists host, shown_host (mw_resolver m) scope = Some host /\
              rstrip_if dot (lower (first_part ":"%char host)) = hostname;
}.

(** What the edge signed. *)
Definition signed_assertion (st : EdgeSettings) (r : AssertRequest) (s : Db) (id : N) (d : Domain)
    (hostname key_id : string) : Assertion :=
  {| as_application_id := uuid_str (dom_application_id d); as_domain_id := uuid_str id;
     as_reference := dom_reference d; as_hostname := hostname; as_issued_at := issued_at s;
     as_expires_at := issued_at s + assertion_ttl st; as_request_id := request_id_of r; as_key_id := key_id |}.

Lemma coded_ok r a : coded r = Ok a -> r = Ok a.
Proof. by destruct r; intros [= ->]. Qed.

Lemma canonical_nonempty raw h : canonicalize raw = Ok h -> h <> "".
Proof.
  unfold canonicalize. intros Hc%canonicalize_apex_canonical ->. apply canonical_last in Hc. by apply Hc.
Qed.

(** The middleware checks what the edge signed. *)
Lemma delivered_checks m scope now st r s hostname id d key_id key token :
  admitted st r s hostname id d key_id key token -> delivered m scope now st s d hostname key_id key token ->
  coded (resolve (mw_resolver m) (decoded scope) (host_of (decoded scope)) now)
  = Assertion.verify (Some token) (wr_keys (mw_resolver m)) (Some (uuid_str (dom_application_id d))) (Some hostname) now
      (wr_skew (mw_resolver m)).
Proof.
  intros Had []. destruct de_host0 as (host & Hh & Hhost).
  destruct (ad_host _ _ _ _ _ _ _ _ _ Had) as (raw & _ & Hc).
  destruct (resolve_inv (mw_resolver m) scope now) as [->|(Hn & _)]; [|congruence].
  rewrite verify_assertion_agrees, de_token0, Hh, de_application0.
  assert (hostname_of (Some host) = Some (first_part ":"%char host)) as ->.
  { destruct host as [|c host]; [|done]. simpl in Hhost. subst hostname. by apply canonical_nonempty in Hc. }
  cbn [fmap option_fmap option_map]. by rewrite Hhost.
Qed.

Lemma delivered_resolves m scope now st r s hostname id d key_id key token :
  admitted st r s hostname id d key_id key token -> is_text (dom_reference d) = true ->
  is_text (request_id_of r) = true -> delivered m scope now st s d hostname key_id key token ->
  has_char "."%char key_id = false ->
  resolve (mw_resolver m) (decoded scope) (host_of (decoded scope)) now
  = Ok (signed_assertion st r s id d hostname key_id).
Proof.
  intros Had Href Hrid Hde Hdot. apply coded_ok.
  rewrite (delivered_checks _ _ _ _ _ _ _ _ _ _ _ _ Had Hde), (ad_signed _ _ _ _ _ _ _ _ _ Had). destruct Hde.
  destruct (ad_host _ _ _ _ _ _ _ _ _ Had) as (raw & _ & Hc).
  apply assertion_round_trip; [done|done| |exact de_time0].
  unfold plain_fields. cbn [as_application_id as_domain_id as_reference as_hostname as_request_id].
  fold (request_id_of r). by rewrite !uuid_text, Href, (hostname_text _ _ Hc), Hrid.
Qed.

(** Under a key id with a dot nothing is accepted. *)
Lemma dotted_call m scope now st r s hostname id d key_id key token :
  admitted st r s hostname id d key_id key token -> delivered m scope now st s d hostname key_id key token ->
  has_char "."%char key_id = true ->
  exists message, call lookup m scope now =
    (scope, json_reply 403 [("error", "assertion_malformed"); ("message", message)]).
Proof.
  intros Had Hde Hdot. rewrite (call_checked lookup m scope now) by apply (de_checked _ _ _ _ _ _ _ _ _ _ Hde).
  pose proof (delivered_checks _ _ _ _ _ _ _ _ _ _ _ _ Had Hde) as Hr.
  rewrite (ad_signed _ _ _ _ _ _ _ _ _ Had), dotted_key_never_verifies in Hr by done.
  destruct (resolve _ _ _ _) as [|[code message]]; [done|]. cbn [coded ai_code] in Hr. injection Hr as ->.
  by exists message.
Qed.

Lemma delivered_call m scope now st r s hostname id d key_id key token :
  admitted st r s hostname id d key_id key token -> is_text (dom_reference d) = true ->
  is_text (request_id_of r) = true -> delivered m scope now st s d hostname key_id key token ->
  has_char "."%char key_id = false ->
  call lookup m scope now =
    (with_state m (Some (signed_assertion st r s id d hostname key_id)) scope,
     if bool_decide (sc_path scope = Some WORKSPACE_PATH) then
       if lookup (dom_reference d)
       then json_reply 200 [("reference", dom_reference d); ("application", uuid_str (dom_application_id d))]
       else json_reply 404 [("error", "workspace_not_found")]
     else Called).
Proof.
  intros Had Href Hrid Hde Hdot. rewrite (call_checked lookup m scope now) by apply (de_checked _ _ _ _ _ _ _ _ _ _ Hde).
  cbv zeta. rewrite (delivered_resolves _ _ _ _ _ _ _ _ _ _ _ _ Had Href Hrid Hde Hdot).
  case_bool_decide; [|done]. cbn [as_reference signed_assertion]. by destruct (lookup (dom_reference d)).
Qed.

(** C8: A request the edge asserts reaches its workspace: whenever the routing decision puts
    an assertion on a request, under a key id without a dot, an application that holds the
    key under that id, uses the SDK and receives the request in time, with the token and
    a Host (or, for an origin's own name, a first X-Forwarded-Host) that shows the hostname,
    is called with an assertion in its scope that names the live domain of that hostname
    and the workspace it is registered for (reference and request id being Unicode text); on the workspace path the middleware itself
    answers, with that workspace if the application serves it and with 404 if it does
    not. Under a key id with a dot, which the settings accept, every such request is
    refused with 403. *)
Theorem asserted_request_reaches_its_workspace settings r s a token :
  edge_assert settings r s = Ok a -> ea_assertion a = Some token ->
  exists st hostname id d key_id key, settings = Some st /\ admitted st r s hostname id d key_id key token /\
    forall m scope now, delivered m scope now st s d hostname key_id key token ->
      (has_char "."%char key_id = false -> is_text (dom_reference d) = true -> is_text (request_id_of r) = true ->
         (sc_path scope <> Some WORKSPACE_PATH ->
            call lookup m scope now =
              (with_state m (Some (signed_assertion st r s id d hostname key_id)) scope, Called)) /\
         (sc_path scope = Some WORKSPACE_PATH ->
            (call lookup m scope now).2 =
              if lookup (dom_reference d)
              then json_reply 200 [("reference", dom_reference d); ("application", uuid_str (dom_application_id d))]
              else json_reply 404 [("error", "workspace_not_found")])) /\
      (has_char "."%char key_id = true -> exists message,
         call lookup m scope now = (scope, json_reply 403 [("error", "assertion_malformed"); ("message", message)])).
Proof.
  intros Ha Ht. destruct (edge_assert_inv settings r s a token Ha Ht)
    as (st & hostname & id & d & key_id & key & Hst & _ & Had).
  exists st, hostname, id, d, key_id, key. do 2 (split; [done|]). intros m scope now Hde. split.
  - intros Hdot Href Hrid. rewrite (delivered_call _ _ _ _ _ _ _ _ _ _ _ _ Had Href Hrid Hde Hdot).
    split; intros Hp; [by rewrite bool_decide_false|]. cbn [snd]. by rewrite bool_decide_true.
  - by apply dotted_call with (1 := Had).
Qed.

(** ** The origin check *)

(** What the probe reads of the answer the middleware gives on the workspace path. *)
Lemma workspace_answer_read reference application :
  is_text reference = true -> is_text application = true ->
  (List.length (code_points reference) <= 255)%nat -> (List.length (code_points application) <= 36)%nat ->
  let body := dumps (JObj (strings [("reference", reference); ("application", application)])) in
  read_workspace 200 (decode_replace (take_str 4096 body)) = (Some reference, Some application).
Proof.
  intros Hr Ha Hlr Hla. cbv zeta. rewrite take_str_ge.
  - rewrite decode_replace_ascii.
    + unfold read_workspace. cbn [Z.eqb negb]. rewrite loads_dumps_strings; [done| |by repeat constructor].
      apply (bool_decide_unpack _). vm_compute. exact I.
    + rewrite dumps_strings. rewrite !sall_app. cbn [fmap list_fmap join String.concat]. unfold spaced_item. cbn [fst snd].
      rewrite !sall_app, (dump_string_ascii reference), (dump_string_ascii application) by done. done.
  - rewrite dumps_strings, !length_sapp. cbn [fmap list_fmap join String.concat]. unfold spaced_item. cbn [fst snd].
    rewrite !length_sapp. pose proof (dump_string_length reference). pose proof (dump_string_length application).
    change (String.length (dump_string true "reference")) with 11%nat.
    change (String.length (dump_string true "application")) with 13%nat. cbn [String.length]. lia.
Qed.

Lemma uuid_length u : List.length (code_points (uuid_str u)) = 36%nat.
Proof.
  unfold code_points. rewrite utf8_decode_ascii.
  - cbn [default from_option id]. rewrite length_fmap.
    assert (forall x, List.length (list_ascii_of_string x) = String.length x) as Hl
      by (intros x; induction x as [|c x IH]; [done|]; cbn; by rewrite IH).
    rewrite Hl. unfold uuid_str. rewrite !length_sapp, !hex_digits_length. reflexivity.
  - eapply sall_impl; [|apply uuid_str_chars]. intros c. by destruct c as [[] [] [] [] [] [] [] []].
Qed.

Lemma may_pass_active s id d uri : may_pass s id d uri = true -> is_Some (db_applications s !! dom_application_id d).
Proof.
  unfold may_pass, is_serveable, routable, application_active.
  destruct (db_applications s !! dom_application_id d); [eauto|]. cbn [negb].
  intros Hm. by repeat case_match.
Qed.

Lemma named_workspace_passes s d prober p :
  is_Some (db_applications s !! dom_application_id d) -> is_Some (serving_origin s (dom_application_id d)) ->
  probe_workspace prober (dom_hostname d) = Ok p -> wp_status p = 200 -> wp_reference p = Some (dom_reference d) ->
  wp_application_id p = Some (uuid_str (dom_application_id d)) ->
  passing (origin_outcome s d (Some prober)) = true.
Proof.
  intros [app Happ] [[k o] Ho] Hp Hst Href Hid. unfold origin_outcome. rewrite Happ, Ho.
  destruct (app_workspace_probe_enabled app); [|done]. rewrite Hp, Hst, Href, Hid.
  by rewrite !String.eqb_refl.
Qed.

(** C23: An application that uses the SDK passes the origin check: when the edge forwards,
    with an assertion under a key id without a dot that reaches the application in time, the
    probe of the workspace path and the application serves the domain's workspace (whose
    reference has at most the 255 characters the API takes, and is Unicode text like the
    request id), the answer the middleware sends is read by the probe as this workspace and application,
    whatever else the network adds to it, and the outcome of the check is passing. *)
Theorem sdk_application_passes_origin_check settings r s a token :
  edge_assert settings r s = Ok a -> ea_assertion a = Some token ->
  exists st hostname id d key_id key, settings = Some st /\ admitted st r s hostname id d key_id key token /\
    forall m scope now,
      is_text (dom_reference d) = true -> (List.length (code_points (dom_reference d)) <= 255)%nat ->
      is_text (request_id_of r) = true ->
      has_char "."%char key_id = false -> delivered m scope now st s d hostname key_id key token ->
      sc_path scope = Some WORKSPACE_PATH -> lookup (dom_reference d) = true ->
      exists start body,
        (call lookup m scope now).2 = Replied [ResponseStart 200 start; ResponseBody body] /\
        forall wire address port server_name headers,
          wire_exchange wire {| hg_address := address; hg_port := port; hg_server_name := server_name;
                                hg_path := WORKSPACE_PATH;
                                hg_headers := probe_headers (dom_hostname d) [("Accept", "application/json")] |}
          = Ok {| hr_status := 200; hr_headers := headers; hr_body := body |} ->
          exists p, workspace_exchange wire (dom_hostname d) address port server_name WORKSPACE_PATH = Ok p /\
            forall prober, probe_workspace prober (dom_hostname d) = Ok p ->
              passing (origin_outcome s d (Some prober)) = true.
Proof.
  intros Ha Ht. destruct (edge_assert_inv settings r s a token Ha Ht)
    as (st & hostname & id & d & key_id & key & Hst & _ & Had).
  exists st, hostname, id, d, key_id, key. do 2 (split; [done|]). intros m scope now Href Hlen Hrid Hdot Hde Hp Hl.
  rewrite (delivered_call _ _ _ _ _ _ _ _ _ _ _ _ Had Href Hrid Hde Hdot). cbn [snd].
  rewrite bool_decide_true, Hl by done. eexists _, _. split; [reflexivity|].
  intros wire address port server_name headers Hw. unfold workspace_exchange. rewrite Hw. cbn [hr_status hr_body].
  rewrite workspace_answer_read; [|done|apply uuid_text|done|by rewrite uuid_length].
  eexists. split; [reflexivity|]. intros prober Hprobe.
  eapply named_workspace_passes; [|apply (ad_origin _ _ _ _ _ _ _ _ _ Had)|exact Hprobe|done..].
  apply (may_pass_active s id d (ar_forwarded_uri r)), (ad_pass _ _ _ _ _ _ _ _ _ Had).
Qed.
End Composition.
