(* ===== verification/Worker.v ===== *)
(** * The checks worker (app/dns/worker.py)

    Leasing a domain's due checks, the DNS phase and the edge phase.  The worker
    leaves its transaction while it queries DNS or probes the edge; what other
    transactions commit in those gaps is an argument ([Gaps]), so the theorems hold
    for every interleaving at transaction granularity.  Between its phases the session
    keeps the objects it loaded ([held]). *)

From Stdlib Require Import Ascii String ZArith Lia.
From stdpp Require Import base gmap strings list sets sorting.
From S2P Require Import Prelude PyStr Datetime Json Errors External Models Dns DnsSetup Domains.
From S2P Require Import ConnectFlow DnsChecks EdgeChecks.
Open Scope string_scope.
Open Scope Z_scope.

Definition EDGE_CHECK_TYPES : list CheckType := [CERTIFICATE; ORIGIN].
Definition LEASE : Z := minutes 2.

Definition due (now : Z) (c : DomainCheck) : bool :=
  match check_next_check_at c with None => true | Some t => t <=? now end.

Definition due_check_types (s : Db) (id : N) (now : Z) : list CheckType :=
  filter (fun t => match domain_check s id t with Some c => due now c | None => false end = true) all_checks.

Definition due_domain_ids (s : Db) (now : Z) (limit : nat) : list N :=
  take limit (merge_sort N.le
    (fst <$> filter (fun x => live x.2 = true /\ dom_status x.2 <> DELETING
                              /\ bool_decide (due_check_types s x.1 now <> []) = true)
               (map_to_list (db_domains s)))).

(** The checks of [types] the statement updates. *)
Definition leasable (s : Db) (id : N) (now : Z) (force : bool) (t : CheckType) : bool :=
  match domain_check s id t with Some c => force || due now c | None => false end.

Definition lease_domain (id : N) (now : Z) (types : list CheckType) (force : bool) : M bool :=
  s ← get;
  let leased := filter (fun t => leasable s id now force t = true) types in
  _ ← schedule_checks id leased (now + LEASE);
  mret (negb (bool_decide (leased = []))).

(** [_load]: the live row, unless it is being deleted. *)
Definition load (s : Db) (id : N) : option Domain :=
  match db_domains s !! id with
  | Some d => if live d && negb (bool_decide (dom_status d = DELETING)) then Some d else None
  | None => None
  end.

(** Identity of the live claim the observations were made against. *)
Definition claim_version (s : Db) (id : N) : option (N * string * string) :=
  match active_claim s id with
  | Some (k, c) => Some (k, claim_token c, claim_cname_target c)
  | None => None
  end.

Record Processed := { pr_done : bool; pr_status_changed : bool }.

(** What the DNS transaction decided: skipped, or whether the status changed and
    whether the edge checks run now. *)
Inductive DnsPhase := DNS_SKIPPED | DNS_APPLIED (changed edge_due : bool).

Section Worker.
Context `{External, Deployment}.

(** The transaction after the DNS queries. *)
Definition dns_transaction (id a : N) (queried : option (N * string * string))
    (ownership routing : Outcome) (zone : option string) (status_before : DomainStatus)
    (edge_due : bool) : M DnsPhase :=
  _ ← lock_application a;
  s ← get;
  match load s id with
  | None => mret DNS_SKIPPED
  | Some d =>
      if negb (bool_decide (claim_version s id = queried)) then
        _ ← schedule_checks id DNS_CHECKS (db_clock s);
        mret DNS_SKIPPED
      else
        _ ← apply_dns_outcomes id ownership routing (Some (db_clock s));
        d ← the_domain id;
        clock ← gets db_clock;
        _ ← match zone with
            | Some z => if bool_decide (dom_zone d = Some z) then mret tt
                        else update_domain id (fun d => d <| dom_zone := Some z |> <| dom_updated_at := clock |>)
            | None => mret tt
            end;
        let changed := negb (bool_decide (dom_status d = status_before)) in
        edge_due ← (if changed && negb edge_due
                    then lease_domain id clock EDGE_CHECK_TYPES true
                    else mret edge_due);
        mret (DNS_APPLIED changed edge_due)
  end.

(** The transaction after the edge probes. *)
Definition edge_transaction (id a : N) (probed : option (N * string * string))
    (certificate origin : Outcome) (status_before : DomainStatus) : M Processed :=
  _ ← lock_application a;
  s ← get;
  match load s id with
  | None => mret {| pr_done := true; pr_status_changed := true |}
  | Some d =>
      if negb (bool_decide (claim_version s id = probed)) || negb (eligible_for_edge_checks s id d) then
        mret {| pr_done := true; pr_status_changed := negb (bool_decide (dom_status d = status_before)) |}
      else
        _ ← apply_edge_outcomes id certificate origin (Some (db_clock s));
        d ← the_domain id;
        mret {| pr_done := true; pr_status_changed := negb (bool_decide (dom_status d = status_before)) |}
  end.

(** What other transactions commit while this worker is between its own. *)
Record Gaps := {
  gap_leased : Db -> Db;   (* after the lease is committed, before the load *)
  gap_queried : Db -> Db;  (* while DNS is queried *)
  gap_dns : Db -> Db;      (* after the DNS phase *)
  gap_probed : Db -> Db;   (* while the edge is probed *)
}.

(** What the session still holds of [loaded] when it reads [s]: a commit expires
    nothing ([expire_on_commit=False]), so the domain, its application, claims and
    checks keep the values they were loaded with; origins are read when needed. *)
Definition held (loaded s : Db) : Db :=
  s <| db_domains := db_domains loaded |> <| db_applications := db_applications loaded |>
    <| db_claims := db_claims loaded |> <| db_checks := db_checks loaded |>.

(** [_load] on such a session: the query sees whether the row is live now, the
    status is the one held. *)
Definition load_held (loaded s : Db) (id : N) : option Domain :=
  match db_domains s !! id with
  | Some d => if live d then load (held loaded s) id else None
  | None => None
  end.

(** [loaded]: the state the session last loaded the domain from. *)
Definition edge_phase (gaps : Gaps) (prober : EdgeProber) (settings : EdgeFlags) (loaded : Db) (id a : N)
    (status_before : DomainStatus) (edge_due : bool) : M Processed :=
  _ ← modify (gap_dns gaps);
  s ← get;
  let seen := held loaded s in
  match load_held loaded s id with
  | None => mret {| pr_done := true; pr_status_changed := true |}
  | Some d =>
      if negb edge_due || negb (eligible_for_edge_checks seen id d) then
        mret {| pr_done := true; pr_status_changed := negb (bool_decide (dom_status d = status_before)) |}
      else
        let probed := claim_version seen id in
        let certificate := certificate_outcome prober d settings (db_clock s) in
        let origin := origin_outcome seen d (Some prober) in
        _ ← modify (gap_probed gaps);
        transaction (edge_transaction id a probed certificate origin status_before)
  end.

Definition process_domain (gaps : Gaps) (r : Resolver) (prober : EdgeProber) (settings : EdgeFlags)
    (zone : option string) (id : N) (now : option Z) : M Processed :=
  let skipped := {| pr_done := false; pr_status_changed := false |} in
  now ← now_or now;
  types ← gets (fun s => due_check_types s id now);
  match types with
  | [] => mret skipped
  | _ =>
      leased ← transaction (lease_domain id now types false);
      if negb leased then mret skipped else
      _ ← modify (gap_leased gaps);
      s ← get;
      match load s id with
      | None => mret skipped
      | Some d =>
          let a := dom_application_id d in
          let status_before := dom_status d in
          let dns_due := existsb (fun t => bool_decide (t ∈ DNS_CHECKS)) types in
          let edge_due := existsb (fun t => bool_decide (t ∈ EDGE_CHECK_TYPES)) types in
          if dns_due then
            let queried := claim_version s id in
            let ownership := ownership_outcome r s id in
            let routing := routing_outcome r s id d in
            _ ← modify (gap_queried gaps);
            phase ← transaction (dns_transaction id a queried ownership routing zone status_before edge_due);
            match phase with
            | DNS_SKIPPED => mret skipped
            | DNS_APPLIED _ edge_due =>
                applied ← get;
                edge_phase gaps prober settings applied id a status_before edge_due
            end
          else edge_phase gaps prober settings s id a status_before edge_due
      end
  end.

Record WorkerResult := { wr_processed : Z; wr_failed : Z; wr_status_changes : Z }.

(** One domain of the batch: an exception is counted and the batch goes on. *)
Definition tally (w : WorkerResult) (o : res exn Processed) : WorkerResult :=
  match o with
  | Ok p => {| wr_processed := wr_processed w + (if pr_done p then 1 else 0); wr_failed := wr_failed w;
               wr_status_changes := wr_status_changes w + (if pr_status_changed p then 1 else 0) |}
  | Err _ => {| wr_processed := wr_processed w; wr_failed := wr_failed w + 1;
                wr_status_changes := wr_status_changes w |}
  end.

Fixpoint run_batch (gaps : N -> Gaps) (r : Resolver) (prober : EdgeProber) (settings : EdgeFlags)
    (zone : N -> option string) (now : option Z) (ids : list N) (w : WorkerResult) (s : Db) : WorkerResult * Db :=
  match ids with
  | [] => (w, s)
  | id :: ids =>
      let '(o, s) := process_domain (gaps id) r prober settings (zone id) id now s in
      run_batch gaps r prober settings zone now ids (tally w o) s
  end.

Definition run_due_checks (gaps : N -> Gaps) (r : Resolver) (prober : EdgeProber) (settings : EdgeFlags)
    (zone : N -> option string) (now : option Z) (limit : nat) (s : Db) : WorkerResult * Db :=
  let batch_now := default (db_clock s) now in
  run_batch gaps r prober settings zone now (due_domain_ids s batch_now limit)
    {| wr_processed := 0; wr_failed := 0; wr_status_changes := 0 |} s.
End Worker.
