(* ===== verification/Cli.v ===== *)
(** * The command line (app/cli.py)

    One handler per command: what it commits, what it prints and its exit code.  A command
    works in one session, which is rolled back unless the handler commits it; [main] turns
    the service's errors into exit code 2.  The argument parser is not modelled: a
    [Command] holds the parsed arguments, a float of hours as the [timedelta] made of it.
    Left out are [db upgrade] and [downgrade], [edge gateway], [dev demo] and
    [openapi export].  Theorem: a command that does not succeed has changed nothing, but
    for the commands that record what they found. *)

From Stdlib Require Import Ascii String ZArith Lia.
From stdpp Require Import base gmap strings list.
From S2P Require Import Prelude PyStr Datetime Json JsonText Errors External Models Uuid Url Signing.
From S2P Require Import Hostname EdgeSettings Egress Dns DnsSetup Schemas Webhooks Limits Domains ConnectFlow.
From S2P Require Import Idempotency OperatorToken DnsChecks EdgeChecks DnsSettings Applications AssertionKeys EdgeConfig.
From S2P Require Import Traffic Operator Legacy Doctor Reconcile Delivery Internal Worker.
Open Scope string_scope.
Open Scope Z_scope.

(** ** What a command prints *)

Inductive Line :=
| Out (text : string)
| Diag (text : string)                              (* on standard error *)
| Complaint (code : string)                         (* "... [code]: message" on standard error, without its message *)
| Document (j : json)                               (* [json.dumps(j, indent=2, sort_keys=True)] *)
| File (path : string) (j : json)                   (* the same, written to a file of mode 0600 *)
| TrafficRow (label : string) (requests sent : Z)   (* its columns; [human_bytes] is left out *)
| SkippedHost (hostname : json) (reason : string).  (* on standard error *)

Record Ending := { exit_code : Z; printed : list Line }.
Definition exits (code : Z) (lines : list Line) : Ending := {| exit_code := code; printed := lines |}.

(** [f"{s:<w}"], [f"{s:>w}"] and [f"{n:,}"] *)
Definition spaces (n : Z) : string := Nat.iter (Z.to_nat n) (String " ") "".
Definition ljust (w : Z) (s : string) : string := s ++ spaces (w - ulen s).
Definition rjust (w : Z) (s : string) : string := spaces (w - ulen s) ++ s.
Fixpoint grouped (fuel : nat) (n : Z) : string :=
  match fuel with
  | O => py_str n
  | S f => if n <? 1000 then py_str n else grouped f (n / 1000) ++ "," ++ pad_digits 3 (n mod 1000)
  end.
Definition thousands (n : Z) : string :=
  if n <? 0 then "-" ++ grouped (Z.to_nat (- n)) (- n) else grouped (Z.to_nat n) n.

(** [value.isoformat(timespec="seconds")] *)
Definition iso_seconds (t : Z) : string := isoformat (t / 1000000 * 1000000).
Definition TAB : string := String "009"%char "".
Definition columns (l : list string) : string := join TAB l.

(** ** Commands *)

Record OriginChoice := { og_application : string; og_id : option string; og_host : option string }.

Inductive Command :=
| CmdApplicationCreate (slug name : string) (cname_target : option string)
| CmdApplicationList (deleted : bool)
| CmdSetWorkspaceProbe (application : string) (enabled : bool)
| CmdSetCnameTarget (application cname_target : string) (reissue_claims : bool)
| CmdRename (application name : string)
| CmdSetDomainLimit (application : string) (max : option Z)      (* [None]: --none *)
| CmdSetRateLimit (application : string) (per_minute per_second : option Z)
| CmdTraffic (application : string) (n : Z)
| CmdApplicationDelete (application confirm : string) (delete_domains : bool)
| CmdCredentialIssue (application label : string) (expires_in_days : option Z) (scope : string)
| CmdCredentialRevoke (application id : string)
| CmdCredentialList (application : string)
| CmdCredentialRotate (application id : string) (label : option string) (grace : option Z)
| CmdCredentialDelete (application id : string)
| CmdKeyIssue (application : string) (activate_in : option Z)
| CmdKeyList (application : string)
| CmdKeyRevoke (application key_id : string)
| CmdOriginRegister (application host scheme : string) (port : option Z) (host_header : string)
| CmdOriginList (application : string)
| CmdOriginVerify (o : OriginChoice) (activate allow_private : bool)
| CmdOriginActivate (o : OriginChoice)
| CmdOriginRetire (o : OriginChoice)
| CmdOriginHostHeader (o : OriginChoice) (mode : string)
| CmdOriginDelete (o : OriginChoice)
| CmdResetToken
| CmdTokenStatus
| CmdSigner
| CmdSetRemote (url provider_id service_id credential : string)  (* the credential of standard input *)
| CmdSignerReset
| CmdPublicKey
| CmdLegacyImport (application file : string) (port : Z) (reference_map : option string)
    (hostname_as_reference grandfather allow_skipped dry_run : bool)   (* the texts of the two files *)
| CmdPurge
| CmdSetupStats (application : option string) (days_back : option Z)
| CmdEdgeConfig
| CmdEdgeReconcile (dry_run : bool)
| CmdEdgeBootstrap (output : string)
| CmdLibpqUrl
| CmdChecksRun (limit : nat)
| CmdChecksDns (application hostname : string)
| CmdChecksEdge (application hostname : string)
| CmdWorkerOnce
| CmdDoctor.

(** What a command is given: the environment, the network, and what others commit while
    its workers wait. *)
Record Shell := {
  sh_settings : res settings_error EdgeSettings;   (* [EdgeSettings.from_env()] *)
  sh_dns : res exn DnsSettings;                    (* [DnsSettings.from_env()] *)
  sh_wire : Wire;
  sh_system : Resolver;                            (* [SystemResolver] *)
  sh_answers : Resolver;                           (* what a batch's resolver answers while it runs *)
  sh_prober : EdgeProber;
  sh_zone : N -> option string;                    (* the [ZoneDetector] *)
  sh_gaps : N -> Gaps;
  sh_sender : Sender;
  sh_send_gaps : N -> SendGaps;
  sh_database : Database;                          (* what the doctor sees of it *)
  sh_invalid_limit : string;                       (* the text of an [InvalidLimit] *)
  sh_families : Families;
  sh_holder : string;
  sh_opened : bool;
}.

Section Commands.
Context `{External, Deployment, PrivateKeys}.
Context (urlsplit : string -> option UrlSplit) (urlparse : string -> option string * option Z).
Context (shell : Shell).

Definition invalid_edge : Ending := exits 2 [Complaint "edge_configuration"].
(** [_edge_settings()]; a command goes on only with settings. *)
Definition with_settings (k : EdgeSettings -> M Ending) : M Ending :=
  match sh_settings shell with Ok settings => k settings | Err _ => mret invalid_edge end.
(** [EdgeSettings.from_env()], a [ValueError] when it raises. *)
Definition settings_or_raise : res exn EdgeSettings :=
  match sh_settings shell with Ok settings => Ok settings | Err _ => Err PyValueError end.
(** [_resolver()] *)
Definition the_resolver (s : Db) : res exn Resolver :=
  dns ← sh_dns shell; edge ← settings_or_raise; make_resolver dns edge s (sh_system shell).

Definition uuid_arg (text : string) : res exn N := require (uuid_of text) PyValueError.
Definition named (slug : string) : M (N * Application) := get_application_by_slug slug false.
Definition the_credential (k : N) : M ApiCredential := c ← gets (fun s => db_credentials s !! k); need c PyRuntimeError.
Definition the_key (k : N) : M AssertionKey := r ← gets (fun s => db_assertion_keys s !! k); need r PyRuntimeError.

(** ** Applications *)

Definition application_create (slug name : string) (cname_target : option string) : M Ending :=
  target ← (match nonempty cname_target with
            | Some t => mret (Some t)
            | None => settings ← lift settings_or_raise; mret (nonempty (es_edge_hostname settings))
            end);
  match target with
  | None => mret (exits 2 [Diag "error: --cname-target is required when EDGE_HOSTNAME is not set"])
  | Some target =>
      a ← transaction (create_application slug name target); r ← the_application a;
      mret (exits 0 [Out ("created application " ++ app_slug r ++ " (" ++ uuid_str a ++ ")")])
  end.

Definition application_list (deleted : bool) : M Ending :=
  s ← get;
  mret (exits 0
    (if deleted then
       (fun x : N * Application =>
          Out (columns [app_slug x.2; app_name x.2; "deleted " ++ isoformat (default 0 (app_deleted_at x.2));
                        "kept until " ++ isoformat (default 0 (app_purge_after x.2)); uuid_str x.1]))
       <$> list_deleted_applications s
     else
       (fun x : N * Application =>
          Out (columns [app_slug x.2; application_status_value (app_status x.2); app_cname_target x.2; uuid_str x.1]))
       <$> list_applications s)).

Definition application_set_workspace_probe (slug : string) (enabled : bool) : M Ending :=
  x ← named slug; _ ← transaction (set_workspace_probe x.1 enabled);
  mret (exits 0 [Out ("workspace probe " ++ (if enabled then "required" else "not required") ++ " for " ++ app_slug x.2)]).

(** The target is set, then the claims of the domains that still name another are issued again. *)
Definition move_target (a : N) (cname_target : string) (reissue_claims : bool) : M (string * list N) :=
  target ← set_cname_target a cname_target;
  stale ← gets (fun s => stale_domains s a target);
  _ ← (if reissue_claims then for_each stale (fun id => _ ← reissue_claim a id None; mret tt) else mret tt);
  mret (target, stale).
Definition application_set_cname_target (slug cname_target : string) (reissue_claims : bool) : M Ending :=
  x ← named slug; '(target, stale) ← transaction (move_target x.1 cname_target reissue_claims);
  let n := py_str (Z.of_nat (List.length stale)) in
  let moved := Out ("cname target for " ++ app_slug x.2 ++ ": " ++ app_cname_target x.2 ++ " -> " ++ target) in
  mret (exits 0 (moved ::
    if reissue_claims then
      [Out ("re-issued the claim of " ++ n ++ " domain(s); each is pending_dns until its "
            ++ "customer publishes the new TXT value and CNAME")]
    else match stale with
         | [] => []
         | _ => [Out (n ++ " live domain(s) still tell their customers to CNAME to the old "
                      ++ "target and keep working as they are; run again with --reissue-claims to move "
                      ++ "them, or re-issue individually")]
         end)).

Definition application_rename (slug name : string) : M Ending :=
  x ← named slug; _ ← transaction (rename_application x.1 name); r ← the_application x.1;
  mret (exits 0 [Out ("renamed " ++ app_slug r ++ " to " ++ py_repr (app_name r))]).

Definition application_set_domain_limit (slug : string) (max : option Z) : M Ending :=
  x ← named slug; _ ← transaction (set_domain_limit x.1 max);
  s ← get; r ← the_application x.1;
  let live := live_domain_count s x.1 in
  mret (exits 0
    match app_max_domains r with
    | None => [Out (app_slug r ++ ": no domain limit (" ++ py_str live ++ " live)")]
    | Some cap =>
        Out (app_slug r ++ ": at most " ++ py_str cap ++ " live domains (" ++ py_str live ++ " now)")
        :: if cap <=? live then [Out ("new registrations are refused until the count drops below the limit; "
                                      ++ "existing domains keep working")] else []
    end).

Definition application_set_rate_limit (slug : string) (per_minute per_second : option Z) : M Ending :=
  x ← named slug; _ ← transaction (set_rate_limits x.1 per_minute per_second);
  let part n w := match n with Some n => if n =? 0 then [] else [thousands n ++ " a " ++ w] | None => [] end in
  let parts := (part per_minute "minute" ++ part per_second "second")%list in
  let what := match parts with [] => "no limit" | _ => join " and " parts end in
  mret (exits 0 [Out (app_slug x.2 ++ ": proxied requests limited to " ++ what ++ " (next reconcile)")]).

Definition application_traffic_report (slug : string) (n : Z) : M Ending :=
  x ← named slug; s ← get; rows ← lift (application_traffic s x.1 n None);
  mret (exits 0
    (Out (ljust 12 "DATE" ++ rjust 14 "REQUESTS" ++ rjust 12 "SENT")
     :: ((fun d => TrafficRow (isodate (td_day d * day_micros)) (td_requests d) (td_response_bytes d)) <$> rows)
     ++ [TrafficRow "total" (total (td_requests <$> rows)) (total (td_response_bytes <$> rows))])%list).

Definition application_delete (slug confirm : string) (delete_domains : bool) : M Ending :=
  x ← named slug; removed ← transaction (delete_application x.1 confirm delete_domains None);
  mret (exits 0 [Out ("deleted application " ++ slug ++ " and " ++ py_str removed ++ " live domain(s); the "
                      ++ "records are kept for 90 days, then removed by `domain purge-tombstones`")]).

(** ** Credentials *)

Definition credential_lines (k : N) (c : ApiCredential) (secret : string) (id_label : string) : list Line :=
  [Out (id_label ++ uuid_str k); Out ("prefix:        " ++ cred_key_prefix c);
   Out ("scope:         " ++ scope_value (cred_scope c)); Out "secret (shown once, store it now):"; Out secret].

Definition credential_issue (slug label : string) (expires_in_days : option Z) (scope : string) : M Ending :=
  now ← gets db_clock;
  let expires_at := match expires_in_days with Some n => if n =? 0 then None else Some (now + days n) | None => None end in
  x ← named slug; '(k, secret) ← transaction (issue_credential x.1 label expires_at scope); c ← the_credential k;
  mret (exits 0 (credential_lines k c secret "credential id: ")).

Definition credential_revoke (slug id : string) : M Ending :=
  x ← named slug; k ← lift (uuid_arg id); _ ← transaction (revoke_credential x.1 k None); c ← the_credential k;
  mret (exits 0 [Out ("revoked " ++ cred_key_prefix c ++ " (" ++ uuid_str k ++ ")")]).

Definition credential_list (slug : string) : M Ending :=
  x ← named slug; s ← get;
  mret (exits 0 ((fun y : N * ApiCredential =>
    Out (columns [cred_key_prefix y.2; (if bool_decide (is_Some (cred_revoked_at y.2)) then "revoked" else "active");
                  cred_label y.2; uuid_str y.1; scope_value (cred_scope y.2)])) <$> list_credentials s x.1)).

Definition credential_rotate (slug id : string) (label : option string) (grace : option Z) : M Ending :=
  x ← named slug; k ← lift (uuid_arg id); grace ← lift (require grace PyValueError);
  '(j, secret) ← transaction (rotate_credential x.1 k label grace None);
  new ← the_credential j; old ← the_credential k;
  expires ← need (cred_expires_at old) PyAttributeError;
  mret (exits 0 (credential_lines j new secret "new credential id: "
                 ++ [Out ("old credential " ++ cred_key_prefix old ++ " expires at " ++ isoformat expires)])%list).

Definition credential_delete (slug id : string) : M Ending :=
  x ← named slug; k ← lift (uuid_arg id); _ ← transaction (delete_credential x.1 k None);
  mret (exits 0 [Out ("deleted credential " ++ id)]).

(** ** Assertion keys *)

Definition assertion_key_issue (slug : string) (activate_in : option Z) : M Ending :=
  x ← named slug; d ← lift (require activate_in PyValueError);
  '(k, secret) ← transaction (issue_key x.1 d None); key ← the_key k;
  mret (exits 0 [Out ("application id: " ++ uuid_str x.1); Out ("key id:         " ++ ak_key_id key);
                 Out ("signs from:     " ++ iso_seconds (ak_active_from key));
                 Out "secret (shown once; add it to the origin's keyring before it signs):"; Out secret]).

Definition assertion_key_list (slug : string) : M Ending :=
  x ← named slug; s ← get;
  let now := db_clock s in
  let signing := signing_key s x.1 now in
  let row (key : N * AssertionKey) :=
    Out (ak_key_id key.2 ++ "  " ++ ljust 9 (key_state key signing now) ++ " signs from " ++ iso_seconds (ak_active_from key.2)) in
  mret (exits 0 ((match signing with None => [Out "signing with the deployment key (EDGE_ASSERTION_KEYS)"] | Some _ => [] end
                  ++ (row <$> list_keys s x.1))%list)).

Definition assertion_key_revoke (slug key_id : string) : M Ending :=
  x ← named slug; _ ← transaction (revoke_key x.1 key_id None); s ← get;
  let signing := match signing_key s x.1 (db_clock s) with Some key => ak_key_id key.2 | None => "the deployment key" end in
  mret (exits 0 [Out (key_id ++ " is revoked; requests are now signed with " ++ signing)]).

(** ** Origins *)

(** [_selected_origin] *)
Definition selected_origin (o : OriginChoice) : M (N * VerifiedOrigin) :=
  x ← named (og_application o);
  k ← (match nonempty (og_id o) with Some id => k ← lift (uuid_arg id); mret (Some k) | None => mret None end);
  get_origin x.1 k (og_host o).

Definition origin_register (slug host scheme : string) (port : option Z) (host_header : string) : M Ending :=
  x ← named slug; k ← transaction (register_origin x.1 host scheme port host_header); o ← the_origin k;
  let url := org_scheme o ++ "://" ++ org_host o ++ ":" ++ py_str (org_port o) in
  mret (exits 0
    (Out ("registered origin " ++ origin_url o ++ " (" ++ uuid_str k ++ "), status " ++ origin_status_value (org_status o))
     :: (if bool_decide (org_host_header o = HH_ORIGIN)
         then [Out ("the edge sends Host: the origin's name; " ++ "the customer's hostname is in X-Forwarded-Host")] else [])
     ++ [Out ("verification token: " ++ default "None" (org_verification_token o));
         Out ("next: serve that token as the plain-text body of " ++ url
              ++ "/.well-known/custom-domain-origin-verification, then run "
              ++ "`custom-domain origin verify --application " ++ app_slug x.2
              ++ " --host " ++ org_host o ++ " --activate`")])%list).

Definition origin_list (slug : string) : M Ending :=
  x ← named slug; s ← get;
  mret (exits 0 ((fun y : N * VerifiedOrigin =>
    let o := y.2 in
    Out (columns ([origin_url o; origin_status_value (org_status o); (if org_is_active o then "active" else "inactive");
                   uuid_str y.1] ++ match nonempty (org_last_error_code o) with Some e => [e] | None => [] end)%list))
    <$> list_origins s x.1)).

(** What the origin answers, private addresses allowed or not. *)
Definition fetched_by (allow_private : bool) (o : VerifiedOrigin) : res string OriginAnswer :=
  match (fetch_token (sh_wire shell) (org_host o) (org_port o) (org_scheme o) allow_private
           WELL_KNOWN_PATH MAX_BODY_BYTES "text/plain" Egress.USER_AGENT).1 with
  | Ok p => Ok {| oa_status := pr_status p; oa_body := pr_body p |}
  | Err e => Err e
  end.
Definition origin_verify (c : OriginChoice) (activate allow_private : bool) : M Ending :=
  y ← selected_origin c;
  failed ← transaction (verify_and_activate y.1 (fetched_by (allow_private || allow_private_from_env) y.2) activate);
  o ← the_origin y.1;
  mret (match failed with
        | Some code =>
            exits 3 [Complaint code;
                     Diag ("expected: GET " ++ org_scheme o ++ "://" ++ org_host o ++ ":" ++ py_str (org_port o) ++ WELL_KNOWN_PATH
                           ++ " -> 200 text/plain body " ++ default "None" (org_verification_token o))]
        | None =>
            exits 0 [Out ("origin " ++ origin_url o ++ " " ++ (if activate then "verified and active" else "verified")
                          ++ " (" ++ uuid_str y.1 ++ ")")]
        end).

Definition origin_activate (c : OriginChoice) : M Ending :=
  y ← selected_origin c; _ ← transaction (activate_origin y.1);
  mret (exits 0 [Out ("origin " ++ origin_url y.2 ++ " is now active for " ++ og_application c)]).
Definition origin_retire (c : OriginChoice) : M Ending :=
  y ← selected_origin c; _ ← transaction (retire_origin y.1); mret (exits 0 [Out ("retired origin " ++ origin_url y.2)]).
Definition origin_set_host_header (c : OriginChoice) (mode : string) : M Ending :=
  y ← selected_origin c; _ ← transaction (set_origin_host_header y.1 mode);
  let sent := if String.eqb mode "origin" then "the origin's own name (customer hostname in X-Forwarded-Host)"
              else "the customer's hostname" in
  mret (exits 0 [Out (origin_url y.2 ++ ": the edge sends Host = " ++ sent ++ " from the next reconcile")]).
Definition origin_delete (c : OriginChoice) : M Ending :=
  y ← selected_origin c; _ ← transaction (delete_origin y.1); mret (exits 0 [Out ("deleted origin " ++ origin_url y.2)]).

(** ** The operator's token and the signer *)

Definition operator_reset_token : M Ending :=
  removed ← transaction OperatorToken.reset;
  mret (exits 0 [Out (if (removed : bool)
                      then "the token set through the API is forgotten; OPERATOR_API_TOKEN works again"
                      else "no token was set through the API; OPERATOR_API_TOKEN is the token")]).
Definition operator_token_status : M Ending :=
  row ← gets active;
  mret (exits 0 [Out match row with
                     | None => "OPERATOR_API_TOKEN (from the environment)"
                     | Some row => "set through the API at " ++ isoformat (optok_set_at row) ++ "; OPERATOR_API_TOKEN is not accepted"
                     end]).

(** [_print_signer]; the text of a problem is left out. *)
Definition signer_lines (v : SignerView) : list Line :=
  let operator := bool_decide (sv_source v = FROM_OPERATOR) in
  let shown o := default "None" o in
  ([Out match sv_signer v with
        | None => "signer: none (Domain Connect is off)"
        | Some signer => "signer: " ++ signer ++ " (from " ++ (if operator then "the operator" else "the settings") ++ ")"
        end]
   ++ (if operator then
         [Out ("url: " ++ shown (sv_url v));
          Out ("credential: " ++ default "not readable" (nonempty (sv_credential_prefix v)) ++ "...");
          Out ("template: " ++ shown (sv_provider_id v) ++ "/" ++ shown (sv_service_id v));
          Out ("updated: " ++ match sv_updated_at v with Some t => isoformat t | None => "-" end)]
       else [])
   ++ [Out ("signing: " ++ (if sv_enabled v then "on" else "off"))]
   ++ (if sv_problem v then [Out "problem: "] else []))%list.
Definition print_signer (first : list Line) : M Ending :=
  s ← get; v ← lift (signer_view s); mret (exits 0 (first ++ signer_lines v)%list).

Definition domain_connect_set_remote (url provider_id service_id credential : string) : M Ending :=
  _ ← transaction (set_remote_signer urlsplit url (strip credential) provider_id service_id None); print_signer [].
Definition domain_connect_reset : M Ending :=
  removed ← transaction reset_signer;
  print_signer [Out (if (removed : bool) then "the signer set here is forgotten; the settings apply"
                     else "no signer was set here; the settings apply")].
Definition domain_connect_public_key : M Ending :=
  match nonempty (sg_private_key signer_settings) with
  | Some key =>
      if negb (bool_decide (sg_signer signer_settings = Some "local"))
      then mret (exits 2 [Diag "error: DOMAIN_CONNECT_SIGNER is not local"]) else
      keys ← need (parse_private_keys key (sg_key_host signer_settings)) PyValueError;
      let published k := Out ("# " ++ lk_host k ++ ".<the template's syncPubKeyDomain>")
                         :: (Out <$> public_key_records (lk_key k)) in
      mret (exits 0 (keys ≫= published))
  | None => mret (exits 2 [Diag "error: DOMAIN_CONNECT_SIGNER is not local"])
  end.

(** ** Imports, purges and counts *)

Definition EXIT_INCOMPLETE_IMPORT : Z := 3.

(** The reference map; one that holds no object raises where it is read. *)
Definition reference_map (text : option string) : res exn dict :=
  match text with
  | None => Ok []
  | Some text =>
      match loads text with
      | None => Err PyValueError
      | Some (JObj d) => Ok d
      | Some j => if truthy j then Err PyAttributeError else Ok []
      end
  end.
Definition imported_line (s : Db) (verb : string) (id : N) : list Line :=
  match db_domains s !! id with
  | Some d => [Out (columns [verb; dom_hostname d; domain_status_value (dom_status d); dom_reference d])]
  | None => []
  end.
Definition report_lines (s : Db) (verb : string) (r : ImportReport) : list Line :=
  ((rep_imported r ≫= imported_line s verb) ++ (rep_existing r ≫= imported_line s "existing")
   ++ ((fun x : json * string => SkippedHost x.1 x.2) <$> rep_skipped r))%list.
Definition summary (r : ImportReport) : string :=
  let n {A} (l : list A) := py_str (Z.of_nat (List.length l)) in
  n (rep_imported r) ++ " to import, " ++ n (rep_existing r) ++ " existing, " ++ n (rep_skipped r) ++ " skipped".

(** Committed unless it is a trial or has gaps nobody accepted. *)
Definition import_committed (allow_skipped dry_run : bool) (r : ImportReport) : bool :=
  negb dry_run && (report_complete r || allow_skipped).
Definition import_session (slug : string) (entries : list LegacyDomain) (references : dict)
    (hostname_as_reference grandfather : bool) (verb : string) : M (ImportReport * list Line) :=
  x ← named slug;
  r ← import_legacy_domains x.1 entries {| imp_references := fun k => dget k references; imp_grandfather := grandfather;
                                           imp_hostname_as_reference := hostname_as_reference |} None;
  s ← get; mret (r, report_lines s verb r).
Definition legacy_import (slug file : string) (port : Z) (references : option string)
    (hostname_as_reference grandfather allow_skipped dry_run : bool) : M Ending :=
  config ← need (loads file) PyValueError;
  entries ← lift (parse_legacy_config config port);
  if bool_decide (references = None) && negb hostname_as_reference then
    mret (exits 2 [Diag "error: --reference-map is required unless --hostname-as-reference is given"]) else
  map ← lift (reference_map references);
  s ← get;
  match import_session slug entries map hostname_as_reference grandfather
          (if dry_run then "would-import" else "imported") s with
  | (Err e, _) => raise e
  | (Ok (r, lines), s') =>
      _ ← modify (fun s => if import_committed allow_skipped dry_run r then s' else s);
      mret (if dry_run then
              exits (if report_complete r then 0 else EXIT_INCOMPLETE_IMPORT)
                (lines ++ [Out ("dry run: " ++ summary r ++ "; nothing written")])%list
            else if import_committed allow_skipped dry_run r then
              exits 0 (lines ++ [Out ("done: " ++ summary r)])%list
            else exits EXIT_INCOMPLETE_IMPORT
                   (lines ++ [Diag ("error: " ++ summary r ++ "; nothing written. Fix the skipped hostnames or "
                                    ++ "pass --allow-skipped to commit a partial import.")])%list)
  end.

Definition domain_purge : M Ending :=
  '(count, keys) ← transaction (count ← purge_tombstones None; keys ← purge_expired None; mret (count, keys));
  mret (exits 0 [Out ("purged " ++ py_str count ++ " tombstone(s) and " ++ py_str keys ++ " expired idempotency key(s)")]).

Definition domain_setup_stats (slug : option string) (days_back : option Z) : M Ending :=
  if match days_back with Some n => n <? 1 | None => false end then mret (exits 2 [Diag "error: --days must be at least 1"]) else
  scoped ← (match nonempty slug with Some slug => x ← named slug; mret (Some x.1) | None => mret None end);
  s ← get;
  let rows := setup_counts s scoped ((fun n => db_clock s - days n) <$> days_back) (effective_setup_settings s) in
  let row provider method domains ready :=
    Out (ljust 20 provider ++ ljust 16 method ++ rjust 9 domains ++ rjust 9 ready) in
  mret (exits 0
    (row "PROVIDER" "METHOD" "DOMAINS" "READY"
     :: ((fun c => row (default "(not looked up)" (nonempty (sn_provider_id c))) (default "-" (nonempty (sn_method c)))
                     (thousands (sn_domains c)) (thousands (sn_ready c))) <$> rows)
     ++ [row "total" "" (thousands (total (sn_domains <$> rows))) (thousands (total (sn_ready <$> rows)))])%list).

(** ** The edge *)

Definition edge_config : M Ending :=
  with_settings (fun settings =>
    s ← get; config ← need (build_caddy_config urlparse s settings) PyRuntimeError;
    mret (exits 0 [Document (JObj (redact config))])).

(** A file gets the document with its secrets, standard output without. *)
Definition edge_bootstrap (output : string) : M Ending :=
  with_settings (fun settings =>
    let config := build_bootstrap urlparse settings in
    mret (exits 0 (if String.eqb output "-" then [Document (JObj (redact config))]
                   else [File output (JObj config); Out ("wrote " ++ output)]))).

Definition DEFAULT_DATABASE_URL : string := "sqlite:///data/custom_domain.db".
Definition get_database_url : string := default DEFAULT_DATABASE_URL (environ "DATABASE_URL").
(** What follows the first [sep]. *)
Fixpoint after_first (sep s : string) : string :=
  match s with
  | "" => ""
  | String _ r => if startswith sep s then drop_str (String.length sep) s else after_first sep r
  end.
Definition db_libpq_url : M Ending :=
  mret (if startswith "postgresql" get_database_url
        then exits 0 [Out ("postgresql://" ++ after_first "://" get_database_url)]
        else exits 2 [Complaint "database_url"]).

Definition edge_dry_run : M Ending :=
  with_settings (fun settings =>
    s ← get; apps ← need (build_apps s settings) PyRuntimeError;
    routes ← need (app_route_count apps) PyRuntimeError;
    hosts ← need (hostnames_in (JObj [("apps", apps)])) PyRuntimeError;
    mret (exits 0 [Out ("dry run: " ++ py_str routes ++ " route(s), " ++ py_str (Z.of_nat (List.length hosts))
                        ++ " hostname(s), digest " ++ config_digest (Some apps) ++ "; Caddy not contacted")])).

(** ** Checks *)

(** The live domain of the application with that hostname. *)
Definition live_domain_of (slug hostname : string) : M (option (N * Domain)) :=
  x ← named slug; canonical ← lift (canonicalize hostname); s ← get;
  mret (match live_by_hostname s canonical with
        | Some y => if bool_decide (dom_application_id y.2 = x.1) then Some y else None
        | None => None
        end).
Definition not_found : Ending := exits 2 [Complaint "domain_not_found"].

Definition check_line (t : CheckType) (c : DomainCheck) : Line :=
  Out (columns ([check_type_value t; check_status_value (check_status c)]
    ++ match nonempty (check_error_code c) with
       | Some e => [e; default "None" (check_message c)] | None => [] end)%list).
(** The two checks as printed, and whether one fails. *)
Definition checks_shown (s : Db) (id : N) (types : list CheckType) : list Line * bool :=
  (omap (fun t => check_line t <$> domain_check s id t) types,
   existsb (fun t => match domain_check s id t with Some c => bool_decide (check_status c = FAILING) | None => false end) types).

Definition checks_dns (slug hostname : string) : M Ending :=
  found ← live_domain_of slug hostname;
  match found with
  | None => mret not_found
  | Some (id, _) =>
      s ← get; r ← lift (the_resolver s);
      _ ← transaction (run_dns_checks id r None);
      s ← get; d ← the_domain id;
      let '(lines, failing) := checks_shown s id DNS_CHECKS in
      let next := "next check " ++ from_option isoformat "None" (domain_check s id OWNERSHIP ≫= check_next_check_at) in
      mret (exits (if failing then 3 else 0)
        (lines ++ [Out (columns ["status"; domain_status_value (dom_status d); next])])%list)
  end.

Definition checks_edge (slug hostname : string) : M Ending :=
  match sh_settings shell with
  | Err _ => mret invalid_edge         (* [SystemExit(2)] *)
  | Ok settings =>
      found ← live_domain_of slug hostname;
      match found with
      | None => mret not_found
      | Some (id, d) =>
          s ← get;
          if negb (eligible_for_edge_checks s id d) then mret (exits 3 [Complaint "not_eligible"]) else
          _ ← transaction (run_edge_checks id (sh_prober shell) (flags_of settings) None);
          s ← get; d ← the_domain id;
          let '(lines, failing) := checks_shown s id EDGE_CHECK_TYPES in
          mret (exits (if failing then 3 else 0)
            (lines ++ [Out (columns ["status"; domain_status_value (dom_status d)])])%list)
      end
  end.

(** The batch; its resolver must be one the environment allows. *)
Definition due_checks (settings : EdgeSettings) (limit : nat) : M WorkerResult := fun s =>
  let '(result, s') := run_due_checks (sh_gaps shell) (sh_answers shell) (sh_prober shell) (flags_of settings) (sh_zone shell) None limit s in
  (Ok result, s').
Definition checks_run (limit : nat) : M Ending :=
  with_settings (fun settings =>
    s ← get; _ ← lift (the_resolver s);
    result ← due_checks settings limit;
    mret (exits (if wr_failed result =? 0 then 0 else 3)
      [Out ("processed " ++ py_str (wr_processed result) ++ " domain(s), " ++ py_str (wr_failed result) ++ " failed")])).
End Commands.

(** ** Every command *)

Section Main.
Context `{External, Deployment, PrivateKeys, AdminApi}.
Context (urlsplit : string -> option UrlSplit) (urlparse : string -> option string * option Z).
Context (http_get : string -> res string Z) (fetch_json : string -> res string json).
Context (resolve : string -> res string (list string)) (probe_target : string -> string -> ProbeReply).
Context (shell : Shell).
Context (hooks : World -> World).   (* what the passes of the reconciler during a batch of checks do to Caddy *)

(** A command on the database and on Caddy. *)
Definition Run : Type := Db -> World -> res exn Ending * Db * World.
Definition on_session (m : M Ending) : Run := fun s w => let '(r, s') := m s in (r, s', w).

Definition reconcile_pass (settings : EdgeSettings) (s : Db) (w : World) : res client_exn ReconcileResult * Db * World :=
  run_reconcile (sh_families shell) settings (sh_holder shell) (sh_opened shell) s w.

Definition edge_reconcile : Run := fun s w =>
  match sh_settings shell with
  | Err _ => (Ok invalid_edge, s, w)
  | Ok settings =>
      if legacy_api_enabled settings then (Ok (exits 2 [Complaint "edge_configuration"]), s, w) else
      let '(r, s', w') := reconcile_pass settings s w in
      (match r with
       | Err _ => Err PyRuntimeError
       | Ok result =>
           match rr_error result with
           | Some e => Ok (exits 3 [Complaint e])
           | None =>
               Ok (exits 0 [Out ((if rr_changed result then "applied" else "unchanged") ++ ": " ++ py_str (rr_routes result)
                                 ++ " route(s), " ++ py_str (rr_hostnames result) ++ " hostname(s), digest " ++ rr_digest result)])
           end
       end, s', w')
  end.

(** [worker run --once] *)
Definition WEBHOOK_BATCH : nat := 100.
Definition worker_line (result : WorkerResult) (edge : option ReconcileResult) (sent : DeliveryResult) : string :=
  "checks: " ++ py_str (wr_processed result) ++ " processed, " ++ py_str (wr_failed result) ++ " failed, "
  ++ py_str (wr_status_changes result) ++ " status change(s)"
  ++ match edge with
     | Some r => "; edge: " ++ (if rr_changed r then "applied" else default "unchanged" (nonempty (rr_error r)))
     | None => ""
     end
  ++ "; webhooks: " ++ py_str (dr_delivered sent) ++ " delivered, " ++ py_str (dr_failed sent) ++ " failed".
Definition worker_ending (result : WorkerResult) (edge : option ReconcileResult) (s : Db) (w : World)
    : res exn Ending * Db * World :=
  let '(sent, s) := run_once (sh_send_gaps shell) (sh_sender shell) WEBHOOK_BATCH s in
  (Ok (exits (if wr_failed result =? 0 then 0 else 3) [Out (worker_line result edge sent)]), s, w).
Definition worker_once : Run := fun s w =>
  match sh_settings shell with
  | Err _ => (Ok invalid_edge, s, w)
  | Ok settings =>
      match dns ← sh_dns shell; _ ← the_resolver shell s; Ok dns with
      | Err e => (Err e, s, w)
      | Ok dns =>
          let '(result, s) := run_due_checks (sh_gaps shell) (sh_answers shell) (sh_prober shell) (flags_of settings)
                                (sh_zone shell) None (Z.to_nat (DnsSettings.batch_size dns)) s in
          if negb (reconcile_enabled settings) then worker_ending result None s w else
          let w := hooks w in
          let '(s, w) := if wr_status_changes result =? 0 then (s, w)
                         else let '(_, s, w) := reconcile_pass settings s w in (s, w) in
          let '(r, s, w) := reconcile_pass settings s w in
          match r with
          | Err _ => (Err PyRuntimeError, s, w)
          | Ok edge => worker_ending result (Some edge) s w
          end
      end
  end.

(** [doctor]; the text of a setting that does not parse is left out. *)
Definition doctor_rows (findings : list Finding) : list Line :=
  let width := foldr Z.max 0 ((fun f => ulen (fi_check f)) <$> findings) in
  (fun row : string * string * string =>
     let '(status, check, detail) := row in Out (ljust 5 status ++ " " ++ ljust width check ++ "  " ++ detail))
  <$> as_rows findings.
Definition doctor : M Ending :=
  match sh_settings shell, sh_dns shell with
  | Err _, _ | _, Err _ => mret (exits 1 [Out "FAIL  settings         "])
  | Ok settings, Ok dns =>
      s ← get;
      findings ← lift (run_doctor http_get fetch_json resolve probe_target (sh_database shell) s environ settings
                         (String.eqb (verification_mode dns) "local") (sh_invalid_limit shell) (db_clock s));
      let '(ok, warn, fail) := summarize findings in
      mret (exits (if fail =? 0 then 0 else 1)
        (doctor_rows findings
         ++ [Out ""; Out (py_str ok ++ " ok, " ++ py_str warn ++ " warning(s), " ++ py_str fail ++ " failure(s)")])%list)
  end.

Definition session_command (c : Command) : M Ending :=
  match c with
  | CmdApplicationCreate slug name target => application_create shell slug name target
  | CmdApplicationList deleted => application_list deleted
  | CmdSetWorkspaceProbe slug enabled => application_set_workspace_probe slug enabled
  | CmdSetCnameTarget slug target reissue => application_set_cname_target slug target reissue
  | CmdRename slug name => application_rename slug name
  | CmdSetDomainLimit slug max => application_set_domain_limit slug max
  | CmdSetRateLimit slug m n => application_set_rate_limit slug m n
  | CmdTraffic slug n => application_traffic_report slug n
  | CmdApplicationDelete slug confirm dd => application_delete slug confirm dd
  | CmdCredentialIssue slug label n scope => credential_issue slug label n scope
  | CmdCredentialRevoke slug id => credential_revoke slug id
  | CmdCredentialList slug => credential_list slug
  | CmdCredentialRotate slug id label grace => credential_rotate slug id label grace
  | CmdCredentialDelete slug id => credential_delete slug id
  | CmdKeyIssue slug d => assertion_key_issue slug d
  | CmdKeyList slug => assertion_key_list slug
  | CmdKeyRevoke slug id => assertion_key_revoke slug id
  | CmdOriginRegister slug host scheme port hh => origin_register slug host scheme port hh
  | CmdOriginList slug => origin_list slug
  | CmdOriginVerify o activate private => origin_verify shell o activate private
  | CmdOriginActivate o => origin_activate o
  | CmdOriginRetire o => origin_retire o
  | CmdOriginHostHeader o mode => origin_set_host_header o mode
  | CmdOriginDelete o => origin_delete o
  | CmdResetToken => operator_reset_token
  | CmdTokenStatus => operator_token_status
  | CmdSigner => print_signer []
  | CmdSetRemote url p s credential => domain_connect_set_remote urlsplit url p s credential
  | CmdSignerReset => domain_connect_reset
  | CmdPublicKey => domain_connect_public_key
  | CmdLegacyImport slug file port map h g al dry => legacy_import slug file port map h g al dry
  | CmdPurge => domain_purge
  | CmdSetupStats slug n => domain_setup_stats slug n
  | CmdEdgeConfig => edge_config urlparse shell
  | CmdEdgeReconcile _ => edge_dry_run shell
  | CmdEdgeBootstrap output => edge_bootstrap urlparse shell output
  | CmdLibpqUrl => db_libpq_url
  | CmdChecksRun limit => checks_run shell limit
  | CmdChecksDns slug hostname => checks_dns shell slug hostname
  | CmdChecksEdge slug hostname => checks_edge shell slug hostname
  | CmdDoctor => doctor
  | CmdWorkerOnce => mret (exits 0 [])   (* not a session: [worker_once] *)
  end.
Definition command (c : Command) : Run :=
  match c with
  | CmdEdgeReconcile false => edge_reconcile
  | CmdWorkerOnce => worker_once
  | _ => on_session (session_command c)
  end.

(** How the process ends; what a command that crashes printed before is left out. *)
Inductive Finish := Exited (e : Ending) | Traceback (e : exn).
Definition finish (r : res exn Ending) : Finish :=
  match r with
  | Ok e => Exited e
  | Err (ServiceError c _) => Exited (exits 2 [Complaint (code_of c)])
  | Err InvalidLimit => Exited (exits 2 [Complaint "invalid_max_domains"])
  | Err e => Traceback e
  end.
Definition main (c : Command) (s : Db) (w : World) : Finish * Db * World :=
  let '(r, s', w') := command c s w in (finish r, s', w').
End Main.

(** ** Properties *)

(** The exceptions [main] answers with exit code 2. *)
Definition reported (e : exn) : bool :=
  match e with ServiceError _ _ | InvalidLimit => true | _ => false end.
Definition refused (r : res exn Ending) : bool :=
  match r with Ok e => exit_code e =? 2 | Err e => reported e end.
(** [unmoved m]: when [m] refuses, it left the state alone; [reports m]: it never refuses. *)
Definition unmoved (m : M Ending) : Prop := forall s, refused (m s).1 = true -> (m s).2 = s.
Definition reports (m : M Ending) : Prop := forall s, refused (m s).1 = false.
Definition quiet {A} (m : M A) : Prop := fails (fun e => reported e = false) m.

Lemma unmoved_reads m : mono eq m -> unmoved m.
Proof. intros Hm s _. symmetry. apply Hm. Qed.
Lemma unmoved_bind {A} (m : M A) (k : A -> M Ending) : mono eq m -> (forall x, unmoved (k x)) -> unmoved (m ≫= k).
Proof.
  intros Hm Hk s. rewrite bind_run. specialize (Hm s). destruct (m s) as [[x|e] t]; cbn in Hm; subst t; [apply Hk|done].
Qed.
Lemma unmoved_transaction {A} (m : M A) (k : A -> M Ending) : (forall x, reports (k x)) -> unmoved (transaction m ≫= k).
Proof.
  intros Hk s. rewrite bind_run. unfold transaction, savepoint. destruct (m s) as [[x|e] t]; [|done].
  intros Hr. by rewrite Hk in Hr.
Qed.
Lemma unmoved_reports m : reports m -> unmoved m.
Proof. intros Hm s Hr. by rewrite Hm in Hr. Qed.
Lemma reports_ret e : exit_code e <> 2 -> reports (mret e).
Proof. intros He s. cbn. by apply Z.eqb_neq. Qed.
Lemma reports_bind {A} (m : M A) (k : A -> M Ending) : quiet m -> (forall x, reports (k x)) -> reports (m ≫= k).
Proof.
  intros Hm Hk s. rewrite bind_run. destruct (m s) as [[x|e] t] eqn:Em; [apply Hk|]. cbn. by eapply Hm.
Qed.

Lemma quiet_gets {A} (f : Db -> A) : quiet (gets f).
Proof. by intros s e s'. Qed.
Lemma quiet_get : quiet get.
Proof. by intros s e s'. Qed.
Lemma quiet_need {A} (o : option A) e : reported e = false -> quiet (need o e).
Proof. intros He s x s'. destruct o; [done|]. by intros [= <- _]. Qed.
Create HintDb cli.
#[export] Hint Resolve quiet_gets quiet_get quiet_need : cli.

(** Split [unmoved] and [reports] goals along the handler. *)
Ltac handler_step :=
  match goal with
  | |- unmoved (transaction _ ≫= _) => apply unmoved_transaction; intros
  | |- unmoved (_ ≫= _) => apply unmoved_bind; [solve [mono_auto]|intros]
  | |- unmoved (mret _) => apply unmoved_reads; solve [mono_auto]
  | |- unmoved (raise _) => apply unmoved_reads; solve [mono_auto]
  | |- reports (mret _) => apply reports_ret
  | |- reports (_ ≫= _) => apply reports_bind; [solve [auto with cli]|intros]
  | |- unmoved (if ?b then _ else _) => destruct b
  | |- unmoved (match ?x with _ => _ end) => destruct x
  | |- reports (match ?x with _ => _ end) => destruct x
  | |- unmoved (let _ := _ in _) => cbv zeta
  | |- reports (let _ := _ in _) => cbv zeta
  end.
Ltac handler := repeat handler_step; try done.

Section Properties.
Context `{External, Deployment, PrivateKeys, AdminApi}.
Context (urlsplit : string -> option UrlSplit) (urlparse : string -> option string * option Z).
Context (http_get : string -> res string Z) (fetch_json : string -> res string json).
Context (resolve : string -> res string (list string)) (probe_target : string -> string -> ProbeReply).
Context (shell : Shell) (hooks : World -> World).

Lemma named_reads slug : mono eq (named slug).
Proof. unfold named, get_application_by_slug. by mono_auto. Qed.
Lemma need_reads {A} (o : option A) e : mono (S := Db) (E := exn) eq (need o e).
Proof. by destruct o. Qed.
Lemma row_reads {A} (f : Db -> option A) e : mono (E := exn) eq (r ← gets f; need r e).
Proof. by mono_auto. Qed.
#[local] Hint Resolve named_reads : session.
Lemma selected_reads o : mono eq (selected_origin o).
Proof. unfold selected_origin, get_origin. by mono_auto. Qed.
Lemma live_domain_reads slug hostname : mono eq (live_domain_of slug hostname).
Proof. unfold live_domain_of. by mono_auto. Qed.
#[local] Hint Resolve selected_reads live_domain_reads : session.

Lemma quiet_row {A} (f : Db -> option A) e : reported e = false -> quiet (r ← gets f; need r e).
Proof. intros He s x s'. rewrite bind_run. cbn [gets]. by apply quiet_need. Qed.
Lemma quiet_application a : quiet (the_application a).
Proof. by apply quiet_row. Qed.
Lemma quiet_domain id : quiet (the_domain id).
Proof. by apply quiet_row. Qed.
Lemma quiet_origin k : quiet (the_origin k).
Proof. by apply quiet_row. Qed.
Lemma quiet_credential k : quiet (the_credential k).
Proof. by apply quiet_row. Qed.
Lemma quiet_key k : quiet (the_key k).
Proof. by apply quiet_row. Qed.

Lemma signer_view_error s e : signer_view s = Err e -> reported e = false.
Proof.
  unfold signer_view. destruct (sc_source _); [|done]. unfold SecretBox.decrypt, SecretBox.derive, SecretBox.secret_key.
  intros Hs. repeat case_match; unfold err in *; simplify_eq/=; done.
Qed.
#[local] Hint Resolve quiet_application quiet_domain quiet_origin quiet_credential quiet_key : cli.

Lemma print_signer_reports first : reports (print_signer first).
Proof.
  intros s. unfold print_signer. rewrite bind_run. cbn [get]. rewrite bind_run. unfold lift.
  destruct (signer_view s) as [v|e] eqn:Ev; [done|]. cbn. by apply (signer_view_error s).
Qed.

Lemma unmoved_settings k : (forall settings, unmoved (k settings)) -> unmoved (with_settings shell k).
Proof. intros Hk. unfold with_settings. destruct (sh_settings shell); [apply Hk|by apply unmoved_reads]. Qed.

Lemma unmoved_import slug file port map h g al dry : unmoved (legacy_import slug file port map h g al dry).
Proof.
  unfold legacy_import. repeat (lazymatch goal with |- unmoved (get ≫= _) => fail | _ => handler_step end).
  intros s. rewrite !bind_run. cbn [get].
  destruct (import_session _ _ _ _ _ _ s) as [[[r lines]|e] s']; [|done].
  rewrite bind_run. cbn [modify mret SM_ret fst snd refused]. intros Hr.
  destruct dry, (import_committed al _ r) eqn:Ec; cbn in Hr; try done; try (by destruct (report_complete r)).
Qed.

(** What an import that did not succeed wrote. *)
Lemma import_written slug file port map h g al dry s e s' :
  legacy_import slug file port map h g al dry s = (Ok e, s') -> exit_code e <> 0 -> s' = s.
Proof.
  unfold legacy_import. intros (config & t & Hr & Hk)%bind_ok He.
  pose proof (need_reads (loads file) PyValueError s) as Hn. rewrite Hr in Hn. cbn in Hn. subst t.
  apply bind_ok in Hk as (entries & t & [= _ <-] & Hk). destruct (_ && _); [by injection Hk|].
  apply bind_ok in Hk as (d & t & [= _ <-] & Hk). rewrite bind_run in Hk. cbn [get] in Hk.
  destruct (import_session _ _ _ _ _ _ s) as [[[r lines]|x] u]; [|done].
  rewrite bind_run in Hk. cbn [modify mret SM_ret] in Hk. injection Hk as <- <-.
  destruct (import_committed al dry r) eqn:Ec; [|done].
  unfold import_committed in Ec. destruct dry; [done|]. by cbn in He.
Qed.

Lemma quiet_checks settings limit : quiet (due_checks shell settings limit).
Proof. intros s e s'. unfold due_checks. by destruct (run_due_checks _ _ _ _ _ _ _ s). Qed.

Lemma unmoved_session c : unmoved (session_command urlsplit urlparse http_get fetch_json resolve probe_target shell c).
Proof.
  destruct c; cbn [session_command]; try apply unmoved_import.
  all: unfold application_create, application_list, application_set_workspace_probe, application_set_cname_target,
    application_rename, application_set_domain_limit, application_set_rate_limit, application_traffic_report,
    application_delete, credential_issue, credential_revoke, credential_list, credential_rotate, credential_delete,
    assertion_key_issue, assertion_key_list, assertion_key_revoke, origin_register, origin_list, origin_verify,
    origin_activate, origin_retire, origin_set_host_header, origin_delete, operator_reset_token, operator_token_status,
    domain_connect_set_remote, domain_connect_reset, domain_connect_public_key, domain_purge, domain_setup_stats,
    edge_config, edge_bootstrap, db_libpq_url, edge_dry_run, checks_dns, checks_edge, doctor.
  all: handler.
  all: try (apply print_signer_reports).
  all: try by case_match.
  - apply unmoved_reads. unfold print_signer. by mono_auto.
  - apply unmoved_settings. intros settings. by handler.
  - apply unmoved_settings. intros settings. by handler.
  - apply unmoved_settings. intros settings. by handler.
  - apply unmoved_settings. intros settings. do 2 (apply unmoved_bind; [by mono_auto|intros]).
    apply unmoved_reports, reports_bind; [apply quiet_checks|]. intros result. by handler; destruct (wr_failed _ =? 0).
Qed.

Lemma worker_ending_reports result edge s w :
  refused (worker_ending shell result edge s w).1.1 = false.
Proof. unfold worker_ending. destruct (run_once _ _ _ s). by destruct (wr_failed result =? 0). Qed.

(** C28: exit code 2 means refused: when [main] reports an error of the service, a bad
    argument or bad settings for any of the commands of [Command], the database and Caddy
    are as they were.  An import that ends with any other code than 0 wrote nothing
    either.  ([dev demo], which commits each of its steps and may end with code 2 after
    some of them, and the schema migrations of [db] are not commands of [Command].) *)
Theorem refused_command_changes_nothing c s w e s' w' :
  main urlsplit urlparse http_get fetch_json resolve probe_target shell hooks c s w = (Exited e, s', w') ->
  (exit_code e = 2 -> s' = s /\ w' = w) /\
  (forall slug file port map h g al dry, c = CmdLegacyImport slug file port map h g al dry -> exit_code e <> 0 -> s' = s).
Proof.
  unfold main. destruct (command _ _ _ _ _ _ _ _ c s w) as [[r s1] w1] eqn:Ec. intros [= Hf <- <-]. split.
  - intros He. assert (refused r = true) as Hr.
    { destruct r as [e'|x]; cbn in Hf; [injection Hf as ->; by apply Z.eqb_eq|]. by destruct x. }
    clear Hf He.
    assert (forall m : M Ending, unmoved m -> on_session m s w = (r, s1, w1) -> s1 = s /\ w1 = w) as Hsession.
    { intros m Hm. unfold on_session. specialize (Hm s). destruct (m s) as [r' t]. intros [= -> -> ->]. auto. }
    unfold command in Ec. destruct c; try (apply (Hsession _ (unmoved_session _) Ec)).
    + destruct dry_run; [apply (Hsession _ (unmoved_session (CmdEdgeReconcile true)) Ec)|].
      unfold edge_reconcile in Ec. destruct (sh_settings shell) as [settings|]; [|by injection Ec].
      destruct (legacy_api_enabled settings); [by injection Ec|].
      destruct (reconcile_pass _ _ _ _) as [[[result|x] t] v]; injection Ec as <- <- <-; [|done].
      by destruct (rr_error result).
    + unfold worker_once in Ec. destruct (sh_settings shell) as [settings|]; [|by injection Ec].
      destruct (_ ≫= _) as [dns|x]; [|by injection Ec].
      destruct (run_due_checks _ _ _ _ _ _ _ s) as [result t].
      exfalso. revert Hr. apply not_true_iff_false. destruct (negb _).
      { pose proof (worker_ending_reports result None t w) as Hw. by rewrite Ec in Hw. }
      destruct (if wr_status_changes result =? 0 then _ else _) as [t1 v1].
      destruct (reconcile_pass _ _ t1 v1) as [[[edge|x] t2] v2]; [|by injection Ec as <- _ _].
      pose proof (worker_ending_reports result (Some edge) t2 v2) as Hw. by rewrite Ec in Hw.
  - intros slug file port map h g al dry -> He. cbn [command session_command] in Ec. unfold on_session in Ec.
    destruct (legacy_import _ _ _ _ _ _ _ _ s) as [r' t] eqn:Em. injection Ec as <- <- <-.
    destruct r' as [e'|x]; cbn in Hf.
    + injection Hf as ->. by apply (import_written slug file port map h g al dry s e t).
    + pose proof (unmoved_import slug file port map h g al dry s) as Hc. rewrite Em in Hc. apply Hc. by destruct x.
Qed.
End Properties.
