(* ===== verification/Frames.v ===== *)
(** * Frames of the operations

    Which operations keep the domain invariant as pieces of larger ones, and
    which leave the rows of domains, claims and checks alone altogether
    ([core_frame]): the pieces Lifecycle.v puts together.  Last, the operations the HTTP
    surface adds: idempotency keys, connect sessions, the signer, the operator token,
    traffic counts and the operator's updates. *)

From Stdlib Require Import Ascii String ZArith Lia.
From stdpp Require Import base gmap strings list sets sorting.
From S2P Require Import Prelude PyStr Datetime Json Errors External Models Url Idempotency AssertionKeys.
From S2P Require Import Hostname Dns DnsSetup Schemas Webhooks Delivery Limits OperatorToken Domains.
From S2P Require Import DomainFacts DomainInv ConnectFlow ConnectSessions DnsChecks EdgeChecks.
From S2P Require Import Applications Api Traffic Operator Worker.
Open Scope Z_scope.

Section Keeps.
Context `{External, Deployment}.

Lemma keeps_transition id st reason now : keeps (Inv None) (transition_status id st reason (Some now)).
Proof. intros s u s'. apply transition_inv_closed. Qed.
Lemma keeps_mark_verified id method now : keeps (Inv None) (mark_claim_verified id method (Some now)).
Proof. intros s u s'. apply mark_claim_verified_inv. Qed.
Lemma keeps_record_event h id t p now : keeps (Inv h) (record_event id t p (Some now)).
Proof. intros s u s'. apply record_event_inv. Qed.
Lemma keeps_the_domain P id : keeps P (the_domain id).
Proof. unfold the_domain. keeps_auto. Qed.
Lemma keeps_now_or P o : keeps P (now_or o).
Proof. intros s n s' [-> _]%now_or_ok. done. Qed.
Lemma keeps_lock h a : keeps (Inv h) (lock_application a).
Proof. intros s u s'. apply lock_application_inv. Qed.
Lemma keeps_schedule h id l now : keeps (Inv h) (schedule_checks id l now).
Proof. intros s u s'. apply schedule_checks_inv. Qed.
Lemma keeps_get_domain P a id b : keeps P (get_domain a id b).
Proof. intros s d s' [-> _]%get_domain_ok. done. Qed.
End Keeps.
#[export] Hint Resolve keeps_transition keeps_mark_verified keeps_record_event keeps_the_domain
  keeps_now_or keeps_lock keeps_schedule keeps_get_domain : session.

Section Outcomes.
Context `{External, Deployment}.

(** An outcome of a check that ran: passing or failing. *)
Definition decided (o : Outcome) : Prop := oc_status o <> PENDING.

Lemma keeps_record_outcome id fast now t o :
  decided o -> keeps (Inv None) (record_outcome id fast now t o).
Proof.
  intros Ho. unfold record_outcome. keeps_auto.
  intros s u s'. by apply record_check_inv.
Qed.

Lemma keeps_apply_dns id ownership routing o :
  decided ownership -> decided routing ->
  keeps (Inv None) (apply_dns_outcomes id ownership routing o).
Proof.
  intros H1 H2. unfold apply_dns_outcomes. keeps_auto; by apply keeps_record_outcome.
Qed.

Lemma keeps_apply_edge id certificate origin o :
  decided certificate -> decided origin ->
  keeps (Inv None) (apply_edge_outcomes id certificate origin o).
Proof.
  intros H1 H2. unfold apply_edge_outcomes. keeps_auto; by apply keeps_record_outcome.
Qed.

Lemma ownership_decided r s id : decided (ownership_outcome r s id).
Proof. unfold decided, ownership_outcome. by repeat case_match. Qed.
Lemma routing_decided r s id d : decided (routing_outcome r s id d).
Proof. unfold decided, routing_outcome. by repeat case_match. Qed.
Lemma certificate_decided p d f now : decided (certificate_outcome p d f now).
Proof. unfold decided, certificate_outcome. by repeat case_match. Qed.
Lemma origin_decided s d p : decided (origin_outcome s d p).
Proof. unfold decided, origin_outcome. cbv zeta. by repeat case_match. Qed.

Lemma keeps_lease h id now l force : keeps (Inv h) (lease_domain id now l force).
Proof. unfold lease_domain. keeps_auto. Qed.
End Outcomes.
#[export] Hint Resolve keeps_lease : session.

(** ** Operations that leave domains, claims and checks alone *)

(** An application's rate limits are in range. *)
Definition rates (r : Application) : bool :=
  rate_ok (app_rate_limit_per_minute r) && rate_ok (app_rate_limit_per_second r).
Definition rates_ok (s : Db) : Prop := map_Forall (fun _ r => rates r = true) (db_applications s).

(** The rows the invariant is about and the event log are as before; no
    application is gone or has its limits out of range. *)
Record core_frame (s s' : Db) : Prop := {
  cf_applications a : is_Some (db_applications s !! a) -> is_Some (db_applications s' !! a);
  cf_rates : rates_ok s -> rates_ok s';
  cf_domains : db_domains s' = db_domains s;
  cf_claims : db_claims s' = db_claims s;
  cf_checks : db_checks s' = db_checks s;
  cf_events : db_events s' = db_events s;
}.
#[export] Instance core_frame_preorder : PreOrder core_frame.
Proof.
  split; [intros s; by constructor|]. intros s1 s2 s3 [] []. constructor; auto; by etrans.
Qed.

Section Core.
Context `{External, Deployment}.

Lemma core_inv h s s' : core_frame s s' -> Inv h s -> Inv h s'.
Proof.
  intros [Ea _ Ed Ec Ek _] []. constructor; unfold has_verified, all_passing; rewrite ?Ed, ?Ec, ?Ek; eauto.
Qed.

Lemma keeps_core {A} (m : M A) h : mono core_frame m -> keeps (Inv h) m.
Proof.
  intros Hm s a s' Hr. apply core_inv. specialize (Hm s). by rewrite Hr in Hm.
Qed.

(** Replacing applications one by one keeps them all. *)
Definition spares_rates (f : Application -> Application) : Prop := forall r, rates r = true -> rates (f r) = true.

Lemma core_alter f a s : spares_rates f -> core_frame s (s <| db_applications ::= alter f a |>).
Proof.
  intros Hf. constructor; try done.
  - intros k. simpl_over. rewrite lookup_alter. destruct (decide (a = k)); [|done]. rewrite fmap_is_Some. congruence.
  - unfold rates_ok. intros Hr k r. simpl_over. rewrite lookup_alter. case_decide; [|by apply Hr].
    intros (r0 & Hk & ->)%fmap_Some. apply Hf. by eapply Hr.
Qed.
Lemma core_insert k r s : rates r = true -> core_frame s (s <| db_applications ::= <[k := r]> |>).
Proof.
  intros Hr. constructor; try done.
  - intros a Ha. simpl_over. rewrite lookup_insert_is_Some'. auto.
  - intros Hs. unfold rates_ok. simpl_over. by apply map_Forall_insert_2.
Qed.

Lemma core_update_application a f : spares_rates f -> mono core_frame (update_application a f).
Proof. intros Hf s. by apply core_alter. Qed.
Lemma core_touch_application a f : spares_rates f -> mono core_frame (touch_application a f).
Proof. intros Hf s. apply core_alter. exact Hf. Qed.
Lemma core_flush_application a f : spares_rates f -> mono core_frame (flush_application a f).
Proof. intros Hf s. apply core_alter. intros r Hr. case_bool_decide; [done|]. by apply (Hf r). Qed.
Lemma core_flush_origin k f : mono core_frame (flush_origin k f).
Proof. intros s. done. Qed.
Lemma core_flush_credential k f : mono core_frame (flush_credential k f).
Proof. intros s. done. Qed.
Lemma core_fresh : mono core_frame fresh.
Proof. intros s. done. Qed.
Lemma core_now_or o : mono core_frame (now_or o).
Proof. destruct o; intros s; done. Qed.
Lemma core_the_application a : mono core_frame (the_application a).
Proof. unfold the_application. mono_auto. Qed.
Lemma core_the_domain a : mono core_frame (the_domain a).
Proof. unfold the_domain. mono_auto. Qed.
Lemma core_the_origin a : mono core_frame (the_origin a).
Proof. unfold the_origin. mono_auto. Qed.
Lemma core_acquire n h : mono core_frame (acquire_lock n h).
Proof. intros s. done. Qed.
End Core.
#[export] Hint Resolve core_update_application core_touch_application core_flush_application
  core_flush_origin core_flush_credential core_fresh core_now_or core_the_application core_the_domain
  core_the_origin core_acquire : session.
#[export] Hint Extern 1 (spares_rates _) => (intros ? ?; assumption) : session.

Section CoreOperations.
Context `{External, Deployment}.

Lemma core_insert_application r : rates r = true -> mono core_frame (insert_application r).
Proof. intros Hr. unfold insert_application. mono_auto. by apply core_insert. Qed.
Lemma core_create_application slug name target : mono core_frame (create_application slug name target).
Proof.
  unfold create_application. mono_auto. apply mono_catch; [apply _|apply mono_savepoint; [apply _|]|].
  - by apply core_insert_application.
  - intros e. unfold on_integrity_error. mono_auto.
Qed.
Lemma core_rename a name : mono core_frame (rename_application a name).
Proof. unfold rename_application. mono_auto. Qed.
Lemma core_set_rate_limits a m n : mono core_frame (set_rate_limits a m n).
Proof.
  unfold set_rate_limits. destruct (rate_ok m && rate_ok n) eqn:E; [|intros s; done].
  mono_auto.
Qed.
Lemma core_set_domain_limit a m : mono core_frame (set_domain_limit a m).
Proof. unfold set_domain_limit. mono_auto. Qed.
Lemma core_set_cname_target a t : mono core_frame (set_cname_target a t).
Proof. unfold set_cname_target. mono_auto. Qed.
Lemma core_set_status a st : mono core_frame (set_application_status a st).
Proof. unfold set_application_status. mono_auto. Qed.

Lemma core_issue_credential a label expires scope : mono core_frame (issue_credential a label expires scope).
Proof. unfold issue_credential, generate_secret, insert_credential. mono_auto. done. Qed.
Lemma core_authenticate secret now : mono core_frame (authenticate_credential secret now).
Proof. unfold authenticate_credential. mono_auto. Qed.
Lemma core_get_credential a k : mono core_frame (get_credential a k).
Proof. unfold get_credential. mono_auto. Qed.
#[local] Hint Resolve core_get_credential core_issue_credential : session.
Lemma core_revoke_credential a k now : mono core_frame (revoke_credential a k now).
Proof. unfold revoke_credential. mono_auto. Qed.
Lemma core_delete_credential a k now : mono core_frame (delete_credential a k now).
Proof. unfold delete_credential. mono_auto. done. Qed.
Lemma core_rotate_credential a k label grace now : mono core_frame (rotate_credential a k label grace now).
Proof. unfold rotate_credential. mono_auto. Qed.

Lemma core_register_origin a host scheme port hh : mono core_frame (register_origin a host scheme port hh).
Proof.
  unfold register_origin. mono_auto. apply mono_catch; [apply _|apply mono_savepoint; [apply _|]|].
  - unfold insert_origin. mono_auto. done.
  - intros e. unfold on_integrity_error. mono_auto.
Qed.
Lemma core_verify_origin k fetched now : mono core_frame (verify_origin k fetched now).
Proof. unfold verify_origin, record_origin_verification. mono_auto. Qed.
Lemma core_activate_origin k : mono core_frame (activate_origin k).
Proof. unfold activate_origin. mono_auto. done. Qed.
Lemma core_delete_origin k : mono core_frame (delete_origin k).
Proof. unfold delete_origin. mono_auto. done. Qed.
Lemma core_retire_origin k : mono core_frame (retire_origin k).
Proof. apply core_flush_origin. Qed.

Lemma core_get_subscription a k : mono core_frame (get_subscription a k).
Proof. unfold get_subscription. mono_auto. Qed.
Lemma core_put_subscription k r : mono core_frame (put_subscription k r).
Proof. intros s. done. Qed.
#[local] Hint Resolve core_get_subscription core_put_subscription : session.
Lemma core_create_subscription split a url events p : mono core_frame (create_subscription split a url events p).
Proof. unfold create_subscription. mono_auto. Qed.
Lemma core_revoke_subscription a k now : mono core_frame (revoke_subscription a k now).
Proof. unfold revoke_subscription. mono_auto. Qed.
Lemma core_delete_subscription a k : mono core_frame (delete_subscription a k).
Proof. unfold delete_subscription. mono_auto. done. Qed.
Lemma core_rotate_secret a k grace now : mono core_frame (rotate_secret a k grace now).
Proof. unfold rotate_secret. mono_auto. Qed.
Lemma core_replay_delivery a k d now : mono core_frame (replay_delivery a k d now).
Proof. unfold replay_delivery. mono_auto. done. Qed.
Lemma core_replay_since a k since now : mono core_frame (replay_since a k since now).
Proof. unfold replay_since. mono_auto. done. Qed.

Lemma core_store_zone l d t now : mono core_frame (store_zone l d t now).
Proof. unfold store_zone. mono_auto. done. Qed.
Lemma core_lock a : mono core_frame (lock_application a).
Proof. apply core_update_application. by intros r Hr. Qed.
Lemma core_enforce a : mono core_frame (enforce a).
Proof. unfold enforce. mono_auto. Qed.

Lemma core_revoke_row now k : mono core_frame (revoke_row now k).
Proof. intros s. done. Qed.
Lemma core_insert_key r : mono core_frame (insert_key r).
Proof. unfold insert_key. mono_auto. done. Qed.
#[local] Hint Resolve core_revoke_row core_insert_key : session.
Lemma core_issue_key a d now : mono core_frame (issue_key a d now).
Proof. unfold issue_key. mono_auto. Qed.
Lemma core_revoke_key a kid now : mono core_frame (revoke_key a kid now).
Proof. unfold revoke_key. mono_auto. Qed.
Lemma core_lease_delivery k now : mono core_frame (lease_delivery k now).
Proof. unfold lease_delivery. mono_auto. done. Qed.
Lemma core_update_delivery k l d : mono core_frame (update_delivery k l d).
Proof. unfold update_delivery. mono_auto. done. Qed.
Lemma core_settle now : mono core_frame (settle_deleted_applications now).
Proof. unfold settle_deleted_applications. mono_auto. done. Qed.
End CoreOperations.

Create HintDb frames.
#[export] Hint Resolve core_create_application core_rename core_set_rate_limits
  core_set_domain_limit core_set_cname_target core_set_status core_issue_credential
  core_authenticate core_revoke_credential core_delete_credential core_rotate_credential
  core_register_origin core_verify_origin core_activate_origin core_delete_origin
  core_retire_origin core_create_subscription core_revoke_subscription core_delete_subscription
  core_rotate_secret core_replay_delivery core_replay_since core_store_zone core_issue_key
  core_revoke_key core_lease_delivery core_update_delivery core_settle : frames.

(** ** Making checks due *)

Section Due.
Context `{External, Deployment}.

Lemma schedule_checks_due id l now s u s' t c :
  schedule_checks id l now s = (Ok u, s') -> t ∈ l ->
  domain_check s' id t = Some c -> check_next_check_at c = Some now.
Proof.
  unfold domain_check.
  enough (forall (l0 : list CheckType) s0, schedule_checks id l now s0 = (Ok u, s') ->
    (forall t c, t ∈ l0 -> db_checks s0 !! (id, t) = Some c -> check_next_check_at c = Some now) ->
    forall t c, t ∈ l0 \/ t ∈ l -> db_checks s' !! (id, t) = Some c -> check_next_check_at c = Some now) as Hg.
  { intros Hr Hin. apply (Hg [] s Hr); [set_solver|auto]. }
  clear. unfold schedule_checks. induction l as [|t l IH]; intros l0 s0; simpl.
  - intros [= _ <-] Hl t c [Ht|Ht]; [by apply Hl|by apply not_elem_of_nil in Ht].
  - rewrite bind_run. cbn [modify]. intros Hr Hl t' c' Ht'. apply (IH (t :: l0) _ Hr); [|set_solver].
    clear t' c' Ht'. intros t' c' Ht'. simpl_over.
    destruct (decide (t' = t)) as [->|Hne].
    + rewrite lookup_alter_eq. destruct (db_checks s0 !! (id, t)); [|done]. by intros [= <-].
    + rewrite lookup_alter_ne by congruence. apply Hl. set_solver.
Qed.
End Due.

Section Surface.
Context `{External, Deployment}.

Lemma core_key_record a key r : mono core_frame (insert_key_record a key r).
Proof. unfold insert_key_record. mono_auto. done. Qed.
Lemma core_begin a key h now : mono core_frame (begin a key h now).
Proof.
  unfold begin. mono_auto. apply mono_catch; [apply _| |].
  - apply mono_bind; [apply _|apply mono_savepoint; [apply _|apply core_key_record]|]. intros. mono_auto.
  - intros e. mono_auto; done.
Qed.
Lemma core_complete a key id : mono core_frame (complete a key id).
Proof. by intros s. Qed.
Lemma core_purge_expired now : mono core_frame (purge_expired now).
Proof. unfold purge_expired. mono_auto. done. Qed.

Lemma core_insert_session r : mono core_frame (insert_session r).
Proof. unfold insert_session. mono_auto. done. Qed.
#[local] Hint Resolve core_insert_session : session.
Lemma core_get_domain a id b : mono core_frame (get_domain a id b).
Proof. unfold get_domain. mono_auto. Qed.
#[local] Hint Resolve core_get_domain core_lock : session.
Lemma core_create_session split a id base ttl name url now : mono core_frame (create_session split a id base ttl name url now).
Proof. unfold create_session, enforce_session_limits, enforce_scope. mono_auto. Qed.
Lemma core_revoke_session a id k now : mono core_frame (revoke_session a id k now).
Proof. unfold revoke_session. mono_auto. done. Qed.

Lemma core_set_token token : mono core_frame (set_token token).
Proof. unfold set_token. mono_auto. done. Qed.
Lemma core_reset_token : mono core_frame OperatorToken.reset.
Proof. unfold OperatorToken.reset. mono_auto. done. Qed.
Lemma core_set_signer split url c p sid now : mono core_frame (set_remote_signer split url c p sid now).
Proof. unfold set_remote_signer, SecretBox.encrypt. mono_auto. done. Qed.
Lemma core_reset_signer : mono core_frame reset_signer.
Proof. unfold reset_signer. mono_auto. done. Qed.
Lemma core_record_totals totals now : mono core_frame (record_totals totals now).
Proof. unfold record_totals. mono_auto. done. Qed.
Lemma core_reset_baselines : mono core_frame reset_baselines.
Proof. by intros s. Qed.

Lemma core_host_header k v : mono core_frame (set_origin_host_header k v).
Proof. unfold set_origin_host_header. mono_auto. done. Qed.
Lemma core_workspace_probe a b : mono core_frame (set_workspace_probe a b).
Proof. unfold set_workspace_probe. mono_auto. Qed.
Lemma core_verify_and_activate k answer activate : mono core_frame (verify_and_activate k answer activate).
Proof.
  unfold verify_and_activate. apply mono_bind; [apply _| |].
  - apply mono_catch; [apply _|apply mono_bind; [apply _|apply core_verify_origin|intros; by mono_auto]|intros []; by mono_auto].
  - intros [code|]; [by mono_auto|]. apply mono_bind; [apply _|destruct activate; [apply core_activate_origin|by mono_auto]|intros; by mono_auto].
Qed.
End Surface.

#[export] Hint Resolve core_purge_expired core_create_session core_revoke_session core_set_token
  core_reset_token core_set_signer core_reset_signer core_record_totals core_reset_baselines core_host_header
  core_workspace_probe core_verify_and_activate core_acquire : frames.
