(* ===== verification/Lifecycle.v ===== *)
(** * The lifecycle: every operation of the service as a step

    The operations of the v1 API, the operator, the importer and the worker, as
    one type of operations ([Op]) with their transactions ([commit]); [exec] runs a
    history of them.  Whatever the order and interleaving of operations, committed
    databases satisfy the domain invariant. *)

From Stdlib Require Import Ascii String ZArith Lia.
From stdpp Require Import base gmap strings list sets sorting.
From S2P Require Import Prelude PyStr Datetime Json Errors External Models Hostname Dns DnsSetup.
From S2P Require Import Schemas Webhooks Limits Domains DomainFacts DomainInv.
From S2P Require Import DnsChecks EdgeChecks Applications AssertionKeys Delivery Worker Legacy Frames.
From S2P Require Import Url Idempotency ConnectFlow ConnectSessions OperatorToken Traffic Api Operator.
Open Scope Z_scope.

(** ** Larger operations keep the invariant *)

Section Keeping.
Context `{External, Deployment}.

Lemma keeps_claim_domain a h r m now : keeps (Inv None) (claim_domain a h r m now).
Proof. intros s u s'. apply claim_domain_inv. Qed.
Lemma keeps_delete_domain a id now : keeps (Inv None) (delete_domain a id now).
Proof. intros s u s'. apply delete_domain_inv. Qed.
Lemma keeps_reissue_claim a id now : keeps (Inv None) (reissue_claim a id now).
Proof. intros s u s'. apply reissue_claim_inv. Qed.
Lemma keeps_reissue_target a now : keeps (Inv None) (reissue_claims_for_target a now).
Proof. intros s u s'. apply reissue_claims_for_target_inv. Qed.
Lemma keeps_request_recheck a id by_ now : keeps (Inv None) (request_recheck a id by_ now).
Proof. intros s u s'. apply request_recheck_inv. Qed.
Lemma keeps_purge now : keeps (Inv None) (purge_tombstones now).
Proof. intros s u s'. rewrite purge_tombstones_run. intros [= _ <-]. apply purged_inv. Qed.

(** Rewriting a domain's row without its hostname, its application, its status
    or its tombstone. *)
Lemma keeps_update_domain id f :
  (forall d, dom_hostname (f d) = dom_hostname d /\ dom_application_id (f d) = dom_application_id d /\
             dom_status (f d) = dom_status d /\ dom_deleted_at (f d) = dom_deleted_at d /\
             dom_purge_after (f d) = dom_purge_after d) ->
  keeps (Inv None) (update_domain id f).
Proof.
  intros Hf s u s' Hr HI. destruct (db_domains s !! id) as [d|] eqn:Hd.
  - rewrite (update_domain_run _ _ _ d Hd) in Hr. injection Hr as _ <-.
    destruct (Hf d) as (Hh & Ha & Hs & Hx & Hp).
    apply (inv_close id).
    + apply (inv_put_domain _ _ d); try done; [|by apply inv_open]. unfold live, is_deleted. by rewrite Hx.
    + intros d' Hd'. unfold with_domain in Hd'. simpl_over. rewrite lookup_insert_eq in Hd'.
      injection Hd' as <-. unfold live, is_deleted. rewrite Hx, Hs, Hp.
      exact (inv_settled _ _ _ HI ltac:(done) d Hd).
  - unfold update_domain in Hr. cbn [modify] in Hr. injection Hr as _ <-.
    eapply inv_tables; [..|exact HI]; try done. simpl_over.
    apply map_eq. intros k. destruct (decide (k = id)) as [->|].
    + by rewrite lookup_alter_eq, Hd.
    + by rewrite lookup_alter_ne.
Qed.

Lemma keeps_start_connect id now : keeps (Inv None) (start_connect id now).
Proof. unfold start_connect. keeps_auto. by apply keeps_update_domain. Qed.

Lemma due_by_status at_ c : check_status (due_by at_ c) = check_status c.
Proof. unfold due_by. by repeat case_match. Qed.

Lemma keeps_make_checks_due h id at_ : keeps (Inv h) (make_checks_due id at_).
Proof.
  unfold make_checks_due. keeps_auto. apply keeps_modify. intros s.
  apply inv_statuses; try done. intros key. simpl_over. rewrite lookup_alter.
  case_decide; [|done]. subst. destruct (db_checks s !! (id, _)); [|done]. simpl.
  by rewrite due_by_status.
Qed.
End Keeping.
#[export] Hint Resolve keeps_claim_domain keeps_delete_domain keeps_reissue_claim keeps_reissue_target
  keeps_request_recheck keeps_purge keeps_start_connect keeps_make_checks_due : session.

Section Steps.
Context `{External, Deployment}.

Lemma keeps_get_application_row P a : keeps P (the_application a).
Proof. unfold the_application. keeps_auto. Qed.

Lemma keeps_record_connect a plan url now : keeps (Inv None) (record_connect a plan url now).
Proof. unfold record_connect. keeps_auto. Qed.

Lemma keeps_connect_returned id now : keeps (Inv None) (connect_returned id now).
Proof. unfold connect_returned. keeps_auto. Qed.

Lemma keeps_delete_application a slug dd now : keeps (Inv None) (delete_application a slug dd now).
Proof.
  unfold delete_application. keeps_auto.
  - apply keeps_get_application_row.
  - apply keeps_modify. intros s. by apply inv_tables.
  - apply keeps_modify. intros s. by apply inv_tables.
  - apply keeps_core, core_update_application. by intros r Hr.
Qed.

(** *** The worker *)

Lemma keeps_dns_transaction id a queried ownership routing zone before edge_due :
  decided ownership -> decided routing ->
  keeps (Inv None) (dns_transaction id a queried ownership routing zone before edge_due).
Proof.
  intros H1 H2. unfold dns_transaction. keeps_auto.
  - by apply keeps_apply_dns.
  - by apply keeps_update_domain.
Qed.

Lemma keeps_edge_transaction id a probed certificate origin before :
  decided certificate -> decided origin ->
  keeps (Inv None) (edge_transaction id a probed certificate origin before).
Proof. intros H1 H2. unfold edge_transaction. keeps_auto. by apply keeps_apply_edge. Qed.

(** *** The importer *)

(** What a registration refuses with: the errors the importer goes on after. *)
Definition goes_on (e : exn) : Prop :=
  exists d, e = ServiceError DomainLimitReached d \/ e = ServiceError HostnameAlreadyClaimed d.

Lemma domain_setup_fails s d settings e : domain_setup s d settings = Err e -> e = PyValueError.
Proof.
  unfold domain_setup. cbv zeta. intros He. repeat case_match; simplify_eq/=; done.
Qed.

Lemma build_payload_fails s event t id d e : build_payload s event t id d = Err e -> e = PyValueError.
Proof.
  unfold build_payload, domain_resource.
  destruct (domain_setup _ _ _) as [?|x] eqn:E; [done|]. apply domain_setup_fails in E as ->.
  congruence.
Qed.

Lemma fails_now_or Q o : fails Q (now_or o).
Proof. destruct o; intros s e s' [=]. Qed.
Lemma fails_fresh Q : fails Q fresh.
Proof. intros s e s' [=]. Qed.
Lemma fails_update_domain Q id f : fails Q (update_domain id f).
Proof. intros s e s' [=]. Qed.
#[local] Hint Resolve fails_now_or fails_fresh fails_update_domain : session.

Lemma not_goes_on_value : ~ goes_on PyValueError.
Proof. by intros (? & [[=]|[=]]). Qed.
Lemma not_goes_on_runtime : ~ goes_on PyRuntimeError.
Proof. by intros (? & [[=]|[=]]). Qed.
Lemma not_goes_on_integrity o : ~ goes_on (IntegrityError o).
Proof. by intros (? & [[=]|[=]]). Qed.

Lemma fails_the_domain id : fails (fun e => ~ goes_on e) (the_domain id).
Proof. unfold the_domain. fails_auto. apply not_goes_on_runtime. Qed.
#[local] Hint Resolve fails_the_domain : session.

Lemma record_event_fails id type payload now :
  fails (fun e => ~ goes_on e) (record_event id type payload (Some now)).
Proof.
  unfold record_event, enqueue_for_event, append_event, add_delivery. fails_auto.
  intros e He%build_payload_fails. subst e. apply not_goes_on_value.
Qed.

Lemma issue_claim_fails id target now : fails (fun e => ~ goes_on e) (issue_claim id target now).
Proof.
  unfold issue_claim, insert_claim. fails_auto; try apply not_goes_on_integrity.
  apply record_event_fails.
Qed.

(** A registration refused because of a limit or because the hostname is taken
    wrote nothing to the rows of domains, claims and checks. *)
Lemma claim_domain_refused a h r m now : refuses goes_on core_frame (claim_domain a h r m (Some now)).
Proof.
  unfold claim_domain.
  repeat (apply refuses_bind; [apply _|first [apply core_the_application|apply core_lock|apply core_enforce
    |solve [mono_auto]|solve [unfold enforce_registration_limit, enforce_window; mono_auto]]|intros ?]).
  apply refuses_last.
  - intros s e s'. unfold catch, savepoint. destruct (insert_domain _ s) as [[?|x] t]; [done|].
    destruct x; try (by intros [= _ <-]); destruct (contains _ _); by intros [= _ <-].
  - intros id. fails_auto.
    + by intros s e s' [=].
    + apply record_event_fails.
    + apply issue_claim_fails.
Qed.

Lemma keeps_register_entry a h r m now : keeps (Inv None) (register_entry a h r m now).
Proof.
  intros s u s'. unfold register_entry, catch. rewrite bind_run. unfold claim_referenced, the_application.
  destruct r as [| | |r| |].
  all: try (run; destruct (db_applications s !! a) as [x|]; simpl; [|by intros [=]];
            run; rewrite guard_run; destruct (bool_decide _); simpl; by intros [=]).
  destruct (claim_domain a h r (Some m) (Some now) s) as [[id|e] t] eqn:Ec.
  - intros [= _ <-]. by eapply keeps_claim_domain.
  - pose proof (claim_domain_refused _ _ _ _ _ _ _ _ Ec) as Hf.
    destruct e as [c d| | | | | | | | | | | | | | |]; try done.
    destruct c; try done; intros [= _ <-]; apply core_inv, Hf; exists d; auto.
Qed.

Lemma keeps_grandfather id now : keeps (Inv None) (grandfather_domain id now).
Proof.
  unfold grandfather_domain. keeps_auto. intros s u s'. by apply record_check_inv.
Qed.

Lemma keeps_import_entries a opts now entries report :
  keeps (Inv None) (import_entries a opts now entries report).
Proof.
  revert report. induction entries as [|entry entries IH]; intros report; simpl; [apply keeps_ret|].
  apply keeps_bind; [|done]. unfold import_entry, find_live_by_hostname. keeps_auto.
  - apply keeps_register_entry.
  - apply keeps_grandfather.
Qed.
End Steps.

(** ** Transactions of the HTTP surface *)

Section SurfaceKeeps.
Context `{External, Deployment}.

Lemma keeps_create_or_replay a p key : keeps (Inv None) (create_or_replay a p key).
Proof.
  unfold create_or_replay. cbv zeta. keeps_auto; try apply keeps_claim_domain; apply keeps_core.
  - apply core_begin.
  - apply core_complete.
Qed.
Lemma keeps_given {A} (o : option A) f : (forall x, keeps (Inv None) (f x)) -> keeps (Inv None) (given o f).
Proof. intros Hf. unfold given. keeps_auto. Qed.
Lemma keeps_update_application a u : keeps (Inv None) (update_application_fields a u).
Proof.
  unfold update_application_fields. keeps_auto.
  all: try apply keeps_given; intros; keeps_auto; try apply keeps_reissue_target; apply keeps_core; auto with frames session nocore.
Qed.
End SurfaceKeeps.

(** ** Operations and histories *)

Inductive Op :=
| OpClock (t : Z)                                     (* time passes *)
| OpClaim (a : N) (hostname reference : string) (metadata : option dict) (now : option Z)
| OpDelete (a id : N) (now : option Z)
| OpReissue (a id : N) (now : option Z)
| OpReissueTarget (a : N) (now : option Z)
| OpRecheck (a id : N) (requested_by : string) (now : option Z)
| OpConnect (a : N) (plan : ConnectPlan) (url : string) (now : option Z)
| OpConnectReturned (id : N) (now : option Z)
| OpPurge (now : option Z)
| OpImport (a : N) (entries : list LegacyDomain) (opts : ImportOptions) (now : option Z)
| OpCreateApplication (slug name target : string)
| OpRename (a : N) (name : string)
| OpRateLimits (a : N) (per_minute per_second : option Z)
| OpDomainLimit (a : N) (max_domains : option Z)
| OpTarget (a : N) (target : string)
| OpStatus (a : N) (status : ApplicationStatus)
| OpDeleteApplication (a : N) (confirm : string) (delete_domains : bool) (now : option Z)
| OpIssueCredential (a : N) (label : string) (expires : option Z) (scope : string)
| OpAuthenticate (secret : option string) (now : option Z)
| OpRevokeCredential (a k : N) (now : option Z)
| OpDeleteCredential (a k : N) (now : option Z)
| OpRotateCredential (a k : N) (label : option string) (grace : Z) (now : option Z)
| OpRegisterOrigin (a : N) (host scheme : string) (port : option Z) (host_header : string)
| OpVerifyOrigin (k : N) (fetched : res string OriginAnswer) (now : option Z)
| OpActivateOrigin (k : N)
| OpDeleteOrigin (k : N)
| OpRetireOrigin (k : N)
| OpSubscribe (split : string -> UrlParts) (a : N) (url : string) (events : list string) (allow_private : bool)
| OpRevokeSubscription (a k : N) (now : option Z)
| OpDeleteSubscription (a k : N)
| OpRotateSecret (a k : N) (grace : Z) (now : option Z)
| OpReplay (a k delivery : N) (now : option Z)
| OpReplaySince (a k : N) (since : Z) (now : option Z)
| OpIssueKey (a : N) (activate_in : Z) (now : option Z)
| OpRevokeKey (a : N) (key_id : string) (now : option Z)
| OpLeaseDelivery (k : N) (now : Z)
| OpRecordAttempt (k : N) (loaded assigned : WebhookDelivery)
| OpSettle (now : option Z)
| OpStoreZone (lookup : ZoneLookup) (discovery : Discovery) (template : option string) (now : Z)
| OpLease (id : N) (now : Z) (types : list CheckType) (force : bool)
| OpDns (id a : N) (seen : Db) (r : Resolver) (status_before : DomainStatus) (zone : option string) (edge_due : bool)
| OpEdge (id a : N) (seen : Db) (prober : EdgeProber) (settings : EdgeFlags) (status_before : DomainStatus)
| OpCreateDomain (a : N) (payload : DomainCreate) (key : option string)
| OpPurgeKeys (now : option Z)
| OpCreateSession (split : string -> option UrlSplit) (a id : N) (base_url : option string) (ttl_seconds : option Z)
    (app_name return_url : option string) (now : option Z)
| OpRevokeSession (a id k : N) (now : option Z)
| OpUpdateApplication (a : N) (u : ApplicationUpdate)
| OpHostHeader (k : N) (host_header : string)
| OpVerifyAndActivate (k : N) (answer : res string OriginAnswer) (activate : bool)
| OpSetToken (token : string)
| OpResetToken
| OpSetSigner (split : string -> option UrlSplit) (url credential provider_id service_id : string) (now : option Z)
| OpResetSigner
| OpLock (name holder : string)
| OpRecordTotals (totals : Totals) (now : option Z)
| OpResetBaselines
| OpRunDns (id : N) (r : Resolver)                     (* the command line's checks *)
| OpRunEdge (id : N) (prober : EdgeProber) (settings : EdgeFlags)
| OpDraw (n : N).                                     (* random draws outside the database *)

Section Histories.
Context `{External, Deployment}.

Definition void {A} (m : M A) : M unit := _ ← m; mret tt.

(** The worker's DNS transaction, with what it observed when the database was [seen]. *)
Definition dns_op (id a : N) (seen : Db) (r : Resolver) (status_before : DomainStatus)
    (zone : option string) (edge_due : bool) : M unit :=
  match load seen id with
  | None => mret tt
  | Some d => void (dns_transaction id a (claim_version seen id)
                      (ownership_outcome r seen id) (routing_outcome r seen id d) zone status_before edge_due)
  end.

(** The same for the edge transaction. *)
Definition edge_op (id a : N) (seen : Db) (prober : EdgeProber) (settings : EdgeFlags)
    (status_before : DomainStatus) : M unit :=
  match load seen id with
  | None => mret tt
  | Some d => void (edge_transaction id a (claim_version seen id)
                      (certificate_outcome prober d settings (db_clock seen))
                      (origin_outcome seen d (Some prober)) status_before)
  end.

(** The checks an operator runs on a live domain, within one transaction. *)
Definition direct_dns (id : N) (r : Resolver) : M unit :=
  s ← get;
  match db_domains s !! id with
  | Some d => if live d then run_dns_checks id r None else mret tt
  | None => mret tt
  end.
Definition direct_edge (id : N) (prober : EdgeProber) (settings : EdgeFlags) : M unit :=
  s ← get;
  match db_domains s !! id with
  | Some d => if live d && eligible_for_edge_checks s id d then run_edge_checks id prober settings None else mret tt
  | None => mret tt
  end.

Definition run_op (o : Op) : M unit :=
  match o with
  | OpClock t => modify (fun s => s <| db_clock := Z.max (db_clock s) t |>)
  | OpClaim a h r m now => void (claim_domain a h r m now)
  | OpDelete a id now => delete_domain a id now
  | OpReissue a id now => void (reissue_claim a id now)
  | OpReissueTarget a now => void (reissue_claims_for_target a now)
  | OpRecheck a id by_ now => request_recheck a id by_ now
  | OpConnect a plan url now => void (record_connect a plan url now)
  | OpConnectReturned id now => void (connect_returned id now)
  | OpPurge now => void (purge_tombstones now)
  | OpImport a entries opts now => void (import_legacy_domains a entries opts now)
  | OpCreateApplication slug name target => void (create_application slug name target)
  | OpRename a name => rename_application a name
  | OpRateLimits a m n => set_rate_limits a m n
  | OpDomainLimit a m => set_domain_limit a m
  | OpTarget a target => void (set_cname_target a target)
  | OpStatus a st => set_application_status a st
  | OpDeleteApplication a slug dd now => void (delete_application a slug dd now)
  | OpIssueCredential a label expires scope => void (issue_credential a label expires scope)
  | OpAuthenticate secret now => void (authenticate_credential secret now)
  | OpRevokeCredential a k now => revoke_credential a k now
  | OpDeleteCredential a k now => delete_credential a k now
  | OpRotateCredential a k label grace now => void (rotate_credential a k label grace now)
  | OpRegisterOrigin a host scheme port hh => void (register_origin a host scheme port hh)
  | OpVerifyOrigin k fetched now =>
      (* the callers commit a failed verification and report it *)
      catch (verify_origin k fetched now)
        (fun e => match e with OriginVerificationFailed _ => mret tt | _ => raise e end)
  | OpActivateOrigin k => activate_origin k
  | OpDeleteOrigin k => delete_origin k
  | OpRetireOrigin k => retire_origin k
  | OpSubscribe split a url events p => void (create_subscription split a url events p)
  | OpRevokeSubscription a k now => revoke_subscription a k now
  | OpDeleteSubscription a k => delete_subscription a k
  | OpRotateSecret a k grace now => void (rotate_secret a k grace now)
  | OpReplay a k d now => replay_delivery a k d now
  | OpReplaySince a k since now => void (replay_since a k since now)
  | OpIssueKey a d now => void (issue_key a d now)
  | OpRevokeKey a kid now => void (revoke_key a kid now)
  | OpLeaseDelivery k now => void (lease_delivery k now)
  | OpRecordAttempt k loaded assigned => update_delivery k loaded assigned
  | OpSettle now => void (settle_deleted_applications now)
  | OpStoreZone l d t now => store_zone l d t now
  | OpLease id now types force => void (lease_domain id now types force)
  | OpDns id a seen r before zone edge_due => dns_op id a seen r before zone edge_due
  | OpEdge id a seen prober settings before => edge_op id a seen prober settings before
  | OpRunDns id r => direct_dns id r
  | OpRunEdge id prober settings => direct_edge id prober settings
  | OpCreateDomain a p key => void (create_or_replay a p key)
  | OpPurgeKeys now => void (purge_expired now)
  | OpCreateSession split a id base ttl name url now => void (create_session split a id base ttl name url now)
  | OpRevokeSession a id k now => revoke_session a id k now
  | OpUpdateApplication a u => update_application_fields a u
  | OpHostHeader k v => set_origin_host_header k v
  | OpVerifyAndActivate k answer activate => void (verify_and_activate k answer activate)
  | OpSetToken token => void (set_token token)
  | OpResetToken => void OperatorToken.reset
  | OpSetSigner split url c p sid now => set_remote_signer split url c p sid now
  | OpResetSigner => void reset_signer
  | OpLock name holder => acquire_lock name holder
  | OpRecordTotals totals now => void (record_totals totals now)
  | OpResetBaselines => reset_baselines
  | OpDraw n => modify (fun s => s <| db_next ::= N.max n |>)
  end.

(** One transaction of a history: committed, or rolled back when it raises. *)
Definition commit (o : Op) (s : Db) : Db := (transaction (run_op o) s).2.
Fixpoint exec (h : list Op) (s : Db) : Db :=
  match h with [] => s | o :: h => exec h (commit o s) end.

Lemma exec_app h1 h2 s : exec (h1 ++ h2) s = exec h2 (exec h1 s).
Proof. revert s. induction h1; simpl; auto. Qed.

Lemma keeps_void {A} P (m : M A) : keeps P m -> keeps P (void m).
Proof. intros Hm. unfold void. apply keeps_bind; [done|intros; apply keeps_ret]. Qed.

Lemma keeps_run_op o : keeps (Inv None) (run_op o).
Proof.
  destruct o; simpl; try apply keeps_void; auto with session nocore.
  all: try (apply keeps_core; auto with frames nocore; fail).
  - apply keeps_modify. intros s. by apply inv_tables.
  - apply keeps_record_connect.
  - apply keeps_connect_returned.
  - unfold import_legacy_domains. keeps_auto. apply keeps_import_entries.
  - apply keeps_delete_application.
  - apply keeps_core, mono_catch; [apply _|apply core_verify_origin|intros []; mono_auto].
  - unfold dns_op. keeps_auto. apply keeps_void, keeps_dns_transaction;
      [apply ownership_decided|apply routing_decided].
  - unfold edge_op. keeps_auto. apply keeps_void, keeps_edge_transaction;
      [apply certificate_decided|apply origin_decided].
  - apply keeps_create_or_replay.
  - apply keeps_update_application.
  - unfold direct_dns, run_dns_checks. keeps_auto. apply keeps_apply_dns; [apply ownership_decided|apply routing_decided].
  - unfold direct_edge, run_edge_checks. keeps_auto. apply keeps_apply_edge; [apply certificate_decided|apply origin_decided].
  - by apply keeps_core, mono_modify.
Qed.

Lemma commit_inv o s : Inv None s -> Inv None (commit o s).
Proof. apply keeps_commit, keeps_run_op. Qed.

Lemma exec_keeps h s : Inv None s -> Inv None (exec h s).
Proof. revert s. induction h as [|o h IH]; simpl; [done|]. intros s HI. apply IH, commit_inv, HI. Qed.

Lemma inv_empty clock : Inv None (empty_db clock).
Proof. by constructor. Qed.
End Histories.

(** ** The workers' programs are histories *)

Section WorkerHistory.
Context `{External, Deployment}.

Lemma transaction_void {A} (m : M A) s : (transaction (void m) s).2 = (transaction m s).2.
Proof. unfold transaction, savepoint, void. rewrite bind_run. by destruct (m s) as [[?|?] ?]. Qed.

(** What other transactions commit in the gaps, as histories. *)
Definition history_gaps (leased queried dns probed : list Op) : Gaps :=
  {| gap_leased := exec leased; gap_queried := exec queried; gap_dns := exec dns; gap_probed := exec probed |}.

Definition after (s : Db) (t : Db) : Prop := exists h, t = exec h s.
Lemma after_refl s : after s s.
Proof. by exists []. Qed.
Lemma after_exec s h t : after (exec h s) t -> after s t.
Proof. intros [h' ->]. exists (h ++ h')%list. by rewrite exec_app. Qed.
Lemma after_commit s o : after s (commit o s).
Proof. by exists [o]. Qed.

(** A program that goes on after one committed transaction. *)
Lemma after_bind {A B} (m : M A) (k : A -> M B) o s :
  (transaction m s).2 = commit o s -> (forall a t, after t (k a t).2) ->
  after s ((transaction m ≫= k) s).2.
Proof.
  intros Ho Hk. rewrite bind_run. destruct (transaction m s) as [[a|e] t] eqn:Et; simpl in Ho |- *.
  - subst t. apply (after_exec _ [o]), Hk.
  - subst t. apply after_commit.
Qed.
Lemma after_gap {B} (h : list Op) (k : unit -> M B) s :
  (forall t, after t (k tt t).2) -> after s ((modify (exec h) ≫= k) s).2.
Proof. intros Hk. rewrite bind_run. cbn [modify]. apply (after_exec _ h), Hk. Qed.

Lemma edge_phase_after h1 h2 h3 h4 prober settings loaded id a before edge_due s :
  after s (edge_phase (history_gaps h1 h2 h3 h4) prober settings loaded id a before edge_due s).2.
Proof.
  apply after_gap. intros t. rewrite bind_run. cbn [get]. cbv zeta.
  destruct (load_held loaded t id) as [d|] eqn:Hd; [|apply after_refl].
  assert (load (held loaded t) id = Some d) as Hh
    by (unfold load_held in Hd; destruct (db_domains t !! id) as [e|]; [destruct (live e); [exact Hd|done]|done]).
  destruct (_ || _); [apply after_refl|].
  rewrite bind_run. cbn [modify gap_probed history_gaps]. apply (after_exec _ h4).
  exists [OpEdge id a (held loaded t) prober settings before]. simpl. unfold commit. cbn [run_op].
  unfold edge_op. by rewrite Hh, transaction_void.
Qed.

(** [process_domain], whatever other transactions commit between its own, does
    to the database what some history of committed operations does. *)
Lemma process_domain_after h1 h2 h3 h4 r prober settings zone id now s :
  after s (process_domain (history_gaps h1 h2 h3 h4) r prober settings zone id now s).2.
Proof.
  unfold process_domain. rewrite bind_run.
  assert (exists n, now_or now s = (Ok n, s)) as [n ->] by (destruct now; eexists; reflexivity).
  rewrite bind_run. cbn [gets]. destruct (due_check_types s id n) as [|ty types]; [apply after_refl|].
  apply (after_bind _ _ (OpLease id n (ty :: types) false)); [by rewrite <- transaction_void|].
  intros leased t. destruct (negb leased); [apply after_refl|]. apply after_gap. clear t. intros t.
  rewrite bind_run. cbn [get]. destruct (load t id) as [d|] eqn:Hd; [|apply after_refl].
  destruct (existsb _ (ty :: types)); [|apply edge_phase_after].
  rewrite bind_run. cbn [modify gap_queried history_gaps]. apply (after_exec _ h2).
  apply (after_bind _ _ (OpDns id (dom_application_id d) t r (dom_status d) zone
    (existsb (fun t => bool_decide (t ∈ EDGE_CHECK_TYPES)) (ty :: types)))).
  - unfold commit. cbn [run_op]. unfold dns_op. by rewrite Hd, transaction_void.
  - intros [|changed e] u; [apply after_refl|]. rewrite bind_run. cbn [get]. apply edge_phase_after.
Qed.

Lemma run_batch_after gaps r prober settings zone now ids w s :
  (forall id, exists h1 h2 h3 h4, gaps id = history_gaps h1 h2 h3 h4) ->
  after s (run_batch gaps r prober settings zone now ids w s).2.
Proof.
  intros Hg. revert w s. induction ids as [|id ids IH]; intros w s; simpl; [apply after_refl|].
  destruct (Hg id) as (h1 & h2 & h3 & h4 & ->).
  pose proof (process_domain_after h1 h2 h3 h4 r prober settings (zone id) id now s) as [h Hh].
  destruct (process_domain _ _ _ _ _ _ _ _) as [o t]. simpl in Hh. subst t.
  apply (after_exec _ h), IH.
Qed.

(** The delivery worker, likewise. *)
Definition send_gaps (leased sent : list Op) : SendGaps := {| sg_leased := exec leased; sg_sent := exec sent |}.

Lemma attempt_after h1 h2 sender k now s : after s (attempt_delivery (send_gaps h1 h2) sender k now s).2.
Proof.
  unfold attempt_delivery. rewrite bind_run.
  assert (exists n, now_or now s = (Ok n, s)) as [n ->] by (destruct now; eexists; reflexivity).
  apply (after_bind _ _ (OpLeaseDelivery k n)); [by rewrite <- transaction_void|].
  intros leased t. destruct (negb leased); [apply after_refl|]. apply after_gap. clear t. intros t.
  rewrite bind_run. cbn [gets]. destruct (db_deliveries t !! k) as [d|]; [|apply after_refl].
  rewrite bind_run. cbn [need mret SM_ret]. rewrite bind_run. cbn [gets].
  destruct (active_subscription t (del_subscription_id d)) as [sub|].
  - destruct (status_error _) as [status error]. apply after_gap. intros u. rewrite bind_run.
    destruct (attempted d n status error) as [[o d']|]; [|apply after_refl]. cbn [need mret SM_ret snd].
    apply (after_bind _ _ (OpRecordAttempt k d d')); [done|]. intros [] v. apply after_refl.
  - apply (after_bind _ _ (OpRecordAttempt k d (unsendable d n))); [done|]. intros [] v. apply after_refl.
Qed.

Lemma deliver_all_after gaps sender now ks r s :
  (forall k, exists h1 h2, gaps k = send_gaps h1 h2) -> after s (deliver_all gaps sender now ks r s).2.
Proof.
  intros Hg. revert r s. induction ks as [|k ks IH]; intros r s; simpl; [apply after_refl|].
  destruct (Hg k) as (h1 & h2 & ->). pose proof (attempt_after h1 h2 sender k now s) as [h Hh].
  destruct (attempt_delivery _ _ _ _ _) as [o t]. simpl in Hh. subst t. apply (after_exec _ h), IH.
Qed.

Lemma delivery_run_after gaps sender n s :
  (forall k, exists h1 h2, gaps k = send_gaps h1 h2) -> after s (run_once gaps sender n s).2.
Proof.
  intros Hg. unfold run_once, deliver_due.
  match goal with |- context [deliver_all ?g ?x ?now ?ks ?r s] =>
    destruct (deliver_all_after g x now ks r s Hg) as [h Hh]; destruct (deliver_all g x now ks r s) as [o t] end.
  simpl in Hh |- *. subst t. apply (after_exec _ h). exists [OpSettle None]. simpl. unfold commit. cbn [run_op].
  by rewrite transaction_void.
Qed.
End WorkerHistory.
