(* ===== verification/Surface.v ===== *)
(** * The service as a history of operations

    Everything the service does on a request or in the background, as one type of work
    ([Work]) and what it does to the database and the process ([perform]): the v1 API,
    the operator API, the portal, the customer's page, the return from a DNS provider, the
    command line, the checks and delivery workers and the reconciler, each with what other
    transactions commit in its gaps.  The refinement: whatever the work, the database ends where some history of
    committed operations (Lifecycle.v) ends, so every theorem about histories holds of
    the running service. *)

From Stdlib Require Import Ascii String ZArith Lia.
From stdpp Require Import base gmap strings list.
From S2P Require Import Prelude PyStr Json Errors External Models Limits Url Signing Throttle EdgeSettings DnsSetup.
From S2P Require Import Schemas Webhooks Domains DomainFacts DomainInv ConnectFlow ConnectSessions.
From S2P Require Import Applications Idempotency OperatorToken Deps Api ConnectPage Egress EdgeConfig Traffic Operator Legacy.
From S2P Require Import Dns AssertionKeys Reconcile Portal Delivery DnsChecks EdgeChecks DnsSettings Internal Worker Doctor Cli Frames Lifecycle.
Open Scope Z_scope.

Section After.
Context `{External, Deployment}.

#[export] Instance after_preorder : PreOrder after.
Proof. split; [exact after_refl|]. intros s1 s2 s3 [h1 ->] [h2 ->]. exists (h1 ++ h2)%list. by rewrite exec_app. Qed.

(** A committed transaction is an operation. *)
Lemma after_op (o : Op) : mono after (transaction (run_op o)).
Proof. intros s. apply after_commit. Qed.
Lemma after_void {A} (m : M A) o : run_op o = void m -> mono after (transaction m).
Proof. intros Ho s. rewrite <- transaction_void, <- Ho. apply after_commit. Qed.
Lemma after_eq {A} (m : M A) : mono eq m -> mono after m.
Proof. intros Hm s. by rewrite <- (Hm s). Qed.
Lemma after_others h : mono (E := exn) after (modify (exec h)).
Proof. intros s. by exists h. Qed.
Lemma after_fresh : mono after fresh.
Proof.
  intros s. exists [OpDraw (N.succ (db_next s))].
  change (s <| db_next := (db_next s + 1)%N |> = s <| db_next := N.max (N.succ (db_next s)) (db_next s) |>).
  by replace (N.max _ _) with (db_next s + 1)%N by lia.
Qed.
Lemma after_now_or o : mono after (now_or o).
Proof. apply after_eq. destruct o; by mono_auto. Qed.
Lemma after_the_application a : mono after (the_application a).
Proof. apply after_eq. unfold the_application. by mono_auto. Qed.
Lemma after_get_domain a id b : mono after (get_domain a id b).
Proof. apply after_eq. unfold get_domain. by mono_auto. Qed.
End After.
#[export] Hint Resolve after_fresh after_others after_now_or after_the_application after_get_domain : session.

(** The operation whose transaction a service call is. *)
Ltac operation m :=
  lazymatch m with
  | claim_domain ?a ?h ?r ?d ?n => constr:(OpClaim a h r d n)
  | create_or_replay ?a ?p ?k => constr:(OpCreateDomain a p k)
  | request_recheck ?a ?id ?b ?n => constr:(OpRecheck a id b n)
  | record_connect ?a ?p ?u ?n => constr:(OpConnect a p u n)
  | connect_returned ?id ?n => constr:(OpConnectReturned id n)
  | create_session ?split ?a ?id ?base ?ttl ?name ?url ?n => constr:(OpCreateSession split a id base ttl name url n)
  | revoke_session ?a ?id ?k ?n => constr:(OpRevokeSession a id k n)
  | delete_domain ?a ?id ?n => constr:(OpDelete a id n)
  | create_subscription ?split ?a ?u ?e ?p => constr:(OpSubscribe split a u e p)
  | revoke_subscription ?a ?k ?n => constr:(OpRevokeSubscription a k n)
  | rotate_secret ?a ?k ?g ?n => constr:(OpRotateSecret a k g n)
  | replay_delivery ?a ?k ?d ?n => constr:(OpReplay a k d n)
  | replay_since ?a ?k ?t ?n => constr:(OpReplaySince a k t n)
  | authenticate_credential ?s ?n => constr:(OpAuthenticate s n)
  | create_application ?s ?n ?t => constr:(OpCreateApplication s n t)
  | update_application_fields ?a ?u => constr:(OpUpdateApplication a u)
  | delete_application ?a ?c ?b ?n => constr:(OpDeleteApplication a c b n)
  | register_origin ?a ?h ?s ?p ?hh => constr:(OpRegisterOrigin a h s p hh)
  | set_origin_host_header ?k ?v => constr:(OpHostHeader k v)
  | verify_and_activate ?k ?r ?b => constr:(OpVerifyAndActivate k r b)
  | activate_origin ?k => constr:(OpActivateOrigin k)
  | retire_origin ?k => constr:(OpRetireOrigin k)
  | delete_origin ?k => constr:(OpDeleteOrigin k)
  | issue_key ?a ?d ?n => constr:(OpIssueKey a d n)
  | revoke_key ?a ?k ?n => constr:(OpRevokeKey a k n)
  | issue_credential ?a ?l ?e ?s => constr:(OpIssueCredential a l e s)
  | rotate_credential ?a ?k ?l ?g ?n => constr:(OpRotateCredential a k l g n)
  | revoke_credential ?a ?k ?n => constr:(OpRevokeCredential a k n)
  | delete_credential ?a ?k ?n => constr:(OpDeleteCredential a k n)
  | set_token ?t => constr:(OpSetToken t)
  | set_remote_signer ?split ?u ?c ?p ?s ?n => constr:(OpSetSigner split u c p s n)
  | reset_signer => constr:(OpResetSigner)
  | rename_application ?a ?n => constr:(OpRename a n)
  | set_rate_limits ?a ?m ?n => constr:(OpRateLimits a m n)
  | set_domain_limit ?a ?n => constr:(OpDomainLimit a n)
  | set_application_status ?a ?st => constr:(OpStatus a st)
  | delete_subscription ?a ?k => constr:(OpDeleteSubscription a k)
  | reissue_claim ?a ?id ?n => constr:(OpReissue a id n)
  | purge_tombstones ?n => constr:(OpPurge n)
  | import_legacy_domains ?a ?e ?o ?n => constr:(OpImport a e o n)
  | OperatorToken.reset => constr:(OpResetToken)
  | purge_expired ?n => constr:(OpPurgeKeys n)
  end.
#[export] Hint Extern 1 (mono after (transaction ?m)) =>
  (let o := operation m in first [exact (after_op o) | exact (after_void m o eq_refl)]) : session.

Section Handlers.
Context `{External, Deployment, PrivateKeys}.
Context (urlparts : string -> UrlParts) (urlsplit : string -> option UrlSplit).
Context (signing_service : string -> string -> json -> SignerOutcome).

Lemma after_enforce_limits id now : mono after (enforce_limits id now).
Proof. apply after_eq. unfold enforce_limits, the_domain, enforce_window. by mono_auto. Qed.
Lemma after_encrypt v p : mono after (SecretBox.encrypt v p).
Proof. unfold SecretBox.encrypt. mono_auto. Qed.
#[local] Hint Resolve after_enforce_limits after_encrypt : session.

Lemma after_issue_link a id redirect state return_url private others now :
  mono after (issue_link urlsplit signing_service a id redirect state return_url private (exec others) now).
Proof. unfold issue_link, prepare_connect, return_params. cbv zeta. mono_auto. Qed.
#[local] Hint Resolve after_issue_link : session.

Lemma after_resource id : mono after (resource_of id).
Proof. apply after_eq. unfold resource_of, the_domain. by mono_auto. Qed.
Lemma after_webhook status k extra : mono after (webhook_answer status k extra).
Proof. apply after_eq. unfold webhook_answer, the_subscription. by mono_auto. Qed.
#[local] Hint Resolve after_resource after_webhook : session.

Lemma after_list_deliveries a k state limit offset : mono after (list_deliveries a k state limit offset).
Proof. apply after_eq. unfold list_deliveries, get_subscription. by mono_auto. Qed.
Lemma after_application_of slug : mono after (application_of slug).
Proof. apply after_eq. unfold application_of, get_application_by_slug. by mono_auto. Qed.
Lemma after_get_origin a k u : mono after (get_origin a k u).
Proof. apply after_eq. unfold get_origin. by mono_auto. Qed.
Lemma after_the_origin k : mono after (the_origin k).
Proof. apply after_eq. unfold the_origin. by mono_auto. Qed.
#[local] Hint Resolve after_list_deliveries after_application_of after_get_origin after_the_origin : session.

(** ** Handlers *)

Lemma after_v1_handler settings others a c :
  mono after (v1_handler urlparts urlsplit signing_service settings (exec others) a c).
Proof.
  destruct c; cbn [v1_handler]; unfold create_domain, list_domains_page, get_domain_resource, recheck_domain,
    connect_domain, create_connect_session, revoke_connect_session, delete_domain_now, create_webhook,
    list_webhooks, revoke_webhook, rotate_webhook, list_webhook_deliveries, replay_one, replay_many; by mono_auto.
Qed.

Lemma after_operator_handler settings wire c : mono after (operator_handler urlsplit settings wire c).
Proof.
  destruct c; cbn [operator_handler]; unfold create_application_endpoint, update_application_endpoint, show_traffic,
    delete_application_endpoint, register_origin_endpoint, update_origin, verify_origin_endpoint,
    activate_origin_endpoint, retire_origin_endpoint, delete_origin_endpoint, list_assertion_keys,
    issue_assertion_key, revoke_assertion_key, issue_credential_endpoint, rotate_credential_endpoint,
    revoke_credential_endpoint, delete_credential_endpoint, set_operator_token, count_setups, put_signer,
    delete_signer, signer_answer, application_answer, origin_answer, credential_answer, key_answer, origin_of;
    cbv zeta; by mono_auto.
Qed.

(** ** The portal's forms *)

(** A transaction that only reads before or after its operation. *)
Lemma after_head {A B} (m : M A) (k : A -> M B) :
  mono eq m -> (forall x, mono after (transaction (k x))) -> mono after (transaction (x ← m; k x)).
Proof.
  intros Hm Hk s. unfold transaction, savepoint. rewrite bind_run. specialize (Hm s). destruct (m s) as [[x|e] t]; cbn in Hm; subst t.
  - exact (Hk x s).
  - apply after_refl.
Qed.
Lemma after_tail {A B} (m : M A) (k : A -> M B) :
  mono after (transaction m) -> (forall x, mono eq (k x)) -> mono after (transaction (x ← m; k x)).
Proof.
  intros Hm Hk s. specialize (Hm s). unfold transaction, savepoint in *. rewrite bind_run. destruct (m s) as [[x|e] t]; [|apply after_refl].
  specialize (Hk x t). destruct (k x t) as [[y|e] u]; cbn in Hk; subst u; [exact Hm|apply after_refl].
Qed.

Definition same_applications (s s' : Db) : Prop := db_applications s' = db_applications s.
#[export] Instance same_applications_preorder : PreOrder same_applications.
Proof. split; [done|]. intros s1 s2 s3. unfold same_applications. congruence. Qed.

Lemma applications_event id t p now : mono same_applications (record_event id t p now).
Proof.
  unfold record_event, enqueue_for_event, add_delivery, append_event, the_domain, fresh, now_or. cbv zeta. by mono_auto.
Qed.
#[local] Hint Resolve applications_event : session.
Lemma applications_transition id st reason now : mono same_applications (transition_status id st reason now).
Proof. unfold transition_status, the_domain, update_domain, now_or. by mono_auto. Qed.
#[local] Hint Resolve applications_transition : session.
Lemma applications_reissue a now : mono same_applications (reissue_claims_for_target a now).
Proof.
  unfold reissue_claims_for_target, reissue_claim, issue_claim, revoke_live_claim, record_check,
    the_application, get_domain, the_domain, update_claim, insert_claim, update_domain, put_check, fresh, now_or. by mono_auto.
Qed.

Definition only_target (target : string) (reissue : bool) : ApplicationUpdate := {|
  au_name := None; au_cname_target := Some target; au_reissue_claims := reissue; au_workspace_probe := None;
  au_status := None; au_rate_limit_per_minute := None; au_rate_limit_per_second := None; au_max_domains := None |}.
Definition only_probe (b : bool) : ApplicationUpdate := {|
  au_name := None; au_cname_target := None; au_reissue_claims := false; au_workspace_probe := Some b;
  au_status := None; au_rate_limit_per_minute := None; au_rate_limit_per_second := None; au_max_domains := None |}.

(** Saving a target and moving the claims to it is an update of the application's fields. *)
Lemma after_retarget a target b : mono after (transaction (retarget a target b)).
Proof.
  destruct b; [|exact (after_op (OpTarget a target))]. intros s. exists [OpUpdateApplication a (only_target target true)].
  cbn [exec]. unfold commit, transaction, savepoint. cbn [run_op]. unfold retarget, update_application_fields, only_target.
  cbn [given au_name au_cname_target au_reissue_claims au_workspace_probe au_status au_rate_limit_per_minute
       au_rate_limit_per_second au_max_domains].
  rewrite !bind_run. cbn [mret SM_ret]. rewrite !bind_run.
  destruct (set_cname_target a target s) as [[t|e] s1]; [|done].
  destruct (reissue_claims_for_target a None s1) as [[n|e] s2] eqn:Er; rewrite ?bind_run, Er; [|done].
  assert (exists r, the_application a s2 = (Ok r, s2)) as [r Hr].
  { pose proof (mono_ok _ _ _ _ _ (applications_reissue a None) Er) as Hs. unfold reissue_claims_for_target in Er.
    apply bind_ok in Er as (t0 & u & [= _ <-] & Er). apply bind_ok in Er as (r & u & Hu & _).
    exists r. unfold the_application in *. rewrite bind_run in Hu |- *. cbn [gets] in *. rewrite Hs.
    destruct (db_applications s1 !! a); [|done]. by injection Hu as ->. }
  cbn [mret SM_ret]. rewrite !bind_run. cbn [mret SM_ret]. rewrite !bind_run. cbn [mret SM_ret]. by rewrite bind_run, Hr.
Qed.
Lemma after_probe a b : mono after (transaction (set_workspace_probe a b)).
Proof.
  intros s. destruct (db_applications s !! a) as [r|] eqn:Ea.
  - exists [OpUpdateApplication a (only_probe b)]. cbn [exec]. unfold commit, transaction, savepoint. cbn [run_op].
    unfold update_application_fields, only_probe.
    cbn [given au_name au_cname_target au_reissue_claims au_workspace_probe au_status au_rate_limit_per_minute
       au_rate_limit_per_second au_max_domains].
    rewrite !bind_run. cbn [mret SM_ret]. rewrite !bind_run. cbn [mret SM_ret]. rewrite !bind_run.
    unfold set_workspace_probe, flush_application. cbn [modify]. rewrite !bind_run. cbn [mret SM_ret]. rewrite !bind_run.
    unfold the_application. rewrite bind_run. cbn [gets]. simpl_over. rewrite lookup_alter_eq, Ea. done.
  - exists []. unfold set_workspace_probe, flush_application, transaction, savepoint. cbn [modify snd exec].
    match goal with |- context [alter ?f a] => assert (alter f a (db_applications s) = db_applications s) as E end.
    { apply map_eq. intros k. destruct (decide (a = k)) as [<-|]; [by rewrite lookup_alter_eq, Ea|by rewrite lookup_alter_ne]. }
    transitivity (s <| db_applications ::= fun _ => db_applications s |>); [|by destruct s].
    exact (f_equal (fun m => s <| db_applications ::= fun _ => m |>) E).
Qed.

#[local] Hint Resolve after_retarget after_probe : session.

Lemma after_catch_service {A} (m : M A) : mono after m -> mono after (catch_service m).
Proof.
  intros Hm. apply mono_catch; [apply _| |intros e; by mono_auto]. apply mono_bind; [apply _|done|intros x; by mono_auto].
Qed.
Lemma after_catch_action {A} (m : M A) : mono after m -> mono after (catch_action m).
Proof.
  intros Hm. apply mono_catch; [apply _| |intros e; by mono_auto]. apply mono_bind; [apply _|done|intros x; by mono_auto].
Qed.
Lemma after_commit_if {A} keep (m : M A) : mono after (transaction m) -> mono after (commit_if keep m).
Proof.
  intros Hm s. specialize (Hm s). unfold commit_if. destruct (transaction m s) as [[a|e] t]; [|exact Hm].
  cbn. destruct (keep a); [exact Hm|apply after_refl].
Qed.
Lemma after_read {A} (m : M A) : mono eq m -> mono after m.
Proof. apply after_eq. Qed.
#[local] Hint Resolve after_catch_service after_catch_action : session.
Lemma after_load slug b : mono after (load_application slug b).
Proof. apply after_eq, load_application_reads. Qed.
Lemma after_webhook_page a k st : mono after (webhook_page a k st).
Proof. apply after_eq, webhook_page_reads. Qed.
Lemma after_domain_page a id st : mono after (domain_page a id st).
Proof. apply after_eq, domain_page_reads. Qed.
#[local] Hint Resolve after_load after_webhook_page after_domain_page : session.

(** One operation, what is read before it and what is shown after it. *)
Ltac one_operation :=
  repeat first
    [ solve [auto with session]
    | apply after_tail; [|intros; solve [unfold credential_shown, webhook_shown; mono_auto]]
    | apply after_head; [solve [unfold get_origin; mono_auto]|intros] ].

Lemma after_action wire f c a :
  form_action urlparts wire f = Some c -> mono after (transaction (ac_run c a)).
Proof.
  intros Hf. destruct f; unfold_action Hf; try done; injection Hf as <-; cbn [ac_run].
  all: unfold act, on_origin, verify_action, save_rate_limit, save_domain_limit, save_status, key_action,
    credential_action, rotate_action, webhook_action, webhook_rotation; one_operation.
Qed.

Lemma after_form_handler wire f : mono after (form_handler urlparts urlsplit wire f).
Proof.
  destruct (form_action urlparts wire f) as [c|] eqn:Ef.
  { assert (form_handler urlparts urlsplit wire f = run_action c) as -> by (destruct f; try done; cbn [form_handler]; by rewrite Ef).
    unfold run_action. mono_auto. apply after_catch_action. by eapply after_action. }
  destruct f; try done; cbn [form_handler];
    unfold create_application_form, replay_form, domain_form, purge_form, signer_form, signer_reset_form, import_form;
    cbv zeta; mono_auto.
  - apply after_catch_action. unfold domain_verb. repeat destruct (String.eqb _ _); one_operation.
  - apply after_catch_service, after_commit_if, after_head; [unfold get_application_by_slug; by mono_auto|intros x]. one_operation.
Qed.

Lemma after_page_view o cookie notice error : mono after (page_view urlsplit o cookie notice error).
Proof. unfold page_view. cbv zeta. by mono_auto. Qed.

Lemma after_return state error : mono after (domain_connect_return urlsplit state error).
Proof. unfold domain_connect_return. cbv zeta. by mono_auto. Qed.
End Handlers.

(** ** Requests *)

Section Requests.
Context `{External, Deployment, PrivateKeys}.
Context (urlparts : string -> UrlParts) (urlsplit : string -> option UrlSplit).
Context (signing_service : string -> string -> json -> SignerOutcome).

(** The process moved, and its database as some history does. *)
Definition served (w w' : Server) : Prop := after (srv_db w) (srv_db w').

#[export] Instance served_preorder : PreOrder served.
Proof. split; [intros w; apply after_refl|]. intros w1 w2 w3. unfold served. apply transitivity. Qed.

Lemma served_on_db {A} (m : M A) : mono after m -> mono served (on_db m).
Proof. intros Hm w. unfold on_db, served. specialize (Hm (srv_db w)). by destruct (m (srv_db w)). Qed.
#[local] Hint Resolve served_on_db : session.
Lemma served_count client : mono served (count_failure client).
Proof. unfold count_failure. mono_auto; apply after_refl. Qed.
Lemma served_wait client : mono served (client_wait client).
Proof. unfold client_wait. by mono_auto. Qed.
Lemma served_rate k : mono served (take_rate k).
Proof. unfold take_rate. mono_auto; apply after_refl. Qed.
#[local] Hint Resolve served_count served_wait served_rate : session.

Lemma served_authenticate secret now : mono served (on_db (transaction (authenticate_credential secret now))).
Proof. by auto with session. Qed.
#[local] Hint Resolve served_authenticate : session.

Lemma served_current_application rq : mono served (current_application rq).
Proof.
  unfold current_application. cbv zeta. mono_auto.
  apply mono_catch; [apply _|apply served_authenticate|intros e; by mono_auto].
Qed.
#[local] Hint Resolve served_current_application : session.
Lemma served_v1 others rq c : mono served (v1_request urlparts urlsplit signing_service (exec others) rq c).
Proof. unfold v1_request. mono_auto. apply served_on_db, after_v1_handler. Qed.

Lemma served_operator wire rq c : mono served (operator_request urlsplit wire rq c).
Proof.
  unfold operator_request, require_operator, operator_wait, count_operator_failure. cbv zeta. mono_auto; try apply after_refl.
  apply served_on_db, after_operator_handler.
Qed.

Lemma served_open_link rq token : mono served (open_link rq token).
Proof. unfold open_link. cbv zeta. by mono_auto. Qed.
#[local] Hint Resolve served_open_link : session.
Lemma served_page rq token n error : mono served (connect_page urlsplit rq token n error).
Proof.
  unfold connect_page. mono_auto. apply mono_catch; [apply _| |intros e; by mono_auto].
  mono_auto. apply served_on_db, after_page_view.
Qed.
Lemma served_check rq token : mono served (check_now rq token).
Proof.
  unfold check_now. mono_auto. apply mono_catch; [apply _|by mono_auto|intros e; by mono_auto].
Qed.
Lemma served_apply others rq token : mono served (apply_setup urlsplit signing_service (exec others) rq token).
Proof.
  unfold apply_setup. cbv zeta. mono_auto. apply mono_catch; [apply _| |intros e; by mono_auto].
  mono_auto. apply served_on_db, after_issue_link.
Qed.

Lemma served_form wire rq token f : mono served (portal_form urlparts urlsplit wire rq token f).
Proof.
  unfold portal_form. mono_auto; [|apply served_on_db, after_form_handler]. intros w.
  rewrite (proj1 (portal_session_run rq w)). reflexivity.
Qed.
Lemma served_login rq password next : mono served (login rq password next).
Proof.
  unfold login. mono_auto; try apply after_refl.
Qed.

(** ** The reconciler *)

Context `{AdminApi}.

Lemma after_savepoint {A} (m : M A) o : run_op o = void m -> mono after (savepoint m).
Proof. exact (after_void m o). Qed.
Lemma after_read_traffic families now w : mono after (read_traffic families now w).
Proof.
  unfold read_traffic, traffic_step. destruct (traffic _ _) as [[totals|]|]; mono_auto.
  apply mono_catch; [apply _| |intros e; by mono_auto]. mono_auto. by apply (after_savepoint _ (OpRecordTotals totals (Some now))).
Qed.
Lemma after_reconcile families settings holder opened s w :
  after s (run_reconcile families settings holder opened s w).1.2.
Proof.
  unfold run_reconcile. destruct opened; [|apply after_refl]. cbn [negb].
  destruct (build_apps _ settings) as [desired|]; [|apply after_refl].
  set (locked := (acquire_reconcile_lock holder s).2). set (counted := (read_traffic families (db_clock s) w locked).2).
  assert (after s counted) as Hc.
  { transitivity locked; [by exists [OpLock RECONCILE_LOCK holder]|apply after_read_traffic]. }
  destruct (apply_config desired (db_clock s) w) as [[result|e] w1]; [|exact Hc]. cbn [fst snd].
  destruct (rr_changed result); [|exact Hc]. transitivity counted; [exact Hc|].
  unfold traffic_step. apply mono_catch; [apply _| |intros e; by mono_auto].
  mono_auto. intros u. exists [OpResetBaselines]. cbn [exec]. unfold commit, transaction. cbn [run_op]. by destruct (savepoint _ u).
Qed.
Lemma served_reconcile_form families holder opened world rq token :
  mono served (reconcile_form families holder opened world rq token).
Proof.
  intros w. unfold reconcile_form. rewrite bind_run. pose proof (portal_session_run rq w) as [Hw _].
  destruct (portal_session rq w) as [[[answer|data]|e] w1]; cbn [snd] in Hw; subst w1; try apply after_refl.
  rewrite bind_run. unfold lift. destruct (csrf_valid data token) as [[|]|e]; try apply after_refl.
  cbn [negb]. rewrite bind_run. cbn [get]. rewrite bind_run. destruct (srv_edge_settings w) as [settings|]; [|apply after_refl].
  cbn [need mret SM_ret]. pose proof (after_reconcile families settings holder opened (srv_db w) world) as Ha.
  destruct (run_reconcile _ _ _ _ _ _) as [[r s] world']. cbn [fst snd] in Ha. rewrite bind_run. cbn [modify].
  destruct r; exact Ha.
Qed.
End Requests.

(** ** The command line *)

(** What [process_domain] and [attempt_delivery] leave open to others, as histories. *)
Record CheckGaps := { cg_leased : list Op; cg_queried : list Op; cg_dns : list Op; cg_probed : list Op }.

Section Commands.
Context `{External, Deployment, PrivateKeys}.

Definition open_check (g : CheckGaps) : Gaps := history_gaps (cg_leased g) (cg_queried g) (cg_dns g) (cg_probed g).
Definition open_send (g : list Op * list Op) : SendGaps := send_gaps g.1 g.2.

Context (urlsplit : string -> option UrlSplit) (urlparse : string -> option string * option Z).
Context (http_get : string -> res string Z) (fetch_json : string -> res string json).
Context (resolve : string -> res string (list string)) (probe_target : string -> string -> ProbeReply).
Context (shell : Shell).

Lemma after_named slug : mono after (named slug).
Proof. apply after_eq, named_reads. Qed.
Lemma after_selected o : mono after (selected_origin o).
Proof. apply after_eq, selected_reads. Qed.
Lemma after_row {A} (f : Db -> option A) (e : exn) : mono after (r ← gets f; need r e).
Proof. apply after_eq, row_reads. Qed.
Lemma after_credential_row k : mono after (the_credential k).
Proof. apply after_row. Qed.
Lemma after_key_row k : mono after (the_key k).
Proof. apply after_row. Qed.
Lemma after_origin_row k : mono after (the_origin k).
Proof. apply after_row. Qed.
Lemma after_domain_row id : mono after (the_domain id).
Proof. apply after_row. Qed.
#[local] Hint Resolve after_named after_selected after_credential_row after_key_row after_origin_row after_domain_row : session.

(** One transaction of two parts that are operations each. *)
Lemma after_both {A B} (m : M A) (k : A -> M B) :
  mono after (transaction m) -> (forall x, mono after (transaction (k x))) -> mono after (transaction (x ← m; k x)).
Proof.
  intros Hm Hk s. specialize (Hm s). unfold transaction, savepoint in *. rewrite bind_run. destruct (m s) as [[x|e] t]; [|apply after_refl].
  specialize (Hk x t). cbv beta in Hk. destruct (k x t) as [[y|e] u]; [|apply after_refl]. by transitivity t.
Qed.
Lemma after_value {A} (m : M A) : mono eq m -> mono after (transaction m).
Proof. intros Hm. by apply after_eq, mono_savepoint; [apply _|]. Qed.
Lemma after_each {X} (xs : list X) (f : X -> M unit) :
  (forall x, mono after (transaction (f x))) -> mono after (transaction (for_each xs f)).
Proof.
  intros Hf. induction xs as [|x xs IH]; cbn [for_each]; [by (apply after_value; mono_auto)|by apply after_both].
Qed.

Lemma after_move a target b : mono after (transaction (move_target a target b)).
Proof.
  unfold move_target. apply after_both; [exact (after_void _ (OpTarget a target) eq_refl)|intros t].
  apply after_head; [by mono_auto|intros stale]. apply after_tail; [|intros; by mono_auto].
  destruct b; [|by (apply after_value; mono_auto)]. apply after_each. intros id.
  exact (after_op (OpReissue a id None)).
Qed.
Lemma after_purges :
  mono after (transaction (count ← purge_tombstones None; keys ← purge_expired None; mret (count, keys))).
Proof. do 2 (apply after_both; [by auto with session|intros]). by (apply after_value; mono_auto). Qed.
#[local] Hint Resolve after_move after_purges after_probe : session.

Lemma after_run_dns id r s d :
  db_domains s !! id = Some d -> live d = true -> after s (transaction (run_dns_checks id r None) s).2.
Proof.
  intros Hd Hl. exists [OpRunDns id r]. cbn [exec]. unfold commit. cbn [run_op]. unfold direct_dns, transaction, savepoint.
  rewrite bind_run. cbn [get]. by rewrite Hd, Hl.
Qed.
Lemma after_run_edge id prober flags s d :
  db_domains s !! id = Some d -> live d = true -> eligible_for_edge_checks s id d = true ->
  after s (transaction (run_edge_checks id prober flags None) s).2.
Proof.
  intros Hd Hl He. exists [OpRunEdge id prober flags]. cbn [exec]. unfold commit. cbn [run_op].
  unfold direct_edge, transaction, savepoint. rewrite bind_run. cbn [get]. by rewrite Hd, Hl, He.
Qed.
Lemma live_domain_found slug hostname s id d s' :
  live_domain_of slug hostname s = (Ok (Some (id, d)), s') -> s' = s /\ db_domains s !! id = Some d /\ live d = true.
Proof.
  intros Hf. pose proof (live_domain_reads slug hostname s) as Hr. rewrite Hf in Hr. cbn in Hr. subst s'. split; [done|].
  unfold live_domain_of in Hf. apply bind_ok in Hf as (x & t & Hx & Hf). pose proof (named_reads slug s) as Hn.
  rewrite Hx in Hn. cbn in Hn. subst t. apply bind_ok in Hf as (canonical & t & [= _ <-] & Hf).
  rewrite bind_run in Hf. cbn [get] in Hf. injection Hf as Hf. destruct (live_by_hostname s canonical) as [y|] eqn:Ey; [|done].
  destruct (bool_decide _); [|done]. injection Hf as ->. unfold live_by_hostname in Ey.
  apply head_filter_Some in Ey as [Hin%elem_of_map_to_list [Hl _]%andb_prop]. auto.
Qed.

(** What a handler does after reading. *)
Lemma after_then {A B} (m : M A) (k : A -> M B) s :
  mono eq m -> (forall x, m s = (Ok x, s) -> after s (k x s).2) -> after s ((m ≫= k) s).2.
Proof.
  intros Hm Hk. rewrite bind_run. specialize (Hm s). destruct (m s) as [[x|e] t]; cbn in Hm; subst t; [by apply Hk|apply after_refl].
Qed.
Lemma after_done {A B} (m : M A) (k : A -> M B) s :
  after s (m s).2 -> (forall x, mono after (k x)) -> after s ((m ≫= k) s).2.
Proof.
  intros Hm Hk. rewrite bind_run. destruct (m s) as [[x|e] t]; [|exact Hm]. transitivity t; [exact Hm|apply Hk].
Qed.

Lemma after_checks_dns slug hostname : mono after (checks_dns shell slug hostname).
Proof.
  intros s. unfold checks_dns. apply after_then; [apply live_domain_reads|]. intros [[id d]|] Hf; [|apply after_refl].
  apply live_domain_found in Hf as (_ & Hd & Hl). do 2 (apply after_then; [by mono_auto|intros ? _]).
  apply after_done; [by eapply after_run_dns|intros u]. by mono_auto.
Qed.
Lemma after_checks_edge slug hostname : mono after (checks_edge shell slug hostname).
Proof.
  intros s. unfold checks_edge. destruct (sh_settings shell) as [settings|]; [|apply after_refl].
  apply after_then; [apply live_domain_reads|]. intros [[id d]|] Hf; [|apply after_refl].
  apply live_domain_found in Hf as (_ & Hd & Hl). rewrite bind_run. cbn [get].
  destruct (eligible_for_edge_checks s id d) eqn:He; [|apply after_refl]. cbn [negb].
  apply after_done; [by eapply after_run_edge|intros u]. by mono_auto.
Qed.

Lemma after_legacy_import slug file port map h g al dry : mono after (legacy_import slug file port map h g al dry).
Proof.
  intros s. unfold legacy_import. do 2 (apply after_then; [by mono_auto|intros ? _]). destruct (_ && _); [apply after_refl|].
  apply after_then; [by mono_auto|intros ? _]. rewrite bind_run. cbn [get].
  set (verb := if dry then _ else _).
  assert (mono after (transaction (import_session slug x0 x1 h g verb))) as Hs.
  { unfold import_session. apply after_head; [apply named_reads|intros y]. apply after_tail; [by auto with session|].
    intros r. by mono_auto. }
  specialize (Hs s). unfold transaction, savepoint in Hs.
  destruct (import_session _ _ _ _ _ verb s) as [[[r lines]|e] t]; [|apply after_refl].
  rewrite bind_run. cbn [modify mret SM_ret snd] in Hs |- *. destruct (import_committed al dry r); [exact Hs|apply after_refl].
Qed.
#[local] Hint Resolve after_checks_dns after_checks_edge after_legacy_import : session.

Lemma after_print_signer first : mono after (print_signer first).
Proof. apply after_eq. unfold print_signer. by mono_auto. Qed.
#[local] Hint Resolve after_print_signer : session.

Context (gaps : N -> CheckGaps) (sends : N -> list Op * list Op).
Context (Hgaps : sh_gaps shell = fun id => open_check (gaps id)).
Context (Hsends : sh_send_gaps shell = fun k => open_send (sends k)).

Lemma after_due_checks settings limit : mono after (due_checks shell settings limit).
Proof.
  intros s. unfold due_checks.
  assert (forall id, exists h1 h2 h3 h4, sh_gaps shell id = history_gaps h1 h2 h3 h4) as Hg.
  { intros id. rewrite Hgaps. by eexists _, _, _, _. }
  pose proof (run_batch_after _ (sh_answers shell) (sh_prober shell) (flags_of settings) (sh_zone shell) None
    (due_domain_ids s (db_clock s) limit) {| wr_processed := 0; wr_failed := 0; wr_status_changes := 0 |} s Hg) as Hb.
  unfold run_due_checks. by destruct (run_batch _ _ _ _ _ _ _ _ s).
Qed.
#[local] Hint Resolve after_due_checks : session.
Lemma after_deliveries s : after s (run_once (sh_send_gaps shell) (sh_sender shell) WEBHOOK_BATCH s).2.
Proof. apply delivery_run_after. intros k. rewrite Hsends. by eexists _, _. Qed.

Lemma after_session_command c :
  mono after (session_command urlsplit urlparse http_get fetch_json resolve probe_target shell c).
Proof.
  destruct c; cbn [session_command]; try (apply after_legacy_import).
  all: unfold application_create, application_list, application_set_workspace_probe, application_set_cname_target,
    application_rename, application_set_domain_limit, application_set_rate_limit, application_traffic_report,
    application_delete, credential_issue, credential_revoke, credential_list, credential_rotate, credential_delete,
    assertion_key_issue, assertion_key_list, assertion_key_revoke, origin_register, origin_list, origin_verify,
    origin_activate, origin_retire, origin_set_host_header, origin_delete, operator_reset_token, operator_token_status,
    domain_connect_set_remote, domain_connect_reset, domain_connect_public_key, domain_purge, domain_setup_stats,
    edge_config, edge_bootstrap, db_libpq_url, edge_dry_run, checks_run, doctor, with_settings; cbv zeta; by mono_auto.
Qed.

Context `{AdminApi} (hooks : World -> World).

Lemma after_worker_ending result edge s w : after s (worker_ending shell result edge s w).1.2.
Proof. unfold worker_ending. pose proof (after_deliveries s) as Ha. by destruct (run_once _ _ _ s). Qed.

Lemma after_worker_once s w : after s (worker_once shell hooks s w).1.2.
Proof.
  unfold worker_once. destruct (sh_settings shell) as [settings|]; [|apply after_refl].
  destruct (_ ≫= _) as [dns|e]; [|apply after_refl].
  pose proof (after_due_checks settings (Z.to_nat (DnsSettings.batch_size dns)) s) as Hc. unfold due_checks in Hc.
  destruct (run_due_checks _ _ _ _ _ _ _ s) as [result t]. cbn [snd] in Hc.
  destruct (negb _); [transitivity t; [exact Hc|apply after_worker_ending]|].
  assert (forall w u v, (if wr_status_changes result =? 0 then (t, w)
            else let '(_, s, w) := reconcile_pass shell settings t w in (s, w)) = (u, v) -> after t u) as Hp.
  { intros w' u v. destruct (_ =? 0); [intros [= <- _]; apply after_refl|]. unfold reconcile_pass.
    pose proof (after_reconcile (sh_families shell) settings (sh_holder shell) (sh_opened shell) t w') as Hr.
    destruct (run_reconcile _ _ _ _ t w') as [[r s'] v']. by intros [= <- _]. }
  destruct (if wr_status_changes result =? 0 then _ else _) as [u v] eqn:Eu. apply Hp in Eu.
  unfold reconcile_pass.
  pose proof (after_reconcile (sh_families shell) settings (sh_holder shell) (sh_opened shell) u v) as Hr.
  destruct (run_reconcile _ _ _ _ u v) as [[r s'] v']. cbn [fst snd] in Hr.
  transitivity u; [by transitivity t|]. destruct r; [|exact Hr]. transitivity s'; [exact Hr|apply after_worker_ending].
Qed.

Lemma after_main c s w :
  after s (main urlsplit urlparse http_get fetch_json resolve probe_target shell hooks c s w).1.2.
Proof.
  assert (forall c, after s (on_session (session_command urlsplit urlparse http_get fetch_json resolve probe_target shell c) s w).1.2) as Hs.
  { intros c'. unfold on_session. pose proof (after_session_command c' s) as Ha. by destruct (session_command _ _ _ _ _ _ _ c' s). }
  unfold main. assert (after s (command urlsplit urlparse http_get fetch_json resolve probe_target shell hooks c s w).1.2) as Hc.
  { unfold command. destruct c; try apply Hs; [|apply after_worker_once]. destruct dry_run; [apply Hs|].
    unfold edge_reconcile. destruct (sh_settings shell) as [settings|]; [|apply after_refl].
    destruct (legacy_api_enabled settings); [apply after_refl|]. unfold reconcile_pass.
    pose proof (after_reconcile (sh_families shell) settings (sh_holder shell) (sh_opened shell) s w) as Hr.
    by destruct (run_reconcile _ _ _ _ s w) as [[r s'] w']. }
  by destruct (command _ _ _ _ _ _ _ _ c s w) as [[r s'] w'].
Qed.
End Commands.

(** ** The whole service *)

Section Service.
Context `{External, Deployment, PrivateKeys, AdminApi}.
Context (urlparts : string -> UrlParts) (urlsplit : string -> option UrlSplit) (urlparse : string -> option string * option Z).
Context (http_get : string -> res string Z) (fetch_json : string -> res string json).
Context (resolve : string -> res string (list string)) (probe_target : string -> string -> ProbeReply).
Context (signing_service : string -> string -> json -> SignerOutcome).

(** One request or one background run, with what others commit while it waits. *)
Inductive Work :=
| V1Request (others : list Op) (rq : Deps.Request) (c : V1Call)
| OperatorRequest (wire : Wire) (rq : Deps.Request) (c : OperatorCall)
| ShowPage (rq : PageRequest) (token : string) (n error : option string)
| CheckNow (rq : PageRequest) (token : string)
| ApplySetup (others : list Op) (rq : PageRequest) (token : string)
| ProviderReturn (state : string) (error : option string)
| PortalLogin (rq : PortalRequest) (password next : string)
| PortalSubmit (wire : Wire) (rq : PortalRequest) (token : string) (f : PortalForm)
| PortalReconcile (families : Families) (holder : string) (opened : bool) (world : World) (rq : PortalRequest) (token : string)
| DueChecks (gaps : N -> CheckGaps) (r : Resolver) (prober : EdgeProber) (settings : EdgeFlags)
    (zone : N -> option string) (now : option Z) (limit : nat)
| DueDeliveries (gaps : N -> list Op * list Op) (sender : Sender) (batch_size : nat)
| ReconcileRun (families : Families) (settings : EdgeSettings) (holder : string) (opened : bool) (world : World)
| CommandLine (shell : Shell) (gaps : N -> CheckGaps) (sends : N -> list Op * list Op) (hooks : World -> World)
    (world : World) (c : Command)
| Operation (o : Op)                     (* [dev demo], the purges, time passing *)
| MonotonicTick (d : Z).

(** A command whose workers wait while others commit those histories. *)
Definition waiting (shell : Shell) (gaps : N -> CheckGaps) (sends : N -> list Op * list Op) : Shell := {|
  sh_settings := sh_settings shell; sh_dns := sh_dns shell; sh_wire := sh_wire shell; sh_system := sh_system shell;
  sh_answers := sh_answers shell; sh_prober := sh_prober shell; sh_zone := sh_zone shell;
  sh_gaps := fun id => open_check (gaps id); sh_sender := sh_sender shell; sh_send_gaps := fun k => open_send (sends k);
  sh_database := sh_database shell; sh_invalid_limit := sh_invalid_limit shell; sh_families := sh_families shell;
  sh_holder := sh_holder shell; sh_opened := sh_opened shell |}.
(** What it leaves of the process and the database; answers and reports are dropped. *)
Definition perform (x : Work) (w : Server) : Server :=
  match x with
  | V1Request others rq c => (v1_request urlparts urlsplit signing_service (exec others) rq c w).2
  | OperatorRequest wire rq c => (operator_request urlsplit wire rq c w).2
  | ShowPage rq token n error => (connect_page urlsplit rq token n error w).2
  | CheckNow rq token => (check_now rq token w).2
  | ApplySetup others rq token => (apply_setup urlsplit signing_service (exec others) rq token w).2
  | ProviderReturn state error => (on_db (domain_connect_return urlsplit state error) w).2
  | PortalLogin rq password next => (login rq password next w).2
  | PortalSubmit wire rq token f => (portal_form urlparts urlsplit wire rq token f w).2
  | PortalReconcile families holder opened world rq token => (reconcile_form families holder opened world rq token w).2
  | DueChecks gaps r prober settings zone now limit =>
      w <| srv_db ::= fun s => (run_due_checks (fun id => open_check (gaps id)) r prober settings zone now limit s).2 |>
  | DueDeliveries gaps sender n => w <| srv_db ::= fun s => (run_once (fun k => open_send (gaps k)) sender n s).2 |>
  | ReconcileRun families settings holder opened world =>
      w <| srv_db ::= fun s => (run_reconcile families settings holder opened s world).1.2 |>
  | CommandLine shell gaps sends hooks world c =>
      w <| srv_db ::= fun s => (main urlsplit urlparse http_get fetch_json resolve probe_target
                                  (waiting shell gaps sends) hooks c s world).1.2 |>
  | Operation o => w <| srv_db ::= commit o |>
  | MonotonicTick d => w <| srv_monotonic ::= fun t => t + Z.max 0 d |>
  end.
Fixpoint serve (works : list Work) (w : Server) : Server :=
  match works with [] => w | x :: works => serve works (perform x w) end.

Lemma performed x w : served w (perform x w).
Proof.
  destruct x; cbn [perform].
  - apply served_v1.
  - apply served_operator.
  - apply served_page.
  - apply served_check.
  - apply served_apply.
  - apply served_on_db, after_return.
  - apply served_login.
  - apply served_form.
  - apply served_reconcile_form.
  - apply run_batch_after. intros id. by eexists _, _, _, _.
  - apply delivery_run_after. intros k. by eexists _, _.
  - apply after_reconcile.
  - by eapply after_main.
  - apply after_commit.
  - apply after_refl.
Qed.

Lemma serve_after works w : served w (serve works w).
Proof.
  revert w. induction works as [|x works IH]; intros w; [apply after_refl|].
  transitivity (perform x w); [apply performed|apply IH].
Qed.

(** C4: Refinement of the operations: whatever requests the service serves and whatever its
    workers and its reconciler do, in any order and interleaved with anything other
    processes commit while they wait, the database ends where a sequence of committed
    operations of Lifecycle.v ends. *)
Theorem service_refines_operations works w : exists h, srv_db (serve works w) = exec h (srv_db w).
Proof. exact (serve_after works w). Qed.

(** The service keeps the domain invariant, which the empty database satisfies: no
    hostname is live twice, no domain has two live claims and no two claims one token, a
    ready domain has a verified claim and passing checks, and a deleted one has lost its
    claims. *)
Theorem service_keeps_invariant works w :
  Inv None (srv_db w) -> Inv None (srv_db (serve works w)).
Proof. intros HI. destruct (serve_after works w) as [h ->]. by apply exec_keeps. Qed.
End Service.
