(* ===== verification/Stepwise.v ===== *)
(** * Relations every operation moves the database along

    A relation on databases that the few primitive writes respect ([Stepwise]) is
    respected by every operation of the service, whether it returns or raises,
    except by the deletions of a purge.  History.v instantiates it with the event
    log, the identity of domains and the origin of verified claims. *)

From Stdlib Require Import Ascii String ZArith Lia.
From stdpp Require Import base gmap strings list sets sorting.
From S2P Require Import Prelude PyStr Datetime Json Errors External Models Hostname Dns DnsSetup.
From S2P Require Import Schemas Webhooks Limits Domains DomainFacts DomainInv ConnectFlow.
From S2P Require Import DnsChecks EdgeChecks Applications AssertionKeys Delivery Worker Legacy Frames.
From S2P Require Import Api Operator Lifecycle.
Open Scope Z_scope.

(** What never changes in a domain's row. *)
Record same_identity (d e : Domain) : Prop := {
  si_application : dom_application_id e = dom_application_id d;
  si_hostname : dom_hostname e = dom_hostname d;
  si_reference : dom_reference e = dom_reference d;
  si_created : dom_created_at e = dom_created_at d;
}.
#[export] Instance same_identity_preorder : PreOrder same_identity.
Proof. split; [by constructor|]. intros d e f [] []. constructor; congruence. Qed.

(** [permitted]: the verification methods [mark_claim_verified] is called with. *)
Class Stepwise `{External, Deployment} (permitted : string -> Prop) (R : Db -> Db -> Prop) : Prop := {
  sw_preorder :: PreOrder R;
  sw_core s s' : core_frame s s' -> R s s';
  sw_event id type payload now : mono R (record_event id type payload (Some now));
  sw_domain id f : (forall d, same_identity d (f d)) -> mono R (update_domain id f);
  sw_checks f : mono (E := exn) R (modify (fun s => s <| db_checks ::= f |>));
  sw_revoke id reason now : mono R (revoke_live_claim id reason now);
  sw_issue id target now : mono R (issue_claim id target now);
  sw_verify id method now : permitted method -> mono R (mark_claim_verified id method (Some now));
  sw_insert d : mono R (insert_domain d);
}.

Section Operations.
Context `{External, Deployment} (permitted : string -> Prop) (R : Db -> Db -> Prop).
Context `{!Stepwise permitted R}.

Lemma sw_frame {A} (m : M A) : mono core_frame m -> mono R m.
Proof. intros Hm s. apply sw_core, Hm. Qed.

Lemma sw_the_domain id : mono R (the_domain id).
Proof. apply sw_frame, core_the_domain. Qed.
Lemma sw_the_application a : mono R (the_application a).
Proof. apply sw_frame, core_the_application. Qed.
Lemma sw_now_or o : mono R (now_or o).
Proof. apply sw_frame, core_now_or. Qed.
Lemma sw_lock a : mono R (lock_application a).
Proof. apply sw_frame, core_lock. Qed.
Lemma sw_get_domain a id b : mono R (get_domain a id b).
Proof. unfold get_domain. mono_auto. Qed.
Lemma sw_enforce a : mono R (enforce a).
Proof. apply sw_frame, core_enforce. Qed.
Lemma sw_window a ty w m now : mono R (enforce_window a ty w m now).
Proof. unfold enforce_window. mono_auto. Qed.
Lemma sw_put_check id t c : mono R (put_check id t c).
Proof. apply sw_checks. Qed.
#[local] Hint Resolve sw_the_domain sw_the_application sw_now_or sw_lock sw_get_domain sw_enforce
  sw_window sw_put_check sw_event sw_revoke sw_issue sw_insert sw_checks : session.

Lemma sw_schedule id l now : mono R (schedule_checks id l now).
Proof. unfold schedule_checks. mono_auto. Qed.
Lemma sw_make_due id at_ : mono R (make_checks_due id at_).
Proof. unfold make_checks_due. mono_auto. Qed.
Lemma sw_start_connect id now : mono R (start_connect id now).
Proof. unfold start_connect. mono_auto. apply sw_domain. by constructor. Qed.
#[local] Hint Resolve sw_schedule sw_make_due sw_start_connect : session.

Lemma sw_transition id st reason now : mono R (transition_status id st reason (Some now)).
Proof. unfold transition_status. mono_auto. apply sw_domain. by constructor. Qed.
#[local] Hint Resolve sw_transition : session.
Lemma sw_record_check id t st e m d at_ next : mono R (record_check id t st e m d (Some at_) next).
Proof. unfold record_check. mono_auto. Qed.
#[local] Hint Resolve sw_record_check : session.

Lemma sw_claim_domain a h r m now : mono R (claim_domain a h r m now).
Proof.
  unfold claim_domain, enforce_registration_limit. mono_auto.
  apply mono_catch; [apply _|apply mono_savepoint; [apply _|apply sw_insert]|].
  intros e. mono_auto.
Qed.
Lemma sw_delete_domain a id now : mono R (delete_domain a id now).
Proof. unfold delete_domain. mono_auto. apply sw_domain. by constructor. Qed.
Lemma sw_reissue a id now : mono R (reissue_claim a id now).
Proof. unfold reissue_claim. mono_auto. Qed.
#[local] Hint Resolve sw_claim_domain sw_delete_domain sw_reissue : session.
Lemma sw_reissue_target a now : mono R (reissue_claims_for_target a now).
Proof. unfold reissue_claims_for_target. mono_auto. Qed.
Lemma sw_recheck a id by_ now : mono R (request_recheck a id by_ now).
Proof. unfold request_recheck, enforce_recheck_limits. mono_auto. Qed.
Lemma sw_record_connect a plan url now : mono R (record_connect a plan url now).
Proof. unfold record_connect. mono_auto. Qed.
Lemma sw_connect_returned id now : mono R (connect_returned id now).
Proof. unfold connect_returned. mono_auto. Qed.
Lemma sw_delete_application a slug dd now : mono R (delete_application a slug dd now).
Proof.
  unfold delete_application. mono_auto.
  - by apply sw_core.
  - by apply sw_core.
  - apply sw_frame, core_update_application. by intros r Hr.
Qed.

Lemma sw_import a entries opts now :
  (imp_grandfather opts = true -> permitted LEGACY_IMPORT_METHOD) ->
  mono R (import_legacy_domains a entries opts now).
Proof.
  intros Hp. unfold import_legacy_domains. mono_auto.
  match goal with |- mono _ (import_entries _ _ _ _ ?r) => generalize r end.
  induction entries as [|entry entries IH]; intros report; simpl; [by mono_auto|].
  apply mono_bind; [apply _| |done].
  unfold import_entry, register_entry, claim_referenced, find_live_by_hostname, grandfather_domain. mono_auto.
  - apply mono_catch; [apply _|by mono_auto|]. intros e. mono_auto.
  - apply sw_verify, Hp. done.
Qed.

Lemma sw_record_outcome id fast now t o : mono R (record_outcome id fast now t o).
Proof. unfold record_outcome. mono_auto. Qed.
#[local] Hint Resolve sw_record_outcome : session.
Lemma sw_apply_dns id o r now : permitted "dns_txt"%string -> mono R (apply_dns_outcomes id o r now).
Proof. intros Hp. unfold apply_dns_outcomes. mono_auto. by apply sw_verify. Qed.
Lemma sw_apply_edge id c o now : mono R (apply_edge_outcomes id c o now).
Proof. unfold apply_edge_outcomes. mono_auto. Qed.
#[local] Hint Resolve sw_apply_edge : session.
Lemma sw_lease id now l force : mono R (lease_domain id now l force).
Proof. unfold lease_domain. mono_auto. Qed.
#[local] Hint Resolve sw_lease : session.

Lemma sw_dns_op id a seen r before zone edge_due :
  permitted "dns_txt"%string -> mono R (dns_op id a seen r before zone edge_due).
Proof.
  intros Hp. unfold dns_op, void, dns_transaction. mono_auto.
  - by apply sw_apply_dns.
  - apply sw_domain. by constructor.
Qed.
Lemma sw_edge_op id a seen p settings before : mono R (edge_op id a seen p settings before).
Proof. unfold edge_op, void, edge_transaction. mono_auto. Qed.

Lemma sw_create_or_replay a p key : mono R (create_or_replay a p key).
Proof.
  unfold create_or_replay. cbv zeta. mono_auto; apply sw_frame; [apply core_begin|apply core_complete].
Qed.
Lemma sw_update_application a u : mono R (update_application_fields a u).
Proof.
  unfold update_application_fields, given. mono_auto; try apply sw_reissue_target; apply sw_frame; auto with frames nocore.
Qed.

Lemma sw_direct_dns id r : permitted "dns_txt"%string -> mono R (direct_dns id r).
Proof. intros Hp. unfold direct_dns, run_dns_checks. mono_auto. by apply sw_apply_dns. Qed.
Lemma sw_direct_edge id p settings : mono R (direct_edge id p settings).
Proof. unfold direct_edge, run_edge_checks. mono_auto. Qed.

(** The verification methods an operation may use. *)
Definition verifies (o : Op) : list string :=
  match o with
  | OpDns _ _ _ _ _ _ _ | OpRunDns _ _ => ["dns_txt"%string]
  | OpImport _ _ opts _ => if imp_grandfather opts then [LEGACY_IMPORT_METHOD] else []
  | _ => []
  end.
Definition purges (o : Op) : bool := match o with OpPurge _ => true | _ => false end.

Lemma sw_void {A} (m : M A) : mono R m -> mono R (void m).
Proof. intros Hm. unfold void. apply mono_bind; [apply _|done|intros; by mono_auto]. Qed.

Lemma sw_run_op o : purges o = false -> Forall permitted (verifies o) -> mono R (run_op o).
Proof.
  intros Hpurge Hv. destruct o; try discriminate Hpurge; simpl in Hv |- *; try apply sw_void;
    auto using sw_reissue_target, sw_recheck, sw_record_connect, sw_connect_returned,
      sw_delete_application, sw_create_or_replay, sw_update_application with session nocore.
  all: try (apply sw_frame; auto with frames nocore; fail).
  - intros s. by apply sw_core.
  - apply sw_import. intros Hg. rewrite Hg in Hv. by inversion Hv.
  - apply sw_frame, mono_catch; [apply _|apply core_verify_origin|intros []; by mono_auto].
  - apply sw_dns_op. by inversion Hv.
  - apply sw_edge_op.
  - apply sw_direct_dns. by inversion Hv.
  - apply sw_direct_edge.
  - intros s. by apply sw_core.
Qed.

Lemma sw_commit o s : purges o = false -> Forall permitted (verifies o) -> R s (commit o s).
Proof. intros Hp Hv. exact (mono_savepoint R (run_op o) (sw_run_op o Hp Hv) s). Qed.

Lemma sw_exec h s :
  Forall (fun o => purges o = false /\ Forall permitted (verifies o)) h -> R s (exec h s).
Proof.
  intros Hh. revert s. induction Hh as [|o h [Hp Hv] _ IH]; intros s; simpl; [reflexivity|].
  etrans; [by apply sw_commit|apply IH].
Qed.
End Operations.
