(* ===== verification/History.v ===== *)
(** * What histories of operations preserve

    Over every history of committed operations, worker transactions with stale
    observations included: the identity of domains, the event log, the range of the
    applications' rate limits and where verified claims come from. *)

From Stdlib Require Import Ascii String ZArith Lia.
From stdpp Require Import base gmap strings list sets sorting.
From S2P Require Import Prelude PyStr Datetime Json Errors External Models Hostname Dns DnsSetup.
From S2P Require Import Schemas Webhooks Limits Domains DomainFacts DomainInv ConnectFlow.
From S2P Require Import DnsChecks EdgeChecks Applications Worker Legacy Frames Lifecycle Stepwise.
Open Scope Z_scope.

(** ** The primitive writes, by what they leave alone *)

Section Primitives.
Context `{External, Deployment}.

(** Everything but claims, the event log and the outbox is as before. *)
Definition same_domains (s s' : Db) : Prop := db_domains s' = db_domains s.
Definition same_claims (s s' : Db) : Prop := db_claims s' = db_claims s.
#[export] Instance same_domains_preorder : PreOrder same_domains.
Proof. split; unfold same_domains; [done|]. intros ???. congruence. Qed.
#[export] Instance same_claims_preorder : PreOrder same_claims.
Proof. split; unfold same_claims; [done|]. intros ???. congruence. Qed.

Lemma log_frame_event id type payload now : mono log_frame (record_event id type payload (Some now)).
Proof.
  unfold record_event. mono_auto.
  - apply mono_the_domain, _.
  - unfold append_event. apply mono_modify. intros s. frame.
  - apply log_frame_enqueue.
Qed.

Lemma domains_event id type payload now : mono same_domains (record_event id type payload (Some now)).
Proof. apply (mono_weaken log_frame), log_frame_event. by intros s s' []. Qed.
Lemma claims_event id type payload now : mono same_claims (record_event id type payload (Some now)).
Proof. apply (mono_weaken log_frame), log_frame_event. by intros s s' []. Qed.
Lemma domains_the_domain id : mono same_domains (the_domain id).
Proof. apply mono_the_domain, _. Qed.
Lemma claims_the_domain id : mono same_claims (the_domain id).
Proof. apply mono_the_domain, _. Qed.
Lemma domains_fresh : mono same_domains fresh.
Proof. by intros s. Qed.
Lemma domains_now_or o : mono same_domains (now_or o).
Proof. by destruct o. Qed.
Lemma claims_now_or o : mono same_claims (now_or o).
Proof. by destruct o. Qed.
#[local] Hint Resolve domains_event claims_event domains_the_domain claims_the_domain domains_fresh
  domains_now_or claims_now_or : session.

Lemma domains_revoke id reason now : mono same_domains (revoke_live_claim id reason now).
Proof. unfold revoke_live_claim, update_claim. mono_auto. Qed.
Lemma domains_issue id target now : mono same_domains (issue_claim id target now).
Proof. unfold issue_claim, insert_claim. mono_auto; done. Qed.
Lemma domains_verify id method now : mono same_domains (mark_claim_verified id method (Some now)).
Proof. unfold mark_claim_verified, update_claim. mono_auto; done. Qed.
Lemma claims_update_domain id f : mono same_claims (update_domain id f).
Proof. by intros s. Qed.
#[local] Hint Resolve claims_update_domain : session.
Lemma insert_domain_err d s e s' : insert_domain d s = (Err e, s') -> same_domains s s'.
Proof.
  unfold insert_domain. rewrite bind_run. cbn [get]. rewrite bind_run, guard_run.
  destruct (bool_decide _); [|by intros [= _ <-]]. rewrite bind_run, guard_run.
  destruct (negb _); [|by intros [= _ <-]]. rewrite bind_run. unfold fresh at 1.
  rewrite bind_run, guard_run. destruct (bool_decide _); [done|by intros [= _ <-]].
Qed.
Lemma claims_insert_domain d : mono same_claims (insert_domain d).
Proof. unfold insert_domain. mono_auto; done. Qed.
Lemma claims_transition id st reason now : mono same_claims (transition_status id st reason (Some now)).
Proof. unfold transition_status. mono_auto. Qed.
#[local] Hint Resolve claims_transition : session.
Lemma claims_record_outcome id fast now t o : mono same_claims (record_outcome id fast now t o).
Proof. unfold record_outcome, record_check, put_check. mono_auto; done. Qed.
Lemma claims_lease id now l force : mono same_claims (lease_domain id now l force).
Proof. unfold lease_domain, schedule_checks. mono_auto; done. Qed.
Lemma claims_schedule id l now : mono same_claims (schedule_checks id l now).
Proof. unfold schedule_checks. mono_auto; done. Qed.
Lemma claims_lock a : mono same_claims (lock_application a).
Proof. by intros s. Qed.
End Primitives.

(** ** A purge *)

Section Purge.
Context `{External, Deployment}.

Lemma purged_domains s now :
  db_domains (purged s now) = filter (fun x => domain_purgeable s now x.1 = false) (db_domains s).
Proof. reflexivity. Qed.
Lemma purged_claims s now :
  db_claims (purged s now) = filter (fun x => domain_purgeable s now (claim_domain_id x.2) = false) (db_claims s).
Proof. reflexivity. Qed.
Lemma purged_checks s now :
  db_checks (purged s now) = filter (fun x => domain_purgeable s now x.1.1 = false) (db_checks s).
Proof. reflexivity. Qed.
Lemma zones_events now s : db_events (delete_past_zones now s) = db_events s.
Proof. reflexivity. Qed.
Lemma drop_applications_events gone s :
  db_events (drop_applications gone s) = filter (fun e => gone (event_application_id e) = false) (db_events s).
Proof. reflexivity. Qed.
Lemma drop_domains_events gone s :
  db_events (drop_domains gone s) = filter (fun e => gone (event_domain_id e) = false) (db_events s).
Proof. reflexivity. Qed.
Lemma purged_events s now :
  db_events (purged s now) =
    filter (fun e => application_purgeable (delete_past_domains now s) now (event_application_id e) = false)
      (filter (fun e => domain_purgeable s now (event_domain_id e) = false) (db_events s)).
Proof.
  unfold purged. rewrite zones_events. unfold delete_past_applications at 1.
  rewrite drop_applications_events. f_equal.
Qed.
Lemma zones_applications now s : db_applications (delete_past_zones now s) = db_applications s.
Proof. reflexivity. Qed.
Lemma drop_applications_applications gone s :
  db_applications (drop_applications gone s) = filter (fun x => gone x.1 = false) (db_applications s).
Proof. reflexivity. Qed.
Lemma purged_applications s now :
  db_applications (purged s now) =
    filter (fun x => application_purgeable (delete_past_domains now s) now x.1 = false) (db_applications s).
Proof.
  unfold purged. rewrite zones_applications. unfold delete_past_applications at 1.
  rewrite drop_applications_applications. f_equal.
Qed.
Lemma past_domains_domains s now : db_domains (delete_past_domains now s) = db_domains (purged s now).
Proof. rewrite purged_domains. reflexivity. Qed.
Lemma commit_purge o s : commit (OpPurge o) s = purged s (default (db_clock s) o).
Proof. unfold commit. cbn [run_op]. rewrite transaction_void. by destruct o; reflexivity. Qed.
End Purge.

(** ** Domains never change hands *)

Section Identity.
Context `{External, Deployment}.

(** Every row is still there, with the same owner, hostname and reference. *)
Definition keeps_identity (s s' : Db) : Prop :=
  forall id d, db_domains s !! id = Some d ->
    exists e, db_domains s' !! id = Some e /\ same_identity d e.

#[export] Instance keeps_identity_preorder : PreOrder keeps_identity.
Proof.
  split.
  - intros s id d Hd. by exists d.
  - intros s1 s2 s3 H1 H2 id d Hd. destruct (H1 _ _ Hd) as (e & He & ?).
    destruct (H2 _ _ He) as (f & Hf & ?). exists f. split; [done|by etrans].
Qed.

Lemma identity_same_domains s s' : same_domains s s' -> keeps_identity s s'.
Proof. intros E id d. rewrite E. by exists d. Qed.

#[export] Instance identity_stepwise : Stepwise (fun _ => True) keeps_identity.
Proof.
  split; try apply _.
  - intros s s' []. by apply identity_same_domains.
  - intros. eapply mono_weaken; [apply identity_same_domains|apply domains_event].
  - intros id f Hf s k d Hk. simpl. simpl_over. rewrite lookup_alter. case_decide.
    + subst k. rewrite Hk. simpl. by exists (f d).
    + by exists d.
  - intros f s. by apply identity_same_domains.
  - intros. eapply mono_weaken; [apply identity_same_domains|apply domains_revoke].
  - intros. eapply mono_weaken; [apply identity_same_domains|apply domains_issue].
  - intros. eapply mono_weaken; [apply identity_same_domains|apply domains_verify].
  - intros d s. destruct (insert_domain d s) as [[k|e] s'] eqn:Hr; simpl.
    + apply insert_domain_ok in Hr as (-> & _ & Hk & _ & ->). intros j e Hj.
      exists e. split; [|reflexivity]. unfold with_domain, advance. simpl_over.
      rewrite lookup_insert_ne; congruence.
    + apply insert_domain_err in Hr. by apply identity_same_domains.
Qed.
End Identity.

(** ** The event log *)

Section Log.
Context `{External, Deployment}.

(** The events of every domain are in strictly increasing order of their stamps. *)
Definition ordered (s : Db) : Prop :=
  forall id, StronglySorted Z.lt (event_created_at <$> events_of s id).

Definition extends_log (s s' : Db) : Prop :=
  db_events s `prefix_of` db_events s' /\ (ordered s -> ordered s').
#[export] Instance extends_log_preorder : PreOrder extends_log.
Proof. split; [done|]. intros s1 s2 s3 [? ?] [? ?]. split; [by etrans|auto]. Qed.

Lemma same_events_extends s s' : same_events s s' -> extends_log s s'.
Proof. unfold same_events, extends_log, ordered, events_of. by intros ->. Qed.

Lemma event_stamp_after s id now :
  now <= event_stamp s id now /\
  Forall (fun e => event_created_at e < event_stamp s id now) (events_of s id).
Proof.
  unfold event_stamp, latest_event_at. destruct (zmax _) as [l|] eqn:Hz.
  - apply zmax_Some in Hz as [_ Hmax]. split; [destruct (Z.leb_spec now l); lia|].
    apply Forall_forall. intros e He. specialize (Hmax (event_created_at e)).
    assert (event_created_at e <= l) by (apply Hmax, list_elem_of_fmap; eauto).
    destruct (Z.leb_spec now l); lia.
  - split; [lia|]. apply zmax_None, fmap_nil_inv in Hz. by rewrite Hz.
Qed.

Lemma sorted_snoc (l : list Z) x :
  StronglySorted Z.lt l -> Forall (fun y => y < x) l -> StronglySorted Z.lt (l ++ [x]).
Proof.
  induction 1 as [|y l Hl IH Hy]; simpl; [by repeat constructor|]. intros [? ?]%Forall_cons.
  constructor; [auto|]. apply Forall_app. split; [done|by constructor].
Qed.

Lemma ordered_append s s' id d type payload now :
  db_events s' = (db_events s ++ [the_event s id d type payload now])%list -> ordered s -> ordered s'.
Proof.
  intros E Ho k. unfold events_of. rewrite E, filter_app, fmap_app. specialize (Ho k).
  destruct (decide (k = id)) as [->|Hk].
  - rewrite filter_cons_True by done. simpl. apply sorted_snoc; [exact Ho|].
    apply Forall_fmap. apply event_stamp_after.
  - rewrite filter_cons_False by (simpl; congruence). rewrite app_nil_r. exact Ho.
Qed.

Lemma log_event id type payload now : mono extends_log (record_event id type payload (Some now)).
Proof.
  intros s. destruct (db_domains s !! id) as [d|] eqn:Hd.
  - rewrite (record_event_run _ _ _ _ _ d Hd).
    match goal with |- context [enqueue_for_event id ?e ?t] =>
      pose proof (same_events_enqueue id e t) as He end.
    unfold same_events in He. split.
    + rewrite He. simpl_over. by apply prefix_app_r.
    + eapply ordered_append. rewrite He. reflexivity.
  - unfold record_event. run. rewrite the_domain_run, Hd. reflexivity.
Qed.

Lemma log_the_domain id : mono extends_log (the_domain id).
Proof. apply mono_the_domain, _. Qed.
Lemma log_fresh : mono extends_log fresh.
Proof. intros s. by apply same_events_extends. Qed.
Lemma log_now_or o : mono extends_log (now_or o).
Proof. by destruct o. Qed.
#[local] Hint Resolve log_event log_the_domain log_fresh log_now_or : session.

#[export] Instance log_stepwise : Stepwise (fun _ => True) extends_log.
Proof.
  split; try apply _.
  - intros s s' []. by apply same_events_extends.
  - intros. apply log_event.
  - intros id f _ s. by apply same_events_extends.
  - intros f s. by apply same_events_extends.
  - intros. unfold revoke_live_claim. mono_auto; intros s; by apply same_events_extends.
  - intros. unfold issue_claim, insert_claim. mono_auto; by apply same_events_extends.
  - intros. unfold mark_claim_verified. mono_auto; intros s; by apply same_events_extends.
  - intros d. unfold insert_domain. mono_auto; by apply same_events_extends.
Qed.
End Log.

(** ** Rate limits *)

Section Rates.
Context `{External, Deployment}.

(** Rate limits in range stay in range. *)
Definition keeps_rates (s s' : Db) : Prop := rates_ok s -> rates_ok s'.
#[export] Instance keeps_rates_preorder : PreOrder keeps_rates.
Proof. split; [intros s Hs; exact Hs|]. intros a b c Hab Hbc Ha. by apply Hbc, Hab. Qed.

Lemma log_keeps_rates s s' : log_frame s s' -> keeps_rates s s'.
Proof. intros [E]. unfold keeps_rates, rates_ok. by rewrite E. Qed.

(** Writes that leave applications alone. *)
Ltac same_rates := first [intros ? Hs; exact Hs | intros Hs; exact Hs].
#[export] Instance rates_stepwise : Stepwise (fun _ => True) keeps_rates.
Proof.
  assert (forall id type payload now, mono keeps_rates (record_event id type payload (Some now))) as He.
  { intros. eapply mono_weaken; [apply log_keeps_rates|apply log_frame_event]. }
  split; try apply _.
  - by intros s s' [].
  - exact He.
  - by intros id f _ s Hs.
  - by intros f s Hs.
  - intros. unfold revoke_live_claim, update_claim. mono_auto; first [apply He | apply mono_the_domain, _ | same_rates].
  - intros. unfold issue_claim, insert_claim. mono_auto; first [apply He | apply mono_the_domain, _ | same_rates].
  - intros. unfold mark_claim_verified, update_claim. mono_auto; first [apply He | apply mono_the_domain, _ | same_rates].
  - intros d. unfold insert_domain. mono_auto; first [apply He | apply mono_the_domain, _ | same_rates].
Qed.

Lemma rates_filter (P : N * Application -> Prop) `{!forall x, Decision (P x)} (m : gmap N Application) :
  map_Forall (fun _ r => rates r = true) m -> map_Forall (fun _ r => rates r = true) (filter P m).
Proof. intros Hm k r [Hr _]%map_lookup_filter_Some. by eapply Hm. Qed.

Lemma rates_purged s now : rates_ok s -> rates_ok (purged s now).
Proof. intros Hs. unfold rates_ok. rewrite purged_applications. by apply rates_filter. Qed.

Lemma commit_rates o s : keeps_rates s (commit o s).
Proof.
  destruct (purges o) eqn:Hp.
  - destruct o; try done. intros Hs. unfold commit, transaction, savepoint. cbn [run_op]. unfold void.
    rewrite bind_run, purge_tombstones_run. by apply rates_purged.
  - apply (sw_commit (fun _ => True) _ _ s Hp). by apply Forall_true.
Qed.
Lemma exec_rates h clock : rates_ok (exec h (empty_db clock)).
Proof.
  assert (forall s, rates_ok s -> rates_ok (exec h s)) as Hh; [|by apply Hh].
  induction h as [|o h IH]; intros s Hs; simpl; [done|]. by apply IH, commit_rates.
Qed.
End Rates.

(** ** Where verified claims come from *)

Section Provenance.
Context `{External, Deployment}.

Definition DNS_TXT : string := "dns_txt".

Definition verified_by_dns (c : OwnershipClaim) : Prop :=
  claim_status c = VERIFIED /\ claim_verification_method c = Some DNS_TXT.

(** The rows of claims verified by DNS were there before, as they are. *)
Definition no_new_proof (s s' : Db) : Prop :=
  forall k c', db_claims s' !! k = Some c' -> verified_by_dns c' -> db_claims s !! k = Some c'.
#[export] Instance no_new_proof_preorder : PreOrder no_new_proof.
Proof.
  split; [intros s k c Hk _; exact Hk|]. intros s1 s2 s3 H1 H2 k c Hk Hc. apply H1; [|done]. by apply H2.
Qed.

Lemma no_new_proof_same s s' : same_claims s s' -> no_new_proof s s'.
Proof. unfold same_claims. intros E k c. by rewrite E. Qed.

(** Writing one claim row that is not a proof by DNS. *)
Lemma no_new_proof_insert s k c :
  ~ verified_by_dns c -> no_new_proof s (s <| db_claims ::= <[k := c]> |>).
Proof.
  intros Hc j e. simpl_over. rewrite lookup_insert_Some. intros [[_ <-]|[_ Hj]] He; [by destruct Hc|exact Hj].
Qed.
Lemma no_new_proof_alter s k f :
  (forall c, ~ verified_by_dns (f c)) -> no_new_proof s (s <| db_claims ::= alter f k |>).
Proof.
  intros Hf j e. simpl_over. rewrite lookup_alter. case_decide; [|done]. subst.
  destruct (db_claims s !! j) as [c|]; [|done]. intros [= <-] He. by apply Hf in He.
Qed.

Lemma proof_event id type payload now : mono no_new_proof (record_event id type payload (Some now)).
Proof. eapply mono_weaken; [apply no_new_proof_same|apply claims_event]. Qed.
Lemma proof_the_domain id : mono no_new_proof (the_domain id).
Proof. apply mono_the_domain, _. Qed.
Lemma proof_fresh : mono no_new_proof fresh.
Proof. intros s. by apply no_new_proof_same. Qed.
Lemma proof_now_or o : mono no_new_proof (now_or o).
Proof. destruct o; simpl; auto with session typeclass_instances. Qed.
#[local] Hint Resolve proof_event proof_the_domain proof_fresh proof_now_or : session.

#[export] Instance proof_stepwise : Stepwise (fun m => m <> DNS_TXT) no_new_proof.
Proof.
  split; try apply _.
  - intros s s' []. by apply no_new_proof_same.
  - intros. apply proof_event.
  - intros id f _ s. by apply no_new_proof_same.
  - intros f s. by apply no_new_proof_same.
  - intros. unfold revoke_live_claim, update_claim. mono_auto.
    apply no_new_proof_alter. intros c [[=] _].
  - intros. unfold issue_claim, insert_claim. mono_auto.
    apply no_new_proof_insert. intros [[=] _].
  - intros id method now Hm. unfold mark_claim_verified, update_claim. mono_auto.
    apply no_new_proof_alter. intros c [_ [= Hx]]. done.
  - intros d. unfold insert_domain. mono_auto; by apply no_new_proof_same.
Qed.

(** *** The DNS transaction *)

Lemma active_claim_same s s' id : same_claims s s' -> active_claim s' id = active_claim s id.
Proof. unfold same_claims, active_claim, domain_claims. by intros ->. Qed.

(** The live claim of [id] is now marked verified by DNS. *)
Definition proves (id : N) (s s' : Db) : Prop :=
  exists k c now clock, active_claim s id = Some (k, c) /\
    db_claims s' = <[k := verified DNS_TXT now clock c]> (db_claims s).

Lemma apply_dns_claims id o r now s u s' :
  apply_dns_outcomes id o r (Some now) s = (Ok u, s') ->
  same_claims s s' \/ passing o = true /\ passing r = true /\ proves id s s'.
Proof.
  unfold apply_dns_outcomes. rewrite bind_run. cbn [now_or mret SM_ret].
  intros (d & s0 & Hd & Hr)%bind_ok. rewrite the_domain_run in Hd.
  destruct (db_domains s !! id); [|done]. injection Hd as -> ->.
  apply bind_ok in Hr as (det & s1 & H1%(mono_ok _ _ _ _ _ (claims_record_outcome _ _ _ _ _)) & Hr).
  apply bind_ok in Hr as (det' & s2 & H2%(mono_ok _ _ _ _ _ (claims_record_outcome _ _ _ _ _)) & Hr).
  assert (same_claims s0 s2) as H02 by (by etrans).
  rewrite bind_run in Hr. cbn [gets] in Hr. rewrite (active_claim_same _ _ _ H02) in Hr.
  destruct (passing o && passing r) eqn:Hp.
  - apply andb_prop in Hp as [-> ->]. apply bind_ok in Hr as (x & s3 & Hm & Hr).
    assert (same_claims s3 s') as H3.
    { refine (mono_ok _ _ _ _ _ _ Hr). mono_auto; auto using claims_the_domain, claims_transition. }
    destruct (active_claim s0 id) as [[k c]|] eqn:Ha.
    + destruct (bool_decide _); [|injection Hm as _ <-; left; by etrans].
      apply mark_claim_verified_ok in Hm as (d' & k' & c' & _ & _ & Ha' & Hf & _).
      rewrite (active_claim_same _ _ _ H02), Ha in Ha'. injection Ha' as <- <-. right.
      split; [done|]. split; [done|]. exists k, c, now, (db_clock s2). split; [exact Ha|].
      rewrite H3, (lf_claims _ _ Hf), <- H02. reflexivity.
    + injection Hm as _ <-. left. by etrans.
  - left. etrans; [exact H02|]. refine (mono_ok _ _ _ _ _ _ Hr).
    mono_auto; auto using claims_the_domain, claims_transition.
Qed.

Lemma dns_transaction_claims id a queried o r zone before e s u s' :
  dns_transaction id a queried o r zone before e s = (Ok u, s') ->
  same_claims s s' \/
  passing o = true /\ passing r = true /\ claim_version s id = queried /\ proves id s s'.
Proof.
  unfold dns_transaction. intros ([] & s1 & Hl & Hr)%bind_ok.
  destruct (lock_application_run a s) as (t & Hl' & _ & Et). rewrite Hl' in Hl. injection Hl as ->.
  assert (same_claims s s1) as H1 by (by rewrite Et).
  rewrite bind_run in Hr. cbn [get] in Hr. destruct (load s1 id) as [d|]; [|by injection Hr as _ <-; left].
  destruct (bool_decide_reflect (claim_version s1 id = queried)) as [Hv|_]; cbn [negb] in Hr.
  - apply bind_ok in Hr as (x & s2 & Ha & Hr).
    assert (same_claims s2 s') as H2.
    { refine (mono_ok _ _ _ _ _ _ Hr). mono_auto; auto using claims_the_domain, claims_lease.
      apply claims_update_domain. }
    apply apply_dns_claims in Ha as [Ha|(-> & -> & k & c & now & clock & Ha & Hc)].
    + left. etrans; [exact H1|]. by etrans.
    + right. split; [done|]. split; [done|]. split.
      * unfold claim_version in *. by rewrite <- (active_claim_same _ _ id H1).
      * exists k, c, now, clock. rewrite <- (active_claim_same _ _ id H1). split; [exact Ha|].
        rewrite H2, Hc. by rewrite H1.
  - left. etrans; [exact H1|]. refine (mono_ok _ _ _ _ _ _ Hr). mono_auto. apply claims_schedule.
Qed.
End Provenance.

Section Evidence.
Context `{External, Deployment}.

(** What a check saw when the database was [seen]: the live claim of the live domain,
    with the token and the target of [c]; its token in a TXT record at the name the
    customer was given; its target in the CNAME chain of the hostname. *)
Definition dns_evidence (r : Resolver) (seen : Db) (id k : N) (c : OwnershipClaim) : Prop :=
  exists d c0 values v chain,
    db_domains seen !! id = Some d /\ live d = true /\ active_claim seen id = Some (k, c0) /\
    claim_token c0 = claim_token c /\ claim_cname_target c0 = claim_cname_target c /\
    r_txt r (claim_txt_record_name c0) = Ok values /\ v ∈ values /\ strip v = txt_record_value c /\
    cname_chain r (dom_hostname d) (Some (claim_cname_target c)) = Ok chain /\ claim_cname_target c ∈ chain.

Lemma existsb_elem {A} (f : A -> bool) l : existsb f l = true -> exists x, x ∈ l /\ f x = true.
Proof. intros (x & Hx%list_elem_of_In & Hf)%existsb_exists. eauto. Qed.

Lemma ownership_passing r s id :
  passing (ownership_outcome r s id) = true ->
  exists k c values v, active_claim s id = Some (k, c) /\ r_txt r (claim_txt_record_name c) = Ok values /\
    v ∈ values /\ strip v = txt_record_value c.
Proof.
  unfold ownership_outcome. destruct (active_claim s id) as [[k c]|]; [|done].
  destruct (r_txt r _) as [[|v vs]|[|why]] eqn:Ht; try done.
  destruct (existsb _ (v :: vs)) eqn:He; [|cbn iota; by case_match].
  intros _. apply existsb_elem in He as (w & Hw & Hv%String.eqb_eq). exists k, c, (v :: vs), w. auto.
Qed.

Lemma routing_passing r s id d :
  passing (routing_outcome r s id d) = true ->
  exists k c chain, active_claim s id = Some (k, c) /\
    cname_chain r (dom_hostname d) (Some (claim_cname_target c)) = Ok chain /\ claim_cname_target c ∈ chain.
Proof.
  unfold routing_outcome. destruct (active_claim s id) as [[k c]|]; [|done].
  destruct (cname_chain _ _ _) as [[|x xs]|[|why]] eqn:Hc; try done.
  { by destruct (r_has_address _ _) as [[]|]. }
  destruct (mem_str _ (x :: xs)) eqn:Hm; [|done]. intros _.
  apply mem_str_true in Hm. eauto 10.
Qed.

(** The domain an operation committed on [before] checks, the resolver it asks and the
    database when it asked: the worker's answers may be stale, the command line's are not. *)
Definition dns_check_of (o : Op) (before : Db) : option (N * Resolver * Db) :=
  match o with
  | OpDns id _ seen r _ _ _ => Some (id, r, seen)
  | OpRunDns id r => Some (id, r, before)
  | _ => None
  end.
(** The operation proved claim [k] as it stands now. *)
Definition proved_by (o : Op) (before : Db) (k : N) (c : OwnershipClaim) : Prop :=
  exists id r seen, dns_check_of o before = Some (id, r, seen) /\ claim_domain_id c = id /\ dns_evidence r seen id k c.

Lemma claim_version_Some s id k t x :
  claim_version s id = Some (k, t, x) ->
  exists c, active_claim s id = Some (k, c) /\ claim_token c = t /\ claim_cname_target c = x.
Proof.
  unfold claim_version. destruct (active_claim s id) as [[j c]|]; [|done]. intros [= -> <- <-]. eauto.
Qed.

Lemma commit_dns_op id a seen r before zone edge_due s :
  no_new_proof s (commit (OpDns id a seen r before zone edge_due) s) \/
  (exists d, load seen id = Some d /\ passing (ownership_outcome r seen id) = true /\
     passing (routing_outcome r seen id d) = true /\ claim_version s id = claim_version seen id /\
     proves id s (commit (OpDns id a seen r before zone edge_due) s)).
Proof.
  unfold commit. cbn [run_op]. unfold dns_op. destruct (load seen id) as [d|]; [|by left].
  rewrite transaction_void. unfold transaction, savepoint.
  destruct (dns_transaction _ _ _ _ _ _ _ _ s) as [[u|e] s'] eqn:Hr; [|by left].
  apply dns_transaction_claims in Hr as [Hs|(Ho & Hp & Hv & Hk)].
  - left. by apply no_new_proof_same.
  - right. exists d. auto.
Qed.

Lemma commit_run_dns id r s :
  no_new_proof s (commit (OpRunDns id r) s) \/
  (exists d, db_domains s !! id = Some d /\ live d = true /\ passing (ownership_outcome r s id) = true /\
     passing (routing_outcome r s id d) = true /\ proves id s (commit (OpRunDns id r) s)).
Proof.
  unfold commit. cbn [run_op]. unfold direct_dns, transaction, savepoint. rewrite bind_run. cbn [get].
  destruct (db_domains s !! id) as [d|] eqn:Hd; [|by left]. destruct (live d) eqn:Hl; [|by left].
  unfold run_dns_checks. rewrite bind_run. cbn [now_or gets]. rewrite bind_run, the_domain_run, Hd, bind_run. cbn [get].
  destruct (apply_dns_outcomes _ _ _ _ s) as [[u|e] s'] eqn:Hr; [|by left].
  apply apply_dns_claims in Hr as [Hs|(Ho & Hp & Hk)].
  - left. by apply no_new_proof_same.
  - right. eauto 10.
Qed.

(** Passing answers and the same claim then and now are evidence. *)
Lemma evidence_of r seen s id d k c now clock :
  db_domains seen !! id = Some d -> live d = true ->
  passing (ownership_outcome r seen id) = true -> passing (routing_outcome r seen id d) = true ->
  claim_version s id = claim_version seen id -> active_claim s id = Some (k, c) ->
  claim_domain_id (verified DNS_TXT now clock c) = id /\ dns_evidence r seen id k (verified DNS_TXT now clock c).
Proof.
  intros Hd Hl Ho Hr Hv Ha. pose proof (active_claim_Some _ _ _ _ Ha) as (_ & Hid & _). split; [exact Hid|].
  apply ownership_passing in Ho as (j & c0 & values & v & Ha0 & Ht & Hin & Hs).
  apply routing_passing in Hr as (j' & c1 & chain & Ha1 & Hch & Hmem).
  rewrite Ha0 in Ha1. injection Ha1 as <- <-.
  unfold claim_version in Hv. rewrite Ha, Ha0 in Hv. injection Hv as -> Htok Htgt.
  exists d, c0, values, v, chain. unfold verified, txt_record_value in *. simpl_over.
  rewrite Htok, Htgt. auto 12.
Qed.

Lemma load_live s id d : load s id = Some d -> db_domains s !! id = Some d /\ live d = true.
Proof. unfold load. intros Hd. repeat case_match; simplify_eq. split; [done|]. by destruct (live d). Qed.

Lemma commit_proof o s k c :
  db_claims (commit o s) !! k = Some c -> verified_by_dns c ->
  db_claims s !! k = Some c \/ proved_by o s k c.
Proof.
  intros Hk Hc. destruct (purges o) eqn:Hpurge.
  { left. destruct o; try discriminate Hpurge. rewrite commit_purge, purged_claims in Hk.
    by apply map_lookup_filter_Some in Hk as [Hk _]. }
  destruct o; try (left; refine (sw_commit _ no_new_proof _ _ _ _ k c Hk Hc); [done|by constructor]).
  - left. refine (sw_commit _ no_new_proof _ _ _ _ k c Hk Hc); [done|]. simpl.
    destruct (imp_grandfather _); by repeat constructor.
  - destruct (commit_dns_op id a seen r status_before zone edge_due s)
      as [Hn|(d & Hd & Ho & Hr & Hv & k' & c' & now & clock & Ha & Hc')]; [left; by apply Hn|].
    rewrite Hc', lookup_insert_Some in Hk. destruct Hk as [[<- <-]|[_ Hk]]; [right|by left].
    apply load_live in Hd as [Hd Hl]. exists id, r, seen. split; [done|]. by apply (evidence_of r seen s id d).
  - destruct (commit_run_dns id r s) as [Hn|(d & Hd & Hl & Ho & Hr & k' & c' & now & clock & Ha & Hc')]; [left; by apply Hn|].
    rewrite Hc', lookup_insert_Some in Hk. destruct Hk as [[<- <-]|[_ Hk]]; [right|by left].
    exists id, r, s. split; [done|]. by apply (evidence_of r s s id d).
Qed.

Lemma exec_proof h clock k c :
  db_claims (exec h (empty_db clock)) !! k = Some c -> verified_by_dns c ->
  exists h1 o h2, h = (h1 ++ o :: h2)%list /\ proved_by o (exec h1 (empty_db clock)) k c.
Proof.
  induction h as [|o h IH] using rev_ind; simpl; [done|].
  rewrite exec_app. simpl. intros Hk Hc. destruct (commit_proof _ _ _ _ Hk Hc) as [Hk'|Hp].
  - destruct (IH Hk' Hc) as (h1 & o' & h2 & -> & Hp). exists h1, o', (h2 ++ [o])%list.
    split; [by rewrite <- app_assoc|done].
  - by exists h, o, [].
Qed.
End Evidence.
