(* ===== verification/GatewayAccepts.v ===== *)
(** * The gateway accepts what the reconciler builds

    The two sides of the edge's configuration agree: after any history of operations,
    what [build_apps] derives from the database and the settings passes [validate_apps]
    with the facts the internal API gives for the same database and settings. *)

From Stdlib Require Import Ascii String ZArith Lia.
From stdpp Require Import base gmap strings list sets sorting.
From S2P Require Import Prelude PyStr Json JsonText Errors External Assertion Models Hostname.
From S2P Require Import EdgeSettings Egress Dns DnsSetup Domains EdgeChecks Applications EdgeConfig.
From S2P Require Import Gateway Internal DomainInv Worker Frames Lifecycle History.
Open Scope string_scope.
Open Scope Z_scope.

(** ** Documents compare equal to themselves *)

Create HintDb jwf.

Lemma jwf_arr l : Forall jwf l -> jwf (JArr l).
Proof. intros Hl. induction Hl as [|x l Hx Hl IH]; [done|]. split; [done|exact IH]. Qed.
Lemma jwf_obj (d : dict) : NoDup (dkeys d) -> Forall (fun kv => jwf kv.2) d -> jwf (JObj d).
Proof.
  intros Hn Hd. split; [done|]. clear Hn. induction Hd as [|[k v] d Hx Hd IH]; [done|]. split; [exact Hx|exact IH].
Qed.
Lemma jwf_strs l : jwf (jstr_list l).
Proof. apply jwf_arr, Forall_fmap, Forall_true. done. Qed.
#[local] Hint Resolve jwf_strs : jwf.

(** Well-formedness of a document with literal keys. *)
Ltac wf := repeat first
  [ exact I | solve [eauto with jwf nocore]
  | apply jwf_arr; repeat (apply Forall_cons; split); try apply Forall_nil; cbn [snd]
  | apply jwf_obj; [apply (bool_decide_unpack _); vm_compute; exact I
                   |repeat (apply Forall_cons; split); try apply Forall_nil; cbn [snd]] ].

Lemma wf_forwarded h : jwf (forwarded_headers h).
Proof. unfold forwarded_headers, one. wf. Qed.
Lemma wf_tls n : jwf (verified_tls n).
Proof. unfold verified_tls. wf. Qed.
Lemma wf_strip : jwf strip_handler.
Proof. unfold strip_handler. wf. Qed.
Lemma wf_health : jwf health_route.
Proof. unfold health_route, one. wf. Qed.
Lemma wf_unmatched : jwf unmatched_route.
Proof. unfold unmatched_route. wf. Qed.
Lemma wf_assert st : jwf (assertion_subrequest st).
Proof. unfold assertion_subrequest, one. destruct (nonempty (edge_token st)); cbn [app]; wf. Qed.
Lemma wf_proxy up : jwf (proxy_to_api up).
Proof. unfold proxy_to_api, one. wf. Qed.
#[local] Hint Resolve wf_forwarded wf_tls wf_strip wf_health wf_unmatched wf_assert wf_proxy : jwf.
Lemma wf_issuer st : jwf (tls_issuer_config st).
Proof.
  unfold tls_issuer_config. destruct (String.eqb _ _); [wf|]. destruct (nonempty (acme_email st)); wf.
Qed.
#[local] Hint Resolve wf_issuer : jwf.
Lemma wf_tls_app st : jwf (tls_app st).
Proof. unfold tls_app. wf. Qed.
Lemma wf_api hosts up : Forall jwf (api_route_for hosts up).
Proof. unfold api_route_for. destruct hosts; [constructor|]. constructor; [|constructor]. wf. Qed.
Lemma wf_allowlisted name paths hosts ranges up : Forall jwf (allowlisted_routes_for name paths hosts ranges up).
Proof.
  unfold allowlisted_routes_for. destruct ranges, hosts; try constructor; [wf|]. constructor; [wf|constructor].
Qed.

(** ** The fixed parts of the document *)

Lemma entries_match_ok expected skip given :
  (forall k v, (k, v) ∈ expected -> k = skip \/ dget k given = Some v /\ jwf v) -> entries_match expected skip given = true.
Proof.
  intros He. unfold entries_match. apply forallb_forall. intros [k v] Hin%list_elem_of_In.
  destruct (He k v Hin) as [->|[Hg Hv]]; cbn [fst snd]; [by rewrite String.eqb_refl|].
  rewrite Hg. change (default JNull (Some v)) with v. rewrite json_eqb_refl by done. apply orb_true_r.
Qed.

(** Look literal keys up in literal documents. *)
Ltac lookup := repeat match goal with
  | |- context [dget ?k ?d] =>
      let r := eval cbv [dget String.eqb Ascii.eqb Bool.eqb] in (dget k d) in
      lazymatch r with Some _ => idtac | None => idtac end; change (dget k d) with r; cbv iota
  end.

(** A lookup in one of the documents' literal keys. *)
Ltac entry := right; split; [reflexivity|wf].

Lemma dkeys_server st routes : dkeys (server st routes) = dkeys (server st []).
Proof. unfold server. by destruct (es_disable_https st). Qed.
Lemma dkeys_http st routes : dkeys (http_app st routes) = dkeys (http_app st []).
Proof. unfold http_app. by destruct (http_port st =? 80), (https_port st =? 443). Qed.

Lemma server_entries st routes : entries_match (server st []) "routes" (server st routes) = true.
Proof.
  apply entries_match_ok. intros k v. unfold server, one. destruct (es_disable_https st);
    cbn [app]; rewrite !elem_of_cons, elem_of_nil;
    intros Hin; repeat destruct Hin as [[= -> ->]|Hin]; try done; (by left) || entry.
Qed.
Lemma http_entries st routes : entries_match (http_app st []) "servers" (http_app st routes) = true.
Proof.
  apply entries_match_ok. intros k v. unfold http_app. destruct (http_port st =? 80), (https_port st =? 443);
    cbn [app]; rewrite !elem_of_cons, elem_of_nil;
    intros Hin; repeat destruct Hin as [[= -> ->]|Hin]; try done; (by left) || entry.
Qed.

Section Accepts.
Context `{External}.

(** A document with the right routes between the fixed ones passes. *)
Lemma validate_apps_built st facts routes :
  validate_middle routes st facts = Ok tt ->
  validate_apps (JObj (("http", JObj (http_app st routes))
                       :: (if es_disable_https st then [] else [("tls", tls_app st)]))) st facts = Ok tt.
Proof.
  intros Hm. unfold validate_apps.
  assert (forall a, subset_str (dkeys (("http", a) :: (if es_disable_https st then [] else [("tls", tls_app st)])))
                      ["http"; "tls"] = true) as Hk by (intros a; by destruct (es_disable_https st)).
  rewrite Hk. cbn [unless_rejected]. cbn [dget String.eqb Ascii.eqb Bool.eqb].
  change (String.eqb "http" "http") with true. cbn iota.
  rewrite dkeys_http, same_str_refl, http_entries. cbn [andb unless_rejected].
  assert (dget "servers" (http_app st routes) = Some (JObj [(SERVER_NAME, JObj (server st routes))])) as -> by done.
  change (same_str (dkeys [(SERVER_NAME, JObj (server st routes))]) [SERVER_NAME]) with true. cbn [unless_rejected].
  change (default JNull (dget SERVER_NAME [(SERVER_NAME, JObj (server st routes))])) with (JObj (server st routes)).
  unfold validate_server. rewrite dkeys_server, server_entries.
  assert (subset_str (dkeys (server st [])) ("routes" :: dkeys (server st [])) = true) as ->.
  { apply subset_str_true. intros k Hk'. by right. }
  cbn [andb unless_rejected].
  assert (dget "routes" (server st routes) = Some (JArr (health_route :: routes ++ [unmatched_route]))) as -> by done.
  destruct (routes ++ [unmatched_route])%list as [|r rest] eqn:Er; [by destruct routes|]. rewrite <- Er.
  rewrite last_last, removelast_last, !json_eqb_refl by wf. cbn [andb unless_rejected]. rewrite Hm.
  unfold validate_tls. destruct (es_disable_https st); [done|].
  change (unless_rejected (json_eqb (tls_app st) (tls_app st)) accept = Ok tt).
  by rewrite json_eqb_refl by apply wf_tls_app.
Qed.

(** ** Application routes *)

(** What the gateway asks of a route group. *)
Record good_group (upstreams : list (string * string)) (g : RouteGroup) : Prop := {
  gg_some : rg_hostnames g <> [];
  gg_hosts : Forall (fun h => canonicalize h = Ok h) (rg_hostnames g);
  gg_dial : sget (rg_origin g) upstreams = Some (rg_origin_host g);
  gg_port : (port ← after_last ":"%char (rg_origin g); py_int port) = Some (rg_origin_port g);
  gg_minute : rate_ok (rg_per_minute g) = true;
  gg_second : rate_ok (rg_per_second g) = true;
}.

Lemma check_hosts_good hs seen :
  Forall (fun h => canonicalize h = Ok h) hs -> NoDup (rev hs ++ seen)%list ->
  check_hosts (JStr <$> hs) seen = Ok (rev hs ++ seen)%list.
Proof.
  intros Hc. revert seen. induction Hc as [|h hs Hh Hc IH]; intros seen Hn; [done|].
  cbn [rev] in Hn |- *. rewrite <- app_assoc in Hn |- *. cbn [fmap list_fmap check_hosts]. rewrite Hh, String.eqb_refl.
  assert (mem_str h seen = false) as ->.
  { apply not_true_is_false. intros Hm%mem_str_true. apply NoDup_app in Hn as (_ & _ & Hn).
    apply NoDup_cons in Hn as [Hn _]. done. }
  cbn [negb andb unless_rejected]. by apply IH.
Qed.

Lemma removeprefix_app p s : removeprefix p (p ++ s) = s.
Proof. unfold removeprefix. by rewrite startswith_app, drop_str_app. Qed.

Lemma zone_good id name window n :
  sget name RATE_WINDOWS = Some window -> 1 <= n <= MAX_RATE ->
  zone_ok id (id ++ "-" ++ name, JObj [("key", JStr id); ("window", JStr window); ("max_events", JInt n)]) = true.
Proof.
  intros Hw Hn. unfold zone_ok. rewrite sapp_assoc, removeprefix_app, Hw, startswith_app.
  lookup. rewrite json_eqb_refl by wf.
  by rewrite (proj2 (Z.leb_le _ _)), (proj2 (Z.leb_le _ _)) by lia.
Qed.

Lemma rate_zone_good id name window v :
  sget name RATE_WINDOWS = Some window -> rate_ok v = true -> forallb (zone_ok id) (rate_zone id name window v) = true.
Proof.
  intros Hw Hv. unfold rate_zone. destruct v as [n|]; [|done]. simpl in Hv.
  apply andb_prop in Hv as [H1%Z.leb_le H2%Z.leb_le]. destruct (n =? 0); [done|]. cbn [forallb].
  by rewrite (zone_good id name window n Hw).
Qed.

Lemma rate_limit_good id a b h :
  rate_ok a = true -> rate_ok b = true -> rate_limit_handler id a b = Some h -> validate_rate_limit id h = Ok tt.
Proof.
  intros Ha Hb. unfold rate_limit_handler.
  assert (forallb (zone_ok id) (rate_zone id "minute" "1m" a ++ rate_zone id "second" "1s" b) = true) as Hz
    by (rewrite forallb_app, !rate_zone_good by done; done).
  destruct (rate_zone id "minute" "1m" a ++ rate_zone id "second" "1s" b)%list as [|z zones] eqn:E; [done|].
  intros [= <-]. unfold validate_rate_limit.
  lookup.
  change (same_str (dkeys _) ["handler"; "rate_limits"]) with true. cbn [unless_rejected].
  change (String.eqb "rate_limit" "rate_limit") with true. by rewrite Hz.
Qed.

Lemma check_proxy_good upstreams g : good_group upstreams g -> check_proxy (origin_proxy g) upstreams = Ok tt.
Proof.
  intros []. unfold check_proxy, origin_proxy. set (host := match rg_host_header g with HH_ORIGIN => _ | _ => _ end).
  assert (forall b, existsb (fun h => json_eqb (forwarded_headers host) (forwarded_headers h))
    ["{http.request.host}"; origin_host_value (rg_origin_host g) (rg_origin_port g) b] = true \/ b <> rg_origin_tls g) as Hh.
  { intros b. destruct (decide (b = rg_origin_tls g)) as [->|]; [left|by right]. apply existsb_exists. exists host.
    split; [|apply json_eqb_refl; wf]. subst host. destruct (rg_host_header g); [left|right; left]; done. }
  destruct (rg_origin_tls g) eqn:Et; cbn [app]; lookup;
    change (String.eqb "reverse_proxy" "reverse_proxy") with true; cbn [unless_rejected];
    change (key_set_is (JObj [("dial", JStr (rg_origin g))]) ["dial"]) with (Ok (E := refusal) true); cbv iota;
    rewrite gg_dial0, gg_port0; cbv zeta; cbn [default].
  - change (subset_str (dkeys _) _) with true.
    cbn [unless_rejected]. destruct (Hh true) as [Hb|]; [|done].
    change (not_null (Some (verified_tls (rg_origin_host g)))) with (Some (verified_tls (rg_origin_host g))).
    rewrite bool_decide_true by eauto. unfold id. rewrite Hb. cbn [unless_rejected].
    by rewrite json_eqb_refl by apply wf_tls.
  - change (subset_str (dkeys _) _) with true.
    cbn [unless_rejected]. destruct (Hh false) as [Hb|]; [|done].
    change (not_null None) with (@None json).
    rewrite bool_decide_false by (intros [? [=]]). unfold id. by rewrite Hb.
Qed.

Lemma app_route_good upstreams g st seen :
  good_group upstreams g -> NoDup (rev (rg_hostnames g) ++ seen)%list ->
  validate_app_route (app_route g st) st upstreams seen = Ok (rev (rg_hostnames g) ++ seen)%list.
Proof.
  intros Hg Hn. pose proof Hg as []. unfold validate_app_route, app_route.
  set (id := "app-" ++ rg_application_slug g).
  set (limiter := rate_limit_handler id (rg_per_minute g) (rg_per_second g)).
  set (handle := JArr (option_list limiter ++ _)%list).
  change (same_str (dkeys _) _) with true. cbn [unless_rejected].
  lookup.
  assert (startswith "app-" id = true) as -> by apply startswith_app. cbn [unless_rejected].
  change (key_set_is (JObj [("host", jstr_list (rg_hostnames g))]) ["host"]) with (Ok (E := refusal) true). cbv iota.
  lookup. change (jstr_list (rg_hostnames g)) with (JArr (JStr <$> rg_hostnames g)).
  pose proof (check_hosts_good _ seen gg_hosts0 Hn) as Hc.
  destruct (rg_hostnames g) as [|h0 hs]; [done|]. cbn [fmap list_fmap] in Hc |- *. rewrite Hc.
  assert (check_handlers id handle st upstreams = Ok tt) as ->; [|done].
  unfold check_handlers. subst handle. subst limiter.
  assert (forall l, unless_rejected (json_eqb strip_handler strip_handler)
    (unless_rejected (json_eqb (assertion_subrequest st) (assertion_subrequest st)) (check_proxy (origin_proxy g) upstreams)) = l ->
    l = Ok tt) as Hstd.
  { intros l <-. rewrite !json_eqb_refl by wf. cbn [unless_rejected]. by apply check_proxy_good. }
  destruct (rate_limit_handler id _ _) as [h|] eqn:El.
  - change (option_list (Some h)) with [h]. cbn [app]. rewrite (rate_limit_good _ _ _ _ gg_minute0 gg_second0 El). by apply Hstd.
  - change (option_list None) with (@nil json). cbn [app]. by apply Hstd.
Qed.

Lemma app_routes_good upstreams groups st seen :
  Forall (good_group upstreams) groups -> NoDup (rev (mjoin (rg_hostnames <$> groups)) ++ seen)%list ->
  validate_app_routes ((fun g => app_route g st) <$> groups) st upstreams seen = Ok tt.
Proof.
  intros Hg. revert seen. induction Hg as [|g groups Hgood Hg IH]; intros seen Hn; [done|].
  cbn [fmap list_fmap mjoin list_join] in Hn |- *. rewrite rev_app_distr, <- app_assoc in Hn.
  cbn [validate_app_routes]. rewrite (app_route_good upstreams) by (try done; by apply NoDup_app in Hn as (_ & _ & ?)).
  by apply IH.
Qed.
End Accepts.

(** ** What the API offers *)

(** A dial that every item gives the same host has that host. *)
Lemma upstream_map_get l dial host :
  (dial, host) ∈ l -> (forall h, (dial, h) ∈ l -> h = host) -> sget dial (upstream_map l) = Some host.
Proof.
  unfold upstream_map. intros Hin Hall.
  assert (forall acc, (dial, host) ∈ l \/ sget dial acc = Some host ->
    sget dial (foldl (fun d x => sset x.1 x.2 d) acc l) = Some host) as Hgo; [|by apply Hgo; left].
  clear Hin. induction l as [|[k v] l IH]; intros acc; cbn [foldl]; [intros [[]%not_elem_of_nil|?]; done|].
  intros Hor. apply IH; [intros h Hh; apply Hall; by right|]. cbn [fst snd].
  destruct (decide (dial = k)) as [<-|Hne].
  - right. rewrite sget_sset_eq. f_equal. apply Hall. by left.
  - destruct Hor as [[[= -> ->]|Hin]%elem_of_cons|Hacc]; [done|by left|right]. by rewrite sget_sset_ne.
Qed.

Lemma upstream_items_read (l : list (string * string)) :
  mapM upstream_item ((fun u => JObj [("dial", JStr u.1); ("host", JStr u.2)]) <$> l) = Some l.
Proof. induction l as [|[d h] l IH]; [done|]. cbn [fmap list_fmap mapM]. cbn. rewrite IH. done. Qed.
Lemma str_list_read l : str_list (Some (jstr_list l)) = Some l.
Proof. unfold str_list, jstr_list. induction l as [|x l IH]; [done|]. cbn in *. by rewrite IH. Qed.

Section Facts.
Context `{External, Deployment}.

Lemma facts_of_origins st client token s body facts :
  edge_origins (Some st) client token s = Some (Origins body) -> facts_of body = Some facts ->
  exists portal operator, portal_ranges st = Some portal /\ operator_ranges st = Some operator /\
    facts = {| ef_upstreams := upstream_map (offered_upstreams s);
               ef_edge_names := portal_hosts s (es_edge_hostname st);
               ef_portal_ranges := portal; ef_public_api := public_api st; ef_operator_ranges := operator |}.
Proof.
  unfold edge_origins. destruct (edge_request_ok _ _ _) as [[|]|e]; [|done|done]. cbn [negb mbind option_bind].
  destruct (portal_ranges st) as [portal|] eqn:Ep; [|done]. cbn [mbind option_bind].
  destruct (operator_ranges st) as [operator|] eqn:Eo; [|done]. cbn [mbind option_bind]. intros [= <-].
  unfold facts_of. cbn [as_obj mbind option_bind]. lookup. cbn [mbind option_bind as_arr].
  rewrite upstream_items_read. cbn [mbind option_bind]. rewrite !str_list_read. cbn [mbind option_bind].
  intros [= <-]. exists portal, operator. split; [done|]. split; [done|].
  destruct (public_api st); reflexivity.
Qed.

(** The dials of the serving origin are offered while its application is active. *)
Lemma serving_offered s a r k o dial :
  db_applications s !! a = Some r -> app_status r = ACTIVE -> serving_origin s a = Some (k, o) ->
  (exists dials, resolve_dials (org_host o) (org_port o) allow_private_from_env = Ok dials /\ dial ∈ dials) ->
  (dial, org_host o) ∈ offered_upstreams s.
Proof.
  intros Ha Hact Ho (dials & Hd & Hin). unfold offered_upstreams. rewrite merge_sort_Permutation.
  unfold serving_origin in Ho. destruct (active_origin s a) as [[k' o']|] eqn:Eo; [|done].
  case_bool_decide as Hv; [|done]. injection Ho as -> ->. apply active_origin_Some in Eo as (Hk & Hoa & Hact').
  apply list_elem_of_bind. exists o. split.
  - unfold upstreams_of. rewrite Hd. apply list_elem_of_fmap. eauto.
  - unfold offered_origins. apply list_elem_of_fmap. exists (k, o). split; [done|].
    apply list_elem_of_filter. split; [|by apply elem_of_map_to_list]. simpl. split; [done|]. split; [done|].
    unfold application_active. rewrite Hoa, Ha. by apply bool_decide_true.
Qed.

(** ** The route groups *)

Lemma after_last_app sep a b :
  sall (fun c => negb (Ascii.eqb c sep)) b = true -> after_last sep (a ++ String sep b) = Some b.
Proof.
  intros Hb. assert (after_last sep b = None) as Hn.
  { clear a. induction b as [|c b IH]; [done|]. simpl in *. apply andb_prop in Hb as [Hc Hb].
    rewrite IH by done. by destruct (Ascii.eqb c sep). }
  induction a as [|c a IH]; simpl; [by rewrite Hn, Ascii.eqb_refl|by rewrite IH].
Qed.

Lemma dial_port port a : (p ← after_last ":"%char (dial_of port a); py_int p) = Some port.
Proof.
  assert (sall (fun c => negb (Ascii.eqb c ":"%char)) (py_str port) = true) as Hp.
  { eapply sall_impl; [|apply py_str_chars]. intros c. destruct c as [[] [] [] [] [] [] [] []]; vm_compute; done. }
  unfold dial_of. destruct (has_char ":"%char a).
  - change ("[" ++ a ++ "]:" ++ py_str port) with (("[" ++ a) ++ ("]" ++ String ":"%char (py_str port))).
    rewrite sapp_assoc, after_last_app by done. apply py_int_py_str.
  - change (a ++ ":" ++ py_str port) with (a ++ String ":"%char (py_str port)).
    rewrite after_last_app by done. apply py_int_py_str.
Qed.

Lemma pinned_is_offered host port allow dial h :
  pinned_dial host port allow = Ok (Some (dial, h)) ->
  h = host /\ (p ← after_last ":"%char dial; py_int p) = Some port /\
  exists dials, resolve_dials host port allow = Ok dials /\ dial ∈ dials.
Proof.
  unfold pinned_dial, resolve_dials. destruct (resolve host port allow) as [l|]; [|done].
  destruct (least_dial (dial_of port <$> l)) as [best|] eqn:E; [|done]. cbn. intros [= -> ->].
  apply least_dial_ok in E as (Hin & _). split; [done|]. split; [|eauto].
  apply list_elem_of_fmap in Hin as (a & -> & _). apply dial_port.
Qed.

(** Every upstream has one host. *)
Definition hosts_agree (s : Db) : Prop :=
  forall dial h1 h2, (dial, h1) ∈ offered_upstreams s -> (dial, h2) ∈ offered_upstreams s -> h1 = h2.

Lemma in_select_by {A} (f : A -> string) p (m : gmap N A) x :
  x ∈ select_by f p m <-> m !! x.1 = Some x.2 /\ p x.1 x.2 = true.
Proof.
  unfold select_by. rewrite merge_sort_Permutation, list_elem_of_filter. destruct x as [i a]. cbn [fst snd].
  rewrite elem_of_map_to_list. tauto.
Qed.
Lemma select_by_ids {A} (f : A -> string) p (m : gmap N A) : NoDup ((select_by f p m).*1).
Proof.
  unfold select_by. rewrite merge_sort_Permutation. apply NoDup_fmap_fst.
  - intros k a b [_ Ha]%list_elem_of_filter [_ Hb]%list_elem_of_filter.
    apply elem_of_map_to_list in Ha, Hb. congruence.
  - apply NoDup_filter, NoDup_map_to_list.
Qed.

Lemma in_routed s a h :
  h ∈ routed_hostnames s a <->
  exists i d, db_domains s !! i = Some d /\ dom_hostname d = h /\ dom_application_id d = a /\ live d = true /\
    bool_decide (dom_status d ∈ ROUTABLE_STATUSES) = true /\ routable s i d = true.
Proof.
  unfold routed_hostnames, live, is_deleted. rewrite list_elem_of_fmap. split.
  - intros ([i d] & -> & [Hr [Hd Hs]%in_select_by]%list_elem_of_filter). cbn [fst snd] in *.
    apply andb_prop in Hs as [[Ha%bool_decide_eq_true Hl%bool_decide_eq_true]%andb_prop Hs].
    exists i, d. rewrite Hl. do 5 (split; [done|]). done.
  - intros (i & d & Hd & <- & Ha & Hl & Hs & Hr). exists (i, d). split; [done|].
    apply list_elem_of_filter. split; [done|]. apply in_select_by. split; [done|]. cbn [fst snd]. rewrite Hs.
    rewrite Ha, !bool_decide_true; [done| |done]. destruct (dom_deleted_at d); [|done].
    rewrite bool_decide_true in Hl; [done|eauto].
Qed.

Lemma routed_nodup s a : Inv None s -> NoDup (routed_hostnames s a).
Proof.
  intros HI. unfold routed_hostnames. apply NoDup_fmap_2_strong.
  - intros [i d] [j e] [_ [Hd Hp]%in_select_by]%list_elem_of_filter [_ [He Hq]%in_select_by]%list_elem_of_filter Hh.
    cbn [fst snd] in *. apply andb_prop in Hp as [[_ Hp%bool_decide_eq_true]%andb_prop _].
    apply andb_prop in Hq as [[_ Hq%bool_decide_eq_true]%andb_prop _].
    assert (i = j) as ->; [|congruence].
    apply (inv_hostname _ _ HI i j d e); try done; unfold live, is_deleted; [by rewrite Hp|by rewrite Hq].
  - apply NoDup_filter. eapply NoDup_fmap_1, select_by_ids.
Qed.

(** What makes one application's group good. *)
Lemma route_group_good `{!IdnaLaws, !IpLaw} s a r groups :
  Inv None s -> hosts_agree s -> db_applications s !! a = Some r -> app_status r = ACTIVE ->
  rate_ok (app_rate_limit_per_minute r) = true -> rate_ok (app_rate_limit_per_second r) = true ->
  route_group s a r = Some groups ->
  Forall (good_group (upstream_map (offered_upstreams s))) groups /\
  (mjoin (rg_hostnames <$> groups) = [] \/ mjoin (rg_hostnames <$> groups) = routed_hostnames s a).
Proof.
  intros HI Hag Ha Hact Hmin Hsec. unfold route_group.
  destruct (serving_origin s a) as [[k o]|] eqn:Eo; [|intros [= <-]; split; [constructor|by left]].
  destruct (routed_hostnames s a) as [|h hs] eqn:Eh; [intros [= <-]; split; [constructor|by left]|].
  destruct (pinned_dial _ _ _) as [[[dial host]|]|] eqn:Ep; [|done|intros [= <-]; split; [constructor|by left]].
  intros [= <-]. apply pinned_is_offered in Ep as (-> & Hport & Hoff).
  split; [|right; cbn [fmap list_fmap mjoin list_join rg_hostnames]; by rewrite app_nil_r].
  constructor; [|constructor]. constructor; cbn [rg_hostnames rg_origin rg_origin_host rg_origin_port
    rg_per_minute rg_per_second]; try done.
  - rewrite <- Eh. apply Forall_forall. intros x (i & d & Hd & <- & _)%in_routed.
    destruct (inv_canonical _ _ HI i d Hd) as [raw Hraw]. by eapply canonicalize_idempotent.
  - apply upstream_map_get; [by eapply serving_offered|]. intros x Hx. apply (Hag dial); [done|].
    by eapply serving_offered.
Qed.

Lemma groups_good `{!IdnaLaws, !IpLaw} s groups :
  Inv None s -> hosts_agree s ->
  rates_ok s ->
  serveable_route_groups s = Some groups ->
  Forall (good_group (upstream_map (offered_upstreams s))) groups /\ NoDup (mjoin (rg_hostnames <$> groups)).
Proof.
  intros HI Hag Hrates. unfold serveable_route_groups.
  assert (forall x, x ∈ active_applications s -> db_applications s !! x.1 = Some x.2 /\ app_status x.2 = ACTIVE) as Happ.
  { intros x [Hx Hs%bool_decide_eq_true]%in_select_by. done. }
  pose proof (select_by_ids app_slug (fun _ r => bool_decide (app_status r = ACTIVE)) (db_applications s)) as Hids.
  fold (active_applications s) in Hids. revert groups Happ Hids. generalize (active_applications s) as apps.
  assert (forall apps groups, (forall x, x ∈ apps -> db_applications s !! x.1 = Some x.2 /\ app_status x.2 = ACTIVE) ->
    NoDup apps.*1 -> mapM (fun x => route_group s x.1 x.2) apps = Some groups ->
    Forall (good_group (upstream_map (offered_upstreams s))) (mjoin groups) /\
    NoDup (mjoin (rg_hostnames <$> mjoin groups)) /\
    forall h, h ∈ mjoin (rg_hostnames <$> mjoin groups) -> exists x, x ∈ apps /\ h ∈ routed_hostnames s x.1) as Hgo.
  { induction apps as [|[a r] apps IH]; intros groups Happ Hids; cbn [mapM fst snd].
    - intros [= <-]. split; [constructor|]. split; [constructor|]. by intros h ?%not_elem_of_nil.
    - destruct (route_group s a r) as [g|] eqn:Eg; [|done]. cbn [mbind option_bind].
      destruct (mapM _ apps) as [gs|] eqn:Em; [|done]. intros [= <-].
      destruct (Happ (a, r)) as [Ha Hact]; [by left|]. destruct (andb_prop _ _ (Hrates a r Ha)) as [Hmin Hsec].
      destruct (route_group_good s a r g HI Hag Ha Hact Hmin Hsec Eg) as [Hg Hhs].
      cbn [fmap list_fmap fst] in Hids. apply NoDup_cons in Hids as [Hna Hids].
      destruct (IH gs) as (Hgs & Hnd & Hin); [intros x Hx; apply Happ; by right|done|done|].
      cbn [mjoin list_join]. rewrite fmap_app, join_app.
      split; [by apply Forall_app|]. split.
      + apply NoDup_app. split; [destruct Hhs as [-> | ->]; [constructor|by apply routed_nodup]|]. split; [|done].
        intros h Hh (x & Hx & Hhx)%Hin. destruct Hhs as [E|E]; rewrite E in Hh; [by apply not_elem_of_nil in Hh|].
        apply in_routed in Hh as (i & d & Hd & Hdh & <- & Hl & _).
        apply in_routed in Hhx as (j & e & He & Heh & Hea & Hle & _).
        assert (i = j) as -> by (apply (inv_hostname _ _ HI i j d e); congruence).
        apply Hna. rewrite Hd in He. injection He as <-. rewrite Hea. by apply list_elem_of_fmap_2.
      + intros h Hh. apply elem_of_app in Hh as [Hh|Hh]; [|destruct (Hin h Hh) as (x & Hx & Hhx); exists x; split; [by right|done]].
        destruct Hhs as [E|E]; rewrite E in Hh; [by apply not_elem_of_nil in Hh|]. exists (a, r). split; [by left|done]. }
  intros apps groups Happ Hids. destruct (mapM _ apps) as [gs|] eqn:Em; [|done]. intros [= <-].
  destruct (Hgo apps gs Happ Hids Em) as (? & ? & _). done.
Qed.

(** ** The routes between the first and the last one *)

Lemma hosts_vouched_ok hosts names :
  hosts <> [] -> subset_str hosts names = true -> hosts_vouched (Some (jstr_list hosts)) names = Ok hosts.
Proof.
  intros Hne Hs. unfold hosts_vouched. pose proof (str_list_read hosts) as Hr. unfold str_list in Hr. revert Hr.
  change (jstr_list hosts) with (JArr (JStr <$> hosts)). cbn iota.
  assert (forallb hashable (JStr <$> hosts) = true) as Hh by (clear; induction hosts; done).
  destruct hosts as [|h hs]; [done|]. cbn [fmap list_fmap] in *. rewrite Hh. intros ->. by rewrite Hs.
Qed.

(** A group of fixed routes passes, and so does its absence. *)
Lemma fixed_step (cond : json -> bool) n exposed names expected hosts group rest :
  merge_sort string_le hosts = hosts -> subset_str hosts names = true ->
  (group = [] \/ exists d more, group = JObj d :: more /\ group = expected hosts /\ List.length group = n /\
     Forall jwf group /\ exposed = true /\ cond (JObj d) = true /\ route_hosts d = Some (jstr_list hosts) /\ hosts <> []) ->
  Forall (fun r => cond r = false) rest ->
  match (group ++ rest)%list with
  | first :: _ => if cond first then fixed_routes n exposed names expected (group ++ rest)%list else Ok (group ++ rest)%list
  | [] => Ok (group ++ rest)%list
  end = Ok (E := refusal) rest.
Proof.
  intros Hsort Hsub Hg Hrest. destruct Hg as [->|(d & more & -> & He & Hn & Hwf & -> & Hc & Hh & Hne)].
  - cbn [app]. destruct rest as [|r rest]; [done|]. by apply Forall_cons in Hrest as [-> _].
  - cbn [app]. rewrite Hc. unfold fixed_routes. cbn [unless_rejected].
    rewrite Hh, (hosts_vouched_ok _ _ Hne Hsub), Hsort, <- He.
    change (JObj d :: more ++ rest)%list with ((JObj d :: more) ++ rest)%list.
    rewrite <- Hn, take_app_length, drop_app_length, json_eqb_refl by (by apply jwf_arr). done.
Qed.

Lemma allowlisted_shape name paths hosts ranges up :
  let group := allowlisted_routes_for name paths hosts ranges up in
  group = [] \/ exists d more, group = JObj d :: more /\ List.length group = 2%nat /\ Forall jwf group /\
    ranges <> [] /\ dget "@id" d = Some (JStr name) /\ route_hosts d = Some (jstr_list hosts) /\ hosts <> [].
Proof.
  intros group. pose proof (wf_allowlisted name paths hosts ranges up) as Hwf. subst group.
  unfold allowlisted_routes_for in *. destruct ranges as [|r0 rs]; [by left|]. destruct hosts as [|h0 hs]; [by left|].
  right. by eexists _, _.
Qed.

Lemma allowlisted_ids name paths hosts ranges up (cond : json -> bool) :
  (forall d, dget "@id" d = Some (JStr name) \/ dget "@id" d = Some (JStr (name ++ "-denied")) -> cond (JObj d) = false) ->
  Forall (fun r => cond r = false) (allowlisted_routes_for name paths hosts ranges up).
Proof.
  intros Hc. unfold allowlisted_routes_for. destruct ranges, hosts; try constructor; [apply Hc; by left|].
  constructor; [apply Hc; by right|constructor].
Qed.

Lemma api_ids st hosts (cond : json -> bool) :
  (forall d, dget "@id" d = Some (JStr "api") -> cond (JObj d) = false) ->
  Forall (fun r => cond r = false) (api_route st hosts).
Proof.
  intros Hc. unfold api_route, api_route_for. destruct (public_api st), hosts; try constructor; [by apply Hc|constructor].
Qed.
Lemma app_ids st groups (cond : json -> bool) :
  (forall d slug, dget "@id" d = Some (JStr ("app-" ++ slug)) -> cond (JObj d) = false) ->
  Forall (fun r => cond r = false) ((fun g => app_route g st) <$> groups).
Proof.
  intros Hc. apply Forall_fmap, Forall_true. intros g. by apply (Hc _ (rg_application_slug g)).
Qed.

Lemma middle_good st facts portal operator hosts groups :
  merge_sort string_le hosts = hosts ->
  ef_edge_names facts = hosts -> ef_portal_ranges facts = portal -> ef_operator_ranges facts = operator ->
  ef_public_api facts = public_api st ->
  Forall (good_group (ef_upstreams facts)) groups -> NoDup (mjoin (rg_hostnames <$> groups)) ->
  validate_middle (portal_routes_for hosts portal (assert_upstream st)
                   ++ operator_routes_for hosts operator (assert_upstream st)
                   ++ api_route st hosts ++ ((fun g => app_route g st) <$> groups))%list st facts = Ok tt.
Proof.
  intros Hsort Hn Hp Ho Ha Hg Hnd. unfold validate_middle.
  assert (subset_str hosts hosts = true) as Hsub by (apply subset_str_true; auto).
  rewrite Hp, Ho, Ha, Hn. clear Hp Ho Ha Hn.
  rewrite (fixed_step _ _ _ _ _ hosts (portal_routes_for hosts portal (assert_upstream st))); [|done|done| |].
  - rewrite (fixed_step _ _ _ _ _ hosts (operator_routes_for hosts operator (assert_upstream st))); [|done|done| |].
    + rewrite (fixed_step _ _ _ _ _ hosts (api_route st hosts)); [|done|done| |].
      * apply app_routes_good; [done|]. rewrite app_nil_r. by rewrite <- Permutation_rev.
      * unfold api_route. destruct (public_api st); [|by left]. pose proof (wf_api hosts (assert_upstream st)) as Hwf.
        unfold api_route_for in *. destruct hosts as [|h0 hs]; [by left|]. right. by eexists _, _.
      * apply app_ids. intros d slug Hd. unfold id_in. by rewrite Hd.
    + destruct (allowlisted_shape "operator" OPERATOR_PATHS hosts operator (assert_upstream st))
        as [?|(d & more & Hd & Hl & Hwf & Hr & Hid & Hh & Hne)]; [by left|right].
      exists d, more. do 4 (split; [done|]). split; [by rewrite bool_decide_false|].
      split; [unfold id_in; by rewrite Hid|done].
    + apply Forall_app. split; [apply api_ids|apply app_ids]; intros; unfold id_in.
      * by match goal with Hd : dget _ _ = _ |- _ => rewrite Hd end.
      * by match goal with Hd : dget _ _ = _ |- _ => rewrite Hd end.
  - destruct (allowlisted_shape "portal" PORTAL_PATHS hosts portal (assert_upstream st))
      as [?|(d & more & Hd & Hl & Hwf & Hr & Hid & Hh & Hne)]; [by left|right].
    exists d, more. do 4 (split; [done|]). split; [by rewrite bool_decide_false|].
    split; [unfold id_starts_portal; by rewrite Hid|done].
  - apply Forall_app. split; [|apply Forall_app; split; [apply api_ids|apply app_ids]].
    + apply allowlisted_ids. intros d [Hd|Hd]; unfold id_starts_portal; by rewrite Hd.
    + intros d Hd. unfold id_starts_portal. by rewrite Hd.
    + intros d slug Hd. unfold id_starts_portal. by rewrite Hd.
Qed.

Lemma portal_hosts_sorted s e : merge_sort string_le (portal_hosts s e) = portal_hosts s e.
Proof. apply sort_sorted. Qed.

(** In every state the invariant allows, with rate limits in range and upstreams that
    name one origin each. *)
Lemma built_config_accepted `{!IdnaLaws, !IpLaw} s st client token apps body facts :
  Inv None s -> hosts_agree s ->
  rates_ok s ->
  build_apps s st = Some apps ->
  edge_origins (Some st) client token s = Some (Origins body) -> facts_of body = Some facts ->
  validate_apps apps st facts = Ok tt.
Proof.
  intros HI Hag Hrates Hb Ho Hf.
  destruct (facts_of_origins st client token s body facts Ho Hf) as (portal & operator & Hp & Hop & ->).
  unfold build_apps in Hb. destruct (serveable_route_groups s) as [groups|] eqn:Eg; [|done].
  destruct (groups_good s groups HI Hag Hrates Eg) as [Hg Hnd]. cbn [mbind option_bind] in Hb. cbv zeta in Hb.
  set (hosts := portal_hosts s (es_edge_hostname st)) in *.
  assert ((match portal_allowed_ips st with [] => Some [] | _ => portal_routes st hosts end)
          = Some (portal_routes_for hosts portal (assert_upstream st))) as Ep.
  { unfold portal_routes. rewrite Hp. cbn [mbind option_bind]. unfold portal_ranges, ranges in Hp.
    destruct (portal_allowed_ips st); [|done]. by injection Hp as <-. }
  rewrite Ep in Hb. cbn [mbind option_bind] in Hb. unfold operator_routes in Hb. rewrite Hop in Hb.
  cbn [mbind option_bind] in Hb. injection Hb as <-. apply validate_apps_built.
  by apply (middle_good st _ portal operator hosts groups (portal_hosts_sorted _ _)).
Qed.

(** C5: The gateway accepts what the reconciler builds: after any history of operations,
    provided the upstreams offered name one origin each, the document [build_apps]
    derives from the database passes [validate_apps] with the facts the management API
    answers for the same database and settings. *)
Theorem gateway_accepts_reconciler `{!IdnaLaws, !IpLaw} h clock st client token apps body facts :
  let s := exec h (empty_db clock) in
  hosts_agree s -> build_apps s st = Some apps ->
  edge_origins (Some st) client token s = Some (Origins body) -> facts_of body = Some facts ->
  validate_apps apps st facts = Ok tt.
Proof.
  intros s Hag. apply built_config_accepted; [|exact Hag|].
  - apply exec_keeps, inv_empty.
  - apply exec_rates.
Qed.
End Facts.
