(* ===== verification/ReconcileProps.v ===== *)
(** * What a reconcile run guarantees

    The theorems on Reconcile.v that need the rest of the development: what a run
    leaves in the database, that its success means Caddy runs what the database asks
    for, and the gateway of app/edge/gateway.py as an implementation of the admin API's
    interface, through which the reconciler converges from any reachable database. *)

From Stdlib Require Import Ascii String ZArith Lia.
From stdpp Require Import base gmap strings list sets sorting.
From S2P Require Import Prelude PyStr Datetime Json JsonText Errors External Models Limits Hostname Dns.
From S2P Require Import EdgeSettings Egress DnsSetup Domains EdgeChecks EdgeConfig Gateway Internal DomainInv.
From S2P Require Import Worker Frames Lifecycle History GatewayAccepts Traffic Reconcile.
Open Scope string_scope.
Open Scope Z_scope.

Section Database.
Context `{External, Deployment}.

Lemma core_reconcile_lock holder s : core_frame s (acquire_reconcile_lock holder s).2.
Proof. by constructor. Qed.
Lemma core_traffic_step {A} (step : M A) : mono core_frame step -> mono core_frame (traffic_step step).
Proof. intros Hs. unfold traffic_step. apply mono_catch; [apply _| |intros; mono_auto]. mono_auto. Qed.
Context `{AdminApi}.

Lemma core_read_traffic families now w : mono core_frame (read_traffic families now w).
Proof.
  unfold read_traffic. destruct (traffic _ _) as [[totals|]|]; mono_auto. apply core_traffic_step, core_record_totals.
Qed.

(** The lock's row changes nothing the configuration is built from. *)
Lemma build_apps_locked holder s settings : build_apps (acquire_reconcile_lock holder s).2 settings = build_apps s settings.
Proof. reflexivity. Qed.

(** A run as its parts. *)
Lemma run_reconcile_inv families settings holder s w r s' w' :
  run_reconcile families settings holder true s w = (Ok r, s', w') ->
  core_frame s s' /\
  match build_apps s settings with
  | None => rr_error r = Some "database_unavailable" /\ s' = s /\ w' = w
  | Some desired => apply_config desired (db_clock s) w = (Ok r, w')
  end.
Proof.
  unfold run_reconcile. cbn [negb]. rewrite build_apps_locked. destruct (build_apps s settings) as [desired|].
  - set (locked := (acquire_reconcile_lock holder s).2). set (counted := (read_traffic families (db_clock s) w locked).2).
    assert (core_frame s counted) as Hc by (etrans; [apply core_reconcile_lock|apply core_read_traffic]).
    destruct (apply_config desired (db_clock s) w) as [[result|e] w1]; [|done]. intros [= -> <- <-]. split; [|done].
    destruct (rr_changed r); [|done]. etrans; [exact Hc|]. apply (core_traffic_step reset_baselines), core_reset_baselines.
  - by intros [= <- <- <-].
Qed.
End Database.

Section Converges.
Context `{External, Deployment, AdminLaws}.
Context (families : Families) (settings : EdgeSettings) (holder : string).

(** A run that reports success leaves Caddy running what the database asks for, and
    one that reports no change wrote nothing; a run that reports an error changed
    nothing in Caddy when the configuration was refused; no run touches the rows of
    applications' existence, domains, claims, checks or events. *)
Theorem reconcile_converges s w r s' w' desired :
  build_apps s settings = Some desired -> printable desired ->
  run_reconcile families settings holder true s w = (Ok r, s', w') ->
  core_frame s s' /\
  (rr_error r = None -> runs desired w') /\
  (rr_error r = None -> rr_changed r = false -> w' = w) /\
  (rr_error r = Some "config_rejected" -> running w' = running w).
Proof.
  intros Hb Hp Hr. apply run_reconcile_inv in Hr as [Hc Hr]. rewrite Hb in Hr.
  destruct (apply_config_result desired (db_clock s) w r w' Hp Hr) as (_ & R1 & R2 & _ & R3). auto.
Qed.

(** Once Caddy runs what the database asks for, further runs change nothing. *)
Theorem reconcile_is_stable s w desired a hosts routes :
  build_apps s settings = Some desired -> runs desired w ->
  get_answer w = Some a -> http_status a = 200 ->
  hostnames_in (JObj [("apps", desired)]) = Some hosts -> app_route_count desired = Some routes ->
  exists r s', run_reconcile families settings holder true s w = (Ok r, s', w) /\
    rr_error r = None /\ rr_changed r = false.
Proof.
  intros Hb (c & current & Hrun & Hd & He) Ha Hs Hh Hn. unfold run_reconcile. cbn [negb].
  rewrite build_apps_locked, Hb. unfold apply_config. rewrite Hh, Hn, Ha, (running_shown w a Ha Hs), Hrun, Hd, He.
  eexists _, _. split; [reflexivity|done].
Qed.
End Converges.

(** ** What is counted in a built configuration *)

(** A route both counts read. *)
Definition countable (route : json) : Prop := is_Some (is_app_route route) /\ is_Some (hosts_of_route route).

Lemma mapM_total {A B} (f : A -> option B) l : Forall (fun x => is_Some (f x)) l -> is_Some (mapM f l).
Proof. intros Hl. by apply mapM_is_Some. Qed.

Lemma countable_route id hosts more rest :
  countable (JObj (("@id", JStr id) :: ("match", JArr [JObj (("host", jstr_list hosts) :: more)]) :: rest)).
Proof.
  split; [by eexists|]. unfold hosts_of_route, list_at. cbn [as_obj mbind option_bind].
  change (dget "match" _) with (Some (JArr [JObj (("host", jstr_list hosts) :: more)])). cbn [as_arr mbind option_bind].
  assert (hosts_of_match (JObj (("host", jstr_list hosts) :: more)) = Some hosts) as Hm.
  { unfold hosts_of_match, list_at. cbn [as_obj mbind option_bind]. change (dget "host" _) with (Some (jstr_list hosts)).
    cbn [jstr_list as_arr mbind option_bind]. clear. induction hosts as [|h hosts IH]; [done|]. cbn [fmap list_fmap mapM as_str].
    cbn [mbind option_bind]. by rewrite IH. }
  cbn [mapM]. rewrite Hm. cbn [mbind option_bind mret option_ret]. by eexists.
Qed.

Lemma countable_health : countable health_route.
Proof. split; eexists; reflexivity. Qed.
Lemma countable_unmatched : countable unmatched_route.
Proof. split; eexists; reflexivity. Qed.
Lemma countable_allowlisted name paths hosts ranges up : Forall countable (allowlisted_routes_for name paths hosts ranges up).
Proof.
  unfold allowlisted_routes_for. destruct ranges, hosts; try constructor; [apply countable_route|].
  constructor; [apply countable_route|constructor].
Qed.
Lemma countable_api settings hosts : Forall countable (api_route settings hosts).
Proof.
  unfold api_route, api_route_for. destruct (public_api settings); [|constructor]. destruct hosts; [constructor|].
  constructor; [apply countable_route|constructor].
Qed.

(** Everything [build_apps] builds can be counted. *)
Lemma built_is_counted `{External} s settings desired :
  build_apps s settings = Some desired ->
  is_Some (hostnames_in (JObj [("apps", desired)])) /\ is_Some (app_route_count desired).
Proof.
  unfold build_apps. destruct (serveable_route_groups s) as [groups|]; [|done]. cbn [mbind option_bind]. cbv zeta.
  set (hosts := portal_hosts s _).
  destruct (match portal_allowed_ips settings with [] => _ | _ => _ end) as [portal|] eqn:Ep; [|done].
  destruct (operator_routes settings hosts) as [operator|] eqn:Eo; [|done]. cbn [mbind option_bind]. intros [= <-].
  set (routes := (portal ++ operator ++ api_route settings hosts ++ ((fun g => app_route g settings) <$> groups))%list).
  assert (Forall countable (health_route :: routes ++ [unmatched_route])%list) as Hall.
  { constructor; [apply countable_health|]. unfold routes. rewrite !Forall_app. split_and!.
    - destruct (portal_allowed_ips settings); [injection Ep as <-; constructor|].
      unfold portal_routes in Ep. destruct (portal_ranges settings); [|done]. injection Ep as <-. apply countable_allowlisted.
    - unfold operator_routes in Eo. destruct (operator_ranges settings); [|done]. injection Eo as <-. apply countable_allowlisted.
    - apply countable_api.
    - apply Forall_fmap, Forall_true. intros g. apply countable_route.
    - constructor; [apply countable_unmatched|constructor]. }
  set (all := (health_route :: routes ++ [unmatched_route])%list) in *.
  assert (list_at "routes" (JObj (server settings routes)) = Some all) as Hr by reflexivity.
  destruct (mapM_total is_app_route all) as [flags Hf].
  { eapply Forall_impl; [exact Hall|]. by intros x [Hx _]. }
  destruct (mapM_total hosts_of_route all) as [names Hnm].
  { eapply Forall_impl; [exact Hall|]. by intros x [_ Hx]. }
  split.
  - unfold hostnames_in. cbn [truthy negb].
    change (at_key "apps" _) with (Some (JObj (("http", JObj (http_app settings routes))
      :: (if es_disable_https settings then [] else [("tls", tls_app settings)])))). cbn [mbind option_bind].
    change (at_key "http" _) with (Some (JObj (http_app settings routes))). cbn [mbind option_bind].
    change (at_key "servers" _) with (Some (JObj [(SERVER_NAME, JObj (server settings routes))])). cbn [mbind option_bind as_obj mapM].
    cbn [snd]. unfold hosts_of_server. rewrite Hr. cbn [mbind option_bind]. rewrite Hnm. by eexists.
  - unfold app_route_count.
    change (at_key "http" _) with (Some (JObj (http_app settings routes))). cbn [mbind option_bind].
    change (at_key "servers" _) with (Some (JObj [(SERVER_NAME, JObj (server settings routes))])). cbn [mbind option_bind].
    change (at_key SERVER_NAME _) with (Some (JObj (server settings routes))). cbn [mbind option_bind].
    rewrite Hr. cbn [mbind option_bind]. rewrite Hf. by eexists.
Qed.

(** ** The gateway as the admin API *)

(** What the gateway can reach of Caddy: the [apps] it runs, and whether it answers. *)
Record GatewayWorld := { gw_apps : option json; gw_up : bool }.

(** [running_apps] *)
Definition running_apps (w : GatewayWorld) : option json := match gw_apps w with Some JNull => None | apps => apps end.

(** [_json]; the spaces [json.dumps] puts after separators are left out. *)
Definition json_answer (status : Z) (body : json) : HttpAnswer :=
  {| http_status := status; http_content := print true body; http_json := Some body |}.
Definition apps_document (apps : option json) : json := match apps with Some j => JObj [("apps", j)] | None => JNull end.

Section GatewayAdmin.
Context `{External}.
Context (settings : EdgeSettings) (facts : option EdgeFacts) (caddy : json -> Z) (metrics : option HttpAnswer).

(** The gateway's endpoints: an unreachable Caddy is an internal error, there is no
    [/load], and [POST /config/apps] is [set_apps]. *)
Definition gateway_apps (apps : json) (w : GatewayWorld) : option HttpAnswer * GatewayWorld :=
  let '(status, given) := set_apps (dumps_utf8 apps) settings facts (if gw_up w then caddy else (fun _ => 500)) in
  (Some (json_answer status JNull),
   match given with
   | Some payload => if status <? 400 then {| gw_apps := Some payload; gw_up := gw_up w |} else w
   | None => w
   end).
#[export] Instance gateway_admin : AdminApi := {|
  World := GatewayWorld;
  get_answer w := Some (if gw_up w then json_answer 200 (apps_document (running_apps w)) else json_answer 500 JNull);
  load_answer _ w := (Some (json_answer 404 JNull), w);
  apps_answer := gateway_apps;
  metrics_answer _ := metrics;
|}.

Lemma lstrip_if_head p c s : p c = false -> lstrip_if p (String c s) = String c s.
Proof. intros Hc. cbn [lstrip_if]. by rewrite Hc. Qed.
Lemma rstrip_if_head p c s : p c = false -> exists r, rstrip_if p (String c s) = String c r.
Proof. intros Hc. cbn [rstrip_if]. destruct (rstrip_if p s); [rewrite Hc|]; eauto. Qed.

Lemma apps_answer_read w : gw_up w = true ->
  get_config (get_answer w) = Ok ((fun j => JObj [("apps", j)]) <$> running_apps w).
Proof.
  intros Hup. cbn [get_answer gateway_admin]. rewrite Hup. unfold get_config, json_answer. cbn [http_status http_content http_json].
  change (negb (200 =? 200)) with false. cbv iota. destruct (running_apps w) as [j|]; [|reflexivity].
  cbn [apps_document]. destruct (print true (JObj [("apps", j)])) as [|c t] eqn:Ec; [done|].
  assert (c = "{"%char) as -> by (cbn [print fmap list_fmap join] in Ec; by injection Ec as <-).
  change (String.eqb (String "{" t) "") with false. unfold bytes_strip, strip_if. rewrite lstrip_if_head by reflexivity.
  destruct (rstrip_if_head (fun c => in_range 9 13 c || (code c =? 32)) "{"%char t eq_refl) as [r ->].
  change (String.eqb (String "{" r) "null") with false. reflexivity.
Qed.

Lemma validate_null f : validate_apps JNull settings f <> Ok tt.
Proof. done. Qed.

Definition gateway_running (w : GatewayWorld) : option json := (fun j => JObj [("apps", j)]) <$> running_apps w.
#[export] Instance gateway_laws : AdminLaws.
Proof.
  refine (Build_AdminLaws gateway_admin gateway_running _ _ _ _ _).
  - intros w a Ha Hs. cbn [get_answer gateway_admin] in Ha. destruct (gw_up w) eqn:Hup.
    + rewrite <- Ha. pose proof (apps_answer_read w Hup) as Hread. cbn [get_answer gateway_admin] in Hread. by rewrite Hup in Hread.
    + by injection Ha as <-.
  - intros apps w a w' Hp. cbn [apps_answer gateway_admin]. unfold gateway_apps, set_apps, dumps_utf8.
    rewrite loads_print by done. destruct facts as [f|]; [|by intros [= <- _]].
    destruct (validate_apps apps settings f) as [u|e] eqn:Ev; [|destruct e; by intros [= <- _]].
    intros [= <- <-] Hlt. cbn [http_status json_answer] in Hlt. rewrite (proj2 (Z.ltb_lt _ _)) by done.
    exists [("apps", apps)]. split; [|done]. unfold running_apps. cbn [gw_apps].
    by destruct apps.
  - intros apps w a w'. cbn [apps_answer gateway_admin]. unfold gateway_apps. destruct (set_apps _ _ _ _) as [status given].
    intros [= <- <-] Hle. cbn [http_status json_answer] in Hle. destruct given; [|done].
    by rewrite (proj2 (Z.ltb_ge _ _)).
  - intros apps w a w' _. cbn [load_answer gateway_admin]. by intros [= <- _].
  - intros apps w a w'. cbn [load_answer gateway_admin]. by intros [= _ <-].
Defined.
End GatewayAdmin.

(** C6: The reconciler converges through the gateway: after any history of operations, with
    origins that agree on one host per upstream and the gateway told what the management
    API answers, a run over a Caddy that runs some configuration, answers and accepts the
    new one succeeds, and Caddy then runs what the database asks for. *)
Theorem reconcile_through_gateway `{External, Deployment, !IdnaLaws, !IpLaw}
    h clock settings client token desired body facts caddy metrics families holder (w : GatewayWorld) :
  let s := exec h (empty_db clock) in
  hosts_agree s -> build_apps s settings = Some desired -> printable desired ->
  edge_origins (Some settings) client token s = Some (Origins body) -> facts_of body = Some facts ->
  gw_up w = true -> is_Some (running_apps w) -> caddy desired < 400 ->
  let api := gateway_admin settings (Some facts) caddy metrics in
  exists r s' w',
    @run_reconcile _ api families settings holder true s w = (Ok r, s', w') /\ rr_error r = None /\
    (exists current, running_apps w' = Some current /\ json_eqb current desired = true) /\ core_frame s s'.
Proof.
  intros s Hag Hb Hp Ho Hf Hup [apps Happs] Hc api.
  assert (validate_apps desired settings facts = Ok tt) as Hv.
  { apply (built_config_accepted s settings client token desired body facts); try done; [apply exec_keeps, inv_empty|].
    apply exec_rates. }
  destruct (built_is_counted s settings desired Hb) as [[hosts Hh] [routes Hn]].
  set (laws := gateway_laws settings (Some facts) caddy metrics).
  assert (exists r w', @apply_config _ api desired (db_clock s) w = (Ok r, w') /\ rr_error r = None) as (r & w' & Hrun & Hok).
  { assert (get_config (@get_answer api w) = Ok (Some (JObj [("apps", apps)]))) as Hg
      by (etrans; [exact (apps_answer_read settings (Some facts) caddy metrics w Hup)|by rewrite Happs]).
    unfold apply_config. rewrite Hh, Hn, Hg.
    change (dget "apps" [("apps", apps)]) with (Some apps). cbv iota. destruct (json_eqb apps desired); [by eexists _, _|].
    cbn [apps_answer api gateway_admin]. unfold gateway_apps, set_apps, dumps_utf8. rewrite loads_print by done.
    rewrite Hv, Hup. unfold posted. cbn [http_status json_answer]. rewrite (proj2 (Z.leb_gt _ _)) by done. by eexists _, _. }
  assert (exists s', @run_reconcile _ api families settings holder true s w = (Ok r, s', w')) as [s' Hall].
  { unfold run_reconcile. cbn [negb]. rewrite build_apps_locked, Hb, Hrun. by eexists. }
  exists r, s', w'. split; [done|split; [done|]].
  destruct (@reconcile_converges _ api laws families settings holder s w r s' w' desired Hb Hp Hall) as (Hcore & Hruns & _).
  split; [|done]. destruct (Hruns Hok) as (c & current & Hw & Hd & He). exists current. split; [|done].
  unfold running, laws, gateway_laws, gateway_running in Hw. destruct (running_apps w') as [j|]; [|done].
  injection Hw as <-. by injection Hd as ->.
Qed.
