(* ===== verification/Demo.v ===== *)
(** * A sample history

    Two applications, one hostname that is registered, verified by DNS and made
    ready by the edge checks; the witnesses of the properties start from its
    states. *)

From Stdlib Require Import Ascii String ZArith Lia.
From stdpp Require Import base gmap strings list sets sorting.
From S2P Require Import Prelude PyStr Datetime Json Errors External Models Hostname Dns DnsSetup.
From S2P Require Import Sample Schemas Webhooks Limits Domains DomainInv ConnectFlow DnsChecks.
From S2P Require Import EdgeChecks Applications Worker Legacy Lifecycle.
Open Scope string_scope.
Open Scope Z_scope.

Definition shop : string := "shop.customer.example".
Definition edge_target : string := "edge.acme.example".

(** Applications 1 and 2. *)
Definition setup_history : list Op :=
  [OpCreateApplication "acme" "Acme" edge_target; OpCreateApplication "globex" "Globex" "edge.globex.example"].
Definition start : Db := exec setup_history (empty_db T0).

(** Domain 3 with claim 6. *)
Definition claim_history : list Op := (setup_history ++ [OpClaim 1 "Shop.Customer.Example." "ws1" None None])%list.
Definition claimed : Db := exec claim_history (empty_db T0).

(** DNS as the customer published it for the claim of [claimed]. *)
Definition published : Resolver := {|
  r_txt := fun n => if String.eqb n ("_custom-domain-challenge." +:+ shop)
                    then Ok ["v=spf1 -all"; "custom-domain-verify=t5"] else Err DnsNameNotFound;
  r_cname := fun n => if String.eqb n shop then Ok (Some edge_target) else Ok None;
  r_has_address := fun _ => Ok false;
  r_ns := fun n => if String.eqb n "customer.example" then Ok ["ns1.dns.example"] else Ok [] |}.
Definition nothing_published : Resolver := {|
  r_txt := fun _ => Err DnsNameNotFound; r_cname := fun _ => Err DnsNameNotFound;
  r_has_address := fun _ => Ok false; r_ns := fun _ => Ok [] |}.

Definition verify_op : Op := OpDns 3 1 claimed published PENDING_DNS None false.
Definition verify_history : list Op := (claim_history ++ [OpClock (T0 + minutes 5); verify_op])%list.
Definition provisioned : Db := exec verify_history (empty_db T0).

(** The origin of application 1, verified and active. *)
Definition origin_history : list Op :=
  (verify_history ++ [OpRegisterOrigin 1 "app.acme.example" "https" None "customer";
                      OpVerifyOrigin 13 (Ok {| oa_status := 200; oa_body := "t12" |}) None;
                      OpActivateOrigin 13])%list.
Definition with_origin : Db := exec origin_history (empty_db T0).

Definition healthy : EdgeProber := {|
  probe := fun _ => Ok {| ep_address := "192.0.2.1"; ep_not_after := T0 + days 80; ep_issuer := "CA";
                          ep_status := 204; ep_edge_header := Some "1"; ep_not_before := Some (T0 - days 10) |};
  probe_workspace := fun _ => Ok {| wp_address := "192.0.2.1"; wp_status := 200; wp_reference := Some "ws1";
                                    wp_application_id := None; wp_body := "" |} |}.
Definition edge_settings : EdgeFlags := {| disable_https := false; edge_hostname := None |}.

Definition ready_history : list Op :=
  (origin_history ++ [OpEdge 3 1 with_origin healthy edge_settings PROVISIONING])%list.
Definition ready : Db := exec ready_history (empty_db T0).

(** The row of the sample hostname in a state of the history. *)
Definition shop_row (s : Db) : Domain := default (new_domain 0 "" "" None 0) (db_domains s !! 3%N).

Lemma inv_history h : Inv None (exec h (empty_db T0)).
Proof. apply exec_keeps, inv_empty. Qed.
Lemma claimed_row : db_domains claimed !! 3%N = Some (shop_row claimed).
Proof. vm_compute. reflexivity. Qed.
Lemma provisioned_row : db_domains provisioned !! 3%N = Some (shop_row provisioned).
Proof. vm_compute. reflexivity. Qed.
Lemma with_origin_row : db_domains with_origin !! 3%N = Some (shop_row with_origin).
Proof. vm_compute. reflexivity. Qed.
Lemma ready_row : db_domains ready !! 3%N = Some (shop_row ready).
Proof. vm_compute. reflexivity. Qed.

(** The customer removes the records: the DNS checks fail and the domain needs attention. *)
Definition lost_history : list Op :=
  (ready_history ++ [OpDns 3 1 ready nothing_published READY None false])%list.
Definition lost : Db := exec lost_history (empty_db T0).
Lemma lost_row : db_domains lost !! 3%N = Some (shop_row lost).
Proof. vm_compute. reflexivity. Qed.
