(* ===== verification/EdgeDemo.v ===== *)
(** * Sample states of the edge and of webhook delivery

    The edge's settings read from a sample environment, a queued delivery, and the
    witnesses of the properties of the edge, the gateway, the internal endpoints,
    assertions, assertion keys, secrets and deliveries. *)

From Stdlib Require Import Ascii String ZArith Lia.
From stdpp Require Import base gmap strings list sets sorting.
From S2P Require Import Prelude PyStr Datetime Json JsonText Errors External Assertion Models Signature SecretBox.
From S2P Require Import AssertionKeys Hostname EdgeSettings Egress Dns DnsSetup Sample Schemas Webhooks.
From S2P Require Import Delivery DeliveryProps Limits Domains DomainInv ConnectFlow DnsChecks EdgeChecks.
From S2P Require Import Applications EdgeConfig Gateway Internal GatewayAccepts.
From S2P Require Import Worker Legacy Lifecycle Demo.
Open Scope string_scope.
Open Scope Z_scope.

(** ** The edge *)

Definition edge_secret : string := "0123456789abcdef0123456789abcdef".
Definition edge_env (name : string) : option string :=
  sget name [("ENABLE_LEGACY_API", "false"); ("EDGE_ASSERTION_KEYS", "2:" ++ edge_secret);
             ("EDGE_HOSTNAME", "edge.acme.example"); ("PORTAL_ALLOWED_IPS", "198.51.100.0/24");
             ("PUBLIC_API", "yes")].
Definition edge : EdgeSettings :=
  ltac:(let r := eval vm_compute in (from_env edge_env) in match r with Ok ?s => exact s end).

Lemma edge_read : from_env edge_env = Ok edge.
Proof. vm_compute. reflexivity. Qed.

Definition apps : json := default JNull (build_apps ready edge).
Definition body : json :=
  match edge_origins (Some edge) (Some "127.0.0.1") None ready with Some (Origins b) => b | _ => JNull end.
Definition no_facts : EdgeFacts :=
  {| ef_upstreams := []; ef_edge_names := []; ef_portal_ranges := []; ef_public_api := false; ef_operator_ranges := [] |}.
Definition facts : EdgeFacts := default no_facts (facts_of body).

Lemma apps_built : build_apps ready edge = Some apps.
Proof. vm_compute. reflexivity. Qed.
Lemma body_answered : edge_origins (Some edge) (Some "127.0.0.1") None ready = Some (Origins body).
Proof. vm_compute. reflexivity. Qed.
Lemma facts_read : facts_of body = Some facts.
Proof. vm_compute. reflexivity. Qed.

Lemma ready_upstreams : offered_upstreams ready = [("192.0.2.1:443", "app.acme.example")].
Proof. vm_compute. reflexivity. Qed.
Lemma ready_hosts_agree : hosts_agree ready.
Proof.
  unfold hosts_agree. rewrite ready_upstreams. intros dial h1 h2 H1 H2.
  rewrite list_elem_of_singleton in H1, H2. congruence.
Qed.
Lemma ready_run : ready = exec ready_history (empty_db T0).
Proof. unfold ready. reflexivity. Qed.

Lemma gateway_accepts_reconciler_witness :
  build_apps ready edge = Some apps /\ validate_apps apps edge facts = Ok tt.
Proof.
  split; [exact apps_built|].
  pose proof ready_hosts_agree as Hag. pose proof apps_built as Ha. pose proof body_answered as Hb.
  rewrite ready_run in Hag, Ha, Hb.
  exact (gateway_accepts_reconciler ready_history T0 edge (Some "127.0.0.1") None apps body facts Hag Ha Hb facts_read).
Defined.

Lemma accepted_config_is_safe_witness :
  validate_apps apps edge facts = Ok tt /\
  exists own routes hss, own_routes edge facts own /\
    Forall2 (safe_route edge (ef_upstreams facts)) routes hss /\ NoDup (mjoin hss).
Proof.
  assert (validate_apps apps edge facts = Ok tt) as Hv by (vm_compute; reflexivity). split; [exact Hv|].
  pose proof (accepted_config_is_safe apps edge facts Hv) as Hsafe.
  destruct Hsafe as (_ & _ & _ & _ & _ & own & routes & _ & hss & _ & _ & _ & _ & _ & _ & _ & _ & _ & _ & _ & _ & _ & _ & _ & Hown & Hall & Hn).
  exists own, routes, hss. split; [exact Hown|]. split; [exact Hall|exact Hn].
Defined.

Lemma from_env_bounds_witness : from_env edge_env = Ok edge /\ 5 <= assertion_ttl edge <= 600.
Proof.
  split; [exact edge_read|]. destruct (from_env_bounds edge_env edge edge_read) as (_ & Ht & _). exact Ht.
Defined.

(** ** Assertions *)

Definition visit : AssertRequest := {|
  ar_client := Some "127.0.0.1"; ar_host := Some "Shop.customer.example:443"; ar_sni := Some "shop.customer.example";
  ar_request_id := Some "r1"; ar_edge_token := None; ar_forwarded_uri := Some "/" |}.
Definition visit_answer : edge_answer :=
  match edge_assert (Some edge) visit ready with Ok a => a | Err _ => status_only 500 end.
Definition visit_token : string := default "" (ea_assertion visit_answer).

Lemma visit_answered : edge_assert (Some edge) visit ready = Ok visit_answer.
Proof. vm_compute. reflexivity. Qed.
Lemma visit_asserted : ea_assertion visit_answer = Some visit_token.
Proof. vm_compute. reflexivity. Qed.

Lemma asserted_requests_witness :
  edge_assert (Some edge) visit ready = Ok visit_answer /\ ea_status visit_answer = 200 /\
  exists hostname id d key_id key, admitted edge visit ready hostname id d key_id key visit_token.
Proof.
  split; [exact visit_answered|].
  destruct (asserted_requests (Some edge) visit ready visit_answer visit_token visit_answered visit_asserted)
    as (st & hostname & id & d & key_id & key & Hst & H200 & Had & _).
  injection Hst as <-. split; [exact H200|]. exists hostname, id, d, key_id, key. exact Had.
Defined.

(** The origin's view of that request, a minute later. *)
Definition origin_keys : list (string * string) := [("2", edge_secret)].
Definition arrival : Z := Z.quot (db_clock ready) 1000000 + 60.

Definition no_assertion : Assertion :=
  {| as_application_id := ""; as_domain_id := ""; as_reference := ""; as_hostname := ""; as_issued_at := 0;
     as_expires_at := 0; as_request_id := ""; as_key_id := "" |}.
Definition seen_assertion : Assertion :=
  match Assertion.verify (Some visit_token) origin_keys None (Some shop) arrival DEFAULT_SKEW with
  | Ok a => a | Err _ => no_assertion end.

Lemma accepted_is_authentic_witness :
  Assertion.verify (Some visit_token) origin_keys None (Some shop) arrival DEFAULT_SKEW = Ok seen_assertion /\
  as_hostname seen_assertion = shop /\ sget (as_key_id seen_assertion) origin_keys = Some edge_secret.
Proof.
  assert (Assertion.verify (Some visit_token) origin_keys None (Some shop) arrival DEFAULT_SKEW = Ok seen_assertion)
    as Hv by (vm_compute; reflexivity). split; [exact Hv|].
  destruct (accepted_is_authentic (Some visit_token) origin_keys None (Some shop) arrival DEFAULT_SKEW seen_assertion Hv)
    as (_ & _ & _ & key & _ & _ & Hk & _ & _ & _ & _ & _ & Hh).
  split; [exact (Hh shop eq_refl)|]. vm_compute. reflexivity.
Defined.

(** ** Assertion keys *)

Definition issued : res exn (N * string) * Db := issue_key 1 (hours 24) None ready.

Lemma issue_hands_over_witness :
  exists k secret, issued.1 = Ok (k, secret) /\
    signing_key issued.2 1 (db_clock ready) = None /\
    exists row, signing_key issued.2 1 (db_clock ready + hours 24) = Some (k, row) /\ ak_secret row = secret.
Proof.
  assert (exists k secret, issued.1 = Ok (k, secret)) as (k & secret & Hr) by (vm_compute; eauto).
  exists k, secret. split; [exact Hr|]. unfold issued in *.
  pose proof (value_run _ _ _ Hr) as E.
  destruct (issue_hands_over 1 (hours 24) None ready k secret _ E) as (Hbefore & Hafter & _).
  cbn [default] in Hbefore, Hafter. split.
  - rewrite Hbefore; [vm_compute; reflexivity|]. unfold id. split; [lia|]. vm_compute. reflexivity.
  - apply Hafter; [left; vm_compute; reflexivity|unfold id; lia].
Defined.

Definition rotation : list KeyOp :=
  [OpIssue 1 0 None; OpIssue 1 (hours 24) None; OpIssue 1 (hours 48) None; OpIssue 2 0 None].
Lemma ready_few : few ready.
Proof.
  intros a. unfold live_keys. assert (db_assertion_keys ready = ∅) as -> by (vm_compute; reflexivity). rewrite map_to_list_empty. apply Nat.le_0_l.
Qed.
Lemma at_most_two_live_keys_witness :
  few (foldl key_step ready rotation) /\ List.length (live_keys (foldl key_step ready rotation) 1) = 2%nat.
Proof.
  split; [exact (at_most_two_live_keys rotation ready ready_few)|]. vm_compute. reflexivity.
Defined.

(** ** Secrets *)

Lemma decrypt_encrypt_witness :
  exists ciphertext, (encrypt "s3cret" "signer" ready).1 = Ok ciphertext /\ decrypt ciphertext "signer" = Ok "s3cret".
Proof. apply (decrypt_encrypt "s3cret" "signer" ready); [reflexivity|]. vm_compute. eauto. Defined.

(** ** Fetching from an origin *)

(** The first address cannot be reached. *)
Definition wire : Wire := fun call _ =>
  Ok {| wa_status := 200; wa_length := 3; wa_decoded := "abc"; wa_expired := false |}.
Lemma fetch_connects_safely_witness :
  exists r dialled, fetch_token wire "app.acme.example" 443 "https" false WELL_KNOWN_PATH MAX_BODY_BYTES
      "text/plain" Egress.USER_AGENT = (r, dialled) /\
    dialled = ["192.0.2.1"] /\ Forall (fun a => ip_is_global a = true) dialled.
Proof.
  destruct (fetch_token wire "app.acme.example" 443 "https" false WELL_KNOWN_PATH MAX_BODY_BYTES
      "text/plain" Egress.USER_AGENT) as [r dialled] eqn:E.
  exists r, dialled. split; [reflexivity|]. split; [vm_compute in E; congruence|].
  destruct (fetch_connects_safely wire "app.acme.example" 443 "https" false WELL_KNOWN_PATH MAX_BODY_BYTES
      "text/plain" Egress.USER_AGENT r dialled E) as [Hg _]. exact (Hg eq_refl).
Defined.

Lemma pinned_dial_stable_witness :
  least_dial (dial_of 443 <$> ["198.51.100.77"; "192.0.2.1"]) = Some "192.0.2.1:443" /\
  least_dial (dial_of 443 <$> ["192.0.2.1"; "198.51.100.77"]) = Some "192.0.2.1:443".
Proof.
  split; [vm_compute; reflexivity|].
  transitivity (least_dial (dial_of 443 <$> ["198.51.100.77"; "192.0.2.1"])); [|vm_compute; reflexivity].
  apply (pinned_dial_stable 443 ["192.0.2.1"; "198.51.100.77"] ["198.51.100.77"; "192.0.2.1"]).
  - intros a. rewrite !elem_of_cons, elem_of_nil. tauto.
  - intros a. rewrite !elem_of_cons, elem_of_nil. intros [->|[->|[]]]; vm_compute; eauto.
  - intros a b. rewrite !elem_of_cons, !elem_of_nil. intros [->|[->|[]]] [->|[->|[]]]; vm_compute; congruence.
Defined.

(** ** A delivery *)

Definition sample_urlsplit (url : string) : UrlParts := {|
  url_scheme := "https"; url_hostname := Some "hooks.acme.example"; url_username := None; url_password := None;
  url_port := Some None; url_path := "/events"; url_query := "" |}.
(** Domain 5 is registered and deleted while subscription 4 listens. *)
Definition hook_history : list Op :=
  (setup_history ++ [OpSubscribe sample_urlsplit 1 "https://hooks.acme.example/events" ["domain.deleted"] false;
                     OpClaim 1 "Shop.Customer.Example." "ws1" None None; OpDelete 1 5 None])%list.
Definition hooked : Db := exec hook_history (empty_db T0).

Definition no_delivery : WebhookDelivery :=
  {| del_subscription_id := 0; del_application_id := 0; del_event_id := 0; del_event_type := ""; del_domain_id := None;
     del_payload := JNull; del_attempts := 0; del_next_attempt_at := None; del_delivered_at := None;
     del_abandoned_at := None; del_last_attempt_at := None; del_last_status := None; del_last_error := None;
     del_created_at := 0 |}.
Definition queued : WebhookDelivery := default no_delivery (db_deliveries hooked !! 12%N).
Definition hook : WebhookSubscription := default
  {| sub_application_id := 0; sub_url := ""; sub_events := []; sub_secret := ""; sub_previous_secret := None;
     sub_previous_secret_expires_at := None; sub_revoked_at := None; sub_created_at := 0; sub_updated_at := 0 |}
  (active_subscription hooked 4).

Lemma queued_row : db_deliveries hooked !! 12%N = Some queued.
Proof. vm_compute. reflexivity. Qed.
Lemma hook_row : active_subscription hooked (del_subscription_id queued) = Some hook.
Proof. vm_compute. reflexivity. Qed.

(** Nobody answers, once a day. *)
Definition silence (day : Z) : Attempt :=
  {| at_gaps := quiet; at_sender := fun _ => Err ("TimeoutError", "timed out"); at_now := T0 + hours 1 + days day |}.
Definition silences (n : nat) : list Attempt := silence <$> (Z.of_nat <$> seq 0 n).

Lemma silence_spares k day : spares k (at_gaps (silence day)).
Proof. split; reflexivity. Qed.

Lemma attempts_are_bounded_witness :
  attempts_left queued = 8 /\
  Z.of_nat (List.length (List.filter made (run_attempts 12 (silences 12) hooked).1)) <= 8.
Proof.
  split; [vm_compute; reflexivity|].
  transitivity (attempts_left queued); [|vm_compute; discriminate].
  apply attempts_are_bounded; [|exact queued_row|split; [vm_compute; discriminate|intros _; vm_compute; reflexivity]].
  apply Forall_fmap, Forall_true. intros day. exact (silence_spares 12 day).
Defined.

Lemma unanswered_is_given_up_witness :
  (run_attempts 12 (silences 8) hooked).1 = (replicate 7 (Ok RETRY) ++ [Ok ABANDONED])%list.
Proof.
  refine (proj1 (unanswered_is_given_up 12 (silences 8) hooked queued (T0 + 3) hook eq_refl _ _ queued_row
                   eq_refl eq_refl eq_refl hook_row)).
  - apply Forall_fmap, Forall_true. intros day. split; [apply silence_spares|]. split; [split; reflexivity|done].
  - cbn. repeat split; vm_compute; discriminate.
Defined.

(** A document printed without loss. *)
Ltac plain := repeat first
  [ exact I | reflexivity
  | apply printable_arr; repeat (apply Forall_cons; split); try apply Forall_nil
  | apply printable_obj; split; [apply (bool_decide_unpack _); vm_compute; exact I|];
    repeat (apply Forall_cons; split); try apply Forall_nil; cbn [fst snd]; try (split; [reflexivity|]) ].

Lemma sent_request_verifies_witness :
  let r := attempt_request 12 queued hook (T0 + hours 1) in
  rq_url r = "https://hooks.acme.example/events" /\
  Signature.verify (sget HEADER (rq_headers r)) (rq_body r) ["whsec_t3"] (Z.quot (T0 + hours 1) 1000000) 300
    = Ok (Z.quot (T0 + hours 1) 1000000).
Proof.
  intros r. split; [vm_compute; reflexivity|].
  assert (printable (del_payload queued)) as Hp.
  { match goal with |- printable ?p => let p' := eval vm_compute in p in change (printable p') end. plain. }
  assert (0 <= 300) as Ht by lia.
  destruct (sent_request_verifies 12 queued hook (T0 + hours 1) "whsec_t3" 300 Hp Ht (or_introl eq_refl)) as (_ & Hv & _).
  exact Hv.
Defined.

Lemma only_public_addresses_witness :
  exists call, http_call sample_urlsplit (attempt_request 12 queued hook (T0 + hours 1)) = Ok call /\
    pc_tls_name call = Some "hooks.acme.example" /\ ip_is_global (pc_address call) = true.
Proof.
  destruct (http_call sample_urlsplit (attempt_request 12 queued hook (T0 + hours 1))) as [call|] eqn:E;
    [|vm_compute in E; discriminate E].
  exists call. split; [reflexivity|].
  destruct (only_public_addresses sample_urlsplit _ call E) as (_ & host & Hh & _ & Ha).
  destruct (Ha eq_refl) as [Ht Hg]. split; [|exact Hg]. rewrite Ht. symmetry. exact Hh.
Defined.
