(* ===== verification/SurfaceDemo.v ===== *)
(** * Sample requests

    A running server over the states of Demo.v, the requests, links and runs of the
    reconciler served on it, and the witnesses of the properties of the HTTP surface,
    the throttles, Domain Connect, the reconciler, the portal and the doctor;
    then commands and the local verification mode. *)

From Stdlib Require Import Ascii String ZArith Lia Sorted.
From stdpp Require Import base gmap strings list sets sorting.
From S2P Require Import Prelude PyStr Datetime Json JsonText Errors External Models Url SecretBox Signing.
From S2P Require Import Idempotency Throttle PortalAuth Hostname EdgeSettings Egress Dns DnsSetup Sample.
From S2P Require Import Schemas Webhooks Limits Domains DomainInv ConnectFlow ConnectSessions.
From S2P Require Import DnsChecks DnsSettings EdgeChecks Applications Deps Api EdgeConfig Traffic Operator.
From S2P Require Import Doctor Presenters Reconcile Portal Internal Gateway Worker Cli Frames Lifecycle Surface.
From S2P Require Import GatewayAccepts ReconcileProps Demo EdgeDemo.
Open Scope string_scope.
Open Scope Z_scope.

(** No local signing keys. *)
#[export] Instance no_keys : PrivateKeys := {
  PrivateKey := unit; load_der_private_key := fun _ => None; rsa_key_size := fun _ => None;
  rsa_sign := fun _ text => text; public_der := fun _ => ""
}.
Definition split_sample (url : string) : option UrlSplit := Some {|
  us_scheme := "https"; us_netloc := "app.acme.example"; us_path := "/"; us_query := ""; us_fragment := "";
  us_hostname := Some "app.acme.example"; us_username := None; us_password := None; us_port := None |}.
Definition no_signing (url query : string) (body : json) : SignerOutcome := SignerUnreachable.
Definition portal_sample : PortalSettings :=
  portal_from_env (fun name => if String.eqb name "PORTAL_PASSWORD" then Some "correct horse battery" else None) "random".
Definition server_of (s : Db) : Server := {|
  srv_db := s; srv_auth_limiter := None; srv_rate_limiter := None; srv_edge_settings := Some edge;
  srv_operator_token := Some "operator-token-of-thirty-two-chars"; srv_operator_limiter := None;
  srv_portal := portal_sample; srv_logins := login_limiter; srv_monotonic := 0 |}.

(** ** The v1 API *)

(** Application 1 has a credential that may do anything and one that reads. *)
Definition credentials_history : list Op :=
  (ready_history ++ [OpIssueCredential 1 "ci" None "full"; OpIssueCredential 1 "monitor" None "read"])%list.
Definition with_credentials : Db := exec credentials_history (empty_db T0).

Definition call_as (secret method : string) : Deps.Request := {|
  rq_method := method; rq_peer := Some "2001:db8::9"; rq_forwarded := ""; rq_credentials := Some ("Bearer", secret) |}.

Lemma request_is_authorized_witness :
  exists w', current_application (call_as "cd_t17" "POST") (server_of with_credentials) = (Ok 1%N, w') /\
    client_wait (counted_client (server_of with_credentials) (call_as "cd_t17" "POST")) (server_of with_credentials)
    = (Ok 0, server_of with_credentials).
Proof.
  destruct (current_application (call_as "cd_t17" "POST") (server_of with_credentials)) as [r w'] eqn:E.
  assert (r = Ok 1%N) as -> by (apply (f_equal fst) in E; vm_compute in E; congruence).
  exists w'. split; [reflexivity|]. exact (proj1 (request_is_authorized _ _ _ _ E)).
Defined.

(** The credential that reads tries to delete the domain. *)
Lemma read_only_requests_change_nothing_witness :
  let r := v1_request sample_urlsplit split_sample no_signing id (call_as "cd_t19" "DELETE") (DeleteDomain 3)
             (server_of with_credentials) in
  r.1 = Err (ServiceError CredentialReadOnly [("scope", JStr "read"); ("method", JStr "DELETE")]) /\
  only_used with_credentials (srv_db r.2).
Proof.
  intros r. split; [vm_compute; reflexivity|].
  apply (read_only_requests_change_nothing sample_urlsplit split_sample no_signing id (call_as "cd_t19" "DELETE")
           (DeleteDomain 3) (server_of with_credentials) "Bearer" "cd_t19" eq_refl eq_refl).
  intros k c Hk Hh. assert (c ∈ (map_to_list (db_credentials with_credentials)).*2) as Hin.
  { apply list_elem_of_fmap. exists (k, c). split; [done|]. by apply elem_of_map_to_list. }
  revert Hh. cut (Forall (fun c => cred_key_hash c = hash_secret "cd_t19" -> cred_scope c <> FULL)
                    (map_to_list (db_credentials with_credentials)).*2).
  { intros Hall. by apply (proj1 (Forall_forall _ _) Hall). }
  clear. vm_compute. repeat first [apply List.Forall_nil | apply List.Forall_cons]; intros Hh Hf; discriminate.
Defined.

(** The second application asks for a set-up page of the first one's domain. *)
Definition foreign_credential : Db :=
  exec (ready_history ++ [OpIssueCredential 2 "ci" None "full"])%list (empty_db T0).
Definition setup_page_call : V1Call :=
  CreateConnectSession 3 {| csr_ttl_seconds := Some 600; csr_app_name := Some "Globex"; csr_return_url := None |}.

Lemma tenants_are_isolated_witness :
  let w := server_of foreign_credential in
  (v1_request sample_urlsplit split_sample no_signing id (call_as "cd_t17" "POST") setup_page_call w).1
    = Err (ServiceError DomainNotFound []) /\
  is_Some (db_domains (srv_db w) !! 3%N).
Proof.
  intros w. split; [|vm_compute; eauto].
  destruct (current_application (call_as "cd_t17" "POST") w) as [r w1] eqn:E.
  assert (r = Ok 2%N) as -> by (apply (f_equal fst) in E; vm_compute in E; congruence).
  assert (db_domains (srv_db w1) = db_domains foreign_credential) as Ed
    by (apply (f_equal snd) in E; cbn [snd] in E; subst w1; vm_compute; reflexivity).
  refine (f_equal fst (proj1 (tenants_are_isolated sample_urlsplit split_sample no_signing id
    (call_as "cd_t17" "POST") setup_page_call 3 w 2 w1 eq_refl eq_refl E _))).
  intros d Hd. rewrite Ed in Hd.
  assert ((dom_application_id <$> db_domains foreign_credential !! 3%N) = Some 1%N) as Ha by (vm_compute; reflexivity).
  rewrite Hd in Ha. cbn in Ha. injection Ha as ->. discriminate.
Defined.

(** ** Idempotency *)

Definition new_shop : DomainCreate := {| dc_hostname := "www.shop.example"; dc_reference := "ws9"; dc_metadata := None |}.
Definition first_create : res exn ApiAnswer * Db := create_domain 1 new_shop (Some "retry-1") ready.
Definition first_answer : ApiAnswer :=
  match first_create.1 with Ok a => a | Err _ => answered 500 JNull end.

Lemma create_is_idempotent_witness :
  api_status first_answer = 201 /\
  exists body, create_domain 1 new_shop (Some "retry-1") first_create.2
    = (Ok {| api_status := 200; api_replayed := true; api_reconcile := false; api_body := body |}, first_create.2).
Proof.
  assert (create_domain 1 new_shop (Some "retry-1") ready = (Ok first_answer, first_create.2)) as E.
  { apply value_run. vm_compute. reflexivity. }
  destruct (create_is_idempotent 1 new_shop "retry-1" ready first_answer first_create.2 E)
    as (H201 & id & Hbody & Hid & Hagain); [discriminate|vm_compute; reflexivity|].
  split; [exact H201|]. exists (api_body first_answer).
  assert (id = 17%N) as -> by (vm_compute in Hid; congruence).
  assert (exists d, db_domains first_create.2 !! 17%N = Some d /\ dom_application_id d = 1%N) as Hd.
  { exists (default (new_domain 0 "" "" None 0) (db_domains first_create.2 !! 17%N)). split; vm_compute; reflexivity. }
  assert (is_Some (db_applications first_create.2 !! 1%N)) as Ha by (vm_compute; eauto).
  assert (db_clock first_create.2 < db_clock ready + IDEMPOTENCY_TTL) as Hc by (vm_compute; reflexivity).
  pose proof (proj1 (Hagain first_create.2 eq_refl Hd Ha Hc)) as Hr. rewrite Hbody in Hr. exact Hr.
Defined.

(** ** The operator API *)

Definition guarded_edge : EdgeSettings := ltac:(
  let r := eval vm_compute in (from_env (fun name =>
    if String.eqb name "OPERATOR_ALLOWED_IPS" then Some "2001:db8::9/128" else edge_env name)) in
  match r with Ok ?s => exact s end).
Definition operated : Server := (server_of ready) <| srv_edge_settings := Some guarded_edge |>.
Definition new_application : OperatorCall :=
  CreateApplication {| ac_slug := "initech"; ac_name := "Initech"; ac_cname_target := None |}.

Lemma operator_gate_required_witness :
  let rq := call_as "operator-token-of-thirty-two-chars" "POST" in
  srv_db (operator_request split_sample wire rq new_application operated).2 <> ready /\
  Operator.admitted rq operated /\ operator_call_ok new_application = true.
Proof.
  intros rq.
  assert (srv_db (operator_request split_sample wire rq new_application operated).2 <> ready) as Hne.
  { intros E. apply (f_equal db_next) in E. vm_compute in E. discriminate E. }
  split; [exact Hne|]. exact (operator_gate_required split_sample wire rq new_application operated Hne).
Defined.

(** ** The portal *)

(** An admin API behind the gateway, with a configuration running. *)
#[export] Instance sample_admin : AdminApi := gateway_admin edge (Some facts) (fun _ => 200) None.
Definition caddy_up : GatewayWorld := {| gw_apps := Some (JObj [("http", JObj [])]); gw_up := true |}.

Definition browser (cookie : option string) : PortalRequest := {|
  pr_request := {| rq_method := "POST"; rq_peer := Some "testclient"; rq_forwarded := ""; rq_credentials := None |};
  pr_scheme := "https"; pr_forwarded_proto := ""; pr_path := "/portal"; pr_cookie := cookie |}.
Definition portal_cookie : string := (issue_session portal_sample "csrf-1" (unix_now (server_of ready))).1.
Definition rename_form : PortalForm := FormRename "acme" "Acme Ltd".

Lemma portal_form_authorized_witness :
  let rq := browser (Some portal_cookie) in
  let w := server_of ready in
  srv_db (portal_form sample_urlsplit split_sample wire rq "csrf-1" rename_form w).2 <> srv_db w /\
  exists data, signed_in rq w data /\ dget "csrf" data = Some (JStr "csrf-1").
Proof.
  intros rq w.
  assert (srv_db (portal_form sample_urlsplit split_sample wire rq "csrf-1" rename_form w).2 <> srv_db w) as Hne.
  { intros E. apply (f_equal (fun s => app_name <$> db_applications s !! 1%N)) in E. vm_compute in E. discriminate E. }
  split; [exact Hne|].
  destruct (portal_form_authorized (Admin := sample_admin) sample_urlsplit split_sample wire (fun _ => None) "worker-1" true
    caddy_up rq "csrf-1" rename_form w) as (data & Hin & _ & Hc); [left; exact Hne|].
  exists data. split; assumption.
Defined.

(** A limit that is not a number changes nothing; the reconcile form without its token is
    refused. *)
Lemma refused_form_changes_nothing_witness :
  let rq := browser (Some portal_cookie) in
  let r := portal_form sample_urlsplit split_sample wire rq "csrf-1" (FormDomainLimit "acme" "many") (server_of ready) in
  let q := reconcile_form (Admin := sample_admin) (fun _ => None) "worker-1" true caddy_up rq "csrf-2" (server_of ready) in
  r.1 = Ok (PageShown "app_settings.html" 400 []) /\ srv_db r.2 = srv_db (server_of ready) /\
  q.1 = Ok (CsrfRefused, caddy_up) /\ q.2 = server_of ready.
Proof.
  intros rq r q. assert (r = (Ok (PageShown "app_settings.html" 400 []), r.2)) as E.
  { apply value_run. vm_compute. reflexivity. }
  assert (q = (Ok (CsrfRefused, caddy_up), q.2)) as Eq.
  { apply value_run. vm_compute. reflexivity. }
  destruct (refused_form_changes_nothing (Admin := sample_admin) sample_urlsplit split_sample wire (fun _ => None) "worker-1" true
    caddy_up rq "csrf-1" (FormDomainLimit "acme" "many") (server_of ready)) as [Hform _].
  destruct (refused_form_changes_nothing (Admin := sample_admin) sample_urlsplit split_sample wire (fun _ => None) "worker-1" true
    caddy_up rq "csrf-2" (FormDomainLimit "acme" "many") (server_of ready)) as [_ Hrec].
  split; [exact (f_equal fst E)|]. split; [|split; [exact (f_equal fst Eq)|]].
  - destruct (proj1 (Hform _ r.2 E) eq_refl) as [Hs|(slug & k & activate & Hf & _)]; [exact Hs|discriminate Hf].
  - destruct (Hrec _ _ q.2 Eq eq_refl) as [[Hs _]|(st & res & Hp & _)]; [exact Hs|discriminate Hp].
Defined.

(** Five wrong passwords in a row, and the right one at once: refused.  On a fresh process
    the right one signs in. *)
Definition guess (w : Server) : Server := (login (browser None) "not the password" "/portal" w).2.
Definition guessed (n : nat) : Server := Nat.iter n guess (server_of ready).
Definition guesses (n : nat) : list (option string * Z * PortalAnswer) :=
  repeat (Some "testclient", db_clock ready, LoginPage 401 "/portal") n.

Lemma login_signs_in_witness :
  (login (browser None) "correct horse battery" "/portal/edge" (guessed 5)).1 = Ok (LoginPage 429 "/portal/edge") /\
  exists cookie w', login (browser None) "correct horse battery" "/portal/edge" (server_of ready)
      = (Ok (SignedIn "/portal/edge" cookie true), w') /\
    exists data, read_session portal_sample (Some cookie) (unix_now (server_of ready) + 12 * 3600) = Ok (Some data).
Proof.
  assert (signing (guesses 5) (guessed 5)) as Hs.
  { assert (signing [] (guessed 0)) as Hs by (apply signing_start; reflexivity).
    assert (forall n, (login (browser None) "not the password" "/portal" (guessed n)).1 = Ok (LoginPage 401 "/portal") ->
      portal_address (srv_edge_settings (guessed n)) (browser None) = Some "testclient" ->
      db_clock (srv_db (guessed n)) = db_clock ready ->
      signing (guesses n) (guessed n) -> signing (guesses (S n)) (guessed (S n))) as Hstep.
    { intros n Hl Ha Hc Hn. unfold guesses.
      replace (repeat (Some "testclient", db_clock ready, LoginPage 401 "/portal") (S n))
        with (guesses n ++ [(portal_address (srv_edge_settings (guessed n)) (browser None),
                             db_clock (srv_db (guessed n)), LoginPage 401 "/portal")])%list
        by (rewrite Ha, Hc; unfold guesses; rewrite <- repeat_cons; reflexivity).
      eapply signing_login; [exact Hn|]. apply value_run, Hl. }
    do 5 (apply Hstep; [vm_compute; reflexivity|vm_compute; reflexivity|vm_compute; reflexivity|]). exact Hs. }
  split.
  - refine (proj1 (proj2 (login_signs_in _ _ (browser None) "correct horse battery" "/portal/edge" Hs) "testclient" _ _) _);
      [vm_compute; reflexivity|vm_compute; reflexivity|vm_compute; discriminate].
  - destruct (proj2 (proj2 (proj2 (login_signs_in [] (server_of ready) (browser None) "correct horse battery" "/portal/edge"
      ltac:(apply signing_start; reflexivity)) "testclient" ltac:(vm_compute; reflexivity) ltac:(vm_compute; reflexivity)))
      ltac:(vm_compute; reflexivity) ltac:(vm_compute; reflexivity)) as (location & cookie & w' & Hl & _ & _ & Hc).
    assert (location = "/portal/edge") as ->.
    { apply (f_equal fst) in Hl. vm_compute in Hl. congruence. }
    exists cookie, w'. split; [exact Hl|]. apply Hc; [vm_compute; reflexivity|apply Z.le_refl].
Defined.

(** *** Setting up and reporting *)

Definition named (name : string) : res string (list string) := Ok ["2001:db8::1"].
Definition as_edge (target address : string) : ProbeReply := ProbeAnswer 204 (Some EDGE_HEALTH_VALUE).
Definition acme : Application :=
  ltac:(let r := eval vm_compute in (db_applications with_credentials !! 1%N) in match r with Some ?a => exact a end).

Lemma setup_complete_witness :
  exists steps cache, overview_steps named as_edge (Some edge) ∅ 0 true with_credentials (1%N, acme) = Ok (steps, cache) /\
    List.length steps = 6%nat /\ is_Some (serving_origin with_credentials 1) /\
    exists id d, db_domains with_credentials !! id = Some d /\ dom_status d = READY.
Proof.
  pose (out := overview_steps named as_edge (Some edge) ∅ 0 true with_credentials (1%N, acme)).
  pose (steps := match out with Ok (l, _) => l | Err _ => [] end).
  pose (cache := match out with Ok (_, c) => c | Err _ => ∅ end).
  assert (out = Ok (steps, cache)) as E by (vm_compute; reflexivity).
  assert (Forall (fun st => step_done st = true) steps) as Hall.
  { vm_compute. repeat (apply List.Forall_cons; [reflexivity|]). apply List.Forall_nil. }
  destruct (setup_complete named as_edge edge ∅ 0 with_credentials 1 acme steps cache E Hall)
    as (Ho & _ & (id & d & Hd & _ & Hst) & _).
  exists steps, cache. split; [exact E|]. split; [vm_compute; reflexivity|]. split; [exact Ho|]. exists id, d. split; assumption.
Defined.

(** Only the first application, a reconciler that just ran, and settings a careful
    operator would choose. *)
Definition sole : Db := (acquire_reconcile_lock "worker" (with_credentials <| db_applications ::= delete 2%N |>)).2.
Definition careful_env (name : string) : option string :=
  sget name [("ENABLE_LEGACY_API", "false"); ("EDGE_ASSERTION_KEYS", "2:" ++ edge_secret); ("EDGE_HOSTNAME", "edge.acme.example"); ("PORTAL_PASSWORD", "correct horse battery");
             ("EDGE_TOKEN", "edge-token-of-at-least-thirty-two-chars"); ("ACME_EMAIL", "ops@acme.com")].
Definition careful : EdgeSettings :=
  ltac:(let r := eval vm_compute in (from_env careful_env) in match r with Ok ?s => exact s end).
Definition report : res exn (list Finding) :=
  run_doctor (fun _ => Ok 200) (fun _ => Ok (default JNull (build_apps sole careful))) named as_edge
    (Revisions ["r1"] ["r1"]) sole careful_env careful false "" (db_clock sole).

Definition reported : list Finding := match report with Ok l => l | Err _ => [] end.

Lemma clean_report_means_witness :
  report = Ok reported /\ clean_report reported /\
  exists name, es_edge_hostname careful = Some name /\ reaches named as_edge name.
Proof.
  assert (report = Ok reported) as E by (vm_compute; reflexivity).
  assert (clean_report reported) as Hc.
  { vm_compute. repeat (apply List.Forall_cons; [reflexivity|]). apply List.Forall_nil. }
  split; [exact E|]. split; [exact Hc|].
  unfold report in E. exact (proj1 (proj2 (proj2 (clean_report_means _ _ _ _ _ _ _ _ _ _ _ _ E Hc)))).
Defined.

(** The certificate check of the ready domain says something only operators should read. *)
Definition spoken : gmap (N * CheckType) DomainCheck :=
  alter (fun c => c <| check_message := Some "upstream 10.0.0.5 refused" |>) (3%N, CERTIFICATE) (db_checks ready).
Definition ready_row : Domain :=
  ltac:(let r := eval vm_compute in (db_domains ready !! 3%N) in match r with Some ?d => exact d end).

Lemma customer_sees_no_operator_words_witness :
  check_message <$> domain_check (ready <| db_checks := spoken |>) 3 CERTIFICATE <> check_message <$> domain_check ready 3 CERTIFICATE /\
  connect_page_view (ready <| db_checks := spoken |>) 3 ready_row = connect_page_view ready 3 ready_row.
Proof.
  split; [intros E; vm_compute in E; discriminate E|].
  apply (customer_sees_no_operator_words ready spoken 3 ready_row). intros []; vm_compute; repeat split.
Defined.

(** ** A link to the setup page *)

Definition link_token : string := "0123456789-0123456789_0123456789-0123456789".
Definition link_row : ConnectSession := {|
  cs_application_id := 1; cs_domain_id := 3; cs_token_hash := hash_token link_token; cs_expires_at := T0 + hours 24;
  cs_revoked_at := None; cs_app_name := Some "Acme"; cs_return_url := None; cs_created_at := T0; cs_updated_at := T0 |}.
Definition linked : Db := (ready : Db) <| db_connect_sessions := {[ 40%N := link_row ]} |>.

Lemma open_session_exactly_witness :
  hashes_unique linked /\ open_session linked link_token None = Some (opened 40 link_row) /\
  db_connect_sessions linked !! 40%N = Some link_row.
Proof.
  assert (hashes_unique linked) as Hu.
  { intros k1 k2 r1 r2 H1 H2 _.
    apply (lookup_singleton_Some 40%N k1 link_row r1) in H1 as [<- _].
    by apply (lookup_singleton_Some 40%N k2 link_row r2) in H2 as [<- _]. }
  split; [exact Hu|].
  assert (open_session linked link_token None = Some (opened 40 link_row)) as Ho by (vm_compute; reflexivity).
  split; [exact Ho|].
  destruct (proj1 (open_session_exactly linked link_token None (opened 40 link_row) Hu) Ho)
    as (_ & k & r & d & a & Hk & _ & _ & _ & _ & _ & _ & _ & _ & _ & E).
  assert (k = 40%N) as -> by (unfold opened in E; congruence).
  rewrite Hk. by apply (lookup_singleton_Some 40%N 40%N link_row r) in Hk as [_ <-].
Defined.

(** ** Throttles *)

(** Two failures of one address within a minute, where two are allowed. *)
Definition strict : FailedAuthLimiter := {|
  fl_max_failures := 2; fl_window := Throttle.WINDOW; fl_max_tracked := 10; fl_failures := [] |}.
Definition stranger : list (string * Z) := [("203.0.113.9", 1)].
Definition failed_twice : list (list (string * Z) * Z) := [(stranger, 0); (stranger, 1000000)].

Lemma failure_budget_exact_witness :
  retry_after (record_all strict failed_twice) stranger 59000000 <> 0 /\
  retry_after (record_all strict failed_twice) stranger 61000000 = 0.
Proof.
  split; [vm_compute; discriminate|].
  refine (proj2 (failure_budget_exact strict failed_twice stranger 61000000 (fun _ => 1)
                   eq_refl eq_refl eq_refl _ _ _ _ _) _).
  - repeat constructor; cbn; lia.
  - repeat constructor; cbn; lia.
  - intros k. lia.
  - repeat constructor.
  - vm_compute. repeat constructor.
  - intros b Hb. apply list_elem_of_singleton in Hb as ->. vm_compute. reflexivity.
Defined.

(** ** A reconcile run through the gateway *)

(** Caddy runs another configuration and accepts any; it answers no metrics. *)
Lemma reconcile_through_gateway_witness :
  exists r s' w',
    @run_reconcile _ (gateway_admin edge (Some facts) (fun _ => 200) None) (fun _ => None) edge "worker-1" true ready caddy_up
      = (Ok r, s', w') /\ rr_error r = None /\ core_frame ready s'.
Proof.
  pose proof ready_hosts_agree as Hag. pose proof apps_built as Ha. pose proof body_answered as Hb.
  rewrite ready_run in Hag, Ha, Hb.
  assert (printable apps) as Hp.
  { match goal with |- printable ?p => let p' := eval vm_compute in p in change (printable p') end. plain. }
  destruct (reconcile_through_gateway ready_history T0 edge (Some "127.0.0.1") None apps body facts (fun _ => 200) None
              (fun _ => None) "worker-1" caddy_up Hag Ha Hp Hb facts_read eq_refl (ex_intro _ _ eq_refl) eq_refl)
    as (r & s' & w' & Hr & He & _ & Hc).
  exists r, s', w'. rewrite ready_run. split; [exact Hr|]. split; [exact He|exact Hc].
Defined.

(** ** A Domain Connect link *)

Definition template : string := "acme.example/custom-domain".
Definition signer_credential : string := "dcs_" ++ "0123456789-0123456789_0123456789-0123456789".
Definition connectable : Db := exec (claim_history ++
  [OpSetSigner split_sample "https://sign.example/v1" signer_credential "acme.example" "custom-domain" None;
   OpStoreZone {| lookup_zone := "customer.example"; lookup_nameservers := ["ns1.dns.example"];
                  lookup_error_code := None; lookup_message := None |}
     {| disc_settings := Some [("url_sync_ux", "https://connect.dns.example")]; disc_template_supported := Some true;
        disc_error_code := None; disc_message := None; disc_transient := false |} (Some template) T0;
   OpDns 3 1 claimed nothing_published PENDING_DNS (Some "customer.example") false])%list (empty_db T0).

Definition return_page : string := "https://edge.acme.example/v1/domain-connect/return".
Definition prepared : res exn PreparedLink * Db :=
  prepare_connect split_sample 1 3 (Some "https://app.acme.example/done") (Some "s1") (Some return_page) true None connectable.
Lemma sealed_state_returns_witness :
  exists p sealed first, prepared.1 = Ok p /\
    parse_query (pl_query p) = (first ++ [("redirect_uri", return_page); ("state", sealed)])%list /\
    opens sealed 3 (db_clock connectable + URL_TTL) (Some "https://app.acme.example/done") (Some "s1").
Proof.
  assert (exists p, prepared.1 = Ok p) as [p Hp] by (vm_compute; eauto).
  pose proof (value_run _ _ _ Hp) as Hr.
  destruct (sealed_state_returns split_sample 1 3 (Some "https://app.acme.example/done") (Some "s1") return_page true None
              connectable p prepared.2) as (sealed & first & Hq & _ & Ho).
  - vm_compute. reflexivity.
  - discriminate.
  - reflexivity.
  - vm_compute. reflexivity.
  - vm_compute. reflexivity.
  - vm_compute. reflexivity.
  - exact Hr.
  - exists p, sealed, first. split; [exact Hp|]. split; [exact Hq|exact Ho].
Defined.

(** ** The whole service *)

(** The settings of an empty environment but for the local mode and a local edge. *)
Definition local_env (name : string) : option string :=
  if String.eqb name "DNS_VERIFICATION_MODE" then Some " Local " else None.
Definition local_dns : DnsSettings.DnsSettings :=
  ltac:(let r := eval vm_compute in (DnsSettings_from_env local_env) in
        match r with Ok ?s => exact s end).
Definition idle : Gaps := history_gaps [] [] [] [].
Definition shell : Shell := {|
  sh_settings := Ok edge; sh_dns := Ok local_dns; sh_wire := wire; sh_system := published; sh_answers := published;
  sh_prober := healthy; sh_zone := fun _ => None; sh_gaps := fun _ => idle; sh_sender := fun _ => Ok (200, "");
  sh_send_gaps := fun _ => send_gaps [] []; sh_database := Revisions ["r1"] ["r1"]; sh_invalid_limit := "";
  sh_families := fun _ => None; sh_holder := "worker-1"; sh_opened := true |}.
Definition served_work : list Work :=
  [Operation (OpCreateApplication "acme" "Acme" edge_target);
   Operation (OpIssueCredential 1 "ci" None "full");
   V1Request [OpClock (T0 + minutes 1)] (call_as "cd_t2" "POST") (CreateDomain new_shop (Some "retry-1"));
   DueChecks (fun _ => {| cg_leased := []; cg_queried := [OpClock (T0 + minutes 2)]; cg_dns := []; cg_probed := [] |})
     published healthy edge_settings (fun _ => None) None 10;
   CommandLine shell (fun _ => {| cg_leased := []; cg_queried := []; cg_dns := []; cg_probed := [] |}) (fun _ => ([], []))
     (fun w => w) (caddy_up : @World sample_admin) (CmdRename "acme" "Acme Inc");
   ReconcileRun (fun _ => None) edge "worker-1" true (caddy_up : @World sample_admin)].
Definition parse_sample (url : string) : option string * option Z := (Some "localhost", Some 2019).
Lemma service_keeps_invariant_witness :
  let w := serve sample_urlsplit split_sample parse_sample (fun _ => Ok 200) (fun _ => Ok JNull) named as_edge no_signing served_work (server_of (empty_db T0)) in
  Inv None (srv_db w) /\ size (db_domains (srv_db w)) = 1%nat.
Proof.
  intros w. split; [|vm_compute; reflexivity].
  apply (service_keeps_invariant sample_urlsplit split_sample parse_sample (fun _ => Ok 200) (fun _ => Ok JNull) named as_edge no_signing served_work (server_of (empty_db T0))).
  exact (inv_empty T0).
Defined.

(** ** Local mode *)

Definition local_edge_env (name : string) : option string :=
  sget name [("ENABLE_LEGACY_API", "false"); ("EDGE_ASSERTION_KEYS", "2:" ++ edge_secret); ("EDGE_TLS_ISSUER", "internal")].
Definition local_edge : EdgeSettings :=
  ltac:(let r := eval vm_compute in (from_env local_edge_env) in match r with Ok ?s => exact s end).
Definition shop_claim : OwnershipClaim :=
  ltac:(let r := eval vm_compute in (active_claim claimed 3) in match r with Some (_, ?c) => exact c end).

Lemma verification_mode_exact_witness :
  exists r, make_resolver local_dns local_edge claimed nothing_published = Ok r /\
    passing (ownership_outcome r claimed 3) = true /\ passing (routing_outcome r claimed 3 (shop_row claimed)) = true.
Proof.
  exists (IssuedRecordsResolver claimed). split; [reflexivity|].
  refine (proj2 (proj2 (verification_mode_exact local_dns local_edge claimed nothing_published _ eq_refl)
                   (exec_keeps claim_history _ (inv_empty T0)) eq_refl) 3%N (shop_row claimed) 6%N shop_claim _ _ _ _).
  - exact claimed_row.
  - vm_compute. reflexivity.
  - vm_compute. reflexivity.
  - split; [vm_compute; reflexivity..|vm_compute; discriminate].
Defined.

(** ** Commands *)

Definition run_command (c : Command) : Finish * Db * World :=
  main split_sample parse_sample (fun _ => Ok 200) (fun _ => Ok JNull) SurfaceDemo.named as_edge shell (fun w => w)
    c ready (caddy_up : @World sample_admin).

(** A command for an application nobody created, and the rehearsal of an import that
    leaves a hostname out. *)
Lemma refused_command_changes_nothing_witness :
  let r := run_command (CmdRename "nobody" "Nobody") in
  r.1.1 = Exited (exits 2 [Complaint "application_not_found"]) /\ r.1.2 = ready.
Proof.
  intros r. assert (r.1.1 = Exited (exits 2 [Complaint "application_not_found"])) as E by (vm_compute; reflexivity).
  split; [exact E|].
  refine (proj1 (proj1 (refused_command_changes_nothing split_sample parse_sample (fun _ => Ok 200) (fun _ => Ok JNull)
    SurfaceDemo.named as_edge shell (fun w => w) (CmdRename "nobody" "Nobody") ready caddy_up
    (exits 2 [Complaint "application_not_found"]) r.1.2 r.2 _) eq_refl)).
  rewrite <- E. change (r = (r.1.1, r.1.2, r.2)). destruct r as [[f s] w]. reflexivity.
Defined.
