(* ===== verification/LifecycleProps.v ===== *)
(** * Properties of histories

    What holds after every history of committed operations, and of the worker's
    program as one of them. *)

From Stdlib Require Import Ascii String ZArith Lia.
From stdpp Require Import base gmap strings list sets sorting.
From S2P Require Import Prelude PyStr Datetime Json Errors External Models Hostname Dns DnsSetup.
From S2P Require Import Sample Schemas Webhooks Limits Domains DomainFacts DomainInv ConnectFlow.
From S2P Require Import DnsChecks EdgeChecks Applications Delivery Worker Legacy Frames Lifecycle Stepwise.
From S2P Require Import History Demo.
Open Scope string_scope.
Open Scope Z_scope.

(** ** Purges and the event log *)

Section Ordered.
Context `{External, Deployment}.

Lemma sorted_filter {A} (f : A -> Z) (Q : A -> Prop) `{!forall x, Decision (Q x)} (l : list A) :
  StronglySorted Z.lt (f <$> l) -> StronglySorted Z.lt (f <$> filter Q l).
Proof.
  induction l as [|x l IH]; [done|]. rewrite fmap_cons. intros [Hs Hx]%StronglySorted_inv.
  rewrite filter_cons. case_decide; [|auto]. rewrite fmap_cons. constructor; [auto|].
  rewrite Forall_fmap in Hx |- *.
  rewrite Forall_forall in Hx |- *. intros y [_ Hy]%list_elem_of_filter. by apply Hx.
Qed.

Lemma filter_swap {A} (P Q : A -> Prop) `{!forall x, Decision (P x), !forall x, Decision (Q x)} (l : list A) :
  filter P (filter Q l) = filter Q (filter P l).
Proof. rewrite !list_filter_filter. apply list_filter_iff. tauto. Qed.

Lemma commit_ordered o s : ordered s -> ordered (commit o s).
Proof.
  destruct (purges o) eqn:Hp.
  - destruct o; try discriminate Hp. rewrite commit_purge. intros Ho id. specialize (Ho id).
    unfold events_of in *. rewrite purged_events, filter_swap, (filter_swap _ (fun e => domain_purgeable _ _ _ = _)).
    by apply sorted_filter, sorted_filter.
  - intros Ho. refine (proj2 (sw_commit (fun _ => True) extends_log o s Hp _) Ho). by apply Forall_true.
Qed.
End Ordered.

Section Histories.
Context `{External, Deployment}.

(** C1: after any history of API calls, operator actions, imports, purges and
    worker transactions (with observations as stale as one likes), a hostname has
    one live domain, a domain one live claim, tokens are never shared, stored hostnames
    are canonical, every claim and every check belongs to an existing domain and every
    domain to an existing application, tombstones have a purge time and no live claim,
    and a ready domain has a verified claim and four passing checks. *)
Theorem history_invariant h clock : Inv None (exec h (empty_db clock)).
Proof. apply exec_keeps, inv_empty. Qed.

(** whatever other transactions commit while the workers wait for DNS, the edge or
    a webhook's consumer, running the due checks of a whole batch, and one pass of the
    delivery worker, change the database as some sequence of committed operations does. *)
Theorem worker_is_a_history gaps r prober settings zone now limit leased sent sender n s :
  (exists h, (run_due_checks (fun id => history_gaps (gaps id 0) (gaps id 1) (gaps id 2) (gaps id 3))
                r prober settings zone now limit s).2 = exec h s) /\
  exists h, (run_once (fun k => send_gaps (leased k) (sent k)) sender n s).2 = exec h s.
Proof.
  split; [apply run_batch_after; intros id; by eexists _, _, _, _|].
  apply delivery_run_after. intros k. by eexists _, _.
Qed.

(** C3: a claim that stands as verified by DNS was proved by a check: some DNS
    transaction of the worker, or a check run from the command line, had read, for the
    same claim, token and target, the token in a TXT record at the name given to the
    customer and the target in the CNAME chain of the hostname; what the command line
    read is of the moment of its transaction. *)
Theorem verified_claims_were_proved h clock k c :
  db_claims (exec h (empty_db clock)) !! k = Some c -> verified_by_dns c ->
  exists h1 o h2 id r seen,
    h = (h1 ++ o :: h2)%list /\ dns_check_of o (exec h1 (empty_db clock)) = Some (id, r, seen) /\
    claim_domain_id c = id /\ dns_evidence r seen id k c.
Proof.
  intros Hk Hc. destruct (exec_proof _ _ _ _ Hk Hc) as (h1 & o & h2 & Hh & id & r & seen & Hp). eauto 10.
Qed.

(** until a purge, no operation of anyone removes a domain's row or changes its
    owner, its hostname, its reference or its creation time. *)
Theorem domains_never_change_hands h s id d :
  Forall (fun o => purges o = false) h -> db_domains s !! id = Some d ->
  exists e, db_domains (exec h s) !! id = Some e /\ same_identity d e.
Proof.
  intros Hh. apply (sw_exec (fun _ => True) keeps_identity).
  eapply Forall_impl; [exact Hh|]. intros o Ho. split; [done|]. by apply Forall_true.
Qed.

(** until a purge, the event log only grows at its end. *)
Theorem event_log_append_only h s :
  Forall (fun o => purges o = false) h -> db_events s `prefix_of` db_events (exec h s).
Proof.
  intros Hh. apply (sw_exec (fun _ => True) extends_log).
  eapply Forall_impl; [exact Hh|]. intros o Ho. split; [done|]. by apply Forall_true.
Qed.

(** after any history, purges included, the stamps of every domain's events
    strictly increase in the order they were recorded, however the clocks the
    callers passed in were ordered. *)
Theorem events_in_order h clock id :
  StronglySorted Z.lt (event_created_at <$> events_of (exec h (empty_db clock)) id).
Proof.
  revert id. change (ordered (exec h (empty_db clock))).
  enough (forall s, ordered s -> ordered (exec h s)) as Hs by (apply Hs; intros id; constructor).
  induction h as [|o h IH]; simpl; [done|]. intros s Ho. by apply IH, commit_ordered.
Qed.

(** C2: after any history, a domain is served exactly when its row is live, its
    status is ready and its application is active: the verified claim and the four
    passing checks come with the status.  What is served is always entitled to a
    certificate. *)
Theorem serveable_exactly h clock id d :
  let s := exec h (empty_db clock) in
  db_domains s !! id = Some d ->
  (is_serveable s id d = true <->
   live d = true /\ dom_status d = READY /\ application_active s (dom_application_id d) = true) /\
  (is_serveable s id d = true -> certificate_authorized s id d = true).
Proof.
  intros s Hd. pose proof (exec_keeps h _ (inv_empty clock)) as HI. fold s in HI. clearbody s.
  unfold is_serveable, certificate_authorized, live. split.
  - split.
    + destruct (is_deleted d); [done|]. destruct (bool_decide_reflect (dom_status d = READY)); [|done].
      destruct (application_active _ _); [|done]. auto.
    + intros (Hl & Hr & ->). pose proof (inv_ready _ _ HI id d ltac:(done) Hd Hl Hr) as [Hv Hp].
      rewrite (bool_decide_true _ Hr). apply negb_true_iff in Hl as ->. simpl.
      rewrite (proj2 (claim_verified_true _ s id HI) Hv). simpl. by apply checks_passing_true.
  - destruct (is_deleted d); [done|]. destruct (bool_decide_reflect (dom_status d = READY)) as [->|]; [|done].
    simpl. destruct (application_active _ _); [|done]. simpl.
    by destruct (claim_verified s id).
Qed.

(** after any history, looking a hostname up finds the live row with exactly
    that name, in whatever spelling it is asked for, and there is only one. *)
Theorem live_lookup_exact h clock raw canonical id d :
  let s := exec h (empty_db clock) in
  canonicalize raw = Ok canonical ->
  find_live_by_hostname raw s = (Ok (Some (id, d)), s) <->
  db_domains s !! id = Some d /\ live d = true /\ dom_hostname d = canonical.
Proof.
  intros s Hc. pose proof (exec_keeps h _ (inv_empty clock)) as HI. fold s in HI. clearbody s.
  unfold find_live_by_hostname. rewrite bind_run. unfold lift. rewrite Hc. cbn [gets].
  unfold live_by_hostname. split.
  - intros [= Hf]. apply head_filter_Some in Hf as [Hin Hp].
    apply elem_of_map_to_list in Hin. apply andb_prop in Hp as [Hl Hh%String.eqb_eq]. auto.
  - intros (Hd & Hl & Hh). unfold gets. do 2 f_equal.
    match goal with |- context [hd_error ?l] => destruct (hd_error l) as [[j e]|] eqn:E end.
    + apply head_filter_Some in E as [Hin Hp]. apply elem_of_map_to_list in Hin.
      apply andb_prop in Hp as [Hle Hhe%String.eqb_eq]. simpl in *.
      assert (j = id) as -> by (eapply (inv_hostname _ _ HI); eauto; congruence). congruence.
    + exfalso. refine (head_filter_None _ _ (id, d) E _ _); [by apply elem_of_map_to_list|].
      simpl. by rewrite Hl, Hh, String.eqb_refl.
Qed.
End Histories.

(** ** Witnesses *)

Lemma verified_claims_were_proved_witness :
  exists c, db_claims (exec verify_history (empty_db T0)) !! 6%N = Some c /\
    exists h1 o h2 id r seen,
      verify_history = (h1 ++ o :: h2)%list /\ dns_check_of o (exec h1 (empty_db T0)) = Some (id, r, seen) /\
      claim_domain_id c = id /\ dns_evidence r seen id 6 c.
Proof.
  eexists. split; [vm_compute; reflexivity|].
  eapply (verified_claims_were_proved verify_history T0); [vm_compute; reflexivity|split; reflexivity].
Defined.

Lemma domains_never_change_hands_witness :
  exists e, db_domains (exec [verify_op] claimed) !! 3%N = Some e /\ same_identity (shop_row claimed) e.
Proof.
  apply (domains_never_change_hands [verify_op] claimed 3 (shop_row claimed)); [by constructor|exact claimed_row].
Defined.

Lemma event_log_append_only_witness : db_events claimed `prefix_of` db_events (exec [verify_op] claimed).
Proof. apply event_log_append_only. by constructor. Defined.

Lemma serveable_exactly_witness :
  exists d, db_domains (exec ready_history (empty_db T0)) !! 3%N = Some d /\
    is_serveable (exec ready_history (empty_db T0)) 3 d = true.
Proof.
  eexists. split; [vm_compute; reflexivity|].
  refine (proj2 (proj1 (serveable_exactly ready_history T0 3 _ _)) _).
  - vm_compute. reflexivity.
  - split; [reflexivity|split; [reflexivity|vm_compute; reflexivity]].
Defined.

Lemma live_lookup_exact_witness :
  exists d, find_live_by_hostname "SHOP.customer.example." (exec claim_history (empty_db T0))
            = (Ok (Some (3%N, d)), exec claim_history (empty_db T0)).
Proof.
  eexists. refine (proj2 (live_lookup_exact claim_history T0 _ shop 3 _ _) _).
  - vm_compute. reflexivity.
  - split; [vm_compute; reflexivity|]. split; reflexivity.
Defined.
