(* ===== verification/DomainProps.v ===== *)
(** * Properties of the domain operations (app/services/domains.py)

    First, calls that cannot fail: with the Public Suffix List behaving as documented,
    recording an event of an existing domain always succeeds, and so do the status
    changes, checks and claim updates built on it, under the guards the code states and
    nothing else.  Then what each operation does on every branch. *)

From Stdlib Require Import Ascii String ZArith Lia.
From stdpp Require Import base gmap strings list sets sorting.
From S2P Require Import Prelude PyStr Datetime Json Errors External Models Hostname Dns DnsSetup Sample Schemas.
From S2P Require Import Webhooks Limits Domains DomainFacts DomainInv ConnectFlow DnsChecks EdgeChecks.
From S2P Require Import Applications Legacy Worker Frames Lifecycle Stepwise History Demo.
Open Scope string_scope.
Open Scope Z_scope.

Section Totality.
Context `{External, Deployment, !PslLaw}.

Lemma for_each_total {X} (xs : list X) (f : X -> M unit) s :
  (forall x s, exists s', f x s = (Ok tt, s')) -> exists s', for_each xs f s = (Ok tt, s').
Proof.
  intros Hf. revert s. induction xs as [|x xs IH]; intros s; simpl; [by eexists|].
  destruct (Hf x s) as [s1 E1]. rewrite bind_run, E1. apply IH.
Qed.

Lemma schedule_checks_total id l now s : exists s', schedule_checks id l now s = (Ok tt, s').
Proof. apply for_each_total. intros t u. by eexists. Qed.

Lemma enqueue_total id e s d :
  db_domains s !! id = Some d -> exists s', enqueue_for_event id e s = (Ok tt, s').
Proof.
  intros Hd. unfold enqueue_for_event. destruct (webhook_event_type e) as [t|]; [|by eexists].
  rewrite bind_run, the_domain_run, Hd, bind_run. cbn [get].
  destruct (wanting s (dom_application_id d) t) as [|w ws]; [by eexists|].
  rewrite bind_run. unfold lift, build_payload, domain_resource.
  destruct (domain_setup_total s d (effective_setup_settings s)) as [su ->].
  apply for_each_total. intros x t'. by eexists.
Qed.

Lemma record_event_total id type payload now s d :
  db_domains s !! id = Some d -> exists s', record_event id type payload (Some now) s = (Ok tt, s').
Proof.
  intros Hd. rewrite (record_event_run _ _ _ _ _ d Hd).
  apply (enqueue_total _ _ _ d). exact Hd.
Qed.

Lemma transition_total id st reason now s d :
  db_domains s !! id = Some d -> is_deleted d = false -> allowed (dom_status d) st = true ->
  (st = READY -> claim_verified s id = true /\ checks_passing s id = true) ->
  exists s', transition_status id st reason (Some now) s = (Ok tt, s').
Proof.
  intros Hd Hdel Ha Hr. unfold transition_status.
  rewrite bind_run, the_domain_run, Hd, bind_run, guard_run, Hdel. cbn [negb].
  destruct (bool_decide_reflect (st = dom_status d)) as [Hs|Hs]; [by eexists|].
  rewrite bind_run, guard_run, Ha, bind_run. cbn [get]. rewrite bind_run.
  assert ((if bool_decide (st = READY)
     then _ ← guard_ (claim_verified s id) invalid_transition; guard_ (checks_passing s id) invalid_transition
     else mret tt) s = (Ok tt, s)) as ->.
  { destruct (bool_decide_reflect (st = READY)) as [E|]; [|done].
    destruct (Hr E) as [-> ->]. done. }
  rewrite bind_run. cbn [now_or mret SM_ret]. rewrite bind_run, (update_domain_run _ _ _ d Hd).
  apply (record_event_total _ _ _ _ _ (set_status st now d)). unfold with_domain. simpl_over.
  apply lookup_insert_eq.
Qed.

Lemma mark_claim_verified_total id method now s d k c :
  db_domains s !! id = Some d -> is_deleted d = false -> active_claim s id = Some (k, c) ->
  exists s', mark_claim_verified id method (Some now) s = (Ok tt, s').
Proof.
  intros Hd Hdel Ha. unfold mark_claim_verified. rewrite bind_run. cbn [now_or mret SM_ret].
  rewrite bind_run, the_domain_run, Hd, bind_run. cbn [gets]. rewrite Ha, Hdel.
  pose proof (active_claim_Some _ _ _ _ Ha) as (Hk & _ & _).
  rewrite bind_run, (update_claim_run _ _ _ c Hk). apply (record_event_total _ _ _ _ _ d). exact Hd.
Qed.

(** Recording a check that passes. *)
Lemma record_check_total id t st e m details at_ next s d :
  db_domains s !! id = Some d -> (st = FAILING -> dom_status d = READY -> is_deleted d = false) ->
  exists s', record_check id t st e m details (Some at_) next s = (Ok tt, s').
Proof.
  intros Hd Hdel. unfold record_check. rewrite bind_run. cbn [now_or mret SM_ret].
  rewrite bind_run. cbn [gets]. rewrite bind_run. unfold put_check at 1. cbn [modify]. rewrite bind_run.
  match goal with |- context [record_event id ?ty ?p (Some at_) ?t] =>
    destruct (record_event_total id ty p at_ t d Hd) as [s1 E1] end.
  rewrite E1, bind_run, the_domain_run. apply record_event_ok in E1 as (d' & Hd' & Hf & _).
  rewrite (lf_domains _ _ Hf), Hd'. assert (d' = d) as -> by (simpl_over; congruence).
  destruct (bool_decide_reflect (st = FAILING)) as [Hst|]; [|by eexists].
  destruct (bool_decide_reflect (dom_status d = READY)) as [Hr|]; [|by eexists]. simpl.
  apply (transition_total _ _ _ _ _ d); [by rewrite (lf_domains _ _ Hf)|by apply Hdel| |done].
  by rewrite Hr.
Qed.
End Totality.

(** ** Events and status changes *)

Section Status.
Context `{External, Deployment, HPsl : !PslLaw}.

(** recording an event of an existing domain never fails, whatever the DNS zone
    stored for it and whoever subscribes; it adds one event at the end of the log,
    stamped not before [now] and after every earlier event of the domain, and
    changes no other table than the outbox. *)
Theorem record_event_appends id type payload now s d :
  db_domains s !! id = Some d ->
  exists s' e, record_event id type payload (Some now) s = (Ok tt, s') /\ log_frame s s' /\
    db_events s' = (db_events s ++ [e])%list /\
    event_domain_id e = id /\ event_application_id e = dom_application_id d /\
    event_type e = event_value type /\ event_payload e = Some payload /\
    now <= event_created_at e /\
    Forall (fun e' => event_created_at e' < event_created_at e) (events_of s id).
Proof.
  intros Hd. destruct (record_event_total id type payload now s d Hd) as [s' Hr].
  pose proof (record_event_ok _ _ _ _ _ _ _ Hr) as (d' & Hd' & Hf & He).
  assert (d' = d) as -> by congruence. exists s', (the_event s id d type payload now).
  pose proof (event_stamp_after s id now) as [Hn Ha].
  split; [exact Hr|]. split; [exact Hf|]. split; [exact He|]. do 4 (split; [done|]).
  split; [exact Hn|exact Ha].
Qed.

(** a domain can be given a status exactly when it is not deleted and the status
    is its own, or one the transition table allows from it, and for [READY] when
    its claim is verified and all four checks pass.  The change writes the status
    of that row and nothing else of any domain, claim or check. *)
Theorem transition_exact id st reason now s d :
  Inv None s -> db_domains s !! id = Some d ->
  ((exists s', transition_status id st reason (Some now) s = (Ok tt, s')) <->
   live d = true /\ (st = dom_status d \/
     allowed (dom_status d) st = true /\ (st = READY -> has_verified s id /\ all_passing s id))) /\
  (forall s', transition_status id st reason (Some now) s = (Ok tt, s') ->
     db_domains s' = <[id := if bool_decide (st = dom_status d) then d else set_status st now d]> (db_domains s) /\
     db_claims s' = db_claims s /\ db_checks s' = db_checks s).
Proof.
  intros HI Hd. split; [split|].
  - intros (s' & (d' & Hd' & Hdel & Hr)%transition_status_ok). assert (d' = d) as -> by congruence.
    split; [unfold live; by rewrite Hdel|]. destruct Hr as [[-> _]|[_ []]]; [by left|right].
    split; [done|]. intros Hst. destruct (tr_ready Hst) as [Hv Hp].
    split; [by apply claim_verified_has|by apply checks_passing_true].
  - intros [Hl [->|[Ha Hr]]]; apply negb_true_iff in Hl.
    + exists s. unfold transition_status. rewrite bind_run, the_domain_run, Hd, bind_run, guard_run, Hl.
      simpl. by rewrite bool_decide_true.
    + apply (transition_total _ _ _ _ _ d); try done. intros Hst. destruct (Hr Hst) as [Hv Hp].
      split; [by apply (claim_verified_true _ _ _ HI)|by apply checks_passing_true].
  - intros s' (d' & Hd' & Hdel & Hr)%transition_status_ok. assert (d' = d) as -> by congruence.
    destruct Hr as [[-> ->]|[Hne []]].
    + rewrite bool_decide_true by done. by rewrite insert_id.
    + rewrite bool_decide_false by done. destruct tr_frame as [_ _ _ _ Ed Ec Ek].
      split; [exact Ed|]. split; [exact Ec|exact Ek].
Qed.
End Status.

(** ** Registering a hostname *)

Section Claiming.
Context `{External, Deployment}.

Definition taken (e : exn) : Prop := exists d, e = ServiceError HostnameAlreadyClaimed d.

(** A live row has the hostname. *)
Definition hostname_taken (s : Db) (h : string) : Prop :=
  exists j r, db_domains s !! j = Some r /\ live r = true /\ dom_hostname r = h.

Lemma bind_err {A B} (m : M A) (k : A -> M B) s e s' :
  (m ≫= k) s = (Err e, s') ->
  m s = (Err e, s') \/ exists a t, m s = (Ok a, t) /\ k a t = (Err e, s').
Proof. rewrite bind_run. destruct (m s) as [[a|x] t]; [eauto|]. intros [= -> ->]. auto. Qed.

(** A step that neither refuses with [taken] nor touches domains. *)
Lemma bind_taken {A B} (m : M A) (k : A -> M B) (P : Db -> Prop) s e s' :
  fails (fun e => ~ taken e) m -> mono same_domains m -> taken e ->
  (m ≫= k) s = (Err e, s') ->
  (forall a t, same_domains s t -> m s = (Ok a, t) -> k a t = (Err e, s') -> P s) -> P s.
Proof.
  intros Hf Hm He [Hr|(a & t & Hr & Hk)]%bind_err HP; [by destruct (Hf _ _ _ Hr)|].
  refine (HP a t _ Hr Hk). specialize (Hm s). by rewrite Hr in Hm.
Qed.

Lemma canonicalize_apex_fails b raw e : canonicalize_apex b raw = Err e -> ~ taken e.
Proof.
  unfold canonicalize_apex, check_ascii, refuse. intros Hc [d ->].
  repeat (case_match; simplify_eq/=; try done).
Qed.

Lemma insert_domain_taken d s orig s' :
  live d = true -> insert_domain d s = (Err (IntegrityError orig), s') ->
  contains "hostname" (lower orig) = true -> hostname_taken s (dom_hostname d).
Proof.
  intros Hl. unfold insert_domain. rewrite bind_run. cbn [get]. rewrite bind_run, guard_run.
  destruct (bool_decide _); [|by intros [= <- _]]. rewrite bind_run, guard_run, Hl.
  destruct (negb _) eqn:E.
  - rewrite bind_run. unfold fresh at 1. rewrite bind_run, guard_run.
    destruct (bool_decide _); [done|by intros [= <- _]].
  - intros _ _. apply negb_false_iff in E. cbn [andb] in E.
    apply (existsb_rows (fun r => live r && String.eqb (dom_hostname r) (dom_hostname d)) (db_domains s)) in E
      as (j & r & Hj & [Hr Hh%String.eqb_eq]%andb_prop). by exists j, r.
Qed.

Lemma record_event_not_taken id type payload now :
  fails (fun e => ~ taken e) (record_event id type payload (Some now)).
Proof.
  intros s e s' Hr [d ->]. eapply record_event_fails; [exact Hr|]. exists d. auto.
Qed.
Lemma issue_claim_not_taken id target now : fails (fun e => ~ taken e) (issue_claim id target now).
Proof. intros s e s' Hr [d ->]. eapply issue_claim_fails; [exact Hr|]. exists d. auto. Qed.

Lemma domains_lock a : mono same_domains (lock_application a).
Proof. by intros s. Qed.
Lemma domains_the_application a : mono same_domains (the_application a).
Proof. unfold the_application. mono_auto. Qed.
Lemma domains_enforce a : mono same_domains (enforce a).
Proof. eapply mono_weaken; [|apply core_enforce]. by intros s s' []. Qed.
Lemma domains_registration a now : mono same_domains (enforce_registration_limit a now).
Proof. unfold enforce_registration_limit, enforce_window. mono_auto. Qed.

Ltac pass_step Ht :=
  try match goal with Hm : _ = (Ok _, _) |- _ => clear Hm end;
  match goal with
  | Hr : (_ ≫= _) ?t = (Err _, _), Hs : same_domains ?s ?t |- hostname_taken ?s _ =>
      refine (bind_taken _ _ (fun u => same_domains s u -> hostname_taken s _) t _ _ _ _ Ht Hr _ Hs);
      [ | |clear Hr; let a := fresh "a" in let u := fresh "u" in let Hu := fresh "Hu" in
           let Hm := fresh "Hm" in intros a u Hu Hm Hr _;
           assert (same_domains s u) by (by etrans); clear Hs Hu]
  end.

Lemma claim_domain_taken a h ref m now s e s' canonical :
  taken e -> canonicalize h = Ok canonical ->
  claim_domain a h ref m (Some now) s = (Err e, s') -> hostname_taken s canonical.
Proof.
  intros Ht Hc Hr. unfold claim_domain in Hr. assert (same_domains s s) as Hs by done.
  pass_step Ht; [unfold the_application; fails_auto; by intros [? [=]]|apply domains_the_application|].
  pass_step Ht; [fails_auto; by intros [? [=]]|mono_auto|].
  pass_step Ht; [fails_auto; by intros [? [=]]|mono_auto|].
  pass_step Ht; [apply fails_lift; intros x; apply canonicalize_apex_fails|mono_auto|].
  unfold lift in Hm. rewrite Hc in Hm. injection Hm as <- <-.
  pass_step Ht; [by intros ? ? ? [=]|mono_auto|]. injection Hm as <- <-.
  pass_step Ht; [by intros ? ? ? [=]|apply domains_lock|].
  pass_step Ht; [|apply domains_enforce|].
  { unfold enforce, the_application, acquire_lock, deployment_limit. fails_auto; try by intros [? [=]].
    intros x Hx [d ->]. repeat (case_match; simplify_eq/=; try done). }
  pass_step Ht; [|apply domains_registration|].
  { unfold enforce_registration_limit, enforce_window. fails_auto. by intros [? [=]]. }
  match goal with Hs : same_domains s ?t |- _ => unfold same_domains in Hs;
    unfold hostname_taken; rewrite <- Hs end.
  apply bind_err in Hr as [Hr|(id & v & _ & Hr)].
  - unfold catch, savepoint in Hr. destruct (insert_domain _ _) as [[id|x] w] eqn:Hi; [done|].
    destruct x as [c d| | |orig| | | | | | | | | | | |]; try (injection Hr as <- _; by destruct Ht as [? [=]]).
    + exfalso. injection Hr as <- _. destruct Ht as [? [= -> _]].
      unfold insert_domain in Hi. 
      repeat (apply bind_err in Hi as [Hi|(? & ? & _ & Hi)]; [try (unfold guard_ in Hi; case_match; discriminate Hi); discriminate Hi|]).
      discriminate Hi.
    + destruct (contains _ _) eqn:Ec; [|injection Hr as <- _; by destruct Ht as [? [=]]].
      by apply insert_domain_taken in Hi.
  - exfalso. revert Hr Ht. apply (fails_bind (fun e => ~ taken e)).
    + fails_auto. by intros ? ? ? [=].
    + intros _. fails_auto; [apply record_event_not_taken|apply issue_claim_not_taken].
Qed.

(** C16: a registration is refused as already claimed only when a live row, of
    whatever application, has the canonical hostname, and it never succeeds when
    one has: a hostname belongs to one application at a time. *)
Theorem hostname_conflicts a hostname reference metadata now s canonical :
  canonicalize hostname = Ok canonical ->
  (forall d s', claim_domain a hostname reference metadata (Some now) s
                = (Err (ServiceError HostnameAlreadyClaimed d), s') -> hostname_taken s canonical) /\
  (forall id s', claim_domain a hostname reference metadata (Some now) s = (Ok id, s') ->
                 ~ hostname_taken s canonical).
Proof.
  intros Hc. split.
  - intros d s' Hr. by eapply claim_domain_taken; [eexists|exact Hc|exact Hr].
  - intros id s' (app & c & s1 & s2 & s3 & s4 & k & _ & _ & Hc' & _ & Ed & _ & _ & _ & _ & _ & Hi & _)%claim_domain_ok
      (j & r & Hj & Hl & Hh).
    assert (c = canonical) as -> by congruence.
    apply insert_domain_ok in Hi as (_ & _ & _ & Hfree & _). rewrite <- Ed in Hj.
    by apply (Hfree eq_refl j r).
Qed.

(** Putting the four checks of a new domain. *)
Lemma put_checks_get id c l s u s' :
  for_each l (fun t => put_check id t c) s = (Ok u, s') ->
  (forall t, t ∈ l -> db_checks s' !! (id, t) = Some c) /\
  (forall k t, k <> id -> db_checks s' !! (k, t) = db_checks s !! (k, t)) /\
  db_domains s' = db_domains s /\ db_claims s' = db_claims s /\ db_events s' = db_events s /\
  db_applications s' = db_applications s.
Proof.
  enough (forall (l0 : list CheckType) s0, for_each l (fun t => put_check id t c) s0 = (Ok u, s') ->
    (forall t, t ∈ l0 -> db_checks s0 !! (id, t) = Some c) ->
    (forall t, t ∈ l0 \/ t ∈ l -> db_checks s' !! (id, t) = Some c) /\
    (forall k t, k <> id -> db_checks s' !! (k, t) = db_checks s0 !! (k, t)) /\
    db_domains s' = db_domains s0 /\ db_claims s' = db_claims s0 /\ db_events s' = db_events s0 /\
    db_applications s' = db_applications s0) as Hg.
  { intros Hr. destruct (Hg [] s Hr) as (H1 & H2); [set_solver|]. split; [auto|exact H2]. }
  induction l as [|t l IH]; intros l0 s0; simpl.
  - intros [= _ <-] Hput. split; [set_solver|done].
  - rewrite bind_run. unfold put_check at 1. cbn [modify]. intros Hr Hput.
    destruct (IH (t :: l0) _ Hr) as (H1 & H2 & H3).
    { intros t'. simpl_over. rewrite lookup_insert_Some. destruct (decide (t' = t)) as [->|]; [auto|].
      intros Ht. right. split; [congruence|]. set_solver. }
    split; [set_solver|]. split; [|exact H3]. intros k t' Hk. rewrite H2 by done. simpl_over.
    rewrite lookup_insert_ne; congruence.
Qed.

(** C15: a successful registration inserts one live row with the canonical hostname,
    pending, with four pending checks and one live, unverified claim for the
    application's target whose token no claim ever had; it changes no other domain,
    claim or check, and logs the creation and the claim. *)
Theorem claim_domain_effect a hostname reference metadata now s id s' :
  Inv None s -> claim_domain a hostname reference metadata (Some now) s = (Ok id, s') ->
  exists app canonical k c e1 e2,
    db_applications s !! a = Some app /\ app_status app = ACTIVE /\
    canonicalize hostname = Ok canonical /\ db_domains s !! id = None /\
    db_domains s' = <[id := new_domain a canonical reference metadata now]> (db_domains s) /\
    db_claims s' = <[k := c]> (db_claims s) /\ active_claim s' id = Some (k, c) /\
    claim_status c = CLAIM_PENDING /\ claim_cname_target c = app_cname_target app /\
    (forall j r, db_claims s !! j = Some r -> claim_token r <> claim_token c) /\
    (forall t, domain_check s' id t = Some pending_check) /\
    (forall j t, j <> id -> domain_check s' j t = domain_check s j t) /\
    db_events s' = (db_events s ++ [e1; e2])%list /\
    event_type e1 = event_value DOMAIN_CREATED /\ event_type e2 = event_value CLAIM_ISSUED.
Proof.
  intros HI Hr. pose proof (claim_domain_inv _ _ _ _ _ _ _ _ Hr HI) as HI'.
  apply claim_domain_ok in Hr as (app & canonical & s1 & s2 & s3 & s4 & k & Happ & Hact & Hc & _ & F2 & F3
    & F4 & F5 & _ & _ & Hi & Hl & He & Hk). simpl default in *.
  apply insert_domain_ok in Hi as (-> & _ & Hnone & _ & ->).
  apply put_checks_get in Hl as (H1 & H2 & H3 & H4 & H5 & _).
  apply record_event_ok in He as (d & Hd & Hf & He).
  apply issue_claim_ok in Hk as (d' & s5 & Hd' & Hi & Hf' & Hev).
  apply insert_claim_ok in Hi as (-> & _ & Hnew & _ & Htok & ->).
  change (db_claims (advance s4)) with (db_claims s4) in Htok, Hnew.
  assert (db_claims s4 = db_claims s) as Ec4 by (by rewrite (lf_claims _ _ Hf), H4, <- F3).
  assert (db_domains s' = <[db_next s1 := new_domain a canonical reference metadata now]> (db_domains s)) as Ed.
  { rewrite (lf_domains _ _ Hf'). change (db_domains s4 = <[db_next s1 := new_domain a canonical reference metadata now]> (db_domains s)).
    rewrite (lf_domains _ _ Hf), H3, <- F2. reflexivity. }
  set (c := new_claim s4 (db_next s1) d' (app_cname_target app) now) in *.
  set (k := db_next (advance s4)) in *. set (id := db_next s1) in *.
  assert (db_claims s' = <[k := c]> (db_claims s)) as Ec.
  { rewrite (lf_claims _ _ Hf'), <- Ec4. reflexivity. }
  assert (db_checks s' = db_checks s3) as Ek by (rewrite (lf_checks _ _ Hf'); exact (lf_checks _ _ Hf)).
  exists app, canonical, k, c. eexists _, _. split; [done|]. split; [done|]. split; [done|].
  split; [by rewrite <- F2|]. split; [exact Ed|]. split; [exact Ec|].
  split; [apply (active_claim_is None s' k c HI'); [by rewrite Ec, lookup_insert_eq|done]|].
  split; [done|]. split; [done|]. split; [by rewrite <- Ec4|].
  split; [intros t; unfold domain_check; rewrite Ek; apply H1, all_checks_all|].
  split.
  { intros j t Hj. unfold domain_check. rewrite Ek, H2 by done. by rewrite <- F4. }
  split; [|split].
  - rewrite Hev, He, H5. unfold with_domain, advance. simpl_over. rewrite F5, <- app_assoc. reflexivity.
  - reflexivity.
  - reflexivity.
Qed.
End Claiming.

(** ** Deleting, re-issuing and tenancy *)

Section Ownership.
Context `{External, Deployment, HPsl : !PslLaw}.

(** The tombstone [delete_domain] leaves. *)
Definition tombstone (now : Z) (d : Domain) : Domain :=
  d <| dom_status := DELETING |> <| dom_deleted_at := Some now |>
    <| dom_purge_after := Some (now + TOMBSTONE_RETENTION) |> <| dom_updated_at := now |>.

Lemma revoke_total id reason now s d :
  db_domains s !! id = Some d -> exists s', revoke_live_claim id reason now s = (Ok tt, s').
Proof.
  intros Hd. unfold revoke_live_claim. rewrite bind_run. cbn [gets].
  destruct (active_claim s id) as [[k c]|] eqn:Ha; [|by eexists].
  apply active_claim_Some in Ha as (Hk & _ & _).
  rewrite bind_run, (update_claim_run _ _ _ c Hk). apply (record_event_total _ _ _ _ _ d). exact Hd.
Qed.

Lemma delete_domain_live a id now s d :
  db_domains s !! id = Some d -> dom_application_id d = a -> is_deleted d = false ->
  exists s1 s', delete_domain a id (Some now) s = (Ok tt, s') /\
    revoke_live_claim id "deleted" now (with_domain id (tombstone now d) s) = (Ok tt, s1) /\
    log_frame s1 s' /\ db_domains s' = <[id := tombstone now d]> (db_domains s).
Proof.
  intros Hd Ha Hdel. unfold delete_domain. rewrite bind_run. cbn [now_or mret SM_ret].
  rewrite bind_run, get_domain_run, Hd, (bool_decide_true _ Ha). cbn [orb andb]. rewrite Hdel.
  rewrite bind_run, (update_domain_run _ _ _ d Hd), bind_run. fold (tombstone now d).
  assert (db_domains (with_domain id (tombstone now d) s) !! id = Some (tombstone now d)) as Hd1
    by (unfold with_domain; simpl_over; apply lookup_insert_eq).
  destruct (revoke_total id "deleted" now _ _ Hd1) as [s1 H1]. rewrite H1.
  pose proof (domains_revoke id "deleted" now (with_domain id (tombstone now d) s)) as Hs.
  rewrite H1 in Hs. unfold same_domains in Hs. cbn [snd] in Hs.
  assert (db_domains s1 !! id = Some (tombstone now d)) as Hd2 by (by rewrite Hs).
  match goal with |- context [record_event id ?ty ?p (Some now) s1] =>
    destruct (record_event_total id ty p now s1 _ Hd2) as [s' Hr] end.
  exists s1, s'. split; [exact Hr|]. split; [done|].
  apply record_event_ok in Hr as (_ & _ & Hf & _). split; [done|].
  rewrite (lf_domains _ _ Hf), Hs. reflexivity.
Qed.

(** deleting a domain of the application always succeeds: the row stays as a
    tombstone for ninety days, its claims are all revoked, its hostname is free for
    any application to register again, nobody else's rows change, and deleting it
    again does nothing. *)
Theorem delete_frees_hostname a id now s d :
  Inv None s -> db_domains s !! id = Some d -> dom_application_id d = a -> live d = true ->
  exists s', delete_domain a id (Some now) s = (Ok tt, s') /\
    db_domains s' = <[id := tombstone now d]> (db_domains s) /\
    (forall k c, db_claims s' !! k = Some c -> claim_domain_id c = id -> claim_status c = REVOKED) /\
    ~ hostname_taken s' (dom_hostname d) /\
    (forall k c, claim_domain_id c <> id -> db_claims s' !! k = Some c <-> db_claims s !! k = Some c) /\
    forall now', delete_domain a id now' s' = (Ok tt, s').
Proof.
  intros HI Hd Ha Hl. assert (is_deleted d = false) as Hdel by (by apply negb_true_iff).
  destruct (delete_domain_live a id now s d Hd Ha Hdel) as (s1 & s' & Hr & Hv & Hf & Ed).
  pose proof (delete_domain_inv _ _ _ _ _ _ Hr HI) as HI'.
  assert (db_domains s' !! id = Some (tombstone now d)) as Hd' by (by rewrite Ed, lookup_insert_eq).
  exists s'. split; [done|]. split; [done|]. split; [|split; [|split]].
  - by apply (inv_deleted _ _ HI' id (tombstone now d)).
  - intros (j & r & Hj & Hlr & Hh). rewrite Ed, lookup_insert_Some in Hj.
    destruct Hj as [[<- <-]|[Hne Hj]]; [done|].
    by apply Hne, (inv_hostname _ _ HI id j d r).
  - intros k c Hc. rewrite (lf_claims _ _ Hf).
    apply revoke_live_claim_ok in Hv. change (active_claim (with_domain id (tombstone now d) s) id) with (active_claim s id) in Hv.
    destruct (active_claim s id) as [[j e]|] eqn:Hact.
    + destruct Hv as (_ & _ & Hfr & _). rewrite (lf_claims _ _ Hfr). unfold with_claim. simpl_over.
      apply active_claim_Some in Hact as (Hj & He & _).
      destruct (decide (k = j)) as [->|Hk]; [|by rewrite lookup_insert_ne].
      rewrite lookup_insert_eq. split; [intros [= <-]; exfalso; by apply Hc|].
      intros Hk. exfalso. apply Hc. congruence.
    + subst s1. done.
  - intros now'. unfold delete_domain. rewrite bind_run.
    assert (exists n, now_or now' s' = (Ok n, s')) as [n ->] by (destruct now'; by eexists).
    rewrite bind_run, get_domain_run, Hd'. cbn [orb andb tombstone].
    assert (dom_application_id (tombstone now d) = a) as Ha' by exact Ha.
    rewrite (bool_decide_true _ Ha'). reflexivity.
Qed.

End Ownership.

Section Reissue.
Context `{External, Deployment}.

Lemma record_pending_checks id l details now s u s' :
  for_each l (fun t => record_check id t PENDING None None details (Some now) None) s = (Ok u, s') ->
  (forall t, t ∈ l -> domain_check s' id t = Some (new_check PENDING None None details now None)) /\
  db_domains s' = db_domains s /\ db_claims s' = db_claims s /\ db_applications s' = db_applications s.
Proof.
  enough (forall (l0 : list CheckType) s0,
    for_each l (fun t => record_check id t PENDING None None details (Some now) None) s0 = (Ok u, s') ->
    (forall t, t ∈ l0 -> domain_check s0 id t = Some (new_check PENDING None None details now None)) ->
    (forall t, t ∈ l0 \/ t ∈ l -> domain_check s' id t = Some (new_check PENDING None None details now None)) /\
    db_domains s' = db_domains s0 /\ db_claims s' = db_claims s0 /\ db_applications s' = db_applications s0) as Hg.
  { intros Hr. destruct (Hg [] s Hr) as (H1 & H2); [set_solver|]. split; [auto|exact H2]. }
  induction l as [|t l IH]; intros l0 s0; simpl.
  - intros [= _ <-] Hput. split; [set_solver|done].
  - intros ([] & s1 & (d & s2 & _ & Hf & _ & ->)%record_check_ok & Hr)%bind_ok Hput.
    destruct (IH (t :: l0) _ Hr) as (H1 & H2 & H3 & H4).
    { intros t'. unfold domain_check in *. rewrite (lf_checks _ _ Hf). unfold with_check. simpl_over.
      rewrite lookup_insert_Some. destruct (decide (t' = t)) as [->|]; [auto|].
      intros Ht. right. split; [congruence|]. apply Hput. set_solver. }
    split; [set_solver|]. by rewrite H2, H3, H4, (lf_domains _ _ Hf), (lf_claims _ _ Hf), (lf_applications _ _ Hf).
Qed.

Lemma revoke_keeps_tokens id reason now s u s' j r :
  revoke_live_claim id reason now s = (Ok u, s') -> db_claims s !! j = Some r ->
  exists r', db_claims s' !! j = Some r' /\ claim_token r' = claim_token r.
Proof.
  intros Hv%revoke_live_claim_ok Hj. destruct (active_claim s id) as [[k c]|] eqn:Ha; [|subst; eauto].
  destruct Hv as (_ & _ & Hf & _). rewrite (lf_claims _ _ Hf). unfold with_claim. simpl_over.
  apply active_claim_Some in Ha as (Hk & _ & _).
  destruct (decide (j = k)) as [->|]; [rewrite lookup_insert_eq|rewrite lookup_insert_ne by done; eauto].
  eexists. split; [done|]. assert (r = c) as -> by congruence. done.
Qed.

Lemma revoke_applications id reason now s u s' :
  revoke_live_claim id reason now s = (Ok u, s') -> db_applications s' = db_applications s.
Proof.
  intros Hv%revoke_live_claim_ok. destruct (active_claim s id) as [[k c]|]; [|by subst].
  destruct Hv as (_ & _ & Hf & _). by rewrite (lf_applications _ _ Hf).
Qed.

(** The status after a reset. *)
Lemma reset_status_ok id now s u s' d :
  db_domains s !! id = Some d ->
  (if bool_decide (dom_status d ∈ RESET_ON_REISSUE)
   then transition_status id PENDING_DNS (Some "claim_reissued") (Some now)
   else mret tt) s = (Ok u, s') ->
  db_claims s' = db_claims s /\ db_checks s' = db_checks s /\ db_applications s' = db_applications s /\
  exists d', db_domains s' !! id = Some d' /\
    dom_status d' = if bool_decide (dom_status d ∈ RESET_ON_REISSUE) then PENDING_DNS else dom_status d.
Proof.
  intros Hd. destruct (bool_decide_reflect (dom_status d ∈ RESET_ON_REISSUE)).
  - intros (d' & Hd' & _ & Hr)%transition_status_ok. assert (d' = d) as -> by congruence.
    destruct Hr as [[E ->]|[_ []]]; [by eauto 7 using eq_sym|].
    rewrite (lf_claims _ _ tr_frame), (lf_checks _ _ tr_frame), (lf_applications _ _ tr_frame), (lf_domains _ _ tr_frame).
    split; [done|]. split; [done|]. split; [done|]. exists (set_status PENDING_DNS now d).
    split; [|done]. apply lookup_insert_eq.
  - intros [= _ <-]. by eauto 7.
Qed.

(** re-issuing a claim replaces the proof of ownership: the domain's old claims
    are revoked, the new live claim is unverified, for the application's current
    target and with a token no claim ever had; all four checks are pending again
    and the domain is not served until they pass.  A suspension is not lifted. *)
Theorem reissue_resets a id now s k s' d :
  Inv None s -> reissue_claim a id (Some now) s = (Ok k, s') -> db_domains s !! id = Some d ->
  exists app c d',
    db_applications s !! a = Some app /\ active_claim s' id = Some (k, c) /\
    claim_status c = CLAIM_PENDING /\ claim_cname_target c = app_cname_target app /\
    (forall j r, db_claims s !! j = Some r -> claim_token r <> claim_token c) /\
    (forall j r, db_claims s' !! j = Some r -> claim_domain_id r = id -> j <> k -> claim_status r = REVOKED) /\
    (forall t, check_status <$> domain_check s' id t = Some PENDING) /\
    db_domains s' !! id = Some d' /\ is_serveable s' id d' = false /\
    dom_status d' = (if bool_decide (dom_status d ∈ RESET_ON_REISSUE) then PENDING_DNS else dom_status d).
Proof.
  intros HI Hr Hd. pose proof (reissue_claim_inv _ _ _ _ _ _ Hr HI) as HI'.
  unfold reissue_claim in Hr. rewrite bind_run in Hr. cbn [now_or mret SM_ret] in Hr.
  apply bind_ok in Hr as (d0 & s0 & (-> & Hd0 & Ha & Hlive)%get_domain_ok & Hr).
  assert (d0 = d) as -> by congruence. clear Hd0.
  apply bind_ok in Hr as ([] & s1 & Hv & Hr).
  pose proof (mono_ok _ _ _ _ _ (domains_revoke _ _ _) Hv) as Ed1. unfold same_domains in Ed1.
  pose proof (fun j r => revoke_keeps_tokens _ _ _ _ _ _ j r Hv) as Htok1.
  pose proof (revoke_applications _ _ _ _ _ _ Hv) as Ea1.
  apply revoke_live_claim_inv in Hv as (H1 & Hno & _); [|by apply inv_open].
  apply bind_ok in Hr as ([] & s2 & (Hk2 & Ed2 & Ec2 & Ea2)%record_pending_checks & Hr).
  apply bind_ok in Hr as (d2 & s3 & Hd2 & Hr). rewrite the_domain_run, Ed2, Ed1, Hd in Hd2.
  injection Hd2 as <- <-.
  apply bind_ok in Hr as ([] & s4 & Ht & Hr).
  apply (reset_status_ok _ _ _ _ _ d) in Ht as (Ec4 & Ek4 & Ea4 & d4 & Hd4 & Hst4); [|by rewrite Ed2, Ed1].
  apply bind_ok in Hr as (app & s5 & Happ & Hr). unfold the_application in Happ. run_inv Happ.
  apply issue_claim_ok in Hr as (d5 & s6 & Hd5 & Hi & Hf & _).
  apply insert_claim_ok in Hi as (-> & _ & Hnew & _ & Htok & ->).
  change (db_claims (advance s5)) with (db_claims s5) in Htok, Hnew.
  set (c := new_claim s5 id d5 (app_cname_target app) now) in *. set (k := db_next (advance s5)) in *.
  assert (db_claims s' = <[k := c]> (db_claims s1)) as Ec.
  { rewrite (lf_claims _ _ Hf), <- Ec2, <- Ec4. reflexivity. }
  rewrite Ec4, Ec2 in Htok, Hnew.
  assert (active_claim s' id = Some (k, c)) as Hact
    by (apply (active_claim_is None s' k c HI'); [by rewrite Ec, lookup_insert_eq|done]).
  assert (db_domains s' !! id = Some d4) as Hd' by (rewrite (lf_domains _ _ Hf); exact Hd4).
  exists app, c, d4. split; [|split; [done|split; [done|split; [done|split; [|split; [|split; [|split; [|split]]]]]]]].
  - congruence.
  - intros j r Hj. destruct (Htok1 _ _ Hj) as (r' & Hr' & <-). by apply (Htok j).
  - intros j r Hj Hid Hne. rewrite Ec, lookup_insert_ne in Hj by done. by apply (Hno j).
  - intros t. unfold domain_check. rewrite (lf_checks _ _ Hf).
    change (check_status <$> db_checks s5 !! (id, t) = Some PENDING).
    rewrite Ek4. change (check_status <$> domain_check s2 id t = Some PENDING).
    by rewrite Hk2 by apply all_checks_all.
  - done.
  - unfold is_serveable, claim_verified. rewrite Hact. repeat case_match; done.
  - exact Hst4.
Qed.
End Reissue.

(** ** Witnesses *)

Lemma record_event_appends_witness :
  exists s' e, record_event 3 RECHECK_REQUESTED [] (Some T0) claimed = (Ok tt, s') /\
    db_events s' = (db_events claimed ++ [e])%list /\ T0 <= event_created_at e /\
    Forall (fun e' => event_created_at e' < event_created_at e) (events_of claimed 3).
Proof.
  destruct (record_event_appends 3 RECHECK_REQUESTED [] T0 claimed _ claimed_row)
    as (s' & e & Hr & _ & He & _ & _ & _ & _ & Hn & Ho).
  exists s', e. split; [exact Hr|split; [exact He|split; [exact Hn|exact Ho]]].
Defined.

Lemma transition_exact_witness :
  exists s', transition_status 3 SUSPENDED None (Some T0) claimed = (Ok tt, s').
Proof.
  refine (proj2 (proj1 (transition_exact 3 SUSPENDED None T0 claimed _ (inv_history _) claimed_row)) _).
  split; [vm_compute; reflexivity|]. right. split; [vm_compute; reflexivity|discriminate].
Defined.

Lemma hostname_conflicts_witness :
  (claim_domain 2 "shop.CUSTOMER.example" "ws9" None (Some T0) claimed).1
    = Err (ServiceError HostnameAlreadyClaimed []) /\ hostname_taken claimed shop.
Proof.
  assert ((claim_domain 2 "shop.CUSTOMER.example" "ws9" None (Some T0) claimed).1
          = Err (ServiceError HostnameAlreadyClaimed [])) as E by (vm_compute; reflexivity).
  split; [exact E|].
  exact (proj1 (hostname_conflicts 2 "shop.CUSTOMER.example" "ws9" None T0 claimed shop eq_refl)
           [] _ (value_run _ _ _ E)).
Defined.

Lemma claim_domain_effect_witness :
  let s' := (claim_domain 1 "Shop.Customer.Example." "ws1" None (Some T0) start).2 in
  exists canonical, db_domains s' = <[3%N := new_domain 1 canonical "ws1" None T0]> (db_domains start).
Proof.
  assert ((claim_domain 1 "Shop.Customer.Example." "ws1" None (Some T0) start).1 = Ok 3%N) as E
    by (vm_compute; reflexivity).
  destruct (claim_domain_effect 1 "Shop.Customer.Example." "ws1" None T0 start 3 _ (inv_history _)
              (value_run _ _ _ E)) as (app & canonical & k & c & e1 & e2 & _ & _ & _ & _ & Hd & _).
  exists canonical. exact Hd.
Defined.

Lemma delete_frees_hostname_witness :
  exists s', delete_domain 1 3 (Some T0) ready = (Ok tt, s') /\ ~ hostname_taken s' (dom_hostname (shop_row ready)).
Proof.
  destruct (delete_frees_hostname 1 3 T0 ready (shop_row ready)) as (s' & Hs & _ & _ & Hf & _).
  - apply inv_history.
  - exact ready_row.
  - vm_compute. reflexivity.
  - vm_compute. reflexivity.
  - exists s'. split; [exact Hs|exact Hf].
Defined.

Lemma reissue_resets_witness :
  let s' := (reissue_claim 1 3 (Some (T0 + hours 1)) ready).2 in
  exists d', db_domains s' !! 3%N = Some d' /\ is_serveable s' 3 d' = false /\ dom_status d' = PENDING_DNS.
Proof.
  assert (exists k, (reissue_claim 1 3 (Some (T0 + hours 1)) ready).1 = Ok k) as [k E]
    by (eexists; vm_compute; reflexivity).
  destruct (reissue_resets 1 3 (T0 + hours 1) ready k _ (shop_row ready) (inv_history _)
              (value_run _ _ _ E) ready_row) as (app & c & d' & _ & _ & _ & _ & _ & _ & _ & Hd & Hs & Ht).
  exists d'. split; [exact Hd|]. split; [exact Hs|].
  rewrite Ht. vm_compute. reflexivity.
Defined.
