(* ===== verification/LimitProps.v ===== *)
(** * Limits, pages and purges (app/services/limits.py, app/services/domains.py) *)

From Stdlib Require Import Ascii String ZArith Lia.
From stdpp Require Import base gmap strings list sets sorting.
From S2P Require Import Prelude PyStr Datetime Json Errors External Models Hostname Dns DnsSetup.
From S2P Require Import Sample Schemas Webhooks Limits Domains DomainFacts DomainInv ConnectFlow.
From S2P Require Import DnsChecks EdgeChecks Applications Worker Legacy Frames Lifecycle Stepwise.
From S2P Require Import History DomainProps Demo.
Open Scope string_scope.
Open Scope Z_scope.

Section Windows.
Context `{External, Deployment}.

Lemma ceil_seconds_ge t : t <= seconds (Z.max 1 (ceil_seconds t)).
Proof. unfold ceil_seconds, seconds. Z.to_euclidean_division_equations. lia. Qed.

Lemma enforce_window_run a type window max now s :
  enforce_window a type window max now s =
  if max <=? Z.of_nat (List.length (events_in_window s a type (now - window))) then
    (Err (rate_limited (match zmin (events_in_window s a type (now - window)) with
                        | Some oldest => ceil_seconds (oldest + window - now)
                        | None => 60
                        end)), s)
  else (Ok tt, s).
Proof. unfold enforce_window. rewrite bind_run. cbn [gets]. by destruct (_ <=? _). Qed.

(** Moving the start past one of the events leaves fewer of them. *)
Lemma events_in_window_later s a type start start' x :
  start <= start' -> x <= start' -> x ∈ events_in_window s a type start ->
  (List.length (events_in_window s a type start') < List.length (events_in_window s a type start))%nat.
Proof.
  intros Hs Hx. unfold events_in_window. rewrite !length_fmap, list_elem_of_fmap.
  intros (e & -> & He).
  set (P := fun e => event_application_id e = a /\ event_type e = event_value type /\ start < event_created_at e).
  set (Q := fun e => event_application_id e = a /\ event_type e = event_value type /\ start' < event_created_at e).
  change (e ∈ filter P (db_events s)) in He.
  assert (filter Q (db_events s) = filter Q (filter P (db_events s))) as ->.
  { rewrite list_filter_filter. apply list_filter_iff. intros y. unfold P, Q. intuition lia. }
  apply (length_filter_lt Q _ e He). unfold Q. lia.
Qed.

(** a refusal for too many events of a window says how long to wait, at least
    one second; when the window is exactly full, waiting that long is enough. *)
Theorem retry_after_is_enough a type window max now s e s' :
  enforce_window a type window max now s = (Err e, s') ->
  exists n, retry_after_of e = Some n /\ 1 <= n /\ s' = s /\
    (0 < max -> Z.of_nat (List.length (events_in_window s a type (now - window))) = max ->
     enforce_window a type window max (now + seconds n) s = (Ok tt, s)).
Proof.
  rewrite enforce_window_run. destruct (Z.leb_spec max (Z.of_nat (List.length (events_in_window s a type (now - window)))));
    [|done].
  intros [= <- <-]. eexists. split; [reflexivity|]. split; [lia|]. split; [done|]. intros Hmax Hfull.
  destruct (zmin _) as [oldest|] eqn:Hz.
  - apply zmin_Some in Hz as [Hin _]. rewrite enforce_window_run.
    pose proof (ceil_seconds_ge (oldest + window - now)) as Hc.
    set (n := Z.max 1 _) in *.
    assert (0 <= seconds n) by (unfold seconds; lia).
    pose proof (events_in_window_later s a type (now - window) (now + seconds n - window) oldest
      ltac:(lia) ltac:(lia) Hin) as Hlt.
    destruct (Z.leb_spec max (Z.of_nat (List.length (events_in_window s a type (now + seconds n - window)))));
      [lia|done].
  - apply zmin_None in Hz. rewrite Hz in Hfull. simpl in Hfull. lia.
Qed.

Lemma recheck_limits_ok id now s :
  enforce_recheck_limits id now s = (Ok tt, s) ->
  (forall e, e ∈ events_of s id -> event_type e = event_value RECHECK_REQUESTED ->
     event_created_at e + seconds 60 <= now) /\
  exists d, db_domains s !! id = Some d /\
    Z.of_nat (List.length (events_in_window s (dom_application_id d) RECHECK_REQUESTED (now - hours 1))) < 60.
Proof.
  unfold enforce_recheck_limits. rewrite bind_run. cbn [gets]. intros Hr.
  apply bind_ok in Hr as ([] & s1 & Hl & Hr). split.
  - intros e He Ht. unfold last_recheck in Hl. destruct (zmax _) as [l|] eqn:Hz.
    + rewrite guard_run in Hl. destruct (Z.leb_spec (l + RECHECK_MIN_INTERVAL) now); [|done].
      apply zmax_Some in Hz as [_ Hz]. unfold RECHECK_MIN_INTERVAL in *.
      enough (event_created_at e <= l) by lia. apply Hz, list_elem_of_fmap. exists e.
      split; [done|]. by apply list_elem_of_filter.
    + apply zmax_None, fmap_nil_inv in Hz. exfalso.
      assert (e ∈ filter (fun e => event_type e = event_value RECHECK_REQUESTED) (events_of s id)) as Hin
        by (by apply list_elem_of_filter).
      rewrite Hz in Hin. by apply not_elem_of_nil in Hin.
  - assert (s1 = s) as ->.
    { destruct (last_recheck s id); [rewrite guard_run in Hl; destruct (_ <=? _)|]; by injection Hl. }
    rewrite bind_run, the_domain_run in Hr. destruct (db_domains s !! id) as [d|] eqn:Hd; [|done].
    exists d. split; [done|]. rewrite enforce_window_run in Hr.
    unfold RECHECK_MAX_PER_WINDOW, RECHECK_WINDOW in Hr.
    match type of Hr with (if ?b then _ else _) = _ => destruct b eqn:Hb; [done|] end.
    by apply Z.leb_gt in Hb.
Qed.
End Windows.

Section Rechecks.
Context `{External, Deployment}.

(** a recheck is granted only when the domain's last request is at least a
    minute old and its application made fewer than sixty in the last hour; then
    every check of the domain is due and one request is logged. *)
Theorem recheck_limits_respected a id by_ now s s' :
  request_recheck a id by_ (Some now) s = (Ok tt, s') ->
  (forall e, e ∈ events_of s id -> event_type e = event_value RECHECK_REQUESTED ->
     event_created_at e + seconds 60 <= now) /\
  Z.of_nat (List.length (events_in_window s a RECHECK_REQUESTED (now - hours 1))) < 60 /\
  (forall t c, domain_check s' id t = Some c -> check_next_check_at c = Some now) /\
  exists e, db_events s' = (db_events s ++ [e])%list /\ event_domain_id e = id /\
    event_application_id e = a /\ event_type e = event_value RECHECK_REQUESTED.
Proof.
  intros (d & s1 & s2 & Hl & Hd & Ha & _ & He & Hs & Hr)%request_recheck_ok. simpl default in *.
  destruct (lock_application_run a s) as (t & Hl' & _ & Et). rewrite Hl' in Hl. injection Hl as ->.
  apply recheck_limits_ok in He as (Hlast & d' & Hd' & Hw).
  assert (db_events s1 = db_events s) as Ee by (by rewrite Et).
  assert (db_domains s1 = db_domains s) as Ed by (by rewrite Et).
  assert (d' = d) as -> by congruence. rewrite Ha in Hw.
  split; [|split; [|split]].
  - intros e. unfold events_of in *. rewrite <- Ee. apply Hlast.
  - unfold events_in_window in *. by rewrite <- Ee.
  - intros ty c. apply record_event_ok in Hr as (_ & _ & Hf & _). unfold domain_check.
    rewrite (lf_checks _ _ Hf). intros Hc. eapply schedule_checks_due; [exact Hs|apply all_checks_all|exact Hc].
  - apply record_event_ok in Hr as (d2 & Hd2 & _ & Hev).
    apply schedule_checks_ok in Hs as [Es _].
    assert (db_events s2 = db_events s1) as Ee2 by (by rewrite Es).
    assert (db_domains s2 = db_domains s1) as Ed2 by (by rewrite Es).
    eexists. rewrite Hev, Ee2, Ee. split; [done|]. split; [done|].
    assert (d2 = d) as -> by congruence. split; [exact Ha|done].
Qed.
End Rechecks.

Section Registration.
Context `{External, Deployment}.

Lemma count_rows_insert {A} (p : N -> A -> bool) (m : gmap N A) k x :
  m !! k = None -> count_rows p (<[k := x]> m) = count_rows p m + (if p k x then 1 else 0).
Proof.
  intros Hk. unfold count_rows. rewrite map_to_list_insert by done.
  rewrite filter_cons. cbn [fst snd]. destruct (p k x) eqn:Hp.
  - rewrite decide_True by done. simpl. lia.
  - rewrite decide_False by done. lia.
Qed.

Lemma the_application_ok a s app s' :
  the_application a s = (Ok app, s') -> s' = s /\ db_applications s !! a = Some app.
Proof.
  unfold the_application. rewrite bind_run. cbn [gets].
  destruct (db_applications s !! a); [|done]. by intros [= -> <-].
Qed.

Lemma enforce_ok a s u s' :
  enforce a s = (Ok u, s') ->
  (forall app m, db_applications s !! a = Some app -> app_max_domains app = Some m ->
     live_domains s (Some a) < m) /\
  (forall m, deployment_limit = Ok (Some m) -> live_domains s None < m).
Proof.
  unfold enforce. intros Hr.
  apply bind_ok in Hr as (app & s1 & [-> Ha]%the_application_ok & Hr).
  apply bind_ok in Hr as (limit & s2 & Hl & Hr). unfold lift in Hl.
  injection Hl as Hl <-.
  apply bind_ok in Hr as ([] & s3 & H3 & Hr).
  assert (db_domains s3 = db_domains s) as E3 by (destruct limit; injection H3 as <-; done).
  apply bind_ok in Hr as ([] & s4 & H4 & Hr).
  assert (s4 = s3 /\ forall m, app_max_domains app = Some m -> live_domains s3 (Some a) < m) as [-> Hm].
  { destruct (app_max_domains app) as [m|]; [|by injection H4].
    rewrite bind_run in H4. cbn [gets] in H4. rewrite guard_run in H4.
    destruct (Z.ltb_spec (live_domains s3 (Some a)) m); [|done]. injection H4 as <-.
    split; [done|]. congruence. }
  split.
  - intros app' m Ha' Hm'. assert (app' = app) as -> by congruence.
    specialize (Hm m Hm'). unfold live_domains in *. by rewrite <- E3.
  - intros m Hd. assert (limit = Some m) as -> by congruence.
    rewrite bind_run in Hr. cbn [gets] in Hr. rewrite guard_run in Hr.
    destruct (Z.ltb_spec (live_domains s3 None) m); [|done]. unfold live_domains in *. by rewrite <- E3.
Qed.

Lemma claim_domain_limits a h r m now s id s' :
  claim_domain a h r m (Some now) s = (Ok id, s') ->
  exists s1 s2, db_domains s1 = db_domains s /\ db_events s2 = db_events s /\
    db_applications s1 = db_applications s /\
    enforce a s1 = (Ok tt, s2) /\ enforce_registration_limit a now s2 = (Ok tt, s2).
Proof.
  unfold claim_domain. intros Hr.
  apply bind_ok in Hr as (app & t1 & [-> Ha]%the_application_ok & Hr).
  do 2 (apply bind_ok in Hr as ([] & ? & Hg & Hr); rewrite guard_run in Hg;
        match type of Hg with (if ?b then _ else _) = _ => destruct b; [injection Hg as <-|done] end).
  apply bind_ok in Hr as (c & ? & Hg & Hr). unfold lift in Hg. injection Hg as _ <-.
  apply bind_ok in Hr as (n & ? & Hg & Hr). cbn [now_or mret SM_ret] in Hg. injection Hg as <- <-.
  apply bind_ok in Hr as ([] & s1 & Hl & Hr).
  apply bind_ok in Hr as ([] & s2 & He & Hr). apply bind_ok in Hr as ([] & s3 & Hreg & _).
  match type of Hl with lock_application a ?t = _ =>
    destruct (lock_application_run a t) as (t' & Hl' & Ea & Et) end.
  rewrite Hl' in Hl. injection Hl as ->.
  assert (s3 = s2) as ->.
  { unfold enforce_registration_limit in Hreg. rewrite enforce_window_run in Hreg.
    destruct (_ <=? _); [done|]. by injection Hreg. }
  exists s1, s2. pose proof He as (_ & _ & _ & _ & Ee & _)%enforce_tables.
  split; [by rewrite Et|]. split; [rewrite Ee; by rewrite Et|]. split; [done|]. auto.
Qed.

(** The row a registration inserts; it changes no other. *)
Lemma claim_domain_row a h r m o s id s' :
  claim_domain a h r m o s = (Ok id, s') ->
  exists canonical, canonicalize h = Ok canonical /\ db_domains s !! id = None /\
    db_domains s' = <[id := new_domain a canonical r m (default (db_clock s) o)]> (db_domains s).
Proof.
  intros (app & c & s1 & s2 & s3 & s4 & k & _ & _ & Hc & _ & F2 & _ & _ & _ & _ & _ & Hi & Hl & He & Hk)%claim_domain_ok.
  apply insert_domain_ok in Hi as (-> & _ & Hn & _ & ->).
  assert (mono same_domains (for_each all_checks (fun t => put_check (db_next s1) t pending_check))) as Hm
    by (mono_auto; done).
  apply (mono_ok _ _ _ _ _ Hm) in Hl. apply (mono_ok _ _ _ _ _ (domains_event _ _ _ _)) in He.
  apply (mono_ok _ _ _ _ _ (domains_issue _ _ _)) in Hk.
  exists c. split; [done|]. rewrite Hk, He, Hl, <- F2. split; [exact Hn|reflexivity].
Qed.
Lemma claim_domain_rows a h r m now s id s' :
  claim_domain a h r m (Some now) s = (Ok id, s') ->
  exists d, db_domains s' = <[id := d]> (db_domains s) /\ db_domains s !! id = None.
Proof. intros (c & _ & Hn & Hd)%claim_domain_row. eauto. Qed.

(** C35: a registration succeeds only within the limits: afterwards the application
    has no more live domains than its limit and the deployment no more than its
    own, and the application had created fewer than 120 in the last hour. *)
Theorem registrations_respect_limits a h r m now s id s' :
  claim_domain a h r m (Some now) s = (Ok id, s') ->
  (forall app mx, db_applications s !! a = Some app -> app_max_domains app = Some mx ->
     live_domains s' (Some a) <= mx) /\
  (forall mx, deployment_limit = Ok (Some mx) -> live_domains s' None <= mx) /\
  Z.of_nat (List.length (events_in_window s a DOMAIN_CREATED (now - hours 1))) < 120.
Proof.
  intros Hr. pose proof (claim_domain_limits _ _ _ _ _ _ _ _ Hr) as (s1 & s2 & Ed & Ee & Ea & He & Hreg).
  apply enforce_ok in He as [Happ Hdep].
  assert (exists d, db_domains s' = <[id := d]> (db_domains s) /\ db_domains s !! id = None) as (d & Ed' & Hn).
  { eapply claim_domain_rows, Hr. }
  assert (forall o, live_domains s' o <= live_domains s1 o + 1) as Hcount.
  { intros o. unfold live_domains. rewrite Ed', Ed, count_rows_insert by done. destruct (_ && _); lia. }
  split; [|split].
  - intros app mx Ha Hm. rewrite <- Ea in Ha. specialize (Happ _ _ Ha Hm). specialize (Hcount (Some a)). lia.
  - intros mx Hm. specialize (Hdep _ Hm). specialize (Hcount None). lia.
  - unfold enforce_registration_limit in Hreg. rewrite enforce_window_run in Hreg.
    unfold REGISTRATION_MAX_PER_WINDOW, REGISTRATION_WINDOW, events_in_window in *. rewrite Ee in Hreg.
    match type of Hreg with (if ?b then _ else _) = _ => destruct b eqn:Hb; [done|] end.
    by apply Z.leb_gt in Hb.
Qed.
End Registration.

(** ** Pages *)

Section Pages.
Context `{External, Deployment}.

(** pages of a listing neither overlap nor skip: reading the pages one after
    the other gives the whole query in order, and a page says there is a next one
    exactly when rows remain after it. *)
Theorem pages_partition s a reference status include_deleted search limit n :
  1 <= limit <= MAX_PAGE_SIZE ->
  let query := list_query s a reference status include_deleted (nonempty (Some (strip (default "" search)))) in
  let page i := page_domains s a reference status include_deleted search limit (limit * Z.of_nat i) in
  concat ((fun i => (page i).1) <$> seq 0 n) = take (n * Z.to_nat limit) query /\
  (forall i, (page i).2 = true <-> limit * Z.of_nat (i + 1) < Z.of_nat (List.length query)).
Proof.
  intros Hl query page.
  assert (forall i, page i = (take (Z.to_nat limit) (drop (i * Z.to_nat limit) query),
    (Z.to_nat limit <? List.length (take (Z.to_nat limit + 1) (drop (i * Z.to_nat limit) query)))%nat)) as Hp.
  { intros i. unfold page, page_domains. cbv zeta. fold query.
    replace (Z.max 1 (Z.min limit MAX_PAGE_SIZE)) with limit by lia.
    replace (Z.to_nat (Z.max 0 (limit * Z.of_nat i))) with (i * Z.to_nat limit)%nat by lia.
    f_equal. rewrite take_take. f_equal. lia. }
  split.
  - induction n as [|n IH]; [done|]. rewrite seq_S, fmap_app, concat_app, IH. cbn [fmap list_fmap concat].
    rewrite Hp, app_nil_r. cbn [fst]. rewrite Nat.add_0_l.
    replace (S n * Z.to_nat limit)%nat with (n * Z.to_nat limit + Z.to_nat limit)%nat by lia.
    by rewrite take_take_drop.
  - intros i. rewrite Hp. cbn [snd]. rewrite Nat.ltb_lt, length_take, length_drop. lia.
Qed.
End Pages.

(** ** Purging *)

Section Purging.
Context `{External, Deployment}.

(** Deleted, and kept long enough. *)
Definition domain_gone (s : Db) (now : Z) (id : N) : Prop :=
  exists d t, db_domains s !! id = Some d /\ is_deleted d = true /\ dom_purge_after d = Some t /\ t <= now.

Lemma domain_purgeable_true s now id : domain_purgeable s now id = true <-> domain_gone s now id.
Proof.
  unfold domain_purgeable, domain_gone, purgeable, past. destruct (db_domains s !! id) as [d|].
  - destruct (is_deleted d) eqn:Hd; simpl.
    + destruct (dom_purge_after d) as [t|] eqn:Ht.
      * rewrite Z.leb_le. split; [intros; exists d, t; auto|]. intros (e & u & [= <-] & _ & E & ?). congruence.
      * split; [done|]. intros (e & u & [= <-] & _ & E & ?). congruence.
    + split; [done|]. intros (e & u & [= <-] & E & _). congruence.
  - split; [done|]. by intros (d & t & ? & _).
Qed.

Lemma domain_purgeable_false s now id : domain_purgeable s now id = false <-> ~ domain_gone s now id.
Proof. by rewrite <- domain_purgeable_true, not_true_iff_false. Qed.

Lemma count_rows_filter {A} (p q : N -> A -> bool) (m : gmap N A) :
  (forall k x, m !! k = Some x -> q k x = negb (p k x)) ->
  count_rows p m = Z.of_nat (size m) - Z.of_nat (size (filter (fun x => q x.1 x.2 = true) m)).
Proof.
  induction m as [|k x m Hk IH] using map_ind; intros Hq; [done|].
  rewrite count_rows_insert by done. rewrite IH.
  2:{ intros j y Hj. apply Hq. rewrite lookup_insert_ne; [done|congruence]. }
  rewrite map_size_insert_None by done.
  specialize (Hq k x (lookup_insert_eq _ _ _)). destruct (p k x); simpl in Hq.
  - rewrite map_filter_insert_False by (simpl; congruence). rewrite delete_id by done. lia.
  - rewrite map_filter_insert_True by done. rewrite map_size_insert_None; [lia|].
    apply map_lookup_filter_None. by left.
Qed.

(** a purge removes exactly the tombstones whose retention is over, with their
    claims, checks and events, and reports how many; a live domain, and a tombstone
    still kept, loses nothing, and an application goes only when it was deleted, its
    own retention is over and no domain row of it is left. *)
Theorem purge_exact now s :
  let s' := purged s now in
  purge_tombstones (Some now) s =
    (Ok (Z.of_nat (size (db_domains s)) - Z.of_nat (size (db_domains s'))), s') /\
  (forall id d, db_domains s' !! id = Some d <-> db_domains s !! id = Some d /\ ~ domain_gone s now id) /\
  (forall k c, db_claims s' !! k = Some c <->
     db_claims s !! k = Some c /\ ~ domain_gone s now (claim_domain_id c)) /\
  (forall id t c, domain_check s' id t = Some c <-> domain_check s id t = Some c /\ ~ domain_gone s now id) /\
  (forall a r, db_applications s !! a = Some r ->
     db_applications s' !! a = None <->
     application_is_deleted r = true /\ past (app_purge_after r) now = true /\
     forall id d, db_domains s' !! id = Some d -> dom_application_id d <> a).
Proof.
  intros s'.
  assert (db_domains s' = filter (fun x => domain_purgeable s now x.1 = false) (db_domains s)) as Ed
    by apply purged_domains.
  assert (db_claims s' = filter (fun x => domain_purgeable s now (claim_domain_id x.2) = false) (db_claims s)) as Ec
    by apply purged_claims.
  assert (db_checks s' = filter (fun x => domain_purgeable s now x.1.1 = false) (db_checks s)) as Ek
    by apply purged_checks.
  assert (purge_tombstones (Some now) s = (Ok (count_rows (fun _ d => purgeable now d) (db_domains s)), s')) as Er
    by apply purge_tombstones_run.
  assert (db_applications s' = filter (fun x => application_purgeable (delete_past_domains now s) now x.1 = false)
    (db_applications s)) as Ea by apply purged_applications.
  assert (db_domains (delete_past_domains now s) = db_domains s') as Ed' by apply past_domains_domains.
  assert (db_applications (delete_past_domains now s) = db_applications s) as Ea' by reflexivity.
  clearbody s'. set (s1 := delete_past_domains now s) in *. clearbody s1.
  split; [|split; [|split; [|split]]].
  - rewrite Er, Ed. f_equal. f_equal.
    rewrite (count_rows_filter _ (fun id _ => negb (domain_purgeable s now id))).
    + f_equal. f_equal. f_equal. apply map_filter_ext. intros id d _. simpl. by rewrite negb_true_iff.
    + intros id d Hd. unfold domain_purgeable. by rewrite Hd.
  - intros id d. by rewrite Ed, map_lookup_filter_Some, <- domain_purgeable_false.
  - intros k c. by rewrite Ec, map_lookup_filter_Some, <- domain_purgeable_false.
  - intros id t c. unfold domain_check. by rewrite Ek, map_lookup_filter_Some, <- domain_purgeable_false.
  - intros a r Ha. rewrite Ea, map_lookup_filter_None. unfold application_purgeable. cbn [fst].
    split.
    + intros [Hn|Hn]; [congruence|]. specialize (Hn r Ha). apply not_false_is_true in Hn. cbn [fst] in Hn.
      rewrite Ea', Ha in Hn. apply andb_prop in Hn as [[Hd Hp]%andb_prop Hx%negb_true_iff].
      split; [done|]. split; [done|]. intros id d Hd' E. rewrite <- not_true_iff_false in Hx. apply Hx.
      apply (proj2 (existsb_rows (fun x => (dom_application_id x =? a)%N) (db_domains s1))).
      exists id, d. rewrite Ed'. by rewrite E, N.eqb_refl.
    + intros (Hd & Hp & Hx). right. intros r' Hr'. cbn [fst].
      rewrite Ea', Ha, Hd, Hp. simpl. rewrite negb_false_iff.
      intros (id & d & Hid & He%N.eqb_eq)%(existsb_rows (fun x => (dom_application_id x =? a)%N)).
      rewrite Ed' in Hid. by apply (Hx id d).
Qed.
End Purging.

(** ** Witnesses *)

(** One registration in the window, and a limit of one. *)
Lemma retry_after_is_enough_witness :
  let s := claimed in
  exists e n, enforce_window 1 DOMAIN_CREATED (hours 1) 1 (T0 + minutes 10) s = (Err e, s) /\
    retry_after_of e = Some n /\
    enforce_window 1 DOMAIN_CREATED (hours 1) 1 (T0 + minutes 10 + seconds n) s = (Ok tt, s).
Proof.
  intros s.
  assert (exists e, enforce_window 1 DOMAIN_CREATED (hours 1) 1 (T0 + minutes 10) s = (Err e, s)) as [e E].
  { eexists. unfold enforce_window. rewrite bind_run. unfold gets.
    assert (1 <=? Z.of_nat (List.length (events_in_window s 1 DOMAIN_CREATED (T0 + minutes 10 - hours 1))) = true)
      as -> by (vm_compute; reflexivity). reflexivity. }
  destruct (retry_after_is_enough 1 DOMAIN_CREATED (hours 1) 1 (T0 + minutes 10) s e s E)
    as (n & Hn & _ & _ & Hw).
  exists e, n. split; [exact E|]. split; [exact Hn|]. apply Hw; [lia|vm_compute; reflexivity].
Defined.

Lemma recheck_limits_respected_witness :
  let s' := (request_recheck 1 3 "api" (Some (T0 + minutes 2)) claimed).2 in
  exists e, db_events s' = (db_events claimed ++ [e])%list /\ event_application_id e = 1%N.
Proof.
  assert ((request_recheck 1 3 "api" (Some (T0 + minutes 2)) claimed).1 = Ok tt) as E by (vm_compute; reflexivity).
  destruct (recheck_limits_respected 1 3 "api" (T0 + minutes 2) claimed _ (value_run _ _ _ E))
    as (_ & _ & _ & e & He & _ & Ha & _).
  exists e. split; [exact He|exact Ha].
Defined.

Lemma registrations_respect_limits_witness :
  let s := commit (OpDomainLimit 1 (Some 1)) start in
  live_domains (claim_domain 1 shop "ws1" None (Some T0) s).2 (Some 1%N) <= 1.
Proof.
  intros s.
  assert (exists id, (claim_domain 1 shop "ws1" None (Some T0) s).1 = Ok id) as [id E]
    by (eexists; vm_compute; reflexivity).
  assert (exists app, db_applications s !! 1%N = Some app /\ app_max_domains app = Some 1) as (app & Ha & Hm)
    by (eexists; split; vm_compute; reflexivity).
  exact (proj1 (registrations_respect_limits 1 shop "ws1" None T0 s id _ (value_run _ _ _ E)) app 1 Ha Hm).
Defined.

Lemma pages_partition_witness :
  (page_domains claimed 1 None None false None 1 0).2 = true <->
  1 < Z.of_nat (List.length (list_query claimed 1 None None false None)).
Proof.
  exact (proj2 (pages_partition claimed 1 None None false None 1 1 ltac:(unfold MAX_PAGE_SIZE; lia)) 0%nat).
Defined.
