(* ===== verification/SdkApi.v ===== *)
(** * The SDK against the service

    The client and the service it talks to, together: the objects the SDK reads are the
    resources the service writes; a webhook the service sends is accepted and read by
    the consumer; and a create repeated by the client's retries over a network that
    loses requests and answers registers its domain once; and the pages [iter_domains]
    asks for, read and joined, are the whole listing. *)

From Stdlib Require Import Ascii String ZArith Lia.
From stdpp Require Import base gmap strings list.
From S2P Require Import Prelude SdkModels PyStr Datetime Json JsonText Errors External Assertion Models Signature.
From S2P Require Import Idempotency Hostname Dns DnsSetup Schemas Webhooks Delivery DeliveryProps Limits.
From S2P Require Import Domains DomainFacts DomainInv Applications Api Sdk SdkClient LimitProps.
Open Scope string_scope.
Open Scope Z_scope.

(** Documented behaviour of pydantic: an aware UTC datetime is written in ISO 8601, as
    [fromisoformat] reads it from Python 3.11 on. *)
Class PydanticLaw `{External} : Prop :=
  pydantic_round t : representable t -> fromisoformat (pydantic_datetime t) = Some t.

(** ** What the SDK's objects hold *)

Definition record_view (r : DnsRecord) : SdkModels.DnsRecord :=
  {| SdkModels.record_name := JStr (rec_name r); SdkModels.record_type := JStr (rec_type r); SdkModels.record_value := JStr (rec_value r);
     SdkModels.record_purpose := JStr (rec_purpose r); SdkModels.record_help := JStr (rec_help r) |}.
Definition check_view (c : CheckResult) : SdkModels.Check :=
  {| SdkModels.check_type := JStr (check_type_value (res_type c));
     SdkModels.check_status := JStr (check_status_value (res_status c));
     SdkModels.check_error_code := jopt (res_error_code c); SdkModels.check_message := jopt (res_message c);
     SdkModels.check_observed_at := res_observed_at c; SdkModels.check_next_check_at := res_next_check_at c |}.
Definition setup_view (u : Setup) : SdkModels.Setup :=
  {| SdkModels.setup_method := jopt (su_method u);
     SdkModels.setup_provider :=
       (fun id => {| SdkModels.provider_id := JStr id; SdkModels.provider_name := jopt (su_provider_name u) |}) <$> su_provider_id u;
     SdkModels.setup_zone := JStr (su_zone u); SdkModels.setup_host := JStr (su_host u);
     SdkModels.setup_guide_url := jopt (su_guide_url u); SdkModels.setup_detected_at := su_detected_at u |}.
(** [metadata]: as it arrived. *)
Definition domain_view (r : DomainResource) (metadata : json) : SdkModels.Domain :=
  {| SdkModels.domain_id := JStr (uuid_str (dr_id r)); SdkModels.domain_hostname := JStr (dr_hostname r);
     SdkModels.domain_reference := JStr (dr_reference r); SdkModels.domain_status := JStr (domain_status_value (dr_status r));
     SdkModels.domain_dns_records := record_view <$> dr_dns_records r; SdkModels.domain_checks := check_view <$> dr_checks r;
     SdkModels.domain_metadata := metadata; SdkModels.domain_created_at := Some (dr_created_at r);
     SdkModels.domain_updated_at := Some (dr_updated_at r); SdkModels.domain_deleted_at := dr_deleted_at r;
     SdkModels.domain_setup := Some (setup_view (dr_setup r)) |}.
Definition metadata_json (r : DomainResource) : json :=
  match dr_metadata r with Some m => JObj m | None => JNull end.

(** Every time of a resource is one Python can represent. *)
Definition in_range_time (o : option Z) : Prop := match o with Some t => representable t | None => True end.
Record times_in_range (r : DomainResource) : Prop := {
  tr_created : representable (dr_created_at r);
  tr_updated : representable (dr_updated_at r);
  tr_deleted : in_range_time (dr_deleted_at r);
  tr_detected : in_range_time (su_detected_at (dr_setup r));
  tr_checks : Forall (fun c => in_range_time (res_observed_at c) /\ in_range_time (res_next_check_at c)) (dr_checks r);
}.

Section Views.
Context `{External, !PydanticLaw}.

Lemma dt_jtime o : in_range_time o -> dt (jtime o) = Ok o.
Proof.
  destruct o as [t|]; [|done]. cbn [in_range_time jtime]. intros Ht%pydantic_round. unfold dt, iso_value.
  destruct (pydantic_datetime t) as [|x y] eqn:E; [done|]. cbn [truthy]. unfold truthy.
  destruct (String.eqb_spec (String x y) ""); [done|]. cbn [negb]. by rewrite Ht.
Qed.

(** [sorted]: the keys of a webhook's body are sorted, those of an answer are not. *)
Definition arrived (sorted : bool) (j : json) : json := if sorted then sort_json j else j.

Lemma each_fmap {A B} (f : json -> res exn B) (g : A -> json) (h : A -> B) l :
  (forall x, x ∈ l -> f (g x) = Ok (h x)) -> each f (g <$> l) = Ok (h <$> l).
Proof.
  induction l as [|x l IH]; intros Hf; [done|]. cbn [fmap list_fmap each].
  rewrite Hf by (by left). cbn [mbind res_bind]. rewrite IH; [done|]. intros y Hy. apply Hf. by right.
Qed.

Lemma record_from_dumped sorted r : SdkModels.record_from (arrived sorted (dump_record r)) = Ok (record_view r).
Proof. by destruct sorted. Qed.

Lemma jtime_sorted o : sort_json (jtime o) = jtime o.
Proof. by destruct o. Qed.
Lemma jopt_sorted o : sort_json (jopt o) = jopt o.
Proof. by destruct o. Qed.

Lemma check_from_dumped sorted c :
  in_range_time (res_observed_at c) -> in_range_time (res_next_check_at c) ->
  SdkModels.check_from (arrived sorted (dump_check c)) = Ok (check_view c).
Proof.
  intros Ho Hn. assert (exists d, arrived sorted (dump_check c) = JObj d /\
    dget "type" d = Some (JStr (check_type_value (res_type c))) /\ dget "status" d = Some (JStr (check_status_value (res_status c))) /\
    dget "error_code" d = Some (jopt (res_error_code c)) /\ dget "message" d = Some (jopt (res_message c)) /\
    dget "observed_at" d = Some (jtime (res_observed_at c)) /\ dget "next_check_at" d = Some (jtime (res_next_check_at c)))
    as (d & -> & H1 & H2 & H3 & H4 & H5 & H6).
  { destruct sorted; eexists; (split; [reflexivity|]); split_and!; try reflexivity; simpl; f_equal;
      first [apply jtime_sorted|apply jopt_sorted]. }
  unfold SdkModels.check_from, item, get_or. rewrite H1, H2, H3, H4, H5, H6. cbn [mbind res_bind default from_option id].
  by rewrite !dt_jtime.
Qed.

Lemma setup_from_dumped sorted u :
  in_range_time (su_detected_at u) -> SdkModels.setup_from (arrived sorted (dump_setup u)) = Ok (setup_view u).
Proof.
  intros Hd. assert (exists d p, arrived sorted (dump_setup u) = JObj d /\
    dget "provider" d = Some p /\
    SdkModels.provider_from p = Ok ((fun id => {| SdkModels.provider_id := JStr id;
                                               SdkModels.provider_name := jopt (su_provider_name u) |}) <$> su_provider_id u) /\
    dget "method" d = Some (jopt (su_method u)) /\ dget "zone" d = Some (JStr (su_zone u)) /\
    dget "host" d = Some (JStr (su_host u)) /\ dget "guide_url" d = Some (jopt (su_guide_url u)) /\
    dget "detected_at" d = Some (jtime (su_detected_at u))) as (d & p & -> & H1 & Hp & H2 & H3 & H4 & H5 & H6).
  { destruct sorted; eexists _, _; (split; [reflexivity|]); (split; [reflexivity|]);
      (split; [by destruct (su_provider_id u), (su_provider_name u)|]); split_and!; try reflexivity; simpl; f_equal;
      first [apply jtime_sorted|apply jopt_sorted]. }
  unfold SdkModels.setup_from, item, get_or. rewrite H1, H2, H3, H4, H5, H6. cbn [mbind res_bind default from_option id].
  rewrite Hp. cbn [mbind res_bind]. by rewrite dt_jtime.
Qed.

Lemma arrived_list {A} sorted (g : A -> json) l :
  arrived sorted (JArr (g <$> l)) = JArr ((fun x => arrived sorted (g x)) <$> l).
Proof. destruct sorted; [|done]. cbn [arrived sort_json]. by rewrite <- list_fmap_compose. Qed.
Lemma setup_truthy sorted u : truthy (arrived sorted (dump_setup u)) = true.
Proof. by destruct sorted. Qed.

(** The SDK reads the resource the service wrote. *)
Lemma domain_from_dumped sorted r :
  times_in_range r ->
  SdkModels.domain_from (arrived sorted (dump_resource r)) = Ok (domain_view r (arrived sorted (metadata_json r))).
Proof.
  intros []. assert (exists d, arrived sorted (dump_resource r) = JObj d /\
    dget "id" d = Some (JStr (uuid_str (dr_id r))) /\ dget "hostname" d = Some (JStr (dr_hostname r)) /\
    dget "reference" d = Some (JStr (dr_reference r)) /\ dget "status" d = Some (JStr (domain_status_value (dr_status r))) /\
    dget "dns_records" d = Some (arrived sorted (JArr (dump_record <$> dr_dns_records r))) /\
    dget "checks" d = Some (arrived sorted (JArr (dump_check <$> dr_checks r))) /\
    dget "metadata" d = Some (arrived sorted (metadata_json r)) /\
    dget "created_at" d = Some (jtime (Some (dr_created_at r))) /\ dget "updated_at" d = Some (jtime (Some (dr_updated_at r))) /\
    dget "deleted_at" d = Some (jtime (dr_deleted_at r)) /\
    dget "setup" d = Some (arrived sorted (dump_setup (dr_setup r))))
    as (d & -> & H1 & H2 & H3 & H4 & H5 & H6 & H7 & H8 & H9 & H10 & H11).
  { destruct sorted; eexists; (split; [reflexivity|]); split_and!; try reflexivity; simpl; f_equal; apply jtime_sorted. }
  unfold SdkModels.domain_from, item, get_or. rewrite H1, H2, H3, H4, H5, H6, H7, H8, H9, H10, H11.
  cbn [mbind res_bind default from_option id]. rewrite !arrived_list. cbn [iterated mbind res_bind].
  rewrite (each_fmap _ _ record_view) by (intros; apply record_from_dumped). cbn [mbind res_bind].
  rewrite (each_fmap _ _ check_view).
  2:{ intros c Hc. rewrite Forall_forall in tr_checks0. destruct (tr_checks0 c Hc). by apply check_from_dumped. }
  cbn [mbind res_bind]. rewrite !dt_jtime by done. cbn [mbind res_bind]. rewrite setup_truthy, setup_from_dumped by done.
  done.
Qed.
End Views.

(** ** Webhooks *)

Section Webhooks.
Context `{External, Deployment, !PydanticLaw}.

(** The event a consumer reads of a payload. *)
Definition event_view (event : DomainEvent) (type : string) (r : DomainResource) (payload : json) : SdkModels.WebhookEvent :=
  {| SdkModels.event_id := JStr (uuid_str (event_id event)); SdkModels.event_type := JStr type;
     SdkModels.event_created_at := event_created_at event;
     SdkModels.event_domain := domain_view r (sort_json (metadata_json r)); SdkModels.event_raw := sort_json payload |}.

Lemma parse_event_sent event type r payload :
  payload = JObj [("id", JStr (uuid_str (event_id event))); ("type", JStr type);
                  ("created_at", JStr (isoformat (event_created_at event)));
                  ("data", JObj [("domain", dump_resource r)])] ->
  printable payload -> times_in_range r -> representable (event_created_at event) ->
  SdkModels.parse_event (dumps_sorted payload) = Ok (event_view event type r payload).
Proof.
  intros Hpay Hp Hr He. unfold SdkModels.parse_event. rewrite loads_dumps_sorted by done. cbn [require mbind res_bind].
  assert (exists d e, sort_json payload = JObj d /\ dget "id" d = Some (JStr (uuid_str (event_id event))) /\
    dget "type" d = Some (JStr type) /\ dget "created_at" d = Some (JStr (isoformat (event_created_at event))) /\
    dget "data" d = Some (JObj e) /\ dget "domain" e = Some (arrived true (dump_resource r)))
    as (d & e & E & E1 & E2 & E3 & E4 & E5).
  { subst payload. eexists _, _. split; [reflexivity|]. split_and!; reflexivity. }
  rewrite E. unfold item, iso_value. rewrite E1, E2, E3, E4. cbn [mbind res_bind]. rewrite fromisoformat_isoformat by done.
  cbn [mbind res_bind]. rewrite E5. cbn [mbind res_bind]. rewrite (domain_from_dumped true r Hr).
  unfold event_view. rewrite E. reflexivity.
Qed.

(** C19: What the service delivers its consumer accepts and reads.  For the events of a
    domain whose metadata holds no floats (JSON floats are not modelled), with a payload
    of Unicode text and times in Python's range: the body and signature of every attempt
    to deliver an event are accepted by the SDK with the secret the subscription shows, or
    the previous one during a rotation's grace, while the consumer's clock is within the
    tolerance; and the event the SDK reads of the body names the event, its type and time
    and the domain as it was when the event happened. *)
Theorem delivery_reaches_consumer s event type id row payload r k d sub n secret now tolerance :
  build_payload s event type id row = Ok payload -> domain_resource s id row = Ok r -> del_payload d = payload ->
  printable payload -> times_in_range r -> representable (event_created_at event) ->
  (secret = sub_secret sub \/
   (exists e, sub_previous_secret sub = Some secret /\ secret <> "" /\
              sub_previous_secret_expires_at sub = Some e /\ n < e)) ->
  Z.abs (now - Z.quot n 1000000) <= tolerance ->
  let rq := attempt_request k d sub n in
  verify_webhook (sget Delivery.HEADER (rq_headers rq)) (rq_body rq) [secret] now tolerance = Ok (Z.quot n 1000000) /\
  SdkModels.parse_event (rq_body rq) = Ok (event_view event type r payload).
Proof.
  intros Hb Hr Hd Hp Ht He Hs Hnow rq. split.
  - pose proof (verify_webhook_agrees (sget Delivery.HEADER (rq_headers rq)) (rq_body rq) [secret] now tolerance) as Ha.
    change (sget Delivery.HEADER (rq_headers rq))
      with (Some (Signature.sign (rq_body rq) (signing_secrets sub n) (Z.quot n 1000000))) in *.
    rewrite (signature_round_trip (rq_body rq) (signing_secrets sub n) [secret] secret) in Ha; [|apply secret_signs; done|by left|done].
    by destruct (verify_webhook _ _ _ _ _) as [x|e]; simplify_eq.
  - change (rq_body rq) with (dumps_sorted (del_payload d)). rewrite Hd. apply parse_event_sent; [|done..].
    unfold build_payload in Hb. rewrite Hr in Hb. by injection Hb.
Qed.
End Webhooks.

(** ** A create that is retried *)

(** What a create leaves alone, whatever it does with its own key. *)
Record kept (s s' : Db) : Prop := {
  kept_clock : db_clock s' = db_clock s;
  kept_applications a : is_Some (db_applications s !! a) -> is_Some (db_applications s' !! a);
}.
#[export] Instance kept_preorder : PreOrder kept.
Proof. split; [by intros s|]. intros s1 s2 s3 [] []. constructor; [congruence|auto]. Qed.

Section Kept.
Context `{External, Deployment}.

Lemma kept_same s s' : db_clock s' = db_clock s -> db_applications s' = db_applications s -> kept s s'.
Proof. intros Hc Ha. split; [done|]. by rewrite Ha. Qed.
Ltac kept := intros; apply kept_same; done.

Lemma kept_fresh : mono kept fresh.
Proof. intros s. by apply kept_same. Qed.
Lemma kept_insert_domain d : mono kept (insert_domain d).
Proof. unfold insert_domain. mono_auto; [apply kept_fresh|kept]. Qed.
Lemma kept_event id type payload now : mono kept (record_event id type payload (Some now)).
Proof.
  unfold record_event, enqueue_for_event, append_event, add_delivery, the_domain, now_or.
  mono_auto; try apply kept_fresh; kept.
Qed.
Lemma kept_issue_claim id target now : mono kept (issue_claim id target now).
Proof.
  unfold issue_claim, insert_claim, the_domain. mono_auto; try apply kept_fresh; try apply kept_event; kept.
Qed.
Lemma kept_enforce a : mono kept (enforce a).
Proof. unfold enforce, the_application, acquire_lock. mono_auto; kept. Qed.
Lemma kept_lock a : mono kept (lock_application a).
Proof. intros s. by rewrite lock_application_id. Qed.
#[local] Hint Resolve kept_fresh kept_insert_domain kept_issue_claim kept_event kept_enforce kept_lock : session.
Lemma kept_claim_domain a h r m now : mono kept (claim_domain a h r m now).
Proof.
  unfold claim_domain, the_application, now_or, enforce_registration_limit, enforce_window, put_check.
  mono_auto; try kept.
  all: apply mono_catch; [apply _|apply mono_savepoint; auto with session; apply _|]. all: intros; mono_auto.
Qed.
#[local] Hint Resolve kept_claim_domain : session.
Lemma kept_create a p key : mono kept (Api.create_domain a p key).
Proof.
  unfold Api.create_domain, transaction, create_or_replay, begin, insert_key_record, complete, Domains.get_domain, resource_of,
    the_domain, now_or.
  apply mono_bind; [apply _|apply mono_savepoint; [apply _|]|intros; mono_auto].
  mono_auto; try kept.
  apply mono_catch; [apply _| |intros; mono_auto; kept].
  mono_auto. apply mono_savepoint; [apply _|]. mono_auto. kept.
Qed.
End Kept.

Section Retries.
Context `{External, Deployment, !PydanticLaw}.
Context (a : N) (p : DomainCreate) (key : string).

(** No create under the key succeeded since [s0], or one did and its domain is all that
    was added. *)
Record untouched (s0 s : Db) : Prop := {
  un_domains : db_domains s = db_domains s0;
  un_key : db_idempotency s !! (a, key) = None;
  un_application : is_Some (db_applications s !! a);
  un_clock : db_clock s0 <= db_clock s;
}.
Record registered (s0 : Db) (id : N) (s : Db) : Prop := {
  re_new : db_domains s0 !! id = None;
  re_row : exists canonical t, canonicalize (dc_hostname p) = Ok canonical /\
    db_domains s = <[id := new_domain a canonical (dc_reference p) (dc_metadata p) t]> (db_domains s0);
  re_key : exists r, db_idempotency s !! (a, key) = Some r /\ idem_domain_id r = Some id /\
    idem_request_hash r = fingerprint (dump_create p) /\ db_clock s0 + IDEMPOTENCY_TTL <= idem_expires_at r;
  re_key_ok : key_ok key = true;
  re_application : is_Some (db_applications s !! a);
  re_clock : db_clock s0 <= db_clock s;
}.

Lemma resource_of_pure id : mono eq (resource_of id).
Proof. unfold resource_of, the_domain. mono_auto. Qed.

Lemma create_or_replay_untouched s0 s created id s' :
  key <> "" -> untouched s0 s -> create_or_replay a p (Some key) s = (Ok (created, id), s') -> registered s0 id s'.
Proof.
  intros Hne [Hd Hk Ha Hc] Hr. unfold create_or_replay in Hr.
  assert (nonempty (Some key) = Some key) as En by (by destruct key). rewrite En, bind_run in Hr.
  destruct (key_ok key) eqn:Eo; [|by rewrite begin_bad_key in Hr].
  rewrite begin_free in Hr; [|done|done|by rewrite Hk]. apply bind_ok in Hr as (j & t & Hcl & Hr).
  pose proof (mono_ok _ _ _ _ _ (kept_claim_domain _ _ _ _ _) Hcl) as [Kc Ka].
  pose proof (mono_ok _ _ _ _ _ (keys_claim_domain _ _ _ _ _) Hcl) as Kk. unfold same_keys in Kk.
  apply claim_domain_row in Hcl as (canonical & Hcan & Hn & Hrow).
  unfold complete in Hr. run_inv Hr. simpl_over.
  assert (db_idempotency t !! (a, key) = Some (started (fingerprint (dump_create p)) (db_clock s))) as Ek.
  { rewrite Kk. simpl_over. apply lookup_insert_eq. }
  constructor; simpl_over.
  - by rewrite <- Hd.
  - exists canonical. eexists. split; [done|]. rewrite Hrow, <- Hd. reflexivity.
  - eexists. split; [cbn [db_idempotency]; rewrite lookup_alter_eq, Ek; reflexivity|]. split; [done|]. split; [done|].
    change (db_clock s0 + IDEMPOTENCY_TTL <= db_clock s + IDEMPOTENCY_TTL). lia.
  - done.
  - by apply Ka.
  - rewrite Kc. exact Hc.
Qed.

(** The first create that succeeds registers the domain. *)
Lemma create_untouched s0 s r s' :
  key <> "" -> untouched s0 s -> Api.create_domain a p (Some key) s = (r, s') ->
  (s' = s /\ exists e, r = Err e) \/
  exists id, registered s0 id s' /\ forall answer, r = Ok answer -> (resource_of id s').1 = Ok (api_body answer).
Proof.
  intros Hne Hu. unfold Api.create_domain. rewrite bind_run. unfold transaction, savepoint.
  destruct (create_or_replay a p (Some key) s) as [[[created id]|e] s1] eqn:Ec; [|intros [= <- <-]; eauto].
  pose proof (create_or_replay_untouched s0 s created id s1 Hne Hu Ec) as Hreg. rewrite bind_run.
  pose proof (resource_of_pure id s1) as Hpure.
  destruct (resource_of id s1) as [[body|e] s2] eqn:Eb; cbn [snd] in Hpure; subst s2; intros [= <- <-]; right; exists id;
    (split; [done|]); [|done]. intros answer [= <-]. by rewrite Eb.
Qed.

(** Every later one finds it. *)
Lemma create_registered s0 id s r s' :
  registered s0 id s -> db_clock s < db_clock s0 + IDEMPOTENCY_TTL -> Api.create_domain a p (Some key) s = (r, s') ->
  s' = s /\ forall answer, r = Ok answer -> (resource_of id s').1 = Ok (api_body answer).
Proof.
  intros [Hn (canonical & t & Hcan & Hrow) (rec & Hk & Hid & Hh & He) Hok Ha Hc] Hlt.
  unfold Api.create_domain. rewrite bind_run. unfold transaction, savepoint.
  rewrite (create_again a p key s rec) by (done || lia). rewrite Hh, String.eqb_refl, Hid, get_domain_run, Hrow, lookup_insert_eq.
  rewrite bool_decide_true by done. cbn [orb andb]. rewrite bind_run. pose proof (resource_of_pure id s) as Hpure.
  destruct (resource_of id s) as [[body|e] s2] eqn:Eb; cbn [snd] in Hpure; subst s2; intros [= <- <-]; (split; [done|]); [|done].
  intros answer [= <-]. by rewrite Eb.
Qed.

(** *** The network *)

(** What happens to the n-th request: it never arrives, its answer is lost, a proxy on the
    way answers with an error of its own, or it is answered. *)
Inductive fate := NeverArrives (text : string) | AnswerLost (text : string) | ProxyRefuses (response : Response) | Answered.
Record World := { w_db : Db; w_sent : nat }.

(** The service as a request reaches it, and how its answers are written. *)
Context (handle : ClientRequest -> Db -> res exn ApiAnswer * Db).
Context (respond : res exn ApiAnswer -> Response).
Context (net : nat -> fate).

Definition send (rq : ClientRequest) (w : World) : res string Response * World :=
  let '(r, s) := handle rq (w_db w) in
  let ignored := {| w_db := w_db w; w_sent := S (w_sent w) |} in
  let handled := {| w_db := s; w_sent := S (w_sent w) |} in
  match net (w_sent w) with
  | NeverArrives text => (Err text, ignored)
  | ProxyRefuses response => (Ok response, ignored)
  | AnswerLost text => (Err text, handled)
  | Answered => (Ok (respond r), handled)
  end.
Definition wait (d : Z) (w : World) : World :=
  {| w_db := (w_db w) <| db_clock ::= (fun t => t + Z.max 0 d) |>; w_sent := w_sent w |}.

(** What passes between the client's create and the service's own: time, and work that
    leaves domains, this key and the application in place. *)
Record quiet (s s' : Db) : Prop := {
  qu_domains : db_domains s' = db_domains s;
  qu_key : db_idempotency s' !! (a, key) = db_idempotency s !! (a, key);
  qu_application : is_Some (db_applications s !! a) -> is_Some (db_applications s' !! a);
  qu_clock : db_clock s <= db_clock s';
}.

Lemma quiet_untouched s0 s s' : quiet s s' -> untouched s0 s -> untouched s0 s'.
Proof. intros [] []. constructor; [congruence|congruence|auto|lia]. Qed.
Lemma quiet_registered s0 id s s' : quiet s s' -> registered s0 id s -> registered s0 id s'.
Proof. intros [Hd Hk Ha Hc] []. constructor; rewrite ?Hd, ?Hk; auto. lia. Qed.
Lemma quiet_wait d s : quiet s (s <| db_clock ::= (fun t => t + Z.max 0 d) |>).
Proof. constructor; simpl_over; [done|done|done|]. cbn. lia. Qed.

(** The request is refused without a trace, or it is the create. *)
Definition handles_create (rq : ClientRequest) : Prop := forall s, exists s1, quiet s s1 /\
  (handle rq s = Api.create_domain a p (Some key) s1 \/ exists e, handle rq s = (Err e, s1)).
Definition writes_answers : Prop :=
  (forall e, 400 <= resp_status (respond (Err e))) /\
  (forall answer, printable (api_body answer) -> loads (resp_text (respond (Ok answer))) = Some (api_body answer)).
Definition proxies_refuse : Prop := forall n response, net n = ProxyRefuses response -> 400 <= resp_status response.

(** As long as the key is kept: nothing was added, or the one domain. *)
Definition at_most_one (s0 : Db) (w : World) : Prop :=
  db_clock s0 <= db_clock (w_db w) /\
  (db_clock (w_db w) < db_clock s0 + IDEMPOTENCY_TTL -> untouched s0 (w_db w) \/ exists id, registered s0 id (w_db w)).
Definition names_it (s0 : Db) (response : Response) (w : World) : Prop :=
  db_clock (w_db w) < db_clock s0 + IDEMPOTENCY_TTL ->
  exists id answer, registered s0 id (w_db w) /\ (resource_of id (w_db w)).1 = Ok (api_body answer) /\
    response = respond (Ok answer).

Lemma handled_step rq s0 w :
  key <> "" -> handles_create rq -> at_most_one s0 w ->
  let '(r, s) := handle rq (w_db w) in
  forall n, at_most_one s0 {| w_db := s; w_sent := n |} /\
    forall answer, r = Ok answer -> names_it s0 (respond (Ok answer)) {| w_db := s; w_sent := n |}.
Proof.
  intros Hne Hh [Hc Hw]. destruct (Hh (w_db w)) as (s1 & Hq & Hrun). destruct (handle rq (w_db w)) as [r s] eqn:E.
  pose proof (qu_clock _ _ Hq) as Hclock. unfold at_most_one, names_it. cbn [w_db].
  assert (db_clock s1 < db_clock s0 + IDEMPOTENCY_TTL -> untouched s0 s1 \/ exists id, registered s0 id s1) as Hs1.
  { intros Hlt. destruct Hw as [Hu|[id Hr]]; [lia|left; by eapply quiet_untouched|right; exists id; by eapply quiet_registered]. }
  destruct Hrun as [Hrun|[e [= -> ->]]].
  2:{ intros n. split; [split; [lia|done]|]. by intros answer. }
  assert (db_clock s = db_clock s1) as Es
    by (symmetry in Hrun; pose proof (kept_create a p (Some key) s1) as [Hk _]; by rewrite Hrun in Hk).
  intros n. split; [split; [lia|]|]; rewrite Es.
  - intros Hlt. destruct (Hs1 Hlt) as [Hu|[id Hr]].
    + destruct (create_untouched s0 s1 r s Hne Hu (eq_sym Hrun)) as [[-> _]|(id & Hr & _)]; [by left|right; by exists id].
    + destruct (create_registered s0 id s1 r s Hr Hlt (eq_sym Hrun)) as [-> _]. right. by exists id.
  - intros answer Hr Hlt. destruct (Hs1 Hlt) as [Hu|[id Hreg]].
    + destruct (create_untouched s0 s1 r s Hne Hu (eq_sym Hrun)) as [[_ [e He]]|(id & Hreg & Hans)]; [congruence|].
      exists id, answer. auto.
    + destruct (create_registered s0 id s1 r s Hreg Hlt (eq_sym Hrun)) as [-> Hans]. exists id, answer. auto.
Qed.

Lemma send_step rq s0 w r w' :
  key <> "" -> handles_create rq -> writes_answers -> proxies_refuse -> at_most_one s0 w -> send rq w = (r, w') ->
  at_most_one s0 w' /\ forall response, r = Ok response -> resp_status response < 400 -> names_it s0 response w'.
Proof.
  intros Hne Hh [Herr _] Hproxy Hw. pose proof (handled_step rq s0 w Hne Hh Hw) as Hstep. unfold send.
  destruct (handle rq (w_db w)) as [answer s]. specialize (Hstep (S (w_sent w))) as [Hone Hnames].
  destruct (net (w_sent w)) as [text|text|response|] eqn:En; intros [= <- <-]; (split; [done|]); try done.
  - intros x [= <-] Hs. specialize (Hproxy _ _ En). lia.
  - intros x [= <-] Hs. destruct answer as [answer|e]; [by apply Hnames|]. specialize (Herr e). lia.
Qed.

Lemma wait_step s0 d w : at_most_one s0 w -> at_most_one s0 (wait d w).
Proof.
  intros [Hc Hw]. pose proof (quiet_wait d (w_db w)) as Hq. pose proof (qu_clock _ _ Hq) as Hle.
  split; [cbn [wait w_db]; lia|]. cbn [wait w_db]. intros Hlt. destruct Hw as [Hu|[id Hr]]; [lia| |].
  - left. by eapply quiet_untouched.
  - right. exists id. by eapply quiet_registered.
Qed.

(** The domain of an answer. *)
Lemma resource_of_ok id s body :
  (resource_of id s).1 = Ok body -> exists d r, db_domains s !! id = Some d /\ domain_resource s id d = Ok r /\ body = dump_resource r.
Proof.
  unfold resource_of, the_domain. rewrite bind_run. cbn [get]. rewrite bind_run, bind_run. cbn [gets].
  destruct (db_domains s !! id) as [d|]; [|done]. cbn [need mret SM_ret]. rewrite bind_run. unfold lift.
  destruct (domain_resource s id d) as [r|] eqn:E; [|done]. cbn. intros [= <-]. eauto.
Qed.

(** C11: A create with an idempotency key that the client repeats over a network that loses
    requests and answers registers at most one domain: when the call ends, within the
    key's 24 hours, the service has the domains it had before, or these and one more with
    the canonical hostname and the reference asked for; and a call that returns returns
    that very domain. *)
Theorem retried_create_registers_once c s0 r w' :
  key <> "" -> db_idempotency s0 !! (a, key) = None -> is_Some (db_applications s0 !! a) ->
  (forall rq, cq_method rq = "POST" -> cq_path rq = client_base_url c ++ "/v1/domains" ->
     cq_json rq = Some (JObj ([("hostname", JStr (dc_hostname p)); ("reference", JStr (dc_reference p))]
                              ++ given "metadata" JObj (dc_metadata p))%list) ->
     sget "Idempotency-Key" (cq_headers rq) = Some key -> handles_create rq) ->
  writes_answers -> proxies_refuse ->
  SdkClient.create_domain send wait c (dc_hostname p) (dc_reference p) (dc_metadata p) (Some key)
    {| w_db := s0; w_sent := O |} = (r, w') ->
  db_clock (w_db w') < db_clock s0 + IDEMPOTENCY_TTL ->
  (db_domains (w_db w') = db_domains s0 /\ forall o, r <> Ok o) \/
  exists id canonical t, canonicalize (dc_hostname p) = Ok canonical /\ db_domains s0 !! id = None /\
    db_domains (w_db w') = <[id := new_domain a canonical (dc_reference p) (dc_metadata p) t]> (db_domains s0) /\
    forall o, r = Ok o ->
      exists res, domain_resource (w_db w') id (new_domain a canonical (dc_reference p) (dc_metadata p) t) = Ok res /\
        (printable (dump_resource res) -> times_in_range res -> o = domain_view res (metadata_json res)).
Proof.
  intros Hne Hk Ha Hrq Hans Hproxy. unfold SdkClient.create_domain, reading, request.
  assert (nonempty (Some key) = Some key) as -> by (by destruct key). cbn [given_param].
  set (rq := {| cq_method := "POST" |}).
  assert (handles_create rq) as Hh by (by apply Hrq).
  destruct (attempt send wait _ _ _ _ rq _) as [result w1] eqn:E.
  assert (at_most_one s0 {| w_db := s0; w_sent := O |}) as Hinit.
  { split; [done|]. intros _. left. constructor; done || lia. }
  destruct (attempt_keeps send wait (at_most_one s0) (names_it s0) rq
    (fun w x y Hw => send_step rq s0 w x y Hne Hh Hans Hproxy Hw) (fun d w => wait_step s0 d w) _ _ _ _ _ _ _ Hinit E)
    as [[_ Hone] Hnames].
  intros Hr Hlt. assert (w' = w1) as -> by (destruct result; by injection Hr). specialize (Hone Hlt).
  destruct result as [response|e]; injection Hr as <-.
  - destruct (Hnames response eq_refl Hlt) as (id & answer & [Hn (canonical & t & Hc & Hrow) _ _ _ _] & Hres & ->).
    right. exists id, canonical, t. do 3 (split; [done|]). intros o Ho.
    apply resource_of_ok in Hres as (d & res & Hd & Hdr & Hbody). rewrite Hrow, lookup_insert_eq in Hd. injection Hd as <-.
    exists res. split; [done|]. intros Hp Ht. destruct Hans as [_ Hok]. rewrite Hok, Hbody in Ho by (by rewrite Hbody).
    cbn [require mbind res_bind] in Ho. pose proof (domain_from_dumped false res Ht) as Hv. cbn [arrived] in Hv.
    rewrite Hv in Ho. congruence.
  - destruct Hone as [[Hd _ _ _]|[id [Hn (canonical & t & Hc & Hrow) _ _ _ _]]]; [left; by split|right].
    exists id, canonical, t. do 3 (split; [done|]). done.
Qed.
End Retries.

(** ** Listing every domain *)

Section Pages.
Context `{External, Deployment, !PydanticLaw}.
Context {W : Type} (send : ClientRequest -> W -> res string Response * W) (sleep : Z -> W -> W) (c : Client).
(** How the service's answers are written. *)
Context (respond : ApiAnswer -> Response).
(** The service's state while the domains are listed, and which are asked for. *)
Context (s : Db) (a : N) (reference : option string) (status : option DomainStatus).

Definition status_text : option string := domain_status_value <$> status.
Definition listed : list (N * Domain) := list_query s a reference status false None.

(** Every page asked for is answered, perhaps after retries, from the same state. *)
Definition pages_answered (page_size : Z) : Prop := forall k answer w,
  (list_domains_page a reference status false page_size (Z.of_nat k) s).1 = Ok answer -> exists w',
  request send sleep c "GET" "/v1/domains" None
    ([("limit", py_str page_size); ("offset", py_str (Z.of_nat k))] ++ given_param "reference" id reference
     ++ given_param "status" id status_text ++ [])%list [] true w = (Ok (respond answer), w').
Definition answers_written : Prop := forall answer,
  printable (api_body answer) -> loads (resp_text (respond answer)) = Some (api_body answer).

(** The resources of the rows, which the SDK can read. *)
Definition readable (rows : list (N * Domain)) (rs : list DomainResource) : Prop :=
  Forall2 (fun row r => domain_resource s row.1 row.2 = Ok r /\ printable (dump_resource r) /\ times_in_range r) rows rs.
Definition views (rs : list DomainResource) : list SdkModels.Domain :=
  (fun r => domain_view r (metadata_json r)) <$> rs.

Lemma resources_readable rows rs : readable rows rs -> resources s rows = Ok (dump_resource <$> rs).
Proof.
  induction 1 as [|[id d] r rows rs [Hr _] _ IH]; [done|]. cbn [fst snd] in Hr. cbn [resources]. rewrite Hr. cbn [mbind res_bind].
  by rewrite IH.
Qed.

Lemma read_views rows rs : readable rows rs -> each domain_from (dump_resource <$> rs) = Ok (views rs).
Proof.
  intros Hr. apply each_fmap. intros r Hin. apply list_elem_of_lookup in Hin as [i Hi].
  destruct (Forall2_lookup_r _ _ _ _ _ Hr Hi) as (row & _ & _ & _ & Ht). by apply (domain_from_dumped false).
Qed.

(** The page at [k]. *)
Lemma page_at page_size k : 1 <= page_size <= MAX_PAGE_SIZE ->
  page_domains s a reference status false None page_size (Z.of_nat k)
  = (take (Z.to_nat page_size) (drop k listed), (Z.to_nat page_size <? List.length (drop k listed))%nat).
Proof.
  intros [E1 E2]. unfold page_domains. rewrite Z.min_l, Z.max_r by lia. rewrite Z.max_r, Nat2Z.id by lia.
  change (nonempty (Some (strip (default "" None)))) with (@None string). fold listed. rewrite take_take, Nat.min_l by lia. f_equal.
  rewrite length_take. apply Bool.eq_iff_eq_true. rewrite !Nat.ltb_lt. lia.
Qed.

Lemma list_page rs page_size k w :
  1 <= page_size <= MAX_PAGE_SIZE -> pages_answered page_size -> answers_written -> readable listed rs ->
  exists page w', list_domains send sleep c reference status_text false page_size (JInt (Z.of_nat k)) w = (Ok page, w') /\
    page_items page = views (take (Z.to_nat page_size) (drop k rs)) /\
    page_next_offset page = if (Z.to_nat page_size <? List.length (drop k rs))%nat
                            then JInt (Z.of_nat k + page_size) else JNull.
Proof.
  intros Hs Ha Hw Hr.
  assert (readable (take (Z.to_nat page_size) (drop k listed)) (take (Z.to_nat page_size) (drop k rs))) as Hp
    by (apply Forall2_take, Forall2_drop, Hr).
  assert (List.length (drop k listed) = List.length (drop k rs)) as Hlen
    by (eapply Forall2_length, Forall2_drop, Hr).
  edestruct (Ha k) as (w' & Hreq).
  { unfold list_domains_page. rewrite bind_run. cbn [get]. rewrite page_at by done. cbn [fst snd].
    rewrite (resources_readable _ _ Hp), Hlen. reflexivity. }
  unfold list_domains, reading. cbn [param_text str_of json_repr]. rewrite Hreq. rewrite Hw.
  2:{ cbn [answered api_body]. apply printable_obj. split; [apply (bool_decide_unpack _); vm_compute; exact I|].
      apply Forall_cons_2; [split; [done|]|repeat apply Forall_cons_2; try apply Forall_nil_2; by repeat case_match].
      apply printable_arr, Forall_fmap, Forall_forall. intros r Hin. apply list_elem_of_lookup in Hin as [i Hi].
      by destruct (Forall2_lookup_r _ _ _ _ _ Hp Hi) as (row & _ & _ & Hpr & _). }
  cbn [require mbind res_bind answered api_body]. unfold page_from. cbn [item dget]. cbn.
  rewrite (read_views _ _ Hp). cbn [mbind res_bind]. do 2 eexists. split; [reflexivity|]. by split.
Qed.

Lemma iterate rs page_size pages :
  1 <= page_size <= MAX_PAGE_SIZE -> pages_answered page_size -> answers_written -> readable listed rs ->
  forall k w, (List.length rs - k < pages * Z.to_nat page_size)%nat -> exists w',
    iter_pages send sleep c pages reference status_text page_size (JInt (Z.of_nat k)) w
    = (views (drop k rs), Some (Ok tt), w').
Proof.
  intros Hs Ha Hw Hr. induction pages as [|pages IH]; intros k w Hk; [lia|]. cbn [iter_pages].
  destruct (list_page rs page_size k w Hs Ha Hw Hr) as (page & w' & -> & -> & ->). rewrite length_drop.
  destruct (Nat.ltb_spec (Z.to_nat page_size) (List.length rs - k)) as [Hlt|Hge].
  - replace (Z.of_nat k + page_size) with (Z.of_nat (k + Z.to_nat page_size)) by lia.
    destruct (IH (k + Z.to_nat page_size)%nat w') as [w2 ->]; [lia|]. exists w2.
    unfold views. rewrite <- fmap_app, <- drop_drop, take_drop. done.
  - exists w'. rewrite take_ge by (rewrite length_drop; lia). done.
Qed.

(** C31: Going through the pages ends and yields every domain the application has of that
    reference and status exactly once, in the order of the listing, whatever the page
    size, when the state does not change meanwhile: one more page than the whole pages
    the listing fills is enough. *)
Theorem iteration_lists_every_domain rs page_size pages w :
  1 <= page_size <= MAX_PAGE_SIZE -> pages_answered page_size -> answers_written -> readable listed rs ->
  Z.of_nat (List.length rs) / page_size < Z.of_nat pages ->
  exists w', iter_domains send sleep c pages reference status_text page_size w = (views rs, Some (Ok tt), w').
Proof.
  intros Hs Ha Hw Hr Hp. apply (iterate rs page_size pages Hs Ha Hw Hr 0 w).
  pose proof (Z.mod_pos_bound (Z.of_nat (List.length rs)) page_size ltac:(lia)).
  pose proof (Z.div_mod (Z.of_nat (List.length rs)) page_size ltac:(lia)). nia.
Qed.
End Pages.
