(* ===== verification/ChecksProps.v ===== *)
(** * Properties of the checks (app/services/dns_checks.py, edge_checks.py and the
    transactions of app/dns/worker.py) *)

From Stdlib Require Import Ascii String ZArith Lia.
From stdpp Require Import base gmap strings list sets sorting.
From S2P Require Import Prelude PyStr Datetime Json Errors External Models Hostname Dns DnsSetup.
From S2P Require Import Sample Schemas Webhooks Limits Domains DomainFacts DomainInv ConnectFlow.
From S2P Require Import DnsChecks EdgeChecks Applications Worker Legacy Frames Lifecycle Stepwise.
From S2P Require Import History DomainProps Demo.
Open Scope string_scope.
Open Scope Z_scope.

(** ** The schedule *)

Lemma backoff_bounds n : 1 <= n -> exists d, backoff n = Ok d /\ minutes 1 <= d <= hours 1.
Proof.
  intros Hn. unfold backoff. change (Z.of_nat (List.length BACKOFF)) with 6. cbv zeta.
  assert (Z.min n 6 - 1 = 0 \/ Z.min n 6 - 1 = 1 \/ Z.min n 6 - 1 = 2 \/ Z.min n 6 - 1 = 3 \/
          Z.min n 6 - 1 = 4 \/ Z.min n 6 - 1 = 5) as Hk by lia.
  destruct Hk as [->|[->|[->|[->|[->| ->]]]]];
    (eexists; split; [reflexivity|vm_compute; split; discriminate]).
Qed.

(** The attempts a check's details count. *)
Definition counted (check : option DomainCheck) (n : Z) : Prop :=
  attempts_of (default [] (check ≫= check_details)) = Ok n /\ 0 <= n.

Section Schedule.
(** a passing check is repeated after six hours with its count reset; a failing
    one after at least a minute and at most an hour, its count one higher. *)
Theorem schedule_next_bounds check outcome now n :
  counted check n ->
  exists next details, schedule_next check outcome now = Ok (next, details) /\
    (passing outcome = true -> next = now + hours 6 /\ attempts_of details = Ok 0) /\
    (passing outcome = false ->
       now + minutes 1 <= next <= now + hours 1 /\ attempts_of details = Ok (n + 1)).
Proof.
  intros [Ha Hn]. unfold schedule_next. cbv zeta. destruct (passing outcome).
  - eexists _, _. split; [reflexivity|]. split; [|done]. intros _. split; [done|].
    unfold attempts_of. by rewrite dget_dset_eq.
  - rewrite Ha. destruct (backoff_bounds (n + 1) ltac:(lia)) as (d & -> & Hd).
    eexists _, _. split; [reflexivity|]. split; [done|]. intros _. split; [lia|].
    unfold attempts_of. by rewrite dget_dset_ne, dget_dset_eq.
Qed.

Lemma iso_nonempty t : String.eqb (isoformat t) "" = false.
Proof.
  apply String.eqb_neq. intros E. apply (f_equal String.length) in E. unfold isoformat, iso_written in E.
  rewrite length_sapp in E. rewrite length_sapp in E. simpl in E. lia.
Qed.

(** while a check keeps failing, its details remember the instant of the first
    failure exactly, so the grace period is counted from there; a check that passed
    in between starts over. *)
Theorem failing_since_survives check o1 o2 now1 now2 next1 details1 c2 n :
  passing o1 = false -> passing o2 = false -> representable now1 -> counted check n ->
  dget "failing_since" (default [] (check ≫= check_details)) = None ->
  schedule_next check o1 now1 = Ok (next1, details1) -> check_details c2 = Some details1 ->
  failing_since details1 = Ok now1 /\
  exists next2 details2, schedule_next (Some c2) o2 now2 = Ok (next2, details2) /\
    failing_since details2 = Ok now1 /\ counted (Some c2) (n + 1).
Proof.
  intros H1 H2 Hrep [Ha Hn] Hnone Hs Hc2. unfold schedule_next in Hs. rewrite H1, Ha, Hnone in Hs.
  destruct (backoff_bounds (n + 1) ltac:(lia)) as (d & Hd & _). rewrite Hd in Hs. injection Hs as <- <-.
  set (d1 := dset "failing_since" _ _) in *.
  assert (failing_since d1 = Ok now1) as Hf.
  { unfold failing_since, d1. by rewrite dget_dset_eq, fromisoformat_isoformat. }
  assert (attempts_of d1 = Ok (n + 1)) as Hat.
  { unfold attempts_of, d1. by rewrite dget_dset_ne, dget_dset_eq. }
  split; [done|].
  unfold schedule_next, counted. cbv zeta.
  change (default [] (Some c2 ≫= check_details)) with (default [] (check_details c2)). rewrite Hc2.
  change (default [] (Some d1)) with d1. rewrite H2, Hat.
  destruct (backoff_bounds (n + 1 + 1) ltac:(lia)) as (d' & -> & _).
  eexists _, _. split; [reflexivity|]. split; [|split; [done|lia]].
  unfold d1. rewrite dget_dset_eq. cbn [truthy]. rewrite iso_nonempty. cbn [negb].
  unfold failing_since. by rewrite dget_dset_eq, fromisoformat_isoformat.
Qed.
End Schedule.

(** ** Recording an outcome *)

Section Recording.
Context `{External, Deployment, HPsl : !PslLaw}.

(** The row [record_outcome] writes. *)
Definition outcome_check (o : Outcome) (details : dict) (now next : Z) : DomainCheck :=
  new_check (oc_status o) (oc_error_code o) (oc_message o) (Some details) now (Some next).

(** Recording a check of a domain that is not ready, or that passes: only the
    check's row changes. *)
Lemma record_outcome_run id fast now t o s d next details :
  db_domains s !! id = Some d -> passing o = true \/ dom_status d <> READY ->
  schedule_next (domain_check s id t) o now = Ok (next, details) ->
  exists s' at_, record_outcome id fast now t o s = (Ok details, s') /\
    db_domains s' = db_domains s /\ db_claims s' = db_claims s /\
    db_applications s' = db_applications s /\ db_origins s' = db_origins s /\ db_clock s' = db_clock s /\
    db_checks s' = <[(id, t) := outcome_check o details now at_]> (db_checks s).
Proof.
  intros Hd Hst Hs. unfold record_outcome. rewrite bind_run. cbn [gets]. rewrite bind_run. unfold lift.
  rewrite Hs. cbv zeta. cbn [fst snd].
  set (at_ := if _ && _ then _ else _). rewrite bind_run.
  destruct (record_check_total id t (oc_status o) (oc_error_code o) (oc_message o) (Some details) now (Some at_) s d Hd)
    as [s' Hr].
  { intros Hf. destruct Hst as [Hp|]; [|done]. unfold passing in Hp. apply bool_decide_eq_true in Hp. congruence. }
  rewrite Hr. exists s', at_. split; [done|].
  apply record_check_ok in Hr as (d' & s1 & Hd' & Hf & _ & Hs').
  assert (s' = s1) as ->.
  { assert (d' = d) as -> by congruence.
    destruct (bool_decide_reflect (oc_status o = FAILING)) as [Ef|]; [|by rewrite Hs'].
    destruct (bool_decide_reflect (dom_status d = READY)) as [Er|]; [|by rewrite Hs'].
    exfalso. destruct Hst as [Hp|]; [|done]. unfold passing in Hp. apply bool_decide_eq_true in Hp. congruence. }
  destruct Hf as [Fa Fo _ _ Fd Fc Fk _ _ _ _ _ _ Fl _]. by rewrite Fa, Fo, Fd, Fc, Fk, Fl.
Qed.
End Recording.

(** ** The worker's transactions *)

Section Transactions.
Context `{External, Deployment}.

(** The check row, due at [now]. *)
Definition due_at (now : Z) (c : DomainCheck) : DomainCheck := c <| check_next_check_at := Some now |>.

(** C40: observations made against a claim that was re-issued, revoked or replaced
    in the meantime are thrown away.  The DNS transaction changes nothing in the
    database but the time of the domain's two DNS checks, which are due at once for
    the new claim; the transaction of edge probes of another claim changes nothing at
    all. *)
Theorem stale_observations_discarded id a seen o r zone before edge_due s d :
  load s id = Some d -> claim_version s id <> seen ->
  dns_transaction id a seen o r zone before edge_due s
    = (Ok DNS_SKIPPED,
       s <| db_checks := alter (due_at (db_clock s)) (id, ROUTING)
                           (alter (due_at (db_clock s)) (id, OWNERSHIP) (db_checks s)) |>) /\
  exists p, edge_transaction id a seen o r before s = (Ok p, s) /\
    (pr_status_changed p = true <-> dom_status d <> before).
Proof.
  intros Hd Hv. split.
  - unfold dns_transaction. rewrite bind_run, lock_application_id, bind_run. cbn [get]. rewrite Hd.
    rewrite bool_decide_false by done. cbn [negb]. rewrite bind_run. by destruct s.
  - unfold edge_transaction. rewrite bind_run, lock_application_id, bind_run. cbn [get]. rewrite Hd.
    rewrite bool_decide_false by done. cbn [negb orb]. eexists. split; [reflexivity|]. cbn [pr_status_changed].
    rewrite negb_true_iff. apply bool_decide_eq_false.
Qed.
End Transactions.

Section Progress.
Context `{External, Deployment, HPsl : !PslLaw}.

Lemma schedule_passing check o now :
  passing o = true -> schedule_next check o now = Ok (now + hours 6, dset "attempts" (JInt 0) (oc_details o)).
Proof. intros Hp. unfold schedule_next. by rewrite Hp. Qed.

(** A check that was just recorded as passing. *)
Definition check_passes (s : Db) (id : N) (t : CheckType) : Prop :=
  check_status <$> domain_check s id t = Some PASSING.

(** Both outcomes of a phase pass. *)
Lemma record_two_passing id now t1 t2 o1 o2 s d (fast : bool) :
  db_domains s !! id = Some d -> passing o1 = true -> passing o2 = true -> t1 <> t2 ->
  exists details s1 details2 s2,
    record_outcome id fast now t1 o1 s = (Ok details, s1) /\
    record_outcome id fast now t2 o2 s1 = (Ok details2, s2) /\
    db_domains s2 = db_domains s /\ db_claims s2 = db_claims s /\
    db_applications s2 = db_applications s /\ db_clock s2 = db_clock s /\
    check_passes s2 id t1 /\ check_passes s2 id t2 /\
    (forall t, t <> t1 -> t <> t2 -> domain_check s2 id t = domain_check s id t).
Proof.
  intros Hd Hp1 Hp2 Hne.
  destruct (record_outcome_run id fast now t1 o1 s d _ _ Hd (or_introl Hp1)
    (schedule_passing (domain_check s id t1) o1 now Hp1)) as (s1 & n1 & Hr1 & Ed & Ec & Ea & _ & El & Ek).
  destruct (record_outcome_run id fast now t2 o2 s1 d _ _ (eq_trans (f_equal (lookup id) Ed) Hd) (or_introl Hp2)
    (schedule_passing (domain_check s1 id t2) o2 now Hp2)) as (s2 & n2 & Hr2 & Ed' & Ec' & Ea' & _ & El' & Ek').
  eexists _, s1, _, s2. split; [exact Hr1|]. split; [exact Hr2|].
  split; [congruence|]. split; [congruence|]. split; [congruence|]. split; [congruence|].
  unfold passing in Hp1, Hp2. apply bool_decide_eq_true in Hp1, Hp2.
  unfold check_passes, domain_check. rewrite Ek', Ek. split; [|split].
  - rewrite lookup_insert_ne, lookup_insert_eq by congruence. simpl. by rewrite Hp1.
  - rewrite lookup_insert_eq. simpl. by rewrite Hp2.
  - intros t H1 H2. by rewrite !lookup_insert_ne by congruence.
Qed.

Lemma load_live_row s id d :
  db_domains s !! id = Some d -> live d = true -> dom_status d <> DELETING -> load s id = Some d.
Proof. intros Hd Hl Hs. unfold load. by rewrite Hd, Hl, bool_decide_false. Qed.

(** The status change of the DNS phase when both checks pass. *)
Lemma apply_dns_passing id o r now s d k c :
  Inv None s -> db_domains s !! id = Some d -> live d = true -> dom_status d = PENDING_DNS ->
  active_claim s id = Some (k, c) -> passing o = true -> passing r = true ->
  exists s', apply_dns_outcomes id o r (Some now) s = (Ok tt, s') /\
    db_domains s' = <[id := set_status PROVISIONING now d]> (db_domains s) /\
    (exists c', db_claims s' = <[k := c']> (db_claims s) /\ claim_status c' = VERIFIED /\
                claim_domain_id c' = id) /\
    check_passes s' id OWNERSHIP /\ check_passes s' id ROUTING /\ db_clock s' = db_clock s /\
    db_applications s' = db_applications s.
Proof.
  intros HI Hd Hl Hst Ha Ho Hr. assert (is_deleted d = false) as Hdel by (by apply negb_true_iff).
  pose proof (active_claim_Some _ _ _ _ Ha) as (Hk & Hkd & Hkl).
  destruct (record_two_passing id now OWNERSHIP ROUTING o r s d (fast_recheck_due d now) Hd Ho Hr ltac:(done))
    as (de & s1 & de2 & s2 & R1 & R2 & Ed & Ec & Ea & El & Hc1 & Hc2 & _).
  unfold apply_dns_outcomes. rewrite bind_run. cbn [now_or mret SM_ret].
  rewrite bind_run, the_domain_run, Hd. cbv zeta. rewrite bind_run, R1, bind_run, R2, bind_run. cbn [gets].
  assert (active_claim s2 id = Some (k, c)) as Ha2 by (unfold active_claim, domain_claims; by rewrite Ec).
  rewrite Ha2, Ho, Hr. cbn [andb]. rewrite bind_run.
  assert (db_domains s2 !! id = Some d) as Hd2 by (by rewrite Ed).
  assert (exists s3, (if bool_decide (claim_status c = CLAIM_PENDING)
      then mark_claim_verified id "dns_txt" (Some now) else mret tt) s2 = (Ok tt, s3) /\
    db_domains s3 = db_domains s2 /\ db_checks s3 = db_checks s2 /\ db_clock s3 = db_clock s2 /\
    db_applications s3 = db_applications s2 /\
    exists c', db_claims s3 = <[k := c']> (db_claims s) /\ claim_status c' = VERIFIED /\ claim_domain_id c' = id)
    as (s3 & -> & Ed3 & Ek3 & El3 & Ea3 & Hc3).
  { destruct (bool_decide_reflect (claim_status c = CLAIM_PENDING)) as [Hcp|Hcp].
    - destruct (mark_claim_verified_total id "dns_txt" now s2 d k c Hd2 Hdel Ha2) as [s3 R3].
      exists s3. split; [done|]. apply mark_claim_verified_ok in R3 as (d' & k' & c' & _ & _ & Ha3 & Hf & _).
      assert (k' = k /\ c' = c) as [-> ->] by (split; congruence).
      rewrite (lf_domains _ _ Hf), (lf_checks _ _ Hf), (lf_clock _ _ Hf), (lf_claims _ _ Hf), (lf_applications _ _ Hf).
      unfold with_claim. split; [done|]. split; [done|]. split; [done|]. split; [done|].
      eexists. rewrite <- Ec. split; [reflexivity|]. split; [done|]. exact Hkd.
    - exists s2. split; [done|]. split; [done|]. split; [done|]. split; [done|]. split; [done|].
      exists c. rewrite Ec, insert_id by done. split; [done|]. split; [|done].
      by destruct (claim_status c). }
  rewrite bind_run, the_domain_run, Ed3, Hd2, bind_run. cbn [get].
  rewrite bool_decide_true by (rewrite Hst; set_solver).
  destruct (transition_total id PROVISIONING (Some "dns_verified") now s3 d) as [s4 R4];
    [by rewrite Ed3|done|by rewrite Hst|done|].
  exists s4. split; [exact R4|].
  apply transition_status_ok in R4 as (d4 & Hd4 & _ & [[E _]|[_ []]]).
  { exfalso. rewrite Ed3, Hd2 in Hd4. injection Hd4 as <-. congruence. }
  assert (d4 = d) as -> by congruence.
  rewrite (lf_domains _ _ tr_frame), (lf_claims _ _ tr_frame), (lf_clock _ _ tr_frame), (lf_applications _ _ tr_frame).
  unfold check_passes, domain_check in *. rewrite (lf_checks _ _ tr_frame). unfold with_domain.
  change (db_checks (s3 <| db_domains ::= _ |>)) with (db_checks s3).
  change (db_claims (s3 <| db_domains ::= _ |>)) with (db_claims s3).
  change (db_clock (s3 <| db_domains ::= _ |>)) with (db_clock s3).
  change (db_applications (s3 <| db_domains ::= _ |>)) with (db_applications s3).
  rewrite Ek3. split; [rewrite <- Ed, <- Ed3; reflexivity|]. split; [exact Hc3|].
  split; [done|]. split; [done|]. split; congruence.
Qed.

Lemma passing_decided o : passing o = true -> decided o.
Proof. unfold passing, decided. intros Hp%bool_decide_eq_true. congruence. Qed.

Lemma lease_total id now types force s :
  exists b s', lease_domain id now types force s = (Ok b, s') /\
    db_domains s' = db_domains s /\ db_claims s' = db_claims s /\ same_statuses s s' /\
    db_applications s' = db_applications s.
Proof.
  unfold lease_domain. rewrite bind_run. cbn [get]. rewrite bind_run.
  match goal with |- context [schedule_checks id ?l ?n s] =>
    destruct (schedule_checks_total id l n s) as [s' Hs] end.
  rewrite Hs. eexists _, s'. split; [reflexivity|]. apply schedule_checks_ok in Hs as [E Hst].
  split; [by rewrite E|]. split; [by rewrite E|]. split; [exact Hst|by rewrite E].
Qed.

Lemma check_passes_statuses s s' id t : same_statuses s s' -> check_passes s id t -> check_passes s' id t.
Proof. intros Hs. unfold check_passes, domain_check. by rewrite (Hs (id, t)). Qed.

(** The records of a claim as a resolver answers them: one of the TXT values is the
    claim's but for spaces around it, and CNAME records lead from the hostname to the
    claim's target, through at most eight names that are all different. *)
Inductive cname_path (r : Resolver) : string -> list string -> Prop :=
| path_end name : cname_path r name []
| path_step name next rest :
    r_cname r name = Ok (Some next) -> cname_path r next rest -> cname_path r name (next :: rest).
Record published_for (r : Resolver) (d : Domain) (c : OwnershipClaim) : Prop := {
  pub_txt : exists values v, r_txt r (claim_txt_record_name c) = Ok values /\ v ∈ values /\ strip v = txt_record_value c;
  pub_cname : exists via, cname_path r (dom_hostname d) (via ++ [claim_cname_target c]) /\
    (List.length via < MAX_CNAME_HOPS)%nat /\ NoDup (dom_hostname d :: via ++ [claim_cname_target c]);
}.

Lemma published_ownership r q id k c d :
  active_claim q id = Some (k, c) -> published_for r d c -> passing (ownership_outcome r q id) = true.
Proof.
  intros Ha [(values & v & Ht & Hin & Hv) _]. unfold ownership_outcome. rewrite Ha. cbv zeta. rewrite Ht.
  assert (existsb (fun v => String.eqb (strip v) (txt_record_value c)) values = true) as ->.
  { apply existsb_exists. exists v. split; [by apply list_elem_of_In|]. by apply String.eqb_eq. }
  by destruct values; [apply not_elem_of_nil in Hin|].
Qed.

Lemma mem_str_false k l : mem_str k l = false <-> k ∉ l.
Proof. by rewrite <- mem_str_true, not_true_iff_false. Qed.

Lemma cname_loop_path r target via : forall name first chain n,
  cname_path r name (via ++ [target]) -> (List.length via < n)%nat ->
  NoDup (name :: via ++ [target]) -> (forall x, x ∈ (via ++ [target])%list -> x ∉ chain) ->
  cname_loop r (Some target) n first name chain = Ok (chain ++ via ++ [target])%list.
Proof.
  induction via as [|next via IH]; intros name first chain [|n] Hp Hn Hd Hf; try (simpl in Hn; lia).
  - inversion Hp as [|? ? ? Hc _]; subst. cbn [cname_loop app]. rewrite Hc.
    apply NoDup_cons in Hd as [Hne _].
    rewrite (proj2 (String.eqb_neq target name)) by set_solver.
    rewrite (proj2 (mem_str_false target chain)) by (apply Hf; set_solver). by rewrite String.eqb_refl.
  - cbn [app] in *. inversion Hp as [|? ? ? Hc Hp']; subst. cbn [cname_loop]. rewrite Hc.
    apply NoDup_cons in Hd as [Hne Hd]. pose proof (proj1 (NoDup_cons _ _) Hd) as [Hnt _].
    rewrite (proj2 (String.eqb_neq next name)) by set_solver.
    rewrite (proj2 (mem_str_false next chain)) by (apply Hf; set_solver). cbn [orb].
    rewrite (proj2 (String.eqb_neq next target)) by set_solver.
    rewrite IH; [by rewrite <- app_assoc|done|simpl in Hn; lia|done|].
    intros x Hx Hin. apply elem_of_app in Hin as [Hin| ->%list_elem_of_singleton]; [|by apply Hnt].
    by apply (Hf x); [set_solver|].
Qed.

Lemma published_routing r q id k c d :
  active_claim q id = Some (k, c) -> published_for r d c -> passing (routing_outcome r q id d) = true.
Proof.
  intros Ha [_ (via & Hp & Hn & Hd)]. unfold routing_outcome. rewrite Ha. cbv zeta. unfold cname_chain.
  rewrite (cname_loop_path r _ via _ true [] _ Hp Hn Hd) by set_solver. cbn [app].
  assert (mem_str (claim_cname_target c) (via ++ [claim_cname_target c]) = true) as ->
    by (apply mem_str_true; set_solver).
  by destruct via.
Qed.

(** The row the DNS transaction leaves when both checks pass. *)
Definition verified_row (now : Z) (zone : option string) (d : Domain) : Domain :=
  let d := set_status PROVISIONING now d in
  match zone with
  | Some z => if bool_decide (dom_zone d = Some z) then d else d <| dom_zone := Some z |> <| dom_updated_at := now |>
  | None => d
  end.

Lemma verified_row_same now zone d :
  dom_status (verified_row now zone d) = PROVISIONING /\ live (verified_row now zone d) = live d /\
  dom_application_id (verified_row now zone d) = dom_application_id d.
Proof. unfold verified_row. cbv zeta. destruct zone as [z|]; [destruct (bool_decide _)|]; done. Qed.

Lemma dns_transaction_passing id a o r zone before edge_due s d k c :
  Inv None s -> db_domains s !! id = Some d -> live d = true -> dom_status d = PENDING_DNS ->
  active_claim s id = Some (k, c) -> passing o = true -> passing r = true ->
  exists changed edge s' c', dns_transaction id a (claim_version s id) o r zone before edge_due s
      = (Ok (DNS_APPLIED changed edge), s') /\
    db_domains s' !! id = Some (verified_row (db_clock s) zone d) /\
    db_applications s' = db_applications s /\
    db_claims s' !! k = Some c' /\ claim_status c' = VERIFIED /\ claim_domain_id c' = id /\
    check_passes s' id OWNERSHIP /\ check_passes s' id ROUTING.
Proof.
  intros HI Hd Hl Hst Ha Ho Hr.
  destruct (apply_dns_passing id o r (db_clock s) s d k c HI Hd Hl Hst Ha Ho Hr)
    as (s1 & R1 & Ed1 & (c' & Ec1 & Hc' & Hcd) & Hp1 & Hp2 & El1 & Ea1).
  assert (db_domains s1 !! id = Some (set_status PROVISIONING (db_clock s) d)) as Hd1
    by (rewrite Ed1; apply lookup_insert_eq).
  unfold dns_transaction. rewrite bind_run, lock_application_id, bind_run. cbn [get].
  rewrite (load_live_row s id d Hd Hl) by (by rewrite Hst). rewrite bool_decide_true by done. cbn [negb].
  rewrite bind_run, R1, bind_run, the_domain_run, Hd1, bind_run. cbn [gets]. rewrite bind_run.
  match goal with |- context [(match zone with Some z => @?f z | None => mret tt end) s1] =>
    assert (exists s2, (match zone with Some z => f z | None => mret tt end) s1 = (Ok tt, s2) /\
      db_domains s2 !! id = Some (verified_row (db_clock s) zone d) /\ db_claims s2 = db_claims s1 /\
      db_checks s2 = db_checks s1 /\ db_applications s2 = db_applications s1)
      as (s2 & R2 & Ed2 & Ec2 & Ek2 & Ea2) end.
  { unfold verified_row. cbv zeta. destruct zone as [z|]; [|by exists s1]. cbv beta.
    destruct (bool_decide _); [by exists s1|]. eexists. split; [reflexivity|]. split; [|done].
    cbn. rewrite lookup_alter_eq, Hd1, El1. reflexivity. }
  rewrite R2. cbv zeta. rewrite bind_run.
  match goal with |- context [(if ?b then lease_domain id ?n ?ts true else mret edge_due) s2] =>
    assert (exists e s3, (if b then lease_domain id n ts true else mret edge_due) s2 = (Ok e, s3) /\
      db_domains s3 = db_domains s2 /\ db_claims s3 = db_claims s2 /\ same_statuses s2 s3 /\
      db_applications s3 = db_applications s2) as (e & s3 & R3 & Ed3 & Ec3 & Hs3 & Ea3) end.
  { destruct (_ && _); [apply lease_total|]. by exists edge_due, s2. }
  rewrite R3. eexists _, e, s3, c'. split; [reflexivity|].
  split; [congruence|]. split; [congruence|]. split; [rewrite Ec3, Ec2, Ec1; apply lookup_insert_eq|].
  split; [done|]. split; [done|].
  assert (forall t, check_passes s1 id t -> check_passes s3 id t) as Hk.
  { intros t Ht. eapply check_passes_statuses; [exact Hs3|]. unfold check_passes, domain_check in *. by rewrite Ek2. }
  split; by apply Hk.
Qed.

(** C13: once the customer has published the records, verification completes.  The
    worker looked the records up in a state of the database in which the domain had
    some live claim, and found that claim's TXT value and a CNAME path to its target;
    when the answers are recorded, the domain is still waiting for DNS in an active
    application and the claim is still that one.  Then the transaction succeeds, the
    claim is verified, both DNS checks pass, and the domain is in provisioning and
    entitled to a certificate. *)
Theorem published_dns_verifies id a r zone before edge_due q dq cq kq s d :
  active_claim q id = Some (kq, cq) -> published_for r dq cq ->
  claim_version s id = claim_version q id ->
  Inv None s -> db_domains s !! id = Some d -> live d = true -> dom_status d = PENDING_DNS ->
  application_active s (dom_application_id d) = true ->
  exists s' changed edge d',
    dns_transaction id a (claim_version q id) (ownership_outcome r q id) (routing_outcome r q id dq)
      zone before edge_due s = (Ok (DNS_APPLIED changed edge), s') /\
    db_domains s' !! id = Some d' /\ dom_status d' = PROVISIONING /\ claim_verified s' id = true /\
    check_passes s' id OWNERSHIP /\ check_passes s' id ROUTING /\ certificate_authorized s' id d' = true.
Proof.
  intros Hq Hpub Hv HI Hd Hl Hst Happ.
  pose proof (published_ownership r q id kq cq dq Hq Hpub) as Ho.
  pose proof (published_routing r q id kq cq dq Hq Hpub) as Hr.
  destruct (active_claim s id) as [[k c]|] eqn:Ha; [|unfold claim_version in Hv; by rewrite Ha, Hq in Hv].
  rewrite <- Hv. destruct (dns_transaction_passing id a _ _ zone before edge_due s d k c HI Hd Hl Hst Ha Ho Hr)
    as (b & e & s' & c' & R & Hd' & Ea & Hc & Hcv & Hcd & Hp1 & Hp2).
  destruct (verified_row_same (db_clock s) zone d) as (Es & El & Eapp).
  pose proof (keeps_dns_transaction id a _ _ _ zone before edge_due
    (passing_decided _ Ho) (passing_decided _ Hr) _ _ _ R HI) as HI'.
  assert (claim_verified s' id = true) as Hver by (apply (claim_verified_true _ _ _ HI'); exists k, c'; done).
  eexists s', b, e, _. split; [exact R|]. split; [exact Hd'|]. split; [exact Es|]. split; [exact Hver|].
  split; [done|]. split; [done|]. unfold certificate_authorized.
  rewrite Hl in El. unfold live in El. apply negb_true_iff in El. rewrite El, Es, bool_decide_false by set_solver.
  cbn [negb orb]. rewrite Eapp. unfold application_active in *. by rewrite Ea, Happ, Hver.
Qed.

(** Two passing edge outcomes on a domain whose DNS checks pass and whose claim is
    verified: it becomes ready. *)
Lemma edge_outcomes_ready id certificate origin t d :
  db_domains t !! id = Some d -> is_deleted d = false ->
  dom_status d = PROVISIONING \/ dom_status d = ATTENTION_REQUIRED -> claim_verified t id = true ->
  check_passes t id OWNERSHIP -> check_passes t id ROUTING ->
  passing certificate = true -> passing origin = true ->
  exists s', apply_edge_outcomes id certificate origin (Some (db_clock t)) t = (Ok tt, s') /\
    db_domains s' = <[id := set_status READY (db_clock t) d]> (db_domains t) /\
    db_applications s' = db_applications t /\ db_claims s' = db_claims t /\ checks_passing s' id = true.
Proof.
  intros Hd Hdel Hcases Hcv Hp1 Hp2 Hc Ho.
  destruct (record_two_passing id (db_clock t) CERTIFICATE ORIGIN certificate origin t d false Hd Hc Ho ltac:(done))
    as (de & s1 & de2 & s2 & R1 & R2 & Ed2 & Ec2 & Ea2 & El2 & Hk1 & Hk2 & Hk).
  assert (db_domains s2 !! id = Some d) as Hd2 by (by rewrite Ed2).
  assert (claim_verified s2 id = true) as Hcv2
    by (unfold claim_verified, active_claim, domain_claims in *; by rewrite Ec2).
  assert (checks_passing s2 id = true) as Hall.
  { apply checks_passing_true. intros ty. change (db_checks s2 !! (id, ty)) with (domain_check s2 id ty).
    assert (check_passes s2 id ty) as Hty by (unfold check_passes in *; destruct ty; try done; by rewrite Hk).
    unfold check_passes in Hty. destruct (domain_check s2 id ty) as [x|]; [|done]. injection Hty as Hx. eauto. }
  destruct (transition_total id READY
    (Some (if bool_decide (dom_status d = PROVISIONING) then "readiness_probe_passed" else "recovered"))
    (db_clock t) s2 d) as [s3 R3]; [done|done| |done|].
  { by destruct Hcases as [-> | ->]. }
  pose proof R3 as (d3 & Hd3 & _ & [[E _]|[_ []]])%transition_status_ok.
  { exfalso. assert (d3 = d) as -> by congruence. rewrite <- E in Hcases. by destruct Hcases. }
  assert (d3 = d) as -> by congruence. exists s3. split; [|split; [|split; [|split]]].
  - unfold apply_edge_outcomes. rewrite bind_run. cbn [now_or mret SM_ret].
    rewrite bind_run, R1, bind_run, R2, bind_run, the_domain_run, Hd2, bind_run. cbn [get].
    rewrite bool_decide_true by (destruct Hcases as [-> | ->]; set_solver).
    rewrite Hcv2, Hall. cbn [andb]. cbv zeta. exact R3.
  - rewrite (lf_domains _ _ tr_frame), <- Ed2. reflexivity.
  - rewrite (lf_applications _ _ tr_frame). exact Ea2.
  - rewrite (lf_claims _ _ tr_frame). exact Ec2.
  - assert (db_checks s3 = db_checks s2) as Ek3 by exact (lf_checks _ _ tr_frame).
    unfold checks_passing in *. by rewrite Ek3.
Qed.

(** C14: a domain in provisioning, or one that needs attention, becomes ready in the
    edge transaction in which its last checks pass, and is served from then on. *)
Theorem passing_edge_makes_ready id a certificate origin before s d :
  Inv None s -> db_domains s !! id = Some d -> live d = true ->
  dom_status d ∈ [PROVISIONING; ATTENTION_REQUIRED] ->
  application_active s (dom_application_id d) = true -> claim_verified s id = true ->
  check_passes s id OWNERSHIP -> check_passes s id ROUTING ->
  passing certificate = true -> passing origin = true ->
  exists s' p, edge_transaction id a (claim_version s id) certificate origin before s = (Ok p, s') /\
    pr_done p = true /\
    db_domains s' = <[id := set_status READY (db_clock s) d]> (db_domains s) /\
    is_serveable s' id (set_status READY (db_clock s) d) = true.
Proof.
  intros HI Hd Hl Hst Happ Hcv Hp1 Hp2 Hc Ho.
  assert (dom_status d = PROVISIONING \/ dom_status d = ATTENTION_REQUIRED) as Hcases.
  { apply elem_of_cons in Hst as [?|Hst]; [auto|]. apply list_elem_of_singleton in Hst. auto. }
  clear Hst. destruct (lock_application_run a s) as (t & Hlk & Ea & Et).
  assert (db_domains t = db_domains s /\ db_claims t = db_claims s /\ db_checks t = db_checks s /\
          db_clock t = db_clock s) as (Ed & Ec & Ek & Ecl) by (rewrite Et; done).
  assert (is_deleted d = false) as Hdel by (by apply negb_true_iff).
  assert (db_domains t !! id = Some d) as Hdt by (by rewrite Ed).
  assert (claim_version t id = claim_version s id) as Hv
    by (unfold claim_version, active_claim, domain_claims; by rewrite Ec).
  assert (claim_verified t id = true) as Hcvt
    by (unfold claim_verified, active_claim, domain_claims in *; by rewrite Ec).
  assert (application_active t (dom_application_id d) = true) as Happt
    by (unfold application_active in *; by rewrite Ea).
  assert (eligible_for_edge_checks t id d = true) as He.
  { unfold eligible_for_edge_checks, certificate_authorized. rewrite Hdel, Happt, Hcvt.
    rewrite bool_decide_false; [done|]. by destruct Hcases as [-> | ->]; unfold NOT_ISSUABLE; set_solver. }
  destruct (edge_outcomes_ready id certificate origin t d Hdt Hdel Hcases Hcvt) as (s3 & R & Ed3 & Ea3 & Ec3 & Hall);
    [unfold check_passes, domain_check in *; by rewrite Ek..|done|done|].
  exists s3. eexists. split; [|split; [|split]].
  - unfold edge_transaction. rewrite bind_run, Hlk, bind_run. cbn [get].
    rewrite (load_live_row t id d Hdt Hl) by (by destruct Hcases as [-> | ->]).
    rewrite Hv, bool_decide_true by done. rewrite He. cbn [negb orb].
    rewrite bind_run, R, bind_run, the_domain_run, Ed3, lookup_insert_eq. reflexivity.
  - reflexivity.
  - by rewrite Ed3, Ed, Ecl.
  - unfold is_serveable, application_active in *.
    assert (claim_verified s3 id = claim_verified t id) as ->
      by (unfold claim_verified, active_claim, domain_claims; by rewrite Ec3).
    change (dom_application_id (set_status READY (db_clock s) d)) with (dom_application_id d).
    change (is_deleted (set_status READY (db_clock s) d)) with (is_deleted d).
    by rewrite Hcvt, Hall, Ea3, Ea, Happ, Hdel.
Qed.
End Progress.

Section Loss.
Context `{External, Deployment, HPsl : !PslLaw}.

Lemma schedule_failing check o now n since :
  passing o = false -> counted check n ->
  dget "failing_since" (default [] (check ≫= check_details)) = Some (JStr (isoformat since)) ->
  representable since ->
  exists next details, schedule_next check o now = Ok (next, details) /\ failing_since details = Ok since.
Proof.
  intros Hp [Ha Hn] Hf Hrep. unfold schedule_next. cbv zeta. rewrite Hp, Ha, Hf.
  destruct (backoff_bounds (n + 1) ltac:(lia)) as (d & -> & _). cbn [truthy]. rewrite iso_nonempty. cbn [negb].
  eexists _, _. split; [reflexivity|]. unfold failing_since. by rewrite dget_dset_eq, fromisoformat_isoformat.
Qed.

Lemma schedule_counted check o now n : counted check n -> exists next details, schedule_next check o now = Ok (next, details).
Proof.
  intros [Ha Hn]. unfold schedule_next. cbv zeta. destruct (passing o); [eauto|]. rewrite Ha.
  destruct (backoff_bounds (n + 1) ltac:(lia)) as (d & -> & _). eauto.
Qed.

(** C39: a verified domain that needs attention because its ownership record is gone
    is suspended once the record has been missing for twenty-four hours, counted
    from the first failed check, and not before. *)
Theorem ownership_loss_suspends id o r now s d k c n m since :
  db_domains s !! id = Some d -> live d = true -> dom_status d = ATTENTION_REQUIRED ->
  active_claim s id = Some (k, c) -> claim_status c = VERIFIED -> passing o = false ->
  counted (domain_check s id OWNERSHIP) n -> counted (domain_check s id ROUTING) m ->
  dget "failing_since" (default [] (domain_check s id OWNERSHIP ≫= check_details)) = Some (JStr (isoformat since)) ->
  representable since ->
  exists s', apply_dns_outcomes id o r (Some now) s = (Ok tt, s') /\
    db_domains s' = <[id := if hours 24 <=? now - since then set_status SUSPENDED now d else d]> (db_domains s) /\
    db_claims s' = db_claims s.
Proof.
  intros Hd Hl Hst Ha Hc Ho Hn Hm Hf Hrep. assert (dom_status d <> READY) as Hnr by congruence.
  assert (is_deleted d = false) as Hdel by (by apply negb_true_iff).
  destruct (schedule_failing _ o now n since Ho Hn Hf Hrep) as (x1 & det1 & Hs1 & Hsince).
  destruct (record_outcome_run id (fast_recheck_due d now) now OWNERSHIP o s d _ _ Hd (or_intror Hnr) Hs1)
    as (s1 & n1 & R1 & Ed1 & Ec1 & _ & _ & _ & Ek1).
  destruct (schedule_counted (domain_check s id ROUTING) r now m Hm) as (x2 & det2 & Hs2).
  assert (domain_check s1 id ROUTING = domain_check s id ROUTING) as Er
    by (unfold domain_check; rewrite Ek1, lookup_insert_ne; congruence).
  rewrite <- Er in Hs2.
  destruct (record_outcome_run id (fast_recheck_due d now) now ROUTING r s1 d _ _ (eq_trans (f_equal (lookup id) Ed1) Hd)
    (or_intror Hnr) Hs2) as (s2 & n2 & R2 & Ed2 & Ec2 & _).
  assert (db_domains s2 !! id = Some d) as Hd2 by (by rewrite Ed2, Ed1).
  assert (active_claim s2 id = Some (k, c)) as Ha2 by (unfold active_claim, domain_claims; by rewrite Ec2, Ec1).
  unfold apply_dns_outcomes. rewrite bind_run. cbn [now_or mret SM_ret].
  rewrite bind_run, the_domain_run, Hd. cbv zeta. rewrite bind_run, R1, bind_run, R2, bind_run. cbn [gets].
  rewrite Ha2, Ho. cbn [andb]. rewrite bind_run, the_domain_run, Hd2, Hst, Hc.
  rewrite bool_decide_false, !bool_decide_true by done. cbn [negb andb]. rewrite bind_run. unfold lift.
  rewrite Hsince. unfold OWNERSHIP_LOSS_GRACE.
  destruct (Z.leb_spec (hours 24) (now - since)).
  - destruct (transition_total id SUSPENDED (Some "ownership_lost") now s2 d Hd2 Hdel ltac:(by rewrite Hst) ltac:(done))
      as [s3 R3].
    exists s3. split; [exact R3|]. apply transition_status_ok in R3 as (d3 & Hd3 & _ & [[E _]|[_ []]]).
    { assert (d3 = d) as -> by congruence. congruence. }
    assert (d3 = d) as -> by congruence.
    rewrite (lf_domains _ _ tr_frame), (lf_claims _ _ tr_frame), <- Ed1, <- Ed2.
    split; [reflexivity|]. transitivity (db_claims s2); [reflexivity|congruence].
  - exists s2. split; [done|]. split; [by rewrite insert_id, Ed2|congruence].
Qed.
End Loss.

(** ** The edge outcomes *)

Section Outcomes.
(** the certificate check passes exactly when HTTPS is off, or the hostname
    answers over HTTPS from this edge with a certificate that is valid for longer
    than the warning period: seven days, or a third of its lifetime if shorter. *)
Theorem certificate_passes_exactly prober d settings now :
  passing (certificate_outcome prober d settings now) = true <->
  disable_https settings = true \/
  exists p, probe prober (dom_hostname d) = Ok p /\ ep_status p = 204 /\
    ep_edge_header p = Some EDGE_HEALTH_VALUE /\ now < ep_not_after p /\
    match ep_not_before p with
    | Some from => ep_not_after p - now >= Z.min (days 7) (third (ep_not_after p - from))
    | None => ep_not_after p - now >= days 7
    end.
Proof.
  unfold certificate_outcome. destruct (disable_https settings); [by split; [left|]|].
  destruct (probe prober (dom_hostname d)) as [p|[why message]].
  2:{ split; [done|]. intros [?|(p & ? & _)]; congruence. }
  destruct (Z.eqb_spec (ep_status p) 204) as [Hs|Hs]; cbn [negb orb].
  2:{ split; [done|]. intros [?|(q & [= <-] & ? & _)]; congruence. }
  destruct (bool_decide_reflect (ep_edge_header p = Some EDGE_HEALTH_VALUE)) as [Hh|Hh]; cbn [negb].
  2:{ split; [done|]. intros [?|(q & [= <-] & _ & ? & _)]; congruence. }
  cbv zeta. unfold CERTIFICATE_EXPIRY_WARNING.
  destruct (Z.leb_spec (ep_not_after p - now) 0).
  { split; [done|]. intros [?|(q & [= <-] & _ & _ & ? & _)]; [done|lia]. }
  match goal with |- context [?r <? ?w] => destruct (Z.ltb_spec r w) as [Hw|Hw] end.
  - split; [done|]. intros [?|(q & [= <-] & _ & _ & _ & Hq)]; [done|]. destruct (ep_not_before p); lia.
  - split; [|done]. intros _. right. exists p. split; [done|]. split; [done|]. split; [done|].
    split; [lia|]. destruct (ep_not_before p); lia.
Qed.

(** the origin check passes only for an application whose active origin is
    verified and, unless the application turned the probe off, only when the origin
    answered 200 and named this domain's workspace, and this application if any. *)
Theorem origin_passes_only s d prober :
  passing (origin_outcome s d prober) = true ->
  exists app k o, db_applications s !! dom_application_id d = Some app /\
    active_origin s (dom_application_id d) = Some (k, o) /\ org_status o = ORIGIN_VERIFIED /\
    forall p, prober = Some p -> app_workspace_probe_enabled app = true ->
      exists w, probe_workspace p (dom_hostname d) = Ok w /\ wp_status w = 200 /\
        wp_reference w = Some (dom_reference d) /\
        (wp_application_id w = None \/ wp_application_id w = Some (uuid_str (dom_application_id d))).
Proof.
  unfold origin_outcome, serving_origin. cbv zeta.
  destruct (db_applications s !! dom_application_id d) as [app|] eqn:Happ; [|done].
  destruct (active_origin s (dom_application_id d)) as [[k o]|] eqn:Ho; [|done].
  destruct (bool_decide_reflect (org_status o = ORIGIN_VERIFIED)) as [Hv|]; [|done].
  intros Hp. exists app, k, o. do 3 (split; [done|]). intros p -> He. rewrite He in Hp.
  destruct (probe_workspace p (dom_hostname d)) as [w|[why message]]; [|done].
  destruct (Z.eqb_spec (wp_status w) 200) as [H2|]; [|done]. cbn [negb] in Hp.
  destruct (wp_reference w) as [ref|] eqn:Hr; [|done].
  destruct (String.eqb_spec ref (dom_reference d)) as [->|]; [|done]. cbn [negb orb] in Hp.
  exists w. split; [done|]. split; [done|]. split; [done|].
  destruct (wp_application_id w) as [a|]; [|by left]. right.
  destruct (String.eqb a (uuid_str (dom_application_id d))) eqn:E; [|done].
  apply String.eqb_eq in E. by rewrite E.
Qed.
End Outcomes.

(** ** Witnesses *)

Definition failed_once : DomainCheck := {|
  check_status := FAILING; check_error_code := Some "txt_record_not_found"; check_message := None;
  check_details := Some [("attempts", JInt 1); ("failing_since", JStr (isoformat T0))];
  check_observed_at := Some T0; check_next_check_at := Some (T0 + minutes 1) |}.
Definition missing : Outcome := fail_with "txt_record_not_found" "" [].

Lemma schedule_next_bounds_witness :
  exists next details, schedule_next (Some failed_once) missing (T0 + minutes 1) = Ok (next, details) /\
    T0 + minutes 2 <= next <= T0 + hours 1 + minutes 1 /\ attempts_of details = Ok 2.
Proof.
  destruct (schedule_next_bounds (Some failed_once) missing (T0 + minutes 1) 1)
    as (next & details & Hs & _ & Hf); [split; [reflexivity|lia]|].
  exists next, details. split; [exact Hs|]. destruct (Hf eq_refl) as [Hb Ha].
  split; [|exact Ha]. unfold minutes, hours, seconds in *. lia.
Defined.

Lemma failing_since_survives_witness :
  exists next1 details1, schedule_next None missing T0 = Ok (next1, details1) /\
    failing_since details1 = Ok T0.
Proof.
  destruct (schedule_next None missing T0) as [[next1 details1]|e] eqn:E; [|vm_compute in E; discriminate].
  exists next1, details1. split; [reflexivity|].
  refine (proj1 (failing_since_survives None missing missing T0 (T0 + minutes 1) next1 details1
    (failed_once <| check_details := Some details1 |>) 0 _ _ _ _ _ E _)).
  - reflexivity.
  - reflexivity.
  - unfold representable. vm_compute. split; discriminate.
  - split; [reflexivity|lia].
  - reflexivity.
  - reflexivity.
Defined.

Lemma stale_observations_discarded_witness :
  load claimed 3 = Some (shop_row claimed) /\
  exists p, edge_transaction 3 1 None missing missing PROVISIONING claimed = (Ok p, claimed) /\
    pr_status_changed p = true.
Proof.
  assert (load claimed 3 = Some (shop_row claimed)) as Hl by (vm_compute; reflexivity).
  split; [exact Hl|].
  assert (claim_version claimed 3 <> None) as Hv by (vm_compute; discriminate).
  destruct (stale_observations_discarded 3 1 None missing missing None PROVISIONING false claimed _ Hl Hv)
    as [_ (p & Hs & Hp)].
  exists p. split; [exact Hs|]. apply Hp. vm_compute. discriminate.
Defined.

Definition fine : Outcome := pass_with [].

Lemma published_dns_verifies_witness :
  exists s' changed edge, dns_transaction 3 1 (claim_version claimed 3) (ownership_outcome published claimed 3)
      (routing_outcome published claimed 3 (shop_row claimed)) (Some "customer.example") PENDING_DNS false claimed
    = (Ok (DNS_APPLIED changed edge), s') /\ claim_verified s' 3 = true.
Proof.
  destruct (active_claim claimed 3) as [[k c]|] eqn:Ec; [|vm_compute in Ec; discriminate].
  destruct (published_dns_verifies 3 1 published (Some "customer.example") PENDING_DNS false
    claimed (shop_row claimed) c k claimed (shop_row claimed))
    as (s' & changed & edge & d' & Hs & _ & _ & Hv & _);
    [exact Ec| |reflexivity|apply inv_history|exact claimed_row|vm_compute; reflexivity|vm_compute; reflexivity
    |vm_compute; reflexivity|].
  - vm_compute in Ec. injection Ec as <- <-. split.
    + exists ["v=spf1 -all"; "custom-domain-verify=t5"], "custom-domain-verify=t5".
      split; [vm_compute; reflexivity|]. split; [set_solver|vm_compute; reflexivity].
    + exists []. split; [apply path_step with (rest := []); [vm_compute; reflexivity|constructor]|].
      split; [unfold MAX_CNAME_HOPS; simpl; lia|]. apply (bool_decide_unpack _). vm_compute. exact I.
  - exists s', changed, edge. split; [exact Hs|exact Hv].
Defined.

Lemma passing_edge_makes_ready_witness :
  exists s' p, edge_transaction 3 1 (claim_version with_origin 3) fine fine PROVISIONING with_origin = (Ok p, s') /\
    is_serveable s' 3 (set_status READY (db_clock with_origin) (shop_row with_origin)) = true.
Proof.
  destruct (passing_edge_makes_ready 3 1 fine fine PROVISIONING with_origin (shop_row with_origin))
    as (s' & p & Hs & _ & _ & Hr);
    [apply inv_history|exact with_origin_row|vm_compute; reflexivity|apply (bool_decide_unpack _); vm_compute; exact I
    |vm_compute; reflexivity|vm_compute; reflexivity|vm_compute; reflexivity|vm_compute; reflexivity
    |reflexivity|reflexivity|].
  exists s', p. split; [exact Hs|exact Hr].
Defined.

Lemma ownership_loss_suspends_witness :
  exists s', apply_dns_outcomes 3 missing missing (Some (T0 + minutes 5 + hours 24)) lost = (Ok tt, s') /\
    db_domains s' = <[3%N := set_status SUSPENDED (T0 + minutes 5 + hours 24) (shop_row lost)]> (db_domains lost).
Proof.
  destruct (active_claim lost 3) as [[k c]|] eqn:Ec; [|vm_compute in Ec; discriminate].
  assert (claim_status c = VERIFIED) as Hc by (vm_compute in Ec; injection Ec as <- <-; reflexivity).
  destruct (ownership_loss_suspends 3 missing missing (T0 + minutes 5 + hours 24) lost (shop_row lost) k c 1 1
    (T0 + minutes 5)) as (s' & Hs & Hd & _);
    [exact lost_row|vm_compute; reflexivity|vm_compute; reflexivity|exact Ec|exact Hc|reflexivity
    |split; [vm_compute; reflexivity|lia]|split; [vm_compute; reflexivity|lia]|vm_compute; reflexivity
    |unfold representable; vm_compute; split; discriminate|].
  exists s'. split; [exact Hs|]. rewrite Hd.
  replace (hours 24 <=? T0 + minutes 5 + hours 24 - (T0 + minutes 5)) with true by (vm_compute; reflexivity).
  reflexivity.
Defined.

Lemma origin_passes_only_witness :
  passing (origin_outcome with_origin (shop_row with_origin) (Some healthy)) = true /\
  exists k o, active_origin with_origin 1 = Some (k, o) /\ org_status o = ORIGIN_VERIFIED.
Proof.
  assert (passing (origin_outcome with_origin (shop_row with_origin) (Some healthy)) = true) as Hp
    by (vm_compute; reflexivity).
  split; [exact Hp|].
  destruct (origin_passes_only with_origin (shop_row with_origin) (Some healthy) Hp)
    as (app & k & o & _ & Ha & Ho & _).
  exists k, o. split; [|exact Ho]. rewrite <- Ha. f_equal.
Defined.
