(* ===== verification/ApplicationProps.v ===== *)
(** * Properties of applications, credentials and origins (app/services/applications.py) *)

From Stdlib Require Import Ascii String ZArith Lia.
From stdpp Require Import base gmap strings list sets sorting.
From S2P Require Import Prelude PyStr Datetime Json Errors External Models Hostname Dns DnsSetup.
From S2P Require Import Sample Schemas Webhooks Limits Domains DomainFacts DomainInv ConnectFlow.
From S2P Require Import DnsChecks EdgeChecks Applications Worker Legacy Frames Lifecycle Stepwise.
From S2P Require Import History DomainProps Demo.
Open Scope string_scope.
Open Scope Z_scope.

(** ** Origins *)

Section Origins.
Context `{External, Deployment}.

Lemma the_origin_ok k s o s' : the_origin k s = (Ok o, s') -> s' = s /\ db_origins s !! k = Some o.
Proof.
  unfold the_origin. rewrite bind_run. cbn [gets].
  destruct (db_origins s !! k); [|done]. by intros [= -> <-].
Qed.

(** What activating origin [k] of application [a] does to origin [j]. *)
Definition activated (a k j : N) (clock : Z) (o : VerifiedOrigin) : VerifiedOrigin :=
  if bool_decide (j = k) then
    if org_is_active o then o else o <| org_is_active := true |> <| org_updated_at := clock |>
  else if bool_decide (org_application_id o = a) && org_is_active o
  then o <| org_is_active := false |> <| org_updated_at := clock |> else o.

Lemma activate_origin_ok k s s' :
  activate_origin k s = (Ok tt, s') ->
  exists o, db_origins s !! k = Some o /\ org_status o = ORIGIN_VERIFIED /\
    forall j, db_origins s' !! j = activated (org_application_id o) k j (db_clock s) <$> db_origins s !! j.
Proof.
  unfold activate_origin. intros (o & t & [-> Ho]%the_origin_ok & Hr)%bind_ok.
  rewrite bind_run, guard_run in Hr. destruct (bool_decide_reflect (org_status o = ORIGIN_VERIFIED)) as [Hv|]; [|done].
  rewrite bind_run in Hr. cbn [modify] in Hr. set (s1 := deactivate_others (org_application_id o) k s) in Hr.
  assert (db_clock s1 = db_clock s) as Ecl by done.
  assert (db_origins s1 = map_imap (fun j o' =>
    Some (if bool_decide (org_application_id o' = org_application_id o) && negb (j =? k)%N && org_is_active o'
          then o' <| org_is_active := false |> <| org_updated_at := db_clock s |> else o')) (db_origins s)) as E1 by done.
  clearbody s1. unfold flush_origin in Hr. cbn [modify] in Hr.
  assert (s' = s1 <| db_origins ::= alter (fun r => if bool_decide (r <| org_is_active := true |> = r) then r
    else (r <| org_is_active := true |>) <| org_updated_at := db_clock s1 |>) k |>) as -> by (injection Hr as <-; reflexivity).
  exists o. split; [done|]. split; [done|]. intros j. rewrite Ecl.
  change (db_origins (s1 <| db_origins ::= ?f |>)) with (f (db_origins s1)). rewrite E1.
  rewrite lookup_alter, !map_lookup_imap. unfold activated.
  destruct (decide (k = j)) as [->|Hne].
  - rewrite Ho. simpl. rewrite N.eqb_refl. cbn [negb]. rewrite andb_false_r. cbn [andb].
    rewrite (bool_decide_true (j = j)) by done. f_equal.
    destruct (org_is_active o) eqn:Ha.
    + rewrite bool_decide_true; [done|]. destruct o; simpl in Ha; subst; reflexivity.
    + rewrite bool_decide_false; [done|]. intros E. apply (f_equal org_is_active) in E. simpl in E. congruence.
  - rewrite (bool_decide_false (j = k)) by congruence.
    destruct (db_origins s !! j) as [p|]; [|done]. simpl.
    rewrite (proj2 (N.eqb_neq j k)) by congruence. cbn [negb]. by rewrite andb_true_r.
Qed.

(** activating an origin requires that it is verified and leaves it the only
    active origin of its application, which is then served from it; origins of
    other applications keep their state. *)
Theorem activation_is_exclusive k s s' :
  activate_origin k s = (Ok tt, s') ->
  exists o o', db_origins s !! k = Some o /\ org_status o = ORIGIN_VERIFIED /\
    serving_origin s' (org_application_id o) = Some (k, o') /\ org_host o' = org_host o /\
    (forall j p, db_origins s' !! j = Some p -> org_application_id p = org_application_id o ->
       org_is_active p = true <-> j = k) /\
    (forall j p, db_origins s !! j = Some p -> org_application_id p <> org_application_id o ->
       db_origins s' !! j = Some p).
Proof.
  intros (o & Ho & Hv & Hall)%activate_origin_ok.
  assert (forall j p, db_origins s' !! j = Some p -> org_application_id p = org_application_id o ->
    org_is_active p = true <-> j = k) as Hex.
  { intros j p Hj Hp. rewrite Hall in Hj. destruct (db_origins s !! j) as [q|] eqn:Hq; [|done].
    injection Hj as <-. unfold activated in *. destruct (bool_decide_reflect (j = k)) as [->|Hne].
    - split; [done|]. intros _. by destruct (org_is_active q) eqn:E.
    - assert (org_application_id q = org_application_id o) as Hqa by (by destruct (_ && _)).
      rewrite (bool_decide_true _ Hqa) in *. cbn [andb].
      by destruct (org_is_active q) eqn:E; rewrite ?E. }
  pose proof (Hall k) as Hk. rewrite Ho in Hk. cbn [fmap option_fmap option_map] in Hk.
  set (o' := activated _ _ _ _ o) in Hk.
  assert (org_application_id o' = org_application_id o /\ org_status o' = org_status o /\ org_host o' = org_host o)
    as (Ea & Es & Eh).
  { unfold o', activated. rewrite bool_decide_true by done. by destruct (org_is_active o). }
  exists o, o'. split; [done|]. split; [done|]. split; [|split; [done|split; [exact Hex|]]].
  - unfold serving_origin. destruct (active_origin s' (org_application_id o)) as [[j p]|] eqn:Hact.
    + apply active_origin_Some in Hact as (Hj & Hp & Hpa). apply (Hex j p Hj Hp) in Hpa as ->.
      assert (p = o') as -> by congruence. by rewrite Es, bool_decide_true.
    + exfalso. unfold active_origin in Hact. refine (head_filter_None _ _ (k, o') Hact _ _).
      * unfold application_origins. rewrite elem_select_rows, bool_decide_eq_true. done.
      * simpl. by apply (Hex k o' Hk Ea).
  - intros j p Hj Hp. rewrite Hall, Hj. simpl. unfold activated.
    rewrite bool_decide_false by congruence. by rewrite bool_decide_false.
Qed.
End Origins.

(** ** Credentials *)

Section Credentials.
Context `{External, Deployment}.

Lemma insert_credential_ok c s k s' :
  insert_credential c s = (Ok k, s') ->
  (forall j r, db_credentials s !! j = Some r -> cred_key_hash r <> cred_key_hash c) /\
  db_credentials s !! k = None /\ db_credentials s' = <[k := c]> (db_credentials s) /\
  db_applications s' = db_applications s /\ db_clock s' = db_clock s.
Proof.
  unfold insert_credential. rewrite bind_run. cbn [get]. rewrite bind_run, guard_run.
  destruct (negb _) eqn:E; [|done]. rewrite bind_run. unfold fresh at 1. rewrite bind_run, guard_run.
  destruct (bool_decide_reflect (db_credentials s !! db_next s = None)) as [Hn|]; [|done].
  rewrite bind_run. cbn [modify mret SM_ret]. intros [= <- <-]. apply negb_true_iff in E. split.
  - intros j r Hj Hh. rewrite <- not_true_iff_false in E. apply E.
    apply (proj2 (existsb_rows (fun r => String.eqb (cred_key_hash r) (cred_key_hash c)) (db_credentials s))).
    exists j, r. by rewrite String.eqb_eq.
  - done.
Qed.

Lemma issue_credential_ok a label expires scope s k secret s' :
  issue_credential a label expires scope s = (Ok (k, secret), s') ->
  exists c sc, credential_scope scope = Ok sc /\
    db_credentials s' = <[k := c]> (db_credentials s) /\ db_credentials s !! k = None /\
    db_applications s' = db_applications s /\ db_clock s' = db_clock s /\
    (forall j r, db_credentials s !! j = Some r -> cred_key_hash r <> cred_key_hash c) /\
    startswith SECRET_PREFIX secret = true /\ secret <> "" /\ cred_key_hash c = hash_secret secret /\
    cred_application_id c = a /\ cred_expires_at c = expires /\ cred_revoked_at c = None /\ cred_scope c = sc.
Proof.
  unfold issue_credential, generate_secret.
  intros ([] & t & Hg & Hr)%bind_ok. rewrite guard_run in Hg.
  destruct (negb _); [injection Hg as <-|done].
  apply bind_ok in Hr as (sc & t & Hs & Hr). unfold lift in Hs. injection Hs as Hs <-.
  apply bind_ok in Hr as (sec & t & Hsec & Hr). rewrite bind_run in Hsec. unfold fresh in Hsec.
  cbn [mret SM_ret] in Hsec. injection Hsec as <- <-.
  rewrite bind_run in Hr. cbn [gets] in Hr.
  apply bind_ok in Hr as (j & t & (Hu & Hn & Ec & Ea & El)%insert_credential_ok & Hr).
  cbn [mret SM_ret] in Hr. injection Hr as <- <- <-.
  eexists _, sc. split; [done|]. split; [exact Ec|]. split; [exact Hn|]. split; [exact Ea|].
  split; [exact El|]. split; [exact Hu|]. split; [exact (startswith_app SECRET_PREFIX _)|]. done.
Qed.

Lemma credential_by_hash_unique s k c :
  db_credentials s !! k = Some c ->
  (forall j r, db_credentials s !! j = Some r -> cred_key_hash r = cred_key_hash c -> j = k) ->
  credential_by_hash s (cred_key_hash c) = Some (k, c).
Proof.
  intros Hk Hu. unfold credential_by_hash.
  destruct (head _) as [[j r]|] eqn:Hh.
  - apply head_filter_Some in Hh as [Hin Hr]. apply elem_of_map_to_list in Hin. simpl in Hr.
    assert (j = k) as -> by eauto. congruence.
  - exfalso. refine (head_filter_None _ _ (k, c) Hh _ _); [by apply elem_of_map_to_list|done].
Qed.

(** an API secret authenticates from the moment it is issued: it is accepted,
    for the application it was issued to and with its scope, as long as it is not
    expired and the application is active. *)
Theorem issued_secret_authenticates a label expires scope s k secret s' app now :
  issue_credential a label expires scope s = (Ok (k, secret), s') ->
  db_applications s !! a = Some app -> app_status app = ACTIVE ->
  match expires with Some e => now < e | None => True end ->
  exists c s'', authenticate_credential (Some secret) (Some now) s' = (Ok (k, c), s'') /\
    cred_application_id c = a /\ credential_scope scope = Ok (cred_scope c).
Proof.
  intros (c & sc & Hs & Ec & Hn & Ea & _ & Hu & Hp & Hne & Hh & Hca & He & Hrev & Hsc)%issue_credential_ok Happ Hact Hexp.
  assert (db_credentials s' !! k = Some c) as Hk by (by rewrite Ec, lookup_insert_eq).
  assert (credential_by_hash s' (hash_secret secret) = Some (k, c)) as Hby.
  { rewrite <- Hh. apply credential_by_hash_unique; [done|]. intros j r Hj Hjr.
    rewrite Ec, lookup_insert_Some in Hj. destruct Hj as [[-> _]|[_ Hj]]; [done|]. by destruct (Hu _ _ Hj). }
  unfold authenticate_credential.
  assert (nonempty (Some secret) = Some secret) as -> by (unfold nonempty; by destruct secret).
  cbn [need]. rewrite bind_run. cbn [mret SM_ret]. rewrite bind_run, guard_run, Hp.
  rewrite bind_run. cbn [now_or mret SM_ret]. rewrite bind_run. cbn [gets]. rewrite Hby. cbn [need].
  rewrite bind_run. cbn [mret SM_ret]. rewrite bind_run, guard_run.
  assert (credential_is_usable c now = true) as ->.
  { unfold credential_is_usable. rewrite Hrev, He. simpl. destruct expires; [by apply Z.ltb_lt|done]. }
  rewrite bind_run. unfold the_application. rewrite bind_run. cbn [gets]. rewrite Ea, Hca, Happ. cbn [need mret SM_ret].
  rewrite bind_run, guard_run, (bool_decide_true _ Hact), bind_run.
  eexists c, _. split; [reflexivity|]. split; [done|]. by rewrite Hsc.
Qed.

(** whoever authenticates holds a secret whose hash is stored for a credential
    that is neither revoked nor expired, of an application that is active; nothing
    but the time of last use changes. *)
Theorem authentication_sound secret now s k c s' :
  authenticate_credential secret (Some now) s = (Ok (k, c), s') ->
  exists x app, secret = Some x /\ db_credentials s !! k = Some c /\ cred_key_hash c = hash_secret x /\
    cred_revoked_at c = None /\ (forall e, cred_expires_at c = Some e -> now < e) /\
    db_applications s !! cred_application_id c = Some app /\ app_status app = ACTIVE /\
    core_frame s s' /\
    forall j, (fun r => (cred_application_id r, cred_key_hash r, cred_scope r, cred_expires_at r, cred_revoked_at r))
                <$> db_credentials s' !! j =
              (fun r => (cred_application_id r, cred_key_hash r, cred_scope r, cred_expires_at r, cred_revoked_at r))
                <$> db_credentials s !! j.
Proof.
  intros Hr. pose proof (mono_ok _ _ _ _ _ (core_authenticate secret (Some now)) Hr) as Hcore.
  apply authenticate_credential_ok in Hr as (x & app & -> & Hk & Hh & Hus & Happ & Hact & ->).
  exists x, app. unfold credential_is_usable in Hus. apply andb_prop in Hus as [Hrev%bool_decide_eq_true Hex].
  split_and!; try done; [intros e He; rewrite He in Hex; by apply Z.ltb_lt|]. apply used_frame.
Qed.
End Credentials.

(** ** Witnesses *)

Lemma activation_is_exclusive_witness :
  exists o o', db_origins with_origin !! 13%N = Some o /\
    serving_origin (activate_origin 13 with_origin).2 (org_application_id o) = Some (13%N, o').
Proof.
  assert ((activate_origin 13 with_origin).1 = Ok tt) as E by (vm_compute; reflexivity).
  destruct (activation_is_exclusive 13 with_origin _ (value_run _ _ _ E)) as (o & o' & Ho & _ & Hs & _).
  exists o, o'. split; [exact Ho|exact Hs].
Defined.

Lemma issued_secret_authenticates_witness :
  exists k secret c, (issue_credential 1 "ci" None "read" start).1 = Ok (k, secret) /\
    (authenticate_credential (Some secret) (Some T0) (issue_credential 1 "ci" None "read" start).2).1 = Ok (k, c) /\
    cred_application_id c = 1%N.
Proof.
  assert (exists p, (issue_credential 1 "ci" None "read" start).1 = Ok p) as [[k secret] E]
    by (eexists; vm_compute; reflexivity).
  assert (exists app, db_applications start !! 1%N = Some app /\ app_status app = ACTIVE) as (app & Ha & Hs)
    by (eexists; split; vm_compute; reflexivity).
  destruct (issued_secret_authenticates 1 "ci" None "read" start k secret _ app T0 (value_run _ _ _ E) Ha Hs I)
    as (c & s'' & Hr & Hc & _).
  exists k, secret, c. split; [exact E|]. split; [exact (f_equal fst Hr)|exact Hc].
Defined.

Lemma authentication_sound_witness :
  let s := (issue_credential 1 "ci" None "full" start).2 in
  exists k c, (authenticate_credential (Some "cd_t3") (Some T0) s).1 = Ok (k, c) /\ cred_revoked_at c = None.
Proof.
  intros s.
  assert (exists p, (authenticate_credential (Some "cd_t3") (Some T0) s).1 = Ok p) as [[k c] E]
    by (eexists; vm_compute; reflexivity).
  destruct (authentication_sound (Some "cd_t3") T0 s k c _ (value_run _ _ _ E)) as (x & app & _ & _ & _ & Hr & _).
  exists k, c. split; [exact E|exact Hr].
Defined.
