(* ===== verification/SdkDemo.v ===== *)
(** * A sample application that uses the SDK

    The application behind the sample edge wraps itself in the middleware, reads the
    sample deliveries and creates domains over a network that loses answers; the
    witnesses of the properties of the SDK. *)

From Stdlib Require Import Ascii String ZArith Lia.
From stdpp Require Import base gmap strings list sets sorting.
From S2P Require Import Prelude SdkModels PyStr Datetime Json JsonText Errors External Assertion Models Hostname EdgeSettings.
From S2P Require Import Egress Dns DnsSetup DnsChecks Sample Schemas Webhooks Delivery Limits Domains DomainInv Idempotency EdgeChecks.
From S2P Require Import Applications Api EdgeConfig EdgeProbe Sdk SdkClient Internal SdkProps.
From S2P Require Import Lifecycle Demo EdgeDemo SurfaceDemo SdkApi.
Open Scope string_scope.
Open Scope Z_scope.

(** ** The middleware *)

Definition middleware : CustomDomainMiddleware := {|
  mw_resolver := {| wr_keys := origin_keys; wr_application_id := uuid_str 1; wr_skew := 30; wr_host_header := "customer" |};
  mw_on_missing := "reject"; mw_state_key := "custom_domain" |}.

(** The visitor's request as the edge forwards it. *)
Definition forwarded (path : string) : Scope := {|
  sc_type := Some "http"; sc_method := Some "GET"; sc_path := Some path;
  sc_headers := [("host", "Shop.customer.example:443"); (HEADER, visit_token)]; sc_state := None |}.
Definition serves (reference : string) : bool := String.eqb reference "ws1".

Lemma middleware_made :
  CustomDomainMiddleware_init origin_keys (uuid_str 1) "reject" "custom_domain" "customer" = Ok middleware.
Proof. reflexivity. Qed.

Lemma forwarded_checked path : path <> ORIGIN_VERIFICATION_PATH -> checked_request (forwarded path).
Proof. intros Hp. split; [reflexivity|]. intros [E _]. injection E. exact Hp. Qed.

Lemma middleware_admits_only_asserted_witness :
  exists scope' a, call serves middleware (forwarded "/") arrival = (scope', Called) /\
    authentic (mw_resolver middleware) (forwarded "/") arrival a /\
    scope' = with_state middleware (Some a) (forwarded "/").
Proof.
  destruct (call serves middleware (forwarded "/") arrival) as [scope' outcome] eqn:E.
  assert (outcome = Called) as -> by (vm_compute in E; congruence).
  destruct (middleware_admits_only_asserted serves middleware (forwarded "/") arrival scope' Called
              (forwarded_checked "/" ltac:(discriminate)) E) as [Hcalled _].
  destruct (Hcalled eq_refl) as (o & Hs & Ho). destruct o as [a|].
  - exists scope', a. split; [reflexivity|]. split; [exact Ho|exact Hs].
  - exfalso. destruct Ho as [Ho _]. discriminate Ho.
Defined.

Lemma visit_admitted hostname id d key_id key :
  admitted edge visit ready hostname id d key_id key visit_token ->
  hostname = shop /\ id = 3%N /\ d = ready_row /\ key_id = "2" /\ key = edge_secret.
Proof.
  intros [_ _ (host & Hh & Hc) _ (canonical & Hc' & Hl) _ _ Hk _].
  assert (host = "Shop.customer.example:443") as -> by (vm_compute in Hh; congruence).
  assert (hostname = shop) as -> by (vm_compute in Hc; vm_compute; congruence).
  assert (canonical = shop) as -> by (vm_compute in Hc'; vm_compute; congruence).
  assert (live_by_hostname ready shop = Some (3%N, ready_row)) as Hr by (vm_compute; reflexivity).
  pose proof (eq_trans (eq_sym Hr) Hl) as [= <- <-].
  assert (assertion_key edge ready (dom_application_id ready_row) = Some ("2", edge_secret)) as Hr' by (vm_compute; reflexivity).
  pose proof (eq_trans (eq_sym Hr') Hk) as [= <- <-]. repeat split.
Qed.

Lemma visit_delivered path :
  path <> ORIGIN_VERIFICATION_PATH ->
  delivered middleware (forwarded path) arrival edge ready ready_row shop "2" edge_secret visit_token.
Proof.
  intros Hp. constructor; [reflexivity..| | | |].
  - split; vm_compute; discriminate.
  - by apply forwarded_checked.
  - vm_compute. reflexivity.
  - exists "Shop.customer.example:443". split; vm_compute; reflexivity.
Qed.

Lemma asserted_request_reaches_its_workspace_witness :
  call serves middleware (forwarded "/") arrival =
    (with_state middleware (Some (signed_assertion edge visit ready 3 ready_row shop "2")) (forwarded "/"), Called) /\
  (call serves middleware (forwarded WORKSPACE_PATH) arrival).2 =
    json_reply 200 [("reference", "ws1"); ("application", uuid_str 1)].
Proof.
  destruct (asserted_request_reaches_its_workspace serves (Some edge) visit ready visit_answer visit_token
              visit_answered visit_asserted) as (st & hostname & id & d & key_id & key & Hst & Had & Hall).
  injection Hst as <-. destruct (visit_admitted hostname id d key_id key Had) as (-> & -> & -> & -> & ->). split.
  - refine (proj1 (proj1 (Hall middleware (forwarded "/") arrival (visit_delivered "/" _)) eq_refl eq_refl eq_refl) _); discriminate.
  - refine (proj2 (proj1 (Hall middleware (forwarded WORKSPACE_PATH) arrival (visit_delivered WORKSPACE_PATH _))
              eq_refl eq_refl eq_refl) eq_refl).
    discriminate.
Defined.

(** ** The probe of its workspace *)

Definition workspace_reply : string :=
  match (call serves middleware (forwarded WORKSPACE_PATH) arrival).2 with
  | Replied [_; ResponseBody body] => body | _ => "" end.
(** The application's answer, with a header an intermediary added. *)
Definition probe_wire : ProbeWire := {|
  wire_connect := fun _ _ => Ok tt;
  wire_handshake := fun _ _ _ _ => Ok {| cert_not_after := 0; cert_not_before := None; cert_issuer := [] |};
  wire_exchange := fun _ => Ok {| hr_status := 200; hr_headers := [("Via", "proxy")]; hr_body := workspace_reply |};
  gaierror_text := fun _ _ => "" |}.

Lemma sdk_application_passes_origin_check_witness :
  exists p, workspace_exchange probe_wire shop "192.0.2.1" 443 (Some shop) WORKSPACE_PATH = Ok p /\
    passing (origin_outcome ready ready_row (Some {| probe := fun _ => Err ("", ""); probe_workspace := fun _ => Ok p |})) = true.
Proof.
  destruct (sdk_application_passes_origin_check serves (Some edge) visit ready visit_answer visit_token
              visit_answered visit_asserted) as (st & hostname & id & d & key_id & key & Hst & Had & Hall).
  injection Hst as <-. destruct (visit_admitted hostname id d key_id key Had) as (-> & -> & -> & -> & ->).
  destruct (Hall middleware (forwarded WORKSPACE_PATH) arrival eq_refl ltac:(vm_compute; lia) eq_refl eq_refl
              (visit_delivered WORKSPACE_PATH ltac:(discriminate)) eq_refl eq_refl) as (start & body & Hcall & Hprobe).
  assert (body = workspace_reply) as -> by (unfold workspace_reply; rewrite Hcall; reflexivity).
  destruct (Hprobe probe_wire "192.0.2.1" 443 (Some shop) [("Via", "proxy")] eq_refl) as (p & Hp & Hpass).
  exists p. split; [exact Hp|]. apply Hpass. reflexivity.
Defined.

(** ** The client's requests *)

Definition shop_client : Client := {| client_base_url := "https://domains.example"; client_credential := "cd_abc"; client_max_retries := 2 |}.
Lemma shop_client_made : Client_init "https://domains.example/" "cd_abc" 2 = Ok shop_client.
Proof. reflexivity. Qed.

(** Answers in the order they arrive; then silence. *)
Definition script : Type := list (res string Response).
Definition played (rq : ClientRequest) (answers : script) : res string Response * script :=
  match answers with [] => (Err "timed out", []) | a :: rest => (a, rest) end.
Definition unavailable : Response := {| resp_status := 503; resp_headers := []; resp_text := "busy" |}.
Definition slow_down : Response :=
  {| resp_status := 429; resp_headers := [("retry-after", "7")]; resp_text := "" |}.
Definition empty_list : Response := {| resp_status := 200; resp_headers := []; resp_text := "[]" |}.
Definition bad_day : script := [Ok unavailable; Ok slow_down; Ok empty_list].

Lemma requests_are_bounded_witness :
  exists w' l, request (logged_send played) (logged_sleep (fun _ w => w)) shop_client "GET" "/v1/webhooks" None [] [] true
      (bad_day, []) = (Ok empty_list, (w', l)) /\ List.length l = 3%nat /\ 3 <= client_max_retries shop_client + 1 /\
    Forall worth_retrying (tail l).
Proof.
  destruct (request (logged_send played) (logged_sleep (fun _ w => w)) shop_client "GET" "/v1/webhooks" None [] [] true
      (bad_day, [])) as [r [w' l]] eqn:E.
  assert (r = Ok empty_list /\ List.length l = 3%nat) as [-> Hl].
  { pose proof E as E'. vm_compute in E'. injection E' as <- <- <-. split; reflexivity. }
  exists w', l. split; [reflexivity|]. split; [exact Hl|].
  destruct (requests_are_bounded played (fun _ w => w) shop_client "GET" "/v1/webhooks" None [] [] true bad_day _ _ _ E
              ltac:(vm_compute; discriminate)) as ([_ Hn] & _ & Hall). rewrite Hl in Hn. split; [exact Hn|exact Hall].
Defined.

(** ** A delivery, read *)

#[export] Instance sample_pydantic : PydanticLaw.
Proof. intros t Ht. apply (fromisoformat_written "Z"); [by right|exact Ht]. Qed.

Definition deleted_row : Domain :=
  ltac:(let r := eval vm_compute in (db_domains hooked !! 5%N) in match r with Some ?d => exact d end).
Definition deleted_event : DomainEvent :=
  ltac:(let r := eval vm_compute in (List.find (fun e => N.eqb (event_id e) 11) (db_events hooked)) in
        match r with Some ?e => exact e end).
Definition deleted_resource : DomainResource :=
  ltac:(let r := eval vm_compute in (domain_resource hooked 5 deleted_row) in match r with Ok ?x => exact x end).

Lemma delivery_reaches_consumer_witness :
  let rq := attempt_request 12 queued hook (T0 + hours 1) in
  verify_webhook (sget Delivery.HEADER (rq_headers rq)) (rq_body rq) ["whsec_t3"] (Z.quot (T0 + hours 1) 1000000 + 20) 300
    = Ok (Z.quot (T0 + hours 1) 1000000) /\
  SdkModels.parse_event (rq_body rq) = Ok (event_view deleted_event "domain.deleted" deleted_resource (del_payload queued)).
Proof.
  apply (delivery_reaches_consumer hooked deleted_event "domain.deleted" 5 deleted_row (del_payload queued) deleted_resource
           12 queued hook (T0 + hours 1) "whsec_t3" (Z.quot (T0 + hours 1) 1000000 + 20) 300).
  - vm_compute. reflexivity.
  - vm_compute. reflexivity.
  - reflexivity.
  - match goal with |- printable ?p => let p' := eval vm_compute in p in change (printable p') end. plain.
  - constructor; [vm_compute; split; discriminate|vm_compute; split; discriminate| | |].
    + vm_compute. split; discriminate.
    + exact I.
    + repeat (apply Forall_cons; split); try apply Forall_nil; split; exact I.
  - vm_compute. split; discriminate.
  - left. vm_compute. reflexivity.
  - vm_compute. discriminate.
Defined.

(** ** A create whose first answer is lost *)

Definition served (rq : ClientRequest) : Db -> res exn ApiAnswer * Db := Api.create_domain 1 new_shop (Some "retry-9").
Definition written (r : res exn ApiAnswer) : Response :=
  match r with
  | Ok a => {| resp_status := api_status a; resp_headers := []; resp_text := print false (api_body a) |}
  | Err _ => {| resp_status := 500; resp_headers := []; resp_text := "{}" |}
  end.
Definition weather (n : nat) : fate :=
  match n with O => AnswerLost "read timed out" | 1%nat => ProxyRefuses unavailable | _ => Answered end.
Definition retried : res client_failure SdkModels.Domain * World :=
  SdkClient.create_domain (send served written weather) wait shop_client "www.shop.example" "ws9" None (Some "retry-9")
    {| w_db := ready; w_sent := O |}.

Lemma served_creates : forall rq, handles_create 1 new_shop "retry-9" served rq.
Proof. intros rq s. exists s. split; [constructor; done || lia|]. left. reflexivity. Qed.
Lemma written_answers : writes_answers written.
Proof. split; [intros e; vm_compute; discriminate|]. intros answer Hp. exact (loads_print false (api_body answer) Hp). Qed.
Lemma weather_refuses : proxies_refuse weather.
Proof. intros [|[|n]] response; intros [=]. subst. vm_compute. discriminate. Qed.

Lemma retried_create_registers_once_witness :
  w_sent retried.2 = 3%nat /\ (exists o, retried.1 = Ok o) /\
  exists id t, db_domains ready !! id = None /\
    db_domains (w_db retried.2) = <[id := new_domain 1 "www.shop.example" "ws9" None t]> (db_domains ready).
Proof.
  split; [vm_compute; reflexivity|].
  assert (exists o, retried.1 = Ok o) as [o Ho] by (vm_compute; eauto). split; [exists o; exact Ho|].
  destruct retried as [r w'] eqn:E. cbn [fst snd] in *.
  assert (db_clock (w_db w') < db_clock ready + IDEMPOTENCY_TTL) as Hc.
  { replace w' with retried.2 by (rewrite E; reflexivity). vm_compute. reflexivity. }
  destruct (retried_create_registers_once 1 new_shop "retry-9" served written weather shop_client ready r w'
              ltac:(discriminate) ltac:(vm_compute; reflexivity) ltac:(vm_compute; eauto)
              (fun rq _ _ _ _ => served_creates rq) written_answers weather_refuses E Hc)
    as [[_ Hno]|(id & canonical & t & Hcan & Hfree & Hrow & _)].
  - exfalso. exact (Hno o Ho).
  - exists id, t. split; [exact Hfree|]. assert (canonical = "www.shop.example") as -> by (vm_compute in Hcan; congruence).
    exact Hrow.
Defined.

(** ** Two domains on two pages *)

(** The state after the first create: domains 3 and 17. *)
Definition two : Db := first_create.2.
Definition listing (rq : ClientRequest) (w : unit) : res string Response * unit :=
  (match sget "offset" (cq_params rq) ≫= py_int with
   | Some offset => Ok (written (list_domains_page 1 None None false 1 offset two).1)
   | None => Err "unexpected request"
   end, w).
Definition two_resources : list DomainResource :=
  ltac:(let r := eval vm_compute in (omap (fun row => match domain_resource two row.1 row.2 with Ok r => Some r | Err _ => None end)
                                       (listed two 1 None None)) in exact r).

Lemma listing_answers : pages_answered listing (fun _ w => w) shop_client (fun a => written (Ok a)) two 1 None None 1.
Proof.
  intros k answer w Ha. exists w. unfold request. cbn [attempts_of shop_client client_max_retries].
  change (Z.to_nat (2 + 1)) with 3%nat. cbn [attempt]. unfold listing at 1. cbn [cq_params].
  change (sget "offset" ([("limit", py_str 1); ("offset", py_str (Z.of_nat k))] ++ given_param "reference" id None
     ++ given_param "status" id (status_text None) ++ [])%list) with (Some (py_str (Z.of_nat k))).
  cbn [mbind option_bind]. rewrite py_int_py_str, Ha.
  assert (api_status answer = 200) as E.
  { unfold list_domains_page in Ha. rewrite bind_run in Ha. cbn [get] in Ha. unfold lift in Ha.
    rewrite bind_run in Ha. destruct (resources two _) as [items|e]; [|discriminate Ha]. injection Ha as <-. reflexivity. }
  cbn [written resp_status]. rewrite E. reflexivity.
Qed.

Lemma two_readable : readable two (listed two 1 None None) two_resources.
Proof.
  unfold readable. match goal with |- Forall2 _ ?l _ => let l' := eval vm_compute in l in change l with l' end.
  repeat apply Forall2_cons_2; try apply Forall2_nil_2; cbn [fst snd]; (split; [vm_compute; reflexivity|]);
    (split; [match goal with |- printable ?p => let p' := eval vm_compute in p in change (printable p') end; plain|]);
    (constructor; [vm_compute; split; discriminate|vm_compute; split; discriminate|exact I|vm_compute|
                   repeat apply Forall_cons_2; try apply Forall_nil_2; split]);
    try exact I; vm_compute; try exact I; split; discriminate.
Qed.

Lemma iteration_lists_every_domain_witness :
  iter_domains listing (fun _ w => w) shop_client 3 None None 1 tt = (views two_resources, Some (Ok tt), tt) /\
  List.length two_resources = 2%nat.
Proof.
  destruct (iteration_lists_every_domain listing (fun _ w => w) shop_client (fun a => written (Ok a)) two 1 None None
              two_resources 1 3 tt) as [[] Hi].
  - split; vm_compute; discriminate.
  - exact listing_answers.
  - intros answer Hp. exact (loads_print false (api_body answer) Hp).
  - exact two_readable.
  - vm_compute. reflexivity.
  - split; [exact Hi|reflexivity].
Defined.
